(* ===== verification/_CoqProject ===== *)
-Q . S2P
Prelude.v
IndexAllocator.v
Hsm.v
HsmLogic.v
MachineFaults.v
AdapterState.v
Bytes.v
CString.v
BtAddr.v
BtUuid.v
AdvData.v
ScanFilter.v
BtHash.v
Hci.v
A2dp.v
A2dpCodec.v
A2dpCodecSpec.v
PowerManager.v
DList.v
BtList.v
CallbacksList.v
Advertising.v
Fallible.v
A2dpService.v
A2dpServiceSpec.v
L2cap.v
L2capLogic.v
L2capSpec.v
ScanManager.v
ServiceManager.v
Bringup.v
ConnectionManager.v
Device.v
RemoteUuids.v
AdapterService.v
AdapterServiceLogic.v
AdapterServiceSpec.v
AdapterServiceStored.v
PeerService.v
MediaSystem.v
Hfp.v
Lea.v
LeaClient.v
LeaServer.v
LeaSpec.v
PtrList.v
GattClient.v
GattClientSpec.v
HfpHf.v
HfpHfSpec.v
HfpHfFaults.v
HfpHfService.v
HfpAg.v
HfpAgSpec.v
HfpAgFaults.v
HfpAgService.v
