(* ===== verification/Prelude.v ===== *)
(** * Verification of the openvela Bluetooth framework: root file

    The program is the Bluetooth service of an embedded system: a daemon with
    one event loop (the service loop) that owns the adapter, the profiles and
    their peers, and the library code it shares with its clients.  Clients
    call it through an IPC; the controller is reached through a stack
    abstraction layer (SAL) over a third-party stack.  Requests, controller
    events and timers all become messages of the service loop, whose handlers
    run one after the other; most of the program's logic is in those handlers
    and the state they share.

    ** How the code is modelled

    A component's state is a record with the fields of its C struct; each C
    function is a definition of the same name.  Handlers that cannot go wrong
    are written in the monad [M] of this file (state, calls made to the
    outside, result); those that follow pointers, index arrays or assert are
    written in [E] of Fallible.v or return an [option]: no result stands for a
    use of memory that is not there or a failed assertion, and the theorems
    say that there is a result, or exactly when there is none.  In the HFP
    machines a failed assertion or a NULL string that is read is an output
    ([assert_failed], [null_string]), which the theorems on the HFP services
    count as a failure.  A timer or an answer of the controller
    carries the pointer to its machine ([sm_ptr]: the number of shutdowns
    before the machine was made, and its place in the list); it fails if that
    machine was freed.  Calls to other components are outputs (the
    constructors of a type [out], named after the function called) in the
    order they are made; what other code answers (a SAL status, an allocated
    block, a timer handle, the clock) is an argument or a field of a record
    [env], arbitrary unless a theorem says otherwise.  Build options are the
    fields of a record [config], arbitrary too.  Words are [Z]s with the
    wrap-around written out ([uint]).  Reachable states are those of an
    inductive step relation ([reachable]), over every order of the
    component's events.

    ** Files, and the sources they model

    - Prelude.v: words, the monad [M], status codes, reachability, tactics.
    - Fallible.v: the monad [E], its weakest preconditions and loop rules.
    - Hsm.v: the state machine engine (framework/common/state_machine.c), over
      a class [StateTable] of machines.
    - AdapterState.v: the adapter's machine (service/src/adapter_state.c) and
      the part of service/src/adapter_service.c and btservice.c around it:
      enable, disable, published state, the message queue.
    - ServiceManager.v: service/profiles/service_manager.c, which starts and
      stops the profiles for the adapter.
    - Bringup.v: the adapter, its message queue and the service manager put
      together.
    - Hci.v: the controller's answers (service/src/hci_parser.c) and the vendor
      commands (service/vendor/bt_vendor.c, bt_vendor_actions.h,
      bt_vendor_bes.h).
    - A2dp.v: the A2DP peer machine (service/profiles/a2dp/a2dp_state_machine.c);
      A2dpService.v, A2dpServiceSpec.v: the two services around it
      (source/a2dp_source_service.c, sink/a2dp_sink_service.c, a2dp_device.c);
      A2dpCodec.v, A2dpCodecSpec.v: the codecs (codec/a2dp_codec_sbc.c,
      codec/a2dp_codec_aac.c, a2dp_codec.c) and how the SBC stream of a source
      packs frames (source/a2dp_source_sbc_stream.c).
    - HsmLogic.v: rules to prove what an event does to a machine's state, its
      fields and what its listeners heard, for any machine of Hsm.v;
      MachineFaults.v: rules to prove on which events a machine makes a call
      that counts as a failure.
    - Hfp.v: constants both HFP roles use; HfpHf.v, HfpHfSpec.v: the hands-free
      machine (service/profiles/hfp_hf/hfp_hf_state_machine.c, hfp_hf_event.c)
      and its theorems; HfpAg.v, HfpAgSpec.v: the audio gateway machine
      (service/profiles/hfp_ag/hfp_ag_state_machine.c, hfp_ag_event.c);
      HfpHfFaults.v and HfpAgFaults.v: the events on which each of them fails
      an assertion or reads a NULL string.
    - Lea.v, LeaClient.v, LeaServer.v, LeaSpec.v: the machines of the LE Audio
      unicast client and server (service/profiles/leaudio/client/
      lea_client_state_machine.c, server/lea_server_state_machine.c) and their
      theorems.
    - PeerService.v: a service with one machine per peer, over any machine;
      HfpHfService.v and HfpAgService.v: its two instances
      (hfp_hf_service.c, hfp_ag_service.c).
    - MediaSystem.v: the volume conversions of
      service/profiles/system/media_system.c.
    - AdapterService.v: service/src/adapter_service.c, the devices and what
      the stack reports of them; AdapterServiceLogic.v: what every handler
      keeps; AdapterServiceSpec.v: bonding and safety; AdapterServiceStored.v:
      what is written to storage and loaded again.  Device.v:
      service/src/device.c; RemoteUuids.v: its stored UUIDs; CString.v: the
      functions of the C library on strings.
    - L2cap.v: service/src/l2cap_service.c; L2capLogic.v: what every operation
      keeps; L2capSpec.v: its theorems.
    - GattClient.v: service/profiles/gatt/gattc_service.c; GattClientSpec.v:
      its theorems; PtrList.v: lists of objects that are known by address.
    - PowerManager.v: service/src/power_manager.c; ConnectionManager.v:
      service/src/connection_manager.c.
    - IndexAllocator.v: service/common/index_allocator.c, offered to clients
      as the class [IdAllocator]; Advertising.v: service/src/advertising.c, a
      client proved against that class.
    - ScanManager.v: service/src/scan_manager.c; ScanFilter.v:
      service/src/scan_record.c and scan_filter.c; AdvData.v:
      framework/common/advertiser_data.c and advertiser_data_helper.c.
    - DList.v: the linked lists of framework/include/list.h on a heap;
      BtList.v: framework/common/bt_list.c above them; CallbacksList.v:
      framework/common/callbacks_list.c and the loops over it.
    - Bytes.v, BtAddr.v, BtUuid.v, BtHash.v: framework/include/bt_utils.h,
      framework/common/bt_addr.c, bt_uuid.c, bt_hash.c and what they use of
      the C library.

    ** What the theorems show

    - State machines (adapter, A2DP, both HFP roles and both sides of LE
      Audio): the adapter's moves exactly as its transition table says and
      gives the commands of the table; every event of the others keeps the
      state or follows one edge; what listeners were told is the state; the
      fields of every reachable machine agree with its state; a start request
      is answered once; power requests are balanced; no timer is cancelled
      more often than it was started; the call list of the hands-free follows
      the phone's.
    - Bring-up: turning Bluetooth on or off brings the adapter and every
      profile there, whatever the order the profiles report in.
    - Adapter service: which operations use a device that is not there, and
      that no other does; the clients hear of exactly the changes of a bond,
      but for six operations that load or empty a list; what is stored of the
      bonded devices, where it can be stored, is what is loaded again; the
      adapter's machine hears of the last link that goes.
    - L2CAP: which segments overrun a buffer, and that nothing else fails; an
      SDU arrives whole and once; which configurations promise the peer more
      than the buffer, and that otherwise it never exceeds the room left;
      identifiers, PSMs and pipes are exclusive.
    - GATT client: which messages use memory that is not there, and that no
      others do; no discovery is lost, repeated or overtaken; what was
      discovered is what is found.
    - A2DP services: which two operations use a device or machine that is not
      there, and that no other does; what the clients were told of a
      connection is what the interface answers (both as long as no start is
      handled while the service runs).
    - A2DP codecs: every configuration is read as the specification has it;
      at most three packets are sent at once, of whole frames, within the
      buffer.
    - HFP services: exactly which messages, calls, questions, timers and
      answers of the controller make one fail (a NULL list, a freed machine, a
      failed assertion, a NULL string), and that there is one sound machine
      per address while it is started.
    - Service manager: the adapter is told exactly once, and last, that all
      profiles of a transport are up or down, in whatever order they report.
    - Power and connection managers: invariants of every reachable state; the
      preferred mode is the strongest among a peer's services; a timer asks
      for sniff mode only if nobody prefers active; reconnection is given up
      after thirty minutes.
    - Allocation and advertising: allocated identifiers are fresh, freed ones
      reusable, the code equals a reference search; the identifiers in use are
      exactly those of the advertisers.
    - Scanning: as long as the stack accepts the starts, no handler uses freed
      memory and the radio scans exactly while someone does; who is
      shown a result; any payload is parsed within its bounds; an advertised UUID is matched by exactly the filters with it.
    - Payloads and text: what is built is within bounds and reads back;
      addresses survive printing and parsing, and exactly their texts are
      parsed; short UUIDs compare as their 128-bit forms; the unrolled hash is the plain one.
    - Lists: the pointer operations refine operations on sequences, for all
      lists of a heap at once.

    Theorems that are not claims document where the code does something else
    than it means to (a start timer left behind, a byte not sent, a freed
    scanner still registered, ...); each stands at the end of its file.

    ** Bounds and fuel

    Loops over a list or a table are structural.  The search of the index
    allocator takes 256 rounds (its cursor is a byte); the parser of scan
    records one round per byte of the payload plus one; the walks of a linked
    list one round more than its length.  The theorems about them prove that
    the loop ends within that fuel, so that running out never happens.

    ** Not modelled

    The SAL and the stacks under it (bindings to third-party code), the IPC
    and the framework API (marshalling), storage, logging and btsnoop (file
    I/O), tools and samples.  Text written to the log is left out everywhere.
    Allocation failures are modelled where the code handles them, but for the
    messages of the service loop, the nodes of lists and the calls, messages
    and machines of HFP, which are taken to be allocated.  The audio
    paths, the float arithmetic of the SBC stream's feeding, the AVRCP and LE
    Audio services, SPP, PAN, HID, channel sounding, the GATT server, the manager
    service and the service loop's own queue are not modelled; PROJECT.json
    lists them. *)

From stdpp Require Export base option list gmap numbers decidable.
From Stdlib Require Export ZArith Lia.

(** ** Machine words

    A C unsigned integer of width [w] is a [Z] in [0, 2^w); the conversions
    the code makes implicitly (assignment to a narrower variable, wrap-around
    of an increment) are written with [uint w]. *)

Declare Scope word_scope.
Delimit Scope word_scope with word.

Definition uint (w : Z) (z : Z) : Z := z mod 2 ^ w.

Abbreviation u8 := (uint 8).
Abbreviation u16 := (uint 16).
Abbreviation u32 := (uint 32).

(** [in_u w z]: [z] is representable at width [w]. *)
Definition in_u (w z : Z) : Prop := (0 <= z < 2 ^ w)%Z.

Notation "x '<<u' n" := (u32 (Z.shiftl x n)) (at level 35) : word_scope.

#[export] Instance in_u_dec w z : Decision (in_u w z).
Proof. unfold in_u. apply _. Defined.

Lemma uint_small w z : in_u w z -> uint w z = z.
Proof. intros H. unfold uint. apply Z.mod_small. exact H. Qed.

Lemma uint_in w z : (0 <= w)%Z -> in_u w (uint w z).
Proof. intros H. unfold uint, in_u. apply Z.mod_pos_bound. lia. Qed.

Lemma uint_idemp w z : (0 <= w)%Z -> uint w (uint w z) = uint w z.
Proof. intros H. apply uint_small, uint_in, H. Qed.

(** ** A monad for handlers: state, and the calls made to the outside

    [M S O A]: code that reads and writes a component state [S], calls out of
    the component (the stack abstraction layer, a callback, a timer, another
    component) and returns an [A].  The calls made are returned in order as a
    list of [O]. *)

Definition M (S O A : Type) : Type := S -> A * S * list O.

Section Monad.
Context {S O : Type}.

Definition mret_ {A} (a : A) : M S O A := fun s => (a, s, []).

Definition mbind_ {A B} (m : M S O A) (f : A -> M S O B) : M S O B :=
  fun s =>
    let '(a, s1, o1) := m s in
    let '(b, s2, o2) := f a s1 in
    (b, s2, o1 ++ o2).

Definition get : M S O S := fun s => (s, s, []).
Definition gets {A} (f : S -> A) : M S O A := fun s => (f s, s, []).
Definition put (s' : S) : M S O unit := fun _ => (tt, s', []).
Definition modify (f : S -> S) : M S O unit := fun s => (tt, f s, []).
Definition emit (o : O) : M S O unit := fun s => (tt, s, [o]).
Definition emits (os : list O) : M S O unit := fun s => (tt, s, os).
Definition when (b : bool) (m : M S O unit) : M S O unit :=
  if b then m else mret_ tt.

(** Sequencing over a list: the [for] loops whose body does not break. *)
Fixpoint mfor {A} (l : list A) (f : A -> M S O unit) : M S O unit :=
  match l with
  | [] => mret_ tt
  | x :: l' => mbind_ (f x) (fun _ => mfor l' f)
  end.

Definition exec {A} (m : M S O A) (s : S) : S := (m s).1.2.
Definition eval {A} (m : M S O A) (s : S) : A := (m s).1.1.
Definition outs {A} (m : M S O A) (s : S) : list O := (m s).2.
End Monad.

Declare Scope bt_scope.
Delimit Scope bt_scope with bt.
Notation "x <- m ;; k" := (mbind_ m (fun x => k))
  (at level 90, m at level 89, right associativity) : bt_scope.
Notation "m ;;; k" := (mbind_ m (fun _ => k))
  (at level 90, right associativity) : bt_scope.

Section MonadLaws.
Context {S O : Type}.

Lemma exec_bind {A B} (m : M S O A) (f : A -> M S O B) s :
  exec (mbind_ m f) s = exec (f (eval m s)) (exec m s).
Proof.
  unfold exec, eval, mbind_. destruct (m s) as [[a s1] o1]; simpl.
  by destruct (f a s1) as [[b s2] o2].
Qed.

Lemma eval_bind {A B} (m : M S O A) (f : A -> M S O B) s :
  eval (mbind_ m f) s = eval (f (eval m s)) (exec m s).
Proof.
  unfold exec, eval, mbind_. destruct (m s) as [[a s1] o1]; simpl.
  by destruct (f a s1) as [[b s2] o2].
Qed.

Lemma outs_bind {A B} (m : M S O A) (f : A -> M S O B) s :
  outs (mbind_ m f) s = outs m s ++ outs (f (eval m s)) (exec m s).
Proof.
  unfold exec, eval, outs, mbind_. destruct (m s) as [[a s1] o1]; simpl.
  by destruct (f a s1) as [[b s2] o2].
Qed.

Lemma exec_ret {A} (a : A) (s : S) : exec (mret_ a : M S O A) s = s.
Proof. done. Qed.

Lemma exec_when (b : bool) (m : M S O unit) s : exec (when b m) s = if b then exec m s else s.
Proof. by destruct b. Qed.

(** An invariant preserved by the body of a loop is preserved by the loop. *)
Lemma mfor_inv {A} (I : S -> Prop) (l : list A) (f : A -> M S O unit) s :
  (forall x s, x ∈ l -> I s -> I (exec (f x) s)) -> I s -> I (exec (mfor l f) s).
Proof.
  revert s. induction l as [|x l IH]; intros s Hf HI; simpl; [done|].
  rewrite exec_bind. apply IH.
  - intros y s' Hy. apply Hf. by right.
  - apply Hf; [by left|done].
Qed.
End MonadLaws.

Create HintDb bt.
Create Rewrite HintDb bt.
#[export] Hint Rewrite @exec_bind @eval_bind @outs_bind : bt.

(** ** Status codes (framework/include/bt_status.h) *)

Inductive bt_status_t :=
| BT_STATUS_SUCCESS | BT_STATUS_FAIL | BT_STATUS_NOT_READY | BT_STATUS_NOMEM
| BT_STATUS_BUSY | BT_STATUS_DONE | BT_STATUS_UNSUPPORTED | BT_STATUS_PARM_INVALID
| BT_STATUS_UNHANDLED | BT_STATUS_NOT_FOUND | BT_STATUS_DEVICE_NOT_FOUND
| BT_STATUS_SERVICE_NOT_FOUND | BT_STATUS_NO_RESOURCES
| BT_STATUS_OTHER (code : Z).

#[export] Instance bt_status_eq_dec : EqDecision bt_status_t.
Proof. solve_decision. Defined.

Definition is_success (s : bt_status_t) : bool := bool_decide (s = BT_STATUS_SUCCESS).

(** [BT_STATUS_NOT_SUPPORTED] is another name of [BT_STATUS_UNSUPPORTED]. *)
Abbreviation BT_STATUS_NOT_SUPPORTED := BT_STATUS_UNSUPPORTED.

(** The link transports. *)
Inductive bt_transport_t := BT_TRANSPORT_BREDR | BT_TRANSPORT_BLE.

#[export] Instance bt_transport_eq_dec : EqDecision bt_transport_t.
Proof. solve_decision. Defined.

(** Handles of the service loop's timers; [None] is the NULL pointer. *)
Abbreviation timer_h := nat.

(** ** Reachability

    The states a step relation reaches from an initial state, and the rule
    that an inductive invariant holds in all of them. *)

Inductive reachable {S : Type} (init : S -> Prop) (step : S -> S -> Prop) : S -> Prop :=
| reach_init s : init s -> reachable init step s
| reach_step s s' : reachable init step s -> step s s' -> reachable init step s'.

Lemma reachable_inv {S} (init : S -> Prop) step (I : S -> Prop) :
  (forall s, init s -> I s) ->
  (forall s s', I s -> step s s' -> I s') ->
  forall s, reachable init step s -> I s.
Proof. intros H0 H1 s Hr. induction Hr; eauto. Qed.

(** ** Tactics *)

(** Split every [match]/[if] of the goal or of hypothesis [H]. *)
Ltac split_all := repeat (case_match; simplify_eq/=).

(** Unfold handlers down to a term that computes, then split its branches. *)
Ltac run_handler := repeat (progress (cbn in *) || case_match || simplify_eq).

(** Close goals about booleans that mirror C comparisons. *)
Ltac bool_lia :=
  repeat match goal with
  | H : (_ <? _)%Z = true |- _ => apply Z.ltb_lt in H
  | H : (_ <? _)%Z = false |- _ => apply Z.ltb_ge in H
  | H : (_ <=? _)%Z = true |- _ => apply Z.leb_le in H
  | H : (_ <=? _)%Z = false |- _ => apply Z.leb_gt in H
  | H : (_ =? _)%Z = true |- _ => apply Z.eqb_eq in H
  | H : (_ =? _)%Z = false |- _ => apply Z.eqb_neq in H
  | H : (_ && _)%bool = true |- _ => apply andb_prop in H; destruct H
  end; try lia.

(** ** Bits of a word *)

#[global] Arguments Z.shiftr : simpl never.
#[global] Arguments Z.shiftl : simpl never.
#[global] Arguments uint : simpl never.

(** A byte put below a shifted value: the bitwise or is a sum. *)
Lemma lor_shiftl_add a b n :
  (0 <= n)%Z -> (0 <= b < 2 ^ n)%Z -> Z.lor (Z.shiftl a n) b = (b + Z.shiftl a n)%Z.
Proof.
  intros Hn Hb.
  assert (Z.land (Z.shiftl a n) b = 0)%Z as Hl.
  { apply Z.bits_inj'. intros i Hi. rewrite Z.land_spec, Z.bits_0.
    destruct (Z.lt_ge_cases i n); [by rewrite Z.shiftl_spec_low|].
    rewrite <- (Z.mod_small b (2 ^ n)) by done.
    rewrite Z.mod_pow2_bits_high by lia. by rewrite andb_false_r. }
  rewrite (Z.add_comm b), Z.add_nocarry_lxor, Z.lxor_lor by done. done.
Qed.

Lemma land_shiftl1_eqb w b :
  (0 <= b)%Z -> (Z.land w (Z.shiftl 1 b) =? 0)%Z = negb (Z.testbit w b).
Proof.
  intros Hb. destruct (Z.testbit w b) eqn:E; simpl.
  - apply Z.eqb_neq. intros H0.
    assert (Z.testbit (Z.land w (Z.shiftl 1 b)) b = false) as H1
      by (by rewrite H0, Z.bits_0).
    rewrite Z.land_spec, E, Z.shiftl_spec, Z.sub_diag in H1 by lia. done.
  - apply Z.eqb_eq, Z.bits_inj'. intros n Hn.
    rewrite Z.bits_0, Z.land_spec, Z.shiftl_1_l.
    destruct (decide (n = b)) as [->|Hne]; [by rewrite E|].
    rewrite Z.pow2_bits_false by lia. by rewrite andb_false_r.
Qed.

(** ** Flag words: test, set and clear the bits of a mask *)

Definition flag_isset_v (p flag : Z) : bool := negb (Z.land p flag =? 0)%Z.
Definition flag_set_v (p flag : Z) : Z := Z.lor p flag.
Definition flag_clear_v (p flag : Z) : Z := Z.land p (Z.lnot flag).

Lemma flag_isset_set p f : f <> 0%Z -> (0 <= p)%Z -> (0 <= f)%Z -> flag_isset_v (flag_set_v p f) f = true.
Proof.
  intros Hf Hp Hf0. unfold flag_isset_v, flag_set_v. apply negb_true_iff, Z.eqb_neq. intros H.
  apply Hf. rewrite <- H. apply Z.bits_inj'. intros n Hn. rewrite Z.land_spec, Z.lor_spec.
  by destruct (Z.testbit p n), (Z.testbit f n).
Qed.

Lemma flag_isset_clear p f : flag_isset_v (flag_clear_v p f) f = false.
Proof.
  unfold flag_isset_v, flag_clear_v. apply negb_false_iff, Z.eqb_eq, Z.bits_inj'.
  intros n Hn. rewrite !Z.land_spec, Z.lnot_spec, Z.bits_0 by done.
  by destruct (Z.testbit p n), (Z.testbit f n).
Qed.

Lemma testbit_set w b n :
  (0 <= b)%Z -> (0 <= n)%Z ->
  Z.testbit (Z.lor w (Z.shiftl 1 b)) n = orb (Z.testbit w n) (bool_decide (n = b)).
Proof.
  intros. rewrite Z.lor_spec, Z.shiftl_1_l. case_bool_decide as E.
  - subst. by rewrite Z.pow2_bits_true.
  - by rewrite Z.pow2_bits_false by lia.
Qed.

Lemma testbit_clear w b n :
  (0 <= b)%Z -> (0 <= n)%Z ->
  Z.testbit (Z.land w (Z.lnot (Z.shiftl 1 b))) n
  = andb (Z.testbit w n) (negb (bool_decide (n = b))).
Proof.
  intros. rewrite Z.land_spec, Z.lnot_spec, Z.shiftl_1_l by lia. case_bool_decide as E.
  - subst. by rewrite Z.pow2_bits_true.
  - by rewrite Z.pow2_bits_false by lia.
Qed.

Lemma in_u_lor w a b : (0 <= w)%Z -> in_u w a -> in_u w b -> in_u w (Z.lor a b).
Proof.
  unfold in_u. intros Hw Ha Hb. split; [apply Z.lor_nonneg; lia|].
  destruct (decide (a = 0%Z)) as [->|]; [rewrite Z.lor_0_l; lia|].
  destruct (decide (b = 0%Z)) as [->|]; [rewrite Z.lor_0_r; lia|].
  assert (0 < Z.lor a b)%Z.
  { assert (0 <= Z.lor a b)%Z by (apply Z.lor_nonneg; lia).
    assert (Z.lor a b <> 0)%Z by (rewrite Z.lor_eq_0_iff; lia). lia. }
  apply Z.log2_lt_pow2; [done|]. rewrite Z.log2_lor by lia.
  assert (Z.log2 a < w)%Z by (rewrite <- Z.log2_lt_pow2; lia).
  assert (Z.log2 b < w)%Z by (rewrite <- Z.log2_lt_pow2; lia). lia.
Qed.

Lemma in_u_shiftl1 w b : (0 <= b < w)%Z -> in_u w (Z.shiftl 1 b).
Proof.
  intros. unfold in_u. rewrite Z.shiftl_1_l. split; [lia|].
  apply Z.pow_lt_mono_r; lia.
Qed.

Lemma in_u_land_l w a b : (0 <= w)%Z -> in_u w a -> in_u w (Z.land a b).
Proof.
  intros Hw [H0 H1]. assert (0 <= Z.land a b)%Z as H2 by (apply Z.land_nonneg; lia).
  split; [done|]. destruct (decide (Z.land a b = 0)%Z) as [->|]; [lia|].
  apply Z.log2_lt_pow2; [lia|].
  destruct (decide (a = 0%Z)) as [->|]; [by rewrite Z.land_0_l in *|].
  apply Z.le_lt_trans with (Z.log2 a); [|rewrite <- Z.log2_lt_pow2; lia].
  apply Z.log2_le_mono.
  destruct (Z.le_gt_cases (Z.land a b) a); [done|exfalso].
  assert (Z.ldiff (Z.land a b) a = 0)%Z as Hd.
  { apply Z.bits_inj'. intros k Hk. rewrite Z.ldiff_spec, Z.land_spec, Z.bits_0.
    by destruct (Z.testbit a k), (Z.testbit b k). }
  apply Z.ldiff_le in Hd; lia.
Qed.

(** ** Lists *)

(** Two elements of a list with the same value of a function that tells its
    elements apart are one. *)
Lemma NoDup_fmap_eq {A B} (f : A -> B) (l : list A) x y : NoDup (f <$> l) -> x ∈ l -> y ∈ l -> f x = f y -> x = y.
Proof.
  induction l as [|z l IH]; intros Hnd Hx Hy E; [by apply not_elem_of_nil in Hx|]. apply list.NoDup_cons in Hnd as [Hz Hnd].
  apply elem_of_cons in Hx as [->|Hx], Hy as [->|Hy]; try done; [| |by apply IH]; destruct Hz; [rewrite E|rewrite <- E]; by apply list_elem_of_fmap_2.
Qed.
