(* ===== verification/IndexAllocator.v ===== *)
(** * The index allocator (service/common/index_allocator.c)

    A bitmap allocator of small identifiers: one bit per identifier in an
    array of 32-bit words, and a cursor where the next search starts.  It
    gives out the identifiers of advertisers, client instances, L2CAP
    channels and SPP connections.  The abstract specification is a set of
    identifiers in use ([IdAllocator]); [index_allocator_id_allocator] shows
    the bitmap implements it. *)

From S2P Require Import Prelude.

Local Open Scope Z_scope.

Module IndexAllocator.

(** ** State *)

Record index_allocator_t := mk_allocator {
  id_max : Z;         (* uint32_t *)
  id_next : Z;        (* uint8_t *)
  id_map : list Z;    (* uint32_t[] *)
}.

Definition set_next (al : index_allocator_t) (n : Z) : index_allocator_t :=
  mk_allocator al.(id_max) (u8 n) al.(id_map).

Definition set_map (al : index_allocator_t) (m : list Z) : index_allocator_t :=
  mk_allocator al.(id_max) al.(id_next) m.

(** ** Operations *)

Definition index_allocator_create (max : Z) : index_allocator_t :=
  let num_index := u8 (max / 32 + 1) in
  mk_allocator (u32 max) 0 (replicate (Z.to_nat num_index) 0).

(** One word of the bitmap; [None] is an access outside the array. *)
Definition word (al : index_allocator_t) (index : Z) : option Z :=
  al.(id_map) !! Z.to_nat index.

(** The cursor step at the head of the loop body. *)
Definition advance (al : index_allocator_t) : index_allocator_t :=
  if al.(id_max) <=? al.(id_next)
  then set_next al 0
  else set_next al (al.(id_next) + 1).

(** The [do ... while] loop of [index_alloc].  [None]: an access outside the
    array, or the fuel ran out. *)
Fixpoint index_alloc_loop (fuel : nat) (start : Z) (al : index_allocator_t)
    : option (Z * index_allocator_t) :=
  match fuel with
  | O => None
  | S fuel' =>
      let minor := al.(id_next) in
      let al := advance al in
      let index := Z.shiftr minor 5 in
      let bitno := Z.land minor 31 in
      w ← word al index;
      if Z.land w (Z.shiftl 1 bitno) =? 0
      then Some (minor, set_map al (<[Z.to_nat index := Z.lor w (Z.shiftl 1 bitno)]> al.(id_map)))
      else if al.(id_next) =? start
      then Some (-1, al)
      else index_alloc_loop fuel' start al
  end.

(** 256 rounds: the cursor is a [uint8_t], so it takes at most 256 values. *)
Definition alloc_fuel : nat := 256.

Definition index_alloc (al : index_allocator_t) : option (Z * index_allocator_t) :=
  index_alloc_loop alloc_fuel al.(id_next) al.

(** [None]: an access outside the array, or the [assert] fails. *)
Definition index_free (al : index_allocator_t) (id : Z) : option index_allocator_t :=
  let index := Z.shiftr id 5 in
  let bitno := Z.land id 31 in
  w ← word al index;
  if Z.land w (Z.shiftl 1 bitno) =? 0 then None
  else
    let al := set_map al (<[Z.to_nat index := Z.land w (Z.lnot (Z.shiftl 1 bitno))]> al.(id_map)) in
    Some (if id <? al.(id_next) then set_next al id else al).

(** ** Well-formedness and the set of identifiers in use *)

Definition used (al : index_allocator_t) (i : Z) : bool :=
  (0 <=? i) &&
  match word al (i / 32) with
  | Some w => Z.testbit w (i mod 32)
  | None => false
  end.

Record wf (al : index_allocator_t) : Prop := {
  wf_max : 0 <= al.(id_max) <= 255;
  wf_next : 0 <= al.(id_next) <= al.(id_max);
  wf_len : Z.of_nat (length al.(id_map)) = al.(id_max) / 32 + 1;
  wf_words : Forall (in_u 32) al.(id_map);
  wf_range : forall i, used al i = true -> 0 <= i <= al.(id_max);
}.

(** The bit of [i] set. *)
Definition mark (al : index_allocator_t) (i : Z) : index_allocator_t :=
  match word al (i / 32) with
  | Some w => set_map al (<[Z.to_nat (i / 32) := Z.lor w (Z.shiftl 1 (i mod 32))]> al.(id_map))
  | None => al
  end.

(** The bit of [i] cleared. *)
Definition unmark (al : index_allocator_t) (i : Z) : index_allocator_t :=
  match word al (i / 32) with
  | Some w =>
      set_map al (<[Z.to_nat (i / 32) := Z.land w (Z.lnot (Z.shiftl 1 (i mod 32)))]> al.(id_map))
  | None => al
  end.

(** The identifiers in the order the search visits them: from the cursor,
    around the end of the range. *)
Definition candidates (al : index_allocator_t) : list Z :=
  (fun k => (al.(id_next) + k) mod (al.(id_max) + 1)) <$> seqZ 0 (al.(id_max) + 1).

(** Reference definition: the first identifier not in use, in that order. *)
Definition first_free (al : index_allocator_t) : option Z :=
  find (fun i => negb (used al i)) (candidates al).

Lemma minor_split m :
  0 <= m -> Z.shiftr m 5 = m / 32 /\ Z.land m 31 = m mod 32.
Proof.
  intros H. split.
  - rewrite Z.shiftr_div_pow2 by lia. done.
  - change 31 with (Z.ones 5). rewrite Z.land_ones by lia. done.
Qed.

Lemma word_some al m :
  wf al -> 0 <= m <= al.(id_max) -> exists w, word al (m / 32) = Some w /\ in_u 32 w.
Proof.
  intros [Hm Hn Hl Hw _] H. unfold word.
  assert (m / 32 <= id_max al / 32) by (apply Z.div_le_mono; lia).
  assert (0 <= m / 32) by (apply Z.div_pos; lia).
  destruct (lookup_lt_is_Some_2 al.(id_map) (Z.to_nat (m / 32))) as [w E]; [lia|].
  exists w. split; [done|]. by eapply Forall_lookup_1.
Qed.

Lemma word_update al m w' i :
  0 <= m -> 0 <= i -> is_Some (word al (m / 32)) ->
  word (set_map al (<[Z.to_nat (m / 32) := w']> al.(id_map))) (i / 32)
  = if decide (i / 32 = m / 32) then Some w' else word al (i / 32).
Proof.
  intros Hm Hi [w Hw]. unfold word in *; simpl.
  assert (0 <= m / 32) by (apply Z.div_pos; lia).
  assert (0 <= i / 32) by (apply Z.div_pos; lia).
  case_decide as E.
  - rewrite E. apply list_lookup_insert_eq. by eapply lookup_lt_Some.
  - apply list_lookup_insert_ne. lia.
Qed.

(** Changing one bit of the word of [m] changes the status of [m] only. *)
Lemma used_update al m w w' i :
  0 <= m -> word al (m / 32) = Some w ->
  (forall b, 0 <= b -> b <> m mod 32 -> Z.testbit w' b = Z.testbit w b) ->
  used (set_map al (<[Z.to_nat (m / 32) := w']> al.(id_map))) i
  = if decide (i = m) then Z.testbit w' (m mod 32) else used al i.
Proof.
  intros Hm Hw Hb. unfold used.
  destruct (Z.leb_spec 0 i); simpl; [|case_decide; [lia|done]].
  rewrite word_update by eauto.
  pose proof (Z.div_mod i 32). pose proof (Z.div_mod m 32).
  pose proof (Z.mod_pos_bound i 32).
  destruct (decide (i / 32 = m / 32)) as [Eq|]; case_decide; subst; try done.
  rewrite Eq, Hw. apply Hb; lia.
Qed.

Lemma used_mark al m i :
  0 <= m -> is_Some (word al (m / 32)) ->
  used (mark al m) i = bool_decide (i = m) || used al i.
Proof.
  intros Hm [w Hw]. unfold mark. rewrite Hw.
  pose proof (Z.mod_pos_bound m 32).
  rewrite (used_update al m w) by
    (done || (intros; rewrite testbit_set by lia; rewrite bool_decide_eq_false_2 by done;
              by rewrite orb_false_r)).
  rewrite testbit_set by lia. rewrite bool_decide_eq_true_2 by done. rewrite orb_true_r.
  case_decide; case_bool_decide; done.
Qed.

Lemma used_unmark al m i :
  0 <= m -> is_Some (word al (m / 32)) ->
  used (unmark al m) i = negb (bool_decide (i = m)) && used al i.
Proof.
  intros Hm [w Hw]. unfold unmark. rewrite Hw.
  pose proof (Z.mod_pos_bound m 32).
  rewrite (used_update al m w) by
    (done || (intros; rewrite testbit_clear by lia; rewrite bool_decide_eq_false_2 by done;
              by rewrite andb_true_r)).
  rewrite testbit_clear by lia. rewrite bool_decide_eq_true_2 by done. rewrite andb_false_r.
  case_decide; case_bool_decide; done.
Qed.

Lemma used_bit al m w :
  0 <= m -> word al (m / 32) = Some w ->
  (Z.land w (Z.shiftl 1 (m mod 32)) =? 0) = negb (used al m).
Proof.
  intros Hm Hw. pose proof (Z.mod_pos_bound m 32).
  rewrite land_shiftl1_eqb by lia. unfold used. rewrite Hw.
  by destruct (Z.leb_spec 0 m); [|lia].
Qed.

Lemma used_set_next al n i : used (set_next al n) i = used al i.
Proof. done. Qed.

(** ** Preservation of well-formedness *)

Lemma wf_set_next al n : wf al -> 0 <= n <= al.(id_max) -> wf (set_next al n).
Proof.
  intros [Hm Hn Hl Hw Hr] H. split; simpl; try done.
  rewrite uint_small; [done|]. unfold in_u. lia.
Qed.

Lemma wf_set_word al m w' :
  wf al -> 0 <= m <= al.(id_max) -> in_u 32 w' ->
  (forall i, used (set_map al (<[Z.to_nat (m / 32) := w']> al.(id_map))) i = true ->
     0 <= i <= al.(id_max)) ->
  wf (set_map al (<[Z.to_nat (m / 32) := w']> al.(id_map))).
Proof.
  intros [Hm Hn Hl Hw Hr] H Hin Hu. split; simpl; try done.
  - by rewrite length_insert.
  - by apply Forall_insert.
Qed.

Lemma wf_mark al m : wf al -> 0 <= m <= al.(id_max) -> wf (mark al m).
Proof.
  intros Hwf Hm. destruct (word_some al m) as (w & Hw & Hin); [done..|].
  pose proof (Z.mod_pos_bound m 32).
  pose proof (used_mark al m) as Hu. unfold mark in *. rewrite Hw in *.
  apply wf_set_word; [done..| |].
  - apply in_u_lor; [lia|done|]. apply in_u_shiftl1; lia.
  - intros i. rewrite Hu by (done || lia || eauto).
    case_bool_decide; simpl; [subst; lia|]. apply wf_range; done.
Qed.

Lemma wf_unmark al m : wf al -> 0 <= m <= al.(id_max) -> wf (unmark al m).
Proof.
  intros Hwf Hm. destruct (word_some al m) as (w & Hw & Hin); [done..|].
  pose proof (used_unmark al m) as Hu. unfold unmark in *. rewrite Hw in *.
  apply wf_set_word; [done..| |].
  - apply in_u_land_l; [lia|done].
  - intros i. rewrite Hu by (done || lia || eauto).
    case_bool_decide; simpl; [done|]. apply wf_range; done.
Qed.

Lemma wf_create max : 0 <= max <= 255 -> wf (index_allocator_create max).
Proof.
  intros H. unfold index_allocator_create.
  assert (0 <= max / 32 <= 7).
  { split; [apply Z.div_pos; lia|]. change 7 with (255 / 32). apply Z.div_le_mono; lia. }
  rewrite !uint_small by (unfold in_u; lia).
  split; simpl; try lia.
  - rewrite length_replicate. lia.
  - apply Forall_replicate. unfold in_u. lia.
  - intros i. unfold used, word; simpl.
    destruct (replicate _ _ !! _) as [w|] eqn:E; [|by rewrite andb_false_r].
    apply lookup_replicate in E as [-> _]. by rewrite Z.testbit_0_l, andb_false_r.
Qed.

(** ** The search loop equals the reference search *)

Definition candidates_from (al : index_allocator_t) (k : Z) : list Z :=
  (fun j => (al.(id_next) + j) mod (al.(id_max) + 1)) <$> seqZ k (al.(id_max) + 1 - k).

Lemma candidates_from_cons al k :
  k <= al.(id_max) ->
  candidates_from al k = (al.(id_next) + k) mod (al.(id_max) + 1) :: candidates_from al (k + 1).
Proof.
  intros H. unfold candidates_from.
  rewrite (seqZ_cons k) by lia. simpl. unfold Z.succ.
  f_equal. by replace (Z.pred (id_max al + 1 - k)) with (id_max al + 1 - (k + 1)) by lia.
Qed.

Lemma advance_next al c :
  wf al -> 0 <= c <= al.(id_max) ->
  advance (set_next al c) = set_next al ((c + 1) mod (al.(id_max) + 1)).
Proof.
  intros [Hm Hn _ _ _] H. unfold advance. simpl.
  rewrite (uint_small 8 c) by (unfold in_u; lia).
  destruct (Z.leb_spec (id_max al) c).
  - replace c with (id_max al) by lia. by rewrite Z.mod_same by lia.
  - by rewrite Z.mod_small by lia.
Qed.

Lemma set_next_id al : wf al -> set_next al al.(id_next) = al.
Proof.
  intros [Hm Hn _ _ _]. destruct al as [mx nx mp]; unfold set_next; simpl in *.
  by rewrite uint_small by (unfold in_u; lia).
Qed.

(** What the search returns when it stops at [r], or finds nothing. *)
Definition alloc_result (al : index_allocator_t) (r : option Z) : Z * index_allocator_t :=
  match r with
  | Some r => (r, mark (set_next al ((r + 1) mod (al.(id_max) + 1))) r)
  | None => (-1, al)
  end.

Lemma index_alloc_loop_ref al fuel k :
  wf al -> 0 <= k <= al.(id_max) -> al.(id_max) + 1 - k <= Z.of_nat fuel ->
  index_alloc_loop fuel al.(id_next)
    (set_next al ((al.(id_next) + k) mod (al.(id_max) + 1)))
  = Some (alloc_result al (find (fun i => negb (used al i)) (candidates_from al k))).
Proof.
  intros Hwf. pose proof Hwf as [Hm Hn _ _ _].
  revert k. induction fuel as [|fuel IH]; intros k Hk Hf; [lia|].
  rewrite candidates_from_cons by lia. simpl.
  set (c := (id_next al + k) mod (id_max al + 1)).
  assert (0 <= c <= id_max al) as Hc.
  { pose proof (Z.mod_pos_bound (id_next al + k) (id_max al + 1)). lia. }
  rewrite (uint_small 8 c) by (unfold in_u; lia).
  destruct (minor_split c) as [-> ->]; [lia|].
  rewrite advance_next by done.
  destruct (word_some al c) as (w & Hw & _); [done..|].
  assert (word (set_next al ((c + 1) mod (id_max al + 1))) (c / 32) = Some w) as Hw' by done.
  rewrite Hw'. simpl. rewrite (used_bit al) by (done || lia).
  destruct (used al c) eqn:Eu; simpl.
  - assert ((c + 1) mod (id_max al + 1) = (id_next al + (k + 1)) mod (id_max al + 1)) as Ec.
    { unfold c. rewrite Zplus_mod_idemp_l. f_equal; lia. }
    rewrite Ec.
    rewrite (uint_small 8) by (unfold in_u;
      pose proof (Z.mod_pos_bound (id_next al + (k + 1)) (id_max al + 1)); lia).
    destruct (decide (k = id_max al)) as [->|Hne].
    + assert ((id_next al + (id_max al + 1)) mod (id_max al + 1) = id_next al) as ->.
      { rewrite <- Z.add_mod_idemp_r by lia. rewrite Z.mod_same by lia.
        rewrite Z.add_0_r. apply Z.mod_small. lia. }
      rewrite Z.eqb_refl. unfold candidates_from.
      replace (id_max al + 1 - (id_max al + 1)) with 0 by lia. simpl.
      by rewrite set_next_id.
    + destruct (Z.eqb_spec ((id_next al + (k + 1)) mod (id_max al + 1)) (id_next al)) as [E|E].
      * exfalso.
        assert (id_max al + 1 <> 0) as Hnz by lia.
        pose proof (Z.div_mod (id_next al + (k + 1)) (id_max al + 1) Hnz) as D.
        rewrite E in D. set (q := (id_next al + (k + 1)) / (id_max al + 1)) in *.
        assert (0 < q) by nia. nia.
      * apply IH; lia.
  - unfold mark. by rewrite Hw'.
Qed.

Lemma index_alloc_ref al :
  wf al -> index_alloc al = Some (alloc_result al (first_free al)).
Proof.
  intros Hwf. pose proof Hwf as [Hm Hn _ _ _].
  pose proof (index_alloc_loop_ref al alloc_fuel 0) as H.
  rewrite Z.add_0_r, Z.mod_small, set_next_id in H by (done || lia).
  unfold index_alloc, first_free. rewrite H; [|done|lia|unfold alloc_fuel; lia].
  unfold candidates_from, candidates. by rewrite Z.sub_0_r.
Qed.

Lemma elem_of_candidates al i : wf al -> i ∈ candidates al <-> 0 <= i <= al.(id_max).
Proof.
  intros [Hm Hn _ _ _]. unfold candidates. rewrite list_elem_of_fmap. split.
  - intros (k & -> & _). pose proof (Z.mod_pos_bound (id_next al + k) (id_max al + 1)). lia.
  - intros H. exists ((i - id_next al) mod (id_max al + 1)). split.
    + rewrite Zplus_mod_idemp_r. rewrite Z.mod_small by lia. lia.
    + apply elem_of_seqZ. pose proof (Z.mod_pos_bound (i - id_next al) (id_max al + 1)). lia.
Qed.

Lemma first_free_Some al r :
  wf al -> first_free al = Some r -> 0 <= r <= al.(id_max) /\ used al r = false.
Proof.
  intros Hwf H. apply find_some in H as [Hin Hu].
  rewrite <- list_elem_of_In, elem_of_candidates in Hin by done.
  split; [done|]. by destruct (used al r).
Qed.

Lemma first_free_None al :
  wf al -> first_free al = None <-> forall i, 0 <= i <= al.(id_max) -> used al i = true.
Proof.
  intros Hwf. split.
  - intros H i Hi. pose proof (find_none _ _ H i) as Hf.
    rewrite <- list_elem_of_In, elem_of_candidates in Hf by done.
    specialize (Hf Hi). by destruct (used al i).
  - intros H. destruct (first_free al) as [r|] eqn:E; [|done].
    apply first_free_Some in E as [Hr Hu]; [|done]. by rewrite H in Hu.
Qed.

Lemma word_set_next al n i : word (set_next al n) i = word al i.
Proof. done. Qed.

Lemma alloc_result_wf al r :
  wf al -> first_free al = Some r -> wf (alloc_result al (Some r)).2.
Proof.
  intros Hwf Hr. apply first_free_Some in Hr as [Hr _]; [|done]. simpl.
  pose proof (wf_max al Hwf).
  apply wf_mark; [|done].
  apply wf_set_next; [done|].
  pose proof (Z.mod_pos_bound (r + 1) (id_max al + 1)). lia.
Qed.

Lemma alloc_result_used al r i :
  wf al -> first_free al = Some r ->
  used (alloc_result al (Some r)).2 i = bool_decide (i = r) || used al i.
Proof.
  intros Hwf Hr. apply first_free_Some in Hr as [Hr _]; [|done]. simpl.
  rewrite used_mark; [by rewrite used_set_next|lia|].
  rewrite word_set_next. destruct (word_some al r) as (w & Hw & _); [done..|]. by eexists.
Qed.

(** What freeing [id] leaves: its bit cleared, the cursor moved back to it. *)
Definition free_result (al : index_allocator_t) (id : Z) : index_allocator_t :=
  if id <? al.(id_next) then set_next (unmark al id) id else unmark al id.

Lemma index_free_ref al id :
  wf al -> used al id = true -> index_free al id = Some (free_result al id).
Proof.
  intros Hwf Hu. pose proof (wf_range al Hwf _ Hu) as Hr.
  unfold index_free. destruct (minor_split id) as [-> ->]; [lia|].
  destruct (word_some al id) as (w & Hw & _); [done..|]. rewrite Hw. simpl.
  rewrite (used_bit al) by (done || lia). rewrite Hu. simpl. unfold free_result, unmark. by rewrite Hw.
Qed.

Lemma index_free_wf al id al' :
  wf al -> used al id = true -> index_free al id = Some al' -> wf al'.
Proof.
  intros Hwf Hu. rewrite index_free_ref by done. intros [= <-].
  pose proof (wf_range al Hwf _ Hu) as Hr.
  pose proof (wf_unmark al id Hwf Hr) as Hwf'.
  unfold free_result. case_match; [|done]. apply wf_set_next; [done|].
  unfold unmark. case_match; simpl; lia.
Qed.

Lemma index_free_used al id al' i :
  wf al -> used al id = true -> index_free al id = Some al' ->
  used al' i = negb (bool_decide (i = id)) && used al i.
Proof.
  intros Hwf Hu. rewrite index_free_ref by done. intros [= <-].
  pose proof (wf_range al Hwf _ Hu) as Hr.
  destruct (word_some al id) as (w & Hw & _); [done..|].
  unfold free_result. case_match; rewrite ?used_set_next; apply used_unmark; (lia || by eexists).
Qed.

(** An identifier that is not in use cannot be freed: the [assert] fails. *)
Lemma index_free_unused al id :
  wf al -> 0 <= id -> used al id = false -> index_free al id = None.
Proof.
  intros Hwf H0 Hu. unfold index_free. destruct (minor_split id) as [-> ->]; [lia|].
  destruct (word al (id / 32)) as [w|] eqn:Hw; simpl; [|done].
  rewrite (used_bit al) by (done || lia). by rewrite Hu.
Qed.

(** ** Successive allocations *)

(** The identifiers [n] successive calls return, with the final state. *)
Fixpoint alloc_n (n : nat) (al : index_allocator_t) : option (list Z * index_allocator_t) :=
  match n with
  | O => Some ([], al)
  | S n' =>
      '(r, al1) ← index_alloc al;
      '(rs, al2) ← alloc_n n' al1;
      Some (r :: rs, al2)
  end.

(** The allocator after [k] allocations and no free. *)
Definition filled (max k : Z) (al : index_allocator_t) : Prop :=
  wf al /\ al.(id_max) = max /\ al.(id_next) = k mod (max + 1) /\
  forall i, used al i = bool_decide (0 <= i < k).

Lemma filled_create max : 0 <= max <= 255 -> filled max 0 (index_allocator_create max).
Proof.
  intros H. split; [by apply wf_create|]. simpl.
  rewrite uint_small by (unfold in_u; lia).
  split; [done|]. split; [by rewrite Z.mod_0_l by lia|].
  intros i. rewrite bool_decide_eq_false_2 by lia. unfold used, word; simpl.
  destruct (replicate _ _ !! _) as [w|] eqn:E; [|by rewrite andb_false_r].
  apply lookup_replicate in E as [-> _]. by rewrite Z.testbit_0_l, andb_false_r.
Qed.

Lemma filled_first_free max k al :
  filled max k al -> 0 <= k <= max -> first_free al = Some k.
Proof.
  intros (Hwf & Hm & Hn & Hu) Hk. unfold first_free, candidates.
  rewrite Hm. rewrite seqZ_cons by lia. simpl.
  rewrite Hn, Z.add_0_r, Z.mod_mod, (Z.mod_small k) by lia.
  by rewrite Hu, bool_decide_eq_false_2 by lia.
Qed.

Lemma filled_step max k al :
  filled max k al -> 0 <= k <= max ->
  exists al', index_alloc al = Some (k, al') /\ filled max (k + 1) al'.
Proof.
  intros Hf Hk. pose proof (filled_first_free _ _ _ Hf Hk) as Hff.
  destruct Hf as (Hwf & Hm & Hn & Hu).
  rewrite index_alloc_ref, Hff by done.
  eexists. split; [done|]. split; [by apply (alloc_result_wf al k)|].
  assert (id_max (alloc_result al (Some k)).2 = max /\
          id_next (alloc_result al (Some k)).2 = (k + 1) mod (max + 1)) as [Hm' Hn'].
  { simpl. unfold mark. rewrite <- Hm. pose proof (wf_max al Hwf).
    pose proof (Z.mod_pos_bound (k + 1) (id_max al + 1)).
    case_match; simpl; (split; [done|]); apply uint_small; unfold in_u; lia. }
  split; [done|]. split; [done|].
  intros i. rewrite (alloc_result_used al k) by done. rewrite Hu.
  repeat case_bool_decide; simpl; try done; lia.
Qed.

Lemma filled_full max al :
  filled max (max + 1) al -> index_alloc al = Some (-1, al).
Proof.
  intros (Hwf & Hm & Hn & Hu). rewrite index_alloc_ref by done.
  replace (first_free al) with (@None Z); [done|].
  symmetry. apply first_free_None; [done|].
  intros i Hi. rewrite Hu, bool_decide_eq_true_2; [done|lia].
Qed.

Lemma alloc_n_filled n max k al :
  filled max k al -> 0 <= k -> k + Z.of_nat n <= max + 1 ->
  exists al', alloc_n n al = Some (seqZ k (Z.of_nat n), al') /\ filled max (k + Z.of_nat n) al'.
Proof.
  revert k al. induction n as [|n IH]; intros k al Hf Hk Hn.
  - exists al. rewrite Z.add_0_r. done.
  - destruct (filled_step max k al) as (al1 & E1 & Hf1); [done|lia|].
    destruct (IH (k + 1) al1) as (al2 & E2 & Hf2); [done|lia|lia|].
    exists al2. rewrite Nat2Z.inj_succ. simpl. rewrite E1. simpl. rewrite E2. simpl. split.
    + rewrite (seqZ_cons k) by lia. do 2 f_equal. by rewrite Z.pred_succ.
    + replace (k + Z.succ (Z.of_nat n)) with (k + 1 + Z.of_nat n) by lia. done.
Qed.

(** ** Claims *)

(** C35: On every well-formed allocator [index_alloc] terminates without
    leaving the bitmap and returns exactly what the reference search
    returns: the first identifier not in use counting from the cursor around
    the range, with its bit set and the cursor one past it; or -1 with the
    allocator unchanged, when there is none. *)
Theorem index_alloc_equiv_reference (al : index_allocator_t) :
  wf al ->
  index_alloc al = Some (alloc_result al (first_free al)) /\
  wf (alloc_result al (first_free al)).2.
Proof.
  intros Hwf. split; [by apply index_alloc_ref|].
  destruct (first_free al) as [r|] eqn:E; [|done]. by apply alloc_result_wf.
Qed.

Lemma index_alloc_equiv_reference_witness :
  wf (index_allocator_create 2) /\
  index_alloc (index_allocator_create 2) = Some (0, mk_allocator 2 1 [1]).
Proof.
  assert (wf (index_allocator_create 2)) as H by (apply wf_create; lia).
  split; [exact H|].
  exact (eq_trans (proj1 (index_alloc_equiv_reference _ H)) eq_refl).
Defined.

(** An identifier [index_alloc] returns was not in use, lies in
    [0, id_max] and is in use afterwards, every other identifier keeps its
    status; -1 is returned exactly when all of [0, id_max] is in use. *)
Theorem index_alloc_fresh (al al' : index_allocator_t) (r : Z) :
  wf al -> index_alloc al = Some (r, al') ->
  wf al' /\
  (r = -1 <-> forall i, 0 <= i <= al.(id_max) -> used al i = true) /\
  (r <> -1 -> 0 <= r <= al.(id_max) /\ used al r = false) /\
  (forall i, used al' i = bool_decide (r <> -1 /\ i = r) || used al i).
Proof.
  intros Hwf. rewrite index_alloc_ref by done. intros [= E].
  destruct (first_free al) as [x|] eqn:Eff.
  - pose proof (alloc_result_wf al x Hwf Eff) as Hw.
    pose proof (fun i => alloc_result_used al x i Hwf Eff) as Hu.
    pose proof (first_free_Some al x Hwf Eff) as [Hr Hfree].
    rewrite E in Hw, Hu. simpl in E. injection E as -> _. simpl in *.
    split; [done|]. split; [|split].
    + split; [lia|]. intros Hall. by rewrite Hall in Hfree.
    + done.
    + intros i. rewrite Hu. f_equal. apply bool_decide_ext. split; [|tauto]. intros ->. split; [lia|done].
  - injection E as <- <-. split; [done|]. split; [|split].
    + rewrite <- first_free_None by done. done.
    + done.
    + intros i. rewrite bool_decide_eq_false_2; [done|]. by intros [? _].
Qed.

Lemma index_alloc_fresh_witness :
  wf (mk_allocator 2 1 [1]) /\ used (mk_allocator 2 1 [1]) 0 = true.
Proof.
  assert (wf (index_allocator_create 2)) as H by (apply wf_create; lia).
  destruct (index_alloc_fresh (index_allocator_create 2) (mk_allocator 2 1 [1]) 0 H)
    as (Hwf & _ & _ & Hu); [vm_compute; reflexivity|].
  split; [exact Hwf|]. exact (Hu 0).
Defined.

(** Freeing an identifier in use succeeds, clears it alone and keeps the
    allocator well-formed, and the next [index_alloc] then finds a free
    identifier; freeing one that is not in use fails the assertion. *)
Theorem index_free_correct (al : index_allocator_t) (id : Z) :
  wf al -> 0 <= id ->
  if used al id then
    exists al', index_free al id = Some al' /\ wf al' /\
      (forall i, used al' i = negb (bool_decide (i = id)) && used al i) /\
      exists r al'', index_alloc al' = Some (r, al'') /\ 0 <= r <= al.(id_max)
  else index_free al id = None.
Proof.
  intros Hwf H0. destruct (used al id) eqn:Hu; [|by apply index_free_unused].
  pose proof (index_free_ref al id Hwf Hu) as E.
  pose proof (index_free_wf al id _ Hwf Hu E) as Hwf'.
  pose proof (fun i => index_free_used al id _ i Hwf Hu E) as Hu'.
  pose proof (wf_range al Hwf _ Hu) as Hr.
  set (al' := free_result al id) in *.
  assert (id_max al' = id_max al) as Hmax.
  { unfold al', free_result, unmark. repeat case_match; done. }
  exists al'. split; [done|]. split; [done|]. split; [done|].
  destruct (first_free al') as [r|] eqn:Eff.
  - pose proof (first_free_Some al' r Hwf' Eff) as [Hr' _].
    exists r. eexists. rewrite index_alloc_ref, Eff by done. split; [done|lia].
  - rewrite first_free_None in Eff by done. specialize (Eff id).
    rewrite Hu', bool_decide_eq_true_2 in Eff by done. simpl in Eff.
    discriminate Eff. lia.
Qed.

Lemma index_free_correct_witness :
  wf (index_allocator_create 2) /\ index_free (index_allocator_create 2) 0 = None.
Proof.
  assert (wf (index_allocator_create 2)) as H by (apply wf_create; lia).
  split; [exact H|].
  exact (index_free_correct (index_allocator_create 2) 0 H (Z.le_refl 0)).
Defined.

(** An allocator created with [max] (at most 255) hands out the
    identifiers 0, 1, ..., [max] in order, [max + 1] of them, and then
    returns -1: its capacity is one more than the number it is created with. *)
Theorem index_allocator_capacity (max : Z) :
  0 <= max <= 255 ->
  exists al, alloc_n (Z.to_nat (max + 1)) (index_allocator_create max)
             = Some (seqZ 0 (max + 1), al) /\
             index_alloc al = Some (-1, al).
Proof.
  intros H.
  destruct (alloc_n_filled (Z.to_nat (max + 1)) max 0 (index_allocator_create max))
    as (al & E & Hf); [by apply filled_create|lia|lia|].
  exists al. rewrite Z2Nat.id in E, Hf by lia. split; [done|]. by apply (filled_full max).
Qed.

Lemma index_allocator_capacity_witness :
  exists al, alloc_n 3 (index_allocator_create 2) = Some ([0; 1; 2], al) /\
             index_alloc al = Some (-1, al).
Proof. apply (index_allocator_capacity 2). lia. Defined.

End IndexAllocator.

(** ** The interface the allocator's clients rely on *)

Class IdAllocator (T : Type) := {
  ia_wf : T -> Prop;
  ia_max : T -> Z;
  ia_used : T -> Z -> bool;
  ia_alloc : T -> option (Z * T);
  ia_free : T -> Z -> option T;
  ia_alloc_spec : forall t, ia_wf t ->
    exists r t', ia_alloc t = Some (r, t') /\ ia_wf t' /\ ia_max t' = ia_max t /\
      ((0 <= r <= ia_max t /\ ia_used t r = false /\
        forall i, ia_used t' i = bool_decide (i = r) || ia_used t i) \/
       (r = -1 /\ t' = t /\ forall i, 0 <= i <= ia_max t -> ia_used t i = true));
  ia_free_spec : forall t id, ia_wf t -> ia_used t id = true ->
    exists t', ia_free t id = Some t' /\ ia_wf t' /\ ia_max t' = ia_max t /\
      forall i, ia_used t' i = negb (bool_decide (i = id)) && ia_used t i;
  ia_free_unused : forall t id, ia_wf t -> 0 <= id -> ia_used t id = false -> ia_free t id = None;
  ia_range : forall t i, ia_wf t -> ia_used t i = true -> 0 <= i <= ia_max t;
  ia_max_bound : forall t, ia_wf t -> 0 <= ia_max t <= 255;
}.

#[export] Instance index_allocator_id_allocator :
  IdAllocator IndexAllocator.index_allocator_t.
Proof.
  refine {| ia_wf := IndexAllocator.wf; ia_max := IndexAllocator.id_max;
            ia_used := IndexAllocator.used; ia_alloc := IndexAllocator.index_alloc;
            ia_free := IndexAllocator.index_free |}.
  - intros al Hwf. rewrite IndexAllocator.index_alloc_ref by done.
    destruct (IndexAllocator.first_free al) as [r|] eqn:E.
    + eexists _, _. split; [done|].
      pose proof (IndexAllocator.first_free_Some al r Hwf E) as [Hr Hf].
      split; [by apply (IndexAllocator.alloc_result_wf al r)|]. split.
      { simpl. unfold IndexAllocator.mark. case_match; done. }
      left. split; [done|]. split; [done|]. intros i.
      by apply (IndexAllocator.alloc_result_used al r).
    + exists (-1), al. split; [done|]. split; [done|]. split; [done|]. right.
      split; [done|]. split; [done|]. by apply IndexAllocator.first_free_None.
  - intros al id Hwf Hu. pose proof (IndexAllocator.index_free_ref al id Hwf Hu) as E.
    eexists. split; [exact E|].
    split; [by eapply IndexAllocator.index_free_wf|]. split.
    { unfold IndexAllocator.free_result, IndexAllocator.unmark. repeat case_match; done. }
    intros i. by eapply IndexAllocator.index_free_used.
  - apply IndexAllocator.index_free_unused.
  - intros al i Hwf. by apply IndexAllocator.wf_range.
  - intros al Hwf. by apply IndexAllocator.wf_max.
Defined.
