(* ===== verification/Hsm.v ===== *)
(** * The state machine engine (framework/common/state_machine.c)

    A machine keeps its initial, current and previous state; a state is an
    entry of a table with its name, its value and its [enter], [exit] and
    [process_event] functions.  The table of a client is an instance of
    [StateTable] (enter and exit, which the engine calls in a transition)
    and of [EventTable] (process_event, which calls back into the engine). *)

From S2P Require Import Prelude.
From stdpp Require Import strings.

Local Open Scope bt_scope.

Module Hsm.

(** ** The machine: [state_machine_t] followed by the client's own fields *)

Record state_machine_t (St D : Type) := mk_sm {
  initial_state : option St;
  previous_state : option St;
  current_state : option St;
  data : D;
}.
Arguments mk_sm {St D} _ _ _ _.
Arguments initial_state {St D} _.
Arguments previous_state {St D} _.
Arguments current_state {St D} _.
Arguments data {St D} _.

Definition set_current {St D} (c : option St) (sm : state_machine_t St D) : state_machine_t St D :=
  mk_sm sm.(initial_state) sm.(previous_state) c sm.(data).
Definition set_previous {St D} (p : option St) (sm : state_machine_t St D) : state_machine_t St D :=
  mk_sm sm.(initial_state) p sm.(current_state) sm.(data).
Definition upd_data {St D} (f : D -> D) (sm : state_machine_t St D) : state_machine_t St D :=
  mk_sm sm.(initial_state) sm.(previous_state) sm.(current_state) (f sm.(data)).

(** The state table of a client: [state_t] without [process_event]. *)
Class StateTable (St D O : Type) := {
  state_name : St -> string;
  state_value : St -> Z;
  enter : St -> M (state_machine_t St D) O unit;
  exit : St -> M (state_machine_t St D) O unit;
}.

(** [process_event] of each state. *)
Class EventTable (St D O Ev : Type) := {
  process_event : St -> Ev -> M (state_machine_t St D) O bool;
}.

Section Engine.
Context {St D O Ev : Type} `{!StateTable St D O}.

Definition hsm_transition_to (state : St) : M (state_machine_t St D) O unit :=
  cur <- gets current_state;;
  match cur with
  | Some c => exit c;;; modify (fun sm => set_previous sm.(current_state) sm)
  | None => mret_ tt
  end;;;
  modify (set_current (Some state));;;
  enter state.

Definition hsm_ctor (initial : St) : M (state_machine_t St D) O unit :=
  modify (fun sm => mk_sm (Some initial) None None sm.(data));;;
  hsm_transition_to initial.

Definition hsm_get_current_state (sm : state_machine_t St D) : option St := sm.(current_state).
Definition hsm_get_previous_state (sm : state_machine_t St D) : option St := sm.(previous_state).

Definition hsm_get_state_name (state : option St) : string :=
  match state with Some s => state_name s | None => "None" end.

Definition hsm_get_current_state_name (sm : state_machine_t St D) : string :=
  match sm.(current_state) with Some s => state_name s | None => "None" end.

Definition hsm_get_state_value (state : St) : Z := state_value state.

(** [None]: the current state is NULL and the code dereferences it. *)
Definition hsm_get_current_state_value (sm : state_machine_t St D) : option Z :=
  match sm.(current_state) with Some s => Some (state_value s) | None => None end.

Definition hsm_dispatch_event `{!EventTable St D O Ev} (event : Ev)
    : M (state_machine_t St D) O bool :=
  cur <- gets current_state;;
  match cur with
  | None => mret_ false
  | Some c => process_event c event
  end.

(** A transition is the exit, the bookkeeping and the entry. *)
Lemma transition_run (c st : St) (sm : state_machine_t St D) :
  sm.(current_state) = Some c -> (exec (exit c) sm).(current_state) = Some c ->
  let sm2 := set_current (Some st) (set_previous (Some c) (exec (exit c) sm)) in
  exec (hsm_transition_to st) sm = exec (enter st) sm2 /\
  outs (hsm_transition_to st) sm = outs (exit c) sm ++ outs (enter st) sm2.
Proof.
  intros Hc. unfold hsm_transition_to, mbind_, gets, exec, outs, modify. cbn. rewrite Hc.
  destruct (exit c sm) as [[u sm1] o1]; cbn. intros ->. destruct (enter st _) as [[v sm2] o2]; cbn.
  by rewrite ?app_nil_r.
Qed.

(** ** What a well-behaved table gives

    [enter] and [exit] change the client's fields only. *)
Class TableFrame := {
  enter_frame : forall st sm,
    (exec (enter st) sm).(current_state) = sm.(current_state) /\
    (exec (enter st) sm).(previous_state) = sm.(previous_state);
  exit_frame : forall st sm,
    (exec (exit st) sm).(current_state) = sm.(current_state) /\
    (exec (exit st) sm).(previous_state) = sm.(previous_state);
}.

Context `{!TableFrame}.

(** When a table's [enter] and [exit] leave the engine's own fields alone,
    [hsm_transition_to] runs the [exit] of the state left and then the
    [enter] of the state entered, each once and in that order; the entered
    state becomes current and the state left (when there was one) previous. *)
Theorem hsm_transition_to_spec (st : St) (sm : state_machine_t St D) :
  let sm' := exec (hsm_transition_to st) sm in
  sm'.(current_state) = Some st /\
  match sm.(current_state) with
  | Some c =>
      sm'.(previous_state) = Some c /\
      let sm1 := set_current (Some st) (set_previous (Some c) (exec (exit c) sm)) in
      outs (hsm_transition_to st) sm = outs (exit c) sm ++ outs (enter st) sm1
  | None =>
      sm'.(previous_state) = sm.(previous_state) /\
      outs (hsm_transition_to st) sm = outs (enter st) (set_current (Some st) sm)
  end.
Proof.
  unfold hsm_transition_to, mbind_, gets, exec, outs, modify. simpl.
  destruct (current_state sm) as [c|] eqn:Ec; simpl.
  - destruct (exit_frame c sm) as [Hc _]. unfold exec in Hc.
    destruct (exit c sm) as [[u sm1] o1]; simpl in *. rewrite Hc, Ec, app_nil_r.
    pose proof (enter_frame st (set_current (Some st) (set_previous (Some c) sm1))) as He.
    unfold exec in He. destruct (enter st _) as [[v sm2] o2]; simpl in *.
    destruct He as [-> ->]. done.
  - pose proof (enter_frame st (set_current (Some st) sm)) as He.
    unfold exec in He. destruct (enter st _) as [[v sm2] o2]; simpl in *.
    destruct He as [-> ->]. done.
Qed.

End Engine.
End Hsm.
