(* ===== verification/HsmLogic.v ===== *)
(** * A logic for handlers of a state machine

    [spec c m Q]: the handler [m], run on a machine in state [c] whose fields
    satisfy [inv c], ends in a state [c'] that [Q] allows (together with the
    value returned), with fields that satisfy [inv c'], and what happened in
    between (the change of the fields and the calls made) satisfies [R c c'].
    [R] must be reflexive and transitive; the rules below then take a handler
    apart, and a client proves only what each call and each write does. *)

From S2P Require Import Prelude Hsm.

Local Open Scope bt_scope.

Module HsmLogic.
Import Hsm.

(** ** What the calls say *)

Section Traces.
Context {O : Type}.

(** What a listener who believes [s] believes after the calls [os]. *)
Definition heard (report : O -> option Z) (s : Z) (os : list O) : Z :=
  fold_left (fun s o => default s (report o)) os s.

(** The sum of the effects of the calls on a counter. *)
Definition net (effect : O -> Z) (os : list O) : Z := foldr (fun o n => (effect o + n)%Z) 0%Z os.

Lemma heard_app r s a b : heard r s (a ++ b) = heard r (heard r s a) b.
Proof. apply fold_left_app. Qed.

Lemma heard_cons r s o os : heard r s (o :: os) = heard r (default s (r o)) os.
Proof. done. Qed.

Lemma heard_silent r s os : Forall (fun o => r o = None) os -> heard r s os = s.
Proof. induction 1 as [|o os Ho _ IH]; [done|]. by rewrite heard_cons, Ho. Qed.

Lemma net_app f a b : net f (a ++ b) = (net f a + net f b)%Z.
Proof. unfold net. induction a as [|o a IH]; cbn; lia. Qed.

Lemma net_cons f o os : net f (o :: os) = (f o + net f os)%Z.
Proof. done. Qed.

Lemma net_zero f os : Forall (fun o => f o = 0%Z) os -> net f os = 0%Z.
Proof. induction 1 as [|o os Ho _ IH]; [done|]. by rewrite net_cons, Ho, IH. Qed.
End Traces.

(** The starts of timer [h] less its cancellations count one each. *)
Definition b2z (b : bool) : Z := if b then 1 else 0.

(** ** Rules *)

Section Logic.
Context {St D O : Type} (inv : St -> D -> Prop) (R : St -> St -> D -> D -> list O -> Prop).

Class StepRel := {
  sr_refl : forall c d, inv c d -> R c c d d [];
  sr_trans : forall c c1 c2 d d1 d2 o1 o2,
    R c c1 d d1 o1 -> R c1 c2 d1 d2 o2 -> R c c2 d d2 (o1 ++ o2);
}.

Abbreviation MO := (M (state_machine_t St D) O).

Definition spec {A} (c : St) (m : MO A) (Q : A -> St -> Prop) : Prop :=
  forall sm, sm.(current_state) = Some c -> inv c sm.(data) ->
  exists c', Q (eval m sm) c' /\ (exec m sm).(current_state) = Some c' /\
    inv c' (exec m sm).(data) /\ R c c' sm.(data) (exec m sm).(data) (outs m sm).

Context {SR : StepRel}.

Lemma run_ret {A} c (a : A) (Q : A -> St -> Prop) : Q a c -> spec c (mret_ a) Q.
Proof. intros HQ sm Hc Hi. exists c. split_and!; try done. by apply sr_refl. Qed.

Lemma run_bind {A B} c (m : MO A) (f : A -> MO B) Q Q' :
  spec c m Q -> (forall a c1, Q a c1 -> spec c1 (f a) Q') -> spec c (mbind_ m f) Q'.
Proof.
  intros Hm Hf sm Hc Hi. destruct (Hm sm Hc Hi) as (c1 & H1 & E1 & I1 & R1).
  destruct (Hf _ _ H1 (exec m sm) E1 I1) as (c2 & H2 & E2 & I2 & R2).
  exists c2. autorewrite with bt. split_and!; try done. by eapply sr_trans.
Qed.

(** Code that stays, then the rest. *)
Lemma run_seq {A B} c (m : MO A) (f : A -> MO B) Q :
  spec c m (fun _ c' => c' = c) -> (forall a, spec c (f a) Q) -> spec c (mbind_ m f) Q.
Proof. intros Hm Hf. eapply run_bind; [exact Hm|]. intros a c1 ->. apply Hf. Qed.

Lemma run_mono {A} c (m : MO A) (Q Q' : A -> St -> Prop) :
  spec c m Q -> (forall a c', Q a c' -> Q' a c') -> spec c m Q'.
Proof. intros Hm HQ sm Hc Hi. destruct (Hm sm Hc Hi) as (c1 & H1 & H2). eauto. Qed.

(** Reading: what is known of the value read. *)
Lemma run_read_inv {A B} c (g : state_machine_t St D -> A) (P : A -> Prop) (f : A -> MO B) Q :
  (forall sm, sm.(current_state) = Some c -> inv c sm.(data) -> P (g sm)) ->
  (forall a, P a -> spec c (f a) Q) -> spec c (mbind_ (gets g) f) Q.
Proof.
  intros HP Hf sm Hc Hi. destruct (Hf (g sm) (HP sm Hc Hi) sm Hc Hi) as (c1 & H1). exists c1. by autorewrite with bt.
Qed.

Lemma run_read {A B} c (g : state_machine_t St D -> A) (f : A -> MO B) Q :
  (forall a, spec c (f a) Q) -> spec c (mbind_ (gets g) f) Q.
Proof. intros Hf. by apply (run_read_inv c g (fun _ => True)). Qed.

Lemma run_emit c o (Q : unit -> St -> Prop) :
  (forall d, inv c d -> R c c d d [o]) -> Q tt c -> spec c (emit o) Q.
Proof. intros Ho HQ sm Hc Hi. exists c. split_and!; try done. by apply Ho. Qed.

Lemma run_write c (f : D -> D) (Q : unit -> St -> Prop) :
  (forall d, inv c d -> inv c (f d) /\ R c c d (f d) []) -> Q tt c -> spec c (modify (upd_data f)) Q.
Proof. intros Hf HQ sm Hc Hi. destruct (Hf _ Hi). by exists c. Qed.

Lemma run_when c b m : (b = true -> spec c m (fun _ c' => c' = c)) -> spec c (when b m) (fun _ c' => c' = c).
Proof. destruct b; [auto|]. intros _. by apply run_ret. Qed.

(** A transition: the exit of the state left, the bookkeeping, the entry. *)
Lemma run_transition (tbl : StateTable St D O) c c' Q :
  (forall sm, sm.(current_state) = Some c -> inv c sm.(data) ->
   let sm1 := exec (Hsm.exit c) sm in
   let sm2 := set_current (Some c') (set_previous (Some c) sm1) in
   let sm3 := exec (Hsm.enter c') sm2 in
   sm1.(current_state) = Some c /\
   exists c'', Q tt c'' /\ sm3.(current_state) = Some c'' /\ inv c'' sm3.(data) /\
     R c c'' sm.(data) sm3.(data) (outs (Hsm.exit c) sm ++ outs (Hsm.enter c') sm2)) ->
  spec c (hsm_transition_to c') Q.
Proof.
  intros H sm Hc Hi. destruct (H sm Hc Hi) as (E1 & c'' & HQ & E2 & I2 & R2).
  destruct (transition_run c c' sm Hc E1) as [Hs Ho]. exists c''. rewrite Hs, Ho.
  by destruct (eval (hsm_transition_to c') sm).
Qed.

End Logic.

(** Code that stays. *)
Abbreviation stays inv R c m := (spec inv R c m (fun _ c' => c' = c)).
End HsmLogic.
