(* ===== verification/MachineFaults.v ===== *)
(** * Faults of a state machine's handlers

    A handler that fails an assertion or reads through a NULL pointer makes a
    call that stands for it ([fault]); nothing that comes after it counts.
    This file has the rules by which one finds out, handler by handler, whether
    such a call is made.  [keep] is a field of the machine's data that decides
    it and that the handlers leave alone. *)

From S2P Require Import Prelude Hsm.

Local Open Scope bt_scope.

Module MachineFaults.
Import Hsm.

Section Faults.
Context {St D O : Type} (fault : O -> bool) (keep : D -> bool).

Abbreviation sm_t := (state_machine_t St D).
Abbreviation MF := (M sm_t O).

(** The calls of [m] run on [sm] have a fault exactly if [b]. *)
Definition faults {A} (b : bool) (m : MF A) (sm : sm_t) : Prop := existsb fault (outs m sm) = b.

(** [m] makes no faulty call and no transition, and keeps the field. *)
Definition still {A} (m : MF A) : Prop :=
  forall sm, faults false m sm /\ (exec m sm).(current_state) = sm.(current_state) /\ keep (exec m sm).(data) = keep sm.(data).

Lemma still_ret {A} (a : A) : still (mret_ a).
Proof. done. Qed.
Lemma still_gets {A} (f : sm_t -> A) : still (gets f).
Proof. done. Qed.
Lemma still_upd (f : D -> D) : (forall d, keep (f d) = keep d) -> still (modify (upd_data f)).
Proof. intros Hf sm. split; [done|]. split; [done|]. apply Hf. Qed.
Lemma still_emit o : fault o = false -> still (emit o).
Proof. intros Ho sm. split; [|done]. unfold faults. cbn. by rewrite Ho. Qed.
Lemma still_emits os : existsb fault os = false -> still (emits os).
Proof. intros Ho sm. by split. Qed.

Lemma faults_app {A B} (m : MF A) (f : A -> MF B) sm b b' :
  faults b m sm -> faults b' (f (eval m sm)) (exec m sm) -> faults (b || b') (mbind_ m f) sm.
Proof. unfold faults. intros <- <-. by rewrite outs_bind, existsb_app. Qed.

Lemma still_bind {A B} (m : MF A) (f : A -> MF B) : still m -> (forall a, still (f a)) -> still (mbind_ m f).
Proof.
  intros Hm Hf sm. destruct (Hm sm) as (H1 & H2 & H3), (Hf (eval m sm) (exec m sm)) as (G1 & G2 & G3). split.
  - exact (faults_app m f sm false false H1 G1).
  - rewrite !exec_bind. split; congruence.
Qed.

Lemma still_when (b : bool) (m : MF unit) : still m -> still (when b m).
Proof. intros Hm. by destruct b. Qed.

Lemma faults_still {A} (m : MF A) sm : still m -> faults false m sm.
Proof. intros Hm. apply Hm. Qed.

(** What a handler reads before it acts. *)
Lemma faults_gets {A B} (f : sm_t -> A) (k : A -> MF B) sm b : faults b (k (f sm)) sm -> faults b (mbind_ (gets f) k) sm.
Proof. unfold faults. by rewrite outs_bind. Qed.

(** Before the point in question, and after it. *)
Lemma faults_before {A B} (m : MF A) (k : A -> MF B) sm b :
  still m -> (forall a sm', sm'.(current_state) = sm.(current_state) -> keep sm'.(data) = keep sm.(data) -> faults b (k a) sm') ->
  faults b (mbind_ m k) sm.
Proof. intros Hm Hk. destruct (Hm sm) as (H1 & H2 & H3). exact (faults_app m k sm false b H1 (Hk _ _ H2 H3)). Qed.

Lemma faults_after {A B} (m : MF A) (k : A -> MF B) sm b : faults b m sm -> (forall a, still (k a)) -> faults b (mbind_ m k) sm.
Proof. intros Hm Hk. rewrite <- (orb_false_r b). apply faults_app; [done|]. by apply faults_still. Qed.

Lemma faults_emit o sm : fault o = true -> faults true (emit o) sm.
Proof. intros Ho. unfold faults. cbn. by rewrite Ho. Qed.

(** A fault is made, whatever follows. *)
Lemma faults_stop {A B} (m : MF A) (k : A -> MF B) sm : faults true m sm -> faults true (mbind_ m k) sm.
Proof. unfold faults. intros H. by rewrite outs_bind, existsb_app, H. Qed.

(** Leaving a state: its exit decides, if entering the next one is harmless. *)
Lemma faults_transition `{!StateTable St D O} c st sm b :
  sm.(current_state) = Some c -> faults b (exit c) sm -> (exec (exit c) sm).(current_state) = Some c ->
  (forall sm', sm'.(current_state) = Some st -> faults false (enter st) sm') -> faults b (hsm_transition_to st) sm.
Proof.
  intros Hc Hx Hk He. destruct (transition_run c st sm Hc Hk) as [_ Ho]. unfold faults in *. rewrite Ho, existsb_app, Hx.
  rewrite (He (set_current (Some st) (set_previous (Some c) (exec (exit c) sm))) eq_refl). apply orb_false_r.
Qed.
End Faults.

Create HintDb faults.
#[export] Hint Resolve still_ret still_gets : faults.

(** Take a handler apart, down to the functions hinted. *)
Ltac still_auto :=
  repeat match goal with
  | |- still _ _ (mbind_ _ _) => apply still_bind; [|intros ?]
  | |- still _ _ (when _ _) => apply still_when
  | |- still _ _ (emit _) => apply still_emit; reflexivity
  | |- still _ _ (modify (upd_data _)) => apply still_upd; intros; reflexivity
  | |- still _ _ (match _ with _ => _ end) => case_match
  | |- still _ _ _ => solve [auto with faults nocore]
  end.
End MachineFaults.
