(* ===== verification/AdapterState.v ===== *)
(** * The adapter state machine (service/src/adapter_state.c)

    The seven states of the adapter, driven by the requests of the user
    (turn on, turn off, turn off safely), the answers of the Bluetooth stack
    and of the profile services, and the safety timer.  Handlers return the
    calls they make in order ([out]). *)

From S2P Require Import Prelude Hsm.
From stdpp Require Import strings.

Local Open Scope bt_scope.

Module AdapterState.
Import Hsm.

(** ** States, events, calls *)

Inductive state :=
| off_state | ble_turning_on_state | ble_on_state | turning_on_state
| on_state | turning_off_state | ble_turning_off_state.

#[export] Instance state_eq_dec : EqDecision state.
Proof. solve_decision. Defined.

Inductive adapter_event :=
| SYS_TURN_ON | SYS_TURN_OFF | SYS_TURN_OFF_SAFE | TURN_ON_BLE | TURN_OFF_BLE
| SYS_TURN_OFF_SAFE_TIMEOUT
| BREDR_ENABLED | BREDR_DISABLED | BREDR_PROFILE_ENABLED | BREDR_PROFILE_DISABLED
| BREDR_ENABLE_TIMEOUT | BREDR_DISABLE_TIMEOUT
| BREDR_ENABLE_PROFILE_TIMEOUT | BREDR_DISABLE_PROFILE_TIMEOUT
| BREDR_ACL_ALL_DISCONNECTED
| BLE_ENABLED | BLE_DISABLED | BLE_PROFILE_ENABLED | BLE_PROFILE_DISABLED
| BLE_ENABLE_TIMEOUT | BLE_DISABLE_TIMEOUT
| BLE_ENABLE_PROFILE_TIMEOUT | BLE_DISABLE_PROFILE_TIMEOUT
| BLE_ACL_ALL_DISCONNECTED.

#[export] Instance adapter_event_eq_dec : EqDecision adapter_event.
Proof. solve_decision. Defined.

(** [bt_adapter_state_t] *)
Definition BT_ADAPTER_STATE_OFF : Z := 0.
Definition BT_ADAPTER_STATE_BLE_TURNING_ON : Z := 1.
Definition BT_ADAPTER_STATE_BLE_ON : Z := 2.
Definition BT_ADAPTER_STATE_TURNING_ON : Z := 3.
Definition BT_ADAPTER_STATE_ON : Z := 4.
Definition BT_ADAPTER_STATE_TURNING_OFF : Z := 5.
Definition BT_ADAPTER_STATE_BLE_TURNING_OFF : Z := 6.

Inductive dfx_error := BT_DFXE_LE_ENABLE_FAIL | BT_DFXE_BR_ENABLE_FAIL.

Inductive profile_event :=
| PROFILE_EVT_A2DP_OFFLOADING | PROFILE_EVT_HFP_OFFLOADING | PROFILE_EVT_LEA_OFFLOADING.

(** The calls the handlers make. *)
Inductive out :=
| adapter_notify_state_change (prev current : Z)
| bt_sal_le_enable | bt_sal_enable | bt_sal_disable | bt_sal_le_disable
| BT_DFX_OPEN_ERROR (e : dfx_error)
| service_manager_startup (t : bt_transport_t)
| service_manager_shutdown (t : bt_transport_t)
| service_manager_processmsg (e : profile_event) (v : bool)
| adapter_on_le_enabled (enablebt : bool)
| adapter_on_le_disabled
| adapter_on_br_enabled
| adapter_on_br_disabled
| adapter_le_disconnect_safe
| adapter_disconnect_safe
| service_loop_timer (timeout : Z) (h : option timer_h)
| service_loop_cancel_timer (h : option timer_h)
| bt_media_set_a2dp_offloading (v : bool)
| bt_media_set_hfp_offloading (v : bool)
| bt_media_set_lea_offloading (v : bool).

(** The fields of [adapter_state_machine_t] after [sm]. *)
Record adapter_data := mk_data {
  ble_enabled : bool;
  pending_turn_on : bool;
  a2dp_offloading : bool;
  hfp_offloading : bool;
  lea_offloading : bool;
  turning_off_safe : bool;
  ble_turning_off_safe : bool;
  disable_safe_timer : option timer_h;
}.

Abbreviation adapter_state_machine_t := (state_machine_t state adapter_data).

(** The build configuration and the stored properties. *)
Record config := mk_config {
  ble_support : bool;             (* CONFIG_BLUETOOTH_BLE_SUPPORT *)
  bredr_support : bool;           (* CONFIG_BLUETOOTH_BREDR_SUPPORT *)
  media_support : bool;           (* A2DP, LE Audio or HFP configured *)
  a2dp_is_offloading : bool;      (* persist.bluetooth.a2dp.offloading *)
  hfp_is_offloading : bool;
  lea_is_offloading : bool;
}.

(** What the outside answers during one event: the status of the stack's
    enable commands and the handle of a timer started (NULL when out of
    memory). *)
Record env := mk_env {
  sal_le_enable_status : bt_status_t;
  sal_enable_status : bt_status_t;
  new_timer : option timer_h;
}.

Definition DISABLE_SAFE_TIMEOUT : Z := 2000.

(** Field updates *)
Definition set_ble_enabled b d := mk_data b d.(pending_turn_on) d.(a2dp_offloading)
  d.(hfp_offloading) d.(lea_offloading) d.(turning_off_safe) d.(ble_turning_off_safe)
  d.(disable_safe_timer).
Definition set_pending_turn_on b d := mk_data d.(ble_enabled) b d.(a2dp_offloading)
  d.(hfp_offloading) d.(lea_offloading) d.(turning_off_safe) d.(ble_turning_off_safe)
  d.(disable_safe_timer).
Definition set_turning_off_safe b d := mk_data d.(ble_enabled) d.(pending_turn_on)
  d.(a2dp_offloading) d.(hfp_offloading) d.(lea_offloading) b d.(ble_turning_off_safe)
  d.(disable_safe_timer).
Definition set_ble_turning_off_safe b d := mk_data d.(ble_enabled) d.(pending_turn_on)
  d.(a2dp_offloading) d.(hfp_offloading) d.(lea_offloading) d.(turning_off_safe) b
  d.(disable_safe_timer).
Definition set_disable_safe_timer t d := mk_data d.(ble_enabled) d.(pending_turn_on)
  d.(a2dp_offloading) d.(hfp_offloading) d.(lea_offloading) d.(turning_off_safe)
  d.(ble_turning_off_safe) t.
Definition set_offloading a h l d := mk_data d.(ble_enabled) d.(pending_turn_on)
  a h l d.(turning_off_safe) d.(ble_turning_off_safe) d.(disable_safe_timer).

Abbreviation MA := (M adapter_state_machine_t out).

Definition value_of (s : state) : Z :=
  match s with
  | off_state => BT_ADAPTER_STATE_OFF
  | ble_turning_on_state => BT_ADAPTER_STATE_BLE_TURNING_ON
  | ble_on_state => BT_ADAPTER_STATE_BLE_ON
  | turning_on_state => BT_ADAPTER_STATE_TURNING_ON
  | on_state => BT_ADAPTER_STATE_ON
  | turning_off_state => BT_ADAPTER_STATE_TURNING_OFF
  | ble_turning_off_state => BT_ADAPTER_STATE_BLE_TURNING_OFF
  end.

Definition name_of (s : state) : string :=
  match s with
  | off_state => "Off"
  | ble_turning_on_state => "BleTurningOn"
  | ble_on_state => "BleOn"
  | turning_on_state => "TurningOn"
  | on_state => "On"
  | turning_off_state => "TurningOff"
  | ble_turning_off_state => "BleTurningOff"
  end.

(** [hsm_get_state_value(hsm_get_previous_state(sm))]; the previous state is
    dereferenced, the default value of the model stands for a NULL there
    and [reachable_previous] shows it is never used. *)
Definition previous_value : MA Z :=
  gets (fun sm => match hsm_get_previous_state sm with
                  | Some p => value_of p
                  | None => BT_ADAPTER_STATE_OFF
                  end).

Section Machine.
Context (cfg : config).

(** adapter_service.c *)
Definition adapter_is_support_bredr : bool := cfg.(bredr_support).
Definition adapter_is_support_le : bool := cfg.(ble_support).

Section Handlers.
Context (e : env).

(** ** enter and exit *)

Definition off_enter : MA unit :=
  modify (upd_data (set_ble_enabled false));;;
  modify (upd_data (set_pending_turn_on false));;;
  modify (upd_data (set_turning_off_safe false));;;
  modify (upd_data (set_ble_turning_off_safe false));;;
  prev <- gets hsm_get_previous_state;;
  match prev with
  | Some p => emit (adapter_notify_state_change (value_of p) BT_ADAPTER_STATE_OFF)
  | None =>
      modify (upd_data (set_offloading cfg.(a2dp_is_offloading) cfg.(hfp_is_offloading)
                          cfg.(lea_is_offloading)))
  end.

Definition off_exit : MA unit := mret_ tt.

Definition ble_turning_on_enter : MA unit :=
  if cfg.(ble_support) then
    emit bt_sal_le_enable;;;
    if is_success e.(sal_le_enable_status)
    then emit (adapter_notify_state_change BT_ADAPTER_STATE_OFF BT_ADAPTER_STATE_BLE_TURNING_ON)
    else emit (BT_DFX_OPEN_ERROR BT_DFXE_LE_ENABLE_FAIL)
  else mret_ tt.

Definition ble_turning_on_exit : MA unit := mret_ tt.

Definition ble_on_enter : MA unit :=
  p <- previous_value;;
  emit (adapter_notify_state_change p BT_ADAPTER_STATE_BLE_ON);;;
  modify (upd_data (set_ble_enabled true));;;
  pending <- gets (fun sm => pending_turn_on (data sm));;
  emit (adapter_on_le_enabled pending);;;
  modify (upd_data (set_pending_turn_on false)).

Definition ble_on_exit : MA unit := mret_ tt.

Definition turning_on_enter : MA unit :=
  emit bt_sal_enable;;;
  if is_success e.(sal_enable_status)
  then p <- previous_value;;
       emit (adapter_notify_state_change p BT_ADAPTER_STATE_TURNING_ON)
  else emit (BT_DFX_OPEN_ERROR BT_DFXE_BR_ENABLE_FAIL).

Definition turning_on_exit : MA unit := mret_ tt.

Definition on_state_enter : MA unit :=
  p <- previous_value;;
  emit adapter_on_br_enabled;;;
  emit (adapter_notify_state_change p BT_ADAPTER_STATE_ON);;;
  when cfg.(media_support) (
    sm <- get;;
    emit (bt_media_set_a2dp_offloading (a2dp_offloading (data sm)));;;
    emit (bt_media_set_hfp_offloading (hfp_offloading (data sm)));;;
    emit (bt_media_set_lea_offloading (lea_offloading (data sm)))).

Definition on_state_exit : MA unit := mret_ tt.

(** Cancelling and clearing [disable_safe_timer]. *)
Definition cancel_disable_safe_timer : MA unit :=
  t <- gets (fun sm => disable_safe_timer (data sm));;
  emit (service_loop_cancel_timer t);;;
  modify (upd_data (set_disable_safe_timer None)).

(** Starting it, at the three places the code does. *)
Definition start_disable_safe_timer : MA unit :=
  emit (service_loop_timer DISABLE_SAFE_TIMEOUT e.(new_timer));;;
  modify (upd_data (set_disable_safe_timer e.(new_timer))).

Definition turning_off_enter : MA unit :=
  cancel_disable_safe_timer;;;
  emit (service_manager_shutdown BT_TRANSPORT_BREDR);;;
  emit (adapter_notify_state_change BT_ADAPTER_STATE_ON BT_ADAPTER_STATE_TURNING_OFF).

Definition turning_off_exit : MA unit := emit adapter_on_br_disabled.

Definition ble_turning_off_enter : MA unit :=
  when cfg.(ble_support) (
    cancel_disable_safe_timer;;;
    emit (service_manager_shutdown BT_TRANSPORT_BLE);;;
    emit adapter_on_le_disabled;;;
    p <- previous_value;;
    emit (adapter_notify_state_change p BT_ADAPTER_STATE_BLE_TURNING_OFF)).

Definition ble_turning_off_exit : MA unit :=
  when cfg.(ble_support) (modify (upd_data (set_ble_enabled false))).

#[local] Instance adapter_states : StateTable state adapter_data out := {
  Hsm.state_name := name_of;
  Hsm.state_value := value_of;
  Hsm.enter s :=
    match s with
    | off_state => off_enter
    | ble_turning_on_state => ble_turning_on_enter
    | ble_on_state => ble_on_enter
    | turning_on_state => turning_on_enter
    | on_state => on_state_enter
    | turning_off_state => turning_off_enter
    | ble_turning_off_state => ble_turning_off_enter
    end;
  Hsm.exit s :=
    match s with
    | off_state => off_exit
    | ble_turning_on_state => ble_turning_on_exit
    | ble_on_state => ble_on_exit
    | turning_on_state => turning_on_exit
    | on_state => on_state_exit
    | turning_off_state => turning_off_exit
    | ble_turning_off_state => ble_turning_off_exit
    end;
}.

(** ** process_event *)

Definition adapter_notify_media_offloading : MA unit :=
  sm <- get;;
  emit (service_manager_processmsg PROFILE_EVT_A2DP_OFFLOADING (a2dp_offloading (data sm)));;;
  emit (service_manager_processmsg PROFILE_EVT_HFP_OFFLOADING (hfp_offloading (data sm)));;;
  emit (service_manager_processmsg PROFILE_EVT_LEA_OFFLOADING (lea_offloading (data sm))).

Definition off_process_event (event : adapter_event) : MA bool :=
  match event with
  | SYS_TURN_ON =>
      adapter_notify_media_offloading;;;
      (if negb adapter_is_support_le then hsm_transition_to turning_on_state
       else
         when adapter_is_support_bredr (modify (upd_data (set_pending_turn_on true)));;;
         (* falls through *)
         hsm_transition_to ble_turning_on_state);;;
      mret_ true
  | TURN_ON_BLE => hsm_transition_to ble_turning_on_state;;; mret_ true
  | _ => mret_ false
  end.

Definition ble_turning_on_process_event (event : adapter_event) : MA bool :=
  match event with
  | BLE_ENABLED => emit (service_manager_startup BT_TRANSPORT_BLE);;; mret_ true
  | BLE_PROFILE_ENABLED => hsm_transition_to ble_on_state;;; mret_ true
  | BLE_ENABLE_TIMEOUT | BLE_ENABLE_PROFILE_TIMEOUT => mret_ true
  | _ => mret_ false
  end.

Definition ble_on_process_event (event : adapter_event) : MA bool :=
  match event with
  | SYS_TURN_ON => hsm_transition_to turning_on_state;;; mret_ true
  | SYS_TURN_OFF | TURN_OFF_BLE => hsm_transition_to ble_turning_off_state;;; mret_ true
  | SYS_TURN_OFF_SAFE =>
      modify (upd_data (set_ble_turning_off_safe true));;;
      emit adapter_le_disconnect_safe;;;
      start_disable_safe_timer;;;
      mret_ true
  | SYS_TURN_OFF_SAFE_TIMEOUT | BLE_ACL_ALL_DISCONNECTED =>
      safe <- gets (fun sm => ble_turning_off_safe (data sm));;
      when safe (hsm_transition_to ble_turning_off_state);;;
      mret_ true
  | _ => mret_ false
  end.

Definition turning_on_process_event (event : adapter_event) : MA bool :=
  match event with
  | BREDR_ENABLED => emit (service_manager_startup BT_TRANSPORT_BREDR);;; mret_ true
  | BREDR_PROFILE_ENABLED => hsm_transition_to on_state;;; mret_ true
  | BREDR_ENABLE_TIMEOUT | BREDR_ENABLE_PROFILE_TIMEOUT => mret_ true
  | _ => mret_ false
  end.

Definition on_state_process_event (event : adapter_event) : MA bool :=
  match event with
  | SYS_TURN_OFF => hsm_transition_to turning_off_state;;; mret_ true
  | SYS_TURN_OFF_SAFE =>
      modify (upd_data (set_turning_off_safe true));;;
      emit adapter_disconnect_safe;;;
      start_disable_safe_timer;;;
      mret_ true
  | BREDR_ACL_ALL_DISCONNECTED | SYS_TURN_OFF_SAFE_TIMEOUT =>
      safe <- gets (fun sm => turning_off_safe (data sm));;
      when safe (hsm_transition_to turning_off_state);;;
      mret_ true
  | _ => mret_ false
  end.

Definition turning_off_process_event (event : adapter_event) : MA bool :=
  match event with
  | BREDR_PROFILE_DISABLED => emit bt_sal_disable;;; mret_ true
  | BREDR_DISABLED =>
      safe <- gets (fun sm => turning_off_safe (data sm));;
      (if negb adapter_is_support_le then hsm_transition_to off_state
       else if negb safe then hsm_transition_to ble_turning_off_state
       else
         modify (upd_data (set_ble_turning_off_safe true));;;
         emit adapter_le_disconnect_safe;;;
         start_disable_safe_timer);;;
      mret_ true
  | SYS_TURN_OFF_SAFE_TIMEOUT | BLE_ACL_ALL_DISCONNECTED =>
      safe <- gets (fun sm => ble_turning_off_safe (data sm));;
      when safe (hsm_transition_to ble_turning_off_state);;;
      mret_ true
  | BREDR_DISABLE_TIMEOUT | BREDR_DISABLE_PROFILE_TIMEOUT => mret_ true
  | _ => mret_ false
  end.

Definition ble_turning_off_process_event (event : adapter_event) : MA bool :=
  match event with
  | BLE_PROFILE_DISABLED => when cfg.(ble_support) (emit bt_sal_le_disable);;; mret_ true
  | BLE_DISABLED => hsm_transition_to off_state;;; mret_ true
  | BLE_DISABLE_TIMEOUT | BLE_DISABLE_PROFILE_TIMEOUT => mret_ true
  | _ => mret_ false
  end.

#[local] Instance adapter_events : EventTable state adapter_data out adapter_event := {
  Hsm.process_event s :=
    match s with
    | off_state => off_process_event
    | ble_turning_on_state => ble_turning_on_process_event
    | ble_on_state => ble_on_process_event
    | turning_on_state => turning_on_process_event
    | on_state => on_state_process_event
    | turning_off_state => turning_off_process_event
    | ble_turning_off_state => ble_turning_off_process_event
    end;
}.

(** One event taken from the service loop and dispatched. *)
Definition dispatch (event : adapter_event) : MA bool := hsm_dispatch_event event.

(** [memset] to zero, then [hsm_ctor]. *)
Definition zeroed : adapter_state_machine_t :=
  mk_sm None None None (mk_data false false false false false false false None).

Definition adapter_state_machine_new : adapter_state_machine_t :=
  exec (hsm_ctor off_state) zeroed.

End Handlers.

(** ** The adapter service around the machine (service/src/adapter_service.c)

    The published state and the messages [send_to_state_machine] posts to the
    service loop, which the loop takes one at a time in order. *)

Record adapter_service_t := mk_service {
  stm : adapter_state_machine_t;
  adapter_state : Z;
  msg_queue : list adapter_event;
}.

Definition send_to_state_machine (ev : adapter_event) (a : adapter_service_t) : adapter_service_t :=
  mk_service a.(stm) a.(adapter_state) (a.(msg_queue) ++ [ev]).

(** The effect on the service of a call a handler makes: a notification
    publishes the state; [adapter_on_le_enabled(true)] posts SYS_TURN_ON.
    The other calls leave these fields alone (what they post, they post as
    later events of the outside). *)
Definition deliver (a : adapter_service_t) (o : out) : adapter_service_t :=
  match o with
  | adapter_notify_state_change _ current => mk_service a.(stm) current a.(msg_queue)
  | adapter_on_le_enabled enablebt =>
      if cfg.(ble_support) && enablebt then send_to_state_machine SYS_TURN_ON a else a
  | _ => a
  end.

(** The loop takes the oldest message and dispatches it. *)
Definition loop_step (e : env) (a : adapter_service_t) : adapter_service_t :=
  match a.(msg_queue) with
  | [] => a
  | ev :: q =>
      let '(_, sm', os) := dispatch e ev a.(stm) in
      fold_left deliver os (mk_service sm' a.(adapter_state) q)
  end.

Definition adapter_get_state (a : adapter_service_t) : Z := a.(adapter_state).

Definition adapter_is_le_enabled (a : adapter_service_t) : bool :=
  let st := adapter_get_state a in
  if negb adapter_is_support_le then false
  else ((st =? BT_ADAPTER_STATE_BLE_ON) || (st =? BT_ADAPTER_STATE_TURNING_ON)
        || (st =? BT_ADAPTER_STATE_TURNING_OFF) || (st =? BT_ADAPTER_STATE_ON))%Z.

Inductive enable_opt := APP_SET_LE_ONLY | SYS_SET_BT_ALL.

Definition adapter_enable (opt : enable_opt) (a : adapter_service_t) : bt_status_t * adapter_service_t :=
  if (adapter_get_state a =? BT_ADAPTER_STATE_ON)%Z then (BT_STATUS_DONE, a)
  else (BT_STATUS_SUCCESS,
        match opt with
        | SYS_SET_BT_ALL => send_to_state_machine SYS_TURN_ON a
        | APP_SET_LE_ONLY => send_to_state_machine TURN_ON_BLE a
        end).

Definition adapter_disable (opt : enable_opt) (a : adapter_service_t) : bt_status_t * adapter_service_t :=
  if (adapter_get_state a =? BT_ADAPTER_STATE_OFF)%Z then (BT_STATUS_DONE, a)
  else (BT_STATUS_SUCCESS,
        match opt with
        | SYS_SET_BT_ALL => send_to_state_machine SYS_TURN_OFF_SAFE a
        | APP_SET_LE_ONLY => send_to_state_machine TURN_OFF_BLE a
        end).

Definition adapter_on_profile_services_startup (t : bt_transport_t) : adapter_service_t -> adapter_service_t :=
  send_to_state_machine
    match t with BT_TRANSPORT_BREDR => BREDR_PROFILE_ENABLED | BT_TRANSPORT_BLE => BLE_PROFILE_ENABLED end.

Definition adapter_on_profile_services_shutdown (t : bt_transport_t) : adapter_service_t -> adapter_service_t :=
  send_to_state_machine
    match t with BT_TRANSPORT_BREDR => BREDR_PROFILE_DISABLED | BT_TRANSPORT_BLE => BLE_PROFILE_DISABLED end.

Inductive stack_state :=
| BT_BREDR_STACK_STATE_OFF | BT_BREDR_STACK_STATE_ON | BLE_STACK_STATE_OFF | BLE_STACK_STATE_ON.

(** For [BT_BREDR_STACK_STATE_ON] the bonded devices are loaded first and
    [bonded_device_loaded] posts BREDR_ENABLED. *)
Definition adapter_on_adapter_state_changed (s : stack_state) : adapter_service_t -> adapter_service_t :=
  send_to_state_machine
    match s with
    | BT_BREDR_STACK_STATE_ON => BREDR_ENABLED
    | BT_BREDR_STACK_STATE_OFF => BREDR_DISABLED
    | BLE_STACK_STATE_ON => BLE_ENABLED
    | BLE_STACK_STATE_OFF => BLE_DISABLED
    end.

Definition service_new (e : env) : adapter_service_t :=
  mk_service (adapter_state_machine_new e) BT_ADAPTER_STATE_OFF [].

(** ** The edges of the machine *)

Definition edge (p c : state) : bool :=
  match p, c with
  | off_state, ble_turning_on_state
  | ble_turning_on_state, ble_on_state
  | ble_on_state, turning_on_state
  | ble_on_state, ble_turning_off_state
  | turning_on_state, on_state
  | on_state, turning_off_state
  | turning_off_state, ble_turning_off_state
  | ble_turning_off_state, off_state => true
  | off_state, turning_on_state
  | turning_off_state, off_state => negb cfg.(ble_support)
  | _, _ => false
  end.

(** Entering a state is announced unless the stack refused the command
    entering it sends (or LE is not built in). *)
Definition announced (e : env) (c : state) : bool :=
  match c with
  | ble_turning_on_state => cfg.(ble_support) && is_success e.(sal_le_enable_status)
  | turning_on_state => is_success e.(sal_enable_status)
  | ble_turning_off_state => cfg.(ble_support)
  | _ => true
  end.

Definition notifications (os : list out) : list (Z * Z) :=
  omap (fun o => match o with adapter_notify_state_change p c => Some (p, c) | _ => None end) os.

End Machine.

(** ** One event *)

(** Everything about one dispatched event, by evaluating every handler on
    every event. *)
Definition event_spec (cfg : config) (e : env) (c : state) (m : M adapter_state_machine_t out bool)
    (sm : adapter_state_machine_t) : Prop :=
  exists c', (exec m sm).(current_state) = Some c' /\
    ((c' = c /\ (exec m sm).(previous_state) = sm.(previous_state) /\
      notifications (outs m sm) = []) \/
     (edge cfg c c' = true /\ (exec m sm).(previous_state) = Some c /\
      notifications (outs m sm)
      = if announced cfg e c' then [(value_of c, value_of c')] else [])) /\
    (eval m sm = false -> exec m sm = sm /\ outs m sm = []).

Lemma event_ignored cfg e c sm :
  sm.(current_state) = Some c -> event_spec cfg e c (mret_ false) sm.
Proof. intros H. exists c. eauto 10. Qed.

(** Evaluate a handler, splitting on the answers of the stack. *)
Ltac eval_handler :=
  cbv -[is_success];
  repeat match goal with |- context [is_success ?x] => destruct (is_success x) eqn:? end;
  cbv -[is_success].

(** Read the result of an evaluated handler off the goal. *)
Ltac close_event :=
  eexists; split; [reflexivity|]; split;
  [first [left; repeat split; reflexivity | right; repeat split; reflexivity]
  |try (intros Hfalse; discriminate Hfalse); try (split; reflexivity)].

Lemma dispatch_eq cfg e ev sm c :
  sm.(current_state) = Some c ->
  dispatch cfg e ev sm = Hsm.process_event (EventTable := adapter_events cfg e) c ev sm.
Proof.
  intros Hc. unfold dispatch, hsm_dispatch_event, mbind_, gets. rewrite Hc.
  by destruct (process_event c ev sm) as [[b sm'] os].
Qed.

Lemma dispatch_cases (cfg : config) (e : env) (ev : adapter_event)
    (sm : adapter_state_machine_t) (c : state) :
  sm.(current_state) = Some c -> event_spec cfg e c (dispatch cfg e ev) sm.
Proof.
  intros Hc.
  assert (event_spec cfg e c (Hsm.process_event (EventTable := adapter_events cfg e) c ev) sm) as H.
  { destruct c, ev; try (by apply event_ignored);
      destruct sm as [i p cur [be po ao ho lo ts bts tm]]; simpl in Hc; subst cur;
      destruct cfg as [[] [] [] a h l]; try destruct ts; try destruct bts;
      destruct e as [s1 s2 nt]; eval_handler; close_event. }
  unfold event_spec, exec, eval, outs in *. by rewrite (dispatch_eq cfg e ev sm c).
Qed.

(** ** Reachable machines *)

Definition machine_step (cfg : config) (sm sm' : adapter_state_machine_t) : Prop :=
  exists e ev, sm' = exec (dispatch cfg e ev) sm.

Definition machine_init (cfg : config) (sm : adapter_state_machine_t) : Prop :=
  exists e, sm = adapter_state_machine_new cfg e.

Definition adapter_reachable (cfg : config) : adapter_state_machine_t -> Prop :=
  reachable (machine_init cfg) (machine_step cfg).

(** LE is up in these states. *)
Definition le_up (c : state) : bool :=
  match c with
  | ble_on_state | turning_on_state | on_state | turning_off_state | ble_turning_off_state => true
  | _ => false
  end.

(** The states in which the safety timer can be pending. *)
Definition timer_state (c : state) : bool :=
  match c with
  | ble_on_state | turning_on_state | on_state | turning_off_state => true
  | _ => false
  end.

Definition safe_flags_ok (c : state) (d : adapter_data) : bool :=
  match c with
  | off_state | ble_turning_on_state => negb d.(turning_off_safe) && negb d.(ble_turning_off_safe)
  | ble_on_state | turning_on_state => negb d.(turning_off_safe)
  | _ => true
  end.

Definition timer_ok (c : state) (d : adapter_data) : bool :=
  match d.(disable_safe_timer) with
  | None => true
  | Some _ => timer_state c && (d.(turning_off_safe) || d.(ble_turning_off_safe))
  end.

Definition pending_ok (cfg : config) (c : state) (d : adapter_data) : bool :=
  negb d.(pending_turn_on) ||
  match c with ble_turning_on_state => cfg.(bredr_support) | _ => false end.

Definition data_inv (cfg : config) (sm : adapter_state_machine_t) : bool :=
  match sm.(current_state) with
  | None => false
  | Some c =>
      eqb sm.(data).(ble_enabled) (le_up c) && pending_ok cfg c sm.(data) &&
      timer_ok c sm.(data) && safe_flags_ok c sm.(data)
  end.

Lemma data_inv_step cfg e ev sm :
  cfg.(ble_support) = true -> data_inv cfg sm = true ->
  data_inv cfg (exec (dispatch cfg e ev) sm) = true.
Proof.
  intros Hcfg Hi. destruct (current_state sm) as [c|] eqn:Hc;
    [|unfold data_inv in Hi; by rewrite Hc in Hi].
  unfold exec. rewrite (dispatch_eq cfg e ev sm c Hc).
  destruct cfg as [bs rs ms a h l]; simpl in Hcfg; subst bs.
  destruct c, ev; try exact Hi;
    destruct sm as [i p cur [be po ao ho lo ts bts tm]]; simpl in Hc; subst cur;
    destruct e as [s1 s2 nt];
    destruct be; try discriminate Hi; destruct ts; try discriminate Hi;
    destruct po, rs; try discriminate Hi; destruct ms, tm, bts; try discriminate Hi;
    try (destruct nt); eval_handler; reflexivity.
Qed.

Lemma reachable_data_inv cfg sm :
  cfg.(ble_support) = true -> adapter_reachable cfg sm -> data_inv cfg sm = true.
Proof.
  intros Hcfg. apply (reachable_inv _ _ (fun s => data_inv cfg s = true)).
  - intros s (e & ->). by destruct cfg as [bs rs ms a h l]; simpl in *; subst.
  - intros s s' Hs (e & ev & ->). by apply data_inv_step.
Qed.

(** The previous state is the one the machine came from. *)
Definition previous_ok (cfg : config) (sm : adapter_state_machine_t) : Prop :=
  exists c, sm.(current_state) = Some c /\
    match sm.(previous_state) with
    | None => c = off_state
    | Some p => edge cfg p c = true
    end.

Lemma reachable_previous cfg sm : adapter_reachable cfg sm -> previous_ok cfg sm.
Proof.
  apply (reachable_inv _ _ (previous_ok cfg)).
  - intros s (e & ->). by exists off_state.
  - intros s s' (c & Hc & Hp) (e & ev & ->).
    destruct (dispatch_cases cfg e ev s c Hc) as (c' & Hc' & Hcase & _).
    exists c'. split; [done|].
    destruct Hcase as [(-> & -> & _)|(He & -> & _)]; done.
Qed.

(** ** Claims *)

Definition demo_cfg : config := mk_config true true true false false false.
Definition demo_env : env := mk_env BT_STATUS_SUCCESS BT_STATUS_SUCCESS (Some 7).

(** ** The transition table

    One row per transition of the machine: in a state, on an event, under a
    guard, to a state.  An event with no row whose guard holds leaves the
    machine in its state. *)

Inductive guard :=
| always | with_le | without_le
| safe_asked          (* a safe turn-off of BR/EDR is under way *)
| le_safe_asked       (* a safe turn-off of LE is under way *)
| with_le_unsafe.     (* LE built in, no safe turn-off under way *)

Definition guard_holds (cfg : config) (d : adapter_data) (g : guard) : bool :=
  match g with
  | always => true
  | with_le => cfg.(ble_support)
  | without_le => negb cfg.(ble_support)
  | safe_asked => d.(turning_off_safe)
  | le_safe_asked => d.(ble_turning_off_safe)
  | with_le_unsafe => cfg.(ble_support) && negb d.(turning_off_safe)
  end.

Definition transition_table : list (state * adapter_event * guard * state) :=
  [ (off_state, SYS_TURN_ON, with_le, ble_turning_on_state);
    (off_state, SYS_TURN_ON, without_le, turning_on_state);
    (off_state, TURN_ON_BLE, always, ble_turning_on_state);
    (ble_turning_on_state, BLE_PROFILE_ENABLED, always, ble_on_state);
    (ble_on_state, SYS_TURN_ON, always, turning_on_state);
    (ble_on_state, SYS_TURN_OFF, always, ble_turning_off_state);
    (ble_on_state, TURN_OFF_BLE, always, ble_turning_off_state);
    (ble_on_state, SYS_TURN_OFF_SAFE_TIMEOUT, le_safe_asked, ble_turning_off_state);
    (ble_on_state, BLE_ACL_ALL_DISCONNECTED, le_safe_asked, ble_turning_off_state);
    (turning_on_state, BREDR_PROFILE_ENABLED, always, on_state);
    (on_state, SYS_TURN_OFF, always, turning_off_state);
    (on_state, SYS_TURN_OFF_SAFE_TIMEOUT, safe_asked, turning_off_state);
    (on_state, BREDR_ACL_ALL_DISCONNECTED, safe_asked, turning_off_state);
    (turning_off_state, BREDR_DISABLED, with_le_unsafe, ble_turning_off_state);
    (turning_off_state, BREDR_DISABLED, without_le, off_state);
    (turning_off_state, SYS_TURN_OFF_SAFE_TIMEOUT, le_safe_asked, ble_turning_off_state);
    (turning_off_state, BLE_ACL_ALL_DISCONNECTED, le_safe_asked, ble_turning_off_state);
    (ble_turning_off_state, BLE_DISABLED, always, off_state) ].

(** The state the table leads to, if it has a row that applies. *)
Definition table_move (cfg : config) (d : adapter_data) (c : state) (ev : adapter_event) : option state :=
  '(_, _, _, c') ← List.find (fun '(p, on, g, _) =>
      bool_decide (p = c) && bool_decide (on = ev) && guard_holds cfg d g) transition_table;
  Some c'.

(** The commands a step gives to the stack and to the profiles. *)
Definition commands (os : list out) : list out :=
  List.filter (fun o => match o with
                   | bt_sal_le_enable | bt_sal_enable | bt_sal_disable | bt_sal_le_disable
                   | service_manager_startup _ | service_manager_shutdown _ => true
                   | _ => false
                   end) os.

(** Entering a state starts what has to be up or down before the next one:
    first the stack and then the profiles on the way up, first the profiles
    and then the stack on the way down. *)
Definition commands_of_entry (cfg : config) (c : state) : list out :=
  match c with
  | ble_turning_on_state => if cfg.(ble_support) then [bt_sal_le_enable] else []
  | turning_on_state => [bt_sal_enable]
  | turning_off_state => [service_manager_shutdown BT_TRANSPORT_BREDR]
  | ble_turning_off_state => if cfg.(ble_support) then [service_manager_shutdown BT_TRANSPORT_BLE] else []
  | _ => []
  end.

Definition commands_of_stay (cfg : config) (c : state) (ev : adapter_event) : list out :=
  match c, ev with
  | ble_turning_on_state, BLE_ENABLED => [service_manager_startup BT_TRANSPORT_BLE]
  | turning_on_state, BREDR_ENABLED => [service_manager_startup BT_TRANSPORT_BREDR]
  | turning_off_state, BREDR_PROFILE_DISABLED => [bt_sal_disable]
  | ble_turning_off_state, BLE_PROFILE_DISABLED => if cfg.(ble_support) then [bt_sal_le_disable] else []
  | _, _ => []
  end.

(** One dispatched event against the table. *)
Definition table_spec (cfg : config) (e : env) (c : state) (ev : adapter_event)
    (sm sm' : adapter_state_machine_t) (os : list out) : Prop :=
  match table_move cfg sm.(data) c ev with
  | Some c' =>
      sm'.(current_state) = Some c' /\ sm'.(previous_state) = Some c /\
      notifications os = (if announced cfg e c' then [(value_of c, value_of c')] else []) /\
      commands os = commands_of_entry cfg c'
  | None =>
      sm'.(current_state) = Some c /\ sm'.(previous_state) = sm.(previous_state) /\
      notifications os = [] /\ commands os = commands_of_stay cfg c ev
  end.

Lemma table_ignored cfg e c ev sm :
  sm.(current_state) = Some c ->
  table_move cfg sm.(data) c ev = None -> commands_of_stay cfg c ev = [] ->
  table_spec cfg e c ev sm sm [].
Proof. intros Hc Ht Hs. unfold table_spec. by rewrite Ht, Hs. Qed.

Lemma process_table (cfg : config) (e : env) (ev : adapter_event)
    (sm : adapter_state_machine_t) (c : state) :
  sm.(current_state) = Some c ->
  table_spec cfg e c ev sm (exec (Hsm.process_event (EventTable := adapter_events cfg e) c ev) sm)
    (outs (Hsm.process_event (EventTable := adapter_events cfg e) c ev) sm).
Proof.
  intros Hc. destruct c, ev; try (by apply table_ignored);
    destruct sm as [i p cur [be po ao ho lo ts bts tm]]; simpl in Hc; subst cur;
    destruct cfg as [[] [] [] a h l]; try destruct ts; try destruct bts;
    destruct e as [s1 s2 nt]; eval_handler; done.
Qed.

(** C9: One event, whatever the build and the answers of the stack, moves
    the machine exactly as the transition table says: to the state of the row
    for its state, the event and the guards, and nowhere when no row applies
    (then nothing is announced).  A move is announced exactly once, with the
    values of the state left and of the state entered, unless the stack
    refused the enable command of the state entered (or LE is not built in).
    The commands given to the stack and the profiles are exactly those of
    the state entered, or those that the answer received in a turning state
    calls for: the profiles start after their stack and stop before it.  An
    event the state does not handle changes nothing and makes no call. *)
Theorem adapter_event_follows_table (cfg : config) (e : env) (ev : adapter_event)
    (sm : adapter_state_machine_t) (c : state) :
  sm.(current_state) = Some c ->
  (match table_move cfg sm.(data) c ev with
  | Some c' =>
      (exec (dispatch cfg e ev) sm).(current_state) = Some c' /\
      (exec (dispatch cfg e ev) sm).(previous_state) = Some c /\
      notifications (outs (dispatch cfg e ev) sm)
      = (if announced cfg e c' then [(value_of c, value_of c')] else []) /\
      commands (outs (dispatch cfg e ev) sm) = commands_of_entry cfg c'
  | None =>
      (exec (dispatch cfg e ev) sm).(current_state) = Some c /\
      (exec (dispatch cfg e ev) sm).(previous_state) = sm.(previous_state) /\
      notifications (outs (dispatch cfg e ev) sm) = [] /\
      commands (outs (dispatch cfg e ev) sm) = commands_of_stay cfg c ev
  end) /\
  (eval (dispatch cfg e ev) sm = false ->
   exec (dispatch cfg e ev) sm = sm /\ outs (dispatch cfg e ev) sm = []).
Proof.
  intros Hc. split; [|by destruct (dispatch_cases cfg e ev sm c Hc) as (_ & _ & _ & Hf)].
  pose proof (process_table cfg e ev sm c Hc) as H. unfold table_spec, exec, outs in *. by rewrite (dispatch_eq cfg e ev sm c).
Qed.

(** Turning off safely in On: the timeout leads to TurningOff and the
    profiles are shut down; without the flag it leads nowhere. *)
Definition on_machine (safe : bool) : adapter_state_machine_t :=
  mk_sm None (Some turning_on_state) (Some on_state) (mk_data true false false false false safe false (Some 7)).

Lemma adapter_event_follows_table_witness :
  ((exec (dispatch demo_cfg demo_env SYS_TURN_OFF_SAFE_TIMEOUT) (on_machine true)).(current_state)
     = Some turning_off_state /\
   commands (outs (dispatch demo_cfg demo_env SYS_TURN_OFF_SAFE_TIMEOUT) (on_machine true))
     = [service_manager_shutdown BT_TRANSPORT_BREDR]) /\
  (exec (dispatch demo_cfg demo_env SYS_TURN_OFF_SAFE_TIMEOUT) (on_machine false)).(current_state)
     = Some on_state.
Proof.
  split.
  - destruct (adapter_event_follows_table demo_cfg demo_env SYS_TURN_OFF_SAFE_TIMEOUT
                (on_machine true) on_state eq_refl) as [(Hc & _ & _ & Ho) _]. split; [exact Hc|exact Ho].
  - destruct (adapter_event_follows_table demo_cfg demo_env SYS_TURN_OFF_SAFE_TIMEOUT
                (on_machine false) on_state eq_refl) as [(Hc & _) _]. exact Hc.
Defined.

(** C10: In every reachable machine of a build with LE: the flag
    [ble_enabled] is set exactly in the states from BleOn to BleTurningOff;
    a turn-on is pending only while LE is turning on; the safety timer is
    pending only in the states from which it can turn the adapter off, under
    one of the two safe-turn-off flags; and both flags are clear in Off. *)
Theorem adapter_reachable_invariant (cfg : config) (sm : adapter_state_machine_t) :
  cfg.(ble_support) = true -> adapter_reachable cfg sm ->
  exists c, sm.(current_state) = Some c /\
    sm.(data).(ble_enabled) = le_up c /\
    (sm.(data).(pending_turn_on) = true -> c = ble_turning_on_state) /\
    (is_Some sm.(data).(disable_safe_timer) ->
       timer_state c = true /\
       (sm.(data).(turning_off_safe) = true \/ sm.(data).(ble_turning_off_safe) = true)) /\
    (c = off_state ->
       sm.(data).(turning_off_safe) = false /\ sm.(data).(ble_turning_off_safe) = false /\
       sm.(data).(disable_safe_timer) = None).
Proof.
  intros Hcfg Hr. pose proof (reachable_data_inv cfg sm Hcfg Hr) as Hi.
  unfold data_inv in Hi. destruct (current_state sm) as [c|]; [|done].
  exists c. split; [done|].
  apply andb_prop in Hi as [Hi Hs]. apply andb_prop in Hi as [Hi Ht].
  apply andb_prop in Hi as [Hb Hp]. apply eqb_prop in Hb.
  unfold pending_ok, timer_ok, safe_flags_ok in *.
  destruct (data sm) as [be po ao ho lo ts bts tm]; simpl in *.
  split; [done|]. split; [|split].
  - intros ->. by destruct c.
  - intros [t ->]. apply andb_prop in Ht as [-> Ht]. apply orb_true_elim in Ht.
    split; [done|]. destruct Ht; auto.
  - intros ->. destruct tm; [done|]. by destruct ts, bts.
Qed.

Lemma adapter_reachable_invariant_witness :
  exists c, (adapter_state_machine_new demo_cfg demo_env).(current_state) = Some c /\
    (adapter_state_machine_new demo_cfg demo_env).(data).(ble_enabled) = le_up c.
Proof.
  destruct (adapter_reachable_invariant demo_cfg (adapter_state_machine_new demo_cfg demo_env))
    as (c & Hc & Hb & _).
  - reflexivity.
  - apply reach_init. exists demo_env. reflexivity.
  - exists c. split; [exact Hc|exact Hb].
Defined.

(** ** The service around the machine *)

Lemma deliver_stm cfg os a : (fold_left (deliver cfg) os a).(stm) = a.(stm).
Proof.
  revert a. induction os as [|o os IH]; intros a; simpl; [done|].
  rewrite IH. destruct o; try done. simpl. by case_match.
Qed.

Lemma deliver_state cfg os a :
  (fold_left (deliver cfg) os a).(adapter_state)
  = match last (notifications os) with Some (_, c) => c | None => a.(adapter_state) end.
Proof.
  revert a. induction os as [|o os IH]; intros a; simpl; [done|]. rewrite IH. clear IH.
  unfold notifications in *. destruct o; simpl; try done.
  - rewrite last_cons. by destruct (last (omap _ os)) as [[]|].
  - destruct (last (omap _ os)) as [[]|]; [done|]. by case_match.
Qed.

(** The stack accepts every enable command. *)
Definition env_ok (e : env) : Prop :=
  e.(sal_le_enable_status) = BT_STATUS_SUCCESS /\ e.(sal_enable_status) = BT_STATUS_SUCCESS.

(** The steps of the service: someone posts an event (a user request, an
    answer of the stack or the profiles, the timer), or the loop runs one. *)
Inductive service_step (cfg : config) : adapter_service_t -> adapter_service_t -> Prop :=
| step_post ev a : service_step cfg a (send_to_state_machine ev a)
| step_loop e a : env_ok e -> service_step cfg a (loop_step cfg e a).

Definition service_init (cfg : config) (a : adapter_service_t) : Prop :=
  exists e, a = service_new cfg e.

Definition state_published (a : adapter_service_t) : Prop :=
  exists c, a.(stm).(current_state) = Some c /\ a.(adapter_state) = value_of c.

Lemma loop_step_published cfg e a :
  cfg.(ble_support) = true -> env_ok e -> state_published a -> state_published (loop_step cfg e a).
Proof.
  intros Hcfg [He1 He2] (c & Hc & Ha). unfold loop_step.
  destruct (msg_queue a) as [|ev q]; [by exists c|].
  destruct (dispatch_cases cfg e ev (stm a) c Hc) as (c' & Hc' & Hcase & _).
  unfold exec, outs in *. destruct (dispatch cfg e ev (stm a)) as [[b sm'] os]; simpl in *.
  exists c'. rewrite deliver_stm, deliver_state. split; [done|].
  assert (announced cfg e c' = true) as Hann.
  { destruct c'; simpl; rewrite ?Hcfg, ?He1, ?He2; done. }
  destruct Hcase as [(-> & _ & ->)|(_ & _ & ->)]; [done|]. by rewrite Hann.
Qed.

(** C11: In a build with LE whose stack accepts its enable commands, the state
    the adapter service publishes is always the machine's current state,
    whatever events are posted in whatever order; hence
    [adapter_is_le_enabled] answers true exactly in the states from BleOn to
    TurningOff. *)
Theorem adapter_state_published (cfg : config) (a : adapter_service_t) :
  cfg.(ble_support) = true -> reachable (service_init cfg) (service_step cfg) a ->
  exists c, a.(stm).(current_state) = Some c /\ adapter_get_state a = value_of c /\
    adapter_is_le_enabled cfg a = timer_state c.
Proof.
  intros Hcfg Hr.
  assert (state_published a) as (c & Hc & Ha).
  { revert a Hr. apply reachable_inv.
    - intros s (e & ->). by exists off_state.
    - intros s s' Hs Hstep. destruct Hstep as [ev s|e s He]; [exact Hs|by apply loop_step_published]. }
  exists c. split; [done|]. split; [done|].
  unfold adapter_is_le_enabled, adapter_get_state, adapter_is_support_le. rewrite Hcfg, Ha.
  by destruct c.
Qed.

Lemma adapter_state_published_witness :
  exists c, (stm (service_new demo_cfg demo_env)).(current_state) = Some c /\
    adapter_get_state (service_new demo_cfg demo_env) = value_of c.
Proof.
  destruct (adapter_state_published demo_cfg (service_new demo_cfg demo_env)) as (c & Hc & Hv & _).
  - reflexivity.
  - apply reach_init. exists demo_env. reflexivity.
  - exists c. split; [exact Hc|exact Hv].
Defined.

(** A request or an answer is posted, and the loop runs. *)
Definition post_and_run (cfg : config) (e : env) (f : adapter_service_t -> adapter_service_t)
    (a : adapter_service_t) : adapter_service_t :=
  loop_step cfg e (f a).

(** The answers of the stack and the profiles to turning the adapter on. *)
Definition turn_on_session (cfg : config) (e : env) (a : adapter_service_t) : adapter_service_t :=
  let run := post_and_run cfg e in
  let a := run (fun a => snd (adapter_enable SYS_SET_BT_ALL a)) a in
  let a := run (adapter_on_adapter_state_changed BLE_STACK_STATE_ON) a in
  let a := run (adapter_on_profile_services_startup BT_TRANSPORT_BLE) a in
  let a := loop_step cfg e a in
  let a := run (adapter_on_adapter_state_changed BT_BREDR_STACK_STATE_ON) a in
  run (adapter_on_profile_services_startup BT_TRANSPORT_BREDR) a.

(** The answers to turning it off safely: the links go down first. *)
Definition turn_off_session (cfg : config) (e : env) (a : adapter_service_t) : adapter_service_t :=
  let run := post_and_run cfg e in
  let a := run (fun a => snd (adapter_disable SYS_SET_BT_ALL a)) a in
  let a := run (send_to_state_machine BREDR_ACL_ALL_DISCONNECTED) a in
  let a := run (adapter_on_profile_services_shutdown BT_TRANSPORT_BREDR) a in
  let a := run (adapter_on_adapter_state_changed BT_BREDR_STACK_STATE_OFF) a in
  let a := run (send_to_state_machine BLE_ACL_ALL_DISCONNECTED) a in
  let a := run (adapter_on_profile_services_shutdown BT_TRANSPORT_BLE) a in
  run (adapter_on_adapter_state_changed BLE_STACK_STATE_OFF) a.

(** From any idle service whose machine is Off, in a build with LE and
    BR/EDR, [adapter_enable(SYS_SET_BT_ALL)] followed by the answers of the
    stack and of the profiles brings the adapter to On, published as such
    and with no message left: the pending turn-on makes the machine post the
    second SYS_TURN_ON to itself. *)
Theorem adapter_enable_reaches_on (cfg : config) (e : env) (a : adapter_service_t) :
  cfg.(ble_support) = true -> cfg.(bredr_support) = true -> env_ok e ->
  a.(stm).(current_state) = Some off_state -> a.(adapter_state) = BT_ADAPTER_STATE_OFF ->
  a.(msg_queue) = [] ->
  let a' := turn_on_session cfg e a in
  a'.(stm).(current_state) = Some on_state /\
  a'.(adapter_state) = BT_ADAPTER_STATE_ON /\ a'.(msg_queue) = [] /\
  a'.(stm).(data).(ble_enabled) = true /\ a'.(stm).(data).(pending_turn_on) = false.
Proof.
  destruct cfg as [bs rs ms x y z], e as [s1 s2 nt], a as [[i p c [be po ao ho lo ts bts tm]] st q].
  intros Hb Hr [H1 H2] Hc Hs Hq; simpl in *; subst. destruct ms; vm_compute; auto.
Qed.

Lemma adapter_enable_reaches_on_witness :
  (turn_on_session demo_cfg demo_env (service_new demo_cfg demo_env)).(adapter_state)
  = BT_ADAPTER_STATE_ON.
Proof.
  apply (adapter_enable_reaches_on demo_cfg demo_env (service_new demo_cfg demo_env));
    vm_compute; auto.
Defined.

(** From any idle service whose machine is On, in a build with LE,
    [adapter_disable(SYS_SET_BT_ALL)] followed by the answers of the stack
    and of the profiles brings the adapter to Off, published as such, with
    no message, no safety timer and no safe-turn-off flag left. *)
Theorem adapter_disable_reaches_off (cfg : config) (e : env) (a : adapter_service_t) :
  cfg.(ble_support) = true ->
  a.(stm).(current_state) = Some on_state -> a.(adapter_state) = BT_ADAPTER_STATE_ON ->
  a.(msg_queue) = [] ->
  let a' := turn_off_session cfg e a in
  a'.(stm).(current_state) = Some off_state /\
  a'.(adapter_state) = BT_ADAPTER_STATE_OFF /\ a'.(msg_queue) = [] /\
  a'.(stm).(data).(ble_enabled) = false /\
  a'.(stm).(data).(disable_safe_timer) = None /\
  a'.(stm).(data).(turning_off_safe) = false /\
  a'.(stm).(data).(ble_turning_off_safe) = false.
Proof.
  destruct cfg as [bs rs ms x y z], e as [s1 s2 nt], a as [[i p c [be po ao ho lo ts bts tm]] st q].
  intros Hb Hc Hs Hq; simpl in *; subst. vm_compute. auto 10.
Qed.

Lemma adapter_disable_reaches_off_witness :
  (turn_off_session demo_cfg demo_env
     (turn_on_session demo_cfg demo_env (service_new demo_cfg demo_env))).(adapter_state)
  = BT_ADAPTER_STATE_OFF.
Proof.
  apply (adapter_disable_reaches_off demo_cfg demo_env
           (turn_on_session demo_cfg demo_env (service_new demo_cfg demo_env)));
    vm_compute; auto.
Defined.

(** ** A stale flag

    [ble_turning_off_safe] is cleared in Off only.  A safe turn-off asked in
    BleOn and then superseded by a turn-on leaves it set, and the next
    (plain) turn-off leaves TurningOff as soon as the LE links are down: the
    BR/EDR stack is never told to go down. *)

Definition run_events (cfg : config) (e : env) (evs : list adapter_event)
    (sm : adapter_state_machine_t) : adapter_state_machine_t * list out :=
  fold_left (fun '(sm, os) ev => (exec (dispatch cfg e ev) sm, os ++ outs (dispatch cfg e ev) sm))
    evs (sm, []).

Definition stale_trace : list adapter_event :=
  [TURN_ON_BLE; BLE_ENABLED; BLE_PROFILE_ENABLED; SYS_TURN_OFF_SAFE; SYS_TURN_ON;
   BREDR_ENABLED; BREDR_PROFILE_ENABLED; SYS_TURN_OFF; BLE_ACL_ALL_DISCONNECTED;
   BREDR_PROFILE_DISABLED; BLE_PROFILE_DISABLED; BLE_DISABLED].

Theorem stale_safe_flag_skips_bredr_disable :
  let '(sm, os) := run_events demo_cfg demo_env stale_trace (adapter_state_machine_new demo_cfg demo_env) in
  sm.(current_state) = Some off_state /\ In bt_sal_enable os /\ ~ In bt_sal_disable os.
Proof.
  vm_compute. repeat split; [tauto|].
  intros H. repeat (destruct H as [H|H]; [discriminate|]). exact H.
Qed.

(** ** The engine's interface, discharged for this table *)

#[export] Instance adapter_table_frame cfg e :
  TableFrame (StateTable0 := adapter_states cfg e).
Proof.
  destruct cfg as [[] rs [] x y z], e as [s1 s2 nt].
  all: split; intros [] [i [p|] c [be po ao ho lo ts bts tm]]; eval_handler; done.
Qed.

Lemma hsm_transition_to_spec_witness :
  (exec (hsm_transition_to (StateTable0 := adapter_states demo_cfg demo_env) ble_turning_on_state)
     (adapter_state_machine_new demo_cfg demo_env)).(current_state) = Some ble_turning_on_state.
Proof.
  apply (hsm_transition_to_spec (StateTable0 := adapter_states demo_cfg demo_env)
           ble_turning_on_state (adapter_state_machine_new demo_cfg demo_env)).
Defined.

End AdapterState.
