(* ===== verification/Bytes.v ===== *)
(** * Byte streams and C strings

    The stream macros of framework/include/bt_utils.h (little-endian
    integers written to and read from a byte pointer) and the parts of the C
    library the framework uses on strings: [memcmp], [isxdigit], [strtol] in
    base 16 and the hexadecimal conversions of [printf].

    A byte is a [Z] in [0, 256); a C string is the list of its bytes before
    the terminating NUL. *)

From S2P Require Import Prelude.

Local Open Scope Z_scope.

Module Bytes.

(** ** Little-endian streams *)

Definition UINT8_TO_STREAM (v : Z) : list Z := [u8 v].
Definition UINT16_TO_STREAM (v : Z) : list Z := [u8 v; u8 (Z.shiftr v 8)].
Definition UINT32_TO_STREAM (v : Z) : list Z :=
  [u8 v; u8 (Z.shiftr v 8); u8 (Z.shiftr v 16); u8 (Z.shiftr v 24)].

(** Reading consumes bytes; [None] is a read past the end of the buffer. *)
Definition STREAM_TO_UINT8 (p : list Z) : option (Z * list Z) :=
  match p with b0 :: p' => Some (b0, p') | _ => None end.
Definition STREAM_TO_UINT16 (p : list Z) : option (Z * list Z) :=
  match p with
  | b0 :: b1 :: p' => Some (u16 (b0 + Z.shiftl b1 8), p')
  | _ => None
  end.
Definition STREAM_TO_UINT32 (p : list Z) : option (Z * list Z) :=
  match p with
  | b0 :: b1 :: b2 :: b3 :: p' =>
      Some (u32 (b0 + Z.shiftl b1 8 + Z.shiftl b2 16 + Z.shiftl b3 24), p')
  | _ => None
  end.

Definition bytes_ok (l : list Z) : Prop := Forall (in_u 8) l.

#[export] Instance bytes_ok_dec l : Decision (bytes_ok l).
Proof. unfold bytes_ok. apply _. Defined.

Lemma u8_byte b : in_u 8 b -> u8 b = b.
Proof. apply uint_small. Qed.

Lemma in_u8_of v : in_u 8 (u8 v).
Proof. apply uint_in. lia. Qed.

Lemma uint16_stream_roundtrip v p :
  in_u 16 v -> STREAM_TO_UINT16 (UINT16_TO_STREAM v ++ p) = Some (v, p).
Proof.
  intros Hv. simpl. do 2 f_equal. unfold uint, in_u in *.
  rewrite Z.shiftr_div_pow2, Z.shiftl_mul_pow2 by lia.
  change (2 ^ 8) with 256 in *. change (2 ^ 16) with 65536 in *.
  pose proof (Z.div_mod v 256 ltac:(lia)).
  rewrite (Z.mod_small (v / 256)) by
    (split; [apply Z.div_pos; lia|apply Z.div_lt_upper_bound; lia]).
  rewrite Z.mod_small; lia.
Qed.

Lemma div_chain v : 0 <= v ->
  v = v mod 256 + (v / 256) mod 256 * 256 + (v / 65536) mod 256 * 65536
      + v / 16777216 * 16777216.
Proof.
  intros H.
  replace (v / 65536) with (v / 256 / 256) by (rewrite Z.div_div by lia; done).
  replace (v / 16777216) with (v / 256 / 256 / 256) by (rewrite !Z.div_div by lia; done).
  pose proof (Z.div_mod v 256 ltac:(lia)).
  pose proof (Z.div_mod (v / 256) 256 ltac:(lia)).
  pose proof (Z.div_mod (v / 256 / 256) 256 ltac:(lia)). lia.
Qed.

Lemma uint32_stream_roundtrip v p :
  in_u 32 v -> STREAM_TO_UINT32 (UINT32_TO_STREAM v ++ p) = Some (v, p).
Proof.
  intros Hv. simpl. do 2 f_equal. unfold uint, in_u in *.
  rewrite !Z.shiftr_div_pow2, !Z.shiftl_mul_pow2 by lia.
  change (2 ^ 8) with 256 in *. change (2 ^ 16) with 65536 in *.
  change (2 ^ 24) with 16777216 in *. change (2 ^ 32) with 4294967296 in *.
  rewrite (Z.mod_small (v / 16777216)) by
    (split; [apply Z.div_pos; lia|apply Z.div_lt_upper_bound; lia]).
  rewrite <- (div_chain v) by lia. apply Z.mod_small. lia.
Qed.

(** ** memcmp *)

(** The sign the C function returns; the first differing byte decides. *)
Fixpoint memcmp (a b : list Z) (n : nat) : Z :=
  match n with
  | O => 0
  | S n' =>
      let x := nth 0 a 0 in
      let y := nth 0 b 0 in
      if x <? y then -1 else if y <? x then 1
      else memcmp (tail a) (tail b) n'
  end.

Lemma memcmp_eq n a b :
  length a = n -> length b = n -> memcmp a b n = 0 <-> a = b.
Proof.
  revert a b. induction n as [|n IH]; intros [|x a] [|y b] Ha Hb; try done.
  simpl in *. destruct (Z.ltb_spec x y); [split; [lia|intros [= -> _]; lia]|].
  destruct (Z.ltb_spec y x); [split; [lia|intros [= -> _]; lia]|].
  assert (x = y) as -> by lia. rewrite IH by lia. split; [by intros ->|by intros [= ->]].
Qed.

(** ** Hexadecimal *)

Definition isxdigit (c : Z) : bool :=
  ((48 <=? c) && (c <=? 57)) || ((65 <=? c) && (c <=? 70)) || ((97 <=? c) && (c <=? 102)).

Definition xdigit_value (c : Z) : Z :=
  if c <=? 57 then c - 48 else if c <=? 70 then c - 55 else c - 87.

(** The digit of [%X] and of [%x]. *)
Definition hex_upper (d : Z) : Z := if d <? 10 then 48 + d else 55 + d.
Definition hex_lower (d : Z) : Z := if d <? 10 then 48 + d else 87 + d.

(** [%2.2X] of a byte. *)
Definition printf_02X (b : Z) : list Z := [hex_upper (b / 16); hex_upper (b mod 16)].

(** [%0nx] of a value of [n] hexadecimal digits. *)
Fixpoint printf_0x (n : nat) (v : Z) : list Z :=
  match n with
  | O => []
  | S n' => printf_0x n' (v / 16) ++ [hex_lower (v mod 16)]
  end.

Definition toupper (c : Z) : Z := if (97 <=? c) && (c <=? 122) then c - 32 else c.

Lemma hex_upper_xdigit d : 0 <= d < 16 -> isxdigit (hex_upper d) = true.
Proof.
  intros H. unfold isxdigit, hex_upper. destruct (Z.ltb_spec d 10).
  - rewrite (proj2 (Z.leb_le 48 _)), (proj2 (Z.leb_le _ 57)) by lia. done.
  - rewrite (proj2 (Z.leb_le 65 (55 + d))), (proj2 (Z.leb_le (55 + d) 70)) by lia.
    by rewrite orb_true_r.
Qed.

Lemma xdigit_value_upper d : 0 <= d < 16 -> xdigit_value (hex_upper d) = d.
Proof.
  intros H. unfold xdigit_value, hex_upper.
  destruct (Z.ltb_spec d 10); repeat case_match; bool_lia.
Qed.

Lemma isxdigit_cases c :
  isxdigit c = true -> 48 <= c <= 57 \/ 65 <= c <= 70 \/ 97 <= c <= 102.
Proof.
  unfold isxdigit. rewrite !orb_true_iff, !andb_true_iff, !Z.leb_le. lia.
Qed.

Lemma xdigit_value_range c : isxdigit c = true -> 0 <= xdigit_value c < 16.
Proof.
  intros H%isxdigit_cases. unfold xdigit_value. repeat case_match; bool_lia.
Qed.

Lemma upper_xdigit_value c : isxdigit c = true -> hex_upper (xdigit_value c) = toupper c.
Proof.
  intros H%isxdigit_cases. unfold hex_upper, xdigit_value, toupper.
  destruct (Z.leb_spec c 57), (Z.leb_spec c 70), (Z.leb_spec 97 c), (Z.leb_spec c 122);
    simpl; case_match; bool_lia.
Qed.

Definition isspace (c : Z) : bool := (c =? 32) || ((9 <=? c) && (c <=? 13)).

(** The digits [strtol] accumulates. *)
Fixpoint strtol_digits (acc : Z) (s : list Z) : Z :=
  match s with
  | c :: s' => if isxdigit c then strtol_digits (acc * 16 + xdigit_value c) s' else acc
  | [] => acc
  end.

Fixpoint skip_spaces (s : list Z) : list Z :=
  match s with
  | c :: s' => if isspace c then skip_spaces s' else s
  | [] => []
  end.

(** An optional 0x or 0X before a digit. *)
Definition skip_0x (s : list Z) : list Z :=
  match s with
  | 48 :: x :: c :: s' => if ((x =? 120) || (x =? 88)) && isxdigit c then c :: s' else s
  | _ => s
  end.

(** [strtol(s, NULL, 16)], for values that do not overflow a long. *)
Definition strtol16 (s : list Z) : Z :=
  match skip_spaces s with
  | 45 :: s' => - strtol_digits 0 (skip_0x s')
  | 43 :: s' => strtol_digits 0 (skip_0x s')
  | s' => strtol_digits 0 (skip_0x s')
  end.

Lemma xdigit_no_prefix c1 c2 s :
  isxdigit c1 = true -> isxdigit c2 = true ->
  skip_spaces (c1 :: c2 :: s) = c1 :: c2 :: s /\ skip_0x (c1 :: c2 :: s) = c1 :: c2 :: s.
Proof.
  intros H1%isxdigit_cases H2%isxdigit_cases. split.
  - simpl. unfold isspace. destruct (Z.eqb_spec c1 32), (Z.leb_spec 9 c1), (Z.leb_spec c1 13);
      simpl; try done; lia.
  - unfold skip_0x. repeat case_match; try done. subst. exfalso. bool_lia.
Qed.

(** Two hexadecimal digits followed by a character that is not one. *)
Lemma strtol16_pair c1 c2 s :
  isxdigit c1 = true -> isxdigit c2 = true ->
  match s with c :: _ => isxdigit c = false | [] => True end ->
  strtol16 (c1 :: c2 :: s) = xdigit_value c1 * 16 + xdigit_value c2.
Proof.
  intros H1 H2 Hs. destruct (xdigit_no_prefix c1 c2 s H1 H2) as [E1 E2].
  assert (strtol_digits 0 (c1 :: c2 :: s) = xdigit_value c1 * 16 + xdigit_value c2) as Ed.
  { simpl. rewrite H1, H2. destruct s as [|c s]; simpl; [lia|]. rewrite Hs. lia. }
  unfold strtol16. rewrite E1. apply isxdigit_cases in H1.
  assert (c1 <> 45 /\ c1 <> 43) as [N1 N2] by lia.
  rewrite <- Ed, <- E2.
  repeat case_match; try done; congruence.
Qed.

End Bytes.
