(* ===== verification/CString.v ===== *)
(** * C strings

    A C string is the [string] of its characters before the terminating NUL.
    The bounded copies and comparisons of the C library. *)

From S2P Require Import Prelude.
From stdpp Require Export strings.

Local Open Scope string_scope.

(** The text left by [strlcpy(dst, src, n)] and [snprintf(dst, n, "%s", src)]
    in the [n] bytes of [dst]. *)
Definition strlcpy (n : nat) (s : string) : string := String.substring 0 (n - 1) s.

(** [strncmp(a, b, n) == 0] *)
Definition strncmp_eq (n : nat) (a b : string) : bool :=
  bool_decide (String.substring 0 n a = String.substring 0 n b).

#[global] Arguments strlcpy : simpl never.
#[global] Arguments strncmp_eq : simpl never.

Lemma substring_short n s : (String.length s <= n)%nat -> String.substring 0 n s = s.
Proof.
  revert n. induction s as [|c s IH]; intros [|n]; cbn; intros H; try done; try lia.
  rewrite IH by lia. done.
Qed.

Lemma substring_length n s : (String.length (String.substring 0 n s) <= n)%nat.
Proof.
  revert s. induction n as [|n IH]; intros [|c s]; cbn; try lia. specialize (IH s). lia.
Qed.

Lemma strlcpy_short n s : (String.length s < n)%nat -> strlcpy n s = s.
Proof. intros H. apply substring_short. lia. Qed.

Lemma strlcpy_length n s : (0 < n)%nat -> (String.length (strlcpy n s) < n)%nat.
Proof. intros H. unfold strlcpy. pose proof (substring_length (n - 1) s). lia. Qed.

Lemma strlcpy_idemp n s : strlcpy n (strlcpy n s) = strlcpy n s.
Proof. apply substring_short, substring_length. Qed.

(** For texts that fit, the bounded comparison is equality. *)
Lemma strncmp_eq_short n a b :
  (String.length a <= n)%nat -> (String.length b <= n)%nat -> strncmp_eq n a b = bool_decide (a = b).
Proof. intros Ha Hb. unfold strncmp_eq. by rewrite !substring_short. Qed.
