(* ===== verification/BtAddr.v ===== *)
(** * Bluetooth device addresses (framework/common/bt_addr.c)

    An address is six bytes, least significant first; its text form is the
    six bytes in hexadecimal, most significant first, separated by colons. *)

From S2P Require Import Prelude Bytes.

Local Open Scope Z_scope.

Module BtAddr.
Import Bytes.

Definition BT_ADDR_LENGTH : nat := 6.

(** [uint8_t addr[6]] *)
Record bt_address_t := mk_addr { a0 : Z; a1 : Z; a2 : Z; a3 : Z; a4 : Z; a5 : Z }.

#[export] Instance bt_address_eq_dec : EqDecision bt_address_t.
Proof. solve_decision. Defined.

(** The six bytes in memory order. *)
Definition addr_bytes (a : bt_address_t) : list Z := [a.(a0); a.(a1); a.(a2); a.(a3); a.(a4); a.(a5)].

Definition addr_wf (a : bt_address_t) : Prop := bytes_ok (addr_bytes a).

#[export] Instance addr_wf_dec a : Decision (addr_wf a).
Proof. unfold addr_wf. apply _. Defined.

Definition bt_addr_empty : bt_address_t := mk_addr 0 0 0 0 0 0.

Definition bt_addr_is_empty (a : bt_address_t) : bool :=
  memcmp (addr_bytes a) (addr_bytes bt_addr_empty) BT_ADDR_LENGTH =? 0.

Definition bt_addr_set_empty : bt_address_t := bt_addr_empty.

Definition bt_addr_compare (a b : bt_address_t) : Z :=
  memcmp (addr_bytes a) (addr_bytes b) BT_ADDR_LENGTH.

(** The text, and the value returned: [sprintf] returns the number of
    characters it wrote. *)
Definition bt_addr_ba2str (a : bt_address_t) : Z * list Z :=
  let str := printf_02X a.(a5) ++ [58] ++ printf_02X a.(a4) ++ [58] ++ printf_02X a.(a3) ++ [58]
             ++ printf_02X a.(a2) ++ [58] ++ printf_02X a.(a1) ++ [58] ++ printf_02X a.(a0) in
  (Z.of_nat (length str), str).

(** [bt_addr_bastr]: NULL for NULL; the static buffer is 18 bytes and
    [str[17]] is set to NUL. *)
Definition bt_addr_bastr (a : option bt_address_t) : option (list Z) :=
  match a with
  | None => None
  | Some a => Some (take 17 (bt_addr_ba2str a).2)
  end.

(** The scan of [bachk]: two hexadecimal digits, then the end or a colon.
    Reading the NUL is reading a character that is not a digit. *)
Fixpoint bachk_scan (s : list Z) : Z :=
  match s with
  | [] => 0
  | c1 :: s1 =>
      if negb (isxdigit c1) then -1 else
      match s1 with
      | [] => -1
      | c2 :: s2 =>
          if negb (isxdigit c2) then -1 else
          match s2 with
          | [] => 0
          | c3 :: s3 => if c3 =? 58 then bachk_scan s3 else -1
          end
      end
  end.

Definition bachk (str : option (list Z)) : Z :=
  match str with
  | None => -1
  | Some s => if negb (Nat.eqb (length s) 17) then -1 else bachk_scan s
  end.

(** The [for] loop of [bt_addr_str2ba]: byte [i] is read at [3 * (5 - i)]. *)
Definition bt_addr_str2ba (str : option (list Z)) : Z * bt_address_t :=
  if bachk str <? 0 then (-1, mk_addr 0 0 0 0 0 0)
  else
    let s := default [] str in
    let at_ n := u8 (strtol16 (drop n s)) in
    (0, mk_addr (at_ 15%nat) (at_ 12%nat) (at_ 9%nat) (at_ 6%nat) (at_ 3%nat) (at_ 0%nat)).

Definition bt_addr_set (bd : list Z) : bt_address_t :=
  let b i := nth i bd 0 in mk_addr (b 0%nat) (b 1%nat) (b 2%nat) (b 3%nat) (b 4%nat) (b 5%nat).

Definition bt_addr_swap (src : bt_address_t) : bt_address_t :=
  mk_addr src.(a5) src.(a4) src.(a3) src.(a2) src.(a1) src.(a0).

(** ** Lemmas *)

Lemma addr_bytes_inj a b : addr_bytes a = addr_bytes b -> a = b.
Proof. destruct a, b. by intros [= -> -> -> -> -> ->]. Qed.

Lemma bt_addr_compare_eq a b : bt_addr_compare a b = 0 <-> a = b.
Proof.
  unfold bt_addr_compare. rewrite memcmp_eq by done.
  split; [apply addr_bytes_inj|by intros ->].
Qed.

(** The text of a byte is two hexadecimal digits that read back as it. *)
Lemma printf_02X_digits b :
  in_u 8 b -> exists c1 c2, printf_02X b = [c1; c2] /\ isxdigit c1 = true /\ isxdigit c2 = true /\
    xdigit_value c1 * 16 + xdigit_value c2 = b.
Proof.
  intros [H0 H1]. change (2 ^ 8) with 256 in H1.
  assert (0 <= b / 16 < 16) by (split; [apply Z.div_pos; lia|apply Z.div_lt_upper_bound; lia]).
  pose proof (Z.mod_pos_bound b 16 ltac:(lia)).
  pose proof (Z.div_mod b 16 ltac:(lia)).
  eexists _, _. split; [done|]. rewrite !hex_upper_xdigit, !xdigit_value_upper by lia.
  repeat split. lia.
Qed.

(** A valid text: six pairs of hexadecimal digits with colons between. *)
Lemma bachk_shape s :
  bachk (Some s) = 0 ->
  exists c1 c2 c3 c4 c5 c6 c7 c8 c9 c10 c11 c12,
    s = [c1; c2; 58; c3; c4; 58; c5; c6; 58; c7; c8; 58; c9; c10; 58; c11; c12] /\
    Forall (fun c => isxdigit c = true) [c1; c2; c3; c4; c5; c6; c7; c8; c9; c10; c11; c12].
Proof.
  unfold bachk. destruct (Nat.eqb_spec (length s) 17) as [Hl|]; [|done].
  do 17 (destruct s as [|? s]; [done|]). destruct s; [|done]. clear Hl. simpl.
  intros H. repeat (case_match; simplify_eq/=; try done).
  repeat match goal with
  | Hn : negb _ = false |- _ => apply negb_false_iff in Hn
  | Hn : (_ =? _) = true |- _ => apply Z.eqb_eq in Hn; subst
  end.
  repeat eexists. repeat (constructor; [done|]). constructor.
Qed.

(** Two hexadecimal digits are a byte whose text is those digits in upper case. *)
Lemma pair_byte x y :
  isxdigit x = true -> isxdigit y = true ->
  u8 (xdigit_value x * 16 + xdigit_value y) = xdigit_value x * 16 + xdigit_value y /\
  in_u 8 (xdigit_value x * 16 + xdigit_value y) /\
  hex_upper ((xdigit_value x * 16 + xdigit_value y) / 16) = toupper x /\
  hex_upper ((xdigit_value x * 16 + xdigit_value y) mod 16) = toupper y.
Proof.
  intros Hx Hy. pose proof (xdigit_value_range x Hx). pose proof (xdigit_value_range y Hy).
  assert (in_u 8 (xdigit_value x * 16 + xdigit_value y)) by (unfold in_u; lia).
  split; [by apply u8_byte|]. split; [done|].
  rewrite (Z.add_comm (xdigit_value x * 16)), Z.div_add, Z.mod_add, Z.div_small, Z.mod_small by lia.
  by rewrite Z.add_0_l, !upper_xdigit_value.
Qed.

Lemma bachk_scan_cases s : bachk_scan s = 0 \/ bachk_scan s = -1.
Proof.
  remember (length s) as n eqn:Hn. assert (length s <= n)%nat as Hl by lia. clear Hn.
  revert s Hl. induction n as [|n IH]; intros [|c1 [|c2 [|c3 s3]]] Hl; simpl in *;
    repeat case_match; auto; try lia.
  apply IH. lia.
Qed.

(** ** Claims *)

(** The text [bt_addr_ba2str] writes for an address is read back by
    [bt_addr_str2ba] as the same address, with status 0. *)
Theorem addr_text_roundtrip (a : bt_address_t) :
  addr_wf a -> bt_addr_str2ba (Some (bt_addr_ba2str a).2) = (0, a).
Proof.
  intros Hwf. unfold addr_wf, bytes_ok, addr_bytes in Hwf.
  destruct a as [b0 b1 b2 b3 b4 b5]; simpl in Hwf.
  rewrite !Forall_cons_iff in Hwf. destruct Hwf as (H0 & H1 & H2 & H3 & H4 & H5 & _).
  unfold bt_addr_ba2str; simpl a0; simpl a1; simpl a2; simpl a3; simpl a4; simpl a5.
  destruct (printf_02X_digits b0 H0) as (x1 & y1 & -> & X1 & Y1 & E1).
  destruct (printf_02X_digits b1 H1) as (x2 & y2 & -> & X2 & Y2 & E2).
  destruct (printf_02X_digits b2 H2) as (x3 & y3 & -> & X3 & Y3 & E3).
  destruct (printf_02X_digits b3 H3) as (x4 & y4 & -> & X4 & Y4 & E4).
  destruct (printf_02X_digits b4 H4) as (x5 & y5 & -> & X5 & Y5 & E5).
  destruct (printf_02X_digits b5 H5) as (x6 & y6 & -> & X6 & Y6 & E6).
  unfold bt_addr_str2ba. cbn [bachk length Nat.eqb negb bachk_scan app snd].
  rewrite X1, Y1, X2, Y2, X3, Y3, X4, Y4, X5, Y5, X6, Y6. simpl.
  rewrite !strtol16_pair by done.
  by rewrite E1, E2, E3, E4, E5, E6, !u8_byte by done.
Qed.

Lemma addr_text_roundtrip_witness :
  bt_addr_str2ba (Some (bt_addr_ba2str (mk_addr 85 68 51 34 17 0)).2) = (0, mk_addr 85 68 51 34 17 0).
Proof. apply (addr_text_roundtrip (mk_addr 85 68 51 34 17 0)). vm_compute. repeat constructor; discriminate. Defined.

(** The text of an address: six pairs of hexadecimal digits, in either case,
    with a colon between two pairs. *)
Definition addr_text (s : list Z) : Prop :=
  exists c1 c2 c3 c4 c5 c6 c7 c8 c9 c10 c11 c12,
    s = [c1; c2] ++ [58] ++ [c3; c4] ++ [58] ++ [c5; c6] ++ [58] ++ [c7; c8] ++ [58] ++ [c9; c10] ++ [58] ++ [c11; c12] /\
    Forall (fun c => 48 <= c <= 57 \/ 65 <= c <= 70 \/ 97 <= c <= 102) [c1; c2; c3; c4; c5; c6; c7; c8; c9; c10; c11; c12].

Lemma xdigit_ranges c : isxdigit c = true <-> 48 <= c <= 57 \/ 65 <= c <= 70 \/ 97 <= c <= 102.
Proof. unfold isxdigit. lia. Qed.

Lemma xdigits_ranges l : Forall (fun c => isxdigit c = true) l <-> Forall (fun c => 48 <= c <= 57 \/ 65 <= c <= 70 \/ 97 <= c <= 102) l.
Proof. rewrite !Forall_forall. by setoid_rewrite xdigit_ranges. Qed.

Lemma bachk_text s : bachk (Some s) = 0 <-> addr_text s.
Proof.
  unfold addr_text. setoid_rewrite <- xdigits_ranges. split; [apply bachk_shape|].
  intros (c1 & c2 & c3 & c4 & c5 & c6 & c7 & c8 & c9 & c10 & c11 & c12 & -> & Hd).
  rewrite !Forall_cons_iff in Hd. destruct Hd as (H1 & H2 & H3 & H4 & H5 & H6 & H7 & H8 & H9 & H10 & H11 & H12 & _).
  cbn. by rewrite H1, H2, H3, H4, H5, H6, H7, H8, H9, H10, H11, H12.
Qed.

Lemma str2ba_reads s :
  addr_text s -> exists a, bt_addr_str2ba (Some s) = (0, a) /\ addr_wf a /\ (bt_addr_ba2str a).2 = map toupper s.
Proof.
  intros E%bachk_text. destruct (bachk_shape s E) as
    (c1 & c2 & c3 & c4 & c5 & c6 & c7 & c8 & c9 & c10 & c11 & c12 & -> & Hd).
  rewrite !Forall_cons_iff in Hd.
  destruct Hd as (H1 & H2 & H3 & H4 & H5 & H6 & H7 & H8 & H9 & H10 & H11 & H12 & _).
  unfold bt_addr_str2ba. rewrite E. simpl.
  rewrite !strtol16_pair by done.
  destruct (pair_byte c1 c2) as (-> & W1 & P1 & Q1); [done..|]. destruct (pair_byte c3 c4) as (-> & W2 & P2 & Q2); [done..|].
  destruct (pair_byte c5 c6) as (-> & W3 & P3 & Q3); [done..|]. destruct (pair_byte c7 c8) as (-> & W4 & P4 & Q4); [done..|].
  destruct (pair_byte c9 c10) as (-> & W5 & P5 & Q5); [done..|]. destruct (pair_byte c11 c12) as (-> & W6 & P6 & Q6); [done..|].
  eexists. split; [done|]. split.
  - unfold addr_wf, bytes_ok, addr_bytes; simpl. rewrite !Forall_cons_iff. auto 10.
  - unfold bt_addr_ba2str. unfold printf_02X. simpl.
    by rewrite P1, P2, P3, P4, P5, P6, Q1, Q2, Q3, Q4, Q5, Q6.
Qed.

(** C20: [bt_addr_str2ba] accepts exactly the texts that are six pairs of
    hexadecimal digits with a colon between two pairs ([addr_text], written
    with the character codes): for such a text the status is 0 and the address
    is the six bytes whose text form is the given text in upper case; for
    every other text, and for NULL, the status is -1 and the address is the
    empty one. *)
Theorem str2ba_accepts_exactly (str : option (list Z)) :
  match str with
  | Some s =>
      (addr_text s /\ exists a, bt_addr_str2ba str = (0, a) /\ addr_wf a /\ (bt_addr_ba2str a).2 = map toupper s) \/
      (~ addr_text s /\ bt_addr_str2ba str = (-1, bt_addr_empty))
  | None => bt_addr_str2ba str = (-1, bt_addr_empty)
  end.
Proof.
  destruct str as [s|]; [|done]. destruct (decide (bachk (Some s) = 0)) as [E|Hne].
  - left. apply bachk_text in E. split; [done|by apply str2ba_reads].
  - right. rewrite <- bachk_text. split; [done|].
    assert (bachk (Some s) = -1) as E; [|unfold bt_addr_str2ba; by rewrite E].
    unfold bachk in *. destruct (negb _); [done|]. by destruct (bachk_scan_cases s).
Qed.

(** [bt_addr_compare] returns 0 exactly for equal addresses, the empty
    test holds of the all-zero address only, and swapping the byte order
    twice gives the address back. *)
Theorem addr_compare_is_equality (a b : bt_address_t) :
  (bt_addr_compare a b = 0 <-> a = b) /\
  (bt_addr_is_empty a = true <-> a = bt_addr_set_empty) /\
  bt_addr_swap (bt_addr_swap a) = a.
Proof.
  split; [apply bt_addr_compare_eq|]. split.
  - unfold bt_addr_is_empty. rewrite Z.eqb_eq. apply (bt_addr_compare_eq a bt_addr_empty).
  - by destruct a.
Qed.

(** The header documents a return value of 0 for success; the value returned
    is the number of characters written. *)
Theorem ba2str_returns_length (a : bt_address_t) : (bt_addr_ba2str a).1 = 17.
Proof. reflexivity. Qed.

End BtAddr.
