(* ===== verification/BtUuid.v ===== *)
(** * UUIDs (framework/common/bt_uuid.c)

    A UUID has a type (16, 32 or 128 bits) and a value in a union of 16
    bytes.  The short forms abbreviate 128-bit UUIDs over the Bluetooth base
    UUID; comparison is on the 128-bit forms.  Integers in the union are read
    and written in the byte order of the target, little-endian. *)

From S2P Require Import Prelude Bytes.

Local Open Scope Z_scope.

Module BtUuid.
Import Bytes.

Definition BT_UUID16_TYPE : Z := 2.
Definition BT_UUID32_TYPE : Z := 4.
Definition BT_UUID128_TYPE : Z := 16.

Record bt_uuid_t := mk_uuid {
  type : Z;           (* uint8_t *)
  val : list Z;       (* the union: 16 bytes *)
}.

#[export] Instance bt_uuid_eq_dec : EqDecision bt_uuid_t.
Proof. solve_decision. Defined.

Definition uuid_wf (u : bt_uuid_t) : Prop := length u.(val) = 16%nat /\ bytes_ok u.(val).

(** The union's members. *)
Definition byte_at (l : list Z) (i : nat) : Z := nth i l 0.
Definition val_u16 (u : bt_uuid_t) : Z := byte_at u.(val) 0 + Z.shiftl (byte_at u.(val) 1) 8.
Definition val_u32 (u : bt_uuid_t) : Z :=
  byte_at u.(val) 0 + Z.shiftl (byte_at u.(val) 1) 8
  + Z.shiftl (byte_at u.(val) 2) 16 + Z.shiftl (byte_at u.(val) 3) 24.

(** Overwriting the head of a byte array. *)
Definition write_at (off : nat) (src dst : list Z) : list Z :=
  take off dst ++ src ++ drop (off + length src) dst.

Definition bt_uuid_zero : bt_uuid_t := mk_uuid 0 (replicate 16 0).

Definition bt_uuid128_base : bt_uuid_t :=
  mk_uuid BT_UUID128_TYPE
    [0xFB; 0x34; 0x9B; 0x5F; 0x80; 0x00; 0x00; 0x80; 0x00; 0x10; 0x00; 0x00; 0x00; 0x00; 0x00; 0x00].

Definition BASE_UUID16_OFFSET : nat := 12.
Definition BASE_UUID32_OFFSET : nat := 12.

Definition bt_uuid16_to_uuid128 (uuid16 : bt_uuid_t) : bt_uuid_t :=
  mk_uuid bt_uuid128_base.(type)
    (write_at BASE_UUID16_OFFSET (UINT16_TO_STREAM (val_u16 uuid16)) bt_uuid128_base.(val)).

Definition bt_uuid128_to_uuid16 (uuid128 : bt_uuid_t) (uuid16 : bt_uuid_t) : bt_uuid_t :=
  let v := u16 (Z.lor (Z.shiftl (byte_at uuid128.(val) (BASE_UUID16_OFFSET + 1)) 8)
                      (byte_at uuid128.(val) BASE_UUID16_OFFSET)) in
  mk_uuid BT_UUID16_TYPE (write_at 0 (UINT16_TO_STREAM v) uuid16.(val)).

Definition bt_uuid32_to_uuid128 (uuid32 : bt_uuid_t) : bt_uuid_t :=
  mk_uuid bt_uuid128_base.(type)
    (write_at BASE_UUID32_OFFSET (UINT32_TO_STREAM (val_u32 uuid32)) bt_uuid128_base.(val)).

(** The destination is left as it is for an unknown type. *)
Definition bt_uuid_to_uuid128 (src uuid128 : bt_uuid_t) : bt_uuid_t :=
  if src.(type) =? BT_UUID128_TYPE then src
  else if src.(type) =? BT_UUID32_TYPE then bt_uuid32_to_uuid128 src
  else if src.(type) =? BT_UUID16_TYPE then bt_uuid16_to_uuid128 src
  else uuid128.

Definition bt_uuid_to_uuid16 (src uuid16 : bt_uuid_t) : bt_uuid_t :=
  if src.(type) =? BT_UUID128_TYPE then bt_uuid128_to_uuid16 src uuid16
  else if src.(type) =? BT_UUID32_TYPE then uuid16
  else if src.(type) =? BT_UUID16_TYPE then src
  else uuid16.

Definition bt_uuid128_cmp (u1 u2 : bt_uuid_t) : Z := memcmp u1.(val) u2.(val) 16.

Definition bt_uuid16_create (value : Z) : bt_uuid_t :=
  mk_uuid BT_UUID16_TYPE (write_at 0 (UINT16_TO_STREAM value) (replicate 16 0)).

Definition bt_uuid32_create (value : Z) : bt_uuid_t :=
  mk_uuid BT_UUID32_TYPE (write_at 0 (UINT32_TO_STREAM value) (replicate 16 0)).

(** [None]: [memcpy] reads past the end of [value]. *)
Definition bt_uuid128_create (value : list Z) : option bt_uuid_t :=
  if (length value <? 16)%nat then None
  else Some (mk_uuid BT_UUID128_TYPE (take 16 value)).

(** [Some (false, _)]: unknown type; [None]: a read past the end of [data].
    For a 16-bit UUID the code reads a 32-bit integer and truncates it. *)
Definition bt_uuid_create_common (uuid : bt_uuid_t) (data : list Z) (ty : Z) : option (bool * bt_uuid_t) :=
  if ty =? BT_UUID128_TYPE then u ← bt_uuid128_create data; Some (true, u)
  else if ty =? BT_UUID32_TYPE then
    '(val32, _) ← STREAM_TO_UINT32 data; Some (true, bt_uuid32_create val32)
  else if ty =? BT_UUID16_TYPE then
    '(val16, _) ← STREAM_TO_UINT32 data; Some (true, bt_uuid16_create (u16 val16))
  else Some (false, uuid).

Definition bt_uuid_compare (uuid1 uuid2 : bt_uuid_t) : Z :=
  bt_uuid128_cmp (bt_uuid_to_uuid128 uuid1 bt_uuid_zero) (bt_uuid_to_uuid128 uuid2 bt_uuid_zero).

(** The text written into [str], at most [len - 1] characters. *)
Definition bt_uuid_to_string (uuid : bt_uuid_t) (len : nat) : option (list Z) :=
  let p := (bt_uuid_to_uuid128 uuid bt_uuid_zero).(val) in
  '(tmp0, p) ← STREAM_TO_UINT16 p;
  '(tmp1, p) ← STREAM_TO_UINT32 p;
  '(tmp2, p) ← STREAM_TO_UINT16 p;
  '(tmp3, p) ← STREAM_TO_UINT16 p;
  '(tmp4, p) ← STREAM_TO_UINT16 p;
  '(tmp5, p) ← STREAM_TO_UINT32 p;
  Some (take (len - 1)
          (printf_0x 8 tmp5 ++ [45] ++ printf_0x 4 tmp4 ++ [45] ++ printf_0x 4 tmp3 ++ [45]
           ++ printf_0x 4 tmp2 ++ [45] ++ printf_0x 8 tmp1 ++ printf_0x 4 tmp0)).

(** ** Lemmas *)

Lemma length16 (l : list Z) :
  length l = 16%nat ->
  exists b0 b1 b2 b3 b4 b5 b6 b7 b8 b9 b10 b11 b12 b13 b14 b15,
    l = [b0; b1; b2; b3; b4; b5; b6; b7; b8; b9; b10; b11; b12; b13; b14; b15].
Proof.
  intros H. do 16 (destruct l as [|? l]; [done|]). destruct l; [|done]. repeat eexists.
Qed.

Lemma stream16_value a b : in_u 8 a -> in_u 8 b -> u16 (a + Z.shiftl b 8) = a + 256 * b.
Proof.
  unfold in_u. intros Ha Hb. rewrite Z.shiftl_mul_pow2 by lia.
  rewrite uint_small by (unfold in_u; lia). lia.
Qed.

Lemma stream32_value a b c d :
  in_u 8 a -> in_u 8 b -> in_u 8 c -> in_u 8 d ->
  u32 (a + Z.shiftl b 8 + Z.shiftl c 16 + Z.shiftl d 24)
  = a + 256 * b + 65536 * c + 16777216 * d.
Proof.
  unfold in_u. intros Ha Hb Hc Hd. rewrite !Z.shiftl_mul_pow2 by lia.
  rewrite uint_small by (unfold in_u; lia). lia.
Qed.

Lemma hex_lower_inj a b : 0 <= a < 16 -> 0 <= b < 16 -> hex_lower a = hex_lower b -> a = b.
Proof. unfold hex_lower. intros. repeat case_match; bool_lia. Qed.

Lemma length_printf_0x n v : length (printf_0x n v) = n.
Proof. revert v. induction n as [|n IH]; intros v; simpl; [done|]. rewrite length_app, IH. simpl. lia. Qed.

Lemma printf_0x_inj n v w :
  0 <= v < 16 ^ Z.of_nat n -> 0 <= w < 16 ^ Z.of_nat n -> printf_0x n v = printf_0x n w -> v = w.
Proof.
  revert v w. induction n as [|n IH]; intros v w Hv Hw E.
  - simpl in *. lia.
  - rewrite Nat2Z.inj_succ, Z.pow_succ_r in Hv, Hw by lia. simpl in E.
    apply app_inj_tail in E as [E1 E2].
    pose proof (Z.mod_pos_bound v 16 ltac:(lia)). pose proof (Z.mod_pos_bound w 16 ltac:(lia)).
    apply hex_lower_inj in E2; [|lia..].
    assert (v / 16 = w / 16).
    { apply IH; [..|done]; (split; [apply Z.div_pos; lia|apply Z.div_lt_upper_bound; lia]). }
    pose proof (Z.div_mod v 16 ltac:(lia)). pose proof (Z.div_mod w 16 ltac:(lia)). lia.
Qed.

(** The bytes of a value of the stream macros. *)
Lemma le16_inj a b a' b' :
  in_u 8 a -> in_u 8 b -> in_u 8 a' -> in_u 8 b' ->
  a + 256 * b = a' + 256 * b' -> a = a' /\ b = b'.
Proof. unfold in_u. lia. Qed.

Lemma le32_inj a b c d a' b' c' d' :
  in_u 8 a -> in_u 8 b -> in_u 8 c -> in_u 8 d ->
  in_u 8 a' -> in_u 8 b' -> in_u 8 c' -> in_u 8 d' ->
  a + 256 * b + 65536 * c + 16777216 * d = a' + 256 * b' + 65536 * c' + 16777216 * d' ->
  a = a' /\ b = b' /\ c = c' /\ d = d'.
Proof. unfold in_u. lia. Qed.

Lemma val_u16_create v : in_u 16 v -> val_u16 (bt_uuid16_create v) = v.
Proof.
  intros Hv. pose proof (uint16_stream_roundtrip v [] Hv) as H. simpl in H.
  injection H as H. unfold val_u16. simpl.
  rewrite <- H at 3. rewrite uint_small; [done|].
  pose proof (in_u8_of v). pose proof (in_u8_of (Z.shiftr v 8)). unfold in_u in *.
  rewrite Z.shiftl_mul_pow2 by lia. lia.
Qed.

Lemma val_u32_create v : in_u 32 v -> val_u32 (bt_uuid32_create v) = v.
Proof.
  intros Hv. pose proof (uint32_stream_roundtrip v [] Hv) as H. simpl in H.
  injection H as H. unfold val_u32. simpl.
  rewrite <- H at 5. rewrite uint_small; [done|].
  pose proof (in_u8_of v). pose proof (in_u8_of (Z.shiftr v 8)).
  pose proof (in_u8_of (Z.shiftr v 16)). pose proof (in_u8_of (Z.shiftr v 24)). unfold in_u in *.
  rewrite !Z.shiftl_mul_pow2 by lia. lia.
Qed.

Lemma to_uuid128_wf u : uuid_wf u -> uuid_wf (bt_uuid_to_uuid128 u bt_uuid_zero).
Proof.
  intros Hu. unfold bt_uuid_to_uuid128.
  repeat case_match; try done; (split; [done|]);
    simpl; repeat (apply List.Forall_cons; [try apply in_u8_of; unfold in_u; lia|]); constructor.
Qed.

Lemma bt_uuid_compare_eq u1 u2 :
  uuid_wf u1 -> uuid_wf u2 ->
  bt_uuid_compare u1 u2 = 0 <->
  (bt_uuid_to_uuid128 u1 bt_uuid_zero).(val) = (bt_uuid_to_uuid128 u2 bt_uuid_zero).(val).
Proof.
  intros H1%to_uuid128_wf H2%to_uuid128_wf.
  unfold bt_uuid_compare, bt_uuid128_cmp. apply memcmp_eq; [apply H1|apply H2].
Qed.

Lemma uuid16_wf v : uuid_wf (bt_uuid16_create v).
Proof.
  split; [done|]. simpl.
  repeat (apply List.Forall_cons; [try apply in_u8_of; unfold in_u; lia|]). constructor.
Qed.

Lemma uuid32_wf v : uuid_wf (bt_uuid32_create v).
Proof.
  split; [done|]. simpl.
  repeat (apply List.Forall_cons; [try apply in_u8_of; unfold in_u; lia|]). constructor.
Qed.

(** The 128-bit form of a 16-bit and of a 32-bit UUID. *)
Lemma uuid16_form v :
  in_u 16 v ->
  (bt_uuid_to_uuid128 (bt_uuid16_create v) bt_uuid_zero).(val)
  = write_at 12 (UINT16_TO_STREAM v) bt_uuid128_base.(val).
Proof. intros Hv. unfold bt_uuid_to_uuid128, bt_uuid16_to_uuid128. simpl type. by rewrite val_u16_create. Qed.

Lemma uuid32_form v :
  in_u 32 v ->
  (bt_uuid_to_uuid128 (bt_uuid32_create v) bt_uuid_zero).(val)
  = write_at 12 (UINT32_TO_STREAM v) bt_uuid128_base.(val).
Proof. intros Hv. unfold bt_uuid_to_uuid128, bt_uuid32_to_uuid128. simpl type. by rewrite val_u32_create. Qed.

Lemma u8_high v k : in_u 16 v -> 16 <= k -> u8 (Z.shiftr v k) = 0.
Proof.
  intros [H0 H1] Hk. rewrite Z.shiftr_div_pow2 by lia. unfold uint.
  rewrite Z.div_small; [done|]. split; [lia|].
  apply Z.lt_le_trans with (2 ^ 16); [done|]. apply Z.pow_le_mono_r; lia.
Qed.

(** ** Claims *)

(** A 16-bit UUID and the 32-bit UUID of the same value compare equal,
    two 16-bit UUIDs compare equal exactly when their values are equal, and
    shortening the 128-bit form of a 16-bit UUID gives its value back. *)
Theorem uuid_short_forms (v w : Z) :
  in_u 16 v -> in_u 16 w ->
  bt_uuid_compare (bt_uuid16_create v) (bt_uuid32_create v) = 0 /\
  (bt_uuid_compare (bt_uuid16_create v) (bt_uuid16_create w) = 0 <-> v = w) /\
  val_u16 (bt_uuid_to_uuid16 (bt_uuid_to_uuid128 (bt_uuid16_create v) bt_uuid_zero) bt_uuid_zero) = v.
Proof.
  intros Hv Hw.
  assert (in_u 32 v) as Hv32 by (unfold in_u in *; lia).
  pose proof (uint16_stream_roundtrip v [] Hv) as Ev. pose proof (uint16_stream_roundtrip w [] Hw) as Ew.
  split; [|split].
  - apply bt_uuid_compare_eq; [apply uuid16_wf|apply uuid32_wf|].
    rewrite uuid16_form, uuid32_form by done. unfold write_at, UINT16_TO_STREAM, UINT32_TO_STREAM. simpl.
    by rewrite (u8_high v 16), (u8_high v 24) by (done || lia).
  - rewrite bt_uuid_compare_eq by apply uuid16_wf. rewrite !uuid16_form by done.
    split; [|by intros ->]. intros E. unfold write_at, UINT16_TO_STREAM in E. simpl in E.
    injection E as E0 E1.
    simpl in Ev, Ew. rewrite E0, E1 in Ev. congruence.
  - unfold bt_uuid_to_uuid128, bt_uuid16_to_uuid128. simpl type. rewrite val_u16_create by done.
    unfold bt_uuid_to_uuid16, bt_uuid128_to_uuid16. simpl type. cbn [val].
    assert (u16 (Z.lor (Z.shiftl (u8 (Z.shiftr v 8)) 8) (u8 v)) = v) as E.
    { simpl in Ev. injection Ev as Ev. rewrite <- Ev at 3. f_equal.
      apply lor_shiftl_add; [lia|]. apply in_u8_of. }
    change (val_u16 (bt_uuid16_create (u16 (Z.lor (Z.shiftl (u8 (Z.shiftr v 8)) 8) (u8 v)))) = v).
    rewrite E. by apply val_u16_create.
Qed.

Lemma uuid_short_forms_witness :
  bt_uuid_compare (bt_uuid16_create 0x110A) (bt_uuid32_create 0x110A) = 0 /\
  (bt_uuid_compare (bt_uuid16_create 0x110A) (bt_uuid16_create 0x110B) = 0 <-> 0x110A = 0x110B).
Proof.
  destruct (uuid_short_forms 0x110A 0x110B) as (H1 & H2 & _); [unfold in_u; lia..|].
  split; [exact H1|exact H2].
Defined.

(** The text of sixteen bytes. *)
Lemma to_string_form u len :
  uuid_wf u ->
  exists b0 b1 b2 b3 b4 b5 b6 b7 b8 b9 b10 b11 b12 b13 b14 b15,
    (bt_uuid_to_uuid128 u bt_uuid_zero).(val)
      = [b0; b1; b2; b3; b4; b5; b6; b7; b8; b9; b10; b11; b12; b13; b14; b15] /\
    bytes_ok [b0; b1; b2; b3; b4; b5; b6; b7; b8; b9; b10; b11; b12; b13; b14; b15] /\
    bt_uuid_to_string u len
    = Some (take (len - 1)
       (printf_0x 8 (b12 + 256 * b13 + 65536 * b14 + 16777216 * b15) ++ [45]
        ++ printf_0x 4 (b10 + 256 * b11) ++ [45] ++ printf_0x 4 (b8 + 256 * b9) ++ [45]
        ++ printf_0x 4 (b6 + 256 * b7) ++ [45]
        ++ printf_0x 8 (b2 + 256 * b3 + 65536 * b4 + 16777216 * b5) ++ printf_0x 4 (b0 + 256 * b1))).
Proof.
  intros [Hl Hb]%to_uuid128_wf. unfold bt_uuid_to_string.
  destruct (length16 _ Hl) as
    (b0 & b1 & b2 & b3 & b4 & b5 & b6 & b7 & b8 & b9 & b10 & b11 & b12 & b13 & b14 & b15 & E).
  rewrite E in *. exists b0, b1, b2, b3, b4, b5, b6, b7, b8, b9, b10, b11, b12, b13, b14, b15.
  split; [done|]. split; [done|].
  unfold bytes_ok in Hb. rewrite !Forall_cons_iff in Hb. destruct_and?.
  cbn [STREAM_TO_UINT16 STREAM_TO_UINT32 mbind option_bind].
  by rewrite !stream16_value, !stream32_value by done.
Qed.

Lemma app_same_length_inj {A} (a b a' b' : list A) :
  length a = length a' -> a ++ b = a' ++ b' -> a = a' /\ b = b'.
Proof. intros Hl E. by apply app_inj_1 in E. Qed.

(** Given room for the 36 characters, two UUIDs have the same text
    exactly when [bt_uuid_compare] calls them equal. *)
Theorem uuid_text_identifies (u1 u2 : bt_uuid_t) (len : nat) :
  uuid_wf u1 -> uuid_wf u2 -> (37 <= len)%nat ->
  bt_uuid_to_string u1 len = bt_uuid_to_string u2 len <-> bt_uuid_compare u1 u2 = 0.
Proof.
  intros H1 H2 Hlen. rewrite bt_uuid_compare_eq by done. split.
  - destruct (to_string_form u1 len H1) as
      (b0 & b1 & b2 & b3 & b4 & b5 & b6 & b7 & b8 & b9 & b10 & b11 & b12 & b13 & b14 & b15 & -> & Hb & ->).
    destruct (to_string_form u2 len H2) as
      (c0 & c1 & c2 & c3 & c4 & c5 & c6 & c7 & c8 & c9 & c10 & c11 & c12 & c13 & c14 & c15 & -> & Hc & ->).
    unfold bytes_ok in *. rewrite !Forall_cons_iff in Hb, Hc. destruct_and?.
    intros E. apply (inj Some) in E.
    rewrite !take_ge in E by (rewrite !length_app, !length_printf_0x; simpl; lia).
    do 9 (apply app_same_length_inj in E as [? E]; [|by rewrite ?length_printf_0x]).
    repeat match goal with
    | P : printf_0x _ _ = printf_0x _ _ |- _ =>
        apply printf_0x_inj in P; [|unfold in_u in *; simpl; lia..]
    end.
    repeat match goal with
    | P : ?a + 256 * ?b + _ * ?c + _ * ?d = _ |- _ =>
        apply le32_inj in P as (-> & -> & -> & ->); [|done..]
    | P : ?a + 256 * ?b = _ |- _ => apply le16_inj in P as (-> & ->); [|done..]
    end. done.
  - intros E. unfold bt_uuid_to_string. by rewrite E.
Qed.

Lemma uuid_text_identifies_witness :
  bt_uuid_to_string (bt_uuid16_create 0x110A) 40 = bt_uuid_to_string (bt_uuid32_create 0x110A) 40.
Proof.
  apply (uuid_text_identifies (bt_uuid16_create 0x110A) (bt_uuid32_create 0x110A) 40).
  - apply uuid16_wf.
  - apply uuid32_wf.
  - lia.
  - vm_compute. reflexivity.
Defined.

(** The 16-bit case of [bt_uuid_create_common] reads four bytes: given the
    two bytes of a 16-bit UUID it reads past their end. *)
Theorem create_common_uuid16_overreads (u : bt_uuid_t) (lo hi : Z) :
  bt_uuid_create_common u [lo; hi] BT_UUID16_TYPE = None.
Proof. reflexivity. Qed.

End BtUuid.
