(* ===== verification/AdvData.v ===== *)
(** * Advertising payloads (framework/common/advertiser_data.c,
      advertiser_data_helper.c)

    An advertiser collects a list of AD structures (a length byte, a type
    byte and data) and [advertiser_data_build] lays them out one after the
    other; [advertiser_data_dump] walks such a buffer.  Memory is explicit: an
    element carries the bytes allocated after its two header bytes, and a read
    or write outside an allocation is the result [OutOfBounds].  Allocation
    itself succeeds, as the code assumes. *)

From S2P Require Import Prelude Bytes BtUuid.

Module AdvData.
Import Bytes BtUuid.
Local Open Scope Z_scope.

(** The result of code that walks a buffer. *)
Inductive run (A : Type) := Done (a : A) | OutOfBounds | OutOfFuel.
Arguments Done {A} _.
Arguments OutOfBounds {A}.
Arguments OutOfFuel {A}.

Definition BT_AD_FLAGS : Z := 0x01.
Definition BT_AD_UUID16_ALL : Z := 0x03.
Definition BT_AD_UUID32_ALL : Z := 0x05.
Definition BT_AD_UUID128_ALL : Z := 0x07.
Definition BT_AD_NAME_SHORT : Z := 0x08.
Definition BT_AD_NAME_COMPLETE : Z := 0x09.
Definition BT_AD_SERVICE_DATA16 : Z := 0x16.
Definition BT_AD_GAP_APPEARANCE : Z := 0x19.
Definition BT_AD_SERVICE_DATA32 : Z := 0x20.
Definition BT_AD_SERVICE_DATA128 : Z := 0x21.
Definition BT_AD_MANUFACTURER_DATA : Z := 0xff.
Definition BT_LE_AD_NAME_LEN : Z := 29.

(** [adv_data_t] and the bytes of its flexible array. *)
Record adv_data_t := mk_adv { len : Z; type : Z; data : list Z }.

Record advertiser_data_t := mk_advertiser {
  ad_list : list adv_data_t;
  buffer : option (list Z);
}.

Definition advertiser_data_new : advertiser_data_t := mk_advertiser [] None.

Definition bt_list_add_tail (e : adv_data_t) (ad : advertiser_data_t) : advertiser_data_t :=
  mk_advertiser (ad.(ad_list) ++ [e]) ad.(buffer).

(** ** Building *)

Definition advertiser_data_calc_len (total : Z) (e : adv_data_t) : Z := u16 (total + (e.(len) + 1)).

(** [memcpy(p, adata, adata->len + 1)]: the source is the element. *)
Definition element_bytes (e : adv_data_t) : run (list Z) :=
  if e.(len) + 1 <=? 2 + Z.of_nat (length e.(data))
  then Done (take (Z.to_nat (e.(len) + 1)) (e.(len) :: e.(type) :: e.(data)))
  else OutOfBounds.

(** The copying loop, [room] bytes of the buffer being left. *)
Fixpoint copy_loop (l : list adv_data_t) (room : Z) : run (list Z) :=
  match l with
  | [] => Done []
  | e :: l' =>
      if room <? e.(len) + 1 then OutOfBounds
      else match element_bytes e with
           | Done b =>
               match copy_loop l' (room - (e.(len) + 1)) with
               | Done bs => Done (b ++ bs)
               | r => r
               end
           | r => r
           end
  end.

(** Returns the buffer and its length; NULL when there is no element. *)
Definition advertiser_data_build (ad : advertiser_data_t)
    : run (option (list Z * Z) * advertiser_data_t) :=
  match ad.(ad_list) with
  | [] => Done (None, ad)
  | l =>
      let total_len := fold_left advertiser_data_calc_len l 0 in
      match copy_loop l total_len with
      | Done b => Done (Some (b, total_len), mk_advertiser l (Some b))
      | OutOfBounds => OutOfBounds
      | OutOfFuel => OutOfFuel
      end
  end.

(** ** Adding elements *)

(** [name]: the characters before the terminating NUL. *)
Definition advertiser_data_set_name (name : list Z) (ad : advertiser_data_t) : advertiser_data_t :=
  let name_len := u8 (Z.of_nat (length name)) in
  let room := name_len + 1 in
  let '(name_len, ty) :=
    if BT_LE_AD_NAME_LEN <? name_len then (BT_LE_AD_NAME_LEN, BT_AD_NAME_SHORT)
    else (name_len, BT_AD_NAME_COMPLETE) in
  bt_list_add_tail
    (mk_adv (u8 (name_len + 1)) ty
       (take (Z.to_nat name_len) name ++ replicate (Z.to_nat (room - name_len)) 0)) ad.

Definition advertiser_data_set_flags (flags : Z) : advertiser_data_t -> advertiser_data_t :=
  bt_list_add_tail (mk_adv 2 BT_AD_FLAGS [flags]).

Definition advertiser_data_set_appearance (appearance : Z) : advertiser_data_t -> advertiser_data_t :=
  bt_list_add_tail (mk_adv 3 BT_AD_GAP_APPEARANCE (UINT16_TO_STREAM appearance)).

(** [bytes] are the [len] bytes the caller passes. *)
Definition advertiser_data_add_data (ty : Z) (bytes : list Z) : advertiser_data_t -> advertiser_data_t :=
  bt_list_add_tail (mk_adv (Z.of_nat (length bytes)) ty bytes).

Definition advertiser_data_remove_data (ty : Z) (bytes : list Z) (ad : advertiser_data_t)
    : advertiser_data_t := ad.

Definition advertiser_data_add_manufacture_data (manufacture_id : Z) (bytes : list Z)
    : advertiser_data_t -> advertiser_data_t :=
  bt_list_add_tail
    (mk_adv (u8 (Z.of_nat (length bytes) + 2 + 1)) BT_AD_MANUFACTURER_DATA
       (UINT16_TO_STREAM manufacture_id ++ bytes)).

Definition uuid128_element (uuid : bt_uuid_t) : adv_data_t :=
  mk_adv (16 + 1) BT_AD_UUID128_ALL (take 16 uuid.(val)).

(** The 32-bit case has no [break]: the element it makes is overwritten. *)
Definition advertiser_data_add_service_uuid (uuid : bt_uuid_t) (ad : advertiser_data_t)
    : bool * advertiser_data_t :=
  if BtUuid.type uuid =? BT_UUID16_TYPE then
    (true, bt_list_add_tail (mk_adv (2 + 1) BT_AD_UUID16_ALL (UINT16_TO_STREAM (val_u16 uuid))) ad)
  else if BtUuid.type uuid =? BT_UUID32_TYPE then
    let _data := mk_adv (4 + 1) BT_AD_UUID32_ALL (UINT32_TO_STREAM (val_u32 uuid)) in
    (true, bt_list_add_tail (uuid128_element uuid) ad)
  else if BtUuid.type uuid =? BT_UUID128_TYPE then
    (true, bt_list_add_tail (uuid128_element uuid) ad)
  else (false, ad).

Definition advertiser_data_add_service_data (uuid : bt_uuid_t) (bytes : list Z)
    (ad : advertiser_data_t) : bool * advertiser_data_t :=
  if BtUuid.type uuid =? BT_UUID16_TYPE then
    (true, bt_list_add_tail
             (mk_adv (2 + 1) BT_AD_SERVICE_DATA16 (UINT16_TO_STREAM (val_u16 uuid) ++ bytes)) ad)
  else if (BtUuid.type uuid =? BT_UUID32_TYPE) || (BtUuid.type uuid =? BT_UUID128_TYPE) then
    (* the 32-bit case falls through into the 128-bit one *)
    (true, bt_list_add_tail
             (mk_adv (16 + 1) BT_AD_SERVICE_DATA128 (take 16 uuid.(val) ++ bytes)) ad)
  else (false, ad).

(** ** Walking a buffer *)

(** What [advertiser_data_info] shows of the structure at the head of [p]:
    nothing for an empty one, otherwise its type and its data. *)
Definition advertiser_data_info (p : list Z) : run (option (Z * list Z)) :=
  match p with
  | [] => OutOfBounds
  | l :: p' =>
      if l <? 1 then Done None
      else match p' with
           | [] => OutOfBounds
           | ty :: d =>
               if l - 1 <=? Z.of_nat (length d) then Done (Some (ty, take (Z.to_nat (l - 1)) d))
               else OutOfBounds
           end
  end.

Fixpoint dump_loop (fuel : nat) (buf : list Z) (n offset : Z) : run (list (Z * list Z)) :=
  match fuel with
  | O => OutOfFuel
  | S fuel =>
      if offset <? n then
        let p := drop (Z.to_nat offset) buf in
        match advertiser_data_info p with
        | Done shown =>
            match dump_loop fuel buf n (u16 (offset + (hd 0 p + 1))) with
            | Done r => Done (match shown with Some x => x :: r | None => r end)
            | r => r
            end
        | OutOfBounds => OutOfBounds
        | OutOfFuel => OutOfFuel
        end
      else Done []
  end.

(** Each round advances by a byte at least: [len + 1] rounds are enough for
    a buffer the walk stays in. *)
Definition advertiser_data_dump (buf : list Z) (n : Z) : run (list (Z * list Z)) :=
  dump_loop (S (Z.to_nat n)) buf n 0.

(** ** Reference encoding *)

Definition ad_encode (x : Z * list Z) : list Z := (1 + Z.of_nat (length x.2)) :: x.1 :: x.2.

Definition ad_encode_all (l : list (Z * list Z)) : list Z := flat_map ad_encode l.

(** The structure an element stands for on the air. *)
Definition view (e : adv_data_t) : Z * list Z := (e.(type), take (Z.to_nat (e.(len) - 1)) e.(data)).

Definition views (ad : advertiser_data_t) : list (Z * list Z) := map view ad.(ad_list).

(** The element's length byte is non-zero and within its allocation. *)
Definition elem_ok (e : adv_data_t) : Prop :=
  1 <= e.(len) < 256 /\ e.(len) <= 1 + Z.of_nat (length e.(data)).

#[export] Instance elem_ok_dec e : Decision (elem_ok e).
Proof. unfold elem_ok. apply _. Defined.

(** The length byte is within the allocation (it may be 0). *)
Definition elem_in (e : adv_data_t) : Prop :=
  0 <= e.(len) < 256 /\ e.(len) <= 1 + Z.of_nat (length e.(data)).

Definition air_size (l : list adv_data_t) : Z := foldr (fun e n => e.(len) + 1 + n) 0 l.

(** ** Lemmas *)

Lemma view_length e : elem_ok e -> Z.of_nat (length (view e).2) = e.(len) - 1.
Proof. intros [H1 H2]. unfold view; cbn [snd]. rewrite length_take_le; lia. Qed.

Lemma element_bytes_ok e : elem_ok e -> element_bytes e = Done (ad_encode (view e)).
Proof.
  intros He. pose proof (view_length e He) as Hl. destruct He as [H1 H2].
  unfold element_bytes. destruct (Z.leb_spec (len e + 1) (2 + Z.of_nat (length (data e)))); [|lia].
  unfold ad_encode. rewrite Hl. cbn [view fst snd].
  replace (Z.to_nat (len e + 1)) with (S (S (Z.to_nat (len e - 1)))) by lia.
  cbn [take]. do 2 f_equal. lia.
Qed.

Lemma elem_ok_in l : Forall elem_ok l -> Forall elem_in l.
Proof. apply Forall_impl. intros e [H1 H2]. split; lia. Qed.

Lemma air_size_nonneg l : Forall elem_in l -> 0 <= air_size l.
Proof. induction 1 as [|e l [H1 _] _ IH]; simpl; lia. Qed.

Lemma calc_len_sum l n :
  Forall elem_in l -> 0 <= n -> n + air_size l < 2 ^ 16 ->
  fold_left advertiser_data_calc_len l n = n + air_size l.
Proof.
  intros Hl. revert n. induction Hl as [|e l [H1 _] Hl IH]; intros n Hn Hb; simpl in *; [lia|].
  pose proof (air_size_nonneg l Hl). unfold advertiser_data_calc_len at 2.
  rewrite uint_small by (unfold in_u; lia). rewrite IH; lia.
Qed.

Lemma copy_loop_ok l room :
  Forall elem_ok l -> air_size l <= room ->
  copy_loop l room = Done (ad_encode_all (map view l)).
Proof.
  intros Hl. revert room. induction Hl as [|e l He Hl IH]; intros room Hr; simpl in *; [done|].
  pose proof (air_size_nonneg l (elem_ok_in l Hl)). destruct (Z.ltb_spec room (len e + 1)); [lia|].
  rewrite element_bytes_ok by done. by rewrite IH by lia.
Qed.

Lemma encode_length l :
  Forall elem_ok l -> Z.of_nat (length (ad_encode_all (map view l))) = air_size l.
Proof.
  induction 1 as [|e l He Hl IH]; [done|]. pose proof (view_length e He) as Hv.
  cbn [map ad_encode_all flat_map air_size foldr] in *. fold (ad_encode_all (map view l)) in *.
  fold (air_size l) in *. rewrite length_app. unfold ad_encode. cbn [length]. lia.
Qed.

Lemma build_ok ad :
  Forall elem_ok ad.(ad_list) -> air_size ad.(ad_list) < 2 ^ 16 -> ad.(ad_list) <> [] ->
  advertiser_data_build ad
  = Done (Some (ad_encode_all (views ad), air_size ad.(ad_list)),
          mk_advertiser ad.(ad_list) (Some (ad_encode_all (views ad)))).
Proof.
  intros Hl Hb Hne. unfold advertiser_data_build, views.
  destruct (ad_list ad) as [|e l] eqn:E; [done|]. rewrite <- E in *.
  rewrite (calc_len_sum (ad_list ad) 0), Z.add_0_l by (by apply elem_ok_in || lia).
  by rewrite copy_loop_ok by (done || lia).
Qed.

(** The walk over an encoding, from any structure boundary. *)
Lemma dump_loop_ok l pre fuel :
  Forall elem_ok l -> Z.of_nat (length pre) + air_size l < 2 ^ 16 -> (length l < fuel)%nat ->
  dump_loop fuel (pre ++ ad_encode_all (map view l)) (Z.of_nat (length pre) + air_size l)
    (Z.of_nat (length pre)) = Done (map view l).
Proof.
  intros Hl. revert pre fuel. induction Hl as [|e l He Hl IH]; intros pre [|fuel] Hb Hf; try (simpl in Hf; lia).
  - simpl. by rewrite Z.add_0_r, Z.ltb_irrefl.
  - pose proof (air_size_nonneg l (elem_ok_in l Hl)). pose proof (view_length e He) as Hv. destruct He as [He1 He2].
    cbn [dump_loop air_size foldr] in *. fold (air_size l) in *.
    destruct (Z.ltb_spec (Z.of_nat (length pre)) (Z.of_nat (length pre) + (len e + 1 + air_size l))); [|lia].
    rewrite Nat2Z.id, drop_app_length. cbn [map ad_encode_all flat_map].
    fold (ad_encode_all (map view l)). unfold ad_encode at 1. cbn [app advertiser_data_info hd].
    rewrite Hv. destruct (Z.ltb_spec (1 + (len e - 1)) 1); [lia|].
    rewrite length_app, Nat2Z.inj_add.
    destruct (Z.leb_spec (1 + (len e - 1) - 1) (Z.of_nat (length (view e).2) + Z.of_nat (length (ad_encode_all (map view l))))); [|lia].
    replace (hd 0 (ad_encode (view e) ++ ad_encode_all (map view l))) with (len e)
      by (unfold ad_encode; cbn [app hd]; lia).
    rewrite uint_small by (unfold in_u; lia).
    specialize (IH (pre ++ ad_encode (view e)) fuel).
    rewrite <- app_assoc in IH.
    replace (Z.of_nat (length (pre ++ ad_encode (view e)))) with (Z.of_nat (length pre) + (len e + 1)) in IH
      by (rewrite length_app; unfold ad_encode; cbn [length]; lia).
    replace (Z.of_nat (length pre) + (len e + 1) + air_size l)
      with (Z.of_nat (length pre) + (len e + 1 + air_size l)) in IH by lia.
    rewrite IH by (simpl in Hf; lia). do 2 f_equal.
    replace (Z.to_nat (1 + (len e - 1) - 1)) with (length (view e).2) by lia.
    rewrite take_app_length. by destruct (view e).
Qed.

(** ** The elements the operations add *)

Inductive ad_op :=
| op_set_name (name : list Z)
| op_set_flags (flags : Z)
| op_set_appearance (appearance : Z)
| op_add_data (ty : Z) (bytes : list Z)
| op_remove_data (ty : Z) (bytes : list Z)
| op_add_manufacture_data (id : Z) (bytes : list Z)
| op_add_service_uuid (uuid : bt_uuid_t)
| op_add_service_data (uuid : bt_uuid_t) (bytes : list Z).

Definition apply_op (ad : advertiser_data_t) (op : ad_op) : advertiser_data_t :=
  match op with
  | op_set_name name => advertiser_data_set_name name ad
  | op_set_flags f => advertiser_data_set_flags f ad
  | op_set_appearance a => advertiser_data_set_appearance a ad
  | op_add_data ty b => advertiser_data_add_data ty b ad
  | op_remove_data ty b => advertiser_data_remove_data ty b ad
  | op_add_manufacture_data i b => advertiser_data_add_manufacture_data i b ad
  | op_add_service_uuid u => (advertiser_data_add_service_uuid u ad).2
  | op_add_service_data u b => (advertiser_data_add_service_data u b ad).2
  end.

(** The C types of the arguments: a [uint8_t] length, a 16-byte union. *)
Definition op_typed (op : ad_op) : Prop :=
  match op with
  | op_add_data _ b => (length b <= 255)%nat
  | op_add_service_uuid u | op_add_service_data u _ => length u.(val) = 16%nat
  | _ => True
  end.

#[export] Instance op_typed_dec op : Decision (op_typed op).
Proof. destruct op; apply _. Defined.

Lemma add_tail_in e ad :
  elem_in e -> Forall elem_in ad.(ad_list) -> Forall elem_in (bt_list_add_tail e ad).(ad_list).
Proof. intros He Hl. apply Forall_app. auto. Qed.

Lemma apply_op_in op ad :
  op_typed op -> Forall elem_in ad.(ad_list) -> Forall elem_in (apply_op ad op).(ad_list).
Proof.
  intros Ht Hl. destruct op as [name|f|a|ty b|ty b|i b|u|u b]; simpl in *; try exact Hl.
  - unfold advertiser_data_set_name. pose proof (in_u8_of (Z.of_nat (length name))) as Hn.
    unfold in_u in Hn. unfold BT_LE_AD_NAME_LEN.
    assert (u8 (Z.of_nat (length name)) <= Z.of_nat (length name)) by (apply Z.mod_le; lia).
    destruct (Z.ltb_spec 29 (u8 (Z.of_nat (length name)))); apply add_tail_in; try done;
      unfold elem_in; cbn [len data]; rewrite length_app, length_replicate, length_take_le by lia;
      rewrite (u8_byte (_ + 1)) by (unfold in_u; lia); lia.
  - by apply add_tail_in.
  - apply add_tail_in; [|done]. unfold elem_in; simpl. lia.
  - apply add_tail_in; [|done]. unfold elem_in; simpl. lia.
  - apply add_tail_in; [|done]. unfold elem_in; cbn [len data].
    pose proof (in_u8_of (Z.of_nat (length b) + 2 + 1)). unfold in_u in *.
    assert (u8 (Z.of_nat (length b) + 2 + 1) <= Z.of_nat (length b) + 2 + 1) by (apply Z.mod_le; lia).
    simpl length. lia.
  - unfold advertiser_data_add_service_uuid.
    assert (elem_in (uuid128_element u)) by (unfold elem_in; simpl; rewrite length_take_le; lia).
    repeat case_match; try done; by apply add_tail_in.
  - unfold advertiser_data_add_service_data. repeat case_match; try done; apply add_tail_in; try done;
      unfold elem_in; cbn [len data]; rewrite length_app, ?length_take_le by lia; simpl length; lia.
Qed.

Lemma ops_in ops ad :
  Forall op_typed ops -> Forall elem_in ad.(ad_list) ->
  Forall elem_in (fold_left apply_op ops ad).(ad_list).
Proof.
  intros Ho. revert ad. induction Ho as [|op ops Hop Ho IH]; intros ad Hl; [done|].
  simpl. by apply IH, apply_op_in.
Qed.

Lemma copy_loop_in l room :
  Forall elem_in l -> air_size l <= room ->
  exists b, copy_loop l room = Done b /\ Z.of_nat (length b) = air_size l.
Proof.
  intros Hl. revert room. induction Hl as [|e l [H1 H2] Hl IH]; intros room Hr; simpl in *; [by exists []|].
  pose proof (air_size_nonneg l Hl).
  destruct (Z.ltb_spec room (len e + 1)); [lia|].
  destruct (IH (room - (len e + 1))) as (b & -> & Hb); [lia|].
  unfold element_bytes. destruct (Z.leb_spec (len e + 1) (2 + Z.of_nat (length (data e)))); [|lia].
  eexists. split; [done|]. rewrite length_app, length_take_le by (simpl; lia). lia.
Qed.

(** ** Claims *)

(** C38: A payload of well-formed elements that fits 16 bits is laid out as
    the concatenation of the AD structures (length, type, data) in the order
    they were added, with its length reported exactly; walking it with
    [advertiser_data_dump] stays in bounds, ends, and shows the same
    structures again. *)
Theorem advertiser_build_dump_roundtrip (ad : advertiser_data_t) :
  Forall elem_ok ad.(ad_list) -> air_size ad.(ad_list) < 2 ^ 16 -> ad.(ad_list) <> [] ->
  exists buf n ad', advertiser_data_build ad = Done (Some (buf, n), ad') /\
    buf = ad_encode_all (views ad) /\ n = Z.of_nat (length buf) /\
    ad'.(ad_list) = ad.(ad_list) /\ ad'.(buffer) = Some buf /\
    advertiser_data_dump buf n = Done (views ad).
Proof.
  intros Hl Hb Hne. pose proof (encode_length _ Hl) as Hlen.
  do 3 eexists. split; [by apply build_ok|]. do 4 (split; [done|]).
  pose proof (dump_loop_ok (ad_list ad) [] (S (Z.to_nat (air_size (ad_list ad)))) Hl) as H.
  simpl in H. apply H; [lia|].
  clear -Hl. induction Hl as [|e l [? _] Hl IH]; simpl; [lia|].
  pose proof (air_size_nonneg l (elem_ok_in l Hl)). lia.
Qed.

Definition demo_ops : list ad_op :=
  [op_set_flags 6; op_set_name [86; 101; 108; 97]; op_set_appearance 0x0341;
   op_add_service_uuid (bt_uuid16_create 0x180F)].

Definition demo_ad : advertiser_data_t := fold_left apply_op demo_ops advertiser_data_new.

Lemma advertiser_build_dump_roundtrip_witness :
  exists buf n ad', advertiser_data_build demo_ad = Done (Some (buf, n), ad') /\ n = 17 /\
    advertiser_data_dump buf n = Done (views demo_ad).
Proof.
  destruct (advertiser_build_dump_roundtrip demo_ad) as (b & n & ad' & H & _ & _ & _ & _ & Hd).
  - apply (bool_decide_unpack _). vm_compute. exact I.
  - vm_compute. reflexivity.
  - vm_compute. discriminate.
  - exists b, n, ad'. split; [exact H|]. split; [|exact Hd].
    vm_compute in H. injection H as <- <- <-. reflexivity.
Defined.

(** Whatever operations are applied, with arguments of their C types and
    however long the names and data are, building never reads past an
    element nor writes past the buffer while the total fits 16 bits. *)
Theorem advertiser_build_in_bounds (ops : list ad_op) :
  Forall op_typed ops ->
  let ad := fold_left apply_op ops advertiser_data_new in
  air_size ad.(ad_list) < 2 ^ 16 ->
  exists r ad', advertiser_data_build ad = Done (r, ad') /\
    match r with
    | Some (buf, n) => Z.of_nat (length buf) = n /\ n = air_size ad.(ad_list)
    | None => ad.(ad_list) = []
    end.
Proof.
  intros Ho ad Hb. assert (Forall elem_in (ad_list ad)) as Hl by (by apply ops_in).
  unfold advertiser_data_build. destruct (ad_list ad) as [|e l] eqn:E; [by exists None, ad|].
  rewrite <- E in *. rewrite (calc_len_sum (ad_list ad) 0), Z.add_0_l by (done || lia).
  destruct (copy_loop_in (ad_list ad) (air_size (ad_list ad)) Hl) as (b & -> & Hlen); [lia|].
  by do 2 eexists.
Qed.

Lemma advertiser_build_in_bounds_witness :
  exists r ad', advertiser_data_build
    (fold_left apply_op (op_add_data 0x2A [] :: demo_ops) advertiser_data_new) = Done (r, ad').
Proof.
  destruct (advertiser_build_in_bounds (op_add_data 0x2A [] :: demo_ops)) as (r & ad' & H & _).
  - apply (bool_decide_unpack _). vm_compute. exact I.
  - vm_compute. reflexivity.
  - exists r, ad'. exact H.
Defined.

Lemma views_add e ad : views (bt_list_add_tail e ad) = views ad ++ [view e].
Proof. unfold views, bt_list_add_tail. simpl. by rewrite map_app. Qed.

Lemma set_name_view name ad :
  (length name <= 255)%nat ->
  views (advertiser_data_set_name name ad)
  = views ad ++ [if bool_decide (length name <= 29)%nat then (BT_AD_NAME_COMPLETE, name)
                 else (BT_AD_NAME_SHORT, take 29 name)].
Proof.
  intros Hn. unfold advertiser_data_set_name, BT_LE_AD_NAME_LEN.
  rewrite u8_byte by (unfold in_u; lia). case_bool_decide as Hs;
    [destruct (Z.ltb_spec 29 (Z.of_nat (length name))); [lia|]
    |destruct (Z.ltb_spec 29 (Z.of_nat (length name))); [|lia]];
    rewrite views_add; unfold view; cbn [type data len]; rewrite u8_byte by (unfold in_u; lia).
  - replace (Z.to_nat (Z.of_nat (length name) + 1 - 1)) with (length name) by lia.
    rewrite Nat2Z.id, (take_ge name) by lia. by rewrite take_app_length.
  - change (Z.to_nat (29 + 1 - 1)) with 29%nat. change (Z.to_nat 29) with 29%nat.
    rewrite take_app_le, take_take by (rewrite length_take; lia). done.
Qed.

(** What each operation puts on the air: flags, appearance and
    manufacturer data with their values; a 16-bit or 128-bit service UUID as
    the complete list of its size; and a name of up to 29 bytes whole, a
    longer one cut to 29 and marked as shortened. *)
Theorem advertiser_elements_on_air (ad : advertiser_data_t) (flags appearance id : Z)
    (bytes name : list Z) (u : bt_uuid_t) :
  (length bytes <= 252)%nat -> (length name <= 255)%nat -> length u.(val) = 16%nat ->
  views (advertiser_data_set_flags flags ad) = views ad ++ [(BT_AD_FLAGS, [flags])] /\
  views (advertiser_data_set_appearance appearance ad)
    = views ad ++ [(BT_AD_GAP_APPEARANCE, UINT16_TO_STREAM appearance)] /\
  views (advertiser_data_add_manufacture_data id bytes ad)
    = views ad ++ [(BT_AD_MANUFACTURER_DATA, UINT16_TO_STREAM id ++ bytes)] /\
  (BtUuid.type u = BT_UUID16_TYPE ->
   let r := advertiser_data_add_service_uuid u ad in
   r.1 = true /\ views r.2 = views ad ++ [(BT_AD_UUID16_ALL, UINT16_TO_STREAM (val_u16 u))]) /\
  (BtUuid.type u = BT_UUID128_TYPE ->
   let r := advertiser_data_add_service_uuid u ad in
   r.1 = true /\ views r.2 = views ad ++ [(BT_AD_UUID128_ALL, u.(val))]) /\
  views (advertiser_data_set_name name ad)
    = views ad ++ [if bool_decide (length name <= 29)%nat then (BT_AD_NAME_COMPLETE, name)
                   else (BT_AD_NAME_SHORT, take 29 name)].
Proof.
  intros Hb Hn Hu. split; [apply views_add|]. split; [apply views_add|]. split; [|split; [|split]].
  - unfold advertiser_data_add_manufacture_data. rewrite views_add. unfold view; cbn [type data len].
    rewrite u8_byte by (unfold in_u; lia).
    rewrite (take_ge (UINT16_TO_STREAM id ++ bytes)); [done|]. simpl length. lia.
  - intros E. unfold advertiser_data_add_service_uuid. rewrite E. split; [done|]. apply views_add.
  - intros E. unfold advertiser_data_add_service_uuid. rewrite E. split; [done|]. cbn [snd].
    etransitivity; [apply views_add|]. unfold view, uuid128_element; cbn [type data len].
    by rewrite !take_ge by (rewrite ?length_take; lia).
  - by apply set_name_view.
Qed.

Lemma advertiser_elements_on_air_witness :
  views (advertiser_data_set_name [86; 101; 108; 97] demo_ad)
  = views demo_ad ++ [(BT_AD_NAME_COMPLETE, [86; 101; 108; 97])].
Proof.
  apply (advertiser_elements_on_air demo_ad 6 0 0 [1; 2] [86; 101; 108; 97] (bt_uuid16_create 0x180F));
    vm_compute; lia.
Defined.

(** ** What some operations leave out *)

(** [advertiser_data_add_data] counts the data but not the type byte: the
    last byte given is never transmitted. *)
Theorem add_data_drops_last_byte (ad : advertiser_data_t) (ty : Z) (bytes : list Z) (x : Z) :
  views (advertiser_data_add_data ty (bytes ++ [x]) ad) = views ad ++ [(ty, bytes)].
Proof.
  unfold advertiser_data_add_data. rewrite views_add. unfold view; cbn [type data len].
  rewrite length_app. simpl length.
  replace (Z.to_nat (Z.of_nat (length bytes + 1) - 1)) with (length bytes) by lia.
  by rewrite take_app_length.
Qed.

(** [advertiser_data_add_service_data] counts the UUID but not the data. *)
Theorem service_data_drops_payload (ad : advertiser_data_t) (v : Z) (bytes : list Z) :
  views (advertiser_data_add_service_data (bt_uuid16_create v) bytes ad).2
  = views ad ++ [(BT_AD_SERVICE_DATA16, UINT16_TO_STREAM (val_u16 (bt_uuid16_create v)))].
Proof. apply views_add. Qed.

(** A 32-bit UUID is announced as a 128-bit one, with the 16 bytes of the
    union instead of its four. *)
Theorem service_uuid32_sent_as_uuid128 (ad : advertiser_data_t) (v : Z) :
  views (advertiser_data_add_service_uuid (bt_uuid32_create v) ad).2
  = views ad ++ [(BT_AD_UUID128_ALL, (bt_uuid32_create v).(val))].
Proof. apply views_add. Qed.

(** A structure whose length byte exceeds the buffer is dumped all the same. *)
Theorem dump_overreads_truncated :
  advertiser_data_dump [9; BT_AD_NAME_COMPLETE; 65] 3 = OutOfBounds.
Proof. reflexivity. Qed.

End AdvData.
