(* ===== verification/ScanFilter.v ===== *)
(** * Scan records and scan filters (service/src/scan_record.c, scan_filter.c)

    A scan result carries the AD structures of an advertiser;
    [scan_record_parse] looks for a 16-bit service UUID in them and
    [scanner_match_filter] compares it with the UUIDs of a filter.  The
    payloads are those [AdvData] builds. *)

From S2P Require Import Prelude Bytes BtUuid AdvData.

Module ScanFilter.
Import Bytes BtUuid AdvData.
Local Open Scope Z_scope.

Definition BT_EIR_UUID16_INCOMPLETE : Z := 0x02.
Definition BT_EIR_UUID16_COMPLETE : Z := 0x03.
Definition BT_EIR_SVC_DATA_16 : Z := 0x16.
Definition BLE_SCAN_FILTER_UUID_MAX_NUM : nat := 2.

Record scan_record_t := mk_record {
  active : bool;
  uuid : Z;
  tx_power : Z;
  flag : Z;
  name : option (list Z);
  name_size : Z;
}.

Definition set_uuid (u : Z) (r : scan_record_t) : scan_record_t :=
  mk_record r.(active) u r.(tx_power) r.(flag) r.(name) r.(name_size).

Definition record_parse_uuid16 (r : scan_record_t) (p : list Z) : run scan_record_t :=
  match STREAM_TO_UINT16 p with
  | Some (u, _) => Done (set_uuid u r)
  | None => OutOfBounds
  end.

(** The types whose first UUID is recorded. *)
Definition is_uuid16_type (ty : Z) : bool :=
  (ty =? BT_EIR_UUID16_INCOMPLETE) || (ty =? BT_EIR_UUID16_COMPLETE) || (ty =? BT_EIR_SVC_DATA_16).

(** The loop: [p] is the moving pointer [eir_data], [n] the counter [len]. *)
Fixpoint parse_loop (fuel : nat) (r : scan_record_t) (p : list Z) (n eir_len : Z) : run scan_record_t :=
  match fuel with
  | O => OutOfFuel
  | S fuel =>
      if n <? eir_len - 1 then
        match p with
        | [] => OutOfBounds
        | field_len :: _ =>
            if field_len =? 0 then Done r
            else
              let n := u16 (n + (field_len + 1)) in
              if eir_len <? n then Done r
              else match p !! 1%nat with
                   | None => OutOfBounds
                   | Some ty =>
                       let data := drop 2 p in
                       let data_len := u8 (field_len - 1) in
                       match (if is_uuid16_type ty && (2 <=? data_len)
                              then record_parse_uuid16 r data else Done r) with
                       | Done r => parse_loop fuel r (drop (Z.to_nat (field_len + 1)) p) n eir_len
                       | e => e
                       end
                   end
        end
      else Done r
  end.

(** A round consumes two bytes at least, so [eir_len + 1] rounds are enough
    ([scan_parse_total]). *)
Definition scan_record_parse (r : scan_record_t) (eir_data : option (list Z)) (eir_len : Z)
    : run scan_record_t :=
  match eir_data with
  | None => Done r
  | Some p => parse_loop (S (Z.to_nat eir_len)) r p 0 eir_len
  end.

(** [uuids]: the array of [BLE_SCAN_FILTER_UUID_MAX_NUM] entries. *)
Definition match_uuid (u : Z) (uuids : list Z) : bool :=
  existsb (fun i => let v := nth i uuids 0 in negb (v =? 0) && (u =? v))
    (seq 0 BLE_SCAN_FILTER_UUID_MAX_NUM).

Definition scanner_match_filter (r : scan_record_t) (uuids : list Z) : bool :=
  negb (r.(uuid) =? 0) && match_uuid r.(uuid) uuids.

(** ** Lemmas *)

Lemma parse_loop_total fuel r p n eir_len :
  bytes_ok p -> 0 <= n <= eir_len -> eir_len < 256 -> eir_len - n <= Z.of_nat (length p) ->
  (Z.to_nat (eir_len - n) < fuel)%nat ->
  exists u, parse_loop fuel r p n eir_len = Done (set_uuid u r).
Proof.
  revert r p n. induction fuel as [|fuel IH]; intros r p n Hp Hn He Hlen Hf; [lia|].
  assert (forall r, exists u, Done r = Done (set_uuid u r)) as Hsame
    by (intros r'; exists (uuid r'); by destruct r').
  simpl. destruct (Z.ltb_spec n (eir_len - 1)); [|apply Hsame].
  destruct p as [|fl [|ty p]]; simpl in Hlen; try lia.
  apply Forall_cons_iff in Hp as Hp'. destruct Hp' as [Hfl _]. unfold in_u in Hfl.
  destruct (Z.eqb_spec fl 0); [apply Hsame|].
  rewrite uint_small by (unfold in_u; lia).
  destruct (Z.ltb_spec eir_len (n + (fl + 1))); [apply Hsame|].
  cbn [lookup list_lookup]. rewrite u8_byte by (unfold in_u; lia).
  assert (bytes_ok (drop (Z.to_nat (fl + 1)) (fl :: ty :: p))) as Hd by (by apply Forall_drop).
  assert (Z.of_nat (length (drop (Z.to_nat (fl + 1)) (fl :: ty :: p)))
          = Z.of_nat (length p) + 2 - (fl + 1)) as Hl by (rewrite length_drop; simpl; lia).
  destruct (is_uuid16_type ty && (2 <=? fl - 1)) eqn:E.
  - apply andb_prop in E as [_ E]. apply Z.leb_le in E. cbn [drop].
    destruct p as [|b0 [|b1 p]]; simpl in Hlen; try lia. cbn [record_parse_uuid16 STREAM_TO_UINT16].
    unfold record_parse_uuid16; cbn [STREAM_TO_UINT16].
    destruct (IH (set_uuid (u16 (b0 + Z.shiftl b1 8)) r) _ (n + (fl + 1)) Hd) as [u Hu];
      [simpl in Hl; lia..|]. exists u. exact Hu.
  - apply IH; [exact Hd|lia..].
Qed.

(** The UUID a structure contributes. *)
Definition ad_uuid16 (x : Z * list Z) : option Z :=
  if is_uuid16_type x.1
  then match x.2 with b0 :: b1 :: _ => Some (u16 (b0 + Z.shiftl b1 8)) | _ => None end
  else None.

(** Every structure overwrites what the ones before it left. *)
Definition last_uuid16 (l : list (Z * list Z)) (u : Z) : Z :=
  fold_left (fun u x => default u (ad_uuid16 x)) l u.

Definition struct_ok (x : Z * list Z) : Prop := (length x.2 < 255)%nat.

#[export] Instance struct_ok_dec x : Decision (struct_ok x).
Proof. unfold struct_ok. apply _. Defined.

Lemma parse_step fuel r x rest n eir_len :
  struct_ok x -> 0 <= n -> n + Z.of_nat (length (ad_encode x)) <= eir_len -> eir_len < 256 ->
  parse_loop (S fuel) r (ad_encode x ++ rest) n eir_len
  = parse_loop fuel (set_uuid (default r.(uuid) (ad_uuid16 x)) r) rest
      (n + Z.of_nat (length (ad_encode x))) eir_len.
Proof.
  destruct x as [ty d]. unfold struct_ok, ad_encode, ad_uuid16; cbn [fst snd]. intros Hx Hn Hle He.
  cbn [length] in *.
  cbn [parse_loop app]. destruct (Z.ltb_spec n (eir_len - 1)); [|lia].
  destruct (Z.eqb_spec (1 + Z.of_nat (length d)) 0); [lia|].
  rewrite uint_small by (unfold in_u; lia).
  destruct (Z.ltb_spec eir_len (n + (1 + Z.of_nat (length d) + 1))); [lia|].
  cbn [lookup list_lookup]. rewrite u8_byte by (unfold in_u; lia).
  replace (Z.to_nat (1 + Z.of_nat (length d) + 1)) with (length (1 + Z.of_nat (length d) :: ty :: d))
    by (cbn [length]; lia).
  change (1 + Z.of_nat (length d) :: ty :: d ++ rest) with ((1 + Z.of_nat (length d) :: ty :: d) ++ rest).
  rewrite drop_app_length. cbn [drop app].
  replace (n + (1 + Z.of_nat (length d) + 1)) with (n + Z.of_nat (S (S (length d)))) by lia.
  assert (r = set_uuid (uuid r) r) as Hsame by (by destruct r).
  destruct (is_uuid16_type ty); [|cbn [andb from_option]; by rewrite <- Hsame].
  destruct d as [|b0 [|b1 d]]; cbn [length andb from_option].
  - by rewrite <- Hsame.
  - by rewrite <- Hsame.
  - destruct (Z.leb_spec 2 (1 + Z.of_nat (S (S (length d))) - 1)); [|lia]. done.
Qed.

Lemma parse_encoded l fuel r n eir_len :
  Forall struct_ok l -> 0 <= n -> n + Z.of_nat (length (ad_encode_all l)) = eir_len -> eir_len < 256 ->
  (length l < fuel)%nat ->
  parse_loop fuel r (ad_encode_all l) n eir_len = Done (set_uuid (last_uuid16 l r.(uuid)) r).
Proof.
  intros Hl. revert fuel r n. induction Hl as [|x l Hx Hl IH]; intros [|fuel] r n Hn Heq He Hf;
    try (simpl in Hf; lia).
  - simpl in *. destruct (Z.ltb_spec n (eir_len - 1)); [lia|]. by destruct r.
  - cbn [ad_encode_all flat_map] in *. fold (ad_encode_all l) in *. rewrite length_app in Heq.
    rewrite parse_step by (done || lia). rewrite IH by (simpl in Hf; lia). done.
Qed.

Lemma encode_all_length l : (2 * length l <= length (ad_encode_all l))%nat.
Proof.
  induction l as [|x l IH]; [done|]. cbn [ad_encode_all flat_map]. fold (ad_encode_all l).
  rewrite length_app. unfold ad_encode. cbn [length]. lia.
Qed.

Lemma parse_encoded_all r l :
  Forall struct_ok l -> Z.of_nat (length (ad_encode_all l)) < 256 ->
  scan_record_parse r (Some (ad_encode_all l)) (Z.of_nat (length (ad_encode_all l)))
  = Done (set_uuid (last_uuid16 l r.(uuid)) r).
Proof.
  intros Hl Hb. unfold scan_record_parse. pose proof (encode_all_length l).
  apply parse_encoded; (done || lia).
Qed.

Lemma match_uuid_spec u uuids :
  length uuids = BLE_SCAN_FILTER_UUID_MAX_NUM -> u <> 0 -> match_uuid u uuids = true <-> In u uuids.
Proof.
  intros Hl Hu. destruct uuids as [|a [|b [|]]]; try done. unfold match_uuid. simpl.
  destruct (Z.eqb_spec a 0), (Z.eqb_spec b 0), (Z.eqb_spec u a), (Z.eqb_spec u b); simpl;
    split; intros; (tauto || (subst; tauto) || lia || (destruct_or?; subst; done)).
Qed.

(** ** Claims *)

(** C39: Parsing the payload of any scan result ends and stays inside the
    received buffer, for every content of it and every length that fits
    [uint8_t]; only the UUID of the record changes. *)
Theorem scan_parse_total (r : scan_record_t) (p : list Z) (eir_len : Z) :
  bytes_ok p -> in_u 8 eir_len -> eir_len <= Z.of_nat (length p) ->
  exists u, scan_record_parse r (Some p) eir_len = Done (set_uuid u r).
Proof.
  intros Hp He Hl. unfold in_u in He. unfold scan_record_parse. apply parse_loop_total; auto; lia.
Qed.

Definition blank_record : scan_record_t := mk_record false 0 0 0 None 0.

Lemma scan_parse_total_witness :
  exists u, scan_record_parse blank_record (Some [3; 3; 15; 24; 9; 9; 65]) 7 = Done (set_uuid u blank_record).
Proof.
  apply (scan_parse_total blank_record [3; 3; 15; 24; 9; 9; 65] 7);
    apply (bool_decide_unpack _); vm_compute; exact I.
Defined.

(** On the payload of an advertiser (any well-formed structures, up to
    the 255 bytes a scan result holds) the UUID recorded is the first of the
    last structure that lists 16-bit UUIDs or carries 16-bit service data. *)
Theorem scan_parse_uuid (r : scan_record_t) (l : list (Z * list Z)) :
  Forall struct_ok l -> Z.of_nat (length (ad_encode_all l)) < 256 ->
  scan_record_parse r (Some (ad_encode_all l)) (Z.of_nat (length (ad_encode_all l)))
  = Done (set_uuid (last_uuid16 l r.(uuid)) r).
Proof. apply parse_encoded_all. Qed.

Lemma scan_parse_uuid_witness :
  scan_record_parse blank_record (Some (ad_encode_all (views demo_ad))) 17
  = Done (set_uuid 0x180F blank_record).
Proof.
  apply (scan_parse_uuid blank_record (views demo_ad)).
  - apply (bool_decide_unpack _). vm_compute. exact I.
  - vm_compute. reflexivity.
Defined.

(** An advertiser that lists a 16-bit service UUID last is matched by a
    scanner exactly when the scanner's filter contains that UUID: adding the
    UUID, building the payload, parsing it and matching it fit together. *)
Theorem advertised_uuid_is_matched (ad : advertiser_data_t) (v : Z) (r : scan_record_t)
    (uuids : list Z) :
  Forall elem_ok ad.(ad_list) -> in_u 16 v -> v <> 0 ->
  length uuids = BLE_SCAN_FILTER_UUID_MAX_NUM -> air_size ad.(ad_list) + 4 < 256 ->
  exists buf n ad' r',
    advertiser_data_build (advertiser_data_add_service_uuid (bt_uuid16_create v) ad).2
      = Done (Some (buf, n), ad') /\
    scan_record_parse r (Some buf) n = Done r' /\
    (scanner_match_filter r' uuids = true <-> In v uuids).
Proof.
  intros Hl Hv Hv0 Hu Hb.
  set (e := mk_adv (2 + 1) BT_AD_UUID16_ALL (UINT16_TO_STREAM (val_u16 (bt_uuid16_create v)))).
  assert ((advertiser_data_add_service_uuid (bt_uuid16_create v) ad).2 = bt_list_add_tail e ad) as -> by done.
  assert (Forall elem_ok (ad_list (bt_list_add_tail e ad))) as Hl'
    by (apply Forall_app; split; [done|]; constructor; [|done]; unfold elem_ok; simpl; lia).
  assert (air_size (ad_list (bt_list_add_tail e ad)) = air_size (ad_list ad) + 4) as Hs.
  { simpl. clear. induction (ad_list ad) as [|x l IH]; simpl in *; lia. }
  rewrite build_ok by (done || lia || (simpl; by destruct (ad_list ad))).
  do 4 eexists. split; [done|]. rewrite <- (encode_length _ Hl'). split.
  - apply parse_encoded_all; [|rewrite encode_length by done; lia].
    apply Forall_map. revert Hl'. apply Forall_impl. intros x Hx. unfold struct_ok.
    pose proof (view_length x Hx). destruct Hx. lia.
  - unfold views. cbn [bt_list_add_tail ad_list]. rewrite map_app. unfold last_uuid16. rewrite fold_left_app. cbn [fold_left map].
    assert (ad_uuid16 (view e) = Some v) as ->.
    { unfold e, view, ad_uuid16. cbn [type data len fst snd]. rewrite val_u16_create by done.
      pose proof (uint16_stream_roundtrip v [] Hv) as Hr. cbn in Hr. change (Z.to_nat (2 + 1 - 1)) with 2%nat. cbn. congruence. }
    cbn [from_option]; unfold id. unfold scanner_match_filter, set_uuid. cbn [uuid id].
    destruct (Z.eqb_spec v 0); [done|]. cbn [negb andb]. by apply match_uuid_spec.
Qed.

Lemma advertised_uuid_is_matched_witness :
  exists buf n ad' r',
    advertiser_data_build (advertiser_data_add_service_uuid (bt_uuid16_create 0x180D) demo_ad).2
      = Done (Some (buf, n), ad') /\
    scan_record_parse blank_record (Some buf) n = Done r' /\
    (scanner_match_filter r' [0x180F; 0x180D] = true).
Proof.
  destruct (advertised_uuid_is_matched demo_ad 0x180D blank_record [0x180F; 0x180D])
    as (buf & n & ad' & r' & Hb & Hp & Hm).
  - apply (bool_decide_unpack _). vm_compute. exact I.
  - unfold in_u. lia.
  - discriminate.
  - reflexivity.
  - vm_compute. reflexivity.
  - exists buf, n, ad', r'. split; [exact Hb|]. split; [exact Hp|]. apply Hm. simpl. auto.
Defined.

End ScanFilter.
