(* ===== verification/BtHash.v ===== *)
(** * The hash of the framework (framework/common/bt_hash.c)

    [bt_hash4] is the classic multiply-by-33 hash, unrolled eight times with
    the loop entered in the middle (Duff's device). *)

From S2P Require Import Prelude.

Module BtHash.
Local Open Scope Z_scope.

(** [HASH4]: [h = ((h << 5) + h + *key++)] on [uint32_t]; [None] is a read
    past the key. *)
Definition HASH4 (st : option (Z * list Z)) : option (Z * list Z) :=
  match st with
  | Some (h, k :: key) => Some (u32 (Z.shiftl h 5 + h + k), key)
  | _ => None
  end.

(** The body from [case n] down to [case 1]. *)
Fixpoint hash_from (n : nat) (st : option (Z * list Z)) : option (Z * list Z) :=
  match n with O => st | S n => hash_from n (HASH4 st) end.

(** [do ... while (--loop)] after the first pass. *)
Fixpoint hash_passes (loop : nat) (st : option (Z * list Z)) : option (Z * list Z) :=
  match loop with O => st | S loop => hash_passes loop (hash_from 8 st) end.

Definition bt_hash4 (key : list Z) (len : Z) : option Z :=
  if 0 <? len then
    let loop := Z.shiftr (len + 8 - 1) 3 in
    let entry := Z.land len (8 - 1) in
    let first := if entry =? 0 then 8%nat else Z.to_nat entry in
    option_map fst (hash_passes (Z.to_nat (loop - 1)) (hash_from first (Some (0, key))))
  else Some 0.

(** ** Reference: one multiplication and addition per byte *)

Definition hash_ref (h : Z) (key : list Z) : Z := fold_left (fun h k => u32 (33 * h + k)) key h.

Lemma hash_from_ref n h key :
  (n <= length key)%nat -> hash_from n (Some (h, key)) = Some (hash_ref h (take n key), drop n key).
Proof.
  revert h key. induction n as [|n IH]; intros h key Hn; [by rewrite take_0, drop_0|].
  destruct key as [|k key]; simpl in Hn; [lia|]. simpl. rewrite IH by lia.
  cbn [take drop hash_ref fold_left]. unfold hash_ref. do 4 f_equal.
  rewrite Z.shiftl_mul_pow2 by lia. lia.
Qed.

Lemma hash_ref_app h a b : hash_ref h (a ++ b) = hash_ref (hash_ref h a) b.
Proof. apply fold_left_app. Qed.

Lemma take_split {A} n m (l : list A) : take n l ++ take m (drop n l) = take (n + m) l.
Proof. revert l. induction n as [|n IH]; intros [|x l]; simpl; rewrite ?take_nil; [done..|]. by rewrite IH. Qed.

Lemma hash_passes_ref loop h key :
  (8 * loop <= length key)%nat ->
  hash_passes loop (Some (h, key)) = Some (hash_ref h (take (8 * loop) key), drop (8 * loop) key).
Proof.
  revert h key. induction loop as [|loop IH]; intros h key Hl; [by rewrite take_0, drop_0|].
  cbn [hash_passes]. rewrite hash_from_ref by lia. rewrite IH by (rewrite length_drop; lia).
  rewrite <- hash_ref_app, drop_drop. replace (8 * S loop)%nat with (8 + 8 * loop)%nat by lia.
  by rewrite take_split.
Qed.

(** ** Claims *)

(** For a key of at least [len] bytes the unrolled loop reads exactly
    its first [len] bytes, one multiply-by-33 step per byte in order, modulo
    2^32. *)
Theorem bt_hash4_equiv_reference (key : list Z) (len : nat) :
  (len <= length key)%nat ->
  bt_hash4 key (Z.of_nat len) = Some (hash_ref 0 (take len key)).
Proof.
  intros Hl. unfold bt_hash4. destruct (Z.ltb_spec 0 (Z.of_nat len)) as [Hp|Hp];
    [|by replace len with 0%nat by lia].
  rewrite Z.shiftr_div_pow2 by lia. change (8 - 1) with (Z.ones 3). rewrite Z.land_ones by lia.
  change (2 ^ 3) with 8. pose proof (Z.div_mod (Z.of_nat len + 8 - 1) 8 ltac:(lia)) as Hd.
  pose proof (Z.mod_pos_bound (Z.of_nat len + 8 - 1) 8 ltac:(lia)).
  pose proof (Z.div_mod (Z.of_nat len) 8 ltac:(lia)) as Hd'.
  pose proof (Z.mod_pos_bound (Z.of_nat len) 8 ltac:(lia)).
  set (first := if Z.of_nat len mod 8 =? 0 then 8%nat else Z.to_nat (Z.of_nat len mod 8)).
  set (loop := Z.to_nat ((Z.of_nat len + 8 - 1) / 8 - 1)).
  assert (len = first + 8 * loop)%nat as Hsum.
  { subst first loop. destruct (Z.eqb_spec (Z.of_nat len mod 8) 0); lia. }
  rewrite hash_from_ref by lia. rewrite hash_passes_ref by (rewrite length_drop; lia).
  cbn [option_map fst]. rewrite <- hash_ref_app, take_split. by rewrite <- Hsum.
Qed.

Lemma bt_hash4_equiv_reference_witness :
  bt_hash4 [1; 2; 3; 4; 5; 6; 7; 8; 9; 10] 10
  = Some (hash_ref 0 [1; 2; 3; 4; 5; 6; 7; 8; 9; 10]).
Proof.
  apply (bt_hash4_equiv_reference [1; 2; 3; 4; 5; 6; 7; 8; 9; 10] 10). simpl. lia.
Defined.

End BtHash.
