(* ===== verification/Hci.v ===== *)
(** * HCI events and commands (service/src/hci_parser.c, service/vendor)

    What the audio profiles read of a controller's event, and the commands
    they send it: the vendor's bytes with the header in front
    (bt_vendor.c with bt_vendor_actions.h and bt_vendor_bes.h).  The builders
    write to a buffer of the caller; here they return its bytes, and [None]
    where they return false; [lea_stream] alone reads an array.  The theorem is
    that every command fits the caller's buffer and is sent under the
    vendor's opcode. *)

From S2P Require Import Prelude Bytes.

Module Hci.
Import Bytes.

(** [bt_hci_event_t]: the event code and its parameters. *)
Record bt_hci_event_t := mk_hci { evt_code : Z; params : list Z }.

(** [hci_get_result] (service/src/hci_parser.c): the return parameter of a
    command-complete event (after its count and opcode), the status of a
    command-status event; [HCI_ERR_UNSPECIFIED_ERROR] otherwise.  [None] is a
    read past the parameters. *)
Definition HCI_SUCCESS : Z := 0x00.
Definition HCI_ERR_UNSPECIFIED_ERROR : Z := 0x1f.
Definition HCI_EV_COMMAND_COMPLETE : Z := 0x0E.
Definition HCI_EV_COMMAND_STATUS : Z := 0x0F.

Definition hci_get_result (ev : bt_hci_event_t) : option Z :=
  if (ev.(evt_code) =? HCI_EV_COMMAND_COMPLETE)%Z then ev.(params) !! 3
  else if (ev.(evt_code) =? HCI_EV_COMMAND_STATUS)%Z then ev.(params) !! 0
  else Some HCI_ERR_UNSPECIFIED_ERROR.

Definition hci_succeeded (ev : bt_hci_event_t) : bool :=
  bool_decide (hci_get_result ev = Some HCI_SUCCESS).

(** The header of a command: one byte of OGF, two of OCF; the rest goes out
    with its length.  [None]: the command is shorter than its header. *)
Definition split_command (p : list Z) (sz : Z) : option (Z * Z * Z * list Z) :=
  '(ogf, p) ← STREAM_TO_UINT8 p;
  '(ocf, p) ← STREAM_TO_UINT16 p;
  Some (ogf, ocf, u8 (sz - 1 - 2), p).

(** ** The vendor's commands

    A command's OGF is 0x3f; [vendor_actions] and [vendor_bes] are
    CONFIG_BLUETOOTH_VENDOR_ACTIONS and CONFIG_BLUETOOTH_VENDOR_BES. *)

(** The fields of [a2dp_offload_config_t] that a builder reads. *)
Record a2dp_offload_config_t := mk_a2dp_offload { frame_sample : Z; a2dp_acl_hdl : Z; l2c_rcid : Z; mtu : Z }.

Definition actions_a2dp_offload_start_builder (c : a2dp_offload_config_t) : list Z :=
  UINT8_TO_STREAM 0x3f ++ UINT16_TO_STREAM 0x0000 ++ UINT8_TO_STREAM 0x03 ++ UINT8_TO_STREAM 0x02 ++
  UINT16_TO_STREAM c.(a2dp_acl_hdl) ++ UINT8_TO_STREAM 0x03 ++ UINT16_TO_STREAM c.(l2c_rcid) ++
  UINT16_TO_STREAM c.(frame_sample) ++ UINT16_TO_STREAM 0x0000 ++ UINT16_TO_STREAM c.(mtu) ++
  UINT8_TO_STREAM 0x00 ++ UINT8_TO_STREAM 0x00 ++ UINT8_TO_STREAM 0x00 ++ UINT8_TO_STREAM 0x60 ++
  UINT8_TO_STREAM 0x01.
Definition actions_a2dp_offload_stop_builder (c : a2dp_offload_config_t) : list Z :=
  UINT8_TO_STREAM 0x3f ++ UINT16_TO_STREAM 0x0000 ++ UINT8_TO_STREAM 0x03 ++ UINT8_TO_STREAM 0x03.

Record hfp_offload_config_t := mk_hfp_offload { sco_hdl : Z; sco_codec : Z }.

Definition actions_hfp_offload_start_builder (c : hfp_offload_config_t) : list Z :=
  UINT8_TO_STREAM 0x3f ++ UINT16_TO_STREAM 0x0000 ++ UINT8_TO_STREAM 0x02 ++ UINT8_TO_STREAM 0x00 ++
  UINT16_TO_STREAM c.(sco_hdl) ++ UINT8_TO_STREAM c.(sco_codec).
Definition actions_hfp_offload_stop_builder (c : hfp_offload_config_t) : list Z :=
  UINT8_TO_STREAM 0x3f ++ UINT16_TO_STREAM 0x0000 ++ UINT8_TO_STREAM 0x02 ++ UINT8_TO_STREAM 0x01 ++
  UINT16_TO_STREAM c.(sco_hdl) ++ UINT8_TO_STREAM c.(sco_codec).

(** LE Audio: a codec of each direction with the handles of its streams, an
    array of [CONFIG_LEA_STREAM_MAX_NUM]. *)
Definition CONFIG_LEA_STREAM_MAX_NUM : nat := 4.
Definition CONFIG_VSC_MAX_LEN : Z := 64.
Record lea_offload_codec_t := mk_lea_codec { lea_active : bool; stream_num : Z; stream_handles : list Z }.
Record lea_offload_config_t := mk_lea_offload { initiator : bool; sink : lea_offload_codec_t; source : lea_offload_codec_t }.

(** The handle of stream [i] in one direction, 0 where it is not active. *)
Definition lea_stream (c : lea_offload_codec_t) (i : nat) : option (list Z) :=
  if c.(lea_active) then UINT16_TO_STREAM <$> (c.(stream_handles) !! i) else Some (UINT16_TO_STREAM 0x0000).

Definition lea_streams_entry (c : lea_offload_config_t) (i : nat) : option (list Z) :=
  let (first, second) := if c.(initiator) then (c.(source), c.(sink)) else (c.(sink), c.(source)) in
  f ← lea_stream first i;
  s ← lea_stream second i;
  Some (UINT8_TO_STREAM (if c.(initiator) then 0x01 else 0x03) ++ f ++ s).

Fixpoint lea_streams (c : lea_offload_config_t) (idx : list nat) : option (list Z) :=
  match idx with
  | [] => Some []
  | i :: idx =>
      b ← lea_streams_entry c i;
      bs ← lea_streams c idx;
      Some (b ++ bs)
  end.

Definition lea_stream_num (c : lea_offload_config_t) : Z :=
  if (c.(sink).(stream_num) <? c.(source).(stream_num))%Z then c.(source).(stream_num) else c.(sink).(stream_num).

Definition actions_lea_offload_builder (sub : Z) (c : lea_offload_config_t) : option (list Z) :=
  bs ← lea_streams c (seq 0 (Z.to_nat (lea_stream_num c)));
  Some (UINT8_TO_STREAM 0x3f ++ UINT16_TO_STREAM 0x0000 ++ UINT8_TO_STREAM 0x04 ++ UINT8_TO_STREAM sub ++
        UINT8_TO_STREAM 0x01 ++ UINT8_TO_STREAM (lea_stream_num c) ++ bs).
Definition actions_lea_offload_start_builder : lea_offload_config_t -> option (list Z) := actions_lea_offload_builder 0x04.
Definition actions_lea_offload_stop_builder : lea_offload_config_t -> option (list Z) := actions_lea_offload_builder 0x05.

Definition bes_bandwidth_config_builder (acl_hdl : Z) (enable : bool) : list Z :=
  UINT8_TO_STREAM 0x3F ++ UINT16_TO_STREAM 0x00D7 ++ UINT8_TO_STREAM 0x04 ++ UINT8_TO_STREAM 0x02 ++
  UINT8_TO_STREAM (if enable then 0x01 else 0x00) ++ UINT16_TO_STREAM acl_hdl.

Section Vendor.
Context (vendor_actions vendor_bes : bool).

Definition a2dp_offload_start_builder (c : a2dp_offload_config_t) : option (list Z) :=
  if vendor_actions then Some (actions_a2dp_offload_start_builder c) else None.
Definition a2dp_offload_stop_builder (c : a2dp_offload_config_t) : option (list Z) :=
  if vendor_actions then Some (actions_a2dp_offload_stop_builder c) else None.
Definition hfp_offload_start_builder (c : hfp_offload_config_t) : option (list Z) :=
  if vendor_actions then Some (actions_hfp_offload_start_builder c) else None.
Definition hfp_offload_stop_builder (c : hfp_offload_config_t) : option (list Z) :=
  if vendor_actions then Some (actions_hfp_offload_stop_builder c) else None.

(** The outer [None] is a read past the streams of a codec. *)
Definition lea_offload_start_builder (c : lea_offload_config_t) : option (option (list Z)) :=
  if vendor_actions then Some <$> actions_lea_offload_start_builder c else Some None.
Definition lea_offload_stop_builder (c : lea_offload_config_t) : option (option (list Z)) :=
  if vendor_actions then Some <$> actions_lea_offload_stop_builder c else Some None.

Definition acl_bandwidth_config_builder (acl_hdl : Z) : option (list Z) :=
  if vendor_bes then Some (bes_bandwidth_config_builder acl_hdl true) else None.
Definition acl_bandwidth_deconfig_builder (acl_hdl : Z) : option (list Z) :=
  if vendor_bes then Some (bes_bandwidth_config_builder acl_hdl false) else None.
End Vendor.

(** ** Every command fits and carries the vendor's opcode *)

(** What [split_command] sends of a command built with its size: the vendor's
    group, an opcode, and all the parameters with their number. *)
Definition vendor_command (cmd : list Z) (ocf : Z) : Prop :=
  exists payload, split_command cmd (Z.of_nat (length cmd)) = Some (0x3f%Z, ocf, Z.of_nat (length payload), payload) /\
    cmd = UINT8_TO_STREAM 0x3f ++ UINT16_TO_STREAM ocf ++ payload /\
    (Z.of_nat (length cmd) <= CONFIG_VSC_MAX_LEN)%Z.

Lemma vendor_command_intro ocf payload :
  in_u 16 ocf -> (Z.of_nat (length payload) <= 61)%Z ->
  vendor_command (UINT8_TO_STREAM 0x3f ++ UINT16_TO_STREAM ocf ++ payload) ocf.
Proof.
  intros Ho Hl. exists payload. split_and!; [|done|unfold CONFIG_VSC_MAX_LEN; simpl; lia].
  unfold split_command. change (UINT8_TO_STREAM 0x3f ++ ?x) with (0x3f%Z :: x). cbn [STREAM_TO_UINT8 mbind option_bind].
  rewrite uint16_stream_roundtrip by done. cbn [mbind option_bind]. do 3 f_equal.
  cbn [length app UINT16_TO_STREAM]. rewrite uint_small; unfold in_u; lia.
Qed.

Lemma lea_streams_some c idx :
  (forall i h, In i idx -> h = c.(sink) \/ h = c.(source) -> (i < length h.(stream_handles))%nat) ->
  exists bs, lea_streams c idx = Some bs /\ length bs = (5 * length idx)%nat.
Proof.
  assert (Hone : forall d i, (i < length d.(stream_handles))%nat -> exists b, lea_stream d i = Some b /\ length b = 2%nat).
  { intros d i H. unfold lea_stream. destruct (lea_active d); [|eauto].
    destruct (lookup_lt_is_Some_2 _ _ H) as [x ->]. simpl. eauto. }
  induction idx as [|i idx IH]; intros H; simpl; [eauto|].
  destruct IH as (bs & -> & Hbs); [intros; apply H; simpl; auto|].
  destruct (Hone (sink c) i) as (b1 & H1 & L1); [apply H; simpl; auto|].
  destruct (Hone (source c) i) as (b2 & H2 & L2); [apply H; simpl; auto|].
  unfold lea_streams_entry. destruct (initiator c); rewrite H1, H2; simpl; eexists; split; try reflexivity;
    simpl; rewrite !length_app; lia.
Qed.

(** The handles of a LE Audio configuration are an array of
    [CONFIG_LEA_STREAM_MAX_NUM], of which [stream_num] are in use. *)
Definition lea_codec_ok (c : lea_offload_codec_t) : Prop :=
  length c.(stream_handles) = CONFIG_LEA_STREAM_MAX_NUM /\ (0 <= c.(stream_num) <= Z.of_nat CONFIG_LEA_STREAM_MAX_NUM)%Z.

(** Every command the vendor modules build fits the buffer of its caller
    and is sent to the controller under the vendor's opcode with exactly its
    parameters; a LE Audio command reads no stream past the configured ones. *)
Theorem vendor_commands_fit (a2dp : a2dp_offload_config_t) (hfp : hfp_offload_config_t) (lea : lea_offload_config_t)
    (acl_hdl : Z) (enable : bool) :
  lea_codec_ok lea.(sink) -> lea_codec_ok lea.(source) ->
  vendor_command (actions_a2dp_offload_start_builder a2dp) 0 /\
  vendor_command (actions_a2dp_offload_stop_builder a2dp) 0 /\
  vendor_command (actions_hfp_offload_start_builder hfp) 0 /\
  vendor_command (actions_hfp_offload_stop_builder hfp) 0 /\
  vendor_command (bes_bandwidth_config_builder acl_hdl enable) 0x00D7 /\
  (exists cmd, actions_lea_offload_start_builder lea = Some cmd /\ vendor_command cmd 0) /\
  (exists cmd, actions_lea_offload_stop_builder lea = Some cmd /\ vendor_command cmd 0).
Proof.
  intros [Hs Ns] [Ho No].
  assert (Hlea : forall sub, exists cmd, actions_lea_offload_builder sub lea = Some cmd /\ vendor_command cmd 0).
  { intros sub. unfold actions_lea_offload_builder.
    assert (Hn : (lea_stream_num lea <= Z.of_nat CONFIG_LEA_STREAM_MAX_NUM)%Z)
      by (unfold lea_stream_num; case_match; lia).
    destruct (lea_streams_some lea (seq 0 (Z.to_nat (lea_stream_num lea)))) as (bs & -> & L).
    { intros i h Hi [-> | ->]; apply in_seq in Hi; lia. }
    rewrite length_seq in L. simpl. eexists. split; [reflexivity|].
    apply vendor_command_intro; [by compute|]. cbn [app length UINT8_TO_STREAM].
    unfold CONFIG_LEA_STREAM_MAX_NUM in *. lia. }
  split_and!; try apply Hlea; apply vendor_command_intro; unfold in_u; simpl; lia.
Qed.

Lemma vendor_commands_fit_witness :
  exists cmd, actions_lea_offload_start_builder
    (mk_lea_offload true (mk_lea_codec true 1 [7; 0; 0; 0]%Z) (mk_lea_codec false 2 [8; 9; 0; 0]%Z)) = Some cmd /\ vendor_command cmd 0.
Proof.
  refine (proj1 (proj2 (proj2 (proj2 (proj2 (proj2 (vendor_commands_fit (mk_a2dp_offload 0 0 0 0) (mk_hfp_offload 0 0)
    (mk_lea_offload true (mk_lea_codec true 1 [7; 0; 0; 0]%Z) (mk_lea_codec false 2 [8; 9; 0; 0]%Z)) 0 true _ _)))))));
    (split; [reflexivity | split; vm_compute; discriminate]).
Defined.
End Hci.
