(* ===== verification/A2dp.v ===== *)
(** * The A2DP peer state machine (service/profiles/a2dp/a2dp_state_machine.c)

    One machine per peer: Idle, Opening, Opened, Started, Closing, on the
    engine of [Hsm].  Its events are the requests of the user and of the media
    side, the answers of the stack and its own timers.  The role of the peer
    ([peer_sep]) decides which of the sink and source services is told. *)

From S2P Require Import Prelude Hsm Bytes BtAddr Hci.
From stdpp Require Import strings.

Local Open Scope bt_scope.

Module A2dp.
Import Hsm Bytes BtAddr Hci.

(** ** States, events, calls *)

Inductive state := idle_state | opening_state | opened_state | started_state | closing_state.

#[export] Instance state_eq_dec : EqDecision state.
Proof. solve_decision. Defined.

Inductive a2dp_event_type_t :=
| A2DP_STARTUP | A2DP_SHUTDOWN | CONNECT_REQ | DISCONNECT_REQ | STREAM_START_REQ
| DELAY_STREAM_START_REQ | STREAM_SUSPEND_REQ | PEER_STREAM_START_REQ | CONNECTED_EVT
| DISCONNECTED_EVT | STREAM_STARTED_EVT | STREAM_SUSPENDED_EVT | STREAM_CLOSED_EVT
| STREAM_MTU_CONFIG_EVT | PEER_PARTIAL_RECONN_EVT | CODEC_CONFIG_EVT
| DEVICE_CODEC_STATE_CHANGE_EVT | DATA_IND_EVT | CONNECT_TIMEOUT | START_TIMEOUT
| STREAM_SUSPEND_DELAY | OFFLOAD_START_REQ | OFFLOAD_STOP_REQ | OFFLOAD_START_EVT
| OFFLOAD_STOP_EVT | OFFLOAD_TIMEOUT.

#[export] Instance a2dp_event_type_eq_dec : EqDecision a2dp_event_type_t.
Proof. solve_decision. Defined.

(** [a2dp_event_data_t]: the fields the machine reads.  [data] is the command
    for the offload requests and the controller's event for their answers. *)
Record a2dp_event_data_t := mk_event_data {
  bd_addr : bt_address_t;
  size : Z;
  cmd_data : list Z;
  hci_data : bt_hci_event_t;
  packet : list Z;
}.

Record a2dp_event_t := mk_event { event : a2dp_event_type_t; event_data : a2dp_event_data_t }.

Inductive peer_sep_t := SEP_SRC | SEP_SNK.

#[export] Instance peer_sep_eq_dec : EqDecision peer_sep_t.
Proof. solve_decision. Defined.

Inductive profile_connection_state_t :=
| PROFILE_STATE_DISCONNECTED | PROFILE_STATE_CONNECTING | PROFILE_STATE_CONNECTED
| PROFILE_STATE_DISCONNECTING.

#[export] Instance profile_connection_state_eq_dec : EqDecision profile_connection_state_t.
Proof. solve_decision. Defined.

Inductive a2dp_audio_state_t := A2DP_AUDIO_STATE_STARTED | A2DP_AUDIO_STATE_STOPPED.

Inductive out :=
| sink_notify_connection_state_changed (a : bt_address_t) (s : profile_connection_state_t)
| source_notify_connection_state_changed (a : bt_address_t) (s : profile_connection_state_t)
| sink_notify_audio_state_changed (a : bt_address_t) (s : a2dp_audio_state_t)
| source_notify_audio_state_changed (a : bt_address_t) (s : a2dp_audio_state_t)
| sink_notify_audio_sink_config_changed (a : bt_address_t)
| source_notify_audio_source_config_changed (a : bt_address_t)
| bt_media_set_a2dp_unavailable
| bt_media_set_a2dp_available
| bt_sal_a2dp_source_connect (a : bt_address_t)
| bt_sal_a2dp_sink_connect (a : bt_address_t)
| bt_sal_a2dp_source_disconnect (a : bt_address_t)
| bt_sal_a2dp_sink_disconnect (a : bt_address_t)
| bt_sal_a2dp_source_start_stream (a : bt_address_t)
| bt_sal_a2dp_source_suspend_stream (a : bt_address_t)
| bt_sal_avrcp_control_connect (a : bt_address_t)
| bt_sal_avrcp_control_disconnect (a : bt_address_t)
| bt_sal_avrcp_target_play_status_paused (a : bt_address_t)
| bt_sal_send_hci_command (ogf ocf len : Z) (payload : list Z)
| hci_payload_overread                     (* the command is shorter than its header *)
| adapter_switch_role_master (a : bt_address_t)
| bt_pm_conn_open (a : bt_address_t)
| bt_pm_conn_close (a : bt_address_t)
| bt_pm_busy (a : bt_address_t)
| bt_pm_idle (a : bt_address_t)
| bt_cm_connected (a : bt_address_t)
| bt_cm_disconnected (a : bt_address_t)
| a2dp_audio_on_connection_changed (s : peer_sep_t) (connected : bool)
| a2dp_audio_on_started (s : peer_sep_t) (started : bool)
| a2dp_audio_on_stopped (s : peer_sep_t)
| a2dp_audio_setup_codec (s : peer_sep_t) (a : bt_address_t)
| a2dp_sink_packet_recieve (p : list Z)
| audio_ctrl_stopped
| do_in_a2dp_service (ev : a2dp_event_type_t) (a : bt_address_t) (e : bt_hci_event_t)
| service_loop_timer (timeout : Z) (h : option timer_h)
| service_loop_cancel_timer (h : option timer_h)
| BT_DFX_A2DP_CONN_TIMEOUT
| BT_DFX_OFFLOAD_START_TIMEOUT
| BT_DFX_OFFLOAD_HCI_ERROR.

(** [pending_state_t] *)
Definition PENDING_NONE : Z := 0x0.
Definition PENDING_START : Z := 0x02.
Definition PENDING_STOP : Z := 0x04.
Definition PENDING_OFFLOAD_START : Z := 0x08.
Definition PENDING_OFFLOAD_STOP : Z := 0x10.

Definition A2DP_START_TIMEOUT : Z := 5000.
Definition A2DP_SUSPEND_TIMEOUT : Z := 5000.
Definition A2DP_DELAY_START : Z := 100.
Definition A2DP_OFFLOAD_TIMEOUT : Z := 500.
Definition AVRCP_TG_START_TIMEOUT : Z := 2000.

(** The fields of [a2dp_state_machine_t] after [sm]. *)
Record a2dp_data := mk_data {
  addr : bt_address_t;
  acl_handle : Z;
  pending : Z;
  audio_ready : bool;
  peer_sep : peer_sep_t;
  connect_timer : option timer_h;
  start_timer : option timer_h;
  avrcp_timer : option timer_h;
  delay_start_timer : option timer_h;
  offload_timer : option timer_h;
}.

Abbreviation a2dp_state_machine_t := (state_machine_t state a2dp_data).
Abbreviation MA := (M a2dp_state_machine_t out).

(** The build configuration. *)
Record config := mk_config {
  a2dp_sink : bool;                 (* CONFIG_BLUETOOTH_A2DP_SINK *)
  a2dp_source : bool;               (* CONFIG_BLUETOOTH_A2DP_SOURCE *)
  avrcp_target : bool;              (* CONFIG_BLUETOOTH_AVRCP_TARGET *)
  avrcp_control : bool;             (* CONFIG_BLUETOOTH_AVRCP_CONTROL *)
  avrcp_tartget : bool;             (* CONFIG_BLUETOOTH_AVRCP_TARTGET, as the code spells it *)
  connection_manager : bool;        (* CONFIG_BLUETOOTH_CONNECTION_MANAGER *)
  partial_reconn : bool;            (* CONFIG_BLUETOOTH_A2DP_PEER_PARTIAL_RECONN *)
  connect_timeout : Z;              (* A2DP_CONNECT_TIMEOUT *)
  vendor_bes : bool;                (* CONFIG_BLUETOOTH_VENDOR_BES *)
}.

(** What the outside answers during one event. *)
Record env := mk_env {
  connect_status : bt_status_t;
  start_status : bt_status_t;
  suspend_status : bt_status_t;
  peer_acl_hdl : option Z;          (* [acl_hdl] of the peer the service finds *)
  audio_ctrl_connected : bool;      (* [a2dp_audio_on_connection_changed] *)
  new_timer : option timer_h;
}.

(** ** Fields *)

Definition upd (f : a2dp_data -> a2dp_data) : MA unit := modify (upd_data f).
Definition field {A} (f : a2dp_data -> A) : MA A := gets (fun sm => f sm.(data)).

Definition set_acl_handle h d := mk_data d.(addr) h d.(pending) d.(audio_ready) d.(peer_sep)
  d.(connect_timer) d.(start_timer) d.(avrcp_timer) d.(delay_start_timer) d.(offload_timer).
Definition set_pending p d := mk_data d.(addr) d.(acl_handle) p d.(audio_ready) d.(peer_sep)
  d.(connect_timer) d.(start_timer) d.(avrcp_timer) d.(delay_start_timer) d.(offload_timer).
Definition set_audio_ready b d := mk_data d.(addr) d.(acl_handle) d.(pending) b d.(peer_sep)
  d.(connect_timer) d.(start_timer) d.(avrcp_timer) d.(delay_start_timer) d.(offload_timer).
Definition set_connect_timer t d := mk_data d.(addr) d.(acl_handle) d.(pending) d.(audio_ready)
  d.(peer_sep) t d.(start_timer) d.(avrcp_timer) d.(delay_start_timer) d.(offload_timer).
Definition set_start_timer t d := mk_data d.(addr) d.(acl_handle) d.(pending) d.(audio_ready)
  d.(peer_sep) d.(connect_timer) t d.(avrcp_timer) d.(delay_start_timer) d.(offload_timer).
Definition set_avrcp_timer t d := mk_data d.(addr) d.(acl_handle) d.(pending) d.(audio_ready)
  d.(peer_sep) d.(connect_timer) d.(start_timer) t d.(delay_start_timer) d.(offload_timer).
Definition set_delay_start_timer t d := mk_data d.(addr) d.(acl_handle) d.(pending) d.(audio_ready)
  d.(peer_sep) d.(connect_timer) d.(start_timer) d.(avrcp_timer) t d.(offload_timer).
Definition set_offload_timer t d := mk_data d.(addr) d.(acl_handle) d.(pending) d.(audio_ready)
  d.(peer_sep) d.(connect_timer) d.(start_timer) d.(avrcp_timer) d.(delay_start_timer) t.

Definition value_of (s : state) : Z :=
  match s with
  | idle_state => 0 | opening_state => 1 | opened_state => 2 | started_state => 3
  | closing_state => 4
  end.

Definition name_of (s : state) : string :=
  match s with
  | idle_state => "Idle" | opening_state => "Opening" | opened_state => "Opened"
  | started_state => "Started" | closing_state => "Closing"
  end.

(** [a2dp_state_machine_get_state]: the state value, Idle when there is no
    current state. *)
Definition a2dp_state_machine_get_state (sm : a2dp_state_machine_t) : Z :=
  match hsm_get_current_state sm with
  | None => value_of idle_state
  | Some s => value_of s
  end.

Definition a2dp_state_machine_get_connection_state (sm : a2dp_state_machine_t)
    : profile_connection_state_t :=
  let s := a2dp_state_machine_get_state sm in
  if (s =? value_of idle_state)%Z then PROFILE_STATE_DISCONNECTED
  else if (s =? value_of opening_state)%Z then PROFILE_STATE_CONNECTING
  else if (s =? value_of opened_state)%Z then PROFILE_STATE_CONNECTED
  else if (s =? value_of started_state)%Z then PROFILE_STATE_CONNECTED
  else if (s =? value_of closing_state)%Z then PROFILE_STATE_DISCONNECTING
  else PROFILE_STATE_DISCONNECTED.

(** ** Flags *)

Definition flag_isset (flag : Z) : MA bool := field (fun d => flag_isset_v d.(pending) flag).
Definition flag_set (flag : Z) : MA unit := upd (fun d => set_pending (flag_set_v d.(pending) flag) d).
Definition flag_clear (flag : Z) : MA unit := upd (fun d => set_pending (flag_clear_v d.(pending) flag) d).

Section Machine.
Context (cfg : config).

Definition is_sep (s : peer_sep_t) : MA bool := field (fun d => bool_decide (d.(peer_sep) = s)).

(** ** Reports to the services *)

Definition a2dp_report_connection_state (s : profile_connection_state_t) : MA unit :=
  a <- field addr;;
  src <- is_sep SEP_SRC;;
  if src then when cfg.(a2dp_sink) (emit (sink_notify_connection_state_changed a s))
  else when cfg.(a2dp_source) (
    when (bool_decide (s = PROFILE_STATE_DISCONNECTED)) (emit bt_media_set_a2dp_unavailable);;;
    emit (source_notify_connection_state_changed a s)).

Definition a2dp_report_audio_state (s : a2dp_audio_state_t) : MA unit :=
  a <- field addr;;
  src <- is_sep SEP_SRC;;
  if src then when cfg.(a2dp_sink) (emit (sink_notify_audio_state_changed a s))
  else when cfg.(a2dp_source) (emit (source_notify_audio_state_changed a s)).

Definition a2dp_report_audio_config_state : MA unit :=
  a <- field addr;;
  src <- is_sep SEP_SRC;;
  if src then when cfg.(a2dp_sink) (emit (sink_notify_audio_sink_config_changed a))
  else when cfg.(a2dp_source) (
    emit bt_media_set_a2dp_available;;;
    emit (source_notify_audio_source_config_changed a)).

(** The controller's answer to an offload command. *)
Definition bt_hci_event_callback (ev : bt_hci_event_t) : MA unit :=
  when cfg.(a2dp_source) (
    a <- field addr;;
    start <- flag_isset PENDING_OFFLOAD_START;;
    stop <- flag_isset PENDING_OFFLOAD_STOP;;
    if start then
      flag_clear PENDING_OFFLOAD_START;;; emit (do_in_a2dp_service OFFLOAD_START_EVT a ev)
    else if stop then
      flag_clear PENDING_OFFLOAD_STOP;;; emit (do_in_a2dp_service OFFLOAD_STOP_EVT a ev)
    else mret_ tt).

Definition hci_command (p : list Z) (sz : Z) : out :=
  match split_command p sz with
  | Some (ogf, ocf, len, p) => bt_sal_send_hci_command ogf ocf len p
  | None => hci_payload_overread
  end.

Definition send_hci (p : list Z) (sz : Z) : MA unit := emit (hci_command p sz).

Definition a2dp_offload_send_stop_cmd (d : a2dp_event_data_t) : MA unit :=
  flag_set PENDING_OFFLOAD_STOP;;;
  send_hci d.(cmd_data) d.(size).

Section Handlers.
Context (e : env).

(** Cancelling and clearing a timer; the code cancels NULL as well. *)
Definition cancel_start_timer : MA unit :=
  t <- field start_timer;; emit (service_loop_cancel_timer t);;; upd (set_start_timer None).
Definition cancel_delay_start_timer : MA unit :=
  t <- field delay_start_timer;;
  when (bool_decide (is_Some t)) (emit (service_loop_cancel_timer t));;;
  upd (set_delay_start_timer None).
Definition start_timer_new (timeout : Z) (set : option timer_h -> a2dp_data -> a2dp_data) : MA unit :=
  emit (service_loop_timer timeout e.(new_timer));;; upd (set e.(new_timer)).

(** ** enter and exit *)

Definition idle_enter : MA unit :=
  a <- field addr;;
  prev <- gets hsm_get_previous_state;;
  upd (set_audio_ready false);;;
  upd (set_pending PENDING_NONE);;;
  when (bool_decide (is_Some prev)) (
    emit (bt_pm_conn_close a);;;
    src <- is_sep SEP_SRC;;
    when (src && cfg.(a2dp_sink) && cfg.(connection_manager)) (emit (bt_cm_disconnected a));;;
    a2dp_report_connection_state PROFILE_STATE_DISCONNECTED;;;
    t <- field avrcp_timer;;
    when (bool_decide (is_Some t)) (
      emit (service_loop_cancel_timer t);;; upd (set_avrcp_timer None))).

Definition idle_exit : MA unit := mret_ tt.

Definition opening_enter : MA unit :=
  start_timer_new cfg.(connect_timeout) set_connect_timer;;;
  a2dp_report_connection_state PROFILE_STATE_CONNECTING.

Definition opening_exit : MA unit :=
  t <- field connect_timer;;
  emit (service_loop_cancel_timer t);;;
  upd (set_connect_timer None).

(** The peer of the service for the peer's role, when that service is built. *)
Definition find_peer : MA (option Z) :=
  src <- is_sep SEP_SRC;;
  mret_ (if src then (if cfg.(a2dp_sink) then e.(peer_acl_hdl) else None)
         else (if cfg.(a2dp_source) then e.(peer_acl_hdl) else None)).

Definition opened_enter : MA unit :=
  a <- field addr;;
  sep <- field peer_sep;;
  prev <- gets hsm_get_previous_state;;
  peer <- find_peer;;
  match peer with
  | None => mret_ tt
  | Some acl_hdl =>
      if bool_decide (prev = Some idle_state) || bool_decide (prev = Some opening_state) then
        upd (set_acl_handle acl_hdl);;;
        when (bool_decide (sep = SEP_SNK)) (emit (adapter_switch_role_master a));;;
        when (cfg.(avrcp_target) && bool_decide (sep = SEP_SNK))
          (start_timer_new AVRCP_TG_START_TIMEOUT set_avrcp_timer);;;
        when (cfg.(avrcp_control) && bool_decide (sep = SEP_SRC))
          (emit (bt_sal_avrcp_control_connect a));;;
        emit (a2dp_audio_on_connection_changed sep true);;;
        when (negb e.(audio_ctrl_connected)) (emit bt_media_set_a2dp_available);;;
        emit (bt_pm_conn_open a);;;
        when (bool_decide (sep = SEP_SRC) && cfg.(a2dp_sink) && cfg.(connection_manager))
          (emit (bt_cm_connected a));;;
        a2dp_report_connection_state PROFILE_STATE_CONNECTED
      else when (cfg.(a2dp_source) && bool_decide (prev = Some started_state))
             (emit (bt_sal_avrcp_target_play_status_paused a))
  end.

Definition opened_exit : MA unit := mret_ tt.

(** The vendor's bandwidth command for the link, when it builds one. *)
Definition a2dp_send_active_link_cmd (is_start : bool) : MA unit :=
  h <- field acl_handle;;
  match (if is_start then acl_bandwidth_config_builder else acl_bandwidth_deconfig_builder) cfg.(vendor_bes) h with
  | None => mret_ tt
  | Some cmd => send_hci cmd (Z.of_nat (length cmd))
  end.

Definition started_enter : MA unit :=
  a <- field addr;;
  snk <- is_sep SEP_SNK;;
  when snk (emit (adapter_switch_role_master a));;;
  emit (bt_pm_busy a);;;
  a2dp_send_active_link_cmd true;;;
  a2dp_report_audio_state A2DP_AUDIO_STATE_STARTED.

Definition started_exit : MA unit :=
  a <- field addr;;
  emit (bt_pm_idle a);;;
  a2dp_send_active_link_cmd false.

Definition closing_enter : MA unit :=
  sep <- field peer_sep;;
  emit (a2dp_audio_on_connection_changed sep false);;;
  a2dp_report_connection_state PROFILE_STATE_DISCONNECTING.

Definition closing_exit : MA unit := mret_ tt.

#[local] Instance a2dp_states : StateTable state a2dp_data out := {
  Hsm.state_name := name_of;
  Hsm.state_value := value_of;
  Hsm.enter s :=
    match s with
    | idle_state => idle_enter
    | opening_state => opening_enter
    | opened_state => opened_enter
    | started_state => started_enter
    | closing_state => closing_enter
    end;
  Hsm.exit s :=
    match s with
    | idle_state => idle_exit
    | opening_state => opening_exit
    | opened_state => opened_exit
    | started_state => started_exit
    | closing_state => closing_exit
    end;
}.

(** ** process_event

    Every handler returns true. *)

Definition idle_process_event (ev : a2dp_event_t) : MA bool :=
  let d := ev.(event_data) in
  snk <- is_sep SEP_SNK;;
  match ev.(event) with
  | CONNECT_REQ =>
      (if snk then emit (bt_sal_a2dp_source_connect d.(bd_addr))
       else emit (bt_sal_a2dp_sink_connect d.(bd_addr)));;;
      if is_success e.(connect_status) then hsm_transition_to opening_state
      else a2dp_report_connection_state PROFILE_STATE_DISCONNECTED
  | CONNECTED_EVT => hsm_transition_to opened_state
  | PEER_PARTIAL_RECONN_EVT =>
      when (cfg.(partial_reconn) && snk) (
        emit (bt_sal_a2dp_source_connect d.(bd_addr));;;
        when (negb (is_success e.(connect_status)))
          (a2dp_report_connection_state PROFILE_STATE_DISCONNECTED))
  | OFFLOAD_STOP_REQ => a2dp_offload_send_stop_cmd d
  | OFFLOAD_STOP_EVT => emit audio_ctrl_stopped
  | _ => mret_ tt
  end;;;
  mret_ true.

Definition opening_process_event (ev : a2dp_event_t) : MA bool :=
  let d := ev.(event_data) in
  snk <- is_sep SEP_SNK;;
  match ev.(event) with
  | DISCONNECT_REQ =>
      (if snk then emit (bt_sal_a2dp_source_disconnect d.(bd_addr))
       else emit (bt_sal_a2dp_sink_disconnect d.(bd_addr)));;;
      hsm_transition_to idle_state
  | CONNECTED_EVT => hsm_transition_to opened_state
  | DISCONNECTED_EVT | CONNECT_TIMEOUT => hsm_transition_to idle_state
  | OFFLOAD_STOP_REQ => a2dp_offload_send_stop_cmd d
  | OFFLOAD_STOP_EVT => emit audio_ctrl_stopped
  | _ => mret_ tt
  end;;;
  mret_ true.

(** The stack's disconnect, for both [DISCONNECT_REQ] handlers with a link. *)
Definition disconnect_link : MA unit :=
  a <- field addr;;
  snk <- is_sep SEP_SNK;;
  (if snk then emit (bt_sal_a2dp_source_disconnect a) else emit (bt_sal_a2dp_sink_disconnect a));;;
  when (cfg.(avrcp_control) || cfg.(avrcp_tartget)) (emit (bt_sal_avrcp_control_disconnect a)).

(** A started or offloading source: the pending start is over. *)
Definition start_done : MA unit :=
  flag_clear PENDING_START;;; cancel_start_timer;;; cancel_delay_start_timer.

(** Asking the stack to start the stream. *)
Definition stream_starting : MA unit :=
  flag_set PENDING_START;;; start_timer_new A2DP_START_TIMEOUT set_start_timer.

Definition opened_process_event (ev : a2dp_event_t) : MA bool :=
  let d := ev.(event_data) in
  a <- field addr;;
  sep <- field peer_sep;;
  snk <- is_sep SEP_SNK;;
  match ev.(event) with
  | DISCONNECT_REQ =>
      disconnect_link;;;
      emit (a2dp_audio_on_connection_changed sep false);;;
      hsm_transition_to closing_state
  | STREAM_START_REQ =>
      stop <- flag_isset PENDING_STOP;;
      start <- flag_isset PENDING_START;;
      ready <- field audio_ready;;
      if stop || start then mret_ tt
      else if negb ready then mret_ tt
      else
        emit (bt_pm_busy a);;;
        emit (bt_sal_a2dp_source_start_stream a);;;
        emit (bt_pm_idle a);;;
        when (is_success e.(start_status)) stream_starting
  | DELAY_STREAM_START_REQ =>
      cancel_delay_start_timer;;;
      start <- flag_isset PENDING_START;;
      if start then mret_ tt
      else
        emit (bt_sal_a2dp_source_start_stream a);;;
        when (is_success e.(start_status)) stream_starting
  | DISCONNECTED_EVT =>
      start <- flag_isset PENDING_START;;
      when start (
        flag_clear PENDING_START;;; cancel_start_timer;;; emit (a2dp_audio_on_started sep false));;;
      emit (a2dp_audio_on_connection_changed sep false);;;
      hsm_transition_to idle_state
  | STREAM_STARTED_EVT =>
      when snk start_done;;;
      ready <- field audio_ready;;
      if negb ready && snk then mret_ tt
      else
        emit (a2dp_audio_on_started sep true);;;
        hsm_transition_to started_state
  | STREAM_SUSPENDED_EVT | STREAM_CLOSED_EVT =>
      stop <- flag_isset PENDING_STOP;;
      t <- field delay_start_timer;;
      when (stop && bool_decide (is_Some t)) (
        emit (service_loop_cancel_timer t);;;
        start_timer_new A2DP_DELAY_START set_delay_start_timer);;;
      flag_clear PENDING_STOP;;;
      a2dp_report_audio_state A2DP_AUDIO_STATE_STOPPED;;;
      emit (a2dp_audio_on_stopped sep)
  | DEVICE_CODEC_STATE_CHANGE_EVT =>
      upd (set_audio_ready true);;;
      a2dp_report_audio_config_state;;;
      emit (a2dp_audio_setup_codec sep a)
  | START_TIMEOUT =>
      flag_clear PENDING_START;;;
      cancel_start_timer;;;
      emit (a2dp_audio_on_started sep false)
  | OFFLOAD_START_REQ =>
      when snk start_done;;;
      flag_set PENDING_OFFLOAD_START;;;
      start_timer_new A2DP_OFFLOAD_TIMEOUT set_offload_timer;;;
      send_hci d.(cmd_data) d.(size)
  | OFFLOAD_START_EVT =>
      when snk start_done;;;
      t <- field offload_timer;;
      when (bool_decide (is_Some t)) (
        emit (service_loop_cancel_timer t);;; upd (set_offload_timer None));;;
      if hci_succeeded d.(hci_data) then
        emit (a2dp_audio_on_started sep true);;;
        hsm_transition_to started_state
      else
        emit BT_DFX_OFFLOAD_HCI_ERROR;;;
        emit (a2dp_audio_on_started sep false)
  | OFFLOAD_TIMEOUT =>
      flag_clear PENDING_OFFLOAD_START;;;
      upd (set_offload_timer None);;;
      emit (a2dp_audio_on_started sep false)
  | OFFLOAD_STOP_REQ => a2dp_offload_send_stop_cmd d
  | OFFLOAD_STOP_EVT => emit audio_ctrl_stopped
  | _ => mret_ tt
  end;;;
  mret_ true.

Definition started_process_event (ev : a2dp_event_t) : MA bool :=
  let d := ev.(event_data) in
  a <- field addr;;
  sep <- field peer_sep;;
  snk <- is_sep SEP_SNK;;
  match ev.(event) with
  | DISCONNECT_REQ => disconnect_link;;; hsm_transition_to closing_state
  | STREAM_START_REQ =>
      stop <- flag_isset PENDING_STOP;;
      if stop then
        start_timer_new A2DP_SUSPEND_TIMEOUT set_delay_start_timer;;;
        hsm_transition_to opened_state
      else when snk (emit (a2dp_audio_on_started sep true))
  | DATA_IND_EVT => when cfg.(a2dp_sink) (emit (a2dp_sink_packet_recieve d.(packet)))
  | STREAM_SUSPEND_REQ =>
      stop <- flag_isset PENDING_STOP;;
      if stop then mret_ tt
      else
        flag_set PENDING_STOP;;;
        emit (bt_sal_a2dp_source_suspend_stream a);;;
        when (negb (is_success e.(suspend_status))) (emit (a2dp_audio_on_stopped sep))
  | DISCONNECTED_EVT =>
      emit (a2dp_audio_on_connection_changed sep false);;;
      hsm_transition_to idle_state
  | STREAM_SUSPENDED_EVT | STREAM_CLOSED_EVT =>
      upd (set_pending PENDING_NONE);;;
      emit (a2dp_audio_on_stopped sep);;;
      a2dp_report_audio_state A2DP_AUDIO_STATE_STOPPED;;;
      hsm_transition_to opened_state
  | DEVICE_CODEC_STATE_CHANGE_EVT =>
      upd (set_audio_ready true);;;
      a2dp_report_audio_config_state;;;
      if snk then mret_ tt else emit (a2dp_audio_setup_codec sep a)
  | OFFLOAD_STOP_REQ => a2dp_offload_send_stop_cmd d
  | OFFLOAD_STOP_EVT => emit audio_ctrl_stopped
  | _ => mret_ tt
  end;;;
  mret_ true.

Definition closing_process_event (ev : a2dp_event_t) : MA bool :=
  let d := ev.(event_data) in
  sep <- field peer_sep;;
  match ev.(event) with
  | STREAM_SUSPEND_REQ => mret_ tt
  | STREAM_CLOSED_EVT | STREAM_SUSPENDED_EVT =>
      flag_clear PENDING_STOP;;; emit (a2dp_audio_on_stopped sep)
  | DISCONNECTED_EVT => hsm_transition_to idle_state
  | OFFLOAD_STOP_REQ => a2dp_offload_send_stop_cmd d
  | OFFLOAD_STOP_EVT => emit audio_ctrl_stopped
  | _ => mret_ tt
  end;;;
  mret_ true.

#[local] Instance a2dp_events : EventTable state a2dp_data out a2dp_event_t := {
  Hsm.process_event s :=
    match s with
    | idle_state => idle_process_event
    | opening_state => opening_process_event
    | opened_state => opened_process_event
    | started_state => started_process_event
    | closing_state => closing_process_event
    end;
}.

Definition a2dp_state_machine_handle_event (ev : a2dp_event_t) : MA bool := hsm_dispatch_event ev.

(** The zeroed address is that of the machine while [hsm_ctor] runs. *)
Definition a2dp_state_machine_new (sep : peer_sep_t) (a : bt_address_t) : a2dp_state_machine_t :=
  let zeroed := mk_sm None None None (mk_data bt_addr_empty 0 0 false sep None None None None None) in
  let sm := exec (hsm_ctor idle_state) zeroed in
  upd_data (fun d => mk_data a d.(acl_handle) d.(pending) d.(audio_ready) d.(peer_sep)
              d.(connect_timer) d.(start_timer) d.(avrcp_timer) d.(delay_start_timer)
              d.(offload_timer)) sm.

(** The calls of [a2dp_state_machine_destory]; the machine is freed. *)
Definition a2dp_state_machine_destory : MA unit :=
  a <- field addr;;
  sm <- get;;
  when (negb (a2dp_state_machine_get_state sm =? value_of idle_state)%Z) (
    emit (bt_pm_conn_close a);;;
    a2dp_report_connection_state PROFILE_STATE_DISCONNECTED).

(** [a2dp_event_new]: an event with the address and nothing else. *)
Definition a2dp_event_new (ty : a2dp_event_type_t) (a : bt_address_t) : a2dp_event_t :=
  mk_event ty (mk_event_data a 0 [] (mk_hci 0 []) []).

(** ** Timers *)

Definition timer_event (ty : a2dp_event_type_t) : MA unit :=
  a <- field addr;;
  a2dp_state_machine_handle_event (a2dp_event_new ty a);;; mret_ tt.

Definition a2dp_connect_timeout_callback : MA unit :=
  emit BT_DFX_A2DP_CONN_TIMEOUT;;; timer_event CONNECT_TIMEOUT.
Definition a2dp_start_timeout_callback : MA unit := timer_event START_TIMEOUT.
Definition a2dp_delay_start_timeout_callback : MA unit := timer_event DELAY_STREAM_START_REQ.
Definition a2dp_offload_config_timeout_callback : MA unit :=
  emit BT_DFX_OFFLOAD_START_TIMEOUT;;; timer_event OFFLOAD_TIMEOUT.

Definition avrcp_start_timeout_callback : MA unit :=
  a <- field addr;;
  upd (set_avrcp_timer None);;;
  sm <- get;;
  when (bool_decide (a2dp_state_machine_get_connection_state sm = PROFILE_STATE_CONNECTED))
    (emit (bt_sal_avrcp_control_connect a)).

Definition a2dp_state_machine_is_pending_stop (sm : a2dp_state_machine_t) : bool :=
  flag_isset_v sm.(data).(pending) PENDING_STOP.

End Handlers.
End Machine.

(** ** Inputs of a machine: events, its timers and the controller *)

Inductive input :=
| in_event (ev : a2dp_event_t)
| in_connect_timeout | in_start_timeout | in_delay_start_timeout | in_offload_timeout
| in_avrcp_timeout
| in_hci (ev : bt_hci_event_t).

Definition handle_input (cfg : config) (e : env) (i : input) : MA unit :=
  match i with
  | in_event ev => a2dp_state_machine_handle_event cfg e ev;;; mret_ tt
  | in_connect_timeout => a2dp_connect_timeout_callback cfg e
  | in_start_timeout => a2dp_start_timeout_callback cfg e
  | in_delay_start_timeout => a2dp_delay_start_timeout_callback cfg e
  | in_offload_timeout => a2dp_offload_config_timeout_callback cfg e
  | in_avrcp_timeout => avrcp_start_timeout_callback
  | in_hci ev => bt_hci_event_callback cfg ev
  end.

(** The machine after a sequence of inputs, and all the calls it made. *)
Fixpoint run_inputs (cfg : config) (l : list (env * input)) : MA unit :=
  match l with
  | [] => mret_ tt
  | (e, i) :: l => handle_input cfg e i;;; run_inputs cfg l
  end.

(** ** The edges of the machine *)

Definition edge (c c' : state) : bool :=
  match c, c' with
  | idle_state, (opening_state | opened_state)
  | opening_state, (idle_state | opened_state)
  | opened_state, (closing_state | idle_state | started_state)
  | started_state, (closing_state | idle_state | opened_state)
  | closing_state, idle_state => true
  | _, _ => false
  end.

Definition conn_state (c : state) : profile_connection_state_t :=
  match c with
  | idle_state => PROFILE_STATE_DISCONNECTED
  | opening_state => PROFILE_STATE_CONNECTING
  | opened_state | started_state => PROFILE_STATE_CONNECTED
  | closing_state => PROFILE_STATE_DISCONNECTING
  end.

(** The connection states reported to the services, in order. *)
Definition conn_report (o : out) : option profile_connection_state_t :=
  match o with
  | sink_notify_connection_state_changed _ s | source_notify_connection_state_changed _ s => Some s
  | _ => None
  end.

(** What a listener that starts from [s] believes after the calls [os]. *)
Fixpoint listener (s : profile_connection_state_t) (os : list out) : profile_connection_state_t :=
  match os with
  | [] => s
  | o :: os => listener (default s (conn_report o)) os
  end.

(** The busy requests to the power manager that have not been withdrawn. *)
Fixpoint net_busy (os : list out) : Z :=
  match os with
  | [] => 0
  | bt_pm_busy _ :: os => 1 + net_busy os
  | bt_pm_idle _ :: os => net_busy os - 1
  | _ :: os => net_busy os
  end%Z.

Definition streaming (c : state) : Z := match c with started_state => 1 | _ => 0 end%Z.

(** The service of the peer's role is part of the build. *)
Definition service_built (cfg : config) (sep : peer_sep_t) : bool :=
  match sep with SEP_SRC => cfg.(a2dp_sink) | SEP_SNK => cfg.(a2dp_source) end.

(** The per-state invariant of the fields. *)
Definition idle_pending (p : Z) : Prop := p = PENDING_NONE \/ p = PENDING_OFFLOAD_STOP.

Definition data_inv (c : state) (d : a2dp_data) : Prop :=
  match c with
  | idle_state =>
      d.(audio_ready) = false /\ idle_pending d.(pending) /\ d.(connect_timer) = None /\
      d.(avrcp_timer) = None
  | opening_state =>
      d.(audio_ready) = false /\ idle_pending d.(pending) /\ d.(avrcp_timer) = None
  | _ => d.(connect_timer) = None
  end.

(** ** One event *)

Lemma hci_command_cases p sz :
  (exists a b c d, hci_command p sz = bt_sal_send_hci_command a b c d) \/
  hci_command p sz = hci_payload_overread.
Proof.
  unfold hci_command. destruct (split_command p sz) as [[[[a b] c] d]|]; eauto 10.
Qed.

(** Everything about the result [r] of one event taken in state [c]. *)
Record step_spec {A} (cfg : config) (e : env) (c : state) (sm : a2dp_state_machine_t)
    (r : A * a2dp_state_machine_t * list out) (c' : state) : Prop := {
  ss_current : r.1.2.(current_state) = Some c';
  ss_edge : (c' = c /\ r.1.2.(previous_state) = sm.(previous_state)) \/
            (edge c c' = true /\ r.1.2.(previous_state) = Some c);
  ss_fixed : r.1.2.(data).(peer_sep) = sm.(data).(peer_sep) /\
             r.1.2.(data).(addr) = sm.(data).(addr);
  ss_busy : net_busy r.2 = (streaming c' - streaming c)%Z;
  ss_report : service_built cfg sm.(data).(peer_sep) = true -> is_Some e.(peer_acl_hdl) ->
              listener (conn_state c) r.2 = conn_state c';
  ss_inv : data_inv c sm.(data) -> data_inv c' r.1.2.(data);
}.

(** Evaluate a handler in [H]: reduce, then split on what it is stuck on. *)
Ltac a2dp_reduce H :=
  cbv -[is_success flag_isset_v flag_set_v flag_clear_v hci_succeeded hci_command bes_bandwidth_config_builder Z.of_nat] in H.
Ltac a2dp_split H :=
  match type of H with
  | context [is_success ?x] => destruct (is_success x) eqn:?
  | context [flag_isset_v ?x ?y] => destruct (flag_isset_v x y) eqn:?
  | context [hci_succeeded ?x] => destruct (hci_succeeded x) eqn:?
  | context [match ?x with _ => _ end] => is_var x; destruct x
  end.
Ltac eval_a2dp H := a2dp_reduce H; repeat (a2dp_split H; a2dp_reduce H).

(** The commands sent to the controller are not reports. *)
Ltac hci_cases :=
  repeat match goal with
  | |- context [hci_command ?x ?y] =>
      destruct (hci_command_cases x y) as [(? & ? & ? & ? & ->) | ->]
  end.

Ltac close_step :=
  hci_cases;
  (eexists; split;
  [ reflexivity
  | first [left; split; reflexivity | right; split; reflexivity]
  | split; reflexivity
  | reflexivity
  | intros Hb [? Hp]; first [reflexivity | discriminate Hb | discriminate Hp]
  | cbn; intros Hinv; unfold idle_pending in *; naive_solver ]).

Lemma handle_event_eq cfg e ev sm c :
  sm.(current_state) = Some c ->
  a2dp_state_machine_handle_event cfg e ev sm
  = Hsm.process_event (EventTable := a2dp_events cfg e) c ev sm.
Proof.
  intros Hc. unfold a2dp_state_machine_handle_event, hsm_dispatch_event, mbind_, gets. rewrite Hc.
  by destruct (process_event c ev sm) as [[b sm'] os].
Qed.

Lemma handle_event_spec cfg e ev sm c :
  sm.(current_state) = Some c ->
  exists c', step_spec cfg e c sm (a2dp_state_machine_handle_event cfg e ev sm) c'.
Proof.
  intros Hc. rewrite (handle_event_eq cfg e ev sm c Hc).
  destruct (Hsm.process_event (EventTable := a2dp_events cfg e) c ev sm) as [[b sm'] os] eqn:Hr.
  destruct sm as [i p cur [a h pend ready sep t1 t2 t3 t4 t5]]; simpl in Hc; subst cur.
  destruct cfg as [c1 c2 c3 c4 c5 c6 c7 ct], e as [s1 s2 s3 pa ac bw].
  destruct ev as [ty [ba sz cd hd pk]].
  destruct c, ty, sep; eval_a2dp Hr; injection Hr as <- <- <-; close_step.
Qed.

(** ** One input *)

Lemma timer_event_spec cfg e ty sm c :
  sm.(current_state) = Some c -> exists c', step_spec cfg e c sm (timer_event cfg e ty sm) c'.
Proof.
  intros Hc. destruct (handle_event_spec cfg e (a2dp_event_new ty sm.(data).(addr)) sm c Hc) as [c' H].
  exists c'. unfold timer_event, field, gets, mbind_.
  destruct (a2dp_state_machine_handle_event _ _ _ sm) as [[b sm'] os]. simpl. rewrite app_nil_r.
  by destruct H; split.
Qed.

(** A call that is neither a report nor a busy request changes nothing. *)
Lemma emit_first_spec {A} cfg e c sm c' o (m : MA A) :
  conn_report o = None -> net_busy [o] = 0%Z ->
  step_spec cfg e c sm (m sm) c' -> step_spec cfg e c sm ((emit o;;; m) sm) c'.
Proof.
  intros Ho Hb. unfold mbind_, emit. destruct (m sm) as [[a sm'] os]. intros [H1 H2 H3 H4 H5 H6].
  split; simpl in *; try done.
  - by destruct o.
  - by rewrite Ho.
Qed.

Lemma handle_input_spec cfg e i sm c :
  sm.(current_state) = Some c -> exists c', step_spec cfg e c sm (handle_input cfg e i sm) c'.
Proof.
  intros Hc. destruct i as [ev| | | | | |ev]; cbn [handle_input].
  - destruct (handle_event_spec cfg e ev sm c Hc) as [c' H]. exists c'. unfold mbind_.
    destruct (a2dp_state_machine_handle_event _ _ _ sm) as [[b sm'] os]. simpl. rewrite app_nil_r.
    by destruct H; split.
  - destruct (timer_event_spec cfg e CONNECT_TIMEOUT sm c Hc) as [c' H].
    exists c'. by apply emit_first_spec.
  - by apply timer_event_spec.
  - by apply timer_event_spec.
  - destruct (timer_event_spec cfg e OFFLOAD_TIMEOUT sm c Hc) as [c' H].
    exists c'. by apply emit_first_spec.
  - exists c. destruct (avrcp_start_timeout_callback sm) as [[b sm'] os] eqn:Hr.
    destruct sm as [i p cur [a h pend ready sep t1 t2 t3 t4 t5]]; simpl in Hc; subst cur.
    destruct c; cbv in Hr; injection Hr as <- <- <-; split; cbn; auto; try lia;
      intros Hinv; naive_solver.
  - exists c. destruct (bt_hci_event_callback cfg ev sm) as [[b sm'] os] eqn:Hr.
    destruct sm as [i p cur [a h pend ready sep t1 t2 t3 t4 t5]]; simpl in Hc; subst cur.
    destruct cfg as [c1 [] c3 c4 c5 c6 c7 ct]; cbv -[flag_isset_v flag_clear_v] in Hr;
      repeat (a2dp_split Hr; cbv -[flag_isset_v flag_clear_v] in Hr);
      injection Hr as <- <- <-;
      destruct c; split; cbn; auto; try lia;
      intros (Hr & [Hp | Hp] & Ht); subst; repeat split; try tauto;
      unfold idle_pending; vm_compute; auto.
Qed.

(** ** Runs *)

(** The facts of a run: those of its steps, one after the other. *)
Record run_spec (cfg : config) (l : list (env * input)) (c : state) (sm : a2dp_state_machine_t)
    (c' : state) : Prop := {
  rs_current : (exec (run_inputs cfg l) sm).(current_state) = Some c';
  rs_fixed : (exec (run_inputs cfg l) sm).(data).(peer_sep) = sm.(data).(peer_sep) /\
             (exec (run_inputs cfg l) sm).(data).(addr) = sm.(data).(addr);
  rs_path : rtc (fun a b => edge a b = true) c c';
  rs_busy : net_busy (outs (run_inputs cfg l) sm) = (streaming c' - streaming c)%Z;
  rs_report : service_built cfg sm.(data).(peer_sep) = true ->
              Forall (fun x => is_Some (peer_acl_hdl x.1)) l ->
              listener (conn_state c) (outs (run_inputs cfg l) sm) = conn_state c';
  rs_inv : data_inv c sm.(data) -> data_inv c' (exec (run_inputs cfg l) sm).(data);
}.

Lemma net_busy_app a b : net_busy (a ++ b) = (net_busy a + net_busy b)%Z.
Proof. induction a as [|[] a IH]; simpl; lia. Qed.

Lemma listener_app s a b : listener s (a ++ b) = listener (listener s a) b.
Proof. revert s. induction a as [|o a IH]; intros s; simpl; [done|]. apply IH. Qed.

Lemma run_inputs_spec cfg l c sm :
  sm.(current_state) = Some c -> exists c', run_spec cfg l c sm c'.
Proof.
  revert c sm. induction l as [|[e i] l IH]; intros c sm Hc.
  - exists c. split; simpl; auto using rtc_refl; lia.
  - destruct (handle_input_spec cfg e i sm c Hc) as [c1 [S1 S2 S3 S4 S5 S6]].
    destruct (IH c1 (exec (handle_input cfg e i) sm) S1) as [c2 [R1 R2 R3 R4 R5 R6]].
    unfold exec in * |-. exists c2.
    split; cbn [run_inputs]; autorewrite with bt; unfold exec, outs in *.
    + done.
    + destruct R2 as [-> ->]. done.
    + destruct S2 as [[-> _]|[He _]]; [done|]. by eapply rtc_l.
    + rewrite net_busy_app, S4, R4. lia.
    + intros Hb Hf. apply Forall_cons_iff in Hf as [Hf1 Hf2]. rewrite listener_app, S5 by done.
      apply R5; [|done]. destruct S3 as [-> _]. done.
    + auto.
Qed.

Lemma connection_state_of sm c :
  sm.(current_state) = Some c -> a2dp_state_machine_get_connection_state sm = conn_state c.
Proof.
  intros Hc. unfold a2dp_state_machine_get_connection_state, a2dp_state_machine_get_state,
    hsm_get_current_state. rewrite Hc. by destruct c.
Qed.

Lemma new_machine cfg e sep a :
  let sm := a2dp_state_machine_new cfg e sep a in
  sm.(current_state) = Some idle_state /\ sm.(data).(peer_sep) = sep /\ sm.(data).(addr) = a /\
  data_inv idle_state sm.(data).
Proof. destruct cfg, e, sep; cbv -[idle_pending]; unfold idle_pending; auto 10. Qed.

(** ** Claims *)

(** Every event, in every state, build and answer of the outside, leaves
    the machine in its state or moves it along one edge of the diagram
    (Idle to Opening or Opened, Opening to Opened or Idle, Opened to Started,
    Closing or Idle, Started to Opened, Closing or Idle, Closing to Idle),
    remembering the state left; the peer's address and role never change. *)
Theorem a2dp_event_follows_diagram (cfg : config) (e : env) (ev : a2dp_event_t)
    (sm : a2dp_state_machine_t) (c : state) :
  sm.(current_state) = Some c ->
  let sm' := exec (a2dp_state_machine_handle_event cfg e ev) sm in
  exists c', sm'.(current_state) = Some c' /\
    ((c' = c /\ sm'.(previous_state) = sm.(previous_state)) \/
     (edge c c' = true /\ sm'.(previous_state) = Some c)) /\
    sm'.(data).(peer_sep) = sm.(data).(peer_sep) /\ sm'.(data).(addr) = sm.(data).(addr).
Proof.
  intros Hc sm'. destruct (handle_event_spec cfg e ev sm c Hc) as [c' [H1 H2 H3 _ _ _]]. by exists c'.
Qed.

Definition demo_cfg : config := mk_config true true true true false true false 6000 true.
Definition demo_env : env :=
  mk_env BT_STATUS_SUCCESS BT_STATUS_SUCCESS BT_STATUS_SUCCESS (Some 0x0b%Z) true (Some 5).
Definition demo_addr : bt_address_t := mk_addr 1 2 3 4 5 6.
Definition demo_event (ty : a2dp_event_type_t) : env * input :=
  (demo_env, in_event (a2dp_event_new ty demo_addr)).
Definition demo_sm (l : list a2dp_event_type_t) : a2dp_state_machine_t :=
  exec (run_inputs demo_cfg (map demo_event l)) (a2dp_state_machine_new demo_cfg demo_env SEP_SNK demo_addr).

Lemma a2dp_event_follows_diagram_witness :
  exists c', (exec (a2dp_state_machine_handle_event demo_cfg demo_env (a2dp_event_new CONNECT_REQ demo_addr))
                (demo_sm [])).(current_state) = Some c' /\ edge idle_state c' = true.
Proof.
  destruct (a2dp_event_follows_diagram demo_cfg demo_env (a2dp_event_new CONNECT_REQ demo_addr)
              (demo_sm []) idle_state eq_refl) as (c' & Hc & [[-> _]|[He _]] & _).
  - vm_compute in Hc. discriminate Hc.
  - exists c'. split; [exact Hc|exact He].
Defined.

(** For a machine just made, after any sequence of events, timers and
    controller answers, the connection state last reported to the service of
    the peer's role is the one [a2dp_state_machine_get_connection_state]
    returns, provided that service is built in and knows the peer. *)
Theorem a2dp_listener_agrees (cfg : config) (e : env) (sep : peer_sep_t) (a : bt_address_t)
    (l : list (env * input)) :
  service_built cfg sep = true -> Forall (fun x => is_Some (peer_acl_hdl x.1)) l ->
  let sm := a2dp_state_machine_new cfg e sep a in
  listener PROFILE_STATE_DISCONNECTED (outs (run_inputs cfg l) sm)
  = a2dp_state_machine_get_connection_state (exec (run_inputs cfg l) sm).
Proof.
  intros Hb Hl sm. destruct (new_machine cfg e sep a) as (Hc & Hs & _).
  destruct (run_inputs_spec cfg l _ sm Hc) as [c' [H1 _ _ _ H5 _]].
  rewrite (connection_state_of _ c' H1). apply H5; [|done]. unfold sm. by rewrite Hs.
Qed.

Lemma a2dp_listener_agrees_witness :
  let l := map demo_event [CONNECT_REQ; CONNECTED_EVT; DISCONNECT_REQ] in
  let sm := a2dp_state_machine_new demo_cfg demo_env SEP_SNK demo_addr in
  listener PROFILE_STATE_DISCONNECTED (outs (run_inputs demo_cfg l) sm) = PROFILE_STATE_DISCONNECTING.
Proof.
  apply (a2dp_listener_agrees demo_cfg demo_env SEP_SNK demo_addr
           (map demo_event [CONNECT_REQ; CONNECTED_EVT; DISCONNECT_REQ])).
  - reflexivity.
  - repeat constructor; exists 0x0b%Z; reflexivity.
Defined.

(** C16: The busy requests a machine has made to the power manager are
    balanced: after any inputs exactly one is outstanding when the machine
    is in Started and none otherwise. *)
Theorem a2dp_busy_balanced (cfg : config) (e : env) (sep : peer_sep_t) (a : bt_address_t)
    (l : list (env * input)) :
  let sm := a2dp_state_machine_new cfg e sep a in
  net_busy (outs (run_inputs cfg l) sm)
  = if (a2dp_state_machine_get_state (exec (run_inputs cfg l) sm) =? value_of started_state)%Z
    then 1%Z else 0%Z.
Proof.
  intros sm. destruct (new_machine cfg e sep a) as (Hc & _).
  destruct (run_inputs_spec cfg l _ sm Hc) as [c' [H1 _ _ H4 _ _]]. rewrite H4.
  unfold a2dp_state_machine_get_state, hsm_get_current_state. rewrite H1. by destruct c'.
Qed.

(** In every machine reached from a new one: without a link (Idle,
    Opening) the codec is not ready, no stream start or stop is pending and
    the AVRCP timer is not set; the connection timer is set in Opening
    only. *)
Theorem a2dp_reachable_fields (cfg : config) (e : env) (sep : peer_sep_t) (a : bt_address_t)
    (l : list (env * input)) :
  let sm := exec (run_inputs cfg l) (a2dp_state_machine_new cfg e sep a) in
  exists c, sm.(current_state) = Some c /\
    (is_Some sm.(data).(connect_timer) -> c = opening_state) /\
    (c = idle_state \/ c = opening_state ->
       sm.(data).(audio_ready) = false /\ sm.(data).(avrcp_timer) = None /\
       flag_isset_v sm.(data).(pending) PENDING_START = false /\
       a2dp_state_machine_is_pending_stop sm = false /\
       flag_isset_v sm.(data).(pending) PENDING_OFFLOAD_START = false).
Proof.
  intros sm. destruct (new_machine cfg e sep a) as (Hc & _ & _ & Hi).
  destruct (run_inputs_spec cfg l _ _ Hc) as [c' [H1 _ _ _ _ H6]]. exists c'.
  split; [done|]. specialize (H6 Hi). fold sm in H6. unfold a2dp_state_machine_is_pending_stop.
  split.
  - intros [t Ht]. destruct c'; simpl in H6; (done || destruct_and?; congruence).
  - intros [-> | ->]; simpl in H6; unfold idle_pending in H6; destruct_and?;
      destruct_or?; repeat split; try done; by match goal with H : pending _ = _ |- _ => rewrite H end.
Qed.

(** The answers to a start request on the audio path. *)
Definition start_acks (os : list out) : list bool :=
  omap (fun o => match o with a2dp_audio_on_started _ b => Some b | _ => None end) os.

(** A start request accepted in Opened (the codec ready, nothing
    pending) marks the start pending and arms its timer, and is answered
    exactly once: positively by the stream's start, which moves to Started;
    negatively by the timer, which stays in Opened, or by the loss of the
    link, which moves to Idle.  In each case the start is no longer pending
    and its timer is gone. *)
Theorem a2dp_start_answered_once (cfg : config) (e : env) (sm : a2dp_state_machine_t)
    (d1 : a2dp_event_data_t) (d2 : a2dp_event_data_t) :
  sm.(current_state) = Some opened_state -> sm.(data).(peer_sep) = SEP_SNK ->
  sm.(data).(audio_ready) = true -> (0 <= sm.(data).(pending))%Z ->
  flag_isset_v sm.(data).(pending) PENDING_STOP = false ->
  flag_isset_v sm.(data).(pending) PENDING_START = false ->
  e.(start_status) = BT_STATUS_SUCCESS ->
  let run ty d := a2dp_state_machine_handle_event cfg e (mk_event ty d) in
  let sm1 := exec (run STREAM_START_REQ d1) sm in
  sm1.(current_state) = Some opened_state /\
  flag_isset_v sm1.(data).(pending) PENDING_START = true /\
  sm1.(data).(start_timer) = e.(new_timer) /\ start_acks (outs (run STREAM_START_REQ d1) sm) = [] /\
  forall ty, ty = STREAM_STARTED_EVT \/ ty = START_TIMEOUT \/ ty = DISCONNECTED_EVT ->
    let sm2 := exec (run ty d2) sm1 in
    flag_isset_v sm2.(data).(pending) PENDING_START = false /\ sm2.(data).(start_timer) = None /\
    start_acks (outs (run ty d2) sm1) = [bool_decide (ty = STREAM_STARTED_EVT)] /\
    sm2.(current_state) = Some match ty with
                               | STREAM_STARTED_EVT => started_state
                               | START_TIMEOUT => opened_state
                               | _ => idle_state
                               end.
Proof.
  intros H1 H2 H3 Hp Hstop Hstart Hok run.
  destruct sm as [i p cur [a h pend ready sep t1 t2 t3 t4 t5]].
  cbn [current_state data peer_sep audio_ready pending] in * |-. subst cur sep ready.
  set (sm0 := mk_sm i p (Some opened_state) (mk_data a h pend true SEP_SNK t1 t2 t3 t4 t5)).
  set (smp := mk_sm i p (Some opened_state)
                (mk_data a h (flag_set_v pend PENDING_START) true SEP_SNK t1 e.(new_timer) t3 t4 t5)).
  assert (run STREAM_START_REQ d1 sm0
          = (true, smp, [bt_pm_busy a; bt_sal_a2dp_source_start_stream a; bt_pm_idle a;
                         service_loop_timer A2DP_START_TIMEOUT e.(new_timer)])) as Hr.
  { unfold run. rewrite (handle_event_eq _ _ _ sm0 opened_state) by done.
    destruct e as [s1 s2 s3 pa ac bw]; simpl in Hok; subst s2.
    cbv -[flag_isset_v flag_set_v PENDING_STOP PENDING_START A2DP_START_TIMEOUT].
    by rewrite Hstop, Hstart. }
  pose proof (flag_isset_set pend PENDING_START ltac:(done) Hp ltac:(done)) as Hset.
  unfold exec, outs. rewrite Hr. cbn [fst snd]. do 4 (split; [done|]).
  intros ty Hty. pose proof (flag_isset_clear (flag_set_v pend PENDING_START) PENDING_START) as Hclr.
  destruct (run ty d2 smp) as [[b sm2] os2] eqn:Hr2. unfold run in Hr2.
  rewrite (handle_event_eq _ _ _ smp opened_state) in Hr2 by done.
  destruct cfg as [c1 c2 c3 c4 c5 c6 c7 ct], e as [s1 s2 s3 pa ac bw]; subst smp.
  cbn [new_timer] in Hr2.
  destruct Hty as [-> | [-> | ->]];
    cbv -[flag_isset_v flag_set_v flag_clear_v hci_command bes_bandwidth_config_builder Z.of_nat PENDING_START] in Hr2;
    rewrite ?Hset in Hr2;
    repeat (a2dp_split Hr2; cbv -[flag_isset_v flag_set_v flag_clear_v hci_command bes_bandwidth_config_builder Z.of_nat PENDING_START] in Hr2);
    injection Hr2 as <- <- <-; hci_cases; repeat split; try done; exact Hclr.
Qed.

Definition ready_sm : a2dp_state_machine_t := demo_sm [CONNECTED_EVT; DEVICE_CODEC_STATE_CHANGE_EVT].

Lemma a2dp_start_answered_once_witness :
  (exec (a2dp_state_machine_handle_event demo_cfg demo_env (a2dp_event_new STREAM_START_REQ demo_addr))
     ready_sm).(data).(start_timer) = Some 5.
Proof.
  apply (a2dp_start_answered_once demo_cfg demo_env ready_sm
           (event_data (a2dp_event_new STREAM_START_REQ demo_addr))
           (event_data (a2dp_event_new STREAM_STARTED_EVT demo_addr)));
    try reflexivity; vm_compute; discriminate.
Defined.

(** ** A timer left behind

    Disconnecting in Opened while a start is pending forgets the start timer:
    it is still armed with the machine as its argument in Idle, and deleting
    the machine does not cancel it. *)
Theorem a2dp_disconnect_leaves_start_timer :
  let sm := demo_sm [CONNECTED_EVT; DEVICE_CODEC_STATE_CHANGE_EVT; STREAM_START_REQ;
                     DISCONNECT_REQ; DISCONNECTED_EVT] in
  sm.(current_state) = Some idle_state /\ sm.(data).(start_timer) = Some 5 /\
  outs (a2dp_state_machine_destory demo_cfg) sm = [].
Proof. vm_compute. auto. Qed.

(** ** The engine's interface, discharged for this table *)

#[export] Instance a2dp_table_frame cfg e : TableFrame (StateTable0 := a2dp_states cfg e).
Proof.
  split; intros st sm; unfold exec;
    [destruct (enter st sm) as [[u sm'] os] eqn:Hr | destruct (exit st sm) as [[u sm'] os] eqn:Hr];
    destruct cfg as [c1 c2 c3 c4 c5 c6 c7 ct], e as [s1 s2 s3 pa ac bw];
    destruct sm as [i p cur [a h pend ready sep t1 t2 t3 t4 t5]];
    destruct st; eval_a2dp Hr; injection Hr as <- <- <-; done.
Qed.

End A2dp.
