(* ===== verification/A2dpCodec.v ===== *)
(** * The A2DP codecs (service/profiles/a2dp: codec/, a2dp_codec.c, source/a2dp_source_sbc_stream.c)

    The configuration of a stream is agreed on as a few bytes, the codec's
    specific information.  This file has how they are read (a2dp_codec_sbc.c,
    a2dp_codec_aac.c, a2dp_codec.c), what is computed from them, and how the
    SBC stream of a source packs frames (a2dp_source_sbc_stream.c).

    [int] arithmetic is on [Z]; the values are far from its bounds.  Reading
    past an array or dividing by zero has no result.  The feeding counter of
    the stream is a [float] and is not modelled: the number of frames that it
    says are due is an argument. *)

From S2P Require Import Prelude Bytes Hci.
From coqutil Require Import Datatypes.RecordSetters.
From stdpp Require Import list.
Import UpdaterNotations.

Local Open Scope Z_scope.

Module A2dpCodec.
Import Hci.

#[local] Arguments constant {E} newValue _ /.

(** ** SBC *)

Definition BT_A2DP_SBC_SAMP_FREQ_MSK : Z := 0xF0.
Definition BT_A2DP_SBC_CH_MD_MSK : Z := 0x0F.
Definition BT_A2DP_SBC_BLOCKS_MSK : Z := 0xF0.
Definition BT_A2DP_SBC_SUBBAND_MSK : Z := 0x0C.
Definition BT_A2DP_SBC_ALLOC_MD_MSK : Z := 0x03.

(** Of sbc_encoder.h. *)
Definition SBC_LOUDNESS : Z := 0.
Definition SBC_SNR : Z := 1.
Definition SBC_SF_16000 : Z := 0.
Definition SBC_SF_32000 : Z := 1.
Definition SBC_SF_44100 : Z := 2.
Definition SBC_SF_48000 : Z := 3.
Definition SBC_MONO : Z := 0.
Definition SBC_DUAL : Z := 1.
Definition SBC_STEREO : Z := 2.
Definition SBC_JOINT_STEREO : Z := 3.
Definition SBC_MAX_NUM_OF_CHANNELS : Z := 2.

Record a2dp_sbc_info_t := mk_sbc_info {
  samp_freq : Z; ch_mode : Z; block_len : Z; num_subbands : Z; alloc_method : Z; min_bitpool : Z; max_bitpool : Z;
}.

Record sbc_param_t := mk_sbc_param {
  s16SamplingFreq : Z;
  s16ChannelMode : Z;
  s16NumOfSubBands : Z;
  s16NumOfChannels : Z;
  s16NumOfBlocks : Z;
  s16AllocationMethod : Z;
  s16BitPool : Z;
  sbc_u32BitRate : Z;
}.

Definition a2dp_parse_sbc_info (codec_info : list Z) : option a2dp_sbc_info_t :=
  match codec_info with
  | b0 :: b1 :: b2 :: b3 :: _ =>
      Some (mk_sbc_info (Z.land b0 BT_A2DP_SBC_SAMP_FREQ_MSK) (Z.land b0 BT_A2DP_SBC_CH_MD_MSK)
        (Z.land b1 BT_A2DP_SBC_BLOCKS_MSK) (Z.land b1 BT_A2DP_SBC_SUBBAND_MSK) (Z.land b1 BT_A2DP_SBC_ALLOC_MD_MSK) b2 b3)
  | _ => None
  end.

Definition a2dp_get_sbc_allocation_method (i : a2dp_sbc_info_t) : Z :=
  if i.(alloc_method) =? 0x02 then SBC_SNR else if i.(alloc_method) =? 0x01 then SBC_LOUDNESS else -1.

Definition a2dp_get_sbc_blocks (i : a2dp_sbc_info_t) : Z :=
  if i.(block_len) =? 0x80 then 4 else if i.(block_len) =? 0x40 then 8
  else if i.(block_len) =? 0x20 then 12 else if i.(block_len) =? 0x10 then 16 else -1.

Definition a2dp_get_sbc_subbands (i : a2dp_sbc_info_t) : Z :=
  if i.(num_subbands) =? 0x08 then 4 else if i.(num_subbands) =? 0x04 then 8 else -1.

Definition a2dp_get_sbc_samp_frequency (i : a2dp_sbc_info_t) : Z :=
  if i.(samp_freq) =? 0x80 then SBC_SF_16000 else if i.(samp_freq) =? 0x40 then SBC_SF_32000
  else if i.(samp_freq) =? 0x20 then SBC_SF_44100 else if i.(samp_freq) =? 0x10 then SBC_SF_48000 else -1.

Definition a2dp_get_sbc_channel_mode (i : a2dp_sbc_info_t) : Z :=
  if i.(ch_mode) =? 0x08 then SBC_MONO else if i.(ch_mode) =? 0x04 then SBC_DUAL
  else if i.(ch_mode) =? 0x02 then SBC_STEREO else if i.(ch_mode) =? 0x01 then SBC_JOINT_STEREO else -1.

Definition a2dp_get_sbc_channel_count (i : a2dp_sbc_info_t) : Z := SBC_MAX_NUM_OF_CHANNELS.

(** [int] division truncates. *)
Definition a2dp_sbc_frame_length (p : sbc_param_t) : Z :=
  if p.(s16ChannelMode) =? SBC_MONO then 0
  else
    u32 (4 + Z.quot (4 * p.(s16NumOfSubBands) * p.(s16NumOfChannels)) 8
         + Z.quot (p.(s16NumOfBlocks) * p.(s16BitPool) * (1 + (if p.(s16ChannelMode) =? SBC_DUAL then 1 else 0))
                   + (if p.(s16ChannelMode) =? SBC_JOINT_STEREO then 1 else 0) * p.(s16NumOfSubBands) + 7) 8).

Definition a2dp_sbc_sample_frequency (f : Z) : Z :=
  if f =? SBC_SF_16000 then 16000 else if f =? SBC_SF_32000 then 32000 else if f =? SBC_SF_44100 then 44100 else 48000.

(** The parameter is [uint16_t]; the division is of unsigned words. *)
Definition a2dp_sbc_bit_rate (p : sbc_param_t) : option Z :=
  let samp := a2dp_sbc_sample_frequency (u16 p.(s16SamplingFreq)) in
  let d := u32 (p.(s16NumOfSubBands) * p.(s16NumOfBlocks)) in
  if d =? 0 then None else Some (u32 (8 * a2dp_sbc_frame_length p * samp) / d).

Definition a2dp_codec_parse_sbc_param (codec_info : list Z) : option sbc_param_t :=
  match a2dp_parse_sbc_info codec_info with
  | None => None
  | Some i =>
      let p := mk_sbc_param (a2dp_get_sbc_samp_frequency i) (a2dp_get_sbc_channel_mode i) (a2dp_get_sbc_subbands i)
                 (a2dp_get_sbc_channel_count i) (a2dp_get_sbc_blocks i) (a2dp_get_sbc_allocation_method i) i.(max_bitpool) 0 in
      match a2dp_sbc_bit_rate p with
      | None => None
      | Some r => Some ({! sbc_u32BitRate := r } p)
      end
  end.

Definition a2dp_sbc_frame_sample (p : sbc_param_t) : Z := u16 (p.(s16NumOfSubBands) * p.(s16NumOfBlocks)).
Definition a2dp_sbc_max_latency (p : sbc_param_t) : Z := 0.
Definition a2dp_sbc_bits_per_sample (p : sbc_param_t) : Z := 0.
Definition a2dp_sbc_encoded_audio_bitrate (p : sbc_param_t) : option Z := a2dp_sbc_bit_rate p.
Definition a2dp_get_sbc_ch_mode (p : sbc_param_t) : Z := 0.

(** ** AAC *)

Definition A2DP_AAC_SAMPLING_FREQ_MASK0 : Z := 0xFF.
Definition A2DP_AAC_SAMPLING_FREQ_MASK1 : Z := 0xF000.
Definition A2DP_AAC_CHANNEL_MODE_MASK : Z := 0x0C.
Definition A2DP_AAC_CHANNEL_MODE_MONO : Z := 0x08.
Definition A2DP_AAC_CHANNEL_MODE_STEREO : Z := 0x04.
Definition A2DP_AAC_VARIABLE_BIT_RATE_MASK : Z := 0x80.
Definition A2DP_AAC_BIT_RATE_MASK0 : Z := 0x7F0000.
Definition A2DP_AAC_BIT_RATE_MASK1 : Z := 0xFF00.
Definition A2DP_AAC_BIT_RATE_MASK2 : Z := 0xFF.
Definition MAX_2MBPS_AVDTP_MTU : Z := 663.

Record a2dp_aac_info_t := mk_aac_info {
  object_type : Z; sample_rate : Z; channel_mode : Z; variable_bit_rate : Z; bit_rate : Z;
}.

Record aac_encoder_param_t := mk_aac_param {
  u16ObjectType : Z; u16VariableBitRate : Z; u16ChannelMode : Z; u16NumOfChannels : Z; u32SampleRate : Z; u32BitRate : Z;
}.

(** The flag of the variable bit rate is taken from the third byte, as in the code. *)
Definition a2dp_parse_aac_info (codec_info : list Z) : option (bool * a2dp_aac_info_t) :=
  match codec_info with
  | b0 :: b1 :: b2 :: b3 :: b4 :: b5 :: _ =>
      let i := mk_aac_info b0
        (u16 (Z.lor (Z.land b1 A2DP_AAC_SAMPLING_FREQ_MASK0) (Z.land (Z.shiftl b2 8) A2DP_AAC_SAMPLING_FREQ_MASK1)))
        (Z.land b2 A2DP_AAC_CHANNEL_MODE_MASK) (Z.land b2 A2DP_AAC_VARIABLE_BIT_RATE_MASK)
        (Z.lor (Z.lor (Z.land (Z.shiftl b3 16) A2DP_AAC_BIT_RATE_MASK0) (Z.land (Z.shiftl b4 8) A2DP_AAC_BIT_RATE_MASK1))
               (Z.land b5 A2DP_AAC_BIT_RATE_MASK2)) in
      Some (negb ((i.(object_type) =? 0) || (i.(sample_rate) =? 0) || (i.(channel_mode) =? 0)), i)
  | _ => None
  end.

Definition a2dp_get_aac_samplerate (i : a2dp_aac_info_t) : Z :=
  let f := i.(sample_rate) in
  if f =? 0x80 then 8000 else if f =? 0x40 then 11025 else if f =? 0x20 then 12000 else if f =? 0x10 then 16000
  else if f =? 0x08 then 22050 else if f =? 0x04 then 24000 else if f =? 0x02 then 32000 else if f =? 0x01 then 44100
  else if f =? 0x8000 then 48000 else if f =? 0x4000 then 64000 else if f =? 0x2000 then 88200 else if f =? 0x1000 then 96000
  else -1.

Definition a2dp_get_aac_number_of_channels (i : a2dp_aac_info_t) : Z :=
  if i.(channel_mode) =? A2DP_AAC_CHANNEL_MODE_MONO then 1
  else if i.(channel_mode) =? A2DP_AAC_CHANNEL_MODE_STEREO then 2 else -1.

(** [inr]: the function fails and leaves the parameters as they were. *)
Definition a2dp_codec_parse_aac_param (codec_info : list Z) (tx_mtu_size : Z) : option (aac_encoder_param_t + Z) :=
  match a2dp_parse_aac_info codec_info with
  | None => None
  | Some (false, _) => Some (inr (-1))
  | Some (true, i) =>
      let rate := u32 (a2dp_get_aac_samplerate i) in
      let limit := u32 (8 * tx_mtu_size * rate) / 1024 in
      Some (inl (mk_aac_param i.(object_type) i.(variable_bit_rate) i.(channel_mode) (u16 (a2dp_get_aac_number_of_channels i)) rate
        (if (0 <? tx_mtu_size) && (limit <? i.(bit_rate)) then limit else i.(bit_rate))))
  end.

(** The MTU of the stream and the parameters. *)
Definition a2dp_source_aac_update_config (mtu : Z) (codec_info : list Z) : option (Z * (aac_encoder_param_t + Z)) :=
  let size := if MAX_2MBPS_AVDTP_MTU <? mtu then MAX_2MBPS_AVDTP_MTU else mtu in
  match a2dp_codec_parse_aac_param codec_info (u16 size) with
  | None => None
  | Some r => Some (u16 mtu, r)
  end.

(** ** The configuration of a peer (a2dp_codec.c) *)

Inductive a2dp_codec_index_t := BTS_A2DP_TYPE_SBC | BTS_A2DP_TYPE_MPEG2_4_AAC | BTS_A2DP_TYPE_OTHER.

#[export] Instance codec_index_eq_dec : EqDecision a2dp_codec_index_t.
Proof. solve_decision. Defined.

(** [codec_param] is a union; only the member of [codec_type] is used. *)
Record a2dp_codec_config_t := mk_codec_config {
  codec_type : a2dp_codec_index_t;
  cfg_acl_hdl : Z;
  cfg_l2c_rcid : Z;
  cfg_bit_rate : Z;
  specific_info : list Z;
  sbc : sbc_param_t;
  aac : aac_encoder_param_t;
}.

Record a2dp_stream_sbc_t := mk_sbc_stream {
  st_mtu : Z;
  frames_len : Z;
  media_timestamp : Z;
  bytes_per_tick : Z;
  total_tx_frames : Z;
}.

(** CONFIG_BLUETOOTH_A2DP_SOURCE, _SINK and _AAC_CODEC. *)
Record codec_build := mk_build { with_source : bool; with_sink : bool; with_aac : bool }.

(** [to_sink]: the peer is a sink ([SEP_SNK]).  The configuration as changed,
    which also becomes [g_current_config]. *)
Definition a2dp_codec_config_set (b : codec_build) (to_sink : bool) (c : a2dp_codec_config_t) (mtu : Z) : option a2dp_codec_config_t :=
  match c.(codec_type) with
  | BTS_A2DP_TYPE_SBC =>
      if (if to_sink then b.(with_source) else b.(with_sink)) then
        match a2dp_codec_parse_sbc_param c.(specific_info) with
        | None => None
        | Some p => Some ({! sbc := p; cfg_bit_rate := p.(sbc_u32BitRate) } c)
        end
      else Some ({! cfg_bit_rate := c.(sbc).(sbc_u32BitRate) } c)
  | BTS_A2DP_TYPE_MPEG2_4_AAC =>
      if b.(with_aac) then
        let r := if to_sink then (if b.(with_source) then snd <$> a2dp_source_aac_update_config mtu c.(specific_info) else Some (inr 0))
                 else (if b.(with_sink) then a2dp_codec_parse_aac_param c.(specific_info) 0 else Some (inr 0)) in
        match r with
        | None => None
        | Some (inl p) => Some ({! aac := p; cfg_bit_rate := p.(u32BitRate) } c)
        | Some (inr _) => Some ({! cfg_bit_rate := c.(aac).(u32BitRate) } c)
        end
      else Some c
  | BTS_A2DP_TYPE_OTHER => Some c
  end.

Definition a2dp_codec_set_config b to_sink c := a2dp_codec_config_set b to_sink c 0.
Definition a2dp_codec_update_config b to_sink c mtu := a2dp_codec_config_set b to_sink c mtu.

Definition a2dp_source_sbc_get_offload_config (s : a2dp_stream_sbc_t) (c : a2dp_codec_config_t) : a2dp_offload_config_t :=
  mk_a2dp_offload (a2dp_sbc_frame_sample c.(sbc)) c.(cfg_acl_hdl) c.(cfg_l2c_rcid) s.(st_mtu).

Definition a2dp_codec_get_offload_config (s : a2dp_stream_sbc_t) (c : a2dp_codec_config_t) : option a2dp_offload_config_t :=
  match c.(codec_type) with BTS_A2DP_TYPE_SBC => Some (a2dp_source_sbc_get_offload_config s c) | _ => None end.

(** ** The SBC stream of a source (a2dp_source_sbc_stream.c) *)

Definition A2DP_SBC_BIT_PER_SAMPLE : Z := 16.
Definition A2DP_SBC_ENCODER_INTERVAL_MS : Z := 20.
Definition MAX_PCM_FRAME_NUM_PER_TICK : Z := 14.
Definition A2DP_SBC_MAX_PCM_ITER_NUM_PER_TICK : Z := 3.

Definition a2dp_source_sbc_stream_init (p : sbc_param_t) (mtu : Z) (s : a2dp_stream_sbc_t) : a2dp_stream_sbc_t :=
  {! st_mtu := u16 mtu; frames_len := u16 (a2dp_sbc_frame_length p); media_timestamp := 0; total_tx_frames := 0 } s.

Definition a2dp_source_sbc_stream_reset (p : sbc_param_t) (s : a2dp_stream_sbc_t) : a2dp_stream_sbc_t :=
  {! media_timestamp := 0; total_tx_frames := 0;
     bytes_per_tick := u32 (Z.quot (Z.quot (a2dp_sbc_sample_frequency (u16 p.(s16SamplingFreq)) * A2DP_SBC_BIT_PER_SAMPLE) 8
                                    * p.(s16NumOfChannels) * A2DP_SBC_ENCODER_INTERVAL_MS) 1000) } s.

(** Fails the assertion on a length of 0; an MTU of 0 is replaced. *)
Definition calculate_max_frames_per_packet (s : a2dp_stream_sbc_t) : option (Z * a2dp_stream_sbc_t) :=
  if s.(frames_len) =? 0 then None
  else
    let s := if s.(st_mtu) =? 0 then {! st_mtu := MAX_2MBPS_AVDTP_MTU } s else s in
    Some (u8 ((s.(st_mtu) - 1) / s.(frames_len)), s).

Definition pcm_bytes_per_frame (p : sbc_param_t) : Z :=
  u32 (Z.quot (p.(s16NumOfSubBands) * p.(s16NumOfBlocks) * p.(s16NumOfChannels) * A2DP_SBC_BIT_PER_SAMPLE) 8).

(** [due]: the frames that the feeding counter projects.  The result is the
    number of packets and the number of frames for each. *)
Definition a2dp_sbc_get_num_frame_iteration (p : sbc_param_t) (due : Z) (s : a2dp_stream_sbc_t) : option (Z * Z * a2dp_stream_sbc_t) :=
  let pcm := pcm_bytes_per_frame p in
  if pcm =? 0 then None
  else
    let frames_per_tick := s.(bytes_per_tick) / pcm in
    if (MAX_PCM_FRAME_NUM_PER_TICK <? due) && (frames_per_tick =? 0) then None
    else
      let projected := if MAX_PCM_FRAME_NUM_PER_TICK <? due then MAX_PCM_FRAME_NUM_PER_TICK else due in
      match calculate_max_frames_per_packet s with
      | None => None
      | Some (most, s) =>
          if most <? projected then
            if frames_per_tick =? 0 then None
            else
              let noi := u8 (projected / frames_per_tick) in
              if 1 <? noi then
                Some (if A2DP_SBC_MAX_PCM_ITER_NUM_PER_TICK <? noi then A2DP_SBC_MAX_PCM_ITER_NUM_PER_TICK else noi, u8 frames_per_tick, s)
              else Some (noi, most, s)
          else Some (1, u8 projected, s)
      end.

(** A packet handed to the stack: the buffer behind the reserved bytes, the
    number of bytes and of frames, the time. *)
Record packet := mk_packet { pk_data : list Z; nbytes : Z; nb_frames : Z; pk_time : Z }.

(** [a2dp_source_read_callback]: all of it or nothing.  The pool as it is
    after that. *)
Definition a2dp_source_read_callback (pool : list Z) (n : Z) : list Z * list Z :=
  if Z.of_nat (length pool) <? n then ([], pool) else (take (Z.to_nat n) pool, drop (Z.to_nat n) pool).

(** The loop; [room]: what is left of the buffer. *)
Fixpoint send_loop (n : nat) (len room : Z) (pool : list Z) : option (Z * list Z * list Z) :=
  match n with
  | O => Some (0, [], pool)
  | S n =>
      let '(got, pool) := a2dp_source_read_callback pool len in
      match got with
      | [] => Some (0, [], pool)
      | _ =>
          if room <? len then None
          else
            match send_loop n len (room - len) pool with
            | None => None
            | Some (k, data, pool) => Some (1 + k, got ++ data, pool)
            end
      end
  end.

(** [mem]: the buffer can be allocated.  The loop tests [frames] at its end. *)
Definition a2dp_sbc_send_frames (mem : bool) (p : sbc_param_t) (frames : Z) (pool : list Z) (s : a2dp_stream_sbc_t) :
    option (list packet * list Z * a2dp_stream_sbc_t) :=
  if negb mem then Some ([], pool, s)
  else
    let room := u16 (frames * s.(frames_len)) in
    match send_loop (if frames =? 0 then 256 else Z.to_nat frames) s.(frames_len) room pool with
    | None => None
    | Some (k, data, pool) =>
        if Z.of_nat (length data) =? 0 then Some ([], pool, s)
        else
          Some ([mk_packet (k :: data) (u16 (Z.of_nat (length data) + 1)) k s.(media_timestamp)], pool,
                {! media_timestamp := u32 (s.(media_timestamp) + k * u16 (p.(s16NumOfSubBands) * p.(s16NumOfBlocks)));
                   total_tx_frames := u32 (s.(total_tx_frames) + k) } s)
    end.

Fixpoint send_times (mem : bool) (n : nat) (p : sbc_param_t) (frames : Z) (pool : list Z) (s : a2dp_stream_sbc_t) :
    option (list packet * list Z * a2dp_stream_sbc_t) :=
  match n with
  | O => Some ([], pool, s)
  | S n =>
      match a2dp_sbc_send_frames mem p frames pool s with
      | None => None
      | Some (pk, pool, s) =>
          match send_times mem n p frames pool s with
          | None => None
          | Some (pks, pool, s) => Some (pk ++ pks, pool, s)
          end
      end
  end.

Definition a2dp_source_sbc_send_frames (mem : bool) (p : sbc_param_t) (due : Z) (pool : list Z) (s : a2dp_stream_sbc_t) :
    option (list packet * list Z * a2dp_stream_sbc_t) :=
  match a2dp_sbc_get_num_frame_iteration p due s with
  | None => None
  | Some (noi, nof, s) => if nof =? 0 then Some ([], pool, s) else send_times mem (Z.to_nat noi) p nof pool s
  end.
End A2dpCodec.
