(* ===== verification/A2dpCodecSpec.v ===== *)
(** * The A2DP codecs: theorems *)

From S2P Require Import Prelude Bytes Hci A2dpCodec.
From coqutil Require Import Datatypes.RecordSetters.
From stdpp Require Import list.
Import UpdaterNotations.

Local Open Scope Z_scope.

Module A2dpCodecSpec.
Import Hci A2dpCodec.

#[local] Arguments constant {E} newValue _ /.

(** Linear arithmetic with divisions. *)
Ltac div_lia := Z.to_euclidean_division_equations; lia.

(** ** SBC, as the A2DP specification has it *)

Inductive sbc_freq := f16 | f32 | f44 | f48.
Inductive sbc_mode := mono | dual | stereo | joint.
Inductive sbc_blocks := b4 | b8 | b12 | b16.
Inductive sbc_alloc := by_snr | by_loudness.

(** A configuration.  [c_eight]: eight subbands, else four. *)
Record sbc_config := mk_sbc { c_freq : sbc_freq; c_mode : sbc_mode; c_blocks : sbc_blocks; c_eight : bool; c_alloc : sbc_alloc; c_min : Z; c_max : Z }.

Definition hertz (f : sbc_freq) : Z := match f with f16 => 16000 | f32 => 32000 | f44 => 44100 | f48 => 48000 end.
Definition nblocks (c : sbc_config) : Z := match c.(c_blocks) with b4 => 4 | b8 => 8 | b12 => 12 | b16 => 16 end.
Definition nsubbands (c : sbc_config) : Z := if c.(c_eight) then 8 else 4.

(** The elements of the specific information. *)
Definition sbc_bytes (c : sbc_config) : list Z :=
  [Z.lor (match c.(c_freq) with f16 => 0x80 | f32 => 0x40 | f44 => 0x20 | f48 => 0x10 end)
         (match c.(c_mode) with mono => 0x08 | dual => 0x04 | stereo => 0x02 | joint => 0x01 end);
   Z.lor (Z.lor (match c.(c_blocks) with b4 => 0x80 | b8 => 0x40 | b12 => 0x20 | b16 => 0x10 end) (if c.(c_eight) then 0x04 else 0x08))
         (match c.(c_alloc) with by_snr => 0x02 | by_loudness => 0x01 end);
   c.(c_min); c.(c_max)].

Definition ceil8 (n : Z) : Z := (n + 7) / 8.

(** The length of a frame: a header of four bytes, the scale factors of four
    bits per channel and subband, and the samples. *)
Definition sbc_frame_bytes (c : sbc_config) : Z :=
  let channels := match c.(c_mode) with mono => 1 | _ => 2 end in
  4 + 4 * nsubbands c * channels / 8 +
  match c.(c_mode) with
  | mono | dual => ceil8 (nblocks c * channels * c.(c_max))
  | stereo => ceil8 (nblocks c * c.(c_max))
  | joint => ceil8 (nsubbands c + nblocks c * c.(c_max))
  end.

(** What the code supports. *)
Definition supported (c : sbc_config) : bool := match c.(c_mode) with mono => false | _ => true end.

Definition param_of (c : sbc_config) (r : Z) : sbc_param_t :=
  mk_sbc_param (match c.(c_freq) with f16 => SBC_SF_16000 | f32 => SBC_SF_32000 | f44 => SBC_SF_44100 | f48 => SBC_SF_48000 end)
    (match c.(c_mode) with mono => SBC_MONO | dual => SBC_DUAL | stereo => SBC_STEREO | joint => SBC_JOINT_STEREO end)
    (nsubbands c) 2 (nblocks c) (match c.(c_alloc) with by_snr => SBC_SNR | by_loudness => SBC_LOUDNESS end) c.(c_max) r.

Definition sbc_ok (c : sbc_config) : Prop := 0 <= c.(c_min) <= c.(c_max) /\ c.(c_max) <= 255.

Lemma nblocks_cases c : nblocks c = 4 \/ nblocks c = 8 \/ nblocks c = 12 \/ nblocks c = 16.
Proof. unfold nblocks. destruct (c_blocks c); lia. Qed.

Lemma nsubbands_cases c : nsubbands c = 4 \/ nsubbands c = 8.
Proof. unfold nsubbands. destruct (c_eight c); lia. Qed.

Lemma sample_frequency_of c r : a2dp_sbc_sample_frequency (u16 (param_of c r).(s16SamplingFreq)) = hertz c.(c_freq).
Proof. by destruct c as [[] ? ? ? ? ? ?]. Qed.

(** The frame length of the code is the specified one, but for mono. *)
Lemma frame_length_of c r :
  sbc_ok c -> a2dp_sbc_frame_length (param_of c r) = (if supported c then sbc_frame_bytes c else 0) /\
  6 <= sbc_frame_bytes c <= 1032.
Proof.
  intros [Hmin Hmax]. unfold supported, sbc_frame_bytes, a2dp_sbc_frame_length, ceil8, uint. cbn [s16ChannelMode s16NumOfSubBands s16NumOfChannels s16NumOfBlocks s16BitPool param_of].
  pose proof (nblocks_cases c) as Hb. pose proof (nsubbands_cases c) as Hs. generalize dependent (nblocks c). generalize dependent (nsubbands c). intros s Hs b Hb.
  assert (0 <= c_max c) as H0 by lia. generalize dependent (c_max c). intros m Hmn Hmx H0.
  destruct (c_mode c); cbn [Z.eqb SBC_MONO SBC_DUAL SBC_STEREO SBC_JOINT_STEREO]; (split; [|destruct Hb as [->|[->|[->| ->]]], Hs as [->| ->]; div_lia]);
    [done|..]; cbn; rewrite !Z.quot_div_nonneg by (destruct Hb as [->|[->|[->| ->]]], Hs as [->| ->]; lia);
    rewrite Z.mod_small; destruct Hb as [->|[->|[->| ->]]], Hs as [->| ->]; div_lia.
Qed.

(** The bit rate: a frame carries [nblocks * nsubbands] samples. *)
Definition sbc_bits_per_second (c : sbc_config) : Z := 8 * sbc_frame_bytes c * hertz c.(c_freq) / (nsubbands c * nblocks c).

Lemma bit_rate_of c r :
  sbc_ok c -> a2dp_sbc_bit_rate (param_of c r) = Some (if supported c then sbc_bits_per_second c else 0).
Proof.
  intros Hc. unfold a2dp_sbc_bit_rate. rewrite sample_frequency_of. destruct (frame_length_of c r Hc) as [-> Hlen].
  cbn [s16NumOfSubBands s16NumOfBlocks param_of]. unfold sbc_bits_per_second, uint.
  assert (0 < hertz (c_freq c) <= 48000) as Hf by (destruct (c_freq c); cbn; lia).
  assert (0 < nsubbands c * nblocks c <= 128) as Hd by (destruct (nblocks_cases c) as [->|[->|[->| ->]]], (nsubbands_cases c) as [->| ->]; lia).
  rewrite (Z.mod_small (nsubbands c * nblocks c)) by lia. rewrite (proj2 (Z.eqb_neq _ _)) by lia.
  destruct (supported c); [|done]. rewrite Z.mod_small by nia. done.
Qed.

Lemma parse_info_of c rest :
  exists i, a2dp_parse_sbc_info (sbc_bytes c ++ rest) = Some i /\
    forall r, mk_sbc_param (a2dp_get_sbc_samp_frequency i) (a2dp_get_sbc_channel_mode i) (a2dp_get_sbc_subbands i)
      (a2dp_get_sbc_channel_count i) (a2dp_get_sbc_blocks i) (a2dp_get_sbc_allocation_method i) i.(max_bitpool) r = param_of c r.
Proof.
  eexists. split; [reflexivity|]. intros r. destruct c as [f m b e a mn mx]. unfold param_of. cbn [max_bitpool c_max c_freq c_mode c_blocks c_eight c_alloc].
  f_equal.
  - destruct f, m; reflexivity.
  - destruct f, m; reflexivity.
  - unfold nsubbands. cbn [c_eight]. destruct b, e, a; reflexivity.
  - unfold nblocks. cbn [c_blocks]. destruct b, e, a; reflexivity.
  - destruct b, e, a; reflexivity.
Qed.

(** ** AAC, as the A2DP specification has it *)

Inductive aac_freq := a8 | a11 | a12 | a16 | a22 | a24 | a32 | a44 | a48 | a64 | a88 | a96.

Definition aac_hertz (f : aac_freq) : Z :=
  match f with
  | a8 => 8000 | a11 => 11025 | a12 => 12000 | a16 => 16000 | a22 => 22050 | a24 => 24000
  | a32 => 32000 | a44 => 44100 | a48 => 48000 | a64 => 64000 | a88 => 88200 | a96 => 96000
  end.

(** Its bit among the twelve. *)
Definition aac_freq_bits (f : aac_freq) : Z :=
  match f with
  | a8 => 0x800 | a11 => 0x400 | a12 => 0x200 | a16 => 0x100 | a22 => 0x080 | a24 => 0x040
  | a32 => 0x020 | a44 => 0x010 | a48 => 0x008 | a64 => 0x004 | a88 => 0x002 | a96 => 0x001
  end.

Record aac_config := mk_aac { aac_object : Z; aac_f : aac_freq; aac_stereo : bool; aac_vbr : bool; aac_rate : Z }.

Definition aac_bytes (c : aac_config) : list Z :=
  [c.(aac_object); Z.shiftr (aac_freq_bits c.(aac_f)) 4;
   Z.lor (Z.shiftl (Z.land (aac_freq_bits c.(aac_f)) 0x0F) 4) (if c.(aac_stereo) then 0x04 else 0x08);
   Z.lor (if c.(aac_vbr) then 0x80 else 0) (Z.shiftr c.(aac_rate) 16);
   Z.land (Z.shiftr c.(aac_rate) 8) 0xFF; Z.land c.(aac_rate) 0xFF].

Definition aac_ok (c : aac_config) : Prop := 0 < c.(aac_object) < 256 /\ 0 <= c.(aac_rate) < 2 ^ 23.

(** The three bytes of the rate are put together again. *)
Lemma rate_of_bytes r (vbr : bool) :
  0 <= r < 2 ^ 23 ->
  Z.lor (Z.lor (Z.land (Z.shiftl (Z.lor (if vbr then 0x80 else 0) (Z.shiftr r 16)) 16) A2DP_AAC_BIT_RATE_MASK0)
               (Z.land (Z.shiftl (Z.land (Z.shiftr r 8) 0xFF) 8) A2DP_AAC_BIT_RATE_MASK1))
        (Z.land (Z.land r 0xFF) A2DP_AAC_BIT_RATE_MASK2) = r.
Proof.
  intros Hr. apply Z.bits_inj'. intros n Hn. unfold A2DP_AAC_BIT_RATE_MASK0, A2DP_AAC_BIT_RATE_MASK1, A2DP_AAC_BIT_RATE_MASK2.
  rewrite !Z.lor_spec, !Z.land_spec, !Z.shiftl_spec by lia.
  assert (forall m, 23 <= m -> Z.testbit r m = false) as Hhigh.
  { intros m Hm. destruct (decide (r = 0)) as [->|]; [apply Z.testbit_0_l|]. apply Z.bits_above_log2; [lia|]. apply Z.log2_lt_pow2; [lia|].
    eapply Z.lt_le_trans; [apply Hr|]. apply Z.pow_le_mono_r; lia. }
  destruct (decide (n < 8)); [|destruct (decide (n < 16))].
  - rewrite (Z.testbit_neg_r _ (n - 16)), (Z.testbit_neg_r _ (n - 8)) by lia. cbn [andb orb].
    assert (Z.testbit 0xFF n = true) as -> by (change 0xFF with (Z.ones 8); apply Z.ones_spec_low; lia). by rewrite !andb_true_r.
  - rewrite (Z.testbit_neg_r _ (n - 16)) by lia. rewrite Z.land_spec, Z.shiftr_spec by lia. cbn [andb orb].
    assert (Z.testbit 0xFF n = false) as -> by (change 0xFF with (Z.ones 8); apply Z.ones_spec_high; lia).
    assert (Z.testbit 0xFF00 n = true) as -> by (change 0xFF00 with (Z.shiftl (Z.ones 8) 8); rewrite Z.shiftl_spec by lia; apply Z.ones_spec_low; lia).
    assert (Z.testbit 0xFF (n - 8) = true) as -> by (change 0xFF with (Z.ones 8); apply Z.ones_spec_low; lia).
    rewrite !andb_true_r, !andb_false_r, orb_false_r. f_equal. lia.
  - assert (Z.testbit 0xFF n = false) as -> by (change 0xFF with (Z.ones 8); apply Z.ones_spec_high; lia).
    assert (Z.testbit 0xFF00 n = false) as -> by (change 0xFF00 with (Z.shiftl (Z.ones 8) 8); rewrite Z.shiftl_spec by lia; apply Z.ones_spec_high; lia).
    rewrite !andb_false_r, !orb_false_r. rewrite Z.lor_spec, Z.shiftr_spec by lia. replace (n - 16 + 16) with n by lia.
    change 0x7F0000 with (Z.shiftl (Z.ones 7) 16). rewrite Z.shiftl_spec by lia.
    destruct (decide (n < 23)).
    + rewrite Z.ones_spec_low, andb_true_r by lia.
      assert (Z.testbit (if vbr then 0x80 else 0) (n - 16) = false) as ->; [|done].
      destruct vbr; [|apply Z.testbit_0_l]. change 0x80 with (2 ^ 7). apply Z.pow2_bits_false. lia.
    + rewrite Z.ones_spec_high, andb_false_r by lia. by rewrite Hhigh by lia.
Qed.

Lemma aac_info_of c rest :
  aac_ok c ->
  exists i, a2dp_parse_aac_info (aac_bytes c ++ rest) = Some (true, i) /\ i.(object_type) = c.(aac_object) /\
    a2dp_get_aac_samplerate i = aac_hertz c.(aac_f) /\ a2dp_get_aac_number_of_channels i = (if c.(aac_stereo) then 2 else 1) /\
    i.(bit_rate) = c.(aac_rate) /\
    i.(variable_bit_rate) = (match c.(aac_f) with a48 => 0x80 | _ => 0 end).
Proof.
  intros [Ho Hr]. destruct c as [o f st v r]. cbn [aac_object aac_rate aac_f aac_stereo] in *. eexists. split.
  - cbn [a2dp_parse_aac_info aac_bytes app aac_object aac_f aac_stereo aac_vbr aac_rate object_type sample_rate channel_mode].
    rewrite rate_of_bytes by done. rewrite (proj2 (Z.eqb_neq o 0)) by lia. f_equal. f_equal. by destruct f, st.
  - cbn [object_type bit_rate variable_bit_rate a2dp_get_aac_samplerate sample_rate a2dp_get_aac_number_of_channels channel_mode].
    split; [done|]. split; [by destruct f, st|]. split; [by destruct f, st|]. split; [done|]. by destruct f, st.
Qed.

(** ** Packets *)

Definition frames_per_tick (c : sbc_config) : Z := hertz c.(c_freq) * 80 / 1000 / (nsubbands c * nblocks c * 4).

(** What [init] and [reset] have set for a configuration. *)
Definition ready (c : sbc_config) (s : a2dp_stream_sbc_t) : Prop :=
  s.(frames_len) = sbc_frame_bytes c /\ s.(bytes_per_tick) = hertz c.(c_freq) * 80 / 1000 /\ 0 <= s.(st_mtu) < 65536.

Lemma pcm_of c r : pcm_bytes_per_frame (param_of c r) = nsubbands c * nblocks c * 4 /\ 64 <= nsubbands c * nblocks c * 4 <= 512.
Proof.
  unfold pcm_bytes_per_frame, A2DP_SBC_BIT_PER_SAMPLE, uint. cbn [s16NumOfSubBands s16NumOfBlocks s16NumOfChannels param_of].
  destruct (nblocks_cases c) as [->|[->|[->| ->]]], (nsubbands_cases c) as [->| ->]; by vm_compute.
Qed.

Lemma init_ready c r mtu s : sbc_ok c -> supported c = true -> ready c (a2dp_source_sbc_stream_reset (param_of c r) (a2dp_source_sbc_stream_init (param_of c r) mtu s)).
Proof.
  intros Hc Hs. destruct (frame_length_of c r Hc) as [E Hlen]. rewrite Hs in E. unfold ready, a2dp_source_sbc_stream_reset, a2dp_source_sbc_stream_init.
  rewrite sample_frequency_of, E. cbn. split; [|split].
  - apply uint_small. unfold in_u. lia.
  - by destruct (c_freq c).
  - apply (uint_in 16). lia.
Qed.

Lemma frames_per_tick_pos c : 2 <= frames_per_tick c.
Proof.
  unfold frames_per_tick. destruct (nblocks_cases c) as [->|[->|[->| ->]]], (nsubbands_cases c) as [->| ->], (c_freq c); by vm_compute.
Qed.

(** How many packets, and how many frames in each. *)
Lemma iteration_of c r due s :
  sbc_ok c -> ready c s -> 0 <= due ->
  exists noi nof s1, a2dp_sbc_get_num_frame_iteration (param_of c r) due s = Some (noi, nof, s1) /\ ready c s1 /\
    s1.(media_timestamp) = s.(media_timestamp) /\ 0 < s1.(st_mtu) /\ (s.(st_mtu) <> 0 -> s1.(st_mtu) = s.(st_mtu)) /\
    0 <= noi <= 3 /\ 0 <= nof <= 14 /\ (nof * sbc_frame_bytes c < s1.(st_mtu) \/ nof = frames_per_tick c).
Proof.
  intros Hc (Hlen & Htick & Hmtu) Hdue. destruct (frame_length_of c r Hc) as [_ Hb]. destruct (pcm_of c r) as [Epcm Hpcm].
  pose proof (frames_per_tick_pos c) as Hf. unfold a2dp_sbc_get_num_frame_iteration, calculate_max_frames_per_packet.
  rewrite Epcm, (proj2 (Z.eqb_neq (nsubbands c * nblocks c * 4) 0)), Htick by lia. fold (frames_per_tick c).
  rewrite (proj2 (Z.eqb_neq (frames_per_tick c) 0)), andb_false_r by lia. rewrite Hlen, (proj2 (Z.eqb_neq (sbc_frame_bytes c) 0)) by lia.
  set (s1 := if st_mtu s =? 0 then _ else s).
  assert (ready c s1 /\ media_timestamp s1 = media_timestamp s /\ 0 < st_mtu s1 /\ (st_mtu s <> 0 -> st_mtu s1 = st_mtu s)) as (R1 & R2 & R3 & R4).
  { subst s1. destruct (Z.eqb_spec (st_mtu s) 0) as [E|E]; unfold ready, MAX_2MBPS_AVDTP_MTU; cbn; [by repeat split; try lia|repeat split; try done; lia]. }
  assert (frames_len s1 = sbc_frame_bytes c) as -> by apply R1.
  set (proj := if MAX_PCM_FRAME_NUM_PER_TICK <? due then MAX_PCM_FRAME_NUM_PER_TICK else due).
  assert (0 <= proj <= 14) as Hp by (subst proj; unfold MAX_PCM_FRAME_NUM_PER_TICK; destruct (Z.ltb_spec 14 due); lia).
  set (most := u8 ((st_mtu s1 - 1) / sbc_frame_bytes c)).
  assert (0 <= most /\ most * sbc_frame_bytes c < st_mtu s1) as [Hm0 Hm].
  { pose proof (Z.mul_div_le (st_mtu s1 - 1) (sbc_frame_bytes c) ltac:(lia)). pose proof (Z.div_pos (st_mtu s1 - 1) (sbc_frame_bytes c) ltac:(lia) ltac:(lia)).
    pose proof (Z.mod_le ((st_mtu s1 - 1) / sbc_frame_bytes c) (2 ^ 8) ltac:(lia) ltac:(lia)).
    pose proof (Z.mod_pos_bound ((st_mtu s1 - 1) / sbc_frame_bytes c) (2 ^ 8) ltac:(lia)). subst most. unfold uint. nia. }
  destruct (Z.ltb_spec most proj) as [Hlt|Hge].
  - set (q := proj / frames_per_tick c).
    assert (0 <= q /\ q * frames_per_tick c <= proj) as [Hq0 Hq].
    { pose proof (Z.mul_div_le proj (frames_per_tick c) ltac:(lia)). pose proof (Z.div_pos proj (frames_per_tick c) ltac:(lia) ltac:(lia)). subst q. lia. }
    assert (u8 q = q) as -> by (apply uint_small; unfold in_u; nia).
    destruct (Z.ltb_spec 1 q).
    + assert (u8 (frames_per_tick c) = frames_per_tick c) as -> by (apply uint_small; unfold in_u; nia).
      eexists _, _, _. split; [reflexivity|]. do 4 (split; [done|]). split; [unfold A2DP_SBC_MAX_PCM_ITER_NUM_PER_TICK; destruct (Z.ltb_spec 3 q); lia|].
      split; [nia|by right].
    + eexists _, _, _. split; [reflexivity|]. do 4 (split; [done|]). split; [lia|]. split; [lia|by left].
  - assert (u8 proj = proj) as -> by (apply uint_small; unfold in_u; lia).
    eexists _, _, _. split; [reflexivity|]. do 4 (split; [done|]). split; [lia|]. split; [lia|]. left. nia.
Qed.

(** The loop takes whole frames, as many as there are and are asked for. *)
Lemma send_loop_run n len room pool :
  0 < len -> Z.of_nat n * len <= room ->
  exists k, (k <= n)%nat /\ Z.of_nat k * len <= Z.of_nat (length pool) /\
    ((k < n)%nat -> Z.of_nat (length pool) < (Z.of_nat k + 1) * len) /\
    send_loop n len room pool = Some (Z.of_nat k, take (Z.to_nat (Z.of_nat k * len)) pool, drop (Z.to_nat (Z.of_nat k * len)) pool).
Proof.
  intros Hlen. revert room pool. induction n as [|n IH]; intros room pool Hroom; cbn [send_loop].
  { exists 0%nat. by repeat split; try lia. }
  unfold a2dp_source_read_callback. destruct (Z.ltb_spec (Z.of_nat (length pool)) len) as [H|H].
  { exists 0%nat. by repeat split; try lia. }
  destruct (take (Z.to_nat len) pool) as [|x got] eqn:Eg; [apply (f_equal length) in Eg; rewrite length_take in Eg; cbn in Eg; lia|]. rewrite <- Eg.
  rewrite (proj2 (Z.ltb_ge _ _)) by lia.
  destruct (IH (room - len) (drop (Z.to_nat len) pool) ltac:(lia)) as (k & H1 & H2 & H3 & ->). rewrite length_drop in *.
  exists (S k). split; [lia|]. split; [lia|]. split; [intros; lia|]. f_equal. f_equal; [|rewrite drop_drop; f_equal; lia]. f_equal; [lia|].
  replace (Z.to_nat (Z.of_nat (S k) * len)) with (Z.to_nat len + Z.to_nat (Z.of_nat k * len))%nat by lia. apply take_take_drop.
Qed.

(** A packet is a count and that many whole frames. *)
Definition packet_ok (c : sbc_config) (k : packet) : Prop :=
  exists frames, k.(pk_data) = k.(nb_frames) :: frames /\ Z.of_nat (length frames) = k.(nb_frames) * sbc_frame_bytes c /\
    k.(nbytes) = Z.of_nat (length k.(pk_data)) /\ 1 <= k.(nb_frames) <= 14.

(** The packets' times follow each other by the samples sent. *)
Fixpoint times_ok (c : sbc_config) (t : Z) (l : list packet) (t' : Z) : Prop :=
  match l with
  | [] => t = t'
  | k :: l => k.(pk_time) = t /\ times_ok c (u32 (t + k.(nb_frames) * (nsubbands c * nblocks c))) l t'
  end.

Definition frames_of (k : packet) : list Z := tail k.(pk_data).

(** One packet, or none when there is no whole frame. *)
Lemma send_frames_run c r mem frames pool s :
  sbc_ok c -> ready c s -> 0 < frames <= 14 ->
  exists pks pool' s', a2dp_sbc_send_frames mem (param_of c r) frames pool s = Some (pks, pool', s') /\ ready c s' /\ s'.(st_mtu) = s.(st_mtu) /\
    Forall (packet_ok c) pks /\ Forall (fun k => k.(nb_frames) <= frames) pks /\ concat (map frames_of pks) ++ pool' = pool /\
    times_ok c s.(media_timestamp) pks s'.(media_timestamp).
Proof.
  intros Hc (Hlen & Htick & Hmtu) Hf. destruct (frame_length_of c r Hc) as [_ Hb]. unfold a2dp_sbc_send_frames.
  destruct mem; cbn [negb]; [|by exists [], pool, s]. rewrite Hlen, (proj2 (Z.eqb_neq frames 0)) by lia.
  assert (u16 (frames * sbc_frame_bytes c) = frames * sbc_frame_bytes c) as -> by (apply uint_small; unfold in_u; nia).
  destruct (send_loop_run (Z.to_nat frames) (sbc_frame_bytes c) (frames * sbc_frame_bytes c) pool ltac:(lia) ltac:(nia)) as (k & H1 & H2 & H3 & ->).
  rewrite length_take, Nat.min_l by lia. destruct (Z.eqb_spec (Z.of_nat (Z.to_nat (Z.of_nat k * sbc_frame_bytes c))) 0) as [E|E].
  - eexists [], _, s. split; [reflexivity|]. assert (k = 0%nat) as -> by nia. split; [exact (conj Hlen (conj Htick Hmtu))|]. split; [done|]. split; [constructor|]. split; [constructor|]. by split.
  - assert (u16 (nsubbands c * nblocks c) = nsubbands c * nblocks c) as Hsb.
    { destruct (nblocks_cases c) as [->|[->|[->| ->]]], (nsubbands_cases c) as [->| ->]; by vm_compute. }
    eexists [_], _, _. split; [reflexivity|]. cbn [s16NumOfSubBands s16NumOfBlocks param_of]. rewrite Hsb.
    split; [exact (conj Hlen (conj Htick Hmtu))|]. split; [done|]. split; [|split; [|split]].
    + apply Forall_singleton. eexists. split; [reflexivity|]. cbn [nb_frames pk_data nbytes length]. rewrite length_take, Nat.min_l by lia.
      split; [lia|]. split; [|nia]. rewrite uint_small by (unfold in_u; nia). lia.
    + apply Forall_singleton. cbn. lia.
    + cbn. rewrite app_nil_r. apply take_drop.
    + by destruct s.
Qed.

Lemma times_ok_app c t l t' k t'' : times_ok c t l t' -> times_ok c t' k t'' -> times_ok c t (l ++ k) t''.
Proof. revert t. induction l as [|x l IH]; intros t; cbn; [by intros ->|]. intros [H1 H2] H3. split; [done|]. by apply IH. Qed.

Lemma send_times_run c r mem n frames pool s :
  sbc_ok c -> ready c s -> 0 < frames <= 14 ->
  exists pks pool' s', send_times mem n (param_of c r) frames pool s = Some (pks, pool', s') /\ s'.(st_mtu) = s.(st_mtu) /\
    Forall (packet_ok c) pks /\ Forall (fun k => k.(nb_frames) <= frames) pks /\ concat (map frames_of pks) ++ pool' = pool /\
    times_ok c s.(media_timestamp) pks s'.(media_timestamp).
Proof.
  intros Hc Hr Hf. revert pool s Hr. induction n as [|n IH]; intros pool s Hr; cbn [send_times]; [by exists [], pool, s|].
  destruct (send_frames_run c r mem frames pool s Hc Hr Hf) as (pk & pool1 & s1 & -> & Hr1 & Hm1 & A1 & A2 & A3 & A4).
  destruct (IH pool1 s1 Hr1) as (pks & pool2 & s2 & -> & Hm2 & B1 & B2 & B3 & B4).
  exists (pk ++ pks), pool2, s2. split; [done|]. split; [congruence|]. split; [by apply Forall_app|]. split; [by apply Forall_app|].
  split; [by rewrite map_app, concat_app, <- app_assoc, B3|]. by eapply times_ok_app.
Qed.

(** Every turn of the loop sends at most one packet. *)
Lemma send_times_length mem n p frames pool s pks pool' s' :
  send_times mem n p frames pool s = Some (pks, pool', s') -> (length pks <= n)%nat.
Proof.
  revert pool s pks pool' s'. induction n as [|n IH]; intros pool s pks pool' s'; cbn; [by intros [= <- _ _]|].
  destruct (a2dp_sbc_send_frames mem p frames pool s) as [[[pk pool1] s1]|] eqn:E1; [|done].
  destruct (send_times mem n p frames pool1 s1) as [[[pks1 pool2] s2]|] eqn:E2; [|done]. intros [= <- _ _].
  rewrite length_app. apply IH in E2. assert (length pk <= 1)%nat; [|lia]. revert E1. unfold a2dp_sbc_send_frames.
  destruct mem; cbn; [|by intros [= <- _ _]; cbn; lia]. destruct (send_loop _ _ _ _) as [[[k data] pl]|]; [|done].
  destruct (_ =? 0); intros [= <- _ _]; cbn; lia.
Qed.

(** ** The theorems *)

(** C36: every configuration that the A2DP specification allows is read back
    from its bytes; the frame length is the specified one and the bit rate
    what frames of that length come to, without overflow.  In mono, which is
    not supported, both are 0. *)
Theorem sbc_config_read c rest :
  sbc_ok c ->
  exists p, a2dp_codec_parse_sbc_param (sbc_bytes c ++ rest) = Some p /\
    p = param_of c (if supported c then sbc_bits_per_second c else 0) /\
    a2dp_sbc_frame_length p = (if supported c then sbc_frame_bytes c else 0) /\
    a2dp_sbc_sample_frequency (u16 p.(s16SamplingFreq)) = hertz c.(c_freq) /\ 6 <= sbc_frame_bytes c <= 1032.
Proof.
  intros Hc. unfold a2dp_codec_parse_sbc_param. destruct (parse_info_of c rest) as (i & -> & Hp). rewrite Hp, (bit_rate_of c 0 Hc).
  eexists. split; [reflexivity|]. split; [done|].
  destruct (frame_length_of c (if supported c then sbc_bits_per_second c else 0) Hc) as [E Hb]. split; [exact E|]. split; [apply sample_frequency_of|done].
Qed.

(** C37: a source reads every AAC configuration back from its bytes (object
    type, sampling frequency and channels; not the flag of the variable bit
    rate).  The bit rate is computed without overflow: with an MTU of 0 it is
    the peer's; otherwise it is the smaller of the peer's and of the rate at
    which a frame of 1024 samples takes as many bytes as the MTU, or 663 bytes
    if the MTU is larger than that. *)
Theorem aac_config_read c mtu rest :
  aac_ok c -> 0 <= mtu < 2 ^ 32 ->
  exists p, a2dp_source_aac_update_config mtu (aac_bytes c ++ rest) = Some (u16 mtu, inl p) /\
    p.(u16ObjectType) = c.(aac_object) /\ p.(u32SampleRate) = aac_hertz c.(aac_f) /\
    p.(u16NumOfChannels) = (if c.(aac_stereo) then 2 else 1) /\
    p.(u32BitRate) = if mtu =? 0 then c.(aac_rate) else Z.min c.(aac_rate) (8 * Z.min mtu MAX_2MBPS_AVDTP_MTU * aac_hertz c.(aac_f) / 1024).
Proof.
  intros Hc Hmtu. unfold a2dp_source_aac_update_config, a2dp_codec_parse_aac_param.
  destruct (aac_info_of c rest Hc) as (i & -> & Ho & Hf & Hn & Hr & _). rewrite Hf, Hn, Hr. eexists. split; [reflexivity|].
  cbn [u16ObjectType u32SampleRate u16NumOfChannels u32BitRate]. split; [done|].
  assert (u32 (aac_hertz (aac_f c)) = aac_hertz (aac_f c)) as -> by (by destruct (aac_f c)). split; [done|]. split; [by destruct (aac_stereo c)|].
  assert (8000 <= aac_hertz (aac_f c) <= 96000) as Hh by (destruct (aac_f c); cbn; lia).
  assert (u16 (if MAX_2MBPS_AVDTP_MTU <? mtu then MAX_2MBPS_AVDTP_MTU else mtu) = Z.min mtu MAX_2MBPS_AVDTP_MTU) as ->.
  { unfold MAX_2MBPS_AVDTP_MTU. destruct (Z.ltb_spec 663 mtu); rewrite uint_small by (unfold in_u; lia); lia. }
  unfold MAX_2MBPS_AVDTP_MTU. rewrite (uint_small 32) by (unfold in_u; nia). destruct (Z.eqb_spec mtu 0) as [->|Hz]; [done|].
  rewrite (proj2 (Z.ltb_lt _ _)) by lia. cbn [andb]. destruct (Z.ltb_spec (8 * Z.min mtu 663 * aac_hertz (aac_f c) / 1024) (aac_rate c)); lia.
Qed.

(** C17: for a configuration that is allowed and is not mono, a stream that was
    prepared for it ([ready]) and whatever number of frames is due, the SBC
    stream divides by no zero, fails no assertion and writes within its buffer;
    it sends at most three packets, each a count of at most 14 and that many
    whole frames; together they are the beginning of what was to be sent, and
    their times follow each other.  They fit the MTU if as many frames as a
    tick takes fit a packet. *)
Theorem sbc_packets c r mem due pool s :
  sbc_ok c -> supported c = true -> ready c s -> 0 <= due ->
  exists pks pool' s', a2dp_source_sbc_send_frames mem (param_of c r) due pool s = Some (pks, pool', s') /\
    (length pks <= 3)%nat /\
    Forall (packet_ok c) pks /\ concat (map frames_of pks) ++ pool' = pool /\ times_ok c s.(media_timestamp) pks s'.(media_timestamp) /\
    (s.(st_mtu) <> 0 -> s'.(st_mtu) = s.(st_mtu)) /\
    (frames_per_tick c * sbc_frame_bytes c < s'.(st_mtu) -> Forall (fun k => k.(nbytes) <= s'.(st_mtu)) pks).
Proof.
  intros Hc Hsup Hr Hdue. unfold a2dp_source_sbc_send_frames.
  destruct (iteration_of c r due s Hc Hr Hdue) as (noi & nof & s1 & -> & Hr1 & Ht & Hm & Hm' & Hnoi & Hnof & Hfit).
  destruct (Z.eqb_spec nof 0) as [->|Hz]; [exists [], pool, s1; by repeat split; try constructor; cbn; lia|].
  destruct (send_times_run c r mem (Z.to_nat noi) nof pool s1 Hc Hr1 ltac:(lia)) as (pks & pool' & s' & E & Hms & A1 & A2 & A3 & A4).
  rewrite E. apply send_times_length in E.
  exists pks, pool', s'. split; [done|]. split; [lia|]. split; [done|]. split; [done|]. rewrite <- Ht. split; [done|]. split; [intros; rewrite Hms; auto|].
  rewrite Hms. intros Htick. apply Forall_forall. intros k Hk. destruct (proj1 (Forall_forall _ _) A1 k Hk) as (fr & E1 & E2 & E3 & E4).
  pose proof (proj1 (Forall_forall _ _) A2 k Hk) as Hle. cbn in Hle. rewrite E3, E1. cbn [length].
  destruct (frame_length_of c r Hc) as [_ Hb]. destruct Hfit as [?| ->]; nia.
Qed.

(** ** Witnesses *)

(** 44.1 kHz, joint stereo, 16 blocks, 8 subbands, a bitpool of 53. *)
Definition demo_sbc : sbc_config := mk_sbc f44 joint b16 true by_loudness 2 53.

Lemma demo_sbc_ok : sbc_ok demo_sbc.
Proof. unfold sbc_ok. cbn. lia. Qed.

Lemma sbc_config_read_witness :
  sbc_bytes demo_sbc = [0x21; 0x15; 2; 53] /\
  exists p, a2dp_codec_parse_sbc_param [0x21; 0x15; 2; 53] = Some p /\ a2dp_sbc_frame_length p = 119 /\ p.(sbc_u32BitRate) = 327993.
Proof.
  split; [vm_compute; reflexivity|]. destruct (sbc_config_read demo_sbc [] demo_sbc_ok) as (p & E & -> & Hl & _).
  eexists. split; [exact E|]. split; [exact Hl|]. vm_compute. reflexivity.
Defined.

Definition demo_aac : aac_config := mk_aac 0x80 a44 true false 320000.

Lemma aac_config_read_witness :
  exists p, a2dp_source_aac_update_config 1005 [0x80; 0x01; 0x04; 0x04; 0xE2; 0x00] = Some (1005, inl p) /\
    p.(u32SampleRate) = 44100 /\ p.(u32BitRate) = 228424.
Proof.
  destruct (aac_config_read demo_aac 1005 [] ltac:(unfold aac_ok; cbn; lia) ltac:(lia)) as (p & E & _ & Hf & _ & Hr).
  exists p. split; [exact E|]. split; [exact Hf|]. rewrite Hr. vm_compute. reflexivity.
Defined.

Definition demo_param : sbc_param_t := param_of demo_sbc 327993.
Definition demo_stream (mtu : Z) : a2dp_stream_sbc_t :=
  a2dp_source_sbc_stream_reset demo_param (a2dp_source_sbc_stream_init demo_param mtu (mk_sbc_stream 0 0 0 0 0)).

Lemma sbc_packets_witness :
  exists pks pool' s', a2dp_source_sbc_send_frames true demo_param 6 (replicate 800 7) (demo_stream 895) = Some (pks, pool', s') /\
    (length pks <= 3)%nat /\ Forall (packet_ok demo_sbc) pks /\ Forall (fun k => k.(nbytes) <= 895) pks.
Proof.
  destruct (sbc_packets demo_sbc 327993 true 6 (replicate 800 7) (demo_stream 895) demo_sbc_ok eq_refl
    (init_ready demo_sbc 327993 895 _ demo_sbc_ok eq_refl) ltac:(lia)) as (pks & pool' & s' & E & H0 & H1 & _ & _ & H2 & H3).
  exists pks, pool', s'. split; [exact E|]. split; [exact H0|]. split; [exact H1|].
  assert (st_mtu s' = 895) as Em by (apply H2; vm_compute; discriminate). rewrite Em in H3. apply H3. vm_compute. reflexivity.
Defined.

(** ** Defects *)

(** After a delay of a tick or more, packets of a whole tick's frames are
    sent, also when that many do not fit: 715 bytes for an MTU of 672. *)
Lemma delayed_packets_exceed_mtu :
  match a2dp_source_sbc_send_frames true demo_param 12 (replicate 1500 7) (demo_stream 672) with
  | Some (pks, _, _) => map nbytes pks = [715; 715]
  | None => False
  end.
Proof. vm_compute. reflexivity. Qed.

(** A frame length of 0 (mono) fails the assertion of the stream. *)
Lemma mono_stream_asserts due pool :
  a2dp_source_sbc_send_frames true (param_of (mk_sbc f44 mono b16 true by_loudness 2 53) 0) due pool
    (a2dp_source_sbc_stream_reset (param_of (mk_sbc f44 mono b16 true by_loudness 2 53) 0)
      (a2dp_source_sbc_stream_init (param_of (mk_sbc f44 mono b16 true by_loudness 2 53) 0) 672 (mk_sbc_stream 0 0 0 0 0))) = None.
Proof.
  unfold a2dp_source_sbc_send_frames, a2dp_sbc_get_num_frame_iteration. vm_compute pcm_bytes_per_frame. cbv iota.
  change (512 =? 0) with false. cbv iota zeta. by destruct (_ && _).
Qed.

(** The flag of the variable bit rate is read from the byte before it: it is
    the bit of 48 kHz. *)
Lemma aac_vbr_misread c rest :
  aac_ok c ->
  exists p, a2dp_codec_parse_aac_param (aac_bytes c ++ rest) 0 = Some (inl p) /\
    p.(u16VariableBitRate) = (match c.(aac_f) with a48 => 0x80 | _ => 0 end).
Proof.
  intros Hc. unfold a2dp_codec_parse_aac_param. destruct (aac_info_of c rest Hc) as (i & -> & _ & _ & _ & _ & Hv). eexists. split; [reflexivity|exact Hv].
Qed.
End A2dpCodecSpec.
