(* ===== verification/PowerManager.v ===== *)
(** * The power manager (service/src/power_manager.c)

    Profiles report what they do on a link (open, close, busy, idle, ...);
    tables give the power mode each profile then prefers; the manager asks
    the controller for active mode at once and for sniff mode after a
    timeout, per peer.  Its state: the services reported, the connected
    devices, a fixed array of timers. *)

From S2P Require Import Prelude BtAddr.

Local Open Scope bt_scope.

Module PowerManager.
Import BtAddr.
Local Open Scope Z_scope.

(** ** Constants and tables *)

Definition PROFILE_A2DP : Z := 0.
Definition PROFILE_AVRCP_CT : Z := 2.
Definition PROFILE_AVRCP_TG : Z := 3.
Definition PROFILE_HFP_HF : Z := 4.
Definition PROFILE_HFP_AG : Z := 5.
Definition PROFILE_SPP : Z := 6.
Definition PROFILE_HID_DEV : Z := 7.
Definition PROFILE_PANU : Z := 8.
Definition PROFILE_UNKOWN : Z := 20.

Definition BT_LINK_MODE_ACTIVE : Z := 0.
Definition BT_LINK_MODE_SNIFF : Z := 1.

Definition BT_PM_REQ_PENDING_TIMEOUT : Z := 2500.
Definition BT_PM_PREF_MODE_MASK : Z := 0x0f.

(** [bt_pm_prefer_mode_t] *)
Definition BT_PM_NO_ACTION : Z := 0.
Definition BT_PM_NO_PREF : Z := 1.
Definition BT_PM_SNIFF : Z := 0x10.
Definition BT_PM_SNIFF2 : Z := 0x12.
Definition BT_PM_SNIFF4 : Z := 0x14.
Definition BT_PM_ACTIVE : Z := 0x20.

Definition BT_PM_MODE_INDEX_MAX : Z := 6.

Inductive bt_pm_request_t := BT_PM_RESTART | BT_PM_NEW_REQ | BT_PM_EXECUTE.

Inductive bt_pm_state_t :=
| BT_PM_STATE_CONN_OPEN | BT_PM_STATE_CONN_CLOSE | BT_PM_STATE_APP_OPEN | BT_PM_STATE_APP_CLOSE
| BT_PM_STATE_SCO_OPEN | BT_PM_STATE_SCO_CLOSE | BT_PM_STATE_CONN_IDLE | BT_PM_STATE_CONN_BUSY.

#[export] Instance bt_pm_state_eq_dec : EqDecision bt_pm_state_t.
Proof. solve_decision. Defined.

Definition state_index (s : bt_pm_state_t) : nat :=
  match s with
  | BT_PM_STATE_CONN_OPEN => 0 | BT_PM_STATE_CONN_CLOSE => 1 | BT_PM_STATE_APP_OPEN => 2
  | BT_PM_STATE_APP_CLOSE => 3 | BT_PM_STATE_SCO_OPEN => 4 | BT_PM_STATE_SCO_CLOSE => 5
  | BT_PM_STATE_CONN_IDLE => 6 | BT_PM_STATE_CONN_BUSY => 7
  end%nat.

Inductive bt_pm_status_t := BT_PM_STATUS_NONE | BT_PM_STATUS_PENDING_ACTIVE.

#[export] Instance bt_pm_status_eq_dec : EqDecision bt_pm_status_t.
Proof. solve_decision. Defined.

Record bt_pm_mode_t := mk_mode { max : Z; min : Z; attempt : Z; timeout : Z; mode : Z }.

#[export] Instance bt_pm_mode_eq_dec : EqDecision bt_pm_mode_t.
Proof. solve_decision. Defined.

Record bt_pm_action_t := mk_action { power_mode : Z; act_timeout : Z }.

Record bt_pm_spec_table_t := mk_spec {
  allow_mask : Z;
  ssr : Z;
  actn_tbl : list bt_pm_action_t;
}.

Definition g_pm_mode : list bt_pm_mode_t :=
  [mk_mode 800 400 4 1 BT_LINK_MODE_SNIFF; mk_mode 400 200 4 1 BT_LINK_MODE_SNIFF;
   mk_mode 54 30 4 1 BT_LINK_MODE_SNIFF; mk_mode 150 50 4 1 BT_LINK_MODE_SNIFF;
   mk_mode 18 10 4 1 BT_LINK_MODE_SNIFF; mk_mode 36 30 2 0 BT_LINK_MODE_SNIFF;
   mk_mode 18 14 1 0 BT_LINK_MODE_SNIFF].

(** Profile and index of its table. *)
Definition g_pm_cfg : list (Z * nat) :=
  [(PROFILE_HFP_HF, 0); (PROFILE_HFP_AG, 0); (PROFILE_A2DP, 1); (PROFILE_AVRCP_CT, 1);
   (PROFILE_AVRCP_TG, 1); (PROFILE_SPP, 2); (PROFILE_PANU, 3); (PROFILE_HID_DEV, 4)]%nat.

Definition g_pm_spec : list bt_pm_spec_table_t :=
  [ (* HF AG *)
    mk_spec BT_PM_SNIFF 0
      [mk_action BT_PM_SNIFF 7000; mk_action BT_PM_NO_PREF 0; mk_action BT_PM_NO_ACTION 0;
       mk_action BT_PM_NO_ACTION 0; mk_action BT_PM_ACTIVE 0; mk_action BT_PM_SNIFF 7000;
       mk_action BT_PM_SNIFF 7000; mk_action BT_PM_ACTIVE 0];
    (* AV *)
    mk_spec BT_PM_SNIFF 0
      [mk_action BT_PM_SNIFF 7000; mk_action BT_PM_NO_PREF 0; mk_action BT_PM_NO_ACTION 0;
       mk_action BT_PM_NO_ACTION 0; mk_action BT_PM_NO_ACTION 0; mk_action BT_PM_NO_ACTION 0;
       mk_action BT_PM_SNIFF 7000; mk_action BT_PM_ACTIVE 0];
    (* SPP *)
    mk_spec BT_PM_SNIFF 0
      [mk_action BT_PM_NO_ACTION 0; mk_action BT_PM_NO_PREF 0; mk_action BT_PM_ACTIVE 0;
       mk_action BT_PM_NO_ACTION 0; mk_action BT_PM_NO_ACTION 0; mk_action BT_PM_NO_ACTION 0;
       mk_action BT_PM_SNIFF 1000; mk_action BT_PM_ACTIVE 0];
    (* PAN *)
    mk_spec BT_PM_SNIFF 0
      [mk_action BT_PM_ACTIVE 0; mk_action BT_PM_NO_PREF 0; mk_action BT_PM_ACTIVE 0;
       mk_action BT_PM_NO_ACTION 0; mk_action BT_PM_NO_ACTION 0; mk_action BT_PM_NO_ACTION 0;
       mk_action BT_PM_SNIFF 5000; mk_action BT_PM_ACTIVE 0];
    (* HID *)
    mk_spec BT_PM_SNIFF 0
      [mk_action BT_PM_SNIFF 5000; mk_action BT_PM_NO_PREF 0; mk_action BT_PM_NO_ACTION 0;
       mk_action BT_PM_NO_ACTION 0; mk_action BT_PM_NO_ACTION 0; mk_action BT_PM_NO_ACTION 0;
       mk_action BT_PM_SNIFF2 5000; mk_action BT_PM_SNIFF4 200] ].

(** ** State *)

Record bt_pm_service_t := mk_service {
  srv_profile : Z;
  srv_state : bt_pm_state_t;
  srv_addr : bt_address_t;
}.

Record bt_pm_timer_t := mk_timer {
  pm_timer : option timer_h;
  tm_addr : bt_address_t;
  tm_active : bool;
  tm_action : Z;
  tm_profile : Z;
}.

Record bt_pm_device_t := mk_device {
  dev_addr : bt_address_t;
  dev_mode : Z;
  hci_status : bt_pm_status_t;
  interval : Z;
  request_timer : option timer_h;
  app_preferred_sniff_params : bt_pm_mode_t;
  immediate_sniff_switch : bool;
}.

Record bt_pm_manager_t := mk_manager {
  pm_services : list bt_pm_service_t;
  pm_devices : list bt_pm_device_t;
  inited : bool;
  last_profile_id : Z;
  pm_timers : list bt_pm_timer_t;
  pm_callback : bool;               (* bt_pm_hanlde_callback is registered *)
}.

Inductive out :=
| bt_sal_set_power_mode (a : bt_address_t) (m : bt_pm_mode_t)
| service_loop_timer (ms : Z) (h : option timer_h)
| service_loop_cancel_timer (h : option timer_h).

(** The answers of the outside: the links that are up, the status of a
    power-mode command, the handle of a timer started. *)
Record env := mk_env {
  adapter_is_remote_connected : bt_address_t -> bool;
  set_power_mode_status : bt_status_t;
  new_timer : option timer_h;
}.

Abbreviation MP := (M bt_pm_manager_t out).

Definition set_services l m := mk_manager l m.(pm_devices) m.(inited) m.(last_profile_id) m.(pm_timers) m.(pm_callback).
Definition set_devices l m := mk_manager m.(pm_services) l m.(inited) m.(last_profile_id) m.(pm_timers) m.(pm_callback).
Definition set_last_profile i m := mk_manager m.(pm_services) m.(pm_devices) m.(inited) i m.(pm_timers) m.(pm_callback).
Definition set_timers l m := mk_manager m.(pm_services) m.(pm_devices) m.(inited) m.(last_profile_id) l m.(pm_callback).

Definition set_hci_status s d := mk_device d.(dev_addr) d.(dev_mode) s d.(interval) d.(request_timer)
  d.(app_preferred_sniff_params) d.(immediate_sniff_switch).
Definition set_request_timer t d := mk_device d.(dev_addr) d.(dev_mode) d.(hci_status) d.(interval) t
  d.(app_preferred_sniff_params) d.(immediate_sniff_switch).
Definition set_immediate b d := mk_device d.(dev_addr) d.(dev_mode) d.(hci_status) d.(interval)
  d.(request_timer) d.(app_preferred_sniff_params) b.
Definition set_sniff_params p d := mk_device d.(dev_addr) d.(dev_mode) d.(hci_status) d.(interval)
  d.(request_timer) p d.(immediate_sniff_switch).
Definition set_mode_interval md iv d := mk_device d.(dev_addr) md BT_PM_STATUS_NONE iv
  d.(request_timer) d.(app_preferred_sniff_params) d.(immediate_sniff_switch).

Definition same_addr (a b : bt_address_t) : bool := bt_addr_compare a b =? 0.

(** ** Services and devices: lists searched from the head *)

Definition is_service (p : Z) (a : bt_address_t) (s : bt_pm_service_t) : bool :=
  (s.(srv_profile) =? p) && same_addr s.(srv_addr) a.

Definition pm_conn_service_find (p : Z) (a : bt_address_t) (m : bt_pm_manager_t)
    : option (nat * bt_pm_service_t) :=
  list_find (fun s => is_service p a s = true) m.(pm_services).

Definition pm_conn_service_add (p : Z) (st : bt_pm_state_t) (a : bt_address_t) : MP unit :=
  modify (fun m => set_services (m.(pm_services) ++ [mk_service p st a]) m).

Definition pm_conn_service_remove (i : nat) : MP unit :=
  modify (fun m => set_services (delete i m.(pm_services)) m).

(** The device found by a handler is a pointer into the list: its position. *)
Definition pm_conn_device_find (a : bt_address_t) (m : bt_pm_manager_t)
    : option (nat * bt_pm_device_t) :=
  list_find (fun d => same_addr d.(dev_addr) a = true) m.(pm_devices).

Definition upd_device (i : nat) (f : bt_pm_device_t -> bt_pm_device_t) : MP unit :=
  modify (fun m => set_devices (alter f i m.(pm_devices)) m).

Definition default_mode : bt_pm_mode_t := mk_mode 800 400 4 1 BT_LINK_MODE_SNIFF.

(** [g_pm_mode[index]]; the callers keep [index] within the table. *)
Definition mode_at (index : Z) : bt_pm_mode_t := nth (Z.to_nat index) g_pm_mode default_mode.

Definition pm_conn_device_add (a : bt_address_t) : MP unit :=
  modify (fun m =>
    set_devices (m.(pm_devices) ++
      [mk_device a BT_LINK_MODE_ACTIVE BT_PM_STATUS_NONE 0 None
         (mode_at (Z.land BT_PM_SNIFF BT_PM_PREF_MODE_MASK)) false]) m).

Section Handlers.
Context (e : env).

Definition pm_request_start_timer (i : nat) (d : bt_pm_device_t) : MP unit :=
  when (bool_decide (is_Some d.(request_timer))) (emit (service_loop_cancel_timer d.(request_timer)));;;
  emit (service_loop_timer BT_PM_REQ_PENDING_TIMEOUT e.(new_timer));;;
  upd_device i (set_request_timer e.(new_timer)).

Definition pm_request_stop_timer (i : nat) (d : bt_pm_device_t) : MP unit :=
  when (bool_decide (is_Some d.(request_timer))) (
    emit (service_loop_cancel_timer d.(request_timer));;;
    upd_device i (set_request_timer None)).

Definition pm_conn_device_remove (i : nat) (d : bt_pm_device_t) : MP unit :=
  pm_request_stop_timer i d;;;
  modify (fun m => set_devices (delete i m.(pm_devices)) m).

(** ** Requests to the controller *)

Definition pm_request_sniff (a : bt_address_t) (index p : Z) : MP bt_status_t :=
  if BT_PM_MODE_INDEX_MAX <? index then mret_ BT_STATUS_PARM_INVALID
  else
    found <- gets (pm_conn_device_find a);;
    match found with
    | None => mret_ BT_STATUS_FAIL
    | Some (_, d) =>
        let md := if p =? PROFILE_SPP then d.(app_preferred_sniff_params) else mode_at index in
        if (d.(dev_mode) =? BT_LINK_MODE_SNIFF) && (d.(interval) <=? md.(max)) && (md.(min) <=? d.(interval))
        then mret_ BT_STATUS_SUCCESS
        else emit (bt_sal_set_power_mode a md);;; mret_ e.(set_power_mode_status)
    end.

Definition active_mode : bt_pm_mode_t := mk_mode 0 0 0 0 BT_LINK_MODE_ACTIVE.

Definition pm_request_active (a : bt_address_t) : MP bt_status_t :=
  found <- gets (pm_conn_device_find a);;
  match found with
  | None => mret_ BT_STATUS_FAIL
  | Some (i, d) =>
      if (d.(dev_mode) =? BT_LINK_MODE_ACTIVE) || bool_decide (d.(hci_status) = BT_PM_STATUS_PENDING_ACTIVE)
      then mret_ BT_STATUS_SUCCESS
      else
        emit (bt_sal_set_power_mode a active_mode);;;
        (if negb (is_success e.(set_power_mode_status)) then mret_ tt
         else
           upd_device i (set_hci_status BT_PM_STATUS_PENDING_ACTIVE);;;
           pm_request_start_timer i d);;;
        mret_ e.(set_power_mode_status)
  end.

(** ** The preferred mode of a peer *)

(** The [spec_idx] of the profile's entry of [g_pm_cfg]. *)
Definition cfg_find (p : Z) : option nat :=
  match list_find (fun c => fst c = p) g_pm_cfg with
  | Some (_, (_, spec_idx)) => Some spec_idx
  | None => None
  end.

Definition spec_at (i : nat) : bt_pm_spec_table_t := nth i g_pm_spec (mk_spec 0 0 []).

Definition action_at (t : bt_pm_spec_table_t) (s : bt_pm_state_t) : bt_pm_action_t :=
  nth (state_index s) t.(actn_tbl) (mk_action BT_PM_NO_ACTION 0).

(** The locals of [pm_prefer_config] across its loop. *)
Record prefer := mk_prefer { pf_mode : Z; pf_timeout : Z; pf_allow : Z; pf_id : Z; pf_ret : bool }.

(** The loop; [None] is the early [return false], which leaves
    [last_profile_id] as the rounds before it set it. *)
Fixpoint prefer_loop (l : list bt_pm_service_t) (a : bt_address_t) (profile_id : Z)
    (last : Z) (acc : prefer) : option prefer * Z :=
  match l with
  | [] => (Some acc, last)
  | s :: l =>
      if negb (same_addr s.(srv_addr) a) then prefer_loop l a profile_id last acc
      else match cfg_find s.(srv_profile) with
           | None => (None, last)
           | Some idx =>
               let t := spec_at idx in
               let act := action_at t s.(srv_state) in
               if (acc.(pf_mode) <? act.(power_mode))
                  || ((act.(power_mode) =? acc.(pf_mode)) && (s.(srv_profile) =? profile_id))
               then prefer_loop l a profile_id s.(srv_profile)
                      (mk_prefer act.(power_mode) act.(act_timeout) t.(allow_mask) s.(srv_profile) true)
               else prefer_loop l a profile_id last acc
           end
  end.

Definition prefer_init : prefer := mk_prefer BT_PM_NO_ACTION 0 0 0 false.

(** [None]: the call returned false. *)
Definition pm_prefer_config (a : bt_address_t) (profile_id : Z) : MP (option prefer) :=
  m <- get;;
  let '(r, last) := prefer_loop m.(pm_services) a profile_id m.(last_profile_id) prefer_init in
  modify (set_last_profile last);;;
  mret_ (match r with Some p => if p.(pf_ret) then Some p else None | None => None end).

(** ** Timers *)

(** Returns false when every slot is taken. *)
Definition pm_start_timer (a : bt_address_t) (ms p action : Z) : MP bool :=
  m <- get;;
  match list_find (fun t => tm_active t = false) m.(pm_timers) with
  | None => mret_ false
  | Some (i, t) =>
      when (bool_decide (is_Some t.(pm_timer))) (emit (service_loop_cancel_timer t.(pm_timer)));;;
      emit (service_loop_timer ms e.(new_timer));;;
      modify (fun m => set_timers (<[i := mk_timer e.(new_timer) a true action (uint 8 p)]> m.(pm_timers)) m);;;
      mret_ true
  end.

Definition timer_matches (a : bt_address_t) (t : bt_pm_timer_t) : bool :=
  t.(tm_active) && same_addr t.(tm_addr) a.

Definition stopped (a : bt_address_t) (t : bt_pm_timer_t) : bt_pm_timer_t :=
  if timer_matches a t then mk_timer None t.(tm_addr) false t.(tm_action) t.(tm_profile) else t.

Definition pm_stop_timer (a : bt_address_t) : MP unit :=
  m <- get;;
  mfor (filter (fun t => timer_matches a t = true) m.(pm_timers))
    (fun t => emit (service_loop_cancel_timer t.(pm_timer)));;;
  modify (fun m => set_timers (map (stopped a) m.(pm_timers)) m).

(** ** The decision *)

Definition pm_mode_request (a : bt_address_t) (req : bt_pm_request_t) (profile_id : Z) : MP unit :=
  if negb (e.(adapter_is_remote_connected) a) then pm_stop_timer a
  else
    r <- pm_prefer_config a profile_id;;
    match r with
    | None => mret_ tt
    | Some p =>
        if (Z.land p.(pf_allow) BT_PM_SNIFF =? 0) then mret_ tt
        else
          match req with
          | BT_PM_EXECUTE =>
              if negb (Z.land p.(pf_mode) BT_PM_ACTIVE =? 0) then pm_request_active a;;; mret_ tt
              else if negb (Z.land p.(pf_mode) BT_PM_SNIFF =? 0)
              then pm_request_sniff a (Z.land p.(pf_mode) BT_PM_PREF_MODE_MASK) p.(pf_id);;; mret_ tt
              else mret_ tt
          | BT_PM_RESTART =>
              if negb (Z.land p.(pf_mode) BT_PM_ACTIVE =? 0) then pm_request_active a;;; mret_ tt
              else if 0 <? p.(pf_timeout)
              then pm_stop_timer a;;; pm_start_timer a p.(pf_timeout) p.(pf_id) p.(pf_mode);;; mret_ tt
              else mret_ tt
          | BT_PM_NEW_REQ => mret_ tt
          end
    end.

(** The timer in slot [i] fires. *)
Definition pm_timeout_callback (i : nat) : MP unit :=
  m <- get;;
  match m.(pm_timers) !! i with
  | None => mret_ tt
  | Some t =>
      modify (fun m => set_timers
        (alter (fun t => mk_timer t.(pm_timer) t.(tm_addr) false t.(tm_action) t.(tm_profile)) i
           m.(pm_timers)) m);;;
      pm_mode_request t.(tm_addr) BT_PM_EXECUTE t.(tm_profile)
  end.

(** The request timer of the device at position [i] fires. *)
Definition pm_request_timeout_callback (i : nat) : MP unit :=
  upd_device i (set_hci_status BT_PM_STATUS_NONE).

(** [actn_tbl->power_mode]: the entry of CONN_OPEN, whatever the state. *)
Definition pm_check_prefer_action (p : Z) : bool :=
  match cfg_find p with
  | None => false
  | Some idx => negb ((action_at (spec_at idx) BT_PM_STATE_CONN_OPEN).(power_mode) =? BT_PM_NO_PREF)
  end.

Definition bt_pm_hanlde_callback (st : bt_pm_state_t) (p : Z) (a : bt_address_t) : MP unit :=
  m <- get;;
  match pm_conn_service_find p a m with
  | None =>
      pm_conn_service_add p st a;;;
      when (negb (pm_check_prefer_action p)) (pm_conn_service_remove (length m.(pm_services)))
  | Some (i, _) =>
      modify (fun m => set_services
        (alter (fun s => mk_service s.(srv_profile) st s.(srv_addr)) i m.(pm_services)) m);;;
      when (negb (pm_check_prefer_action p)) (pm_conn_service_remove i)
  end;;;
  pm_mode_request a BT_PM_RESTART p.

(** ** The interface of the profiles *)

Definition pm_report (st : bt_pm_state_t) (p : Z) (a : bt_address_t) : MP unit :=
  cb <- gets pm_callback;;
  when cb (bt_pm_hanlde_callback st p a).

Definition bt_pm_conn_open := pm_report BT_PM_STATE_CONN_OPEN.
Definition bt_pm_conn_close := pm_report BT_PM_STATE_CONN_CLOSE.
Definition bt_pm_app_open := pm_report BT_PM_STATE_APP_OPEN.
Definition bt_pm_app_close := pm_report BT_PM_STATE_APP_CLOSE.
Definition bt_pm_sco_open := pm_report BT_PM_STATE_SCO_OPEN.
Definition bt_pm_sco_close := pm_report BT_PM_STATE_SCO_CLOSE.
Definition bt_pm_idle := pm_report BT_PM_STATE_CONN_IDLE.
Definition bt_pm_busy := pm_report BT_PM_STATE_CONN_BUSY.

(** ** The interface of the adapter *)

Definition bt_pm_init : MP unit :=
  m <- get;;
  if m.(inited) then mret_ tt
  else put (mk_manager [] [] true PROFILE_UNKOWN m.(pm_timers) true).

(** The list heads are unlinked: the entries are out of reach. *)
Definition bt_pm_cleanup : MP unit :=
  m <- get;;
  if negb m.(inited) then mret_ tt
  else put (mk_manager [] [] false m.(last_profile_id) m.(pm_timers) false).

Definition bt_pm_remote_link_mode_changed (a : bt_address_t) (md iv : Z) : MP unit :=
  found <- gets (pm_conn_device_find a);;
  match found with
  | None => mret_ tt
  | Some (i, d) =>
      upd_device i (set_mode_interval md iv);;;
      if md =? BT_LINK_MODE_ACTIVE then
        pm_stop_timer a;;;
        pm_request_stop_timer i d;;;
        if d.(immediate_sniff_switch) then
          upd_device i (set_immediate false);;;
          pm_request_sniff a (Z.land BT_PM_SNIFF BT_PM_PREF_MODE_MASK) PROFILE_SPP;;; mret_ tt
        else
          last <- gets last_profile_id;;
          pm_mode_request a BT_PM_RESTART last
      else if md =? BT_LINK_MODE_SNIFF then pm_stop_timer a
      else mret_ tt
  end.

Definition bt_pm_remote_device_connected (a : bt_address_t) : MP unit := pm_conn_device_add a.

Definition bt_pm_remote_device_disconnected (a : bt_address_t) : MP unit :=
  found <- gets (pm_conn_device_find a);;
  match found with
  | None => mret_ tt
  | Some (i, d) => pm_stop_timer a;;; pm_conn_device_remove i d
  end.

Definition bt_pm_set_app_profile_sniff (a : bt_address_t) (sniff_params : option bt_pm_mode_t)
    : MP bt_status_t :=
  found <- gets (pm_conn_device_find a);;
  match found with
  | None => mret_ BT_STATUS_FAIL
  | Some (i, d) =>
      upd_device i (set_sniff_params
        (default (mode_at (Z.land BT_PM_SNIFF BT_PM_PREF_MODE_MASK)) sniff_params));;;
      (if d.(dev_mode) =? BT_LINK_MODE_ACTIVE then upd_device i (set_immediate false)
       else upd_device i (set_immediate true);;; pm_request_active a;;; mret_ tt);;;
      mret_ BT_STATUS_SUCCESS
  end.

End Handlers.

(** ** Frames: what each step of a handler leaves alone *)

Definition same_lists (m m' : bt_pm_manager_t) : Prop :=
  m'.(pm_services) = m.(pm_services) /\ m'.(pm_timers) = m.(pm_timers) /\
  m'.(pm_callback) = m.(pm_callback).

#[export] Instance same_lists_preorder : PreOrder same_lists.
Proof.
  split; [by intros m|]. intros a b c; unfold same_lists; intuition congruence.
Qed.

Lemma same_addr_true a b : same_addr a b = true <-> a = b.
Proof. unfold same_addr. rewrite Z.eqb_eq. apply bt_addr_compare_eq. Qed.

Lemma same_addr_refl a : same_addr a a = true.
Proof. by apply same_addr_true. Qed.

Lemma exec_when_emit b o s : exec (when b (emit o) : MP unit) s = s.
Proof. by destruct b. Qed.

Lemma outs_when b (m : MP unit) s : outs (when b m) s = if b then outs m s else [].
Proof. by destruct b. Qed.

Section Lemmas.
Context (e : env).

Lemma request_sniff_exec a i p m : exec (pm_request_sniff e a i p) m = m.
Proof.
  unfold pm_request_sniff. case_match; [done|]. rewrite exec_bind. cbn.
  destruct (pm_conn_device_find a m) as [[j d]|]; [|done]. by repeat case_match.
Qed.

Lemma request_active_frame a m : same_lists m (exec (pm_request_active e a) m).
Proof.
  unfold pm_request_active. rewrite exec_bind. cbn.
  destruct (pm_conn_device_find a m) as [[j d]|]; [|done]. case_match; [done|].
  autorewrite with bt. case_match; cbn; [done|].
  unfold pm_request_start_timer. autorewrite with bt. rewrite exec_when. by case_match.
Qed.

Lemma prefer_config_frame a p m :
  same_lists m (exec (pm_prefer_config a p) m) /\
  (exec (pm_prefer_config a p) m).(pm_devices) = m.(pm_devices).
Proof.
  unfold pm_prefer_config. rewrite exec_bind. cbn. by destruct (prefer_loop _ _ _ _ _).
Qed.

Lemma mfor_emit_exec {A} (l : list A) (f : A -> out) (m : bt_pm_manager_t) :
  exec (mfor l (fun x => emit (f x))) m = m.
Proof. induction l as [|x l IH]; simpl; [done|]. by rewrite exec_bind. Qed.

Lemma mfor_emit_outs {A} (l : list A) (f : A -> out) (m : bt_pm_manager_t) :
  outs (mfor l (fun x => emit (f x))) m = map f l.
Proof. induction l as [|x l IH]; simpl; [done|]. rewrite outs_bind. cbn. by f_equal. Qed.

Lemma stop_timer_exec a m : exec (pm_stop_timer a) m = set_timers (map (stopped a) m.(pm_timers)) m.
Proof. unfold pm_stop_timer. autorewrite with bt. by rewrite mfor_emit_exec. Qed.

(** ** The timers: at most one is active for a peer *)

Definition timers_unique (l : list bt_pm_timer_t) : Prop :=
  forall i j ti tj, l !! i = Some ti -> l !! j = Some tj ->
    ti.(tm_active) = true -> tj.(tm_active) = true -> ti.(tm_addr) = tj.(tm_addr) -> i = j.

Definition no_timer (a : bt_address_t) (l : list bt_pm_timer_t) : Prop :=
  forall i t, l !! i = Some t -> t.(tm_active) = true -> t.(tm_addr) <> a.

Lemma stopped_active a t : (stopped a t).(tm_active) = true -> stopped a t = t /\ t.(tm_addr) <> a.
Proof.
  unfold stopped, timer_matches. destruct (tm_active t) eqn:Ha; simpl; [|by rewrite Ha].
  destruct (same_addr (tm_addr t) a) eqn:Hs; simpl; [done|]. intros _. split; [done|].
  intros E. by rewrite E, same_addr_refl in Hs.
Qed.

Lemma stop_unique a l : timers_unique l -> timers_unique (map (stopped a) l).
Proof.
  intros Hu i j ti tj Hi Hj Ai Aj Hij. rewrite list_lookup_fmap in Hi, Hj.
  destruct (l !! i) as [si|] eqn:Ei; [|done]. destruct (l !! j) as [sj|] eqn:Ej; [|done].
  apply (inj Some) in Hi as <-. apply (inj Some) in Hj as <-.
  destruct (stopped_active a si Ai) as [Hsi _], (stopped_active a sj Aj) as [Hsj _].
  rewrite Hsi, Hsj in *. eauto.
Qed.

Lemma stop_no_timer a l : no_timer a (map (stopped a) l).
Proof.
  intros i t Hi Ht. rewrite list_lookup_fmap in Hi. destruct (l !! i) as [s|]; [|done].
  apply (inj Some) in Hi as <-. by destruct (stopped_active a s Ht) as [-> ?].
Qed.

Lemma start_unique a l i t :
  timers_unique l -> no_timer a l -> t.(tm_addr) = a -> timers_unique (<[i := t]> l).
Proof.
  intros Hu Hn Ht j k tj tk Hj Hk Aj Ak Ha.
  apply list_lookup_insert_Some in Hj as [(-> & <- & _)|[Hij Hj]];
    apply list_lookup_insert_Some in Hk as [(-> & <- & _)|[Hik Hk]]; try done.
  - exfalso. eapply Hn; [exact Hk|done|]. congruence.
  - exfalso. eapply Hn; [exact Hj|done|]. congruence.
  - by eapply Hu.
Qed.

Lemma start_timer_frame a ms p act m :
  let m' := exec (pm_start_timer e a ms p act) m in
  m'.(pm_services) = m.(pm_services) /\ m'.(pm_devices) = m.(pm_devices) /\
  m'.(pm_callback) = m.(pm_callback) /\ length m'.(pm_timers) = length m.(pm_timers) /\
  (timers_unique m.(pm_timers) -> no_timer a m.(pm_timers) -> timers_unique m'.(pm_timers)).
Proof.
  unfold pm_start_timer. rewrite exec_bind. cbn. destruct (list_find _ _) as [[i t]|] eqn:E; [|done].
  autorewrite with bt. rewrite exec_when_emit. cbn. rewrite length_insert. do 4 (split; [done|]). intros Hu Hn. by apply (start_unique a).
Qed.

Lemma mode_request_frame a req p m :
  let m' := exec (pm_mode_request e a req p) m in
  m'.(pm_services) = m.(pm_services) /\ m'.(pm_callback) = m.(pm_callback) /\
  length m'.(pm_timers) = length m.(pm_timers) /\
  (timers_unique m.(pm_timers) -> timers_unique m'.(pm_timers)).
Proof.
  unfold pm_mode_request. case_match.
  { rewrite stop_timer_exec. cbn. rewrite length_map. do 3 (split; [done|]). apply stop_unique. }
  rewrite exec_bind. destruct (prefer_config_frame a p m) as [(H1 & H2 & H3) _].
  set (m1 := exec (pm_prefer_config a p) m) in *.
  assert (forall m', same_lists m1 m' -> pm_services m' = pm_services m /\
            pm_callback m' = pm_callback m /\ length (pm_timers m') = length (pm_timers m) /\
            (timers_unique (pm_timers m) -> timers_unique (pm_timers m'))) as Hsame.
  { intros m' (-> & -> & ->). rewrite H1, H2, H3. auto. }
  destruct (eval (pm_prefer_config a p) m) as [pf|]; [|by apply Hsame].
  case_match; [by apply Hsame|]. destruct req.
  - case_match; [rewrite exec_bind; apply Hsame, request_active_frame|].
    case_match; [|by apply Hsame]. autorewrite with bt. rewrite stop_timer_exec.
    set (m2 := set_timers _ m1).
    destruct (start_timer_frame a (pf_timeout pf) (pf_id pf) (pf_mode pf) m2) as (S1 & _ & S3 & S4 & S5).
    cbn in *. rewrite S1, S3, S4, length_map, H1, H2, H3. do 3 (split; [done|]).
    intros Hu. rewrite H2 in S5. apply S5; [by apply stop_unique|apply stop_no_timer].
  - by apply Hsame.
  - case_match; [rewrite exec_bind; apply Hsame, request_active_frame|].
    case_match; [rewrite exec_bind, request_sniff_exec|]; by apply Hsame.
Qed.

(** ** The services: one per profile and peer, all in the tables *)

Definition service_key (s : bt_pm_service_t) : Z * bt_address_t := (s.(srv_profile), s.(srv_addr)).

Definition services_ok (l : list bt_pm_service_t) : Prop :=
  NoDup (map service_key l) /\ Forall (fun s => is_Some (cfg_find s.(srv_profile))) l.

Lemma cfg_find_range p idx : cfg_find p = Some idx -> (idx < 5)%nat.
Proof.
  unfold cfg_find. destruct (list_find _ _) as [[i [q j]]|] eqn:E; [|done]. intros [= <-].
  apply list_find_Some in E as (H & _ & _).
  do 8 (destruct i as [|i]; [simplify_eq/=; lia|]). done.
Qed.

Lemma check_prefer_action_iff p : pm_check_prefer_action p = true <-> is_Some (cfg_find p).
Proof.
  unfold pm_check_prefer_action. destruct (cfg_find p) as [idx|] eqn:E; [|split; [done|intros [? ?]; done]].
  pose proof (cfg_find_range p idx E). split; [by eauto|]. intros _.
  do 5 (destruct idx as [|idx]; [done|]). lia.
Qed.

Lemma is_service_true p a s : is_service p a s = true <-> service_key s = (p, a).
Proof.
  unfold is_service, service_key. rewrite andb_true_iff, Z.eqb_eq, same_addr_true.
  split; [intros [-> ->]; done|by intros [= -> ->]].
Qed.

Lemma alter_key st i l :
  map service_key (alter (fun s => mk_service s.(srv_profile) st s.(srv_addr)) i l) = map service_key l.
Proof. revert i. induction l as [|s l IH]; intros [|i]; simpl; [done..|]. f_equal. apply IH. Qed.

Lemma delete_last {A} (l : list A) x : delete (length l) (l ++ [x]) = l.
Proof. induction l as [|y l IH]; simpl; [done|]. f_equal. apply IH. Qed.

(** The services after a report. *)
Definition reported (st : bt_pm_state_t) (p : Z) (a : bt_address_t) (m : bt_pm_manager_t)
    : list bt_pm_service_t :=
  match pm_conn_service_find p a m with
  | None => if pm_check_prefer_action p then m.(pm_services) ++ [mk_service p st a] else m.(pm_services)
  | Some (i, _) =>
      let l := alter (fun s => mk_service s.(srv_profile) st s.(srv_addr)) i m.(pm_services) in
      if pm_check_prefer_action p then l else delete i l
  end.

Lemma handle_callback_exec st p a m :
  exec (bt_pm_hanlde_callback e st p a) m
  = exec (pm_mode_request e a BT_PM_RESTART p) (set_services (reported st p a m) m).
Proof.
  unfold bt_pm_hanlde_callback, reported. autorewrite with bt. cbn. f_equal.
  destruct (pm_conn_service_find p a m) as [[i s]|]; autorewrite with bt; rewrite exec_when; cbn;
    destruct (pm_check_prefer_action p); try done. cbn.
  by rewrite delete_last.
Qed.

Lemma handle_callback_outs st p a m :
  outs (bt_pm_hanlde_callback e st p a) m
  = outs (pm_mode_request e a BT_PM_RESTART p) (set_services (reported st p a m) m).
Proof.
  pose proof (handle_callback_exec st p a m) as H. unfold bt_pm_hanlde_callback in *.
  autorewrite with bt in *. cbn.
  assert (forall m0 n0 : bt_pm_manager_t, m0 = n0 ->
    outs (pm_mode_request e a BT_PM_RESTART p) m0 = outs (pm_mode_request e a BT_PM_RESTART p) n0) as Hc
    by (intros; by subst).
  unfold reported. destruct (pm_conn_service_find p a m) as [[i s]|]; autorewrite with bt;
    rewrite exec_when, outs_when; cbn; destruct (pm_check_prefer_action p); cbn; try done.
  apply Hc. by rewrite delete_last.
Qed.

Lemma reported_ok st p a m : services_ok m.(pm_services) -> services_ok (reported st p a m).
Proof.
  intros [Hn Hc]. unfold reported. destruct (pm_conn_service_find p a m) as [[i s]|] eqn:E.
  - assert (services_ok (alter (fun s => mk_service s.(srv_profile) st s.(srv_addr)) i (pm_services m))) as Hal.
    { split; [by rewrite alter_key|]. apply Forall_alter; [done|]. intros x _ Hx. done. }
    case_match; [done|]. destruct Hal as [Ha1 Ha2]. split.
    + change (map service_key) with (fmap (M := list) service_key). rewrite list_fmap_delete.
      eapply sublist_NoDup; [exact Ha1|]. apply sublist_delete.
    + by apply Forall_delete.
  - case_match; [|done]. split.
    + rewrite map_app. apply list.NoDup_app. split; [done|]. split; [|apply NoDup_singleton].
      intros k Hk Hk2. apply list_elem_of_singleton in Hk2 as ->.
      apply list_elem_of_fmap in Hk as (s & Hs & Hin).
      apply list_find_None in E. rewrite list.Forall_forall in E. apply (E s Hin), is_service_true. done.
    + apply Forall_app. split; [done|]. apply Forall_singleton. by apply check_prefer_action_iff.
Qed.

(** ** The preferred mode *)

Definition service_action (s : bt_pm_service_t) : bt_pm_action_t :=
  action_at (spec_at (default 0%nat (cfg_find s.(srv_profile)))) s.(srv_state).

Definition service_mode (s : bt_pm_service_t) : Z := (service_action s).(power_mode).

(** What [pm_prefer_config] reports when it settles on [s]. *)
Definition prefer_of (s : bt_pm_service_t) : prefer :=
  mk_prefer (service_mode s) (service_action s).(act_timeout)
    (spec_at (default 0%nat (cfg_find s.(srv_profile)))).(allow_mask) s.(srv_profile) true.

Lemma prefer_loop_spec l a pid last acc :
  Forall (fun s => is_Some (cfg_find s.(srv_profile))) l ->
  exists r last', prefer_loop l a pid last acc = (Some r, last') /\ acc.(pf_mode) <= r.(pf_mode) /\
    (forall s, s ∈ l -> s.(srv_addr) = a -> service_mode s <= r.(pf_mode)) /\
    (r = acc \/ exists s, s ∈ l /\ s.(srv_addr) = a /\ r = prefer_of s).
Proof.
  intros Hl. revert last acc. induction Hl as [|s l [idx Hs] Hl IH]; intros last acc; simpl.
  { exists acc, last. split; [done|]. split; [lia|]. split; [|by left]. intros s Hs. by apply elem_of_nil in Hs. }
  destruct (same_addr (srv_addr s) a) eqn:Ea; simpl.
  - apply same_addr_true in Ea. rewrite Hs.
    set (t := action_at (spec_at idx) (srv_state s)).
    assert (power_mode t = service_mode s) as Hm
      by (unfold service_mode, service_action; by rewrite Hs).
    destruct ((pf_mode acc <? power_mode t) || (power_mode t =? pf_mode acc) && (srv_profile s =? pid)) eqn:Ec.
    + destruct (IH (srv_profile s) (mk_prefer (power_mode t) (act_timeout t) (allow_mask (spec_at idx))
                  (srv_profile s) true)) as (r & last' & -> & H1 & H2 & H3).
      exists r, last'. cbn in H1. split; [done|]. split; [|split].
      * apply orb_true_iff in Ec as [Ec|Ec]; bool_lia.
      * intros s' Hs' Ha. apply elem_of_cons in Hs' as [->|Hs']; [lia|by apply H2].
      * right. destruct H3 as [->|(s' & Hin & Ha & ->)]; [|exists s'; by rewrite elem_of_cons; auto].
        exists s. rewrite elem_of_cons. split; [by left|]. split; [done|].
        unfold prefer_of, service_mode, service_action. by rewrite Hs.
    + apply orb_false_iff in Ec as [Ec _]. apply Z.ltb_ge in Ec.
      destruct (IH last acc) as (r & last' & -> & H1 & H2 & H3). exists r, last'.
      split; [done|]. split; [done|]. split.
      * intros s' Hs' Ha. apply elem_of_cons in Hs' as [->|Hs']; [lia|by apply H2].
      * destruct H3 as [->|(s' & Hin & Ha & ->)]; [by left|]. right. exists s'.
        rewrite elem_of_cons. auto.
  - destruct (IH last acc) as (r & last' & -> & H1 & H2 & H3). exists r, last'.
    split; [done|]. split; [done|]. split.
    + intros s' Hs' Ha. apply elem_of_cons in Hs' as [->|Hs']; [|by apply H2].
      by rewrite Ha, same_addr_refl in Ea.
    + destruct H3 as [->|(s' & Hin & Ha & ->)]; [by left|]. right. exists s'.
      rewrite elem_of_cons. auto.
Qed.

Lemma prefer_config_spec a pid m :
  services_ok m.(pm_services) ->
  match eval (pm_prefer_config a pid) m with
  | Some r =>
      (exists s, s ∈ m.(pm_services) /\ s.(srv_addr) = a /\ r = prefer_of s) /\
      (forall s, s ∈ m.(pm_services) -> s.(srv_addr) = a -> service_mode s <= r.(pf_mode))
  | None => forall s, s ∈ m.(pm_services) -> s.(srv_addr) = a -> service_mode s <= BT_PM_NO_ACTION
  end.
Proof.
  intros [_ Hc]. unfold pm_prefer_config. rewrite eval_bind. cbn.
  destruct (prefer_loop_spec (pm_services m) a pid (last_profile_id m) prefer_init Hc)
    as (r & last' & -> & H1 & H2 & H3). cbn.
  destruct H3 as [->|(s & Hin & Ha & ->)]; simpl; [exact H2|]. eauto 10.
Qed.

Lemma upd_device_frame i f m : same_lists m (exec (upd_device i f) m).
Proof. done. Qed.

Lemma request_stop_timer_frame i d m : same_lists m (exec (pm_request_stop_timer i d) m).
Proof. unfold pm_request_stop_timer. rewrite exec_when. case_match; [|done]. by autorewrite with bt. Qed.

(** ** Every entry point *)

Inductive pm_input :=
| in_report (st : bt_pm_state_t) (p : Z) (a : bt_address_t)
| in_init | in_cleanup
| in_link_mode (a : bt_address_t) (md iv : Z)
| in_connected (a : bt_address_t)
| in_disconnected (a : bt_address_t)
| in_set_sniff (a : bt_address_t) (params : option bt_pm_mode_t)
| in_timeout (slot : nat)
| in_request_timeout (dev : nat).

Definition handle_pm (i : pm_input) : MP unit :=
  match i with
  | in_report st p a => pm_report e st p a
  | in_init => bt_pm_init
  | in_cleanup => bt_pm_cleanup
  | in_link_mode a md iv => bt_pm_remote_link_mode_changed e a md iv
  | in_connected a => bt_pm_remote_device_connected a
  | in_disconnected a => bt_pm_remote_device_disconnected a
  | in_set_sniff a p => bt_pm_set_app_profile_sniff e a p;;; mret_ tt
  | in_timeout i => pm_timeout_callback e i
  | in_request_timeout i => pm_request_timeout_callback i
  end.

Definition pm_inv (m : bt_pm_manager_t) : Prop :=
  services_ok m.(pm_services) /\ timers_unique m.(pm_timers).

Lemma pm_inv_frame m m' : same_lists m m' -> pm_inv m -> pm_inv m'.
Proof. unfold pm_inv. by intros (-> & -> & _). Qed.

Lemma mode_request_inv a req p m : pm_inv m -> pm_inv (exec (pm_mode_request e a req p) m).
Proof.
  intros [Hs Ht]. destruct (mode_request_frame a req p m) as (H1 & _ & _ & H4).
  split; [by rewrite H1|auto].
Qed.

Lemma stop_timer_inv a m : pm_inv m -> pm_inv (exec (pm_stop_timer a) m).
Proof. intros [Hs Ht]. rewrite stop_timer_exec. split; [done|]. by apply stop_unique. Qed.

Lemma link_mode_inv a md iv m : pm_inv m -> pm_inv (exec (bt_pm_remote_link_mode_changed e a md iv) m).
Proof.
  intros Hi. unfold bt_pm_remote_link_mode_changed. rewrite exec_bind. cbn.
  destruct (pm_conn_device_find a m) as [[j d]|]; [|done].
  case_match; autorewrite with bt; [|case_match; [apply stop_timer_inv|]; apply (pm_inv_frame m); done].
  assert (pm_inv (exec (pm_request_stop_timer j d) (exec (pm_stop_timer a) (exec (upd_device j (set_mode_interval md iv)) m)))) as H1.
  { eapply pm_inv_frame; [apply request_stop_timer_frame|]. apply stop_timer_inv, (pm_inv_frame m); done. }
  case_match; autorewrite with bt; [|by apply mode_request_inv].
  rewrite request_sniff_exec. eapply pm_inv_frame; [apply upd_device_frame|done].
Qed.

Lemma timeout_inv i m : pm_inv m -> pm_inv (exec (pm_timeout_callback e i) m).
Proof.
  intros [Hs Ht]. unfold pm_timeout_callback. rewrite exec_bind. cbn.
  destruct (pm_timers m !! i) as [t|] eqn:E; [|done]. rewrite exec_bind.
  apply mode_request_inv. split; [done|]. cbn. intros j k tj tk Hj Hk Aj Ak Ha.
  rewrite list_lookup_alter in Hj, Hk.
  destruct (decide (i = j)) as [->|]; [rewrite E in Hj; by simplify_eq/=|].
  destruct (decide (i = k)) as [->|]; [rewrite E in Hk; by simplify_eq/=|]. by eapply Ht.
Qed.

Lemma handle_pm_inv i m : pm_inv m -> pm_inv (exec (handle_pm i) m).
Proof.
  intros Hi. destruct i as [st p a| | |a md iv|a|a|a p|i|i]; cbn [handle_pm].
  - unfold pm_report. rewrite exec_bind, exec_when. cbn. case_match; [|done].
    rewrite handle_callback_exec. apply mode_request_inv. destruct Hi as [Hs Ht].
    split; [by apply reported_ok|done].
  - unfold bt_pm_init. rewrite exec_bind. cbn. case_match; [done|]. split; [|apply Hi]. cbn.
    split; [constructor|done].
  - unfold bt_pm_cleanup. rewrite exec_bind. cbn. case_match; [done|]. split; [|apply Hi]. cbn.
    split; [constructor|done].
  - by apply link_mode_inv.
  - done.
  - unfold bt_pm_remote_device_disconnected. rewrite exec_bind. cbn.
    destruct (pm_conn_device_find a m) as [[j d]|]; [|done]. unfold pm_conn_device_remove.
    autorewrite with bt. eapply (pm_inv_frame (exec (pm_stop_timer a) m)); [|by apply stop_timer_inv].
    etransitivity; [apply request_stop_timer_frame|done].
  - unfold bt_pm_set_app_profile_sniff. autorewrite with bt. cbn.
    destruct (pm_conn_device_find a m) as [[j d]|]; [|done]. autorewrite with bt.
    eapply (pm_inv_frame m); [|done]. case_match; [done|]. autorewrite with bt.
    etransitivity; [|apply request_active_frame]. done.
  - by apply timeout_inv.
  - done.
Qed.

(** ** What a request emits *)

Lemma request_active_outs a m o :
  o ∈ outs (pm_request_active e a) m -> forall b md, o = bt_sal_set_power_mode b md -> md = active_mode.
Proof.
  unfold pm_request_active. rewrite outs_bind. cbn.
  destruct (pm_conn_device_find a m) as [[j d]|]; [|by intros ?%elem_of_nil].
  case_match; [by intros ?%elem_of_nil|]. autorewrite with bt. cbn.
  intros Ho b md ->. apply elem_of_cons in Ho as [Ho|Ho]; [by simplify_eq|].
  exfalso. rewrite ?app_nil_r in Ho. case_match; [by apply elem_of_nil in Ho|].
  unfold pm_request_start_timer in Ho. autorewrite with bt in Ho. cbn in Ho.
  rewrite outs_when, ?app_nil_r in Ho. case_match; cbn in Ho; set_solver.
Qed.

Lemma start_timer_outs a ms p act m b md :
  bt_sal_set_power_mode b md ∉ outs (pm_start_timer e a ms p act) m.
Proof.
  unfold pm_start_timer. rewrite outs_bind. cbn. destruct (list_find _ _) as [[i t]|]; [|set_solver].
  autorewrite with bt. rewrite outs_when. case_match; cbn; set_solver.
Qed.

Lemma stop_timer_outs a m b md : bt_sal_set_power_mode b md ∉ outs (pm_stop_timer a) m.
Proof.
  unfold pm_stop_timer. autorewrite with bt. cbn. rewrite mfor_emit_outs, ?app_nil_r.
  intros (t & Ht & _)%list_elem_of_fmap. done.
Qed.

Lemma request_sniff_outs a i p m b md :
  bt_sal_set_power_mode b md ∈ outs (pm_request_sniff e a i p) m -> b = a.
Proof.
  unfold pm_request_sniff. case_match; [set_solver|]. rewrite outs_bind. cbn.
  destruct (pm_conn_device_find a m) as [[j d]|]; [|set_solver].
  repeat case_match; rewrite ?outs_bind; cbn; set_solver.
Qed.

Lemma request_active_addr a m b md :
  bt_sal_set_power_mode b md ∈ outs (pm_request_active e a) m -> b = a.
Proof.
  unfold pm_request_active. rewrite outs_bind. cbn.
  destruct (pm_conn_device_find a m) as [[j d]|]; [|set_solver].
  case_match; [set_solver|]. autorewrite with bt. cbn. rewrite ?app_nil_r.
  intros Ho. apply elem_of_cons in Ho as [Ho|Ho]; [by simplify_eq|]. exfalso.
  case_match; [set_solver|]. unfold pm_request_start_timer in Ho. autorewrite with bt in Ho. cbn in Ho.
  rewrite outs_when, ?app_nil_r in Ho. case_match; cbn in Ho; set_solver.
Qed.

(** A power-mode command other than "active" is sent only for a connected
    peer of which no service prefers active mode. *)
Lemma mode_request_commands a req p m b md :
  services_ok m.(pm_services) ->
  bt_sal_set_power_mode b md ∈ outs (pm_mode_request e a req p) m ->
  b = a /\ e.(adapter_is_remote_connected) a = true /\
  (md <> active_mode ->
   forall s, s ∈ m.(pm_services) -> s.(srv_addr) = a -> service_mode s < BT_PM_ACTIVE).
Proof.
  intros Hok. unfold pm_mode_request. destruct (adapter_is_remote_connected e a); cbn [negb];
    [|by intros ?%stop_timer_outs].
  rewrite outs_bind. pose proof (prefer_config_spec a p m Hok) as Hp.
  assert (outs (pm_prefer_config a p) m = []) as ->.
  { unfold pm_prefer_config. rewrite outs_bind. cbn. by destruct (prefer_loop _ _ _ _ _). }
  destruct (eval (pm_prefer_config a p) m) as [r|]; [|set_solver].
  destruct Hp as [(s & Hs & Ha & ->) Hmax]. case_match; [set_solver|].
  assert (Z.land (pf_mode (prefer_of s)) BT_PM_ACTIVE = 0 -> service_mode s < BT_PM_ACTIVE) as Hlt.
  { unfold prefer_of, service_mode, service_action; cbn.
    destruct Hok as [_ Hc]. rewrite list.Forall_forall in Hc. destruct (Hc s Hs) as [idx Hidx].
    rewrite Hidx. cbn. pose proof (cfg_find_range _ _ Hidx).
    destruct (srv_state s); do 5 (destruct idx as [|idx]; [vm_compute; congruence|]); lia. }
  assert (Z.land (pf_mode (prefer_of s)) BT_PM_ACTIVE = 0 ->
          forall s', s' ∈ pm_services m -> srv_addr s' = a -> service_mode s' < BT_PM_ACTIVE) as Hall.
  { intros Hz s' Hs' Ha'. specialize (Hmax s' Hs' Ha'). specialize (Hlt Hz). cbn in Hmax. lia. }
  cbn [app]. destruct req.
  - destruct (Z.eqb_spec (Z.land (pf_mode (prefer_of s)) BT_PM_ACTIVE) 0) as [Hz|Hz]; cbn [negb].
    + case_match; [|set_solver]. autorewrite with bt. cbn. rewrite ?app_nil_r.
      intros [?%stop_timer_outs|?%start_timer_outs]%elem_of_app; done.
    + autorewrite with bt. cbn. rewrite ?app_nil_r. intros Ho. split; [by eapply request_active_addr|].
      split; [done|]. intros Hne. exfalso. by eapply Hne, request_active_outs.
  - set_solver.
  - destruct (Z.eqb_spec (Z.land (pf_mode (prefer_of s)) BT_PM_ACTIVE) 0) as [Hz|Hz]; cbn [negb].
    + case_match; [|set_solver]. autorewrite with bt. cbn. rewrite ?app_nil_r. intros Ho.
      split; [by eapply request_sniff_outs|]. split; [done|]. intros _. by apply Hall.
    + autorewrite with bt. cbn. rewrite ?app_nil_r. intros Ho. split; [by eapply request_active_addr|].
      split; [done|]. intros Hne. exfalso. by eapply Hne, request_active_outs.
Qed.

Lemma reported_in st p a m :
  is_Some (cfg_find p) -> mk_service p st a ∈ reported st p a m.
Proof.
  intros Hp. unfold reported. apply check_prefer_action_iff in Hp. rewrite Hp.
  destruct (pm_conn_service_find p a m) as [[i s]|] eqn:E.
  - apply list_find_Some in E as (Hl & Hs & _). apply is_service_true in Hs.
    unfold service_key in Hs. simplify_eq. apply list_elem_of_lookup. exists i.
    by rewrite list_lookup_alter_eq, Hl.
  - apply elem_of_app. right. by left.
Qed.

Lemma table_modes s :
  is_Some (cfg_find s.(srv_profile)) ->
  service_mode s <= BT_PM_ACTIVE /\ pf_allow (prefer_of s) = BT_PM_SNIFF.
Proof.
  intros [idx Hidx]. unfold prefer_of, service_mode, service_action. rewrite Hidx.
  pose proof (cfg_find_range _ _ Hidx). cbn.
  destruct (srv_state s); do 5 (destruct idx as [|idx]; [split; [vm_compute; congruence|done]|]); lia.
Qed.

(** With a service that prefers active mode, a restart asks for it. *)
Lemma restart_active a p m s :
  services_ok m.(pm_services) -> e.(adapter_is_remote_connected) a = true ->
  s ∈ m.(pm_services) -> s.(srv_addr) = a -> service_mode s = BT_PM_ACTIVE ->
  let m1 := exec (pm_prefer_config a p) m in
  exec (pm_mode_request e a BT_PM_RESTART p) m = exec (pm_request_active e a) m1 /\
  outs (pm_mode_request e a BT_PM_RESTART p) m = outs (pm_request_active e a) m1 /\
  pm_conn_device_find a m1 = pm_conn_device_find a m.
Proof.
  intros Hok Hconn Hs Ha Hact m1. unfold pm_mode_request. rewrite Hconn. cbn [negb].
  rewrite exec_bind, outs_bind. pose proof (prefer_config_spec a p m Hok) as Hp.
  assert (outs (pm_prefer_config a p) m = []) as ->.
  { unfold pm_prefer_config. rewrite outs_bind. cbn. by destruct (prefer_loop _ _ _ _ _). }
  destruct (eval (pm_prefer_config a p) m) as [r|];
    [|specialize (Hp s Hs Ha); rewrite Hact in Hp; done].
  destruct Hp as [(s' & Hs' & _ & ->) Hmax]. specialize (Hmax s Hs Ha). rewrite Hact in Hmax.
  destruct Hok as [_ Hc]. rewrite list.Forall_forall in Hc.
  destruct (table_modes s' (Hc s' Hs')) as [Hle Hall]. rewrite Hall. cbn [pf_mode prefer_of] in *.
  replace (service_mode s') with BT_PM_ACTIVE by lia.
  change (Z.land BT_PM_SNIFF BT_PM_SNIFF =? 0) with false.
  change (Z.land BT_PM_ACTIVE BT_PM_ACTIVE =? 0) with false. cbn [negb].
  rewrite exec_bind, outs_bind. cbn -[pm_request_active]. rewrite app_nil_r.
  split; [done|]. split; [done|]. unfold pm_conn_device_find.
  destruct (prefer_config_frame a p m) as [_ Hdev]. unfold m1. by rewrite Hdev.
Qed.

(** A busy report of a profile that prefers active mode is that request. *)
Lemma busy_requests_active m p a :
  m.(pm_callback) = true -> services_ok m.(pm_services) ->
  e.(adapter_is_remote_connected) a = true -> is_Some (cfg_find p) ->
  service_mode (mk_service p BT_PM_STATE_CONN_BUSY a) = BT_PM_ACTIVE ->
  exists m2, exec (bt_pm_busy e p a) m = exec (pm_request_active e a) m2 /\
    outs (bt_pm_busy e p a) m = outs (pm_request_active e a) m2 /\
    pm_conn_device_find a m2 = pm_conn_device_find a m /\
    services_ok m2.(pm_services) /\ m2.(pm_callback) = true.
Proof.
  intros Hcb Hok Hconn Hcfg Hact. unfold bt_pm_busy, pm_report. rewrite exec_bind, outs_bind. cbn.
  rewrite Hcb. cbn [when]. rewrite handle_callback_exec, handle_callback_outs.
  set (m1 := set_services (reported BT_PM_STATE_CONN_BUSY p a m) m).
  assert (services_ok (pm_services m1)) as Hok1 by (by apply reported_ok).
  destruct (restart_active a p m1 (mk_service p BT_PM_STATE_CONN_BUSY a)) as (H1 & H2 & H3);
    [done|done|by apply reported_in|done|done|].
  exists (exec (pm_prefer_config a p) m1). split; [done|]. split; [done|]. split; [done|].
  destruct (prefer_config_frame a p m1) as [(-> & _ & ->) _]. done.
Qed.

Lemma device_find_alter a m i d f :
  pm_conn_device_find a m = Some (i, d) -> dev_addr (f d) = dev_addr d ->
  pm_conn_device_find a (exec (upd_device i f) m) = Some (i, f d).
Proof.
  unfold pm_conn_device_find. cbn. intros (Hl & Ha & Hb)%list_find_Some Hf.
  apply list_find_Some. rewrite list_lookup_alter_eq, Hl, Hf. split; [done|]. split; [done|].
  intros j y Hj Hlt. rewrite list_lookup_alter_ne in Hj by lia. by apply (Hb j y).
Qed.

Lemma request_active_wakes a m i d :
  pm_conn_device_find a m = Some (i, d) -> d.(dev_mode) <> BT_LINK_MODE_ACTIVE ->
  d.(hci_status) = BT_PM_STATUS_NONE -> e.(set_power_mode_status) = BT_STATUS_SUCCESS ->
  bt_sal_set_power_mode a active_mode ∈ outs (pm_request_active e a) m /\
  pm_conn_device_find a (exec (pm_request_active e a) m)
    = Some (i, set_request_timer e.(new_timer) (set_hci_status BT_PM_STATUS_PENDING_ACTIVE d)).
Proof.
  intros Hd Hm Hh Hs. unfold pm_request_active. rewrite exec_bind, outs_bind. cbn. rewrite Hd, Hh, Hs.
  apply Z.eqb_neq in Hm. rewrite Hm. cbn [orb]. rewrite bool_decide_eq_false_2 by done.
  change (is_success BT_STATUS_SUCCESS) with true. cbn [negb].
  split; [autorewrite with bt; cbn; by left|].
  unfold pm_request_start_timer. autorewrite with bt. rewrite exec_when_emit.
  apply (device_find_alter a _ i (set_hci_status BT_PM_STATUS_PENDING_ACTIVE d)); [|done].
  by apply device_find_alter.
Qed.

Lemma request_active_quiet a m i d :
  pm_conn_device_find a m = Some (i, d) -> d.(hci_status) = BT_PM_STATUS_PENDING_ACTIVE ->
  outs (pm_request_active e a) m = [].
Proof.
  intros Hd Hh. unfold pm_request_active. rewrite outs_bind. cbn. rewrite Hd, Hh. cbn.
  by rewrite orb_true_r.
Qed.

End Lemmas.

(** ** Claims *)

(** C38: [pm_prefer_config] settles on the strongest preference among the
    services of the peer, with the timeout and allowed modes of that
    service's table; it fails only when no service of the peer prefers
    anything. *)
Theorem pm_prefer_config_max (a : bt_address_t) (pid : Z) (m : bt_pm_manager_t) :
  services_ok m.(pm_services) ->
  match eval (pm_prefer_config a pid) m with
  | Some r =>
      (exists s, s ∈ m.(pm_services) /\ s.(srv_addr) = a /\ r = prefer_of s) /\
      (forall s, s ∈ m.(pm_services) -> s.(srv_addr) = a -> service_mode s <= r.(pf_mode))
  | None => forall s, s ∈ m.(pm_services) -> s.(srv_addr) = a -> service_mode s <= BT_PM_NO_ACTION
  end.
Proof. apply prefer_config_spec. Qed.

Definition demo_addr : bt_address_t := mk_addr 1 2 3 4 5 6.
Definition demo_env : env := mk_env (fun _ => true) BT_STATUS_SUCCESS (Some 9%nat).
Definition demo_device : bt_pm_device_t :=
  mk_device demo_addr BT_LINK_MODE_SNIFF BT_PM_STATUS_NONE 500 None (mode_at 0) false.
Definition no_timers (n : nat) : list bt_pm_timer_t := replicate n (mk_timer None bt_addr_empty false 0 0).
Definition demo_manager : bt_pm_manager_t :=
  mk_manager [mk_service PROFILE_A2DP BT_PM_STATE_CONN_IDLE demo_addr;
              mk_service PROFILE_HFP_HF BT_PM_STATE_SCO_OPEN demo_addr]
    [demo_device] true PROFILE_A2DP (no_timers 16) true.

Lemma demo_services_ok : services_ok demo_manager.(pm_services).
Proof.
  split; [apply (bool_decide_unpack _); vm_compute; exact I|].
  repeat constructor; vm_compute; eauto.
Qed.

Lemma pm_prefer_config_max_witness :
  service_mode (mk_service PROFILE_A2DP BT_PM_STATE_CONN_IDLE demo_addr) <= BT_PM_ACTIVE.
Proof.
  apply (proj2 (pm_prefer_config_max demo_addr PROFILE_A2DP demo_manager demo_services_ok)).
  - left.
  - reflexivity.
Defined.

Definition pm_step (m m' : bt_pm_manager_t) : Prop :=
  exists e i, m' = exec (handle_pm e i) m.

Definition pm_initial (m : bt_pm_manager_t) : Prop :=
  exists n, m = mk_manager [] [] false 0 (no_timers n) false.

(** Whatever profiles, adapter and timers do, in any order: a profile
    has at most one service entry per peer, every entry is of a profile in
    the tables, and a peer has at most one active timer. *)
Theorem pm_reachable_invariant (m : bt_pm_manager_t) :
  reachable pm_initial pm_step m ->
  NoDup (map service_key m.(pm_services)) /\
  (forall s, s ∈ m.(pm_services) -> is_Some (cfg_find s.(srv_profile))) /\
  timers_unique m.(pm_timers).
Proof.
  intros Hr. assert (pm_inv m) as [[Hn Hc] Ht].
  { revert m Hr. apply reachable_inv.
    - intros m [n ->]. split; [split; [constructor|done]|]. cbn.
      intros i j ti tj Hi _ Ai. apply lookup_replicate in Hi as [-> _]. done.
    - intros m m' Hi (e & i & ->). by apply handle_pm_inv. }
  split; [done|]. split; [|done]. by apply list.Forall_forall.
Qed.

Lemma pm_reachable_invariant_witness :
  timers_unique (exec (handle_pm demo_env in_init)
                   (mk_manager [] [] false 0 (no_timers 16) false)).(pm_timers).
Proof.
  apply (pm_reachable_invariant
           (exec (handle_pm demo_env in_init) (mk_manager [] [] false 0 (no_timers 16) false))).
  eapply reach_step; [apply reach_init; exists 16%nat; reflexivity|]. exists demo_env, in_init. reflexivity.
Defined.

(** C34: When a power-management timer fires, a power-mode command is sent
    only for the timer's own peer and only while it is connected; and it asks
    for a sniff mode only if no service of that peer prefers active mode. *)
Theorem pm_timeout_commands (e : env) (m : bt_pm_manager_t) (i : nat) (t : bt_pm_timer_t)
    (b : bt_address_t) (md : bt_pm_mode_t) :
  services_ok m.(pm_services) -> m.(pm_timers) !! i = Some t ->
  bt_sal_set_power_mode b md ∈ outs (pm_timeout_callback e i) m ->
  b = t.(tm_addr) /\ e.(adapter_is_remote_connected) b = true /\
  (md <> active_mode ->
   forall s, s ∈ m.(pm_services) -> s.(srv_addr) = b -> service_mode s < BT_PM_ACTIVE).
Proof.
  intros Hok Ht. unfold pm_timeout_callback. rewrite outs_bind. cbn. rewrite Ht, outs_bind. cbn.
  intros Ho. apply mode_request_commands in Ho as (-> & Hc & Hm); [|done]. by split_and!.
Qed.

Definition idle_manager : bt_pm_manager_t :=
  mk_manager [mk_service PROFILE_A2DP BT_PM_STATE_CONN_IDLE demo_addr]
    [mk_device demo_addr BT_LINK_MODE_ACTIVE BT_PM_STATUS_NONE 0 None (mode_at 0) false]
    true PROFILE_A2DP [mk_timer (Some 9%nat) demo_addr true BT_PM_SNIFF PROFILE_A2DP] true.

Lemma pm_timeout_commands_witness :
  demo_addr = demo_addr /\
  (mode_at 0 <> active_mode ->
   forall s, s ∈ idle_manager.(pm_services) -> s.(srv_addr) = demo_addr -> service_mode s < BT_PM_ACTIVE).
Proof.
  destruct (pm_timeout_commands demo_env idle_manager 0
              (mk_timer (Some 9%nat) demo_addr true BT_PM_SNIFF PROFILE_A2DP) demo_addr (mode_at 0))
    as (H1 & _ & H2).
  - split; [apply (bool_decide_unpack _); vm_compute; exact I|repeat constructor; vm_compute; eauto].
  - reflexivity.
  - vm_compute. left.
  - split; [exact H1|exact H2].
Defined.

(** A profile whose table prefers active mode when busy wakes the link:
    for a connected peer in another mode with no request pending,
    [bt_pm_busy] sends the command for active mode and marks it pending, and
    another busy report while it is pending sends nothing. *)
Theorem pm_busy_wakes_link (e : env) (m : bt_pm_manager_t) (p : Z) (a : bt_address_t)
    (i : nat) (d : bt_pm_device_t) :
  m.(pm_callback) = true -> services_ok m.(pm_services) ->
  e.(adapter_is_remote_connected) a = true -> e.(set_power_mode_status) = BT_STATUS_SUCCESS ->
  is_Some (cfg_find p) -> service_mode (mk_service p BT_PM_STATE_CONN_BUSY a) = BT_PM_ACTIVE ->
  pm_conn_device_find a m = Some (i, d) ->
  d.(dev_mode) <> BT_LINK_MODE_ACTIVE -> d.(hci_status) = BT_PM_STATUS_NONE ->
  let m' := exec (bt_pm_busy e p a) m in
  bt_sal_set_power_mode a active_mode ∈ outs (bt_pm_busy e p a) m /\
  pm_conn_device_find a m'
    = Some (i, set_request_timer e.(new_timer) (set_hci_status BT_PM_STATUS_PENDING_ACTIVE d)) /\
  outs (bt_pm_busy e p a) m' = [].
Proof.
  intros Hcb Hok Hconn Hst Hcfg Hact Hd Hmode Hhci m'.
  destruct (busy_requests_active e m p a) as (m2 & H1 & H2 & H3 & Hok2 & Hcb2); try done.
  rewrite Hd in H3. destruct (request_active_wakes e a m2 i d) as [W1 W2]; try done.
  unfold m'. rewrite H1, H2. split; [done|]. split; [done|].
  destruct (request_active_frame e a m2) as (F1 & _ & F3).
  destruct (busy_requests_active e (exec (pm_request_active e a) m2) p a) as (m4 & _ & -> & H5 & _);
    [by rewrite F3|by rewrite F1|done..|].
  rewrite W2 in H5. by eapply request_active_quiet.
Qed.

Lemma pm_busy_wakes_link_witness :
  bt_sal_set_power_mode demo_addr active_mode ∈ outs (bt_pm_busy demo_env PROFILE_A2DP demo_addr) demo_manager.
Proof.
  apply (pm_busy_wakes_link demo_env demo_manager PROFILE_A2DP demo_addr 0 demo_device);
    try reflexivity; [exact demo_services_ok|vm_compute; eauto|discriminate].
Defined.

(** When a device is disconnected, the first entry of that peer is
    removed and none of its timers stays active. *)
Theorem pm_disconnect_stops_timers (m : bt_pm_manager_t) (a : bt_address_t) (i : nat) (d : bt_pm_device_t) :
  pm_conn_device_find a m = Some (i, d) ->
  let m' := exec (bt_pm_remote_device_disconnected a) m in
  no_timer a m'.(pm_timers) /\ m'.(pm_devices) = delete i m.(pm_devices) /\
  (is_Some d.(request_timer) -> service_loop_cancel_timer d.(request_timer)
     ∈ outs (bt_pm_remote_device_disconnected a) m).
Proof.
  intros Hd m'. unfold m', bt_pm_remote_device_disconnected. rewrite exec_bind, outs_bind. cbn. rewrite Hd.
  unfold pm_conn_device_remove, pm_request_stop_timer. autorewrite with bt. rewrite exec_when, outs_when, stop_timer_exec.
  case_bool_decide; cbn.
  - split; [apply stop_no_timer|]. split; [|by set_solver].
    clear. revert i. induction (pm_devices m) as [|x l IH]; intros [|i]; simpl; [done..|]. f_equal. apply IH.
  - split; [apply stop_no_timer|]. done.
Qed.

Lemma pm_disconnect_stops_timers_witness :
  no_timer demo_addr (exec (bt_pm_remote_device_disconnected demo_addr) idle_manager).(pm_timers).
Proof.
  apply (pm_disconnect_stops_timers idle_manager demo_addr 0
           (mk_device demo_addr BT_LINK_MODE_ACTIVE BT_PM_STATUS_NONE 0 None (mode_at 0) false)).
  reflexivity.
Defined.

(** ** Entries that are never removed

    The check meant to drop a service without preference looks at the
    CONN_OPEN entry of its table instead of the reported state's: closing the
    connection of a profile in the tables never removes its entry. *)
Theorem pm_close_keeps_service (e : env) (m : bt_pm_manager_t) (p : Z) (a : bt_address_t) :
  m.(pm_callback) = true -> is_Some (cfg_find p) ->
  mk_service p BT_PM_STATE_CONN_CLOSE a ∈ (exec (bt_pm_conn_close e p a) m).(pm_services).
Proof.
  intros Hcb Hp. unfold bt_pm_conn_close, pm_report. rewrite exec_bind. cbn. rewrite Hcb. cbn [when].
  rewrite handle_callback_exec. destruct (mode_request_frame e a BT_PM_RESTART p
    (set_services (reported BT_PM_STATE_CONN_CLOSE p a m) m)) as [-> _]. by apply reported_in.
Qed.

End PowerManager.
