(* ===== verification/DList.v ===== *)
(** * Intrusive doubly linked lists (framework/include/list.h)

    The heap of [struct list_node]s: for each node its [prev] and its [next].
    A macro that dereferences a pointer outside the heap has no result
    ([None]).  [dll h l xs]: the node [l] heads a circular list whose entries
    are [xs]; the macros keep such lists and do to [xs] what they say. *)

From S2P Require Import Prelude.

Module DList.

Abbreviation ptr := N.
Definition NULL : ptr := 0%N.

Record heap := mk_heap { prev : gmap ptr ptr; next : gmap ptr ptr }.

Definition set_prev (p v : ptr) (h : heap) : heap := mk_heap (<[p := v]> h.(prev)) h.(next).
Definition set_next (p v : ptr) (h : heap) : heap := mk_heap h.(prev) (<[p := v]> h.(next)).

(** A store through a pointer needs the node to exist. *)
Definition store_prev (p v : ptr) (h : heap) : option heap :=
  match h.(prev) !! p with Some _ => Some (set_prev p v h) | None => None end.
Definition store_next (p v : ptr) (h : heap) : option heap :=
  match h.(next) !! p with Some _ => Some (set_next p v h) | None => None end.

(** ** The macros *)

(** The node a pointer designates is allocated by its owner: initialising
    and inserting write both its fields. *)
Definition list_initialize (l : ptr) (h : heap) : heap := set_prev l l (set_next l l h).

Definition list_is_empty (l : ptr) (h : heap) : option bool :=
  n ← h.(next) !! l; Some (bool_decide (n = l)).

Definition list_peek_head (l : ptr) (h : heap) : option ptr :=
  n ← h.(next) !! l; Some (if bool_decide (n = l) then NULL else n).

Definition list_peek_tail (l : ptr) (h : heap) : option ptr :=
  p ← h.(prev) !! l; Some (if bool_decide (p = l) then NULL else p).

Definition list_next (l item : ptr) (h : heap) : option ptr :=
  n ← h.(next) !! item; Some (if bool_decide (n = l) then NULL else n).

Definition list_add_head (l item : ptr) (h : heap) : option heap :=
  n ← h.(next) !! l;
  let h := set_next item n h in
  let h := set_prev item l h in
  n ← h.(next) !! l;
  h ← store_prev n item h;
  store_next l item h.

Definition list_add_tail (l item : ptr) (h : heap) : option heap :=
  p ← h.(prev) !! l;
  let h := set_prev item p h in
  let h := set_next item l h in
  p ← h.(prev) !! l;
  h ← store_next p item h;
  store_prev l item h.

Definition list_delete (item : ptr) (h : heap) : option heap :=
  n ← h.(next) !! item;
  p ← h.(prev) !! item;
  h ← store_prev n p h;
  n ← h.(next) !! item;
  p ← h.(prev) !! item;
  h ← store_next p n h;
  Some (set_prev item NULL (set_next item NULL h)).

(** [list_for_every_safe]: the successor is read before the body runs.  The
    body returns the new state and, to leave the loop, a result.  [St] is the
    state the body works on, with the heap in it. *)
Section ForEvery.
Context {St R : Type} (heap_of : St -> heap) (body : ptr -> St -> option (option R * St)).

Fixpoint for_every_safe (fuel : nat) (l node tmp : ptr) (s : St) : option (option R * St) :=
  match fuel with
  | O => None
  | S fuel =>
      if bool_decide (node = l) then Some (None, s)
      else r ← body node s;
           match r with
           | (Some r, s) => Some (Some r, s)
           | (None, s) => t ← (heap_of s).(next) !! tmp; for_every_safe fuel l tmp t s
           end
  end.

Definition list_for_every_safe (fuel : nat) (l : ptr) (s : St) : option (option R * St) :=
  node ← (heap_of s).(next) !! l;
  tmp ← (heap_of s).(next) !! node;
  for_every_safe fuel l node tmp s.
End ForEvery.

(** ** Well-formed lists *)

Definition linked (h : heap) (a b : ptr) : Prop := h.(next) !! a = Some b /\ h.(prev) !! b = Some a.

(** The last node of [a :: xs]. *)
Fixpoint last_or (a : ptr) (xs : list ptr) : ptr :=
  match xs with [] => a | x :: xs => last_or x xs end.

Fixpoint path (h : heap) (a : ptr) (xs : list ptr) : Prop :=
  match xs with [] => True | x :: xs => linked h a x /\ path h x xs end.

Definition dll (h : heap) (l : ptr) (xs : list ptr) : Prop :=
  NoDup (l :: xs) /\ (NULL ∉ l :: xs) /\ path h l xs /\ linked h (last_or l xs) l.

(** ** Lemmas *)

Lemma last_or_in a xs : last_or a xs ∈ a :: xs.
Proof. revert a. induction xs as [|x xs IH]; intros a; simpl; [by left|]. right. apply IH. Qed.

Lemma last_or_app a xs ys : last_or a (xs ++ ys) = last_or (last_or a xs) ys.
Proof. revert a. induction xs as [|x xs IH]; intros a; simpl; [done|]. apply IH. Qed.

Lemma path_app h a xs ys : path h a (xs ++ ys) <-> path h a xs /\ path h (last_or a xs) ys.
Proof. revert a. induction xs as [|x xs IH]; intros a; simpl; [tauto|]. rewrite IH. tauto. Qed.

(** A path survives changes of the [next] of its last node or of nodes not on
    it, and of the [prev] of its first node or of nodes not on it. *)
Lemma path_frame h h' a xs :
  NoDup (a :: xs) ->
  (forall x, x ∈ a :: xs -> x <> last_or a xs -> h'.(next) !! x = h.(next) !! x) ->
  (forall x, x ∈ xs -> h'.(prev) !! x = h.(prev) !! x) ->
  path h a xs -> path h' a xs.
Proof.
  revert a. induction xs as [|x xs IH]; intros a Hnd Hn Hp; simpl; [done|].
  intros [[Hl1 Hl2] Hpath]. apply list.NoDup_cons in Hnd as [Ha Hnd]. split.
  - split.
    + rewrite Hn; [done|by left|]. intros E. cbn in E. apply Ha. rewrite E. apply last_or_in.
    + rewrite Hp; [done|by left].
  - apply IH; auto.
    + intros y Hy Hne. apply Hn; [by right|done].
    + intros y Hy. apply Hp. by right.
Qed.

Lemma linked_frame h h' a b :
  h'.(next) !! a = h.(next) !! a -> h'.(prev) !! b = h.(prev) !! b -> linked h a b -> linked h' a b.
Proof. intros H1 H2 [Hl1 Hl2]. split; congruence. Qed.

(** A list none of whose nodes is touched stays as it is. *)
Lemma dll_frame h h' l xs :
  (forall x, x ∈ l :: xs -> h'.(next) !! x = h.(next) !! x) ->
  (forall x, x ∈ l :: xs -> h'.(prev) !! x = h.(prev) !! x) ->
  dll h l xs -> dll h' l xs.
Proof.
  intros Hn Hp (Hnd & Hnull & Hpath & Hlast). split; [done|]. split; [done|]. split.
  - eapply path_frame; [done| | |done]; [by auto|]. intros x Hx. apply Hp. by right.
  - eapply linked_frame; [apply Hn, last_or_in|apply Hp; by left|done].
Qed.

Lemma dll_prev h l xs : dll h l xs -> h.(prev) !! l = Some (last_or l xs).
Proof. by intros (_ & _ & _ & _ & H). Qed.

Lemma dll_next h l xs : dll h l xs -> h.(next) !! l = Some (hd l xs).
Proof. intros (_ & _ & Hp & Hl). destruct xs as [|x xs]; [apply Hl|apply Hp]. Qed.

(** Reads and writes of the two maps. *)
Ltac heap_simpl :=
  cbn [prev next set_prev set_next] in *;
  repeat first
    [ rewrite lookup_insert_eq in * | rewrite lookup_insert_ne in * by (done || congruence || set_solver) ].

(** A node that is in a list differs from one that is not. *)
Ltac not_in := let E := fresh in intros E; first [rewrite E in *; done | rewrite <- E in *; done | set_solver].

Lemma list_initialize_dll l h : l <> NULL -> dll (list_initialize l h) l [].
Proof.
  intros Hl. split; [apply NoDup_singleton|]. split; [set_solver|]. split; [done|].
  unfold list_initialize. split; heap_simpl; done.
Qed.

(** The nodes an operation on [l] and [item] leaves alone. *)
Definition untouched (h h' : heap) (ns : list ptr) : Prop :=
  forall x, x ∉ ns -> h'.(next) !! x = h.(next) !! x /\ h'.(prev) !! x = h.(prev) !! x.

Lemma dll_untouched h h' ns l xs :
  untouched h h' ns -> (forall x, x ∈ l :: xs -> x ∉ ns) -> dll h l xs -> dll h' l xs.
Proof. intros Hu Hd. apply dll_frame; intros x Hx; by apply Hu, Hd. Qed.

(** ** What the macros do to a list *)

(** The common effect of an insertion between the neighbours [p] and [n]. *)
Lemma add_tail_spec h l xs item :
  dll h l xs -> item ∉ l :: xs -> item <> NULL ->
  exists h', list_add_tail l item h = Some h' /\ dll h' l (xs ++ [item]) /\
    untouched h h' (item :: l :: xs).
Proof.
  intros Hd Hi Hnull. pose proof (dll_prev h l xs Hd) as Hp.
  destruct Hd as (Hnd & Hn0 & Hpath & Hl1 & Hl2). pose proof (last_or_in l xs) as Hin.
  set (z := last_or l xs) in *.
  assert (item <> l /\ item <> z) as [Hil Hiz] by (split; [set_solver|intros ->; done]).
  unfold list_add_tail, store_next, store_prev. rewrite Hp. cbn [mbind option_bind].
  heap_simpl. rewrite Hp. cbn [mbind option_bind]. heap_simpl. rewrite Hl1.
  cbn [mbind option_bind]. heap_simpl. rewrite Hp.
  eexists. split; [done|]. split.
  - split; [|split; [|split]].
    + apply list.NoDup_cons. apply list.NoDup_cons in Hnd as [Hl Hnd]. split; [set_solver|].
      apply list.NoDup_app. split; [done|]. split; [set_solver|apply NoDup_singleton].
    + set_solver.
    + apply path_app. fold z. split; [|split; [|done]].
      * eapply path_frame; [exact Hnd| | |exact Hpath].
        -- intros x Hx Hxz. fold z in Hxz. cbn. by rewrite !lookup_insert_ne by set_solver.
        -- intros x Hx. apply list.NoDup_cons in Hnd as [Hl _]. cbn.
           by rewrite !lookup_insert_ne by set_solver.
      * split; cbn; [by rewrite lookup_insert_eq|].
        by rewrite lookup_insert_ne, lookup_insert_eq by done.
    + rewrite last_or_app. cbn [last_or].
      split; cbn; [by rewrite lookup_insert_ne, lookup_insert_eq by done|by rewrite lookup_insert_eq].
  - intros x Hx. cbn. rewrite !lookup_insert_ne by set_solver. done.
Qed.

Lemma add_head_spec h l xs item :
  dll h l xs -> item ∉ l :: xs -> item <> NULL ->
  exists h', list_add_head l item h = Some h' /\ dll h' l (item :: xs) /\
    untouched h h' (item :: l :: xs).
Proof.
  intros Hd Hi Hnull. pose proof (dll_next h l xs Hd) as Hn.
  pose proof (dll_prev h l xs Hd) as Hp.
  destruct Hd as (Hnd & Hn0 & Hpath & Hl1 & Hl2).
  set (f := hd l xs) in *.
  assert (f ∈ l :: xs) as Hf by (unfold f; destruct xs; set_solver).
  assert (item <> l /\ item <> f) as [Hil Hif] by (split; [set_solver|intros ->; done]).
  assert (is_Some (prev h !! f)) as [q Hq].
  { unfold f. destruct xs as [|x xs]; simpl; [by rewrite Hp; eauto|]. destruct Hpath as [[_ ->] _]. eauto. }
  unfold list_add_head, store_next, store_prev. rewrite Hn. cbn [mbind option_bind].
  heap_simpl. rewrite Hn. cbn [mbind option_bind]. heap_simpl. rewrite Hq.
  cbn [mbind option_bind]. heap_simpl. rewrite Hn.
  eexists. split; [done|]. apply list.NoDup_cons in Hnd as [Hl Hnd]. split.
  - split; [|split; [|split]].
    + apply list.NoDup_cons. split; [set_solver|]. apply list.NoDup_cons. split; [set_solver|done].
    + set_solver.
    + split; [split; cbn; [by rewrite lookup_insert_eq|]|].
      { by rewrite lookup_insert_ne, lookup_insert_eq by done. }
      unfold f in *. destruct xs as [|x xs]; [done|]. cbn [hd] in *. destruct Hpath as [Hx Hpath]. split.
      * split; cbn; [by rewrite lookup_insert_ne, lookup_insert_eq by done|by rewrite lookup_insert_eq].
      * apply list.NoDup_cons in Hnd as Hnd2. destruct Hnd2 as [Hxn _].
        eapply path_frame; [exact Hnd| | |exact Hpath]; intros y Hy; cbn; intros;
          by rewrite !lookup_insert_ne by set_solver.
    + unfold f in *. destruct xs as [|x xs].
      * split; cbn; [by rewrite lookup_insert_ne, lookup_insert_eq by done|by rewrite lookup_insert_eq].
      * cbn [last_or hd] in *. pose proof (last_or_in x xs). apply list.NoDup_cons in Hnd as [Hxn _].
        split; cbn; rewrite !lookup_insert_ne by set_solver; done.
  - intros x Hx. cbn. rewrite !lookup_insert_ne by set_solver. done.
Qed.

(** The successor of the entry [item] in [xs ++ item :: ys]. *)
Lemma dll_item h l xs item ys :
  dll h l (xs ++ item :: ys) ->
  h.(next) !! item = Some (hd l ys) /\ h.(prev) !! item = Some (last_or l xs).
Proof.
  intros (_ & _ & Hpath & Hl). apply path_app in Hpath as [_ [[_ Hp] Hys]].
  rewrite last_or_app in Hl. cbn [last_or] in Hl. split; [|done].
  destruct ys as [|y ys]; [apply Hl|apply Hys].
Qed.

Lemma delete_spec h l xs item ys :
  dll h l (xs ++ item :: ys) ->
  exists h', list_delete item h = Some h' /\ dll h' l (xs ++ ys) /\
    h'.(next) !! item = Some NULL /\ h'.(prev) !! item = Some NULL /\
    untouched h h' (l :: xs ++ item :: ys).
Proof.
  intros Hd. pose proof (dll_item h l xs item ys Hd) as [Hn Hp].
  pose proof (dll_prev _ _ _ Hd) as Hlp.
  destruct Hd as (Hnd & Hn0 & Hpath & Hlast).
  pose proof (last_or_in l xs) as Hin. set (p := last_or l xs) in *. set (n := hd l ys) in *.
  assert (n ∈ l :: ys) as Hnin by (unfold n; destruct ys; set_solver).
  pose proof Hnd as Hnd0.
  apply list.NoDup_cons in Hnd0 as [Hl Hnd0]. apply list.NoDup_app in Hnd0 as (Hxs & Hxy & Hiy).
  apply list.NoDup_cons in Hiy as [Hi Hys].
  assert (p <> item /\ n <> item) as [Hpi Hni]
    by (split; intros E; [rewrite E in Hin; set_solver|rewrite E in Hnin; set_solver]).
  assert (p ∉ ys) as Hpys by (intros Hc; apply elem_of_cons in Hin as [E|E]; [rewrite E in Hc|]; set_solver).
  assert ((l ∉ ys) /\ (l ∉ xs) /\ (item ∉ xs) /\ l <> item) as (Hlys & Hlxs & Hixs & Hli) by set_solver.
  apply path_app in Hpath as [Hpx [Hpl Hpy]]. fold p in Hpl, Hpy.
  rewrite last_or_app in Hlast, Hlp. cbn [last_or] in Hlast, Hlp.
  assert (is_Some (prev h !! n)) as [q Hq].
  { unfold n. destruct ys as [|y ys]; simpl; [by rewrite Hlp; eauto|]. destruct Hpy as [[_ ->] _]. eauto. }
  unfold list_delete, store_prev, store_next. rewrite Hn, Hp. cbn [mbind option_bind].
  rewrite Hq. cbn [mbind option_bind]. heap_simpl. rewrite Hn, Hp. cbn [mbind option_bind].
  destruct Hpl as [Hpl _]. rewrite Hpl. cbn [mbind option_bind].
  eexists. split; [done|]. cbn. rewrite !lookup_insert_eq.
  split; [|split; [done|split; [done|]]].
  - split; [|split; [|split]].
    + apply list.NoDup_cons. split; [set_solver|]. apply list.NoDup_app. split; [done|].
      split; [set_solver|done].
    + set_solver.
    + apply path_app. fold p. split.
      * eapply path_frame; [by apply list.NoDup_cons; split; [set_solver|]| | |exact Hpx].
        -- intros x Hx Hxp. cbn. by rewrite !lookup_insert_ne by set_solver.
        -- intros x Hx. cbn. rewrite !lookup_insert_ne; [done| |set_solver].
           unfold n. destruct ys; set_solver.
      * unfold n in *. destruct ys as [|y ys]; [done|]. cbn [hd] in *. split.
        -- split; cbn; by rewrite lookup_insert_ne, lookup_insert_eq by done.
        -- destruct Hpy as [_ Hpy]. apply list.NoDup_cons in Hys as Hys2. destruct Hys2 as [Hy _].
           eapply path_frame; [exact Hys| | |exact Hpy].
           ++ intros x Hx _. cbn. by rewrite !lookup_insert_ne by not_in.
           ++ intros x Hx. cbn. by rewrite !lookup_insert_ne by not_in.
    + rewrite last_or_app. fold p. unfold n in *. destruct ys as [|y ys].
      * cbn [last_or hd] in *. split; cbn; by rewrite lookup_insert_ne, lookup_insert_eq by done.
      * cbn [last_or hd] in *. pose proof (last_or_in y ys) as Hly.
        eapply linked_frame; [| |exact Hlast]; cbn; by rewrite !lookup_insert_ne by not_in.
  - intros x Hx. apply not_elem_of_cons in Hx as [Hxl Hx]. apply not_elem_of_app in Hx as [Hxx Hx].
    apply not_elem_of_cons in Hx as [Hxi Hxy'].
    assert (x <> p) by (intros E; rewrite E in *; apply elem_of_cons in Hin as [?|?]; done).
    assert (x <> n) by (intros E; rewrite E in *; apply elem_of_cons in Hnin as [?|?]; done).
    cbn. by rewrite !lookup_insert_ne by done.
Qed.
(** ** The loop *)

Section Loop.
Context {St R : Type} (heap_of : St -> heap) (body : ptr -> St -> option (option R * St)).

Lemma for_every_end fuel l t t' s :
  for_every_safe heap_of body fuel l l t s = for_every_safe heap_of body fuel l l t' s.
Proof. destruct fuel; simpl; [done|]. by rewrite bool_decide_eq_true_2. Qed.

(** The entries whose body changes nothing and does not leave are skipped. *)
Lemma for_every_skip l seen skip rest fuel s :
  dll (heap_of s) l (seen ++ skip ++ rest) ->
  (forall x, x ∈ skip -> body x s = Some (None, s)) ->
  for_every_safe heap_of body (length skip + fuel) l (hd l (skip ++ rest)) (hd l (tl (skip ++ rest))) s
  = for_every_safe heap_of body fuel l (hd l rest) (hd l (tl rest)) s.
Proof.
  revert seen. induction skip as [|x skip IH]; intros seen Hd Hb; [done|].
  cbn [app length Nat.add for_every_safe hd tl].
  assert (x <> l) as Hx.
  { destruct Hd as (Hnd & _). apply list.NoDup_cons in Hnd as [Hl _]. intros ->. apply Hl. set_solver. }
  rewrite bool_decide_eq_false_2 by done. rewrite Hb by (by left). cbn [mbind option_bind].
  change (seen ++ (x :: skip) ++ rest) with (seen ++ [x] ++ skip ++ rest) in Hd.
  rewrite app_assoc in Hd.
  specialize (IH (seen ++ [x])). rewrite <- IH; [|done|intros y Hy; apply Hb; by right].
  destruct (skip ++ rest) as [|y zs] eqn:E.
  - cbn [hd tl]. destruct skip, rest; try done. cbn [length Nat.add].
    rewrite (dll_next _ _ _ Hd). cbn [mbind option_bind]. apply for_every_end.
  - cbn [hd tl]. destruct (dll_item _ _ _ _ _ Hd) as [-> _]. done.
Qed.

(** The loop up to the first entry that leaves. *)
Lemma for_every_first l skip x rest fuel s r s' :
  dll (heap_of s) l (skip ++ x :: rest) ->
  (forall y, y ∈ skip -> body y s = Some (None, s)) -> body x s = Some (Some r, s') ->
  (length skip < fuel)%nat ->
  list_for_every_safe heap_of body fuel l s = Some (Some r, s').
Proof.
  intros Hd Hs Hx Hf. unfold list_for_every_safe. rewrite (dll_next _ _ _ Hd).
  cbn [mbind option_bind].
  assert (next (heap_of s) !! hd l (skip ++ x :: rest) = Some (hd l (tl (skip ++ x :: rest)))) as ->.
  { destruct (skip ++ x :: rest) as [|y zs] eqn:E; [by destruct skip|].
    destruct (dll_item (heap_of s) l [] y zs Hd) as [Hn _]. by cbn [hd tl]. }
  cbn [mbind option_bind]. replace fuel with (length skip + S (fuel - length skip - 1))%nat by lia.
  rewrite (for_every_skip l []); [|done|done]. cbn [hd tl for_every_safe].
  rewrite bool_decide_eq_false_2, Hx; [done|].
  destruct Hd as (Hnd & _). apply list.NoDup_cons in Hnd as [Hl _]. intros ->. apply Hl. set_solver.
Qed.

Lemma for_every_none l xs fuel s :
  dll (heap_of s) l xs -> (forall y, y ∈ xs -> body y s = Some (None, s)) -> (length xs < fuel)%nat ->
  list_for_every_safe heap_of body fuel l s = Some (None, s).
Proof.
  intros Hd Hs Hf. unfold list_for_every_safe. rewrite (dll_next _ _ _ Hd). cbn [mbind option_bind].
  destruct xs as [|x xs].
  - cbn [hd]. rewrite (dll_next _ _ _ Hd). cbn [mbind option_bind hd]. destruct fuel; [simpl in Hf; lia|].
    cbn. by rewrite bool_decide_eq_true_2.
  - destruct (dll_item _ _ [] _ _ Hd) as [Hn _]. cbn [hd]. rewrite Hn. cbn [mbind option_bind].
    replace fuel with (length (x :: xs) + S (fuel - length (x :: xs) - 1))%nat by lia.
    pose proof (for_every_skip l [] (x :: xs) [] (S (fuel - length (x :: xs) - 1)) s) as Hk.
    rewrite app_nil_r in Hk. cbn [hd tl] in Hk. rewrite Hk; [|done|done].
    cbn. by rewrite bool_decide_eq_true_2.
Qed.

End Loop.
End DList.
