(* ===== verification/BtList.v ===== *)
(** * Lists of pointers (framework/common/bt_list.c)

    [bt_list_t] keeps an intrusive list of nodes, each with a data pointer,
    and its length.  The store holds the list nodes ([DList]), the data of
    each allocated node and the [bt_list_t]s; freed nodes leave it.  The data
    handed to a list's free callback is recorded.

    Specification: a finite map from list pointers to functional lists; every
    operation of the code is the operation on that map, for all lists of the
    store at once ([bt_list_refines] and the lemmas before it). *)

From S2P Require Import Prelude DList.

Module BtList.
Import DList.

Record bt_list_t := mk_bt_list { length_ : Z; free_cb : bool }.

Record store := mk_store {
  hp : heap;
  node_data : gmap ptr N;
  lists : gmap ptr bt_list_t;
  freed : list N;
}.

Definition set_hp h s := mk_store h s.(node_data) s.(lists) s.(freed).
Definition set_list l b s := mk_store s.(hp) s.(node_data) (<[l := b]> s.(lists)) s.(freed).
Definition set_data p d s := mk_store s.(hp) (<[p := d]> s.(node_data)) s.(lists) s.(freed).
Definition log_free (b : bool) (d : N) s :=
  mk_store s.(hp) s.(node_data) s.(lists) (if b then s.(freed) ++ [d] else s.(freed)).

(** [free(node)]: the memory is no longer there. *)
Definition free_node (p : ptr) (s : store) : store :=
  mk_store (mk_heap (delete p s.(hp).(prev)) (delete p s.(hp).(next)))
    (delete p s.(node_data)) s.(lists) s.(freed).
Definition free_list (l : ptr) (s : store) : store :=
  mk_store (mk_heap (delete l s.(hp).(prev)) (delete l s.(hp).(next)))
    s.(node_data) (delete l s.(lists)) s.(freed).

Definition size_t (z : Z) : Z := uint 64 z.

(** ** The operations; [p] is the block [malloc] returns *)

Definition bt_list_new (p : ptr) (cb : bool) (s : store) : store :=
  let s := set_list p (mk_bt_list 0 cb) s in
  set_hp (list_initialize p s.(hp)) s.

(** [list->length++], [list->length--] *)
Definition add_length (l : ptr) (k : Z) (s : store) : option store :=
  b ← s.(lists) !! l; Some (set_list l (mk_bt_list (size_t (b.(length_) + k)) b.(free_cb)) s).

Definition bt_list_add_head (p l : ptr) (d : N) (s : store) : option store :=
  let s := set_data p d s in
  h ← list_add_head l p s.(hp);
  add_length l 1 (set_hp h s).

Definition bt_list_add_tail (p l : ptr) (d : N) (s : store) : option store :=
  let s := set_data p d s in
  h ← list_add_tail l p s.(hp);
  add_length l 1 (set_hp h s).

(** Unlinking a node, handing its data to the callback, freeing it. *)
Definition drop_node (l node : ptr) (s : store) : option store :=
  h ← list_delete node s.(hp);
  let s := set_hp h s in
  b ← s.(lists) !! l;
  d ← s.(node_data) !! node;
  Some (free_node node (log_free b.(free_cb) d s)).

(** Here the length is decremented before the callback runs. *)
Definition bt_list_remove_node (l node : ptr) (s : store) : option store :=
  h ← list_delete node s.(hp);
  s ← add_length l (-1) (set_hp h s);
  b ← s.(lists) !! l;
  d ← s.(node_data) !! node;
  Some (free_node node (log_free b.(free_cb) d s)).

(** One round more than the list has entries. *)
Definition fuel_of (l : ptr) (s : store) : nat :=
  match s.(lists) !! l with Some b => S (Z.to_nat b.(length_)) | None => 0 end.

Definition bt_list_clear (l : ptr) (s : store) : option store :=
  r ← list_for_every_safe (R := unit) hp
        (fun node s => s ← drop_node l node s; s ← add_length l (-1) s; Some (None, s))
        (fuel_of l s) l s;
  Some r.2.

Definition bt_list_free (l : ptr) (s : store) : option store :=
  s ← bt_list_clear l s;
  h ← list_delete l s.(hp);
  Some (free_list l (set_hp h s)).

Definition bt_list_length (l : ptr) (s : store) : option Z :=
  b ← s.(lists) !! l; Some b.(length_).

Definition bt_list_is_empty (l : ptr) (s : store) : option bool :=
  b ← s.(lists) !! l; Some (b.(length_) =? 0)%Z.

Definition bt_list_head (l : ptr) (s : store) : option ptr := list_peek_head l s.(hp).
Definition bt_list_tail (l : ptr) (s : store) : option ptr := list_peek_tail l s.(hp).
Definition bt_list_next (l node : ptr) (s : store) : option ptr :=
  if bool_decide (node = NULL) then Some NULL else list_next l node s.(hp).
Definition bt_list_node (node : ptr) (s : store) : option N := s.(node_data) !! node.

Definition bt_list_remove (l : ptr) (d : N) (s : store) : option store :=
  r ← list_for_every_safe hp
        (fun node s =>
           x ← s.(node_data) !! node;
           if bool_decide (x = d)
           then s ← drop_node l node s; s ← add_length l (-1) s; Some (Some tt, s)
           else Some (None, s))
        (fuel_of l s) l s;
  Some r.2.

Definition bt_list_move (src dst : ptr) (d : N) (move_to_head : bool) (s : store) : option store :=
  r ← list_for_every_safe hp
        (fun node s =>
           x ← s.(node_data) !! node;
           if bool_decide (x <> d) then Some (None, s)
           else
             h ← list_delete node s.(hp);
             s ← add_length src (-1) (set_hp h s);
             h ← (if move_to_head then list_add_head dst node s.(hp) else list_add_tail dst node s.(hp));
             s ← add_length dst 1 (set_hp h s);
             Some (Some tt, s))
        (fuel_of src s) src s;
  Some r.2.

(** The callback works on [A] and does not touch the list. *)
Definition bt_list_foreach {A} (l : ptr) (cb : N -> A -> A) (a : A) (s : store) : option A :=
  r ← list_for_every_safe (R := unit) (fun st => hp st.1)
        (fun node st => d ← st.1.(node_data) !! node; Some (None, (st.1, cb d st.2)))
        (fuel_of l s) l (s, a);
  Some r.2.2.

Definition bt_list_find (l : ptr) (cb : N -> bool) (s : store) : option (option N) :=
  r ← list_for_every_safe hp
        (fun node s => d ← s.(node_data) !! node; Some (if cb d then Some d else None, s))
        (fuel_of l s) l s;
  Some r.1.

(** ** Specification: a map of functional lists *)

Abbreviation spec := (gmap ptr (list N * bool)).

Abbreviation nodes := (gmap ptr (list ptr)).

(** The list at [l]: its nodes, their data, its length field. *)
Definition rep (s : store) (l : ptr) (ns : list ptr) (ds : list N) (cb : bool) : Prop :=
  dll s.(hp) l ns /\ Forall2 (fun n d => s.(node_data) !! n = Some d) ns ds /\
  s.(lists) !! l = Some (mk_bt_list (Z.of_nat (length ds)) cb) /\ (Z.of_nat (length ds) < 2 ^ 63)%Z.

(** The store holds the lists of [A], on the nodes [Nm], without sharing. *)
Definition refines_on (s : store) (A : spec) (Nm : nodes) : Prop :=
  (forall l ds cb, A !! l = Some (ds, cb) -> exists ns, Nm !! l = Some ns /\ rep s l ns ds cb) /\
  (forall l ns, Nm !! l = Some ns -> is_Some (A !! l)) /\
  (forall l1 l2 ns1 ns2, Nm !! l1 = Some ns1 -> Nm !! l2 = Some ns2 -> l1 <> l2 ->
     forall x, x ∈ l1 :: ns1 -> x ∉ l2 :: ns2).

Definition refines (s : store) (A : spec) : Prop := exists Nm, refines_on s A Nm.

(** A pointer that belongs to no list. *)
Definition unowned (Nm : nodes) (p : ptr) : Prop :=
  p <> NULL /\ forall l ns, Nm !! l = Some ns -> p ∉ l :: ns.

(** A block just allocated: nothing is known at its address. *)
Definition fresh (s : store) (p : ptr) : Prop :=
  p <> NULL /\ s.(hp).(prev) !! p = None /\ s.(hp).(next) !! p = None.

(** ** Frames *)

Definition same_off (s s' : store) (X : list ptr) : Prop :=
  forall x, x ∉ X -> s'.(hp).(next) !! x = s.(hp).(next) !! x /\
    s'.(hp).(prev) !! x = s.(hp).(prev) !! x /\ s'.(node_data) !! x = s.(node_data) !! x /\
    s'.(lists) !! x = s.(lists) !! x.

Lemma rep_frame s s' X l ns ds cb :
  same_off s s' X -> (forall x, x ∈ l :: ns -> x ∉ X) -> rep s l ns ds cb -> rep s' l ns ds cb.
Proof.
  intros Hs Hd (H1 & H2 & H3 & H4). split; [|split; [|split; [|done]]].
  - eapply dll_frame; [| |exact H1]; intros x Hx; by destruct (Hs x (Hd x Hx)) as (? & ? & _).
  - clear -Hs Hd H2. induction H2 as [|n d ns ds Hnd H2 IH]; constructor.
    + destruct (Hs n) as (_ & _ & -> & _); [apply Hd; set_solver|done].
    + apply IH. intros x Hx. apply Hd. set_solver.
  - destruct (Hs l) as (_ & _ & _ & ->); [apply Hd; by left|done].
Qed.

(** An operation on one list (its nodes and nodes of no list). *)
Lemma refines_update s s' A Nm l ns ns' new ds' cb' :
  refines_on s A Nm -> Nm !! l = Some ns -> Forall (unowned Nm) new ->
  same_off s s' (l :: ns ++ new) -> rep s' l ns' ds' cb' -> (forall x, x ∈ ns' -> x ∈ ns ++ new) ->
  refines_on s' (<[l := (ds', cb')]> A) (<[l := ns']> Nm).
Proof.
  intros (R1 & R2 & R3) Hl Hnew Hs Hrep Hsub. rewrite list.Forall_forall in Hnew.
  assert (forall l2 ns2, Nm !! l2 = Some ns2 -> l <> l2 -> forall x, x ∈ l2 :: ns2 -> x ∉ l :: ns ++ new) as Hdis.
  { intros l2 ns2 H2 Hne x Hx. pose proof (R3 l2 l ns2 ns H2 Hl (not_eq_sym Hne) x Hx) as Hx2.
    assert (x ∉ new) by (intros Hc; by apply (proj2 (Hnew x Hc) l2 ns2 H2)). set_solver. }
  split; [|split].
  - intros l2 ds2 cb2 H2. destruct (decide (l = l2)) as [->|Hne].
    + rewrite lookup_insert_eq in H2. simplify_eq. exists ns'. by rewrite lookup_insert_eq.
    + rewrite lookup_insert_ne in H2 by done. rewrite lookup_insert_ne by done.
      destruct (R1 l2 ds2 cb2 H2) as (ns2 & Hn2 & Hr2). exists ns2. split; [done|].
      eapply rep_frame; [exact Hs| |exact Hr2]. by eapply Hdis.
  - intros l2 ns2 H2. destruct (decide (l = l2)) as [->|Hne]; [rewrite lookup_insert_eq; eauto|].
    rewrite lookup_insert_ne in H2 by done. rewrite lookup_insert_ne by done. eauto.
  - intros l1 l2 ns1 ns2 H1 H2 Hne x Hx.
    destruct (decide (l = l1)) as [E1|Hn1]; destruct (decide (l = l2)) as [E2|Hn2];
      try (subst; done).
    + subst l1. rewrite lookup_insert_eq in H1. rewrite lookup_insert_ne in H2 by done. simplify_eq.
      intros Hc. apply (Hdis l2 ns2 H2 Hne x Hc). set_solver.
    + subst l2. rewrite lookup_insert_eq in H2. rewrite lookup_insert_ne in H1 by done. simplify_eq.
      intros Hc. apply (Hdis l1 ns1 H1 (not_eq_sym Hne) x Hx). set_solver.
    + rewrite lookup_insert_ne in H1, H2 by done. exact (R3 l1 l2 ns1 ns2 H1 H2 Hne x Hx).
Qed.

Lemma fresh_unowned s A Nm p : refines_on s A Nm -> fresh s p -> unowned Nm p.
Proof.
  intros (R1 & R2 & _) (Hp & Hpr & Hnx). split; [done|]. intros l ns Hl Hin.
  destruct (R2 l ns Hl) as [[ds cb] HA]. destruct (R1 l ds cb HA) as (ns2 & Hn2 & (Hd & _)).
  simplify_eq. apply elem_of_cons in Hin as [->|Hin].
  - pose proof (dll_prev _ _ _ Hd). congruence.
  - apply list_elem_of_split in Hin as (xs & ys & ->).
    destruct (dll_item _ _ _ _ _ Hd) as [Hi _]. congruence.
Qed.

Lemma size_small k : (0 <= k < 2 ^ 64)%Z -> size_t k = k.
Proof. intros. by apply uint_small. Qed.

(** ** Insertion *)

Lemma rep_in s l ns ds cb p : rep s l ns ds cb -> p ∉ l :: ns -> forall n, n ∈ ns -> n <> p.
Proof. intros _ Hp n Hn ->. apply Hp. by right. Qed.

Lemma data_insert s ns ds p d :
  p ∉ ns -> Forall2 (fun n d => s.(node_data) !! n = Some d) ns ds ->
  Forall2 (fun n d0 => <[p := d]> s.(node_data) !! n = Some d0) ns ds.
Proof.
  intros Hp H. induction H as [|n d0 ns ds Hn H IH]; constructor.
  - rewrite lookup_insert_ne; [done|]. intros ->. apply Hp. by left.
  - apply IH. intros Hc. apply Hp. by right.
Qed.

Lemma data_delete s ns ds p :
  p ∉ ns -> Forall2 (fun n d => s.(node_data) !! n = Some d) ns ds ->
  Forall2 (fun n d => delete p s.(node_data) !! n = Some d) ns ds.
Proof.
  intros Hp H. induction H as [|n d0 ns ds Hn H IH]; constructor.
  - rewrite lookup_delete_ne; [done|]. intros ->. apply Hp. by left.
  - apply IH. intros Hc. apply Hp. by right.
Qed.

(** What both insertions share, once the node is linked. *)
Lemma insert_refines s A Nm l ns ds cb p d h' ns' ds' :
  refines_on s A Nm -> Nm !! l = Some ns -> rep s l ns ds cb -> unowned Nm p ->
  dll h' l ns' -> untouched s.(hp) h' (p :: l :: ns) -> (forall x, x ∈ ns' -> x ∈ ns ++ [p]) ->
  Forall2 (fun n d0 => <[p := d]> s.(node_data) !! n = Some d0) ns' ds' ->
  length ds' = S (length ds) -> (Z.of_nat (length ds') < 2 ^ 63)%Z ->
  exists s', add_length l 1 (set_hp h' (set_data p d s)) = Some s' /\
    refines_on s' (<[l := (ds', cb)]> A) (<[l := ns']> Nm) /\ s'.(freed) = s.(freed).
Proof.
  intros HR HN Hrep Hp Hd Hu Hsub Hdata Hlen Hb. destruct Hrep as (Hd0 & Hd1 & Hl & Hb0).
  unfold add_length. cbn [lists set_hp set_data]. rewrite Hl. cbn [mbind option_bind].
  eexists. split; [done|]. split; [|done].
  eapply (refines_update s _ A Nm l ns ns' [p]); try done.
  - by apply Forall_singleton.
  - intros x Hx. cbn. destruct (Hu x) as [-> ->]; [set_solver|].
    rewrite !lookup_insert_ne by set_solver. done.
  - split; [done|]. split; [done|]. cbn. rewrite lookup_insert_eq. split; [|done].
    do 2 f_equal. rewrite size_small by lia. lia.
Qed.

Lemma add_tail_refines s A l ds cb p d :
  refines s A -> fresh s p -> A !! l = Some (ds, cb) -> (Z.of_nat (length ds) + 1 < 2 ^ 63)%Z ->
  exists s', bt_list_add_tail p l d s = Some s' /\ refines s' (<[l := (ds ++ [d], cb)]> A) /\
    s'.(freed) = s.(freed).
Proof.
  intros [Nm HR] Hf HA Hb. pose proof (fresh_unowned s A Nm p HR Hf) as Hp.
  destruct (proj1 HR l ds cb HA) as (ns & HN & Hrep). pose proof Hrep as (Hd & Hdat & _ & _).
  destruct (add_tail_spec (hp s) l ns p Hd (proj2 Hp l ns HN) (proj1 Hp)) as (h' & Hadd & Hd' & Hu).
  unfold bt_list_add_tail. cbn [hp set_data]. rewrite Hadd. cbn [mbind option_bind].
  destruct (insert_refines s A Nm l ns ds cb p d h' (ns ++ [p]) (ds ++ [d])) as (s' & -> & HR' & Hfr); try done.
  - apply Forall2_app; [apply data_insert; [|done]|constructor; [|done]].
    + intros Hc. apply (proj2 Hp l ns HN). by right.
    + by rewrite lookup_insert_eq.
  - rewrite length_app. simpl. lia.
  - rewrite length_app. simpl. lia.
  - exists s'. split; [done|]. split; [by eexists|done].
Qed.

Lemma add_head_refines s A l ds cb p d :
  refines s A -> fresh s p -> A !! l = Some (ds, cb) -> (Z.of_nat (length ds) + 1 < 2 ^ 63)%Z ->
  exists s', bt_list_add_head p l d s = Some s' /\ refines s' (<[l := (d :: ds, cb)]> A) /\
    s'.(freed) = s.(freed).
Proof.
  intros [Nm HR] Hf HA Hb. pose proof (fresh_unowned s A Nm p HR Hf) as Hp.
  destruct (proj1 HR l ds cb HA) as (ns & HN & Hrep). pose proof Hrep as (Hd & Hdat & _ & _).
  destruct (add_head_spec (hp s) l ns p Hd (proj2 Hp l ns HN) (proj1 Hp)) as (h' & Hadd & Hd' & Hu).
  unfold bt_list_add_head. cbn [hp set_data]. rewrite Hadd. cbn [mbind option_bind].
  destruct (insert_refines s A Nm l ns ds cb p d h' (p :: ns) (d :: ds)) as (s' & -> & HR' & Hfr); try done.
  - set_solver.
  - constructor; [by rewrite lookup_insert_eq|apply data_insert; [|done]].
    intros Hc. apply (proj2 Hp l ns HN). by right.
  - simpl. lia.
  - exists s'. split; [done|]. split; [by eexists|done].
Qed.

(** ** Removal of one node *)

(** [drop_node] followed by the decrement of the length. *)
Definition remove_one (l node : ptr) (s : store) : option store :=
  s ← drop_node l node s; add_length l (-1) s.

Lemma remove_one_rep s l xs n ys dx d dy cb :
  rep s l (xs ++ n :: ys) (dx ++ d :: dy) cb -> length xs = length dx ->
  exists s', remove_one l n s = Some s' /\ rep s' l (xs ++ ys) (dx ++ dy) cb /\
    same_off s s' (l :: xs ++ n :: ys) /\
    s'.(freed) = s.(freed) ++ (if cb then [d] else []).
Proof.
  intros (Hd & Hdat & Hl & Hb) Hlen.
  destruct (delete_spec _ _ _ _ _ Hd) as (h' & Hdel & Hd' & _ & _ & Hu).
  apply Forall2_app_inv in Hdat as [Hx Hny]; [|done]. apply list.Forall2_cons in Hny as [Hn Hy].
  assert (n ∉ l :: xs ++ ys) as Hnn.
  { destruct Hd as (Hnd & _). apply list.NoDup_cons in Hnd as [Hl0 Hnd].
    apply list.NoDup_app in Hnd as (_ & H1 & H2). apply list.NoDup_cons in H2 as [H2 _].
    rewrite elem_of_cons, elem_of_app. intros [->|[Hc|Hc]]; set_solver. }
  unfold remove_one, drop_node, add_length. rewrite Hdel. cbn [mbind option_bind set_hp lists node_data].
  rewrite Hl. cbn [mbind option_bind]. rewrite Hn. cbn [mbind option_bind free_node log_free lists set_hp].
  rewrite Hl. cbn [mbind option_bind free_cb].
  eexists. split; [done|]. split; [|split].
  - split; [|split; [|split]]; cbn.
    + eapply dll_frame; [| |exact Hd']; intros x Hxx; cbn; rewrite lookup_delete_ne; try done;
        intros ->; done.
    + apply Forall2_app.
      * apply data_delete; [set_solver|done].
      * apply data_delete; [set_solver|done].
    + rewrite lookup_insert_eq. do 2 f_equal. rewrite !length_app in *. simpl in *.
      rewrite size_small by lia. lia.
    + rewrite !length_app in *. simpl in *. lia.
  - intros x Hxx. destruct (Hu x Hxx) as [Hu1 Hu2]. cbn.
    rewrite !lookup_delete_ne, lookup_insert_ne by set_solver. done.
  - cbn. destruct cb; [done|]. by rewrite app_nil_r.
Qed.

Lemma remove_node_one l n s : bt_list_remove_node l n s = remove_one l n s.
Proof.
  unfold bt_list_remove_node, remove_one, drop_node, add_length.
  destruct (list_delete n (hp s)) as [h|]; [|done]. cbn.
  destruct (lists s !! l) as [b|] eqn:Hl; [|done]. cbn. rewrite lookup_insert_eq. cbn.
  destruct (node_data s !! n) as [d|]; [|done]. cbn. by rewrite Hl.
Qed.

(** ** Walking from the head *)

(** [node = bt_list_next(list, node)], [k] times; then from the head. *)
Fixpoint next_k (k : nat) (l node : ptr) (s : store) : option ptr :=
  match k with
  | O => Some node
  | S k => n ← bt_list_next l node s; next_k k l n s
  end.

Definition node_at (l : ptr) (k : nat) (s : store) : option ptr := n ← bt_list_head l s; next_k k l n s.

Lemma dll_not_head h l xs ys : dll h l (xs ++ ys) -> (if bool_decide (hd l ys = l) then NULL else hd l ys) = hd NULL ys.
Proof.
  intros (Hnd & _). apply list.NoDup_cons in Hnd as [Hl _].
  destruct ys as [|y ys]; simpl; [by rewrite bool_decide_eq_true_2|].
  rewrite bool_decide_eq_false_2; [done|]. set_solver.
Qed.

Lemma next_k_dll k l xs ys s :
  dll (hp s) l (xs ++ ys) -> next_k k l (hd NULL ys) s = Some (default NULL (ys !! k)).
Proof.
  revert xs ys. induction k as [|k IH]; intros xs ys Hd; simpl; [by destruct ys|].
  unfold bt_list_next. destruct ys as [|y ys]; simpl.
  { by apply (IH xs []). }
  rewrite bool_decide_eq_false_2 by (destruct Hd as (_ & Hn0 & _); set_solver).
  unfold list_next. destruct (dll_item _ _ _ _ _ Hd) as [-> _]. cbn [mbind option_bind].
  change (xs ++ y :: ys) with (xs ++ [y] ++ ys) in Hd. rewrite app_assoc in Hd.
  rewrite (dll_not_head _ _ _ _ Hd). by apply (IH (xs ++ [y])).
Qed.

Lemma node_at_dll l ns k s : dll (hp s) l ns -> node_at l k s = Some (default NULL (ns !! k)).
Proof.
  intros Hd. unfold node_at, bt_list_head, list_peek_head. rewrite (dll_next _ _ _ Hd). cbn [mbind option_bind].
  rewrite (dll_not_head _ _ [] _ Hd). by apply (next_k_dll k l []).
Qed.

Lemma data_at s ns ds k :
  Forall2 (fun n d => s.(node_data) !! n = Some d) ns ds -> NULL ∉ ns ->
  match ds !! k with
  | Some d => default NULL (ns !! k) <> NULL /\ s.(node_data) !! default NULL (ns !! k) = Some d
  | None => default NULL (ns !! k) = NULL
  end.
Proof.
  intros H Hn0. revert k. induction H as [|n d ns ds Hn H IH]; intros [|k]; simpl; try done.
  - split; [set_solver|done].
  - apply IH. set_solver.
Qed.

(** The last node of a list holds its last datum. *)
Lemma tail_data s l ns ds :
  dll (hp s) l ns -> Forall2 (fun n d => s.(node_data) !! n = Some d) ns ds ->
  exists n, bt_list_tail l s = Some n /\
    match list.last ds with Some d => n <> NULL /\ s.(node_data) !! n = Some d | None => n = NULL end.
Proof.
  intros Hd H. unfold bt_list_tail, list_peek_tail. rewrite (dll_prev _ _ _ Hd). cbn [mbind option_bind].
  eexists. split; [done|]. destruct ns as [|n ns _] using rev_ind.
  - apply Forall2_nil_inv_l in H as ->. cbn. by rewrite bool_decide_eq_true_2.
  - apply Forall2_app_inv_l in H as (ds1 & ds2 & _ & H2 & ->).
    apply Forall2_cons_inv_l in H2 as (d & ds3 & Hn & H3 & ->). apply Forall2_nil_inv_l in H3 as ->.
    rewrite last_or_app, last_snoc. cbn. destruct Hd as (Hnd & Hn0 & _).
    apply list.NoDup_cons in Hnd as [Hl _]. rewrite bool_decide_eq_false_2 by set_solver.
    split; [set_solver|done].
Qed.

(** ** Splitting at the first occurrence of a datum *)

Fixpoint remove_first (d : N) (ds : list N) : list N :=
  match ds with
  | [] => []
  | x :: ds => if bool_decide (x = d) then ds else x :: remove_first d ds
  end.

Lemma remove_first_app d dx dy : d ∉ dx -> remove_first d (dx ++ d :: dy) = dx ++ dy.
Proof.
  intros Hd. induction dx as [|x dx IH]; simpl; [by rewrite bool_decide_eq_true_2|].
  rewrite bool_decide_eq_false_2 by set_solver. by rewrite IH by set_solver.
Qed.

Lemma remove_first_out d ds : d ∉ ds -> remove_first d ds = ds.
Proof.
  intros Hd. induction ds as [|x ds IH]; simpl; [done|].
  rewrite bool_decide_eq_false_2 by set_solver. by rewrite IH by set_solver.
Qed.

Lemma split_first s ns ds d :
  d ∈ ds -> Forall2 (fun n d => s.(node_data) !! n = Some d) ns ds ->
  exists xs n ys dx dy, ns = xs ++ n :: ys /\ ds = dx ++ d :: dy /\ length xs = length dx /\
    (d ∉ dx) /\ s.(node_data) !! n = Some d /\
    (forall y, y ∈ xs -> exists x, s.(node_data) !! y = Some x /\ x <> d).
Proof.
  intros Hd H. induction H as [|n x ns ds Hn H IH]; [by apply elem_of_nil in Hd|].
  destruct (decide (x = d)) as [->|Hne].
  - exists [], n, ns, [], ds. split_and!; try done; set_solver.
  - apply elem_of_cons in Hd as [->|Hd]; [done|].
    destruct (IH Hd) as (xs & m & ys & dx & dy & -> & -> & Hl & Hdx & Hm & Hall).
    exists (n :: xs), m, ys, (x :: dx), dy. split_and!; try done; [simpl; lia|set_solver|].
    intros y Hy. apply elem_of_cons in Hy as [->|Hy]; eauto.
Qed.

Lemma data_of s ns ds y :
  Forall2 (fun n d => s.(node_data) !! n = Some d) ns ds -> y ∈ ns ->
  exists x, s.(node_data) !! y = Some x /\ x ∈ ds.
Proof.
  intros H Hy. induction H as [|n x ns ds Hn H IH]; [by apply elem_of_nil in Hy|].
  apply elem_of_cons in Hy as [->|Hy]; [exists x; set_solver|].
  destruct (IH Hy) as (z & ? & ?). exists z. set_solver.
Qed.

Lemma rep_fuel s l ns ds cb : rep s l ns ds cb -> fuel_of l s = S (length ns).
Proof.
  intros (_ & Hdat & Hl & _). unfold fuel_of. rewrite Hl. cbn. rewrite Nat2Z.id.
  by rewrite (Forall2_length Hdat).
Qed.

(** ** Removing, moving, clearing *)

Lemma remove_refines s A l ds cb d :
  refines s A -> A !! l = Some (ds, cb) ->
  exists s', bt_list_remove l d s = Some s' /\ refines s' (<[l := (remove_first d ds, cb)]> A) /\
    s'.(freed) = s.(freed) ++ (if cb && bool_decide (d ∈ ds) then [d] else []).
Proof.
  intros [Nm HR] HA. destruct (proj1 HR l ds cb HA) as (ns & HN & Hrep).
  pose proof (rep_fuel _ _ _ _ _ Hrep) as Hfuel. pose proof Hrep as (Hd & Hdat & _).
  unfold bt_list_remove. destruct (decide (d ∈ ds)) as [Hin|Hout].
  - destruct (split_first s ns ds d Hin Hdat) as (xs & n & ys & dx & dy & -> & -> & Hl & Hdx & Hn & Hall).
    destruct (remove_one_rep s l xs n ys dx d dy cb Hrep Hl) as (s' & Hs & Hrep' & Hoff & Hfr).
    erewrite for_every_first; [|exact Hd| | |rewrite Hfuel, length_app; simpl; lia].
    + cbn [mbind option_bind]. eexists. split; [done|]. cbn [snd].
      rewrite remove_first_app by done. split.
      * eexists. eapply (refines_update s s' A Nm l _ (xs ++ ys) []); try done; rewrite ?app_nil_r; [done|set_solver].
      * rewrite Hfr, (bool_decide_eq_true_2 (d ∈ dx ++ d :: dy)) by set_solver. by rewrite andb_true_r.
    + intros y Hy. destruct (Hall y Hy) as (x & -> & Hx). cbn [mbind option_bind].
      by rewrite bool_decide_eq_false_2.
    + cbn beta. rewrite Hn. cbn [mbind option_bind]. rewrite bool_decide_eq_true_2 by done.
      unfold remove_one in Hs. destruct (drop_node l n s) as [s1|]; [|done]. cbn [mbind option_bind] in *.
      rewrite Hs. done.
  - erewrite for_every_none; [|exact Hd| |rewrite Hfuel; lia].
    + cbn [mbind option_bind]. eexists. split; [done|]. cbn [snd]. rewrite remove_first_out by done.
      rewrite insert_id by done. split; [by eexists|].
      rewrite bool_decide_eq_false_2, andb_false_r by done. by rewrite app_nil_r.
    + intros y Hy. destruct (data_of s ns ds y Hdat Hy) as (x & -> & Hx). cbn [mbind option_bind].
      rewrite bool_decide_eq_false_2; [done|]. intros ->. done.
Qed.

(** Removing the node [k] steps after the head, if there is one. *)
Definition remove_node_at (l : ptr) (k : nat) (s : store) : option store :=
  node ← node_at l k s;
  if bool_decide (node = NULL) then Some s else bt_list_remove_node l node s.

Lemma remove_node_refines s A l ds (cb : bool) k :
  refines s A -> A !! l = Some (ds, cb) ->
  exists s', remove_node_at l k s = Some s' /\ refines s' (<[l := (delete k ds, cb)]> A) /\
    s'.(freed) = s.(freed) ++ (if cb then option_list (ds !! k) else []).
Proof.
  intros [Nm HR] HA. destruct (proj1 HR l ds cb HA) as (ns & HN & Hrep). pose proof Hrep as (Hd & Hdat & _).
  assert (NULL ∉ ns) as Hn0 by (destruct Hd as (_ & Hn0 & _); set_solver).
  unfold remove_node_at. rewrite (node_at_dll _ _ _ _ Hd). cbn [mbind option_bind].
  pose proof (data_at s ns ds k Hdat Hn0) as Hk. destruct (ds !! k) as [d|] eqn:Ek.
  - destruct Hk as [Hne Hnd]. rewrite bool_decide_eq_false_2 by done.
    destruct (ns !! k) as [n|] eqn:En; [|done]. cbn [default] in *.
    pose proof (lookup_lt_Some _ _ _ Ek). pose proof (lookup_lt_Some _ _ _ En).
    assert (Forall2 (fun n d => s.(node_data) !! n = Some d) ns ds) as Hdat2 by done.
    rewrite <- (take_drop_middle ns k n En), <- (take_drop_middle ds k d Ek) in Hrep.
    destruct (remove_one_rep s l _ n _ _ d _ cb Hrep) as (s' & Hs & Hrep' & Hoff & Hfr).
    { rewrite !length_take. lia. }
    rewrite remove_node_one. exists s'. split; [done|]. rewrite (take_drop_middle ns k n En) in Hoff.
    split; [|by rewrite Hfr]. rewrite <- !delete_take_drop in Hrep'.
    eexists. eapply (refines_update s s' A Nm l _ _ []); try done; rewrite ?app_nil_r; [done|].
    intros x Hx. rewrite delete_take_drop in Hx. rewrite <- (take_drop_middle ns k n En). set_solver.
  - rewrite Hk, bool_decide_eq_true_2 by done. exists s. split; [done|].
    apply lookup_ge_None in Ek as Hge. rewrite delete_take_drop, take_ge, drop_ge, app_nil_r by lia.
    rewrite insert_id by done.
    split; [by eexists|]. cbn. destruct cb; by rewrite app_nil_r.
Qed.

(** Unlinking a node without freeing it. *)
Lemma unlink_refines s A Nm l xs n ys dx d dy cb :
  refines_on s A Nm -> Nm !! l = Some (xs ++ n :: ys) ->
  rep s l (xs ++ n :: ys) (dx ++ d :: dy) cb -> length xs = length dx ->
  exists h' s', list_delete n s.(hp) = Some h' /\ add_length l (-1) (set_hp h' s) = Some s' /\
    refines_on s' (<[l := (dx ++ dy, cb)]> A) (<[l := xs ++ ys]> Nm) /\
    unowned (<[l := xs ++ ys]> Nm) n /\ s'.(node_data) = s.(node_data) /\ s'.(freed) = s.(freed).
Proof.
  intros HR HN (Hd & Hdat & Hl & Hb) Hlen.
  destruct (delete_spec _ _ _ _ _ Hd) as (h' & Hdel & Hd' & _ & _ & Hu).
  exists h'. unfold add_length. cbn [lists set_hp]. rewrite Hl. cbn [mbind option_bind].
  eexists. split; [done|]. split; [done|].
  apply Forall2_app_inv in Hdat as [Hx Hny]; [|done]. apply list.Forall2_cons in Hny as [Hn Hy].
  split; [|split; [|done]].
  - eapply (refines_update s _ A Nm l _ (xs ++ ys) []); try done; rewrite ?app_nil_r.
    + intros x Hxx. cbn. destruct (Hu x Hxx) as [-> ->]. rewrite lookup_insert_ne by set_solver. done.
    + split; [done|]. split; [by apply Forall2_app|]. cbn. rewrite lookup_insert_eq.
      rewrite !length_app in *. simpl in *. split; [|lia]. do 2 f_equal.
      rewrite size_small by lia. lia.
    + set_solver.
  - destruct Hd as (Hnd & Hn0 & _). split; [set_solver|]. intros l2 ns2 H2.
    destruct (decide (l = l2)) as [->|Hne].
    + rewrite lookup_insert_eq in H2. simplify_eq. apply list.NoDup_cons in Hnd as [H1 Hnd].
      apply list.NoDup_app in Hnd as (_ & H3 & H4). apply list.NoDup_cons in H4 as [H4 _]. set_solver.
    + rewrite lookup_insert_ne in H2 by done. destruct HR as (_ & _ & R3).
      apply (R3 l l2 (xs ++ n :: ys) ns2 HN H2 Hne). set_solver.
Qed.

(** The list [dst] gets [d] at its head or tail. *)
Definition spec_add (dst : ptr) (d : N) (to_head : bool) (A : spec) : spec :=
  match A !! dst with
  | Some (ds, cb) => <[dst := (if to_head then d :: ds else ds ++ [d], cb)]> A
  | None => A
  end.

Definition spec_move (src dst : ptr) (d : N) (to_head : bool) (A : spec) : spec :=
  match A !! src with
  | Some (ds, cb) =>
      if bool_decide (d ∈ ds) then spec_add dst d to_head (<[src := (remove_first d ds, cb)]> A) else A
  | None => A
  end.

(** Linking a node that belongs to no list. *)
Lemma relink_refines s A Nm dst n d (to_head : bool) ds cb :
  refines_on s A Nm -> unowned Nm n -> s.(node_data) !! n = Some d -> A !! dst = Some (ds, cb) ->
  (Z.of_nat (length ds) + 1 < 2 ^ 63)%Z ->
  exists h2 s2, (if to_head then list_add_head dst n s.(hp) else list_add_tail dst n s.(hp)) = Some h2 /\
    add_length dst 1 (set_hp h2 s) = Some s2 /\ refines s2 (spec_add dst d to_head A) /\
    s2.(freed) = s.(freed).
Proof.
  intros HR Hun Hn HA Hb. destruct (proj1 HR dst ds cb HA) as (ns & HN & Hrep).
  pose proof Hrep as (Hd & Hdat & _).
  assert (set_data n d s = s) as Hsd by (unfold set_data; rewrite insert_id by done; by destruct s).
  assert (n ∉ ns) as Hns by (intros Hc; apply (proj2 Hun dst ns HN); by right).
  unfold spec_add. rewrite HA. destruct to_head.
  - destruct (add_head_spec s.(hp) dst ns n Hd (proj2 Hun dst ns HN) (proj1 Hun)) as (h2 & Hadd & Hd4 & Hu4).
    destruct (insert_refines s A Nm dst ns ds cb n d h2 (n :: ns) (d :: ds)) as (s2 & H1 & H2 & H3);
      try done; [set_solver| |simpl; lia|].
    + constructor; [by rewrite lookup_insert_eq|by apply data_insert].
    + exists h2, s2. rewrite Hsd in H1. split_and!; try done. by eexists.
  - destruct (add_tail_spec s.(hp) dst ns n Hd (proj2 Hun dst ns HN) (proj1 Hun)) as (h2 & Hadd & Hd4 & Hu4).
    destruct (insert_refines s A Nm dst ns ds cb n d h2 (ns ++ [n]) (ds ++ [d])) as (s2 & H1 & H2 & H3);
      try done; [|rewrite length_app; simpl; lia|rewrite length_app; simpl; lia|].
    + apply Forall2_app; [by apply data_insert|]. constructor; [by rewrite lookup_insert_eq|done].
    + exists h2, s2. rewrite Hsd in H1. split_and!; try done. by eexists.
Qed.

Lemma move_refines s A src dst d to_head ds cb ds2 cb2 :
  refines s A -> A !! src = Some (ds, cb) -> A !! dst = Some (ds2, cb2) ->
  (Z.of_nat (length ds2) + 1 < 2 ^ 63)%Z ->
  exists s', bt_list_move src dst d to_head s = Some s' /\ refines s' (spec_move src dst d to_head A) /\
    s'.(freed) = s.(freed).
Proof.
  intros [Nm HR] HA HA2 Hb. destruct (proj1 HR src ds cb HA) as (ns & HN & Hrep).
  pose proof (rep_fuel _ _ _ _ _ Hrep) as Hfuel. pose proof Hrep as (Hd & Hdat & _).
  unfold bt_list_move, spec_move. rewrite HA. destruct (decide (d ∈ ds)) as [Hin|Hout].
  - rewrite bool_decide_eq_true_2 by done.
    destruct (split_first s ns ds d Hin Hdat) as (xs & n & ys & dx & dy & -> & -> & Hl & Hdx & Hn & Hall).
    destruct (unlink_refines s A Nm src xs n ys dx d dy cb HR HN Hrep Hl)
      as (h' & s1 & Hdel & Hlen1 & HR1 & Hun & Hdata & Hfr1).
    rewrite remove_first_app by done. set (A1 := <[src := (dx ++ dy, cb)]> A) in *.
    set (N1 := <[src := xs ++ ys]> Nm) in *.
    assert (exists ds3, A1 !! dst = Some (ds3, cb2) /\ (length ds3 <= length ds2)%nat) as (ds3 & HA3 & Hlen3).
    { unfold A1. destruct (decide (src = dst)) as [->|Hne].
      - rewrite lookup_insert_eq. rewrite HA in HA2. simplify_eq. eexists. split; [done|].
        rewrite !length_app. simpl. lia.
      - rewrite lookup_insert_ne by done. eauto. }
    destruct (relink_refines s1 A1 N1 dst n d to_head ds3 cb2)
      as (h2 & s2 & Hadd & Hlen2 & HR2 & Hfr2); try done; [by rewrite Hdata|lia|].
    erewrite for_every_first; [|exact Hd| | |rewrite Hfuel, length_app; simpl; lia].
    + cbn [mbind option_bind]. eexists. split; [done|]. cbn [snd]. split; [exact HR2|]. congruence.
    + intros y Hy. destruct (Hall y Hy) as (x & -> & Hx). cbn [mbind option_bind].
      by rewrite bool_decide_eq_true_2.
    + cbn beta. rewrite Hn. cbn [mbind option_bind]. rewrite bool_decide_eq_false_2 by (intros Hc; by apply Hc).
      rewrite Hdel. cbn [mbind option_bind]. rewrite Hlen1. cbn [mbind option_bind].
      rewrite Hadd. cbn [mbind option_bind]. rewrite Hlen2. done.
  - rewrite bool_decide_eq_false_2 by done. erewrite for_every_none; [|exact Hd| |rewrite Hfuel; lia].
    + cbn [mbind option_bind]. eexists. split; [done|]. split; [by eexists|done].
    + intros y Hy. destruct (data_of s ns ds y Hdat Hy) as (x & -> & Hx). cbn [mbind option_bind].
      rewrite bool_decide_eq_true_2; [done|]. intros ->. done.
Qed.

(** ** Clearing and freeing *)

(** The loop of [bt_list_clear]: every node is dropped, from the first on. *)
Lemma clear_loop l cb ns ds s fuel :
  rep s l ns ds cb -> (length ns < fuel)%nat ->
  exists s', for_every_safe (R := unit) hp
      (fun node s => s ← drop_node l node s; s ← add_length l (-1) s; Some (None, s))
      fuel l (hd l ns) (hd l (tl ns)) s = Some (None, s') /\
    rep s' l [] [] cb /\ same_off s s' (l :: ns) /\
    s'.(freed) = s.(freed) ++ (if cb then ds else []).
Proof.
  revert ds s fuel. induction ns as [|n ns IH]; intros ds s [|fuel] Hrep Hf; try (simpl in Hf; lia).
  - pose proof Hrep as (_ & Hdat & _). apply Forall2_nil_inv_l in Hdat as ->.
    exists s. cbn. rewrite bool_decide_eq_true_2 by done. split; [done|]. split; [done|].
    split; [by intros x|]. destruct cb; by rewrite app_nil_r.
  - pose proof Hrep as (Hd & Hdat & _). apply Forall2_cons_inv_l in Hdat as (d & ds' & Hn & Hdat & ->).
    destruct (remove_one_rep s l [] n ns [] d ds' cb Hrep eq_refl) as (s1 & Hs1 & Hrep1 & Hoff1 & Hfr1).
    cbn [hd tl for_every_safe app] in *.
    assert (n <> l) as Hnl
      by (destruct Hd as (Hnd & _); apply list.NoDup_cons in Hnd as [Hl _]; set_solver).
    rewrite bool_decide_eq_false_2 by done.
    unfold remove_one in Hs1. destruct (drop_node l n s) as [s0|]; [|done]. cbn [mbind option_bind] in *.
    rewrite Hs1. cbn [mbind option_bind].
    assert (next (hp s1) !! hd l ns = Some (hd l (tl ns))) as ->.
    { destruct Hrep1 as (Hd1 & _). destruct ns as [|m ns]; [apply (dll_next _ _ _ Hd1)|].
      by destruct (dll_item (hp s1) l [] m ns Hd1) as [H _]. }
    cbn [mbind option_bind].
    destruct (IH ds' s1 fuel Hrep1 ltac:(simpl in Hf; lia)) as (s2 & Hl2 & Hrep2 & Hoff2 & Hfr2).
    exists s2. split; [done|]. split; [done|]. split.
    + intros x Hx. destruct (Hoff2 x) as (-> & -> & -> & ->); [set_solver|]. by apply Hoff1.
    + rewrite Hfr2, Hfr1, <- app_assoc. destruct cb; done.
Qed.

Lemma clear_refines s A l ds (cb : bool) :
  refines s A -> A !! l = Some (ds, cb) ->
  exists s', bt_list_clear l s = Some s' /\ refines s' (<[l := ([], cb)]> A) /\
    s'.(freed) = s.(freed) ++ (if cb then ds else []).
Proof.
  intros [Nm HR] HA. destruct (proj1 HR l ds cb HA) as (ns & HN & Hrep).
  pose proof (rep_fuel _ _ _ _ _ Hrep) as Hfuel.
  destruct (clear_loop l cb ns ds s (fuel_of l s) Hrep) as (s' & Hloop & Hrep' & Hoff & Hfr); [lia|].
  exists s'. unfold bt_list_clear, list_for_every_safe. pose proof Hrep as (Hd & _).
  rewrite (dll_next _ _ _ Hd). cbn [mbind option_bind].
  assert (exists t, next (hp s) !! hd l ns = Some t /\
    for_every_safe (R := unit) hp
      (fun node s => s ← drop_node l node s; s ← add_length l (-1) s; Some (None, s))
      (fuel_of l s) l (hd l ns) t s = Some (None, s')) as (t & -> & Ht).
  { destruct ns as [|n ns].
    - exists l. split; [apply (dll_next _ _ _ Hd)|done].
    - exists (hd l ns). split; [by destruct (dll_item (hp s) l [] n ns Hd)|done]. }
  cbn [mbind option_bind]. rewrite Ht. cbn [mbind option_bind snd]. split; [done|]. split; [|done].
  eexists. eapply (refines_update s s' A Nm l ns [] []); try done; rewrite ?app_nil_r; [done|set_solver].
Qed.

Lemma new_refines s A p (cb : bool) :
  refines s A -> fresh s p -> refines (bt_list_new p cb s) (<[p := ([], cb)]> A).
Proof.
  intros [Nm HR] Hf. pose proof (fresh_unowned s A Nm p HR Hf) as [Hp Hun]. exists (<[p := []]> Nm).
  destruct HR as (R1 & R2 & R3).
  assert (same_off s (bt_list_new p cb s) [p]) as Hoff.
  { intros x Hx. cbn. rewrite !lookup_insert_ne by set_solver. done. }
  split; [|split].
  - intros l ds c HA. destruct (decide (p = l)) as [->|Hne].
    + rewrite lookup_insert_eq in HA. rewrite lookup_insert_eq. simplify_eq. exists []. split; [done|].
      split; [by apply list_initialize_dll|]. split; [constructor|]. cbn. by rewrite lookup_insert_eq.
    + rewrite lookup_insert_ne in HA by done. rewrite lookup_insert_ne by done.
      destruct (R1 l ds c HA) as (ns & HN & Hrep). exists ns. split; [done|].
      eapply rep_frame; [exact Hoff| |exact Hrep]. intros x Hx Hc. apply list_elem_of_singleton in Hc as ->.
      by apply (Hun l ns).
  - intros l ns HN. destruct (decide (p = l)) as [->|Hne]; [rewrite lookup_insert_eq; eauto|].
    rewrite lookup_insert_ne in HN by done. rewrite lookup_insert_ne by done. eauto.
  - intros l1 l2 ns1 ns2 H1 H2 Hne x Hx. destruct (decide (p = l1)) as [E1|E1]; destruct (decide (p = l2)) as [E2|E2].
    + congruence.
    + subst l1. rewrite lookup_insert_eq in H1. rewrite lookup_insert_ne in H2 by done. simplify_eq.
      apply list_elem_of_singleton in Hx as ->. by apply (Hun l2 ns2).
    + subst l2. rewrite lookup_insert_eq in H2. rewrite lookup_insert_ne in H1 by done. simplify_eq.
      rewrite list_elem_of_singleton. intros ->. by apply (Hun l1 ns1 H1).
    + rewrite lookup_insert_ne in H1, H2 by done. exact (R3 l1 l2 ns1 ns2 H1 H2 Hne x Hx).
Qed.

Lemma free_refines s A l ds (cb : bool) :
  refines s A -> A !! l = Some (ds, cb) ->
  exists s', bt_list_free l s = Some s' /\ refines s' (delete l A) /\
    s'.(freed) = s.(freed) ++ (if cb then ds else []).
Proof.
  intros HR HA. destruct (clear_refines s A l ds cb HR HA) as (s1 & Hc & [Nm (R1 & R2 & R3)] & Hfr).
  destruct (R1 l [] cb) as (ns & HN & Hrep); [by rewrite lookup_insert_eq|].
  pose proof Hrep as (Hd & Hdat & _). apply Forall2_nil_inv_r in Hdat as ->.
  unfold bt_list_free. rewrite Hc. cbn [mbind option_bind].
  unfold list_delete, store_prev, store_next. pose proof (dll_next _ _ _ Hd) as Hn.
  pose proof (dll_prev _ _ _ Hd) as Hp. cbn [hd last_or] in Hn, Hp.
  rewrite Hn, Hp. cbn [mbind option_bind]. rewrite Hp. cbn [mbind option_bind set_prev next prev].
  rewrite Hn, lookup_insert_eq. cbn [mbind option_bind]. rewrite Hn. cbn [mbind option_bind].
  eexists. split; [done|]. split; [|done]. exists (delete l Nm).
  split; [|split].
  - intros l2 ds2 cb2 H2. destruct (decide (l = l2)) as [->|Hne]; [by rewrite lookup_delete_eq in H2|].
    rewrite lookup_delete_ne in H2 by done. rewrite lookup_delete_ne by done.
    destruct (R1 l2 ds2 cb2) as (ns2 & HN2 & Hrep2); [by rewrite lookup_insert_ne|].
    exists ns2. split; [done|]. eapply (rep_frame s1 _ [l]); [|intros x Hx|exact Hrep2].
    + intros x Hx. cbn. rewrite !lookup_delete_ne, !lookup_insert_ne by set_solver. done.
    + intros Hx2. apply list_elem_of_singleton in Hx2 as ->.
      apply (R3 l2 l ns2 [] HN2 HN (not_eq_sym Hne) l Hx). by left.
  - intros l2 ns2 H2. destruct (decide (l = l2)) as [->|Hne]; [by rewrite lookup_delete_eq in H2|].
    rewrite lookup_delete_ne in H2 by done. rewrite lookup_delete_ne by done.
    destruct (R2 l2 ns2 H2) as [y Hy]. rewrite lookup_insert_ne in Hy by done. eauto.
  - intros l1 l2 ns1 ns2 H1 H2. apply lookup_delete_Some in H1 as [_ H1], H2 as [_ H2]. by apply R3.
Qed.

(** ** Observers *)

Lemma foreach_loop {A} l (cb : N -> A -> A) ns ds s a seen sd fuel b :
  rep s l (seen ++ ns) (sd ++ ds) b -> length seen = length sd -> (length ns < fuel)%nat ->
  for_every_safe (R := unit) (fun st => hp st.1)
    (fun node st => d ← st.1.(node_data) !! node; Some (None, (st.1, cb d st.2)))
    fuel l (hd l ns) (hd l (tl ns)) (s, a)
  = Some (None, (s, fold_left (fun a d => cb d a) ds a)).
Proof.
  revert ds a seen sd fuel. induction ns as [|n ns IH]; intros ds a seen sd [|fuel] Hrep Hlen Hf;
    try (simpl in Hf; lia); pose proof Hrep as (Hd & Hdat & _);
    apply Forall2_app_inv in Hdat as [_ Hdat]; try done.
  - apply Forall2_nil_inv_l in Hdat as ->. cbn. by rewrite bool_decide_eq_true_2.
  - apply Forall2_cons_inv_l in Hdat as (d & ds' & Hn & Hdat & ->). cbn [hd tl for_every_safe].
    assert (n <> l) as Hnl
      by (destruct Hd as (Hnd & _); apply list.NoDup_cons in Hnd as [Hl _]; set_solver).
    rewrite bool_decide_eq_false_2 by done. cbn [fst snd]. rewrite Hn. cbn [mbind option_bind].
    cbn [fst].
    change (seen ++ n :: ns) with (seen ++ [n] ++ ns) in Hrep.
    change (sd ++ d :: ds') with (sd ++ [d] ++ ds') in Hrep. rewrite !app_assoc in Hrep.
    specialize (IH ds' (cb d a) (seen ++ [n]) (sd ++ [d]) fuel Hrep).
    rewrite !length_app in IH. cbn [fold_left].
    destruct ns as [|m ns].
    + cbn [hd tl] in *. pose proof (dll_next _ _ _ Hd) as ->. cbn [mbind option_bind].
      rewrite (for_every_end _ _ _ _ _ l). apply IH; simpl in *; lia.
    + cbn [hd tl] in *. destruct Hrep as (Hd' & _). destruct (dll_item _ _ _ _ _ Hd') as [-> _].
      cbn [mbind option_bind]. apply IH; simpl in *; lia.
Qed.

Lemma foreach_correct {A} s S0 l ds b (cb : N -> A -> A) a :
  refines s S0 -> S0 !! l = Some (ds, b) ->
  bt_list_foreach l cb a s = Some (fold_left (fun a d => cb d a) ds a).
Proof.
  intros [Nm HR] HA. destruct (proj1 HR l ds b HA) as (ns & HN & Hrep).
  pose proof (rep_fuel _ _ _ _ _ Hrep) as Hfuel. pose proof Hrep as (Hd & _).
  pose proof (foreach_loop l cb ns ds s a [] [] (fuel_of l s) b Hrep eq_refl ltac:(lia)) as Hl.
  unfold bt_list_foreach, list_for_every_safe. cbn [fst]. rewrite (dll_next _ _ _ Hd). cbn [mbind option_bind].
  destruct ns as [|n ns].
  - cbn [hd tl] in *. rewrite (dll_next _ _ _ Hd). cbn [mbind option_bind hd]. by rewrite Hl.
  - cbn [hd tl] in *. destruct (dll_item (hp s) l [] n ns Hd) as [-> _]. cbn [mbind option_bind]. by rewrite Hl.
Qed.

Lemma find_split (cb : N -> bool) ns ds s :
  Forall2 (fun n d => s.(node_data) !! n = Some d) ns ds ->
  match find cb ds with
  | Some d => exists xs n ys, ns = xs ++ n :: ys /\ s.(node_data) !! n = Some d /\ cb d = true /\
      (forall y, y ∈ xs -> exists x, s.(node_data) !! y = Some x /\ cb x = false)
  | None => forall y, y ∈ ns -> exists x, s.(node_data) !! y = Some x /\ cb x = false
  end.
Proof.
  intros H. induction H as [|n d ns ds Hn H IH]; simpl; [intros y Hy; by apply elem_of_nil in Hy|].
  destruct (cb d) eqn:E.
  - exists [], n, ns. split_and!; try done. intros y Hy. by apply elem_of_nil in Hy.
  - destruct (find cb ds) as [x|].
    + destruct IH as (xs & m & ys & -> & H1 & H2 & H3). exists (n :: xs), m, ys. split_and!; try done.
      intros y Hy. apply elem_of_cons in Hy as [->|Hy]; eauto.
    + intros y Hy. apply elem_of_cons in Hy as [->|Hy]; eauto.
Qed.

Lemma find_correct s S0 l ds b (cb : N -> bool) :
  refines s S0 -> S0 !! l = Some (ds, b) -> bt_list_find l cb s = Some (find cb ds).
Proof.
  intros [Nm HR] HA. destruct (proj1 HR l ds b HA) as (ns & HN & Hrep).
  pose proof (rep_fuel _ _ _ _ _ Hrep) as Hfuel. pose proof Hrep as (Hd & Hdat & _).
  pose proof (find_split cb ns ds s Hdat) as Hs. unfold bt_list_find.
  destruct (find cb ds) as [d|].
  - destruct Hs as (xs & n & ys & -> & Hn & Hcb & Hx).
    erewrite for_every_first; [|exact Hd| | |rewrite Hfuel, length_app; simpl; lia]; [done| |].
    + intros y Hy. destruct (Hx y Hy) as (x & -> & Hc). cbn [mbind option_bind]. by rewrite Hc.
    + cbn beta. rewrite Hn. cbn [mbind option_bind]. by rewrite Hcb.
  - erewrite for_every_none; [|exact Hd| |rewrite Hfuel; lia]; [done|].
    intros y Hy. destruct (Hs y Hy) as (x & -> & Hc). cbn [mbind option_bind]. by rewrite Hc.
Qed.

(** ** Claims *)

Inductive op :=
| Op_new (p : ptr) (cb : bool)
| Op_add_head (p l : ptr) (d : N)
| Op_add_tail (p l : ptr) (d : N)
| Op_remove (l : ptr) (d : N)
| Op_remove_node (l : ptr) (k : nat)
| Op_move (src dst : ptr) (d : N) (to_head : bool)
| Op_clear (l : ptr)
| Op_free (l : ptr).

Definition run_op (o : op) (s : store) : option store :=
  match o with
  | Op_new p cb => Some (bt_list_new p cb s)
  | Op_add_head p l d => bt_list_add_head p l d s
  | Op_add_tail p l d => bt_list_add_tail p l d s
  | Op_remove l d => bt_list_remove l d s
  | Op_remove_node l k => remove_node_at l k s
  | Op_move src dst d h => bt_list_move src dst d h s
  | Op_clear l => bt_list_clear l s
  | Op_free l => bt_list_free l s
  end.

(** The specification: the lists after an operation, and the data handed to
    the free callback. *)
Definition spec_op (o : op) (A : spec) : spec * list N :=
  match o with
  | Op_new p cb => (<[p := ([], cb)]> A, [])
  | Op_add_head _ l d => (spec_add l d true A, [])
  | Op_add_tail _ l d => (spec_add l d false A, [])
  | Op_remove l d =>
      match A !! l with
      | Some (ds, cb) => (<[l := (remove_first d ds, cb)]> A, if cb && bool_decide (d ∈ ds) then [d] else [])
      | None => (A, [])
      end
  | Op_remove_node l k =>
      match A !! l with
      | Some (ds, cb) => (<[l := (delete k ds, cb)]> A, if (cb : bool) then option_list (ds !! k) else [])
      | None => (A, [])
      end
  | Op_move src dst d h => (spec_move src dst d h A, [])
  | Op_clear l =>
      match A !! l with
      | Some (ds, cb) => (<[l := ([], cb)]> A, if (cb : bool) then ds else [])
      | None => (A, [])
      end
  | Op_free l =>
      match A !! l with
      | Some (ds, cb) => (delete l A, if (cb : bool) then ds else [])
      | None => (A, [])
      end
  end.

(** The lists named exist, the block allocated is new, lengths fit [size_t]. *)
Definition has_room (A : spec) (l : ptr) : Prop :=
  exists ds cb, A !! l = Some (ds, cb) /\ (Z.of_nat (length ds) + 1 < 2 ^ 63)%Z.

Definition op_pre (o : op) (s : store) (A : spec) : Prop :=
  match o with
  | Op_new p _ => fresh s p
  | Op_add_head p l _ | Op_add_tail p l _ => fresh s p /\ has_room A l
  | Op_remove l _ | Op_remove_node l _ | Op_clear l | Op_free l => is_Some (A !! l)
  | Op_move src dst _ _ => is_Some (A !! src) /\ has_room A dst
  end.

(** C23: The pointer lists of the framework refine functional lists: with any
    number of lists in memory, sharing no node, every operation succeeds (no
    invalid pointer is followed), changes the list it is given as its
    functional counterpart does and no other list, keeps the stored length
    exact, and hands exactly the removed data to the free callback. *)
Theorem bt_list_refines (o : op) (s : store) (A : spec) :
  refines s A -> op_pre o s A ->
  exists s', run_op o s = Some s' /\ refines s' (spec_op o A).1 /\
    s'.(freed) = s.(freed) ++ (spec_op o A).2.
Proof.
  intros HR Hpre. destruct o as [p cb|p l d|p l d|l d|l k|src dst d h|l|l]; cbn [run_op spec_op op_pre fst snd] in *.
  - eexists. split; [done|]. split; [by apply new_refines|]. by rewrite app_nil_r.
  - destruct Hpre as (Hf & ds & cb & HA & Hb).
    destruct (add_head_refines s A l ds cb p d HR Hf HA Hb) as (s' & -> & H1 & H2).
    exists s'. unfold spec_add. rewrite HA, app_nil_r. done.
  - destruct Hpre as (Hf & ds & cb & HA & Hb).
    destruct (add_tail_refines s A l ds cb p d HR Hf HA Hb) as (s' & -> & H1 & H2).
    exists s'. unfold spec_add. rewrite HA, app_nil_r. done.
  - destruct Hpre as [[ds cb] HA]. rewrite HA. by apply remove_refines.
  - destruct Hpre as [[ds cb] HA]. rewrite HA. by apply remove_node_refines.
  - destruct Hpre as ([[ds cb] HA] & ds2 & cb2 & HA2 & Hb).
    destruct (move_refines s A src dst d h ds cb ds2 cb2 HR HA HA2 Hb) as (s' & -> & H1 & H2).
    exists s'. by rewrite app_nil_r.
  - destruct Hpre as [[ds cb] HA]. rewrite HA. by apply clear_refines.
  - destruct Hpre as [[ds cb] HA]. rewrite HA. by apply free_refines.
Qed.

Definition empty_store : store := mk_store (mk_heap ∅ ∅) ∅ ∅ [].

Lemma empty_refines : refines empty_store ∅.
Proof. exists ∅. split; [|split]; intros *; by rewrite lookup_empty. Qed.

Lemma bt_list_refines_witness :
  exists s', run_op (Op_new 1%N true) empty_store = Some s' /\ refines s' (<[1%N := ([], true)]> ∅).
Proof.
  destruct (bt_list_refines (Op_new 1%N true) empty_store ∅) as (s' & H1 & H2 & _).
  - exact empty_refines.
  - vm_compute. repeat split; discriminate.
  - exists s'. split; [exact H1|exact H2].
Defined.

(** On lists in such a store, the length is that of the functional list,
    the node [k] steps after the head holds its datum number [k] (NULL past
    the end) and the tail its last datum, [bt_list_find] returns the first datum its predicate accepts and
    [bt_list_foreach] visits the data once each from head to tail; both loops
    end. *)
Theorem bt_list_observers {T} (s : store) (A : spec) (l : ptr) (ds : list N) (cb : bool)
    (pred : N -> bool) (visit : N -> T -> T) (t : T) (k : nat) :
  refines s A -> A !! l = Some (ds, cb) ->
  bt_list_length l s = Some (Z.of_nat (length ds)) /\
  bt_list_is_empty l s = Some (bool_decide (ds = [])) /\
  (exists n, node_at l k s = Some n /\
     match ds !! k with Some d => n <> NULL /\ bt_list_node n s = Some d | None => n = NULL end) /\
  (exists n, bt_list_tail l s = Some n /\
     match list.last ds with Some d => n <> NULL /\ bt_list_node n s = Some d | None => n = NULL end) /\
  bt_list_find l pred s = Some (find pred ds) /\
  bt_list_foreach l visit t s = Some (fold_left (fun t d => visit d t) ds t).
Proof.
  intros HR HA. pose proof HR as [Nm HR']. destruct (proj1 HR' l ds cb HA) as (ns & HN & (Hd & Hdat & Hl & _)).
  unfold bt_list_length, bt_list_is_empty, bt_list_node. rewrite Hl. cbn [mbind option_bind length_].
  split; [done|]. split; [by destruct ds|]. split.
  { eexists. split; [by apply node_at_dll|]. apply data_at; [done|]. destruct Hd as (_ & Hn0 & _). set_solver. }
  split; [by eapply tail_data|]. split; [by eapply find_correct|by eapply foreach_correct].
Qed.

Lemma bt_list_observers_witness :
  bt_list_length 1%N (bt_list_new 1%N true empty_store) = Some 0%Z.
Proof.
  apply (bt_list_observers (T := unit) (bt_list_new 1%N true empty_store) (<[1%N := ([], true)]> ∅) 1%N [] true
           (fun _ => true) (fun _ t => t) tt 0).
  - apply new_refines; [exact empty_refines|]. vm_compute. repeat split; discriminate.
  - reflexivity.
Defined.

End BtList.
