(* ===== verification/CallbacksList.v ===== *)
(** * Lists of callbacks (framework/common/callbacks_list.c)

    Every service keeps the clients that registered callbacks in a
    [callbacks_list_t]: at most [max] of them, a remote client (one with a
    [remote] of its own, behind IPC) once, a local one once per table of
    callbacks.  The list of bt_list.c in it is the sequence of its entries
    (BtList.v shows that the linked list implements the sequence).

    An entry is known by its address, the cookie that the client gets.
    [malloc] gives the address of a new entry: an argument, fresh.

    [BT_CALLBACK_FOREACH] is modelled twice: over the sequence, for callbacks
    that leave the list alone, and over the linked list of BtList.v with
    callbacks that may change it. *)

From S2P Require Import Prelude DList BtList.

Local Open Scope Z_scope.

Module CallbacksList.

Record remote_callback_t := mk_rcbk {
  rcbk : N;                  (* its address *)
  remote : option N;
  callbacks : N;             (* 0: NULL *)
}.

Record callbacks_list_t := mk_cbsl {
  max_reg : Z;
  registed : Z;
  cb_list : list remote_callback_t;
}.

Definition bt_callbacks_list_new (max : Z) : callbacks_list_t := mk_cbsl (u8 max) 0 [].

Definition callback_is_found (cbs : N) (r : remote_callback_t) : bool := bool_decide (r.(callbacks) = cbs).
Definition remote_is_found (rem : N) (r : remote_callback_t) : bool := bool_decide (r.(remote) = Some rem).

(** A remote client is looked for by itself, a local one by its table. *)
Definition lookup (rem : option N) (cbs : N) (l : list remote_callback_t) : option remote_callback_t :=
  match rem with Some r => List.find (remote_is_found r) l | None => List.find (callback_is_found cbs) l end.

Definition bt_remote_callbacks_register (p : N) (rem : option N) (cbs : N) (l : callbacks_list_t) : option N * callbacks_list_t :=
  if l.(registed) =? l.(max_reg) then (None, l)
  else
    match lookup rem cbs l.(cb_list) with
    | Some _ => (None, l)
    | None => (Some p, mk_cbsl l.(max_reg) (u8 (l.(registed) + 1)) (l.(cb_list) ++ [mk_rcbk p rem cbs]))
    end.
Definition bt_callbacks_register p cbs l := bt_remote_callbacks_register p None cbs l.

(** The entry at an address. *)
Definition entry (p : N) (l : callbacks_list_t) : option remote_callback_t :=
  List.find (fun r => bool_decide (r.(rcbk) = p)) l.(cb_list).

Fixpoint remove_entry (p : N) (l : list remote_callback_t) : list remote_callback_t :=
  match l with
  | [] => []
  | r :: l => if bool_decide (r.(rcbk) = p) then l else r :: remove_entry p l
  end.

(** The second value: what is left in [*remote]. *)
Definition bt_remote_callbacks_unregister (p : N) (l : callbacks_list_t) : bool * option N * callbacks_list_t :=
  match entry p l with
  | Some r => (true, r.(remote), mk_cbsl l.(max_reg) (u8 (l.(registed) - 1)) (remove_entry p l.(cb_list)))
  | None => (false, None, l)
  end.
Definition bt_callbacks_unregister p l := bt_remote_callbacks_unregister p l.

Definition bt_callbacks_list_count (l : callbacks_list_t) : Z := l.(registed).

(** The clients called, each with its [remote] or else its entry; [set]: the
    tables that have this callback. *)
Definition BT_CALLBACK_FOREACH (set : N -> bool) (l : callbacks_list_t) : list N :=
  map (fun r => default r.(rcbk) r.(remote)) (List.filter (fun r => negb (bool_decide (r.(callbacks) = 0%N)) && set r.(callbacks)) l.(cb_list)).

(** ** Every use *)

Inductive op := op_register (p : N) (rem : option N) (cbs : N) | op_unregister (p : N).

Definition step (o : op) (l : callbacks_list_t) : callbacks_list_t :=
  match o with
  | op_register p rem cbs => (bt_remote_callbacks_register p rem cbs l).2
  | op_unregister p => (bt_remote_callbacks_unregister p l).2
  end.

(** [malloc] gives an address that is not in use. *)
Definition fresh_op (o : op) (l : callbacks_list_t) : Prop :=
  match o with op_register p _ _ => entry p l = None | op_unregister _ => True end.

Inductive reachable (max : Z) : callbacks_list_t -> Prop :=
| reach_new : reachable max (bt_callbacks_list_new max)
| reach_step o l : reachable max l -> fresh_op o l -> reachable max (step o l).

(** The remote clients of a list. *)
Definition remotes (l : list remote_callback_t) : list N := omap remote l.

Definition inv (max : Z) (l : callbacks_list_t) : Prop :=
  l.(max_reg) = max /\ l.(registed) = Z.of_nat (length l.(cb_list)) /\ l.(registed) <= max /\
  NoDup (rcbk <$> l.(cb_list)) /\ NoDup (remotes l.(cb_list)).

(** ** Lemmas *)

Lemma entry_None p l : entry p l = None -> p ∉ (rcbk <$> l.(cb_list)).
Proof.
  unfold entry. induction (cb_list l) as [|r k IH]; cbn; [intros _; apply not_elem_of_nil|].
  case_bool_decide as E; [done|]. intros H. apply not_elem_of_cons. split; [congruence|by apply IH].
Qed.

Lemma entry_Some p l r : entry p l = Some r -> r ∈ l.(cb_list) /\ rcbk r = p.
Proof.
  unfold entry. intros H. apply find_some in H as [H1 H2]. apply bool_decide_eq_true in H2. split; [by apply list_elem_of_In|done].
Qed.

Lemma remote_not_found rem l : List.find (remote_is_found rem) l = None -> rem ∉ remotes l.
Proof.
  induction l as [|r k IH]; cbn; [intros _; apply not_elem_of_nil|]. unfold remote_is_found at 1. case_bool_decide as E; [done|].
  intros H. specialize (IH H). destruct (remote r) as [x|]; [|exact IH]. apply not_elem_of_cons. split; [congruence|exact IH].
Qed.

Lemma remove_entry_sub p l : remove_entry p l `sublist_of` l.
Proof. induction l as [|r k IH]; cbn; [done|]. case_bool_decide; [by apply sublist_cons|by apply sublist_skip]. Qed.

(** The client is registered. *)
Definition known (rem : option N) (cbs : N) (l : list remote_callback_t) : Prop :=
  match rem with Some x => x ∈ remotes l | None => exists r, r ∈ l /\ callbacks r = cbs end.

Lemma lookup_spec rem cbs l :
  (lookup rem cbs l = None -> ~ known rem cbs l) /\ (forall r, lookup rem cbs l = Some r -> known rem cbs l).
Proof.
  destruct rem as [x|]; cbn.
  - split; [apply remote_not_found|]. intros r Hf. apply find_some in Hf as [Hin%list_elem_of_In Hx%bool_decide_eq_true].
    unfold remotes. apply list_elem_of_omap. by exists r.
  - split.
    + intros Hf (r & Hin%list_elem_of_In & Hc). pose proof (find_none _ _ Hf r Hin) as Hn. unfold callback_is_found in Hn.
      by apply bool_decide_eq_false in Hn.
    + intros r Hf. apply find_some in Hf as [Hin%list_elem_of_In Hx%bool_decide_eq_true]. by exists r.
Qed.

Lemma entry_add m n l r x :
  entry x (mk_cbsl m n (l.(cb_list) ++ [r])) = match entry x l with Some y => Some y | None => if bool_decide (rcbk r = x) then Some r else None end.
Proof. unfold entry. cbn [cb_list]. induction (cb_list l) as [|y k IH]; cbn; [done|]. by destruct (bool_decide (rcbk y = x)). Qed.

Lemma remotes_sublist l k : l `sublist_of` k -> remotes l `sublist_of` remotes k.
Proof.
  induction 1 as [|r l k _ IH|r l k _ IH]; cbn; [done| |]; destruct (remote r); try done; by constructor.
Qed.

Lemma remove_entry_length p l : p ∈ (rcbk <$> l) -> S (length (remove_entry p l)) = length l.
Proof.
  induction l as [|r k IH]; cbn; [intros H; by apply not_elem_of_nil in H|]. case_bool_decide as E; [done|].
  intros H. apply elem_of_cons in H as [H|H]; [congruence|]. cbn. by rewrite IH.
Qed.

(** What is left is what is at another address. *)
Lemma remove_entry_elem p l r : NoDup (rcbk <$> l) -> r ∈ remove_entry p l <-> r ∈ l /\ rcbk r <> p.
Proof.
  intros Hnd. induction l as [|x k IH]; cbn in *; [rewrite elem_of_nil; naive_solver|]. apply list.NoDup_cons in Hnd as [Hx Hnd].
  rewrite elem_of_cons. case_bool_decide as E.
  - split; [|naive_solver]. intros Hr. split; [by right|]. intros E2. apply Hx. rewrite E, <- E2. by apply list_elem_of_fmap_2.
  - rewrite elem_of_cons, (IH Hnd). split; [|naive_solver]. intros [->|[? ?]]; naive_solver.
Qed.

Lemma register_cases p rem cbs l :
  bt_remote_callbacks_register p rem cbs l = (None, l) \/
  (l.(registed) <> l.(max_reg) /\ (forall r, rem = Some r -> r ∉ remotes l.(cb_list)) /\
   bt_remote_callbacks_register p rem cbs l
   = (Some p, mk_cbsl l.(max_reg) (u8 (l.(registed) + 1)) (l.(cb_list) ++ [mk_rcbk p rem cbs]))).
Proof.
  unfold bt_remote_callbacks_register. destruct (Z.eqb_spec (registed l) (max_reg l)) as [E|E]; [by left|].
  destruct (lookup rem cbs (cb_list l)) eqn:Ef; [by left|]. right. split; [done|]. split; [|done].
  intros r ->. by apply remote_not_found.
Qed.

Lemma step_inv max o l : 0 <= max < 256 -> inv max l -> fresh_op o l -> inv max (step o l).
Proof.
  intros Hmax (H1 & H2 & H3 & H4 & H5) Hf. destruct o as [p rem cbs|p]; cbn [step].
  - destruct (register_cases p rem cbs l) as [->|(Hne & Hrem & ->)]; [done|]. unfold inv. cbn.
    rewrite length_app, uint_small by (unfold in_u; lia). cbn. split; [done|]. split; [lia|]. split; [lia|].
    rewrite fmap_app. unfold remotes. rewrite omap_app. cbn. split.
    + apply list.NoDup_app. split; [done|]. split; [|apply NoDup_singleton]. intros x Hx Hp%list_elem_of_singleton. subst x.
      by apply (entry_None p l).
    + apply list.NoDup_app. split; [done|]. destruct rem as [r|]; cbn; [|split; [intros ? _ Hp; by apply elem_of_nil in Hp|constructor]].
      split; [|apply NoDup_singleton]. intros x Hx Hp%list_elem_of_singleton. subst x. by apply (Hrem r).
  - unfold bt_remote_callbacks_unregister. destruct (entry p l) as [r|] eqn:E; [|done]. apply entry_Some in E as [Hr Hp]. unfold inv. cbn.
    assert (p ∈ (rcbk <$> cb_list l)) as Hin by (rewrite <- Hp; by apply list_elem_of_fmap_2).
    apply remove_entry_length in Hin. rewrite uint_small by (unfold in_u; lia). split; [done|]. split; [lia|]. split; [lia|].
    pose proof (remove_entry_sub p (cb_list l)) as Hs. split.
    + eapply sublist_NoDup; [exact H4|]. by apply fmap_sublist.
    + eapply sublist_NoDup; [exact H5|]. by apply remotes_sublist.
Qed.

Lemma reachable_list_inv max l : 0 <= max < 256 -> reachable max l -> inv max l.
Proof.
  intros Hmax. induction 1 as [|o l _ IH Hf]; [|by apply step_inv].
  unfold inv, bt_callbacks_list_new. cbn. rewrite uint_small by (unfold in_u; lia). split_and!; try done; try lia; constructor.
Qed.

(** However clients come and go, the number of callbacks kept is the number
    of entries and never above the maximum; a client that registers is refused
    exactly if the list is full or it is registered already, and otherwise gets
    an entry of its own; a cookie that is given back takes exactly its entry
    away, and nothing changes if it is not one. *)
Theorem callbacks_registration (max : Z) (l : callbacks_list_t) (p : N) (rem : option N) (cbs : N) :
  0 <= max < 256 -> reachable max l -> entry p l = None ->
  bt_callbacks_list_count l = Z.of_nat (length l.(cb_list)) /\ bt_callbacks_list_count l <= max /\
  (let '(r, l') := bt_remote_callbacks_register p rem cbs l in
   (r = None /\ l' = l /\ (bt_callbacks_list_count l = max \/ known rem cbs l.(cb_list))) \/
   (r = Some p /\ bt_callbacks_list_count l < max /\ ~ known rem cbs l.(cb_list) /\ entry p l' = Some (mk_rcbk p rem cbs) /\
    forall q, q <> p -> entry q l' = entry q l)) /\
  (forall q, let '(ok, rem', l') := bt_remote_callbacks_unregister q l in
   match entry q l with
   | Some r => ok = true /\ rem' = remote r /\ forall x, x ∈ l'.(cb_list) <-> x ∈ l.(cb_list) /\ rcbk x <> q
   | None => ok = false /\ l' = l
   end).
Proof.
  intros Hmax Hr Hp. destruct (reachable_list_inv max l Hmax Hr) as (H1 & H2 & H3 & H4 & H5). split; [done|]. split; [done|]. split.
  - unfold bt_remote_callbacks_register, bt_callbacks_list_count in *. destruct (Z.eqb_spec (registed l) (max_reg l)) as [E|E].
    { left. split; [done|]. split; [done|]. left. congruence. }
    destruct (lookup_spec rem cbs (cb_list l)) as [Hn Hs].
    fold (lookup rem cbs (cb_list l)). destruct (lookup rem cbs (cb_list l)) as [r|].
    + left. split; [done|]. split; [done|]. right. by apply (Hs r).
    + right. split; [done|]. split; [lia|]. split; [by apply Hn|]. rewrite entry_add, Hp, bool_decide_true by done. split; [done|].
      intros q Hq. rewrite entry_add. destruct (entry q l); [done|]. by rewrite bool_decide_false.
  - intros q. unfold bt_remote_callbacks_unregister. destruct (entry q l) as [r|] eqn:E; [|done]. split; [done|]. split; [done|].
    intros x. cbn. by apply remove_entry_elem.
Qed.

Lemma callbacks_registration_witness :
  let l := step (op_register 7 (Some 3%N) 1) (bt_callbacks_list_new 2) in
  bt_callbacks_list_count l = 1 /\ fst (bt_remote_callbacks_register 8 (Some 3%N) 1 l) = None /\
  fst (bt_remote_callbacks_register 8 (Some 4%N) 1 l) = Some 8%N /\
  (bt_remote_callbacks_unregister 7 l).2.(cb_list) = [].
Proof.
  intros l. assert (reachable 2 l) as Hr by (apply reach_step; [constructor|done]).
  pose proof (callbacks_registration 2 l 8 (Some 3%N) 1 ltac:(lia) Hr eq_refl) as (H1 & _ & _).
  split; [exact H1|]. split; [reflexivity|]. split; reflexivity.
Defined.

(** ** Calling back while the list changes *)

Section Foreach.
Import BtList DList.

(** The macro on the linked list: [cb] is what the callback of an entry does
    to the list; the next node is looked up afterwards. *)
Fixpoint foreach_loop (fuel : nat) (l node : ptr) (cb : N -> store -> option store) (s : store) : option store :=
  match fuel with
  | O => None
  | S fuel =>
      if bool_decide (node = NULL) then Some s
      else
        d ← bt_list_node node s;
        s ← cb d s;
        node ← bt_list_next l node s;
        foreach_loop fuel l node cb s
  end.
Definition foreach (l : ptr) (cb : N -> store -> option store) (s : store) : option store :=
  node ← bt_list_head l s; foreach_loop (fuel_of l s) l node cb s.
End Foreach.

(** Two clients; one of them unregisters from its callback: the node that the
    loop stands on is freed and then read. *)
Definition two_clients : option BtList.store :=
  s ← BtList.bt_list_add_tail 2%N 1%N 10%N (BtList.bt_list_new 1%N true BtList.empty_store);
  BtList.bt_list_add_tail 3%N 1%N 11%N s.

Lemma unregister_in_callback_crashes :
  (two_clients ≫= foreach 1%N (fun _ s => Some s)) = two_clients /\
  (two_clients ≫= foreach 1%N (fun d s => if bool_decide (d = 10%N) then BtList.bt_list_remove_node 1%N 2%N s else Some s)) = None.
Proof. split; vm_compute; reflexivity. Qed.
End CallbacksList.
