(* ===== verification/Advertising.v ===== *)
(** * The LE advertising manager (service/src/advertising.c)

    Advertisers are started and stopped by messages to the service loop, get
    an identifier from the index allocator while they live, and are kept in a
    list.  The manager works with any allocator that keeps the promise of
    [IdAllocator]; [IndexAllocator] is the one the code uses.

    An advertiser is a heap object: [adv_ptr] is its address.  A handler has
    no result ([None]) when it frees an identifier that is not allocated (the
    allocator asserts) or dereferences NULL. *)

From S2P Require Import Prelude IndexAllocator.

Module Advertising.
Local Open Scope Z_scope.

(** [advertising_info_t]: the copy of the caller's data. *)
Record advertising_info_t := mk_info {
  adv_data : option (list Z);
  adv_len : Z;
  scan_rsp_data : option (list Z);
  scan_rsp_len : Z;
  params : list Z;
}.

Record advertiser_t := mk_advertiser {
  adv_ptr : N;
  remote : option N;
  adv_id : Z;                      (* uint8_t; 0 before one is allocated *)
  adv_start : option timer_h;
}.

#[export] Instance advertiser_eq_dec : EqDecision advertiser_t.
Proof. solve_decision. Defined.

Inductive adv_status :=
| BT_ADV_STATUS_SUCCESS | BT_ADV_STATUS_START_NOMEM | BT_ADV_STATUS_START_TIMEOUT
| BT_ADV_STATUS_STACK_ERR.

(** The state is a byte of the stack's message; other values are ignored. *)
Definition LE_ADVERTISING_STARTED : Z := 0.
Definition LE_ADVERTISING_STOPPED : Z := 1.

(** Who is called back: the remote client, or the advertiser itself. *)
Definition get_adver (a : advertiser_t) : N := default a.(adv_ptr) a.(remote).

Inductive out :=
| bt_sal_le_start_adv (id : Z) (i : advertising_info_t)
| bt_sal_le_stop_adv (id : Z)
| on_advertising_start (who : N) (id : Z) (s : adv_status)
| on_advertising_stopped (who : N) (id : Z)
| service_loop_timer_no_repeating (ms : Z) (h : option timer_h)
| service_loop_cancel_timer (h : option timer_h).

(** [advertiser_info_copy], memory permitting: absent or empty data stays
    absent. *)
Definition copy_bytes (p : option (list Z)) (n : Z) : option (list Z) * Z :=
  match p with
  | Some d => if n =? 0 then (None, 0) else (Some (take (Z.to_nat n) d), n)
  | None => (None, 0)
  end.

Definition advertiser_info_copy (prm : list Z) (data : option (list Z)) (dlen : Z)
    (rsp : option (list Z)) (rlen : Z) : advertising_info_t :=
  let '(d, dl) := copy_bytes data dlen in
  let '(r, rl) := copy_bytes rsp rlen in
  mk_info d dl r rl prm.

Definition alloc_new_advertiser (p : N) (rem : option N) : advertiser_t := mk_advertiser p rem 0 None.

Section Manager.
Context {T : Type} `{!IdAllocator T}.

Record adv_manager_t := mk_manager {
  started : bool;
  adv_allocator : T;
  advertiser_list : list advertiser_t;
}.

Definition set_list l m := mk_manager m.(started) m.(adv_allocator) l.
Definition set_alloc al m := mk_manager m.(started) al m.(advertiser_list).

Definition result : Type := option (adv_manager_t * list out).

(** ** Advertisers *)

(** Gives the identifier back and frees the advertiser. *)
Definition destroy_advertiser (a : advertiser_t) (m : adv_manager_t) : option adv_manager_t :=
  if a.(adv_id) =? 0 then Some m
  else al ← ia_free m.(adv_allocator) (a.(adv_id) - 1); Some (set_alloc al m).

(** Cancels its timer and unlinks it. *)
Definition delete_advertiser (a : advertiser_t) (m : adv_manager_t) : adv_manager_t * list out :=
  (set_list (filter (fun b => b.(adv_ptr) <> a.(adv_ptr)) m.(advertiser_list)) m,
   [service_loop_cancel_timer a.(adv_start)]).

Definition is_advertiser_exist (p : N) (m : adv_manager_t) : option advertiser_t :=
  find (fun a => bool_decide (a.(adv_ptr) = p)) m.(advertiser_list).

Definition get_advertiser_if_exist (id : Z) (m : adv_manager_t) : option advertiser_t :=
  find (fun a => a.(adv_id) =? id) m.(advertiser_list).

(** ** Messages of the service loop *)

(** The timer's callback does not look at [started]: after the clean-up the
    list head's links are NULL. *)
Definition start_advertising_timeout (p : N) (m : adv_manager_t) : result :=
  if negb m.(started) then None
  else
  match is_advertiser_exist p m with
  | None => Some (m, [])
  | Some a =>
      let '(m, o) := delete_advertiser a m in
      m ← destroy_advertiser a m;
      Some (m, o ++ [on_advertising_start (get_adver a) 0 BT_ADV_STATUS_START_TIMEOUT])
  end.

(** [sal]: the status of the stack's start command; [h]: the timer's handle. *)
Definition advertiser_start_event (sal : bt_status_t) (h : option timer_h)
    (a : advertiser_t) (info : option advertising_info_t) (m : adv_manager_t) : result :=
  if negb m.(started) then Some (m, [])
  else
    r ← ia_alloc m.(adv_allocator);
    let '(id, al) := r in
    let m := set_alloc al m in
    if id <? 0 then
      m ← destroy_advertiser a m;
      Some (m, [on_advertising_start (get_adver a) 0 BT_ADV_STATUS_START_NOMEM])
    else
      let a := mk_advertiser a.(adv_ptr) a.(remote) (u8 (id + 1)) a.(adv_start) in
      match info with
      | None => None
      | Some i =>
          let cmd := bt_sal_le_start_adv a.(adv_id) i in
          if is_success sal then
            let a := mk_advertiser a.(adv_ptr) a.(remote) a.(adv_id) h in
            Some (set_list (m.(advertiser_list) ++ [a]) m, [cmd; service_loop_timer_no_repeating 1000 h])
          else
            m ← destroy_advertiser a m;
            Some (m, [cmd; on_advertising_start (get_adver a) 0 BT_ADV_STATUS_STACK_ERR])
      end.

(** [adver]: the pointer given, or NULL and an identifier. *)
Definition advertiser_stop_event (adver : option N) (id : Z) (m : adv_manager_t) : result :=
  if negb m.(started) then Some (m, [])
  else
    match (match adver with Some p => is_advertiser_exist p m | None => get_advertiser_if_exist id m end) with
    | None => Some (m, [])
    | Some a => Some (m, [bt_sal_le_stop_adv a.(adv_id)])
    end.

Definition advertiser_notify_state (id st : Z) (m : adv_manager_t) : result :=
  if negb m.(started) then Some (m, [])
  else
    match get_advertiser_if_exist id m with
    | None => Some (m, [])
    | Some a =>
        if st =? LE_ADVERTISING_STARTED then
            let a' := mk_advertiser a.(adv_ptr) a.(remote) a.(adv_id) None in
            Some (set_list (map (fun b => if bool_decide (b.(adv_ptr) = a.(adv_ptr)) then a' else b)
                              m.(advertiser_list)) m,
                  [service_loop_cancel_timer a.(adv_start);
                   on_advertising_start (get_adver a) id BT_ADV_STATUS_SUCCESS])
        else if st =? LE_ADVERTISING_STOPPED then
            let '(m, o) := delete_advertiser a m in
            m ← destroy_advertiser a m;
            Some (m, o ++ [on_advertising_stopped (get_adver a) id])
        else Some (m, [])
    end.

(** The loop of [advertisers_cleanup] over the advertisers. *)
Fixpoint cleanup_loop (l : list advertiser_t) (m : adv_manager_t) : result :=
  match l with
  | [] => Some (m, [])
  | a :: l =>
      let '(m, o) := delete_advertiser a m in
      m ← destroy_advertiser a m;
      r ← cleanup_loop l m;
      Some (r.1, bt_sal_le_stop_adv a.(adv_id) :: o ++ on_advertising_stopped (get_adver a) a.(adv_id) :: r.2)
  end.

Definition advertisers_cleanup (m : adv_manager_t) : result :=
  if negb m.(started) then Some (m, [])
  else
    r ← cleanup_loop m.(advertiser_list) m;
    Some (mk_manager false r.1.(adv_allocator) r.1.(advertiser_list), r.2).

(** ** The interface: messages posted when LE is enabled *)

Inductive msg :=
| msg_start (sal : bt_status_t) (h : option timer_h) (a : advertiser_t) (info : option advertising_info_t)
| msg_stop (adver : option N) (id : Z)
| msg_state (id st : Z)
| msg_timeout (p : N)
| msg_cleanup.

Definition run_msg (x : msg) (m : adv_manager_t) : result :=
  match x with
  | msg_start sal h a info => advertiser_start_event sal h a info m
  | msg_stop adver id => advertiser_stop_event adver id m
  | msg_state id st => advertiser_notify_state id st m
  | msg_timeout p => start_advertising_timeout p m
  | msg_cleanup => advertisers_cleanup m
  end.

(** [p]: the block allocated for the advertiser, [ev]: whether there was
    memory for the message, [info]: the copy of the data, NULL when there was
    none for it.  The advertiser returned and the message posted. *)
Definition start_advertising (le_enabled : bool) (p : option N) (ev : bool) (rem : option N)
    (sal : bt_status_t) (h : option timer_h) (info : option advertising_info_t) : option (N * msg) :=
  if negb le_enabled then None
  else
    p ← p;
    let a := alloc_new_advertiser p rem in
    if negb ev then None else Some (p, msg_start sal h a info).

Definition stop_advertising (le_enabled ev : bool) (p : N) : option msg :=
  if negb le_enabled then None else if negb ev then None else Some (msg_stop (Some p) 0).

Definition stop_advertising_id (le_enabled ev : bool) (id : Z) : option msg :=
  if negb le_enabled then None else if negb ev then None else Some (msg_stop None id).

Definition advertising_on_state_changed (ev : bool) (id st : Z) : option msg :=
  if negb ev then None else Some (msg_state id st).

(** [adv_manager_init], with the allocator it creates. *)
Definition adv_manager_init (al : T) : adv_manager_t := mk_manager true al [].

Definition adv_manager_cleanup : msg := msg_cleanup.

(** ** Invariant: identifiers in use are exactly those of the advertisers *)

Definition id_used_by (l : list advertiser_t) (i : Z) : Prop := exists a, a ∈ l /\ a.(adv_id) = i + 1.

Record adv_inv (m : adv_manager_t) : Prop := {
  inv_wf : ia_wf m.(adv_allocator);
  inv_max : ia_max m.(adv_allocator) < 255;
  inv_ids : NoDup (map adv_id m.(advertiser_list));
  inv_ptrs : NoDup (map adv_ptr m.(advertiser_list));
  inv_stopped : m.(started) = false -> m.(advertiser_list) = [];
  inv_used : forall i, ia_used m.(adv_allocator) i = true <-> id_used_by m.(advertiser_list) i;
}.

Lemma inv_id_range m a :
  adv_inv m -> a ∈ m.(advertiser_list) -> 1 <= a.(adv_id) <= ia_max m.(adv_allocator) + 1.
Proof.
  intros Hi Ha. assert (ia_used (adv_allocator m) (adv_id a - 1) = true) as Hu.
  { apply (inv_used m Hi). exists a. split; [done|lia]. }
  pose proof (ia_range _ _ (inv_wf m Hi) Hu). lia.
Qed.

Lemma find_in (f : advertiser_t -> bool) l a : find f l = Some a -> a ∈ l /\ f a = true.
Proof. intros H. apply find_some in H as [H1 H2]. split; [by apply list_elem_of_In|done]. Qed.

(** In a list with distinct addresses the element at an address is unique. *)
Lemma ptr_inj l a b :
  NoDup (map adv_ptr l) -> a ∈ l -> b ∈ l -> a.(adv_ptr) = b.(adv_ptr) -> a = b.
Proof.
  induction l as [|x l IH]; simpl; [by intros _ ?%elem_of_nil|].
  intros Hnd Ha Hb He. apply list.NoDup_cons in Hnd as [Hx Hnd].
  apply elem_of_cons in Ha as [->|Ha]; apply elem_of_cons in Hb as [->|Hb]; auto.
  - exfalso. apply Hx, list_elem_of_fmap. eauto.
  - exfalso. apply Hx, list_elem_of_fmap. eauto.
Qed.

Lemma id_inj l a b :
  NoDup (map adv_id l) -> a ∈ l -> b ∈ l -> a.(adv_id) = b.(adv_id) -> a = b.
Proof.
  induction l as [|x l IH]; simpl; [by intros _ ?%elem_of_nil|].
  intros Hnd Ha Hb He. apply list.NoDup_cons in Hnd as [Hx Hnd].
  apply elem_of_cons in Ha as [->|Ha]; apply elem_of_cons in Hb as [->|Hb]; auto.
  - exfalso. apply Hx, list_elem_of_fmap. eauto.
  - exfalso. apply Hx, list_elem_of_fmap. eauto.
Qed.

Lemma NoDup_map_filter {B} (f : advertiser_t -> B) (P : advertiser_t -> Prop) `{!forall x, Decision (P x)} l :
  NoDup (map f l) -> NoDup (map f (filter P l)).
Proof.
  intros Hnd. eapply sublist_NoDup; [exact Hnd|].
  apply (fmap_sublist f), sublist_filter.
Qed.

(** Removing an advertiser and giving its identifier back. *)
Lemma remove_advertiser m a :
  adv_inv m -> a ∈ m.(advertiser_list) ->
  exists m', destroy_advertiser a (delete_advertiser a m).1 = Some m' /\ adv_inv m' /\
    m'.(started) = m.(started) /\ ia_max m'.(adv_allocator) = ia_max m.(adv_allocator) /\
    m'.(advertiser_list) = filter (fun b => b.(adv_ptr) <> a.(adv_ptr)) m.(advertiser_list) /\
    ia_used m'.(adv_allocator) (a.(adv_id) - 1) = false.
Proof.
  intros Hi Ha. pose proof (inv_id_range m a Hi Ha) as Hr. unfold destroy_advertiser. cbn.
  destruct (Z.eqb_spec (adv_id a) 0); [lia|].
  assert (ia_used (adv_allocator m) (adv_id a - 1) = true) as Hu.
  { apply (inv_used m Hi). exists a. split; [done|lia]. }
  destruct (ia_free_spec _ _ (inv_wf m Hi) Hu) as (al & -> & Hwf & Hmax & Hused). cbn [mbind option_bind].
  eexists. split; [done|]. cbn. rewrite Hused, bool_decide_eq_true_2 by done.
  split; [|done]. split; cbn.
  - done.
  - rewrite Hmax. apply (inv_max m Hi).
  - apply NoDup_map_filter, (inv_ids m Hi).
  - apply NoDup_map_filter, (inv_ptrs m Hi).
  - intros Hs. rewrite (inv_stopped m Hi Hs) in Ha. by apply elem_of_nil in Ha.
  - intros i. rewrite Hused, andb_true_iff, negb_true_iff, bool_decide_eq_false, (inv_used m Hi).
    split.
    + intros [Hne (b & Hb & Hid)]. exists b. split; [|done]. apply list_elem_of_filter. split; [|done].
      intros He. rewrite (ptr_inj _ b a (inv_ptrs m Hi) Hb Ha He) in Hid. lia.
    + intros (b & Hb & Hid). apply list_elem_of_filter in Hb as [Hne Hb]. split; [|by exists b].
      intros ->. apply Hne. f_equal. apply (id_inj _ b a (inv_ids m Hi) Hb Ha). lia.
Qed.

(** ** Messages *)

(** A start message carries an advertiser just allocated and its data; a timer
    expires for an advertiser that has it armed. *)
Definition msg_ok (x : msg) (m : adv_manager_t) : Prop :=
  match x with
  | msg_start _ _ a info =>
      a.(adv_id) = 0 /\ (a.(adv_ptr) ∉ map adv_ptr m.(advertiser_list)) /\ is_Some info
  | msg_timeout p => exists a, a ∈ m.(advertiser_list) /\ a.(adv_ptr) = p /\ is_Some a.(adv_start)
  | _ => True
  end.

(** What the start of an advertiser comes to. *)
Lemma start_event_cases sal h a info m :
  adv_inv m -> m.(started) = true -> a.(adv_id) = 0 -> is_Some info ->
  a.(adv_ptr) ∉ map adv_ptr m.(advertiser_list) ->
  exists m' o, advertiser_start_event sal h a info m = Some (m', o) /\ adv_inv m' /\ m'.(started) = true /\
    ((exists id i, info = Some i /\ 1 <= id <= ia_max m.(adv_allocator) + 1 /\
        (forall b, b ∈ m.(advertiser_list) -> b.(adv_id) <> id) /\
        m'.(advertiser_list) = m.(advertiser_list) ++ [mk_advertiser a.(adv_ptr) a.(remote) id h] /\
        o = [bt_sal_le_start_adv id i; service_loop_timer_no_repeating 1000 h] /\ is_success sal = true) \/
     (exists s, m'.(advertiser_list) = m.(advertiser_list) /\
        (forall i, ia_used m'.(adv_allocator) i = ia_used m.(adv_allocator) i) /\
        list.last o = Some (on_advertising_start (get_adver a) 0 s) /\ s <> BT_ADV_STATUS_SUCCESS)).
Proof.
  intros Hi Hst Hid [i ->] Hp. unfold advertiser_start_event. rewrite Hst. cbn [negb].
  pose proof (ia_max_bound _ (inv_wf m Hi)) as Hmb. pose proof (inv_max m Hi) as Hmax.
  destruct (ia_alloc_spec _ (inv_wf m Hi)) as (r & al & -> & Hwf & Hm' & Hcase). cbn [mbind option_bind].
  destruct Hcase as [(Hr & Hfree & Hused)|(-> & -> & Hfull)].
  - destruct (Z.ltb_spec r 0); [lia|]. rewrite (uint_small 8 (r + 1)) by (unfold in_u; lia). cbn [adv_ptr remote adv_id adv_start].
    destruct (is_success sal).
    + do 2 eexists. split; [done|]. cbn. split; [|split; [done|left]].
      * split; cbn; [done|lia| | |by rewrite Hst|].
        -- rewrite map_app. apply list.NoDup_app. split; [apply (inv_ids m Hi)|]. split; [|apply NoDup_singleton].
           intros x (b & -> & Hb)%list_elem_of_fmap Hx%list_elem_of_singleton.
           assert (ia_used (adv_allocator m) r = true); [|congruence].
           apply (inv_used m Hi). by exists b.
        -- rewrite map_app. apply list.NoDup_app. split; [apply (inv_ptrs m Hi)|]. split; [|apply NoDup_singleton].
           intros x Hx ->%list_elem_of_singleton. done.
        -- intros j. rewrite Hused, orb_true_iff, bool_decide_eq_true, (inv_used m Hi). split.
           ++ intros [->|(b & Hb & Hj)].
              ** eexists. split; [apply elem_of_app; right; by left|done].
              ** exists b. split; [apply elem_of_app; by left|done].
           ++ intros (b & [Hb|Hb%list_elem_of_singleton]%elem_of_app & Hj); [right; by exists b|].
              left. subst b. simpl in Hj. lia.
      * exists (r + 1), i. split; [done|]. split; [lia|]. split; [|done].
        intros b Hb E. assert (ia_used (adv_allocator m) r = true); [|congruence].
        apply (inv_used m Hi). exists b. split; [done|lia].
    + unfold destroy_advertiser. cbn [adv_id adv_allocator set_alloc].
      destruct (Z.eqb_spec (r + 1) 0); [lia|]. replace (r + 1 - 1) with r by lia.
      assert (ia_used al r = true) as Hur by (by rewrite Hused, bool_decide_eq_true_2).
      destruct (ia_free_spec al r Hwf Hur) as (al2 & -> & Hwf2 & Hm2 & Hused2). cbn [mbind option_bind].
      assert (forall j, ia_used al2 j = ia_used (adv_allocator m) j) as Hsame.
      { intros j. rewrite Hused2, Hused. case_bool_decide as E; [by subst|done]. }
      do 2 eexists. split; [done|]. cbn. split; [|split; [done|right]].
      * split; cbn; [done|lia|apply (inv_ids m Hi)|apply (inv_ptrs m Hi)|by rewrite Hst|].
        intros j. rewrite Hsame. apply (inv_used m Hi).
      * eexists. split; [done|]. split; [exact Hsame|]. by split.
  - cbn [Z.ltb Z.compare]. unfold destroy_advertiser. rewrite Hid. cbn [Z.eqb mbind option_bind].
    do 2 eexists. split; [done|]. cbn. split; [|split; [done|right]].
    + split; cbn; apply Hi.
    + eexists. split; [done|]. split; [done|]. by split.
Qed.

Lemma retime_inv m a :
  adv_inv m -> a ∈ m.(advertiser_list) ->
  adv_inv (set_list (map (fun b => if bool_decide (b.(adv_ptr) = a.(adv_ptr))
                                  then mk_advertiser a.(adv_ptr) a.(remote) a.(adv_id) None else b)
                       m.(advertiser_list)) m).
Proof.
  intros Hi Ha. set (f := fun b => _).
  assert (forall b, b ∈ advertiser_list m -> adv_ptr (f b) = adv_ptr b /\ adv_id (f b) = adv_id b) as Hf.
  { intros b Hb. unfold f. case_bool_decide as E; [|done].
    rewrite (ptr_inj _ b a (inv_ptrs m Hi) Hb Ha E). done. }
  assert (forall l, (forall b, b ∈ l -> adv_ptr (f b) = adv_ptr b /\ adv_id (f b) = adv_id b) ->
    map adv_ptr (map f l) = map adv_ptr l /\ map adv_id (map f l) = map adv_id l) as Hmaps.
  { induction l as [|x l IH]; intros Hl; simpl; [done|].
    destruct (Hl x) as [-> ->]; [by left|]. destruct IH as [-> ->]; [|done]. intros b Hb. apply Hl. by right. }
  destruct (Hmaps _ Hf) as [Hp Hd]. split; cbn; rewrite ?Hp, ?Hd; try apply Hi.
  { intros Hs. by rewrite (inv_stopped m Hi Hs). }
  intros i. rewrite (inv_used m Hi). split; intros (b & Hb & Hj).
  - exists (f b). split; [by apply list_elem_of_fmap_2|]. by rewrite (proj2 (Hf b Hb)).
  - apply list_elem_of_fmap in Hb as (c & -> & Hc). exists c. split; [done|]. by rewrite <- (proj2 (Hf c Hc)).
Qed.

(** The clean-up loop over advertisers still in the list. *)
Lemma cleanup_loop_inv l m :
  adv_inv m -> NoDup (map adv_ptr l) -> (forall a, a ∈ l -> a ∈ m.(advertiser_list)) ->
  exists m' o, cleanup_loop l m = Some (m', o) /\ adv_inv m' /\
    (forall b, b ∈ m'.(advertiser_list) -> b ∈ m.(advertiser_list) /\ b ∉ l).
Proof.
  revert m. induction l as [|a l IH]; intros m Hi Hnd Hl; simpl.
  { do 2 eexists. split; [done|]. split; [done|]. intros b Hb. split; [done|]. apply not_elem_of_nil. }
  apply list.NoDup_cons in Hnd as [Ha Hnd].
  destruct (remove_advertiser m a Hi) as (m1 & Hd & Hi1 & _ & _ & Hl1 & _); [apply Hl; by left|].
  cbn in Hd. rewrite Hd. cbn [mbind option_bind].
  destruct (IH m1 Hi1 Hnd) as (m2 & o & -> & Hi2 & Hsub).
  { intros b Hb. rewrite Hl1. apply list_elem_of_filter. split; [|apply Hl; by right].
    intros E. apply Ha. rewrite <- E. by apply list_elem_of_fmap_2. }
  cbn [mbind option_bind]. do 2 eexists. split; [done|]. cbn [fst]. split; [done|].
  intros b Hb. destruct (Hsub b Hb) as [Hb1 Hb2]. rewrite Hl1 in Hb1.
  apply list_elem_of_filter in Hb1 as [Hne Hb1]. split; [done|]. rewrite not_elem_of_cons.
  split; [|done]. intros ->. done.
Qed.

Lemma adv_msg_inv x m :
  adv_inv m -> msg_ok x m -> exists m' o, run_msg x m = Some (m', o) /\ adv_inv m'.
Proof.
  intros Hi Hx. destruct x as [sal h a info|adver id|id st|p|]; cbn [run_msg msg_ok] in *.
  - destruct Hx as (Hid & Hp & Hinfo). destruct (started m) eqn:Hst.
    + destruct (start_event_cases sal h a info m Hi Hst Hid Hinfo Hp) as (m' & o & -> & Hi' & _). eauto.
    + unfold advertiser_start_event. rewrite Hst. cbn. eauto.
  - unfold advertiser_stop_event. case_match; [by eauto|]. case_match; by eauto.
  - unfold advertiser_notify_state. case_match; [by eauto|].
    destruct (get_advertiser_if_exist id m) as [a|] eqn:E; [|by eauto].
    apply find_in in E as [Ha _]. destruct (st =? LE_ADVERTISING_STARTED); [|destruct (st =? LE_ADVERTISING_STOPPED); [|by eauto]].
    + do 2 eexists. split; [done|]. by apply retime_inv.
    + destruct (remove_advertiser m a Hi Ha) as (m1 & Hd & Hi1 & _). cbn in *. rewrite Hd. cbn. eauto.
  - destruct Hx as (a0 & Ha0 & _). unfold start_advertising_timeout.
    destruct (started m) eqn:Hst; [|rewrite (inv_stopped m Hi Hst) in Ha0; by apply elem_of_nil in Ha0].
    cbn [negb]. destruct (is_advertiser_exist p m) as [a|] eqn:E; [|by eauto].
    apply find_in in E as [Ha _].
    destruct (remove_advertiser m a Hi Ha) as (m1 & Hd & Hi1 & _). cbn in *. rewrite Hd. cbn. eauto.
  - unfold advertisers_cleanup. case_match; [by eauto|].
    destruct (cleanup_loop_inv (advertiser_list m) m Hi (inv_ptrs m Hi)) as (m1 & o & -> & Hi1 & Hsub); [done|].
    cbn. do 2 eexists. split; [done|]. split; cbn; try apply Hi1. intros _.
    apply elem_of_nil_inv. intros b Hb. by destruct (Hsub b Hb).
Qed.

Definition adv_step (m m' : adv_manager_t) : Prop :=
  exists x o, msg_ok x m /\ run_msg x m = Some (m', o).

Definition adv_initial (m : adv_manager_t) : Prop :=
  exists al, m = adv_manager_init al /\ ia_wf al /\ ia_max al < 255 /\ forall i, ia_used al i = false.

Lemma reachable_adv_inv m : reachable adv_initial adv_step m -> adv_inv m.
Proof.
  revert m. apply reachable_inv.
  - intros m (al & -> & Hwf & Hmax & Hu). split; cbn; try done; [constructor..|].
    intros i. rewrite Hu. split; [done|]. intros (a & Ha & _). by apply elem_of_nil in Ha.
  - intros m m' Hi (x & o & Hx & Hr). destruct (adv_msg_inv x m Hi Hx) as (m1 & o1 & Hr1 & Hi1).
    rewrite Hr in Hr1. by simplify_eq.
Qed.

End Manager.
Arguments adv_manager_t : clear implicits.

(** ** Claims *)

(** C33: With an allocator that keeps its promise, the advertising manager
    never frees an identifier that is not in use, whatever the order of
    starts, stops, notifications and timeouts; the identifiers in use are at
    all times exactly those of the advertisers in its list (none leaks), each
    is held by one advertiser, and all are within 1..max+1. *)
Theorem advertising_ids_exact {T} `{!IdAllocator T} (m : adv_manager_t T) (x : msg) :
  reachable adv_initial adv_step m -> msg_ok x m ->
  is_Some (run_msg x m) /\ NoDup (map adv_id m.(advertiser_list)) /\
  (forall i, ia_used m.(adv_allocator) i = true <-> exists a, a ∈ m.(advertiser_list) /\ a.(adv_id) = i + 1) /\
  (forall a, a ∈ m.(advertiser_list) -> 1 <= a.(adv_id) <= ia_max m.(adv_allocator) + 1).
Proof.
  intros Hr Hx. pose proof (reachable_adv_inv m Hr) as Hi.
  destruct (adv_msg_inv x m Hi Hx) as (m' & o & -> & _).
  split; [by eexists|]. split; [apply Hi|]. split; [apply Hi|]. intros a Ha. by apply inv_id_range.
Qed.

(** The manager of a build with two advertisers. *)
Definition demo_manager : adv_manager_t IndexAllocator.index_allocator_t :=
  adv_manager_init (IndexAllocator.index_allocator_create 2).

Definition demo_info : advertising_info_t := advertiser_info_copy [1; 2] (Some [2; 1; 6]) 3 None 0.

Lemma demo_alloc_wf : IndexAllocator.wf (IndexAllocator.index_allocator_create 2).
Proof. apply IndexAllocator.wf_create. lia. Qed.

Lemma demo_adv_reachable : reachable adv_initial adv_step demo_manager.
Proof.
  apply reach_init. exists (IndexAllocator.index_allocator_create 2). split; [done|].
  split; [exact demo_alloc_wf|]. split; [done|]. intros i.
  destruct (IndexAllocator.filled_create 2) as (_ & _ & _ & Hu); [lia|].
  cbn. rewrite Hu. apply bool_decide_eq_false_2. lia.
Qed.

Lemma advertising_ids_exact_witness :
  is_Some (run_msg (msg_start BT_STATUS_SUCCESS (Some 1%nat) (alloc_new_advertiser 7 None) (Some demo_info)) demo_manager).
Proof.
  apply (advertising_ids_exact demo_manager
           (msg_start BT_STATUS_SUCCESS (Some 1%nat) (alloc_new_advertiser 7 None) (Some demo_info))).
  - exact demo_adv_reachable.
  - split; [reflexivity|]. split; [apply not_elem_of_nil|eauto].
Defined.

(** Starting an advertiser on a running manager ends in one of two ways:
    it is in the list with an identifier of 1..max+1 that no other advertiser
    has, the stack was given that identifier with the caller's data and the
    start timer runs; or the caller is told of the failure and neither the
    list nor the identifiers in use have changed. *)
Theorem advertiser_start_outcome {T} `{!IdAllocator T} (m : adv_manager_t T) (sal : bt_status_t)
    (h : option timer_h) (p : N) (rem : option N) (info : advertising_info_t) :
  reachable adv_initial adv_step m -> m.(started) = true ->
  (p ∉ map adv_ptr m.(advertiser_list)) ->
  exists m' o, advertiser_start_event sal h (alloc_new_advertiser p rem) (Some info) m = Some (m', o) /\
    ((exists id, 1 <= id <= ia_max m.(adv_allocator) + 1 /\
        (forall b, b ∈ m.(advertiser_list) -> b.(adv_id) <> id) /\
        m'.(advertiser_list) = m.(advertiser_list) ++ [mk_advertiser p rem id h] /\
        o = [bt_sal_le_start_adv id info; service_loop_timer_no_repeating 1000 h]) \/
     (exists s, m'.(advertiser_list) = m.(advertiser_list) /\
        (forall i, ia_used m'.(adv_allocator) i = ia_used m.(adv_allocator) i) /\
        list.last o = Some (on_advertising_start (default p rem) 0 s) /\ s <> BT_ADV_STATUS_SUCCESS)).
Proof.
  intros Hr Hst Hp. pose proof (reachable_adv_inv m Hr) as Hi.
  destruct (start_event_cases sal h (alloc_new_advertiser p rem) (Some info) m Hi Hst eq_refl (ex_intro _ _ eq_refl) Hp)
    as (m' & o & H1 & _ & _ & Hcase). exists m', o. split; [done|].
  destruct Hcase as [(id & i & [= <-] & H2 & H3 & H4 & H5 & _)|Hfail]; [left; by exists id|by right].
Qed.

Lemma advertiser_start_outcome_witness :
  exists m' o, advertiser_start_event BT_STATUS_SUCCESS (Some 1%nat) (alloc_new_advertiser 7 None) (Some demo_info)
    demo_manager = Some (m', o).
Proof.
  destruct (advertiser_start_outcome demo_manager BT_STATUS_SUCCESS (Some 1%nat) 7 None demo_info)
    as (m' & o & H & _).
  - exact demo_adv_reachable.
  - reflexivity.
  - apply not_elem_of_nil.
  - exists m', o. exact H.
Defined.

(** A start message that is handled after the manager has been cleaned up
    returns without a word: the caller is never called back and the
    advertiser and its data are not freed. *)
Theorem start_after_cleanup_is_lost (m : adv_manager_t IndexAllocator.index_allocator_t) sal h a info :
  m.(started) = false -> advertiser_start_event sal h a info m = Some (m, []).
Proof. intros H. unfold advertiser_start_event. by rewrite H. Qed.

End Advertising.
