(* ===== verification/Fallible.v ===== *)
(** * Handlers that can go wrong

    [E S O A]: like [M] of the prelude, code over a component state [S] that
    calls out ([O]) and returns an [A]; in addition it has no result at all
    ([None]) where the C code would use memory that is not there (a freed
    object, NULL, an index out of an array) or fail an assertion.

    [wp m Q s]: run in [s], [m] does have a result, and it satisfies [Q].  The
    components that use [E] are proved safe by proving [wp]s, with one rule
    per construct. *)

From S2P Require Import Prelude.

Definition E (S O A : Type) : Type := S -> option (A * S * list O).

Section Ops.
Context {S O : Type}.

Definition eret {A} (a : A) : E S O A := fun s => Some (a, s, []).

Definition ebind {A B} (m : E S O A) (f : A -> E S O B) : E S O B :=
  fun s =>
    match m s with
    | Some (a, s1, o1) =>
        match f a s1 with
        | Some (b, s2, o2) => Some (b, s2, o1 ++ o2)
        | None => None
        end
    | None => None
    end.

Definition efail {A} : E S O A := fun _ => None.
Definition egets {A} (f : S -> A) : E S O A := fun s => Some (f s, s, []).
Definition emodify (f : S -> S) : E S O unit := fun s => Some (tt, f s, []).
Definition eemit (o : O) : E S O unit := fun s => Some (tt, s, [o]).
Definition ewhen (b : bool) (m : E S O unit) : E S O unit := if b then m else eret tt.

(** A value read from the state that must be there. *)
Definition eread {A} (f : S -> option A) : E S O A :=
  fun s => match f s with Some a => Some (a, s, []) | None => None end.

(** The [for] loops whose body does not break. *)
Fixpoint efor {A} (l : list A) (f : A -> E S O unit) : E S O unit :=
  match l with
  | [] => eret tt
  | x :: l => ebind (f x) (fun _ => efor l f)
  end.

(** ** Weakest preconditions *)

Definition wp {A} (m : E S O A) (Q : A -> S -> list O -> Prop) (s : S) : Prop :=
  match m s with Some (a, s', o) => Q a s' o | None => False end.
End Ops.

Declare Scope fall_scope.
Delimit Scope fall_scope with fall.
Notation "x <- m ;; k" := (ebind m (fun x => k))
  (at level 90, m at level 89, right associativity) : fall_scope.
Notation "m ;;; k" := (ebind m (fun _ => k))
  (at level 90, right associativity) : fall_scope.

Section Rules.
Context {S O : Type}.
Implicit Types s : S.

Lemma wp_run {A} (m : E S O A) Q s : wp m Q s -> exists a s' o, m s = Some (a, s', o) /\ Q a s' o.
Proof. unfold wp. destruct (m s) as [[[a s'] o]|]; [|done]. intros H. by exists a, s', o. Qed.

Lemma run_wp {A} (m : E S O A) (Q : A -> S -> list O -> Prop) s a s' o :
  m s = Some (a, s', o) -> wp m Q s -> Q a s' o.
Proof. unfold wp. by intros ->. Qed.

Lemma wp_mono {A} (m : E S O A) (Q R : A -> S -> list O -> Prop) s :
  (forall a s' o, Q a s' o -> R a s' o) -> wp m Q s -> wp m R s.
Proof. unfold wp. destruct (m s) as [[[a s'] o]|]; auto. Qed.

Lemma wp_ret {A} (a : A) (Q : A -> S -> list O -> Prop) s : wp (eret a) Q s <-> Q a s [].
Proof. done. Qed.

Lemma wp_bind {A B} (m : E S O A) (f : A -> E S O B) (Q : B -> S -> list O -> Prop) s :
  wp (ebind m f) Q s <-> wp m (fun a s1 o1 => wp (f a) (fun b s2 o2 => Q b s2 (o1 ++ o2)) s1) s.
Proof.
  unfold wp, ebind. destruct (m s) as [[[a s1] o1]|]; [|done].
  by destruct (f a s1) as [[[b s2] o2]|].
Qed.

Lemma wp_gets {A} (f : S -> A) (Q : A -> S -> list O -> Prop) s : wp (egets f) Q s <-> Q (f s) s [].
Proof. done. Qed.

Lemma wp_modify (f : S -> S) (Q : unit -> S -> list O -> Prop) s : wp (emodify f) Q s <-> Q tt (f s) [].
Proof. done. Qed.

Lemma wp_emit (o : O) (Q : unit -> S -> list O -> Prop) s : wp (eemit o) Q s <-> Q tt s [o].
Proof. done. Qed.

Lemma wp_read {A} (f : S -> option A) a (Q : A -> S -> list O -> Prop) s :
  f s = Some a -> wp (eread f) Q s <-> Q a s [].
Proof. unfold wp, eread. by intros ->. Qed.

Lemma wp_when (b : bool) (m : E S O unit) (Q : unit -> S -> list O -> Prop) s :
  wp (ewhen b m) Q s <-> (if b then wp m Q s else Q tt s []).
Proof. by destruct b. Qed.

(** An invariant kept by the body holds after the loop, and the loop ends. *)
Lemma wp_for {A} (I : S -> Prop) (l : list A) (f : A -> E S O unit) s :
  (forall x s, x ∈ l -> I s -> wp (f x) (fun _ s' _ => I s') s) -> I s ->
  wp (efor l f) (fun _ s' _ => I s') s.
Proof.
  revert s. induction l as [|x l IH]; intros s Hf HI; simpl; [done|].
  apply wp_bind. eapply wp_mono; [|apply Hf; [by left|done]].
  intros [] s1 o1 H1. cbn in *. apply IH; [|done]. intros y s' Hy. apply Hf. by right.
Qed.

(** The same with an invariant that tells how far the loop has come. *)
Lemma wp_for_seen {A} (I : list A -> S -> list O -> Prop) (l : list A) (f : A -> E S O unit) s :
  (forall pre x post s o, l = pre ++ x :: post -> I pre s o ->
     wp (f x) (fun _ s' o' => I (pre ++ [x]) s' (o ++ o')) s) ->
  I [] s [] -> wp (efor l f) (fun _ s' o => I l s' o) s.
Proof.
  intros Hf HI.
  assert (forall post pre s o, l = pre ++ post -> I pre s o ->
    wp (efor post f) (fun _ s' o' => I l s' (o ++ o')) s) as H.
  { induction post as [|x post IH]; intros pre s1 o Hl H1; simpl.
    - apply wp_ret. rewrite app_nil_r in *. by subst.
    - apply wp_bind. eapply wp_mono; [|by eapply Hf]. intros [] s2 o2 H2. cbn in *.
      eapply wp_mono; [|eapply (IH (pre ++ [x]) s2 (o ++ o2)); [by rewrite <- app_assoc|done]].
      intros [] s3 o3 H3. cbn in *. by rewrite app_assoc. }
  apply (H l [] s []); done.
Qed.
End Rules.

Create Rewrite HintDb wp.
#[export] Hint Rewrite @wp_ret @wp_bind @wp_gets @wp_modify @wp_emit @wp_when : wp.

(** Push [wp] through the constructs of a handler. *)
Ltac wp_simpl := autorewrite with wp; cbn beta.
