(* ===== verification/A2dpService.v ===== *)
(** * The A2DP services (service/profiles/a2dp: source/a2dp_source_service.c, sink/a2dp_sink_service.c, a2dp_device.c)

    Two services of one shape, told apart by the role of their peers
    ([sep]: the peers of the source service are sinks and the other way
    round).  Each keeps a list of devices, every one with a machine of A2dp.v
    and the configuration of its stream, and the peer that is active.

    The list is a head in a static record: its links are NULL ([None]) until
    the service is started and again when it is shut down, and a loop over it
    then fails.  The machine asks its own service for the peer, which is the
    device that it runs for. *)

From S2P Require Import Prelude Fallible Hsm Bytes BtAddr Hci A2dp A2dpCodec.
From coqutil Require Import Datatypes.RecordSetters.
From stdpp Require Import list.
Import UpdaterNotations.

Local Open Scope fall_scope.

Module A2dpService.
Import BtAddr Hci A2dp A2dpCodec.

(** ** State *)

Record a2dp_peer_t := mk_peer { acl_hdl : Z; mtu : Z; codec_config : a2dp_codec_config_t }.

Record a2dp_device_t := mk_device { dev_addr : bt_address_t; a2dp_sm : a2dp_state_machine_t; peer : a2dp_peer_t }.

(** [g_current] ([g_current_config]) and [stream] ([sbc_stream]) are globals of
    the codec files.  [active_peer] is the address it leads to. *)
Record a2dp_global_t := mk_global {
  devices : option (list a2dp_device_t);
  enabled : bool;
  offloading : bool;
  callbacks : bool;
  active_peer : option bt_address_t;
  g_current : a2dp_codec_config_t;
  stream : a2dp_stream_sbc_t;
}.

(** An event with what only the service reads: [config] is its data for
    [CODEC_CONFIG_EVT]. *)
Record svc_event := mk_svc_event { ev : a2dp_event_t; ev_config : a2dp_codec_config_t; ev_mtu : Z; ev_l2c_rcid : Z }.

Inductive out :=
| machine (o : A2dp.out)
| post (e : a2dp_event_t)                       (* do_in_service_loop *)
| bt_sal_a2dp_init
| bt_sal_a2dp_cleanup
| bt_sal_a2dp_sink_start_stream (a : bt_address_t)
| a2dp_audio_init (off : bool)
| a2dp_audio_cleanup
| a2dp_audio_prepare_suspend
| profile_cb (up ok : bool).                    (* of startup and of shutdown *)

(** What the code called answers. *)
Record env := mk_env {
  mem : bool;
  machine_env : A2dp.env;                       (* but for the peer *)
  init_status : bt_status_t;
  acl_handle_of : bt_address_t -> Z;            (* bt_sal_get_acl_connection_handle *)
  build : codec_build;
  vendor_actions : bool;
}.

Abbreviation MS := (E a2dp_global_t out).

(** ** Configurations *)

(** [zalloc] *)
Definition no_sbc : sbc_param_t := mk_sbc_param 0 0 0 0 0 0 0 0.
Definition no_aac : aac_encoder_param_t := mk_aac_param 0 0 0 0 0 0.
Definition no_config : a2dp_codec_config_t := mk_codec_config BTS_A2DP_TYPE_SBC 0 0 0 (replicate 20 0%Z) no_sbc no_aac.
Definition no_peer : a2dp_peer_t := mk_peer 0 0 no_config.

Section Service.
Context (cfg : config) (e : env) (sep : peer_sep_t).

(** ** Devices *)

Fixpoint position (a : bt_address_t) (l : list a2dp_device_t) : option nat :=
  match l with
  | [] => None
  | d :: l => if (bt_addr_compare d.(dev_addr) a =? 0)%Z then Some 0 else S <$> position a l
  end.

Definition the_list : MS (list a2dp_device_t) := eread devices.

Definition find_a2dp_device_by_addr (a : bt_address_t) : MS (option nat) := l <- the_list;; eret (position a l).

Definition device (i : nat) : MS a2dp_device_t := l <- the_list;; eread (fun _ => l !! i).
Definition upd_device (i : nat) (f : a2dp_device_t -> a2dp_device_t) : MS unit :=
  d <- device i;; emodify {! devices ::= option_map (<[i := f d]>) }.

(** The machine asks its service for the peer. *)
Definition env_for (p : a2dp_peer_t) : A2dp.env := {! peer_acl_hdl := Some p.(acl_hdl) } e.(machine_env).

(** The machine of a device runs a function. *)
Definition run_machine (i : nat) (m : A2dp.env -> MA unit) : MS unit :=
  d <- device i;;
  let r := m (env_for d.(peer)) d.(a2dp_sm) in
  upd_device i {! a2dp_sm := r.1.2 };;;
  fun s => Some (tt, s, map machine r.2).

Definition handle_event (e0 : a2dp_event_t) (me : A2dp.env) : MA unit :=
  mbind_ (a2dp_state_machine_handle_event cfg me e0) (fun _ => mret_ tt).

Definition a2dp_device_new (a : bt_address_t) : a2dp_device_t := mk_device a (a2dp_state_machine_new cfg e.(machine_env) sep a) no_peer.

Definition find_or_create_device (a : bt_address_t) : MS (option nat) :=
  i <- find_a2dp_device_by_addr a;;
  match i with
  | Some i => eret (Some i)
  | None =>
      if negb e.(mem) then eret None
      else
        l <- the_list;;
        emodify {! devices := Some (l ++ [a2dp_device_new a]) };;;
        eret (Some (length l))
  end.

(** The two events of [a2dp_device_delete] and the end of the machine; they
    are written to without a check for memory. *)
Definition device_end (me : A2dp.env) : MA unit :=
  mbind_ (handle_event (a2dp_event_new DISCONNECT_REQ bt_addr_empty) me) (fun _ =>
  mbind_ (handle_event (a2dp_event_new DISCONNECTED_EVT bt_addr_empty) me) (fun _ => a2dp_state_machine_destory cfg)).

(** The device at the head of the list is deleted. *)
Definition a2dp_device_delete : MS unit :=
  if negb e.(mem) then efail
  else
    run_machine 0 device_end;;;
    emodify {! devices ::= option_map tail }.

(** [acl]: for the source service. *)
Definition set_active_peer (a : bt_address_t) (acl : option Z) : MS unit :=
  i <- find_a2dp_device_by_addr a;;
  match i with
  | None => match sep with SEP_SNK => eret tt | SEP_SRC => efail end
  | Some i =>
      emodify {! active_peer := Some a };;;
      match acl with Some h => upd_device i {! peer ::= {! acl_hdl := h } } | None => eret tt end
  end.

(** ** Codecs *)

Definition to_sink : bool := bool_decide (sep = SEP_SNK).

(** The configuration of the device is changed and becomes the current one. *)
Definition codec_config_set (i : nat) (m : Z) : MS unit :=
  d <- device i;;
  c <- eread (fun _ => a2dp_codec_config_set e.(build) to_sink d.(peer).(codec_config) m);;
  upd_device i {! peer ::= {! codec_config := c } };;;
  emodify {! g_current := c }.

Definition save_a2dp_codec_config (i : nat) (c : a2dp_codec_config_t) : MS unit :=
  upd_device i {! peer ::= {! codec_config := c } };;; codec_config_set i 0.

Definition get_offload_config : MS (option a2dp_offload_config_t) :=
  c <- egets g_current;; s <- egets stream;; eret (a2dp_codec_get_offload_config s c).

(** [param[OFFLOAD_START_REQ]]: the array has as many bytes as the event's code. *)
Definition OFFLOAD_START_REQ_CODE : Z := if cfg.(partial_reconn) then 22 else 21.

Definition offload_event (ty : a2dp_event_type_t) (a : bt_address_t) (cmd : list Z) : a2dp_event_t :=
  mk_event ty (mk_event_data a (Z.of_nat (length cmd)) cmd (mk_hci 0 []) []).

(** The event as it is after this. *)
Definition a2dp_service_prepare_handle (se : svc_event) : MS a2dp_event_t :=
  let a := se.(ev).(event_data).(bd_addr) in
  match se.(ev).(event) with
  | CONNECTED_EVT => set_active_peer a (Some (e.(acl_handle_of) a));;; eret se.(ev)
  | STREAM_STARTED_EVT =>
      off <- egets offloading;;
      if negb off then eret se.(ev)
      else
        i <- find_a2dp_device_by_addr a;;
        match i with
        | None => eret se.(ev)
        | Some i =>
            d <- device i;;
            let c := {! cfg_l2c_rcid := se.(ev_l2c_rcid); cfg_acl_hdl := d.(peer).(acl_hdl) } d.(peer).(codec_config) in
            save_a2dp_codec_config i c;;;
            o <- get_offload_config;;
            match o ≫= a2dp_offload_start_builder e.(vendor_actions) with
            | None => eret se.(ev)
            | Some cmd =>
                if negb (Z.of_nat (length cmd) <=? CONFIG_VSC_MAX_LEN)%Z || negb e.(mem) then efail
                else eret (mk_event OFFLOAD_START_REQ ({! size := Z.of_nat (length cmd); cmd_data := cmd } se.(ev).(event_data)))
            end
        end
  | STREAM_CLOSED_EVT | STREAM_SUSPENDED_EVT =>
      off <- egets offloading;;
      if negb off then eret se.(ev)
      else
        o <- get_offload_config;;
        match o ≫= a2dp_offload_stop_builder e.(vendor_actions) with
        | None => eret se.(ev)
        | Some cmd =>
            if negb (Z.of_nat (length cmd) <=? OFFLOAD_START_REQ_CODE)%Z then efail
            else ewhen e.(mem) (eemit (post (offload_event OFFLOAD_STOP_REQ a cmd)));;; eret se.(ev)
        end
  | _ => eret se.(ev)
  end.

(** ** Starting and stopping *)

(** [source_startup] and [sink_startup] *)
Definition startup : MS unit :=
  emodify {! devices := Some [] };;;
  eemit bt_sal_a2dp_init;;;
  if negb (is_success e.(init_status)) then emodify {! devices := None };;; eemit (profile_cb true false)
  else
    off <- egets offloading;;
    eemit (a2dp_audio_init off);;;
    emodify {! enabled := true };;;
    eemit (profile_cb true true).

Definition shutdown : MS unit :=
  emodify {! enabled := false };;;
  eemit a2dp_audio_cleanup;;;
  l <- the_list;;
  efor l (fun _ => a2dp_device_delete);;;
  emodify {! devices := None };;;
  eemit bt_sal_a2dp_cleanup;;;
  emodify {! active_peer := None };;;
  eemit (profile_cb false true).

(** ** Events *)

Definition to_machine (i : nat) (e0 : a2dp_event_t) : MS unit := run_machine i (handle_event e0).

(** Events when the service is not enabled are dropped. *)
Definition when_enabled (ty : a2dp_event_type_t) (m : MS unit) : MS unit :=
  on <- egets enabled;; if negb on && negb (bool_decide (ty = A2DP_STARTUP)) then eret tt else m.

Definition codec_config_evt (se : svc_event) : MS unit :=
  i <- find_or_create_device se.(ev).(event_data).(bd_addr);;
  match i with None => eret tt | Some i => save_a2dp_codec_config i se.(ev_config) end.

Definition a2dp_service_handle_event (se : svc_event) : MS unit :=
  when_enabled se.(ev).(event)
    match se.(ev).(event) with
    | A2DP_STARTUP => startup
    | A2DP_SHUTDOWN => shutdown
    | CODEC_CONFIG_EVT => codec_config_evt se
    | STREAM_MTU_CONFIG_EVT =>
        i <- find_or_create_device se.(ev).(event_data).(bd_addr);;
        match i with
        | None => eret tt
        | Some i => upd_device i {! peer ::= {! mtu := se.(ev_mtu) } };;; codec_config_set i se.(ev_mtu)
        end
    | _ =>
        i <- find_or_create_device se.(ev).(event_data).(bd_addr);;
        match i with None => eret tt | Some i => e0 <- a2dp_service_prepare_handle se;; to_machine i e0 end
    end.

Definition a2dp_snk_service_handle_event (se : svc_event) : MS unit :=
  let a := se.(ev).(event_data).(bd_addr) in
  when_enabled se.(ev).(event)
    match se.(ev).(event) with
    | A2DP_STARTUP => startup
    | A2DP_SHUTDOWN => shutdown
    | CODEC_CONFIG_EVT => codec_config_evt se
    | PEER_STREAM_START_REQ => eemit (bt_sal_a2dp_sink_start_stream a)
    | ty =>
        i <- find_or_create_device a;;
        match i with
        | None => eret tt
        | Some i =>
            ewhen (bool_decide (ty = CONNECTED_EVT)) (set_active_peer a None);;;
            to_machine i se.(ev)
        end
    end.

Definition handle_service_event (se : svc_event) : MS unit :=
  match sep with SEP_SNK => a2dp_service_handle_event se | SEP_SRC => a2dp_snk_service_handle_event se end.

(** [do_in_a2dp_service] of a new event, which may be NULL. *)
Definition do_in_service (ty : a2dp_event_type_t) (a : bt_address_t) : MS unit := ewhen e.(mem) (eemit (post (a2dp_event_new ty a))).

(** ** The media side *)

Definition for_active (f : bt_address_t -> MS unit) : MS unit :=
  p <- egets active_peer;; match p with None => eret tt | Some a => f a end.

Definition a2dp_source_stream_start : MS unit := for_active (do_in_service STREAM_START_REQ).
Definition a2dp_source_stream_stop : MS unit := for_active (do_in_service STREAM_SUSPEND_REQ).
Definition a2dp_source_stream_prepare_suspend : MS unit := eemit a2dp_audio_prepare_suspend.
Definition codec_state_change : MS unit := for_active (do_in_service DEVICE_CODEC_STATE_CHANGE_EVT).

(** A question about the machine of the active peer. *)
Definition ask_active (f : a2dp_state_machine_t -> bool) : MS bool :=
  p <- egets active_peer;;
  match p with
  | None => eret false
  | Some a =>
      i <- find_or_create_device a;;
      match i with None => eret false | Some i => d <- device i;; eret (f d.(a2dp_sm)) end
  end.

Definition in_state (c : state) (sm : a2dp_state_machine_t) : bool := (a2dp_state_machine_get_state sm =? value_of c)%Z.

Definition stream_ready : MS bool :=
  ask_active (fun sm => in_state opened_state sm || match sep with SEP_SNK => in_state started_state sm | SEP_SRC => false end).

Definition stream_started : MS bool :=
  ask_active (fun sm =>
    match sep with SEP_SNK => negb (a2dp_state_machine_is_pending_stop sm) | SEP_SRC => true end && in_state started_state sm).

(** ** The interface *)

(** [a2dp_source_find_peer]: does not look whether the service is enabled. *)
Definition find_peer (a : bt_address_t) : MS (option a2dp_peer_t) :=
  i <- find_a2dp_device_by_addr a;;
  match i with None => eret None | Some i => d <- device i;; eret (Some d.(peer)) end.

(** A question about the machine of an address. *)
Definition ask_device {A} (no : A) (a : bt_address_t) (f : a2dp_state_machine_t -> A) : MS A :=
  on <- egets enabled;;
  if negb on then eret no
  else
    i <- find_a2dp_device_by_addr a;;
    match i with None => eret no | Some i => d <- device i;; eret (f d.(a2dp_sm)) end.

Definition is_connected (a : bt_address_t) : MS bool :=
  ask_device false a (fun sm => bool_decide (a2dp_state_machine_get_connection_state sm = PROFILE_STATE_CONNECTED)).
Definition is_playing (a : bt_address_t) : MS bool := ask_device false a (in_state started_state).
Definition get_connection_state (a : bt_address_t) : MS profile_connection_state_t :=
  ask_device PROFILE_STATE_DISCONNECTED a a2dp_state_machine_get_connection_state.

(** Of the source service: a connection state is returned for a status, and it is 0. *)
Definition disabled_status : bt_status_t := match sep with SEP_SNK => BT_STATUS_SUCCESS | SEP_SRC => BT_STATUS_FAIL end.

Definition request (ty : a2dp_event_type_t) (a : bt_address_t) : MS bt_status_t :=
  on <- egets enabled;; if negb on then eret disabled_status else do_in_service ty a;;; eret BT_STATUS_SUCCESS.

Definition connect (a : bt_address_t) : MS bt_status_t := request CONNECT_REQ a.
Definition disconnect (a : bt_address_t) : MS bt_status_t := request DISCONNECT_REQ a.

(** The new event is written to without a check. *)
Definition profile_startup : MS bt_status_t :=
  on <- egets enabled;;
  if on then eret (match sep with SEP_SNK => BT_STATUS_BUSY | SEP_SRC => BT_STATUS_NOT_READY end)
  else if negb e.(mem) then efail else eemit (post (a2dp_event_new A2DP_STARTUP bt_addr_empty));;; eret BT_STATUS_SUCCESS.

Definition profile_shutdown : MS bt_status_t :=
  on <- egets enabled;;
  if negb on then eret BT_STATUS_SUCCESS
  else if negb e.(mem) then efail else eemit (post (a2dp_event_new A2DP_SHUTDOWN bt_addr_empty));;; eret BT_STATUS_SUCCESS.

Definition profile_init : MS bt_status_t := emodify {! callbacks := true };;; eret BT_STATUS_SUCCESS.
Definition profile_cleanup : MS unit := emodify {! active_peer := None; callbacks := false }.
Definition process_msg (off : bool) : MS unit := emodify {! offloading := off }.
End Service.

(** ** The two services by name *)

Definition source_startup (e : env) := startup e.
Definition source_shutdown (cfg : config) (e : env) := shutdown cfg e.
Definition a2dp_source_find_peer := find_peer.
Definition a2dp_source_stream_ready (cfg : config) (e : env) := stream_ready cfg e SEP_SNK.
Definition a2dp_source_stream_started (cfg : config) (e : env) := stream_started cfg e SEP_SNK.
Definition a2dp_source_codec_state_change (e : env) := codec_state_change e.
Definition a2dp_source_init := profile_init.
Definition a2dp_source_cleanup := profile_cleanup.
Definition a2dp_source_startup (e : env) := profile_startup e SEP_SNK.
Definition a2dp_source_shutdown (e : env) := profile_shutdown e.
Definition a2dp_source_process_msg := process_msg.
Definition a2dp_source_is_connected := is_connected.
Definition a2dp_source_is_playing := is_playing.
Definition a2dp_source_get_connection_state := get_connection_state.
Definition a2dp_source_connect (e : env) := connect e SEP_SNK.
Definition a2dp_source_disconnect (e : env) := disconnect e SEP_SNK.

Definition sink_startup (e : env) := startup e.
Definition sink_shutdown (cfg : config) (e : env) := shutdown cfg e.
Definition a2dp_sink_find_peer := find_peer.
Definition a2dp_sink_stream_ready (cfg : config) (e : env) := stream_ready cfg e SEP_SRC.
Definition a2dp_sink_stream_started (cfg : config) (e : env) := stream_started cfg e SEP_SRC.
Definition a2dp_sink_codec_state_change (e : env) := codec_state_change e.
Definition a2dp_sink_init := profile_init.
Definition a2dp_sink_cleanup := profile_cleanup.
Definition a2dp_sink_startup (e : env) := profile_startup e SEP_SRC.
Definition a2dp_sink_shutdown (e : env) := profile_shutdown e.
Definition a2dp_sink_process_msg := process_msg.
Definition a2dp_sink_is_connected := is_connected.
Definition a2dp_sink_is_playing := is_playing.
Definition a2dp_sink_get_connection_state := get_connection_state.
Definition a2dp_sink_connect (e : env) := connect e SEP_SRC.
Definition a2dp_sink_disconnect (e : env) := disconnect e SEP_SRC.
End A2dpService.
