(* ===== verification/A2dpServiceSpec.v ===== *)
(** * The A2DP services: theorems *)

From S2P Require Import Prelude Fallible Hsm Bytes BtAddr Hci A2dp A2dpCodec A2dpService.
From coqutil Require Import Datatypes.RecordSetters.
From stdpp Require Import list.
Import UpdaterNotations.

Local Open Scope fall_scope.

Module A2dpServiceSpec.
Import Hsm BtAddr Hci A2dp A2dpCodec A2dpService.

#[local] Arguments constant {E} newValue _ /.
#[local] Arguments bt_addr_compare : simpl never.

(** ** What can happen *)

(** The timers and the answers of the controller come with the pointer to the
    machine that they were asked for.  Devices are added at the end of the list
    and freed all together by a shutdown: a pointer is the number of shutdowns
    before the machine was made, and its place in the list. *)
Record sm_ptr := mk_ptr { made_after : nat; place : nat }.

Inductive op :=
| op_event (se : svc_event)                       (* taken from the service loop *)
| op_input (p : sm_ptr) (i : input)               (* a timer of the machine, an answer of the controller *)
| op_stream_start | op_stream_stop | op_prepare_suspend | op_codec_state
| op_ready | op_started
| op_find_peer (a : bt_address_t)
| op_is_connected (a : bt_address_t) | op_is_playing (a : bt_address_t) | op_state (a : bt_address_t)
| op_connect (a : bt_address_t) | op_disconnect (a : bt_address_t)
| op_startup | op_shutdown | op_init | op_cleanup | op_offloading (b : bool).

Definition void {A} (m : MS A) : MS unit := m;;; eret tt.

(** [n]: the shutdowns so far. *)
Definition run_op (cfg : config) (e : env) (sep : peer_sep_t) (n : nat) (o : op) : MS unit :=
  match o with
  | op_event se => handle_service_event cfg e sep se
  | op_input p i => if Nat.eqb p.(made_after) n then run_machine e p.(place) (fun me => handle_input cfg me i) else efail
  | op_stream_start => a2dp_source_stream_start e
  | op_stream_stop => a2dp_source_stream_stop e
  | op_prepare_suspend => a2dp_source_stream_prepare_suspend
  | op_codec_state => codec_state_change e
  | op_ready => void (stream_ready cfg e sep)
  | op_started => void (stream_started cfg e sep)
  | op_find_peer a => void (find_peer a)
  | op_is_connected a => void (is_connected a)
  | op_is_playing a => void (is_playing a)
  | op_state a => void (get_connection_state a)
  | op_connect a => void (connect e sep a)
  | op_disconnect a => void (disconnect e sep a)
  | op_startup => void (profile_startup e sep)
  | op_shutdown => void (profile_shutdown e)
  | op_init => void profile_init
  | op_cleanup => profile_cleanup
  | op_offloading b => process_msg b
  end.

(** ** What the clients hear *)

(** The report of a connection state, and for whom. *)
Definition report_of (o : out) : option (bt_address_t * profile_connection_state_t) :=
  match o with
  | machine (sink_notify_connection_state_changed a s) | machine (source_notify_connection_state_changed a s) => Some (a, s)
  | _ => None
  end.

(** What a client that takes the peer [a] to be in [s] believes after [os]. *)
Fixpoint hears (a : bt_address_t) (s : profile_connection_state_t) (os : list out) : profile_connection_state_t :=
  match os with
  | [] => s
  | o :: os => hears a (match report_of o with Some (b, s') => if bool_decide (b = a) then s' else s | None => s end) os
  end.

Lemma hears_app a s os os' : hears a s (os ++ os') = hears a (hears a s os) os'.
Proof. revert s. induction os as [|o os IH]; intros s; cbn; [done|]. apply IH. Qed.

(** The reports of a machine are about its own peer. *)
Definition own (a : bt_address_t) (o : A2dp.out) : bool := match report_of (machine o) with Some (b, _) => bool_decide (b = a) | None => true end.

Lemma hears_own a b s os :
  Forall (fun o => own b o = true) os -> hears a s (map machine os) = if bool_decide (a = b) then listener s os else s.
Proof.
  intros H. revert s. induction H as [|o os Ho Hos IH]; intros s; cbn; [by case_bool_decide|]. rewrite IH. unfold own in Ho.
  destruct o; cbn in *; try done; apply bool_decide_eq_true in Ho as ->; case_bool_decide as E; case_bool_decide as E'; congruence.
Qed.

(** ** Machines *)

Ltac close_own := cbn; repeat match goal with
  | |- context [hci_command ?x ?y] => destruct (hci_command_cases x y) as [(? & ? & ? & ? & ->) | ->]
  end; repeat (constructor; [first [reflexivity | apply bool_decide_eq_true; reflexivity]|]); constructor.

Lemma handle_event_own cfg e0 ev sm c :
  sm.(current_state) = Some c -> Forall (fun o => own sm.(data).(addr) o = true) (a2dp_state_machine_handle_event cfg e0 ev sm).2.
Proof.
  intros Hc. rewrite (handle_event_eq cfg e0 ev sm c Hc).
  destruct (Hsm.process_event (EventTable := a2dp_events cfg e0) c ev sm) as [[b sm'] os] eqn:Hr.
  destruct sm as [i p cur [a h pend ready sep t1 t2 t3 t4 t5]]; simpl in Hc; subst cur.
  destruct cfg as [c1 c2 c3 c4 c5 c6 c7 ct], e0 as [s1 s2 s3 pa ac bw].
  destruct ev as [ty [ba sz cd hd pk]].
  destruct c, ty, sep; eval_a2dp Hr; injection Hr as <- <- <-; close_own.
Qed.

Lemma timer_event_own cfg e0 ty sm c :
  sm.(current_state) = Some c -> Forall (fun o => own sm.(data).(addr) o = true) (timer_event cfg e0 ty sm).2.
Proof.
  intros Hc. pose proof (handle_event_own cfg e0 (a2dp_event_new ty sm.(data).(addr)) sm c Hc) as H. unfold timer_event, field, gets, mbind_.
  destruct (a2dp_state_machine_handle_event _ _ _ sm) as [[b sm'] os]. cbn in *. by rewrite app_nil_r.
Qed.

Lemma handle_input_own cfg e0 i sm c :
  sm.(current_state) = Some c -> Forall (fun o => own sm.(data).(addr) o = true) (handle_input cfg e0 i sm).2.
Proof.
  intros Hc. destruct i as [ev| | | | | |ev]; cbn [handle_input].
  - pose proof (handle_event_own cfg e0 ev sm c Hc) as H. unfold mbind_. destruct (a2dp_state_machine_handle_event _ _ _ sm) as [[b sm'] os]. cbn in *.
    by rewrite app_nil_r.
  - pose proof (timer_event_own cfg e0 CONNECT_TIMEOUT sm c Hc) as H. unfold a2dp_connect_timeout_callback, mbind_ at 1, emit.
    destruct (timer_event _ _ _ sm) as [[b sm'] os]. by constructor.
  - exact (timer_event_own cfg e0 START_TIMEOUT sm c Hc).
  - exact (timer_event_own cfg e0 DELAY_STREAM_START_REQ sm c Hc).
  - pose proof (timer_event_own cfg e0 OFFLOAD_TIMEOUT sm c Hc) as H. unfold a2dp_offload_config_timeout_callback, mbind_ at 1, emit.
    destruct (timer_event _ _ _ sm) as [[b sm'] os]. by constructor.
  - unfold avrcp_start_timeout_callback, mbind_, field, gets, upd, modify, get, when, emit, mret_. cbn -[bool_decide a2dp_state_machine_get_connection_state].
    destruct (bool_decide _); cbn; repeat constructor.
  - unfold bt_hci_event_callback, mbind_, flag_isset, flag_clear, field, gets, upd, modify, when, emit, mret_. destruct (a2dp_source cfg); cbn; [|constructor].
    destruct (flag_isset_v _ PENDING_OFFLOAD_START); [|destruct (flag_isset_v _ PENDING_OFFLOAD_STOP)]; cbn; repeat constructor.
Qed.

(** ** Soundness *)

Section Sound.
Context (cfg : config) (sep : peer_sep_t).

(** The machine of a peer, in one of its states. *)
Definition machine_at (a : bt_address_t) (c : state) (sm : a2dp_state_machine_t) : Prop :=
  sm.(current_state) = Some c /\ sm.(data).(addr) = a /\ sm.(data).(peer_sep) = sep /\ data_inv c sm.(data).

(** A machine that has found its peer keeps its clients informed. *)
Lemma a2dp_input_goes e0 i a c sm :
  service_built cfg sep = true -> is_Some e0.(peer_acl_hdl) -> machine_at a c sm ->
  exists c', machine_at a c' (handle_input cfg e0 i sm).1.2 /\ listener (conn_state c) (handle_input cfg e0 i sm).2 = conn_state c' /\
    Forall (fun o => own a o = true) (handle_input cfg e0 i sm).2.
Proof.
  intros Hb Hp (Hc & Ha & Hs & Hi). destruct (handle_input_spec cfg e0 i sm c Hc) as [c' [S1 S2 [S3 S4] S5 S6 S7]].
  exists c'. split; [repeat split; [done|congruence|congruence|auto]|]. split; [apply S6; congruence|]. rewrite <- Ha. by eapply handle_input_own.
Qed.

(** At its end every client hears that the peer is gone. *)
Lemma device_end_goes e0 a c sm :
  service_built cfg sep = true -> is_Some e0.(peer_acl_hdl) -> machine_at a c sm ->
  listener (conn_state c) (device_end cfg e0 sm).2 = PROFILE_STATE_DISCONNECTED /\ Forall (fun o => own a o = true) (device_end cfg e0 sm).2.
Proof.
  intros Hb Hp Hm. unfold device_end. pose proof (a2dp_input_goes e0 (in_event (a2dp_event_new DISCONNECT_REQ bt_addr_empty)) a c sm Hb Hp Hm) as H1.
  change (handle_event cfg (a2dp_event_new DISCONNECT_REQ bt_addr_empty) e0) with (handle_input cfg e0 (in_event (a2dp_event_new DISCONNECT_REQ bt_addr_empty))).
  change (handle_event cfg (a2dp_event_new DISCONNECTED_EVT bt_addr_empty) e0) with (handle_input cfg e0 (in_event (a2dp_event_new DISCONNECTED_EVT bt_addr_empty))).
  unfold mbind_. destruct (handle_input cfg e0 (in_event (a2dp_event_new DISCONNECT_REQ bt_addr_empty)) sm) as [[u1 sm1] o1]. cbn in H1.
  destruct H1 as (c1 & Hm1 & L1 & F1). pose proof (a2dp_input_goes e0 (in_event (a2dp_event_new DISCONNECTED_EVT bt_addr_empty)) a c1 sm1 Hb Hp Hm1) as H2.
  destruct (handle_input cfg e0 (in_event (a2dp_event_new DISCONNECTED_EVT bt_addr_empty)) sm1) as [[u2 sm2] o2]. cbn in H2.
  destruct H2 as (c2 & (Hc2 & Ha2 & Hs2 & _) & L2 & F2).
  assert (listener (conn_state c2) (a2dp_state_machine_destory cfg sm2).2 = PROFILE_STATE_DISCONNECTED /\
    Forall (fun o => own a o = true) (a2dp_state_machine_destory cfg sm2).2) as [L3 F3].
  { destruct sm2 as [x y cur [ad h pend rd sp t1 t2 t3 t4 t5]]. cbn in Hc2, Ha2, Hs2. subst cur ad sp. destruct cfg as [[] [] v3 v4 v5 v6 v7 v8 v9], sep;
      try discriminate Hb; destruct c2; cbn; unfold own; cbn; (split; [done|]); repeat constructor; by apply bool_decide_eq_true. }
  destruct (a2dp_state_machine_destory cfg sm2) as [[u3 sm3] o3]. cbn in *. rewrite !listener_app, L1, L2. split; [done|].
  apply Forall_app. split; [done|]. by apply Forall_app.
Qed.

(** ** Devices *)

Definition dev_ok (d : a2dp_device_t) : Prop :=
  (exists c, machine_at d.(dev_addr) c d.(a2dp_sm)) /\ length d.(peer).(codec_config).(specific_info) = 20%nat.

Definition list_ok (l : list a2dp_device_t) : Prop := NoDup (dev_addr <$> l) /\ Forall dev_ok l.

(** The service has a list while it is enabled; the active peer is on it. *)
Definition inv (s : a2dp_global_t) : Prop :=
  match s.(devices) with
  | None => s.(enabled) = false /\ s.(active_peer) = None
  | Some l => s.(enabled) = true /\ list_ok l /\ forall a, s.(active_peer) = Some a -> a ∈ (dev_addr <$> l)
  end.

Definition state_of_dev (d : a2dp_device_t) : profile_connection_state_t := a2dp_state_machine_get_connection_state d.(a2dp_sm).

(** The state of the connection to [a]. *)
Definition state_in (l : list a2dp_device_t) (a : bt_address_t) : profile_connection_state_t :=
  match position a l ≫= (l !!.) with Some d => state_of_dev d | None => PROFILE_STATE_DISCONNECTED end.

Definition state_for (s : a2dp_global_t) (a : bt_address_t) : profile_connection_state_t :=
  match s.(devices) with Some l => state_in l a | None => PROFILE_STATE_DISCONNECTED end.

Lemma position_some a l i : position a l = Some i -> exists d, l !! i = Some d /\ d.(dev_addr) = a.
Proof.
  revert i. induction l as [|d l IH]; intros i; cbn; [done|]. destruct (bt_addr_compare (dev_addr d) a =? 0)%Z eqn:E.
  - intros H. injection H as <-. exists d. split; [done|]. apply addr_compare_is_equality. by apply Z.eqb_eq.
  - destruct (position a l) as [j|]; [|done]. intros H. injection H as <-. by apply IH.
Qed.

Lemma position_none a l : position a l = None <-> a ∉ (dev_addr <$> l).
Proof.
  induction l as [|d l IH]; cbn; [split; [intros _ H; inversion H|done]|]. destruct (bt_addr_compare (dev_addr d) a =? 0)%Z eqn:E.
  - apply Z.eqb_eq, addr_compare_is_equality in E. subst a. split; [done|]. intros H. exfalso. apply H. by left.
  - rewrite not_elem_of_cons. assert (a <> dev_addr d) by (intros ->; apply Z.eqb_neq in E; apply E; by apply addr_compare_is_equality).
    destruct (position a l); [|split; [intros _; split; [done|]; by apply IH|done]]. split; [done|]. intros [_ H']. by apply IH in H'.
Qed.

Lemma position_at l i d : NoDup (dev_addr <$> l) -> l !! i = Some d -> position d.(dev_addr) l = Some i.
Proof.
  intros Hnd Hi. destruct (position (dev_addr d) l) as [j|] eqn:E.
  - apply position_some in E as (d' & Hj & Ha). f_equal. apply (NoDup_lookup _ j i (dev_addr d) Hnd); rewrite list_lookup_fmap; [by rewrite Hj, <- Ha|by rewrite Hi].
  - apply position_none in E. exfalso. apply E. apply list_elem_of_fmap. exists d. split; [done|]. by apply list_elem_of_lookup_2 in Hi.
Qed.

Lemma state_in_at l i d : NoDup (dev_addr <$> l) -> l !! i = Some d -> state_in l d.(dev_addr) = state_of_dev d.
Proof. intros Hnd Hi. unfold state_in. rewrite (position_at l i d Hnd Hi). cbn. by rewrite Hi. Qed.

Lemma addrs_insert (l : list a2dp_device_t) (i : nat) d d' : l !! i = Some d -> d'.(dev_addr) = d.(dev_addr) -> dev_addr <$> <[i:=d']> l = dev_addr <$> l.
Proof. intros Hi Ha. rewrite list_fmap_insert, Ha, list_insert_id; [done|]. by rewrite list_lookup_fmap, Hi. Qed.

Lemma position_insert l i d d' a : l !! i = Some d -> d'.(dev_addr) = d.(dev_addr) -> position a (<[i:=d']> l) = position a l.
Proof.
  revert i. induction l as [|x l IH]; intros i Hi Ha; [done|]. destruct i as [|i]; [injection Hi as <-; cbn; by rewrite Ha|].
  change (<[S i:=d']> (x :: l)) with (x :: <[i:=d']> l). cbn [position]. by rewrite (IH i).
Qed.

Lemma state_in_insert l i d d' a :
  NoDup (dev_addr <$> l) -> l !! i = Some d -> d'.(dev_addr) = d.(dev_addr) ->
  state_in (<[i:=d']> l) a = if bool_decide (a = d.(dev_addr)) then state_of_dev d' else state_in l a.
Proof.
  intros Hnd Hi Ha. unfold state_in. rewrite (position_insert l i d d' a Hi Ha). case_bool_decide as E.
  - rewrite E, (position_at l i d Hnd Hi). cbn. rewrite list_lookup_insert_eq by (by eapply lookup_lt_Some). done.
  - destruct (position a l) as [j|] eqn:Ej; [|done]. cbn. rewrite list_lookup_insert_ne; [done|]. intros ->.
    apply position_some in Ej as (d'' & Hd & <-). rewrite Hi in Hd. by injection Hd as <-.
Qed.

Lemma insert_ok l i d d' : list_ok l -> l !! i = Some d -> d'.(dev_addr) = d.(dev_addr) -> dev_ok d' -> list_ok (<[i:=d']> l).
Proof. intros [Hnd Hf] Hi Ha Hd. split; [by erewrite addrs_insert|]. by apply Forall_insert. Qed.

Lemma dev_at l i d : list_ok l -> l !! i = Some d -> dev_ok d.
Proof. intros [_ Hf] Hi. by eapply Forall_lookup_1. Qed.

Lemma machine_state a c sm : machine_at a c sm -> a2dp_state_machine_get_connection_state sm = conn_state c.
Proof. intros [Hc _]. by apply connection_state_of. Qed.

(** ** Operations *)

Context (e : env) (Hmem : e.(mem) = true) (Hbuilt : service_built cfg sep = true).

(** Run in [s], [m] has a result that leaves the service sound, and every client
    has heard of what changed. *)
Definition good {A} (m : MS A) (s : a2dp_global_t) : Prop :=
  wp m (fun _ s' os => inv s' /\ forall a, hears a (state_for s a) os = state_for s' a) s.

Lemma good_quiet {A} (m : MS A) s :
  inv s -> wp m (fun _ s' os => inv s' /\ (forall a, state_for s' a = state_for s a) /\ omap report_of os = []) s -> good m s.
Proof.
  intros Hi. apply wp_mono. intros _ s' os (H1 & H2 & H3). split; [done|]. intros a. rewrite H2. generalize (state_for s a) as x. clear -H3.
  induction os as [|o os IH]; intros x; [done|]. cbn in *. destruct (report_of o) as [[]|]; [done|]. by apply IH.
Qed.

Lemma good_bind {A B} (m : MS A) (f : A -> MS B) s : good m s -> (forall x s', inv s' -> good (f x) s') -> good (ebind m f) s.
Proof.
  intros Hm Hf. unfold good. apply wp_bind. eapply wp_mono; [|exact Hm]. intros x s1 o1 [H1 H2]. eapply wp_mono; [|exact (Hf x s1 H1)].
  intros y s2 o2 [H3 H4]. split; [done|]. intros a. by rewrite hears_app, H2.
Qed.

(** The service is enabled. *)
Definition at_list (s : a2dp_global_t) (l : list a2dp_device_t) : Prop :=
  s.(devices) = Some l /\ s.(enabled) = true /\ list_ok l /\ forall a, s.(active_peer) = Some a -> a ∈ (dev_addr <$> l).

Lemma inv_list s : inv s -> s.(enabled) = true -> exists l, at_list s l.
Proof. unfold inv. intros Hi Hen. destruct (devices s) as [l|] eqn:E; [exists l; by split|]. by destruct Hi; congruence. Qed.

Lemma device_wp s l i d (Q : a2dp_device_t -> a2dp_global_t -> list out -> Prop) :
  s.(devices) = Some l -> l !! i = Some d -> Q d s [] -> wp (device i) Q s.
Proof. intros Hl Hi HQ. unfold device, the_list. apply wp_bind, (wp_read _ l); [done|]. by apply (wp_read _ d). Qed.

Lemma upd_device_wp s l i d f (Q : unit -> a2dp_global_t -> list out -> Prop) :
  s.(devices) = Some l -> l !! i = Some d -> Q tt ({! devices := Some (<[i := f d]> l) } s) [] -> wp (upd_device i f) Q s.
Proof.
  intros Hl Hi HQ. unfold upd_device. apply wp_bind. eapply device_wp; [done|done|]. apply wp_modify. destruct s; cbn in *. by subst.
Qed.

(** A change of a device that keeps its machine. *)
Lemma set_device_ok s l i d d' :
  at_list s l -> l !! i = Some d -> d'.(dev_addr) = d.(dev_addr) -> dev_ok d' ->
  inv ({! devices := Some (<[i := d']> l) } s) /\
  forall a, state_for ({! devices := Some (<[i := d']> l) } s) a = if bool_decide (a = d.(dev_addr)) then state_of_dev d' else state_for s a.
Proof.
  intros (Hl & Hen & Hok & Hact) Hi Ha Hd. split.
  - unfold inv. cbn. split; [done|]. split; [by eapply insert_ok|]. intros b Hb. erewrite addrs_insert; [|done|done]. by apply Hact.
  - intros a. unfold state_for. cbn. rewrite Hl. apply state_in_insert; [apply Hok|done|done].
Qed.

(** What a machine does is heard. *)
Lemma run_machine_good s l i d (m : A2dp.env -> MA unit) :
  at_list s l -> l !! i = Some d ->
  (forall me c, is_Some me.(peer_acl_hdl) -> machine_at d.(dev_addr) c d.(a2dp_sm) ->
     exists c', machine_at d.(dev_addr) c' (m me d.(a2dp_sm)).1.2 /\ listener (conn_state c) (m me d.(a2dp_sm)).2 = conn_state c' /\
       Forall (fun o => own d.(dev_addr) o = true) (m me d.(a2dp_sm)).2) ->
  good (run_machine e i m) s.
Proof.
  intros Hs Hi Hm. pose proof Hs as (Hl & _ & Hok & _). destruct (dev_at l i d Hok Hi) as [[c Hc] Hlen]. unfold good, run_machine.
  apply wp_bind. eapply device_wp; [done|done|]. destruct (Hm (env_for e (peer d)) c ltac:(by eexists) Hc) as (c' & Hc' & Hh & Ho).
  destruct (m (env_for e (peer d)) (a2dp_sm d)) as [[u sm'] os]. cbn [fst snd] in *. apply wp_bind. eapply upd_device_wp; [done|done|].
  set (d' := {! a2dp_sm := sm' } d). assert (dev_ok d') as Hd' by (split; [by exists c'|done]).
  destruct (set_device_ok s l i d d' Hs Hi eq_refl Hd') as [Hi' Hst]. unfold wp. cbn [app]. split; [done|]. intros a.
  rewrite (hears_own a (dev_addr d)) by done. rewrite Hst. case_bool_decide as E; [|done].
  unfold state_for. rewrite Hl, E, (state_in_at l i d) by (apply Hok || done). unfold state_of_dev.
  rewrite (machine_state _ _ _ Hc), Hh. symmetry. exact (machine_state _ _ _ Hc').
Qed.

Lemma list_inv s l : at_list s l -> inv s.
Proof. intros (Hl & H). unfold inv. by rewrite Hl. Qed.

(** [m] changes no machine and says nothing: the same peers, in the same states. *)
Definition calm {A} (m : MS A) (s : a2dp_global_t) (l : list a2dp_device_t) : Prop :=
  wp m (fun _ s' os => exists l', at_list s' l' /\ dev_addr <$> l' = dev_addr <$> l /\ (forall a, state_for s' a = state_for s a) /\ omap report_of os = []) s.

Lemma calm_bind {A B} (m : MS A) (f : A -> MS B) s l :
  calm m s l -> (forall x s' l', at_list s' l' -> dev_addr <$> l' = dev_addr <$> l -> calm (f x) s' l') -> calm (ebind m f) s l.
Proof.
  intros Hm Hf. unfold calm. apply wp_bind. eapply wp_mono; [|exact Hm]. intros x s1 o1 (l1 & H1 & E1 & S1 & R1).
  eapply wp_mono; [|exact (Hf x s1 l1 H1 E1)]. intros y s2 o2 (l2 & H2 & E2 & S2 & R2). exists l2. split; [done|]. split; [congruence|].
  split; [intros a; by rewrite S2|]. by rewrite omap_app, R1, R2.
Qed.

Lemma calm_good_bind {A B} (m : MS A) (f : A -> MS B) s l :
  calm m s l -> (forall x s' l', at_list s' l' -> dev_addr <$> l' = dev_addr <$> l -> good (f x) s') -> good (ebind m f) s.
Proof.
  intros Hm Hf. unfold good. apply wp_bind. eapply wp_mono; [|exact Hm]. intros x s1 o1 (l1 & H1 & E1 & S1 & R1).
  eapply wp_mono; [|exact (Hf x s1 l1 H1 E1)]. intros y s2 o2 [H2 H3]. split; [done|]. intros a. rewrite hears_app, <- H3, S1. f_equal.
  generalize (state_for s a) as x0. clear -R1. induction o1 as [|o o1 IH]; intros x0; [done|]. cbn in *. destruct (report_of o) as [[]|]; [done|]. by apply IH.
Qed.

Lemma calm_good {A} (m : MS A) s l : at_list s l -> calm m s l -> good m s.
Proof.
  intros Hs Hm. apply good_quiet; [by eapply list_inv|]. eapply wp_mono; [|exact Hm]. intros x s' os (l' & H & _ & S & R). split; [by eapply list_inv|]. by split.
Qed.

Lemma calm_ret {A} (x : A) s l : at_list s l -> calm (eret x) s l.
Proof. intros Hs. exists l. by repeat split; try apply Hs. Qed.

Lemma calm_gets {A} (f : a2dp_global_t -> A) s l : at_list s l -> calm (egets f) s l.
Proof. intros Hs. exists l. by repeat split; try apply Hs. Qed.

Lemma calm_emit o s l : report_of o = None -> at_list s l -> calm (eemit o) s l.
Proof. intros Ho Hs. exists l. split; [done|]. split; [done|]. split; [done|]. cbn. by rewrite Ho. Qed.

(** A change beside the list. *)
Lemma calm_modify f s l :
  at_list s l -> (f s).(devices) = s.(devices) -> (f s).(enabled) = s.(enabled) -> (forall a, (f s).(active_peer) = Some a -> a ∈ (dev_addr <$> l)) ->
  calm (emodify f) s l.
Proof.
  intros (Hl & Hen & Hok & Hact) H1 H2 H3. exists l. split; [split; [congruence|]; split; [congruence|]; by split|]. split; [done|]. split; [|done].
  intros a. unfold state_for. by rewrite H1.
Qed.

Lemma same_at {A B} (f : A -> B) (l l' : list A) i d : f <$> l' = f <$> l -> l !! i = Some d -> exists d', l' !! i = Some d' /\ f d' = f d.
Proof.
  intros E Hi. assert ((f <$> l') !! i = Some (f d)) as H by (by rewrite E, list_lookup_fmap, Hi). rewrite list_lookup_fmap in H.
  destruct (l' !! i) as [d'|]; [|done]. exists d'. split; [done|]. by injection H.
Qed.

Lemma calm_device i s l d : at_list s l -> l !! i = Some d -> calm (device i) s l.
Proof. intros Hs Hi. eapply device_wp; [apply Hs|done|]. exists l. by repeat split; try apply Hs. Qed.

Lemma calm_upd i f s l d :
  at_list s l -> l !! i = Some d -> (f d).(dev_addr) = d.(dev_addr) -> (f d).(a2dp_sm) = d.(a2dp_sm) ->
  length (f d).(peer).(codec_config).(specific_info) = 20%nat -> calm (upd_device i f) s l.
Proof.
  intros Hs Hi H1 H2 H3. pose proof Hs as (Hl & Hen & Hok & Hact). eapply upd_device_wp; [done|done|].
  assert (dev_ok (f d)) as Hd. { destruct (dev_at l i d Hok Hi) as [Hc _]. split; [|done]. by rewrite H1, H2. }
  destruct (set_device_ok s l i d (f d) Hs Hi H1 Hd) as [_ Hst]. exists (<[i:=f d]> l). split; [|split; [by erewrite addrs_insert|]].
  - split; [done|]. split; [done|]. split; [by eapply insert_ok|]. intros a Ha. erewrite addrs_insert; [|done|done]. by apply Hact.
  - split; [|done]. intros a. rewrite Hst. case_bool_decide as E; [|done]. unfold state_for. rewrite Hl, E, (state_in_at l i d) by (apply Hok || done).
    unfold state_of_dev. by rewrite H2.
Qed.

(** ** Codecs *)

Lemma sbc_parses info : length info = 20%nat -> is_Some (a2dp_codec_parse_sbc_param info).
Proof.
  intros H. destruct info as [|b0 [|b1 [|b2 [|b3 info]]]]; try done. unfold a2dp_codec_parse_sbc_param, a2dp_parse_sbc_info.
  set (i := mk_sbc_info _ _ _ _ _ _ _). unfold a2dp_sbc_bit_rate. cbn [s16NumOfSubBands s16NumOfBlocks].
  assert (u32 (a2dp_get_sbc_subbands i * a2dp_get_sbc_blocks i) <> 0)%Z as Hz.
  { unfold a2dp_get_sbc_subbands, a2dp_get_sbc_blocks. by repeat case_match. }
  rewrite (proj2 (Z.eqb_neq _ _) Hz). by eexists.
Qed.

Lemma aac_parses info m : length info = 20%nat -> is_Some (a2dp_codec_parse_aac_param info m).
Proof.
  intros H. destruct info as [|b0 [|b1 [|b2 [|b3 [|b4 [|b5 info]]]]]]; try done. unfold a2dp_codec_parse_aac_param, a2dp_parse_aac_info.
  destruct (negb _); by eexists.
Qed.

Lemma config_set_ok b ts c m :
  length c.(specific_info) = 20%nat -> exists c', a2dp_codec_config_set b ts c m = Some c' /\ c'.(specific_info) = c.(specific_info).
Proof.
  intros H. unfold a2dp_codec_config_set. destruct (sbc_parses _ H) as [p Hp]. rewrite Hp. destruct (codec_type c); [| |by exists c].
  - destruct (if ts then _ else _); by eexists.
  - destruct (with_aac b); [|by exists c]. unfold a2dp_source_aac_update_config.
    destruct (aac_parses _ (u16 (if (MAX_2MBPS_AVDTP_MTU <? m)%Z then MAX_2MBPS_AVDTP_MTU else m)) H) as [[p1|p1] ->];
    destruct (aac_parses _ 0 H) as [[p2|p2] ->]; destruct ts, (with_source b), (with_sink b); by eexists.
Qed.

Lemma calm_codec_set i m s l d : at_list s l -> l !! i = Some d -> calm (codec_config_set e sep i m) s l.
Proof using Hmem.
  intros Hs Hi. pose proof Hs as (Hl & _ & Hok & _). destruct (dev_at l i d Hok Hi) as [_ Hlen].
  destruct (config_set_ok (build e) (to_sink sep) (codec_config (peer d)) m Hlen) as (c & Hc & Hinfo).
  unfold calm, codec_config_set. apply wp_bind. eapply device_wp; [done|done|]. apply wp_bind, (wp_read _ c); [done|].
  eapply wp_mono; [|eapply (calm_bind _ _ s l)].
  - intros [] s' os H. exact H.
  - eapply calm_upd; [done|done|done|done|]. cbn. congruence.
  - intros [] s' l' Hs' _. apply calm_modify; [done|done|done|]. apply Hs'.
Qed.

Lemma calm_save i c s l d : length c.(specific_info) = 20%nat -> at_list s l -> l !! i = Some d -> calm (save_a2dp_codec_config e sep i c) s l.
Proof using Hmem.
  intros Hlen Hs Hi. eapply calm_bind; [by eapply calm_upd|]. intros [] s' l' Hs' E.
  destruct (same_at dev_addr l l' i d E Hi) as (d' & Hi' & _). by eapply calm_codec_set.
Qed.

Lemma calm_set_active a acl s l : at_list s l -> a ∈ (dev_addr <$> l) -> calm (set_active_peer sep a acl) s l.
Proof.
  intros Hs Ha. pose proof Hs as (Hl & _ & Hok & Hact). unfold calm, set_active_peer, find_a2dp_device_by_addr, the_list.
  apply wp_bind, wp_bind, (wp_read _ l); [done|]. apply wp_ret. destruct (position a l) as [i|] eqn:Ei; [|by apply position_none in Ei].
  destruct (position_some a l i Ei) as (d & Hi & Hd).
  eapply wp_mono; [|eapply (calm_bind (emodify {! active_peer := Some a }) _ s l)].
  - intros [] s' os H. exact H.
  - apply calm_modify; [done|done|done|]. cbn. intros b Hb. by injection Hb as <-.
  - intros [] s' l' Hs' E. destruct acl as [h|]; [|by apply calm_ret]. destruct (same_at dev_addr l l' i d E Hi) as (d' & Hi' & _).
    destruct (dev_at l' i d' (proj1 (proj2 (proj2 Hs'))) Hi') as [_ Hlen]. by eapply calm_upd.
Qed.

Lemma start_command_fits v c : match a2dp_offload_start_builder v c with Some cmd => (Z.of_nat (length cmd) <= CONFIG_VSC_MAX_LEN)%Z | None => True end.
Proof. by destruct v. Qed.

Lemma stop_command_fits v c :
  match a2dp_offload_stop_builder v c with Some cmd => (Z.of_nat (length cmd) <= OFFLOAD_START_REQ_CODE cfg)%Z | None => True end.
Proof. unfold OFFLOAD_START_REQ_CODE. by destruct v, (partial_reconn cfg). Qed.

Lemma calm_offload s l : at_list s l -> calm get_offload_config s l.
Proof.
  intros Hs. unfold get_offload_config. eapply calm_bind; [by apply calm_gets|]. intros c s2 l2 H2 _. eapply calm_bind; [by apply calm_gets|].
  intros st s3 l3 H3 _. by apply calm_ret.
Qed.

Lemma calm_stop_offload a (e0 : a2dp_event_t) s l :
  at_list s l ->
  calm (off <- egets offloading;;
        if negb off then eret e0
        else
          o <- get_offload_config;;
          match o ≫= a2dp_offload_stop_builder e.(vendor_actions) with
          | None => eret e0
          | Some cmd =>
              if negb (Z.of_nat (length cmd) <=? OFFLOAD_START_REQ_CODE cfg)%Z then efail
              else ewhen e.(mem) (eemit (post (offload_event OFFLOAD_STOP_REQ a cmd)));;; eret e0
          end) s l.
Proof using Hmem.
  intros Hs. eapply calm_bind; [by apply calm_gets|]. intros off s' l' Hs' _. destruct off; cbn [negb]; [|by apply calm_ret].
  eapply calm_bind; [by apply calm_offload|]. intros [c|] s2 l2 H2 _; cbn [mbind option_bind]; [|by apply calm_ret].
  pose proof (stop_command_fits (vendor_actions e) c) as Hfit. destruct (a2dp_offload_stop_builder (vendor_actions e) c) as [cmd|]; [|by apply calm_ret].
  rewrite (proj2 (Z.leb_le _ _) Hfit), Hmem. cbn [negb ewhen]. eapply calm_bind; [by apply calm_emit|]. intros [] s3 l3 H3 _. by apply calm_ret.
Qed.

Lemma calm_prepare se s l :
  at_list s l -> se.(ev).(event_data).(bd_addr) ∈ (dev_addr <$> l) -> calm (a2dp_service_prepare_handle cfg e sep se) s l.
Proof using Hmem.
  intros Hs Ha. unfold a2dp_service_prepare_handle. destruct (event (ev se)) eqn:Ee; try (by apply calm_ret).
  - eapply calm_bind; [by apply calm_set_active|]. intros [] s' l' Hs' _. by apply calm_ret.
  - eapply calm_bind; [by apply calm_gets|]. intros off s' l' Hs' E'. destruct off; cbn [negb]; [|by apply calm_ret].
    rewrite <- E' in Ha. clear Hs s l E'. pose proof Hs' as (Hl & _ & Hok & _).
    destruct (position (bd_addr (event_data (ev se))) l') as [i|] eqn:Ei; [|by apply position_none in Ei].
    destruct (position_some _ l' i Ei) as (d & Hi & Hd). destruct (dev_at l' i d Hok Hi) as [_ Hlen].
    unfold calm. apply wp_bind. unfold find_a2dp_device_by_addr, the_list. apply wp_bind, (wp_read _ l'); [done|]. apply wp_ret. rewrite Ei.
    apply wp_bind. eapply device_wp; [done|done|]. cbn zeta. eapply wp_mono; [|eapply (calm_bind _ _ s' l')].
    + intros x s1 o1 H. exact H.
    + eapply calm_save; [|done|done]. exact Hlen.
    + intros [] s1 l1 H1 _. eapply calm_bind; [by apply calm_offload|]. intros [c|] s2 l2 H2 _; cbn [mbind option_bind]; [|by apply calm_ret]. pose proof (start_command_fits (vendor_actions e) c) as Hfit.
      destruct (a2dp_offload_start_builder (vendor_actions e) c) as [cmd|]; [|by apply calm_ret].
      rewrite (proj2 (Z.leb_le _ _) Hfit), Hmem. cbn [negb orb]. by apply calm_ret.
  - by apply calm_stop_offload.
  - by apply calm_stop_offload.
Qed.

(** ** Peers *)

Lemma position_app a l d :
  position a (l ++ [d]) = match position a l with Some i => Some i | None => if (bt_addr_compare d.(dev_addr) a =? 0)%Z then Some (length l) else None end.
Proof.
  induction l as [|x l IH]; cbn; [by destruct (_ =? _)%Z|]. destruct (bt_addr_compare (dev_addr x) a =? 0)%Z; [done|]. rewrite IH.
  destruct (position a l); [done|]. by destruct (_ =? _)%Z.
Qed.

Lemma new_device_ok a : dev_ok (a2dp_device_new cfg e sep a) /\ state_of_dev (a2dp_device_new cfg e sep a) = PROFILE_STATE_DISCONNECTED.
Proof.
  destruct (new_machine cfg (machine_env e) sep a) as (H1 & H2 & H3 & H4). unfold dev_ok, state_of_dev. cbn [a2dp_device_new dev_addr a2dp_sm peer].
  split; [split; [by exists idle_state|done]|]. exact (connection_state_of _ _ H1).
Qed.

(** A new peer is disconnected, as was the one that was not there. *)
Lemma add_device_ok s l a :
  at_list s l -> position a l = None ->
  at_list ({! devices := Some (l ++ [a2dp_device_new cfg e sep a]) } s) (l ++ [a2dp_device_new cfg e sep a]) /\
  forall b, state_for ({! devices := Some (l ++ [a2dp_device_new cfg e sep a]) } s) b = state_for s b.
Proof.
  intros (Hl & Hen & [Hnd Hf] & Hact) Hn. destruct (new_device_ok a) as [Hok Hst]. split.
  - split; [done|]. split; [done|]. split; [split|].
    + rewrite fmap_app. apply list.NoDup_app. split; [done|]. split; [|apply NoDup_singleton]. intros x Hx ->%list_elem_of_singleton. by apply position_none in Hn.
    + apply Forall_app. split; [done|]. by apply Forall_singleton.
    + intros b Hb. rewrite fmap_app. apply elem_of_app. left. by apply Hact.
  - intros b. unfold state_for. cbn. rewrite Hl. unfold state_in. rewrite position_app. destruct (position b l) as [i|] eqn:Ei.
    + destruct (position_some b l i Ei) as (d & Hi & _). cbn. rewrite lookup_app_l; [done|]. by eapply lookup_lt_Some.
    + destruct (_ =? _)%Z; [|done]. cbn. rewrite list_lookup_middle; [|done]. exact Hst.
Qed.

Lemma find_or_create_good {A} s l a (f : option nat -> MS A) :
  at_list s l ->
  (forall s' l' i d, at_list s' l' -> l' !! i = Some d -> d.(dev_addr) = a -> good (f (Some i)) s') ->
  good (ebind (find_or_create_device cfg e sep a) f) s.
Proof using Hmem.
  intros Hs Hf. pose proof Hs as (Hl & _). unfold good, find_or_create_device, find_a2dp_device_by_addr, the_list.
  apply wp_bind, wp_bind, wp_bind, (wp_read _ l); [done|]. apply wp_ret. destruct (position a l) as [i|] eqn:Ei.
  - destruct (position_some a l i Ei) as (d & Hi & Hd). exact (Hf s l i d Hs Hi Hd).
  - rewrite Hmem. cbn [negb]. apply wp_bind, (wp_read _ l); [done|]. apply wp_bind, wp_modify, wp_ret.
    destruct (add_device_ok s l a Hs Ei) as [Hs' Hst].
    eapply wp_mono; [|exact (Hf _ _ (length l) _ Hs' (list_lookup_middle _ _ _ _ eq_refl) eq_refl)]. intros x s2 o2 [H1 H2]. split; [done|]. intros b.
    rewrite <- H2, Hst. done.
Qed.

Lemma to_machine_good s l i d e0 : at_list s l -> l !! i = Some d -> good (to_machine cfg e i e0) s.
Proof using Hbuilt. intros Hs Hi. eapply run_machine_good; [done|done|]. intros me c Hp Hm. exact (a2dp_input_goes me (in_event e0) _ c _ Hbuilt Hp Hm). Qed.

Lemma elem_at (l : list a2dp_device_t) i d : l !! i = Some d -> d.(dev_addr) ∈ (dev_addr <$> l).
Proof. intros Hi. apply list_elem_of_fmap. exists d. split; [done|]. by eapply list_elem_of_lookup_2. Qed.

Lemma codec_evt_good s l se : length se.(ev_config).(specific_info) = 20%nat -> at_list s l -> good (codec_config_evt cfg e sep se) s.
Proof using Hmem.
  intros Hlen Hs. eapply find_or_create_good; [done|]. intros s' l' i d Hs' Hi _. eapply calm_good; [done|]. by eapply calm_save.
Qed.

(** ** Starting and stopping *)

Lemma startup_good s : s.(devices) = None -> inv s -> good (startup e) s.
Proof.
  intros Hn Hi. apply good_quiet; [done|]. destruct s as [dv en off cb act gc stm]. cbn in Hn. subst dv. destruct Hi as [Hen Hact]. cbn in Hen, Hact. subst en act.
  unfold startup. apply wp_bind, wp_modify, wp_bind, wp_emit. destruct (is_success (init_status e)); cbn [negb]; [|done].
  apply wp_bind, wp_gets, wp_bind, wp_emit, wp_bind, wp_modify, wp_emit. split; [|done]. split; [done|]. split; [split; constructor|done].
Qed.

Lemma wp_say (o : list out) (Q : unit -> a2dp_global_t -> list out -> Prop) s : wp (fun s => Some (tt, s, o)) Q s <-> Q tt s o.
Proof. done. Qed.

(** The first device is deleted, and every client hears of it. *)
Lemma delete_wp s d l (Q : unit -> a2dp_global_t -> list out -> Prop) :
  s.(devices) = Some (d :: l) -> dev_ok d ->
  (forall s' os, s'.(devices) = Some l -> s'.(enabled) = s.(enabled) ->
     (forall a, hears a (if bool_decide (a = d.(dev_addr)) then state_of_dev d else state_in l a) os =
       if bool_decide (a = d.(dev_addr)) then PROFILE_STATE_DISCONNECTED else state_in l a) -> Q tt s' os) ->
  wp (a2dp_device_delete cfg e) Q s.
Proof using Hmem Hbuilt.
  intros Hl [[c Hc] _] HQ. unfold a2dp_device_delete. rewrite Hmem. cbn [negb]. apply wp_bind. unfold run_machine. apply wp_bind.
  eapply device_wp; [done|done|]. destruct (device_end_goes (env_for e (peer d)) (dev_addr d) c (a2dp_sm d) Hbuilt ltac:(by eexists) Hc) as [Hh Ho].
  destruct (device_end cfg (env_for e (peer d)) (a2dp_sm d)) as [[u sm'] os]. cbn [fst snd] in *. apply wp_bind. eapply upd_device_wp; [done|done|].
  apply wp_say, wp_modify. apply HQ; [done|done|]. intros a. cbn [app]. rewrite app_nil_r, (hears_own a (dev_addr d)) by done. case_bool_decide; [|done].
  unfold state_of_dev. by rewrite (machine_state _ _ _ Hc), Hh.
Qed.

Lemma state_in_cons d l a : state_in (d :: l) a = if bool_decide (a = d.(dev_addr)) then state_of_dev d else state_in l a.
Proof.
  unfold state_in. cbn [position]. case_bool_decide as E.
  - subst a. by rewrite (proj2 (Z.eqb_eq _ _)) by (by apply addr_compare_is_equality).
  - rewrite (proj2 (Z.eqb_neq _ _)); [|intros E'; apply E; symmetry; by apply addr_compare_is_equality]. by destruct (position a l).
Qed.

(** All are deleted one after the other. *)
Lemma delete_all_wp s l (l0 : list a2dp_device_t) :
  s.(devices) = Some l -> list_ok l -> length l0 = length l ->
  wp (efor l0 (fun _ => a2dp_device_delete cfg e))
    (fun _ s' os => s'.(enabled) = s.(enabled) /\ forall a, hears a (state_in l a) os = PROFILE_STATE_DISCONNECTED) s.
Proof using Hmem Hbuilt.
  revert s l0. induction l as [|d l IH]; intros s l0 Hl Hok Hlen; (destruct l0 as [|x l0]; [|]); try discriminate Hlen; cbn [efor]; [done|].
  destruct Hok as [Hnd Hf]. cbn in Hnd. apply list.NoDup_cons in Hnd as [Hd Hnd]. apply Forall_cons_iff in Hf as [Hdok Hf].
  apply wp_bind. eapply delete_wp; [done|done|]. intros s1 o1 Hl1 Hen1 H1. eapply wp_mono; [|apply (IH s1 l0); [done|by split|by injection Hlen]].
  intros [] s2 o2 [Hen2 H2]. split; [congruence|]. intros a. rewrite state_in_cons, hears_app, H1. specialize (H2 a). case_bool_decide as E; [|done].
  subst a. unfold state_in in H2. by rewrite (proj2 (position_none _ l) Hd) in H2.
Qed.

Lemma shutdown_good s l : at_list s l -> good (shutdown cfg e) s.
Proof using Hmem Hbuilt.
  intros (Hl & Hen & Hok & Hact). unfold good, shutdown, the_list. apply wp_bind, wp_modify, wp_bind, wp_emit, wp_bind, (wp_read _ l); [done|].
  apply wp_bind. eapply wp_mono; [|by apply (delete_all_wp _ l l)]. intros [] s1 o1 H.
  apply wp_bind, wp_modify, wp_bind, wp_emit, wp_bind, wp_modify, wp_emit. destruct s1 as [dv1 en1 off1 cb1 act1 gc1 stm1], H as [H1 H2]. cbn in H1. subst en1.
  split; [done|]. intros a. cbn [hears report_of app]. rewrite hears_app. cbn. rewrite <- (H2 a). unfold state_for. by rewrite Hl.
Qed.

(** ** Every operation *)

(** A start request is not handled while the service runs; the stack's
    configurations have the size of the array. *)
Definition op_ok (s : a2dp_global_t) (o : op) : Prop :=
  match o with
  | op_event se =>
      (se.(ev).(event) = A2DP_STARTUP -> s.(enabled) = false) /\
      (se.(ev).(event) = CODEC_CONFIG_EVT -> length se.(ev_config).(specific_info) = 20%nat)
  | _ => True
  end.

(** The machine is one of those of the service. *)
Definition is_live (n : nat) (s : a2dp_global_t) (p : sm_ptr) : bool :=
  Nat.eqb p.(made_after) n && match s.(devices) with Some l => Nat.ltb p.(place) (length l) | None => false end.

(** The question that does not look whether there is a list, and what comes
    for a machine that was freed. *)
Definition crashes (n : nat) (s : a2dp_global_t) (o : op) : bool :=
  match o, s.(devices) with
  | op_find_peer _, None => true
  | op_input p _, _ => negb (is_live n s p)
  | _, _ => false
  end.

Lemma ret_good {A} (x : A) s : inv s -> good (eret x) s.
Proof. intros Hi. by split. Qed.

Lemma said_good o s : inv s -> report_of o = None -> good (eemit o) s.
Proof. intros Hi Ho. split; [done|]. intros a. cbn. by rewrite Ho. Qed.

Lemma default_good s l a (f : nat -> MS unit) :
  at_list s l -> (forall s' l' i d, at_list s' l' -> l' !! i = Some d -> d.(dev_addr) = a -> good (f i) s') ->
  good (i <- find_or_create_device cfg e sep a;; match i with None => eret tt | Some i => f i end) s.
Proof using Hmem. intros Hs Hf. eapply find_or_create_good; [done|]. exact Hf. Qed.

Lemma source_default_good s l se :
  at_list s l ->
  good (i <- find_or_create_device cfg e sep se.(ev).(event_data).(bd_addr);;
        match i with None => eret tt | Some i => e0 <- a2dp_service_prepare_handle cfg e sep se;; to_machine cfg e i e0 end) s.
Proof using Hmem Hbuilt.
  intros Hs. eapply default_good; [done|]. intros s' l' i d Hs' Hi Hd. eapply calm_good_bind.
  - apply calm_prepare; [done|]. rewrite <- Hd. by eapply elem_at.
  - intros e0 s2 l2 H2 E. destruct (same_at dev_addr l' l2 i d E Hi) as (d2 & Hi2 & _). by eapply to_machine_good.
Qed.

Lemma sink_default_good s l a e0 (b : bool) :
  at_list s l ->
  good (i <- find_or_create_device cfg e sep a;;
        match i with None => eret tt | Some i => ewhen b (set_active_peer sep a None);;; to_machine cfg e i e0 end) s.
Proof using Hmem Hbuilt.
  intros Hs. eapply default_good; [done|]. intros s' l' i d Hs' Hi Hd. eapply calm_good_bind.
  - destruct b; cbn [ewhen]; [|by apply calm_ret]. apply calm_set_active; [done|]. rewrite <- Hd. by eapply elem_at.
  - intros [] s2 l2 H2 E. destruct (same_at dev_addr l' l2 i d E Hi) as (d2 & Hi2 & _). by eapply to_machine_good.
Qed.

Lemma mtu_good s l a m :
  at_list s l ->
  good (i <- find_or_create_device cfg e sep a;;
        match i with None => eret tt | Some i => upd_device i {! peer ::= {! mtu := m } };;; codec_config_set e sep i m end) s.
Proof using Hmem.
  intros Hs. eapply default_good; [done|]. intros s' l' i d Hs' Hi Hd. destruct (dev_at l' i d (proj1 (proj2 (proj2 Hs'))) Hi) as [_ Hlen].
  eapply calm_good_bind; [by eapply calm_upd|]. intros [] s2 l2 H2 E. destruct (same_at dev_addr l' l2 i d E Hi) as (d2 & Hi2 & _).
  eapply calm_good; [done|]. by eapply calm_codec_set.
Qed.

(** Only a start request is handled while the service is not enabled. *)
Lemma when_enabled_good ty m s :
  inv s -> (ty = A2DP_STARTUP -> s.(enabled) = false) -> (ty = A2DP_STARTUP -> s.(devices) = None -> good m s) ->
  (forall l, ty <> A2DP_STARTUP -> at_list s l -> good m s) -> good (when_enabled ty m) s.
Proof.
  intros Hi Hst H1 H2. unfold when_enabled, good. apply wp_bind, wp_gets. destruct (enabled s) eqn:Hen; cbn [negb andb].
  - destruct (inv_list s Hi Hen) as [l Hs]. eapply wp_mono; [|eapply (H2 l); [|done]]; [by intros|]. intros E. by specialize (Hst E).
  - case_bool_decide as E; cbn [negb]; [|by apply ret_good]. eapply wp_mono; [|apply (H1 E)]; [by intros|].
    unfold inv in Hi. destruct (devices s); [|done]. destruct Hi; congruence.
Qed.

Lemma event_good s se : inv s -> op_ok s (op_event se) -> good (handle_service_event cfg e sep se) s.
Proof using Hmem Hbuilt.
  intros Hi [Hst Hcfg].
  assert (good (a2dp_snk_service_handle_event cfg e sep se) s) as H1.
  { unfold a2dp_snk_service_handle_event. apply when_enabled_good; [done|done| |].
    - intros E Hn. rewrite E. by apply startup_good.
    - intros l Hne Hs. destruct (event (ev se)) eqn:Ee; try done; try (by eapply sink_default_good).
      + by eapply shutdown_good.
      + eapply codec_evt_good; [by apply Hcfg|done]. }
  assert (good (a2dp_service_handle_event cfg e sep se) s) as H2.
  { unfold a2dp_service_handle_event. apply when_enabled_good; [done|done| |].
    - intros E Hn. rewrite E. by apply startup_good.
    - intros l Hne Hs. destruct (event (ev se)) eqn:Ee; try done; try (by eapply source_default_good).
      + by eapply shutdown_good.
      + by eapply mtu_good.
      + eapply codec_evt_good; [by apply Hcfg|done]. }
  unfold handle_service_event. case_match; [exact H1|exact H2].
Qed.

(** The questions. *)
Lemma ask_good {A} (no : A) a f s : inv s -> good (ask_device no a f) s.
Proof.
  intros Hi. unfold good, ask_device. apply wp_bind, wp_gets. destruct (enabled s) eqn:Hen; cbn [negb]; [|by apply ret_good].
  destruct (inv_list s Hi Hen) as [l Hs]. pose proof Hs as (Hl & _). apply wp_bind. unfold find_a2dp_device_by_addr, the_list.
  apply wp_bind, (wp_read _ l); [done|]. apply wp_ret. destruct (position a l) as [i|] eqn:Ei; [|by apply ret_good].
  destruct (position_some a l i Ei) as (d & Hi' & _). apply wp_bind. eapply device_wp; [done|done|]. by apply ret_good.
Qed.

Lemma active_good (f : bt_address_t -> MS unit) s : inv s -> (forall a, good (f a) s) -> good (for_active f) s.
Proof. intros Hi Hf. unfold good, for_active. apply wp_bind, wp_gets. destruct (active_peer s); [eapply wp_mono; [|apply Hf]; by intros|by apply ret_good]. Qed.

Lemma posted_good ty a s : inv s -> good (do_in_service e ty a) s.
Proof. intros Hi. unfold do_in_service. destruct (mem e); cbn [ewhen]; [by apply said_good|by apply ret_good]. Qed.

Lemma ask_active_good f s : inv s -> good (ask_active cfg e sep f) s.
Proof using Hmem.
  intros Hi. unfold good, ask_active. apply wp_bind, wp_gets. destruct (active_peer s) as [a|] eqn:Ea; [|by apply ret_good].
  assert (exists l, at_list s l) as [l Hs].
  { unfold inv in Hi. destruct (devices s) as [l|] eqn:El; [by exists l|]. destruct Hi; congruence. }
  eapply wp_mono; [|eapply (find_or_create_good s l a _ Hs)]; [by intros|]. intros s' l' i d Hs' Hi' _.
  eapply calm_good_bind; [by eapply calm_device|]. intros d' s2 l2 H2 _. apply ret_good. by eapply list_inv.
Qed.

Lemma request_good ty a s : inv s -> good (request e sep ty a) s.
Proof.
  intros Hi. unfold good, request. apply wp_bind, wp_gets. destruct (enabled s); cbn [negb]; [|by apply ret_good].
  eapply wp_mono; [|apply (good_bind _ _ _ (posted_good ty a s Hi))]; [by intros|]. intros [] s' Hi'. by apply ret_good.
Qed.

Lemma void_good {A} (m : MS A) s : good m s -> good (void m) s.
Proof. intros Hm. apply good_bind; [done|]. intros x s' Hi. by apply ret_good. Qed.

(** What comes for a machine reaches it, or fails if it was freed. *)
Lemma input_good n s p i :
  inv s -> if negb (is_live n s p) then run_op cfg e sep n (op_input p i) s = None else good (run_op cfg e sep n (op_input p i)) s.
Proof using Hmem Hbuilt.
  intros Hi. unfold is_live. cbn [run_op]. destruct (Nat.eqb (made_after p) n); cbn [andb negb]; [|done].
  destruct (devices s) as [l|] eqn:El; cbn [negb]; [|unfold run_machine, device, the_list, ebind, eread; by rewrite El].
  destruct (Nat.ltb_spec (place p) (length l)) as [Hlt|Hge]; cbn [negb].
  - destruct (lookup_lt_is_Some_2 l (place p) Hlt) as [d Hd]. assert (at_list s l) as Hs by (unfold inv in Hi; rewrite El in Hi; by split).
    eapply run_machine_good; [done|done|]. intros me c Hp Hm. by apply a2dp_input_goes.
  - unfold run_machine, device, the_list, ebind, eread. rewrite El. cbn. by rewrite (proj2 (lookup_ge_None _ _) Hge).
Qed.

(** Each operation has a result or is one that crashes. *)
Lemma run_op_good n s o :
  inv s -> op_ok s o -> if crashes n s o then run_op cfg e sep n o s = None else good (run_op cfg e sep n o) s.
Proof using Hmem Hbuilt.
  intros Hi Ho. destruct o as [se|p i| | | | | | |a|a|a|a|a|a| | | | |b]; cbn [crashes run_op]; try apply void_good.
  - by apply event_good.
  - by apply input_good.
  - apply active_good; [done|]. intros a. by apply posted_good.
  - apply active_good; [done|]. intros a. by apply posted_good.
  - by apply said_good.
  - apply active_good; [done|]. intros a. by apply posted_good.
  - by apply ask_active_good.
  - by apply ask_active_good.
  - destruct (devices s) as [l|] eqn:El; [|unfold void, find_peer, find_a2dp_device_by_addr, the_list, ebind, eread; by rewrite El].
    apply void_good. assert (at_list s l) as Hs. { unfold inv in Hi. rewrite El in Hi. by split. }
    unfold good, find_peer, find_a2dp_device_by_addr, the_list. apply wp_bind, wp_bind, (wp_read _ l); [done|]. apply wp_ret.
    destruct (position a l) as [i|] eqn:Ei; [|by apply ret_good]. destruct (position_some a l i Ei) as (d & Hi' & _).
    apply wp_bind. eapply device_wp; [done|done|]. by apply ret_good.
  - by apply ask_good.
  - by apply ask_good.
  - by apply ask_good.
  - by apply request_good.
  - by apply request_good.
  - unfold good, profile_startup. apply wp_bind, wp_gets. destruct (enabled s); [by apply ret_good|]. rewrite Hmem. cbn [negb].
    apply wp_bind, wp_emit, wp_ret. by split.
  - unfold good, profile_shutdown. apply wp_bind, wp_gets. destruct (enabled s); cbn [negb]; [|by apply ret_good]. rewrite Hmem. cbn [negb].
    apply wp_bind, wp_emit, wp_ret. by split.
  - by destruct s.
  - unfold good, profile_cleanup. apply wp_modify. destruct s as [[l|] en off cb act gc stm]; unfold inv in *; cbn in *; (split; [|done]).
    + destruct Hi as (H1 & H2 & _). by split.
    + by destruct Hi.
  - unfold good, process_msg. apply wp_modify. by destruct s.
Qed.

Definition dev_for (s : a2dp_global_t) (a : bt_address_t) : option a2dp_device_t :=
  match s.(devices) with Some l => position a l ≫= (l !!.) | None => None end.

(** The interface answers from the machine. *)
Lemma ask_device_run {A} (no : A) a f s :
  inv s -> ask_device no a f s = Some (match dev_for s a with Some d => f d.(a2dp_sm) | None => no end, s, []).
Proof.
  intros Hi. unfold ask_device, ebind at 1, egets, dev_for. destruct (enabled s) eqn:Hen; cbn [negb].
  - destruct (inv_list s Hi Hen) as [l (Hl & _)]. unfold find_a2dp_device_by_addr, the_list, ebind, eread. rewrite Hl. unfold eret.
    destruct (position a l) as [i|] eqn:Ei; [|done]. destruct (position_some a l i Ei) as (d & Hi' & _).
    unfold device, the_list, ebind, eread. rewrite Hl. cbn. by rewrite Hi'.
  - unfold inv in Hi. destruct (devices s); [destruct Hi; congruence|done].
Qed.

Lemma state_for_dev s a : state_for s a = match dev_for s a with Some d => state_of_dev d | None => PROFILE_STATE_DISCONNECTED end.
Proof. unfold state_for, dev_for. by destruct (devices s). Qed.
End Sound.

Definition initial : a2dp_global_t := mk_global None false false false None no_config (mk_sbc_stream 0 0 0 0 0).

(** A shutdown frees the machines. *)
Definition frees (s : a2dp_global_t) (o : op) : bool :=
  match o with op_event se => s.(enabled) && bool_decide (se.(ev).(event) = A2DP_SHUTDOWN) | _ => false end.

(** States reached by any sequence of operations, with the number of
    shutdowns and all that was said. *)
Inductive reaches (cfg : config) (sep : peer_sep_t) : nat -> a2dp_global_t -> list out -> Prop :=
| r_initial : reaches cfg sep 0 initial []
| r_step n s os e o s' os' :
    reaches cfg sep n s os -> e.(mem) = true -> op_ok s o -> run_op cfg e sep n o s = Some (tt, s', os') ->
    reaches cfg sep (if frees s o then S n else n) s' (os ++ os').

Lemma reaches_sound cfg sep n s os :
  service_built cfg sep = true -> reaches cfg sep n s os -> inv sep s /\ forall a, hears a PROFILE_STATE_DISCONNECTED os = state_for s a.
Proof.
  intros Hb. induction 1 as [|n s os e o s' os' Hr [Hi Hh] Hm Ho E]; [done|]. pose proof (run_op_good cfg sep e Hm Hb n s o Hi Ho) as H.
  destruct (crashes n s o); [congruence|]. unfold good, wp in H. rewrite E in H. destruct H as [H1 H2]. split; [done|]. intros a. by rewrite hears_app, Hh.
Qed.

(** ** The theorems *)

(** C15: in either role, with memory, and as long as no start request is
    handled while the service runs ([op_ok]): after any operations, an event,
    a timer, an answer of the controller or a call of an A2DP service uses a
    list, a device or a machine that is not there, or writes past a command
    buffer, in exactly two cases: asking for a peer while the service is down,
    and a timer or an answer that comes for a machine after the shutdown that
    freed it.  There is one device for each address and the active peer is one
    of them. *)
Theorem a2dp_service_safe cfg sep n s os e o :
  service_built cfg sep = true -> reaches cfg sep n s os -> e.(mem) = true -> op_ok s o ->
  (run_op cfg e sep n o s = None <-> crashes n s o = true) /\
  (forall l, s.(devices) = Some l -> NoDup (dev_addr <$> l) /\ forall a, s.(active_peer) = Some a -> a ∈ (dev_addr <$> l)).
Proof.
  intros Hb Hr Hm Ho. destruct (reaches_sound cfg sep n s os Hb Hr) as [Hi _]. split.
  - pose proof (run_op_good cfg sep e Hm Hb n s o Hi Ho) as H. destruct (crashes n s o); [done|]. unfold good, wp in H.
    by destruct (run_op cfg e sep n o s) as [[[] ?]|].
  - intros l Hl. unfold inv in Hi. rewrite Hl in Hi. by destruct Hi as (_ & [? _] & ?).
Qed.

(** C14: the service and its machines together keep the clients informed, with
    memory and as long as no start request is handled while the service runs
    (a second one loses the peers unsaid, [second_startup_loses_peers]): for
    every peer, the connection state that the clients were told last since the
    service was first started, through events, timers, answers of the
    controller, shutdowns and starts after them, is the one that the interface
    answers with (that of the peer's machine, or disconnected if there is
    none). *)
Theorem a2dp_clients_informed cfg sep n s os a :
  service_built cfg sep = true -> reaches cfg sep n s os ->
  get_connection_state a s = Some (hears a PROFILE_STATE_DISCONNECTED os, s, []) /\
  is_connected a s = Some (bool_decide (hears a PROFILE_STATE_DISCONNECTED os = PROFILE_STATE_CONNECTED), s, []).
Proof.
  intros Hb Hr. destruct (reaches_sound cfg sep n s os Hb Hr) as [Hi Hh]. unfold is_connected, get_connection_state.
  rewrite Hh, state_for_dev, !(ask_device_run sep) by done. unfold state_of_dev. by destruct (dev_for s a).
Qed.

(** ** Witnesses *)

Definition demo_cfg : config := A2dp.demo_cfg.
Definition demo_env : env :=
  A2dpService.mk_env true A2dp.demo_env BT_STATUS_SUCCESS (fun _ => 5%Z) (mk_build true true true) true.
Definition demo_event (ty : a2dp_event_type_t) : op := op_event (mk_svc_event (a2dp_event_new ty A2dp.demo_addr) no_config 672 64).
Definition demo_ops : list op :=
  [demo_event A2DP_STARTUP; op_offloading true; op_connect A2dp.demo_addr; demo_event CONNECT_REQ; demo_event CODEC_CONFIG_EVT; demo_event CONNECTED_EVT].

Definition run_at : Type := nat * a2dp_global_t * list out.

Fixpoint run_ops (sep : peer_sep_t) (l : list op) (r : run_at) : option run_at :=
  match l with
  | [] => Some r
  | o :: l =>
      match run_op demo_cfg demo_env sep r.1.1 o r.1.2 with
      | Some (_, s, os) => run_ops sep l (if frees r.1.2 o then S r.1.1 else r.1.1, s, r.2 ++ os)
      | None => None
      end
  end.

Definition demo_run (sep : peer_sep_t) : run_at := default (0%nat, initial, []) (run_ops sep demo_ops (0%nat, initial, [])).
Definition demo_state (sep : peer_sep_t) : a2dp_global_t := (demo_run sep).1.2.

(** The events are well formed, and a start comes while the service is down. *)
Definition op_okb (s : a2dp_global_t) (o : op) : bool :=
  match o with
  | op_event se =>
      (negb (bool_decide (se.(ev).(event) = A2DP_STARTUP)) || negb s.(enabled)) && Nat.eqb (length se.(ev_config).(specific_info)) 20
  | _ => true
  end.

Fixpoint ops_ok (sep : peer_sep_t) (l : list op) (r : run_at) : bool :=
  match l with
  | [] => true
  | o :: l =>
      op_okb r.1.2 o &&
      match run_op demo_cfg demo_env sep r.1.1 o r.1.2 with
      | Some (_, s, os) => ops_ok sep l (if frees r.1.2 o then S r.1.1 else r.1.1, s, r.2 ++ os)
      | None => false
      end
  end.

Lemma op_okb_ok s o : op_okb s o = true -> op_ok s o.
Proof.
  destruct o; try done. cbn. intros [H1 H2%Nat.eqb_eq]%andb_prop. split; [|done]. intros E. rewrite (bool_decide_eq_true_2 _ E) in H1. by destruct (enabled s).
Qed.

Lemma run_ops_reaches sep l r r' :
  reaches demo_cfg sep r.1.1 r.1.2 r.2 -> ops_ok sep l r = true -> run_ops sep l r = Some r' -> reaches demo_cfg sep r'.1.1 r'.1.2 r'.2.
Proof.
  revert r. induction l as [|o l IH]; intros r Hr Hok E; [by injection E as <-|]. cbn [ops_ok run_ops] in Hok, E. apply andb_prop in Hok as [Ho Hok].
  destruct (run_op demo_cfg demo_env sep (fst (fst r)) o (snd (fst r))) as [[[[] s] os]|] eqn:Eo; [|done].
  refine (IH (_, s, snd r ++ os) _ Hok E). apply (r_step _ _ _ (snd (fst r)) (snd r) demo_env o); [done|reflexivity|by apply op_okb_ok|done].
Qed.

Lemma ops_ok_run sep l r : ops_ok sep l r = true -> run_ops sep l r = Some (default r (run_ops sep l r)).
Proof.
  intros H. destruct (run_ops sep l r) as [r'|] eqn:E; [done|]. exfalso. revert r H E. induction l as [|o l IH]; intros r H E; [done|].
  cbn [ops_ok run_ops] in H, E. apply andb_prop in H as [_ H]. destruct (run_op _ _ _ _ o _) as [[[u s] os]|]; [by eapply IH|done].
Qed.

Lemma demo_reaches sep : reaches demo_cfg sep (demo_run sep).1.1 (demo_run sep).1.2 (demo_run sep).2.
Proof.
  apply (run_ops_reaches sep demo_ops (0%nat, initial, [])); [constructor| |apply ops_ok_run]; destruct sep; vm_compute; reflexivity.
Qed.

Lemma a2dp_service_safe_witness :
  (run_op demo_cfg demo_env SEP_SNK (demo_run SEP_SNK).1.1 (demo_event STREAM_STARTED_EVT) (demo_state SEP_SNK) <> None) /\
  (run_op demo_cfg demo_env SEP_SNK (demo_run SEP_SNK).1.1 (op_input (mk_ptr 0 0) in_start_timeout) (demo_state SEP_SNK) <> None) /\
  run_op demo_cfg demo_env SEP_SNK 0 (op_find_peer A2dp.demo_addr) initial = None.
Proof.
  split; [|split].
  - intros E. apply (proj1 (proj1 (a2dp_service_safe demo_cfg SEP_SNK _ _ _ demo_env (demo_event STREAM_STARTED_EVT) eq_refl (demo_reaches SEP_SNK) eq_refl
      ltac:(split; [discriminate|discriminate])))) in E. vm_compute in E. discriminate E.
  - intros E. apply (proj1 (proj1 (a2dp_service_safe demo_cfg SEP_SNK _ _ _ demo_env (op_input (mk_ptr 0 0) in_start_timeout) eq_refl (demo_reaches SEP_SNK) eq_refl I))) in E.
    vm_compute in E. discriminate E.
  - exact (proj2 (proj1 (a2dp_service_safe demo_cfg SEP_SNK 0 initial [] demo_env (op_find_peer A2dp.demo_addr) eq_refl (r_initial _ _) eq_refl I)) eq_refl).
Defined.

Lemma a2dp_clients_informed_witness :
  get_connection_state A2dp.demo_addr (demo_state SEP_SRC) = Some (PROFILE_STATE_CONNECTED, demo_state SEP_SRC, []).
Proof.
  destruct (a2dp_clients_informed demo_cfg SEP_SRC _ _ _ A2dp.demo_addr eq_refl (demo_reaches SEP_SRC)) as [E _]. unfold demo_state. rewrite E.
  apply f_equal. assert (hears A2dp.demo_addr PROFILE_STATE_DISCONNECTED (snd (demo_run SEP_SRC)) = PROFILE_STATE_CONNECTED) as ->
    by (vm_compute; reflexivity). reflexivity.
Defined.

(** ** Defects *)

(** A second start request that was posted before the first was handled makes
    the list anew: the connected peer is gone from it, with its machine and
    without a word to the clients, while it stays the active one. *)
Lemma second_startup_loses_peers :
  let s := demo_state SEP_SNK in
  (dev_addr <$> default [] s.(devices)) = [A2dp.demo_addr] /\ s.(active_peer) = Some A2dp.demo_addr /\
  match run_op demo_cfg demo_env SEP_SNK 0 (demo_event A2DP_STARTUP) s with
  | Some (_, s', os) => s'.(devices) = Some [] /\ s'.(active_peer) = Some A2dp.demo_addr /\ omap report_of os = []
  | None => False
  end.
Proof. vm_compute. repeat split; reflexivity. Qed.

(** If the stack refuses the second start, the list is taken away from the
    service that runs: the next event fails. *)
Lemma failed_second_startup_crashes :
  let refusing := A2dpService.mk_env true A2dp.demo_env BT_STATUS_FAIL (fun _ => 5%Z) (mk_build true true true) true in
  match run_op demo_cfg refusing SEP_SNK 0 (demo_event A2DP_STARTUP) (demo_state SEP_SNK) with
  | Some (_, s', _) => s'.(enabled) = true /\ run_op demo_cfg demo_env SEP_SNK 0 (demo_event DISCONNECTED_EVT) s' = None
  | None => False
  end.
Proof. vm_compute. split; reflexivity. Qed.

(** A shutdown while a start is pending: the machine is freed and its timer
    stays armed with the pointer to it; when it fires, the freed machine is
    used. *)
Definition timer_env (t : timer_h) : env := {! machine_env ::= {! A2dp.new_timer := Some t } } demo_env.

Lemma timer_outlives_machine :
  match run_ops SEP_SNK [demo_event DEVICE_CODEC_STATE_CHANGE_EVT] (demo_run SEP_SNK) with
  | Some (n, s, _) =>
      match run_op demo_cfg (timer_env 9) SEP_SNK n (demo_event STREAM_START_REQ) s with
      | Some (_, s1, os1) =>
          In (machine (service_loop_timer A2DP_START_TIMEOUT (Some 9%nat))) os1 /\
          match run_op demo_cfg demo_env SEP_SNK n (demo_event A2DP_SHUTDOWN) s1 with
          | Some (_, s2, os2) =>
              ~ In (machine (service_loop_cancel_timer (Some 9%nat))) os2 /\
              run_op demo_cfg demo_env SEP_SNK (S n) (op_input (mk_ptr n 0) in_start_timeout) s2 = None
          | None => False
          end
      | None => False
      end
  | None => False
  end.
Proof.
  vm_compute. split; [tauto|]. split; [|reflexivity]. intros H. repeat (destruct H as [H|H]; [discriminate H|]). exact H.
Qed.

(** A connection state is returned for a status: while the source service is
    down a request to connect succeeds without being made. *)
Lemma disabled_source_accepts cfg a n os s :
  service_built cfg SEP_SNK = true -> reaches cfg SEP_SNK n s os -> s.(enabled) = false ->
  connect demo_env SEP_SNK a s = Some (BT_STATUS_SUCCESS, s, []).
Proof. intros _ _ Hen. unfold connect, request, ebind, egets. by rewrite Hen. Qed.

(** The sink service never sets the handle of the link: the machine takes 0. *)
Lemma sink_link_handle_unset :
  match (demo_state SEP_SRC).(devices) with Some [d] => d.(peer).(acl_hdl) = 0%Z /\ d.(a2dp_sm).(data).(acl_handle) = 0%Z | _ => False end.
Proof. vm_compute. split; reflexivity. Qed.
End A2dpServiceSpec.
