(* ===== verification/L2cap.v ===== *)
(** * L2CAP channels (service/src/l2cap_service.c)

    The service keeps a list of channels: those that listen on a PSM, those
    accepted from them, those that a client asked for.  Every channel has a
    pipe to its application; what the application writes goes to the stack, at
    most [L2CAP_TX_QUOTA] packets ahead; segments from the stack are put
    together to SDUs, written to the pipe and kept until the write is done.
    The peer may send a segment per credit; credits are given back as the
    application reads.

    A channel, a packet and a pipe are known by their addresses, which are
    numbered as they are allocated ([next]).  [None] (of the monad [E]) is the
    use of memory that is not there: a freed channel or entry of the callback
    list, bytes outside of a packet, a division by zero, a failed assertion.
    The bytes of a packet that are written so far are [data]; [room] is what
    was allocated for them.

    libuv is not part of the sources: what it answers is in [env]; it calls
    back a write of a pipe in the order of the writes, so the pending ones are
    a queue ([writes]).  The mutex is not modelled: the service loop and the
    callers of the interface take it around everything but
    [l2cap_unregister_callbacks] and the callback of a write. *)

From S2P Require Import Prelude Fallible IndexAllocator BtAddr CallbacksList.
From stdpp Require Import strings pretty.
From coqutil Require Import Datatypes.RecordSetters.
Import UpdaterNotations.

Local Open Scope Z_scope.
Local Open Scope fall_scope.

Module L2cap.
Import BtAddr CallbacksList.

Abbreviation BT_STATUS_NOT_ENABLED := BT_STATUS_NOT_READY.

Definition L2CAP_CHANNEL_MAX_NUM : Z := 20.
Definition L2CAP_PIPE_DEF_READ_SIZE : Z := 1024.
Definition L2CAP_LE_DYNAMIC_PSM_NUM : nat := 64.
Definition LE_PSM_DYNAMIC_MIN : Z := 0x80.
Definition L2CAP_TX_QUOTA : Z := 16.
Definition L2CAP_CID_DYNAMIC_MIN : Z := 0x40.
Definition L2CAP_MAX_RX_BUF_SIZE : Z := 10240.
Definition L2CAP_LE_CREDITS_LOW_WATERMARK : Z := 10.
Definition PSM_BIT_MASK (psm : Z) : Z := Z.shiftl 1 (psm - LE_PSM_DYNAMIC_MIN).

(** ** Data *)

Inductive l2cap_channel_role_t :=
| L2CAP_CHANNEL_ROLE_SERVER_LISTEN
| L2CAP_CHANNEL_ROLE_SERVER_ACCEPT
| L2CAP_CHANNEL_ROLE_CLIENT.

#[export] Instance role_eq_dec : EqDecision l2cap_channel_role_t.
Proof. solve_decision. Defined.

Record l2cap_pkt_t := mk_pkt {
  pkt : nat;
  len_total : Z;
  len_received : Z;
  data : list Z;
  room : Z;
}.

Record l2cap_endpoint_param_t := mk_endpoint { mtu : Z; le_mps : Z; credits : Z }.

Record l2cap_channel_t := mk_channel {
  ch : nat;
  addr : bt_address_t;
  local_cid : Z;
  psm : Z;
  incoming : l2cap_endpoint_param_t;
  outgoing : l2cap_endpoint_param_t;
  tx_mtu : Z;
  tx_quota : Z;
  id : Z;
  role : l2cap_channel_role_t;
  channel_connected : bool;
  pipe : option nat;
  proxy_name : string;
  proxy_connected : bool;
  app_handle : N;
  rx_sdu : option l2cap_pkt_t;
  rx_list : list l2cap_pkt_t;
  rx_buf_size : Z;
}.

Record l2cap_manager_t := mk_manager {
  cbsl : callbacks_list_t;
  channel_list : list l2cap_channel_t;
  id_allocator : IndexAllocator.index_allocator_t;
  psm_map : Z;
  next : nat;
  writes : list (nat * nat);       (* pending writes: the pipe, the packet *)
}.

(** What the service looks at of [l2cap_config_option_t], whose [id] and
    [proxy_name] it sets. *)
Record l2cap_config_option_t := mk_option { opt_ble : bool; opt_psm : Z; opt_mtu : Z; opt_mps : Z; init_credits : Z }.

(** What is told of a new connection. *)
Record l2cap_connect_params_t := mk_params {
  c_addr : bt_address_t; c_cid : Z; c_psm : Z; c_incoming_mtu : Z; c_outgoing_mtu : Z; c_id : Z;
  c_listen : option (Z * string);
}.

Record l2cap_channel_param_t := mk_param {
  is_client : bool; param_cid : Z; param_psm : Z; param_in : l2cap_endpoint_param_t; param_out : l2cap_endpoint_param_t;
}.

Inductive l2cap_msg_t :=
| CID_ALLOCATED_EVT (a : bt_address_t) (psm cid : Z)
| CHANNEL_CONNECTED_EVT (a : bt_address_t) (p : l2cap_channel_param_t)
| CHANNEL_DISCONNECTED_EVT (a : bt_address_t) (cid reason : Z)
| PACKET_RECEIVED_EVT (a : bt_address_t) (cid : Z) (p : l2cap_pkt_t)
| PACKET_SENT_EVT (a : bt_address_t) (cid : Z).

Inductive out :=
| bt_sal_l2cap_disconnect_channel (cid : Z)
| bt_sal_l2cap_send_packet (cid : Z) (buf : list Z)
| bt_sal_l2cap_listen_channel (o : l2cap_config_option_t) (id : Z) (name : string)
| bt_sal_l2cap_stop_listen_channel (psm : Z)
| bt_sal_l2cap_connect_channel (a : bt_address_t) (o : l2cap_config_option_t) (id : Z) (name : string)
| bt_sal_l2cap_give_incoming_credits (a : bt_address_t) (cid n : Z)
| euv_pipe_open (h : nat) (name : string)
| euv_pipe_close (h : nat)
| euv_pipe_read_start (h : nat) (size : Z)
| euv_pipe_read_stop (h : nat)
| euv_pipe_write (h : nat) (buf : list Z)
| on_connected (remote : N) (p : l2cap_connect_params_t)
| on_disconnected (remote : N) (a : bt_address_t) (id reason : Z)
| do_in_service_loop (m : l2cap_msg_t).

(** What the code called answers. *)
Record env := mk_env {
  le_enabled : bool;                (* adapter_is_le_enabled *)
  mem : bool;                       (* allocations succeed *)
  opens : bool;                     (* euv_pipe_open gives a pipe *)
  read_start : bool;                (* euv_pipe_read_start, euv_pipe_read_stop and *)
  read_stop : bool;                 (*   euv_pipe_write return 0 *)
  write : bool;
  listens : bt_status_t;            (* bt_sal_l2cap_listen_channel *)
  connects : bt_status_t;           (* bt_sal_l2cap_connect_channel *)
  disconnects : bt_status_t;        (* bt_sal_l2cap_disconnect_channel *)
  gives : bt_status_t;              (* bt_sal_l2cap_give_incoming_credits *)
  has_on_connected : bool;          (* the client's table has on_connected *)
  has_on_disconnected : bool;
  max_tx_mtu : Z;                   (* CONFIG_BLUETOOTH_L2CAP_OUTGOING_MTU *)
}.

Abbreviation MS := (E l2cap_manager_t out).

Section Service.
Context (e : env).

(** ** The list *)

Definition at_ptr (p : nat) (c : l2cap_channel_t) : bool := Nat.eqb c.(ch) p.

(** Reading and writing through a pointer. *)
Definition chan (p : nat) : MS l2cap_channel_t := eread (fun s => List.find (at_ptr p) s.(channel_list)).
Definition upd (p : nat) (f : l2cap_channel_t -> l2cap_channel_t) : MS unit :=
  chan p;;; emodify {! channel_list ::= map (fun c => if at_ptr p c then f c else c) }.

(** The next address. *)
Definition fresh : MS nat := n <- egets next;; emodify {! next ::= S };;; eret n.

(** The channel a search over the list gives. *)
Definition search (f : l2cap_channel_t -> bool) : MS (option nat) :=
  egets (fun s => ch <$> List.find f s.(channel_list)).

Definition find_l2cap_channel_by_cid (cid : Z) : MS (option nat) := search (fun c => c.(local_cid) =? cid).
Definition find_l2cap_channel_by_pipe (h : nat) : MS (option nat) := search (fun c => bool_decide (c.(pipe) = Some h)).
Definition find_l2cap_channel_by_id (i : Z) : MS (option nat) := search (fun c => c.(id) =? i).

(** Whether [c] is what [find_l2cap_channel_by_conn_param] looks for. *)
Definition conn_match (a : option bt_address_t) (p : Z) (r : l2cap_channel_role_t) (b : bool) (c : l2cap_channel_t) : bool :=
  (c.(psm) =? p) && bool_decide (c.(role) = r) && Bool.eqb c.(channel_connected) b
  && match r, a with
     | L2CAP_CHANNEL_ROLE_CLIENT, Some a => bt_addr_compare c.(addr) a =? 0
     | L2CAP_CHANNEL_ROLE_CLIENT, None => false
     | _, _ => true
     end.
Definition find_l2cap_channel_by_conn_param (a : option bt_address_t) (p : Z) (r : l2cap_channel_role_t) (b : bool) : MS (option nat) :=
  search (conn_match a p r b).

(** ** The clients *)

(** The remote client of a channel that has both a remote and callbacks. *)
Definition client (c : l2cap_channel_t) : MS (option N) :=
  r <- eread (fun s => entry c.(app_handle) s.(cbsl));;
  eret (if bool_decide (r.(callbacks) = 0%N) then None else r.(CallbacksList.remote)).

Definition l2cap_notify_connected (c : l2cap_channel_t) (p : l2cap_connect_params_t) : MS unit :=
  r <- client c;;
  match r with
  | Some r => ewhen e.(has_on_connected) (eemit (on_connected r p))
  | None => eret tt
  end.

Definition l2cap_notify_disconnected (c : l2cap_channel_t) (reason : Z) : MS unit :=
  r <- client c;;
  match r with
  | Some r => ewhen e.(has_on_disconnected) (eemit (on_disconnected r c.(addr) c.(id) reason))
  | None => eret tt
  end.

(** ** PSMs *)

Definition psm_in_range (p : Z) : bool :=
  (LE_PSM_DYNAMIC_MIN <=? p) && (p <? LE_PSM_DYNAMIC_MIN + Z.of_nat L2CAP_LE_DYNAMIC_PSM_NUM).
Definition psm_used (p m : Z) : bool := negb (Z.land m (PSM_BIT_MASK p) =? 0).

Definition check_psm_available (p : Z) : MS bool :=
  if negb (psm_in_range p) then eret false else m <- egets psm_map;; eret (negb (psm_used p m)).

Definition take_psm (p : Z) : MS unit := emodify {! psm_map ::= (fun m => Z.lor m (PSM_BIT_MASK p)) }.

(** The [n] PSMs from [p]; 0: none is free. *)
Fixpoint alloc_psm_loop (n : nat) (p : Z) : MS Z :=
  match n with
  | O => eret 0
  | S n =>
      m <- egets psm_map;;
      if psm_used p m then alloc_psm_loop n (u16 (p + 1)) else take_psm p;;; eret p
  end.
(** The first ten are reserved. *)
Definition alloc_le_dynamic_psm : MS Z := alloc_psm_loop (L2CAP_LE_DYNAMIC_PSM_NUM - 10) (LE_PSM_DYNAMIC_MIN + 10).

Definition free_le_dynamic_psm (p : Z) : MS unit :=
  if negb (psm_in_range p) then eret tt
  else
    c <- find_l2cap_channel_by_conn_param None p L2CAP_CHANNEL_ROLE_SERVER_LISTEN false;;
    match c with
    | Some _ => eret tt
    | None =>
        c <- find_l2cap_channel_by_conn_param None p L2CAP_CHANNEL_ROLE_SERVER_ACCEPT true;;
        match c with
        | Some _ => eret tt
        | None =>
            emodify {! psm_map ::= (fun m => Z.ldiff m (PSM_BIT_MASK p)) };;;
            eemit (bt_sal_l2cap_stop_listen_channel p)
        end
    end.

(** ** Channels *)

(** [None] of [index_free]: an identifier that is not in use. *)
Definition free_id (i : Z) : MS unit :=
  al <- eread (fun s => ia_free s.(id_allocator) i);;
  emodify {! id_allocator := al }.

(** The callback of the list when an element goes; the channel is no longer in
    the list. *)
Definition free_l2cap_channel (c : l2cap_channel_t) : MS unit :=
  (match c.(pipe) with Some h => eemit (euv_pipe_close h) | None => eret tt end);;;
  free_id c.(id);;;
  ewhen (negb (bool_decide (c.(role) = L2CAP_CHANNEL_ROLE_CLIENT))) (free_le_dynamic_psm c.(psm)).

(** [bt_list_remove] of a channel that is in the list. *)
Definition remove_channel (p : nat) : MS unit :=
  c <- chan p;;
  emodify {! channel_list ::= List.filter (fun c => negb (at_ptr p c)) };;;
  free_l2cap_channel c.

Definition no_endpoint : l2cap_endpoint_param_t := mk_endpoint 0 0 0.

Definition alloc_free_channel (handle : N) (a : option bt_address_t) (p : Z) (r : l2cap_channel_role_t) : MS (option nat) :=
  if bool_decide (a <> None) && bool_decide (r = L2CAP_CHANNEL_ROLE_SERVER_LISTEN) then eret None
  else
    x <- eread (fun s => ia_alloc s.(id_allocator));;
    emodify {! id_allocator := x.2 };;;
    if x.1 <? 0 then eret None
    else if negb e.(mem) then free_id x.1;;; eret None
    else
      n <- fresh;;
      emodify {! channel_list ::= (fun l => l ++ [mk_channel n (default bt_addr_empty a) 0 p no_endpoint no_endpoint 0 0 (u16 x.1) r
        false None "" false handle None [] 0]) };;;
      eret (Some n).

(** The pipe for the application; [proxy_name] has 16 bytes. *)
Definition pipe_name (i : Z) : string := ("l-srvpipe-" +:+ pretty i)%string.

Definition prepare_data_path (p : nat) : MS bool :=
  c <- chan p;;
  upd p {! proxy_name := pipe_name c.(id) };;;
  if e.(opens)
  then n <- fresh;; eemit (euv_pipe_open n (pipe_name c.(id)));;; upd p {! pipe := Some n };;; eret true
  else eret false.

Definition l2cap_abort_channel (p : nat) : MS unit :=
  c <- chan p;;
  (match c.(pipe) with
   | Some h => eemit (euv_pipe_close h);;; upd p {! proxy_connected := false; pipe := None }
   | None => eret tt
   end);;;
  ewhen (negb (c.(local_cid) =? 0)) (eemit (bt_sal_l2cap_disconnect_channel c.(local_cid))).

(** ** Configuration *)

(** [None]: refused; the credits are adjusted. *)
Definition l2cap_config_param (o : l2cap_config_option_t) : option l2cap_config_option_t :=
  if L2CAP_MAX_RX_BUF_SIZE <? o.(opt_mtu) then None
  else if negb o.(opt_ble) then Some o
  else if o.(opt_mps) =? 0 then None
  else if o.(opt_mtu) <? o.(opt_mps) then None
  else
    let min_credits := u16 (Z.quot (o.(opt_mtu) + o.(opt_mps) - 1) o.(opt_mps)) in
    let max_credits := u16 (Z.quot L2CAP_MAX_RX_BUF_SIZE o.(opt_mps)) in
    Some (if o.(init_credits) <? min_credits then {! init_credits := min_credits } o
          else if max_credits <? o.(init_credits) then {! init_credits := max_credits } o else o).

(** ** Receiving *)

Definition set_credits (n : Z) : l2cap_channel_t -> l2cap_channel_t := {! incoming ::= {! credits := n } }.

Definition l2cap_add_incoming_credits (p : nat) : MS unit :=
  c <- chan p;;
  if c.(incoming).(le_mps) =? 0 then efail
  else
    let remote_credits := u16 (Z.quot c.(rx_buf_size) c.(incoming).(le_mps)) in
    if remote_credits <=? c.(incoming).(credits) then eret tt
    else
      eemit (bt_sal_l2cap_give_incoming_credits c.(addr) c.(local_cid) (u16 (remote_credits - c.(incoming).(credits))));;;
      if negb (is_success e.(gives)) then eret tt else upd p (set_credits remote_credits).

Definition refill (p : nat) : MS unit :=
  c <- chan p;;
  ewhen (c.(incoming).(credits) <? L2CAP_LE_CREDITS_LOW_WATERMARK) (l2cap_add_incoming_credits p).

(** The callback of a write; [buf]: the packet whose bytes were written, [ok]:
    [status] is 0. *)
Definition l2cap_send_sdu_to_app_cb (h buf : nat) (ok : bool) : MS unit :=
  p <- find_l2cap_channel_by_pipe h;;
  match p with
  | None => eret tt
  | Some p =>
      if negb ok then l2cap_abort_channel p
      else
        c <- chan p;;
        match c.(rx_list) with
        | [] => eret tt
        | sdu :: rest =>
            if negb (Nat.eqb sdu.(pkt) buf) then efail
            else
              let n := u16 (c.(rx_buf_size) + sdu.(len_total)) in
              upd p {! rx_list := rest; rx_buf_size := if L2CAP_MAX_RX_BUF_SIZE <? n then L2CAP_MAX_RX_BUF_SIZE else n };;;
              refill p
        end
  end.

(** The first [n] of the bytes of a packet; reading past what was allocated
    fails. *)
Definition pkt_bytes (k : l2cap_pkt_t) (n : Z) : option (list Z) :=
  if k.(room) <? n then None else Some (take (Z.to_nat n) (k.(data) ++ replicate (Z.to_nat n) 0)).

Definition l2cap_send_sdu_to_app (p : nat) : MS unit :=
  c <- chan p;;
  sdu <- eread (fun _ => c.(rx_sdu));;
  upd p {! rx_sdu := None };;;
  match c.(pipe) with
  | Some h =>
      buf <- eread (fun _ => pkt_bytes sdu sdu.(len_total));;
      eemit (euv_pipe_write h buf);;;
      if e.(write)
      then emodify {! writes ::= (fun l => l ++ [(h, sdu.(pkt))]) };;; upd p {! rx_list ::= (fun l => l ++ [sdu]) }
      else l2cap_abort_channel p
  | None => l2cap_abort_channel p
  end.

(** [memcpy] behind what was received so far. *)
Definition append (sdu k : l2cap_pkt_t) : option l2cap_pkt_t :=
  if sdu.(room) <? sdu.(len_received) + k.(len_received) then None
  else Some (mk_pkt sdu.(pkt) sdu.(len_total) (u16 (sdu.(len_received) + k.(len_received))) (sdu.(data) ++ k.(data)) sdu.(room)).

(** [k] starts an SDU, or continues [sdu]. *)
Definition add_segment (p : nat) (sdu : option l2cap_pkt_t) (k : l2cap_pkt_t) : MS unit :=
  match sdu with
  | None =>
      upd p {! rx_sdu := Some k };;;
      ewhen (k.(len_received) =? k.(len_total)) (l2cap_send_sdu_to_app p)
  | Some sdu =>
      if sdu.(len_total) <? sdu.(len_received) + k.(len_received)
      then upd p {! rx_sdu := None };;; l2cap_abort_channel p
      else
        sdu <- eread (fun _ => append sdu k);;
        upd p {! rx_sdu := Some sdu };;;
        ewhen (sdu.(len_received) =? sdu.(len_total)) (l2cap_send_sdu_to_app p)
  end.

Definition handle_packet_received (a : bt_address_t) (cid : Z) (k : l2cap_pkt_t) : MS unit :=
  p <- find_l2cap_channel_by_cid cid;;
  match p with
  | None => eret tt
  | Some p =>
      c <- chan p;;
      if c.(incoming).(le_mps) <? k.(len_received) then l2cap_abort_channel p
      else if c.(incoming).(mtu) <? k.(len_total) then l2cap_abort_channel p
      else if c.(incoming).(credits) =? 0 then l2cap_abort_channel p
      else if negb c.(proxy_connected) || bool_decide (c.(pipe) = None) then eret tt
      else
        upd p (fun c => {! rx_buf_size := u16 (c.(rx_buf_size) - k.(len_received)) } (set_credits (u16 (c.(incoming).(credits) - 1)) c));;;
        refill p;;;
        add_segment p c.(rx_sdu) k
  end.

(** ** Sending *)

(** [buf]: [None] is a negative size, the end of the pipe. *)
Definition l2cap_receive_data_from_app (h : nat) (buf : option (list Z)) : MS unit :=
  p <- find_l2cap_channel_by_pipe h;;
  match p with
  | None => eret tt
  | Some p =>
      c <- chan p;;
      match buf with
      | None =>
          ewhen c.(channel_connected) (eemit (bt_sal_l2cap_disconnect_channel c.(local_cid)));;;
          remove_channel p
      | Some [] => eret tt
      | Some buf =>
          if negb c.(channel_connected) then eret tt
          else
            eemit (bt_sal_l2cap_send_packet c.(local_cid) buf);;;
            upd p {! tx_quota := u16 (c.(tx_quota) - 1) };;;
            ewhen (u16 (c.(tx_quota) - 1) =? 0) (match c.(pipe) with Some h => eemit (euv_pipe_read_stop h) | None => eret tt end)
      end
  end.

Definition handle_packet_sent (a : bt_address_t) (cid : Z) : MS unit :=
  p <- find_l2cap_channel_by_cid cid;;
  match p with
  | None => eret tt
  | Some p =>
      c <- chan p;;
      (match c.(pipe) with
       | Some h => ewhen (c.(tx_quota) =? 0) (eemit (euv_pipe_read_start h c.(tx_mtu)))
       | None => eret tt
       end);;;
      upd p {! tx_quota := u16 (c.(tx_quota) + 1) }
  end.

(** ** Connections *)

(** The application has opened its end of the pipe, or failed to. *)
Definition proxy_connected_cb (p : nat) (ok : bool) : MS unit :=
  if negb ok then remove_channel p
  else
    upd p {! proxy_connected := true };;;
    c <- chan p;;
    match c.(pipe) with
    | Some h =>
        eemit (euv_pipe_read_start h L2CAP_PIPE_DEF_READ_SIZE);;;
        if e.(read_start) then eret tt else remove_channel p
    | None => remove_channel p
    end.

Definition handle_cid_allocated (a : bt_address_t) (p cid : Z) : MS unit :=
  c <- find_l2cap_channel_by_conn_param (Some a) p L2CAP_CHANNEL_ROLE_CLIENT false;;
  match c with Some c => upd c {! local_cid := cid } | None => eret tt end.

(** The parameters of the connection; then the pipe is read with the new size
    and the client is told.  [new]: the channel that listens now. *)
Definition finish_connect (p : nat) (prm : l2cap_channel_param_t) (new : option nat) : MS unit :=
  let bytes := prm.(param_in).(credits) * prm.(param_in).(le_mps) in
  upd p {! incoming := prm.(param_in); outgoing := prm.(param_out); tx_mtu := Z.min prm.(param_out).(mtu) e.(max_tx_mtu);
           tx_quota := L2CAP_TX_QUOTA;
           rx_buf_size := if L2CAP_MAX_RX_BUF_SIZE <? bytes then L2CAP_MAX_RX_BUF_SIZE else u16 bytes };;;
  c <- chan p;;
  match c.(pipe) with
  | None => l2cap_abort_channel p
  | Some h =>
      eemit (euv_pipe_read_stop h);;;
      if negb e.(read_stop) then l2cap_abort_channel p
      else
        eemit (euv_pipe_read_start h c.(tx_mtu));;;
        if negb e.(read_start) then l2cap_abort_channel p
        else
          upd p {! channel_connected := true };;;
          listen <- (match new with Some n => n <- chan n;; eret (Some (n.(id), n.(proxy_name))) | None => eret None end);;
          l2cap_notify_connected c (mk_params c.(addr) c.(local_cid) c.(psm) c.(incoming).(mtu) c.(outgoing).(mtu) c.(id) listen)
  end.

Definition handle_channel_conneted (a : bt_address_t) (prm : l2cap_channel_param_t) : MS unit :=
  let r := if prm.(is_client) then L2CAP_CHANNEL_ROLE_CLIENT else L2CAP_CHANNEL_ROLE_SERVER_LISTEN in
  p <- find_l2cap_channel_by_conn_param (Some a) prm.(param_psm) r false;;
  match p with
  | None => ewhen (negb (prm.(param_cid) =? 0)) (eemit (bt_sal_l2cap_disconnect_channel prm.(param_cid)))
  | Some p =>
      c <- chan p;;
      if negb c.(proxy_connected) then l2cap_abort_channel p
      else if prm.(is_client) then finish_connect p prm None
      else
        upd p {! addr := a; local_cid := prm.(param_cid); role := L2CAP_CHANNEL_ROLE_SERVER_ACCEPT };;;
        new <- alloc_free_channel c.(app_handle) None c.(psm) L2CAP_CHANNEL_ROLE_SERVER_LISTEN;;
        match new with
        | None => eret tt
        | Some n =>
            ok <- prepare_data_path n;;
            if negb ok then remove_channel n else finish_connect p prm (Some n)
        end
  end.

Definition handle_channel_disconneted (a : bt_address_t) (cid reason : Z) : MS unit :=
  p <- find_l2cap_channel_by_cid cid;;
  match p with
  | None => eret tt
  | Some p => c <- chan p;; l2cap_notify_disconnected c reason;;; remove_channel p
  end.

Definition handle_l2cap_event (m : l2cap_msg_t) : MS unit :=
  match m with
  | CID_ALLOCATED_EVT a p cid => handle_cid_allocated a p cid
  | CHANNEL_CONNECTED_EVT a prm => handle_channel_conneted a prm
  | CHANNEL_DISCONNECTED_EVT a cid reason => handle_channel_disconneted a cid reason
  | PACKET_RECEIVED_EVT a cid k => handle_packet_received a cid k
  | PACKET_SENT_EVT a cid => handle_packet_sent a cid
  end.

(** ** The stack's callbacks post the messages *)

Definition post (m : l2cap_msg_t) : MS unit := ewhen e.(mem) (eemit (do_in_service_loop m)).

Definition l2cap_on_cid_allocated a p cid : MS unit := post (CID_ALLOCATED_EVT a p cid).
Definition l2cap_on_channel_connected a prm : MS unit := post (CHANNEL_CONNECTED_EVT a prm).
Definition l2cap_on_channel_disconnected a cid reason : MS unit := post (CHANNEL_DISCONNECTED_EVT a cid reason).
Definition l2cap_on_packet_sent a cid : MS unit := post (PACKET_SENT_EVT a cid).

Definition l2cap_on_packet_received (a : bt_address_t) (cid : Z) (buf : list Z) : MS unit :=
  ewhen e.(mem) (
    n <- fresh;;
    let size := Z.of_nat (length buf) in
    eemit (do_in_service_loop (PACKET_RECEIVED_EVT a cid (mk_pkt n size size buf size)))).

(** [seg]: [None] is NULL.  A first segment has room for the SDU, a later one
    for itself. *)
Definition l2cap_on_segment_received (a : bt_address_t) (cid : Z) (seg : option (list Z)) (sdu_len seg_off : Z) : MS bool :=
  match seg with
  | None | Some [] => eret false
  | Some seg =>
      let seg_len := Z.of_nat (length seg) in
      if cid <? L2CAP_CID_DYNAMIC_MIN then eret false
      else if (0 <? sdu_len) && (sdu_len <? seg_len) then eret false
      else if negb e.(mem) then eret false
      else
        let data_len := if seg_off =? 0 then sdu_len else seg_len in
        n <- fresh;;
        if data_len <? seg_len then efail
        else eemit (do_in_service_loop (PACKET_RECEIVED_EVT a cid (mk_pkt n sdu_len seg_len seg data_len)));;; eret true
  end.

(** ** The interface *)

(** [c]: the entry that [malloc] gives. *)
Definition l2cap_register_callbacks (c : N) (rem : option N) (cbs : N) : MS (option N) :=
  if negb e.(le_enabled) then eret None
  else
    l <- egets cbsl;;
    let '(r, l') := bt_remote_callbacks_register c rem cbs l in
    emodify {! cbsl := l' };;; eret r.

(** The channels of the client go first, from the head of the list on. *)
Definition l2cap_cleanup_app (h : N) : MS unit :=
  l <- egets channel_list;;
  efor l (fun c =>
    ewhen (bool_decide (c.(app_handle) = h)) (
      ewhen c.(channel_connected) (eemit (bt_sal_l2cap_disconnect_channel c.(local_cid)));;;
      remove_channel c.(ch))).

Definition l2cap_unregister_callbacks (cookie : option N) : MS bool :=
  if negb e.(le_enabled) then eret true
  else
    match cookie with
    | None => eret false
    | Some h =>
        l2cap_cleanup_app h;;;
        l <- egets cbsl;;
        let '(ok, _, l') := bt_remote_callbacks_unregister h l in
        emodify {! cbsl := l' };;; eret ok
    end.

Definition l2cap_listen_channel (handle : N) (o : l2cap_config_option_t) : MS bt_status_t :=
  if negb e.(le_enabled) then eret BT_STATUS_NOT_ENABLED
  else if negb o.(opt_ble) then eret BT_STATUS_UNSUPPORTED
  else
    match l2cap_config_param o with
    | None => eret BT_STATUS_PARM_INVALID
    | Some o =>
        p <- (if o.(opt_psm) =? 0 then alloc_le_dynamic_psm
              else
                ok <- check_psm_available o.(opt_psm);;
                if (ok : bool) then take_psm o.(opt_psm);;; eret o.(opt_psm) else eret 0);;
        if p =? 0 then eret BT_STATUS_NOMEM
        else
          c <- alloc_free_channel handle None p L2CAP_CHANNEL_ROLE_SERVER_LISTEN;;
          match c with
          | None => eret BT_STATUS_NOMEM
          | Some c =>
              ok <- prepare_data_path c;;
              if negb ok then remove_channel c;;; eret BT_STATUS_NOMEM
              else
                x <- chan c;;
                eemit (bt_sal_l2cap_listen_channel ({! opt_psm := p } o) x.(id) x.(proxy_name));;;
                ewhen (negb (is_success e.(listens))) (remove_channel c);;;
                eret e.(listens)
          end
    end.

Definition l2cap_connect_channel (handle : N) (a : bt_address_t) (o : l2cap_config_option_t) : MS bt_status_t :=
  if negb e.(le_enabled) then eret BT_STATUS_NOT_ENABLED
  else
    match l2cap_config_param o with
    | None => eret BT_STATUS_PARM_INVALID
    | Some o =>
        c <- alloc_free_channel handle (Some a) o.(opt_psm) L2CAP_CHANNEL_ROLE_CLIENT;;
        match c with
        | None => eret BT_STATUS_NOMEM
        | Some c =>
            ok <- prepare_data_path c;;
            if negb ok then remove_channel c;;; eret BT_STATUS_NOMEM
            else
              x <- chan c;;
              eemit (bt_sal_l2cap_connect_channel a o x.(id) x.(proxy_name));;;
              ewhen (negb (is_success e.(connects))) (remove_channel c);;;
              eret e.(connects)
        end
    end.

Definition l2cap_disconnect_channel (handle : N) (i : Z) : MS bt_status_t :=
  if negb e.(le_enabled) then eret BT_STATUS_NOT_ENABLED
  else
    p <- find_l2cap_channel_by_id i;;
    match p with
    | None => eret BT_STATUS_NOT_FOUND
    | Some p =>
        c <- chan p;;
        if negb (bool_decide (c.(app_handle) = handle)) then eret BT_STATUS_UNHANDLED
        else if c.(local_cid) =? 0 then eret BT_STATUS_NOT_READY
        else eemit (bt_sal_l2cap_disconnect_channel c.(local_cid));;; eret e.(disconnects)
    end.

Definition l2cap_stop_listen_channel (handle : N) (ble : bool) (p : Z) : MS bt_status_t :=
  if negb e.(le_enabled) then eret BT_STATUS_NOT_ENABLED
  else if negb ble then eret BT_STATUS_UNSUPPORTED
  else
    c <- find_l2cap_channel_by_conn_param None p L2CAP_CHANNEL_ROLE_SERVER_LISTEN false;;
    match c with
    | None => eret BT_STATUS_NOT_FOUND
    | Some c =>
        x <- chan c;;
        if negb (bool_decide (x.(app_handle) = handle)) then eret BT_STATUS_UNHANDLED
        else remove_channel c;;; eret BT_STATUS_SUCCESS
    end.
End Service.

(** ** What can happen

    Between [l2cap_service_init] and [l2cap_service_cleanup]: a message of the
    service loop, a callback of the stack, a callback of a pipe, a call of a
    client. *)

Inductive op :=
| op_message (m : l2cap_msg_t)
| op_segment (a : bt_address_t) (cid : Z) (seg : option (list Z)) (sdu_len seg_off : Z)
| op_packet (a : bt_address_t) (cid : Z) (buf : list Z)
| op_pipe_connected (p : nat) (ok : bool)
| op_pipe_read (h : nat) (buf : option (list Z))
| op_written (h : nat) (ok : bool)
| op_register (c : N) (rem : option N) (cbs : N)
| op_unregister (cookie : option N)
| op_listen (handle : N) (o : l2cap_config_option_t)
| op_connect (handle : N) (a : bt_address_t) (o : l2cap_config_option_t)
| op_disconnect (handle : N) (i : Z)
| op_stop_listen (handle : N) (ble : bool) (p : Z).

Fixpoint drop_write (h : nat) (l : list (nat * nat)) : list (nat * nat) :=
  match l with [] => [] | w :: l => if Nat.eqb w.1 h then l else w :: drop_write h l end.

(** The oldest write of a pipe is done. *)
Definition written (e : env) (h : nat) (ok : bool) : MS unit :=
  w <- egets (fun s => List.find (fun w => Nat.eqb w.1 h) s.(writes));;
  match w with
  | None => eret tt
  | Some w => emodify {! writes ::= drop_write h };;; l2cap_send_sdu_to_app_cb e h w.2 ok
  end.

Definition void {A} (m : MS A) : MS unit := m;;; eret tt.

Definition run_op (e : env) (o : op) : MS unit :=
  match o with
  | op_message m => handle_l2cap_event e m
  | op_segment a cid seg n off => void (l2cap_on_segment_received e a cid seg n off)
  | op_packet a cid buf => l2cap_on_packet_received e a cid buf
  | op_pipe_connected p ok => proxy_connected_cb e p ok
  | op_pipe_read h buf => l2cap_receive_data_from_app h buf
  | op_written h ok => written e h ok
  | op_register c rem cbs => void (l2cap_register_callbacks e c rem cbs)
  | op_unregister c => void (l2cap_unregister_callbacks e c)
  | op_listen h o => void (l2cap_listen_channel e h o)
  | op_connect h a o => void (l2cap_connect_channel e h a o)
  | op_disconnect h i => void (l2cap_disconnect_channel e h i)
  | op_stop_listen h b p => void (l2cap_stop_listen_channel e h b p)
  end.

(** ** Lifetime *)

Definition l2cap_service_init (max_register : Z) : l2cap_manager_t :=
  mk_manager (bt_callbacks_list_new max_register) [] (IndexAllocator.index_allocator_create L2CAP_CHANNEL_MAX_NUM) 0 0 [].

(** The channels are freed from the head of the list on. *)
Definition l2cap_service_cleanup : MS unit :=
  emodify {! cbsl := bt_callbacks_list_new 0 };;;
  l <- egets channel_list;;
  efor l (fun c => remove_channel c.(ch));;;
  emodify {! psm_map := 0 }.
End L2cap.
