(* ===== verification/L2capLogic.v ===== *)
(** * L2CAP channels: what every operation keeps

    [inv]: the channels, the identifiers, the PSMs, the pipes and the pending
    writes fit together; with [flow] also the accounting of the receive
    buffers.  Every operation of [L2cap] keeps it or overruns a buffer
    ([run_op_runs]).  The theorems are in [L2capSpec]. *)

From S2P Require Import Prelude Fallible IndexAllocator BtAddr CallbacksList L2cap.
From coqutil Require Import Datatypes.RecordSetters.
From stdpp Require Import strings list.
Import UpdaterNotations.

Local Open Scope Z_scope.
Local Open Scope fall_scope.

Module L2capLogic.
Import BtAddr CallbacksList L2cap.

#[local] Arguments constant {E} newValue _ /.
#[local] Arguments ia_wf : simpl never.
#[local] Arguments ia_used : simpl never.
#[local] Arguments ia_alloc : simpl never.
#[local] Arguments ia_free : simpl never.

(** ** Sound channels *)

(** The bytes held for a channel: SDUs that are being written, and the one that
    is being put together. *)
Definition sum (l : list l2cap_pkt_t) : Z := foldr (fun k n => len_total k + n) 0 l.
Definition held (c : l2cap_channel_t) : Z := sum c.(rx_list) + match c.(rx_sdu) with Some k => len_received k | None => 0 end.

Definition sdu_ok (k : l2cap_pkt_t) : Prop :=
  0 <= len_received k <= room k /\ Z.of_nat (length (data k)) = len_received k /\ len_total k < 65536.

(** Credits never promise more than there is room for, and what is held and
    what there is room for is at most the whole buffer. *)
Definition flow_ok (c : l2cap_channel_t) : Prop :=
  0 <= c.(incoming).(credits) < 65536 /\ 0 <= c.(incoming).(le_mps) /\
  c.(incoming).(credits) * c.(incoming).(le_mps) <= c.(rx_buf_size) /\
  Forall (fun k => 0 <= len_total k) c.(rx_list) /\ c.(rx_buf_size) + held c <= L2CAP_MAX_RX_BUF_SIZE.

Section Inv.
(** [flow]: with the accounting of the receive buffer. *)
Context (flow : bool) (max : Z).

(** [c] in the service [s]. *)
Record chan_ok (s : l2cap_manager_t) (c : l2cap_channel_t) : Prop := {
  ok_ch : (c.(ch) < s.(next))%nat;
  ok_pipe h : c.(pipe) = Some h ->
    (h < s.(next))%nat /\ map pkt c.(rx_list) = map snd (List.filter (fun w => Nat.eqb w.1 h) s.(writes));
  ok_app : is_Some (entry c.(app_handle) s.(cbsl));
  ok_id : ia_used s.(id_allocator) c.(id) = true;
  ok_sdu k : c.(rx_sdu) = Some k -> sdu_ok k;
  ok_mps : c.(incoming).(le_mps) = 0 -> c.(incoming).(credits) = 0 /\ c.(rx_list) = [];
  ok_listen : c.(role) = L2CAP_CHANNEL_ROLE_SERVER_LISTEN ->
    c.(channel_connected) = false /\ psm_in_range c.(psm) = true /\ psm_used c.(psm) s.(psm_map) = true;
  ok_accept : c.(role) = L2CAP_CHANNEL_ROLE_SERVER_ACCEPT ->
    psm_in_range c.(psm) = true /\ (c.(channel_connected) = true -> psm_used c.(psm) s.(psm_map) = true);
  ok_idle : c.(channel_connected) = false -> c.(rx_sdu) = None /\ c.(rx_list) = [] /\ (c.(incoming).(credits) = 0 \/ c.(pipe) = None);
  ok_flow : flow = true -> flow_ok c;
}.

(** The PSM that a channel listens on. *)
Definition listens_on (c : l2cap_channel_t) : option Z :=
  match c.(role) with L2CAP_CHANNEL_ROLE_SERVER_LISTEN => Some c.(psm) | _ => None end.

Record inv (s : l2cap_manager_t) : Prop := {
  inv_chan : Forall (chan_ok s) s.(channel_list);
  inv_ch : NoDup (ch <$> s.(channel_list));
  inv_id : NoDup (id <$> s.(channel_list));
  inv_pipe : NoDup (omap pipe s.(channel_list));
  inv_listen : NoDup (omap listens_on s.(channel_list));
  inv_wf : ia_wf s.(id_allocator);
  inv_used i : ia_used s.(id_allocator) i = true -> i ∈ (id <$> s.(channel_list));
  inv_writes : Forall (fun w => (w.1 < s.(next))%nat) s.(writes);
  inv_cbs : CallbacksList.inv max s.(cbsl);
}.

(** ** One channel of the list *)

Definition put (p : nat) (c' : l2cap_channel_t) : l2cap_manager_t -> l2cap_manager_t :=
  {! channel_list ::= map (fun c => if at_ptr p c then c' else c) }.

Definition live (p : nat) (c : l2cap_channel_t) (s : l2cap_manager_t) : Prop := List.find (at_ptr p) s.(channel_list) = Some c.

Lemma live_at p c s : live p c s -> c ∈ s.(channel_list) /\ c.(ch) = p.
Proof. intros H. apply find_some in H as [H1 H2]. split; [by apply list_elem_of_In|]. by apply Nat.eqb_eq. Qed.

Lemma elem_live c s : NoDup (ch <$> s.(channel_list)) -> c ∈ s.(channel_list) -> live c.(ch) c s.
Proof.
  unfold live. induction (channel_list s) as [|x l IH]; intros Hnd Hc; [by apply not_elem_of_nil in Hc|]. cbn in *.
  apply list.NoDup_cons in Hnd as [Hx Hnd]. apply elem_of_cons in Hc as [<-|Hc].
  - unfold at_ptr. by rewrite Nat.eqb_refl.
  - unfold at_ptr at 1. destruct (Nat.eqb_spec (ch x) (ch c)) as [E|E]; [|by apply IH].
    destruct Hx. rewrite E. by apply list_elem_of_fmap_2.
Qed.

Lemma live_ok s p c : inv s -> live p c s -> chan_ok s c.
Proof. intros Hi Hl. apply live_at in Hl as [Hc _]. exact (proj1 (Forall_forall _ _) (inv_chan s Hi) c Hc). Qed.

Lemma search_live s f (Q : option nat -> l2cap_manager_t -> list out -> Prop) :
  inv s -> (forall c, f c = true -> live c.(ch) c s -> Q (Some c.(ch)) s []) ->
  (Forall (fun c => f c = false) s.(channel_list) -> Q None s []) -> wp (search f) Q s.
Proof.
  intros Hi H1 H2. apply wp_gets. destruct (List.find f (channel_list s)) as [c|] eqn:E; cbn.
  - apply find_some in E as [Hc%list_elem_of_In Hf]. apply H1; [done|]. apply elem_live; [apply (inv_ch s Hi)|done].
  - apply H2. apply Forall_forall. intros c Hc. apply (find_none _ _ E). by apply list_elem_of_In.
Qed.

Lemma chan_wp s p c (Q : l2cap_channel_t -> l2cap_manager_t -> list out -> Prop) : live p c s -> Q c s [] -> wp (chan p) Q s.
Proof. intros Hl HQ. by apply (wp_read _ c). Qed.

Lemma put_only s p c (f : l2cap_channel_t -> l2cap_channel_t) :
  NoDup (ch <$> s.(channel_list)) -> live p c s ->
  map (fun c => if at_ptr p c then f c else c) s.(channel_list) = map (fun x => if at_ptr p x then f c else x) s.(channel_list).
Proof.
  intros Hnd Hl. apply live_at in Hl as [Hc Hp]. apply map_ext_in. intros x Hx%list_elem_of_In. unfold at_ptr.
  destruct (Nat.eqb_spec (ch x) p) as [E|E]; [|done]. f_equal.
  pose proof (elem_live x s Hnd Hx) as H1. pose proof (elem_live c s Hnd Hc) as H2. rewrite E, <- Hp in H1. unfold live in *. congruence.
Qed.

Lemma upd_chan_wp s p c f (Q : unit -> l2cap_manager_t -> list out -> Prop) :
  NoDup (ch <$> s.(channel_list)) -> live p c s -> Q tt (put p (f c) s) [] -> wp (upd p f) Q s.
Proof.
  intros Hi Hl HQ. unfold upd. apply wp_bind. eapply chan_wp; [done|]. apply wp_modify. cbn [app].
  assert ({! channel_list ::= map (fun c => if at_ptr p c then f c else c) } s = put p (f c) s) as ->; [|done].
  unfold put. pose proof (put_only s p c f Hi Hl) as E. destruct s. cbn in *. by rewrite E.
Qed.

Lemma put_list p c' s : channel_list (put p c' s) = map (fun c => if at_ptr p c then c' else c) s.(channel_list).
Proof. by destruct s. Qed.

Lemma put_live p c c' s : live p c s -> c'.(ch) = p -> live p c' (put p c' s).
Proof.
  intros Hl Hp. unfold live in *. rewrite put_list. induction (channel_list s) as [|x l IH]; cbn in *; [done|].
  destruct (at_ptr p x) eqn:E; [|rewrite E; by apply IH]. unfold at_ptr at 1. by rewrite Hp, Nat.eqb_refl.
Qed.

Lemma put_put p c1 c2 s : c1.(ch) = p -> put p c2 (put p c1 s) = put p c2 s.
Proof.
  intros Hp. destruct s. unfold put. cbn. f_equal. rewrite map_map. apply map_ext. intros x.
  destruct (at_ptr p x) eqn:E; [|by rewrite E]. unfold at_ptr. by rewrite Hp, Nat.eqb_refl.
Qed.

(** A function of the channels that a change keeps. *)
Lemma put_map {A} (g : l2cap_channel_t -> A) p c c' s :
  inv s -> live p c s -> g c' = g c -> g <$> channel_list (put p c' s) = g <$> s.(channel_list).
Proof.
  intros Hi Hl Hg. rewrite put_list.
  change (map g (map (fun c => if at_ptr p c then c' else c) (channel_list s)) = map g (channel_list s)).
  rewrite map_map. apply map_ext_in. intros x Hx%list_elem_of_In. destruct (at_ptr p x) eqn:E; [|done]. rewrite Hg. f_equal. apply Nat.eqb_eq in E.
  pose proof (elem_live x s (inv_ch s Hi) Hx) as H1. rewrite E in H1. unfold live in *. congruence.
Qed.

Lemma omap_fmap_id {A B} (g : A -> option B) (l : list A) : omap g l = omap (fun x => x) (g <$> l).
Proof. induction l as [|x l IH]; cbn; [done|]. destruct (g x); cbn; by rewrite IH. Qed.

(** ** Changes of one channel *)

Lemma chan_ok_put s p c' c : chan_ok s c -> chan_ok (put p c' s) c.
Proof. intros []. destruct s. by split. Qed.

(** A change of one channel keeps everything sound if the channel is sound and
    its pipe and its PSM are nobody else's. *)
Lemma put_inv_gen s p c c' :
  inv s -> live p c s -> c'.(ch) = c.(ch) -> c'.(id) = c.(id) -> chan_ok s c' ->
  NoDup (omap pipe (channel_list (put p c' s))) -> NoDup (omap listens_on (channel_list (put p c' s))) ->
  inv (put p c' s) /\ live p c' (put p c' s).
Proof.
  intros Hi Hl H1 H2 Hok H3 H4. assert (c'.(ch) = p) as Hp by (rewrite H1; by apply live_at in Hl as [_ ->]).
  split; [|by eapply put_live].
  assert (forall {A} (g : l2cap_channel_t -> A), g c' = g c -> g <$> channel_list (put p c' s) = g <$> s.(channel_list)) as Hm
    by (intros A g Hg; by apply (put_map g p c)).
  split; try done.
  - rewrite put_list. apply Forall_forall. intros x Hx. apply list_elem_of_In, in_map_iff in Hx as (y & <- & Hy%list_elem_of_In).
    apply chan_ok_put. destruct (at_ptr p y); [done|]. exact (proj1 (Forall_forall _ _) (inv_chan s Hi) y Hy).
  - rewrite (Hm _ ch) by done. apply (inv_ch s Hi).
  - rewrite (Hm _ id) by done. apply (inv_id s Hi).
  - destruct s. apply (inv_wf _ Hi).
  - intros i Hu. rewrite (Hm _ id) by done. apply (inv_used s Hi). by destruct s.
  - destruct s. apply (inv_writes _ Hi).
  - destruct s. apply (inv_cbs _ Hi).
Qed.

Lemma put_omap_same {A} (g : l2cap_channel_t -> option A) s p c c' :
  inv s -> live p c s -> g c' = g c -> omap g (channel_list (put p c' s)) = omap g s.(channel_list).
Proof. intros Hi Hl Hg. by rewrite omap_fmap_id, (put_map g p c), <- omap_fmap_id. Qed.

Lemma put_omap_none {A} (g : l2cap_channel_t -> option A) s p c' :
  g c' = None -> omap g (channel_list (put p c' s)) `sublist_of` omap g s.(channel_list).
Proof.
  intros Hg. rewrite put_list. induction (channel_list s) as [|x l IH]; cbn; [done|].
  destruct (at_ptr p x); [rewrite Hg; destruct (g x); [by constructor|done]|]. destruct (g x); [by constructor|done].
Qed.

Lemma put_inv s p c c' :
  inv s -> live p c s -> c'.(ch) = c.(ch) -> c'.(id) = c.(id) -> c'.(pipe) = c.(pipe) -> listens_on c' = listens_on c ->
  chan_ok s c' -> inv (put p c' s) /\ live p c' (put p c' s).
Proof.
  intros Hi Hl H1 H2 H3 H4 Hok. eapply put_inv_gen; try done.
  - rewrite (put_omap_same pipe s p c) by done. apply (inv_pipe s Hi).
  - rewrite (put_omap_same listens_on s p c) by done. apply (inv_listen s Hi).
Qed.

Lemma put_same s p c : NoDup (ch <$> s.(channel_list)) -> live p c s -> put p c s = s.
Proof.
  intros Hnd Hl. pose proof (put_only s p c (fun x => x) Hnd Hl) as E. unfold put. destruct s as [a l b d f g]. cbn in *.
  f_equal. cbn. rewrite <- E. induction l as [|x l IH]; [done|]. cbn. f_equal; [by destruct (at_ptr p x)|].
  clear. induction l as [|x l IH]; [done|]. cbn. f_equal; [by destruct (at_ptr p x)|done].
Qed.

(** ** Giving a channel up *)

Definition aborted (c : l2cap_channel_t) : l2cap_channel_t :=
  match c.(pipe) with Some _ => {! proxy_connected := false; pipe := None } c | None => c end.

Lemma abort_wp s p c (Q : unit -> l2cap_manager_t -> list out -> Prop) :
  NoDup (ch <$> s.(channel_list)) -> live p c s -> (forall os, Q tt (put p (aborted c) s) os) -> wp (l2cap_abort_channel p) Q s.
Proof.
  intros Hnd Hl HQ. unfold l2cap_abort_channel. apply wp_bind. eapply chan_wp; [done|]. apply wp_bind. unfold aborted in HQ.
  destruct (pipe c).
  - apply wp_bind, wp_emit. eapply upd_chan_wp; [done|done|]. destruct (negb _); apply HQ.
  - apply wp_ret. rewrite (put_same s p c) in HQ by done. destruct (negb _); apply HQ.
Qed.

Lemma aborted_ok s c : chan_ok s c -> chan_ok s (aborted c).
Proof.
  intros Hok. unfold aborted. destruct (pipe c) eqn:E; [|done]. destruct Hok. split; try done. naive_solver.
Qed.

Lemma aborted_inv s p c : inv s -> live p c s -> inv (put p (aborted c) s).
Proof.
  intros Hi Hl. eapply put_inv_gen; [done|done|..].
  - unfold aborted. by destruct (pipe c).
  - unfold aborted. by destruct (pipe c).
  - apply aborted_ok. by eapply live_ok.
  - eapply sublist_NoDup; [apply (inv_pipe s Hi)|]. apply put_omap_none. unfold aborted. by destruct (pipe c) eqn:E.
  - rewrite (put_omap_same listens_on s p c); [apply (inv_listen s Hi)|done|done|]. unfold aborted. by destruct (pipe c).
Qed.

Abbreviation stays m := (forall s, inv s -> wp m (fun _ s' _ => inv s') s).

Lemma abort_stays s p c : inv s -> live p c s -> wp (l2cap_abort_channel p) (fun _ s' _ => inv s') s.
Proof. intros Hi Hl. eapply abort_wp; [apply (inv_ch s Hi)|done|]. intros _. by apply aborted_inv. Qed.
(** ** PSMs *)

Lemma psm_used_bit p m : psm_in_range p = true -> psm_used p m = Z.testbit m (p - LE_PSM_DYNAMIC_MIN).
Proof.
  unfold psm_in_range, psm_used, PSM_BIT_MASK. intros [H1%Z.leb_le _]%andb_true_iff. set (k := p - LE_PSM_DYNAMIC_MIN).
  assert (0 <= k) as Hk by (subst k; lia). destruct (Z.testbit m k) eqn:E.
  - apply negb_true_iff, Z.eqb_neq. intros E2. assert (Z.testbit (Z.land m (Z.shiftl 1 k)) k = false) as H by (by rewrite E2, Z.testbit_0_l).
    rewrite Z.land_spec, E, Z.shiftl_spec, Z.sub_diag in H by done. done.
  - apply negb_false_iff, Z.eqb_eq, Z.bits_inj'. intros i Hi. rewrite Z.land_spec, Z.testbit_0_l, Z.shiftl_spec by done.
    destruct (Z.eq_dec i k) as [->|Hne]; [by rewrite E|]. destruct (Z_lt_dec i k) as [Hlt|Hge].
    + rewrite (Z.testbit_neg_r 1) by lia. apply andb_false_r.
    + rewrite (Z.bits_above_log2 1 (i - k)) by (cbn; lia). apply andb_false_r.
Qed.

Lemma mask_bit p q : psm_in_range p = true -> psm_in_range q = true -> Z.testbit (PSM_BIT_MASK q) (p - LE_PSM_DYNAMIC_MIN) = (p =? q).
Proof.
  unfold psm_in_range, PSM_BIT_MASK. intros [H1%Z.leb_le _]%andb_true_iff [H2%Z.leb_le _]%andb_true_iff.
  rewrite Z.shiftl_spec by lia. destruct (Z.eqb_spec p q) as [->|Hne]; [by rewrite Z.sub_diag|].
  destruct (Z_lt_dec p q); [apply Z.testbit_neg_r; lia|]. apply Z.bits_above_log2; cbn; lia.
Qed.

Lemma psm_used_take p q m :
  psm_in_range p = true -> psm_in_range q = true -> psm_used p (Z.lor m (PSM_BIT_MASK q)) = psm_used p m || (p =? q).
Proof. intros Hp Hq. by rewrite !psm_used_bit, Z.lor_spec, mask_bit. Qed.

Lemma psm_used_free p q m :
  psm_in_range p = true -> psm_in_range q = true -> psm_used p (Z.ldiff m (PSM_BIT_MASK q)) = psm_used p m && negb (p =? q).
Proof. intros Hp Hq. by rewrite !psm_used_bit, Z.ldiff_spec, mask_bit. Qed.

(** ** The service around the channels *)

(** What a channel that is sound in [s] needs of [s'] to be sound there. *)
Lemma chan_ok_ext s s' c :
  chan_ok s c -> (s.(next) <= s'.(next))%nat -> writes s' = writes s -> cbsl s' = cbsl s ->
  ia_used s'.(id_allocator) c.(id) = true ->
  (psm_in_range c.(psm) = true -> psm_used c.(psm) s.(psm_map) = true ->
   (role c = L2CAP_CHANNEL_ROLE_SERVER_LISTEN \/ (role c = L2CAP_CHANNEL_ROLE_SERVER_ACCEPT /\ channel_connected c = true)) ->
   psm_used c.(psm) s'.(psm_map) = true) ->
  chan_ok s' c.
Proof.
  intros [] Hn Hw Hc Hu Hp. split; try done.
  - lia.
  - intros h Hh. rewrite Hw. destruct (ok_pipe0 h Hh). split; [lia|done].
  - by rewrite Hc.
  - intros Hr. destruct (ok_listen0 Hr) as (? & ? & ?). split_and!; try done. apply Hp; try done. by left.
  - intros Hr. destruct (ok_accept0 Hr) as (? & H). split; [done|]. intros Hcc. apply Hp; [done|by apply H|by right].
Qed.

(** A channel leaves the list. *)
Definition without (p : nat) (l : list l2cap_channel_t) : list l2cap_channel_t := List.filter (fun c => negb (at_ptr p c)) l.

Lemma without_sub p l : without p l `sublist_of` l.
Proof. unfold without. induction l as [|c l IH]; cbn; [done|]. destruct (negb _); [by apply sublist_skip|by apply sublist_cons]. Qed.

Lemma omap_sub {A B} (g : A -> option B) (l k : list A) : l `sublist_of` k -> omap g l `sublist_of` omap g k.
Proof. induction 1 as [|x l k _ IH|x l k _ IH]; cbn; [done| |]; destruct (g x); try done; by constructor. Qed.

Lemma without_elem p l c : c ∈ without p l <-> c ∈ l /\ c.(ch) <> p.
Proof.
  unfold without. rewrite !list_elem_of_In, filter_In, negb_true_iff. unfold at_ptr. by rewrite Nat.eqb_neq.
Qed.

(** The freed identifier was the channel's alone. *)
Lemma freed_ids s p c al :
  inv s -> live p c s -> (forall i, ia_used al i = negb (bool_decide (i = c.(id))) && ia_used s.(id_allocator) i) ->
  forall i, ia_used al i = true <-> i ∈ (id <$> without p s.(channel_list)).
Proof.
  intros Hi Hl Hused i. apply live_at in Hl as Hc. destruct Hc as [Hc Hp].
  rewrite Hused, andb_true_iff, negb_true_iff, bool_decide_eq_false, list_elem_of_fmap. split.
  - intros [Hne Hu]. apply (inv_used s Hi), list_elem_of_fmap in Hu as (x & -> & Hx). exists x. split; [done|].
    apply without_elem. split; [done|]. intros E. apply Hne. f_equal.
    pose proof (elem_live x s (inv_ch s Hi) Hx) as H1. rewrite E in H1. unfold live in *. congruence.
  - intros (x & -> & [Hx Hne]%without_elem). split.
    + intros E. apply Hne. rewrite <- Hp. pose proof (inv_id s Hi) as Hnd. clear - Hnd E Hx Hc.
      induction (channel_list s) as [|y l IH]; [by apply not_elem_of_nil in Hx|]. apply list.NoDup_cons in Hnd as [Hy Hnd].
      apply elem_of_cons in Hx as [->|Hx], Hc as [->|Hc]; try done; [| |by apply IH];
        destruct Hy; [rewrite E|rewrite <- E]; by apply list_elem_of_fmap_2.
    + exact (ok_id s x (proj1 (Forall_forall _ _) (inv_chan s Hi) x Hx)).
Qed.

(** The PSM is in use by [x]. *)
Definition uses_psm (x : l2cap_channel_t) : Prop :=
  role x = L2CAP_CHANNEL_ROLE_SERVER_LISTEN \/ (role x = L2CAP_CHANNEL_ROLE_SERVER_ACCEPT /\ channel_connected x = true).

Lemma removed_inv s p al m :
  inv s -> ia_wf al -> (forall i, ia_used al i = true <-> i ∈ (id <$> without p s.(channel_list))) ->
  (forall x, x ∈ without p s.(channel_list) -> psm_in_range x.(psm) = true -> psm_used x.(psm) s.(psm_map) = true -> uses_psm x ->
   psm_used x.(psm) m = true) ->
  inv (mk_manager s.(cbsl) (without p s.(channel_list)) al m s.(next) s.(writes)).
Proof.
  intros Hi Hwf Huse Hm. split; cbn; try (by apply Hi); try done.
  - apply Forall_forall. intros x Hx. pose proof Hx as [Hx' _]%without_elem.
    eapply (chan_ok_ext s); [exact (proj1 (Forall_forall _ _) (inv_chan s Hi) x Hx')|done..| |by apply Hm].
    cbn. apply Huse. by apply list_elem_of_fmap_2.
  - eapply sublist_NoDup; [apply (inv_ch s Hi)|]. apply fmap_sublist, without_sub.
  - eapply sublist_NoDup; [apply (inv_id s Hi)|]. apply fmap_sublist, without_sub.
  - eapply sublist_NoDup; [apply (inv_pipe s Hi)|]. apply omap_sub, without_sub.
  - eapply sublist_NoDup; [apply (inv_listen s Hi)|]. apply omap_sub, without_sub.
  - intros i. apply Huse.
Qed.

(** A PSM is given back only if no channel of the list uses it. *)
Lemma free_psm_wp s p (Q : unit -> l2cap_manager_t -> list out -> Prop) :
  (forall x, x ∈ s.(channel_list) -> role x = L2CAP_CHANNEL_ROLE_SERVER_LISTEN -> channel_connected x = false) ->
  (forall m os, (forall x, x ∈ s.(channel_list) -> psm_in_range x.(psm) = true -> psm_used x.(psm) s.(psm_map) = true -> uses_psm x ->
     psm_used x.(psm) m = true) -> Q tt ({! psm_map := m } s) os) ->
  wp (free_le_dynamic_psm p) Q s.
Proof.
  intros Hlis HQ. assert (forall os, Q tt s os) as Hsame.
  { intros os. replace s with ({! psm_map := s.(psm_map) } s) by (by destruct s). by apply HQ. }
  unfold free_le_dynamic_psm. destruct (psm_in_range p) eqn:Hr; cbn [negb]; [|apply wp_ret, Hsame].
  unfold find_l2cap_channel_by_conn_param, search. apply wp_bind, wp_gets.
  destruct (List.find (conn_match None p L2CAP_CHANNEL_ROLE_SERVER_LISTEN false) (channel_list s)) eqn:E1; cbn [fmap option_fmap option_map];
    [apply wp_ret, Hsame|]. apply wp_bind, wp_gets.
  destruct (List.find (conn_match None p L2CAP_CHANNEL_ROLE_SERVER_ACCEPT true) (channel_list s)) eqn:E2; cbn [fmap option_fmap option_map];
    [apply wp_ret, Hsame|]. apply wp_bind, wp_modify, wp_emit.
  replace ({! psm_map ::= _ } s) with ({! psm_map := Z.ldiff s.(psm_map) (PSM_BIT_MASK p) } s) by (by destruct s).
  apply HQ. intros x Hx Hxr Hu Huse. rewrite psm_used_free, Hu by done. apply negb_true_iff, Z.eqb_neq. intros E.
  apply list_elem_of_In in Hx as Hx'. pose proof (find_none _ _ E1 x Hx') as F1. pose proof (find_none _ _ E2 x Hx') as F2.
  unfold conn_match in F1, F2. rewrite E, Z.eqb_refl in F1, F2. cbn in F1, F2. destruct Huse as [Hro|[Hro Hco]].
  - rewrite Hro, bool_decide_true, (Hlis x Hx Hro) in F1 by done. done.
  - rewrite Hro, bool_decide_true, Hco in F2 by done. done.
Qed.

Lemma remove_wp s p c (Q : unit -> l2cap_manager_t -> list out -> Prop) :
  inv s -> live p c s ->
  (forall al m os, inv (mk_manager s.(cbsl) (without p s.(channel_list)) al m s.(next) s.(writes)) ->
     Q tt (mk_manager s.(cbsl) (without p s.(channel_list)) al m s.(next) s.(writes)) os) ->
  wp (remove_channel p) Q s.
Proof.
  intros Hi Hl HQ. unfold remove_channel. apply wp_bind. eapply chan_wp; [done|]. apply wp_bind, wp_modify.
  pose proof (live_ok s p c Hi Hl) as Hok.
  destruct (ia_free_spec s.(id_allocator) c.(id) (inv_wf s Hi) (ok_id s c Hok)) as (al & Hal & Hwf & _ & Hused).
  pose proof (freed_ids s p c al Hi Hl Hused) as Huse.
  assert (forall m, (forall x, x ∈ without p s.(channel_list) -> psm_in_range x.(psm) = true -> psm_used x.(psm) s.(psm_map) = true ->
     uses_psm x -> psm_used x.(psm) m = true) -> forall os, Q tt (mk_manager s.(cbsl) (without p s.(channel_list)) al m s.(next) s.(writes)) os) as HQ'
    by (intros m Hm os; apply HQ; by apply removed_inv).
  assert (forall x, x ∈ without p s.(channel_list) -> role x = L2CAP_CHANNEL_ROLE_SERVER_LISTEN -> channel_connected x = false) as Hlis.
  { intros x [Hx _]%without_elem. exact (fun H => proj1 (ok_listen s x (proj1 (Forall_forall _ _) (inv_chan s Hi) x Hx) H)). }
  unfold free_l2cap_channel, free_id. clear Hi Hl HQ Hok Hused Huse.
  destruct s as [cb l al0 m0 nx ws]. cbn in *. fold (without p l). apply wp_bind. destruct (pipe c) as [h|]; (apply wp_emit || apply wp_ret);
    apply wp_bind, wp_bind, (wp_read _ al); try done; apply wp_modify; cbn; destruct (negb _); cbn;
    first [by apply HQ' | apply free_psm_wp; [done|]; intros m os Hm; cbn; by apply HQ'].
Qed.

Lemma remove_stays s p c : inv s -> live p c s -> wp (remove_channel p) (fun _ s' _ => inv s') s.
Proof. intros Hi Hl. by eapply remove_wp. Qed.
(** ** New channels *)

Lemma put_other p c' q x s : q <> p -> c'.(ch) = p -> live q x s -> live q x (put p c' s).
Proof.
  intros Hne Hp Hl. unfold live in *. rewrite put_list. induction (channel_list s) as [|y l IH]; cbn in *; [done|].
  destruct (at_ptr p y) eqn:E.
  - unfold at_ptr in *. rewrite Hp, (proj2 (Nat.eqb_neq p q)) by done. apply Nat.eqb_eq in E.
    rewrite (proj2 (Nat.eqb_neq (ch y) q)) in Hl by congruence. by apply IH.
  - destruct (at_ptr q y); [done|by apply IH].
Qed.

Lemma next_inv s n : (s.(next) <= n)%nat -> inv s -> inv ({! next := n } s).
Proof.
  intros Hn Hi. split; destruct s as [cb l al m nx ws]; try (by apply Hi); cbn in *.
  - eapply Forall_impl; [apply (inv_chan _ Hi)|]. intros c Hc. eapply chan_ok_ext; [exact Hc|done..|by apply Hc|done].
  - eapply Forall_impl; [apply (inv_writes _ Hi)|]. cbn. lia.
Qed.

Lemma realloc_inv s al :
  inv s -> ia_wf al -> (forall i, ia_used al i = ia_used s.(id_allocator) i) -> inv ({! id_allocator := al } s).
Proof.
  intros Hi Hwf Hu. split; destruct s as [cb l al0 m nx ws]; try (by apply Hi); cbn in *; [|done|].
  - eapply Forall_impl; [apply (inv_chan _ Hi)|]. intros c Hc. eapply chan_ok_ext; [exact Hc|done..| |done]. cbn. rewrite Hu. apply Hc.
  - intros i. rewrite Hu. apply (inv_used _ Hi).
Qed.

(** A channel as it is made. *)
Definition new_channel (n : nat) (a : option bt_address_t) (p i : Z) (r : l2cap_channel_role_t) (handle : N) : l2cap_channel_t :=
  mk_channel n (default bt_addr_empty a) 0 p no_endpoint no_endpoint 0 0 i r false None "" false handle None [] 0.

Lemma add_inv s n a p i r handle al :
  inv s -> n = s.(next) -> is_Some (entry handle s.(cbsl)) -> r <> L2CAP_CHANNEL_ROLE_SERVER_ACCEPT ->
  (r = L2CAP_CHANNEL_ROLE_SERVER_LISTEN -> psm_in_range p = true /\ psm_used p s.(psm_map) = true /\ p ∉ omap listens_on s.(channel_list)) ->
  ia_wf al -> ia_used s.(id_allocator) i = false ->
  (forall j, ia_used al j = bool_decide (j = i) || ia_used s.(id_allocator) j) ->
  inv (mk_manager s.(cbsl) (s.(channel_list) ++ [new_channel n a p i r handle]) al s.(psm_map) (S n) s.(writes)).
Proof.
  intros Hi -> Hh Hr Hlis Hwf Hfree Hu. destruct s as [cb l al0 m nx ws]. cbn in *. split; cbn; try done.
  - apply Forall_app. split.
    + eapply Forall_impl; [apply (inv_chan _ Hi)|]. intros c Hc. eapply chan_ok_ext; [exact Hc|cbn; lia|done..| |done].
      cbn. rewrite Hu. destruct Hc. cbn in *. rewrite ok_id0. apply orb_true_r.
    + apply Forall_singleton. split; cbn; try done; [lia| |naive_solver|].
      * rewrite Hu. by rewrite bool_decide_true.
      * intros _. split_and!; try done; cbn; lia.
  - rewrite fmap_app. apply list.NoDup_app. split; [apply (inv_ch _ Hi)|]. split; [|apply NoDup_singleton].
    intros x Hx Hp%list_elem_of_singleton. subst x. apply list_elem_of_fmap in Hx as (c & E & Hc).
    pose proof (ok_ch _ c (proj1 (Forall_forall _ _) (inv_chan _ Hi) c Hc)). cbn in *. lia.
  - rewrite fmap_app. apply list.NoDup_app. split; [apply (inv_id _ Hi)|]. split; [|apply NoDup_singleton].
    intros x Hx Hp%list_elem_of_singleton. cbn in Hp. subst x. apply list_elem_of_fmap in Hx as (c & E & Hc).
    pose proof (ok_id _ c (proj1 (Forall_forall _ _) (inv_chan _ Hi) c Hc)) as H. cbn in *. congruence.
  - rewrite omap_app. cbn. rewrite app_nil_r. apply (inv_pipe _ Hi).
  - rewrite omap_app. cbn. destruct r; [|done|rewrite app_nil_r; apply (inv_listen _ Hi)]. cbn.
    apply list.NoDup_app. split; [apply (inv_listen _ Hi)|]. split; [|apply NoDup_singleton].
    intros x Hx Hp%list_elem_of_singleton. subst x. by apply Hlis.
  - intros j. rewrite Hu. intros [E|E]%orb_true_iff; rewrite fmap_app, elem_of_app.
    + apply bool_decide_eq_true in E as ->. right. cbn. by apply list_elem_of_singleton.
    + left. by apply (inv_used _ Hi).
  - eapply Forall_impl; [apply (inv_writes _ Hi)|]. cbn. lia.
  - apply (inv_cbs _ Hi).
Qed.

(** The other channels are as they were. *)
Definition others (n : nat) (s s' : l2cap_manager_t) : Prop := forall q x, q <> n -> live q x s -> live q x s'.

Lemma find_end {A} (f : A -> bool) l x : List.find f l = None -> List.find f (l ++ [x]) = if f x then Some x else None.
Proof. induction l as [|y l IH]; cbn; [done|]. by destruct (f y). Qed.

Lemma live_app s q x c al m nx ws cb : live q x s -> live q x (mk_manager cb (s.(channel_list) ++ [c]) al m nx ws).
Proof.
  unfold live. cbn. induction (channel_list s) as [|y l IH]; cbn; [done|]. by destruct (at_ptr q y).
Qed.

Lemma alloc_wp e s handle a p r (Q : option nat -> l2cap_manager_t -> list out -> Prop) :
  inv s -> is_Some (entry handle s.(cbsl)) -> r <> L2CAP_CHANNEL_ROLE_SERVER_ACCEPT ->
  (r = L2CAP_CHANNEL_ROLE_SERVER_LISTEN -> psm_in_range p = true /\ psm_used p s.(psm_map) = true /\ p ∉ omap listens_on s.(channel_list)) ->
  (forall s' os, inv s' -> Q None s' os) ->
  (forall n i s' os, inv s' -> live n (new_channel n a p i r handle) s' -> (forall q x, live q x s -> q <> n /\ live q x s') ->
     psm_map s' = psm_map s -> Q (Some n) s' os) ->
  wp (alloc_free_channel e handle a p r) Q s.
Proof.
  intros Hi Hh Hr Hlis HN HS. unfold alloc_free_channel. destruct (_ && _); [by apply wp_ret, HN|].
  destruct (ia_alloc_spec _ (inv_wf s Hi)) as (i & al & Hal & Hwf & Hmax & Hc).
  pose proof (ia_max_bound _ (inv_wf s Hi)) as Hmb.
  apply wp_bind, (wp_read _ (i, al)); [done|]. apply wp_bind, wp_modify. cbn [fst snd].
  destruct Hc as [(Hrange & Hfree & Hu)|(-> & -> & _)].
  2:{ cbn. apply HN. by apply realloc_inv. }
  rewrite (proj2 (Z.ltb_ge _ _)) by lia. destruct (mem e); cbn [negb].
  - unfold fresh. apply wp_bind, wp_bind, wp_gets, wp_bind, wp_modify, wp_ret, wp_bind, wp_modify, wp_ret.
    rewrite (uint_small 16) by (unfold in_u; lia).
    pose proof (add_inv s s.(next) a p i r handle al Hi eq_refl Hh Hr Hlis Hwf Hfree Hu) as Hinv.
    destruct s as [cb l al0 m nx ws]. cbn in *. eapply (HS _ i); [exact Hinv| | |done].
    + unfold live. cbn. assert (List.find (at_ptr nx) l = None) as En.
      { destruct (List.find (at_ptr nx) l) as [c|] eqn:E; [|done]. apply find_some in E as [Hc%list_elem_of_In E%Nat.eqb_eq].
        pose proof (ok_ch _ c (proj1 (Forall_forall _ _) (inv_chan _ Hi) c Hc)). cbn in *. lia. }
      rewrite (find_end _ _ _ En). unfold at_ptr. cbn. by rewrite Nat.eqb_refl.
    + intros q x Hl. split; [|exact (live_app _ q x _ _ _ _ _ _ Hl)].
      apply live_at in Hl as Hc. destruct Hc as [Hc <-]. pose proof (ok_ch _ x (proj1 (Forall_forall _ _) (inv_chan _ Hi) x Hc)). cbn in *. lia.
  - unfold free_id. assert (ia_used al i = true) as Hui by (by rewrite Hu, bool_decide_true).
    destruct (ia_free_spec al i Hwf Hui) as (al2 & Hal2 & Hwf2 & _ & Hu2).
    destruct s as [cb l al0 m nx ws]. cbn in *. apply wp_bind, wp_bind, (wp_read _ al2); [done|]. apply wp_modify, wp_ret. cbn.
    apply HN. apply (realloc_inv (mk_manager cb l al0 m nx ws)); [done|done|]. intros j. cbn. rewrite Hu2, Hu.
    case_bool_decide as E; [subst; by rewrite Hfree|done].
Qed.
(** A pipe that is nobody's stays one channel's. *)
Lemma fresh_pipe n h c' l :
  NoDup (ch <$> l) -> NoDup (omap pipe l) -> (forall x, x ∈ l -> pipe x <> Some h) -> pipe c' = Some h ->
  NoDup (omap pipe (map (fun c => if at_ptr n c then c' else c) l)).
Proof.
  intros Hndc Hnd Hnew Hc. induction l as [|y l IH]; cbn in *; [constructor|]. apply list.NoDup_cons in Hndc as [Hy Hndc].
  assert (NoDup (omap pipe l)) as Hnd' by (destruct (pipe y); [by apply list.NoDup_cons in Hnd as [_ ?]|done]).
  assert (forall k, omap pipe (map (fun c => if at_ptr n c then c' else c) k) ⊆ h :: omap pipe k) as Hsub.
  { clear - Hc. induction k as [|z k IH]; cbn; [set_solver|]. destruct (at_ptr n z); [rewrite Hc|]; destruct (pipe z); set_solver. }
  specialize (IH Hndc Hnd' ltac:(intros x Hx; apply Hnew; by right)). destruct (at_ptr n y) eqn:E.
  - rewrite Hc. apply Nat.eqb_eq in E. assert (map (fun c => if at_ptr n c then c' else c) l = l) as ->.
    { rewrite <- (map_id l) at 2. apply map_ext_in. intros x Hx%list_elem_of_In. unfold at_ptr. rewrite (proj2 (Nat.eqb_neq _ _)); [done|].
      intros E2. apply Hy. rewrite E, <- E2. by apply list_elem_of_fmap_2. }
    apply list.NoDup_cons. split; [|done]. intros Hin. apply list_elem_of_omap in Hin as (x & Hx & Hpx). apply (Hnew x); [by right|done].
  - destruct (pipe y) as [g|] eqn:Eg; [|done]. apply list.NoDup_cons. split; [|done]. intros Hin%Hsub.
    apply elem_of_cons in Hin as [->|Hin]; [apply (Hnew y); [by left|done]|]. by apply list.NoDup_cons in Hnd as [? _].
Qed.

Lemma no_writes (h : nat) (l : list (nat * nat)) :
  Forall (fun w => (w.1 < h)%nat) l -> List.filter (fun w => Nat.eqb w.1 h) l = [].
Proof. induction 1 as [|w l Hw _ IH]; cbn; [done|]. rewrite (proj2 (Nat.eqb_neq _ _)) by lia. exact IH. Qed.

(** The pipe of a new channel is one that nothing was written to. *)
Lemma prepare_wp e s n c (Q : bool -> l2cap_manager_t -> list out -> Prop) :
  inv s -> live n c s -> c.(pipe) = None -> c.(incoming).(credits) = 0 -> c.(channel_connected) = false ->
  (forall b c' s' os, inv s' -> live n c' s' -> others n s s' -> psm_map s' = psm_map s -> Q b s' os) -> wp (prepare_data_path e n) Q s.
Proof.
  intros Hi Hl Hp Hcr Hco HQ. unfold prepare_data_path. apply wp_bind. eapply chan_wp; [done|].
  assert (c.(ch) = n) as Hn by (by apply live_at in Hl as [_ ?]).
  set (c1 := {! proxy_name := pipe_name c.(id) } c). pose proof (live_ok s n c Hi Hl) as Hok.
  assert (chan_ok s c1) as Hok1 by (destruct Hok; by split).
  destruct (put_inv s n c c1 Hi Hl) as [Hi1 Hl1]; [done..|].
  apply wp_bind. eapply upd_chan_wp; [apply (inv_ch s Hi)|done|]. fold c1.
  assert (others n s (put n c1 s)) as Ho by (intros q x Hq Hx; by apply put_other).
  destruct (opens e); [|apply wp_ret; eapply HQ; [done..|by destruct s]].
  unfold fresh. apply wp_bind, wp_bind, wp_gets, wp_bind, wp_modify, wp_ret, wp_bind, wp_emit, wp_bind.
  set (s1 := put n c1 s) in *. assert (inv ({! next := S s1.(next) } s1)) as Hi2 by (apply next_inv; [lia|done]).
  replace ({! next ::= S } s1) with ({! next := S s1.(next) } s1) by (by destruct s1).
  set (s2 := {! next := S s1.(next) } s1) in *. assert (live n c1 s2) as Hl2 by (subst s2; by destruct s1).
  eapply upd_chan_wp; [apply (inv_ch s2 Hi2)|exact Hl2|]. apply wp_ret.
  set (h := s1.(next)) in *. set (c2 := {! pipe := Some h } c1).
  assert (next s2 = S h /\ writes s2 = writes s1 /\ channel_list s2 = channel_list s1) as (En & Ew & El) by (subst s2 h; by destruct s1).
  assert (forall x, x ∈ s2.(channel_list) -> pipe x <> Some h) as Hnew.
  { intros x Hx E. rewrite El in Hx. pose proof (ok_pipe s1 x (proj1 (Forall_forall _ _) (inv_chan s1 Hi1) x Hx) h E) as [? _]. subst h. lia. }
  assert (chan_ok s2 c2) as Hok2.
  { pose proof (live_ok s2 n c1 Hi2 Hl2) as []. split; try done.
    - intros h' [= <-]. split; [lia|]. destruct (ok_idle0 Hco) as (_ & E & _). change (rx_list c2) with (rx_list c1). rewrite E, Ew.
      by rewrite (no_writes h) by apply (inv_writes s1 Hi1).
    - intros _. destruct (ok_idle0 Hco) as (? & ? & _). split_and!; try done. by left. }
  destruct (put_inv_gen s2 n c1 c2 Hi2 Hl2) as [Hi3 Hl3]; [done|done|done| | |].
  - rewrite put_list. by apply (fresh_pipe n h); [apply (inv_ch s2 Hi2)|apply (inv_pipe s2 Hi2)|..].
  - rewrite (put_omap_same listens_on s2 n c1) by done. apply (inv_listen s2 Hi2).
  - eapply HQ; [exact Hi3|exact Hl3| |subst s2 s1; by destruct s]. intros q x Hq Hx. apply put_other; [done|done|]. apply Ho in Hx; [|done].
    unfold live in *. by rewrite El.
Qed.
(** ** Connections *)

Definition param_ok (prm : l2cap_channel_param_t) : Prop :=
  0 <= prm.(param_in).(le_mps) < 65536 /\ (prm.(param_in).(le_mps) = 0 -> prm.(param_in).(credits) = 0) /\ 0 <= prm.(param_in).(credits) < 65536 /\
  (flow = true -> prm.(param_in).(credits) * prm.(param_in).(le_mps) <= L2CAP_MAX_RX_BUF_SIZE).

(** The channel with the parameters of the connection. *)
Definition with_params (e : env) (prm : l2cap_channel_param_t) : l2cap_channel_t -> l2cap_channel_t :=
  {! incoming := prm.(param_in); outgoing := prm.(param_out); tx_mtu := Z.min prm.(param_out).(mtu) e.(max_tx_mtu);
     tx_quota := L2CAP_TX_QUOTA;
     rx_buf_size := if L2CAP_MAX_RX_BUF_SIZE <? prm.(param_in).(credits) * prm.(param_in).(le_mps) then L2CAP_MAX_RX_BUF_SIZE
                    else u16 (prm.(param_in).(credits) * prm.(param_in).(le_mps)) }.

Lemma put_ch p c c' s :
  NoDup (ch <$> s.(channel_list)) -> live p c s -> c'.(ch) = c.(ch) -> ch <$> channel_list (put p c' s) = ch <$> s.(channel_list).
Proof.
  intros Hnd Hl Hc. apply live_at in Hl as [_ Hp]. rewrite put_list. clear Hnd. induction (channel_list s) as [|x l IH]; cbn; [done|].
  f_equal; [|exact IH]. destruct (at_ptr p x) eqn:E; [|done]. apply Nat.eqb_eq in E. congruence.
Qed.

(** Sound once it is connected, or has lost its pipe. *)
Lemma params_ok e s c prm b h :
  chan_ok s c -> param_ok prm -> c.(role) <> L2CAP_CHANNEL_ROLE_SERVER_LISTEN -> c.(channel_connected) = false ->
  (c.(role) = L2CAP_CHANNEL_ROLE_SERVER_ACCEPT -> psm_used c.(psm) s.(psm_map) = true) ->
  h = c.(pipe) /\ b = true \/ h = None ->
  chan_ok s ({! pipe := h; channel_connected := b } (with_params e prm c)).
Proof.
  intros [] (Hm & Hm0 & Hcr & Hf) Hr Hco Hpsm Hh. destruct (ok_idle0 Hco) as (E1 & E2 & E3). split; try done; cbn.
  - intros h' E. destruct Hh as [[-> ->]| ->]; [by apply ok_pipe0|done].
  - intros E. split; [by apply Hm0|done].
  - intros Hro. split; [by apply ok_accept0|]. intros _. by apply Hpsm.
  - intros Eb. destruct Hh as [[_ ->]| ->]; [done|]. split_and!; try done. by right.
  - intros Hfl. specialize (Hf Hfl). unfold flow_ok, held, with_params. destruct c. cbn in E1, E2 |- *. rewrite E1, E2. cbn.
    rewrite (proj2 (Z.ltb_ge _ _)), (uint_small 16) by (unfold in_u, L2CAP_MAX_RX_BUF_SIZE in *; nia || lia).
    unfold L2CAP_MAX_RX_BUF_SIZE in *. split_and!; try lia; done.
Qed.

Lemma aborted_idle s c : chan_ok s ({! pipe := None; channel_connected := false } c) -> c.(channel_connected) = false -> chan_ok s (aborted c).
Proof.
  intros H Hco. destruct c. cbn in *. subst. unfold aborted. cbn. destruct H. destruct pipe0; split; done.
Qed.

Lemma finish_wp e s p c prm new :
  inv s -> live p c s -> param_ok prm -> c.(role) <> L2CAP_CHANNEL_ROLE_SERVER_LISTEN -> c.(channel_connected) = false ->
  (c.(role) = L2CAP_CHANNEL_ROLE_SERVER_ACCEPT -> psm_used c.(psm) s.(psm_map) = true) ->
  (forall n, new = Some n -> n <> p /\ exists x, live n x s) ->
  wp (finish_connect e p prm new) (fun _ s' _ => inv s') s.
Proof.
  intros Hi Hl Hprm Hr Hco Hpsm Hnew. pose proof (live_ok s p c Hi Hl) as Hok. pose proof (inv_ch s Hi) as Hnd.
  pose proof (live_at p c s Hl) as [_ Hp]. set (c1 := with_params e prm c).
  assert (live p c1 (put p c1 s)) as Hl1 by (by eapply put_live).
  assert (NoDup (ch <$> channel_list (put p c1 s))) as Hnd1 by (by rewrite (put_ch p c)).
  assert (wp (l2cap_abort_channel p) (fun _ s' _ => inv s') (put p c1 s)) as Habort.
  { eapply abort_wp; [done|done|]. intros _. rewrite put_put by done. eapply put_inv_gen; [done|exact Hl|..].
    - unfold aborted. by destruct (pipe c1).
    - unfold aborted. by destruct (pipe c1).
    - apply aborted_idle; [by apply params_ok; auto|by destruct c].
    - eapply sublist_NoDup; [apply (inv_pipe s Hi)|]. apply put_omap_none. unfold aborted. by destruct (pipe c1) eqn:E.
    - rewrite (put_omap_same listens_on s p c); [apply (inv_listen s Hi)|done|done|]. unfold aborted. by destruct (pipe c1). }
  unfold finish_connect. cbn zeta. apply wp_bind. eapply upd_chan_wp; [done|done|]. change (wp (l2cap_abort_channel p) (fun _ s' _ => inv s') (put p c1 s)) in Habort.
  apply wp_bind. eapply chan_wp; [exact Hl1|]. change (pipe c1) with (pipe c). destruct (pipe c) as [h|] eqn:Eh; [|exact Habort].
  apply wp_bind, wp_emit. destruct (read_stop e); cbn [negb]; [|exact Habort].
  apply wp_bind, wp_emit. destruct (read_start e); cbn [negb]; [|exact Habort].
  apply wp_bind. eapply upd_chan_wp; [done|exact Hl1|]. rewrite put_put by done.
  set (c2 := {! channel_connected := true } c1).
  assert (chan_ok s c2) as Hok2.
  { pose proof (params_ok e s c prm true (pipe c) Hok Hprm Hr Hco Hpsm (or_introl (conj eq_refl eq_refl))) as H.
    rewrite Eh in H. unfold c2, c1. destruct c. cbn in *. by rewrite Eh. }
  destruct (put_inv s p c c2 Hi Hl) as [Hi2 Hl2]; [done..|]. apply wp_bind.
  assert (forall l, wp (l2cap_notify_connected e c1 l) (fun _ s' _ => inv s') (put p c2 s)) as Hnot.
  { intros l. unfold l2cap_notify_connected, client. destruct (ok_app _ _ (live_ok _ p c2 Hi2 Hl2)) as [r Hrr].
    apply wp_bind, wp_bind, (wp_read _ r); [done|]. apply wp_ret. destruct (if bool_decide _ then _ else _); [|by apply wp_ret].
    by destruct (has_on_connected e). }
  destruct new as [n|]; [|apply wp_ret; apply Hnot]. destruct (Hnew n eq_refl) as (Hne & x & Hx).
  apply wp_bind. eapply chan_wp; [by apply put_other|]. apply wp_ret. apply Hnot.
Qed.

(** Taken over from the listener, a channel no longer listens. *)
Lemma not_listening s p c c' q :
  inv s -> live p c s -> listens_on c = Some q -> listens_on c' = None -> q ∉ omap listens_on (channel_list (put p c' s)).
Proof.
  intros Hi Hl Hq Hn Hin. rewrite put_list in Hin. apply list_elem_of_omap in Hin as (x & Hx & Hxq).
  apply list_elem_of_In, in_map_iff in Hx as (y & Hy & Hiny%list_elem_of_In). destruct (at_ptr p y) eqn:E; [congruence|]. subst x.
  apply live_at in Hl as [Hc Hp]. pose proof (inv_listen s Hi) as Hnd.
  assert (y = c) as ->; [|by rewrite (proj2 (Nat.eqb_eq (ch c) p) Hp : at_ptr p c = true) in E]. clear - Hnd Hc Hiny Hq Hxq.
  induction (channel_list s) as [|z l IH]; [by apply not_elem_of_nil in Hc|]. cbn in Hnd.
  assert (forall x, x ∈ l -> listens_on x = Some q -> q ∈ omap listens_on l) as Hmem by (intros x H1 H2; apply list_elem_of_omap; by exists x).
  apply elem_of_cons in Hiny as [->|Hy], Hc as [->|Hc]; [done| | |].
  - rewrite Hxq in Hnd. apply list.NoDup_cons in Hnd as [[] _]. by apply (Hmem c).
  - rewrite Hq in Hnd. apply list.NoDup_cons in Hnd as [[] _]. by apply (Hmem y).
  - apply IH; try done. destruct (listens_on z); [by apply list.NoDup_cons in Hnd as [_ ?]|done].
Qed.

Lemma conn_match_spec a p r b c :
  conn_match a p r b c = true -> c.(psm) = p /\ c.(role) = r /\ c.(channel_connected) = b.
Proof.
  unfold conn_match. rewrite !andb_true_iff, Z.eqb_eq, bool_decide_eq_true, eqb_true_iff. naive_solver.
Qed.

Lemma cid_allocated_stays a q cid : stays (handle_cid_allocated a q cid).
Proof.
  intros s Hi. unfold handle_cid_allocated. apply wp_bind, search_live; [done| |by intros _]. intros c _ Hl.
  eapply upd_chan_wp; [apply (inv_ch s Hi)|done|]. eapply put_inv; [done..|]. pose proof (live_ok s _ c Hi Hl) as []. by split.
Qed.

Lemma connected_stays e a prm : param_ok prm -> stays (handle_channel_conneted e a prm).
Proof.
  intros Hprm s Hi. unfold handle_channel_conneted. cbn zeta. apply wp_bind, search_live; [done| |].
  2:{ intros _. by destruct (negb _). }
  intros c Hm Hl. apply conn_match_spec in Hm as (Hpsm & Hrole & Hco). pose proof (live_ok s _ c Hi Hl) as Hok.
  apply wp_bind. eapply chan_wp; [done|]. destruct (proxy_connected c); cbn [negb]; [|by eapply abort_stays].
  destruct (is_client prm).
  { eapply finish_wp; try done; by rewrite Hrole. }
  destruct (ok_listen s c Hok Hrole) as (_ & Hrange & Hused).
  set (c1 := {! addr := a; local_cid := param_cid prm; role := L2CAP_CHANNEL_ROLE_SERVER_ACCEPT } c).
  assert (chan_ok s c1) as Hok1 by (destruct Hok; split; done).
  destruct (put_inv_gen s (ch c) c c1 Hi Hl) as [Hi1 Hl1]; [done|done|done| | |].
  { rewrite (put_omap_same pipe s _ c) by done. apply (inv_pipe s Hi). }
  { eapply sublist_NoDup; [apply (inv_listen s Hi)|]. by apply put_omap_none. }
  apply wp_bind. eapply upd_chan_wp; [apply (inv_ch s Hi)|done|]. fold c1. apply wp_bind.
  assert (psm c ∉ omap listens_on (channel_list (put (ch c) c1 s))) as Hnl.
  { eapply not_listening; try done. unfold listens_on. by rewrite Hrole. }
  eapply alloc_wp; [done|exact (ok_app s c1 Hok1)|done|intros _; by split_and!|by intros s' _ Hi'|].
  intros n i s2 _ Hi2 Hl2 Ho Hpm. apply wp_bind. eapply prepare_wp; [done|done|done..|].
  intros b c' s3 _ Hi3 Hl3 Ho3 Hpm3. destruct b; cbn [negb]; [|by eapply remove_stays].
  destruct (Ho _ _ Hl1) as [Hne Hl1']. eapply finish_wp; [done|by apply Ho3|done|done|done| |].
  - intros _. rewrite Hpm3, Hpm. by destruct s.
  - intros m [= <-]. split; [done|by exists c'].
Qed.

Lemma disconnected_stays e a cid reason : stays (handle_channel_disconneted e a cid reason).
Proof.
  intros s Hi. unfold handle_channel_disconneted. apply wp_bind, search_live; [done| |by intros _]. intros c _ Hl.
  apply wp_bind. eapply chan_wp; [done|]. apply wp_bind. unfold l2cap_notify_disconnected, client.
  destruct (ok_app _ _ (live_ok s _ c Hi Hl)) as [r Hr]. apply wp_bind, wp_bind, (wp_read _ r); [done|]. apply wp_ret.
  destruct (if bool_decide _ then _ else _); [destruct (has_on_disconnected e)|]; by eapply remove_stays.
Qed.

(** ** Receiving *)

(** The credits after [refill]: the same, or as many segments as there is room for. *)
Definition refilled (c : l2cap_channel_t) (n : Z) : Prop :=
  n = c.(incoming).(credits) \/ (c.(incoming).(credits) < n /\ n = u16 (Z.quot c.(rx_buf_size) c.(incoming).(le_mps))).

Definition granted (os : list out) : Prop := os = [] \/ exists a cid n, os = [bt_sal_l2cap_give_incoming_credits a cid n].

Lemma refill_wp e s p c (Q : unit -> l2cap_manager_t -> list out -> Prop) :
  NoDup (ch <$> s.(channel_list)) -> live p c s -> c.(incoming).(le_mps) <> 0 ->
  (forall n os, refilled c n -> granted os -> Q tt (put p (set_credits n c) s) os) -> wp (refill e p) Q s.
Proof.
  intros Hnd Hl Hm HQ. assert (Q tt s []) as Hsame.
  { rewrite <- (put_same s p c Hnd Hl) at 1. replace c with (set_credits (credits (incoming c)) c) at 1 by (by destruct c as [????[]]).
    apply HQ; by left. }
  unfold refill. apply wp_bind. eapply chan_wp; [done|]. destruct (_ <? _); [|apply Hsame]. unfold l2cap_add_incoming_credits.
  apply wp_bind. eapply chan_wp; [done|]. rewrite (proj2 (Z.eqb_neq _ _) Hm). cbn zeta. destruct (Z.leb_spec (u16 (Z.quot (rx_buf_size c) (le_mps (incoming c)))) (credits (incoming c))) as [Hle|Hlt]; [apply Hsame|].
  apply wp_bind, wp_emit. destruct (negb _); [apply wp_ret|eapply upd_chan_wp; [done|done|]; apply HQ; right; [done|by do 3 eexists]].
  rewrite <- (put_same s p c Hnd Hl) at 1. replace c with (set_credits (credits (incoming c)) c) at 1 by (by destruct c as [????[]]).
  apply HQ; [by left|right; by do 3 eexists].
Qed.

Lemma u16_le x : 0 <= x -> 0 <= u16 x < 65536 /\ u16 x <= x.
Proof. intros Hx. pose proof (Z.mod_pos_bound x 65536 eq_refl). pose proof (Z.mod_le x 65536 Hx eq_refl). by split. Qed.

Lemma refilled_flow c n :
  flow_ok c -> c.(incoming).(le_mps) <> 0 -> refilled c n -> flow_ok (set_credits n c).
Proof.
  intros (Hc & Hm & Hb & Hf & Hs) Hm0 [->|[_ ->]]; destruct c as [????[mtu mps cr]]; [done|]. unfold flow_ok, held in *. cbn in *.
  assert (0 <= rx_buf_size0) by nia. rewrite Z.quot_div_nonneg by lia.
  pose proof (Z.mul_div_le rx_buf_size0 mps ltac:(lia)). pose proof (Z.div_pos rx_buf_size0 mps ltac:(lia) ltac:(lia)) as Hd.
  apply u16_le in Hd as [Hd1 Hd2]. split_and!; try done; nia.
Qed.

(** A segment takes a credit and its room. *)
Definition taken (k : l2cap_pkt_t) (c : l2cap_channel_t) : l2cap_channel_t :=
  {! rx_buf_size := u16 (c.(rx_buf_size) - k.(len_received)) } (set_credits (u16 (c.(incoming).(credits) - 1)) c).

Lemma held_nonneg c : Forall (fun k => 0 <= len_total k) c.(rx_list) -> (forall k, c.(rx_sdu) = Some k -> sdu_ok k) -> 0 <= held c.
Proof.
  intros Hf Hk. unfold held. assert (0 <= sum (rx_list c)) by (revert Hf; generalize (rx_list c); unfold sum; induction 1; cbn in *; lia).
  destruct (rx_sdu c) as [k|]; [|lia]. destruct (Hk k eq_refl) as [? _]. lia.
Qed.

Lemma taken_flow c k :
  flow_ok c -> (forall k, c.(rx_sdu) = Some k -> sdu_ok k) -> c.(incoming).(credits) <> 0 ->
  0 <= len_received k <= c.(incoming).(le_mps) ->
  flow_ok (taken k c) /\ rx_buf_size (taken k c) + len_received k = rx_buf_size c.
Proof.
  intros (Hc & Hm & Hb & Hf & Hs) Hsdu Hc0 Hk. pose proof (held_nonneg c Hf Hsdu) as Hh.
  destruct c as [????[mtu mps cr]]. unfold flow_ok, taken, L2CAP_MAX_RX_BUF_SIZE in *. cbn in *.
  assert (len_received k <= rx_buf_size0) by nia. rewrite !(uint_small 16) by (unfold in_u; lia).
  split; [|lia]. unfold held in *. cbn in *. assert ((cr - 1) * mps = cr * mps - mps) by ring. split_and!; try done; lia.
Qed.

(** The channel after a segment: [n] credits, [r] is put together so far. *)
Definition grown (k : l2cap_pkt_t) (n : Z) (r : option l2cap_pkt_t) (c : l2cap_channel_t) : l2cap_channel_t :=
  {! rx_sdu := r } (set_credits n (taken k c)).

Lemma grown_ok s c k n r :
  chan_ok s c -> c.(incoming).(credits) <> 0 -> c.(pipe) <> None -> 0 <= len_received k <= c.(incoming).(le_mps) ->
  refilled (taken k c) n -> (forall k', r = Some k' -> sdu_ok k') ->
  match r with Some k' => len_received k' | None => 0 end
    <= match c.(rx_sdu) with Some k' => len_received k' | None => 0 end + len_received k ->
  chan_ok s (grown k n r c).
Proof.
  intros [] Hc Hp Hk Hn Hr Hlen.
  assert (c.(incoming).(le_mps) <> 0) as Hm by (intros E; by destruct (ok_mps0 E)).
  assert (channel_connected c = true) as Hco by (destruct (channel_connected c); [done|]; destruct (ok_idle0 eq_refl) as (_ & _ & [|]); done).
  split; try done.
  - intros E. destruct c. cbn in *. congruence.
  - intros Hf. destruct (taken_flow c k (ok_flow0 Hf) ok_sdu0 Hc Hk) as [Ht Hb].
    apply (refilled_flow _ n) in Ht as (H1 & H2 & H3 & H4 & H5); [|by destruct c|done].
    destruct (ok_flow0 Hf) as (_ & _ & _ & _ & H6). clear - Hb Hlen H1 H2 H3 H4 H6. unfold flow_ok, held in *.
    destruct c as [????[]]. unfold grown, taken in *. cbn in *. split_and!; try done; lia.
Qed.

Lemma pkt_bytes_some k : len_total k <= room k -> is_Some (pkt_bytes k (len_total k)).
Proof. intros H. unfold pkt_bytes. rewrite (proj2 (Z.ltb_ge _ _)) by lia. by eexists. Qed.

(** The writes of a pipe, after one more. *)
Lemma filter_snoc (h g x : nat) (l : list (nat * nat)) :
  map snd (List.filter (fun w => Nat.eqb w.1 h) (l ++ [(g, x)])) =
  map snd (List.filter (fun w => Nat.eqb w.1 h) l) ++ (if Nat.eqb g h then [x] else []).
Proof. rewrite List.filter_app, map_app. cbn. by destruct (Nat.eqb g h). Qed.

(** The others have another pipe. *)
Lemma other_pipe s p c x h :
  inv s -> live p c s -> x ∈ s.(channel_list) -> x.(ch) <> p -> c.(pipe) = Some h -> x.(pipe) <> Some h.
Proof.
  intros Hi Hl Hx Hne Hc E. apply live_at in Hl as [Hin Hp]. pose proof (inv_pipe s Hi) as Hnd. clear - Hnd Hx Hne Hc E Hin Hp.
  induction (channel_list s) as [|z l IH]; [by apply not_elem_of_nil in Hx|]. cbn in Hnd.
  assert (forall y, y ∈ l -> pipe y = Some h -> h ∈ omap pipe l) as Hmem by (intros y H1 H2; apply list_elem_of_omap; by exists y).
  apply elem_of_cons in Hx as [->|Hx], Hin as [->|Hin]; [done| | |].
  - rewrite E in Hnd. apply list.NoDup_cons in Hnd as [[] _]. by apply (Hmem c).
  - rewrite Hc in Hnd. apply list.NoDup_cons in Hnd as [[] _]. by apply (Hmem x).
  - apply IH; try done. destruct (pipe z); [by apply list.NoDup_cons in Hnd as [_ ?]|done].
Qed.

(** The pending writes of one pipe, and its channel, change. *)
Lemma writes_inv s p c c' h ws :
  inv s -> live p c s -> c.(pipe) = Some h -> c'.(pipe) = Some h \/ c'.(pipe) = None ->
  c'.(ch) = c.(ch) -> c'.(id) = c.(id) -> listens_on c' = listens_on c ->
  (forall g, g <> h -> map snd (List.filter (fun w => Nat.eqb w.1 g) ws) = map snd (List.filter (fun w => Nat.eqb w.1 g) s.(writes))) ->
  Forall (fun w => (w.1 < s.(next))%nat) ws -> chan_ok ({! writes := ws } s) c' ->
  inv (put p c' ({! writes := ws } s)) /\ live p c' (put p c' ({! writes := ws } s)).
Proof.
  intros Hi Hl Hp Hp' Hch Hid Hlis Hw Hws Hok.
  assert (channel_list (put p c' ({! writes := ws } s)) = channel_list (put p c' s)) as El by (by destruct s).
  split; [|apply (put_live p c); [by destruct s|rewrite Hch; by apply live_at in Hl as [_ ?]]].
  split; rewrite ?El.
  - rewrite put_list. apply Forall_forall. intros x Hx. apply list_elem_of_In, in_map_iff in Hx as (y & <- & Hy%list_elem_of_In).
    apply chan_ok_put. destruct (at_ptr p y) eqn:E; [done|]. apply Nat.eqb_neq in E.
    pose proof (other_pipe s p c y h Hi Hl Hy E Hp) as Hne.
    pose proof (proj1 (Forall_forall _ _) (inv_chan s Hi) y Hy) as []. destruct s. split; try done. cbn in *.
    intros g Hg. destruct (ok_pipe0 g Hg). split; [done|]. rewrite Hw; [done|congruence].
  - rewrite (put_map ch p c) by done. apply (inv_ch s Hi).
  - rewrite (put_map id p c) by done. apply (inv_id s Hi).
  - destruct Hp' as [Hp'|Hp']; [rewrite (put_omap_same pipe s p c) by congruence; apply (inv_pipe s Hi)|].
    eapply sublist_NoDup; [apply (inv_pipe s Hi)|]. by apply put_omap_none.
  - rewrite (put_omap_same listens_on s p c) by done. apply (inv_listen s Hi).
  - destruct s. apply (inv_wf _ Hi).
  - intros i Hu. rewrite (put_map id p c) by done. apply (inv_used s Hi). by destruct s.
  - by destruct s.
  - destruct s. apply (inv_cbs _ Hi).
Qed.

Lemma sum_snoc l k : sum (l ++ [k]) = sum l + len_total k.
Proof. unfold sum. induction l as [|x l IH]; cbn; [lia|]. rewrite IH. lia. Qed.

(** An SDU that is complete goes to the pipe. *)
Lemma send_stays e s p c h k :
  inv s -> live p c s -> c.(pipe) = Some h -> c.(rx_sdu) = Some k -> len_received k = len_total k ->
  c.(channel_connected) = true -> c.(incoming).(le_mps) <> 0 -> wp (l2cap_send_sdu_to_app e p) (fun _ s' _ => inv s') s.
Proof.
  intros Hi Hl Hp Hk Hlen Hco Hm. unfold l2cap_send_sdu_to_app. apply wp_bind. eapply chan_wp; [done|].
  pose proof (live_ok s p c Hi Hl) as Hok. destruct (ok_sdu s c Hok k Hk) as (Hr & Hd & Ht).
  apply wp_bind, (wp_read _ k); [done|]. apply wp_bind. eapply upd_chan_wp; [apply (inv_ch s Hi)|done|].
  set (c1 := {! rx_sdu := None } c). assert (chan_ok s c1) as Hok1.
  { destruct Hok. split; try done; [by destruct c; cbn in *; intros []%ok_idle0|]. intros Hf. destruct (ok_flow0 Hf) as (H1 & H2 & H3 & H4 & H5).
    do 4 (split; [done|]). unfold held in *. rewrite Hk in H5. change (rx_buf_size c + (sum (rx_list c) + 0) <= L2CAP_MAX_RX_BUF_SIZE). lia. }
  destruct (put_inv s p c c1 Hi Hl) as [Hi1 Hl1]; [done..|]. rewrite Hp.
  destruct (pkt_bytes_some k ltac:(lia)) as [buf Hbuf]. apply wp_bind, (wp_read _ buf); [done|]. apply wp_bind, wp_emit.
  destruct (write e); [|by eapply abort_stays]. apply wp_bind, wp_modify.
  replace ({! writes ::= _ } (put p c1 s)) with ({! writes := writes s ++ [(h, pkt k)] } (put p c1 s)) by (by destruct s).
  set (ws := writes s ++ [(h, pkt k)]). assert (p = c.(ch)) as Hpc by (by apply live_at in Hl as [_ ?]).
  set (c2 := {! rx_list ::= (fun l => l ++ [k]) } c1).
  destruct (writes_inv (put p c1 s) p c1 c2 h ws Hi1 Hl1) as [H _]; [done|by left|done..| | | |].
  - intros g Hg. unfold ws. rewrite filter_snoc, (proj2 (Nat.eqb_neq h g)), app_nil_r by done. by destruct s.
  - unfold ws. apply Forall_app. split; [destruct s; apply (inv_writes _ Hi)|]. apply Forall_singleton. destruct s. by apply Hok1.
  - pose proof (live_ok _ _ _ Hi1 Hl1) as []. split; try done.
    + intros g Hg. change (pipe c = Some g) in Hg. rewrite Hp in Hg. injection Hg as <-. destruct (ok_pipe0 h Hp) as [H1 H2]. split; [done|].
      change (rx_list c2) with (rx_list c ++ [k]). change (rx_list c1) with (rx_list c) in H2. rewrite map_app, H2.
      cbn -[ws]. unfold ws. rewrite filter_snoc, Nat.eqb_refl. by destruct s.
    + destruct c; cbn in *. congruence.
    + intros Hf. destruct (ok_flow s c Hok Hf) as (H1 & H2 & H3 & H4 & H5). unfold held in H5. rewrite Hk in H5.
      do 3 (split; [done|]). split; [apply Forall_app; split; [done|]; apply Forall_singleton; lia|].
      change (rx_buf_size c + (sum (rx_list c ++ [k]) + 0) <= L2CAP_MAX_RX_BUF_SIZE). rewrite sum_snoc. lia.
  - eapply upd_chan_wp; [|by destruct s|exact H]. destruct s. apply (inv_ch _ Hi1).
Qed.

(** Whether [k] is copied behind the room of the SDU it continues. *)
Definition overflows (s : l2cap_manager_t) (cid : Z) (k : l2cap_pkt_t) : bool :=
  match List.find (fun c => c.(local_cid) =? cid) s.(channel_list) with
  | Some c =>
      negb (c.(incoming).(le_mps) <? len_received k) && negb (c.(incoming).(mtu) <? len_total k) && negb (c.(incoming).(credits) =? 0) &&
      negb (negb c.(proxy_connected) || bool_decide (c.(pipe) = None)) &&
      match c.(rx_sdu) with
      | Some sdu => negb (len_total sdu <? len_received sdu + len_received k) && (room sdu <? len_received sdu + len_received k)
      | None => false
      end
  | None => false
  end.

(** [m] keeps everything sound, or fails if [b]. *)
Definition runs (b : bool) (m : MS unit) (s : l2cap_manager_t) : Prop :=
  if b then m s = None else wp m (fun _ s' _ => inv s') s.

Lemma runs_bind {A} b (m : MS A) (f : A -> MS unit) s : wp m (fun a s1 _ => runs b (f a) s1) s -> runs b (ebind m f) s.
Proof.
  destruct b; cbn; [|intros H; by apply wp_bind]. unfold wp, ebind. destruct (m s) as [[[a s1] o]|]; [|done]. by intros ->.
Qed.

Lemma append_ok sdu k :
  sdu_ok sdu -> sdu_ok k -> len_received sdu + len_received k <= len_total sdu -> len_received sdu + len_received k <= room sdu ->
  exists d, append sdu k = Some d /\ sdu_ok d /\ len_received d = len_received sdu + len_received k.
Proof.
  intros (H1 & H2 & H3) (H4 & H5 & H6) Ht Hr. unfold append. rewrite (proj2 (Z.ltb_ge _ _)) by lia. eexists. split; [done|].
  unfold sdu_ok. cbn. rewrite length_app, (uint_small 16) by (unfold in_u; lia). split; [|done]. split; [lia|]. split; [lia|done].
Qed.

Lemma grown_keeps k n r c :
  ch (grown k n r c) = ch c /\ id (grown k n r c) = id c /\ pipe (grown k n r c) = pipe c /\ listens_on (grown k n r c) = listens_on c /\
  rx_sdu (grown k n r c) = r /\ channel_connected (grown k n r c) = channel_connected c /\ le_mps (incoming (grown k n r c)) = le_mps (incoming c).
Proof. by destruct c as [????[]]. Qed.

(** The SDU goes on with [k] unless there is no room for it. *)
Lemma add_segment_runs e s p c k n :
  inv s -> live p c s -> sdu_ok k -> len_received k <= c.(incoming).(le_mps) -> c.(incoming).(credits) <> 0 -> c.(pipe) <> None ->
  refilled (taken k c) n ->
  runs match c.(rx_sdu) with
       | Some sdu => negb (len_total sdu <? len_received sdu + len_received k) && (room sdu <? len_received sdu + len_received k)
       | None => false
       end (add_segment e p c.(rx_sdu) k) (put p (set_credits n (taken k c)) s).
Proof.
  intros Hi Hl Hk Hmps Hcr Hp Hn. pose proof (live_ok s p c Hi Hl) as Hok. pose proof (live_at p c s Hl) as [_ Hpc].
  pose proof Hk as (Hk1 & _ & _).
  set (c1 := set_credits n (taken k c)). assert (live p c1 (put p c1 s)) as Hl1 by (by eapply put_live; [|destruct c as [????[]]]).
  assert (NoDup (ch <$> channel_list (put p c1 s))) as Hnd1.
  { rewrite (put_ch p c); [apply (inv_ch s Hi)|apply (inv_ch s Hi)|done|]. by destruct c as [????[]]. }
  assert (forall r (m : MS unit) b, (forall k', r = Some k' -> sdu_ok k') ->
    match r with Some k' => len_received k' | None => 0 end
      <= match c.(rx_sdu) with Some k' => len_received k' | None => 0 end + len_received k ->
    (inv (put p (grown k n r c) s) -> live p (grown k n r c) (put p (grown k n r c) s) -> runs b m (put p (grown k n r c) s)) ->
    runs b (upd p {! rx_sdu := r };;; m) (put p c1 s)) as Hupd.
  { intros r m b Hr Hlen H. apply runs_bind. eapply upd_chan_wp; [done|done|]. rewrite put_put by (by destruct c as [????[]]).
    destruct (grown_keeps k n r c) as (G1 & G2 & G3 & G4 & _). destruct (put_inv s p c (grown k n r c) Hi Hl) as [Hi1 Hl']; try done.
    - apply grown_ok; try done. lia.
    - by apply H. }
  assert (c.(incoming).(le_mps) <> 0) as Hm by (intros E; by destruct (ok_mps s c Hok E)).
  assert (channel_connected c = true) as Hco.
  { destruct (channel_connected c) eqn:E; [done|]. destruct (ok_idle s c Hok E) as (_ & _ & [|]); done. }
  assert (forall k', inv (put p (grown k n (Some k') c) s) -> live p (grown k n (Some k') c) (put p (grown k n (Some k') c) s) ->
    runs false (ewhen (len_received k' =? len_total k') (l2cap_send_sdu_to_app e p)) (put p (grown k n (Some k') c) s)) as Hsend.
  { intros k' Hi1 Hl'. destruct (Z.eqb_spec (len_received k') (len_total k')) as [E|E]; [|done].
    destruct (grown_keeps k n (Some k') c) as (_ & _ & G3 & _ & G5 & G6 & G7). destruct (pipe c) as [h|]; [|done].
    eapply (send_stays e _ p _ h k'); try done; congruence. }
  destruct (rx_sdu c) as [sdu|] eqn:Esdu; cbn [add_segment].
  - pose proof (ok_sdu s c Hok sdu Esdu) as Hsdu. pose proof Hsdu as (Hs1 & _ & _).
    destruct (Z.ltb_spec (len_total sdu) (len_received sdu + len_received k)) as [H1|H1]; cbn [negb andb].
    { apply Hupd; [done|lia|]. intros Hi1 Hl'. by eapply abort_stays. }
    destruct (Z.ltb_spec (room sdu) (len_received sdu + len_received k)) as [H2|H2].
    { unfold runs, ebind, eread, append. by rewrite (proj2 (Z.ltb_lt _ _)) by lia. }
    destruct (append_ok sdu k Hsdu Hk H1 H2) as (d & Hd & Hdok & Hlen).
    apply runs_bind. apply (wp_read _ d); [done|]. apply Hupd; [by intros ? [= <-]|lia|]. apply Hsend.
  - apply Hupd; [by intros ? [= <-]|lia|]. apply Hsend.
Qed.

Lemma received_runs e a cid k s : inv s -> sdu_ok k -> runs (overflows s cid k) (handle_packet_received e a cid k) s.
Proof.
  intros Hi Hk. unfold overflows, handle_packet_received, find_l2cap_channel_by_cid, search. apply runs_bind, wp_gets.
  destruct (List.find (fun c => local_cid c =? cid) (channel_list s)) as [c|] eqn:Ef; [|done]. cbn [fmap option_fmap option_map].
  apply find_some in Ef as [Hc%list_elem_of_In _].
  pose proof (elem_live c s (inv_ch s Hi) Hc) as Hl. pose proof (live_ok s _ c Hi Hl) as Hok. set (p := ch c) in *.
  apply runs_bind. eapply chan_wp; [done|].
  destruct (Z.ltb_spec (le_mps (incoming c)) (len_received k)) as [H1|H1]; [by eapply abort_stays|].
  destruct (Z.ltb_spec (mtu (incoming c)) (len_total k)) as [H2|H2]; [by eapply abort_stays|].
  destruct (Z.eqb_spec (credits (incoming c)) 0) as [H3|H3]; [by eapply abort_stays|].
  destruct (negb (proxy_connected c) || bool_decide (pipe c = None)) eqn:H4; [done|].
  apply orb_false_iff in H4 as [_ H4%bool_decide_eq_false]. cbn [negb andb].
  apply runs_bind. eapply upd_chan_wp; [apply (inv_ch s Hi)|done|]. apply runs_bind. fold (taken k c).
  assert (ch (taken k c) = ch c) as Hch by (by destruct c as [????[]]).
  eapply (refill_wp e _ p (taken k c)); [by rewrite (put_ch p c); [apply (inv_ch s Hi)|apply (inv_ch s Hi)|..]|by eapply put_live| |].
  { intros E. assert (le_mps (incoming c) = 0) as E' by (by destruct c as [????[]]). by destruct (ok_mps s c Hok E'). }
  intros n _ Hn _. rewrite put_put by done. by apply add_segment_runs.
Qed.

Lemma packet_sent_stays a cid : stays (handle_packet_sent a cid).
Proof.
  intros s Hi. unfold handle_packet_sent. apply wp_bind, search_live; [done| |by intros _]. intros c _ Hl.
  apply wp_bind. eapply chan_wp; [done|]. apply wp_bind.
  assert (wp (upd (ch c) {! tx_quota := u16 (tx_quota c + 1) }) (fun _ s' _ => inv s') s) as Hu.
  { eapply upd_chan_wp; [apply (inv_ch s Hi)|done|]. eapply put_inv; [done..|]. pose proof (live_ok s _ c Hi Hl) as []. by split. }
  destruct (pipe c) as [h|]; [|exact Hu]. destruct (_ =? _); exact Hu.
Qed.

(** ** The pipes *)

Lemma app_data_stays h buf : stays (l2cap_receive_data_from_app h buf).
Proof.
  intros s Hi. unfold l2cap_receive_data_from_app. apply wp_bind, search_live; [done| |by intros _]. intros c _ Hl.
  apply wp_bind. eapply chan_wp; [done|]. destruct buf as [[|b buf]|]; [done| |].
  - destruct (channel_connected c); cbn [negb]; [|done]. apply wp_bind, wp_emit, wp_bind. eapply upd_chan_wp; [apply (inv_ch s Hi)|done|].
    set (c' := {! tx_quota := _ } c). destruct (put_inv s (ch c) c c' Hi Hl) as [Hi' _]; [done..| |].
    + pose proof (live_ok s _ c Hi Hl) as []. by split.
    + destruct (_ =? _); [|done]. by destruct (pipe c).
  - apply wp_bind. destruct (channel_connected c); by eapply remove_stays.
Qed.

Lemma proxy_connected_stays e s p c ok : inv s -> live p c s -> wp (proxy_connected_cb e p ok) (fun _ s' _ => inv s') s.
Proof.
  intros Hi Hl. unfold proxy_connected_cb. destruct ok; cbn [negb]; [|by eapply remove_stays].
  apply wp_bind. eapply upd_chan_wp; [apply (inv_ch s Hi)|done|]. set (c' := {! proxy_connected := true } c).
  destruct (put_inv s p c c' Hi Hl) as [Hi' Hl']; [done..| |].
  { pose proof (live_ok s _ c Hi Hl) as []. by split. }
  apply wp_bind. eapply chan_wp; [done|]. destruct (pipe c') as [h|]; [|by eapply remove_stays].
  apply wp_bind, wp_emit. destruct (read_start e); [done|by eapply remove_stays].
Qed.

(** The oldest write of [h] is taken off the queue. *)
Lemma drop_write_same h x l :
  List.find (fun w => Nat.eqb w.1 h) l = Some x ->
  map snd (List.filter (fun w => Nat.eqb w.1 h) l) = x.2 :: map snd (List.filter (fun w => Nat.eqb w.1 h) (drop_write h l)).
Proof.
  induction l as [|w l IH]; cbn; [done|]. destruct (Nat.eqb w.1 h) eqn:E; cbn; [by intros [= <-]|]. rewrite E. exact IH.
Qed.

Lemma drop_write_other h g l :
  g <> h -> List.filter (fun w => Nat.eqb w.1 g) (drop_write h l) = List.filter (fun w => Nat.eqb w.1 g) l.
Proof.
  intros Hne. induction l as [|w l IH]; cbn; [done|]. destruct (Nat.eqb w.1 h) eqn:E; cbn.
  - apply Nat.eqb_eq in E. by rewrite (proj2 (Nat.eqb_neq w.1 g)) by congruence.
  - by rewrite IH.
Qed.

Lemma drop_write_sub h l : drop_write h l `sublist_of` l.
Proof. induction l as [|w l IH]; cbn; [done|]. destruct (Nat.eqb w.1 h); [by apply sublist_cons|by apply sublist_skip]. Qed.

(** A pipe that is no channel's. *)
Lemma writes_unused s h ws :
  inv s -> Forall (fun c => c.(pipe) <> Some h) s.(channel_list) -> ws `sublist_of` s.(writes) ->
  (forall g, g <> h -> List.filter (fun w => Nat.eqb w.1 g) ws = List.filter (fun w => Nat.eqb w.1 g) s.(writes)) ->
  inv ({! writes := ws } s).
Proof.
  intros Hi Hno Hsub Hw. destruct s. split; cbn in *; try (by apply Hi).
  - apply Forall_forall. intros x Hx. pose proof (proj1 (Forall_forall _ _) Hno x Hx) as Hne.
    pose proof (proj1 (Forall_forall _ _) (inv_chan _ Hi) x Hx) as []. split; try done. cbn in *.
    intros g Hg. destruct (ok_pipe0 g Hg). split; [done|]. rewrite Hw; [done|congruence].
  - apply Forall_forall. intros w Hin. apply (proj1 (Forall_forall _ _) (inv_writes _ Hi) w). cbn. by eapply elem_of_sublist.
Qed.

(** The room of a written SDU is free again. *)
Lemma written_flow c sdu rest :
  flow_ok c -> c.(rx_list) = sdu :: rest -> (forall k, c.(rx_sdu) = Some k -> sdu_ok k) ->
  flow_ok ({! rx_list := rest;
             rx_buf_size := if L2CAP_MAX_RX_BUF_SIZE <? u16 (c.(rx_buf_size) + sdu.(len_total)) then L2CAP_MAX_RX_BUF_SIZE
                            else u16 (c.(rx_buf_size) + sdu.(len_total)) } c).
Proof.
  intros (F1 & F2 & F3 & F4 & F5) Erx Hk. rewrite Erx in F4. apply Forall_cons_iff in F4 as [F4 F4'].
  pose proof (held_nonneg ({! rx_list := rest } c) F4' Hk) as Hh. unfold flow_ok, held in *. destruct c as [????[mtu mps cr]]. 
  cbn -[sum] in *. subst.
  change (sum (sdu :: rest)) with (len_total sdu + sum rest) in F5. assert (0 <= rx_buf_size0) by nia. unfold L2CAP_MAX_RX_BUF_SIZE in *.
  rewrite (uint_small 16) by (unfold in_u; lia). rewrite (proj2 (Z.ltb_ge _ _)) by lia.
  do 2 (split; [done|]). split; [lia|]. split; [done|]. lia.
Qed.

(** The callback of a write finds the SDU that it is for at the head of the
    list. *)
Lemma written_stays e h ok : stays (written e h ok).
Proof.
  intros s Hi. unfold written. apply wp_bind, wp_gets. destruct (List.find _ (writes s)) as [w|] eqn:Ew; [|done].
  apply wp_bind, wp_modify. replace ({! writes ::= drop_write h } s) with ({! writes := drop_write h s.(writes) } s) by (by destruct s).
  set (ws := drop_write h s.(writes)). set (s1 := {! writes := ws } s).
  assert (channel_list s1 = channel_list s) as El by (by destruct s).
  assert (Forall (fun w => (w.1 < s.(next))%nat) ws) as Hws.
  { apply Forall_forall. intros x Hx. apply (proj1 (Forall_forall _ _) (inv_writes _ Hi) x). eapply elem_of_sublist; [exact Hx|]. apply drop_write_sub. }
  unfold l2cap_send_sdu_to_app_cb, find_l2cap_channel_by_pipe, search. apply wp_bind, wp_gets. rewrite El.
  destruct (List.find _ (channel_list s)) as [c|] eqn:Ef.
  2:{ eapply (writes_unused s h); [done| |apply drop_write_sub|intros g Hg; by apply drop_write_other].
      apply Forall_forall. intros c Hc E. apply list_elem_of_In in Hc. pose proof (find_none _ _ Ef c Hc) as F. cbn in F.
      by apply bool_decide_eq_false in F. }
  apply find_some in Ef as [Hc%list_elem_of_In Hp%bool_decide_eq_true]. pose proof (elem_live c s (inv_ch s Hi) Hc) as Hl.
  assert (live (ch c) c s1) as Hl1 by (by destruct s). pose proof (inv_ch s Hi) as Hnd. rewrite <- El in Hnd.
  pose proof (live_ok s _ c Hi Hl) as Hok. destruct (ok_pipe s c Hok h Hp) as [Hlt Hrx]. rewrite (drop_write_same h w _ Ew) in Hrx. fold ws in Hrx.
  destruct (rx_list c) as [|sdu rest] eqn:Erx; [done|]. injection Hrx as Hsdu Hrest. cbn [fmap option_fmap option_map].
  assert (forall c', pipe c' = Some h \/ pipe c' = None -> ch c' = ch c -> id c' = id c -> listens_on c' = listens_on c -> chan_ok s1 c' ->
    inv (put (ch c) c' s1)) as Hdone.
  { intros c' H1 H2 H3 H4 H5. eapply (writes_inv s (ch c) c c' h ws); try done. intros g Hg. unfold ws. by rewrite drop_write_other. }
  destruct ok; cbn [negb].
  - apply wp_bind. eapply chan_wp; [done|]. rewrite Erx, Hsdu, Nat.eqb_refl. cbn [negb]. cbn zeta.
    assert (le_mps (incoming c) <> 0) as Hm by (intros E; destruct (ok_mps s c Hok E); congruence).
    assert (channel_connected c = true) as Hco.
    { destruct (channel_connected c) eqn:E; [done|]. destruct (ok_idle s c Hok E) as (_ & ? & _); congruence. }
    apply wp_bind. eapply upd_chan_wp; [done|done|]. set (c1 := {! rx_list := rest; rx_buf_size := _ } c).
    assert (live (ch c) c1 (put (ch c) c1 s1)) as Hl2 by (by eapply put_live).
    eapply (refill_wp e _ _ c1); [by rewrite (put_ch _ c)|done|done|]. intros n _ Hn _. rewrite put_put by done.
    apply Hdone; [by left; destruct c as [????[]]|by destruct c as [????[]]..|].
    assert (flow = true -> flow_ok c1) as Hf1.
    { intros Hf. apply (written_flow c sdu rest); [by apply Hok|done|by apply Hok]. }
    destruct Hok. split; try (by destruct s, c as [????[]]).
    + intros g Hg. assert (g = h) as -> by (destruct c as [????[]]; cbn in *; congruence). destruct s, c as [????[]]. done.
    + intros E. assert (channel_connected c = false) as E' by (by destruct c as [????[]]). congruence.
    + intros Hf. by apply refilled_flow; [apply Hf1| |].
  - eapply abort_wp; [done|done|]. intros _. apply Hdone; [right; unfold aborted; by rewrite Hp|unfold aborted; by rewrite Hp..|].
    destruct Hok. unfold aborted. rewrite Hp. destruct s. split; try done. naive_solver.
Qed.

(** ** The interface *)

(** The clients change, and those of the channels stay. *)
Lemma clients_inv s l :
  inv s -> CallbacksList.inv max l -> Forall (fun c => is_Some (entry c.(app_handle) l)) s.(channel_list) -> inv ({! cbsl := l } s).
Proof.
  intros Hi Hl Ha. destruct s. split; cbn in *; try (by apply Hi); [|done]. apply Forall_forall. intros c Hc.
  pose proof (proj1 (Forall_forall _ _) Ha c Hc) as Hac. pose proof (proj1 (Forall_forall _ _) (inv_chan _ Hi) c Hc) as []. by split.
Qed.

Lemma register_stays e c rem cbs s :
  0 <= max < 256 -> inv s -> entry c s.(cbsl) = None -> wp (l2cap_register_callbacks e c rem cbs) (fun _ s' _ => inv s') s.
Proof.
  intros Hmax Hi Hf. unfold l2cap_register_callbacks. destruct (le_enabled e); cbn [negb]; [|done]. apply wp_bind, wp_gets.
  pose proof (CallbacksList.step_inv max (CallbacksList.op_register c rem cbs) _ Hmax (inv_cbs s Hi) Hf) as H. cbn in H.
  destruct (bt_remote_callbacks_register c rem cbs (cbsl s)) as [r l] eqn:E. apply wp_bind, wp_modify, wp_ret. cbn in H.
  apply clients_inv; [done|done|]. eapply Forall_impl; [apply (inv_chan s Hi)|]. intros x Hx. destruct (ok_app s x Hx) as [y Hy].
  destruct (register_cases c rem cbs (cbsl s)) as [Hc|(_ & _ & Hc)]; rewrite E in Hc; injection Hc as -> ->; [by exists y|].
  rewrite entry_add, Hy. by exists y.
Qed.

(** Entries but the one given back are still there. *)
Lemma entry_remove p q m n l :
  q <> p -> is_Some (entry q l) -> is_Some (entry q (mk_cbsl m n (remove_entry p l.(cb_list)))).
Proof.
  intros Hne. unfold entry. cbn [cb_list]. induction (cb_list l) as [|r k IH]; cbn; [done|].
  destruct (decide (rcbk r = p)) as [E|E].
  - rewrite (bool_decide_true (rcbk r = p)), (bool_decide_false (rcbk r = q)) by congruence. done.
  - rewrite (bool_decide_false (rcbk r = p)) by done. cbn. case_bool_decide; [by intros; eexists|exact IH].
Qed.

(** The channels of the client go first. *)
Lemma cleanup_app_wp h s :
  inv s -> wp (l2cap_cleanup_app h) (fun _ s' _ => inv s' /\ cbsl s' = cbsl s /\ Forall (fun c => c.(app_handle) <> h) s'.(channel_list)) s.
Proof.
  intros Hi. unfold l2cap_cleanup_app. apply wp_bind, wp_gets.
  pose (I := fun (l : list l2cap_channel_t) s1 => inv s1 /\ cbsl s1 = cbsl s /\ l ⊆ s1.(channel_list) /\
    forall c, c ∈ s1.(channel_list) -> c.(app_handle) = h -> c ∈ l).
  assert (forall l s1, NoDup l -> I l s1 -> wp (efor l (fun c => ewhen (bool_decide (c.(app_handle) = h)) (
      ewhen c.(channel_connected) (eemit (bt_sal_l2cap_disconnect_channel c.(local_cid)));;; remove_channel c.(ch)))) (fun _ s' _ => I [] s') s1) as H.
  { induction l as [|c l IH]; intros s1 Hnd (H1 & H2 & H3 & H4); cbn [efor]; [done|]. apply list.NoDup_cons in Hnd as [Hc Hnd].
    apply wp_bind. destruct (decide (app_handle c = h)) as [E|E].
    - rewrite bool_decide_true by done. cbn [ewhen]. apply wp_bind.
      assert (wp (remove_channel (ch c)) (fun _ s' _ => I l s') s1) as Hr.
      { pose proof (elem_live c s1 (inv_ch s1 H1) ltac:(apply H3; by left)) as Hl. eapply (remove_wp s1 _ c); [done|done|].
        intros al m _ Hi2. split; [done|]. split; [done|]. split.
        - intros x Hx. apply without_elem. split; [apply H3; by right|]. intros E2.
          pose proof (elem_live x s1 (inv_ch s1 H1) ltac:(apply H3; by right)) as Hx2. rewrite E2 in Hx2. unfold live in *. congruence.
        - intros x [Hx Hne]%without_elem Hh. apply H4 in Hx; [|done]. apply elem_of_cons in Hx as [->|]; done. }
      destruct (channel_connected c); [apply wp_emit|apply wp_ret]; (eapply wp_mono; [|exact Hr]); intros [] s2 o2 HI; by apply IH.
    - rewrite bool_decide_false by done. apply wp_ret. apply IH; [done|]. split; [done|]. split; [done|]. split; [set_solver|].
      intros x Hx Hh. apply H4 in Hx; [|done]. apply elem_of_cons in Hx as [->|]; done. }
  eapply wp_mono; [|apply (H s.(channel_list) s)].
  - intros [] s' o (H1 & H2 & _ & H4). split; [done|]. split; [done|]. apply Forall_forall. intros c Hc E. by apply H4, not_elem_of_nil in Hc.
  - eapply NoDup_fmap_1, (inv_ch s Hi).
  - done.
Qed.

Lemma unregister_stays e cookie s : 0 <= max < 256 -> inv s -> wp (l2cap_unregister_callbacks e cookie) (fun _ s' _ => inv s') s.
Proof.
  intros Hmax Hi. unfold l2cap_unregister_callbacks. destruct (le_enabled e); cbn [negb]; [|done]. destruct cookie as [h|]; [|done].
  apply wp_bind. eapply wp_mono; [|by apply cleanup_app_wp]. intros [] s1 o (H1 & H2 & H3). cbn beta. apply wp_bind, wp_gets.
  pose proof (CallbacksList.step_inv max (CallbacksList.op_unregister h) _ Hmax (inv_cbs s1 H1) I) as H. cbn in H.
  destruct (bt_remote_callbacks_unregister h (cbsl s1)) as [[ok r] l] eqn:E. apply wp_bind, wp_modify, wp_ret. cbn in H.
  apply clients_inv; [done|done|]. apply Forall_forall. intros c Hc. pose proof (proj1 (Forall_forall _ _) H3 c Hc) as Hne.
  pose proof (ok_app s1 c (proj1 (Forall_forall _ _) (inv_chan s1 H1) c Hc)) as Ha.
  unfold bt_remote_callbacks_unregister in E. destruct (entry h (cbsl s1)); injection E as <- <- <-; [by apply entry_remove|done].
Qed.

(** A PSM that is not in use is nobody's; taking it changes nothing for the
    channels. *)
Definition took (p : Z) : l2cap_manager_t -> l2cap_manager_t := {! psm_map ::= (fun m => Z.lor m (PSM_BIT_MASK p)) }.

Lemma took_inv s p :
  inv s -> psm_in_range p = true -> psm_used p s.(psm_map) = false ->
  inv (took p s) /\ psm_used p (psm_map (took p s)) = true /\ p ∉ omap listens_on (channel_list (took p s)).
Proof.
  intros Hi Hr Hu. split; [|split].
  - destruct s. split; cbn in *; try (by apply Hi). eapply Forall_impl; [apply (inv_chan _ Hi)|]. intros c Hc.
    eapply chan_ok_ext; [exact Hc|done..|by apply Hc|]. cbn. intros Hcr Hcu _. by rewrite psm_used_take, Hcu.
  - destruct s. cbn. rewrite psm_used_take, Z.eqb_refl by done. apply orb_true_r.
  - intros Hin. assert (p ∈ omap listens_on (channel_list s)) as (c & Hc & Hl)%list_elem_of_omap by (by destruct s).
    pose proof (ok_listen s c (proj1 (Forall_forall _ _) (inv_chan s Hi) c Hc)) as Ho. unfold listens_on in Hl.
    destruct (role c); [|done..]. injection Hl as <-. destruct (Ho eq_refl) as (_ & _ & ?). congruence.
Qed.

Lemma alloc_psm_wp s n p (Q : Z -> l2cap_manager_t -> list out -> Prop) :
  LE_PSM_DYNAMIC_MIN <= p -> p + Z.of_nat n <= LE_PSM_DYNAMIC_MIN + Z.of_nat L2CAP_LE_DYNAMIC_PSM_NUM -> Q 0 s [] ->
  (forall q, psm_in_range q = true -> psm_used q s.(psm_map) = false -> Q q (took q s) []) -> wp (alloc_psm_loop n p) Q s.
Proof.
  revert p. induction n as [|n IH]; intros p H1 H2 H0 HQ; cbn [alloc_psm_loop]; [done|].
  apply wp_bind, wp_gets. unfold LE_PSM_DYNAMIC_MIN, L2CAP_LE_DYNAMIC_PSM_NUM in *.
  destruct (psm_used p (psm_map s)) eqn:E.
  - rewrite (uint_small 16) by (unfold in_u; lia). apply IH; [lia|lia|done|done].
  - apply wp_bind, wp_modify, wp_ret. apply HQ; [|done]. apply andb_true_iff.
    unfold LE_PSM_DYNAMIC_MIN, L2CAP_LE_DYNAMIC_PSM_NUM. rewrite Z.leb_le, Z.ltb_lt. lia.
Qed.

(** A new channel with its pipe is handed to the stack, or goes away again. *)
Lemma open_stays e s handle a p r (o : l2cap_channel_t -> out) (st : bt_status_t) :
  inv s -> is_Some (entry handle s.(cbsl)) -> r <> L2CAP_CHANNEL_ROLE_SERVER_ACCEPT ->
  (r = L2CAP_CHANNEL_ROLE_SERVER_LISTEN -> psm_in_range p = true /\ psm_used p s.(psm_map) = true /\ p ∉ omap listens_on s.(channel_list)) ->
  wp (c <- alloc_free_channel e handle a p r;;
      match c with
      | None => eret BT_STATUS_NOMEM
      | Some c =>
          ok <- prepare_data_path e c;;
          if negb ok then remove_channel c;;; eret BT_STATUS_NOMEM
          else x <- chan c;; eemit (o x);;; ewhen (negb (is_success st)) (remove_channel c);;; eret st
      end) (fun _ s' _ => inv s') s.
Proof.
  intros Hi Hh Hr Hl. apply wp_bind. eapply alloc_wp; [done..|by intros|]. intros n i s1 _ Hi1 Hl1 _ _.
  apply wp_bind. eapply prepare_wp; [done..|]. intros b c s2 _ Hi2 Hl2 _ _. destruct b; cbn [negb].
  - apply wp_bind. eapply chan_wp; [done|]. apply wp_bind, wp_emit, wp_bind. destruct (negb _); [|done]. by eapply remove_stays.
  - apply wp_bind. by eapply remove_stays.
Qed.

Lemma listen_stays e handle o s : inv s -> is_Some (entry handle s.(cbsl)) -> wp (l2cap_listen_channel e handle o) (fun _ s' _ => inv s') s.
Proof.
  intros Hi Hh. unfold l2cap_listen_channel. destruct (le_enabled e), (opt_ble o); cbn [negb]; try done.
  destruct (l2cap_config_param o) as [o'|]; [|done].
  assert (forall p, psm_in_range p = true -> psm_used p s.(psm_map) = false ->
    inv (took p s) /\ is_Some (entry handle (cbsl (took p s))) /\ psm_used p (psm_map (took p s)) = true /\
    p ∉ omap listens_on (channel_list (took p s))) as Htook.
  { intros p H1 H2. destruct (took_inv s p Hi H1 H2) as (? & ? & ?). by split_and!. }
  apply wp_bind. destruct (_ =? _).
  - apply alloc_psm_wp; [done|done|done|]. intros q H1 H2. destruct (Htook q H1 H2) as (? & ? & ? & ?). cbn beta.
    destruct (_ =? _); [done|]. by eapply open_stays.
  - unfold check_psm_available. apply wp_bind. destruct (psm_in_range (opt_psm o')) eqn:H1; cbn [negb]; [|done].
    apply wp_bind, wp_gets, wp_ret. destruct (psm_used (opt_psm o') (psm_map s)) eqn:H2; cbn [negb]; [done|].
    apply wp_bind, wp_modify, wp_ret. destruct (Htook _ H1 H2) as (? & ? & ? & ?). cbn beta.
    destruct (_ =? _); [done|]. by eapply open_stays.
Qed.

Lemma connect_stays e handle a o s : inv s -> is_Some (entry handle s.(cbsl)) -> wp (l2cap_connect_channel e handle a o) (fun _ s' _ => inv s') s.
Proof.
  intros Hi Hh. unfold l2cap_connect_channel. destruct (le_enabled e); cbn [negb]; [|done].
  destruct (l2cap_config_param o) as [o'|]; [|done]. by eapply open_stays.
Qed.

Lemma disconnect_stays e handle i : stays (l2cap_disconnect_channel e handle i).
Proof.
  intros s Hi. unfold l2cap_disconnect_channel. destruct (le_enabled e); cbn [negb]; [|done].
  apply wp_bind, search_live; [done| |by intros _]. intros c _ Hl. apply wp_bind. eapply chan_wp; [done|].
  destruct (negb _); [done|]. by destruct (_ =? _).
Qed.

Lemma stop_listen_stays e handle ble p : stays (l2cap_stop_listen_channel e handle ble p).
Proof.
  intros s Hi. unfold l2cap_stop_listen_channel. destruct (le_enabled e), ble; cbn [negb]; try done.
  apply wp_bind, search_live; [done| |by intros _]. intros c _ Hl. apply wp_bind. eapply chan_wp; [done|].
  destruct (negb _); [done|]. apply wp_bind. by eapply remove_stays.
Qed.

(** ** Everything that can happen *)

(** Whether the copy of a segment that the stack hands over is larger than what
    was allocated for it: a first segment of an SDU of length 0. *)
Definition oversized (e : env) (cid : Z) (seg : option (list Z)) (n off : Z) : bool :=
  match seg with
  | None | Some [] => false
  | Some seg => e.(mem) && negb (cid <? L2CAP_CID_DYNAMIC_MIN) && negb ((0 <? n) && (n <? Z.of_nat (length seg))) &&
      ((if off =? 0 then n else Z.of_nat (length seg)) <? Z.of_nat (length seg))
  end.

Definition overruns (e : env) (s : l2cap_manager_t) (o : op) : bool :=
  match o with
  | op_message (PACKET_RECEIVED_EVT _ cid k) => overflows s cid k
  | op_segment _ cid seg n off => oversized e cid seg n off
  | _ => false
  end.

(** What the stack, libuv and the clients keep to: the parameters of a
    connection are those of a channel that can receive; a packet is one that was
    posted; a pipe calls back for a channel that is there; a client has a
    cookie; an entry of the callback list is newly allocated. *)
Definition op_ok (s : l2cap_manager_t) (o : op) : Prop :=
  match o with
  | op_message (CHANNEL_CONNECTED_EVT _ prm) => param_ok prm
  | op_message (PACKET_RECEIVED_EVT _ _ k) => sdu_ok k
  | op_pipe_connected p _ => exists c, live p c s
  | op_register c _ _ => entry c s.(cbsl) = None
  | op_listen h _ | op_connect h _ _ => is_Some (entry h s.(cbsl))
  | _ => True
  end.

Lemma fresh_stays (f : nat -> MS unit) b s :
  inv s -> (forall n s', inv s' -> runs b (f n) s') -> runs b (ebind fresh f) s.
Proof.
  intros Hi Hf. apply runs_bind. unfold fresh. apply wp_bind, wp_gets, wp_bind, wp_modify, wp_ret. apply Hf.
  replace ({! next ::= S } s) with ({! next := S s.(next) } s) by (by destruct s). apply next_inv; [lia|done].
Qed.

Lemma void_wp {A} (m : MS A) s : wp m (fun _ s' _ => inv s') s -> wp (void m) (fun _ s' _ => inv s') s.
Proof. intros H. unfold void. apply wp_bind. eapply wp_mono; [|exact H]. done. Qed.

Lemma segment_runs e a cid seg n off s : inv s -> runs (oversized e cid seg n off) (void (l2cap_on_segment_received e a cid seg n off)) s.
Proof.
  intros Hi. unfold oversized, l2cap_on_segment_received. destruct seg as [[|x seg]|]; [done| |done]. cbn zeta.
  destruct (cid <? _); cbn [negb andb]; [by rewrite andb_false_r|]. destruct ((0 <? n) && _); cbn [negb andb]; [by rewrite andb_false_r|].
  destruct (mem e); cbn [negb andb]; [|done].
  destruct (_ <? Z.of_nat (length (x :: seg))); unfold void, fresh; cbn; [done|].
  change (inv ({! next := S (next s) } s)). apply next_inv; [lia|done].
Qed.

(** Either the operation overruns a buffer or everything stays sound. *)
Lemma run_op_runs e o s : 0 <= max < 256 -> inv s -> op_ok s o -> runs (overruns e s o) (run_op e o) s.
Proof.
  intros Hmax Hi Hok. destruct o as [[]| | | | | | | | | | |]; cbn [overruns run_op handle_l2cap_event op_ok] in *.
  - by apply cid_allocated_stays.
  - by apply connected_stays.
  - by apply disconnected_stays.
  - by apply received_runs.
  - by apply packet_sent_stays.
  - by apply segment_runs.
  - unfold l2cap_on_packet_received. destruct (mem e); [|done]. cbn [ewhen]. by apply fresh_stays.
  - destruct Hok as [c Hl]. by eapply proxy_connected_stays.
  - by apply app_data_stays.
  - by apply written_stays.
  - by apply void_wp, register_stays.
  - by apply void_wp, unregister_stays.
  - by apply void_wp, listen_stays.
  - by apply void_wp, connect_stays.
  - by apply void_wp, disconnect_stays.
  - by apply void_wp, stop_listen_stays.
Qed.

Lemma l2cap_init_inv : 0 <= max < 256 -> inv (l2cap_service_init max).
Proof.
  intros Hmax. destruct (IndexAllocator.filled_create 20 ltac:(lia)) as (Hwf & _ & _ & Hu).
  split; cbn; try (by constructor); [done| |].
  - intros i Hi. unfold ia_used in Hi. cbn in Hi. rewrite Hu in Hi. apply bool_decide_eq_true in Hi. lia.
  - apply reachable_list_inv; [done|constructor].
Qed.

(** The states of a service that was started. *)
Inductive reachable : l2cap_manager_t -> Prop :=
| reach_init : reachable (l2cap_service_init max)
| reach_op e o s s' os : reachable s -> op_ok s o -> run_op e o s = Some (tt, s', os) -> reachable s'.

Lemma l2cap_reachable_inv s : 0 <= max < 256 -> reachable s -> inv s.
Proof.
  intros Hmax. induction 1 as [|e o s s' os _ IH Hok Hrun]; [by apply l2cap_init_inv|].
  pose proof (run_op_runs e o s Hmax IH Hok) as H. unfold runs in H. destruct (overruns e s o); [congruence|].
  by apply (run_wp _ _ _ _ _ _ Hrun) in H.
Qed.
End Inv.
End L2capLogic.
