(* ===== verification/L2capSpec.v ===== *)
(** * L2CAP channels: theorems *)

From S2P Require Import Prelude Fallible IndexAllocator BtAddr CallbacksList L2cap L2capLogic.
From coqutil Require Import Datatypes.RecordSetters.
From stdpp Require Import strings list.
Import UpdaterNotations.

Local Open Scope Z_scope.
Local Open Scope fall_scope.

Module L2capSpec.
Import BtAddr CallbacksList L2cap L2capLogic.

#[local] Arguments constant {E} newValue _ /.

(** ** One SDU *)

Definition posted (os : list out) : list l2cap_msg_t := omap (fun o => match o with do_in_service_loop m => Some m | _ => None end) os.

Definition written_to_pipe (os : list out) : list (nat * list Z) :=
  omap (fun o => match o with euv_pipe_write h buf => Some (h, buf) | _ => None end) os.

(** The stack hands over a segment of an SDU of [n] bytes, at [off]; then the
    service loop handles what was posted. *)
Definition deliver (e : env) (a : bt_address_t) (cid n off : Z) (seg : list Z) : MS unit := fun s =>
  match l2cap_on_segment_received e a cid (Some seg) n off s with
  | Some (_, s1, os) => (efor (posted os) (handle_l2cap_event e)) s1
  | None => None
  end.

Fixpoint deliver_all (e : env) (a : bt_address_t) (cid n off : Z) (segs : list (list Z)) : MS unit :=
  match segs with
  | [] => eret tt
  | seg :: segs => deliver e a cid n off seg;;; deliver_all e a cid n (off + Z.of_nat (length seg)) segs
  end.

(** [c] receives on [cid], into the pipe [h]; [d]: the bytes of an SDU of [n]
    bytes so far; [m]: so many segments may come. *)
Record receiving (s : l2cap_manager_t) (cid : Z) (h : nat) (n : Z) (d : list Z) (m : Z) (c : l2cap_channel_t) : Prop := {
  rc_find : List.find (fun c => c.(local_cid) =? cid) s.(channel_list) = Some c;
  rc_ch : NoDup (ch <$> s.(channel_list));
  rc_proxy : c.(proxy_connected) = true;
  rc_pipe : c.(pipe) = Some h;
  rc_mtu : n <= c.(incoming).(mtu);
  rc_credits : m <= c.(incoming).(credits) < 65536;
  rc_sdu : match d with
           | [] => c.(rx_sdu) = None
           | _ => exists k, c.(rx_sdu) = Some k /\ data k = d /\ len_received k = Z.of_nat (length d) /\ len_total k = n /\ room k = n
           end;
}.

Lemma find_put f p c c' s :
  NoDup (ch <$> s.(channel_list)) -> List.find f s.(channel_list) = Some c -> c.(ch) = p -> f c' = true ->
  List.find f (channel_list (put p c' s)) = Some c'.
Proof.
  intros Hnd Hf Hp Hc'. rewrite put_list. induction (channel_list s) as [|x l IH]; cbn in *; [done|].
  apply list.NoDup_cons in Hnd as [Hx Hnd]. destruct (f x) eqn:E.
  - injection Hf as ->. unfold at_ptr. by rewrite Hp, Nat.eqb_refl, Hc'.
  - assert (ch x <> p) as Hne.
    { intros E2. apply Hx. rewrite E2, <- Hp. apply find_some in Hf as [Hin%list_elem_of_In _]. by apply list_elem_of_fmap_2. }
    unfold at_ptr at 1. rewrite (proj2 (Nat.eqb_neq _ _) Hne), E. by apply IH.
Qed.

Lemma posted_segment e a cid n off seg s :
  e.(mem) = true -> L2CAP_CID_DYNAMIC_MIN <= cid -> seg <> [] -> Z.of_nat (length seg) <= n ->
  l2cap_on_segment_received e a cid (Some seg) n off s =
  Some (true, {! next := S s.(next) } s,
    [do_in_service_loop (PACKET_RECEIVED_EVT a cid (mk_pkt s.(next) n (Z.of_nat (length seg)) seg (if off =? 0 then n else Z.of_nat (length seg))))]).
Proof.
  intros Hm Hc Hs Hn. unfold l2cap_on_segment_received. destruct seg as [|x seg]; [done|]. cbn zeta.
  rewrite (proj2 (Z.ltb_ge cid _)), (proj2 (Z.ltb_ge n _)), andb_false_r, Hm by done. cbn [negb].
  assert (((if off =? 0 then n else Z.of_nat (length (x :: seg))) <? Z.of_nat (length (x :: seg))) = false) as E.
  { apply Z.ltb_ge. destruct (off =? 0); lia. }
  unfold ebind, fresh, egets, emodify, eemit, eret. by rewrite E.
Qed.

(** The whole SDU is written. *)
Lemma pkt_bytes_all k n : Z.of_nat (length (data k)) = n -> room k = n -> pkt_bytes k n = Some (data k).
Proof.
  intros Hd Hr. unfold pkt_bytes. rewrite (proj2 (Z.ltb_ge _ _)) by lia. f_equal. rewrite <- Hd, Nat2Z.id. apply take_app_length.
Qed.

Lemma rc_live s cid h n d m c : receiving s cid h n d m c -> live c.(ch) c s.
Proof. intros []. apply find_some in rc_find0 as [Hc%list_elem_of_In _]. by apply elem_live. Qed.

(** A change of the channel. *)
Lemma rc_put s cid h n d m c d' m' c' :
  receiving s cid h n d m c -> c'.(ch) = c.(ch) -> c'.(local_cid) = c.(local_cid) -> c'.(proxy_connected) = true -> c'.(pipe) = Some h ->
  c'.(incoming).(mtu) = c.(incoming).(mtu) -> m' <= c'.(incoming).(credits) < 65536 ->
  match d' with
  | [] => c'.(rx_sdu) = None
  | _ => exists k, c'.(rx_sdu) = Some k /\ data k = d' /\ len_received k = Z.of_nat (length d') /\ len_total k = n /\ room k = n
  end -> receiving (put c.(ch) c' s) cid h n d' m' c'.
Proof.
  intros Hr H1 H2 H3 H4 H5 H6 H7. pose proof (rc_live _ _ _ _ _ _ _ Hr) as Hl. destruct Hr. split; try done.
  - apply (find_put _ _ c); try done. rewrite H2. by apply find_some in rc_find0 as [_ ?].
  - by rewrite (put_ch _ c).
  - lia.
Qed.

(** What is there after a segment. *)
Definition after (n : Z) (d seg : list Z) : list Z := if Z.of_nat (length (d ++ seg)) =? n then [] else d ++ seg.
Definition to_pipe (h : nat) (n : Z) (d seg : list Z) : list (nat * list Z) := if Z.of_nat (length (d ++ seg)) =? n then [(h, d ++ seg)] else [].

Section Reassembly.
Context (e : env) (a : bt_address_t) (cid : Z) (h : nat) (n : Z).
Hypothesis Hmem : e.(mem) = true.
Hypothesis Hwrite : e.(write) = true.
Hypothesis Hcid : L2CAP_CID_DYNAMIC_MIN <= cid.
Hypothesis Hn : 0 < n < 65536.

Lemma send_sdu_wp s c k m d :
  receiving s cid h n d m c -> c.(rx_sdu) = Some k -> len_total k = n -> Z.of_nat (length (data k)) = n -> room k = n ->
  wp (l2cap_send_sdu_to_app e c.(ch)) (fun _ s' os => written_to_pipe os = [(h, data k)] /\
    exists c', receiving s' cid h n [] m c' /\ c'.(incoming).(le_mps) = c.(incoming).(le_mps) /\ c'.(ch) = c.(ch)) s.
Proof.
  intros Hr Hk Ht Hd Hro. pose proof (rc_live _ _ _ _ _ _ _ Hr) as Hl. pose proof (rc_ch _ _ _ _ _ _ _ Hr) as Hnd.
  unfold l2cap_send_sdu_to_app. apply wp_bind. eapply chan_wp; [done|]. apply wp_bind, (wp_read _ k); [done|].
  apply wp_bind. eapply upd_chan_wp; [done|done|]. set (c1 := {! rx_sdu := None } c). rewrite (rc_pipe _ _ _ _ _ _ _ Hr).
  assert (receiving (put (ch c) c1 s) cid h n [] m c1) as Hr1 by (eapply rc_put; [exact Hr|first [done|apply Hr]..]).
  rewrite Ht. apply wp_bind, (wp_read _ (data k)); [by apply pkt_bytes_all|]. apply wp_bind, wp_emit. rewrite Hwrite.
  apply wp_bind, wp_modify. set (s2 := {! writes ::= _ } (put (ch c) c1 s)).
  assert (receiving s2 cid h n [] m c1) as Hr2 by (destruct Hr1, s; by split).
  pose proof (rc_live _ _ _ _ _ _ _ Hr2) as Hl2. eapply upd_chan_wp; [apply Hr2|exact Hl2|]. split; [done|].
  eexists. split; [eapply (rc_put s2 cid h n [] m c1); [exact Hr2|first [done|apply Hr2]..]|done].
Qed.

Lemma add_segment_wp s c k m d seg :
  receiving s cid h n d m c -> seg <> [] -> Z.of_nat (length (d ++ seg)) <= n ->
  data k = seg -> len_received k = Z.of_nat (length seg) -> len_total k = n -> (d = [] -> room k = n) ->
  wp (add_segment e c.(ch) c.(rx_sdu) k) (fun _ s' os => written_to_pipe os = to_pipe h n d seg /\
    exists c', receiving s' cid h n (after n d seg) m c' /\ c'.(incoming).(le_mps) = c.(incoming).(le_mps)) s.
Proof.
  intros Hr Hseg Hlen Hk1 Hk2 Hk3 Hk4. pose proof (rc_live _ _ _ _ _ _ _ Hr) as Hl. pose proof (rc_ch _ _ _ _ _ _ _ Hr) as Hnd.
  rewrite length_app in Hlen.
  assert (exists x, data x = d ++ seg /\ len_received x = Z.of_nat (length (d ++ seg)) /\ len_total x = n /\ room x = n /\
    forall Q, wp (upd c.(ch) {! rx_sdu := Some x };;; ewhen (len_received x =? len_total x) (l2cap_send_sdu_to_app e c.(ch))) Q s ->
      wp (add_segment e c.(ch) c.(rx_sdu) k) Q s) as (x & Hx1 & Hx2 & Hx3 & Hx4 & Hstep).
  { pose proof (rc_sdu _ _ _ _ _ _ _ Hr) as Hs. destruct d as [|y d].
    - rewrite Hs. exists k. split_and!; try done. by apply Hk4.
    - destruct Hs as (sdu & Es & S1 & S2 & S3 & S4). rewrite Es. cbn [add_segment].
      exists (mk_pkt (pkt sdu) n (Z.of_nat (length ((y :: d) ++ seg))) ((y :: d) ++ seg) n).
      split_and!; try done. intros Q HQ. rewrite S3, (proj2 (Z.ltb_ge _ _)) by lia. apply wp_bind.
      eapply wp_read; [|exact HQ]. unfold append. rewrite S4, S2, Hk2, (proj2 (Z.ltb_ge _ _)), (uint_small 16) by (unfold in_u; lia).
      rewrite S1, S3, Hk1, length_app. do 2 f_equal. lia. }
  apply Hstep. apply wp_bind. eapply upd_chan_wp; [done|done|]. set (c1 := {! rx_sdu := Some x } c).
  assert (receiving (put (ch c) c1 s) cid h n (d ++ seg) m c1) as Hr1.
  { eapply rc_put; [exact Hr|done|done|apply Hr|apply Hr|done|apply Hr|].
    destruct (d ++ seg) eqn:E; [by destruct d; destruct seg|]. exists x. split; [done|]. done. }
  unfold after, to_pipe. rewrite Hx2, Hx3. destruct (Z.eqb_spec (Z.of_nat (length (d ++ seg))) n) as [E|E]; cbn [ewhen].
  - eapply wp_mono; [|apply (send_sdu_wp _ c1 x m (d ++ seg)); [done|done|done|congruence|done]].
    intros [] s' os (H1 & c' & H2 & H3 & _). rewrite <- Hx1. split; [done|]. by exists c'.
  - split; [done|]. by exists c1.
Qed.

Lemma written_app o1 o2 : written_to_pipe (o1 ++ o2) = written_to_pipe o1 ++ written_to_pipe o2.
Proof. apply omap_app. Qed.

Lemma granted_quiet os : granted os -> written_to_pipe os = [].
Proof. by intros [->|(? & ? & ? & ->)]. Qed.

Lemma handle_segment_wp s c k m d seg :
  receiving s cid h n d (Z.succ m) c -> 0 <= m -> seg <> [] -> Z.of_nat (length (d ++ seg)) <= n ->
  Z.of_nat (length seg) <= c.(incoming).(le_mps) ->
  data k = seg -> len_received k = Z.of_nat (length seg) -> len_total k = n -> (d = [] -> room k = n) ->
  wp (handle_packet_received e a cid k) (fun _ s' os => written_to_pipe os = to_pipe h n d seg /\
    exists c', receiving s' cid h n (after n d seg) m c' /\ c'.(incoming).(le_mps) = c.(incoming).(le_mps)) s.
Proof.
  intros Hr Hm Hseg Hlen Hmps Hk1 Hk2 Hk3 Hk4. pose proof (rc_live _ _ _ _ _ _ _ Hr) as Hl. pose proof (rc_ch _ _ _ _ _ _ _ Hr) as Hnd.
  pose proof (rc_credits _ _ _ _ _ _ _ Hr) as Hcr. pose proof (rc_mtu _ _ _ _ _ _ _ Hr) as Hmtu.
  assert (0 < Z.of_nat (length seg)) as Hpos by (destruct seg; [done|]; cbn; lia).
  unfold handle_packet_received, find_l2cap_channel_by_cid, search. apply wp_bind, wp_gets.
  rewrite (rc_find _ _ _ _ _ _ _ Hr). cbn [fmap option_fmap option_map]. apply wp_bind. eapply chan_wp; [done|].
  rewrite Hk2, Hk3, !(proj2 (Z.ltb_ge _ _)), (proj2 (Z.eqb_neq (credits (incoming c)) 0)) by lia.
  rewrite (rc_proxy _ _ _ _ _ _ _ Hr), (rc_pipe _ _ _ _ _ _ _ Hr), bool_decide_false by done. cbn [negb orb].
  apply wp_bind. eapply upd_chan_wp; [done|done|]. rewrite <- Hk2. fold (taken k c). apply wp_bind.
  assert (credits (incoming (taken k c)) = credits (incoming c) - 1) as Ecr.
  { destruct c as [????[]]. cbn in *. by rewrite (uint_small 16) by (unfold in_u; lia). }
  assert (receiving (put (ch c) (taken k c) s) cid h n d m (taken k c)) as Hr1.
  { eapply rc_put; [exact Hr|..]; rewrite ?Ecr; try (by destruct Hr, c as [????[]]). lia. }
  assert (ch (taken k c) = ch c /\ rx_sdu (taken k c) = rx_sdu c /\ le_mps (incoming (taken k c)) = le_mps (incoming c)) as (E1 & E2 & E3)
    by (by destruct c as [????[]]).
  eapply (refill_wp e _ _ (taken k c)); [apply Hr1|rewrite <- E1; by eapply rc_live|lia|]. intros n' os1 Hn' Hos1.
  set (s1 := put (ch c) (taken k c) s) in *. set (c2 := set_credits n' (taken k c)).
  assert (ch c2 = ch c /\ rx_sdu c2 = rx_sdu c /\ le_mps (incoming c2) = le_mps (incoming c) /\ credits (incoming c2) = n') as (F1 & F2 & F3 & F4)
    by (by destruct c as [????[]]).
  assert (receiving (put (ch c) c2 s1) cid h n d m c2) as Hr2.
  { rewrite <- E1. eapply rc_put; [exact Hr1|..]; try (by destruct Hr1, c as [????[]]).
    rewrite F4. destruct Hn' as [->|[Hlt ->]]; [rewrite Ecr; lia|]. split; [lia|]. apply Z.mod_pos_bound. done. }
  rewrite <- F1, <- F2. eapply wp_mono; [|by apply (add_segment_wp _ c2 k m d seg)].
  intros [] s' os (H1 & c' & H2 & H3). rewrite !written_app, (granted_quiet os1) by done. split; [done|]. exists c'. by rewrite H3, F3.
Qed.

Lemma deliver_wp s c m d seg :
  receiving s cid h n d (Z.succ m) c -> 0 <= m -> seg <> [] -> Z.of_nat (length (d ++ seg)) <= n ->
  Z.of_nat (length seg) <= c.(incoming).(le_mps) ->
  wp (deliver e a cid n (Z.of_nat (length d)) seg) (fun _ s' os => written_to_pipe os = to_pipe h n d seg /\
    exists c', receiving s' cid h n (after n d seg) m c' /\ c'.(incoming).(le_mps) = c.(incoming).(le_mps)) s.
Proof.
  intros Hr Hm Hseg Hlen Hmps. unfold wp, deliver.
  rewrite posted_segment; [|done|done|done|rewrite length_app in Hlen; lia]. cbn [posted omap list_omap efor handle_l2cap_event].
  match goal with |- match ebind ?x ?f ?s1 with _ => _ end => change (wp (ebind x f) (fun _ s' os => written_to_pipe os = to_pipe h n d seg /\
    exists c', receiving s' cid h n (after n d seg) m c' /\ c'.(incoming).(le_mps) = c.(incoming).(le_mps)) s1) end.
  apply wp_bind. eapply wp_mono; [|apply (handle_segment_wp _ c _ m d seg); try done].
  - intros [] s' os H. cbn. by rewrite app_nil_r.
  - destruct Hr, s. by split.
  - by intros ->.
Qed.

Lemma deliver_all_wp segs s c m d :
  receiving s cid h n d m c -> Z.of_nat (length segs) <= m -> segs <> [] -> Forall (fun seg => seg <> [] /\ Z.of_nat (length seg) <= c.(incoming).(le_mps)) segs ->
  Z.of_nat (length (d ++ concat segs)) = n ->
  wp (deliver_all e a cid n (Z.of_nat (length d)) segs) (fun _ s' os => written_to_pipe os = [(h, d ++ concat segs)] /\
    exists c', receiving s' cid h n [] (m - Z.of_nat (length segs)) c') s.
Proof.
  revert s c m d. induction segs as [|seg segs IH]; intros s c m d Hr Hm Hne Hf Hlen; [done|].
  apply Forall_cons_iff in Hf as [[Hs1 Hs2] Hf]. cbn [deliver_all concat length] in *. apply wp_bind.
  replace m with (Z.succ (m - 1)) in Hr by lia.
  eapply wp_mono; [|apply (deliver_wp s c (m - 1) d seg); [done|lia|done| |done]].
  2:{ rewrite app_assoc, length_app in Hlen. lia. }
  intros [] s1 os1 (H1 & c1 & H2 & H3). unfold to_pipe, after in *. destruct segs as [|seg2 segs].
  - cbn [concat] in *. rewrite app_nil_r in *. rewrite Hlen, Z.eqb_refl in *. cbn. rewrite app_nil_r. split; [done|]. exists c1.
    replace (m - 1) with (m - 1) in H2 by lia. exact H2.
  - assert (Z.of_nat (length (d ++ seg)) <> n) as Hlt.
    { apply Forall_cons_iff in Hf as [[Hs3 _] _]. cbn [concat] in Hlen. rewrite !app_assoc, length_app, (length_app _ seg2) in Hlen.
      destruct seg2; [done|]. cbn in Hlen. lia. }
    rewrite (proj2 (Z.eqb_neq _ _) Hlt) in H1, H2. rewrite <- Nat2Z.inj_add, <- length_app.
    eapply wp_mono; [|apply (IH s1 c1 (m - 1) (d ++ seg)); [done|cbn in *; lia|done|by rewrite H3|by rewrite <- app_assoc]].
    intros [] s2 os2 (H4 & c2 & H5). rewrite written_app, H1, H4, <- app_assoc. split; [done|]. exists c2.
    replace (m - Z.of_nat (S (length (seg2 :: segs)))) with (m - 1 - Z.of_nat (length (seg2 :: segs))) by lia. done.
Qed.
End Reassembly.

(** ** A service in use

    A client listens on the PSM 0x90; a peer connects. *)

Definition demo_env : env :=
  mk_env true true true true true true BT_STATUS_SUCCESS BT_STATUS_SUCCESS BT_STATUS_SUCCESS BT_STATUS_SUCCESS true true 1000.
Definition demo_addr : bt_address_t := bt_addr_empty.
Definition demo_param : l2cap_channel_param_t := mk_param false 0x40 0x90 (mk_endpoint 100 50 4) (mk_endpoint 100 50 4).
Definition demo_ops : list op :=
  [L2cap.op_register 5 (Some 3%N) 1;
   op_listen 5 (mk_option true 0x90 100 50 4);
   op_pipe_connected 0 true;
   op_message (CHANNEL_CONNECTED_EVT demo_addr demo_param)].

Fixpoint run_ops (e : env) (l : list op) (s : l2cap_manager_t) : option l2cap_manager_t :=
  match l with
  | [] => Some s
  | o :: l => match run_op e o s with Some (_, s, _) => run_ops e l s | None => None end
  end.

Fixpoint ops_ok (flow : bool) (e : env) (l : list op) (s : l2cap_manager_t) : Prop :=
  match l with
  | [] => True
  | o :: l => op_ok flow s o /\ match run_op e o s with Some (_, s, _) => ops_ok flow e l s | None => True end
  end.

Lemma reachable_ops flow max e l s s' : reachable flow max s -> ops_ok flow e l s -> run_ops e l s = Some s' -> reachable flow max s'.
Proof.
  revert s. induction l as [|o l IH]; cbn; [congruence|]. intros s Hr [Ho Hl] Hs.
  destruct (run_op e o s) as [[[[] s1] os]|] eqn:E; [|done]. apply (IH s1); [by eapply reach_op|done|done].
Qed.

Definition demo_service : l2cap_manager_t := default (l2cap_service_init 4) (run_ops demo_env demo_ops (l2cap_service_init 4)).

Lemma demo_reachable flow : reachable flow 4 demo_service.
Proof.
  apply (reachable_ops flow 4 demo_env demo_ops (l2cap_service_init 4)); [constructor| |vm_compute; reflexivity].
  cbn [ops_ok demo_ops op_ok]. split; [reflexivity|]. vm_compute run_op at 1. split; [by eexists|]. vm_compute run_op at 1.
  split; [by eexists|]. vm_compute run_op at 1. split; [|vm_compute; exact I]. unfold param_ok. cbn. unfold L2CAP_MAX_RX_BUF_SIZE. split_and!; try lia.
Qed.

(** ** Theorems *)

(** C2: In every state that the service can get into, each operation of the
    stack, of libuv and of a client that keeps to the rules of [op_ok] uses no
    freed channel, packet or client, fails no assertion (in particular, the
    callback of a write always finds its SDU at the head of the list) and
    divides by no zero, with two exceptions, which are exactly those of
    [overruns]: a first segment that announces an SDU of length 0, and a
    segment that is appended to an SDU whose first segment was dropped. *)
Theorem l2cap_fails_exactly (max : Z) (e : env) (s : l2cap_manager_t) (o : op) :
  0 <= max < 256 -> reachable false max s -> op_ok false s o -> run_op e o s = None <-> overruns e s o = true.
Proof.
  intros Hmax Hr Ho. pose proof (run_op_runs false max e o s Hmax (l2cap_reachable_inv false max s Hmax Hr) Ho) as H. unfold runs in H.
  destruct (overruns e s o); [done|]. split; [|done]. intros E. unfold wp in H. by rewrite E in H.
Qed.

(** A second segment while the application has not opened its pipe yet is
    dropped like the first; a third one comes when it has. *)
Definition late_segment : l2cap_pkt_t := mk_pkt 9 5 2 [3; 4] 2.
Definition demo_late : l2cap_manager_t :=
  default demo_service (run_ops demo_env [op_message (PACKET_RECEIVED_EVT demo_addr 0x40 late_segment)] demo_service).

Lemma late_segment_ok : sdu_ok late_segment.
Proof. unfold sdu_ok. cbn. lia. Qed.

Lemma l2cap_fails_exactly_witness :
  (run_op demo_env (op_pipe_read 1 (Some [1; 2])) demo_service <> None) /\
  run_op demo_env (op_segment demo_addr 0x40 (Some [1]) 0 0) demo_service = None /\
  run_op demo_env (op_message (PACKET_RECEIVED_EVT demo_addr 0x40 late_segment)) demo_late = None.
Proof.
  split; [|split].
  - intros E. apply (l2cap_fails_exactly 4) in E; [|lia|apply demo_reachable|exact I]. vm_compute in E. discriminate.
  - apply (l2cap_fails_exactly 4); [lia|apply demo_reachable|exact I|vm_compute; reflexivity].
  - apply (l2cap_fails_exactly 4); [lia| |exact late_segment_ok|vm_compute; reflexivity].
    apply (reachable_ops false 4 demo_env [op_message (PACKET_RECEIVED_EVT demo_addr 0x40 late_segment)] demo_service);
      [apply demo_reachable|split; [exact late_segment_ok|vm_compute; exact I]|vm_compute; reflexivity].
Defined.

(** C3: The segments of an SDU, handed over one after the other to a channel
    that is ready for them (its pipe is open, it has no SDU begun, the SDU fits
    its MTU, the segments its MPS, and the peer has a credit for each), are
    put together without an error: exactly one write to the application's pipe
    results, of exactly the bytes of the SDU, and the channel is ready for the
    next one. *)
Theorem l2cap_reassembly (flow : bool) (max : Z) (e : env) (s : l2cap_manager_t) (c : l2cap_channel_t) (a : bt_address_t) (cid : Z) (h : nat)
  (segs : list (list Z)) :
  0 <= max < 256 -> reachable flow max s -> e.(mem) = true -> e.(write) = true -> L2CAP_CID_DYNAMIC_MIN <= cid ->
  List.find (fun c => c.(local_cid) =? cid) s.(channel_list) = Some c ->
  c.(proxy_connected) = true -> c.(pipe) = Some h -> c.(rx_sdu) = None ->
  Z.of_nat (length segs) <= c.(incoming).(credits) < 65536 ->
  segs <> [] -> Forall (fun seg => seg <> [] /\ Z.of_nat (length seg) <= c.(incoming).(le_mps)) segs ->
  Z.of_nat (length (concat segs)) < 65536 -> Z.of_nat (length (concat segs)) <= c.(incoming).(mtu) ->
  exists s' os c', deliver_all e a cid (Z.of_nat (length (concat segs))) 0 segs s = Some (tt, s', os) /\
    written_to_pipe os = [(h, concat segs)] /\
    List.find (fun c => c.(local_cid) =? cid) s'.(channel_list) = Some c' /\ c'.(rx_sdu) = None /\ c'.(pipe) = Some h /\
    c.(incoming).(credits) - Z.of_nat (length segs) <= c'.(incoming).(credits).
Proof.
  intros Hmax Hr Hm Hw Hcid Hf Hp Hh Hs Hcr Hne Hsegs Hlen Hmtu. pose proof (l2cap_reachable_inv flow max s Hmax Hr) as Hi.
  assert (0 < Z.of_nat (length (concat segs))) as Hpos.
  { destruct segs as [|[|x seg] segs]; [done|by apply Forall_cons_iff in Hsegs as [[? _] _]|]. cbn. lia. }
  set (n := Z.of_nat (length (concat segs))) in *.
  assert (receiving s cid h n [] (credits (incoming c)) c) as Hrc by (split; try done; [apply (inv_ch _ _ _ Hi)|lia]).
  pose proof (deliver_all_wp e a cid h n Hm Hw Hcid ltac:(lia) segs s c _ [] Hrc ltac:(lia) Hne Hsegs eq_refl) as H.
  apply wp_run in H as ([] & s' & os & Hrun & Hwr & c' & []). exists s', os, c'. split_and!; try done. lia.
Qed.

Definition demo_channel : l2cap_channel_t :=
  default (new_channel 0 None 0 0 L2CAP_CHANNEL_ROLE_CLIENT 0) (List.find (fun c => c.(local_cid) =? 0x40) demo_service.(channel_list)).

Lemma l2cap_reassembly_witness :
  exists s' os c', deliver_all demo_env demo_addr 0x40 5 0 [[1; 2]; [3; 4; 5]] demo_service = Some (tt, s', os) /\
    written_to_pipe os = [(1%nat, [1; 2; 3; 4; 5])] /\
    List.find (fun c => c.(local_cid) =? 0x40) s'.(channel_list) = Some c' /\ c'.(rx_sdu) = None /\ c'.(pipe) = Some 1%nat /\
    demo_channel.(incoming).(credits) - 2 <= c'.(incoming).(credits).
Proof.
  pose proof (l2cap_reassembly false 4 demo_env demo_service demo_channel demo_addr 0x40 1%nat [[1; 2]; [3; 4; 5]]) as H.
  apply H; clear H; [lia|apply demo_reachable|reflexivity|reflexivity|vm_compute; congruence|idtac..].
  - vm_compute. reflexivity.
  - vm_compute. reflexivity.
  - vm_compute. reflexivity.
  - vm_compute. reflexivity.
  - vm_compute. split; congruence.
  - done.
  - apply Forall_cons_iff. split; [split; [done|vm_compute; congruence]|].
    apply Forall_cons_iff. split; [split; [done|vm_compute; congruence]|apply Forall_nil_2].
  - vm_compute. reflexivity.
  - vm_compute. congruence.
Defined.

(** ** Buffers *)

(** The segments of the largest SDU. *)
Definition sdu_segments (o : l2cap_config_option_t) : Z := (o.(opt_mtu) + o.(opt_mps) - 1) / o.(opt_mps).

(** What [l2cap_config_param] lets through: the credits are enough for one SDU
    and within the buffer exactly if the segments of one SDU are. *)
Lemma config_fits o o' :
  l2cap_config_param o = Some o' -> o.(opt_ble) = true -> 0 <= o.(init_credits) -> 0 < o.(opt_mps) -> 0 <= o.(opt_mtu) ->
  o'.(opt_mtu) = o.(opt_mtu) /\ o'.(opt_mps) = o.(opt_mps) /\
  (o'.(opt_mtu) <= o'.(init_credits) * o'.(opt_mps) <= L2CAP_MAX_RX_BUF_SIZE <-> sdu_segments o * o.(opt_mps) <= L2CAP_MAX_RX_BUF_SIZE).
Proof.
  intros H Hble Hcr Hmps Hmtu. unfold l2cap_config_param, sdu_segments in *. unfold L2CAP_MAX_RX_BUF_SIZE in *. destruct o as [b psm mtu mps cr]. cbn in *.
  destruct (Z.ltb_spec 10240 mtu); [done|]. subst b. cbn [negb] in H. rewrite (proj2 (Z.eqb_neq mps 0)) in H by lia.
  destruct (Z.ltb_spec mtu mps); [done|]. injection H as <-. cbn zeta. rewrite !Z.quot_div_nonneg by lia.
  pose proof (Z.mul_div_le (mtu + mps - 1) mps Hmps). pose proof (Z.mul_succ_div_gt (mtu + mps - 1) mps Hmps).
  pose proof (Z.mul_div_le 10240 mps Hmps). pose proof (Z.mul_succ_div_gt 10240 mps Hmps).
  assert (0 <= (mtu + mps - 1) / mps <= 10240) by (split; [apply Z.div_pos; lia|nia]).
  assert (0 <= 10240 / mps <= 10240) by (split; [apply Z.div_pos; lia|nia]).
  rewrite !(uint_small 16) by (unfold in_u; lia).
  remember ((mtu + mps - 1) / mps) as q. remember (10240 / mps) as r. rewrite Z.mul_succ_r, (Z.mul_comm mps) in *.
  destruct (Z.ltb_spec cr q); [cbn; split_and!; try done; lia|]. destruct (Z.ltb_spec r cr); cbn; (split_and!; [done|done|]).
  - split; [|intros; assert (q <= r) by nia; nia]. intros [Hr _]. assert (~ r < q) by (intros ?; nia). nia.
  - assert (q * mps <= cr * mps <= r * mps) by nia. lia.
Qed.

(** C19: Two facts on the receive buffer of 10240 bytes of a channel with
    credits.  A configuration that [l2cap_config_param] accepts gives the peer
    credits for at least one SDU and for at most the buffer exactly if the
    segments of the largest SDU, at the full MPS each, fit the buffer (an
    accepted one need not: [config_overcommits]).  And as long as every
    connection is reported with credits for at most the buffer
    ([reachable true]), then whatever happens, a peer that uses all its credits
    with segments of the largest size stays within the room left, and that room
    and the bytes held (SDUs that are being written, the one being put
    together) are at most the buffer. *)
Theorem l2cap_flow_control (max : Z) (s : l2cap_manager_t) (c : l2cap_channel_t) (o o' : l2cap_config_option_t) :
  0 <= max < 256 -> reachable true max s -> c ∈ s.(channel_list) ->
  l2cap_config_param o = Some o' -> o.(opt_ble) = true -> 0 <= o.(init_credits) -> 0 < o.(opt_mps) -> 0 <= o.(opt_mtu) ->
  (o'.(opt_mtu) <= o'.(init_credits) * o'.(opt_mps) <= L2CAP_MAX_RX_BUF_SIZE <-> sdu_segments o * o.(opt_mps) <= L2CAP_MAX_RX_BUF_SIZE) /\
  0 <= c.(incoming).(credits) * c.(incoming).(le_mps) <= c.(rx_buf_size) /\ 0 <= held c /\
  c.(rx_buf_size) + held c <= L2CAP_MAX_RX_BUF_SIZE.
Proof.
  intros Hmax Hr Hc Ho H1 H2 H3 H4. split; [by apply (config_fits o o' Ho)|].
  pose proof (l2cap_reachable_inv true max s Hmax Hr) as Hi. pose proof (proj1 (Forall_forall _ _) (inv_chan _ _ s Hi) c Hc) as Hok.
  destruct (ok_flow _ _ _ Hok eq_refl) as (F1 & F2 & F3 & F4 & F5). split; [split; [nia|done]|]. split; [|done].
  apply held_nonneg; [done|apply (ok_sdu _ _ _ Hok)].
Qed.

Lemma l2cap_flow_control_witness :
  l2cap_config_param (mk_option true 0x90 100 50 1) = Some (mk_option true 0x90 100 50 2) /\
  (100 <= 2 * 50 <= L2CAP_MAX_RX_BUF_SIZE <-> 2 * 50 <= L2CAP_MAX_RX_BUF_SIZE) /\
  0 <= demo_channel.(incoming).(credits) * demo_channel.(incoming).(le_mps) <= demo_channel.(rx_buf_size) /\ 0 <= held demo_channel /\
  demo_channel.(rx_buf_size) + held demo_channel <= L2CAP_MAX_RX_BUF_SIZE.
Proof.
  assert (demo_channel ∈ demo_service.(channel_list)) as Hc.
  { apply list_elem_of_In, (find_some (fun c => c.(local_cid) =? 0x40)). vm_compute. reflexivity. }
  split; [reflexivity|].
  exact (l2cap_flow_control 4 demo_service demo_channel (mk_option true 0x90 100 50 1) (mk_option true 0x90 100 50 2) ltac:(lia)
    (demo_reachable true) Hc eq_refl eq_refl ltac:(cbn; lia) ltac:(cbn; lia) ltac:(cbn; lia)).
Defined.

(** An MTU and an MPS that do not: the peer is promised 12000 bytes. *)
Lemma config_overcommits :
  l2cap_config_param (mk_option true 0x90 10240 6000 1) = Some (mk_option true 0x90 10240 6000 2) /\ L2CAP_MAX_RX_BUF_SIZE < 2 * 6000.
Proof. split; reflexivity. Qed.

(** ** Identifiers, PSMs and pipes *)

(** C21: Whatever happens, no two channels have the same identifier and the
    identifiers that are in use are exactly those of the channels; no two
    channels listen on the same PSM, and that of a listener or of an accepted
    connection is a dynamic one that is marked as in use, so that nobody else
    gets it (the converse does not hold: [listen_leaks_psm] has a PSM that
    stays marked); no two channels share a pipe, and the SDUs a channel keeps are
    exactly those of the pending writes of its pipe, in their order. *)
Theorem l2cap_exclusive (flow : bool) (max : Z) (s : l2cap_manager_t) :
  0 <= max < 256 -> reachable flow max s ->
  NoDup (id <$> s.(channel_list)) /\ (forall i, IndexAllocator.used s.(id_allocator) i = true <-> i ∈ (id <$> s.(channel_list))) /\
  NoDup (omap listens_on s.(channel_list)) /\
  (forall c, c ∈ s.(channel_list) -> uses_psm c -> psm_in_range c.(psm) = true /\ psm_used c.(psm) s.(psm_map) = true) /\
  NoDup (omap pipe s.(channel_list)) /\
  (forall c h, c ∈ s.(channel_list) -> c.(pipe) = Some h ->
     map pkt c.(rx_list) = map snd (List.filter (fun w => Nat.eqb w.1 h) s.(writes))).
Proof.
  intros Hmax Hr. pose proof (l2cap_reachable_inv flow max s Hmax Hr) as Hi.
  assert (forall c, c ∈ s.(channel_list) -> chan_ok flow s c) as Hok by (intros c Hc; exact (proj1 (Forall_forall _ _) (inv_chan _ _ s Hi) c Hc)).
  split; [apply (inv_id _ _ s Hi)|]. split; [|split; [apply (inv_listen _ _ s Hi)|split; [|split; [apply (inv_pipe _ _ s Hi)|]]]].
  - intros i. split; [apply (inv_used _ _ s Hi)|]. intros (c & -> & Hc)%list_elem_of_fmap. exact (ok_id _ _ c (Hok c Hc)).
  - intros c Hc [Hro|[Hro Hco]]; [by destruct (ok_listen _ _ c (Hok c Hc) Hro) as (_ & ? & ?)|].
    destruct (ok_accept _ _ c (Hok c Hc) Hro) as [? H]. split; [done|by apply H].
  - intros c h Hc Hh. by destruct (ok_pipe _ _ c (Hok c Hc) h Hh).
Qed.

Lemma l2cap_exclusive_witness :
  omap listens_on demo_service.(channel_list) = [0x90] /\ psm_used 0x90 demo_service.(psm_map) = true /\
  IndexAllocator.used demo_service.(id_allocator) demo_channel.(id) = true.
Proof.
  destruct (l2cap_exclusive false 4 demo_service ltac:(lia) (demo_reachable false)) as (_ & H & _).
  split; [vm_compute; reflexivity|]. split; [vm_compute; reflexivity|].
  apply H. apply list_elem_of_fmap_2, list_elem_of_In, (find_some (fun c => c.(local_cid) =? 0x40)). vm_compute. reflexivity.
Defined.

(** ** What goes wrong *)

Definition no_mem : env :=
  mk_env true false true true true true BT_STATUS_SUCCESS BT_STATUS_SUCCESS BT_STATUS_SUCCESS BT_STATUS_SUCCESS true true 1000.

(** Without memory for a channel, [l2cap_listen_channel] keeps the PSM: nobody
    listens, and nobody can any more. *)
Lemma listen_leaks_psm :
  match run_ops demo_env [L2cap.op_register 5 (Some 3%N) 1] (l2cap_service_init 4) with
  | Some s =>
      match l2cap_listen_channel no_mem 5 (mk_option true 0x90 100 50 4) s with
      | Some (st, s', _) =>
          st = BT_STATUS_NOMEM /\ s'.(channel_list) = [] /\
          (fun r => r.1.1) <$> l2cap_listen_channel demo_env 5 (mk_option true 0x90 100 50 4) s' = Some BT_STATUS_NOMEM
      | None => False
      end
  | None => False
  end.
Proof. vm_compute. repeat split. Qed.

(** Without memory for the next listener, a connection stays neither accepted
    nor refused, and nobody is told. *)
Lemma accept_in_limbo :
  match run_ops demo_env (take 3 demo_ops) (l2cap_service_init 4) with
  | Some s =>
      match run_op no_mem (op_message (CHANNEL_CONNECTED_EVT demo_addr demo_param)) s with
      | Some (_, s', os) =>
          os = [] /\ map (fun c => (c.(role), c.(channel_connected))) s'.(channel_list) = [(L2CAP_CHANNEL_ROLE_SERVER_ACCEPT, false)]
      | None => False
      end
  | None => False
  end.
Proof. vm_compute. repeat split. Qed.

(** A connection that comes before the application has opened the pipe closes
    the pipe of the listener, which from then on can serve nobody; the peer's
    channel is not disconnected. *)
Lemma early_connection_kills_listener :
  match run_ops demo_env (take 2 demo_ops) (l2cap_service_init 4) with
  | Some s =>
      match run_op demo_env (op_message (CHANNEL_CONNECTED_EVT demo_addr demo_param)) s with
      | Some (_, s', os) => os = [euv_pipe_close 1] /\ map (fun c => (c.(role), c.(pipe))) s'.(channel_list) = [(L2CAP_CHANNEL_ROLE_SERVER_LISTEN, None)]
      | None => False
      end
  | None => False
  end.
Proof. vm_compute. repeat split. Qed.
End L2capSpec.
