(* ===== verification/ScanManager.v ===== *)
(** * The LE scan manager (service/src/scan_manager.c)

    Scanners are registered in a fixed table, those that scan are also in a
    list; the radio scans while that list is not empty.  A scan result is
    shown to the scanners of the list, to those with a filter only if the
    advertiser passes it or is already known.

    A scanner is a heap object: [scanners] holds those allocated, and a
    handler that uses another has no result. *)

From S2P Require Import Prelude Fallible Bytes BtAddr AdvData ScanFilter BtHash.

Module ScanManager.
Import Bytes BtAddr.
Local Open Scope Z_scope.
Local Open Scope fall_scope.

Abbreviation ptr := N.

Definition SCAN_MODE_LOW_POWER_INTERVAL : Z := 0x1000.
Definition SCAN_MODE_LOW_POWER_WINDOW : Z := 0x100.
Definition SCAN_MODE_BALANCED_INTERVAL : Z := 0x500.
Definition SCAN_MODE_BALANCED_WINDOW : Z := 0x140.
Definition SCAN_MODE_LOW_LATENCY_INTERVAL : Z := 0xA0.
Definition SCAN_MODE_LOW_LATENCY_WINDOW : Z := 0xA0.
Definition BT_LE_ADV_REPORT_DURATION_MS : Z := 500.
Definition BT_LE_ADV_REPORT_PERIOD_MS : Z := 5000.

Inductive scan_status :=
| BT_SCAN_STATUS_SUCCESS | BT_SCAN_STATUS_START_FAIL | BT_SCAN_STATUS_NO_PERMISSION
| BT_SCAN_STATUS_SCANNER_REG_NOMEM | BT_SCAN_STATUS_SCANNER_EXISTED
| BT_SCAN_STATUS_SCANNER_NOT_FOUND | BT_SCAN_STATUS_SCANNER_REMOVED.

#[export] Instance scan_status_eq_dec : EqDecision scan_status.
Proof. solve_decision. Defined.

Record ble_scan_filter_t := mk_filter {
  duration : Z;
  period : Z;
  uuids : list Z;
  active : Z;
  duplicated : Z;
}.

(** What [memset] leaves. *)
Definition zero_filter : ble_scan_filter_t := mk_filter 0 0 [0; 0] 0 0.

Record ble_scan_settings_t := mk_settings {
  scan_mode : Z;
  legacy : Z;
  set_scan_type : Z;
  set_scan_phy : Z;
  policy : Z;
}.

Record ble_scan_params_t := mk_params {
  scan_interval : Z;
  scan_window : Z;
  scan_type : Z;
  scan_phy : Z;
  filter_type : Z;
}.

Record ble_scan_result_t := mk_result {
  res_addr : bt_address_t;
  dev_type : Z;
  rssi : Z;
  res_addr_type : Z;
  adv_type : Z;
  res_length : Z;
  adv_data : list Z;
}.

Record scanner_device_t := mk_device {
  dev_addr : bt_address_t;
  dev_addr_type : Z;
  timestamp : Z;
}.

Record scanner_t := mk_scanner {
  remote : option ptr;
  scanner_id : Z;
  sc_scanning : bool;
  sc_filter : ble_scan_filter_t;
  callbacks : ptr;
}.

Definition set_id i s := mk_scanner s.(remote) i s.(sc_scanning) s.(sc_filter) s.(callbacks).
Definition set_sc_scanning b s := mk_scanner s.(remote) s.(scanner_id) b s.(sc_filter) s.(callbacks).

(** [scanning_list] and [devices] are [None] once the manager is cleaned up:
    the head's links are NULL and the device list is freed. *)
Record scanner_manager_t := mk_manager {
  scanners : gmap ptr scanner_t;
  scanner_list : list (option ptr);
  scanning_list : option (list ptr);
  hash_table : list Z;
  devices : option (list scanner_device_t);
  scanner_cnt : Z;
  is_scanning : bool;
}.

Definition set_scanners x m := mk_manager x m.(scanner_list) m.(scanning_list) m.(hash_table) m.(devices) m.(scanner_cnt) m.(is_scanning).
Definition set_scanner_list x m := mk_manager m.(scanners) x m.(scanning_list) m.(hash_table) m.(devices) m.(scanner_cnt) m.(is_scanning).
Definition set_scanning_list x m := mk_manager m.(scanners) m.(scanner_list) x m.(hash_table) m.(devices) m.(scanner_cnt) m.(is_scanning).
Definition set_hash_table x m := mk_manager m.(scanners) m.(scanner_list) m.(scanning_list) x m.(devices) m.(scanner_cnt) m.(is_scanning).
Definition set_devices x m := mk_manager m.(scanners) m.(scanner_list) m.(scanning_list) m.(hash_table) x m.(scanner_cnt) m.(is_scanning).
Definition set_cnt x m := mk_manager m.(scanners) m.(scanner_list) m.(scanning_list) m.(hash_table) m.(devices) x m.(is_scanning).
Definition set_is_scanning x m := mk_manager m.(scanners) m.(scanner_list) m.(scanning_list) m.(hash_table) m.(devices) m.(scanner_cnt) x.

Ltac unfold_mgr :=
  unfold set_scanners, set_scanner_list, set_scanning_list, set_hash_table, set_devices, set_cnt, set_is_scanning in *;
  cbn [scanners scanner_list scanning_list hash_table devices scanner_cnt is_scanning] in *.

Inductive out :=
| bt_sal_le_set_scan_parameters (p : ble_scan_params_t)
| bt_sal_le_start_scan
| bt_sal_le_stop_scan
| on_scan_result (who : ptr) (r : ble_scan_result_t)
| on_scan_start_status (who : ptr) (s : scan_status)
| on_scan_stopped (who : ptr)
| do_in_service_loop_deffered (r : ble_scan_result_t).

Abbreviation MS := (E scanner_manager_t out).

(** [max]: CONFIG_BLUETOOTH_LE_SCANNER_MAX_NUM; [hsize]:
    CONFIG_BT_LE_ADV_REPORT_SIZE. *)
Section Manager.
Context (max hsize : nat).

(** ** Scanners *)

(** Reading and writing through a scanner's pointer; freeing it. *)
Definition deref (p : ptr) : MS scanner_t := eread (fun m => m.(scanners) !! p).
Definition store (p : ptr) (f : scanner_t -> scanner_t) : MS unit :=
  s <- deref p;; emodify (fun m => set_scanners (<[p := f s]> m.(scanners)) m).
Definition free_scanner (p : ptr) : MS unit :=
  _ <- deref p;; emodify (fun m => set_scanners (delete p m.(scanners)) m).

Definition get_remote (p : ptr) (s : scanner_t) : ptr := default p s.(remote).

Definition alloc_new_scanner (rem : option ptr) (cbs : ptr) : scanner_t :=
  mk_scanner rem 0 false zero_filter cbs.

(** [list_delete(&scanner->scanning_node)]: the node must be linked. *)
Definition unlink (p : ptr) : MS unit :=
  l <- eread scanning_list;;
  if bool_decide (p ∈ l) then emodify (set_scanning_list (Some (filter (fun q => q <> p) l))) else efail.

Definition delete_scanner (p : ptr) : MS unit :=
  s <- deref p;;
  ewhen s.(sc_scanning) (unlink p);;;
  free_scanner p.

Definition scanner_compare (src dest : scanner_t) : bool :=
  match dest.(remote) with
  | Some r => bool_decide (src.(remote) = Some r)
  | None => bool_decide (src.(callbacks) = dest.(callbacks))
  end.

(** Compares pointers only. *)
Definition scanner_is_registered (p : ptr) : MS bool :=
  egets (fun m => bool_decide (Some p ∈ m.(scanner_list))).

(** ** Devices seen *)

Definition alloc_device (a : bt_address_t) (t : Z) : scanner_device_t := mk_device a t 0.

Definition same_device (a : bt_address_t) (t : Z) (d : scanner_device_t) : bool :=
  (memcmp (addr_bytes d.(dev_addr)) (addr_bytes a) BT_ADDR_LENGTH =? 0) && (d.(dev_addr_type) =? t).

(** The device found is given by its place in the list. *)
Fixpoint find_device (a : bt_address_t) (t : Z) (l : list scanner_device_t) (i : nat) : option nat :=
  match l with
  | [] => None
  | d :: l => if same_device a t d then Some i else find_device a t l (S i)
  end.

Definition scanner_find_device (a : bt_address_t) (t : Z) : MS (option nat) :=
  l <- eread devices;; eret (find_device a t l 0).

Definition scanner_add_device (a : bt_address_t) (t ts : Z) : MS nat :=
  let d := alloc_device a t in
  let d := mk_device d.(dev_addr) d.(dev_addr_type) ts in
  l <- eread devices;;
  emodify (set_devices (Some (l ++ [d])));;;
  eret (length l).

(** Whether to report, and the device's timestamp afterwards. *)
Definition scanner_match_duration (t1 duration period ts : Z) : bool * Z :=
  let t2 := u32 (t1 + duration) in
  let t3 := u32 (t1 + period) in
  if ts <? t1 then (false, ts)
  else if (t1 <=? ts) && (ts <? t2) then (true, t1)
  else if (t2 <=? ts) && (ts <? t3) then (false, t1)
  else (true, ts).

Definition device_match_duration (i : nat) (duration period ts : Z) : MS bool :=
  l <- eread devices;;
  d <- eread (fun _ => l !! i);;
  let '(b, t) := scanner_match_duration d.(timestamp) duration period ts in
  emodify (set_devices (Some (<[i := mk_device d.(dev_addr) d.(dev_addr_type) t]> l)));;;
  eret b.

(** ** Payloads seen: a table of hashes, zero for a free entry *)

Fixpoint hsearch_loop (hash : Z) (t : list Z) : bool :=
  match t with
  | [] => false
  | h :: t => if h =? hash then true else if h =? 0 then false else hsearch_loop hash t
  end.

Definition scanner_hsearch_find (key : list Z) (len : Z) : MS bool :=
  hash <- eread (fun _ => BtHash.bt_hash4 key len);;
  egets (fun m => hsearch_loop hash m.(hash_table)).

Fixpoint hsearch_insert (hash : Z) (t : list Z) : list Z :=
  match t with
  | [] => []
  | h :: t => if h =? 0 then hash :: t else h :: hsearch_insert hash t
  end.

Definition scanner_hsearch_add (key : list Z) (len : Z) : MS unit :=
  hash <- eread (fun _ => BtHash.bt_hash4 key len);;
  emodify (fun m => set_hash_table (hsearch_insert hash m.(hash_table)) m).

Definition scanner_hsearch_free : MS unit := emodify (set_hash_table (replicate hsize 0)).

(** ** Scan results *)

Definition parse_record (rec : ScanFilter.scan_record_t) (r : ble_scan_result_t) : MS ScanFilter.scan_record_t :=
  match ScanFilter.scan_record_parse rec (Some r.(adv_data)) r.(res_length) with
  | AdvData.Done rec =>
      eret (ScanFilter.mk_record true rec.(ScanFilter.uuid) rec.(ScanFilter.tx_power)
              rec.(ScanFilter.flag) rec.(ScanFilter.name) rec.(ScanFilter.name_size))
  | _ => efail
  end.

(** The repetitions a filter with [duplicated] leaves out. *)
Definition not_repeated (f : ble_scan_filter_t) (d : nat) (r : ble_scan_result_t) (ts : Z) : MS bool :=
  if f.(duplicated) =? 0 then eret true
  else
    b <- device_match_duration d f.(duration) f.(period) ts;;
    if negb b then eret false
    else
      seen <- scanner_hsearch_find r.(adv_data) r.(res_length);;
      if (seen : bool) then eret false
      else scanner_hsearch_add r.(adv_data) r.(res_length);;; eret true.

(** One round of the loop over the scanning list, with the record parsed so
    far. *)
Definition notify_one (r : ble_scan_result_t) (ts : Z) (p : ptr) (rec : ScanFilter.scan_record_t)
    : MS ScanFilter.scan_record_t :=
  s <- deref p;;
  let f := s.(sc_filter) in
  if f.(active) =? 0 then eemit (on_scan_result (get_remote p s) r);;; eret rec
  else
    rec <- (if rec.(ScanFilter.active) then eret rec else parse_record rec r);;
    d <- scanner_find_device r.(res_addr) r.(res_addr_type);;
    match d, ScanFilter.scanner_match_filter rec f.(uuids) with
    | None, false => eret rec
    | _, _ =>
        d <- (match d with
              | Some d => eret d
              | None => scanner_add_device r.(res_addr) r.(res_addr_type) ts
              end);;
        ok <- not_repeated f d r ts;;
        ewhen ok (eemit (on_scan_result (get_remote p s) r));;;
        eret rec
    end.

Fixpoint notify_loop (r : ble_scan_result_t) (ts : Z) (l : list ptr) (rec : ScanFilter.scan_record_t) : MS unit :=
  match l with
  | [] => eret tt
  | p :: l => rec <- notify_one r ts p rec;; notify_loop r ts l rec
  end.

Definition empty_record : ScanFilter.scan_record_t := ScanFilter.mk_record false 0 0 0 None 0.

(** [busy]: the answer of [bt_socket_server_is_busy]; [ts]: the clock. *)
Definition notify_scanners_scan_result (busy : bool) (ts : Z) (r : ble_scan_result_t) : MS unit :=
  if busy then eemit (do_in_service_loop_deffered r)
  else
    l <- eread scanning_list;;
    notify_loop r ts l empty_record.

(** ** Registration *)

(** The first loop of [register_scanner]: a scanner equal to [s]? *)
Fixpoint find_existing (slots : list (option ptr)) (s : scanner_t) : MS bool :=
  match slots with
  | [] => eret false
  | None :: slots => find_existing slots s
  | Some q :: slots =>
      t <- deref q;;
      if scanner_compare t s then eret true else find_existing slots s
  end.

(** The second loop: the first free slot. *)
Fixpoint free_slot (slots : list (option ptr)) : option nat :=
  match slots with
  | [] => None
  | None :: _ => Some O
  | Some _ :: slots => option_map S (free_slot slots)
  end.

Definition register_scanner (p : ptr) : MS scan_status :=
  cnt <- egets scanner_cnt;;
  if cnt =? Z.of_nat max then eret BT_SCAN_STATUS_SCANNER_REG_NOMEM
  else
    s <- deref p;;
    slots <- egets scanner_list;;
    dup <- find_existing slots s;;
    if (dup : bool) then eret BT_SCAN_STATUS_SCANNER_EXISTED
    else
      match free_slot slots with
      | Some i =>
          store p (set_id (Z.of_nat i));;;
          emodify (fun m => set_scanner_list (<[i := Some p]> m.(scanner_list)) m);;;
          emodify (fun m => set_cnt (u8 (m.(scanner_cnt) + 1)) m);;;
          eret BT_SCAN_STATUS_SUCCESS
      | None => eret BT_SCAN_STATUS_START_FAIL
      end.

Definition stop_scan (p : ptr) : MS unit :=
  reg <- scanner_is_registered p;;
  ewhen reg (
    s <- deref p;;
    ewhen s.(sc_scanning) (
      unlink p;;;
      store p (set_sc_scanning false);;;
      on <- egets is_scanning;;
      l <- eread scanning_list;;
      ewhen (on && bool_decide (l = [])) (
        eemit bt_sal_le_stop_scan;;;
        _ <- eread devices;;
        emodify (set_devices (Some []));;;
        scanner_hsearch_free;;;
        emodify (set_is_scanning false)))).

(** [scanner_list[id] = NULL]: the index must be in the table. *)
Definition clear_slot (id : Z) : MS unit :=
  l <- egets scanner_list;;
  if (0 <=? id) && (id <? Z.of_nat (length l))
  then emodify (set_scanner_list (<[Z.to_nat id := None]> l)) else efail.

Definition unregister_scanner (p : ptr) : MS unit :=
  reg <- scanner_is_registered p;;
  ewhen reg (
    stop_scan p;;;
    s <- deref p;;
    eemit (on_scan_stopped (get_remote p s));;;
    clear_slot s.(scanner_id);;;
    emodify (fun m => set_cnt (u8 (m.(scanner_cnt) - 1)) m);;;
    delete_scanner p).

Definition stop_scanner (p : ptr) : MS unit := unregister_scanner p.

Definition cleanup_scanner : MS unit :=
  efor (seq 0 max) (fun i =>
    slot <- eread (fun m => m.(scanner_list) !! i);;
    match slot with Some p => unregister_scanner p | None => eret tt end);;;
  _ <- eread scanning_list;;
  emodify (set_scanning_list None);;;
  emodify (set_devices None).

Definition setup_scan_parameter (s : ble_scan_settings_t) (p : ble_scan_params_t) : ble_scan_params_t :=
  let p := mk_params p.(scan_interval) p.(scan_window) s.(set_scan_type) s.(set_scan_phy) s.(policy) in
  if s.(scan_mode) =? 0
  then mk_params SCAN_MODE_LOW_POWER_INTERVAL SCAN_MODE_LOW_POWER_WINDOW p.(scan_type) p.(scan_phy) p.(filter_type)
  else if s.(scan_mode) =? 1
  then mk_params SCAN_MODE_BALANCED_INTERVAL SCAN_MODE_BALANCED_WINDOW p.(scan_type) p.(scan_phy) p.(filter_type)
  else if s.(scan_mode) =? 2
  then mk_params SCAN_MODE_LOW_LATENCY_INTERVAL SCAN_MODE_LOW_LATENCY_WINDOW p.(scan_type) p.(scan_phy) p.(filter_type)
  else p.

(** [sal]: the status of the stack's start command. *)
Definition start_scan (sal : bt_status_t) (p : ptr) (settings : option ble_scan_settings_t) : MS unit :=
  let params := mk_params 100 100 0 0 0 in
  status <- register_scanner p;;
  s <- deref p;;
  if bool_decide (status <> BT_SCAN_STATUS_SUCCESS)
  then eemit (on_scan_start_status (get_remote p s) status);;; delete_scanner p
  else
    let params := match settings with Some st => setup_scan_parameter st params | None => params end in
    on <- egets is_scanning;;
    l <- eread scanning_list;;
    ok <- (if negb on && bool_decide (l = []) then
             eemit (bt_sal_le_set_scan_parameters params);;;
             eemit bt_sal_le_start_scan;;;
             if is_success sal then emodify (set_is_scanning true);;; eret true
             else
               eemit (on_scan_start_status (get_remote p s) BT_SCAN_STATUS_START_FAIL);;;
               delete_scanner p;;; eret false
           else eret true);;
    ewhen ok (
      store p (set_sc_scanning true);;;
      l <- eread scanning_list;;
      emodify (set_scanning_list (Some (l ++ [p])));;;
      eemit (on_scan_start_status (get_remote p s) BT_SCAN_STATUS_SUCCESS)).

(** ** The interface: messages posted when LE is enabled *)

Inductive msg :=
| msg_start (sal : bt_status_t) (p : ptr) (s : scanner_t) (settings : option ble_scan_settings_t)
| msg_stop (p : ptr)
| msg_result (busy : bool) (ts : Z) (r : ble_scan_result_t)
| msg_cleanup.

(** The scanner of a start message was allocated when it was posted: [p] is
    its address. *)
Definition run_msg (x : msg) : MS unit :=
  match x with
  | msg_start sal p s settings =>
      emodify (fun m => set_scanners (<[p := s]> m.(scanners)) m);;; start_scan sal p settings
  | msg_stop p => stop_scanner p
  | msg_result busy ts r => notify_scanners_scan_result busy ts r
  | msg_cleanup => cleanup_scanner
  end.

Definition scan_on_result_data_update (room busy : bool) (ts : Z) (info : ble_scan_result_t) (data : list Z)
    : option msg :=
  if negb room then None
  else Some (msg_result busy ts
               (mk_result info.(res_addr) info.(dev_type) info.(rssi) info.(res_addr_type) info.(adv_type)
                  info.(res_length) (take (Z.to_nat info.(res_length)) data))).

(** [p]: the block allocated for the scanner; [room]: memory for the message. *)
Definition scanner_start_scan (le_enabled : bool) (p : option ptr) (room : bool) (rem : option ptr) (cbs : ptr)
    (sal : bt_status_t) : option (ptr * msg) :=
  if negb le_enabled then None
  else
    match p with
    | None => None
    | Some p =>
        if negb room then None
        else Some (p, msg_start sal p (alloc_new_scanner rem cbs) None)
    end.

(** The filter the scanner gets, which is also written to the caller's. *)
Definition api_filter (f : ble_scan_filter_t) : ble_scan_filter_t :=
  mk_filter BT_LE_ADV_REPORT_DURATION_MS BT_LE_ADV_REPORT_PERIOD_MS f.(uuids) f.(active) 0.

Definition scanner_start_scan_with_filters (le_enabled : bool) (p : option ptr) (room : bool) (rem : option ptr)
    (settings : ble_scan_settings_t) (f : option ble_scan_filter_t) (cbs : ptr) (sal : bt_status_t)
    : option (ptr * msg) :=
  if negb le_enabled then None
  else
    match p with
    | None => None
    | Some p =>
        if negb room then None
        else
          let s := alloc_new_scanner rem cbs in
          let s := match f with
                   | Some f => if f.(active) =? 0 then s
                               else mk_scanner s.(remote) s.(scanner_id) s.(sc_scanning) (api_filter f) s.(callbacks)
                   | None => s
                   end in
          Some (p, msg_start sal p s (Some settings))
    end.

Definition scanner_start_scan_settings (le_enabled : bool) (p : option ptr) (room : bool) (rem : option ptr)
    (settings : ble_scan_settings_t) (cbs : ptr) (sal : bt_status_t) : option (ptr * msg) :=
  scanner_start_scan_with_filters le_enabled p room rem settings None cbs sal.

Definition scanner_stop_scan (le_enabled room : bool) (p : ptr) : option msg :=
  if negb le_enabled then None else if negb room then None else Some (msg_stop p).

Definition scan_manager_init : scanner_manager_t :=
  mk_manager ∅ (replicate max None) (Some []) (replicate hsize 0) (Some []) 0 false.

Definition scan_manager_cleanup : msg := msg_cleanup.

(** ** Invariant *)

(** [n_some l]: the occupied slots. *)
Fixpoint n_some (l : list (option ptr)) : nat :=
  match l with [] => O | Some _ :: l => S (n_some l) | None :: l => n_some l end.

Record scan_inv (m : scanner_manager_t) (sl : list ptr) (ds : list scanner_device_t) : Prop := {
  inv_sl : m.(scanning_list) = Some sl;
  inv_ds : m.(devices) = Some ds;
  inv_len : length m.(scanner_list) = max;
  inv_cnt : m.(scanner_cnt) = Z.of_nat (n_some m.(scanner_list));
  inv_on : m.(is_scanning) = bool_decide (sl <> []);
  inv_nodup : NoDup sl;
  inv_slot : forall i p, m.(scanner_list) !! i = Some (Some p) -> p ∈ sl /\ exists s,
    m.(scanners) !! p = Some s /\ s.(scanner_id) = Z.of_nat i /\ s.(sc_scanning) = true /\
    s.(sc_filter).(duplicated) = 0;
  inv_scan : forall p, p ∈ sl -> exists i, m.(scanner_list) !! i = Some (Some p);
}.

Context (max_u8 : (max < 256)%nat).

Lemma n_some_le l : (n_some l <= length l)%nat.
Proof. induction l as [|[p|] l IH]; simpl; lia. Qed.

Lemma n_some_insert l i p :
  l !! i = Some None -> n_some (<[i := Some p]> l) = S (n_some l).
Proof.
  revert i. induction l as [|x l IH]; intros [|i]; simpl; try done.
  - by intros [= ->].
  - intros H. destruct x; simpl; rewrite (IH i H); done.
Qed.

Lemma n_some_clear l i p :
  l !! i = Some (Some p) -> n_some l = S (n_some (<[i := None]> l)).
Proof.
  revert i. induction l as [|x l IH]; intros [|i]; simpl; try done.
  - by intros [= ->].
  - intros H. destruct x; simpl; rewrite (IH i H); done.
Qed.

Lemma free_slot_Some l i : free_slot l = Some i -> l !! i = Some None.
Proof.
  revert i. induction l as [|[p|] l IH]; intros i; simpl; [done| |by intros [= <-]].
  destruct (free_slot l) as [j|]; [|done]. intros [= <-]. simpl. by apply IH.
Qed.

Lemma free_slot_None l : free_slot l = None -> n_some l = length l.
Proof.
  induction l as [|[p|] l IH]; simpl; [done| |done].
  destruct (free_slot l); [done|]. intros _. by rewrite IH.
Qed.

(** The radio, as the commands to the stack leave it. *)
Definition radio_step (on : bool) (o : out) : bool :=
  match o with bt_sal_le_start_scan => true | bt_sal_le_stop_scan => false | _ => on end.

Definition radio_after (on : bool) (o : list out) : bool := fold_left radio_step o on.

(** ** Registration *)

Lemma wp_find_existing slots s m (Q : bool -> scanner_manager_t -> list out -> Prop) :
  (forall q, Some q ∈ slots -> is_Some (m.(scanners) !! q)) -> (forall b, Q b m []) ->
  wp (find_existing slots s) Q m.
Proof.
  intros Hs HQ. induction slots as [|[q|] slots IH]; simpl; [by apply HQ| |].
  - destruct (Hs q) as [t Ht]; [by left|]. apply wp_bind, (wp_read _ t); [done|].
    destruct (scanner_compare t s); [by apply HQ|]. apply IH. intros q' Hq'. apply Hs. by right.
  - apply IH. intros q' Hq'. apply Hs. by right.
Qed.

(** The manager with the scanner [s] at [p] in slot [i]. *)
Definition registered (i : nat) (p : ptr) (s : scanner_t) (m : scanner_manager_t) : scanner_manager_t :=
  mk_manager (<[p := set_id (Z.of_nat i) s]> m.(scanners)) (<[i := Some p]> m.(scanner_list))
    m.(scanning_list) m.(hash_table) m.(devices) (u8 (m.(scanner_cnt) + 1)) m.(is_scanning).

Lemma wp_register p s m sl ds :
  scan_inv m sl ds -> m.(scanners) !! p = Some s ->
  wp (register_scanner p) (fun st m' o => o = [] /\
    ((st <> BT_SCAN_STATUS_SUCCESS /\ m' = m) \/
     (st = BT_SCAN_STATUS_SUCCESS /\ exists i, m.(scanner_list) !! i = Some None /\ m' = registered i p s m))) m.
Proof.
  intros Hi Hp. unfold register_scanner. wp_simpl.
  destruct (scanner_cnt m =? Z.of_nat max); [apply wp_ret; auto|].
  wp_simpl. apply (wp_read _ s); [done|]. wp_simpl.
  apply wp_find_existing.
  { intros q [i Hq]%list_elem_of_lookup. destruct (inv_slot _ _ _ Hi i q Hq) as (_ & t & Ht & _). by eexists. }
  intros [|]; [apply wp_ret; auto|].
  destruct (free_slot (scanner_list m)) as [i|] eqn:Hf; [|apply wp_ret; auto].
  unfold store. wp_simpl. apply (wp_read _ s); [done|]. wp_simpl. split; [done|]. right.
  split; [done|]. exists i. split; [by apply free_slot_Some|done].
Qed.

(** Allocating or freeing a scanner that is in no slot. *)
Lemma inv_other m sl ds sc :
  scan_inv m sl ds -> (forall p, p ∈ sl -> sc !! p = m.(scanners) !! p) -> scan_inv (set_scanners sc m) sl ds.
Proof.
  intros Hi Hsc. split; cbn; try apply Hi.
  intros i p Hp. destruct (inv_slot _ _ _ Hi i p Hp) as [Hin Hs]. split; [done|]. by rewrite Hsc.
Qed.

Lemma inv_registered m sl ds i p s :
  scan_inv m sl ds -> (p ∉ sl) -> m.(scanner_list) !! i = Some None -> s.(sc_filter).(duplicated) = 0 ->
  scan_inv (mk_manager (<[p := set_sc_scanning true (set_id (Z.of_nat i) s)]> m.(scanners))
              (<[i := Some p]> m.(scanner_list)) (Some (sl ++ [p])) m.(hash_table) m.(devices)
              (u8 (m.(scanner_cnt) + 1)) true) (sl ++ [p]) ds.
Proof.
  intros Hi Hp Hs Hdup. pose proof (lookup_lt_Some _ _ _ Hs) as Hlt.
  pose proof (n_some_insert _ i p Hs) as Hn. pose proof (n_some_le (<[i:=Some p]> (scanner_list m))) as Hle.
  rewrite length_insert, (inv_len _ _ _ Hi) in Hle.
  split; cbn; try done.
  - apply Hi.
  - rewrite length_insert. apply Hi.
  - rewrite (inv_cnt _ _ _ Hi), uint_small by (unfold in_u; lia). lia.
  - symmetry. apply bool_decide_eq_true_2. by destruct sl.
  - apply list.NoDup_app. split; [apply Hi|]. split; [|apply NoDup_singleton]. set_solver.
  - intros j q Hq. destruct (decide (i = j)) as [->|Hne].
    + rewrite list_lookup_insert_eq in Hq by done. simplify_eq. split; [set_solver|].
      rewrite lookup_insert_eq. eexists. split; [done|]. done.
    + rewrite list_lookup_insert_ne in Hq by done. destruct (inv_slot _ _ _ Hi j q Hq) as [Hin Hsq].
      split; [set_solver|]. rewrite lookup_insert_ne; [done|]. intros ->. done.
  - intros q [Hq| ->%list_elem_of_singleton]%elem_of_app.
    + destruct (inv_scan _ _ _ Hi q Hq) as [j Hj]. exists j. rewrite list_lookup_insert_ne; [done|]. congruence.
    + exists i. by apply list_lookup_insert_eq.
Qed.

(** What a start message comes to. *)
Lemma wp_start sal p s settings m sl ds :
  scan_inv m sl ds -> m.(scanners) !! p = Some s -> (p ∉ sl) -> s.(sc_scanning) = false ->
  s.(sc_filter).(duplicated) = 0 -> is_success sal = true \/ m.(is_scanning) = true ->
  wp (start_scan sal p settings) (fun _ m' o => exists st,
    list.last o = Some (on_scan_start_status (get_remote p s) st) /\ radio_after m.(is_scanning) o = m'.(is_scanning) /\
    ((st = BT_SCAN_STATUS_SUCCESS /\ scan_inv m' (sl ++ [p]) ds) \/
     (st <> BT_SCAN_STATUS_SUCCESS /\ m' = set_scanners (delete p m.(scanners)) m))) m.
Proof.
  intros Hi Hp Hsl Hsc Hdup Hsal. unfold start_scan. wp_simpl.
  eapply wp_mono; [|by eapply wp_register]. intros st m1 o [-> [[Hst ->]|[-> (i & Hslot & ->)]]]; wp_simpl.
  - apply (wp_read _ s); [done|]. rewrite bool_decide_eq_true_2 by done. unfold delete_scanner, free_scanner, deref.
    wp_simpl. apply (wp_read _ s); [done|]. rewrite Hsc. wp_simpl. apply (wp_read _ s); [done|].
    wp_simpl. exists st. split; [done|]. split; [done|]. right. done.
  - apply (wp_read _ (set_id (Z.of_nat i) s)); [by apply lookup_insert_eq|].
    rewrite bool_decide_eq_false_2 by (intros H; by apply H). wp_simpl. apply (wp_read _ sl); [apply Hi|].
    pose proof (inv_on _ _ _ Hi) as Hon. cbn [registered is_scanning].
    pose proof (inv_registered m sl ds i p s Hi Hsl Hslot Hdup) as Hreg. cbn [get_remote remote set_id].
    destruct (is_scanning m) eqn:Hm; cbn [negb andb].
    + wp_simpl. unfold store, deref. wp_simpl.
      apply (wp_read _ (set_id (Z.of_nat i) s)); [by apply lookup_insert_eq|]. wp_simpl.
      apply (wp_read _ sl); [apply Hi|]. wp_simpl. exists BT_SCAN_STATUS_SUCCESS. split; [done|]. split; [done|]. left.
      split; [done|]. unfold registered. unfold_mgr. rewrite Hm, insert_insert_eq. done.
    + destruct Hsal as [Hsal|]; [|done]. rewrite bool_decide_eq_true_2 by (symmetry in Hon; apply bool_decide_eq_false in Hon; by apply dec_stable).
      rewrite Hsal. wp_simpl. unfold store, deref. wp_simpl.
      apply (wp_read _ (set_id (Z.of_nat i) s)); [by apply lookup_insert_eq|]. wp_simpl.
      apply (wp_read _ sl); [apply Hi|]. wp_simpl. exists BT_SCAN_STATUS_SUCCESS. split; [done|]. split; [done|]. left.
      split; [done|]. unfold registered. unfold_mgr. rewrite insert_insert_eq. done.
Qed.

(** ** Stopping *)

Lemma inv_removed m sl ds i p on ht ds' :
  scan_inv m sl ds -> m.(scanner_list) !! i = Some (Some p) ->
  on = bool_decide (filter (fun q => q <> p) sl <> []) ->
  scan_inv (mk_manager (delete p m.(scanners)) (<[i := None]> m.(scanner_list))
              (Some (filter (fun q => q <> p) sl)) ht (Some ds') (u8 (m.(scanner_cnt) - 1)) on)
    (filter (fun q => q <> p) sl) ds'.
Proof.
  intros Hi Hs ->. pose proof (lookup_lt_Some _ _ _ Hs) as Hlt. pose proof (n_some_clear _ i p Hs) as Hn.
  pose proof (n_some_le (scanner_list m)) as Hle. rewrite (inv_len _ _ _ Hi) in Hle.
  assert (forall j q, scanner_list m !! j = Some (Some q) -> i <> j -> q <> p) as Hother.
  { intros j q Hj Hne ->. destruct (inv_slot _ _ _ Hi i p Hs) as (_ & s & Hps & Hid & _).
    destruct (inv_slot _ _ _ Hi j p Hj) as (_ & s' & Hps' & Hid' & _). simplify_eq. lia. }
  split; cbn; try done.
  - rewrite length_insert. apply Hi.
  - rewrite (inv_cnt _ _ _ Hi), uint_small by (unfold in_u; lia). lia.
  - apply list.NoDup_filter, (inv_nodup _ _ _ Hi).
  - intros j q Hq. destruct (decide (i = j)) as [->|Hne]; [by rewrite list_lookup_insert_eq in Hq|].
    rewrite list_lookup_insert_ne in Hq by done. pose proof (Hother j q Hq Hne) as Hqp.
    destruct (inv_slot _ _ _ Hi j q Hq) as [Hin Hsq]. split; [by apply list_elem_of_filter|].
    by rewrite lookup_delete_ne.
  - intros q [Hqp Hq]%list_elem_of_filter. destruct (inv_scan _ _ _ Hi q Hq) as [j Hj]. exists j.
    rewrite list_lookup_insert_ne; [done|]. congruence.
Qed.

Lemma wp_stop m sl ds i p s :
  scan_inv m sl ds -> m.(scanner_list) !! i = Some (Some p) -> m.(scanners) !! p = Some s ->
  wp (stop_scan p) (fun _ m' o =>
    let sl' := filter (fun q => q <> p) sl in
    exists ht, m' = mk_manager (<[p := set_sc_scanning false s]> m.(scanners)) m.(scanner_list) (Some sl') ht
           (Some (if bool_decide (sl' = []) then [] else ds)) m.(scanner_cnt) (bool_decide (sl' <> [])) /\
    o = (if bool_decide (sl' = []) then [bt_sal_le_stop_scan] else [])) m.
Proof.
  intros Hi Hs Hp. destruct (inv_slot _ _ _ Hi i p Hs) as (Hin & s' & Hp' & _ & Hsc & _). simplify_eq.
  unfold stop_scan, scanner_is_registered. wp_simpl.
  rewrite bool_decide_eq_true_2 by (apply list_elem_of_lookup; eauto). wp_simpl.
  apply (wp_read _ s); [done|]. wp_simpl. rewrite Hsc. unfold unlink. wp_simpl.
  apply (wp_read _ sl); [apply Hi|]. rewrite bool_decide_eq_true_2 by done. unfold store, deref. wp_simpl.
  apply (wp_read _ s); [done|]. wp_simpl. apply (wp_read _ (filter (fun q => q <> p) sl)); [done|]. wp_simpl.
  pose proof (inv_ds _ _ _ Hi) as Hds. assert (is_scanning m = true) as Hon.
  { rewrite (inv_on _ _ _ Hi). apply bool_decide_eq_true_2. intros ->. by apply elem_of_nil in Hin. }
  unfold_mgr. rewrite Hon. cbn [andb].
  case_bool_decide as Hemp; wp_simpl.
  - apply (wp_read _ ds); [done|]. unfold scanner_hsearch_free. wp_simpl. eexists.
    rewrite (bool_decide_eq_false_2 (filter _ sl <> [])) by (intros H; by apply H). done.
  - eexists. rewrite Hds, (bool_decide_eq_true_2 (filter _ sl <> [])) by done. done.
Qed.

(** Unregistering a registered scanner. *)
Lemma wp_unregister m sl ds i p s :
  scan_inv m sl ds -> m.(scanner_list) !! i = Some (Some p) -> m.(scanners) !! p = Some s ->
  wp (unregister_scanner p) (fun _ m' o =>
    let sl' := filter (fun q => q <> p) sl in
    scan_inv m' sl' (if bool_decide (sl' = []) then [] else ds) /\
    m'.(scanners) = delete p m.(scanners) /\ m'.(scanner_list) = <[i := None]> m.(scanner_list) /\
    o = (if bool_decide (sl' = []) then [bt_sal_le_stop_scan] else []) ++ [on_scan_stopped (get_remote p s)]) m.
Proof.
  intros Hi Hs Hp. destruct (inv_slot _ _ _ Hi i p Hs) as (Hin & s' & Hp' & Hid & Hsc & Hdup). simplify_eq.
  pose proof (lookup_lt_Some _ _ _ Hs) as Hlt.
  unfold unregister_scanner, scanner_is_registered. wp_simpl.
  rewrite bool_decide_eq_true_2 by (apply list_elem_of_lookup; eauto). wp_simpl.
  eapply wp_mono; [|by eapply wp_stop]. intros [] m1 o (ht & -> & ->). wp_simpl.
  unfold deref. eapply wp_read; [apply lookup_insert_eq|]. wp_simpl. unfold clear_slot. wp_simpl. cbn [scanner_id set_sc_scanning].
  rewrite Hid. cbn [scanner_list].
  destruct (Z.leb_spec 0 (Z.of_nat i)); [|lia].
  destruct (Z.ltb_spec (Z.of_nat i) (Z.of_nat (length (scanner_list m)))); [|lia]. cbn [andb].
  unfold delete_scanner, free_scanner, deref. wp_simpl.
  eapply wp_read; [apply lookup_insert_eq|]. cbn [sc_scanning set_sc_scanning]. wp_simpl.
  eapply wp_read; [apply lookup_insert_eq|]. wp_simpl. unfold_mgr. rewrite Nat2Z.id, delete_insert_eq.
  split; [|split; [done|split; [done|by rewrite !app_nil_r]]].
  by eapply inv_removed.
Qed.

Lemma unregister_unknown p m :
  (Some p ∉ m.(scanner_list)) -> unregister_scanner p m = Some (tt, m, []).
Proof.
  intros H. unfold unregister_scanner, scanner_is_registered, ebind, egets.
  by rewrite bool_decide_eq_false_2.
Qed.

(** A scanner that is registered, or not. *)
Lemma registered_dec m sl ds p :
  scan_inv m sl ds ->
  (exists i s, m.(scanner_list) !! i = Some (Some p) /\ m.(scanners) !! p = Some s) \/ (Some p ∉ m.(scanner_list)).
Proof.
  intros Hi. destruct (decide (Some p ∈ scanner_list m)) as [H|H]; [left|by right].
  apply list_elem_of_lookup in H as [i H]. destruct (inv_slot _ _ _ Hi i p H) as (_ & s & Hs & _). eauto.
Qed.

(** ** Results *)

Definition has_filter (s : scanner_t) : bool := negb (s.(sc_filter).(active) =? 0).

(** The filter of [s] accepts a payload announcing the UUID [u]. *)
Definition passes (u : Z) (s : scanner_t) : bool :=
  has_filter s && ScanFilter.scanner_match_filter (ScanFilter.set_uuid u empty_record) s.(sc_filter).(uuids).

(** The advertiser of [r] is in the list [ds]. *)
Definition is_known (r : ble_scan_result_t) (ds : list scanner_device_t) : bool :=
  existsb (same_device r.(res_addr) r.(res_addr_type)) ds.

(** Who is shown the result: [pre] are the scanners before in the list. *)
Definition shown (known : bool) (u : Z) (pre : list scanner_t) (s : scanner_t) : bool :=
  negb (has_filter s) || known || existsb (passes u) (pre ++ [s]).

Fixpoint reports (r : ble_scan_result_t) (known : bool) (u : Z) (pre : list scanner_t)
    (l : list (ptr * scanner_t)) : list out :=
  match l with
  | [] => []
  | (p, s) :: l =>
      (if shown known u pre s then [on_scan_result (get_remote p s) r] else [])
      ++ reports r known u (pre ++ [s]) l
  end.

Lemma find_device_None a t l i : find_device a t l i = None <-> existsb (same_device a t) l = false.
Proof.
  revert i. induction l as [|d l IH]; intros i; simpl; [done|]. destruct (same_device a t d); simpl; [done|]. apply IH.
Qed.

Lemma same_device_refl a t ts : same_device a t (mk_device a t ts) = true.
Proof.
  unfold same_device. cbn [dev_addr dev_addr_type]. rewrite (proj2 (memcmp_eq BT_ADDR_LENGTH (addr_bytes a) (addr_bytes a) eq_refl eq_refl) eq_refl).
  by rewrite !Z.eqb_refl.
Qed.

(** The local record: not parsed yet, or parsed with UUID [u]. *)
Definition rec_ok (u : Z) (rec : ScanFilter.scan_record_t) : Prop :=
  rec = empty_record \/ (rec.(ScanFilter.active) = true /\ rec.(ScanFilter.uuid) = u).

Lemma match_filter_uuid rec u us :
  rec.(ScanFilter.uuid) = u ->
  ScanFilter.scanner_match_filter rec us = ScanFilter.scanner_match_filter (ScanFilter.set_uuid u empty_record) us.
Proof. unfold ScanFilter.scanner_match_filter. by intros ->. Qed.

Lemma wp_notify_one r ts p s rec u m ds :
  ScanFilter.scan_record_parse empty_record (Some r.(adv_data)) r.(res_length)
    = AdvData.Done (ScanFilter.set_uuid u empty_record) ->
  m.(scanners) !! p = Some s -> s.(sc_filter).(duplicated) = 0 -> m.(devices) = Some ds -> rec_ok u rec ->
  wp (notify_one r ts p rec) (fun rec' m' o => rec_ok u rec' /\ exists ds',
    m' = set_devices (Some ds') m /\ is_known r ds' = is_known r ds || passes u s /\
    o = if negb (has_filter s) || is_known r ds || passes u s then [on_scan_result (get_remote p s) r] else []) m.
Proof.
  intros Hparse Hp Hdup Hds Hrec.
  assert (set_devices (Some ds) m = m) as Hsame by (destruct m; cbn in *; by subst).
  unfold notify_one, deref. wp_simpl. apply (wp_read _ s); [done|].
  unfold passes, has_filter. destruct (active (sc_filter s) =? 0); cbn [negb andb orb]; wp_simpl.
  { split; [done|]. exists ds. rewrite Hsame, orb_false_r. done. }
  assert (wp (if ScanFilter.active rec then eret rec else parse_record rec r)
    (fun rec' m' o => m' = m /\ o = [] /\ ScanFilter.active rec' = true /\ ScanFilter.uuid rec' = u) m) as Hw.
  { destruct Hrec as [->|[Ha Hu]]; [|by rewrite Ha].
    cbn [ScanFilter.active empty_record]. unfold parse_record. rewrite Hparse. done. }
  eapply wp_mono; [|exact Hw]. intros rec' m' o (-> & -> & Ha & Hu). wp_simpl.
  unfold scanner_find_device. wp_simpl. apply (wp_read _ ds); [done|]. wp_simpl.
  rewrite (match_filter_uuid _ _ _ Hu). set (hit := ScanFilter.scanner_match_filter _ _).
  unfold is_known. destruct (find_device (res_addr r) (res_addr_type r) ds 0) as [i|] eqn:Hf.
  - assert (existsb (same_device (res_addr r) (res_addr_type r)) ds = true) as ->.
    { apply not_false_iff_true. rewrite <- (find_device_None _ _ _ 0). by rewrite Hf. }
    cbn [orb]. unfold not_repeated. rewrite Hdup. cbn [Z.eqb]. wp_simpl. split; [by right|]. exists ds. rewrite Hsame.
    split; [done|]. split; [|done]. apply not_false_iff_true. rewrite <- (find_device_None _ _ _ 0). by rewrite Hf.
  - apply find_device_None in Hf. rewrite Hf. cbn [orb]. destruct hit; wp_simpl.
    + unfold scanner_add_device. wp_simpl. apply (wp_read _ ds); [done|]. unfold not_repeated. rewrite Hdup.
      cbn [Z.eqb]. wp_simpl. split; [by right|]. eexists. split; [done|]. split; [|done].
      rewrite existsb_app. cbn. rewrite same_device_refl. by rewrite orb_true_r.
    + split; [by right|]. exists ds. rewrite Hsame. done.
Qed.

Lemma wp_notify_loop r ts u l rec known pre m ds :
  ScanFilter.scan_record_parse empty_record (Some r.(adv_data)) r.(res_length)
    = AdvData.Done (ScanFilter.set_uuid u empty_record) ->
  Forall (fun x => m.(scanners) !! x.1 = Some x.2 /\ x.2.(sc_filter).(duplicated) = 0) l ->
  m.(devices) = Some ds -> rec_ok u rec -> is_known r ds = known || existsb (passes u) pre ->
  wp (notify_loop r ts l.*1 rec) (fun _ m' o => exists ds', m' = set_devices (Some ds') m /\
    is_known r ds' = known || existsb (passes u) (pre ++ l.*2) /\ o = reports r known u pre l) m.
Proof.
  intros Hparse Hl. revert rec pre m ds Hl. induction l as [|[p s] l IH]; intros rec pre m ds Hl Hds Hrec Hkn; cbn.
  { exists ds. rewrite app_nil_r. split; [by destruct m; cbn in *; subst|]. done. }
  apply Forall_cons_iff in Hl as [[Hp Hdup] Hl]. apply wp_bind.
  eapply wp_mono; [|by eapply wp_notify_one]. cbn. intros rec' m' o (Hrec' & ds1 & -> & Hkn1 & ->).
  eapply wp_mono; [|eapply (IH rec' (pre ++ [s]) _ ds1); [exact Hl|done|done|]].
  - cbn. intros [] m2 o2 (ds2 & -> & Hk2 & ->). exists ds2. split; [done|]. split.
    + rewrite Hk2, <- app_assoc. done.
    + unfold shown. rewrite existsb_app. cbn. rewrite Hkn, orb_false_r, !orb_assoc. done.
  - rewrite Hkn1, Hkn, existsb_app. cbn. by rewrite orb_false_r, orb_assoc.
Qed.

(** A payload as it comes from the controller. *)
Definition result_ok (r : ble_scan_result_t) : Prop :=
  bytes_ok r.(adv_data) /\ r.(res_length) = Z.of_nat (length r.(adv_data)) /\ r.(res_length) < 256.

Lemma parse_ok r :
  result_ok r -> exists u, ScanFilter.scan_record_parse empty_record (Some r.(adv_data)) r.(res_length)
                          = AdvData.Done (ScanFilter.set_uuid u empty_record).
Proof.
  intros (Hb & Hlen & H256). apply ScanFilter.parse_loop_total; [done|lia|lia|lia|lia].
Qed.

(** The scanners of the scanning list, with what is stored at their address. *)
Lemma scanning_objects m sl ds :
  scan_inv m sl ds -> exists l, l.*1 = sl /\
    Forall (fun x => m.(scanners) !! x.1 = Some x.2 /\ x.2.(sc_filter).(duplicated) = 0) l.
Proof.
  intros Hi. assert (forall p, p ∈ sl -> exists s, m.(scanners) !! p = Some s /\ s.(sc_filter).(duplicated) = 0) as H.
  { intros p Hp. destruct (inv_scan _ _ _ Hi p Hp) as [i Hs].
    destruct (inv_slot _ _ _ Hi i p Hs) as (_ & s & Hps & _ & _ & Hd). eauto. }
  clear Hi. induction sl as [|p sl IH]; [by exists []|].
  destruct (H p) as (s & Hs); [by left|]. destruct IH as (l & <- & Hl); [intros q Hq; apply H; by right|].
  exists ((p, s) :: l). by split; [|constructor].
Qed.

Lemma wp_notify ts r m sl ds :
  scan_inv m sl ds -> result_ok r ->
  wp (notify_scanners_scan_result false ts r) (fun _ m' o => exists l u ds', l.*1 = sl /\
    Forall (fun x => m.(scanners) !! x.1 = Some x.2) l /\
    ScanFilter.scan_record_parse empty_record (Some r.(adv_data)) r.(res_length)
      = AdvData.Done (ScanFilter.set_uuid u empty_record) /\
    m' = set_devices (Some ds') m /\ is_known r ds' = is_known r ds || existsb (passes u) l.*2 /\
    o = reports r (is_known r ds) u [] l) m.
Proof.
  intros Hi Hr. destruct (parse_ok r Hr) as [u Hu]. destruct (scanning_objects m sl ds Hi) as (l & Hl & Hall).
  unfold notify_scanners_scan_result. wp_simpl. apply (wp_read _ sl); [apply Hi|]. rewrite <- Hl.
  eapply wp_mono; [|eapply (wp_notify_loop r ts u l empty_record (is_known r ds) [] m ds Hu Hall)].
  - cbn. intros [] m' o (ds' & -> & Hk & ->). exists l, u, ds'. split; [done|]. split; [|done].
    eapply list.Forall_impl; [exact Hall|]. by intros x [? _].
  - apply Hi.
  - by left.
  - cbn. by rewrite orb_false_r.
Qed.

Lemma reports_radio r known u pre l on : radio_after on (reports r known u pre l) = on.
Proof.
  revert pre. induction l as [|[p s] l IH]; intros pre; simpl; [done|].
  unfold radio_after. rewrite fold_left_app. destruct (shown known u pre s); simpl; apply IH.
Qed.

(** Both ways a scanner's stop can go. *)
Lemma wp_unregister_any m sl ds p :
  scan_inv m sl ds ->
  wp (unregister_scanner p) (fun _ m' o => exists sl' ds', scan_inv m' sl' ds' /\
    radio_after m.(is_scanning) o = m'.(is_scanning) /\
    (forall i, m.(scanner_list) !! i = Some (Some p) -> m'.(scanner_list) = <[i := None]> m.(scanner_list)) /\
    ((Some p ∉ m.(scanner_list)) -> m' = m)) m.
Proof.
  intros Hi. destruct (registered_dec m sl ds p Hi) as [(i & s & Hs & Hp)|Hn].
  - eapply wp_mono; [|by eapply wp_unregister]. cbn zeta. intros [] m' o (Hi' & _ & Hl & ->).
    eexists _, _. split; [exact Hi'|]. split; [|split].
    + rewrite (inv_on _ _ _ Hi'), (inv_on _ _ _ Hi), (bool_decide_eq_true_2 (sl <> [])).
      * destruct (filter _ sl); [done|]. done.
      * intros ->. destruct (inv_slot _ _ _ Hi i p Hs) as [Hc _]. by apply elem_of_nil in Hc.
    + intros j Hj. rewrite Hl. destruct (inv_slot _ _ _ Hi i p Hs) as (_ & s1 & Hs1 & Hid1 & _).
      destruct (inv_slot _ _ _ Hi j p Hj) as (_ & s2 & Hs2 & Hid2 & _). simplify_eq.
      by replace j with i by lia.
    + intros Hc. exfalso. apply Hc. apply list_elem_of_lookup. eauto.
  - unfold wp. rewrite unregister_unknown by done. exists sl, ds. split; [done|]. split; [done|].
    split; [|done]. intros i Hs. exfalso. apply Hn, list_elem_of_lookup. eauto.
Qed.

Lemma wp_cleanup m sl ds :
  scan_inv m sl ds -> wp cleanup_scanner (fun _ m' o =>
    m'.(scanner_list) = replicate max None /\ m'.(scanner_cnt) = 0 /\ m'.(is_scanning) = false) m.
Proof.
  intros Hi. unfold cleanup_scanner. apply wp_bind.
  pose (I := fun (pre : list nat) m' (_ : list out) => exists sl ds, scan_inv m' sl ds /\
    forall i, i ∈ pre -> m'.(scanner_list) !! i = Some None).
  eapply (wp_mono _ (fun _ m' o => I (seq 0 max) m' o)).
  - intros [] m1 o1 (sl1 & ds1 & Hi1 & Hall). wp_simpl.
    assert (scanner_list m1 = replicate max None) as Hnone.
    { apply list_eq_same_length with max; [apply length_replicate|apply Hi1|].
      intros i x y Hlt Hx Hy. rewrite Hall in Hx by (apply elem_of_seq; lia).
      apply lookup_replicate in Hy as [-> _]. by simplify_eq. }
    assert (sl1 = []) as ->.
    { destruct sl1 as [|p sl1]; [done|]. destruct (inv_scan _ _ _ Hi1 p) as [i Hp]; [by left|].
      rewrite Hnone in Hp. apply lookup_replicate in Hp as [? _]. done. }
    apply (wp_read _ []); [apply Hi1|]. wp_simpl. unfold_mgr. split; [done|]. split; [|by rewrite (inv_on _ _ _ Hi1)].
    rewrite (inv_cnt _ _ _ Hi1), Hnone. clear. induction max as [|n IH]; simpl; [done|apply IH].
  - apply wp_for_seen; [|exists sl, ds; split; [done|]; intros i Hc; by apply elem_of_nil in Hc].
    intros pre i post m1 o1 Hseq (sl1 & ds1 & Hi1 & Hall). wp_simpl.
    assert (i < max)%nat as Hlt by (apply (elem_of_seq 0 max i); rewrite Hseq; set_solver).
    destruct (lookup_lt_is_Some_2 (scanner_list m1) i) as [x Hx]; [by rewrite (inv_len _ _ _ Hi1)|].
    apply (wp_read _ x); [done|]. destruct x as [p|].
    + eapply wp_mono; [|by eapply wp_unregister_any]. intros [] m2 o2 (sl2 & ds2 & Hi2 & _ & Hl2 & _).
      exists sl2, ds2. split; [done|]. rewrite (Hl2 i Hx). intros j [Hj| ->%list_elem_of_singleton]%elem_of_app.
      * destruct (decide (i = j)) as [->|Hne]; [apply list_lookup_insert_eq; by rewrite (inv_len _ _ _ Hi1)|].
        rewrite list_lookup_insert_ne by done. by apply Hall.
      * apply list_lookup_insert_eq. by rewrite (inv_len _ _ _ Hi1).
    + apply wp_ret. exists sl1, ds1. split; [done|].
      intros j [Hj| ->%list_elem_of_singleton]%elem_of_app; [by apply Hall|done].
Qed.

(** ** Reachable states *)

(** A start message carries a scanner just allocated by the interface
    ([api_start_ok]); the stack does not refuse to start scanning. *)
Definition msg_ok (x : msg) (m : scanner_manager_t) : Prop :=
  match x with
  | msg_start sal p s _ =>
      m.(scanners) !! p = None /\ s.(sc_scanning) = false /\ s.(sc_filter).(duplicated) = 0 /\
      (is_success sal = true \/ m.(is_scanning) = true)
  | msg_result _ _ r => result_ok r
  | msg_stop _ | msg_cleanup => True
  end.

Lemma api_start_ok le p room rem settings f cbs sal q x :
  scanner_start_scan_with_filters le p room rem settings f cbs sal = Some (q, x) ->
  exists s, x = msg_start sal q s (Some settings) /\ s.(sc_scanning) = false /\ s.(sc_filter).(duplicated) = 0.
Proof.
  unfold scanner_start_scan_with_filters. destruct le; [|done]. destruct p as [p|]; [|done].
  destruct room; [|done]. intros [= <- <-]. eexists. split; [done|].
  destruct f as [f|]; [|done]. by destruct (active f =? 0).
Qed.

(** The manager and the radio, before the clean-up. *)
Definition scan_step (x y : scanner_manager_t * bool) : Prop :=
  exists c o, c <> msg_cleanup /\ msg_ok c x.1 /\ run_msg c x.1 = Some (tt, y.1, o) /\ y.2 = radio_after x.2 o.

Definition scan_initial (x : scanner_manager_t * bool) : Prop := x = (scan_manager_init, false).

Lemma scan_msg_inv c m sl ds :
  scan_inv m sl ds -> msg_ok c m -> c <> msg_cleanup ->
  wp (run_msg c) (fun _ m' o => (exists sl' ds', scan_inv m' sl' ds') /\
    radio_after m.(is_scanning) o = m'.(is_scanning)) m.
Proof.
  intros Hi Hc Hne. destruct c as [sal p s settings|p|busy ts r|]; cbn [run_msg msg_ok] in *; [| | |done].
  - destruct Hc as (Hp & Hsc & Hdup & Hsal). wp_simpl.
    assert (p ∉ sl) as Hsl.
    { intros Hin. destruct (inv_scan _ _ _ Hi p Hin) as [i Hs].
      destruct (inv_slot _ _ _ Hi i p Hs) as (_ & t & Ht & _). congruence. }
    set (m1 := set_scanners _ m).
    assert (scan_inv m1 sl ds) as Hi1.
    { apply inv_other; [done|]. intros q Hq. apply lookup_insert_ne. intros ->. done. }
    eapply wp_mono; [|eapply (wp_start sal p s settings m1 sl ds Hi1); try done; apply lookup_insert_eq].
    intros [] m' o (st & _ & Hr & [[_ Hi']|[_ ->]]); split; try exact Hr; [by eauto|].
    exists sl, ds. apply inv_other; [done|]. intros q Hq. apply lookup_delete_ne. intros ->. done.
  - eapply wp_mono; [|by eapply wp_unregister_any]. intros [] m' o (sl' & ds' & Hi' & Hr & _). eauto.
  - destruct busy; [by cbn; eauto|]. eapply wp_mono; [|by eapply wp_notify].
    intros [] m' o (l & u & ds' & _ & _ & _ & -> & _ & ->). rewrite reports_radio. split; [|done].
    exists sl, ds'. by destruct Hi; split.
Qed.

Lemma reachable_scan_inv x :
  reachable scan_initial scan_step x -> (exists sl ds, scan_inv x.1 sl ds) /\ x.2 = x.1.(is_scanning).
Proof.
  revert x. apply (reachable_inv _ _ (fun x => (exists sl ds, scan_inv x.1 sl ds) /\ x.2 = is_scanning x.1)).
  - intros x ->. split; [|done]. exists [], []. split; cbn; try done.
    + apply length_replicate.
    + clear. induction max as [|n IH]; simpl; [done|apply IH].
    + constructor.
    + intros i p Hp. by apply lookup_replicate in Hp as [? _].
    + intros p Hp. by apply elem_of_nil in Hp.
  - intros x y [(sl & ds & Hi) Hr] (c & o & Hne & Hc & Hrun & Hy).
    pose proof (run_wp _ _ _ _ _ _ Hrun (scan_msg_inv c x.1 sl ds Hi Hc Hne)) as [Hinv Hrad].
    split; [done|]. by rewrite Hy, Hr.
Qed.

Lemma run_msg_safe c m sl ds : scan_inv m sl ds -> msg_ok c m -> is_Some (run_msg c m).
Proof.
  intros Hi Hc.
  assert (exists Q, wp (run_msg c) Q m) as [Q Hw].
  { destruct c as [sal p s settings|p|busy ts r|];
      [eexists; by eapply scan_msg_inv..|eexists; by eapply wp_cleanup]. }
  apply wp_run in Hw as (a & m' & o & -> & _). by eexists.
Qed.

Lemma n_some_elems l : n_some l = length (omap id l).
Proof. induction l as [|[p|] l IH]; simpl; [done|by rewrite IH|done]. Qed.

Lemma elem_of_slots (l : list (option ptr)) p : p ∈ omap id l <-> Some p ∈ l.
Proof.
  rewrite list_elem_of_omap. split; [intros (x & Hx & Hid); cbn in Hid; by subst|]. intros H. by exists (Some p).
Qed.

Lemma slots_nodup (l : list (option ptr)) :
  (forall i j p, l !! i = Some (Some p) -> l !! j = Some (Some p) -> i = j) -> NoDup (omap id l).
Proof.
  induction l as [|x l IH]; simpl; intros Hinj; [constructor|].
  assert (NoDup (omap id l)) by (apply IH; intros i j p Hi Hj; by injection (Hinj (S i) (S j) p Hi Hj)).
  destruct x as [p|]; simpl; [|done]. apply list.NoDup_cons. split; [|done].
  rewrite elem_of_slots. intros [i Hi]%list_elem_of_lookup. by discriminate (Hinj O (S i) p eq_refl Hi).
Qed.

(** The scanning list is the table without its empty slots, in some order. *)
Lemma scanning_slots m sl ds :
  scan_inv m sl ds -> (forall p, p ∈ sl <-> Some p ∈ m.(scanner_list)) /\ n_some m.(scanner_list) = length sl.
Proof.
  intros Hi. assert (forall p, p ∈ sl <-> Some p ∈ scanner_list m) as Heq.
  { intros p. rewrite (list_elem_of_lookup (scanner_list m)). split; [apply (inv_scan _ _ _ Hi)|].
    intros [i Hp]. by destruct (inv_slot _ _ _ Hi i p Hp). }
  split; [done|]. rewrite n_some_elems. apply Permutation_length, NoDup_Permutation.
  - apply slots_nodup. intros i j p Hp Hq. destruct (inv_slot _ _ _ Hi i p Hp) as (_ & s & Hs & Hid & _).
    destruct (inv_slot _ _ _ Hi j p Hq) as (_ & t & Ht & Hid' & _). simplify_eq. lia.
  - apply Hi.
  - intros p. by rewrite elem_of_slots, Heq.
Qed.
End Manager.

(** ** Claims *)

(** C24: For a table of fewer than 256 scanners, up to the clean-up and as long
    as the stack accepts every start of a scan ([msg_ok]; a refused one leaves a
    dangling pointer, [failed_start_dangles]): the scan manager handles every
    message (starts, stops of any scanner, well-formed results, the clean-up
    itself) without using freed memory or an index out of its table, whatever
    their order; the scanners of the table are exactly those of the scanning
    list, all alive and counted, and the radio scans exactly when there is
    one. *)
Theorem scan_manager_safe (max hsize : nat) (m : scanner_manager_t) (radio : bool) (c : msg) :
  (max < 256)%nat -> reachable (scan_initial max hsize) (scan_step max hsize) (m, radio) -> msg_ok c m ->
  is_Some (run_msg max hsize c m) /\
  exists sl, m.(scanning_list) = Some sl /\ NoDup sl /\
    (forall p, p ∈ sl <-> Some p ∈ m.(scanner_list)) /\
    (forall p, p ∈ sl -> is_Some (m.(scanners) !! p)) /\
    m.(scanner_cnt) = Z.of_nat (length sl) /\ radio = bool_decide (sl <> []).
Proof.
  intros Hmax Hr Hc. destruct (reachable_scan_inv max hsize Hmax _ Hr) as [(sl & ds & Hi) Hradio]. cbn in *.
  destruct (scanning_slots max Hmax m sl ds Hi) as [Hslots Hn]. split; [by eapply run_msg_safe|].
  exists sl. split; [apply Hi|]. split; [apply Hi|]. split; [done|]. split.
  - intros p Hp. destruct (inv_scan _ _ _ _ Hi p Hp) as [i Hs].
    destruct (inv_slot _ _ _ _ Hi i p Hs) as (_ & s & Hps & _). by eexists.
  - rewrite (inv_cnt _ _ _ _ Hi), Hn. split; [done|]. rewrite Hradio. apply Hi.
Qed.

(** Two scanners, the second with a filter on the UUID 0x180D. *)
Definition demo_plain : scanner_t := alloc_new_scanner None 11%N.
Definition demo_filtered : scanner_t :=
  mk_scanner (Some 7%N) 0 false (api_filter (mk_filter 0 0 [0x180D; 0] 1 0)) 12%N.

Definition after (c : msg) (m : scanner_manager_t) : scanner_manager_t :=
  match run_msg 2 10 c m with Some (_, m', _) => m' | None => m end.

Definition demo_one : scanner_manager_t :=
  after (msg_start BT_STATUS_SUCCESS 1%N demo_plain None) (scan_manager_init 2 10).
Definition demo_two : scanner_manager_t :=
  after (msg_start BT_STATUS_SUCCESS 2%N demo_filtered None) demo_one.

Definition demo_result : ble_scan_result_t :=
  mk_result (mk_addr 1 2 3 4 5 6) 0 0 0 0 4 [3; 3; 0x0D; 0x18].

Lemma demo_scan_reachable : reachable (scan_initial 2 10) (scan_step 2 10) (demo_two, true).
Proof.
  apply (reach_step _ _ (demo_one, true)); [apply (reach_step _ _ (scan_manager_init 2 10, false)); [by apply reach_init|]|].
  - exists (msg_start BT_STATUS_SUCCESS 1%N demo_plain None). eexists. split; [done|].
    split; [repeat split; by left|]. split; vm_compute; reflexivity.
  - exists (msg_start BT_STATUS_SUCCESS 2%N demo_filtered None). eexists. split; [done|].
    split; [repeat split; by left|]. split; vm_compute; reflexivity.
Qed.

Lemma scan_manager_safe_witness : is_Some (run_msg 2 10 msg_cleanup demo_two).
Proof. apply (scan_manager_safe 2 10 demo_two true msg_cleanup); [lia|exact demo_scan_reachable|exact I]. Defined.

(** A scan result is shown, once and in the order of the scanning list, to
    the scanners without a filter and to those with one if the advertiser was
    already known or the payload passes their filter or that of a scanner
    before them; afterwards the advertiser is known if it was or if some
    filter let it pass.  Nothing else changes. *)
Theorem scan_result_shown (max hsize : nat) (m : scanner_manager_t) (radio : bool) (ts : Z) (r : ble_scan_result_t) :
  (max < 256)%nat -> reachable (scan_initial max hsize) (scan_step max hsize) (m, radio) -> result_ok r ->
  exists (l : list (ptr * scanner_t)) u ds ds',
    m.(scanning_list) = Some l.*1 /\ Forall (fun x => m.(scanners) !! x.1 = Some x.2) l /\
    m.(devices) = Some ds /\
    ScanFilter.scan_record_parse empty_record (Some r.(adv_data)) r.(res_length)
      = AdvData.Done (ScanFilter.set_uuid u empty_record) /\
    notify_scanners_scan_result false ts r m
    = Some (tt, set_devices (Some ds') m, reports r (is_known r ds) u [] l) /\
    is_known r ds' = is_known r ds || existsb (passes u) l.*2.
Proof.
  intros Hmax Hr Hres. destruct (reachable_scan_inv max hsize Hmax _ Hr) as [(sl & ds & Hi) _]. cbn in *.
  destruct (wp_run _ _ _ (wp_notify max Hmax ts r m sl ds Hi Hres))
    as ([] & m' & o & Hrun & l & u & ds' & Hl & Hall & Hu & -> & Hk & ->).
  exists l, u, ds, ds'. split; [by rewrite Hl; apply Hi|]. split; [done|]. split; [by apply Hi|]. done.
Qed.

Lemma scan_result_shown_witness :
  exists u ds', notify_scanners_scan_result false 0 demo_result demo_two
    = Some (tt, set_devices (Some ds') demo_two, reports demo_result false u [] [(1%N, set_sc_scanning true demo_plain);
        (2%N, set_sc_scanning true (set_id 1 demo_filtered))]).
Proof.
  destruct (scan_result_shown 2 10 demo_two true 0 demo_result) as (l & u & ds & ds' & Hl & Hall & Hds & _ & Hrun & _).
  - lia.
  - exact demo_scan_reachable.
  - split; [apply (bool_decide_unpack _); vm_compute; exact I|]. split; reflexivity.
  - exists u, ds'. vm_compute in Hds. injection Hds as <-. rewrite Hrun.
    destruct l as [|[p1 s1] [|[p2 s2] [|x l]]]; try discriminate Hl.
    vm_compute in Hl. injection Hl as <- <-. apply Forall_cons_iff in Hall as [H1 Hall].
    apply Forall_cons_iff in Hall as [H2 _]. vm_compute in H1, H2. injection H1 as <-. injection H2 as <-. reflexivity.
Defined.

(** When the stack refuses to start scanning, the scanner that was just
    registered is freed but stays in the table: the next start uses it. *)
Theorem failed_start_dangles :
  let m := after (msg_start BT_STATUS_FAIL 1%N demo_plain None) (scan_manager_init 2 10) in
  m.(scanner_list) = [Some 1%N; None] /\ m.(scanners) !! 1%N = None /\ m.(scanner_cnt) = 1 /\
  run_msg 2 10 (msg_start BT_STATUS_SUCCESS 2%N demo_filtered None) m = None.
Proof. vm_compute. done. Qed.

(** A filter is bypassed: the scanner that asked for 0x1800 is shown an
    advertiser of 0x180D because the scanner before it asked for that. *)
Theorem filter_bypassed :
  let other := mk_scanner (Some 8%N) 0 false (api_filter (mk_filter 0 0 [0x1800; 0] 1 0)) 13%N in
  let m := after (msg_start BT_STATUS_SUCCESS 2%N other None)
             (after (msg_start BT_STATUS_SUCCESS 1%N demo_filtered None) (scan_manager_init 2 10)) in
  option_map snd (notify_scanners_scan_result false 0 demo_result m)
  = Some [on_scan_result 7%N demo_result; on_scan_result 8%N demo_result].
Proof. vm_compute. reflexivity. Qed.

End ScanManager.
