(* ===== verification/ServiceManager.v ===== *)
(** * The profile service manager (service/profiles/service_manager.c)

    A table of registered profiles and the state of each.  The adapter asks
    the manager to start or shut down the profiles of a transport and waits to
    be told that all are done; each profile reports through a callback, before
    its start function returns or later.

    The profiles are code of their own: what the manager sees of a profile is
    the record it registered (which functions it has, what [get_state]
    answers) and when it calls back ([sync]). *)

From stdpp Require Import functions.
From S2P Require Import Prelude Fallible BtUuid.

Module ServiceManager.
Import BtUuid.
Local Open Scope fall_scope.

Inductive profile_service_state := TURN_OFF | TURNING_ON | TURN_ON | TURNING_OFF.

#[export] Instance state_eq_dec : EqDecision profile_service_state.
Proof. solve_decision. Defined.

Inductive control_cmd := CONTROL_CMD_START | CONTROL_CMD_STOP | CONTROL_CMD_DUMP.

(** [enum profile_id] as numbers; [PROFILE_MAX] of them. *)
Definition PROFILE_MAX : nat := 21.
Definition BT_UUID_MAX_NUM : nat := 32.

(** [profile_service_t]: a function pointer is whether it is there;
    [get_state] is its answer. *)
Record profile_service_t := mk_profile {
  id : nat;
  auto_start : bool;
  transport : bt_transport_t;
  uuid : bt_uuid_t;
  has_init : bool;
  has_startup : bool;
  has_shutdown : bool;
  has_process_msg : bool;
  get_state : option Z;
  has_interface : bool;
  has_cleanup : bool;
}.

(** [struct service_state_map] *)
Record service_state_map := mk_slot { service : option profile_service_t; state : profile_service_state }.

Abbreviation slots_t := (list service_state_map).

Inductive out :=
| adapter_on_profile_services_startup (t : bt_transport_t) (ret : bool)
| adapter_on_profile_services_shutdown (t : bt_transport_t) (ret : bool)
| profile_init (id : nat)
| profile_startup (id : nat) (has_cb : bool)
| profile_shutdown (id : nat) (has_cb : bool)
| profile_process_msg (id : nat)
| profile_get_interface (id : nat)
| profile_cleanup (id : nat).

#[export] Instance out_eq_dec : EqDecision out.
Proof. solve_decision. Defined.

Abbreviation MM := (E slots_t out).

(** ** The checks *)

(** [state = profile->get_state ? profile->get_state() : 1] *)
Definition profile_state (p : profile_service_t) : Z := default 1%Z p.(get_state).

Definition check_is_all_startup (t : bt_transport_t) (m : slots_t) : bool :=
  forallb (fun x =>
    match x.(service) with
    | None => true
    | Some p => negb (bool_decide (p.(transport) = t) && p.(auto_start)
                      && negb (bool_decide (x.(state) = TURN_ON)) && negb (profile_state p =? 0)%Z)
    end) m.

Definition check_is_all_shutdown (t : bt_transport_t) (m : slots_t) : bool :=
  forallb (fun x =>
    match x.(service) with
    | None => true
    | Some p => negb (bool_decide (p.(transport) = t)
                      && negb (bool_decide (x.(state) = TURN_OFF)) && negb (profile_state p =? 0)%Z)
    end) m.

(** ** Callbacks of the profiles *)

Definition set_state (i : nat) (st : profile_service_state) : MM unit :=
  x <- eread (fun m => m !! i);;
  emodify (fun m => <[i := mk_slot x.(service) st]> m).

(** The profile at an index; the [assert] that there is one. *)
Definition profile_at (i : nat) : MM profile_service_t :=
  x <- eread (fun m => m !! i);; eread (fun _ => x.(service)).

Definition service_on_startup (i : nat) (ret : bool) : MM unit :=
  p <- profile_at i;;
  (if ret then set_state i TURN_ON else efail);;;
  all <- egets (check_is_all_startup p.(transport));;
  ewhen all (eemit (adapter_on_profile_services_startup p.(transport) true)).

Definition service_on_shutdown (i : nat) (ret : bool) : MM unit :=
  p <- profile_at i;;
  (if ret then set_state i TURN_OFF else efail);;;
  all <- egets (check_is_all_shutdown p.(transport));;
  ewhen all (eemit (adapter_on_profile_services_shutdown p.(transport) true)).

(** ** The interface *)

Definition register_service (p : profile_service_t) : MM unit :=
  x <- eread (fun m => m !! p.(id));;
  match x.(service) with
  | None => emodify (fun m => <[p.(id) := mk_slot (Some p) TURN_OFF]> m)
  | Some _ => eret tt
  end.

(** [for (i = 0; i < PROFILE_MAX; i++)] over the registered profiles. *)
Definition for_profiles (f : nat -> profile_service_t -> MM unit) : MM unit :=
  efor (seq 0 PROFILE_MAX) (fun i =>
    x <- eread (fun m => m !! i);;
    match x.(service) with Some p => f i p | None => eret tt end).

Definition service_manager_init : MM unit :=
  for_profiles (fun _ p => ewhen p.(has_init) (eemit (profile_init p.(id)))).

(** [sync i]: the result the profile [i] passes to its callback before its
    function returns; [None] if it calls back later. *)
Section Profiles.
Context (sync : nat -> option bool).

Definition service_manager_startup (t : bt_transport_t) : MM unit :=
  all <- egets (check_is_all_startup t);;
  if (all : bool) then eemit (adapter_on_profile_services_startup t true)
  else
    for_profiles (fun i p =>
      ewhen (p.(has_startup) && p.(auto_start) && bool_decide (p.(transport) = t)) (
        set_state i TURNING_ON;;;
        eemit (profile_startup p.(id) true);;;
        match sync p.(id) with Some ret => service_on_startup p.(id) ret | None => eret tt end)).

Definition service_manager_shutdown (t : bt_transport_t) : MM unit :=
  all <- egets (check_is_all_shutdown t);;
  if (all : bool) then eemit (adapter_on_profile_services_shutdown t true)
  else
    for_profiles (fun i p =>
      ewhen (p.(has_shutdown) && bool_decide (p.(transport) = t)) (
        eemit (profile_shutdown p.(id) true);;;
        match sync p.(id) with Some ret => service_on_shutdown p.(id) ret | None => eret tt end)).

(** The callback given is NULL: a profile that calls it does not survive. *)
Definition service_manager_control (i : nat) (cmd : control_cmd) (ret : bt_status_t) : MM bt_status_t :=
  x <- eread (fun m => m !! i);;
  let call_null := match sync i with Some _ => efail | None => eret ret end in
  match cmd with
  | CONTROL_CMD_START =>
      match x.(service) with
      | Some p => if p.(has_startup) then eemit (profile_startup i false);;; call_null
                  else eret BT_STATUS_NOT_SUPPORTED
      | None => eret BT_STATUS_NOT_SUPPORTED
      end
  | CONTROL_CMD_STOP =>
      match x.(service) with
      | Some p => if p.(has_shutdown) then eemit (profile_shutdown i false);;; call_null
                  else eret BT_STATUS_NOT_SUPPORTED
      | None => eret BT_STATUS_NOT_SUPPORTED
      end
  | CONTROL_CMD_DUMP => eret BT_STATUS_SUCCESS
  end.
End Profiles.

Definition service_manager_processmsg : MM unit :=
  for_profiles (fun _ p => ewhen p.(has_process_msg) (eemit (profile_process_msg p.(id)))).

(** [BT_UUID_DECLARE_128(0)] *)
Definition empty_uuid : bt_uuid_t := mk_uuid BT_UUID128_TYPE (replicate 16 0%Z).

(** The loop of [service_manager_get_uuid]: the UUIDs written, [cnt] before. *)
Fixpoint get_uuid_loop (m : slots_t) (cnt : nat) : list bt_uuid_t :=
  match m with
  | [] => []
  | x :: m =>
      if (cnt <? BT_UUID_MAX_NUM)%nat then
        match x.(service) with
        | None => get_uuid_loop m cnt
        | Some p => if (bt_uuid_compare empty_uuid p.(uuid) =? 0)%Z then get_uuid_loop m cnt
                    else p.(uuid) :: get_uuid_loop m (S cnt)
        end
      else []
  end.

Definition service_manager_get_uuid : MM (list bt_uuid_t) :=
  egets (fun m => get_uuid_loop (take PROFILE_MAX m) 0).

Definition service_manager_get_profile (i : nat) : MM unit :=
  if (i <? PROFILE_MAX)%nat then
    p <- profile_at i;;
    if p.(has_interface) then eemit (profile_get_interface p.(id)) else efail
  else efail.

Definition service_manager_cleanup : MM unit :=
  for_profiles (fun i p =>
    ewhen p.(has_cleanup) (eemit (profile_cleanup p.(id)));;;
    emodify (fun m => match m !! i with Some x => <[i := mk_slot None x.(state)]> m | None => m end)).

(** The static table. *)
Definition service_slots : slots_t := replicate PROFILE_MAX (mk_slot None TURN_OFF).

(** ** Well-formed tables *)

Definition table_wf (m : slots_t) : Prop :=
  length m = PROFILE_MAX /\ forall i p st, m !! i = Some (mk_slot (Some p) st) -> p.(id) = i.

(** ** Waiting for the profiles

    Start and shutdown work alike: some profiles are [concerned], each of them
    reports once and is then in the state [goal]; the notification [note] goes
    out when the check finds them all there. *)
Section Waiting.
Context (t : bt_transport_t) (goal : profile_service_state) (concerned : profile_service_t -> bool)
  (check : slots_t -> bool) (note : out).

(** The table [m] with the states of the concerned profiles given by [st]. *)
Definition with_state (st : nat -> profile_service_state) (i : nat) (x : service_state_map) : service_state_map :=
  match x.(service) with
  | Some p => if concerned p then mk_slot (Some p) (st i) else x
  | None => x
  end.

Definition with_states (st : nat -> profile_service_state) (m : slots_t) : slots_t := imap (with_state st) m.

Definition is_concerned (m : slots_t) (i : nat) : Prop :=
  exists p s, m !! i = Some (mk_slot (Some p) s) /\ concerned p = true.

Definition count_note (o : list out) : nat := length (filter (fun x => x = note) o).

Context (m0 : slots_t).

(** All concerned profiles are in the goal state exactly when the check says
    so; they are the only ones the check looks at. *)
Hypothesis check_spec : forall st,
  check (with_states st m0) = true <-> (forall i, is_concerned m0 i -> st i = goal).

(** The request made of each profile. *)
Context (req : nat -> out).

(** What has been said so far agrees with the check: nothing but requests and,
    once the check holds, the notification. *)
Definition told (m : slots_t) (o : list out) : Prop :=
  Forall (fun x => x = note \/ exists i, x = req i) o /\
  if check m then count_note o = 1%nat /\ list.last o = Some note else count_note o = O.

Lemma lookup_with_states st m i : with_states st m !! i = with_state st i <$> m !! i.
Proof. apply list_lookup_imap. Qed.

Lemma with_states_concerned st i p s :
  m0 !! i = Some (mk_slot (Some p) s) -> concerned p = true ->
  with_states st m0 !! i = Some (mk_slot (Some p) (st i)).
Proof. intros H Hc. rewrite lookup_with_states, H. cbn. unfold with_state. cbn. by rewrite Hc. Qed.

Lemma with_states_update st i p s g :
  m0 !! i = Some (mk_slot (Some p) s) -> concerned p = true ->
  <[i := mk_slot (Some p) g]> (with_states st m0) = with_states (<[i := g]> st) m0.
Proof.
  intros H Hc. apply list_eq. intros j. destruct (decide (i = j)) as [<-|Hne].
  - rewrite list_lookup_insert_eq; [|apply lookup_lt_is_Some; rewrite lookup_with_states, H; by eexists].
    by rewrite (with_states_concerned _ _ _ _ H Hc), fn_lookup_insert.
  - rewrite list_lookup_insert_ne by done. rewrite !lookup_with_states. destruct (m0 !! j) as [x|]; [|done].
    cbn. unfold with_state. by rewrite fn_lookup_insert_ne.
Qed.

(** The state changes of a concerned profile not yet in the goal state. *)
Lemma told_not st i o :
  is_concerned m0 i -> st i <> goal -> told (with_states st m0) o -> count_note o = O.
Proof.
  intros Hi Hst. unfold told. destruct (check (with_states st m0)) eqn:E; [|by intros [_ ?]].
  rewrite check_spec in E. by specialize (E i Hi).
Qed.

(** The report of one profile. *)
Definition report (i : nat) : MM unit :=
  set_state i goal;;;
  all <- egets check;;
  ewhen all (eemit note).

Lemma wp_report st i o :
  is_concerned m0 i -> st i <> goal -> told (with_states st m0) o ->
  wp (report i) (fun _ m' o' => m' = with_states (<[i := goal]> st) m0 /\ told m' (o ++ o')) (with_states st m0).
Proof.
  intros (p & s & Hi & Hc) Hst Ht. pose proof (told_not st i o) as Hn. unfold report, set_state. wp_simpl.
  eapply wp_read; [by eapply with_states_concerned|]. wp_simpl. cbn [service].
  rewrite (with_states_update _ _ _ _ _ Hi Hc).
  assert (count_note o = O) as H0 by (apply Hn; [by exists p, s|done|done]).
  destruct Ht as [Hall _]. clear Hn. unfold told. destruct (check (with_states (<[i := goal]> st) m0)) eqn:E; wp_simpl;
    (split; [done|]); rewrite ?E, ?app_nil_r; [|done]. split.
  { apply Forall_app. split; [done|]. constructor; [by left|constructor]. }
  unfold count_note in *.
  cbn [app]. rewrite list.filter_app, length_app, H0. cbn. rewrite decide_True by done. split; [done|]. by rewrite last_snoc.
Qed.

(** The callback of the code is such a report. *)
Context (cb : nat -> MM unit).
Hypothesis cb_report : forall st i Q,
  is_concerned m0 i -> wp (report i) Q (with_states st m0) -> wp (cb i) Q (with_states st m0).

Lemma wp_cb st i o :
  is_concerned m0 i -> st i <> goal -> told (with_states st m0) o ->
  wp (cb i) (fun _ m' o' => m' = with_states (<[i := goal]> st) m0 /\ told m' (o ++ o')) (with_states st m0).
Proof. intros Hi Hst Ht. apply cb_report; [done|]. by apply wp_report. Qed.

(** Reports that come later, each profile once, in any order. *)
Lemma wp_reports order st o :
  NoDup order -> (forall i, i ∈ order -> is_concerned m0 i /\ st i <> goal) -> told (with_states st m0) o ->
  wp (efor order cb) (fun _ m' o' => exists st', m' = with_states st' m0 /\ told m' (o ++ o') /\
    forall i, st' i = if bool_decide (i ∈ order) then goal else st i) (with_states st m0).
Proof.
  revert st o. induction order as [|i order IH]; intros st o Hnd Hall Ht; cbn.
  { exists st. rewrite app_nil_r. done. }
  apply list.NoDup_cons in Hnd as [Hi Hnd]. apply wp_bind.
  destruct (Hall i) as [Hci Hsti]; [by left|].
  eapply wp_mono; [|by apply (wp_cb st i o)]. intros [] m1 o1 [-> Ht1]. cbn beta in *.
  eapply wp_mono; [|apply (IH (<[i := goal]> st) (o ++ o1) Hnd); [|exact Ht1]].
  - intros [] m2 o2 (st' & -> & Ht2 & Hst'). exists st'. rewrite app_assoc. split; [done|]. split; [done|].
    intros j. rewrite Hst'. destruct (decide (i = j)) as [<-|Hne].
    + rewrite fn_lookup_insert, (bool_decide_eq_true_2 (i ∈ i :: order)) by (by left). by case_bool_decide.
    + rewrite fn_lookup_insert_ne by done. do 2 case_bool_decide; set_solver.
  - intros j Hj. destruct (Hall j) as [Hcj Hstj]; [by right|]. split; [done|].
    rewrite fn_lookup_insert_ne; [done|]. intros ->. done.
Qed.

Lemma with_states_ext st st' :
  (forall i, is_concerned m0 i -> st i = st' i) -> with_states st m0 = with_states st' m0.
Proof.
  intros H. apply list_eq. intros i. rewrite !lookup_with_states. destruct (m0 !! i) as [[[p|] s]|] eqn:E; try done.
  cbn. unfold with_state. cbn. destruct (concerned p) eqn:Hc; [|done]. rewrite H; [done|]. by exists p, s.
Qed.

(** The states before anything happened. *)
Definition orig (i : nat) : profile_service_state := default TURN_OFF (state <$> m0 !! i).

Lemma with_states_orig : with_states orig m0 = m0.
Proof.
  apply list_eq. intros i. rewrite lookup_with_states. unfold with_state, orig.
  destruct (m0 !! i) as [[[p|] s]|]; try done. cbn. by destruct (concerned p).
Qed.

(** Asking a profile: its state may be set, the request is made, and the
    profile may report at once. *)
Context (sync : nat -> option bool) (mid : option profile_service_state).
Hypothesis req_note : forall i, req i <> note.
Hypothesis mid_goal : mid <> Some goal.

Definition ask (i : nat) : MM unit :=
  match mid with Some s => set_state i s | None => eret tt end;;;
  eemit (req i);;;
  match sync i with Some _ => cb i | None => eret tt end.

(** The state of a profile that was asked. *)
Definition asked (st : nat -> profile_service_state) (i : nat) : profile_service_state :=
  match sync i with Some _ => goal | None => default (st i) mid end.

Lemma count_req o i : count_note (o ++ [req i]) = count_note o.
Proof.
  unfold count_note. rewrite list.filter_app. cbn. rewrite decide_False by apply req_note. by rewrite app_nil_r.
Qed.

Lemma wp_ask st i o :
  is_concerned m0 i -> st i <> goal -> told (with_states st m0) o ->
  wp (ask i) (fun _ m' o' => m' = with_states (<[i := asked st i]> st) m0 /\ told m' (o ++ o')) (with_states st m0).
Proof.
  intros Hci Hst Ht. pose proof (told_not st i o Hci Hst Ht) as H0. pose proof Hci as (p & s & Hi & Hc).
  unfold ask. wp_simpl.
  assert (wp match mid with Some s => set_state i s | None => eret tt end
    (fun _ m' o' => o' = [] /\ m' = with_states (<[i := default (st i) mid]> st) m0) (with_states st m0)) as Hw.
  { destruct mid as [g|]; cbn [default].
    - unfold set_state. wp_simpl. eapply wp_read; [by eapply with_states_concerned|]. wp_simpl. split; [done|].
      by apply (with_states_update st i p s).
    - apply wp_ret. split; [done|]. apply with_states_ext. intros j _.
      destruct (decide (i = j)) as [->|?]; [by rewrite fn_lookup_insert|by rewrite fn_lookup_insert_ne]. }
  eapply wp_mono; [|exact Hw]. intros [] m' o' [-> ->]. wp_simpl. set (st1 := <[i := default (st i) mid]> st).
  assert (st1 i <> goal) as Hst1.
  { unfold st1. rewrite fn_lookup_insert. destruct mid as [g|]; [|done]. cbn. intros ->. done. }
  assert (told (with_states st1 m0) (o ++ [req i])) as Ht1.
  { split; [apply Forall_app; split; [apply Ht|constructor; [right; by eexists|constructor]]|].
    destruct (check (with_states st1 m0)) eqn:E; [|by rewrite count_req].
    rewrite check_spec in E. by specialize (E i Hci). }
  unfold asked. destruct (sync i).
  - eapply wp_mono; [|by apply (wp_cb st1 i (o ++ [req i]))]. intros [] m2 o2 [-> Ht2]. cbn [app].
    rewrite <- app_assoc in Ht2. cbn [app] in Ht2. split; [|done]. apply with_states_ext. intros j _. unfold st1.
    destruct (decide (i = j)) as [->|?]; [by rewrite !fn_lookup_insert|by rewrite !fn_lookup_insert_ne].
  - apply wp_ret. cbn [app]. split; done.
Qed.

(** Where the loop over the table stands after the slots [pre]. *)
Definition after (pre : list nat) (i : nat) : profile_service_state :=
  if bool_decide (i ∈ pre) then asked orig i else orig i.

Definition loop_inv (pre : list nat) (m : slots_t) (o : list out) : Prop :=
  m = with_states (after pre) m0 /\ told m o.

Hypothesis not_yet : forall i, is_concerned m0 i -> orig i <> goal.

(** One round of the loop: [f] asks the concerned profiles and passes over
    the others. *)
Lemma wp_round (f : nat -> profile_service_t -> MM unit) pre i post m o :
  seq 0 PROFILE_MAX = pre ++ i :: post -> length m0 = PROFILE_MAX -> loop_inv pre m o ->
  (forall p s, m0 !! i = Some (mk_slot (Some p) s) -> concerned p = true ->
     forall Q m, wp (ask i) Q m -> wp (f i p) Q m) ->
  (forall p s, m0 !! i = Some (mk_slot (Some p) s) -> concerned p = false -> f i p m = Some (tt, m, [])) ->
  wp (x <- eread (fun m => m !! i);; match x.(service) with Some p => f i p | None => eret tt end)
    (fun _ m' o' => loop_inv (pre ++ [i]) m' (o ++ o')) m.
Proof.
  intros Hseq Hlen [-> Ht] Hask Hskip.
  assert (i ∉ pre) as Hpre.
  { pose proof (NoDup_seq 0 PROFILE_MAX) as Hnd. rewrite Hseq in Hnd. apply list.NoDup_app in Hnd as (_ & Hd & _).
    intros Hin. apply (Hd i Hin). by left. }
  assert (i < PROFILE_MAX)%nat as Hlt by (apply (elem_of_seq 0 PROFILE_MAX i); rewrite Hseq; set_solver).
  destruct (lookup_lt_is_Some_2 m0 i) as [[[p|] s] Hi]; [by rewrite Hlen| |].
  - destruct (concerned p) eqn:Hc.
    + apply wp_bind. eapply wp_read; [by eapply with_states_concerned|]. cbn [service].
      apply (Hask p s Hi Hc). assert (is_concerned m0 i) as Hci by (by exists p, s).
      eapply wp_mono; [|apply (wp_ask (after pre) i o Hci); [|exact Ht]].
      * intros [] m' o' [-> Ht']. split; [|exact Ht']. apply with_states_ext. intros j _.
        unfold after. destruct (decide (i = j)) as [->|Hne].
        -- rewrite fn_lookup_insert, (bool_decide_eq_true_2 (j ∈ pre ++ [j])) by set_solver.
           unfold asked. by rewrite bool_decide_eq_false_2.
        -- rewrite fn_lookup_insert_ne by done. repeat case_bool_decide; set_solver.
      * unfold after. rewrite bool_decide_eq_false_2 by done. by apply not_yet.
    + apply wp_bind. eapply wp_read.
      { rewrite lookup_with_states, Hi. cbn. unfold with_state. cbn. by rewrite Hc. }
      cbn [service]. unfold wp. rewrite (Hskip p s Hi Hc). rewrite !app_nil_r. split; [|done].
      apply with_states_ext. intros j (q & s' & Hj & Hcj). unfold after.
      assert (i <> j) by congruence. repeat case_bool_decide; set_solver.
  - apply wp_bind. eapply wp_read; [by rewrite lookup_with_states, Hi|]. cbn [service with_state].
    apply wp_ret. rewrite !app_nil_r. split; [|done].
    apply with_states_ext. intros j (q & s' & Hj & Hcj). unfold after.
    assert (i <> j) by congruence. repeat case_bool_decide; set_solver.
Qed.

(** All profiles asked, and those that did not report at once reporting
    later: the notification goes out once, at the end. *)
Lemma wp_all (f : nat -> profile_service_t -> MM unit) order :
  length m0 = PROFILE_MAX -> check m0 = false ->
  (forall i p s, m0 !! i = Some (mk_slot (Some p) s) -> concerned p = true ->
     forall Q m, wp (ask i) Q m -> wp (f i p) Q m) ->
  (forall i p s m, m0 !! i = Some (mk_slot (Some p) s) -> concerned p = false -> f i p m = Some (tt, m, [])) ->
  NoDup order -> (forall i, i ∈ order <-> is_concerned m0 i /\ sync i = None) ->
  wp (for_profiles f;;; efor order cb) (fun _ m' o => count_note o = 1%nat /\ list.last o = Some note /\
    Forall (fun x => x = note \/ exists i, x = req i) o /\
    exists st, m' = with_states st m0 /\ forall i, is_concerned m0 i -> st i = goal) m0.
Proof.
  intros Hlen Hcheck Hask Hskip Hnd Hord. unfold for_profiles. apply wp_bind.
  eapply wp_mono; [|apply (wp_for_seen loop_inv)].
  - intros [] m1 o1 [-> Ht1]. cbn beta. eapply wp_mono; [|apply (wp_reports order _ o1 Hnd); [|exact Ht1]].
    + intros [] m2 o2 (st & -> & Ht2 & Hst).
      assert (forall i, is_concerned m0 i -> st i = goal) as Hall.
      { intros i Hi. rewrite Hst. case_bool_decide as Hin; [done|]. unfold after.
        assert (i ∈ seq 0 PROFILE_MAX) as Hs.
        { destruct Hi as (p & s & Hi & _). apply elem_of_seq. apply lookup_lt_Some in Hi. lia. }
        rewrite bool_decide_eq_true_2 by done. unfold asked. destruct (sync i) eqn:E; [done|].
        exfalso. apply Hin, Hord. done. }
      destruct Ht2 as [Hreq Ht2]. rewrite (proj2 (check_spec st) Hall) in Ht2. destruct Ht2 as [Hc Hl].
      split; [done|]. split; [done|]. split; [done|]. by exists st.
    + intros i Hi. apply Hord in Hi as [Hi Hs]. split; [done|]. unfold after, asked. rewrite Hs.
      case_bool_decide; [|by apply not_yet]. destruct mid as [g|]; [|by apply not_yet]. cbn. intros ->. done.
  - intros pre i post m1 o1 Hseq HI. apply (wp_round f pre i post m1 o1 Hseq Hlen HI); [apply Hask|].
    intros p s. apply Hskip.
  - split.
    + unfold after. symmetry. rewrite <- with_states_orig at 2. apply with_states_ext. intros i _.
      rewrite bool_decide_eq_false_2; [done|apply not_elem_of_nil].
    + split; [constructor|]. by rewrite Hcheck.
Qed.
End Waiting.

(** ** Start and shutdown *)

Definition starts (t : bt_transport_t) (p : profile_service_t) : bool :=
  bool_decide (p.(transport) = t) && p.(auto_start).

Definition stops (t : bt_transport_t) (p : profile_service_t) : bool := bool_decide (p.(transport) = t).

(** A check over the table is about every slot. *)
Lemma forallb_lookup {A} (f : A -> bool) l : forallb f l = true <-> forall i x, l !! i = Some x -> f x = true.
Proof.
  rewrite forallb_forall. split.
  - intros H i x Hi. apply H, list_elem_of_In, list_elem_of_lookup. eauto.
  - intros H x Hx. apply list_elem_of_In, list_elem_of_lookup in Hx as [i Hi]. eauto.
Qed.

Lemma startup_check t m :
  (forall i p s, m !! i = Some (mk_slot (Some p) s) -> starts t p = true -> profile_state p <> 0%Z) ->
  forall st, check_is_all_startup t (with_states (starts t) st m) = true
             <-> (forall i, is_concerned (starts t) m i -> st i = TURN_ON).
Proof.
  intros Hst st. unfold check_is_all_startup. rewrite forallb_lookup. split.
  - intros H i (p & s & Hi & Hc).
    specialize (H i _ (with_states_concerned (starts t) m st i p s Hi Hc)). cbn in H.
    unfold starts in Hc. pose proof (Hst i p s Hi Hc) as Hz. rewrite Hc in H. cbn in H.
    apply Z.eqb_neq in Hz. rewrite Hz, andb_true_r, negb_involutive in H. by apply bool_decide_eq_true in H.
  - intros H i x Hx. rewrite lookup_with_states in Hx. destruct (m !! i) as [[[p|] s]|] eqn:Hi; try done;
      cbn in Hx; [|by injection Hx as <-]. unfold with_state in Hx. cbn in Hx. injection Hx as <-.
    destruct (starts t p) eqn:Hc; cbn; [rewrite (H i) by (by exists p, s)|]; unfold starts in Hc; rewrite Hc.
    + by rewrite bool_decide_eq_true_2.
    + done.
Qed.

Lemma shutdown_check t m :
  (forall i p s, m !! i = Some (mk_slot (Some p) s) -> stops t p = true -> profile_state p <> 0%Z) ->
  forall st, check_is_all_shutdown t (with_states (stops t) st m) = true
             <-> (forall i, is_concerned (stops t) m i -> st i = TURN_OFF).
Proof.
  intros Hst st. unfold check_is_all_shutdown. rewrite forallb_lookup. split.
  - intros H i (p & s & Hi & Hc).
    specialize (H i _ (with_states_concerned (stops t) m st i p s Hi Hc)). cbn in H.
    unfold stops in Hc. pose proof (Hst i p s Hi Hc) as Hz. rewrite Hc in H. cbn in H.
    apply Z.eqb_neq in Hz. rewrite Hz, andb_true_r, negb_involutive in H. by apply bool_decide_eq_true in H.
  - intros H i x Hx. rewrite lookup_with_states in Hx. destruct (m !! i) as [[[p|] s]|] eqn:Hi; try done;
      cbn in Hx; [|by injection Hx as <-]. unfold with_state in Hx. cbn in Hx. injection Hx as <-.
    destruct (stops t p) eqn:Hc; cbn; [rewrite (H i) by (by exists p, s)|]; unfold stops in Hc; rewrite Hc.
    + by rewrite bool_decide_eq_true_2.
    + done.
Qed.

Lemma on_startup_report t m st i Q :
  is_concerned (starts t) m i ->
  wp (report TURN_ON (check_is_all_startup t) (adapter_on_profile_services_startup t true) i) Q
     (with_states (starts t) st m) ->
  wp (service_on_startup i true) Q (with_states (starts t) st m).
Proof.
  intros (p & s & Hi & Hc) H. unfold service_on_startup, profile_at. apply wp_bind, wp_bind.
  eapply wp_read; [by eapply with_states_concerned|]. eapply wp_read; [done|].
  unfold starts in Hc. apply andb_prop in Hc as [Hc _]. apply bool_decide_eq_true in Hc. rewrite Hc. exact H.
Qed.

Lemma on_shutdown_report t m st i Q :
  is_concerned (stops t) m i ->
  wp (report TURN_OFF (check_is_all_shutdown t) (adapter_on_profile_services_shutdown t true) i) Q
     (with_states (stops t) st m) ->
  wp (service_on_shutdown i true) Q (with_states (stops t) st m).
Proof.
  intros (p & s & Hi & Hc) H. unfold service_on_shutdown, profile_at. apply wp_bind, wp_bind.
  eapply wp_read; [by eapply with_states_concerned|]. eapply wp_read; [done|].
  unfold stops in Hc. apply bool_decide_eq_true in Hc. rewrite Hc. exact H.
Qed.

(** No profile concerned is in the goal state, yet the check finds none
    missing: there is none. *)
Lemma nothing_concerned goal concerned (check : slots_t -> bool) m order sync :
  (forall st, check (with_states concerned st m) = true <-> (forall i, is_concerned concerned m i -> st i = goal)) ->
  (forall i, is_concerned concerned m i -> orig m i <> goal) ->
  (forall i, i ∈ order <-> is_concerned concerned m i /\ sync i = None (A := bool)) ->
  check m = true -> (forall i, is_concerned concerned m i -> False) /\ order = [].
Proof.
  intros Hcheck Hne Hord Hm. rewrite <- (with_states_orig concerned m), Hcheck in Hm.
  assert (forall i, is_concerned concerned m i -> False) as Hno by (intros i Hi; by apply (Hne i Hi), Hm).
  split; [done|]. destruct order as [|i order]; [done|]. exfalso. apply (Hno i), Hord. by left.
Qed.

Lemma count_hit n o : count_note n (n :: o) = S (count_note n o).
Proof. unfold count_note. by rewrite filter_cons_True. Qed.

Lemma count_miss n x o : x <> n -> count_note n (x :: o) = count_note n o.
Proof. intros H. unfold count_note. by rewrite filter_cons_False. Qed.

Lemma count_single n : count_note n [n] = 1%nat.
Proof. unfold count_note. by rewrite filter_cons_True. Qed.

Lemma orig_of m i p s : m !! i = Some (mk_slot (Some p) s) -> orig m i = s.
Proof. intros H. unfold orig. by rewrite H. Qed.

(** The start of the profiles of [t] that the code makes, as the loop above. *)
Definition startup_of (sync : nat -> option bool) (t : bt_transport_t) (i : nat) (p : profile_service_t) : MM unit :=
  ewhen (p.(has_startup) && p.(auto_start) && bool_decide (p.(transport) = t)) (
    set_state i TURNING_ON;;;
    eemit (profile_startup p.(id) true);;;
    match sync p.(id) with Some ret => service_on_startup p.(id) ret | None => eret tt end).

Definition shutdown_of (sync : nat -> option bool) (t : bt_transport_t) (i : nat) (p : profile_service_t) : MM unit :=
  ewhen (p.(has_shutdown) && bool_decide (p.(transport) = t)) (
    eemit (profile_shutdown p.(id) true);;;
    match sync p.(id) with Some ret => service_on_shutdown p.(id) ret | None => eret tt end).

Lemma startup_of_ask sync t i p :
  starts t p = true -> p.(has_startup) = true -> p.(id) = i -> sync i <> Some false ->
  forall Q m,
    wp (ask (fun i => profile_startup i true) (fun i => service_on_startup i true) sync (Some TURNING_ON) i) Q m ->
    wp (startup_of sync t i p) Q m.
Proof.
  intros Hc Hs Hid Hsync Q m. apply andb_prop in Hc as [H1 H2]. unfold startup_of, ask. rewrite Hs, H1, H2, Hid. cbn [andb ewhen].
  by destruct (sync i) as [[|]|].
Qed.

Lemma startup_of_skip sync t i p m : starts t p = false -> startup_of sync t i p m = Some (tt, m, []).
Proof.
  intros Hc. unfold startup_of, starts in *. destruct (has_startup p), (auto_start p), (bool_decide (transport p = t)); done.
Qed.

Lemma shutdown_of_ask sync t i p :
  stops t p = true -> p.(has_shutdown) = true -> p.(id) = i -> sync i <> Some false ->
  forall Q m, wp (ask (fun i => profile_shutdown i true) (fun i => service_on_shutdown i true) sync None i) Q m ->
  wp (shutdown_of sync t i p) Q m.
Proof.
  intros Hc Hs Hid Hsync Q m H. unfold stops in Hc. unfold ask in H. rewrite wp_bind, wp_ret in H.
  unfold shutdown_of. rewrite Hs, Hc, Hid. cbn [andb ewhen]. by destruct (sync i) as [[|]|].
Qed.

Lemma shutdown_of_skip sync t i p m : stops t p = false -> shutdown_of sync t i p m = Some (tt, m, []).
Proof.
  intros Hc. unfold shutdown_of, stops in *. rewrite Hc, andb_false_r. done.
Qed.

(** The whole exchange, with the table and the calls it leaves. *)
Lemma startup_reports (sync : nat -> option bool) (t : bt_transport_t) (m : slots_t) (order : list nat) :
  table_wf m ->
  (forall i p st, m !! i = Some (mk_slot (Some p) st) -> starts t p = true ->
     p.(has_startup) = true /\ profile_state p <> 0%Z /\ st <> TURN_ON /\ sync i <> Some false) ->
  NoDup order -> (forall i, i ∈ order <-> is_concerned (starts t) m i /\ sync i = None) ->
  exists m' o st,
    (service_manager_startup sync t;;; efor order (fun i => service_on_startup i true)) m = Some (tt, m', o) /\
    count_note (adapter_on_profile_services_startup t true) o = 1%nat /\
    list.last o = Some (adapter_on_profile_services_startup t true) /\
    Forall (fun x => x = adapter_on_profile_services_startup t true \/ exists i, x = profile_startup i true) o /\
    m' = with_states (starts t) st m /\ forall i, is_concerned (starts t) m i -> st i = TURN_ON.
Proof.
  intros [Hlen Hid] Hp Hnd Hord.
  assert (Hcheck := startup_check t m (fun i p s Hi H => proj1 (proj2 (Hp i p s Hi H)))).
  assert (forall i, is_concerned (starts t) m i -> orig m i <> TURN_ON) as Hne.
  { intros i (p & s & Hi & Hc). rewrite (orig_of _ _ _ _ Hi). by apply (Hp i p s Hi Hc). }
  set (Q := fun (_ : unit) (m' : slots_t) o => count_note (adapter_on_profile_services_startup t true) o = 1%nat /\
       list.last o = Some (adapter_on_profile_services_startup t true) /\
       Forall (fun x => x = adapter_on_profile_services_startup t true \/ exists i, x = profile_startup i true) o /\
       exists st, m' = with_states (starts t) st m /\ forall i, is_concerned (starts t) m i -> st i = TURN_ON).
  assert (wp (service_manager_startup sync t;;; efor order (fun i => service_on_startup i true)) Q m) as Hw;
    [|apply wp_run in Hw as ([] & m' & o & Hrun & H1 & H2 & H3 & st & H4 & H5); by exists m', o, st].
  unfold service_manager_startup. apply wp_bind, wp_bind, wp_gets.
  destruct (check_is_all_startup t m) eqn:E.
  - destruct (nothing_concerned _ _ _ _ _ _ Hcheck Hne Hord E) as [Hno ->]. wp_simpl.
    split; [apply count_single|]. split; [done|]. split; [constructor; [by left|constructor]|].
    exists (orig m). split; [by rewrite with_states_orig|]. intros i Hi. destruct (Hno i Hi).
  - assert (Hall := wp_all TURN_ON (starts t) (check_is_all_startup t) _ m Hcheck (fun i => profile_startup i true)
      _ (on_startup_report t m) sync (Some TURNING_ON) ltac:(done) ltac:(done) Hne (startup_of sync t) order Hlen E).
    rewrite wp_bind in Hall. eapply wp_mono; [|apply Hall; [| |done|done]].
    + intros [] m1 o1 H1. eapply wp_mono; [|exact H1]. intros [] m' o (Hn & Hl & Hreq & Hst).
      split; [exact Hn|]. split; [exact Hl|]. split; [exact Hreq|exact Hst].
    + intros i p s Hi Hc. destruct (Hp i p s Hi Hc) as (? & _ & _ & ?).
      by apply startup_of_ask; [| |eapply Hid|].
    + intros i p s m1 _ Hc. by apply startup_of_skip.
Qed.

Lemma shutdown_reports (sync : nat -> option bool) (t : bt_transport_t) (m : slots_t) (order : list nat) :
  table_wf m ->
  (forall i p st, m !! i = Some (mk_slot (Some p) st) -> stops t p = true ->
     p.(has_shutdown) = true /\ profile_state p <> 0%Z /\ st <> TURN_OFF /\ sync i <> Some false) ->
  NoDup order -> (forall i, i ∈ order <-> is_concerned (stops t) m i /\ sync i = None) ->
  exists m' o st,
    (service_manager_shutdown sync t;;; efor order (fun i => service_on_shutdown i true)) m = Some (tt, m', o) /\
    count_note (adapter_on_profile_services_shutdown t true) o = 1%nat /\
    list.last o = Some (adapter_on_profile_services_shutdown t true) /\
    Forall (fun x => x = adapter_on_profile_services_shutdown t true \/ exists i, x = profile_shutdown i true) o /\
    m' = with_states (stops t) st m /\ forall i, is_concerned (stops t) m i -> st i = TURN_OFF.
Proof.
  intros [Hlen Hid] Hp Hnd Hord.
  assert (Hcheck := shutdown_check t m (fun i p s Hi H => proj1 (proj2 (Hp i p s Hi H)))).
  assert (forall i, is_concerned (stops t) m i -> orig m i <> TURN_OFF) as Hne.
  { intros i (p & s & Hi & Hc). rewrite (orig_of _ _ _ _ Hi). by apply (Hp i p s Hi Hc). }
  set (Q := fun (_ : unit) (m' : slots_t) o => count_note (adapter_on_profile_services_shutdown t true) o = 1%nat /\
       list.last o = Some (adapter_on_profile_services_shutdown t true) /\
       Forall (fun x => x = adapter_on_profile_services_shutdown t true \/ exists i, x = profile_shutdown i true) o /\
       exists st, m' = with_states (stops t) st m /\ forall i, is_concerned (stops t) m i -> st i = TURN_OFF).
  assert (wp (service_manager_shutdown sync t;;; efor order (fun i => service_on_shutdown i true)) Q m) as Hw;
    [|apply wp_run in Hw as ([] & m' & o & Hrun & H1 & H2 & H3 & st & H4 & H5); by exists m', o, st].
  unfold service_manager_shutdown. apply wp_bind, wp_bind, wp_gets.
  destruct (check_is_all_shutdown t m) eqn:E.
  - destruct (nothing_concerned _ _ _ _ _ _ Hcheck Hne Hord E) as [Hno ->]. wp_simpl.
    split; [apply count_single|]. split; [done|]. split; [constructor; [by left|constructor]|].
    exists (orig m). split; [by rewrite with_states_orig|]. intros i Hi. destruct (Hno i Hi).
  - assert (Hall := wp_all TURN_OFF (stops t) (check_is_all_shutdown t) _ m Hcheck (fun i => profile_shutdown i true)
      _ (on_shutdown_report t m) sync None ltac:(done) ltac:(done) Hne (shutdown_of sync t) order Hlen E).
    rewrite wp_bind in Hall. eapply wp_mono; [|apply Hall; [| |done|done]].
    + intros [] m1 o1 H1. eapply wp_mono; [|exact H1]. intros [] m' o (Hn & Hl & Hreq & Hst).
      split; [exact Hn|]. split; [exact Hl|]. split; [exact Hreq|exact Hst].
    + intros i p s Hi Hc. destruct (Hp i p s Hi Hc) as (? & _ & _ & ?).
      by apply shutdown_of_ask; [| |eapply Hid|].
    + intros i p s m1 _ Hc. by apply shutdown_of_skip.
Qed.

(** ** Claims *)

(** The adapter asks for the profiles of a transport to be started, none
    of which is up; each that starts automatically has a start function and
    reports success, at once or later, in any order.  Then the adapter is
    told exactly once that they are up, it is told last, and they are all
    up. *)
Theorem startup_told_once (sync : nat -> option bool) (t : bt_transport_t) (m : slots_t) (order : list nat) :
  table_wf m ->
  (forall i p st, m !! i = Some (mk_slot (Some p) st) -> starts t p = true ->
     p.(has_startup) = true /\ profile_state p <> 0%Z /\ st <> TURN_ON /\ sync i <> Some false) ->
  NoDup order -> (forall i, i ∈ order <-> is_concerned (starts t) m i /\ sync i = None) ->
  exists m' o,
    (service_manager_startup sync t;;; efor order (fun i => service_on_startup i true)) m = Some (tt, m', o) /\
    count_note (adapter_on_profile_services_startup t true) o = 1%nat /\
    list.last o = Some (adapter_on_profile_services_startup t true) /\
    forall i, is_concerned (starts t) m i -> state <$> m' !! i = Some TURN_ON.
Proof.
  intros Hwf Hp Hnd Hord. destruct (startup_reports sync t m order Hwf Hp Hnd Hord) as (m' & o & st & H1 & H2 & H3 & _ & -> & Hst).
  eexists _, o. split; [exact H1|]. split; [done|]. split; [done|]. intros i Hi.
  pose proof Hi as (p & s & Hs & Hc). by rewrite (with_states_concerned _ _ _ _ _ _ Hs Hc), <- (Hst i Hi).
Qed.

(** The adapter asks for the profiles of a transport to be shut down, none
    of which is off; each has a shutdown function and reports success, at once
    or later, in any order.  Then the adapter is told exactly once that they
    are down, it is told last, and they are all off. *)
Theorem shutdown_told_once (sync : nat -> option bool) (t : bt_transport_t) (m : slots_t) (order : list nat) :
  table_wf m ->
  (forall i p st, m !! i = Some (mk_slot (Some p) st) -> stops t p = true ->
     p.(has_shutdown) = true /\ profile_state p <> 0%Z /\ st <> TURN_OFF /\ sync i <> Some false) ->
  NoDup order -> (forall i, i ∈ order <-> is_concerned (stops t) m i /\ sync i = None) ->
  exists m' o,
    (service_manager_shutdown sync t;;; efor order (fun i => service_on_shutdown i true)) m = Some (tt, m', o) /\
    count_note (adapter_on_profile_services_shutdown t true) o = 1%nat /\
    list.last o = Some (adapter_on_profile_services_shutdown t true) /\
    forall i, is_concerned (stops t) m i -> state <$> m' !! i = Some TURN_OFF.
Proof.
  intros Hwf Hp Hnd Hord. destruct (shutdown_reports sync t m order Hwf Hp Hnd Hord) as (m' & o & st & H1 & H2 & H3 & _ & -> & Hst).
  eexists _, o. split; [exact H1|]. split; [done|]. split; [done|]. intros i Hi.
  pose proof Hi as (p & s & Hs & Hc). by rewrite (with_states_concerned _ _ _ _ _ _ Hs Hc), <- (Hst i Hi).
Qed.

(** Two BR/EDR profiles, the second of which reports at once. *)
Definition demo_profile (i : nat) : profile_service_t :=
  mk_profile i true BT_TRANSPORT_BREDR empty_uuid true true true false None true true.

Definition demo_table (st : profile_service_state) : slots_t :=
  <[0%nat := mk_slot (Some (demo_profile 0)) st]> (<[1%nat := mk_slot (Some (demo_profile 1)) st]> service_slots).

Definition demo_sync (i : nat) : option bool := if (i =? 1)%nat then Some true else None.

Lemma demo_slots st i p s :
  demo_table st !! i = Some (mk_slot (Some p) s) -> (i = 0%nat \/ i = 1%nat) /\ p = demo_profile i /\ s = st.
Proof.
  unfold demo_table. intros H. destruct i as [|[|i]]; cbn in H; [by simplify_eq; auto..|].
  change (service_slots !! S (S i) = Some (mk_slot (Some p) s)) in H.
  apply lookup_replicate in H as [H _]. discriminate H.
Qed.

Lemma demo_wf st : table_wf (demo_table st).
Proof. split; [reflexivity|]. intros i p s H. by destruct (demo_slots st i p s H) as (_ & -> & _). Qed.

Lemma demo_order st (rel : bt_transport_t -> profile_service_t -> bool) :
  rel BT_TRANSPORT_BREDR (demo_profile 0) = true ->
  forall i, i ∈ [0%nat] <-> is_concerned (rel BT_TRANSPORT_BREDR) (demo_table st) i /\ demo_sync i = None.
Proof.
  intros Hr i. rewrite list_elem_of_singleton. split.
  - intros ->. split; [|done]. by exists (demo_profile 0), st.
  - intros [(p & s & H & _) Hs]. destruct (demo_slots st i p s H) as ([->| ->] & _); done.
Qed.

Lemma startup_told_once_witness :
  exists m' o, (service_manager_startup demo_sync BT_TRANSPORT_BREDR;;;
                efor [0%nat] (fun i => service_on_startup i true)) (demo_table TURN_OFF) = Some (tt, m', o) /\
    count_note (adapter_on_profile_services_startup BT_TRANSPORT_BREDR true) o = 1%nat.
Proof.
  destruct (startup_told_once demo_sync BT_TRANSPORT_BREDR (demo_table TURN_OFF) [0%nat]) as (m' & o & H1 & H2 & _).
  - exact (demo_wf TURN_OFF).
  - intros i p st H _. destruct (demo_slots _ _ _ _ H) as ([->| ->] & -> & ->); repeat split; discriminate.
  - apply NoDup_singleton.
  - apply (demo_order TURN_OFF starts). reflexivity.
  - exists m', o. split; [exact H1|exact H2].
Defined.

Lemma shutdown_told_once_witness :
  exists m' o, (service_manager_shutdown demo_sync BT_TRANSPORT_BREDR;;;
                efor [0%nat] (fun i => service_on_shutdown i true)) (demo_table TURN_ON) = Some (tt, m', o) /\
    count_note (adapter_on_profile_services_shutdown BT_TRANSPORT_BREDR true) o = 1%nat.
Proof.
  destruct (shutdown_told_once demo_sync BT_TRANSPORT_BREDR (demo_table TURN_ON) [0%nat]) as (m' & o & H1 & H2 & _).
  - exact (demo_wf TURN_ON).
  - intros i p st H _. destruct (demo_slots _ _ _ _ H) as ([->| ->] & -> & ->); repeat split; discriminate.
  - apply NoDup_singleton.
  - apply (demo_order TURN_ON stops). reflexivity.
  - exists m', o. split; [exact H1|exact H2].
Defined.

(** A profile that is off while another of its transport is up is shut down
    too, and reports: the adapter is told twice. *)
Theorem shutdown_told_twice :
  let m := <[1%nat := mk_slot (Some (demo_profile 1)) TURN_OFF]> (demo_table TURN_ON) in
  option_map (fun r => count_note (adapter_on_profile_services_shutdown BT_TRANSPORT_BREDR true) r.2)
    (service_manager_shutdown (fun _ => Some true) BT_TRANSPORT_BREDR m) = Some 2%nat.
Proof. vm_compute. reflexivity. Qed.

(** A profile that reports before it returns calls the NULL callback of
    [service_manager_control]. *)
Theorem control_start_calls_null (m : slots_t) (i : nat) (p : profile_service_t) st ret sync r :
  m !! i = Some (mk_slot (Some p) st) -> p.(has_startup) = true -> sync i = Some r ->
  service_manager_control sync i CONTROL_CMD_START ret m = None.
Proof.
  intros H Hs Hr. unfold service_manager_control, ebind, eread. rewrite H. cbn. by rewrite Hs, Hr.
Qed.

End ServiceManager.
