(* ===== verification/Bringup.v ===== *)
(** * Adapter and profiles together

    The adapter's machine asks the service manager to start or shut down the
    profiles of a transport, and the service manager posts a message to the
    machine when they have all reported.  Here the two components of
    AdapterState.v and ServiceManager.v are put together: a call one makes to
    the other is the other's function, not an output. *)

From S2P Require Import Prelude Fallible Hsm AdapterState ServiceManager.

Module Bringup.
Import Hsm AdapterState.
Local Open Scope fall_scope.

Record system := mk_system { adapter : adapter_service_t; profiles : ServiceManager.slots_t }.

(** What a call of the service manager does to the adapter. *)
Definition deliver_sm (a : adapter_service_t) (o : ServiceManager.out) : adapter_service_t :=
  match o with
  | ServiceManager.adapter_on_profile_services_startup t _ => adapter_on_profile_services_startup t a
  | ServiceManager.adapter_on_profile_services_shutdown t _ => adapter_on_profile_services_shutdown t a
  | _ => a
  end.

(** A function of the service manager runs. *)
Definition run_sm (h : E ServiceManager.slots_t ServiceManager.out unit) (s : system) : option system :=
  match h s.(profiles) with
  | Some (_, m, os) => Some (mk_system (fold_left deliver_sm os s.(adapter)) m)
  | None => None
  end.

Section System.
Context (cfg : config) (e : env).
(** [service_manager_startup] and [service_manager_shutdown]. *)
Context (start stop : bt_transport_t -> E ServiceManager.slots_t ServiceManager.out unit).

(** What a call of the adapter's machine does. *)
Definition deliver_sys (s : option system) (o : out) : option system :=
  s ← s;
  match o with
  | service_manager_startup t => run_sm (start t) s
  | service_manager_shutdown t => run_sm (stop t) s
  | _ => Some (mk_system (deliver cfg s.(adapter) o) s.(profiles))
  end.

(** The loop takes the oldest message. *)
Definition sys_loop (s : system) : option system :=
  match s.(adapter).(msg_queue) with
  | [] => Some s
  | ev :: q =>
      let '(_, sm', os) := dispatch cfg e ev s.(adapter).(stm) in
      fold_left deliver_sys os (Some (mk_system (mk_service sm' s.(adapter).(adapter_state) q) s.(profiles)))
  end.

(** A message from outside is posted and the loop runs. *)
Definition sys_post (f : adapter_service_t -> adapter_service_t) (s : system) : option system :=
  sys_loop (mk_system (f s.(adapter)) s.(profiles)).
End System.

Section Sessions.
Context (cfg : config) (e : env) (sync : nat -> option bool).

Abbreviation loop := (sys_loop cfg e (ServiceManager.service_manager_startup sync)
                        (ServiceManager.service_manager_shutdown sync)).
Abbreviation post := (sys_post cfg e (ServiceManager.service_manager_startup sync)
                        (ServiceManager.service_manager_shutdown sync)).

(** The profiles of [order] report that they have started, one by one. *)
Definition started (order : list nat) : system -> option system :=
  run_sm (efor order (fun i => ServiceManager.service_on_startup i true)).
Definition stopped (order : list nat) : system -> option system :=
  run_sm (efor order (fun i => ServiceManager.service_on_shutdown i true)).

(** The user turns Bluetooth on; the stack answers; [ble] and [bredr] are the
    profiles that report later than their start function returns. *)
Definition turn_on (ble bredr : list nat) (s : system) : option system :=
  s ← post (fun a => snd (adapter_enable SYS_SET_BT_ALL a)) s;
  s ← post (adapter_on_adapter_state_changed BLE_STACK_STATE_ON) s;
  s ← started ble s;
  s ← loop s;
  s ← loop s;
  s ← post (adapter_on_adapter_state_changed BT_BREDR_STACK_STATE_ON) s;
  s ← started bredr s;
  loop s.

(** The user turns it off safely: links, profiles, then the radios. *)
Definition turn_off (bredr ble : list nat) (s : system) : option system :=
  s ← post (fun a => snd (adapter_disable SYS_SET_BT_ALL a)) s;
  s ← post (send_to_state_machine BREDR_ACL_ALL_DISCONNECTED) s;
  s ← stopped bredr s;
  s ← loop s;
  s ← post (adapter_on_adapter_state_changed BT_BREDR_STACK_STATE_OFF) s;
  s ← post (send_to_state_machine BLE_ACL_ALL_DISCONNECTED) s;
  s ← stopped ble s;
  s ← loop s;
  post (adapter_on_adapter_state_changed BLE_STACK_STATE_OFF) s.
End Sessions.

(** ** Lemmas *)

(** Two functions of the service manager one after the other. *)
Lemma run_sm_seq h1 h2 s : (s ← run_sm h1 s; run_sm h2 s) = run_sm (h1;;; h2) s.
Proof.
  unfold run_sm, ebind. destruct (h1 (profiles s)) as [[[[] m1] o1]|]; [|done]. cbn.
  destruct (h2 m1) as [[[[] m2] o2]|]; [|done]. by rewrite fold_left_app.
Qed.

(** Requests to the profiles do nothing to the adapter; one notification does. *)
Lemma deliver_once note (req : nat -> ServiceManager.out) os a :
  (forall i a, deliver_sm a (req i) = a) -> (forall i, req i <> note) ->
  Forall (fun x => x = note \/ exists i, x = req i) os -> ServiceManager.count_note note os = 1%nat ->
  fold_left deliver_sm os a = deliver_sm a note.
Proof.
  intros Hreq Hne. revert a.
  assert (forall os a, Forall (fun x => x = note \/ exists i, x = req i) os ->
    ServiceManager.count_note note os = O -> fold_left deliver_sm os a = a) as H0.
  { induction os0 as [|o os0 IH]; intros a Hall Hc; [done|]. apply Forall_cons_iff in Hall as [[->|[i ->]] Hall].
    - by rewrite ServiceManager.count_hit in Hc.
    - rewrite ServiceManager.count_miss in Hc by done. cbn. rewrite Hreq. by apply IH. }
  induction os as [|o os IH]; intros a Hall Hc; [done|]. apply Forall_cons_iff in Hall as [[->|[i ->]] Hall].
  - rewrite ServiceManager.count_hit in Hc. cbn. apply H0; [done|lia].
  - rewrite ServiceManager.count_miss in Hc by done. cbn. rewrite Hreq. by apply IH.
Qed.

(** *** The adapter's side, for any service manager *)

(** The adapter after the same messages with nobody listening ([loop_step]). *)
Definition on1 (cfg : config) (e : env) (a : adapter_service_t) : adapter_service_t :=
  post_and_run cfg e (adapter_on_adapter_state_changed BLE_STACK_STATE_ON)
    (post_and_run cfg e (fun a => snd (adapter_enable SYS_SET_BT_ALL a)) a).
Definition on2 (cfg : config) (e : env) (a : adapter_service_t) : adapter_service_t :=
  post_and_run cfg e (adapter_on_adapter_state_changed BT_BREDR_STACK_STATE_ON)
    (loop_step cfg e (post_and_run cfg e (adapter_on_profile_services_startup BT_TRANSPORT_BLE) (on1 cfg e a))).

Lemma phases_on cfg e start stop a m m' m'' :
  cfg.(ble_support) = true -> cfg.(bredr_support) = true -> env_ok e ->
  a.(stm).(current_state) = Some off_state -> a.(adapter_state) = BT_ADAPTER_STATE_OFF -> a.(msg_queue) = [] ->
  (s ← sys_post cfg e start stop (fun a => snd (adapter_enable SYS_SET_BT_ALL a)) (mk_system a m);
   sys_post cfg e start stop (adapter_on_adapter_state_changed BLE_STACK_STATE_ON) s)
  = run_sm (start BT_TRANSPORT_BLE) (mk_system (on1 cfg e a) m) /\
  (s ← sys_loop cfg e start stop (mk_system (adapter_on_profile_services_startup BT_TRANSPORT_BLE (on1 cfg e a)) m');
   s ← sys_loop cfg e start stop s;
   sys_post cfg e start stop (adapter_on_adapter_state_changed BT_BREDR_STACK_STATE_ON) s)
  = run_sm (start BT_TRANSPORT_BREDR) (mk_system (on2 cfg e a) m') /\
  sys_loop cfg e start stop (mk_system (adapter_on_profile_services_startup BT_TRANSPORT_BREDR (on2 cfg e a)) m'')
  = Some (mk_system (turn_on_session cfg e a) m'').
Proof.
  destruct cfg as [bs rs ms x y z], e as [s1 s2 nt], a as [[i p c [be po ao ho lo ts bts tm]] st q].
  intros Hb Hr [H1 H2] Hc Hs Hq; simpl in *; subst. destruct ms; vm_compute; auto.
Qed.
Definition off1 (cfg : config) (e : env) (a : adapter_service_t) : adapter_service_t :=
  post_and_run cfg e (send_to_state_machine BREDR_ACL_ALL_DISCONNECTED)
    (post_and_run cfg e (fun a => snd (adapter_disable SYS_SET_BT_ALL a)) a).
Definition off2 (cfg : config) (e : env) (a : adapter_service_t) : adapter_service_t :=
  post_and_run cfg e (send_to_state_machine BLE_ACL_ALL_DISCONNECTED)
    (post_and_run cfg e (adapter_on_adapter_state_changed BT_BREDR_STACK_STATE_OFF)
       (post_and_run cfg e (adapter_on_profile_services_shutdown BT_TRANSPORT_BREDR) (off1 cfg e a))).

(** The adapter publishes a state. *)
Definition publish (v : Z) (s : option system) : option system :=
  s ← s; Some (mk_system (mk_service s.(adapter).(stm) v s.(adapter).(msg_queue)) s.(profiles)).

(** The service manager does not read what is published. *)
Lemma run_sm_publish h v s : (s ← publish v s; run_sm h s) = publish v (s ← s; run_sm h s).
Proof.
  destruct s as [[[stm st q] m]|]; [|done]. unfold run_sm, publish. cbn.
  destruct (h m) as [[[[] m'] os]|]; [|done]. cbn. f_equal. f_equal.
  revert q. induction os as [|o os IH]; intros q; [done|]. cbn. destruct o; apply IH.
Qed.

Definition published (v : Z) (a : adapter_service_t) : adapter_service_t := mk_service a.(stm) v a.(msg_queue).

Lemma phases_off cfg e start stop a m m' m'' :
  cfg.(ble_support) = true ->
  a.(stm).(current_state) = Some on_state -> a.(adapter_state) = BT_ADAPTER_STATE_ON -> a.(msg_queue) = [] ->
  (s ← sys_post cfg e start stop (fun a => snd (adapter_disable SYS_SET_BT_ALL a)) (mk_system a m);
   sys_post cfg e start stop (send_to_state_machine BREDR_ACL_ALL_DISCONNECTED) s)
  = publish BT_ADAPTER_STATE_TURNING_OFF
      (run_sm (stop BT_TRANSPORT_BREDR) (mk_system (published BT_ADAPTER_STATE_ON (off1 cfg e a)) m)) /\
  (s ← sys_loop cfg e start stop (mk_system (published BT_ADAPTER_STATE_TURNING_OFF
     (adapter_on_profile_services_shutdown BT_TRANSPORT_BREDR (published BT_ADAPTER_STATE_ON (off1 cfg e a)))) m');
   s ← sys_post cfg e start stop (adapter_on_adapter_state_changed BT_BREDR_STACK_STATE_OFF) s;
   sys_post cfg e start stop (send_to_state_machine BLE_ACL_ALL_DISCONNECTED) s)
  = publish BT_ADAPTER_STATE_BLE_TURNING_OFF
      (run_sm (stop BT_TRANSPORT_BLE) (mk_system (published BT_ADAPTER_STATE_TURNING_OFF (off2 cfg e a)) m')) /\
  (s ← sys_loop cfg e start stop (mk_system (published BT_ADAPTER_STATE_BLE_TURNING_OFF
     (adapter_on_profile_services_shutdown BT_TRANSPORT_BLE (published BT_ADAPTER_STATE_TURNING_OFF (off2 cfg e a)))) m'');
   sys_post cfg e start stop (adapter_on_adapter_state_changed BLE_STACK_STATE_OFF) s)
  = Some (mk_system (turn_off_session cfg e a) m'').
Proof.
  destruct cfg as [bs rs ms x y z], e as [s1 s2 nt], a as [[i p c [be po ao ho lo ts bts tm]] st q].
  intros Hb Hc Hs Hq; simpl in *; subst. split; [|split]; vm_compute; try reflexivity.
  all: repeat case_match; simplify_eq; try reflexivity.
Qed.

(** *** The profiles' side *)

Import ServiceManager(table_wf, slots_t, mk_slot, profile_service_t, starts, stops, is_concerned, with_states, TURN_ON, TURN_OFF).

(** The profiles of [t] can be started: they are down and will report. *)
Definition startable (sync : nat -> option bool) (t : bt_transport_t) (m : slots_t) : Prop :=
  forall i p st, m !! i = Some (mk_slot (Some p) st) -> starts t p = true ->
    ServiceManager.has_startup p = true /\ ServiceManager.profile_state p <> 0%Z /\
    st <> TURN_ON /\ sync i <> Some false.

(** They can be shut down: they are up and will report. *)
Definition stoppable (sync : nat -> option bool) (t : bt_transport_t) (m : slots_t) : Prop :=
  forall i p st, m !! i = Some (mk_slot (Some p) st) -> stops t p = true ->
    ServiceManager.has_shutdown p = true /\ ServiceManager.profile_state p <> 0%Z /\
    st <> TURN_OFF /\ sync i <> Some false.

Section Transports.
(** [sel t]: the profiles of transport [t] an operation concerns. *)
Context (sel : bt_transport_t -> profile_service_t -> bool).
Hypothesis sel_transport : forall t p, sel t p = true -> ServiceManager.transport p = t.

(** [order]: those that report later, in some order. *)
Definition later (sync : nat -> option bool) (t : bt_transport_t) (m : slots_t) (order : list nat) : Prop :=
  NoDup order /\ forall i, i ∈ order <-> is_concerned (sel t) m i /\ sync i = None.

(** What one transport does leaves the profiles of the other as they are. *)
Lemma other_slots t t' st m i p s :
  t <> t' -> sel t' p = true ->
  with_states (sel t) st m !! i = Some (mk_slot (Some p) s) <-> m !! i = Some (mk_slot (Some p) s).
Proof.
  intros Hne Hp%sel_transport. rewrite ServiceManager.lookup_with_states.
  destruct (m !! i) as [[[q|] s']|] eqn:E; cbn; unfold ServiceManager.with_state; cbn; [|done|done].
  destruct (sel t q) eqn:Hq; [|done]. apply sel_transport in Hq. split; intros ?; simplify_eq.
Qed.

Lemma other_concerned t t' st m i :
  t <> t' -> is_concerned (sel t') (with_states (sel t) st m) i <-> is_concerned (sel t') m i.
Proof.
  intros Hne. split; intros (p & s & Hi & Hp); exists p, s; (split; [|done]);
    by apply (other_slots t t' st m i p s Hne Hp).
Qed.

Lemma other_later sync t t' st m order :
  t <> t' -> later sync t' m order -> later sync t' (with_states (sel t) st m) order.
Proof. intros Hne [Hnd Ho]. split; [done|]. intros i. by rewrite Ho, other_concerned. Qed.

Lemma with_states_wf t st m : table_wf m -> table_wf (with_states (sel t) st m).
Proof.
  intros [Hl Hid]. split; [unfold with_states; by rewrite length_imap|].
  intros i p s Hi. rewrite ServiceManager.lookup_with_states in Hi.
  destruct (m !! i) as [[[q|] s']|] eqn:E; cbn in Hi; [|done|done].
  unfold ServiceManager.with_state in Hi. cbn in Hi.
  destruct (sel t q); injection Hi as <- <-; by eapply Hid.
Qed.

(** One transport after the other: every profile ends where it was put. *)
Lemma both_transports t t' st st' m g :
  t <> t' ->
  (forall i, is_concerned (sel t) m i -> st i = g) ->
  (forall i, is_concerned (sel t') (with_states (sel t) st m) i -> st' i = g) ->
  forall u i p s, m !! i = Some (mk_slot (Some p) s) -> sel u p = true ->
  with_states (sel t') st' (with_states (sel t) st m) !! i = Some (mk_slot (Some p) g).
Proof.
  intros Hne Hst Hst' u i p s Hi Hp. pose proof (sel_transport _ _ Hp) as Hu.
  assert (u = t \/ u = t') as [->| ->] by (destruct u, t, t'; auto; congruence).
  - apply (other_slots t' t st' _ i p g (not_eq_sym Hne) Hp).
    rewrite (ServiceManager.with_states_concerned _ _ _ _ _ _ Hi Hp). do 2 f_equal. apply Hst. by exists p, s.
  - apply (other_slots t t' st m i p s Hne Hp) in Hi.
    rewrite (ServiceManager.with_states_concerned _ _ _ _ _ _ Hi Hp). do 2 f_equal. apply Hst'. by exists p, s.
Qed.
End Transports.

Lemma starts_transport t p : starts t p = true -> ServiceManager.transport p = t.
Proof. intros [H%bool_decide_eq_true _]%andb_prop. done. Qed.
Lemma stops_transport t p : stops t p = true -> ServiceManager.transport p = t.
Proof. apply bool_decide_eq_true. Qed.

Lemma other_startable sync t t' st m :
  t <> t' -> startable sync t' m -> startable sync t' (with_states (starts t) st m).
Proof. intros Hne H i p s Hi Hp. apply (H i p s); [|done]. by apply (other_slots starts starts_transport t t' st). Qed.
Lemma other_stoppable sync t t' st m :
  t <> t' -> stoppable sync t' m -> stoppable sync t' (with_states (stops t) st m).
Proof. intros Hne H i p s Hi Hp. apply (H i p s); [|done]. by apply (other_slots stops stops_transport t t' st). Qed.

(** The start of one transport, seen from the adapter. *)
Lemma start_transport sync t a m order :
  table_wf m -> startable sync t m -> later starts sync t m order ->
  exists st, (s ← run_sm (ServiceManager.service_manager_startup sync t) (mk_system a m); started order s)
    = Some (mk_system (adapter_on_profile_services_startup t a) (with_states (starts t) st m)) /\
    forall i, is_concerned (starts t) m i -> st i = TURN_ON.
Proof.
  intros Hwf Hs [Hnd Hord]. unfold started. rewrite run_sm_seq.
  destruct (ServiceManager.startup_reports sync t m order Hwf Hs Hnd Hord) as (m' & o & st & Hrun & Hc & _ & Hall & -> & Hst).
  exists st. split; [|done]. unfold run_sm. cbn [profiles adapter]. rewrite Hrun. do 2 f_equal.
  by apply (deliver_once (ServiceManager.adapter_on_profile_services_startup t true) (fun i => ServiceManager.profile_startup i true)).
Qed.

(** The shutdown, after which the adapter publishes [v]. *)
Lemma stop_transport sync t v a m order :
  table_wf m -> stoppable sync t m -> later stops sync t m order ->
  exists st, (s ← publish v (run_sm (ServiceManager.service_manager_shutdown sync t) (mk_system a m)); stopped order s)
    = Some (mk_system (published v (adapter_on_profile_services_shutdown t a)) (with_states (stops t) st m)) /\
    forall i, is_concerned (stops t) m i -> st i = TURN_OFF.
Proof.
  intros Hwf Hs [Hnd Hord]. unfold stopped. rewrite run_sm_publish, run_sm_seq.
  destruct (ServiceManager.shutdown_reports sync t m order Hwf Hs Hnd Hord) as (m' & o & st & Hrun & Hc & _ & Hall & -> & Hst).
  exists st. split; [|done]. unfold run_sm. cbn [profiles adapter mbind option_bind]. rewrite Hrun.
  rewrite (deliver_once (ServiceManager.adapter_on_profile_services_shutdown t true) (fun i => ServiceManager.profile_shutdown i true)); done.
Qed.

(** A prefix of two steps replaced by its result. *)
Lemma bind_two {A B C} (x : option A) (f : A -> option B) (y : option B) (k : B -> option C) :
  (a ← x; f a) = y -> (a ← x; b ← f a; k b) = (b ← y; k b).
Proof. intros <-. by destruct x. Qed.

Lemma bind_three {A B C D} (x : option A) (f : A -> option B) (g : B -> option C) (y : option C) (k : C -> option D) :
  (a ← x; b ← f a; g b) = y -> (a ← x; b ← f a; c ← g b; k c) = (c ← y; k c).
Proof. intros <-. destruct x as [a|]; [|done]. cbn. by destruct (f a). Qed.

Lemma bind_some {A B} (x : A) (k : A -> option B) : (a ← Some x; k a) = k x.
Proof. done. Qed.

(** Every profile an operation concerns is in state [g]. *)
Definition all_in (sel : bt_transport_t -> profile_service_t -> bool) (g : ServiceManager.profile_service_state)
    (m m' : slots_t) : Prop :=
  forall t i p s, m !! i = Some (mk_slot (Some p) s) -> sel t p = true -> m' !! i = Some (mk_slot (Some p) g).

(** ** Turning on and off *)

(** C12: The adapter is off and idle and its profiles are down; each profile
    that starts with the adapter has a start function and reports success, at
    once or later, in any order.  The user turns Bluetooth on and the stack
    answers.  Then the machine is On, On is published, no message is left, and
    every profile that starts with the adapter is up, of both transports. *)
Theorem system_turns_on (cfg : config) (e : env) (sync : nat -> option bool) (ble bredr : list nat) (s : system) :
  cfg.(ble_support) = true -> cfg.(bredr_support) = true -> env_ok e ->
  s.(adapter).(stm).(current_state) = Some off_state ->
  s.(adapter).(adapter_state) = BT_ADAPTER_STATE_OFF -> s.(adapter).(msg_queue) = [] ->
  table_wf s.(profiles) ->
  startable sync BT_TRANSPORT_BLE s.(profiles) -> startable sync BT_TRANSPORT_BREDR s.(profiles) ->
  later starts sync BT_TRANSPORT_BLE s.(profiles) ble -> later starts sync BT_TRANSPORT_BREDR s.(profiles) bredr ->
  exists s', turn_on cfg e sync ble bredr s = Some s' /\
    s'.(adapter).(stm).(current_state) = Some on_state /\
    s'.(adapter).(adapter_state) = BT_ADAPTER_STATE_ON /\ s'.(adapter).(msg_queue) = [] /\
    all_in starts TURN_ON s.(profiles) s'.(profiles).
Proof.
  destruct s as [a m]. cbn [adapter profiles]. intros Hb Hr He Hc Hs Hq Hwf Hs1 Hs2 Hl1 Hl2.
  destruct (start_transport sync BT_TRANSPORT_BLE (on1 cfg e a) m ble Hwf Hs1 Hl1) as (st1 & Hrun1 & Hst1).
  destruct (start_transport sync BT_TRANSPORT_BREDR (on2 cfg e a) (with_states (starts BT_TRANSPORT_BLE) st1 m) bredr) as (st2 & Hrun2 & Hst2).
  { by apply with_states_wf. }
  { by apply other_startable. }
  { apply other_later; [apply starts_transport|done|done]. }
  destruct (phases_on cfg e (ServiceManager.service_manager_startup sync) (ServiceManager.service_manager_shutdown sync)
              a m (with_states (starts BT_TRANSPORT_BLE) st1 m)
              (with_states (starts BT_TRANSPORT_BREDR) st2 (with_states (starts BT_TRANSPORT_BLE) st1 m)) Hb Hr He Hc Hs Hq) as (P1 & P2 & P3).
  eexists. split.
  { unfold turn_on. rewrite (bind_two _ _ _ _ P1), (bind_two _ _ _ _ Hrun1), bind_some.
    rewrite (bind_three _ _ _ _ _ P2), (bind_two _ _ _ _ Hrun2), bind_some. exact P3. }
  destruct (adapter_enable_reaches_on cfg e a Hb Hr He Hc Hs Hq) as (? & ? & ? & _). do 3 (split; [done|]).
  intros t i p s. by apply (both_transports starts starts_transport).
Qed.

(** A system with two BR/EDR profiles, one of which reports later. *)
Definition demo_system (a : adapter_service_t) (st : ServiceManager.profile_service_state) : system :=
  mk_system a (ServiceManager.demo_table st).

Lemma demo_none sel st : (forall t p, sel t p = true -> ServiceManager.transport p = t) ->
  later sel ServiceManager.demo_sync BT_TRANSPORT_BLE (ServiceManager.demo_table st) [].
Proof.
  intros Hsel. split; [constructor|]. intros i. split; [intros H; inversion H|]. intros [(p & s & H & Hp%Hsel) _].
  by destruct (ServiceManager.demo_slots _ _ _ _ H) as (_ & -> & _).
Qed.

Lemma demo_later sel st : sel BT_TRANSPORT_BREDR (ServiceManager.demo_profile 0) = true ->
  later sel ServiceManager.demo_sync BT_TRANSPORT_BREDR (ServiceManager.demo_table st) [0%nat].
Proof. intros H. split; [apply NoDup_singleton|]. by apply ServiceManager.demo_order. Qed.

Lemma system_turns_on_witness :
  exists s', turn_on demo_cfg demo_env ServiceManager.demo_sync [] [0%nat]
               (demo_system (service_new demo_cfg demo_env) TURN_OFF) = Some s' /\
    s'.(adapter).(adapter_state) = BT_ADAPTER_STATE_ON.
Proof.
  destruct (system_turns_on demo_cfg demo_env ServiceManager.demo_sync [] [0%nat]
              (demo_system (service_new demo_cfg demo_env) TURN_OFF)) as (s' & H & _ & Hs & _).
  1-6: vm_compute; auto.
  - exact (ServiceManager.demo_wf TURN_OFF).
  - intros i p st H _. destruct (ServiceManager.demo_slots _ _ _ _ H) as ([->| ->] & -> & ->); repeat split; discriminate.
  - intros i p st H _. destruct (ServiceManager.demo_slots _ _ _ _ H) as ([->| ->] & -> & ->); repeat split; discriminate.
  - exact (demo_none starts TURN_OFF starts_transport).
  - exact (demo_later starts TURN_OFF eq_refl).
  - exists s'. split; [exact H|exact Hs].
Defined.

(** C13: The other way: every profile is up and will report its shutdown, the
    adapter is On; the user turns Bluetooth off, the links go down and the
    stack answers.  Then the machine is Off, Off is published, no message and
    no safety timer is left, and every profile is off. *)
Theorem system_turns_off (cfg : config) (e : env) (sync : nat -> option bool) (bredr ble : list nat) (s : system) :
  cfg.(ble_support) = true ->
  s.(adapter).(stm).(current_state) = Some on_state ->
  s.(adapter).(adapter_state) = BT_ADAPTER_STATE_ON -> s.(adapter).(msg_queue) = [] ->
  table_wf s.(profiles) ->
  stoppable sync BT_TRANSPORT_BREDR s.(profiles) -> stoppable sync BT_TRANSPORT_BLE s.(profiles) ->
  later stops sync BT_TRANSPORT_BREDR s.(profiles) bredr -> later stops sync BT_TRANSPORT_BLE s.(profiles) ble ->
  exists s', turn_off cfg e sync bredr ble s = Some s' /\
    s'.(adapter).(stm).(current_state) = Some off_state /\
    s'.(adapter).(adapter_state) = BT_ADAPTER_STATE_OFF /\ s'.(adapter).(msg_queue) = [] /\
    s'.(adapter).(stm).(data).(disable_safe_timer) = None /\
    all_in stops TURN_OFF s.(profiles) s'.(profiles).
Proof.
  destruct s as [a m]. cbn [adapter profiles]. intros Hb Hc Hs Hq Hwf Hs1 Hs2 Hl1 Hl2.
  destruct (stop_transport sync BT_TRANSPORT_BREDR BT_ADAPTER_STATE_TURNING_OFF (published BT_ADAPTER_STATE_ON (off1 cfg e a)) m bredr Hwf Hs1 Hl1)
    as (st1 & Hrun1 & Hst1).
  destruct (stop_transport sync BT_TRANSPORT_BLE BT_ADAPTER_STATE_BLE_TURNING_OFF (published BT_ADAPTER_STATE_TURNING_OFF (off2 cfg e a))
              (with_states (stops BT_TRANSPORT_BREDR) st1 m) ble) as (st2 & Hrun2 & Hst2).
  { by apply with_states_wf. }
  { by apply other_stoppable. }
  { apply other_later; [apply stops_transport|done|done]. }
  destruct (phases_off cfg e (ServiceManager.service_manager_startup sync) (ServiceManager.service_manager_shutdown sync)
              a m (with_states (stops BT_TRANSPORT_BREDR) st1 m)
              (with_states (stops BT_TRANSPORT_BLE) st2 (with_states (stops BT_TRANSPORT_BREDR) st1 m)) Hb Hc Hs Hq)
    as (P1 & P2 & P3).
  eexists. split.
  { unfold turn_off. rewrite (bind_two _ _ _ _ P1), (bind_two _ _ _ _ Hrun1), bind_some.
    rewrite (bind_three _ _ _ _ _ P2), (bind_two _ _ _ _ Hrun2), bind_some. exact P3. }
  destruct (adapter_disable_reaches_off cfg e a Hb Hc Hs Hq) as (? & ? & ? & _ & ? & _). do 4 (split; [done|]).
  intros t i p s. by apply (both_transports stops stops_transport).
Qed.

Lemma system_turns_off_witness :
  exists s', turn_off demo_cfg demo_env ServiceManager.demo_sync [0%nat] []
               (demo_system (turn_on_session demo_cfg demo_env (service_new demo_cfg demo_env)) TURN_ON) = Some s' /\
    s'.(adapter).(adapter_state) = BT_ADAPTER_STATE_OFF.
Proof.
  destruct (system_turns_off demo_cfg demo_env ServiceManager.demo_sync [0%nat] []
              (demo_system (turn_on_session demo_cfg demo_env (service_new demo_cfg demo_env)) TURN_ON))
    as (s' & H & _ & Hs & _).
  1-4: vm_compute; auto.
  - exact (ServiceManager.demo_wf TURN_ON).
  - intros i p st H _. destruct (ServiceManager.demo_slots _ _ _ _ H) as ([->| ->] & -> & ->); repeat split; discriminate.
  - intros i p st H _. destruct (ServiceManager.demo_slots _ _ _ _ H) as ([->| ->] & -> & ->); repeat split; discriminate.
  - exact (demo_later stops TURN_ON eq_refl).
  - exact (demo_none stops TURN_ON stops_transport).
  - exists s'. split; [exact H|exact Hs].
Defined.
End Bringup.
