(* ===== verification/ConnectionManager.v ===== *)
(** * The connection manager (service/src/connection_manager.c)

    Reconnects a BR/EDR peer whose link was lost: at once, and then every
    twelve seconds until its profiles are connected, the user disconnects, or
    thirty minutes have passed.  HFP is connected first, A2DP half a second
    later.  The file also holds the low-latency sniff modes and the RSSI
    statistics.

    The profile services, the adapter and the power manager are called out;
    their answers are the fields of [env]. *)

From S2P Require Import Prelude BtAddr PowerManager.

Module ConnectionManager.
Import BtAddr.
Local Open Scope Z_scope.
Local Open Scope bt_scope.

(** Build options. *)
Record config := mk_config { hfp_hf : bool; a2dp_sink : bool; le_dlf : bool; bredr_support : bool; ble_support : bool }.

Definition PROFILE_A2DP_SINK : Z := 1.
Definition PROFILE_HFP_HF : Z := 4.
Definition FLAG_NONE : Z := 0.
Definition FLAG_HFP_HF : Z := Z.shiftl 1 PROFILE_HFP_HF.
Definition FLAG_A2DP_SINK : Z := Z.shiftl 1 PROFILE_A2DP_SINK.

Definition CM_RECONNECT_INTERVAL : Z := 12000.
Definition PROFILE_CONNECT_INTERVAL : Z := 500.
Definition CM_RECONNECT_TIMES : Z := (60 * 30 * 1000) / CM_RECONNECT_INTERVAL.
Definition CM_RSSI_UPDATE_INTERVAL_MS : Z := 5 * 1000.
Definition CM_RSSI_DUMP_INTERVAL_MS : Z := 60 * 1000.

Definition HCI_ERR_CONNECTION_TIMEOUT : Z := 0x08.
Definition HCI_ERR_REMOTE_USER_TERMINATED_CONNECTION : Z := 0x13.
Definition HCI_ERR_CONNECTION_TERMINATED_BY_LOCAL_HOST : Z := 0x16.

Definition EM_LE_LOW_LATENCY : Z := 0.
Definition EM_BR_LOW_LATENCY : Z := 0xF1.
Definition EM_BR_ULTRA_LOW_LATENCY : Z := 0xF2.

Record bt_cm_timer_t := mk_timer {
  timer : option timer_h;
  peer_addr : bt_address_t;
  active : bool;
  retry_times : Z;
}.

Record bt_connection_manager_t := mk_manager {
  inited : bool;
  busy : bool;
  reconnect_enable : bool;
  connect_a2dp_flag : bool;
  connecting_addr : bt_address_t;
  profile_flags : Z;
  cm_timer : bt_cm_timer_t;
  a2dp_conn_timer : option timer_h;
  rssi_update_timer : option timer_h;
  last_rssi_dump_time_ms : Z;
}.

Definition set_inited x m := mk_manager x m.(busy) m.(reconnect_enable) m.(connect_a2dp_flag) m.(connecting_addr) m.(profile_flags) m.(cm_timer) m.(a2dp_conn_timer) m.(rssi_update_timer) m.(last_rssi_dump_time_ms).
Definition set_busy x m := mk_manager m.(inited) x m.(reconnect_enable) m.(connect_a2dp_flag) m.(connecting_addr) m.(profile_flags) m.(cm_timer) m.(a2dp_conn_timer) m.(rssi_update_timer) m.(last_rssi_dump_time_ms).
Definition set_reconnect x m := mk_manager m.(inited) m.(busy) x m.(connect_a2dp_flag) m.(connecting_addr) m.(profile_flags) m.(cm_timer) m.(a2dp_conn_timer) m.(rssi_update_timer) m.(last_rssi_dump_time_ms).
Definition set_a2dp_flag x m := mk_manager m.(inited) m.(busy) m.(reconnect_enable) x m.(connecting_addr) m.(profile_flags) m.(cm_timer) m.(a2dp_conn_timer) m.(rssi_update_timer) m.(last_rssi_dump_time_ms).
Definition set_connecting x m := mk_manager m.(inited) m.(busy) m.(reconnect_enable) m.(connect_a2dp_flag) x m.(profile_flags) m.(cm_timer) m.(a2dp_conn_timer) m.(rssi_update_timer) m.(last_rssi_dump_time_ms).
Definition set_flags x m := mk_manager m.(inited) m.(busy) m.(reconnect_enable) m.(connect_a2dp_flag) m.(connecting_addr) x m.(cm_timer) m.(a2dp_conn_timer) m.(rssi_update_timer) m.(last_rssi_dump_time_ms).
Definition set_cm_timer x m := mk_manager m.(inited) m.(busy) m.(reconnect_enable) m.(connect_a2dp_flag) m.(connecting_addr) m.(profile_flags) x m.(a2dp_conn_timer) m.(rssi_update_timer) m.(last_rssi_dump_time_ms).
Definition set_a2dp_timer x m := mk_manager m.(inited) m.(busy) m.(reconnect_enable) m.(connect_a2dp_flag) m.(connecting_addr) m.(profile_flags) m.(cm_timer) x m.(rssi_update_timer) m.(last_rssi_dump_time_ms).
Definition set_rssi_timer x m := mk_manager m.(inited) m.(busy) m.(reconnect_enable) m.(connect_a2dp_flag) m.(connecting_addr) m.(profile_flags) m.(cm_timer) m.(a2dp_conn_timer) x m.(last_rssi_dump_time_ms).
Definition set_rssi_time x m := mk_manager m.(inited) m.(busy) m.(reconnect_enable) m.(connect_a2dp_flag) m.(connecting_addr) m.(profile_flags) m.(cm_timer) m.(a2dp_conn_timer) m.(rssi_update_timer) x.

(** The static variable before [bt_cm_init]. *)
Definition g_connection_manager : bt_connection_manager_t :=
  mk_manager false false false false bt_addr_empty 0 (mk_timer None bt_addr_empty false 0) None None 0.

Record bt_cm_sniff_param_t := mk_sniff {
  max_interval : Z;
  min_interval : Z;
  sniff_attempt : Z;
  sniff_timeout : Z;
  idle_timeout_ms : Z;
}.

Definition g_bt_cm_sniff_param_table : list bt_cm_sniff_param_t :=
  [mk_sniff 160 40 4 1 1000; mk_sniff 18 10 4 1 1000].

(** What the other components answer. *)
Record env := mk_env {
  hfp_connect_status : bt_status_t;
  hfp_disconnect_status : bt_status_t;
  a2dp_connect_status : bt_status_t;
  a2dp_disconnect_status : bt_status_t;
  bonded_devices : list bt_address_t;
  connected_devices : bt_transport_t -> option (list bt_address_t);   (* None: not successful *)
  new_timer : option timer_h;
  now_ms : Z;
  pm_status : bt_status_t;
  dlf_status : bt_status_t;
}.

Inductive out :=
| hfp_hf_connect (a : bt_address_t)
| hfp_hf_disconnect (a : bt_address_t)
| a2dp_sink_connect (a : bt_address_t)
| a2dp_sink_disconnect (a : bt_address_t)
| service_loop_cancel_timer (h : option timer_h)
| service_loop_timer (ms : Z) (h : option timer_h)
| service_loop_timer_no_repeating (ms : Z) (h : option timer_h)
| bt_pm_set_app_profile_sniff (a : bt_address_t) (p : option PowerManager.bt_pm_mode_t)
| bt_cm_enable_dlf (a : bt_address_t)
| bt_cm_disable_dlf (a : bt_address_t)
| bt_cm_dlf_cleanup
| adapter_read_remote_rssi (a : bt_address_t) (t : bt_transport_t)
| adapter_dump_rssi (t : bt_transport_t).

Abbreviation MC := (M bt_connection_manager_t out).

Section Handlers.
Context (cfg : config) (e : env).

(** ** Flags and the reconnection timer *)

Definition bt_cm_set_flags (flags : Z) : MC unit :=
  modify (fun m => set_flags (Z.lor m.(profile_flags) flags) m).

Definition bt_cm_clear_flags (flags : Z) : MC unit :=
  modify (fun m => set_flags (Z.land m.(profile_flags) (Z.lnot flags)) m).

(** [profile_flags & flag] *)
Definition flag_set (flag : Z) (m : bt_connection_manager_t) : bool := negb (Z.land m.(profile_flags) flag =? 0).

Definition bt_cm_stop_timer : MC unit :=
  t <- gets cm_timer;;
  when t.(active) (
    modify (set_cm_timer (mk_timer t.(timer) bt_addr_set_empty false 0));;;
    emit (service_loop_cancel_timer t.(timer));;;
    modify (set_cm_timer (mk_timer None bt_addr_set_empty false 0))).

Definition bt_cm_enable_conn : MC unit :=
  bt_cm_clear_flags (Z.lor FLAG_HFP_HF FLAG_A2DP_SINK);;;
  bt_cm_stop_timer;;;
  modify (set_a2dp_flag false);;;
  modify (set_busy false).

Definition bt_cm_is_busy (m : bt_connection_manager_t) : bool := m.(busy).

Definition bt_cm_disable_conn : MC unit := modify (set_busy true);;; modify (set_flags 0).

Definition bt_cm_hfp_connect (a : bt_address_t) : MC bt_status_t :=
  emit (hfp_hf_connect a);;; mret_ e.(hfp_connect_status).
Definition bt_cm_hfp_disconnect (a : bt_address_t) : MC bt_status_t :=
  emit (hfp_hf_disconnect a);;; mret_ e.(hfp_disconnect_status).
Definition bt_cm_a2dpsnk_connect (a : bt_address_t) : MC bt_status_t :=
  emit (a2dp_sink_connect a);;; mret_ e.(a2dp_connect_status).
Definition bt_cm_a2dpsnk_disconnect (a : bt_address_t) : MC bt_status_t :=
  emit (a2dp_sink_disconnect a);;; mret_ e.(a2dp_disconnect_status).

(** ** Profiles *)

Definition bt_cm_profile_connect (a : bt_address_t) (t : bt_transport_t) : MC bt_status_t :=
  match t with
  | BT_TRANSPORT_BLE => mret_ BT_STATUS_FAIL
  | BT_TRANSPORT_BREDR =>
      hfp <- gets (flag_set FLAG_HFP_HF);;
      a2dp <- gets (flag_set FLAG_A2DP_SINK);;
      second <- gets connect_a2dp_flag;;
      if hfp && negb second then
        status <- (if cfg.(hfp_hf) then bt_cm_hfp_connect a else mret_ BT_STATUS_SUCCESS);;
        if cfg.(hfp_hf) && negb (is_success status) then mret_ status
        else if negb a2dp then mret_ BT_STATUS_SUCCESS
        else
          modify (set_a2dp_flag true);;;
          modify (set_connecting a);;;
          old <- gets a2dp_conn_timer;;
          when (bool_decide (is_Some old)) (
            emit (service_loop_cancel_timer old);;; modify (set_a2dp_timer None));;;
          emit (service_loop_timer_no_repeating PROFILE_CONNECT_INTERVAL e.(new_timer));;;
          modify (set_a2dp_timer e.(new_timer));;;
          mret_ status
      else if a2dp then
        if cfg.(a2dp_sink) then modify (set_a2dp_flag false);;; bt_cm_a2dpsnk_connect a
        else mret_ BT_STATUS_SUCCESS
      else mret_ BT_STATUS_SUCCESS
  end.

Definition bt_cm_connect_a2dp_cb : MC unit :=
  a <- gets connecting_addr;;
  bt_cm_profile_connect a BT_TRANSPORT_BREDR;;; mret_ tt.

Definition bt_cm_profile_disconnect (a : bt_address_t) (t : bt_transport_t) : MC bt_status_t :=
  match t with
  | BT_TRANSPORT_BLE => mret_ BT_STATUS_FAIL
  | BT_TRANSPORT_BREDR =>
      status <- (if cfg.(hfp_hf) then bt_cm_hfp_disconnect a else mret_ BT_STATUS_SUCCESS);;
      if cfg.(hfp_hf) && negb (is_success status) then mret_ status
      else
        old <- gets a2dp_conn_timer;;
        when (bool_decide (is_Some old)) (
          modify (set_a2dp_flag false);;;
          emit (service_loop_cancel_timer old);;;
          modify (set_connecting bt_addr_set_empty);;;
          modify (set_a2dp_timer None));;;
        (if cfg.(a2dp_sink) then bt_cm_a2dpsnk_disconnect a else mret_ status)
  end.

Definition bt_cm_init : MC unit :=
  i <- gets inited;;
  when (negb i) (
    bt_cm_enable_conn;;;
    bt_cm_set_flags FLAG_NONE;;;
    modify (set_reconnect false);;;
    modify (set_rssi_timer None);;;
    modify (set_inited true)).

Definition bt_cm_cleanup : MC unit :=
  i <- gets inited;;
  when i (
    when cfg.(le_dlf) (emit bt_cm_dlf_cleanup);;;
    modify (set_inited false);;;
    t <- gets rssi_update_timer;;
    when (bool_decide (is_Some t)) (
      emit (service_loop_cancel_timer t);;; modify (set_rssi_timer None))).

Definition bt_cm_profile_falgs_set : MC unit :=
  when cfg.(hfp_hf) (bt_cm_set_flags FLAG_HFP_HF);;;
  when cfg.(a2dp_sink) (bt_cm_set_flags FLAG_A2DP_SINK).

(** ** Requests and notifications *)

Definition bt_cm_device_connect (peer : bt_address_t) (t : bt_transport_t) : MC bt_status_t :=
  match t with
  | BT_TRANSPORT_BLE => mret_ BT_STATUS_FAIL
  | BT_TRANSPORT_BREDR =>
      modify (set_reconnect true);;;
      b <- gets bt_cm_is_busy;;
      if (b : bool) then mret_ BT_STATUS_BUSY
      else if bt_addr_is_empty peer then
        match list.last e.(bonded_devices) with
        | None => mret_ BT_STATUS_FAIL
        | Some a => bt_cm_profile_falgs_set;;; bt_cm_profile_connect a t
        end
      else bt_cm_profile_falgs_set;;; bt_cm_profile_connect peer t
  end.

(** [!bt_addr_compare(&cm_timer->peer_addr, addr)] *)
Definition is_reconnecting (a : bt_address_t) (m : bt_connection_manager_t) : bool :=
  bt_addr_compare m.(cm_timer).(peer_addr) a =? 0.

Definition bt_cm_device_disconnect (a : bt_address_t) (t : bt_transport_t) : MC bt_status_t :=
  match t with
  | BT_TRANSPORT_BLE => mret_ BT_STATUS_FAIL
  | BT_TRANSPORT_BREDR =>
      r <- gets (is_reconnecting a);;
      when r bt_cm_enable_conn;;;
      bt_cm_profile_disconnect a BT_TRANSPORT_BREDR
  end.

Definition cancel_a2dp_timer : MC unit :=
  t <- gets a2dp_conn_timer;;
  emit (service_loop_cancel_timer t);;;
  modify (set_connecting bt_addr_set_empty);;;
  modify (set_a2dp_timer None).

Definition bt_cm_connected (a : bt_address_t) (profile_id : Z) : MC unit :=
  r <- gets (is_reconnecting a);;
  when r (
    (if profile_id =? PROFILE_HFP_HF then bt_cm_clear_flags FLAG_HFP_HF
     else if profile_id =? PROFILE_A2DP_SINK then bt_cm_clear_flags FLAG_A2DP_SINK;;; cancel_a2dp_timer
     else mret_ tt);;;
    f <- gets (flag_set (Z.lor FLAG_HFP_HF FLAG_A2DP_SINK));;
    when (negb f) bt_cm_enable_conn).

Definition bt_cm_disconnected (a : bt_address_t) (profile_id : Z) : MC unit :=
  r <- gets (is_reconnecting a);;
  when (r && (profile_id =? PROFILE_A2DP_SINK)) cancel_a2dp_timer.

Definition bt_cm_timeout_cb : MC unit :=
  t <- gets cm_timer;;
  when t.(active) (
    let retries := u32 (t.(retry_times) + 1) in
    modify (set_cm_timer (mk_timer t.(timer) t.(peer_addr) t.(active) retries));;;
    when (CM_RECONNECT_TIMES <? retries) bt_cm_enable_conn;;;
    t <- gets cm_timer;;
    bt_cm_profile_connect t.(peer_addr) BT_TRANSPORT_BREDR;;; mret_ tt).

Definition bt_cm_start_timer (a : bt_address_t) : MC bool :=
  t <- gets cm_timer;;
  if t.(active) then mret_ false
  else
    when (bool_decide (is_Some t.(timer))) (emit (service_loop_cancel_timer t.(timer)));;;
    emit (service_loop_timer CM_RECONNECT_INTERVAL e.(new_timer));;;
    modify (set_cm_timer (mk_timer e.(new_timer) a true t.(retry_times)));;;
    mret_ true.

Definition bt_cm_process_reconnection (a : bt_address_t) (reason : Z) : MC unit :=
  if (reason =? HCI_ERR_CONNECTION_TERMINATED_BY_LOCAL_HOST)
     || (reason =? HCI_ERR_REMOTE_USER_TERMINATED_CONNECTION) then
    r <- gets (is_reconnecting a);;
    when r bt_cm_enable_conn
  else
    b <- gets bt_cm_is_busy;;
    if b || negb (reason =? HCI_ERR_CONNECTION_TIMEOUT) then mret_ tt
    else
      bt_cm_disable_conn;;;
      bt_cm_profile_falgs_set;;;
      started <- bt_cm_start_timer a;;
      when started (bt_cm_profile_connect a BT_TRANSPORT_BREDR;;; mret_ tt).

Definition bt_cm_process_disconnect_event (a : bt_address_t) (t : bt_transport_t) (reason : Z) : MC unit :=
  match t with
  | BT_TRANSPORT_BLE => when cfg.(le_dlf) (emit (bt_cm_disable_dlf a))
  | BT_TRANSPORT_BREDR =>
      r <- gets reconnect_enable;;
      when r (bt_cm_process_reconnection a reason)
  end.

(** ** Enhanced modes *)

Definition bt_cm_sniff_param_to_pm_mode (p : bt_cm_sniff_param_t) : PowerManager.bt_pm_mode_t :=
  PowerManager.mk_mode p.(max_interval) p.(min_interval) p.(sniff_attempt) p.(sniff_timeout)
    PowerManager.BT_LINK_MODE_SNIFF.

Definition sniff_param_table_index_from_mode (mode : Z) : Z :=
  if mode =? EM_BR_LOW_LATENCY then 0 else if mode =? EM_BR_ULTRA_LOW_LATENCY then 1 else -1.

(** The address is not NULL; [None] is an index out of the table. *)
Definition bt_cm_apply_bredr_sniff_mode (a : bt_address_t) (i : Z) : option (MC bt_status_t) :=
  match g_bt_cm_sniff_param_table !! Z.to_nat i with
  | Some p => Some (emit (bt_pm_set_app_profile_sniff a (Some (bt_cm_sniff_param_to_pm_mode p)));;; mret_ e.(pm_status))
  | None => None
  end.

Definition bt_cm_enable_enhanced_mode (a : bt_address_t) (mode : Z) : option (MC bt_status_t) :=
  if cfg.(le_dlf) && (mode =? EM_LE_LOW_LATENCY) then Some (emit (bt_cm_enable_dlf a);;; mret_ e.(dlf_status))
  else if (mode =? EM_BR_LOW_LATENCY) || (mode =? EM_BR_ULTRA_LOW_LATENCY) then
    let i := sniff_param_table_index_from_mode mode in
    if i <? 0 then Some (mret_ BT_STATUS_PARM_INVALID) else bt_cm_apply_bredr_sniff_mode a i
  else Some (mret_ BT_STATUS_NOT_SUPPORTED).

Definition bt_cm_disable_enhanced_mode (a : bt_address_t) (mode : Z) : MC bt_status_t :=
  if cfg.(le_dlf) && (mode =? EM_LE_LOW_LATENCY) then emit (bt_cm_disable_dlf a);;; mret_ e.(dlf_status)
  else if (mode =? EM_BR_LOW_LATENCY) || (mode =? EM_BR_ULTRA_LOW_LATENCY)
  then emit (bt_pm_set_app_profile_sniff a None);;; mret_ e.(pm_status)
  else mret_ BT_STATUS_NOT_SUPPORTED.

(** ** RSSI statistics *)

(** The RSSI of the devices connected over [t], if the build supports it;
    the number of devices. *)
Definition rssi_read (supported : bool) (t : bt_transport_t) : MC Z :=
  if negb supported then mret_ 0
  else
    match e.(connected_devices) t with
    | None => mret_ 0
    | Some l => mfor l (fun a => emit (adapter_read_remote_rssi a t));;; mret_ (Z.of_nat (length l))
    end.

Definition rssi_update : MC unit :=
  num_classic <- rssi_read cfg.(bredr_support) BT_TRANSPORT_BREDR;;
  num_le <- rssi_read cfg.(ble_support) BT_TRANSPORT_BLE;;
  if num_classic + num_le =? 0 then mret_ tt
  else
    last <- gets last_rssi_dump_time_ms;;
    if u32 (e.(now_ms) - last) <? CM_RSSI_DUMP_INTERVAL_MS then mret_ tt
    else
      when (cfg.(bredr_support) && (0 <? num_classic)) (emit (adapter_dump_rssi BT_TRANSPORT_BREDR));;;
      when (cfg.(ble_support) && (0 <? num_le)) (emit (adapter_dump_rssi BT_TRANSPORT_BLE));;;
      modify (set_rssi_time e.(now_ms)).

Definition bt_cm_enable_rssi_statistic : MC bt_status_t :=
  t <- gets rssi_update_timer;;
  if bool_decide (is_Some t) then mret_ BT_STATUS_SUCCESS
  else
    modify (set_rssi_time e.(now_ms));;;
    emit (service_loop_timer CM_RSSI_UPDATE_INTERVAL_MS e.(new_timer));;;
    modify (set_rssi_timer e.(new_timer));;;
    mret_ (if bool_decide (is_Some e.(new_timer)) then BT_STATUS_SUCCESS else BT_STATUS_NOMEM).

Definition bt_cm_disable_rssi_statistic : MC bt_status_t :=
  t <- gets rssi_update_timer;;
  if negb (bool_decide (is_Some t)) then mret_ BT_STATUS_SUCCESS
  else emit (service_loop_cancel_timer t);;; modify (set_rssi_timer None);;; mret_ BT_STATUS_SUCCESS.

(** ** Events *)

Inductive event :=
| Ev_init
| Ev_cleanup
| Ev_connect (a : bt_address_t) (t : bt_transport_t)
| Ev_disconnect (a : bt_address_t) (t : bt_transport_t)
| Ev_connected (a : bt_address_t) (profile_id : Z)
| Ev_disconnected (a : bt_address_t) (profile_id : Z)
| Ev_timeout
| Ev_a2dp_timer
| Ev_acl_disconnected (a : bt_address_t) (t : bt_transport_t) (reason : Z)
| Ev_rssi (on : bool)
| Ev_rssi_timer.

Definition run_event (ev : event) : MC unit :=
  match ev with
  | Ev_init => bt_cm_init
  | Ev_cleanup => bt_cm_cleanup
  | Ev_connect a t => bt_cm_device_connect a t;;; mret_ tt
  | Ev_disconnect a t => bt_cm_device_disconnect a t;;; mret_ tt
  | Ev_connected a p => bt_cm_connected a p
  | Ev_disconnected a p => bt_cm_disconnected a p
  | Ev_timeout => bt_cm_timeout_cb
  | Ev_a2dp_timer => bt_cm_connect_a2dp_cb
  | Ev_acl_disconnected a t r => bt_cm_process_disconnect_event a t r
  | Ev_rssi true => bt_cm_enable_rssi_statistic;;; mret_ tt
  | Ev_rssi false => bt_cm_disable_rssi_statistic;;; mret_ tt
  | Ev_rssi_timer => rssi_update
  end.

(** ** Invariant *)

(** The profiles a build reconnects. *)
Definition all_flags : Z :=
  Z.lor (if cfg.(hfp_hf) then FLAG_HFP_HF else 0) (if cfg.(a2dp_sink) then FLAG_A2DP_SINK else 0).

Definition idle_timer : bt_cm_timer_t := mk_timer None bt_addr_empty false 0.

Record cm_inv (m : bt_connection_manager_t) : Prop := {
  inv_busy : m.(busy) = m.(cm_timer).(active);
  inv_idle : m.(cm_timer).(active) = false -> m.(cm_timer) = idle_timer;
  inv_retry : 0 <= m.(cm_timer).(retry_times) <= CM_RECONNECT_TIMES;
  inv_flags : m.(profile_flags) ∈ [0; FLAG_HFP_HF; FLAG_A2DP_SINK; Z.lor FLAG_HFP_HF FLAG_A2DP_SINK] /\
              Z.land m.(profile_flags) all_flags = m.(profile_flags);
  inv_work : m.(busy) = true -> all_flags <> 0 -> m.(profile_flags) <> 0;
}.

(** What the invariant looks at. *)
Definition same_core (m m' : bt_connection_manager_t) : Prop :=
  m'.(busy) = m.(busy) /\ m'.(cm_timer) = m.(cm_timer) /\ m'.(profile_flags) = m.(profile_flags).

Lemma core_inv m m' : same_core m m' -> cm_inv m -> cm_inv m'.
Proof. intros (H1 & H2 & H3) [I1 I2 I3 I4 I5]. split; rewrite ?H1, ?H2, ?H3; done. Qed.

Lemma profile_connect_core a t m : same_core m (exec (bt_cm_profile_connect a t) m).
Proof.
  unfold bt_cm_profile_connect. destruct t; [|done]. autorewrite with bt. cbn -[Z.land].
  destruct (flag_set FLAG_HFP_HF m && negb (connect_a2dp_flag m)); autorewrite with bt.
  - destruct (hfp_hf cfg); cbn -[Z.land].
    + destruct (is_success (hfp_connect_status e)); cbn -[Z.land]; [|done].
      destruct (flag_set FLAG_A2DP_SINK m); [|done]. cbn -[Z.land]. autorewrite with bt. rewrite exec_when.
      by case_bool_decide.
    + destruct (flag_set FLAG_A2DP_SINK m); [|done]. cbn -[Z.land]. autorewrite with bt. rewrite exec_when.
      by case_bool_decide.
  - destruct (flag_set FLAG_A2DP_SINK m); [|done]. by destruct (a2dp_sink cfg).
Qed.

Lemma profile_disconnect_core a t m : same_core m (exec (bt_cm_profile_disconnect a t) m).
Proof.
  unfold bt_cm_profile_disconnect. destruct t; [|done]. autorewrite with bt.
  assert (forall st, same_core m (exec (old <- gets a2dp_conn_timer;;
      when (bool_decide (is_Some old)) (
        modify (set_a2dp_flag false);;; emit (service_loop_cancel_timer old);;;
        modify (set_connecting bt_addr_set_empty);;; modify (set_a2dp_timer None));;;
      (if cfg.(a2dp_sink) then bt_cm_a2dpsnk_disconnect a else mret_ st)) m)) as H.
  { intros st. autorewrite with bt. cbn. rewrite exec_when. case_bool_decide; by destruct (a2dp_sink cfg). }
  destruct (hfp_hf cfg); cbn [andb]; [|exact (H BT_STATUS_SUCCESS)].
  destruct (negb (is_success _)); [done|]. exact (H _).
Qed.

(** The flags are a set of two bits. *)
Lemma flags_cleared f : f ∈ [0; FLAG_HFP_HF; FLAG_A2DP_SINK; Z.lor FLAG_HFP_HF FLAG_A2DP_SINK] ->
  Z.land f (Z.lnot (Z.lor FLAG_HFP_HF FLAG_A2DP_SINK)) = 0.
Proof. rewrite !elem_of_cons, elem_of_nil. intros [->|[->|[->|[->|[]]]]]; reflexivity. Qed.

Lemma enable_conn_idle m :
  (m.(cm_timer).(active) = false -> m.(cm_timer) = idle_timer) ->
  m.(profile_flags) ∈ [0; FLAG_HFP_HF; FLAG_A2DP_SINK; Z.lor FLAG_HFP_HF FLAG_A2DP_SINK] ->
  let m' := exec bt_cm_enable_conn m in
  m'.(busy) = false /\ m'.(cm_timer) = idle_timer /\ m'.(profile_flags) = 0 /\ m'.(connect_a2dp_flag) = false.
Proof.
  intros Hidle Hf. unfold bt_cm_enable_conn, bt_cm_stop_timer, bt_cm_clear_flags. autorewrite with bt.
  rewrite exec_when. cbn -[Z.land Z.lor Z.lnot]. rewrite (flags_cleared _ Hf).
  destruct (active (cm_timer m)) eqn:E; autorewrite with bt; cbn -[Z.land Z.lor Z.lnot]; split; try done.
  by rewrite Hidle.
Qed.

Lemma idle_inv m :
  m.(busy) = false -> m.(cm_timer) = idle_timer -> m.(profile_flags) = 0 -> cm_inv m.
Proof.
  intros H1 H2 H3. split; rewrite ?H1, ?H2, ?H3; try done; cbn.
  split; [set_solver|]. by rewrite Z.land_0_l.
Qed.

Lemma enable_conn_inv m : cm_inv m -> cm_inv (exec bt_cm_enable_conn m).
Proof.
  intros [_ Hidle _ [Hf _] _]. destruct (enable_conn_idle m Hidle Hf) as (? & ? & ? & _). by apply idle_inv.
Qed.

(** Setting and clearing flags keeps them within those of the build. *)
Lemma flags_set_value m :
  m.(profile_flags) ∈ [0; FLAG_HFP_HF; FLAG_A2DP_SINK; Z.lor FLAG_HFP_HF FLAG_A2DP_SINK] ->
  Z.land m.(profile_flags) all_flags = m.(profile_flags) ->
  exec bt_cm_profile_falgs_set m = set_flags all_flags m.
Proof.
  intros Hf Hall. unfold bt_cm_profile_falgs_set, bt_cm_set_flags, all_flags in *. autorewrite with bt.
  rewrite !exec_when. rewrite !elem_of_cons, elem_of_nil in Hf. unfold set_flags. destruct m; cbn in *.
  destruct Hf as [->|[->|[->|[->|[]]]]], (hfp_hf cfg), (a2dp_sink cfg); try done.
Qed.

Lemma all_flags_in : all_flags ∈ [0; FLAG_HFP_HF; FLAG_A2DP_SINK; Z.lor FLAG_HFP_HF FLAG_A2DP_SINK].
Proof.
  unfold all_flags. rewrite !elem_of_cons. destruct (hfp_hf cfg), (a2dp_sink cfg); cbn; tauto.
Qed.

(** A connection request while nothing is being reconnected. *)
Lemma flags_set_inv m : cm_inv m -> cm_inv (exec bt_cm_profile_falgs_set m).
Proof.
  intros [I1 I2 I3 [I4 I5] I6]. rewrite flags_set_value by done. split; cbn; try done.
  split; [apply all_flags_in|apply Z.land_diag].
Qed.

Lemma connect_inv a t m : cm_inv m -> cm_inv (exec (bt_cm_profile_connect a t) m).
Proof. apply core_inv, profile_connect_core. Qed.

Lemma device_connect_inv a t m : cm_inv m -> cm_inv (exec (bt_cm_device_connect a t) m).
Proof.
  intros Hi. unfold bt_cm_device_connect. destruct t; [|done]. rewrite !exec_bind. cbn [gets exec eval modify fst snd].
  assert (cm_inv (set_reconnect true m)) as Hi1 by (apply (core_inv m); done).
  destruct (bt_cm_is_busy _); [exact Hi1|]. destruct (bt_addr_is_empty a).
  - destruct (list.last _); [|exact Hi1]. rewrite exec_bind. by apply connect_inv, flags_set_inv.
  - rewrite exec_bind. by apply connect_inv, flags_set_inv.
Qed.

Lemma device_disconnect_inv a t m : cm_inv m -> cm_inv (exec (bt_cm_device_disconnect a t) m).
Proof.
  intros Hi. unfold bt_cm_device_disconnect. destruct t; [|done]. rewrite !exec_bind, exec_when.
  eapply core_inv; [apply profile_disconnect_core|]. cbn [gets exec eval fst snd].
  destruct (is_reconnecting a m); [by apply enable_conn_inv|done].
Qed.

(** The flags with some cleared. *)
Lemma flags_land f g :
  f ∈ [0; FLAG_HFP_HF; FLAG_A2DP_SINK; Z.lor FLAG_HFP_HF FLAG_A2DP_SINK] -> g = FLAG_HFP_HF \/ g = FLAG_A2DP_SINK ->
  Z.land f all_flags = f ->
  Z.land f (Z.lnot g) ∈ [0; FLAG_HFP_HF; FLAG_A2DP_SINK; Z.lor FLAG_HFP_HF FLAG_A2DP_SINK] /\
  Z.land (Z.land f (Z.lnot g)) all_flags = Z.land f (Z.lnot g).
Proof.
  intros Hf Hg Hall. split.
  - rewrite !elem_of_cons, elem_of_nil in *. destruct Hf as [->|[->|[->|[->|[]]]]], Hg as [->| ->]; cbn; tauto.
  - rewrite <- Z.land_assoc, (Z.land_comm _ all_flags), Z.land_assoc. by rewrite Hall.
Qed.

(** After a profile was connected: go on unless nothing is left. *)
Lemma connected_rest_inv m f :
  cm_inv m -> f ∈ [0; FLAG_HFP_HF; FLAG_A2DP_SINK; Z.lor FLAG_HFP_HF FLAG_A2DP_SINK] -> Z.land f all_flags = f ->
  forall m', m'.(busy) = m.(busy) -> m'.(cm_timer) = m.(cm_timer) -> m'.(profile_flags) = f ->
  cm_inv (exec (when (negb (flag_set (Z.lor FLAG_HFP_HF FLAG_A2DP_SINK) m')) bt_cm_enable_conn) m').
Proof.
  intros [I1 I2 I3 I4 I5] Hf Hall m' Hb Ht Hfl. rewrite exec_when. destruct (negb _) eqn:E.
  - destruct (enable_conn_idle m') as (? & ? & ? & _); [by rewrite Ht|by rewrite Hfl|]. by apply idle_inv.
  - split; rewrite ?Hb, ?Ht, ?Hfl; try done. intros _ _ ->. unfold flag_set in E. rewrite Hfl in E. done.
Qed.

Lemma connected_inv a p m : cm_inv m -> cm_inv (exec (bt_cm_connected a p) m).
Proof.
  intros Hi. unfold bt_cm_connected. rewrite exec_bind, exec_when. cbn [gets exec eval fst snd].
  destruct (is_reconnecting a m); [|done]. rewrite !exec_bind. cbn [gets eval fst snd].
  pose proof (inv_flags _ Hi) as [Hf Hall].
  destruct (p =? PROFILE_HFP_HF); [|destruct (p =? PROFILE_A2DP_SINK)].
  - destruct (flags_land _ FLAG_HFP_HF Hf (or_introl eq_refl) Hall). by eapply (connected_rest_inv m).
  - destruct (flags_land _ FLAG_A2DP_SINK Hf (or_intror eq_refl) Hall). by eapply (connected_rest_inv m).
  - by eapply (connected_rest_inv m).
Qed.

Lemma disconnected_inv a p m : cm_inv m -> cm_inv (exec (bt_cm_disconnected a p) m).
Proof.
  intros Hi. unfold bt_cm_disconnected. rewrite exec_bind, exec_when. cbn [gets exec eval fst snd].
  destruct (_ && _); [|done]. apply (core_inv m); done.
Qed.

(** ** The reconnection timer *)

(** A timeout while reconnecting: one more try, or the end. *)
Lemma timeout_spec m :
  cm_inv m -> m.(busy) = true ->
  let m' := exec bt_cm_timeout_cb m in
  if m.(cm_timer).(retry_times) <? CM_RECONNECT_TIMES then
    m'.(busy) = true /\ m'.(profile_flags) = m.(profile_flags) /\
    m'.(cm_timer) = mk_timer m.(cm_timer).(timer) m.(cm_timer).(peer_addr) true (m.(cm_timer).(retry_times) + 1)
  else m'.(busy) = false /\ m'.(profile_flags) = 0 /\ m'.(cm_timer) = idle_timer.
Proof.
  intros Hi Hb. pose proof (inv_busy _ Hi) as Ha. rewrite Hb in Ha. pose proof (inv_retry _ Hi) as Hr.
  assert (CM_RECONNECT_TIMES = 150) as H150 by reflexivity. cbv zeta.
  unfold bt_cm_timeout_cb. rewrite exec_bind, exec_when. cbn [gets exec eval fst snd]. rewrite <- Ha.
  rewrite (uint_small 32 (_ + 1)) by (unfold in_u; lia). rewrite !exec_bind, exec_when. cbn [gets exec eval modify fst snd].
  set (m1 := set_cm_timer _ m).
  destruct (Z.ltb_spec (retry_times (cm_timer m)) CM_RECONNECT_TIMES).
  - destruct (Z.ltb_spec CM_RECONNECT_TIMES (retry_times (cm_timer m) + 1)); [lia|].
    rewrite !exec_ret.
    destruct (profile_connect_core (peer_addr (cm_timer m1)) BT_TRANSPORT_BREDR m1) as (-> & -> & ->).
    unfold m1. cbn. rewrite Hb. done.
  - destruct (Z.ltb_spec CM_RECONNECT_TIMES (retry_times (cm_timer m) + 1)); [|lia].
    destruct (enable_conn_idle m1) as (H1 & H2 & H3 & _); [unfold m1; cbn; congruence|apply (inv_flags _ Hi)|].
    set (m2 := exec bt_cm_enable_conn m1) in *. rewrite !exec_ret.
    destruct (profile_connect_core (peer_addr (cm_timer m2)) BT_TRANSPORT_BREDR m2) as (-> & -> & ->). done.
Qed.

Lemma timeout_idle m : cm_inv m -> m.(busy) = false -> exec bt_cm_timeout_cb m = m.
Proof.
  intros Hi Hb. pose proof (inv_busy _ Hi) as Ha. rewrite Hb in Ha.
  unfold bt_cm_timeout_cb. rewrite exec_bind, exec_when. cbn [gets exec eval fst snd]. by rewrite <- Ha.
Qed.

Lemma cm_timeout_inv m : cm_inv m -> cm_inv (exec bt_cm_timeout_cb m).
Proof.
  intros Hi. destruct (busy m) eqn:Hb; [|by rewrite timeout_idle].
  pose proof (timeout_spec m Hi Hb) as H. cbv zeta in H. pose proof (inv_retry _ Hi) as Hr.
  destruct (Z.ltb_spec (retry_times (cm_timer m)) CM_RECONNECT_TIMES) as [Hlt|Hge].
  - destruct H as (H1 & H2 & H3). split; rewrite ?H1, ?H2, ?H3; cbn; try done; [lia|apply Hi|].
    intros _. by apply Hi.
  - destruct H as (H1 & H2 & H3). by apply idle_inv.
Qed.

(** The manager when a reconnection starts. *)
Definition reconnecting_from (a : bt_address_t) (m : bt_connection_manager_t) : bt_connection_manager_t :=
  set_cm_timer (mk_timer e.(new_timer) a true 0) (set_flags all_flags (set_flags 0 (set_busy true m))).

(** The loss of a link, when nothing is being reconnected. *)
Lemma reconnection_start a m :
  cm_inv m -> m.(busy) = false ->
  exec (bt_cm_process_reconnection a HCI_ERR_CONNECTION_TIMEOUT) m
  = exec (bt_cm_profile_connect a BT_TRANSPORT_BREDR) (reconnecting_from a m) /\
  outs (bt_cm_process_reconnection a HCI_ERR_CONNECTION_TIMEOUT) m
  = service_loop_timer CM_RECONNECT_INTERVAL e.(new_timer)
    :: outs (bt_cm_profile_connect a BT_TRANSPORT_BREDR) (reconnecting_from a m).
Proof.
  intros Hi Hb. pose proof (inv_busy _ Hi) as Ha. rewrite Hb in Ha.
  pose proof (inv_idle _ Hi (eq_sym Ha)) as Hidle. unfold bt_cm_process_reconnection.
  change ((HCI_ERR_CONNECTION_TIMEOUT =? HCI_ERR_CONNECTION_TERMINATED_BY_LOCAL_HOST)
          || (HCI_ERR_CONNECTION_TIMEOUT =? HCI_ERR_REMOTE_USER_TERMINATED_CONNECTION)) with false. cbn iota.
  rewrite exec_bind, outs_bind. cbn [gets exec eval outs fst snd app].
  unfold bt_cm_is_busy. rewrite Hb, Z.eqb_refl. cbn [orb negb].
  rewrite !exec_bind, !outs_bind. unfold bt_cm_disable_conn. rewrite exec_bind, outs_bind.
  cbn [exec eval outs modify fst snd app].
  assert (exec bt_cm_profile_falgs_set (set_flags 0 (set_busy true m)) = set_flags all_flags (set_flags 0 (set_busy true m))) as Hset
    by (apply flags_set_value; [cbn; set_solver|done]).
  assert (outs bt_cm_profile_falgs_set (set_flags 0 (set_busy true m)) = []) as Hout
    by (unfold bt_cm_profile_falgs_set; rewrite outs_bind; by destruct (hfp_hf cfg), (a2dp_sink cfg)).
  rewrite Hset, Hout. unfold bt_cm_start_timer. rewrite !exec_bind, !eval_bind, !outs_bind.
  cbn [gets exec eval outs fst snd set_flags set_busy cm_timer app].
  rewrite Hidle. cbn [idle_timer active timer retry_times]. rewrite !exec_bind, !eval_bind, !outs_bind.
  cbn [eval mret_ outs emit fst snd app when bool_decide].
  rewrite exec_bind, outs_bind. split; [done|]. cbn [app]. f_equal. rewrite app_nil_r. done.
Qed.

(** The loss of a link that is being watched. *)
Lemma reconnection_inv a r m : cm_inv m -> cm_inv (exec (bt_cm_process_reconnection a r) m).
Proof.
  intros Hi. destruct (decide (busy m = false /\ r = HCI_ERR_CONNECTION_TIMEOUT)) as [[Hb ->]|Hno].
  { rewrite (proj1 (reconnection_start a m Hi Hb)). apply connect_inv. split; cbn; try done.
    split; [apply all_flags_in|apply Z.land_diag]. }
  unfold bt_cm_process_reconnection. destruct (_ || _).
  { rewrite exec_bind, exec_when. cbn [gets exec eval fst snd].
    destruct (is_reconnecting a m); [by apply enable_conn_inv|done]. }
  rewrite exec_bind. cbn [gets exec eval fst snd]. unfold bt_cm_is_busy.
  destruct (busy m) eqn:Hb; [done|]. cbn [orb]. destruct (Z.eqb_spec r HCI_ERR_CONNECTION_TIMEOUT); [|done].
  exfalso. by apply Hno.
Qed.

Lemma rssi_read_exec b t m : exec (rssi_read b t) m = m.
Proof.
  unfold rssi_read. destruct b; [|done]. cbn [negb]. destruct (connected_devices e t) as [l|]; [|done].
  rewrite exec_bind, exec_ret. apply (mfor_inv (fun m' => m' = m)); [|done]. by intros x m' _ ->.
Qed.

Lemma rssi_core m : same_core m (exec rssi_update m).
Proof.
  unfold rssi_update. rewrite !exec_bind, !rssi_read_exec. case_match; [done|]. rewrite exec_bind.
  case_match; [done|]. rewrite !exec_bind, !exec_when. by repeat case_match.
Qed.

Lemma run_event_inv ev m : cm_inv m -> cm_inv (exec (run_event ev) m).
Proof.
  intros Hi. destruct ev as [| |a t|a t|a p|a p| | |a t r|[|]|]; cbn [run_event]; rewrite ?exec_bind, ?exec_ret.
  - unfold bt_cm_init. rewrite exec_bind, exec_when. cbn [gets exec eval fst snd].
    destruct (inited m); [done|]. cbn [negb]. rewrite exec_bind. apply (core_inv (exec bt_cm_enable_conn m)).
    + rewrite !exec_bind. unfold bt_cm_set_flags. cbn. rewrite Z.lor_0_r. done.
    + by apply enable_conn_inv.
  - unfold bt_cm_cleanup. rewrite exec_bind, exec_when. cbn [gets exec eval fst snd]. destruct (inited m); [|done].
    rewrite !exec_bind, !exec_when. cbn. apply (core_inv m); [|done]. by repeat case_match.
  - by apply device_connect_inv.
  - by apply device_disconnect_inv.
  - by apply connected_inv.
  - by apply disconnected_inv.
  - by apply cm_timeout_inv.
  - unfold bt_cm_connect_a2dp_cb. rewrite !exec_bind, exec_ret. by apply connect_inv.
  - unfold bt_cm_process_disconnect_event. destruct t; [|by destruct (le_dlf cfg)].
    rewrite exec_bind, exec_when. cbn [gets exec eval fst snd]. destruct (reconnect_enable m); [|done].
    by apply reconnection_inv.
  - unfold bt_cm_enable_rssi_statistic. rewrite exec_bind. cbn [gets exec eval fst snd].
    case_bool_decide; [done|]. apply (core_inv m); done.
  - unfold bt_cm_disable_rssi_statistic. rewrite exec_bind. cbn [gets exec eval fst snd].
    case_match; [done|]. apply (core_inv m); done.
  - apply (core_inv m); [apply rssi_core|done].
Qed.
End Handlers.

(** ** Reachable states *)

Definition cm_initial (m : bt_connection_manager_t) : Prop := m = g_connection_manager.
Definition cm_step (cfg : config) (m m' : bt_connection_manager_t) : Prop :=
  exists e ev, m' = exec (run_event cfg e ev) m.

Lemma reachable_cm_inv cfg m : reachable cm_initial (cm_step cfg) m -> cm_inv cfg m.
Proof.
  revert m. apply reachable_inv.
  - intros m ->. by apply idle_inv.
  - intros m m' Hi (e & ev & ->). by apply run_event_inv.
Qed.

(** Timeouts of the reconnection timer one after the other, with what the
    other components answer at each. *)
Definition timeouts (cfg : config) (es : list env) (m : bt_connection_manager_t) : bt_connection_manager_t :=
  fold_left (fun m e => exec (bt_cm_timeout_cb cfg e) m) es m.

Lemma timeouts_idle cfg es m : cm_inv cfg m -> m.(busy) = false -> timeouts cfg es m = m.
Proof.
  intros Hi Hb. induction es as [|e es IH]; [done|]. cbn. by rewrite (timeout_idle cfg e m Hi Hb).
Qed.

(** ** Claims *)

(** C25: In every reachable state the manager is busy exactly while the
    reconnection timer is armed; when it is not, the timer's peer, handle and
    count are reset; there were at most 150 tries; the profiles still to be
    connected are among those of the build and, while reconnecting, there is
    one. *)
Theorem cm_reachable_invariant (cfg : config) (m : bt_connection_manager_t) :
  reachable cm_initial (cm_step cfg) m ->
  m.(busy) = m.(cm_timer).(active) /\
  (m.(busy) = false -> m.(cm_timer) = mk_timer None bt_addr_empty false 0) /\
  0 <= m.(cm_timer).(retry_times) <= 150 /\
  Z.land m.(profile_flags) (all_flags cfg) = m.(profile_flags) /\
  (m.(busy) = true -> all_flags cfg <> 0 -> m.(profile_flags) <> 0).
Proof.
  intros Hr. pose proof (reachable_cm_inv cfg m Hr) as Hi. split; [apply Hi|]. split.
  { intros Hb. apply (inv_idle _ _ Hi). by rewrite <- (inv_busy _ _ Hi). }
  split; [apply (inv_retry _ _ Hi)|]. split; [apply (inv_flags _ _ Hi)|apply (inv_work _ _ Hi)].
Qed.

(** While nothing else happens, the timer's peer is retried at each
    timeout and the 151st timeout since the link was lost gives up: the
    manager is idle again, whatever the profiles answered meanwhile. *)
Theorem cm_reconnect_bounded (cfg : config) (m : bt_connection_manager_t) (es : list env) :
  reachable cm_initial (cm_step cfg) m -> m.(busy) = true ->
  let m' := timeouts cfg es m in
  if m.(cm_timer).(retry_times) + Z.of_nat (length es) <=? 150 then
    m'.(busy) = true /\ m'.(profile_flags) = m.(profile_flags) /\
    m'.(cm_timer) = mk_timer m.(cm_timer).(timer) m.(cm_timer).(peer_addr) true
                      (m.(cm_timer).(retry_times) + Z.of_nat (length es))
  else m'.(busy) = false /\ m'.(profile_flags) = 0 /\ m'.(cm_timer) = mk_timer None bt_addr_empty false 0.
Proof.
  intros Hr. pose proof (reachable_cm_inv cfg m Hr) as Hi. clear Hr. cbv zeta.
  revert m Hi. induction es as [|e es IH]; intros m Hi Hb.
  - cbn. rewrite Z.add_0_r. pose proof (inv_retry _ _ Hi) as Hret. unfold CM_RECONNECT_TIMES in Hret.
    destruct (Z.leb_spec (retry_times (cm_timer m)) 150); [|change (60 * 30 * 1000 / CM_RECONNECT_INTERVAL) with 150 in Hret; lia].
    split; [done|]. split; [done|]. pose proof (inv_busy _ _ Hi) as Ha. destruct (cm_timer m); cbn in *. congruence.
  - cbn [timeouts fold_left length]. fold (timeouts cfg es (exec (bt_cm_timeout_cb cfg e) m)).
    pose proof (timeout_spec cfg e m Hi Hb) as Ht. cbv zeta in Ht. pose proof (cm_timeout_inv cfg e m Hi) as Hi'.
    change CM_RECONNECT_TIMES with 150 in Ht.
    destruct (Z.ltb_spec (retry_times (cm_timer m)) 150).
    + destruct Ht as (Hb' & Hf' & Ht'). specialize (IH _ Hi' Hb'). rewrite Ht', Hf' in IH. cbn in IH.
      replace (retry_times (cm_timer m) + Z.of_nat (S (length es)))
        with (retry_times (cm_timer m) + 1 + Z.of_nat (length es)) by lia. exact IH.
    + destruct Ht as (Hb' & Hf' & Ht'). rewrite timeouts_idle by done.
      destruct (Z.leb_spec (retry_times (cm_timer m) + Z.of_nat (S (length es))) 150); [lia|]. done.
Qed.

(** A phone whose link was lost, in a build with both profiles. *)
Definition demo_cfg : config := mk_config true true false true true.
Definition demo_env : env :=
  mk_env BT_STATUS_SUCCESS BT_STATUS_SUCCESS BT_STATUS_SUCCESS BT_STATUS_SUCCESS [] (fun _ => None) (Some 1%nat) 0
    BT_STATUS_SUCCESS BT_STATUS_SUCCESS.
Definition demo_addr : bt_address_t := mk_addr 1 2 3 4 5 6.
Definition run_events (evs : list event) : bt_connection_manager_t :=
  fold_left (fun m ev => exec (run_event demo_cfg demo_env ev) m) evs g_connection_manager.
Definition demo_lost : list event :=
  [Ev_init; Ev_connect demo_addr BT_TRANSPORT_BREDR; Ev_a2dp_timer;
   Ev_acl_disconnected demo_addr BT_TRANSPORT_BREDR HCI_ERR_CONNECTION_TIMEOUT].

Lemma run_events_reachable evs : reachable cm_initial (cm_step demo_cfg) (run_events evs).
Proof.
  unfold run_events. induction evs as [|ev evs IH] using rev_ind; [by apply reach_init|].
  rewrite fold_left_app. eapply reach_step; [exact IH|]. by exists demo_env, ev.
Qed.

Lemma cm_reachable_invariant_witness : (run_events demo_lost).(busy) = (run_events demo_lost).(cm_timer).(active).
Proof. apply (cm_reachable_invariant demo_cfg (run_events demo_lost)). exact (run_events_reachable demo_lost). Defined.

Lemma cm_reconnect_bounded_witness :
  (timeouts demo_cfg (replicate 151 demo_env) (run_events demo_lost)).(busy) = false.
Proof.
  apply (cm_reconnect_bounded demo_cfg (run_events demo_lost) (replicate 151 demo_env)).
  - exact (run_events_reachable demo_lost).
  - vm_compute. reflexivity.
Defined.

(** When A2DP comes up by itself before its delayed connection is due, the
    flag that says the delayed connection is next stays set: HFP, still
    missing, is not tried again at any timeout. *)
Theorem reconnect_forgets_hfp :
  let m := run_events (demo_lost ++ [Ev_connected demo_addr PROFILE_A2DP_SINK]) in
  m.(busy) = true /\ m.(profile_flags) = FLAG_HFP_HF /\ m.(connect_a2dp_flag) = true /\
  outs (run_event demo_cfg demo_env Ev_timeout) m = [] /\
  (exec (run_event demo_cfg demo_env Ev_timeout) m).(connect_a2dp_flag) = true.
Proof. vm_compute. done. Qed.

End ConnectionManager.
