(* ===== verification/Device.v ===== *)
(** * Remote devices (service/src/device.c)

    What the adapter knows of a peer: its names, class, services, keys, the
    state of its link and of its bond.  The fields that a C pointer or a count
    stand for are lists; keys and other blobs are lists of bytes. *)

From S2P Require Import Prelude Bytes BtAddr BtUuid CString.
From coqutil Require Import Datatypes.RecordSetters.
Import UpdaterNotations.

Local Open Scope Z_scope.

Module Device.
Import BtAddr BtUuid.

Definition BT_REM_NAME_MAX_LEN : nat := 64.

(** ** Data *)

Inductive connection_state_t :=
| CONNECTION_STATE_DISCONNECTED | CONNECTION_STATE_CONNECTING | CONNECTION_STATE_DISCONNECTING
| CONNECTION_STATE_CONNECTED | CONNECTION_STATE_ENCRYPTED_BREDR | CONNECTION_STATE_ENCRYPTED_LE.

Inductive bond_state_t := BOND_STATE_NONE | BOND_STATE_BONDING | BOND_STATE_BONDED | BOND_STATE_CANCELING.

Inductive bt_link_role_t := BT_LINK_ROLE_MASTER | BT_LINK_ROLE_SLAVE | BT_LINK_ROLE_UNKNOWN.

#[export] Instance connection_state_eq_dec : EqDecision connection_state_t.
Proof. solve_decision. Defined.
#[export] Instance bond_state_eq_dec : EqDecision bond_state_t.
Proof. solve_decision. Defined.
#[export] Instance link_role_eq_dec : EqDecision bt_link_role_t.
Proof. solve_decision. Defined.

Definition BT_LE_ADDR_TYPE_PUBLIC : Z := 0.
Definition BT_LE_ADDR_TYPE_RANDOM : Z := 1.
Definition BT_LE_ADDR_TYPE_UNKNOWN : Z := 0xFF.
Definition BT_DEVICE_TYPE_BREDR : Z := 1.
Definition BT_DEVICE_TYPE_BLE : Z := 2.
Definition BT_BR_LINK_POLICY_ENABLE_ROLE_SWITCH : Z := 1.
Definition BT_BR_LINK_POLICY_ENABLE_ROLE_SWITCH_AND_SNIFF : Z := 3.

Record remote_device_t := mk_remote {
  name : string;
  alias : string;
  addr : bt_address_t;
  addr_type : Z;
  local_role : bt_link_role_t;
  device_class : Z;
  transport : bt_transport_t;
  device_type : Z;
  acl_handle : Z;
  sco_handle : Z;
  rssi : Z;
  uuids : list bt_uuid_t;                 (* uuids.uuids, uuids.uuid_cnt *)
  battery_level : Z;
  hfp_volume : Z;
  media_volume : Z;
  connection_state : connection_state_t;
  bond_state : bond_state_t;
  local_initiate_bond : bool;
  link_key : list Z;
  link_key_type : Z;
  link_policy : Z;
  identity_addr : bt_address_t;
  appearance : Z;
  smp_data : list Z;
  local_csrk : list Z;
  tx_phy : Z;
  rx_phy : Z;
}.

Record bt_device_t := mk_bt_device {
  remote : remote_device_t;
  is_temporary : bool;
  flags : Z;
  create_type : Z;
}.

Definition DFLAG_NAME_SET : Z := 1.
Definition DFLAG_GET_RMT_NAME : Z := 2.
Definition DFLAG_ALIAS_SET : Z := 4.
Definition DFLAG_LINKKEY_SET : Z := 8.
Definition DFLAG_WHITELIST_ADDED : Z := 16.
Definition DFLAG_CONNECTED : Z := 32.
Definition DFLAG_BONDED : Z := 64.
Definition DFLAG_LE_KEY_SET : Z := 128.

(** ** Creation *)

Definition device_create (a : bt_address_t) (t : bt_transport_t) (ty : Z) : bt_device_t :=
  mk_bt_device
    (mk_remote "" "" a ty BT_LINK_ROLE_UNKNOWN 0 t 0 0 0 0 [] 0 0 0
       CONNECTION_STATE_DISCONNECTED BOND_STATE_NONE false (replicate 16 0) 0
       BT_BR_LINK_POLICY_ENABLE_ROLE_SWITCH_AND_SNIFF bt_addr_empty 0 (replicate 80 0) (replicate 16 0) 0 0)
    true 0 0.

Definition br_device_create (a : bt_address_t) : bt_device_t := device_create a BT_TRANSPORT_BREDR BT_LE_ADDR_TYPE_UNKNOWN.
Definition le_device_create (a : bt_address_t) (ty : Z) : bt_device_t := device_create a BT_TRANSPORT_BLE ty.

(** ** Flags *)

Definition device_set_flags (f : Z) : bt_device_t -> bt_device_t := {! flags ::= (fun x => Z.lor x f) }.
Definition device_clear_flag (f : Z) : bt_device_t -> bt_device_t := {! flags ::= (fun x => Z.ldiff x f) }.
Definition device_check_flag (d : bt_device_t) (f : Z) : bool := negb (Z.land d.(flags) f =? 0).

(** ** Questions *)

Definition device_get_transport (d : bt_device_t) : bt_transport_t := d.(remote).(transport).
Definition device_get_address (d : bt_device_t) : bt_address_t := d.(remote).(addr).
Definition device_get_identity_address (d : bt_device_t) : bt_address_t := d.(remote).(identity_addr).
Definition device_get_local_csrk (d : bt_device_t) : list Z := d.(remote).(local_csrk).
Definition device_get_address_type (d : bt_device_t) : Z := d.(remote).(addr_type).
Definition device_get_device_type (d : bt_device_t) : Z := d.(remote).(device_type).
Definition device_get_name (d : bt_device_t) : string := d.(remote).(name).
Definition device_get_alias (d : bt_device_t) : string := d.(remote).(alias).
Definition device_get_device_class (d : bt_device_t) : Z := d.(remote).(device_class).
Definition device_get_uuids_size (d : bt_device_t) : nat := length d.(remote).(uuids).
Definition device_get_uuids (d : bt_device_t) (size : nat) : list bt_uuid_t := take size d.(remote).(uuids).
Definition device_get_appearance (d : bt_device_t) : Z := d.(remote).(appearance).
Definition device_get_rssi (d : bt_device_t) : Z := d.(remote).(rssi).
Definition device_get_connection_state (d : bt_device_t) : connection_state_t := d.(remote).(connection_state).
Definition device_get_acl_handle (d : bt_device_t) : Z := u16 d.(remote).(acl_handle).
Definition device_get_local_role (d : bt_device_t) : bt_link_role_t := d.(remote).(local_role).
Definition device_is_bond_initiate_local (d : bt_device_t) : bool := d.(remote).(local_initiate_bond).
Definition device_get_bond_state (d : bt_device_t) : bond_state_t := d.(remote).(bond_state).
Definition device_get_link_key (d : bt_device_t) : list Z := d.(remote).(link_key).
Definition device_get_link_key_type (d : bt_device_t) : Z := d.(remote).(link_key_type).
Definition device_get_link_policy (d : bt_device_t) : Z := d.(remote).(link_policy).
Definition device_get_le_phy (d : bt_device_t) : Z * Z := (d.(remote).(tx_phy), d.(remote).(rx_phy)).
Definition device_get_smp_key (d : bt_device_t) : list Z := d.(remote).(smp_data).

(** [connection_state >= CONNECTION_STATE_CONNECTED], and [>]. *)
Definition device_is_connected (d : bt_device_t) : bool :=
  match d.(remote).(connection_state) with
  | CONNECTION_STATE_CONNECTED | CONNECTION_STATE_ENCRYPTED_BREDR | CONNECTION_STATE_ENCRYPTED_LE => true
  | _ => false
  end.
Definition device_is_encrypted (d : bt_device_t) : bool :=
  match d.(remote).(connection_state) with
  | CONNECTION_STATE_ENCRYPTED_BREDR | CONNECTION_STATE_ENCRYPTED_LE => true
  | _ => false
  end.
Definition device_is_bonded (d : bt_device_t) : bool := bool_decide (d.(remote).(bond_state) = BOND_STATE_BONDED).

(** ** Changes *)

Abbreviation on_remote f := {! remote ::= f }.

(** NULL makes the address empty. *)
Definition device_set_identity_address (a : option bt_address_t) : bt_device_t -> bt_device_t :=
  on_remote {! identity_addr := default bt_addr_empty a }.
Definition device_set_local_csrk (k : list Z) : bt_device_t -> bt_device_t := on_remote {! local_csrk := k }.
Definition device_set_address_type (ty : Z) : bt_device_t -> bt_device_t := on_remote {! addr_type := ty }.
Definition device_set_device_type (ty : Z) : bt_device_t -> bt_device_t := on_remote {! device_type := ty }.

(** The value returned: did the name change?  The alias follows while it is
    empty. *)
Definition device_set_name (n : string) (d : bt_device_t) : bool * bt_device_t :=
  if strncmp_eq BT_REM_NAME_MAX_LEN d.(remote).(name) n then (false, d)
  else
    let d1 := on_remote {! name := strlcpy (BT_REM_NAME_MAX_LEN + 1) n } d in
    let d2 := if strncmp_eq BT_REM_NAME_MAX_LEN d.(remote).(alias) ""
              then on_remote {! alias := strlcpy (BT_REM_NAME_MAX_LEN + 1) n } d1 else d1 in
    (true, device_set_flags DFLAG_NAME_SET d2).

Definition device_set_alias (n : string) (d : bt_device_t) : bool * bt_device_t :=
  if strncmp_eq BT_REM_NAME_MAX_LEN d.(remote).(alias) n then (false, d)
  else (true, on_remote {! alias := strlcpy (BT_REM_NAME_MAX_LEN + 1) n } d).

Definition device_set_device_class (cod : Z) (d : bt_device_t) : bool * bt_device_t :=
  if d.(remote).(device_class) =? cod then (false, d) else (true, on_remote {! device_class := cod } d).

(** The scan for equal lists: [update] is set anew for each of the new UUIDs,
    so that the last one decides. *)
Fixpoint uuids_differ (update : bool) (new old : list bt_uuid_t) : bool :=
  match new with
  | [] => update
  | u :: new => uuids_differ (forallb (fun v => negb (bt_uuid_compare u v =? 0)) old) new old
  end.

Definition device_set_uuids (l : list bt_uuid_t) (d : bt_device_t) : bool * bt_device_t :=
  let old := d.(remote).(uuids) in
  let copy := (true, on_remote {! uuids := l } d) in
  if (length old =? 0)%nat then copy
  else if (length old =? length l)%nat then if uuids_differ true l old then copy else (false, d)
  else copy.

Definition device_set_appearance (v : Z) : bt_device_t -> bt_device_t := on_remote {! appearance := v }.
Definition device_set_rssi (v : Z) : bt_device_t -> bt_device_t := on_remote {! rssi := v }.
Definition device_set_connection_state (s : connection_state_t) : bt_device_t -> bt_device_t :=
  on_remote {! connection_state := s }.
Definition device_set_acl_handle (h : Z) : bt_device_t -> bt_device_t := on_remote {! acl_handle := u16 h }.
Definition device_set_local_role (r : bt_link_role_t) : bt_device_t -> bt_device_t := on_remote {! local_role := r }.
Definition device_set_bond_initiate_local (b : bool) : bt_device_t -> bt_device_t := on_remote {! local_initiate_bond := b }.

(** [bond_state_change_message_t]: what [notify] is called with, besides the
    device. *)
Record bond_state_change_message_t := mk_bond_msg { previous_state : bond_state_t; is_ctkd : bool }.

(** The device and the message; whether it is sent depends on [notify] and
    [zalloc]. *)
Definition device_set_bond_state (s : bond_state_t) (ctkd : bool) (d : bt_device_t) : bond_state_change_message_t * bt_device_t :=
  (mk_bond_msg d.(remote).(bond_state) ctkd, on_remote {! bond_state := s } d).

Definition device_set_link_key (k : list Z) : bt_device_t -> bt_device_t := on_remote {! link_key := k }.
Definition device_delete_link_key : bt_device_t -> bt_device_t := on_remote {! link_key := replicate 16 0 }.
Definition device_set_link_key_type (ty : Z) : bt_device_t -> bt_device_t := on_remote {! link_key_type := ty }.
Definition device_set_link_policy (p : Z) : bt_device_t -> bt_device_t := on_remote {! link_policy := p }.
Definition device_set_le_phy (tx rx : Z) : bt_device_t -> bt_device_t := on_remote {! tx_phy := tx; rx_phy := rx }.
Definition device_set_smp_key (k : list Z) (d : bt_device_t) : bt_device_t :=
  on_remote {! smp_data := k } (device_set_flags DFLAG_LE_KEY_SET d).
Definition device_delete_smp_key (d : bt_device_t) : bt_device_t :=
  on_remote {! smp_data := replicate 80 0 } (device_clear_flag DFLAG_LE_KEY_SET d).

(** ** Facts *)

(** The sizes of the arrays. *)
Definition device_wf (d : bt_device_t) : Prop :=
  (String.length d.(remote).(name) <= BT_REM_NAME_MAX_LEN)%nat /\
  (String.length d.(remote).(alias) <= BT_REM_NAME_MAX_LEN)%nat.

#[global] Arguments constant {E} newValue _ /.
#[local] Arguments BT_REM_NAME_MAX_LEN : simpl never.
#[local] Arguments Nat.add : simpl never.

Lemma set_name_wf n d : device_wf d -> device_wf (device_set_name n d).2.
Proof.
  intros [Hn Ha]. unfold device_set_name. case_match; [by split|].
  pose proof (strlcpy_length (BT_REM_NAME_MAX_LEN + 1) n ltac:(lia)).
  case_match; (split; cbn; [lia|]); [lia|exact Ha].
Qed.

Lemma set_alias_wf n d : device_wf d -> device_wf (device_set_alias n d).2.
Proof.
  intros [Hn Ha]. unfold device_set_alias. case_match; [by split|].
  pose proof (strlcpy_length (BT_REM_NAME_MAX_LEN + 1) n ltac:(lia)). split; cbn; [done|lia].
Qed.

(** A name that fits is the name afterwards, whether it changed or not. *)
Lemma set_name_get n d :
  device_wf d -> (String.length n <= BT_REM_NAME_MAX_LEN)%nat -> device_get_name (device_set_name n d).2 = n.
Proof.
  intros [Hn _] Hl. unfold device_set_name. rewrite strncmp_eq_short by done. case_bool_decide as E; [done|].
  cbn zeta. destruct (strncmp_eq _ (alias _) _); cbn; apply strlcpy_short; lia.
Qed.

Lemma set_alias_get n d :
  device_wf d -> (String.length n <= BT_REM_NAME_MAX_LEN)%nat -> device_get_alias (device_set_alias n d).2 = n.
Proof.
  intros [_ Ha] Hl. unfold device_set_alias. rewrite strncmp_eq_short by done. case_bool_decide as E; [done|].
  cbn. apply strlcpy_short. lia.
Qed.

(** The last of the new UUIDs decides whether the list is taken over: with a
    list of the same length whose last is known, the others are lost. *)
Lemma set_uuids_last_decides u1 u2 u3 d :
  d.(remote).(uuids) = [u1; u3] -> device_set_uuids [u2; u3] d = (false, d).
Proof.
  intros E. unfold device_set_uuids. rewrite E. cbn [length Nat.eqb uuids_differ forallb].
  assert ((bt_uuid_compare u3 u3 =? 0) = true) as H.
  { apply Z.eqb_eq. unfold bt_uuid_compare, bt_uuid128_cmp.
    generalize (val (bt_uuid_to_uuid128 u3 bt_uuid_zero)). generalize 16%nat.
    intros n. induction n as [|n IH]; intros l; [done|]. cbn. rewrite Z.ltb_irrefl. apply IH. }
  rewrite H. cbn [negb andb]. by rewrite andb_false_r.
Qed.
End Device.
