(* ===== verification/RemoteUuids.v ===== *)
(** * The saved service UUIDs of a peer

    The UUIDs of a bonded peer are kept in a byte array of fixed length
    ([CONFIG_BLUETOOTH_MAX_SAVED_REMOTE_UUIDS_LEN], 80 by default): a head with
    the number of 16-bit UUIDs and their values, then a head with the number
    of 128-bit UUIDs and theirs.  [device_get_remote_uuids] of
    service/src/device.c writes it, [load_remote_uuids] of
    service/src/adapter_service.c reads it.  [None] is an access outside of the
    array.

    What is shown: neither reaches outside of the array, whatever the UUIDs or
    the stored bytes; UUIDs over the Bluetooth base and others, when they fit,
    are read back, the former first. *)

From S2P Require Import Prelude Bytes BtAddr BtUuid Device.
From coqutil Require Import Datatypes.RecordSetters.

Local Open Scope Z_scope.

Module RemoteUuids.
Import Bytes BtUuid Device.

Definition BT_HEAD_UUID16_TYPE : Z := 1.
Definition BT_HEAD_UUID128_TYPE : Z := 3.

(** ** The array *)

Definition poke (i : Z) (bs buf : list Z) : option (list Z) :=
  if (0 <=? i) && (i + Z.of_nat (length bs) <=? Z.of_nat (length buf))
  then Some (write_at (Z.to_nat i) bs buf) else None.

Definition peek (i : Z) (buf : list Z) : option Z := if 0 <=? i then buf !! Z.to_nat i else None.

(** [n] bytes from [i]. *)
Definition peeks (i : Z) (n : nat) (buf : list Z) : option (list Z) :=
  if (0 <=? i) && (i + Z.of_nat n <=? Z.of_nat (length buf)) then Some (take n (drop (Z.to_nat i) buf)) else None.

(** ** Saving *)

(** The UUID with the bytes of a 16-bit value cleared is the base. *)
Definition over_base (u : bt_uuid_t) : bool :=
  bt_uuid_compare (mk_uuid u.(type) (<[13%nat := 0]> (<[12%nat := 0]> u.(val)))) bt_uuid128_base =? 0.

Definition top_zero (u : bt_uuid_t) : bool := (byte_at u.(val) 14 =? 0) && (byte_at u.(val) 15 =? 0).

Fixpoint count_uuids (l : list bt_uuid_t) (c16 c128 : Z) : Z * Z :=
  match l with
  | [] => (c16, c128)
  | u :: l =>
      if u.(type) =? BT_UUID16_TYPE then count_uuids l (u8 (c16 + 1)) c128
      else if u.(type) =? BT_UUID128_TYPE then
        if negb (over_base u) then count_uuids l c16 (u8 (c128 + 1))
        else if top_zero u then count_uuids l (u8 (c16 + 1)) c128
        else count_uuids l c16 c128
      else count_uuids l c16 c128
  end.

Section Codec.
Context (L : Z).          (* CONFIG_BLUETOOTH_MAX_SAVED_REMOTE_UUIDS_LEN *)

(** The second loop: [p] and [q] are the places of the next UUIDs. *)
Fixpoint write_uuids (l : list bt_uuid_t) (c16 c128 p q : Z) (prop : list Z) : option (list Z) :=
  match l with
  | [] => Some prop
  | u :: l =>
      if negb ((0 <? c16) || (0 <? c128)) then Some prop
      else if u.(type) =? BT_UUID16_TYPE then
        if (0 <? c16) && (p <? L - 1) then
          prop ← poke p (UINT16_TO_STREAM (val_u16 u)) prop;
          write_uuids l (u8 (c16 - 1)) c128 (p + 2) q prop
        else write_uuids l c16 c128 p q prop
      else if u.(type) =? BT_UUID128_TYPE then
        if negb (over_base u) then
          if (0 <? c128) && (q <? L - 15) then
            prop ← poke q (take 16 u.(val)) prop;
            write_uuids l c16 (u8 (c128 - 1)) p (q + 16) prop
          else write_uuids l c16 c128 p q prop
        else if top_zero u && ((0 <? c16) && (p <? L - 1)) then
          prop ← poke p [byte_at u.(val) (BASE_UUID16_OFFSET + 1); byte_at u.(val) BASE_UUID16_OFFSET] prop;
          write_uuids l (u8 (c16 - 1)) c128 (p + 2) q prop
        else write_uuids l c16 c128 p q prop
      else write_uuids l c16 c128 p q prop
  end.

(** The numbers that fit, and the heads. *)
Definition fit16 (c16 : Z) : Z := if L <? c16 * 2 + 1 then u8 (Z.quot (L - 1) 2) else c16.
Definition fit128 (c16 c128 : Z) : Z :=
  if 0 <? c16
  then if L - c16 * 2 + 1 <? c128 * 16 + 1 then u8 (Z.quot (L - c16 * 2 - 2) 16) else c128
  else if L <? c128 * 16 + 1 then u8 (Z.quot (L - 1) 16) else c128.
Definition head (ty cnt : Z) : Z := Z.land (Z.lor (Z.shiftl ty 5) cnt) 0x7F.

Definition write_head16 (c16 : Z) (prop : list Z) : option (Z * list Z) :=
  if 0 <? c16 then
    let c16 := fit16 c16 in
    prop ← poke 0 [head BT_HEAD_UUID16_TYPE c16] prop; Some (c16, prop)
  else Some (c16, prop).

Definition write_head128 (c16 c128 : Z) (prop : list Z) : option (Z * list Z) :=
  if 0 <? c128 then
    let c128 := fit128 c16 c128 in
    prop ← poke (if 0 <? c16 then c16 * 2 + 1 else 0) [head BT_HEAD_UUID128_TYPE c128] prop; Some (c128, prop)
  else Some (c128, prop).

Definition device_get_remote_uuids (l : list bt_uuid_t) (prop : list Z) : option (list Z) :=
  let '(c16, c128) := count_uuids l 0 0 in
  if (c16 =? 0) && (c128 =? 0) then Some prop
  else
    '(c16, prop) ← write_head16 c16 prop;
    '(c128, prop) ← write_head128 c16 c128 prop;
    write_uuids l c16 c128 1 (c16 * 2 + 2) prop.

(** ** Loading *)

Definition BE_STREAM_TO_UINT16 (b0 b1 : Z) : Z := u16 (Z.shiftl b0 8 + b1).

Fixpoint read_uuids16 (n : nat) (i : Z) (buf : list Z) : option (list bt_uuid_t) :=
  match n with
  | O => Some []
  | S n =>
      b0 ← peek i buf; b1 ← peek (i + 1) buf;
      let u := bt_uuid_to_uuid128 (bt_uuid16_create (BE_STREAM_TO_UINT16 b0 b1)) bt_uuid_zero in
      us ← read_uuids16 n (i + 2) buf; Some (u :: us)
  end.

Fixpoint read_uuids128 (n : nat) (i : Z) (buf : list Z) : option (list bt_uuid_t) :=
  match n with
  | O => Some []
  | S n => v ← peeks i 16 buf; us ← read_uuids128 n (i + 16) buf; Some (mk_uuid BT_UUID128_TYPE v :: us)
  end.

(** The number of 128-bit UUIDs after [c16] shorter ones. *)
Definition second_head (c16 c128 : Z) (buf : list Z) : option Z :=
  if negb (c16 =? 0) && (c16 * 2 + 1 <? L) then b ← peek (1 + c16 * 2) buf; Some (Z.land b 0x1F) else Some c128.

(** [mem]: [malloc] succeeds. *)
Definition load_remote_uuids (mem : bool) (buf : list Z) (d : bt_device_t) : option bt_device_t :=
  b0 ← peek 0 buf;
  if b0 =? 0 then Some d
  else
    let ty := Z.shiftr b0 5 in
    let c16 := if ty =? BT_HEAD_UUID16_TYPE then Z.land b0 0x1F else 0 in
    let c128 := if ty =? BT_HEAD_UUID128_TYPE then Z.land b0 0x1F else 0 in
    c128 ← second_head c16 c128 buf;
    if c16 + c128 =? 0 then Some d
    else
      let property_length := (if c16 =? 0 then 0 else 1 + c16 * 2) + (if c128 =? 0 then 0 else 1 + c128 * 16) in
      if L <? property_length then Some d
      else if negb mem then Some d
      else
        us16 ← read_uuids16 (Z.to_nat c16) 1 buf;
        us128 ← read_uuids128 (Z.to_nat c128) (1 + c16 * 2 + (if c128 =? 0 then 0 else 1)) buf;
        Some (device_set_uuids (us16 ++ us128) d).2.

(** ** Bounds *)

Lemma length_write_at off src dst :
  (off + length src <= length dst)%nat -> length (write_at off src dst) = length dst.
Proof. intros H. unfold write_at. rewrite !length_app, length_take, length_drop. lia. Qed.

Lemma poke_ok i bs buf :
  0 <= i -> i + Z.of_nat (length bs) <= Z.of_nat (length buf) ->
  exists buf', poke i bs buf = Some buf' /\ length buf' = length buf.
Proof.
  intros H0 H1. unfold poke. rewrite (proj2 (Z.leb_le _ _) H0), (proj2 (Z.leb_le _ _) H1). cbn.
  eexists. split; [done|]. apply length_write_at. lia.
Qed.

Lemma peek_ok i (buf : list Z) : 0 <= i < Z.of_nat (length buf) -> exists b, peek i buf = Some b.
Proof.
  intros H. unfold peek. rewrite (proj2 (Z.leb_le 0 i)) by lia. apply lookup_lt_is_Some_2. lia.
Qed.

Lemma write_uuids_ok l c16 c128 p q prop :
  0 <= p -> 0 <= q -> Z.of_nat (length prop) = L ->
  exists prop', write_uuids l c16 c128 p q prop = Some prop' /\ Z.of_nat (length prop') = L.
Proof.
  revert c16 c128 p q prop. induction l as [|u l IH]; intros c16 c128 p q prop Hp Hq HL; cbn [write_uuids]; [by exists prop|].
  assert (forall i bs, 0 <= i -> i + Z.of_nat (length bs) <= L -> exists prop', poke i bs prop = Some prop' /\ Z.of_nat (length prop') = L) as Hpoke.
  { intros i bs H0 H1. destruct (poke_ok i bs prop) as (prop' & E1 & E2); [lia|lia|]. exists prop'. split; [done|lia]. }
  destruct (negb _); [by exists prop|]. destruct (type u =? BT_UUID16_TYPE).
  { destruct ((0 <? c16) && (p <? L - 1)) eqn:G; [|by apply IH]. apply andb_prop in G as [_ G%Z.ltb_lt].
    destruct (Hpoke p (UINT16_TO_STREAM (val_u16 u))) as (prop' & -> & E2); [lia|cbn; lia|]. cbn. apply IH; lia. }
  destruct (type u =? BT_UUID128_TYPE); [|by apply IH]. destruct (negb (over_base u)).
  { destruct ((0 <? c128) && (q <? L - 15)) eqn:G; [|by apply IH]. apply andb_prop in G as [_ G%Z.ltb_lt].
    destruct (Hpoke q (take 16 (val u))) as (prop' & -> & E2); [lia|rewrite length_take; lia|]. cbn. apply IH; lia. }
  destruct (top_zero u && _) eqn:G; [|by apply IH]. apply andb_prop in G as [_ G]. apply andb_prop in G as [_ G%Z.ltb_lt].
  match goal with |- context [poke p ?bs prop] => destruct (Hpoke p bs) as (prop' & -> & E2); [lia|cbn; lia|] end.
  cbn. apply IH; lia.
Qed.

Lemma count_uuids_range l c16 c128 a b :
  in_u 8 c16 -> in_u 8 c128 -> count_uuids l c16 c128 = (a, b) -> in_u 8 a /\ in_u 8 b.
Proof.
  revert c16 c128. induction l as [|u l IH]; intros c16 c128 H1 H2; cbn; [by intros [= <- <-]|].
  pose proof (in_u8_of (c16 + 1)). pose proof (in_u8_of (c128 + 1)).
  repeat case_match; intros E; eapply IH in E; done.
Qed.

Context (L_even : Z.Even L) (L_pos : 2 <= L).

Lemma fit16_range c : in_u 8 c -> 0 <= fit16 c /\ fit16 c * 2 + 1 < L.
Proof using L_even L_pos.
  unfold fit16, in_u. intros Hc. destruct L_even as [k Hk]. destruct (Z.ltb_spec L (c * 2 + 1)); [|lia].
  rewrite Z.quot_div_nonneg by lia. assert ((L - 1) / 2 = k - 1) as ->.
  { symmetry. apply (Z.div_unique _ _ _ 1); lia. }
  rewrite uint_small by (unfold in_u; lia). lia.
Qed.

Lemma save_in_bounds l prop :
  Z.of_nat (length prop) = L ->
  exists prop', device_get_remote_uuids l prop = Some prop' /\ Z.of_nat (length prop') = L.
Proof using L_even L_pos.
  intros HL. unfold device_get_remote_uuids. destruct (count_uuids l 0 0) as [c16 c128] eqn:Ec.
  apply count_uuids_range in Ec as [H16 H128]; [|done|done]. destruct ((c16 =? 0) && (c128 =? 0)); [by exists prop|].
  assert (exists c prop1, write_head16 c16 prop = Some (c, prop1) /\ 0 <= c /\ c * 2 + 1 < L /\ Z.of_nat (length prop1) = L)
    as (c & prop1 & -> & Hc & Hc' & HL1).
  { unfold write_head16. destruct (Z.ltb_spec 0 c16).
    - destruct (poke_ok 0 [head BT_HEAD_UUID16_TYPE (fit16 c16)] prop) as (p1 & E1 & E2); [lia|cbn; lia|].
      rewrite E1. cbn. destruct (fit16_range c16 H16). by exists (fit16 c16), p1; split_and!; [done..|lia].
    - unfold in_u in H16. exists c16, prop. split_and!; [done|lia..]. }
  cbn. assert (exists c' prop2, write_head128 c c128 prop1 = Some (c', prop2) /\ Z.of_nat (length prop2) = L)
    as (c' & prop2 & -> & HL2).
  { unfold write_head128. destruct (0 <? c128); [|by exists c128, prop1].
    destruct (poke_ok (if 0 <? c then c * 2 + 1 else 0) [head BT_HEAD_UUID128_TYPE (fit128 c c128)] prop1) as (p2 & E1 & E2);
      [case_match; lia|cbn; case_match; lia|]. rewrite E1. cbn. exists (fit128 c c128), p2. split; [done|lia]. }
  cbn. apply write_uuids_ok; lia.
Qed.

Lemma read_uuids16_ok n i (buf : list Z) :
  0 <= i -> i + 2 * Z.of_nat n <= Z.of_nat (length buf) -> exists us, read_uuids16 n i buf = Some us.
Proof.
  revert i. induction n as [|n IH]; intros i H0 H1; cbn [read_uuids16]; [by eexists|].
  destruct (peek_ok i buf) as [b0 ->]; [lia|]. destruct (peek_ok (i + 1) buf) as [b1 ->]; [lia|]. cbn.
  destruct (IH (i + 2)) as [us ->]; [lia..|]. by eexists.
Qed.

Lemma read_uuids128_ok n i (buf : list Z) :
  0 <= i -> i + 16 * Z.of_nat n <= Z.of_nat (length buf) -> exists us, read_uuids128 n i buf = Some us.
Proof.
  revert i. induction n as [|n IH]; intros i H0 H1; cbn [read_uuids128]; [by eexists|].
  unfold peeks. rewrite (proj2 (Z.leb_le 0 i)), (proj2 (Z.leb_le (i + _) _)) by lia. cbn.
  destruct (IH (i + 16)) as [us ->]; [lia..|]. by eexists.
Qed.

Lemma load_in_bounds mem buf d : Z.of_nat (length buf) = L -> exists d', load_remote_uuids mem buf d = Some d'.
Proof using L_even L_pos.
  intros HL. unfold load_remote_uuids. destruct (peek_ok 0 buf) as [b0 ->]; [lia|]. cbn [mbind option_bind].
  destruct (b0 =? 0); [by exists d|]. set (c16 := if _ =? BT_HEAD_UUID16_TYPE then _ else _).
  set (c := if _ =? BT_HEAD_UUID128_TYPE then _ else _).
  assert (0 <= c16) as H16 by (subst c16; case_match; [apply Z.land_nonneg; right; lia|lia]).
  assert (exists c128, second_head c16 c buf = Some c128 /\ 0 <= c128) as (c128 & -> & H128).
  { unfold second_head. destruct (negb (c16 =? 0) && (c16 * 2 + 1 <? L)) eqn:G.
    - apply andb_prop in G as [_ G%Z.ltb_lt]. destruct (peek_ok (1 + c16 * 2) buf) as [b ->]; [lia|]. cbn.
      eexists. split; [done|]. apply Z.land_nonneg. right. lia.
    - eexists. split; [done|]. subst c. case_match; [apply Z.land_nonneg; right; lia|lia]. }
  cbn [mbind option_bind]. destruct (c16 + c128 =? 0); [by exists d|].
  destruct (Z.ltb_spec L ((if c16 =? 0 then 0 else 1 + c16 * 2) + (if c128 =? 0 then 0 else 1 + c128 * 16))) as [|Hlen];
    [by exists d|]. destruct mem; [|by exists d]. cbn [negb]. destruct L_even as [k Hk].
  destruct (Z.eqb_spec c16 0) as [->|], (Z.eqb_spec c128 0) as [->|].
  all: match goal with |- context [read_uuids16 ?n ?i ?b] => destruct (read_uuids16_ok n i b) as [us ->]; [lia..|] end.
  all: cbn [mbind option_bind].
  all: match goal with |- context [read_uuids128 ?n ?i ?b] => destruct (read_uuids128_ok n i b) as [us' ->]; [lia..|] end.
  all: by eexists.
Qed.

(** ** Reading back *)

Definition uuid128_ok (u : bt_uuid_t) : Prop := u.(type) = BT_UUID128_TYPE /\ uuid_wf u.

(** The UUIDs that are kept in two bytes, and the others. *)
Definition shorts (l : list bt_uuid_t) : list bt_uuid_t := List.filter over_base l.
Definition longs (l : list bt_uuid_t) : list bt_uuid_t := List.filter (fun u => negb (over_base u)) l.

Definition enc16 (u : bt_uuid_t) : list Z := [byte_at u.(val) (BASE_UUID16_OFFSET + 1); byte_at u.(val) BASE_UUID16_OFFSET].

(** A 128-bit UUID over the base is its 16-bit value put into the base. *)
Lemma over_base_shape u :
  uuid128_ok u -> over_base u = true ->
  top_zero u = true /\
  bt_uuid_to_uuid128 (bt_uuid16_create (BE_STREAM_TO_UINT16 (byte_at u.(val) 13) (byte_at u.(val) 12))) bt_uuid_zero = u.
Proof.
  destruct u as [ty v]. intros [Hty [Hl Hb]] Ho. cbn in Hty, Hl, Hb. subst ty.
  destruct (length16 v Hl) as (b0 & b1 & b2 & b3 & b4 & b5 & b6 & b7 & b8 & b9 & b10 & b11 & b12 & b13 & b14 & b15 & ->).
  unfold over_base, bt_uuid_compare, bt_uuid128_cmp in Ho. apply Z.eqb_eq in Ho. cbn [type val] in Ho.
  change (bt_uuid_to_uuid128 bt_uuid128_base bt_uuid_zero) with bt_uuid128_base in Ho.
  apply memcmp_eq in Ho; [|done|done].
  unfold bt_uuid_to_uuid128, bt_uuid128_base in Ho. cbn in Ho. injection Ho as -> -> -> -> -> -> -> -> -> -> -> -> -> ->.
  split; [done|]. do 12 apply Forall_inv_tail in Hb. pose proof (Forall_inv Hb) as H12.
  pose proof (Forall_inv (Forall_inv_tail Hb)) as H13. cbn beta in H12, H13.
  cbn [byte_at val nth]. unfold BE_STREAM_TO_UINT16. rewrite Z.add_comm, stream16_value by done.
  unfold in_u in *. change (2 ^ 8) with 256 in *.
  assert (u8 (b12 + 256 * b13) = b12) as E1.
  { unfold uint. change (2 ^ 8) with 256. rewrite Z.mul_comm, Z.mod_add by lia. apply Z.mod_small. lia. }
  assert (u8 (Z.shiftr (b12 + 256 * b13) 8) = b13) as E2.
  { rewrite Z.shiftr_div_pow2 by lia. change (2 ^ 8) with 256. rewrite Z.mul_comm, Z.div_add by lia.
    rewrite Z.div_small by lia. apply uint_small. unfold in_u. lia. }
  unfold bt_uuid16_create, UINT16_TO_STREAM. rewrite E1, E2. unfold bt_uuid_to_uuid128. cbn.
  unfold bt_uuid16_to_uuid128, UINT16_TO_STREAM, val_u16, byte_at. cbn. rewrite Z.shiftl_mul_pow2 by lia.
  change (2 ^ 8) with 256. replace (b12 + b13 * 256) with (b12 + 256 * b13) by lia. by rewrite E1, E2.
Qed.

Lemma count_uuids_spec l c16 c128 :
  Forall uuid128_ok l -> 0 <= c16 -> 0 <= c128 ->
  c16 + Z.of_nat (length (shorts l)) < 256 -> c128 + Z.of_nat (length (longs l)) < 256 ->
  count_uuids l c16 c128 = (c16 + Z.of_nat (length (shorts l)), c128 + Z.of_nat (length (longs l))).
Proof.
  unfold shorts, longs.
  revert c16 c128. induction l as [|u l IH]; intros c16 c128 Hl H1 H2 H3 H4; cbn; [f_equal; lia|].
  apply Forall_cons_iff in Hl as [Hu Hl]. pose proof Hu as [Hty _]. rewrite Hty. cbn [Z.eqb].
  change (BT_UUID128_TYPE =? BT_UUID16_TYPE) with false. change (BT_UUID128_TYPE =? BT_UUID128_TYPE) with true. cbn iota.
  cbn in H3, H4. destruct (over_base u) eqn:Ho; cbn in *.
  - destruct (over_base_shape u Hu Ho) as [-> _]. rewrite uint_small by (unfold in_u; lia).
    rewrite IH by (try done; lia). f_equal; lia.
  - rewrite uint_small by (unfold in_u; lia). rewrite IH by (try done; lia). f_equal; lia.
Qed.

Lemma poke_app i bs a x r :
  Z.of_nat (length a) = i -> length x = length bs -> poke i bs (a ++ x ++ r) = Some (a ++ bs ++ r).
Proof.
  intros Hi Hx. unfold poke. rewrite !length_app.
  rewrite (proj2 (Z.leb_le 0 i)), (proj2 (Z.leb_le (i + _) _)) by lia. cbn. f_equal. unfold write_at.
  replace (Z.to_nat i) with (length a) by lia. rewrite take_app_length. f_equal. f_equal.
  rewrite <- Hx, <- length_app, app_assoc. apply drop_app_length.
Qed.

Lemma poke_head h x r : poke 0 [h] ([x] ++ r) = Some ([h] ++ r).
Proof. exact (poke_app 0 [h] [] [x] r eq_refl eq_refl). Qed.

Ltac ltb_yes := match goal with |- context [?a <? ?b] => rewrite (proj2 (Z.ltb_lt a b)) by lia end.

Lemma split_len {A} n (x : list A) : (n <= length x)%nat -> exists x1 x2, x = x1 ++ x2 /\ length x1 = n /\ length x2 = (length x - n)%nat.
Proof. intros H. exists (take n x), (drop n x). by rewrite take_drop, length_take, length_drop, Nat.min_l. Qed.

(** The second loop fills the two places. *)
Lemma write_uuids_spec l a x h y b p q :
  Forall uuid128_ok l -> length x = (2 * length (shorts l))%nat -> length y = (16 * length (longs l))%nat ->
  Z.of_nat (length a) = p -> Z.of_nat (length a + length x + length h) = q ->
  Z.of_nat (length (a ++ x ++ h ++ y ++ b)) = L ->
  Z.of_nat (length (shorts l)) < 256 -> Z.of_nat (length (longs l)) < 256 ->
  write_uuids l (Z.of_nat (length (shorts l))) (Z.of_nat (length (longs l))) p q (a ++ x ++ h ++ y ++ b)
  = Some (a ++ concat (map enc16 (shorts l)) ++ h ++ concat (map val (longs l)) ++ b).
Proof.
  unfold shorts, longs. revert a x h y p q.
  induction l as [|u l IH]; intros a x h y p q Hl Hx Hy Hp Hq HL H1 H2; cbn [write_uuids].
  { destruct x, y; try done. }
  apply Forall_cons_iff in Hl as [Hu Hl]. pose proof Hu as [Hty [Hv _]]. rewrite Hty.
  change (BT_UUID128_TYPE =? BT_UUID16_TYPE) with false. change (BT_UUID128_TYPE =? BT_UUID128_TYPE) with true. cbn iota.
  rewrite !length_app in HL. cbn [List.filter] in *. destruct (over_base u) eqn:Ho; cbn [negb length map concat] in *.
  - destruct (over_base_shape u Hu Ho) as [-> _].
    destruct (split_len 2 x) as (x1 & x2 & -> & Hx1 & Hx2); [lia|]. rewrite length_app in *. do 2 ltb_yes. cbn [negb orb andb].
    rewrite <- (app_assoc x1). change [byte_at (val u) (BASE_UUID16_OFFSET + 1); byte_at (val u) BASE_UUID16_OFFSET] with (enc16 u).
    rewrite (poke_app p (enc16 u) a x1) by (done || lia). cbn [mbind option_bind].
    rewrite uint_small by (unfold in_u; lia). rewrite Nat2Z.inj_succ, <- Z.add_1_r, Z.add_simpl_r.
    replace (a ++ enc16 u ++ x2 ++ h ++ y ++ b) with ((a ++ enc16 u) ++ x2 ++ h ++ y ++ b) by (by rewrite <- app_assoc).
    rewrite (IH (a ++ enc16 u) x2 h y (p + 2) q);
      [by rewrite <- !app_assoc|done|..]; rewrite ?length_app; cbn [length enc16]; lia.
  - destruct (split_len 16 y) as (y1 & y2 & -> & Hy1 & Hy2); [lia|]. rewrite length_app in *.
    rewrite orb_comm. do 2 ltb_yes. cbn [negb orb andb]. rewrite (take_ge (val u)) by lia.
    replace (a ++ x ++ h ++ (y1 ++ y2) ++ b) with ((a ++ x ++ h) ++ y1 ++ y2 ++ b) by (by rewrite <- !app_assoc).
    rewrite (poke_app q (val u) (a ++ x ++ h) y1) by (rewrite ?length_app; lia). cbn [mbind option_bind].
    rewrite uint_small by (unfold in_u; lia). rewrite (Nat2Z.inj_succ (length (List.filter (fun _ => negb _) l))), <- Z.add_1_r, Z.add_simpl_r.
    replace ((a ++ x ++ h) ++ val u ++ y2 ++ b) with (a ++ x ++ (h ++ val u) ++ y2 ++ b) by (by rewrite <- !app_assoc).
    rewrite (IH a x (h ++ val u) y2 p (q + 16));
      [by rewrite <- !app_assoc|done|..]; rewrite ?length_app; lia.
Qed.

Lemma peek_app i a b r : Z.of_nat (length a) = i -> peek i (a ++ b :: r) = Some b.
Proof.
  intros <-. unfold peek. rewrite (proj2 (Z.leb_le _ _)) by lia.
  rewrite Nat2Z.id, lookup_app_r, Nat.sub_diag by lia. done.
Qed.

Lemma read_uuids16_spec us i a r :
  Forall uuid128_ok us -> Forall (fun u => over_base u = true) us -> Z.of_nat (length a) = i ->
  read_uuids16 (length us) i (a ++ concat (map enc16 us) ++ r) = Some us.
Proof.
  revert i a. induction us as [|u us IH]; intros i a Hok Hs Hi; cbn [read_uuids16 length map concat]; [done|].
  apply Forall_cons_iff in Hok as [Hu Hok]. apply Forall_cons_iff in Hs as [Hb Hs]. rewrite <- app_assoc. cbn [enc16 app].
  rewrite (peek_app i a) by done. cbn [mbind option_bind].
  rewrite (cons_middle _ a), app_assoc, (peek_app (i + 1)) by (rewrite length_app; cbn; lia). cbn [mbind option_bind].
  rewrite (cons_middle _ (a ++ _)), app_assoc, (IH (i + 2)) by (done || (rewrite !length_app; cbn; lia)). cbn [mbind option_bind].
  change (BASE_UUID16_OFFSET + 1)%nat with 13%nat. change BASE_UUID16_OFFSET with 12%nat. by rewrite (proj2 (over_base_shape u Hu Hb)).
Qed.

Lemma read_uuids128_spec us i a r :
  Forall uuid128_ok us -> Z.of_nat (length a) = i ->
  read_uuids128 (length us) i (a ++ concat (map val us) ++ r) = Some us.
Proof.
  revert i a. induction us as [|u us IH]; intros i a Hok Hi; cbn [read_uuids128 length map concat]; [done|].
  apply Forall_cons_iff in Hok as [(Hty & Hv & _) Hok]. unfold peeks. rewrite !length_app.
  rewrite (proj2 (Z.leb_le 0 i)), (proj2 (Z.leb_le (i + _) _)) by lia. cbn [andb mbind option_bind].
  replace (Z.to_nat i) with (length a) by lia. rewrite drop_app_length, <- app_assoc, take_app_length' by done.
  rewrite (app_assoc a), (IH (i + 16)) by (done || (rewrite length_app; lia)). cbn [mbind option_bind].
  destruct u as [ty v]. cbn in *. by subst.
Qed.

(** What a head says is read from it. *)
Lemma head_fields ty c :
  ty = BT_HEAD_UUID16_TYPE \/ ty = BT_HEAD_UUID128_TYPE -> 0 <= c < 32 ->
  head ty c <> 0 /\ Z.shiftr (head ty c) 5 = ty /\ Z.land (head ty c) 0x1F = c.
Proof.
  intros Hty Hc.
  assert (forallb (fun c => negb (head ty (Z.of_nat c) =? 0) && (Z.shiftr (head ty (Z.of_nat c)) 5 =? ty)
    && (Z.land (head ty (Z.of_nat c)) 0x1F =? Z.of_nat c)) (seq 0 32) = true) as H by (by destruct Hty as [-> | ->]).
  rewrite forallb_forall in H. specialize (H (Z.to_nat c) ltac:(apply in_seq; lia)). rewrite Z2Nat.id in H by lia.
  apply andb_prop in H as [H H3%Z.eqb_eq]. apply andb_prop in H as [H1%negb_true_iff H2%Z.eqb_eq].
  apply Z.eqb_neq in H1. done.
Qed.

(** The room a list of UUIDs takes. *)
Definition room (l : list bt_uuid_t) : Z :=
  (if decide (shorts l = []) then 0 else 1 + 2 * Z.of_nat (length (shorts l)))
  + (if decide (longs l = []) then 0 else 1 + 16 * Z.of_nat (length (longs l))).

Definition storable (l : list bt_uuid_t) : Prop :=
  Forall uuid128_ok l /\ (length (shorts l) < 32)%nat /\ (length (longs l) < 32)%nat /\ room l <= L.

(** The first and the second head of the array for [l]. *)
Definition head0 (l : list bt_uuid_t) : Z :=
  if decide (shorts l = []) then head BT_HEAD_UUID128_TYPE (Z.of_nat (length (longs l)))
  else head BT_HEAD_UUID16_TYPE (Z.of_nat (length (shorts l))).
Definition head1 (l : list bt_uuid_t) : Z :=
  if decide (shorts l = []) then 0
  else if decide (longs l = []) then 0 else head BT_HEAD_UUID128_TYPE (Z.of_nat (length (longs l))).

Lemma zeros_split n m : (n <= m)%nat -> replicate m 0 = replicate n 0 ++ replicate (m - n) 0.
Proof. intros H. rewrite <- replicate_add. f_equal. lia. Qed.

(** What is written. *)
Lemma save_layout l :
  storable l -> l <> [] ->
  exists b, device_get_remote_uuids l (replicate (Z.to_nat L) 0)
    = Some ([head0 l] ++ concat (map enc16 (shorts l)) ++ [head1 l] ++ concat (map val (longs l)) ++ b).
Proof using L_even L_pos.
  intros (Hok & H16 & H128 & Hroom) Hne. set (s := length (shorts l)) in *. set (g := length (longs l)) in *.
  assert (l <> [] -> shorts l = [] -> longs l <> []) as Hsg.
  { destruct l as [|u l']; [done|]. intros _. cbn. by destruct (over_base u). }
  assert (2 + 2 * Z.of_nat s + 16 * Z.of_nat g <= L) as Hfit.
  { unfold room in Hroom. destruct L_even as [k Hk]. fold s g in Hroom. subst s g.
    destruct (decide (shorts l = [])) as [Es|Es], (decide (longs l = [])) as [Eg|Eg].
    - by destruct (Hsg Hne Es).
    - rewrite Es. cbn [length]. lia.
    - rewrite Eg. cbn [length]. lia.
    - lia. }
  assert (0 < s + g)%nat as Hpos.
  { subst s g. destruct (shorts l) eqn:E; cbn; [|lia]. specialize (Hsg Hne eq_refl). destruct (longs l); cbn; [done|lia]. }
  exists (replicate (Z.to_nat L - (2 + 2 * s + 16 * g)) 0). unfold device_get_remote_uuids.
  rewrite count_uuids_spec by (done || lia). fold s g. rewrite !Z.add_0_l.
  replace ((Z.of_nat s =? 0) && (Z.of_nat g =? 0)) with false by (symmetry; apply andb_false_iff; rewrite !Z.eqb_neq; lia).
  assert (replicate (Z.to_nat L) 0 = [0] ++ replicate (2 * s) 0 ++ [0] ++ replicate (16 * g) 0
    ++ replicate (Z.to_nat L - (2 + 2 * s + 16 * g)) 0) as ->.
  { change [0] with (replicate 1 0). rewrite <- !replicate_add. f_equal. lia. }
  set (x := replicate (2 * s) 0). set (y := replicate (16 * g) 0). set (b := replicate _ 0).
  assert (forall h0 h1, write_uuids l (Z.of_nat s) (Z.of_nat g) 1 (Z.of_nat s * 2 + 2) ([h0] ++ x ++ [h1] ++ y ++ b)
    = Some ([h0] ++ concat (map enc16 (shorts l)) ++ [h1] ++ concat (map val (longs l)) ++ b)) as Hw.
  { intros h0 h1. subst x y b. apply write_uuids_spec; rewrite ?length_app, ?length_replicate; cbn [length]; try done; subst s g; lia. }
  unfold write_head16, write_head128, fit16, fit128, head0, head1.
  destruct (decide (shorts l = [])) as [Es|Es].
  - assert (s = 0)%nat as Es0 by (subst s; by rewrite Es). rewrite Es0. change (0 <? Z.of_nat 0) with false. cbn [mbind option_bind].
    rewrite (proj2 (Z.ltb_lt 0 (Z.of_nat g))), (proj2 (Z.ltb_ge L (Z.of_nat g * 16 + 1))) by lia. rewrite poke_head. cbn [mbind option_bind app].
    rewrite Es0 in Hw. exact (Hw _ _).
  - assert (0 < s)%nat as Hs by (subst s; destruct (shorts l); cbn; [done|lia]).
    rewrite (proj2 (Z.ltb_lt 0 (Z.of_nat s))), (proj2 (Z.ltb_ge L (Z.of_nat s * 2 + 1))) by lia. rewrite poke_head. cbn [mbind option_bind].
    destruct (decide (longs l = [])) as [Eg|Eg].
    + assert (g = 0)%nat as Eg0 by (subst g; by rewrite Eg). rewrite Eg0. change (0 <? Z.of_nat 0) with false. cbn [mbind option_bind].
      rewrite Eg0 in Hw. exact (Hw _ _).
    + assert (0 < g)%nat as Hg by (subst g; destruct (longs l); cbn; [done|lia]).
      rewrite (proj2 (Z.ltb_lt 0 (Z.of_nat g))), (proj2 (Z.ltb_lt 0 (Z.of_nat s))) by lia.
      rewrite (proj2 (Z.ltb_ge (L - Z.of_nat s * 2 + 1) (Z.of_nat g * 16 + 1))) by lia.
      rewrite (app_assoc [_] x), (poke_app _ [_] ([_] ++ x) [0]) by (done || (subst x; rewrite length_app, length_replicate; cbn; lia)).
      cbn [mbind option_bind]. rewrite <- app_assoc. exact (Hw _ _).
Qed.

Lemma length_enc16s us : length (concat (map enc16 us)) = (2 * length us)%nat.
Proof. induction us; cbn in *; lia. Qed.

Lemma shorts_over l : Forall (fun u => over_base u = true) (shorts l).
Proof. unfold shorts. induction l as [|u l IH]; cbn; [constructor|]. destruct (over_base u) eqn:E; [by constructor|done]. Qed.

Lemma filter_ok (f : bt_uuid_t -> bool) l : Forall uuid128_ok l -> Forall uuid128_ok (List.filter f l).
Proof. intros H. induction H; cbn; [constructor|]. case_match; [by constructor|done]. Qed.

(** The two heads are read back as the two numbers. *)
Lemma load_heads l :
  storable l -> l <> [] ->
  let c16 := Z.of_nat (length (shorts l)) in let c128 := Z.of_nat (length (longs l)) in
  head0 l <> 0 /\
  (if Z.shiftr (head0 l) 5 =? BT_HEAD_UUID16_TYPE then Z.land (head0 l) 0x1F else 0) = c16 /\
  second_head c16 (if Z.shiftr (head0 l) 5 =? BT_HEAD_UUID128_TYPE then Z.land (head0 l) 0x1F else 0)
    ([head0 l] ++ concat (map enc16 (shorts l)) ++ [head1 l]) = Some c128.
Proof.
  intros (Hok & H16 & H128 & Hroom) Hne. cbn zeta. unfold head0, head1. destruct (decide (shorts l = [])) as [Es|Es].
  - rewrite Es. destruct (head_fields BT_HEAD_UUID128_TYPE (Z.of_nat (length (longs l)))) as (E1 & E2 & E3); [by right|lia|].
    rewrite E2, E3. done.
  - assert (0 < length (shorts l))%nat as Hs by (destruct (shorts l); cbn; [done|lia]).
    destruct (head_fields BT_HEAD_UUID16_TYPE (Z.of_nat (length (shorts l)))) as (E1 & E2 & E3); [by left|lia|].
    rewrite E2, E3. split; [done|]. split; [done|]. unfold second_head.
    replace (Z.of_nat (length (shorts l)) =? 0) with false by (symmetry; apply Z.eqb_neq; lia).
    unfold room in Hroom. rewrite decide_False in Hroom by done. cbn [negb andb].
    rewrite (app_assoc [_]). destruct (decide (longs l = [])) as [Eg|Eg].
    + rewrite Eg. cbn [length Z.of_nat]. case_match; [|done].
      rewrite peek_app; [done|]. rewrite length_app, length_enc16s. cbn [length]. lia.
    + rewrite (proj2 (Z.ltb_lt _ L)) by lia.
      rewrite peek_app by (rewrite length_app, length_enc16s; cbn [length]; lia). cbn [mbind option_bind].
      destruct (head_fields BT_HEAD_UUID128_TYPE (Z.of_nat (length (longs l)))) as (_ & _ & ->); [by right|lia|done].
Qed.

Lemma second_head_app c16 c128 buf b c : second_head c16 c128 buf = Some c -> second_head c16 c128 (buf ++ b) = Some c.
Proof.
  unfold second_head. case_match; [|done]. unfold peek. case_match; [|done].
  destruct (buf !! _) eqn:E; [|done]. by rewrite (lookup_app_l_Some _ _ _ _ E).
Qed.

Lemma load_layout l b d :
  storable l -> l <> [] -> d.(remote).(uuids) = [] ->
  exists d', load_remote_uuids true ([head0 l] ++ concat (map enc16 (shorts l)) ++ [head1 l] ++ concat (map val (longs l)) ++ b) d = Some d'
    /\ d'.(remote).(uuids) = shorts l ++ longs l /\ d' = (device_set_uuids (shorts l ++ longs l) d).2.
Proof.
  intros Hst Hne Hd. destruct (load_heads l Hst Hne) as (E0 & E1 & E2). destruct Hst as (Hok & H16 & H128 & Hroom).
  set (s := length (shorts l)) in *. set (g := length (longs l)) in *.
  assert (0 < s + g)%nat as Hpos.
  { subst s g. destruct l as [|u l']; [done|]. cbn. destruct (over_base u); cbn; lia. }
  unfold load_remote_uuids. change (peek 0 ([head0 l] ++ _)) with (Some (head0 l)). cbn [mbind option_bind].
  rewrite (proj2 (Z.eqb_neq _ _) E0), E1.
  assert (forall k, [head0 l] ++ concat (map enc16 (shorts l)) ++ [head1 l] ++ k
    = ([head0 l] ++ concat (map enc16 (shorts l)) ++ [head1 l]) ++ k) as Hsplit by (intros k; by rewrite <- !app_assoc).
  rewrite Hsplit, (second_head_app _ _ _ _ _ E2). cbn [mbind option_bind].
  rewrite (proj2 (Z.eqb_neq _ 0)) by lia.
  assert ((if Z.of_nat s =? 0 then 0 else 1 + Z.of_nat s * 2) + (if Z.of_nat g =? 0 then 0 else 1 + Z.of_nat g * 16) <= L) as Hl.
  { unfold room in Hroom. fold s g in Hroom. revert Hroom. 
    assert (shorts l = [] <-> s = 0%nat) as Hs0 by (subst s; destruct (shorts l); done).
    assert (longs l = [] <-> g = 0%nat) as Hg0 by (subst g; destruct (longs l); done).
    destruct (decide (shorts l = [])) as [Es|Es], (decide (longs l = [])) as [Eg|Eg]; rewrite Hs0 in Es; rewrite Hg0 in Eg;
      destruct (Z.eqb_spec (Z.of_nat s) 0), (Z.eqb_spec (Z.of_nat g) 0); lia. }
  rewrite (proj2 (Z.ltb_ge L _) Hl), !Nat2Z.id. cbn [negb].
  rewrite <- Hsplit, (read_uuids16_spec (shorts l) 1 [head0 l]) by (done || apply shorts_over || by apply filter_ok). cbn [mbind option_bind].
  assert (read_uuids128 g (1 + Z.of_nat s * 2 + (if Z.of_nat g =? 0 then 0 else 1))
    ([head0 l] ++ concat (map enc16 (shorts l)) ++ [head1 l] ++ concat (map val (longs l)) ++ b) = Some (longs l)) as ->.
  { destruct (decide (longs l = [])) as [Eg|Eg]; [subst g; by rewrite Eg|].
    rewrite (proj2 (Z.eqb_neq _ 0)) by (subst g; destruct (longs l); cbn; [done|lia]). rewrite Hsplit. subst s g.
    apply read_uuids128_spec; [by apply filter_ok|]. rewrite !length_app, length_enc16s. cbn [length]. lia. }
  cbn [mbind option_bind]. eexists. split; [done|]. split; [|done]. unfold device_set_uuids. by rewrite Hd.
Qed.
End Codec.

(** ** Claims *)

(** Whatever UUIDs a peer has, of whatever type and however many, writing
    them for storage stays inside of the array, which keeps its length; and
    whatever bytes are loaded from storage, reading them stays inside of it.
    The length of the array is any even number from 2. *)
Theorem remote_uuids_in_bounds (L : Z) (l : list bt_uuid_t) (prop buf : list Z) (mem : bool) (d : bt_device_t) :
  Z.Even L -> 2 <= L -> Z.of_nat (length prop) = L -> Z.of_nat (length buf) = L ->
  (exists prop', device_get_remote_uuids L l prop = Some prop' /\ Z.of_nat (length prop') = L) /\
  (exists d', load_remote_uuids L mem buf d = Some d').
Proof.
  intros He Hp H1 H2. split; [exact (save_in_bounds L He Hp l prop H1)|exact (load_in_bounds L He Hp mem buf d H2)].
Qed.

(** A 128-bit UUID over the base, and one that is not. *)
Definition uuid_of16 (v : Z) : bt_uuid_t := bt_uuid16_to_uuid128 (bt_uuid16_create v).
Definition uuid_of128 (v : Z) : bt_uuid_t := mk_uuid BT_UUID128_TYPE (replicate 16 v).
Definition demo_device : bt_device_t := br_device_create (BtAddr.mk_addr 1 2 3 4 5 6).

Lemma remote_uuids_in_bounds_witness :
  (exists prop', device_get_remote_uuids 80 (map uuid_of16 (map Z.of_nat (seq 0 300))) (replicate 80 0) = Some prop' /\ Z.of_nat (length prop') = 80) /\
  (exists d', load_remote_uuids 80 true (replicate 80 255) demo_device = Some d').
Proof. apply (remote_uuids_in_bounds 80); [by exists 40|done..]. Defined.

(** The 128-bit UUIDs of a peer that fit into the array (fewer than 32 over
    the Bluetooth base, fewer than 32 others, with their heads no longer than
    the array), written for storage and loaded into a device without UUIDs,
    are the UUIDs of that device: those over the base first, each group in its
    order. *)
Theorem remote_uuids_roundtrip (L : Z) (l : list bt_uuid_t) (d : bt_device_t) :
  Z.Even L -> 2 <= L -> storable L l -> d.(remote).(uuids) = [] ->
  exists prop d', device_get_remote_uuids L l (replicate (Z.to_nat L) 0) = Some prop /\
    load_remote_uuids L true prop d = Some d' /\ d'.(remote).(uuids) = shorts l ++ longs l.
Proof.
  intros He Hp Hst Hd. destruct l as [|u l].
  - exists (replicate (Z.to_nat L) 0), d. split; [done|]. split; [|done]. unfold load_remote_uuids, peek.
    rewrite lookup_replicate_2 by lia. done.
  - destruct (save_layout L He Hp (u :: l) Hst) as [b Hb]; [done|].
    destruct (load_layout L Hp (u :: l) b d Hst) as (d' & E1 & E2 & _); [done|done|]. eexists. exists d'. done.
Qed.

Lemma remote_uuids_roundtrip_witness :
  exists prop d', device_get_remote_uuids 80 [uuid_of128 7; uuid_of16 0x110B; uuid_of16 0x111E] (replicate (Z.to_nat 80) 0) = Some prop /\
    load_remote_uuids 80 true prop demo_device = Some d' /\
    d'.(remote).(uuids) = [uuid_of16 0x110B; uuid_of16 0x111E; uuid_of128 7].
Proof.
  apply (remote_uuids_roundtrip 80); [by exists 40|done| |done].
  split; [|split; [vm_compute; lia|split; [vm_compute; lia|vm_compute; discriminate]]].
  repeat constructor; try (vm_compute; discriminate).
Defined.

(** ** Defects the model shows *)

(** Save and load with the default length. *)
Definition reload (l : list bt_uuid_t) : option (list bt_uuid_t) :=
  prop ← device_get_remote_uuids 80 l (replicate 80 0); d ← load_remote_uuids 80 true prop demo_device; Some d.(remote).(uuids).

(** A UUID of the 16-bit type is written least significant byte first and read
    the other way round. *)
Lemma uuid16_comes_back_swapped : reload [bt_uuid16_create 0x110B] = Some [uuid_of16 0x0B11].
Proof. vm_compute. reflexivity. Qed.

(** The number of UUIDs has five bits: of 32 none comes back. *)
Lemma thirty_two_uuids_lost : reload (map uuid_of16 (map Z.of_nat (seq 1 32))) = Some [].
Proof. vm_compute. reflexivity. Qed.

(** The room left for 128-bit UUIDs is computed two bytes too large: the head
    then promises more than is there, and nothing is loaded. *)
Lemma overfull_uuids_lost :
  reload (map uuid_of16 (map Z.of_nat (seq 1 8)) ++ map uuid_of128 [1; 2; 3; 4]) = Some [].
Proof. vm_compute. reflexivity. Qed.
End RemoteUuids.
