(* ===== verification/AdapterService.v ===== *)
(** * The adapter service: peers, bonds, links and properties
    (service/src/adapter_service.c)

    The adapter keeps one list of peers per transport.  Events of the stack
    reach it as messages of the service loop ([handle_security_event] and its
    siblings), requests of the clients as calls; both find or create the peer,
    change it, tell the clients and answer the stack.  This file has those
    handlers and calls; the machine that turns the adapter on and off, and the
    part of the source around it, are in AdapterState.v.

    A pointer to a device is its list and its place there ([ptr]).  The mutex
    is recursive; [lock_depth] counts how often it is held.  [None] (of the
    monad [E]) is the use of a NULL pointer or list, a failed assertion, or an
    unlock of a mutex that is not held.  Calls of the stack are the values of
    [sal_call]; what the stack answers to each is [env.status]. *)

From S2P Require Import Prelude Fallible Bytes BtAddr BtUuid CString Device RemoteUuids AdapterState.
From coqutil Require Import Datatypes.RecordSetters.
Import UpdaterNotations.

Local Open Scope Z_scope.
Local Open Scope fall_scope.

Module AdapterService.
Import BtAddr BtUuid Device RemoteUuids.
Import AdapterState.

Abbreviation BT_STATUS_NOT_ENABLED := BT_STATUS_NOT_READY.

Definition BT_LOC_NAME_MAX_LEN : nat := 64.
Definition HCI_ERR_CONNECTION_TIMEOUT : Z := 0x08.
Definition HCI_ERR_CONNECTION_FAILED_TO_BE_ESTABLISHED : Z := 0x3E.
Definition HCI_ERR_CONNECTION_TERMINATED_BY_LOCAL_HOST : Z := 0x16.
Definition HCI_ERR_PAIRING_NOT_ALLOWED : Z := 0x18.
Definition PAIR_TYPE_PASSKEY_CONFIRMATION : Z := 0.
Definition PAIR_TYPE_PASSKEY_ENTRY : Z := 1.
Definition PAIR_TYPE_PIN_CODE : Z := 4.
Definition BT_DEBUG_MODE_PTS : Z := 0.
Definition BT_DEBUG_MODE_RSSI : Z := 1.
Definition COD_SERVICE_AUDIO : Z := 0x200000.
Definition COD_DEVICE_AV : Z := 0x400.
Definition IS_HEADSET (cod : Z) : bool :=
  negb (Z.land (Z.land cod 0xFFE000) COD_SERVICE_AUDIO =? 0) && (Z.land cod 0x1F00 =? COD_DEVICE_AV).

(** ** Stored data (service/common/bluetooth_define.h) *)

Record remote_device_properties_t := mk_props {
  p_addr : bt_address_t;
  p_addr_type : Z;
  p_name : string;
  p_alias : string;
  p_link_key_type : Z;
  p_device_type : Z;
  p_link_key : list Z;
  p_class_of_device : Z;
  p_uuids : list Z;
}.

Record remote_device_le_properties_t := mk_le_props {
  l_addr : bt_address_t;
  l_addr_type : Z;
  l_device_type : Z;
  l_smp_key : list Z;
  l_local_csrk : list Z;
}.

Record adapter_storage_t := mk_storage {
  st_name : string;
  st_class_of_device : Z;
  st_io_capability : Z;
  st_scan_mode : Z;
  st_bondable : bool;
  st_irk : list Z;
}.

Record bt_discovery_result_t := mk_result { r_addr : bt_address_t; r_rssi : Z; r_cod : Z; r_name : string }.

(** A transport as an event carries it, in a [uint8_t]; [None] is a value that
    is neither of the two. *)
Abbreviation transport_v := (option bt_transport_t).

Record acl_state_param_t := mk_acl {
  acl_addr_type : Z;
  acl_transport : transport_v;
  acl_status : Z;
  acl_state : connection_state_t;
  hci_reason_code : Z;
}.

(** ** Calls *)

Inductive sal_call :=
| bt_sal_pair_reply (a : bt_address_t) (reason : Z)
| bt_sal_pin_reply (a : bt_address_t) (accept : bool) (pin : option string)
| bt_sal_ssp_reply (a : bt_address_t) (accept : bool) (type passkey : Z)
| bt_sal_le_smp_reply (a : bt_address_t) (accept : bool) (type passkey : Z)
| bt_sal_get_remote_name (a : bt_address_t)
| bt_sal_get_remote_device_info (a : bt_address_t)
| bt_sal_start_service_discovery (a : bt_address_t)
| bt_sal_get_identity_addr (a : bt_address_t)
| bt_sal_acl_connection_reply (a : bt_address_t) (accept : bool)
| bt_sal_set_bonded_devices (p : remote_device_properties_t)
| bt_sal_le_set_bonded_devices (l : list remote_device_le_properties_t)
| bt_sal_le_add_white_list (a : bt_address_t) (type : Z)
| bt_sal_le_remove_white_list (a : bt_address_t) (type : Z)
| bt_sal_start_discovery (timeout : Z) (limited : bool)
| bt_sal_stop_discovery
| bt_sal_set_name (n : string)
| bt_sal_get_address
| bt_sal_le_get_address
| bt_sal_set_scan_mode (mode : Z) (bondable : bool)
| bt_sal_set_device_class (cod : Z)
| bt_sal_set_io_capability (cap : Z)
| bt_sal_set_inquiry_scan_parameters (type interval window : Z)
| bt_sal_set_page_scan_parameters (type interval window : Z)
| bt_sal_le_set_address (a : bt_address_t)
| bt_sal_le_set_public_identity (a : bt_address_t)
| bt_sal_le_set_static_identity (a : bt_address_t)
| bt_sal_le_set_io_capability (cap : Z)
| bt_sal_le_set_appearance (v : Z)
| bt_sal_read_rssi (a : bt_address_t) (t : transport_v)
| bt_sal_connect (a : bt_address_t)
| bt_sal_disconnect (a : bt_address_t) (reason : Z)
| bt_sal_le_connect (a : bt_address_t) (type : Z)
| bt_sal_le_disconnect (a : bt_address_t)
| bt_sal_le_set_phy (a : bt_address_t) (tx rx : Z)
| bt_sal_le_enable_key_derivation (br_le le_br : bool)
| bt_sal_le_set_bondable (b : bool)
| bt_sal_set_security_level (level : Z)
| bt_sal_le_set_security_level (level : Z)
| bt_sal_create_bond (a : bt_address_t) (t : bt_transport_t) (type : Z)
| bt_sal_le_create_bond (a : bt_address_t) (type : Z)
| bt_sal_remove_bond (a : bt_address_t) (t : bt_transport_t)
| bt_sal_le_remove_bond (a : bt_address_t)
| bt_sal_cancel_bond (a : bt_address_t) (t : bt_transport_t)
| bt_sal_le_set_legacy_tk (a : bt_address_t) (tk : list Z)
| bt_sal_le_set_remote_oob_data (a : bt_address_t) (c r : list Z)
| bt_sal_le_get_local_oob_data (a : bt_address_t)
| bt_sal_set_link_policy (a : bt_address_t) (policy : Z)
| bt_sal_set_link_role (a : bt_address_t) (role : bt_link_role_t)
| bt_sal_set_afh_channel_classification (freq width number : Z).

(** Events of the stack, posted to the service loop
    ([adapter_remote_event_t], [adapter_discovery_evt_t], [adapter_ble_evt_t]). *)
Inductive remote_event :=
| CONNECT_REQUEST_EVT (a : bt_address_t) (cod : Z)
| CONNECTION_STATE_CHANGE_EVT (a : bt_address_t) (p : acl_state_param_t)
| PAIR_REQUEST_EVT (a : bt_address_t) (local_initiate is_bondable : bool)
| PIN_REQUEST_EVT (a : bt_address_t) (cod : Z) (min_16_digit : bool) (n : string)
| SSP_REQUEST_EVT (a : bt_address_t) (t : transport_v) (cod ssp_type pass_key : Z) (n : string)
| BOND_STATE_CHANGE_EVT (a : bt_address_t) (s : bond_state_t) (t : transport_v) (ctkd : bool)
| SDP_SEARCH_DONE_EVT (a : bt_address_t) (l : list bt_uuid_t)
| ENC_STATE_CHANGE_EVT (a : bt_address_t) (encrypted : bool) (t : transport_v)
| LINK_KEY_UPDATE_EVT (a : bt_address_t) (key : list Z) (type : Z) (ctkd : bool)
| LINK_KEY_REMOVED_EVT (a : bt_address_t)
| LINK_ROLE_CHANGED_EVT (a : bt_address_t) (r : bt_link_role_t)
| LINK_MODE_CHANGED_EVT (a : bt_address_t) (mode sniff_interval : Z)
| LINK_POLICY_CHANGED_EVT (a : bt_address_t) (policy : Z)
| RSSI_UPDATE_EVT (a : bt_address_t) (v : Z) (t : transport_v).

Inductive discovery_event :=
| DISCOVER_STATE_CHANGE_EVT (started : bool)
| DEVICE_FOUND_EVT (r : bt_discovery_result_t)
| REMOTE_NAME_RECIEVED_EVT (a : bt_address_t) (n : string).

Inductive ble_event :=
| LE_ADDR_UPDATE_EVT (a : bt_address_t) (type : Z)
| LE_PHY_UPDATE_EVT (a : bt_address_t) (tx rx : Z) (st : bt_status_t)
| LE_WHITELIST_UPDATE_EVT (a : bt_address_t) (is_add : bool) (st : bt_status_t)
| LE_BONDED_DEVICE_UPDATE_EVT (props : list remote_device_le_properties_t)
| LE_SC_LOCAL_OOB_DATA_GOT_EVT (a : bt_address_t) (c r : list Z).

Inductive message :=
| handle_security (ev : remote_event)
| handle_connection (ev : remote_event)
| handle_link (ev : remote_event)
| handle_discovery (ev : discovery_event)
| handle_ble (ev : ble_event)
| handle_scan_mode (mode : Z)
| handle_irk (irk : list Z).

Inductive out :=
| sal (c : sal_call)
| post (m : message)
| send_to_state_machine (ev : adapter_event)
| on_bond_state_changed (a : bt_address_t) (t : bt_transport_t) (prev cur : bond_state_t) (ctkd : bool)
| on_connection_state_changed (a : bt_address_t) (t : bt_transport_t) (s : connection_state_t)
| on_pair_request (a : bt_address_t)
| on_pair_display (a : bt_address_t) (t : transport_v) (type passkey : Z)
| on_connect_request (a : bt_address_t)
| on_discovery_state_changed (started : bool)
| on_discovery_result (r : bt_discovery_result_t)
| on_remote_name_changed (a : bt_address_t) (n : string)
| on_remote_alias_changed (a : bt_address_t) (n : string)
| on_remote_uuids_changed (a : bt_address_t) (l : list bt_uuid_t)
| on_le_sc_local_oob_data_got (a : bt_address_t) (c r : list Z)
| on_adapter_state_changed (s : Z)
| on_scan_mode_changed (mode : Z)
| on_device_name_changed (n : string)
| bt_storage_save_bonded_device (l : list remote_device_properties_t)
| bt_storage_save_le_bonded_device (l : list remote_device_le_properties_t)
| bt_storage_save_whitelist (l : list remote_device_le_properties_t)
| bt_storage_save_adapter_info (s : adapter_storage_t)
| bt_storage_load_le_bonded_device
| bt_storage_load_whitelist_device
| bt_pm_remote_device_connected (a : bt_address_t)
| bt_pm_remote_device_disconnected (a : bt_address_t)
| bt_pm_remote_link_mode_changed (a : bt_address_t) (mode sniff_interval : Z)
| bt_cm_process_disconnect_event (a : bt_address_t) (t : bt_transport_t) (rssi reason : Z)
| bt_cm_enable_rssi_statistic
| bt_cm_disable_rssi_statistic
| bt_dfx_gap_disconn_error (t : bt_transport_t) (reason : Z)
| bt_dfx_inquiry_error
| adv_manager_init | adv_manager_cleanup
| scan_manager_init | scan_manager_cleanup
| l2cap_service_init | l2cap_service_cleanup.

(** ** State *)

Record adapter_properties_t := mk_properties {
  prop_name : string;
  prop_addr : bt_address_t;
  class_of_device : Z;
  io_capability : Z;
  scan_mode : Z;
  bondable : bool;
  irk : list Z;
}.

Record le_adapter_properties_t := mk_le_properties {
  le_addr : bt_address_t;
  le_addr_type : Z;
  le_io_capability : Z;
  le_appearance : Z;
}.

Record adapter_service_t := mk_adapter {
  properties : adapter_properties_t;
  devices : option (list bt_device_t);
  le_properties : le_adapter_properties_t;
  le_devices : option (list bt_device_t);
  lock_depth : nat;
  adapter_state : Z;
  is_discovering : bool;
  is_pts_mode : bool;
  max_acl_connections : Z;
}.

(** Build options. *)
Record config := mk_config {
  bredr_support : bool;          (* CONFIG_BLUETOOTH_BREDR_SUPPORT *)
  ble_support : bool;            (* CONFIG_BLUETOOTH_BLE_SUPPORT *)
  ble_adv : bool;                (* CONFIG_BLUETOOTH_BLE_ADV *)
  ble_scan : bool;               (* CONFIG_BLUETOOTH_BLE_SCAN *)
  l2cap : bool;                  (* CONFIG_BLUETOOTH_L2CAP *)
  connection_manager : bool;     (* CONFIG_BLUETOOTH_CONNECTION_MANAGER *)
  stack_le_zblue : bool;         (* CONFIG_BLUETOOTH_STACK_LE_ZBLUE *)
  uuids_len : Z;                 (* CONFIG_BLUETOOTH_MAX_SAVED_REMOTE_UUIDS_LEN *)
}.

(** What the code called answers. *)
Record env := mk_env {
  status : sal_call -> bt_status_t;
  mem : bool;                          (* allocations succeed *)
  sal_acl_handle : Z;                  (* bt_sal_get_acl_connection_handle *)
  sal_device_type : Z;                 (* device_type of bt_sal_get_remote_device_info *)
  sal_identity : bt_address_t;         (* the address bt_sal_get_identity_addr leaves *)
  sal_address : bt_address_t;          (* bt_sal_get_address *)
  sal_le_address : option bt_address_t;(* bt_sal_le_get_address, None when it fails *)
  cm_status : bt_status_t;             (* the connection manager's *)
  load_le_bonded : bool;               (* the loads are accepted *)
  load_whitelist : bool;
}.

Abbreviation MS := (E adapter_service_t out).

(** A device: its list and its place there. *)
Abbreviation ptr := (bt_transport_t * nat)%type.

Definition dlist (t : bt_transport_t) (s : adapter_service_t) : option (list bt_device_t) :=
  match t with BT_TRANSPORT_BREDR => s.(devices) | BT_TRANSPORT_BLE => s.(le_devices) end.
Definition set_dlist (t : bt_transport_t) (l : list bt_device_t) : adapter_service_t -> adapter_service_t :=
  match t with BT_TRANSPORT_BREDR => {! devices := Some l } | BT_TRANSPORT_BLE => {! le_devices := Some l } end.

Fixpoint find_index (p : bt_device_t -> bool) (l : list bt_device_t) : option nat :=
  match l with [] => None | d :: l => if p d then Some 0%nat else S <$> find_index p l end.

(** The device is the one of this address in its list. *)
Definition is_device (a : bt_address_t) (t : bt_transport_t) (d : bt_device_t) : bool :=
  (bt_addr_compare (device_get_address d) a =? 0) && bool_decide (device_get_transport d = t).

(** The first six bytes of an SMP key are the identity address. *)
Definition smp_identity (k : list Z) : bt_address_t :=
  mk_addr (byte_at k 0) (byte_at k 1) (byte_at k 2) (byte_at k 3) (byte_at k 4) (byte_at k 5).

(** ** Devices *)

Section Handlers.
Context (cfg : config) (e : env).

Definition adapter_lock : MS unit := emodify {! lock_depth ::= S }.
Definition adapter_unlock : MS unit :=
  n <- egets lock_depth;;
  match n with O => efail | S n => emodify {! lock_depth := n } end.

Definition call (c : sal_call) : MS bt_status_t := eemit (sal c);;; eret (e.(status) c).
Definition call_ (c : sal_call) : MS unit := eemit (sal c).

Definition dev (p : ptr) : MS bt_device_t := eread (fun s => dlist p.1 s ≫= fun l => l !! p.2).
Definition upd (p : ptr) (f : bt_device_t -> bt_device_t) : MS unit :=
  l <- eread (dlist p.1);;
  match l !! p.2 with None => efail | Some d => emodify (set_dlist p.1 (<[p.2 := f d]> l)) end.
(** A setter that answers whether it changed the device. *)
Definition upd_ {A} (p : ptr) (f : bt_device_t -> A * bt_device_t) : MS A :=
  d <- dev p;; upd p (fun d => (f d).2);;; eret (f d).1.

Definition supported (t : bt_transport_t) : bool :=
  match t with BT_TRANSPORT_BREDR => cfg.(bredr_support) | BT_TRANSPORT_BLE => cfg.(ble_support) end.

Definition adapter_find_device (a : bt_address_t) (t : transport_v) : MS (option ptr) :=
  match t with
  | Some t =>
      if supported t
      then l <- eread (dlist t);; eret (pair t <$> find_index (is_device a t) l)
      else eret None
  | None => eret None
  end.

(** Created at the end of the list; [assert(device)]. *)
Definition add_device (t : bt_transport_t) (d : bt_device_t) : MS ptr :=
  if e.(mem)
  then l <- eread (dlist t);; emodify (set_dlist t (l ++ [d]));;; eret (t, length l)
  else efail.

Definition adapter_find_create_classic_device (a : bt_address_t) : MS ptr :=
  p <- adapter_find_device a (Some BT_TRANSPORT_BREDR);;
  match p with Some p => eret p | None => add_device BT_TRANSPORT_BREDR (br_device_create a) end.

Definition adapter_find_create_le_device (a : bt_address_t) (ty : Z) : MS ptr :=
  p <- adapter_find_device a (Some BT_TRANSPORT_BLE);;
  match p with Some p => eret p | None => add_device BT_TRANSPORT_BLE (le_device_create a ty) end.

Definition adapter_campare_id_addr (a : bt_address_t) (ty : Z) (id : bt_address_t) : bool :=
  negb (bt_addr_is_empty id) && (bt_addr_compare a id =? 0)
  && ((ty =? BT_LE_ADDR_TYPE_PUBLIC) || (ty =? BT_LE_ADDR_TYPE_RANDOM)).

(** Bonded or not, the identity address is compared. *)
Definition adapter_find_le_device (a : bt_address_t) (ty : Z) : MS (option ptr) :=
  l <- eread le_devices;;
  eret (pair BT_TRANSPORT_BLE <$> find_index (fun d =>
    if device_is_bonded d then adapter_campare_id_addr a ty (device_get_identity_address d)
    else if negb (device_is_bonded d) then adapter_campare_id_addr a ty (device_get_identity_address d)
    else bt_addr_compare a (device_get_address d) =? 0) l).

(** A question about a device, if there is one. *)
Definition ask {A} (p : option ptr) (f : bt_device_t -> A) (none : A) : MS A :=
  match p with None => eret none | Some p => d <- dev p;; eret (f d) end.

Definition adapter_get_le_remote_address a ty : MS (option bt_address_t) :=
  p <- adapter_find_le_device a ty;; ask p (fun d => Some (device_get_address d)) None.
Definition adapter_get_smp_data a : MS (option (list Z)) :=
  p <- adapter_find_device a (Some BT_TRANSPORT_BLE);; ask p (fun d => Some (device_get_smp_key d)) None.
Definition adapter_get_local_csrk a : MS (option (list Z)) :=
  p <- adapter_find_device a (Some BT_TRANSPORT_BLE);; ask p (fun d => Some (device_get_local_csrk d)) None.
Definition adapter_get_local_irk : MS (list Z) := egets (fun s => s.(properties).(irk)).
Definition adapter_get_le_remote_address_type a : MS Z :=
  p <- adapter_find_device a (Some BT_TRANSPORT_BLE);; ask p device_get_address_type BT_LE_ADDR_TYPE_UNKNOWN.
Definition adapter_get_link_key a : MS (option (list Z)) :=
  p <- adapter_find_device a (Some BT_TRANSPORT_BREDR);; ask p (fun d => Some (device_get_link_key d)) None.
Definition adapter_get_link_key_type a : MS Z :=
  p <- adapter_find_device a (Some BT_TRANSPORT_BREDR);; ask p device_get_link_key_type 0.

(** ** Bond state *)

(** A notice of a state reached from CANCELING is dropped unless it is NONE,
    which is told as the end of a bonding. *)
Definition adapter_notify_bond_state (p : ptr) (msg : bond_state_change_message_t) : MS unit :=
  adapter_lock;;;
  d <- dev p;;
  adapter_unlock;;;
  let a := device_get_address d in
  let t := device_get_transport d in
  let cur := device_get_bond_state d in
  match msg.(previous_state) with
  | BOND_STATE_CANCELING =>
      if bool_decide (cur = BOND_STATE_NONE)
      then eemit (on_bond_state_changed a t BOND_STATE_BONDING cur msg.(is_ctkd))
      else eret tt
  | prev => eemit (on_bond_state_changed a t prev cur msg.(is_ctkd))
  end.

(** [device_set_bond_state] with and without the notice. *)
Definition set_bond_state (p : ptr) (s : bond_state_t) (ctkd : bool) : MS unit :=
  msg <- upd_ p (device_set_bond_state s ctkd);;
  ewhen e.(mem) (adapter_notify_bond_state p msg).
Definition set_bond_state_silently (p : ptr) (s : bond_state_t) (ctkd : bool) : MS unit :=
  upd_ p (device_set_bond_state s ctkd);;; eret tt.

(** ** Storage *)

(** What is told when a device is freed. *)
Definition adapter_delete_device (d : bt_device_t) : list out :=
  if bool_decide (device_get_connection_state d = CONNECTION_STATE_DISCONNECTED) then []
  else [on_connection_state_changed (device_get_address d) (device_get_transport d) CONNECTION_STATE_DISCONNECTED].

Definition eemits (os : list out) : MS unit := fun s => Some (tt, s, os).

(** [bt_list_clear] of a list of devices. *)
Definition clear_devices (t : bt_transport_t) : MS unit :=
  l <- eread (dlist t);; emodify (set_dlist t []);;; eemits (concat (map adapter_delete_device l)).

Definition adapter_check_acl_all_disconnected (l : list bt_device_t) : bool :=
  forallb (fun d => bool_decide (device_get_connection_state d = CONNECTION_STATE_DISCONNECTED)) l.

Definition counted (flag : Z) (d : bt_device_t) : bool :=
  ((flag =? DFLAG_BONDED) && device_is_bonded d) || ((flag =? DFLAG_CONNECTED) && device_is_connected d)
  || device_check_flag d flag.

Definition get_devices_cnt (flag : Z) (t : transport_v) : MS Z :=
  match t with
  | Some t =>
      if supported t then l <- eread (dlist t);; eret (Z.of_nat (length (List.filter (counted flag) l))) else eret 0
  | None => eret 0
  end.

Definition device_get_property (d : bt_device_t) : option remote_device_properties_t :=
  uuids ← device_get_remote_uuids cfg.(uuids_len) d.(remote).(uuids) (replicate (Z.to_nat cfg.(uuids_len)) 0);
  Some (mk_props (device_get_address d) (device_get_address_type d)
    (strlcpy BT_REM_NAME_MAX_LEN (device_get_name d)) (strlcpy BT_REM_NAME_MAX_LEN (device_get_alias d))
    (device_get_link_key_type d) (device_get_device_type d) (device_get_link_key d) (device_get_device_class d) uuids).

Definition device_get_le_property (d : bt_device_t) : remote_device_le_properties_t :=
  mk_le_props (device_get_address d) (device_get_address_type d) (device_get_device_type d) (device_get_smp_key d) (device_get_local_csrk d).

(** The properties of the devices of a list, in an array of [size]. *)
Definition fill {A} (size : Z) (l : list A) : MS (list A) := if size <? Z.of_nat (length l) then efail else eret l.

Definition adapter_update_bonded_device : MS unit :=
  size <- get_devices_cnt DFLAG_BONDED (Some BT_TRANSPORT_BREDR);;
  if size =? 0 then eemit (bt_storage_save_bonded_device [])
  else
    l <- eread devices;;
    remotes <- eread (fun _ => mapM device_get_property (List.filter device_is_bonded l));;
    remotes <- fill size remotes;;
    eemit (bt_storage_save_bonded_device remotes).

Definition adapter_update_le_bonded_device : MS unit :=
  size <- get_devices_cnt DFLAG_BONDED (Some BT_TRANSPORT_BLE);;
  if size =? 0 then eemit (bt_storage_save_le_bonded_device [])
  else
    l <- eread le_devices;;
    remotes <- fill size (map device_get_le_property (List.filter device_is_bonded l));;
    eemit (bt_storage_save_le_bonded_device remotes).

Definition adapter_update_whitelist : MS unit :=
  size <- get_devices_cnt DFLAG_WHITELIST_ADDED (Some BT_TRANSPORT_BLE);;
  if size =? 0 then eemit (bt_storage_save_whitelist [])
  else
    l <- eread le_devices;;
    remotes <- fill size (map device_get_le_property (List.filter (fun d => device_check_flag d DFLAG_WHITELIST_ADDED) l));;
    eemit (bt_storage_save_whitelist remotes).

Definition adapter_save_properties : MS unit :=
  p <- egets properties;;
  eemit (bt_storage_save_adapter_info
    (mk_storage (strlcpy BT_LOC_NAME_MAX_LEN p.(prop_name)) p.(class_of_device) p.(io_capability) p.(scan_mode) p.(bondable) p.(irk))).

Definition adapter_properties_copy (st : adapter_storage_t) : MS unit :=
  emodify {! properties ::= {! prop_name := strlcpy (BT_LOC_NAME_MAX_LEN + 1) st.(st_name);
    class_of_device := st.(st_class_of_device); io_capability := st.(st_io_capability);
    scan_mode := u8 st.(st_scan_mode); bondable := st.(st_bondable); irk := st.(st_irk) } }.
Definition adapter_on_adapter_info_load (st : adapter_storage_t) : MS unit := adapter_properties_copy st.

(** The UUIDs of a stored device; [None]: outside of the array. *)
Definition load_uuids (r : remote_device_properties_t) (p : ptr) : MS unit :=
  d <- dev p;;
  d' <- eread (fun _ => load_remote_uuids cfg.(uuids_len) e.(mem) r.(p_uuids) d);;
  upd p (fun _ => d').

Definition load_bonded_device (r : remote_device_properties_t) : MS unit :=
  p <- adapter_find_create_classic_device r.(p_addr);;
  upd_ p (device_set_name r.(p_name));;;
  upd_ p (device_set_alias r.(p_alias));;;
  upd_ p (device_set_device_class r.(p_class_of_device));;;
  upd p (device_set_device_type r.(p_device_type));;;
  upd p (device_set_link_key r.(p_link_key));;;
  upd p (device_set_link_key_type r.(p_link_key_type));;;
  set_bond_state_silently p BOND_STATE_BONDED false;;;
  load_uuids r p;;;
  call_ (bt_sal_set_bonded_devices r).

Definition bonded_device_loaded (data : list remote_device_properties_t) : MS unit :=
  efor data load_bonded_device;;;
  eemit (send_to_state_machine BREDR_ENABLED).

Definition whitelist_device_loaded (data : list remote_device_le_properties_t) : MS unit :=
  efor data (fun r =>
    p <- adapter_find_create_le_device r.(l_addr) r.(l_addr_type);;
    upd p (device_set_flags DFLAG_WHITELIST_ADDED);;;
    call_ (bt_sal_le_add_white_list r.(l_addr) r.(l_addr_type))).

Definition le_bonded_device_loaded (data : list remote_device_le_properties_t) : MS unit :=
  match data with
  | [] => eret tt
  | _ =>
      efor data (fun r =>
        p <- adapter_find_create_le_device r.(l_addr) r.(l_addr_type);;
        set_bond_state_silently p BOND_STATE_BONDED false;;;
        upd p (device_set_smp_key r.(l_smp_key));;;
        upd p (device_set_identity_address (Some (smp_identity r.(l_smp_key))));;;
        upd p (device_set_local_csrk r.(l_local_csrk)));;;
      call_ (bt_sal_le_set_bonded_devices data)
  end.

(** ** Security events *)

Definition send_pair_display_notification (a : bt_address_t) (t : transport_v) (type passkey : Z) : MS unit :=
  eemit (on_pair_display a t type passkey).

(** The name is asked for once, while it is not known. *)
Definition request_name (p : ptr) (a : bt_address_t) : MS unit :=
  d <- dev p;;
  ewhen (negb (device_check_flag d (Z.lor DFLAG_NAME_SET DFLAG_GET_RMT_NAME)))
    (call_ (bt_sal_get_remote_name a);;; upd p (device_set_flags DFLAG_GET_RMT_NAME)).

Definition start_bonding (p : ptr) : MS unit :=
  d <- dev p;;
  ewhen (negb (bool_decide (device_get_bond_state d = BOND_STATE_BONDING))) (set_bond_state p BOND_STATE_BONDING false).

Definition process_pair_request_evt (a : bt_address_t) (local_initiate is_bondable : bool) : MS unit :=
  if negb is_bondable then call_ (bt_sal_pair_reply a HCI_ERR_PAIRING_NOT_ALLOWED)
  else
    adapter_lock;;;
    p <- adapter_find_create_classic_device a;;
    upd p (device_set_bond_initiate_local local_initiate);;;
    adapter_unlock;;;
    eemit (on_pair_request a).

Definition process_pin_request_evt (a : bt_address_t) (cod : Z) (min_16_digit : bool) (n : string) : MS unit :=
  adapter_lock;;;
  p <- adapter_find_create_classic_device a;;
  d <- dev p;;
  if bool_decide (device_get_bond_state d = BOND_STATE_CANCELING)
  then call_ (bt_sal_pin_reply a false None);;; adapter_unlock
  else
    request_name p a;;;
    start_bonding p;;;
    adapter_unlock;;;
    send_pair_display_notification a (Some BT_TRANSPORT_BREDR) PAIR_TYPE_PIN_CODE 0.

(** The device is not looked at before it is used. *)
Definition process_ssp_request_evt (a : bt_address_t) (t : transport_v) (cod ssp_type pass_key : Z) (n : string) : MS unit :=
  adapter_lock;;;
  p <- adapter_find_device a t;;
  match p with
  | None => efail
  | Some p =>
      d <- dev p;;
      if bool_decide (device_get_bond_state d = BOND_STATE_CANCELING)
      then
        (if bool_decide (t = Some BT_TRANSPORT_BREDR)
         then ewhen cfg.(bredr_support) (call_ (bt_sal_ssp_reply a false ssp_type 0))
         else ewhen cfg.(ble_support) (call_ (bt_sal_le_smp_reply a false ssp_type 0)));;;
        adapter_unlock
      else
        ewhen (bool_decide (t = Some BT_TRANSPORT_BREDR)) (request_name p a);;;
        start_bonding p;;;
        adapter_unlock;;;
        send_pair_display_notification a t ssp_type pass_key
  end.

Definition process_bond_state_change_evt (a : bt_address_t) (s : bond_state_t) (t : transport_v) (ctkd : bool) : MS unit :=
  adapter_lock;;;
  if bool_decide (t = Some BT_TRANSPORT_BREDR)
  then
    p <- adapter_find_create_classic_device a;;
    ewhen (bool_decide (s = BOND_STATE_BONDED)) (
      set_bond_state p BOND_STATE_BONDED ctkd;;;
      call_ (bt_sal_get_remote_device_info a);;;
      upd p (device_set_device_type e.(sal_device_type));;;
      adapter_update_bonded_device;;;
      d <- dev p;;
      ewhen (device_is_connected d) (call_ (bt_sal_start_service_discovery a)));;;
    set_bond_state p s ctkd;;;
    adapter_unlock
  else if negb cfg.(ble_support) then adapter_unlock
  else
    p <- adapter_find_create_le_device a BT_LE_ADDR_TYPE_PUBLIC;;
    (match s with
     | BOND_STATE_BONDED =>
         upd p (device_set_device_type BT_DEVICE_TYPE_BLE);;;
         ewhen cfg.(stack_le_zblue) (
           call_ (bt_sal_get_identity_addr a);;;
           upd p (device_set_identity_address (Some e.(sal_identity))))
     | BOND_STATE_NONE => upd p device_delete_smp_key
     | _ => eret tt
     end);;;
    set_bond_state p s ctkd;;;
    adapter_unlock.

Definition process_service_search_done_evt (a : bt_address_t) (l : list bt_uuid_t) : MS unit :=
  adapter_lock;;;
  p <- adapter_find_create_classic_device a;;
  upd_ p (device_set_uuids l);;;
  adapter_unlock;;;
  adapter_update_bonded_device;;;
  eemit (on_remote_uuids_changed a l).

(** An unknown transport returns with the lock held. *)
Definition process_enc_state_change_evt (a : bt_address_t) (encrypted : bool) (t : transport_v) : MS unit :=
  adapter_lock;;;
  match t with
  | None => eret tt
  | Some t =>
      p <- (match t with
            | BT_TRANSPORT_BREDR => p <- adapter_find_create_classic_device a;; eret (Some p)
            | BT_TRANSPORT_BLE => adapter_find_device a (Some BT_TRANSPORT_BLE)
            end);;
      match p with
      | None => efail
      | Some p =>
          upd p (device_set_connection_state
            (if encrypted
             then match t with BT_TRANSPORT_BREDR => CONNECTION_STATE_ENCRYPTED_BREDR | BT_TRANSPORT_BLE => CONNECTION_STATE_ENCRYPTED_LE end
             else CONNECTION_STATE_CONNECTED));;;
          adapter_unlock
      end
  end.

Definition process_link_key_update_evt (a : bt_address_t) (key : list Z) (type : Z) (ctkd : bool) : MS unit :=
  adapter_lock;;;
  p <- adapter_find_create_classic_device a;;
  ewhen (negb ctkd) (request_name p a);;;
  upd p (device_set_link_key key);;;
  upd p (device_set_link_key_type type);;;
  adapter_update_bonded_device;;;
  adapter_unlock.

Definition process_link_key_removed_evt (a : bt_address_t) : MS unit :=
  adapter_lock;;;
  p <- adapter_find_create_classic_device a;;
  upd p device_delete_link_key;;;
  d <- dev p;;
  ewhen (device_is_bonded d) (set_bond_state p BOND_STATE_NONE false);;;
  adapter_update_bonded_device;;;
  adapter_unlock.

Definition handle_security_event (ev : remote_event) : MS unit :=
  match ev with
  | PAIR_REQUEST_EVT a li b => process_pair_request_evt a li b
  | PIN_REQUEST_EVT a cod min16 n => process_pin_request_evt a cod min16 n
  | SSP_REQUEST_EVT a t cod ty k n => process_ssp_request_evt a t cod ty k n
  | BOND_STATE_CHANGE_EVT a s t ctkd => process_bond_state_change_evt a s t ctkd
  | SDP_SEARCH_DONE_EVT a l => process_service_search_done_evt a l
  | ENC_STATE_CHANGE_EVT a b t => process_enc_state_change_evt a b t
  | LINK_KEY_UPDATE_EVT a k ty ctkd => process_link_key_update_evt a k ty ctkd
  | LINK_KEY_REMOVED_EVT a => process_link_key_removed_evt a
  | _ => eret tt
  end.

(** ** Connection events *)

Definition process_connect_request_evt (a : bt_address_t) (cod : Z) : MS unit :=
  adapter_lock;;;
  p <- adapter_find_create_classic_device a;;
  upd_ p (device_set_device_class cod);;;
  n <- get_devices_cnt DFLAG_CONNECTED (Some BT_TRANSPORT_BREDR);;
  mx <- egets max_acl_connections;;
  let reject := mx <=? n in
  ewhen reject (call_ (bt_sal_acl_connection_reply a false));;;
  adapter_unlock;;;
  ewhen (negb reject) (eemit (on_connect_request a)).

Definition bt_dfx_connection_state_changed (reason : Z) (t : bt_transport_t) : MS unit :=
  ewhen ((reason =? HCI_ERR_CONNECTION_TIMEOUT) || (reason =? HCI_ERR_CONNECTION_FAILED_TO_BE_ESTABLISHED))
    (eemit (bt_dfx_gap_disconn_error t reason)).

(** The message for the adapter's machine when a transport has no link left. *)
Definition all_disconnected_event (t : bt_transport_t) : adapter_event :=
  match t with BT_TRANSPORT_BREDR => BREDR_ACL_ALL_DISCONNECTED | BT_TRANSPORT_BLE => BLE_ACL_ALL_DISCONNECTED end.

Definition process_connection_state_changed_evt (a : bt_address_t) (prm : acl_state_param_t) : MS unit :=
  adapter_lock;;;
  match prm.(acl_transport) with
  | None => adapter_unlock
  | Some t =>
      if negb (supported t) then adapter_unlock
      else
        p <- (match t with
              | BT_TRANSPORT_BREDR =>
                  p <- adapter_find_create_classic_device a;;
                  d <- dev p;;
                  ewhen (bool_decide (device_get_bond_state d = BOND_STATE_BONDING)) (request_name p a);;;
                  eret p
              | BT_TRANSPORT_BLE => adapter_find_create_le_device a prm.(acl_addr_type)
              end);;
        upd p (device_set_connection_state prm.(acl_state));;;
        ewhen (bool_decide (prm.(acl_state) = CONNECTION_STATE_CONNECTED)) (upd p (device_set_acl_handle e.(sal_acl_handle)));;;
        adapter_unlock;;;
        (match t, prm.(acl_state) with
         | BT_TRANSPORT_BREDR, CONNECTION_STATE_CONNECTED => eemit (bt_pm_remote_device_connected a)
         | BT_TRANSPORT_BREDR, CONNECTION_STATE_DISCONNECTED => eemit (bt_pm_remote_device_disconnected a)
         | _, _ => eret tt
         end);;;
        bt_dfx_connection_state_changed prm.(hci_reason_code) t;;;
        ewhen (cfg.(connection_manager) && bool_decide (prm.(acl_state) = CONNECTION_STATE_DISCONNECTED)) (
          adapter_lock;;;
          d <- dev p;;
          adapter_unlock;;;
          eemit (bt_cm_process_disconnect_event a t (device_get_rssi d) prm.(hci_reason_code)));;;
        eemit (on_connection_state_changed a t prm.(acl_state));;;
        ewhen (bool_decide (prm.(acl_state) = CONNECTION_STATE_DISCONNECTED)) (
          l <- eread (dlist t);;
          ewhen (adapter_check_acl_all_disconnected l) (eemit (send_to_state_machine (all_disconnected_event t))))
  end.

Definition handle_connection_event (ev : remote_event) : MS unit :=
  match ev with
  | CONNECT_REQUEST_EVT a cod => process_connect_request_evt a cod
  | CONNECTION_STATE_CHANGE_EVT a p => process_connection_state_changed_evt a p
  | _ => eret tt
  end.

(** ** Discovery events *)

Definition process_discovery_state_changed_evt (started : bool) : MS unit :=
  adapter_lock;;; emodify {! is_discovering := started };;; adapter_unlock;;;
  eemit (on_discovery_state_changed started).

Definition process_device_found_evt (r : bt_discovery_result_t) : MS unit :=
  adapter_lock;;;
  disc <- egets is_discovering;;
  if negb disc then adapter_unlock
  else
    p <- adapter_find_create_classic_device r.(r_addr);;
    upd_ p (device_set_name r.(r_name));;;
    upd_ p (device_set_device_class r.(r_cod));;;
    upd p (device_set_rssi r.(r_rssi));;;
    upd p (device_set_device_type BT_DEVICE_TYPE_BREDR);;;
    adapter_unlock;;;
    eemit (on_discovery_result r).

Definition process_remote_name_recieved_evt (a : bt_address_t) (n : string) : MS unit :=
  adapter_lock;;;
  p <- adapter_find_create_classic_device a;;
  changed <- upd_ p (device_set_name n);;
  upd p (device_clear_flag DFLAG_GET_RMT_NAME);;;
  adapter_unlock;;;
  ewhen changed (eemit (on_remote_name_changed a n)).

Definition handle_discovery_event (ev : discovery_event) : MS unit :=
  match ev with
  | DISCOVER_STATE_CHANGE_EVT b => process_discovery_state_changed_evt b
  | DEVICE_FOUND_EVT r => process_device_found_evt r
  | REMOTE_NAME_RECIEVED_EVT a n => process_remote_name_recieved_evt a n
  end.

(** ** Low energy events *)

Definition process_le_address_update_evt (a : bt_address_t) (ty : Z) : MS unit :=
  adapter_lock;;;
  emodify {! le_properties ::= {! le_addr := a; le_addr_type := u8 ty } };;;
  adapter_unlock.

Definition process_le_phy_update_evt (a : bt_address_t) (tx rx : Z) (st : bt_status_t) : MS unit :=
  adapter_lock;;;
  p <- adapter_find_device a (Some BT_TRANSPORT_BLE);;
  match p with
  | None => adapter_unlock
  | Some p =>
      if negb (is_success st) then adapter_unlock
      else upd p (device_set_le_phy tx rx);;; adapter_unlock
  end.

(** The address type of a device that was not found is read. *)
Definition process_le_whitelist_update_evt (a : bt_address_t) (is_add : bool) (st : bt_status_t) : MS unit :=
  if negb (is_success st) then eret tt
  else
    adapter_lock;;;
    p <- adapter_find_device a (Some BT_TRANSPORT_BLE);;
    match p with
    | None => efail
    | Some p =>
        d <- dev p;;
        ewhen (negb (Bool.eqb is_add (device_check_flag d DFLAG_WHITELIST_ADDED))) (
          upd p (if is_add then device_set_flags DFLAG_WHITELIST_ADDED else device_clear_flag DFLAG_WHITELIST_ADDED);;;
          adapter_update_whitelist);;;
        adapter_unlock
    end.

(** [n] rounds; the pointer [props] moves only past a known device. *)
Fixpoint le_bonded_update (n : nat) (props : list remote_device_le_properties_t) : MS unit :=
  match n with
  | O => eret tt
  | S n =>
      match props with
      | [] => efail
      | prop :: rest =>
          p <- adapter_find_device prop.(l_addr) (Some BT_TRANSPORT_BLE);;
          match p with
          | None => le_bonded_update n props
          | Some p =>
              d <- dev p;;
              ewhen (device_check_flag d DFLAG_LE_KEY_SET) (upd p device_delete_smp_key);;;
              upd p (device_set_address_type prop.(l_addr_type));;;
              upd p (device_set_smp_key prop.(l_smp_key));;;
              upd p (device_set_identity_address (Some (smp_identity prop.(l_smp_key))));;;
              upd p (device_set_local_csrk prop.(l_local_csrk));;;
              le_bonded_update n rest
          end
      end
  end.

Definition process_le_bonded_device_update_evt (props : list remote_device_le_properties_t) : MS unit :=
  adapter_lock;;;
  le_bonded_update (length props) props;;;
  adapter_update_le_bonded_device;;;
  adapter_unlock.

Definition process_le_sc_local_oob_data_got_evt (a : bt_address_t) (c r : list Z) : MS unit :=
  adapter_lock;;;
  p <- adapter_find_device a (Some BT_TRANSPORT_BLE);;
  match p with
  | None => adapter_unlock
  | Some _ => adapter_unlock;;; eemit (on_le_sc_local_oob_data_got a c r)
  end.

Definition handle_ble_event (ev : ble_event) : MS unit :=
  match ev with
  | LE_ADDR_UPDATE_EVT a ty => process_le_address_update_evt a ty
  | LE_PHY_UPDATE_EVT a tx rx st => process_le_phy_update_evt a tx rx st
  | LE_WHITELIST_UPDATE_EVT a b st => process_le_whitelist_update_evt a b st
  | LE_BONDED_DEVICE_UPDATE_EVT props => process_le_bonded_device_update_evt props
  | LE_SC_LOCAL_OOB_DATA_GOT_EVT a c r => process_le_sc_local_oob_data_got_evt a c r
  end.

(** ** Link events *)

Definition process_link_role_changed_evt (a : bt_address_t) (r : bt_link_role_t) : MS unit :=
  adapter_lock;;;
  p <- adapter_find_device a (Some BT_TRANSPORT_BREDR);;
  pol <- (match p with
          | None => eret None
          | Some p =>
              upd p (device_set_local_role r);;;
              d <- dev p;;
              eret (if IS_HEADSET (device_get_device_class d) && bool_decide (r = BT_LINK_ROLE_MASTER)
                    then Some (device_get_link_policy d) else None)
          end);;
  adapter_unlock;;;
  match pol with
  | Some policy => call_ (bt_sal_set_link_policy a (Z.ldiff policy BT_BR_LINK_POLICY_ENABLE_ROLE_SWITCH))
  | None => eret tt
  end.

(** A change of the device, if there is one. *)
Definition upd_opt (p : option ptr) (f : bt_device_t -> bt_device_t) : MS unit :=
  match p with None => eret tt | Some p => upd p f end.

Definition process_link_policy_changed_evt (a : bt_address_t) (policy : Z) : MS unit :=
  adapter_lock;;;
  p <- adapter_find_device a (Some BT_TRANSPORT_BREDR);;
  upd_opt p (device_set_link_policy policy);;;
  adapter_unlock.

Definition process_rssi_update_evt (a : bt_address_t) (v : Z) (t : transport_v) : MS unit :=
  adapter_lock;;;
  p <- adapter_find_device a t;;
  upd_opt p (device_set_rssi v);;;
  adapter_unlock.

Definition handle_link_event (ev : remote_event) : MS unit :=
  match ev with
  | LINK_MODE_CHANGED_EVT a mode sniff => eemit (bt_pm_remote_link_mode_changed a mode sniff)
  | LINK_ROLE_CHANGED_EVT a r => process_link_role_changed_evt a r
  | LINK_POLICY_CHANGED_EVT a policy => process_link_policy_changed_evt a policy
  | RSSI_UPDATE_EVT a v t => process_rssi_update_evt a v t
  | _ => eret tt
  end.

Definition handle_scan_mode_changed (mode : Z) : MS unit :=
  adapter_lock;;; adapter_save_properties;;; adapter_unlock;;; eemit (on_scan_mode_changed mode).

(** 16 bytes are copied; [irk] has as many. *)
Definition handle_irk_changed (k : list Z) : MS unit :=
  adapter_lock;;; emodify {! properties ::= {! irk := k } };;; adapter_save_properties;;; adapter_unlock.

(** What the service loop does with a message. *)
Definition handle (m : message) : MS unit :=
  match m with
  | handle_security ev => handle_security_event ev
  | handle_connection ev => handle_connection_event ev
  | handle_link ev => handle_link_event ev
  | handle_discovery ev => handle_discovery_event ev
  | handle_ble ev => handle_ble_event ev
  | handle_scan_mode mode => handle_scan_mode_changed mode
  | handle_irk k => handle_irk_changed k
  end.

(** ** The stack's callbacks post the messages *)

Definition post_event (m : message) : MS unit := ewhen e.(mem) (eemit (post m)).
Definition strncpy_name (n : option string) : string := String.substring 0 BT_REM_NAME_MAX_LEN (default ""%string n).

Definition adapter_on_discovery_state_changed b : MS unit := post_event (handle_discovery (DISCOVER_STATE_CHANGE_EVT b)).
Definition adapter_on_device_found r : MS unit := post_event (handle_discovery (DEVICE_FOUND_EVT r)).
Definition adapter_on_remote_name_recieved a n : MS unit :=
  post_event (handle_discovery (REMOTE_NAME_RECIEVED_EVT a (strncpy_name n))).
Definition adapter_on_connect_request a cod : MS unit := post_event (handle_connection (CONNECT_REQUEST_EVT a cod)).
Definition adapter_on_connection_state_changed a p : MS unit := post_event (handle_connection (CONNECTION_STATE_CHANGE_EVT a p)).
Definition adapter_on_pairing_request a li b : MS unit := post_event (handle_security (PAIR_REQUEST_EVT a li b)).
Definition adapter_on_pin_request a cod m n : MS unit := post_event (handle_security (PIN_REQUEST_EVT a cod m (strncpy_name n))).
Definition adapter_on_ssp_request a t cod ty k n : MS unit := post_event (handle_security (SSP_REQUEST_EVT a t cod ty k (strncpy_name n))).
Definition adapter_on_bond_state_changed a s t ctkd : MS unit := post_event (handle_security (BOND_STATE_CHANGE_EVT a s t ctkd)).
Definition adapter_on_service_search_done a l : MS unit := post_event (handle_security (SDP_SEARCH_DONE_EVT a l)).
Definition adapter_on_encryption_state_changed a b t : MS unit := post_event (handle_security (ENC_STATE_CHANGE_EVT a b t)).
Definition adapter_on_link_key_update a k ty ctkd : MS unit := post_event (handle_security (LINK_KEY_UPDATE_EVT a k ty ctkd)).
Definition adapter_on_link_key_removed a : MS unit := post_event (handle_security (LINK_KEY_REMOVED_EVT a)).
Definition adapter_on_link_role_changed a r : MS unit := post_event (handle_link (LINK_ROLE_CHANGED_EVT a r)).
Definition adapter_on_link_mode_changed a mode sniff : MS unit := post_event (handle_link (LINK_MODE_CHANGED_EVT a mode sniff)).
Definition adapter_on_link_policy_changed a policy : MS unit := post_event (handle_link (LINK_POLICY_CHANGED_EVT a policy)).
Definition adapter_on_rssi_read a v t : MS unit := post_event (handle_link (RSSI_UPDATE_EVT a v t)).

(** These do not look whether the allocation succeeded. *)
Definition post_unchecked (m : message) : MS unit := if e.(mem) then eemit (post m) else efail.
Definition adapter_on_scan_mode_changed mode : MS unit := post_unchecked (handle_scan_mode mode).
Definition adapter_on_irk_changed k : MS unit := post_unchecked (handle_irk k).
Definition adapter_on_le_addr_update a ty : MS unit := post_unchecked (handle_ble (LE_ADDR_UPDATE_EVT a ty)).
Definition adapter_on_le_phy_update a tx rx st : MS unit := post_unchecked (handle_ble (LE_PHY_UPDATE_EVT a tx rx st)).
Definition adapter_on_whitelist_update a b st : MS unit := post_unchecked (handle_ble (LE_WHITELIST_UPDATE_EVT a b st)).
Definition adapter_on_le_bonded_device_update props : MS unit := post_unchecked (handle_ble (LE_BONDED_DEVICE_UPDATE_EVT props)).
Definition adapter_on_le_local_oob_data_got a c r : MS unit := post_unchecked (handle_ble (LE_SC_LOCAL_OOB_DATA_GOT_EVT a c r)).

(** ** Called by the adapter's machine *)

Definition adapter_notify_state_change (cur : Z) : MS unit :=
  adapter_lock;;; emodify {! adapter_state := cur };;; adapter_unlock;;; eemit (on_adapter_state_changed cur).

Definition adapter_on_le_enabled (enablebt : bool) : MS unit :=
  if negb cfg.(ble_support) then eret tt
  else
    call_ bt_sal_le_get_address;;;
    emodify {! le_properties ::= {! le_addr := default bt_addr_empty e.(sal_le_address) } };;;
    eemit bt_storage_load_le_bonded_device;;;
    ewhen (negb e.(load_le_bonded)) (le_bonded_device_loaded []);;;
    eemit bt_storage_load_whitelist_device;;;
    ewhen (negb e.(load_whitelist)) (whitelist_device_loaded []);;;
    ewhen cfg.(ble_adv) (eemit adv_manager_init);;;
    ewhen cfg.(ble_scan) (eemit scan_manager_init);;;
    ewhen (cfg.(l2cap) && negb enablebt) (eemit l2cap_service_init);;;
    ewhen enablebt (eemit (send_to_state_machine SYS_TURN_ON)).

Definition adapter_on_le_disabled : MS unit :=
  if negb cfg.(ble_support) then eret tt
  else
    ewhen cfg.(ble_adv) (eemit adv_manager_cleanup);;;
    ewhen cfg.(ble_scan) (adapter_lock;;; clear_devices BT_TRANSPORT_BLE;;; adapter_unlock;;; eemit scan_manager_cleanup);;;
    ewhen cfg.(l2cap) (eemit l2cap_service_cleanup).

Definition adapter_on_br_enabled : MS unit :=
  p <- egets properties;;
  call_ (bt_sal_set_name p.(prop_name));;;
  call_ bt_sal_get_address;;;
  emodify {! properties ::= {! prop_addr := e.(sal_address) } };;;
  call_ (bt_sal_set_io_capability p.(io_capability));;;
  call_ (bt_sal_set_scan_mode p.(scan_mode) p.(bondable));;;
  call_ (bt_sal_set_device_class p.(class_of_device));;;
  ewhen cfg.(l2cap) (eemit l2cap_service_init).

Definition adapter_on_br_disabled : MS unit := adapter_lock;;; clear_devices BT_TRANSPORT_BREDR;;; adapter_unlock.

(** ** Lifetime *)

Definition no_properties : adapter_properties_t := mk_properties "" bt_addr_empty 0 0 0 false (replicate 16 0).

Definition adapter_init : adapter_service_t :=
  mk_adapter no_properties (Some []) (mk_le_properties bt_addr_empty 0 0 0)
    (if cfg.(ble_support) then Some [] else None) 0 BT_ADAPTER_STATE_OFF false false 10.

(** While there is a machine: the lists are freed. *)
Definition adapter_cleanup : MS unit :=
  adapter_lock;;;
  clear_devices BT_TRANSPORT_BREDR;;;
  emodify {! devices := None };;;
  ewhen cfg.(ble_support) (clear_devices BT_TRANSPORT_BLE;;; emodify {! le_devices := None });;;
  adapter_unlock.

(** ** Discovery *)

Definition locked {A} (m : MS A) : MS A := adapter_lock;;; x <- m;; adapter_unlock;;; eret x.

Definition adapter_remove_found_devices : MS unit :=
  l <- eread devices;;
  let kept d := device_is_bonded d || negb (bool_decide (device_get_connection_state d = CONNECTION_STATE_DISCONNECTED)) in
  emodify (set_dlist BT_TRANSPORT_BREDR (List.filter kept l));;;
  eemits (concat (map adapter_delete_device (List.filter (fun d => negb (kept d)) l))).

Definition adapter_start_discovery (timeout : Z) (limited : bool) : MS bt_status_t :=
  adapter_lock;;;
  st <- egets adapter_state;;
  if negb (st =? BT_ADAPTER_STATE_ON) then adapter_unlock;;; eemit bt_dfx_inquiry_error;;; eret BT_STATUS_NOT_ENABLED
  else
    disc <- egets is_discovering;;
    if (disc : bool) then adapter_unlock;;; eemit bt_dfx_inquiry_error;;; eret BT_STATUS_FAIL
    else
      adapter_remove_found_devices;;;
      status <- call (bt_sal_start_discovery timeout limited);;
      if negb (is_success status) then adapter_unlock;;; eret status
      else emodify {! is_discovering := true };;; adapter_unlock;;; eret status.

Definition adapter_cancel_discovery : MS bt_status_t :=
  adapter_lock;;;
  st <- egets adapter_state;;
  if negb (st =? BT_ADAPTER_STATE_ON) then adapter_unlock;;; eret BT_STATUS_NOT_ENABLED
  else
    disc <- egets is_discovering;;
    if negb disc then adapter_unlock;;; eret BT_STATUS_FAIL
    else
      status <- call bt_sal_stop_discovery;;
      emodify {! is_discovering := false };;; adapter_unlock;;; eret status.

Definition adapter_is_discovering : MS bool := locked (egets is_discovering).

(** ** Properties *)

(** [CHECK_ADAPTER_READY] and the rest, under the lock. *)
Definition ready (m : MS bt_status_t) : MS bt_status_t :=
  locked (st <- egets adapter_state;; if st =? BT_ADAPTER_STATE_ON then m else eret BT_STATUS_NOT_ENABLED).

Definition adapter_get_address : MS bt_address_t := locked (egets (fun s => s.(properties).(prop_addr))).

Definition adapter_set_name (n : string) : MS bt_status_t :=
  if (BT_LOC_NAME_MAX_LEN <? String.length n)%nat then eret BT_STATUS_PARM_INVALID
  else
    adapter_lock;;;
    st <- egets adapter_state;;
    if negb (st =? BT_ADAPTER_STATE_ON) then adapter_unlock;;; eret BT_STATUS_NOT_ENABLED
    else
      p <- egets properties;;
      if strncmp_eq BT_LOC_NAME_MAX_LEN p.(prop_name) n then adapter_unlock;;; eret BT_STATUS_SUCCESS
      else
        status <- call (bt_sal_set_name n);;
        if negb (is_success status) then adapter_unlock;;; eret status
        else
          emodify {! properties ::= {! prop_name := String.substring 0 BT_LOC_NAME_MAX_LEN n } };;;
          adapter_save_properties;;;
          adapter_unlock;;;
          eemit (on_device_name_changed n);;;
          eret status.

Definition adapter_get_name (size : nat) : MS string := locked (egets (fun s => strlcpy size s.(properties).(prop_name))).

Definition adapter_set_scan_mode (mode : Z) (b : bool) : MS bt_status_t :=
  ready (
    p <- egets properties;;
    if (p.(scan_mode) =? mode) && Bool.eqb p.(bondable) b then eret BT_STATUS_SUCCESS
    else
      status <- call (bt_sal_set_scan_mode mode b);;
      if negb (is_success status) then eret status
      else emodify {! properties ::= {! scan_mode := u8 mode; bondable := b } };;; eret status).

Definition adapter_get_scan_mode : MS Z := locked (egets (fun s => s.(properties).(scan_mode))).

Definition adapter_set_device_class (cod : Z) : MS bt_status_t :=
  ready (
    p <- egets properties;;
    if p.(class_of_device) =? cod then eret BT_STATUS_SUCCESS
    else
      status <- call (bt_sal_set_device_class cod);;
      if negb (is_success status) then eret status
      else emodify {! properties ::= {! class_of_device := cod } };;; adapter_save_properties;;; eret status).

Definition adapter_get_device_class : MS Z := locked (egets (fun s => s.(properties).(class_of_device))).

Definition adapter_set_io_capability (cap : Z) : MS bt_status_t :=
  ready (
    p <- egets properties;;
    if p.(io_capability) =? cap then eret BT_STATUS_SUCCESS
    else
      status <- call (bt_sal_set_io_capability cap);;
      if negb (is_success status) then eret status
      else emodify {! properties ::= {! io_capability := cap } };;; adapter_save_properties;;; eret status).

Definition adapter_get_io_capability : MS Z := locked (egets (fun s => s.(properties).(io_capability))).
Definition adapter_set_inquiry_scan_parameters ty i w : MS bt_status_t := call (bt_sal_set_inquiry_scan_parameters ty i w).
Definition adapter_set_page_scan_parameters ty i w : MS bt_status_t := call (bt_sal_set_page_scan_parameters ty i w).

(** The functions compiled only with low energy. *)
Definition le_only (m : MS bt_status_t) : MS bt_status_t := if cfg.(ble_support) then m else eret BT_STATUS_NOT_SUPPORTED.

Definition adapter_get_le_address : MS (option (bt_address_t * Z)) :=
  if cfg.(ble_support)
  then locked (egets (fun s => Some (s.(le_properties).(le_addr), s.(le_properties).(le_addr_type))))
  else eret None.
Definition adapter_set_le_address a : MS bt_status_t := le_only (call (bt_sal_le_set_address a)).
Definition adapter_set_le_identity_address a (public : bool) : MS bt_status_t :=
  le_only ((if public then call_ (bt_sal_le_set_public_identity a) else call_ (bt_sal_le_set_static_identity a));;;
           eret BT_STATUS_SUCCESS).
Definition adapter_set_le_io_capability cap : MS bt_status_t :=
  le_only (locked (emodify {! le_properties ::= {! le_io_capability := cap } });;;
           call_ (bt_sal_le_set_io_capability cap);;; eret BT_STATUS_SUCCESS).
Definition adapter_get_le_io_capability : MS Z :=
  if cfg.(ble_support) then locked (egets (fun s => s.(le_properties).(le_io_capability))) else eret 0.
Definition adapter_set_pts_mode (b : bool) : MS bt_status_t :=
  locked (emodify {! is_pts_mode := b });;; eret BT_STATUS_SUCCESS.
Definition adapter_get_pts_mode : MS bool := locked (egets is_pts_mode).
Definition adapter_set_debug_mode (mode operation : Z) : MS bt_status_t :=
  if mode =? BT_DEBUG_MODE_PTS then adapter_set_pts_mode (negb (operation =? 0));;; eret BT_STATUS_SUCCESS
  else if (mode =? BT_DEBUG_MODE_RSSI) && cfg.(connection_manager)
  then eemit (if operation =? 0 then bt_cm_disable_rssi_statistic else bt_cm_enable_rssi_statistic);;; eret e.(cm_status)
  else eret BT_STATUS_PARM_INVALID.
Definition adapter_set_le_appearance (v : Z) : MS bt_status_t :=
  le_only (locked (
    status <- call (bt_sal_le_set_appearance v);;
    if negb (is_success status) then eret status
    else emodify {! le_properties ::= {! le_appearance := v } };;; eret BT_STATUS_SUCCESS)).
(** The number of a status without low energy. *)
Definition adapter_get_le_appearance : MS (Z + bt_status_t) :=
  if cfg.(ble_support) then locked (egets (fun s => inl (u16 s.(le_properties).(le_appearance)))) else eret (inr BT_STATUS_NOT_SUPPORTED).

(** ** Lists of devices *)

(** [alloc]: the caller's allocator succeeds. *)
Definition adapter_get_devices (flag : Z) (t : transport_v) (alloc : bool) : MS (bt_status_t * list bt_address_t) :=
  match t with
  | Some t =>
      if supported t
      then
        adapter_lock;;;
        cnt <- get_devices_cnt flag (Some t);;
        if cnt =? 0 then adapter_unlock;;; eret (BT_STATUS_SUCCESS, [])
        else if negb alloc then adapter_unlock;;; eret (BT_STATUS_NOMEM, [])
        else
          l <- eread (dlist t);;
          addrs <- fill cnt (map device_get_address (List.filter (fun d =>
            ((flag =? DFLAG_BONDED) && device_is_bonded d) || ((flag =? DFLAG_CONNECTED) && device_is_connected d)) l));;
          adapter_unlock;;;
          eret (BT_STATUS_SUCCESS, addrs)
      else eret (BT_STATUS_PARM_INVALID, [])
  | None => eret (BT_STATUS_PARM_INVALID, [])
  end.
Definition adapter_get_bonded_devices t alloc := adapter_get_devices DFLAG_BONDED t alloc.
Definition adapter_get_connected_devices t alloc := adapter_get_devices DFLAG_CONNECTED t alloc.

(** ** One device *)

(** The common form: found or not, under the lock. *)
Definition about {A} (a : bt_address_t) (t : transport_v) (f : bt_device_t -> A) (none : A) : MS A :=
  locked (p <- adapter_find_device a t;; ask p f none).

Definition adapter_get_remote_identity_address a : MS (bt_status_t * option bt_address_t) :=
  about a (Some BT_TRANSPORT_BLE) (fun d =>
    let id := device_get_identity_address d in
    if bt_addr_is_empty id then (BT_STATUS_NOT_FOUND, None) else (BT_STATUS_SUCCESS, Some id))
    (BT_STATUS_DEVICE_NOT_FOUND, None).
Definition adapter_get_remote_device_type a : MS Z :=
  locked (
    p <- adapter_find_device a (Some BT_TRANSPORT_BREDR);;
    x <- ask p (fun d => Z.lor (device_get_device_type d) BT_DEVICE_TYPE_BREDR) 0;;
    q <- adapter_find_device a (Some BT_TRANSPORT_BLE);;
    ask q (fun d => Z.lor (Z.lor x (device_get_device_type d)) BT_DEVICE_TYPE_BLE) x).
Definition adapter_get_remote_name a : MS (option string) :=
  about a (Some BT_TRANSPORT_BREDR) (fun d => Some (device_get_name d)) None.
Definition adapter_get_remote_device_class a : MS Z := about a (Some BT_TRANSPORT_BREDR) device_get_device_class 0.
Definition adapter_get_remote_uuids a (alloc : bool) : MS (bt_status_t * list bt_uuid_t) :=
  about a (Some BT_TRANSPORT_BREDR) (fun d =>
    if (device_get_uuids_size d =? 0)%nat then (BT_STATUS_SUCCESS, [])
    else if negb alloc then (BT_STATUS_NOMEM, [])
    else (BT_STATUS_SUCCESS, device_get_uuids d (device_get_uuids_size d)))
    (BT_STATUS_DEVICE_NOT_FOUND, []).
Definition adapter_read_remote_rssi a t : MS bt_status_t := call (bt_sal_read_rssi a t).
Definition adapter_get_remote_rssi a : MS Z := about a (Some BT_TRANSPORT_BREDR) device_get_rssi 0.
Definition adapter_get_remote_alias a : MS (option string) :=
  about a (Some BT_TRANSPORT_BREDR) (fun d => Some (String.substring 0 BT_REM_NAME_MAX_LEN (device_get_alias d))) None.
Definition adapter_set_remote_alias a (n : string) : MS bt_status_t :=
  adapter_lock;;;
  p <- adapter_find_device a (Some BT_TRANSPORT_BREDR);;
  match p with
  | None => adapter_unlock;;; eret BT_STATUS_DEVICE_NOT_FOUND
  | Some p =>
      upd_ p (device_set_alias n);;; adapter_unlock;;; eemit (on_remote_alias_changed a n);;; eret BT_STATUS_SUCCESS
  end.
Definition adapter_is_remote_connected a t : MS bool := about a t device_is_connected false.
Definition adapter_is_remote_encrypted a t : MS bool := about a t device_is_encrypted false.
Definition adapter_is_bond_initiate_local a t : MS bool := about a t device_is_bond_initiate_local false.
Definition adapter_get_remote_bond_state a t : MS bond_state_t := about a t device_get_bond_state BOND_STATE_NONE.
Definition adapter_is_remote_bonded a t : MS bool := about a t device_is_bonded false.

(** ** Connecting *)

(** The stack's answer decides between a state and a failure. *)
Definition try_connect (p : ptr) (c : sal_call) : MS bt_status_t :=
  status <- call c;;
  if negb (is_success status) then adapter_unlock;;; eret BT_STATUS_FAIL
  else upd p (device_set_connection_state CONNECTION_STATE_CONNECTING);;; adapter_unlock;;; eret BT_STATUS_SUCCESS.

Definition try_disconnect (p : option ptr) (c : sal_call) : MS bt_status_t :=
  match p with
  | None => adapter_unlock;;; eret BT_STATUS_DEVICE_NOT_FOUND
  | Some p =>
      d <- dev p;;
      match device_get_connection_state d with
      | CONNECTION_STATE_DISCONNECTED | CONNECTION_STATE_DISCONNECTING => adapter_unlock;;; eret BT_STATUS_BUSY
      | _ =>
          status <- call c;;
          if negb (is_success status) then adapter_unlock;;; eret BT_STATUS_FAIL
          else upd p (device_set_connection_state CONNECTION_STATE_DISCONNECTING);;; adapter_unlock;;; eret BT_STATUS_SUCCESS
      end
  end.

Definition adapter_connect a : MS bt_status_t :=
  adapter_lock;;; p <- adapter_find_create_classic_device a;; try_connect p (bt_sal_connect a).

Definition adapter_disconnect a : MS bt_status_t :=
  adapter_lock;;;
  p <- adapter_find_device a (Some BT_TRANSPORT_BREDR);;
  try_disconnect p (bt_sal_disconnect a HCI_ERR_CONNECTION_TERMINATED_BY_LOCAL_HOST).

Definition adapter_le_connect a ty : MS bt_status_t :=
  le_only (adapter_lock;;; p <- adapter_find_create_le_device a ty;; try_connect p (bt_sal_le_connect a ty)).

Definition adapter_le_disconnect a : MS bt_status_t :=
  le_only (adapter_lock;;; p <- adapter_find_device a (Some BT_TRANSPORT_BLE);; try_disconnect p (bt_sal_le_disconnect a)).

(** The machine is told at once, or every device is disconnected; the walk
    neither adds nor removes a device. *)
Definition disconnect_safe (t : bt_transport_t) (disconnect : bt_address_t -> MS bt_status_t) : MS bt_status_t :=
  l <- eread (dlist t);;
  if adapter_check_acl_all_disconnected l
  then eemit (send_to_state_machine (all_disconnected_event t));;; eret BT_STATUS_SUCCESS
  else efor l (fun d => disconnect (device_get_address d);;; eret tt);;; eret BT_STATUS_SUCCESS.

Definition adapter_disconnect_safe : MS bt_status_t := disconnect_safe BT_TRANSPORT_BREDR adapter_disconnect.
Definition adapter_le_disconnect_safe : MS bt_status_t := le_only (disconnect_safe BT_TRANSPORT_BLE adapter_le_disconnect).

(** A device that must be there, and the rest without the lock. *)
Definition known {A} (a : bt_address_t) (t : transport_v) (none : A) (k : ptr -> MS A) : MS A :=
  adapter_lock;;;
  p <- adapter_find_device a t;;
  match p with
  | None => adapter_unlock;;; eret none
  | Some p => adapter_unlock;;; k p
  end.

Definition adapter_connect_request_reply a (accept : bool) : MS bt_status_t :=
  known a (Some BT_TRANSPORT_BREDR) BT_STATUS_DEVICE_NOT_FOUND (fun p =>
    status <- call (bt_sal_acl_connection_reply a accept);;
    ewhen (is_success status && accept) (upd p (device_set_connection_state CONNECTION_STATE_CONNECTING));;;
    eret status).

Definition adapter_le_set_phy a tx rx : MS bt_status_t :=
  le_only (known a (Some BT_TRANSPORT_BLE) BT_STATUS_DEVICE_NOT_FOUND (fun _ => call (bt_sal_le_set_phy a tx rx))).
Definition adapter_le_enable_key_derivation b1 b2 : MS bt_status_t := le_only (call (bt_sal_le_enable_key_derivation b1 b2)).

(** In states the adapter is not in, nothing is done. *)
Definition enabled (ok : Z -> bool) (m : MS bt_status_t) : MS bt_status_t :=
  adapter_lock;;;
  st <- egets adapter_state;;
  if ok st then m else adapter_unlock;;; eret BT_STATUS_NOT_ENABLED.
Definition is_on (st : Z) : bool := st =? BT_ADAPTER_STATE_ON.
Definition is_on_or_le (st : Z) : bool := (st =? BT_ADAPTER_STATE_ON) || (st =? BT_ADAPTER_STATE_BLE_ON).

Definition adapter_le_add_whitelist a : MS bt_status_t :=
  le_only (enabled is_on (
    p <- adapter_find_create_le_device a BT_LE_ADDR_TYPE_PUBLIC;;
    d <- dev p;;
    adapter_unlock;;;
    if device_check_flag d DFLAG_WHITELIST_ADDED then eret BT_STATUS_SUCCESS
    else call (bt_sal_le_add_white_list a (device_get_address_type d)))).

Definition adapter_le_remove_whitelist a : MS bt_status_t :=
  le_only (enabled is_on (
    p <- adapter_find_device a (Some BT_TRANSPORT_BLE);;
    match p with
    | None => adapter_unlock;;; eret BT_STATUS_DEVICE_NOT_FOUND
    | Some p =>
        d <- dev p;;
        adapter_unlock;;;
        if device_check_flag d DFLAG_WHITELIST_ADDED
        then call (bt_sal_le_remove_white_list a (device_get_address_type d)) else eret BT_STATUS_SUCCESS
    end)).

Definition adapter_le_set_bondable (b : bool) : MS bt_status_t :=
  enabled is_on_or_le (adapter_unlock;;; call (bt_sal_le_set_bondable b)).

Definition adapter_set_security_level (level : Z) (t : transport_v) : MS bt_status_t :=
  enabled is_on_or_le (
    adapter_unlock;;;
    match t with
    | Some BT_TRANSPORT_BLE => if cfg.(ble_support) then call (bt_sal_le_set_security_level level) else eret BT_STATUS_NOT_SUPPORTED
    | Some BT_TRANSPORT_BREDR => if cfg.(bredr_support) then call (bt_sal_set_security_level level) else eret BT_STATUS_NOT_SUPPORTED
    | None => eret BT_STATUS_NOT_SUPPORTED
    end).

(** ** Bonding *)

Definition adapter_create_bond a (t : transport_v) : MS bt_status_t :=
  enabled is_on (
    disc <- egets is_discovering;;
    ewhen disc (call_ bt_sal_stop_discovery);;;
    match t with
    | Some t =>
        if negb (supported t) then adapter_unlock;;; eret BT_STATUS_PARM_INVALID
        else
          p <- (match t with
                | BT_TRANSPORT_BREDR => p <- adapter_find_create_classic_device a;; eret (Some p)
                | BT_TRANSPORT_BLE => adapter_find_device a (Some BT_TRANSPORT_BLE)
                end);;
          match p with
          | None => adapter_unlock;;; eret BT_STATUS_DEVICE_NOT_FOUND
          | Some p =>
              d <- dev p;;
              adapter_unlock;;;
              if negb (bool_decide (device_get_bond_state d = BOND_STATE_NONE)) then eret BT_STATUS_FAIL
              else match t with
                   | BT_TRANSPORT_BREDR => call (bt_sal_create_bond a t (device_get_address_type d))
                   | BT_TRANSPORT_BLE => call (bt_sal_le_create_bond a (device_get_address_type d))
                   end
          end
    | None => adapter_unlock;;; eret BT_STATUS_PARM_INVALID
    end).

(** The device, if it is in the state [s] of its bond. *)
Definition in_bond_state (a : bt_address_t) (t : transport_v) (s : bond_state_t) (k : ptr -> MS bt_status_t) : MS bt_status_t :=
  adapter_lock;;;
  p <- adapter_find_device a t;;
  match p with
  | None => adapter_unlock;;; eret BT_STATUS_FAIL
  | Some p =>
      d <- dev p;;
      if negb (bool_decide (device_get_bond_state d = s)) then adapter_unlock;;; eret BT_STATUS_FAIL else k p
  end.

Definition adapter_remove_bond a (t : transport_v) : MS bt_status_t :=
  in_bond_state a t BOND_STATE_BONDED (fun p =>
    set_bond_state p BOND_STATE_NONE false;;;
    (match t with
     | Some BT_TRANSPORT_BREDR =>
         upd p device_delete_link_key;;;
         call_ (bt_sal_remove_bond a BT_TRANSPORT_BREDR);;;
         adapter_update_bonded_device
     | Some BT_TRANSPORT_BLE => call_ (bt_sal_le_remove_bond a)
     | None => eret tt
     end);;;
    adapter_unlock;;;
    eret BT_STATUS_SUCCESS).

Definition adapter_cancel_bond a : MS bt_status_t :=
  in_bond_state a (Some BT_TRANSPORT_BREDR) BOND_STATE_BONDING (fun p =>
    status <- call (bt_sal_cancel_bond a BT_TRANSPORT_BREDR);;
    ewhen (is_success status) (set_bond_state_silently p BOND_STATE_CANCELING false);;;
    adapter_unlock;;;
    eret status).

Definition adapter_pair_request_reply a (accept : bool) : MS bt_status_t :=
  known a (Some BT_TRANSPORT_BREDR) BT_STATUS_DEVICE_NOT_FOUND (fun p =>
    status <- call (bt_sal_pair_reply a (if accept then 0 else HCI_ERR_PAIRING_NOT_ALLOWED));;
    ewhen (is_success status && accept) (adapter_lock;;; set_bond_state p BOND_STATE_BONDING false;;; adapter_unlock);;;
    eret status).

Definition adapter_set_pin_code a (accept : bool) (pin : string) : MS bt_status_t :=
  in_bond_state a (Some BT_TRANSPORT_BREDR) BOND_STATE_BONDING (fun _ =>
    adapter_unlock;;; call (bt_sal_pin_reply a accept (Some pin))).

(** The answer for a transport. *)
Definition reply_by (t : transport_v) (br le : sal_call) : MS bt_status_t :=
  match t with
  | Some BT_TRANSPORT_BREDR => call br
  | Some BT_TRANSPORT_BLE => call le
  | None => eret BT_STATUS_PARM_INVALID
  end.

Definition adapter_set_pairing_confirmation a (t : transport_v) (accept : bool) : MS bt_status_t :=
  in_bond_state a t BOND_STATE_BONDING (fun _ =>
    adapter_unlock;;;
    reply_by t (bt_sal_ssp_reply a accept PAIR_TYPE_PASSKEY_CONFIRMATION 0) (bt_sal_le_smp_reply a accept PAIR_TYPE_PASSKEY_CONFIRMATION 0)).

Definition adapter_set_pass_key a (t : transport_v) (accept : bool) (passkey : Z) : MS bt_status_t :=
  in_bond_state a t BOND_STATE_BONDING (fun _ =>
    adapter_unlock;;;
    reply_by t (bt_sal_ssp_reply a accept PAIR_TYPE_PASSKEY_ENTRY passkey) (bt_sal_le_smp_reply a accept PAIR_TYPE_PASSKEY_ENTRY passkey)).

Definition adapter_le_set_legacy_tk a tk : MS bt_status_t :=
  le_only (known a (Some BT_TRANSPORT_BLE) BT_STATUS_DEVICE_NOT_FOUND (fun _ => call (bt_sal_le_set_legacy_tk a tk))).
Definition adapter_le_set_remote_oob_data a c r : MS bt_status_t :=
  le_only (known a (Some BT_TRANSPORT_BLE) BT_STATUS_DEVICE_NOT_FOUND (fun _ => call (bt_sal_le_set_remote_oob_data a c r))).
Definition adapter_le_get_local_oob_data a : MS bt_status_t :=
  le_only (known a (Some BT_TRANSPORT_BLE) BT_STATUS_DEVICE_NOT_FOUND (fun _ => call (bt_sal_le_get_local_oob_data a))).

Definition adapter_switch_role a (r : bt_link_role_t) : MS bt_status_t :=
  match r with
  | BT_LINK_ROLE_UNKNOWN => eret BT_STATUS_PARM_INVALID
  | _ =>
      adapter_lock;;;
      p <- adapter_find_device a (Some BT_TRANSPORT_BREDR);;
      match p with
      | None => adapter_unlock;;; eret BT_STATUS_DEVICE_NOT_FOUND
      | Some p =>
          d <- dev p;;
          adapter_unlock;;;
          if negb (bool_decide (device_get_local_role d = r)) then call (bt_sal_set_link_role a r) else eret BT_STATUS_SUCCESS
      end
  end.

Definition adapter_set_afh_channel_classification f w n : MS bt_status_t := call (bt_sal_set_afh_channel_classification f w n).
End Handlers.

(** ** What can happen

    Between [adapter_init] and [adapter_cleanup]: a message of the service loop
    ([handle] of the stack's events), data loaded from storage, a call of the
    adapter's machine, a call of a client. *)

Inductive op :=
| op_message (m : message)
| op_bonded_loaded (l : list remote_device_properties_t)
| op_le_bonded_loaded (l : list remote_device_le_properties_t)
| op_whitelist_loaded (l : list remote_device_le_properties_t)
| op_info_loaded (st : adapter_storage_t)
| op_state (s : Z)
| op_le_enabled (enablebt : bool) | op_le_disabled | op_br_enabled | op_br_disabled
| op_start_discovery (timeout : Z) (limited : bool) | op_cancel_discovery
| op_set_name (n : string) | op_set_scan_mode (mode : Z) (b : bool) | op_set_device_class (cod : Z)
| op_set_io_capability (cap : Z) | op_set_le_io_capability (cap : Z) | op_set_le_appearance (v : Z)
| op_set_debug_mode (mode operation : Z)
| op_get_devices (flag : Z) (t : transport_v) (alloc : bool)
| op_get_bond_state (a : bt_address_t) (t : transport_v)
| op_is_connected (a : bt_address_t) (t : transport_v)
| op_set_alias (a : bt_address_t) (n : string)
| op_connect (a : bt_address_t) | op_disconnect (a : bt_address_t)
| op_le_connect (a : bt_address_t) (type : Z) | op_le_disconnect (a : bt_address_t)
| op_disconnect_safe | op_le_disconnect_safe
| op_connect_reply (a : bt_address_t) (accept : bool)
| op_add_whitelist (a : bt_address_t) | op_remove_whitelist (a : bt_address_t)
| op_set_security_level (level : Z) (t : transport_v)
| op_create_bond (a : bt_address_t) (t : transport_v) | op_remove_bond (a : bt_address_t) (t : transport_v)
| op_cancel_bond (a : bt_address_t) | op_pair_reply (a : bt_address_t) (accept : bool)
| op_set_pin_code (a : bt_address_t) (accept : bool) (pin : string)
| op_set_pairing_confirmation (a : bt_address_t) (t : transport_v) (accept : bool)
| op_set_pass_key (a : bt_address_t) (t : transport_v) (accept : bool) (passkey : Z)
| op_switch_role (a : bt_address_t) (r : bt_link_role_t).

Definition void {A} (m : MS A) : MS unit := m;;; eret tt.

Definition run_op (cfg : config) (e : env) (o : op) : MS unit :=
  match o with
  | op_message m => handle cfg e m
  | op_bonded_loaded l => bonded_device_loaded cfg e l
  | op_le_bonded_loaded l => if cfg.(ble_support) then le_bonded_device_loaded cfg e l else eret tt
  | op_whitelist_loaded l => if cfg.(ble_support) then whitelist_device_loaded cfg e l else eret tt
  | op_info_loaded st => adapter_on_adapter_info_load st
  | op_state s => adapter_notify_state_change s
  | op_le_enabled b => adapter_on_le_enabled cfg e b
  | op_le_disabled => adapter_on_le_disabled cfg
  | op_br_enabled => adapter_on_br_enabled cfg e
  | op_br_disabled => adapter_on_br_disabled
  | op_start_discovery t l => void (adapter_start_discovery e t l)
  | op_cancel_discovery => void (adapter_cancel_discovery e)
  | op_set_name n => void (adapter_set_name e n)
  | op_set_scan_mode m b => void (adapter_set_scan_mode e m b)
  | op_set_device_class c => void (adapter_set_device_class e c)
  | op_set_io_capability c => void (adapter_set_io_capability e c)
  | op_set_le_io_capability c => void (adapter_set_le_io_capability cfg c)
  | op_set_le_appearance v => void (adapter_set_le_appearance cfg e v)
  | op_set_debug_mode m x => void (adapter_set_debug_mode cfg e m x)
  | op_get_devices f t al => void (adapter_get_devices cfg f t al)
  | op_get_bond_state a t => void (adapter_get_remote_bond_state cfg a t)
  | op_is_connected a t => void (adapter_is_remote_connected cfg a t)
  | op_set_alias a n => void (adapter_set_remote_alias cfg a n)
  | op_connect a => void (adapter_connect cfg e a)
  | op_disconnect a => void (adapter_disconnect cfg e a)
  | op_le_connect a ty => void (adapter_le_connect cfg e a ty)
  | op_le_disconnect a => void (adapter_le_disconnect cfg e a)
  | op_disconnect_safe => void (adapter_disconnect_safe cfg e)
  | op_le_disconnect_safe => void (adapter_le_disconnect_safe cfg e)
  | op_connect_reply a b => void (adapter_connect_request_reply cfg e a b)
  | op_add_whitelist a => void (adapter_le_add_whitelist cfg e a)
  | op_remove_whitelist a => void (adapter_le_remove_whitelist cfg e a)
  | op_set_security_level n t => void (adapter_set_security_level cfg e n t)
  | op_create_bond a t => void (adapter_create_bond cfg e a t)
  | op_remove_bond a t => void (adapter_remove_bond cfg e a t)
  | op_cancel_bond a => void (adapter_cancel_bond cfg e a)
  | op_pair_reply a b => void (adapter_pair_request_reply cfg e a b)
  | op_set_pin_code a b p => void (adapter_set_pin_code cfg e a b p)
  | op_set_pairing_confirmation a t b => void (adapter_set_pairing_confirmation cfg e a t b)
  | op_set_pass_key a t b k => void (adapter_set_pass_key cfg e a t b k)
  | op_switch_role a r => void (adapter_switch_role cfg e a r)
  end.
End AdapterService.
