(* ===== verification/AdapterServiceLogic.v ===== *)
(** * The adapter service: a logic for its handlers

    A logic for the handlers of AdapterService.v: [spec n v m n' v'] says that
    [m], run on a sound service with the mutex held [n] times and with the
    pointers [v] valid, has a result, leaves the service sound, the mutex held
    [n'] times and the pointers [v'] valid; and that what it did is in a
    relation [Rel] between the state before, the calls made and the state
    after.  [Rel] is any relation that is kept by the steps that do not touch
    bonds ([Tracks]): with the trivial one the logic shows that nothing goes
    wrong, with [bonds_told] that the clients are told every change of a bond.
    The theorems are in AdapterServiceSpec.v. *)

From S2P Require Import Prelude Fallible Bytes BtAddr BtUuid CString Device RemoteUuids AdapterState AdapterService.
From coqutil Require Import Datatypes.RecordSetters.
Import UpdaterNotations.

Local Open Scope Z_scope.
Local Open Scope fall_scope.

Module AdapterServiceLogic.
Import BtAddr BtUuid Device RemoteUuids.
Import AdapterState.
Import AdapterService.

(** ** Sound services *)

(** One device per address, in the list of its transport; only a classic bond
    can be in the course of being cancelled. *)
Definition list_ok (t : bt_transport_t) (l : list bt_device_t) : Prop :=
  NoDup (device_get_address <$> l) /\
  Forall (fun d => device_get_transport d = t /\ (t = BT_TRANSPORT_BLE -> device_get_bond_state d <> BOND_STATE_CANCELING)) l.

Definition inv (cfg : config) (s : adapter_service_t) : Prop :=
  forall t, supported cfg t = true -> exists l, dlist t s = Some l /\ list_ok t l.

(** A pointer to the device of an address. *)
Abbreviation handle_t := (ptr * bt_address_t)%type.

Definition valid (cfg : config) (s : adapter_service_t) (h : handle_t) : Prop :=
  supported cfg h.1.1 = true /\
  exists l d, dlist h.1.1 s = Some l /\ l !! h.1.2 = Some d /\ device_get_address d = h.2.

(** ** Bonds as the clients see them *)

(** A bonding that is being cancelled is still a bonding to the clients. *)
Definition visible (b : bond_state_t) : bond_state_t :=
  match b with BOND_STATE_CANCELING => BOND_STATE_BONDING | b => b end.

(** The state of the bond with an address, NONE when it is not listed. *)
Definition bond (s : adapter_service_t) (a : bt_address_t) (t : bt_transport_t) : bond_state_t :=
  match dlist t s ≫= List.find (is_device a t) with Some d => device_get_bond_state d | None => BOND_STATE_NONE end.

(** The last notice of it. *)
Fixpoint told (a : bt_address_t) (t : bt_transport_t) (os : list out) : option bond_state_t :=
  match os with
  | [] => None
  | o :: os =>
      match told a t os with
      | Some b => Some b
      | None =>
          match o with
          | on_bond_state_changed a' t' _ cur _ => if decide (a' = a /\ t' = t) then Some cur else None
          | _ => None
          end
      end
  end.

(** What the clients saw before, and were told since, is what there is; for
    all bonds but [k]. *)
Definition bonds_told (k : option (bt_address_t * bt_transport_t)) (s : adapter_service_t) (os : list out) (s' : adapter_service_t) : Prop :=
  forall a t, k <> Some (a, t) ->
  visible (bond s' a t) = match told a t os with Some b => visible b | None => visible (bond s a t) end.

(** ** Lists *)

Lemma dlist_set t t' l s : dlist t' (set_dlist t l s) = if decide (t = t') then Some l else dlist t' s.
Proof. destruct s, t, t'; done. Qed.

Lemma lock_set t l s : lock_depth (set_dlist t l s) = lock_depth s.
Proof. by destruct s, t. Qed.

Lemma is_device_true a t d : is_device a t d = true <-> device_get_address d = a /\ device_get_transport d = t.
Proof.
  unfold is_device. rewrite andb_true_iff, bool_decide_eq_true, Z.eqb_eq, (proj1 (addr_compare_is_equality _ _)). done.
Qed.

Lemma find_index_Some f l i : find_index f l = Some i -> exists d, l !! i = Some d /\ f d = true.
Proof.
  revert i. induction l as [|d l IH]; intros i; cbn; [done|]. destruct (f d) eqn:E; [intros [= <-]; by exists d|].
  destruct (find_index f l) as [j|]; cbn; [|done]. intros [= <-]. destruct (IH j eq_refl) as (d' & ? & ?). by exists d'.
Qed.

Lemma find_index_None f l : find_index f l = None -> Forall (fun d => f d = false) l.
Proof.
  induction l as [|d l IH]; cbn; [constructor|]. destruct (f d) eqn:E; [done|]. destruct (find_index f l); [done|].
  intros _. constructor; auto.
Qed.

(** Changing the device at a place changes what is found for its address. *)
Lemma find_insert t l i d d' a :
  list_ok t l -> l !! i = Some d -> device_get_address d' = device_get_address d -> device_get_transport d' = t ->
  List.find (is_device a t) (<[i := d']> l)
  = if decide (device_get_address d = a) then Some d' else List.find (is_device a t) l.
Proof.
  intros [Hnd Hf] Hi Ha Ht. revert i Hi. induction l as [|x l IH]; intros i Hi; [done|].
  apply NoDup_cons in Hnd as [Hx Hnd]. apply Forall_cons_iff in Hf as [[Hxt _] Hf].
  destruct i as [|i]; cbn in Hi |- *.
  - injection Hi as ->. destruct (is_device a t d') eqn:E.
    + apply is_device_true in E as [E _]. rewrite decide_True by congruence. done.
    + assert (device_get_address d <> a) as Hne.
      { intros Hd. assert (is_device a t d' = true) as E'; [|congruence]. apply is_device_true. split; congruence. }
      rewrite decide_False by done. destruct (is_device a t d) eqn:E2; [|done]. by apply is_device_true in E2 as [? _].
  - destruct (is_device a t x) eqn:E.
    + apply is_device_true in E as [E _]. rewrite decide_False; [done|]. intros Hd. apply Hx.
      rewrite E, <- Hd. apply list_elem_of_fmap. exists d. split; [done|]. by eapply list_elem_of_lookup_2.
    + by apply IH.
Qed.

Lemma find_app_new t l d a :
  List.find (is_device a t) (l ++ [d])
  = match List.find (is_device a t) l with Some x => Some x | None => if is_device a t d then Some d else None end.
Proof. induction l as [|x l IH]; cbn; [done|]. by destruct (is_device a t x). Qed.

Lemma list_ok_insert t l i d d' :
  list_ok t l -> l !! i = Some d -> device_get_address d' = device_get_address d -> device_get_transport d' = device_get_transport d ->
  (t = BT_TRANSPORT_BLE -> device_get_bond_state d' <> BOND_STATE_CANCELING) -> list_ok t (<[i := d']> l).
Proof.
  intros [Hnd Hf] Hi Ha Ht Hb. split.
  - rewrite list_fmap_insert, Ha. rewrite list_insert_id; [done|]. by rewrite list_lookup_fmap, Hi.
  - apply Forall_insert; [done|]. split; [|done]. rewrite Ht. by apply (proj1 (Forall_lookup _ l) Hf i d Hi).
Qed.

Lemma list_ok_add t l d :
  list_ok t l -> Forall (fun x => is_device (device_get_address d) t x = false) l -> device_get_transport d = t ->
  device_get_bond_state d <> BOND_STATE_CANCELING -> list_ok t (l ++ [d]).
Proof.
  intros [Hnd Hf] Hnew Ht Hb. split.
  - rewrite fmap_app. apply list.NoDup_app. split; [done|]. split; [|apply NoDup_singleton].
    intros x Hx%list_elem_of_fmap. destruct Hx as (y & -> & Hy). cbn. rewrite list_elem_of_singleton. intros E.
    apply list_elem_of_lookup in Hy as [j Hj]. pose proof (proj1 (Forall_lookup _ l) Hnew j y Hj) as H. cbn in H.
    pose proof (proj1 (Forall_lookup _ l) Hf j y Hj) as [H2 _]. assert (is_device (device_get_address d) t y = true); [|congruence].
    apply is_device_true. split; congruence.
  - apply Forall_app. split; [done|]. by apply Forall_singleton.
Qed.

(** The bond with an address after a change of one list. *)
Lemma bond_set t l s a t' :
  bond (set_dlist t l s) a t'
  = if decide (t = t') then match List.find (is_device a t') l with Some d => device_get_bond_state d | None => BOND_STATE_NONE end
    else bond s a t'.
Proof. unfold bond. rewrite dlist_set. by case_decide. Qed.

Lemma told_app a t o1 o2 : told a t (o1 ++ o2) = match told a t o2 with Some b => Some b | None => told a t o1 end.
Proof. induction o1 as [|o o1 IH]; cbn; [by destruct (told a t o2)|]. rewrite IH. by destruct (told a t o2). Qed.

(** ** Relations that the quiet steps keep *)

Definition quiet (o : out) : Prop := match o with on_bond_state_changed _ _ _ _ _ => False | _ => True end.

(** A change of a device that leaves it and its bond the same. *)
Definition keeps_bond (f : bt_device_t -> bt_device_t) : Prop :=
  forall d, device_get_address (f d) = device_get_address d /\ device_get_transport (f d) = device_get_transport d /\ device_get_bond_state (f d) = device_get_bond_state d.

Class Tracks (Rel : adapter_service_t -> list out -> adapter_service_t -> Prop) := {
  rel_refl s : Rel s [] s;
  rel_trans s1 o1 s2 o2 s3 : Rel s1 o1 s2 -> Rel s2 o2 s3 -> Rel s1 (o1 ++ o2) s3;
  rel_quiet s o : quiet o -> Rel s [o] s;
  rel_bonds s s' : (forall a t, bond s' a t = bond s a t) -> Rel s [] s';
}.

(** What is told when the bond of [d] becomes [b]. *)
Definition notices (d : bt_device_t) (b : bond_state_t) (ctkd : bool) : list out :=
  let a := device_get_address d in
  let t := device_get_transport d in
  match device_get_bond_state d with
  | BOND_STATE_CANCELING => if bool_decide (b = BOND_STATE_NONE) then [on_bond_state_changed a t BOND_STATE_BONDING b ctkd] else []
  | prev => [on_bond_state_changed a t prev b ctkd]
  end.

Definition with_bond (b : bond_state_t) (d : bt_device_t) : bt_device_t := (device_set_bond_state b false d).2.

(** ... and that a change of a bond keeps as well.  A bond that is being
    cancelled and nevertheless made is not told: [free] are those a relation
    does not speak of. *)
Class TracksBond (Rel : adapter_service_t -> list out -> adapter_service_t -> Prop) (free : bt_address_t * bt_transport_t -> Prop) := {
  rel_set_bond s t l i d b ctkd :
    dlist t s = Some l -> list_ok t l -> l !! i = Some d ->
    (device_get_bond_state d = BOND_STATE_CANCELING -> b = BOND_STATE_BONDED -> free (device_get_address d, t)) ->
    Rel s (notices d b ctkd) (set_dlist t (<[i := with_bond b d]> l) s);
  rel_cancel s t l i d :
    dlist t s = Some l -> list_ok t l -> l !! i = Some d -> device_get_bond_state d = BOND_STATE_BONDING ->
    Rel s [] (set_dlist t (<[i := with_bond BOND_STATE_CANCELING d]> l) s);
}.

#[export] Instance tracks_any : Tracks (fun _ _ _ => True).
Proof. by split. Qed.
#[export] Instance tracks_bond_any : TracksBond (fun _ _ _ => True) (fun _ => True).
Proof. by split. Qed.

#[export] Instance tracks_bonds k : Tracks (bonds_told k).
Proof.
  split.
  - by intros s a t _.
  - intros s1 o1 s2 o2 s3 H1 H2 a t Hk. rewrite told_app, (H2 a t Hk). destruct (told a t o2); [done|]. by rewrite (H1 a t Hk).
  - intros s o Ho a t _. by destruct o.
  - intros s s' H a t _. by rewrite H.
Qed.

(** The bond of the device at a place of a sound list. *)
Lemma bond_at s t l i d :
  dlist t s = Some l -> list_ok t l -> l !! i = Some d -> bond s (device_get_address d) t = device_get_bond_state d.
Proof.
  intros Hl Hok Hd. pose proof (proj1 (Forall_lookup _ l) (proj2 Hok) i d Hd) as [Ht _]. unfold bond. rewrite Hl. cbn.
  pose proof (find_insert t l i d d (device_get_address d) Hok Hd eq_refl Ht) as Hfi.
  rewrite decide_True, list_insert_id in Hfi by done. by rewrite Hfi.
Qed.

(** Replacing the device at a place. *)
Lemma bond_insert s t l i d d' a t' :
  dlist t s = Some l -> list_ok t l -> l !! i = Some d ->
  device_get_address d' = device_get_address d -> device_get_transport d' = device_get_transport d ->
  bond (set_dlist t (<[i := d']> l) s) a t'
  = if decide (t = t' /\ device_get_address d = a) then device_get_bond_state d' else bond s a t'.
Proof.
  intros Hl Hok Hd Ha Ht. pose proof (proj1 (Forall_lookup _ l) (proj2 Hok) i d Hd) as [Htr _].
  rewrite bond_set. destruct (decide (t = t')) as [<-|Hne].
  - rewrite (find_insert t l i d d' a) by (done || congruence). destruct (decide (device_get_address d = a)) as [E|E].
    + by rewrite decide_True.
    + rewrite decide_False by naive_solver. unfold bond. by rewrite Hl.
  - rewrite decide_False by naive_solver. done.
Qed.

#[export] Instance tracks_bond_bonds k : TracksBond (bonds_told k) (fun x => k = Some x).
Proof.
  split; [intros s t l i d b ctkd Hl Hok Hd Hfree a' t' Hk|].
  2:{ intros s t l i d Hl Hok Hd Hb a' t' _. rewrite (bond_insert s t l i d) by done. cbn [told].
      case_decide as E; [|done]. destruct E as [<- <-]. by rewrite (bond_at s t l i d), Hb by done. }
  pose proof (proj1 (Forall_lookup _ l) (proj2 Hok) i d Hd) as [Htr _].
  rewrite (bond_insert s t l i d) by done. destruct (decide (t = t' /\ device_get_address d = a')) as [[<- <-]|Hne].
  - pose proof (bond_at s t l i d Hl Hok Hd) as Hb. unfold notices. rewrite Htr.
    change (device_get_bond_state (with_bond b d)) with b.
    destruct (device_get_bond_state d) eqn:Es; cbn; rewrite ?decide_True by done; try done.
    destruct (bool_decide (b = BOND_STATE_NONE)) eqn:Eb; cbn; [by rewrite decide_True by done|]. rewrite Hb.
    destruct b; try done. by destruct (Hk (Hfree eq_refl eq_refl)).
  - assert (told a' t' (notices d b ctkd) = None) as ->; [|done]. unfold notices. rewrite Htr.
    assert (~ (device_get_address d = a' /\ t = t')) as Hne' by (intros [? ?]; apply Hne; done).
    destruct (device_get_bond_state d); [| | |destruct (bool_decide _); [|done]]; cbn; by rewrite decide_False.
Qed.

(** ** The logic *)

Section Logic.
Context (cfg : config) (e : env) (Rel : adapter_service_t -> list out -> adapter_service_t -> Prop) `{Tracks Rel}.
Context (free : bt_address_t * bt_transport_t -> Prop) `{TracksBond Rel free}.
Context (has_bredr : cfg.(bredr_support) = true) (has_mem : e.(mem) = true).
Context (len_even : Z.Even cfg.(uuids_len)) (len_pos : 2 <= cfg.(uuids_len)).

Definition spec {A} (n : nat) (v : list handle_t) (m : MS A) (n' : nat) (v' : A -> list handle_t) : Prop :=
  forall s, inv cfg s -> lock_depth s = n -> Forall (valid cfg s) v ->
  wp m (fun a s' os => inv cfg s' /\ lock_depth s' = n' /\ Forall (valid cfg s') (v' a) /\ Rel s os s') s.

Lemma spec_intro {A} n v (m : MS A) n' v' :
  (forall s, inv cfg s -> lock_depth s = n -> Forall (valid cfg s) v ->
   wp m (fun a s' os => inv cfg s' /\ lock_depth s' = n' /\ Forall (valid cfg s') (v' a) /\ Rel s os s') s) -> spec n v m n' v'.
Proof. done. Qed.

Lemma spec_elim {A} n v (m : MS A) n' v' s :
  spec n v m n' v' -> inv cfg s -> lock_depth s = n -> Forall (valid cfg s) v ->
  wp m (fun a s' os => inv cfg s' /\ lock_depth s' = n' /\ Forall (valid cfg s') (v' a) /\ Rel s os s') s.
Proof. intros Hm. by apply Hm. Qed.

Lemma srv_ret {A} n v (a : A) : spec n v (eret a) n (fun _ => v).
Proof. intros s Hi Hn Hv. apply wp_ret. split_and!; try done. apply rel_refl. Qed.

(** The value returned may be a pointer. *)
Lemma spec_ret_sub {A} n v (v' : A -> list handle_t) (a : A) : (forall h, h ∈ v' a -> h ∈ v) -> spec n v (eret a) n v'.
Proof.
  intros Hs s Hi Hn Hv. apply wp_ret. split_and!; try done; [|apply rel_refl].
  apply Forall_forall. intros h Hh. apply (proj1 (Forall_forall _ _) Hv). by apply Hs.
Qed.

Lemma srv_bind {A B} n v n1 v1 n2 v2 (m : MS A) (f : A -> MS B) :
  spec n v m n1 v1 -> (forall a, spec n1 (v1 a) (f a) n2 v2) -> spec n v (ebind m f) n2 v2.
Proof.
  intros Hm Hf s Hi Hn Hv. apply wp_bind. eapply wp_mono; [|by apply Hm]. intros a s1 o1 (Hi1 & Hn1 & Hv1 & Hr1).
  eapply wp_mono; [|by apply Hf]. intros b s2 o2 (Hi2 & Hn2 & Hv2 & Hr2). split_and!; try done. by eapply rel_trans.
Qed.

(** Fewer pointers to know of afterwards. *)
Lemma spec_weaken {A} n v n' v1 v2 (m : MS A) :
  (forall a p, p ∈ v2 a -> p ∈ v1 a) -> spec n v m n' v1 -> spec n v m n' v2.
Proof.
  intros Hs Hm s Hi Hn Hv. eapply wp_mono; [|by apply Hm]. intros a s' os (? & ? & Hv' & ?). split_and!; try done.
  apply Forall_forall. intros p Hp. apply (proj1 (Forall_forall _ _) Hv'). by apply Hs.
Qed.

Lemma spec_gets {A} n v (f : adapter_service_t -> A) : spec n v (egets f) n (fun _ => v).
Proof. intros s Hi Hn Hv. apply wp_gets. split_and!; try done. apply rel_refl. Qed.

Lemma srv_emit n v o : quiet o -> spec n v (eemit o) n (fun _ => v).
Proof. intros Ho s Hi Hn Hv. apply wp_emit. split_and!; try done. by apply rel_quiet. Qed.

Lemma srv_when n v b m : (b = true -> spec n v m n (fun _ => v)) -> spec n v (ewhen b m) n (fun _ => v).
Proof. intros Hm. destruct b; cbn; [by apply Hm|apply srv_ret]. Qed.

Lemma spec_for {A} n v (l : list A) (f : A -> MS unit) : (forall x, spec n v (f x) n (fun _ => v)) -> spec n v (efor l f) n (fun _ => v).
Proof.
  intros Hf. induction l as [|x l IH]; cbn [efor]; [apply srv_ret|]. eapply srv_bind; [apply Hf|]. intros ?. exact IH.
Qed.

(** The rest of the record. *)
Lemma spec_modify n v f :
  (forall s t, dlist t (f s) = dlist t s) -> (forall s, lock_depth (f s) = lock_depth s) -> spec n v (emodify f) n (fun _ => v).
Proof.
  intros Hd Hl s Hi Hn Hv. apply wp_modify. split; [|split; [|split]].
  - intros t Ht. rewrite Hd. by apply Hi.
  - by rewrite Hl.
  - eapply Forall_impl; [exact Hv|]. intros h (Hs & l & d & Hl' & Hh). split; [done|]. exists l, d. by rewrite Hd.
  - apply rel_bonds. intros a t. unfold bond. by rewrite Hd.
Qed.

Lemma lock_frame f : (forall s, dlist BT_TRANSPORT_BREDR (f s) = dlist BT_TRANSPORT_BREDR s /\ dlist BT_TRANSPORT_BLE (f s) = dlist BT_TRANSPORT_BLE s) ->
  forall s v, inv cfg s -> Forall (valid cfg s) v -> inv cfg (f s) /\ Forall (valid cfg (f s)) v /\ Rel s [] (f s).
Proof.
  intros Hf s v Hi Hv. assert (forall t, dlist t (f s) = dlist t s) as Hd by (intros []; apply Hf). split; [|split].
  - intros t Ht. rewrite Hd. by apply Hi.
  - eapply Forall_impl; [exact Hv|]. intros h (Hs & l & d & Hl' & Hh). split; [done|]. exists l, d. by rewrite Hd.
  - apply rel_bonds. intros a t. unfold bond. by rewrite Hd.
Qed.

Lemma spec_lock n v : spec n v adapter_lock (S n) (fun _ => v).
Proof.
  intros s Hi Hn Hv. apply wp_modify. edestruct (lock_frame {! lock_depth ::= S }) as (H1 & H2 & H3); [by intros []|done|done|].
  split; [exact H1|]. split; [rewrite <- Hn; by destruct s|]. done.
Qed.

Lemma spec_unlock n v : spec (S n) v adapter_unlock n (fun _ => v).
Proof.
  intros s Hi Hn Hv. unfold adapter_unlock. wp_simpl. rewrite Hn. apply wp_modify.
  edestruct (lock_frame {! lock_depth := n }) as (H1 & H2 & H3); [by intros []|done|done|].
  split; [exact H1|]. split; [by destruct s|]. done.
Qed.

(** Reading a device through a valid pointer. *)
Lemma spec_dev n v p a : (p, a) ∈ v -> spec n v (dev p) n (fun _ => v).
Proof.
  intros Hp s Hi Hn Hv. pose proof (proj1 (Forall_forall _ _) Hv _ Hp) as (_ & l & d & Hl & Hd & _). cbn in *.
  apply (wp_read _ d); [by rewrite Hl|]. split_and!; try done. apply rel_refl.
Qed.

(** A sound list in place of a sound list with the same devices at the same
    places, and perhaps more. *)
Definition extends (l l' : list bt_device_t) : Prop :=
  forall i d, l !! i = Some d -> exists d', l' !! i = Some d' /\ device_get_address d' = device_get_address d.

Lemma extends_insert l i d d' : l !! i = Some d -> device_get_address d' = device_get_address d -> extends l (<[i := d']> l).
Proof.
  intros Hd Ha j x Hj. destruct (decide (i = j)) as [<-|Hne].
  - exists d'. rewrite list_lookup_insert_eq by (by eapply lookup_lt_Some). split; [done|]. congruence.
  - exists x. by rewrite list_lookup_insert_ne.
Qed.

Lemma extends_app l k : extends l (l ++ k).
Proof. intros i d Hd. exists d. split; [|done]. by apply lookup_app_l_Some. Qed.

Lemma frame_set t l l' s v :
  inv cfg s -> Forall (valid cfg s) v -> dlist t s = Some l -> list_ok t l' -> extends l l' ->
  inv cfg (set_dlist t l' s) /\ Forall (valid cfg (set_dlist t l' s)) v.
Proof.
  intros Hi Hv Hl Hok Hext. split.
  - intros t' Ht. rewrite dlist_set. destruct (decide (t = t')) as [<-|]; [by exists l'|by apply Hi].
  - eapply Forall_impl; [exact Hv|]. intros h (Hs & l0 & d & Hp & Hd & Ha). split; [done|]. rewrite dlist_set.
    destruct (decide (t = h.1.1)) as [->|]; [|by exists l0, d]. assert (l0 = l) as -> by congruence.
    destruct (Hext _ _ Hd) as (d' & Hd' & Ha'). exists l', d'. split; [done|]. split; [done|]. congruence.
Qed.

(** What a valid pointer points at. *)
Lemma valid_at s p a v :
  inv cfg s -> Forall (valid cfg s) v -> (p, a) ∈ v ->
  supported cfg p.1 = true /\ exists l d, dlist p.1 s = Some l /\ list_ok p.1 l /\ l !! p.2 = Some d /\ device_get_address d = a /\
    device_get_transport d = p.1 /\ (p.1 = BT_TRANSPORT_BLE -> device_get_bond_state d <> BOND_STATE_CANCELING).
Proof.
  intros Hi Hv Hp. pose proof (proj1 (Forall_forall _ _) Hv _ Hp) as (Hs & l & d & Hl & Hd & Ha). cbn in *. split; [done|].
  destruct (Hi p.1 Hs) as (l' & Hl' & Hok). assert (l' = l) as -> by congruence.
  destruct (proj1 (Forall_lookup _ l) (proj2 Hok) p.2 d Hd) as [Ht Hc]. by exists l, d.
Qed.

Lemma upd_wp s (p : ptr) d l f (Q : unit -> adapter_service_t -> list out -> Prop) :
  dlist p.1 s = Some l -> l !! p.2 = Some d -> Q tt (set_dlist p.1 (<[p.2 := f d]> l) s) [] -> wp (upd p f) Q s.
Proof. intros Hl Hd HQ. unfold upd. apply wp_bind. apply (wp_read _ l); [done|]. rewrite Hd. by apply wp_modify. Qed.

Lemma dev_wp s (p : ptr) d l (Q : bt_device_t -> adapter_service_t -> list out -> Prop) :
  dlist p.1 s = Some l -> l !! p.2 = Some d -> Q d s [] -> wp (dev p) Q s.
Proof. intros Hl Hd HQ. apply (wp_read _ d); [by rewrite Hl|done]. Qed.

(** A change that leaves the bond alone. *)
Lemma srv_upd n v p a f : (p, a) ∈ v -> keeps_bond f -> spec n v (upd p f) n (fun _ => v).
Proof.
  intros Hp Hf s Hi Hn Hv. destruct (valid_at s p a v Hi Hv Hp) as (Hs & l & d & Hl & Hok & Hd & _ & Ht & Hc).
  destruct (Hf d) as (Ha' & Ht' & Hb'). eapply upd_wp; [done|done|]. rewrite lock_set.
  destruct (frame_set p.1 l (<[p.2 := f d]> l) s v) as [H1 H2]; [done|done|done| |by eapply extends_insert|].
  { eapply list_ok_insert; [done|done|done|done|]. by rewrite Hb'. }
  split; [done|]. split; [done|]. split; [done|]. apply rel_bonds. intros a' t'.
  rewrite (bond_insert s p.1 l p.2 d) by done. case_decide as E; [|done]. destruct E as [<- <-].
  rewrite Hb'. symmetry. by eapply bond_at.
Qed.

Lemma spec_upd_ {A} n v p a (f : bt_device_t -> A * bt_device_t) :
  (p, a) ∈ v -> keeps_bond (fun d => (f d).2) -> spec n v (upd_ p f) n (fun _ => v).
Proof.
  intros Hp Hf. unfold upd_. eapply srv_bind; [by eapply spec_dev|]. intros d.
  eapply srv_bind; [by eapply srv_upd|]. intros []. apply srv_ret.
Qed.

(** ** Finding and creating *)

Definition found (a : bt_address_t) (r : option ptr) (v : list handle_t) : list handle_t :=
  match r with Some p => (p, a) :: v | None => v end.

Lemma wp_find s a t (Q : option ptr -> adapter_service_t -> list out -> Prop) :
  inv cfg s ->
  (forall i, valid cfg s ((t, i), a) -> Q (Some (t, i)) s []) ->
  (supported cfg t = true -> (exists l, dlist t s = Some l /\ list_ok t l /\ Forall (fun d => is_device a t d = false) l) -> Q None s []) ->
  (supported cfg t = false -> Q None s []) ->
  wp (adapter_find_device cfg a (Some t)) Q s.
Proof.
  intros Hi H1 H2 H3. unfold adapter_find_device. destruct (supported cfg t) eqn:Hs; [|by apply wp_ret, H3].
  destruct (Hi t Hs) as (l & Hl & Hok). apply wp_bind, (wp_read _ l); [done|]. apply wp_ret.
  destruct (find_index (is_device a t) l) as [i|] eqn:Hf; cbn.
  - apply H1. split; [done|]. apply find_index_Some in Hf as (d & Hd & Ha). apply is_device_true in Ha as [Ha _]. by exists l, d.
  - apply H2; [done|]. exists l. split; [done|]. split; [done|]. by apply find_index_None.
Qed.

Lemma spec_find n v a t : spec n v (adapter_find_device cfg a t) n (fun r => found a r v).
Proof.
  intros s Hi Hn Hv. destruct t as [t|]; [|apply wp_ret; split_and!; try done; apply rel_refl].
  apply wp_find; [done| | |]; intros; split_and!; try done; try apply rel_refl. by constructor.
Qed.

(** Not found, the device is added. *)
Lemma create_wp n v s t a d :
  inv cfg s -> lock_depth s = n -> Forall (valid cfg s) v -> supported cfg t = true ->
  device_get_address d = a -> device_get_transport d = t -> device_get_bond_state d = BOND_STATE_NONE ->
  wp (p <- adapter_find_device cfg a (Some t);; match p with Some p => eret p | None => add_device e t d end)
    (fun p s' os => inv cfg s' /\ lock_depth s' = n /\ Forall (valid cfg s') ((p, a) :: v) /\ p.1 = t /\ Rel s os s') s.
Proof.
  intros Hi Hn Hv Hs Ha Ht Hb. apply wp_bind. apply wp_find; [done| |intros _ (l & Hl & Hok & Hnew)|congruence].
  - intros i Hval. apply wp_ret. split_and!; try done; [by constructor|apply rel_refl].
  - cbn. unfold add_device. rewrite has_mem. apply wp_bind, (wp_read _ l); [done|]. wp_simpl. rewrite lock_set.
    assert (list_ok t (l ++ [d])) as Hok'.
    { apply list_ok_add; [done| |done|by rewrite Hb]. by rewrite Ha. }
    destruct (frame_set t l (l ++ [d]) s v) as [H1 H2]; [done|done|done|done|apply extends_app|]. split; [done|]. split; [done|].
    split; [|split; [done|]].
    + constructor; [|done]. split; [done|]. exists (l ++ [d]), d. cbn. rewrite dlist_set, decide_True by done. split; [done|].
      split; [|done]. rewrite lookup_app_r, Nat.sub_diag by lia. done.
    + apply rel_bonds. intros a' t'. rewrite bond_set. destruct (decide (t = t')) as [<-|]; [|done].
      rewrite find_app_new. unfold bond. rewrite Hl. cbn. destruct (List.find _ l); [done|]. by destruct (is_device a' t d).
Qed.

Lemma spec_create_classic n v a : spec n v (adapter_find_create_classic_device cfg e a) n (fun p => (p, a) :: v).
Proof.
  intros s Hi Hn Hv. eapply wp_mono; [|eapply (create_wp n v s BT_TRANSPORT_BREDR a (br_device_create a)); done].
  intros p s' os (? & ? & ? & _ & ?). done.
Qed.

Lemma spec_create_le n v a ty :
  cfg.(ble_support) = true -> spec n v (adapter_find_create_le_device cfg e a ty) n (fun p => (p, a) :: v).
Proof.
  intros Hble s Hi Hn Hv. eapply wp_mono; [|eapply (create_wp n v s BT_TRANSPORT_BLE a (le_device_create a ty)); done].
  intros p s' os (? & ? & ? & _ & ?). done.
Qed.

(** The pointer is one into the list of its transport. *)
Lemma spec_create_bind {A} n v n' v' t a d (k : ptr -> MS A) :
  supported cfg t = true -> device_get_address d = a -> device_get_transport d = t -> device_get_bond_state d = BOND_STATE_NONE ->
  (forall i, spec n (((t, i), a) :: v) (k (t, i)) n' v') ->
  spec n v (p <- (p <- adapter_find_device cfg a (Some t);; match p with Some p => eret p | None => add_device e t d end);; k p) n' v'.
Proof.
  intros Hs Ha Ht Hb Hk s Hi Hn Hv. apply wp_bind. eapply wp_mono; [|by eapply create_wp].
  intros [t' i] s1 o1 (Hi1 & Hn1 & Hv1 & E & Hr1). cbn in E. subst t'. eapply wp_mono; [|by apply Hk].
  intros r s2 o2 (? & ? & ? & ?). split_and!; try done. by eapply rel_trans.
Qed.

(** A device that was found or created is there. *)
Lemma spec_bind_some {A B} n v n1 v1 n2 v2 (m : MS A) (f : option A -> MS B) :
  spec n v m n1 v1 -> (forall a, spec n1 (v1 a) (f (Some a)) n2 v2) -> spec n v (x <- (a <- m;; eret (Some a));; f x) n2 v2.
Proof.
  intros Hm Hf s Hi Hn Hv. apply wp_bind, wp_bind. eapply wp_mono; [|by apply Hm]. intros a s1 o1 (Hi1 & Hn1 & Hv1 & Hr1).
  apply wp_ret. rewrite app_nil_r. eapply wp_mono; [|by apply Hf]. intros b s2 o2 (Hi2 & Hn2 & Hv2 & Hr2).
  split_and!; try done. by eapply rel_trans.
Qed.

(** ** Bonds *)

(** Taking the lock, reading the device and releasing it. *)
Lemma locked_dev_wp {A} s p d l (k : bt_device_t -> MS A) (Q : A -> adapter_service_t -> list out -> Prop) :
  dlist p.1 s = Some l -> l !! p.2 = Some d -> wp (k d) Q s ->
  wp (adapter_lock;;; d <- dev p;; adapter_unlock;;; k d) Q s.
Proof.
  intros Hl Hd HQ. apply wp_bind, wp_modify, wp_bind.
  eapply dev_wp; [|exact Hd|]; [by destruct s, p as [[] i]|]. apply wp_bind. unfold adapter_unlock. wp_simpl.
  destruct s as [? ? ? ? n ? ? ? ?]. exact HQ.
Qed.

(** The device is changed and the clients are told. *)
Lemma set_bond_wp s p d l b ctkd (Q : unit -> adapter_service_t -> list out -> Prop) :
  dlist p.1 s = Some l -> l !! p.2 = Some d ->
  Q tt (set_dlist p.1 (<[p.2 := with_bond b d]> l) s) (notices d b ctkd) -> wp (set_bond_state e p b ctkd) Q s.
Proof.
  intros Hl Hd HQ. unfold set_bond_state, upd_. rewrite has_mem. cbn [ewhen]. apply wp_bind, wp_bind.
  eapply dev_wp; [done|done|]. apply wp_bind. eapply upd_wp; [done|done|]. apply wp_ret.
  eapply locked_dev_wp; [by rewrite dlist_set, decide_True|by apply list_lookup_insert_eq; eapply lookup_lt_Some|].
  unfold notices in HQ. cbn zeta. change (previous_state (device_set_bond_state b ctkd d).1) with (device_get_bond_state d).
  change (device_get_bond_state (device_set_bond_state b ctkd d).2) with b.
  destruct (device_get_bond_state d) eqn:E; [exact HQ..|]. destruct (bool_decide _); exact HQ.
Qed.

Lemma spec_set_bond n v p a b ctkd :
  (p, a) ∈ v -> (b = BOND_STATE_BONDED -> p.1 = BT_TRANSPORT_BLE \/ free (a, p.1)) ->
  (b = BOND_STATE_CANCELING -> p.1 = BT_TRANSPORT_BREDR) -> spec n v (set_bond_state e p b ctkd) n (fun _ => v).
Proof.
  intros Hp Hfree Hcan s Hi Hn Hv. destruct (valid_at s p a v Hi Hv Hp) as (Hs & l & d & Hl & Hok & Hd & Ha & Ht & Hc).
  eapply set_bond_wp; [done|done|]. rewrite lock_set.
  destruct (frame_set p.1 l (<[p.2 := with_bond b d]> l) s v) as [H1 H2]; [done|done|done| |by eapply extends_insert|].
  { eapply list_ok_insert; [done|done|done|done|]. intros E1 E2. change (b = BOND_STATE_CANCELING) in E2. rewrite (Hcan E2) in E1. discriminate. }
  split; [done|]. split; [done|]. split; [done|]. apply (rel_set_bond (free := free)); [done|done|done|].
  intros E1 E2. destruct (Hfree E2) as [E3|E3]; [by destruct (Hc E3)|]. by rewrite Ha.
Qed.

(** ** Storage *)

Lemma filter_length_le {A} (f g : A -> bool) l :
  (forall x, f x = true -> g x = true) -> (length (List.filter f l) <= length (List.filter g l))%nat.
Proof.
  intros Hfg. induction l as [|x l IH]; cbn; [lia|]. destruct (f x) eqn:E; [rewrite (Hfg x E); cbn; lia|].
  destruct (g x); cbn; lia.
Qed.

(** The properties of every device can be written. *)
Lemma properties_of l : exists remotes, mapM (device_get_property cfg) l = Some remotes.
Proof.
  apply mapM_is_Some_2, Forall_forall. intros d _. change (is_Some (device_get_property cfg d)). unfold device_get_property.
  destruct (save_in_bounds (uuids_len cfg) len_even len_pos (uuids (remote d)) (replicate (Z.to_nat (uuids_len cfg)) 0)) as (u & -> & _);
    [rewrite length_replicate; lia|]. by eexists.
Qed.

(** What is saved of the classic devices: the bonded ones, in order. *)
Lemma update_bonded_wp s l (Q : unit -> adapter_service_t -> list out -> Prop) :
  dlist BT_TRANSPORT_BREDR s = Some l ->
  (forall remotes, mapM (device_get_property cfg) (List.filter device_is_bonded l) = Some remotes ->
     Q tt s [bt_storage_save_bonded_device remotes]) ->
  wp (adapter_update_bonded_device cfg) Q s.
Proof.
  intros Hl HQ. unfold adapter_update_bonded_device, get_devices_cnt. cbn [supported]. rewrite has_bredr.
  apply wp_bind, wp_bind, (wp_read _ l); [done|]. apply wp_ret.
  assert (length (List.filter device_is_bonded l) <= length (List.filter (counted DFLAG_BONDED) l))%nat as Hle.
  { apply filter_length_le. intros d Hd. unfold counted. by rewrite Hd. }
  destruct (properties_of (List.filter device_is_bonded l)) as [remotes Hr]. specialize (HQ remotes Hr).
  destruct (Z.eqb_spec (Z.of_nat (length (List.filter (counted DFLAG_BONDED) l))) 0) as [E|E].
  - destruct (List.filter device_is_bonded l); cbn in Hle; [|lia]. injection Hr as <-. exact HQ.
  - apply wp_bind, (wp_read _ l); [done|]. apply wp_bind, (wp_read _ remotes); [done|]. unfold fill.
    rewrite (proj2 (Z.ltb_ge _ _)); [exact HQ|]. apply length_mapM in Hr. lia.
Qed.

Lemma spec_update_bonded n v : spec n v (adapter_update_bonded_device cfg) n (fun _ => v).
Proof.
  intros s Hi Hn Hv. destruct (Hi BT_TRANSPORT_BREDR has_bredr) as (l & Hl & _). eapply update_bonded_wp; [done|].
  intros remotes _. split_and!; try done. by apply rel_quiet.
Qed.

(** The low energy lists are saved alike. *)
Lemma save_le_wp flag (f : bt_device_t -> bool) (o : list remote_device_le_properties_t -> out) n v :
  (forall d, f d = true -> counted flag d = true) -> (forall l, quiet (o l)) ->
  spec n v (size <- get_devices_cnt cfg flag (Some BT_TRANSPORT_BLE);;
    if size =? 0 then eemit (o [])
    else l <- eread le_devices;; remotes <- fill size (map device_get_le_property (List.filter f l));; eemit (o remotes)) n (fun _ => v).
Proof.
  intros Hf Ho s Hi Hn Hv. unfold get_devices_cnt. cbn [supported]. destruct (ble_support cfg) eqn:Hble.
  - destruct (Hi BT_TRANSPORT_BLE Hble) as (l & Hl & _). apply wp_bind, wp_bind, (wp_read _ l); [done|]. apply wp_ret.
    destruct (_ =? 0); [|apply wp_bind, (wp_read _ l); [done|]; unfold fill; rewrite length_map, (proj2 (Z.ltb_ge _ _))].
    + apply wp_emit. split_and!; try done. by apply rel_quiet.
    + wp_simpl. split_and!; try done. by apply rel_quiet.
    + pose proof (filter_length_le f (counted flag) l Hf). lia.
  - wp_simpl. cbn [Z.eqb]. wp_simpl. split_and!; try done. by apply rel_quiet.
Qed.

Lemma spec_update_le_bonded n v : spec n v (adapter_update_le_bonded_device cfg) n (fun _ => v).
Proof. apply save_le_wp; [|done]. intros d Hd. unfold counted. by rewrite Hd. Qed.

Lemma spec_update_whitelist n v : spec n v (adapter_update_whitelist cfg) n (fun _ => v).
Proof. apply save_le_wp; [|done]. intros d Hd. unfold counted. by rewrite Hd, orb_true_r. Qed.

Lemma spec_save_properties n v : spec n v adapter_save_properties n (fun _ => v).
Proof. eapply srv_bind; [apply spec_gets|]. intros p. by apply srv_emit. Qed.

Lemma spec_cnt n v flag t : spec n v (get_devices_cnt cfg flag t) n (fun _ => v).
Proof.
  intros s Hi Hn Hv. unfold get_devices_cnt. destruct t as [t|]; [|by apply srv_ret].
  destruct (supported cfg t) eqn:Hs; [|by apply srv_ret]. destruct (Hi t Hs) as (l & Hl & _).
  apply wp_bind, (wp_read _ l); [done|]. apply wp_ret. split_and!; try done. apply rel_refl.
Qed.

Lemma spec_call n v c : spec n v (call e c) n (fun _ => v).
Proof. eapply srv_bind; [by apply srv_emit|]. intros []. apply srv_ret. Qed.
End Logic.

(** The setters that leave the bond alone. *)
Ltac keeps := intros []; split_and!; reflexivity.

Lemma keeps_set_flags f : keeps_bond (device_set_flags f).
Proof. keeps. Qed.
Lemma keeps_clear_flag f : keeps_bond (device_clear_flag f).
Proof. keeps. Qed.
Lemma keeps_name x : keeps_bond (fun d => (device_set_name x d).2).
Proof.
  intros d. unfold device_set_name. destruct (strncmp_eq _ _ x); [by split_and!|].
  destruct (strncmp_eq _ _ _), d as [[] ? ? ?]; by split_and!.
Qed.
Lemma keeps_alias x : keeps_bond (fun d => (device_set_alias x d).2).
Proof. intros d. unfold device_set_alias. destruct (strncmp_eq _ _ x), d as [[] ? ? ?]; by split_and!. Qed.
Lemma keeps_class x : keeps_bond (fun d => (device_set_device_class x d).2).
Proof. intros d. unfold device_set_device_class. destruct (_ =? x), d as [[] ? ? ?]; by split_and!. Qed.
Lemma keeps_uuids x : keeps_bond (fun d => (device_set_uuids x d).2).
Proof. intros d. unfold device_set_uuids. destruct d as [[] ? ? ?]. repeat case_match; by split_and!. Qed.
Lemma keeps_identity x : keeps_bond (device_set_identity_address x).
Proof. keeps. Qed.
Lemma keeps_csrk x : keeps_bond (device_set_local_csrk x).
Proof. keeps. Qed.
Lemma keeps_addr_type x : keeps_bond (device_set_address_type x).
Proof. keeps. Qed.
Lemma keeps_device_type x : keeps_bond (device_set_device_type x).
Proof. keeps. Qed.
Lemma keeps_rssi x : keeps_bond (device_set_rssi x).
Proof. keeps. Qed.
Lemma keeps_connection x : keeps_bond (device_set_connection_state x).
Proof. keeps. Qed.
Lemma keeps_handle x : keeps_bond (device_set_acl_handle x).
Proof. keeps. Qed.
Lemma keeps_role x : keeps_bond (device_set_local_role x).
Proof. keeps. Qed.
Lemma keeps_initiate x : keeps_bond (device_set_bond_initiate_local x).
Proof. keeps. Qed.
Lemma keeps_link_key x : keeps_bond (device_set_link_key x).
Proof. keeps. Qed.
Lemma keeps_delete_link_key : keeps_bond device_delete_link_key.
Proof. keeps. Qed.
Lemma keeps_key_type x : keeps_bond (device_set_link_key_type x).
Proof. keeps. Qed.
Lemma keeps_policy x : keeps_bond (device_set_link_policy x).
Proof. keeps. Qed.
Lemma keeps_phy x y : keeps_bond (device_set_le_phy x y).
Proof. keeps. Qed.
Lemma keeps_smp x : keeps_bond (device_set_smp_key x).
Proof. keeps. Qed.
Lemma keeps_delete_smp : keeps_bond device_delete_smp_key.
Proof. keeps. Qed.
Create HintDb keeps.
#[export] Hint Resolve keeps_set_flags keeps_clear_flag keeps_name keeps_alias keeps_class keeps_uuids keeps_identity keeps_csrk
  keeps_addr_type keeps_device_type keeps_rssi keeps_connection keeps_handle keeps_role keeps_initiate keeps_link_key
  keeps_delete_link_key keeps_key_type keeps_policy keeps_phy keeps_smp keeps_delete_smp : keeps.

(** ** Automation

    [go] takes a handler apart along its binds and branches; at the leaves are
    the rules above and the handlers already done ([adspec]). *)

(** The rules are applied as they stand. *)
#[global] Opaque spec.

Create HintDb adspec.

(** A pointer is among those known. *)
Ltac here := solve [repeat first [apply list_elem_of_here | apply list_elem_of_further | eassumption]].
#[export] Hint Extern 1 (_ ∈ _) => here : adspec.
Ltac fewer := let H := fresh in intros ? ? H; solve [repeat first [exact H | apply list_elem_of_further]].

(** A rule, with what it asks of the build, the memory and the relation. *)
Ltac side :=
  lazymatch goal with
  | |- Tracks _ => typeclasses eauto
  | |- TracksBond _ _ => typeclasses eauto
  | |- _ = true => eassumption
  | |- Z.Even _ => eassumption
  | |- (2 <= _)%Z => eassumption
  end.
Ltac rule H := eapply H; try side.

Ltac leaf :=
  first
    [ rule srv_ret | rule spec_gets | rule srv_emit; exact I | rule spec_lock | rule spec_unlock
    | rule spec_call | rule spec_cnt | rule spec_save_properties
    | rule spec_dev; here | rule srv_upd; [here | auto with keeps] | rule spec_upd_; [here | auto with keeps]
    | rule spec_find | rule spec_create_classic | rule spec_create_le
    | rule spec_update_bonded | rule spec_update_le_bonded | rule spec_update_whitelist
    | rule spec_modify; [intros [] []; reflexivity | intros []; reflexivity]
    | solve [eauto with adspec nocore] ].

Ltac go :=
  cbn beta iota zeta;
  lazymatch goal with
  | |- spec _ _ _ _ (ebind _ _) _ _ => rule srv_bind; [part | intros ?; go]
  | |- spec _ _ _ _ (match ?x with _ => _ end) _ _ => destruct x eqn:?; cbn [found]; go
  | |- _ => eapply spec_weaken; [|part]; fewer
  end
with part :=
  lazymatch goal with
  | |- spec _ _ _ _ (ewhen _ _) _ _ => rule srv_when; intros ?; go
  | |- _ => leaf
  end.
End AdapterServiceLogic.
