(* ===== verification/AdapterServiceSpec.v ===== *)
(** * The adapter service: theorems

    About every order of messages, loads and calls between [adapter_init] and
    [adapter_cleanup]: the service never uses a device or a list that is not
    there and never leaves the lock held, but for four events it does not
    check; the clients know the state of every bond; a transport without links
    is announced exactly then; what is stored of the bonded devices comes
    back. *)

From S2P Require Import Prelude Fallible Bytes BtAddr BtUuid CString Device RemoteUuids AdapterState AdapterService AdapterServiceLogic.
From coqutil Require Import Datatypes.RecordSetters.
Import UpdaterNotations.

Local Open Scope Z_scope.
Local Open Scope fall_scope.

Module AdapterServiceSpec.
Import BtAddr BtUuid Device RemoteUuids.
Import AdapterState.
Import AdapterService AdapterServiceLogic.

(** ** Every handler *)

Section Handlers.
Context (cfg : config) (e : env) (Rel : adapter_service_t -> list out -> adapter_service_t -> Prop) `{Tracks Rel}.
Context (free : bt_address_t * bt_transport_t -> Prop) `{TracksBond Rel free}.
Context (has_bredr : cfg.(bredr_support) = true) (has_mem : e.(mem) = true).
Context (len_even : Z.Even cfg.(uuids_len)) (len_pos : 2 <= cfg.(uuids_len)).

Abbreviation keeps n v m := (spec cfg Rel n v%list m n (fun _ => v%list)).

(** The bond of a device becomes NONE or BONDING. *)
Lemma set_bond_ok n v p a b ctkd :
  (p, a) ∈ v -> b = BOND_STATE_NONE \/ b = BOND_STATE_BONDING -> keeps n v (set_bond_state e p b ctkd).
Proof. intros Hp Hb. eapply (spec_set_bond cfg e Rel free); try done; naive_solver. Qed.

Lemma request_name_ok n v p a : (p, a) ∈ v -> keeps n v (request_name p a).
Proof. intros Hp. unfold request_name, call_. go. Qed.

Lemma start_bonding_ok n v p a : (p, a) ∈ v -> keeps n v (start_bonding e p).
Proof. intros Hp. unfold start_bonding. rule srv_bind; [leaf|]. intros d. apply srv_when; [done|]. intros _. eapply set_bond_ok; [done|tauto]. Qed.

#[local] Hint Resolve request_name_ok start_bonding_ok : adspec.

Lemma pair_request_ok n v a b1 b2 : keeps n v (process_pair_request_evt cfg e a b1 b2).
Proof. unfold process_pair_request_evt, call_. go. Qed.

Lemma pin_request_ok n v a cod b x : keeps n v (process_pin_request_evt cfg e a cod b x).
Proof. unfold process_pin_request_evt, send_pair_display_notification, call_. go. Qed.

Lemma service_search_done_ok n v a l : keeps n v (process_service_search_done_evt cfg e a l).
Proof. unfold process_service_search_done_evt. go. Qed.

Lemma link_key_update_ok n v a k ty b : keeps n v (process_link_key_update_evt cfg e a k ty b).
Proof. unfold process_link_key_update_evt. go. Qed.

Lemma set_none_ok n v p a b : (p, a) ∈ v -> keeps n v (set_bond_state e p BOND_STATE_NONE b).
Proof. intros Hp. eapply set_bond_ok; [done|tauto]. Qed.
Lemma set_bonding_ok n v p a b : (p, a) ∈ v -> keeps n v (set_bond_state e p BOND_STATE_BONDING b).
Proof. intros Hp. eapply set_bond_ok; [done|tauto]. Qed.
#[local] Hint Resolve set_none_ok set_bonding_ok : adspec.

Lemma link_key_removed_ok n v a : keeps n v (process_link_key_removed_evt cfg e a).
Proof. unfold process_link_key_removed_evt. go. Qed.

Lemma connect_request_ok n v a cod : keeps n v (process_connect_request_evt cfg e a cod).
Proof. unfold process_connect_request_evt, call_. go. Qed.

(** A list that exists is read. *)
Lemma read_list_ok n v t : supported cfg t = true -> keeps n v (eread (dlist t)).
Proof.
  intros Hs. apply spec_intro. intros s Hi Hn Hv. destruct (Hi t Hs) as (l & Hl & _).
  apply (wp_read _ l); [done|]. split_and!; try done. apply rel_refl.
Qed.

Lemma negb_supported t : negb (supported cfg t) = false -> supported cfg t = true.
Proof. by destruct (supported cfg t). Qed.
#[local] Hint Resolve read_list_ok negb_supported : adspec.

Lemma dfx_ok n v r t : keeps n v (bt_dfx_connection_state_changed r t).
Proof. unfold bt_dfx_connection_state_changed. go. Qed.
#[local] Hint Resolve dfx_ok : adspec.

(** The device of a connection event. *)
Lemma connection_device_ok n v a t ty :
  supported cfg t = true ->
  spec cfg Rel n v (match t with
    | BT_TRANSPORT_BREDR =>
        p <- adapter_find_create_classic_device cfg e a;;
        d <- dev p;;
        ewhen (bool_decide (device_get_bond_state d = BOND_STATE_BONDING)) (request_name p a);;;
        eret p
    | BT_TRANSPORT_BLE => adapter_find_create_le_device cfg e a ty
    end) n (fun p => (p, a) :: v).
Proof.
  intros Hs. destruct t; [|leaf]. do 3 (rule srv_bind; [part|intros ?]). by rule spec_ret_sub.
Qed.

Lemma connection_state_ok n v a prm : keeps n v (process_connection_state_changed_evt cfg e a prm).
Proof.
  unfold process_connection_state_changed_evt. rule srv_bind; [leaf|]. intros ?. cbn beta. destruct (acl_transport prm) as [t|]; [|go].
  destruct (negb (supported cfg t)) eqn:Hs; [go|]. apply negb_supported in Hs.
  rule srv_bind; [by apply connection_device_ok|]. intros p. cbn beta.
  rule srv_bind; [part|intros ?]. rule srv_bind; [part|intros ?]. rule srv_bind; [part|intros ?].
  eapply srv_bind with (v1 := fun _ => (p, a) :: v); [side| |intros ?; go]. destruct t, (acl_state prm); go.
Qed.

Lemma discovery_state_ok n v b : keeps n v (process_discovery_state_changed_evt b).
Proof. unfold process_discovery_state_changed_evt. go. Qed.
Lemma device_found_ok n v r : keeps n v (process_device_found_evt cfg e r).
Proof. unfold process_device_found_evt. go. Qed.
Lemma remote_name_ok n v a x : keeps n v (process_remote_name_recieved_evt cfg e a x).
Proof. unfold process_remote_name_recieved_evt. go. Qed.

Lemma le_address_ok n v a ty : keeps n v (process_le_address_update_evt a ty).
Proof. unfold process_le_address_update_evt. go. Qed.
Lemma le_phy_ok n v a tx rx st : keeps n v (process_le_phy_update_evt cfg a tx rx st).
Proof. unfold process_le_phy_update_evt. go. Qed.
Lemma oob_ok n v a c r : keeps n v (process_le_sc_local_oob_data_got_evt cfg a c r).
Proof. unfold process_le_sc_local_oob_data_got_evt. go. Qed.

Lemma le_bonded_update_ok k props n v : (k <= length props)%nat -> keeps n v (le_bonded_update cfg k props).
Proof.
  revert props v. induction k as [|k IH]; intros props v Hk; cbn [le_bonded_update]; [go|].
  destruct props as [|prop rest]; cbn in Hk; [lia|]. rule srv_bind; [part|]. intros [p|]; cbn [found].
  - repeat (rule srv_bind; [part|intros ?]). eapply spec_weaken; [|apply IH; lia]. fewer.
  - apply IH. cbn. lia.
Qed.

Lemma le_bonded_device_update_ok n v props : keeps n v (process_le_bonded_device_update_evt cfg props).
Proof.
  unfold process_le_bonded_device_update_evt. rule srv_bind; [part|intros ?]. rule srv_bind; [by apply le_bonded_update_ok|intros ?]. go.
Qed.

Lemma link_role_ok n v a r : keeps n v (process_link_role_changed_evt cfg a r).
Proof.
  unfold process_link_role_changed_evt, call_. rule srv_bind; [part|intros ?]. rule srv_bind; [part|intros p].
  eapply srv_bind with (v1 := fun _ => v); [side| |intros pol; go]. destruct p; cbn [found]; go.
Qed.
Lemma link_policy_ok n v a x : keeps n v (process_link_policy_changed_evt cfg a x).
Proof.
  unfold process_link_policy_changed_evt, upd_opt. rule srv_bind; [part|intros ?]. rule srv_bind; [part|intros p].
  eapply srv_bind with (v1 := fun _ => v); [side| |intros ?; go]. destruct p; cbn [found]; go.
Qed.
Lemma rssi_ok n v a x t : keeps n v (process_rssi_update_evt cfg a x t).
Proof.
  unfold process_rssi_update_evt, upd_opt. rule srv_bind; [part|intros ?]. rule srv_bind; [part|intros p].
  eapply srv_bind with (v1 := fun _ => v); [side| |intros ?; go]. destruct p; cbn [found]; go.
Qed.

(** ** Events about a device that must be there *)

(** There is no such device. *)
Definition absent (s : adapter_service_t) (a : bt_address_t) (t : transport_v) : bool :=
  match t with
  | Some t => negb (supported cfg t && match dlist t s with Some l => existsb (is_device a t) l | None => false end)
  | None => true
  end.

Lemma find_absent s a t :
  inv cfg s -> absent s a t = true -> adapter_find_device cfg a t s = Some (None, s, []).
Proof.
  intros Hi Ha. unfold absent in Ha. destruct t as [t|]; [|done]. unfold adapter_find_device.
  destruct (supported cfg t) eqn:Hs; [|done]. destruct (Hi t Hs) as (l & Hl & _). rewrite Hl in Ha. cbn in Ha.
  unfold ebind, eread. rewrite Hl. cbn. destruct (find_index _ l) as [i|] eqn:E; [|done].
  apply find_index_Some in E as (d & Hd & Hx). apply negb_true_iff in Ha.
  rewrite (proj2 (existsb_exists _ _)) in Ha; [done|]. exists d. split; [|done].
  apply list_elem_of_In. by eapply list_elem_of_lookup_2.
Qed.

Lemma find_present {A} n n' v a t (k : option ptr -> MS A) s :
  inv cfg s -> lock_depth s = n -> absent s a t = false ->
  (forall p, spec cfg Rel n [(p, a)] (k (Some p)) n' v) ->
  wp (p <- adapter_find_device cfg a t;; k p) (fun r s' os => inv cfg s' /\ lock_depth s' = n' /\ Forall (valid cfg s') (v r) /\ Rel s os s') s.
Proof.
  intros Hi Hn Ha Hk. destruct t as [t|]; [|done]. cbn in Ha. apply negb_false_iff, andb_true_iff in Ha as [Hs Ha].
  apply wp_bind. apply wp_find; [done| |intros _ (l & Hl & _ & Hnew)|congruence].
  - intros i Hval. eapply wp_mono; [|apply (spec_elim _ _ _ _ _ _ _ _ (Hk (t, i))); [done|done|by constructor]]. done.
  - rewrite Hl in Ha. apply existsb_exists in Ha as (d & Hd%list_elem_of_In & Hx).
    pose proof (proj1 (Forall_forall _ _) Hnew d Hd). cbn in *. congruence.
Qed.

(** With the lock taken first. *)
Lemma known_wp n a t (k : option ptr -> MS unit) s :
  inv cfg s -> lock_depth s = n -> absent s a t = false ->
  (forall p, spec cfg Rel (S n) [(p, a)] (k (Some p)) n (fun _ => [])) ->
  wp (adapter_lock;;; p <- adapter_find_device cfg a t;; k p) (fun _ s' os => inv cfg s' /\ lock_depth s' = n /\ Rel s os s') s.
Proof.
  intros Hi Hn Ha Hk. apply wp_bind, wp_modify.
  edestruct (lock_frame cfg Rel {! lock_depth ::= S } ltac:(by intros []) s [] Hi) as (H1 & _ & H3); [done|].
  eapply wp_mono; [|apply (find_present (S n) n (fun _ => []) a t k); [exact H1|subst n; by destruct s| |done]].
  - intros r s' os (? & ? & _ & Hr). split; [done|]. split; [done|]. exact (rel_trans _ _ _ _ _ H3 Hr).
  - rewrite <- Ha. unfold absent. destruct t as [[]|]; by destruct s.
Qed.

Abbreviation present_ok s n m := (wp m (fun _ s' os => inv cfg s' /\ lock_depth s' = n /\ Rel s os s') s).

Lemma ssp_request_ok s n a t cod ty k x :
  inv cfg s -> lock_depth s = n -> absent s a t = false -> present_ok s n (process_ssp_request_evt cfg e a t cod ty k x).
Proof.
  intros Hi Hn Ha. apply (known_wp n a t); [done|done|done|]. intros p. unfold send_pair_display_notification, call_.
  rule srv_bind; [part|intros d]. cbn beta. destruct (bool_decide _); [|go].
  eapply srv_bind with (v1 := fun _ => []); [side| |intros ?; go]. destruct (bool_decide _); go.
Qed.

Lemma enc_state_classic_ok n v a b : keeps n v (process_enc_state_change_evt cfg e a b (Some BT_TRANSPORT_BREDR)).
Proof.
  unfold process_enc_state_change_evt. rule srv_bind; [part|intros ?]. cbn iota. rule spec_bind_some; [part|intros p]. go.
Qed.

Lemma enc_state_le_ok s n a b :
  inv cfg s -> lock_depth s = n -> absent s a (Some BT_TRANSPORT_BLE) = false ->
  present_ok s n (process_enc_state_change_evt cfg e a b (Some BT_TRANSPORT_BLE)).
Proof. intros Hi Hn Ha. apply (known_wp n a (Some BT_TRANSPORT_BLE)); [done|done|done|]. intros p. cbn iota. go. Qed.

Lemma whitelist_update_ok s n a b st :
  inv cfg s -> lock_depth s = n -> is_success st && absent s a (Some BT_TRANSPORT_BLE) = false ->
  present_ok s n (process_le_whitelist_update_evt cfg a b st).
Proof.
  intros Hi Hn Ha. unfold process_le_whitelist_update_evt. destruct (is_success st); cbn [negb andb] in *.
  - apply (known_wp n a (Some BT_TRANSPORT_BLE)); [done|done|done|]. intros p. destruct b; go.
  - apply wp_ret. split_and!; try done. apply rel_refl.
Qed.

(** A bond reported by the stack; a classic bond that is made while it is being
    cancelled is for a relation that does not speak of it. *)
Lemma bond_change_ok n v a b t ctkd :
  b <> BOND_STATE_CANCELING -> (b = BOND_STATE_BONDED -> t = Some BT_TRANSPORT_BREDR -> free (a, BT_TRANSPORT_BREDR)) ->
  keeps n v (process_bond_state_change_evt cfg e a b t ctkd).
Proof.
  intros Hc Hfree. unfold process_bond_state_change_evt, call_. rule srv_bind; [part|intros ?]. cbn beta.
  destruct (bool_decide (t = Some BT_TRANSPORT_BREDR)) eqn:Et; [|destruct (negb (ble_support cfg)) eqn:Hble; [go|]].
  - apply bool_decide_eq_true in Et. unfold adapter_find_create_classic_device.
    eapply spec_create_bind; try side; try done. intros i.
    assert (forall b', b' = b -> keeps (S n) (((BT_TRANSPORT_BREDR, i), a) :: v) (set_bond_state e (BT_TRANSPORT_BREDR, i) b' ctkd)) as Hset.
    { intros b' ->. rule (spec_set_bond cfg e Rel free); [here|naive_solver|naive_solver]. }
    rule srv_bind; [|intros ?; rule srv_bind; [by apply Hset|intros ?; go]].
    rule srv_when. intros Eb%bool_decide_eq_true. rule srv_bind; [by apply Hset|intros ?]. go.
  - apply negb_false_iff in Hble. unfold adapter_find_create_le_device. eapply spec_create_bind; try side; try done. intros i.
    eapply srv_bind with (v1 := fun _ => ((BT_TRANSPORT_BLE, i), a) :: v); [side|destruct b; go|intros ?].
    rule srv_bind; [rule (spec_set_bond cfg e Rel free); [here|by left|done]|intros ?]. go.
Qed.

(** ** The adapter's machine and the properties *)

Lemma state_change_ok n v x : keeps n v (adapter_notify_state_change x).
Proof. unfold adapter_notify_state_change. go. Qed.

Lemma le_enabled_ok n v b : keeps n v (adapter_on_le_enabled cfg e b).
Proof. unfold adapter_on_le_enabled, le_bonded_device_loaded, whitelist_device_loaded, call_. cbn [efor]. go. Qed.

Lemma br_enabled_ok n v : keeps n v (adapter_on_br_enabled cfg e).
Proof. unfold adapter_on_br_enabled, call_. go. Qed.

Lemma info_load_ok n v st : keeps n v (adapter_on_adapter_info_load st).
Proof. unfold adapter_on_adapter_info_load, adapter_properties_copy. go. Qed.

Lemma scan_mode_changed_ok n v x : keeps n v (handle_scan_mode_changed x).
Proof. unfold handle_scan_mode_changed. go. Qed.
Lemma irk_changed_ok n v k : keeps n v (handle_irk_changed k).
Proof. unfold handle_irk_changed. go. Qed.

Lemma cancel_discovery_ok n v : keeps n v (adapter_cancel_discovery e).
Proof. unfold adapter_cancel_discovery. go. Qed.

Lemma locked_ok {A} n v (m : MS A) : keeps (S n) v m -> keeps n v (locked m).
Proof. intros Hm. unfold locked. rule srv_bind; [part|intros ?]. rule srv_bind; [exact Hm|intros x]. go. Qed.

Lemma ready_ok n v m : keeps (S n) v m -> keeps n v (ready m).
Proof. intros Hm. apply locked_ok. rule srv_bind; [part|intros st]. cbn beta. destruct (_ =? _); [exact Hm|go]. Qed.

Lemma set_name_ok n v x : keeps n v (adapter_set_name e x).
Proof. unfold adapter_set_name. go. Qed.
Lemma set_scan_mode_ok n v x b : keeps n v (adapter_set_scan_mode e x b).
Proof. apply ready_ok. go. Qed.
Lemma set_device_class_ok n v x : keeps n v (adapter_set_device_class e x).
Proof. apply ready_ok. go. Qed.
Lemma set_io_capability_ok n v x : keeps n v (adapter_set_io_capability e x).
Proof. apply ready_ok. go. Qed.

Lemma le_only_ok n v m : (cfg.(ble_support) = true -> keeps n v m) -> keeps n v (le_only cfg m).
Proof. intros Hm. unfold le_only. destruct (ble_support cfg); [by apply Hm|go]. Qed.

Lemma set_le_io_capability_ok n v x : keeps n v (adapter_set_le_io_capability cfg x).
Proof. apply le_only_ok. intros _. unfold locked, call_. rule srv_bind; [go|intros ?]. go. Qed.
Lemma set_le_appearance_ok n v x : keeps n v (adapter_set_le_appearance cfg e x).
Proof. apply le_only_ok. intros _. apply locked_ok. go. Qed.
Lemma set_debug_mode_ok n v x y : keeps n v (adapter_set_debug_mode cfg e x y).
Proof.
  unfold adapter_set_debug_mode, adapter_set_pts_mode, locked. destruct (x =? BT_DEBUG_MODE_PTS).
  - rule srv_bind; [|intros ?; go]. rule srv_bind; [go|intros ?]. go.
  - destruct (_ && _), (y =? 0); go.
Qed.

(** ** Devices *)

Lemma ask_ok {A} n v a r (f : bt_device_t -> A) x : spec cfg Rel n (found a r v) (ask r f x) n (fun _ => v).
Proof. unfold ask. destruct r; cbn [found]; go. Qed.

Lemma about_ok {A} n v a t (f : bt_device_t -> A) x : keeps n v (about cfg a t f x).
Proof. apply locked_ok. rule srv_bind; [part|intros r]. apply ask_ok. Qed.

Lemma get_devices_ok n v flag t al : keeps n v (adapter_get_devices cfg flag t al).
Proof.
  unfold adapter_get_devices. destruct t as [t|]; [|go]. destruct (supported cfg t) eqn:Hs; [|go].
  apply spec_intro. intros s Hi Hn Hv. destruct (Hi t Hs) as (l & Hl & _).
  apply wp_bind, wp_modify. unfold get_devices_cnt. rewrite Hs.
  assert (forall k, dlist t ({! lock_depth ::= k } s) = Some l) as Hl' by (intros k; by destruct s, t).
  apply wp_bind, wp_bind, (wp_read _ l); [apply Hl'|]. apply wp_ret.
  assert (forall r, wp (adapter_unlock;;; eret r) (fun (_ : bt_status_t * list bt_address_t) s' os =>
    inv cfg s' /\ lock_depth s' = n /\ Forall (valid cfg s') v /\ Rel s os s') ({! lock_depth ::= S } s)) as Hend.
  { intros r. unfold adapter_unlock. wp_simpl. destruct s as [? ? ? ? k ? ? ? ?]. cbn in Hn. subst k. cbn.
    split_and!; try done. apply rel_refl. }
  destruct (_ =? 0); [apply Hend|]. destruct (negb al); [apply Hend|].
  apply wp_bind, (wp_read _ l); [apply Hl'|]. unfold fill. rewrite length_map, (proj2 (Z.ltb_ge _ _)); [apply wp_bind, wp_ret; apply Hend|].
  apply inj_le, filter_length_le. intros d Hd. unfold counted. by rewrite Hd.
Qed.

Lemma set_alias_ok n v a x : keeps n v (adapter_set_remote_alias cfg a x).
Proof. unfold adapter_set_remote_alias. go. Qed.

Lemma connect_ok n v a : keeps n v (adapter_connect cfg e a).
Proof. unfold adapter_connect, try_connect. go. Qed.
Lemma disconnect_ok n v a : keeps n v (adapter_disconnect cfg e a).
Proof. unfold adapter_disconnect, try_disconnect. go. Qed.
Lemma le_connect_ok n v a ty : keeps n v (adapter_le_connect cfg e a ty).
Proof. apply le_only_ok. intros Hble. unfold try_connect. go. Qed.
Lemma le_disconnect_ok n v a : keeps n v (adapter_le_disconnect cfg e a).
Proof. apply le_only_ok. intros Hble. unfold try_disconnect. go. Qed.

Lemma disconnect_safe_ok n v t f :
  supported cfg t = true -> (forall n v a, keeps n v (f a)) -> keeps n v (disconnect_safe t f).
Proof.
  intros Hs Hf. unfold disconnect_safe. rule srv_bind; [by apply read_list_ok|intros l]. cbn beta.
  destruct (adapter_check_acl_all_disconnected l); [go|]. rule srv_bind; [|intros ?; go].
  rule spec_for. intros d. rule srv_bind; [apply Hf|intros ?]. go.
Qed.

Lemma connect_reply_ok n v a b : keeps n v (adapter_connect_request_reply cfg e a b).
Proof. unfold adapter_connect_request_reply, known. go. Qed.
Lemma add_whitelist_ok n v a : keeps n v (adapter_le_add_whitelist cfg e a).
Proof. apply le_only_ok. intros Hble. unfold enabled. go. Qed.
Lemma remove_whitelist_ok n v a : keeps n v (adapter_le_remove_whitelist cfg e a).
Proof. apply le_only_ok. intros Hble. unfold enabled. go. Qed.
Lemma set_security_level_ok n v x t : keeps n v (adapter_set_security_level cfg e x t).
Proof. unfold adapter_set_security_level, enabled. go. Qed.
Lemma switch_role_ok n v a r : keeps n v (adapter_switch_role cfg e a r).
Proof. unfold adapter_switch_role. go. Qed.

(** ** Bonds asked for by the clients *)

Lemma create_bond_ok n v a t : keeps n v (adapter_create_bond cfg e a t).
Proof.
  unfold adapter_create_bond, enabled, call_. do 2 (rule srv_bind; [part|intros ?]). cbn beta. destruct (is_on _); [|go].
  do 2 (rule srv_bind; [part|intros ?]). cbn beta. destruct t as [[]|]; [| |go]; (destruct (negb _); [go|]).
  - rule spec_bind_some; [part|intros p]. go.
  - go.
Qed.

Lemma in_bond_ok n v a t b k :
  (forall p, spec cfg Rel (S n) ((p, a) :: v) (k p) n (fun _ => v)) -> keeps n v (in_bond_state cfg a t b k).
Proof.
  intros Hk. unfold in_bond_state. do 2 (rule srv_bind; [part|intros ?]). cbn beta.
  match goal with |- context [found a ?r _] => destruct r as [p|] end; cbn [found]; [|go].
  rule srv_bind; [part|intros d]. cbn beta. destruct (negb _); [go|apply Hk].
Qed.

Lemma remove_bond_ok n v a t : keeps n v (adapter_remove_bond cfg e a t).
Proof.
  apply in_bond_ok. intros p. unfold call_. rule srv_bind; [part|intros ?].
  eapply srv_bind with (v1 := fun _ => v); [side|destruct t as [[]|]; go|intros ?; go].
Qed.

Lemma pair_reply_ok n v a b : keeps n v (adapter_pair_request_reply cfg e a b).
Proof. unfold adapter_pair_request_reply, known. go. Qed.

Lemma reply_by_ok n v t c1 c2 : keeps n v (reply_by e t c1 c2).
Proof. unfold reply_by. go. Qed.
#[local] Hint Resolve reply_by_ok : adspec.

Lemma set_pin_code_ok n v a b pin : keeps n v (adapter_set_pin_code cfg e a b pin).
Proof. apply in_bond_ok. intros p. go. Qed.
Lemma set_pairing_confirmation_ok n v a t b : keeps n v (adapter_set_pairing_confirmation cfg e a t b).
Proof. apply in_bond_ok. intros p. go. Qed.
Lemma set_pass_key_ok n v a t b k : keeps n v (adapter_set_pass_key cfg e a t b k).
Proof. apply in_bond_ok. intros p. go. Qed.

(** The cancelled bonding is one. *)
Lemma set_canceling_ok n v i a s l d :
  inv cfg s -> lock_depth s = n -> Forall (valid cfg s) v -> ((BT_TRANSPORT_BREDR, i), a) ∈ v ->
  devices s = Some l -> l !! i = Some d -> device_get_bond_state d = BOND_STATE_BONDING ->
  wp (set_bond_state_silently (BT_TRANSPORT_BREDR, i) BOND_STATE_CANCELING false)
    (fun _ s' os => inv cfg s' /\ lock_depth s' = n /\ Forall (valid cfg s') v /\ Rel s os s') s.
Proof.
  intros Hi Hn Hv Hp Hl Hd Hb. destruct (valid_at cfg s _ a v Hi Hv Hp) as (_ & l' & d' & Hl' & Hok & _). cbn in Hl', Hok.
  assert (l' = l) as -> by congruence. unfold set_bond_state_silently, upd_. apply wp_bind, wp_bind.
  eapply dev_wp; [exact Hl|exact Hd|]. apply wp_bind. eapply upd_wp; [exact Hl|exact Hd|]. wp_simpl. rewrite lock_set.
  destruct (frame_set cfg BT_TRANSPORT_BREDR l (<[i := with_bond BOND_STATE_CANCELING d]> l) s v) as [H1 H2];
    [done|done|done|by eapply list_ok_insert|by eapply extends_insert|]. split_and!; try done.
  by apply (rel_cancel (free := free)).
Qed.

Lemma cancel_bond_ok n v a : keeps n v (adapter_cancel_bond cfg e a).
Proof.
  unfold adapter_cancel_bond, in_bond_state. rule srv_bind; [part|intros ?]. apply spec_intro. intros s Hi Hn Hv.
  apply wp_bind, wp_find; [done|intros i Hval|intros _ _|intros _].
  2,3: eapply wp_mono; [|apply (spec_elim cfg Rel (S n) v _ n (fun _ => v)); [go|done|done|done]]; done.
  assert (Forall (valid cfg s) ((((BT_TRANSPORT_BREDR, i) : ptr), a) :: v)) as Hv' by by constructor.
  destruct (valid_at cfg s (BT_TRANSPORT_BREDR, i) a _ Hi Hv' ltac:(here)) as (_ & l & d & Hl & Hok & Hd & _). cbn in Hl, Hok, Hd.
  apply wp_bind. eapply dev_wp; [exact Hl|exact Hd|]. case_bool_decide as Hb; cbn [negb].
  2: eapply wp_mono; [|apply (spec_elim cfg Rel (S n) v _ n (fun _ => v)); [go|done|done|done]]; done.
  unfold call. apply wp_bind, wp_bind, wp_emit, wp_ret. cbn beta.
  assert (forall st s1, inv cfg s1 -> lock_depth s1 = S n -> Forall (valid cfg s1) v -> wp (adapter_unlock;;; eret st)
    (fun (_ : bt_status_t) s' os => inv cfg s' /\ lock_depth s' = n /\ Forall (valid cfg s') v /\ Rel s1 os s') s1) as Hend.
  { intros st s1 Hi1 Hn1 Hv1. apply (spec_elim cfg Rel (S n) v _ n (fun _ => v)); [go|done..]. }
  apply wp_bind. destruct (is_success _); cbn [ewhen].
  - eapply wp_mono; [|eapply (set_canceling_ok (S n) _ i a s l d); [done|done|exact Hv'|here|done..]].
    intros [] s1 o1 (Hi1 & Hn1 & Hv1%Forall_cons_iff & Hr1). eapply wp_mono; [|apply Hend; [done|done|apply Hv1]].
    intros r s2 o2 (? & ? & ? & Hr2). split_and!; try done.
    apply (rel_trans s [_] s (o1 ++ o2)); [by apply rel_quiet|by eapply rel_trans].
  - apply wp_ret. eapply wp_mono; [|by apply Hend]. intros r s2 o2 (? & ? & ? & Hr2). split_and!; try done.
    apply (rel_trans s [_] s o2); [by apply rel_quiet|done].
Qed.

(** ** Stored devices *)

Lemma load_shape L m buf d d' :
  load_remote_uuids L m buf d = Some d' -> exists f, keeps_bond f /\ d' = f d.
Proof.
  assert (exists f, keeps_bond f /\ d = f d) as Hid by (exists id; split; [by intros ?|done]).
  unfold load_remote_uuids. destruct (peek 0 buf) as [b|]; cbn [mbind option_bind]; [|done].
  destruct (b =? 0); [by intros [= <-]|]. destruct (second_head _ _ _) as [c|]; cbn [mbind option_bind]; [|done].
  do 2 (match goal with |- (if ?x then _ else _) = _ -> _ => destruct x end; [by intros [= <-]|]).
  destruct m; cbn [negb]; [|by intros [= <-]].
  destruct (read_uuids16 _ _ _) as [l1|]; cbn [mbind option_bind]; [|done].
  destruct (read_uuids128 _ _ _) as [l2|]; cbn [mbind option_bind]; [|done].
  intros [= <-]. exists (fun d => (device_set_uuids (l1 ++ l2) d).2). split; [apply keeps_uuids|done].
Qed.

Lemma load_uuids_ok n v r p a :
  Z.of_nat (length r.(p_uuids)) = cfg.(uuids_len) -> (p, a) ∈ v -> keeps n v (load_uuids cfg e r p).
Proof.
  intros Hr Hp. apply spec_intro. intros s Hi Hn Hv.
  destruct (valid_at cfg s p a v Hi Hv Hp) as (_ & l & d & Hl & _ & Hd & _).
  destruct (load_in_bounds (uuids_len cfg) len_even len_pos (mem e) (p_uuids r) d Hr) as [d' Hd'].
  destruct (load_shape _ _ _ _ _ Hd') as (f & Hf & ->). unfold load_uuids. apply wp_bind. eapply dev_wp; [done|done|].
  apply wp_bind, (wp_read _ (f d)); [done|].
  pose proof (spec_elim cfg Rel n v (upd p f) n (fun _ => v) s ltac:(rule srv_upd; done) Hi Hn Hv) as Hw.
  eapply upd_wp; [done|done|]. unfold wp, upd, ebind, eread in Hw. rewrite Hl in Hw. cbn in Hw. rewrite Hd in Hw. exact Hw.
Qed.
End Handlers.

(** ** What makes and removes bonds without a word *)

Abbreviation anything := (fun (_ : adapter_service_t) (_ : list out) (_ : adapter_service_t) => True).

Section Silent.
Context (cfg : config) (e : env) (has_bredr : cfg.(bredr_support) = true) (has_mem : e.(mem) = true).
Context (len_even : Z.Even cfg.(uuids_len)) (len_pos : 2 <= cfg.(uuids_len)).

Abbreviation safe n v m := (spec cfg anything n v%list m n (fun _ => v%list)).

Lemma set_bonded_ok n v p a : (p, a) ∈ v -> safe n v (set_bond_state_silently p BOND_STATE_BONDED false).
Proof.
  intros Hp. apply spec_intro. intros s Hi Hn Hv. destruct (valid_at cfg s p a v Hi Hv Hp) as (_ & l & d & Hl & Hok & Hd & _).
  unfold set_bond_state_silently, upd_. apply wp_bind, wp_bind. eapply dev_wp; [done|done|]. apply wp_bind.
  eapply upd_wp; [done|done|]. wp_simpl. rewrite lock_set.
  destruct (frame_set cfg p.1 l (<[p.2 := with_bond BOND_STATE_BONDED d]> l) s v) as [H1 H2];
    [done|done|done|by eapply list_ok_insert|by eapply extends_insert|]. done.
Qed.
#[local] Hint Resolve set_bonded_ok : adspec.

Lemma bonded_loaded_ok n v l :
  Forall (fun r => Z.of_nat (length r.(p_uuids)) = cfg.(uuids_len)) l -> safe n v (bonded_device_loaded cfg e l).
Proof.
  intros Hl. unfold bonded_device_loaded. rule srv_bind; [|intros ?; go].
  induction Hl as [|r l Hr _ IH]; cbn [efor]; [go|]. rule srv_bind; [|intros ?; exact IH].
  unfold load_bonded_device, call_. rule srv_bind; [part|intros p]. do 7 (rule srv_bind; [part|intros ?]).
  rule srv_bind; [rule load_uuids_ok; [done|here]|intros ?]. go.
Qed.

Lemma le_bonded_loaded_ok n v l : cfg.(ble_support) = true -> safe n v (le_bonded_device_loaded cfg e l).
Proof.
  intros Hble. unfold le_bonded_device_loaded, call_. destruct l as [|r l]; [go|]. rule srv_bind; [|intros ?; go].
  rule spec_for. intros x. go.
Qed.

Lemma whitelist_loaded_ok n v l : cfg.(ble_support) = true -> safe n v (whitelist_device_loaded cfg e l).
Proof.
  intros Hble. unfold whitelist_device_loaded, call_. rule spec_for. intros x. go.
Qed.

Lemma list_ok_filter t f l : list_ok t l -> list_ok t (List.filter f l).
Proof.
  intros [Hn Hf]. split.
  - induction l as [|d l IH]; cbn; [constructor|]. apply NoDup_cons in Hn as [Hd Hn]. apply Forall_cons_iff in Hf as [_ Hf].
    destruct (f d); [|by apply IH]. cbn. apply NoDup_cons. split; [|by apply IH]. contradict Hd.
    apply list_elem_of_fmap in Hd as (x & -> & Hx). apply list_elem_of_fmap. exists x. split; [done|].
    apply list_elem_of_In in Hx. apply list_elem_of_In. by apply filter_In in Hx as [? _].
  - apply Forall_forall. intros d Hd. apply list_elem_of_In, filter_In in Hd as [Hd _].
    apply (proj1 (Forall_forall _ _) Hf). by apply list_elem_of_In.
Qed.

(** A part of the list stays. *)
Lemma shrink_ok n t f g :
  supported cfg t = true ->
  safe n [] (l <- eread (dlist t);; emodify (set_dlist t (List.filter f l));;; eemits (g l)).
Proof.
  intros Hs. apply spec_intro. intros s Hi Hn _. destruct (Hi t Hs) as (l & Hl & Hok).
  apply wp_bind, (wp_read _ l); [done|]. apply wp_bind, wp_modify. unfold wp, eemits. rewrite lock_set.
  split; [|done]. intros t' Ht. rewrite dlist_set. case_decide as E; [subst t'; exists (List.filter f l); split; [done|]; by apply list_ok_filter|by apply Hi].
Qed.

Lemma filter_none {A} (l : list A) : List.filter (fun _ => false) l = [].
Proof. by induction l. Qed.

Lemma clear_ok n t : supported cfg t = true -> safe n [] (clear_devices t).
Proof.
  intros Hs. pose proof (shrink_ok n t (fun _ => false) (fun l => concat (map adapter_delete_device l)) Hs) as H.
  apply spec_intro. intros s Hi Hn Hv. pose proof (spec_elim _ _ _ _ _ _ _ s H Hi Hn Hv) as Hw.
  unfold clear_devices. unfold wp, ebind, eread, emodify in *. destruct (dlist t s); [|done]. by rewrite filter_none in Hw.
Qed.

Lemma le_disabled_ok n : safe n [] (adapter_on_le_disabled cfg).
Proof.
  unfold adapter_on_le_disabled. destruct (ble_support cfg) eqn:Hble; cbn [negb]; [|go].
  rule srv_bind; [part|intros ?]. rule srv_bind; [|intros ?; go]. rule srv_when. intros _. rule srv_bind; [part|intros ?].
  rule srv_bind; [by apply clear_ok|intros ?]. go.
Qed.

Lemma br_disabled_ok n : safe n [] adapter_on_br_disabled.
Proof. unfold adapter_on_br_disabled. rule srv_bind; [part|intros ?]. rule srv_bind; [by apply clear_ok|intros ?]. go. Qed.

Lemma remove_found_ok n : safe n [] adapter_remove_found_devices.
Proof. unfold adapter_remove_found_devices. cbn zeta. apply (shrink_ok n BT_TRANSPORT_BREDR _ (fun l => _) has_bredr). Qed.

Lemma start_discovery_ok n x y : safe n [] (adapter_start_discovery e x y).
Proof.
  unfold adapter_start_discovery. do 2 (rule srv_bind; [part|intros ?]). cbn beta. destruct (negb _); [go|].
  rule srv_bind; [part|intros ?]. cbn beta. match goal with |- spec _ _ _ _ (if ?b then _ else _) _ _ => destruct b end; [go|].
  rule srv_bind; [apply remove_found_ok|intros ?]. go.
Qed.
End Silent.

(** ** Any operation *)

(** An event about a device that the adapter does not have, and does not check
    for. *)
Definition crashes (cfg : config) (s : adapter_service_t) (o : op) : bool :=
  match o with
  | op_message (handle_security (SSP_REQUEST_EVT a t _ _ _ _)) => absent cfg s a t
  | op_message (handle_security (ENC_STATE_CHANGE_EVT a _ (Some BT_TRANSPORT_BLE))) => absent cfg s a (Some BT_TRANSPORT_BLE)
  | op_message (handle_ble (LE_WHITELIST_UPDATE_EVT a _ st)) => is_success st && absent cfg s a (Some BT_TRANSPORT_BLE)
  | _ => false
  end.

(** An event that leaves the mutex held. *)
Definition leaks (o : op) : nat :=
  match o with op_message (handle_security (ENC_STATE_CHANGE_EVT _ _ None)) => 1 | _ => 0 end.

(** What is relied on: the stack never reports a bond as being cancelled (a
    state of the adapter's own); the stored arrays have the size they were
    built with. *)
Definition op_ok (cfg : config) (o : op) : Prop :=
  match o with
  | op_message (handle_security (BOND_STATE_CHANGE_EVT _ b _ _)) => b <> BOND_STATE_CANCELING
  | op_bonded_loaded l => Forall (fun r => Z.of_nat (length r.(p_uuids)) = cfg.(uuids_len)) l
  | _ => True
  end.

(** The operations that make or drop bonds without telling the clients: loading,
    and emptying a list. *)
Definition silent (o : op) : bool :=
  match o with
  | op_bonded_loaded _ | op_le_bonded_loaded _ | op_whitelist_loaded _ | op_le_disabled | op_br_disabled | op_start_discovery _ _ => true
  | _ => false
  end.

(** The classic device that the stack reports as bonded. *)
Definition bonds (o : op) : option bt_address_t :=
  match o with
  | op_message (handle_security (BOND_STATE_CHANGE_EVT a BOND_STATE_BONDED (Some BT_TRANSPORT_BREDR) _)) => Some a
  | _ => None
  end.

Section Operations.
Context (cfg : config) (e : env) (Rel : adapter_service_t -> list out -> adapter_service_t -> Prop) `{Tracks Rel}.
Context (free : bt_address_t * bt_transport_t -> Prop) `{TracksBond Rel free}.
Context (has_bredr : cfg.(bredr_support) = true) (has_mem : e.(mem) = true).
Context (len_even : Z.Even cfg.(uuids_len)) (len_pos : 2 <= cfg.(uuids_len)).

Lemma void_ok {A} n v (m : MS A) : spec cfg Rel n v m n (fun _ => v) -> spec cfg Rel n v (void m) n (fun _ => v).
Proof. intros Hm. unfold void. rule srv_bind; [exact Hm|intros ?]. go. Qed.

Lemma run_spec (m : MS unit) s :
  (forall n, spec cfg Rel n [] m n (fun _ => [])) -> inv cfg s ->
  wp m (fun _ s' os => inv cfg s' /\ lock_depth s' = lock_depth s /\ Rel s os s') s.
Proof.
  intros Hm Hi. eapply wp_mono; [|apply (spec_elim _ _ _ _ _ _ _ _ (Hm (lock_depth s))); done].
  intros r s' os (? & ? & _ & ?). done.
Qed.

(** The messages that check, whatever they are about. *)
Definition checked (m : message) : bool :=
  match m with
  | handle_security (SSP_REQUEST_EVT _ _ _ _ _ _) => false
  | handle_security (ENC_STATE_CHANGE_EVT _ _ t) => bool_decide (t = Some BT_TRANSPORT_BREDR)
  | handle_ble (LE_WHITELIST_UPDATE_EVT _ _ _) => false
  | _ => true
  end.

Lemma message_ok n v m :
  op_ok cfg (op_message m) -> checked m = true -> (forall a, bonds (op_message m) = Some a -> free (a, BT_TRANSPORT_BREDR)) ->
  spec cfg Rel n v (handle cfg e m) n (fun _ => v).
Proof.
  intros Hok Hch Hfree. destruct m as [ev|ev|ev|ev|ev|x|k]; [destruct ev..|destruct ev|destruct ev| |]; cbn [handle handle_security_event
    handle_connection_event handle_link_event handle_discovery_event handle_ble_event]; try (rule srv_ret); try done.
  - rule pair_request_ok.
  - rule pin_request_ok.
  - rule bond_change_ok; [done|]. intros -> ->. by apply Hfree.
  - rule service_search_done_ok.
  - cbn in Hch. apply bool_decide_eq_true in Hch as ->. rule enc_state_classic_ok.
  - rule link_key_update_ok.
  - rule link_key_removed_ok.
  - rule connect_request_ok.
  - rule connection_state_ok.
  - rule link_role_ok.
  - by rule srv_emit.
  - rule link_policy_ok.
  - rule rssi_ok.
  - rule discovery_state_ok.
  - rule device_found_ok.
  - rule remote_name_ok.
  - rule le_address_ok.
  - rule le_phy_ok.
  - rule le_bonded_device_update_ok.
  - rule oob_ok.
  - rule scan_mode_changed_ok.
  - rule irk_changed_ok.
Qed.

Lemma call_ok n v o :
  silent o = false -> (forall m, o <> op_message m) -> spec cfg Rel n v (run_op cfg e o) n (fun _ => v).
Proof.
  intros Hs Hm. destruct o; try done; cbn [run_op]; try apply void_ok.
  - by destruct (Hm m).
  - rule info_load_ok.
  - rule state_change_ok.
  - rule le_enabled_ok.
  - rule br_enabled_ok.
  - rule cancel_discovery_ok.
  - rule set_name_ok.
  - rule set_scan_mode_ok.
  - rule set_device_class_ok.
  - rule set_io_capability_ok.
  - rule set_le_io_capability_ok.
  - rule set_le_appearance_ok.
  - rule set_debug_mode_ok.
  - rule get_devices_ok.
  - rule about_ok.
  - rule about_ok.
  - rule set_alias_ok.
  - rule connect_ok.
  - rule disconnect_ok.
  - rule le_connect_ok.
  - rule le_disconnect_ok.
  - rule disconnect_safe_ok. intros ? ? ?. rule disconnect_ok.
  - rule le_only_ok. intros Hble. rule disconnect_safe_ok. intros ? ? ?. rule le_disconnect_ok.
  - rule connect_reply_ok.
  - rule add_whitelist_ok.
  - rule remove_whitelist_ok.
  - rule set_security_level_ok.
  - rule create_bond_ok.
  - rule remove_bond_ok.
  - rule cancel_bond_ok.
  - rule pair_reply_ok.
  - rule set_pin_code_ok.
  - rule set_pairing_confirmation_ok.
  - rule set_pass_key_ok.
  - rule switch_role_ok.
Qed.

Lemma run_op_ok o s :
  inv cfg s -> op_ok cfg o -> crashes cfg s o = false -> silent o = false ->
  (forall a, bonds o = Some a -> free (a, BT_TRANSPORT_BREDR)) ->
  wp (run_op cfg e o) (fun _ s' os => inv cfg s' /\ lock_depth s' = (leaks o + lock_depth s)%nat /\ Rel s os s') s.
Proof.
  intros Hi Hok Hcr Hs Hfree. destruct o; try done; try (apply run_spec; [intros ?; by apply call_ok|done]).
  destruct (checked m) eqn:Hc.
  - assert (leaks (op_message m) = 0%nat) as ->; [by destruct m as [ [] | [] | [] | [] | [] | x | k]; cbn in *; try done; case_match|].
    apply run_spec; [|done]. intros n. by apply message_ok.
  - destruct m as [ [] | [] | [] | [] | [] | x | k]; try done; cbn in *.
    + by rule ssp_request_ok.
    + destruct t as [[]|]; [done|by rule enc_state_le_ok|]. apply wp_bind, wp_modify. apply wp_ret.
      edestruct (lock_frame cfg Rel {! lock_depth ::= S } ltac:(by intros []) s [] Hi) as (H1 & _ & H3); [done|].
      split; [exact H1|]. split; [by destruct s|exact H3].
    + by rule whitelist_update_ok.
Qed.
End Operations.

(** ** Every run *)

Inductive reachable (cfg : config) : adapter_service_t -> Prop :=
| reach_init : reachable cfg (adapter_init cfg)
| reach_op e o s s' os :
    reachable cfg s -> e.(mem) = true -> op_ok cfg o -> run_op cfg e o s = Some (tt, s', os) -> reachable cfg s'.

Section Runs.
Context (cfg : config) (has_bredr : cfg.(bredr_support) = true).
Context (len_even : Z.Even cfg.(uuids_len)) (len_pos : 2 <= cfg.(uuids_len)).

Lemma init_inv : inv cfg (adapter_init cfg).
Proof.
  intros t Hs. exists []. split; [|split; constructor]. destruct t; [done|]. cbn in Hs |- *. by rewrite Hs.
Qed.

(** Whatever the operation, if the event is about a known device. *)
Lemma any_op_wp e o s :
  e.(mem) = true -> inv cfg s -> op_ok cfg o -> crashes cfg s o = false ->
  wp (run_op cfg e o) (fun _ s' _ => inv cfg s' /\ lock_depth s' = (leaks o + lock_depth s)%nat) s.
Proof.
  intros Hm Hi Hok Hcr.
  enough (wp (run_op cfg e o) (fun _ s' os => inv cfg s' /\ lock_depth s' = (leaks o + lock_depth s)%nat /\ anything s os s') s) as Hw.
  { eapply wp_mono; [|exact Hw]. intros [] s' os (? & ? & _). done. }
  destruct (silent o) eqn:Hs; [|by apply (run_op_ok cfg e anything (fun _ => True))].
  destruct o; try done; apply (run_spec cfg anything); try done; intros n; cbn [run_op].
  - by apply bonded_loaded_ok.
  - destruct (ble_support cfg) eqn:?; [by apply le_bonded_loaded_ok|go].
  - destruct (ble_support cfg) eqn:?; [by apply whitelist_loaded_ok|go].
  - apply le_disabled_ok.
  - by apply br_disabled_ok.
  - apply (void_ok cfg anything). by apply start_discovery_ok.
Qed.

(** The events that crash do. *)
Lemma crashes_fails e o s : inv cfg s -> crashes cfg s o = true -> run_op cfg e o s = None.
Proof.
  intros Hi Hcr.
  assert (forall a t (k : option ptr -> MS unit), absent cfg s a t = true -> k None = efail ->
    (adapter_lock;;; p <- adapter_find_device cfg a t;; k p) s = None) as Hnone.
  { intros a t k Ha Hk. unfold adapter_lock, ebind, emodify. rewrite find_absent; [by rewrite Hk| |].
    - eapply (lock_frame cfg anything {! lock_depth ::= S }); [by intros []|done|by apply Forall_nil_2].
    - rewrite <- Ha. unfold absent. destruct t as [[]|]; by destruct s. }
  destruct o; try done.
  destruct m as [ [] | [] | [] | [] | [] | x | k]; try done; cbn in Hcr.
  - by apply Hnone.
  - destruct t as [[]|]; try done. by apply (Hnone a (Some BT_TRANSPORT_BLE)).
  - apply andb_true_iff in Hcr as [Hst Ha]. cbn [run_op handle handle_ble_event]. unfold process_le_whitelist_update_evt.
    rewrite Hst. by apply (Hnone a (Some BT_TRANSPORT_BLE)).
Qed.

Lemma service_reachable_inv s : reachable cfg s -> inv cfg s.
Proof using has_bredr len_even len_pos.
  induction 1 as [|e o s s' os _ IH Hm Hok Hrun]; [apply init_inv|].
  destruct (crashes cfg s o) eqn:Hcr; [by rewrite crashes_fails in Hrun|].
  by apply (run_wp _ _ _ _ _ _ Hrun (any_op_wp e o s Hm IH Hok Hcr)).
Qed.

(** ** A classic bond that is reported made *)

(** What keeps a bond. *)
Definition stays_bonded (a : bt_address_t) (s : adapter_service_t) (_ : list out) (s' : adapter_service_t) : Prop :=
  bond s a BT_TRANSPORT_BREDR = BOND_STATE_BONDED -> bond s' a BT_TRANSPORT_BREDR = BOND_STATE_BONDED.

#[local] Instance tracks_stays a : Tracks (stays_bonded a).
Proof. split; unfold stays_bonded; try done; [naive_solver|]. intros s s' Hb. by rewrite Hb. Qed.

Lemma set_bonded_wp e a i ctkd s :
  e.(mem) = true -> inv cfg s -> Forall (valid cfg s) [((BT_TRANSPORT_BREDR, i), a)] ->
  exists s' os, set_bond_state e (BT_TRANSPORT_BREDR, i) BOND_STATE_BONDED ctkd s = Some (tt, s', os) /\
    inv cfg s' /\ lock_depth s' = lock_depth s /\ Forall (valid cfg s') [((BT_TRANSPORT_BREDR, i), a)] /\
    bond s' a BT_TRANSPORT_BREDR = BOND_STATE_BONDED /\
    (bond s a BT_TRANSPORT_BREDR = BOND_STATE_BONDED -> os = [on_bond_state_changed a BT_TRANSPORT_BREDR BOND_STATE_BONDED BOND_STATE_BONDED ctkd]).
Proof.
  intros Hm Hi Hv. destruct (valid_at cfg s _ a _ Hi Hv (list_elem_of_here _ _)) as (_ & l & d & Hl & Hok & Hd & Ha & Ht & _). cbn in Hl, Hok, Hd, Ht.
  edestruct (frame_set cfg BT_TRANSPORT_BREDR l (<[i := with_bond BOND_STATE_BONDED d]> l) s) as [H1 H2];
    [done|exact Hv|done|by eapply list_ok_insert|by eapply extends_insert|].
  exists (set_dlist BT_TRANSPORT_BREDR (<[i := with_bond BOND_STATE_BONDED d]> l) s), (notices d BOND_STATE_BONDED ctkd). split; [|split; [exact H1|]].
  - edestruct (wp_run (set_bond_state e (BT_TRANSPORT_BREDR, i) BOND_STATE_BONDED ctkd)
      (fun _ s' os => s' = set_dlist BT_TRANSPORT_BREDR (<[i := with_bond BOND_STATE_BONDED d]> l) s /\ os = notices d BOND_STATE_BONDED ctkd) s) as ([] & s' & os & Hrun & -> & ->); [|exact Hrun].
    eapply set_bond_wp; [done|exact Hl|exact Hd|]. done.
  - rewrite lock_set. split; [done|]. split; [done|]. split.
    + rewrite (bond_insert s _ l i d) by done. by rewrite decide_True.
    + intros Hb. rewrite <- Ha, (bond_at s _ l i d) in Hb by done. unfold notices. by rewrite Hb, Ht, Ha.
Qed.

(** The second of the two notices is never dropped. *)
Lemma bonded_told e a ctkd s :
  e.(mem) = true -> inv cfg s ->
  wp (process_bond_state_change_evt cfg e a BOND_STATE_BONDED (Some BT_TRANSPORT_BREDR) ctkd)
    (fun _ s' os => told a BT_TRANSPORT_BREDR os = Some BOND_STATE_BONDED /\ bond s' a BT_TRANSPORT_BREDR = BOND_STATE_BONDED) s.
Proof.
  intros Hm Hi. unfold process_bond_state_change_evt. rewrite bool_decide_true by done. rewrite bool_decide_true by done. cbn [ewhen].
  apply wp_bind, wp_modify. edestruct (lock_frame cfg anything {! lock_depth ::= S } ltac:(by intros []) s [] Hi) as (Hi0 & _ & _); [done|].
  apply wp_bind. eapply wp_mono; [|eapply create_wp with (e := e) (Rel := stays_bonded a) (v := []) (d := br_device_create a); try done; apply _].
  intros [t i] s1 o1 (Hi1 & Hn1 & Hv1 & Ep & _). cbn in Ep. subst t.
  assert (lock_depth s1 = S (lock_depth s)) as Hn by (rewrite Hn1; by destruct s). clear Hn1.
  apply wp_bind, wp_bind. destruct (set_bonded_wp e a i ctkd s1 Hm Hi1 Hv1) as (s2 & o2 & Hrun & Hi2 & Hn2 & Hv2 & Hb2 & _).
  unfold wp at 1. rewrite Hrun. clear Hrun. rewrite Hn in Hn2.
  eapply wp_mono; [|apply (spec_elim cfg (stays_bonded a) (S (lock_depth s)) [((BT_TRANSPORT_BREDR, i), a)] _ (S (lock_depth s)) (fun _ => [((BT_TRANSPORT_BREDR, i), a)]));
    [unfold call_; go|done|exact Hn2|exact Hv2]].
  intros [] s3 o3 (Hi3 & Hn3 & Hv3 & Hb3). specialize (Hb3 Hb2).
  apply wp_bind. destruct (set_bonded_wp e a i ctkd s3 Hm Hi3 Hv3) as (s4 & o4 & Hrun & Hi4 & Hn4 & Hv4 & Hb4 & Ho4).
  unfold wp at 1. rewrite Hrun, (Ho4 Hb3). clear Hrun. unfold adapter_unlock. wp_simpl. rewrite Hn4, Hn3. wp_simpl. split.
  - rewrite app_nil_r, !told_app. cbn. by rewrite decide_True.
  - rewrite <- Hb4. by destruct s4.
Qed.
(** ** The last link of a transport *)

(** What a trace says about links: the clients are told of one, or the adapter's
    machine gets a message. *)
Definition link_news (o : out) : option (bt_address_t * bt_transport_t * connection_state_t + adapter_event) :=
  match o with
  | on_connection_state_changed a t c => Some (inl (a, t, c))
  | send_to_state_machine ev => Some (inr ev)
  | _ => None
  end.

(** The devices of the other addresses. *)
Definition others (a : bt_address_t) (l : list bt_device_t) : list bt_device_t :=
  List.filter (fun d => negb (bool_decide (device_get_address d = a))) l.

Lemma others_app_same a l d : device_get_address d = a -> others a (l ++ [d]) = others a l.
Proof. intros E. unfold others. rewrite List.filter_app. cbn. rewrite bool_decide_true by done. cbn. by rewrite app_nil_r. Qed.

Lemma others_insert_same a l i d d' :
  l !! i = Some d -> device_get_address d = a -> device_get_address d' = a -> others a (<[i := d']> l) = others a l.
Proof.
  intros Hi E E'. revert i Hi. induction l as [|x l IH]; intros i Hi; [done|]. destruct i as [|i].
  - injection Hi as ->. cbn. by rewrite !bool_decide_true.
  - change (<[S i := d']> (x :: l)) with (x :: <[i := d']> l). specialize (IH i Hi). unfold others in *. cbn [List.filter]. by rewrite IH.
Qed.

Lemma wp_and {A} (m : MS A) (Q R : A -> adapter_service_t -> list out -> Prop) s :
  wp m Q s -> wp m R s -> wp m (fun a s' os => Q a s' os /\ R a s' os) s.
Proof. unfold wp. by destruct (m s) as [[[]]|]. Qed.

(** Finding or making the device says nothing about links and leaves the other
    devices alone. *)
Lemma connection_device_links e a t ty s l :
  e.(mem) = true -> inv cfg s -> supported cfg t = true -> dlist t s = Some l ->
  wp (match t with
      | BT_TRANSPORT_BREDR =>
          p <- adapter_find_create_classic_device cfg e a;;
          d <- dev p;;
          ewhen (bool_decide (device_get_bond_state d = BOND_STATE_BONDING)) (request_name p a);;;
          eret p
      | BT_TRANSPORT_BLE => adapter_find_create_le_device cfg e a ty
      end) (fun p s' os => omap link_news os = [] /\ exists l', dlist t s' = Some l' /\ others a l' = others a l) s.
Proof.
  intros Hm Hi Hs Hl.
  assert (forall d, device_get_address d = a -> device_get_transport d = t ->
    wp (p <- adapter_find_device cfg a (Some t);; match p with Some p => eret p | None => add_device e t d end)
      (fun p s' os => os = [] /\ p.1 = t /\ exists l' d', dlist t s' = Some l' /\ l' !! p.2 = Some d' /\ device_get_address d' = a /\ others a l' = others a l) s) as Hc.
  { intros d Ha Ht. apply wp_bind. apply (wp_find cfg); [done| |intros _ (l0 & Hl0 & _)|congruence].
    - intros i (_ & l0 & d0 & Hl0 & Hd0 & Ha0). cbn in Hl0, Hd0, Ha0. apply wp_ret. split; [done|]. split; [done|].
      assert (l0 = l) as -> by congruence. by exists l, d0.
    - assert (l0 = l) as -> by congruence. cbn. unfold add_device. rewrite Hm. apply wp_bind, (wp_read _ l); [done|]. wp_simpl.
      split; [done|]. split; [done|]. exists (l ++ [d]), d. rewrite dlist_set, decide_True by done. split; [done|].
      split; [cbn; rewrite lookup_app_r, Nat.sub_diag by lia; done|]. split; [done|]. by apply others_app_same. }
  destruct t.
  - apply wp_bind. eapply wp_mono; [|by apply (Hc (br_device_create a))]. intros p s1 o1 (-> & Hp & l1 & d1 & Hl1 & Hd1 & Ha1 & Ho1).
    rewrite <- Hp in Hl1. apply wp_bind. eapply dev_wp; [done|done|]. apply wp_bind, wp_when. destruct (bool_decide _).
    + unfold request_name. apply wp_bind. eapply dev_wp; [done|done|]. apply wp_when. destruct (negb _).
      * apply wp_bind, wp_emit. eapply upd_wp; [done|done|]. apply wp_ret. split; [done|]. rewrite <- Hp. rewrite dlist_set, decide_True by done.
        eexists. split; [done|]. rewrite <- Ho1. eapply others_insert_same; [done|done|]. rewrite <- Ha1. by destruct d1.
      * apply wp_ret. split; [done|]. rewrite <- Hp. by exists l1.
    + apply wp_ret. split; [done|]. rewrite <- Hp. by exists l1.
  - eapply wp_mono; [|by apply (Hc (le_device_create a ty))]. intros p s1 o1 (-> & Hp & l1 & d1 & Hl1 & Hd1 & Ha1 & Ho1). split; [done|]. by exists l1.
Qed.

(** The device at a pointer, with the link as it was reported. *)
Lemma connection_device_wp e n a t ty s :
  e.(mem) = true -> inv cfg s -> lock_depth s = n -> supported cfg t = true ->
  wp (match t with
      | BT_TRANSPORT_BREDR =>
          p <- adapter_find_create_classic_device cfg e a;;
          d <- dev p;;
          ewhen (bool_decide (device_get_bond_state d = BOND_STATE_BONDING)) (request_name p a);;;
          eret p
      | BT_TRANSPORT_BLE => adapter_find_create_le_device cfg e a ty
      end) (fun p s' _ => inv cfg s' /\ lock_depth s' = n /\ Forall (valid cfg s') [(p, a)] /\ p.1 = t) s.
Proof.
  intros Hm Hi Hn Hs.
  assert (forall d, device_get_address d = a -> device_get_transport d = t -> device_get_bond_state d = BOND_STATE_NONE ->
    wp (p <- adapter_find_device cfg a (Some t);; match p with Some p => eret p | None => add_device e t d end)
      (fun p s' _ => inv cfg s' /\ lock_depth s' = n /\ Forall (valid cfg s') [(p, a)] /\ p.1 = t) s) as Hc.
  { intros d H1 H2 H3. eapply wp_mono; [|eapply create_wp with (e := e) (Rel := anything) (v := []) (d := d); try done; apply _].
    intros p s' os (? & ? & ? & ? & _). done. }
  destruct t; [|by apply Hc]. apply wp_bind. eapply wp_mono; [|by apply Hc]. intros p s1 o1 (Hi1 & Hn1 & Hv1 & Hp).
  apply wp_bind. eapply wp_mono; [|apply (spec_elim cfg anything n [(p, a)] _ n (fun _ => [(p, a)])); [part|done..]].
  intros d s2 o2 (Hi2 & Hn2 & Hv2 & _).
  apply wp_bind. eapply wp_mono; [|apply (spec_elim cfg anything n [(p, a)] _ n (fun _ => [(p, a)])); [|done..]].
  - intros [] s3 o3 (? & ? & ? & _). done.
  - rule srv_when. intros _. rule request_name_ok. here.
Qed.

Definition disconnected (d : bt_device_t) : bool := bool_decide (device_get_connection_state d = CONNECTION_STATE_DISCONNECTED).

Lemma all_disconnected_others a l d :
  NoDup (device_get_address <$> l) -> d ∈ l -> device_get_address d = a -> disconnected d = true ->
  forallb disconnected (others a l) = forallb disconnected l.
Proof.
  intros Hnd Hd Ha Hdis. apply eq_true_iff_eq. rewrite !forallb_forall. unfold others. split; intros H x Hx.
  - destruct (bool_decide (device_get_address x = a)) eqn:E; [|apply H, filter_In; by rewrite E].
    apply bool_decide_eq_true in E. assert (x = d) as ->; [|done]. apply list_elem_of_In in Hx.
    exact (NoDup_fmap_eq device_get_address l x d Hnd Hx Hd ltac:(congruence)).
  - apply H. by apply filter_In in Hx as [? _].
Qed.

(** What is done once the device is changed and the lock released. *)
Lemma disconnected_tail e a t p prm s l d n :
  lock_depth s = S n -> p.1 = t -> dlist t s = Some l -> l !! p.2 = Some d -> acl_state prm = CONNECTION_STATE_DISCONNECTED ->
  wp (ewhen (bool_decide (acl_state prm = CONNECTION_STATE_CONNECTED)) (upd p (device_set_acl_handle e.(sal_acl_handle)));;;
      adapter_unlock;;;
      (match t, acl_state prm with
       | BT_TRANSPORT_BREDR, CONNECTION_STATE_CONNECTED => eemit (bt_pm_remote_device_connected a)
       | BT_TRANSPORT_BREDR, CONNECTION_STATE_DISCONNECTED => eemit (bt_pm_remote_device_disconnected a)
       | _, _ => eret tt
       end);;;
      bt_dfx_connection_state_changed prm.(hci_reason_code) t;;;
      ewhen (cfg.(connection_manager) && bool_decide (acl_state prm = CONNECTION_STATE_DISCONNECTED)) (
        adapter_lock;;;
        d <- dev p;;
        adapter_unlock;;;
        eemit (bt_cm_process_disconnect_event a t (device_get_rssi d) prm.(hci_reason_code)));;;
      eemit (on_connection_state_changed a t (acl_state prm));;;
      ewhen (bool_decide (acl_state prm = CONNECTION_STATE_DISCONNECTED)) (
        l <- eread (dlist t);;
        ewhen (adapter_check_acl_all_disconnected l) (eemit (send_to_state_machine (all_disconnected_event t)))))
    (fun _ s' os => dlist t s' = Some l /\ omap link_news os = inl (a, t, CONNECTION_STATE_DISCONNECTED)
       :: (if forallb disconnected l then [inr (all_disconnected_event t)] else [])) s.
Proof.
  intros Hn <- Hl Hd ->. rewrite bool_decide_false, !bool_decide_true, andb_true_r by done. cbn [ewhen].
  apply wp_bind, wp_ret, wp_bind. unfold adapter_unlock at 1. apply wp_bind, wp_gets. rewrite Hn. apply wp_modify.
  assert (dlist p.1 ({! lock_depth := n } s) = Some l) as Hl1 by (rewrite <- Hl; by destruct s, p as [[] ?]).
  revert Hl1. generalize ({! lock_depth := n } s). intros s1 Hl1.
  set (Q := fun (_ : unit) s' os => dlist p.1 s' = Some l /\ omap link_news os = inl (a, p.1, CONNECTION_STATE_DISCONNECTED)
    :: (if forallb disconnected l then [inr (all_disconnected_event p.1)] else [])).
  assert (forall (m : MS unit) k, (exists os, m s1 = Some (tt, s1, os) /\ omap link_news os = []) -> wp k Q s1 -> wp (m;;; k) Q s1) as Hstep.
  { intros m k (os & Hm & Hos) Hk. apply wp_bind. unfold wp at 1. rewrite Hm. eapply wp_mono; [|exact Hk].
    intros [] s2 o2 (? & Ho). split; [done|]. by rewrite omap_app, Hos. }
  apply Hstep; [by destruct p as [[] ?]; eexists|]. apply Hstep.
  { unfold bt_dfx_connection_state_changed. destruct (_ || _); by eexists. }
  apply Hstep.
  { destruct (connection_manager cfg); [|by eexists].
    edestruct (wp_run (adapter_lock;;; d <- dev p;; adapter_unlock;;;
      eemit (bt_cm_process_disconnect_event a p.1 (device_get_rssi d) (hci_reason_code prm)))
      (fun _ s' os => s' = s1 /\ omap link_news os = []) s1) as ([] & s2 & os & Hrun & -> & Hos); [|by eexists].
    eapply locked_dev_wp; [done|done|]. by apply wp_emit. }
  apply wp_bind, wp_emit, wp_bind, (wp_read _ l); [done|]. unfold adapter_check_acl_all_disconnected.
  fold disconnected. change (forallb _ l) with (forallb disconnected l).
  by destruct (forallb disconnected l).
Qed.
End Runs.

(** ** Theorems *)

(** C1: From every state that some order of messages, loads and calls reaches,
    the next operation fails exactly if it is one of three events about a
    device that is not listed: an SSP request, a change of encryption of a low
    energy link, a change of the white list.  Otherwise there is still one
    device per address and transport, and the mutex is released as often as it
    was taken, but for a change of encryption of an unknown transport. *)
Theorem adapter_fails_exactly (cfg : config) (e : env) (s : adapter_service_t) (o : op) :
  cfg.(bredr_support) = true -> Z.Even cfg.(uuids_len) -> 2 <= cfg.(uuids_len) ->
  reachable cfg s -> e.(mem) = true -> op_ok cfg o ->
  match run_op cfg e o s with
  | None => crashes cfg s o = true
  | Some (_, s', _) => crashes cfg s o = false /\ inv cfg s' /\ lock_depth s' = (leaks o + lock_depth s)%nat
  end.
Proof.
  intros Hb He Hp Hr Hm Hok. apply service_reachable_inv in Hr as Hi; [|done..]. destruct (crashes cfg s o) eqn:Hcr.
  - by rewrite crashes_fails.
  - edestruct (wp_run _ _ _ (any_op_wp cfg Hb He Hp e o s Hm Hi Hok Hcr)) as (r & s' & os & -> & ? & ?). done.
Qed.

(** C7: In a build with classic Bluetooth, with memory and in every reachable
    state: after any well-formed operation that has a result, other than the six
    that load or empty a list of devices without a word ([silent]: the bonded
    devices, the LE bonded devices or the white list loaded, LE or BR/EDR
    disabled, a discovery started), what the clients were last told of each
    bond is the state of the bond afterwards (a bonding that is being cancelled
    is a bonding to them), and what they were not told of is as it was. *)
Theorem bond_notices_exact (cfg : config) (e : env) (s s' : adapter_service_t) (o : op) (os : list out) :
  cfg.(bredr_support) = true -> Z.Even cfg.(uuids_len) -> 2 <= cfg.(uuids_len) ->
  reachable cfg s -> e.(mem) = true -> op_ok cfg o -> silent o = false ->
  run_op cfg e o s = Some (tt, s', os) ->
  forall a t, visible (bond s' a t) = match told a t os with Some b => visible b | None => visible (bond s a t) end.
Proof.
  intros Hb He Hp Hr Hm Hok Hs Hrun. apply service_reachable_inv in Hr as Hi; [|done..].
  destruct (crashes cfg s o) eqn:Hcr; [by rewrite crashes_fails in Hrun|].
  assert (forall k, (forall a, bonds o = Some a -> k = Some (a, BT_TRANSPORT_BREDR)) -> bonds_told k s os s') as Hk.
  { intros k Hk. pose proof (run_op_ok cfg e (bonds_told k) (fun x => k = Some x) Hb Hm He Hp o s Hi Hok Hcr Hs Hk) as Hw.
    by apply (run_wp _ _ _ _ _ _ Hrun Hw). }
  destruct (bonds o) as [b|] eqn:Eb; [|intros a t; by apply (Hk None)].
  intros a t. destruct (decide (b = a /\ t = BT_TRANSPORT_BREDR)) as [[-> ->]|Hne].
  - destruct o; try done. destruct m as [ [] | | | | | |]; try done. cbn in Eb.
    repeat (match type of Eb with context [match ?x with _ => _ end] => destruct x end; try done). injection Eb as ->.
    destruct (run_wp _ _ _ _ _ _ Hrun (bonded_told cfg Hb He Hp e a ctkd s Hm Hi)) as [-> ->]. done.
  - apply (Hk (Some (b, BT_TRANSPORT_BREDR))); [by intros ? [= ->]|]. intros [= -> <-]. by apply Hne.
Qed.

(** C18: In a build with classic Bluetooth and with memory at hand, from every
    reachable state and for a supported transport: when a link is reported gone, the clients are told once, of this link,
    and the adapter's machine then gets its message exactly if every other
    device of the transport was disconnected already; no other link and no
    other message is spoken of.  Afterwards the device is listed as
    disconnected and the others are as they were. *)
Theorem last_link_announced (cfg : config) (e : env) (s : adapter_service_t) (a : bt_address_t) (prm : acl_state_param_t) (t : bt_transport_t) :
  cfg.(bredr_support) = true -> Z.Even cfg.(uuids_len) -> 2 <= cfg.(uuids_len) ->
  reachable cfg s -> e.(mem) = true ->
  prm.(acl_transport) = Some t -> supported cfg t = true -> prm.(acl_state) = CONNECTION_STATE_DISCONNECTED ->
  exists s' os l l' d,
    run_op cfg e (op_message (handle_connection (CONNECTION_STATE_CHANGE_EVT a prm))) s = Some (tt, s', os) /\
    dlist t s = Some l /\ dlist t s' = Some l' /\
    omap link_news os = inl (a, t, CONNECTION_STATE_DISCONNECTED)
      :: (if forallb disconnected (others a l) then [inr (all_disconnected_event t)] else []) /\
    d ∈ l' /\ device_get_address d = a /\ disconnected d = true /\ others a l' = others a l.
Proof.
  intros Hb He Hp Hr Hm Ht Hs Hst. apply service_reachable_inv in Hr as Hi; [|done..]. destruct (Hi t Hs) as (l & Hl & _).
  enough (wp (process_connection_state_changed_evt cfg e a prm) (fun _ s' os => exists l' d, dlist t s' = Some l' /\
    omap link_news os = inl (a, t, CONNECTION_STATE_DISCONNECTED)
      :: (if forallb disconnected (others a l) then [inr (all_disconnected_event t)] else []) /\
    d ∈ l' /\ device_get_address d = a /\ disconnected d = true /\ others a l' = others a l) s) as Hw.
  { apply wp_run in Hw as ([] & s' & os & Hrun & l' & d & ?). by exists s', os, l, l', d. }
  unfold process_connection_state_changed_evt. rewrite Ht, Hs. cbn [negb]. apply wp_bind, wp_modify.
  edestruct (lock_frame cfg anything {! lock_depth ::= S } ltac:(by intros []) s [] Hi) as (Hi0 & _ & _); [done|].
  apply wp_bind. eapply wp_mono; [|apply wp_and; [eapply (connection_device_wp cfg e (S (lock_depth s))); [done|exact Hi0|by destruct s|done]
    |eapply (connection_device_links cfg e a t (acl_addr_type prm) _ l); [done|exact Hi0|done|by destruct s, t]]].
  intros p s1 o1 [(Hi1 & Hn1 & Hv1 & Hpt) (Hq & l1 & Hl1 & Ho1)].
  destruct (valid_at cfg s1 p a _ Hi1 Hv1 (list_elem_of_here _ _)) as (_ & l2 & d & Hl2 & [Hnd _] & Hd & Ha & _).
  assert (l2 = l1) as -> by (rewrite Hpt in Hl2; congruence).
  apply wp_bind. eapply upd_wp; [done|done|].
  set (d' := device_set_connection_state (acl_state prm) d).
  assert (<[p.2 := d']> l1 !! p.2 = Some d') as Hd' by (apply list_lookup_insert_eq; by eapply lookup_lt_Some).
  assert (device_get_address d' = a /\ disconnected d' = true) as [Ha' Hdis] by (unfold d', disconnected; rewrite Hst; by destruct d).
  eapply wp_mono; [|eapply (disconnected_tail cfg e a t p prm _ (<[p.2 := d']> l1) d' (lock_depth s)); [by rewrite lock_set|done| |done|done]].
  - intros [] s2 o2 (Hl3 & Hn2). exists (<[p.2 := d']> l1), d'. split; [done|]. split.
    + cbn [app]. rewrite !omap_app, Hq. cbn [app omap list_omap]. rewrite Hn2. rewrite <- (all_disconnected_others a (<[p.2 := d']> l1) d').
      * by rewrite (others_insert_same a l1 p.2 d d'), Ho1.
      * rewrite list_fmap_insert. rewrite list_insert_id; [done|]. rewrite list_lookup_fmap, Hd. apply (f_equal Some). congruence.
      * by eapply list_elem_of_lookup_2.
      * done.
      * done.
    + split; [by eapply list_elem_of_lookup_2|]. split; [done|]. split; [done|]. by rewrite (others_insert_same a l1 p.2 d d').
  - by rewrite <- Hpt, dlist_set, decide_True.
Qed.

Definition link_event (a : bt_address_t) (c : connection_state_t) : op :=
  op_message (handle_connection (CONNECTION_STATE_CHANGE_EVT a (mk_acl 0 (Some BT_TRANSPORT_BREDR) 0 c 0))).

(** ** A build and some runs *)

Definition demo_config : config := mk_config true true true true true true true 64.
Definition demo_env : env :=
  mk_env (fun _ => BT_STATUS_SUCCESS) true 1 BT_DEVICE_TYPE_BREDR bt_addr_empty (mk_addr 9 9 9 9 9 9) None BT_STATUS_SUCCESS true true.
Definition peer : bt_address_t := mk_addr 1 2 3 4 5 6.
Definition peer2 : bt_address_t := mk_addr 2 2 3 4 5 6.

Definition run_ops (ops : list op) : MS unit := efor ops (run_op demo_config demo_env).

Definition bond_event (a : bt_address_t) (b : bond_state_t) (t : bt_transport_t) : op :=
  op_message (handle_security (BOND_STATE_CHANGE_EVT a b (Some t) false)).

Lemma demo_even : Z.Even (uuids_len demo_config).
Proof. by exists 32. Qed.

Lemma run_ops_reachable ops s s' os :
  Forall (op_ok demo_config) ops -> reachable demo_config s -> run_ops ops s = Some (tt, s', os) -> reachable demo_config s'.
Proof.
  intros Hok. revert s s' os. induction Hok as [|o ops Ho _ IH]; intros s s' os Hr Hrun; [by injection Hrun as <- _|].
  unfold run_ops in Hrun. cbn [efor] in Hrun. unfold ebind in Hrun.
  destruct (run_op demo_config demo_env o s) as [[[[] s1] o1]|] eqn:E1; [|done].
  destruct (efor ops (run_op demo_config demo_env) s1) as [[[[] s2] o2]|] eqn:E2; [|done]. injection Hrun as <- _.
  eapply IH; [|exact E2]. by apply (reach_op _ demo_env o s s1 o1).
Qed.

(** The state after a run. *)
Definition after (ops : list op) : adapter_service_t :=
  match run_ops ops (adapter_init demo_config) with Some (_, s, _) => s | None => adapter_init demo_config end.

Lemma after_reachable ops : Forall (op_ok demo_config) ops -> reachable demo_config (after ops).
Proof.
  intros Hok. unfold after. destruct (run_ops ops (adapter_init demo_config)) as [[[[] s] os]|] eqn:E; [|constructor].
  eapply run_ops_reachable; [done|constructor|done].
Qed.

Lemma adapter_fails_exactly_witness :
  run_op demo_config demo_env (op_message (handle_security (ENC_STATE_CHANGE_EVT peer true (Some BT_TRANSPORT_BLE))))
    (after [bond_event peer2 BOND_STATE_BONDING BT_TRANSPORT_BLE]) = None /\
  crashes demo_config (after [bond_event peer2 BOND_STATE_BONDING BT_TRANSPORT_BLE])
    (op_message (handle_security (ENC_STATE_CHANGE_EVT peer true (Some BT_TRANSPORT_BLE)))) = true.
Proof.
  split; [reflexivity|].
  apply (adapter_fails_exactly demo_config demo_env (after [bond_event peer2 BOND_STATE_BONDING BT_TRANSPORT_BLE])
    (op_message (handle_security (ENC_STATE_CHANGE_EVT peer true (Some BT_TRANSPORT_BLE))))
    eq_refl demo_even ltac:(vm_compute; discriminate) ltac:(apply after_reachable; by repeat constructor) eq_refl I).
Defined.

(** Cancelled, and made nevertheless: the clients hear of it. *)
Definition cancelled : list op :=
  [op_state BT_ADAPTER_STATE_ON; bond_event peer BOND_STATE_BONDING BT_TRANSPORT_BREDR; op_cancel_bond peer].

Lemma bond_notices_exact_witness :
  let os := match run_op demo_config demo_env (bond_event peer BOND_STATE_BONDED BT_TRANSPORT_BREDR) (after cancelled) with
            | Some (_, _, os) => os | None => [] end in
  bond (after cancelled) peer BT_TRANSPORT_BREDR = BOND_STATE_CANCELING /\ told peer BT_TRANSPORT_BREDR os = Some BOND_STATE_BONDED /\
  forall s', run_op demo_config demo_env (bond_event peer BOND_STATE_BONDED BT_TRANSPORT_BREDR) (after cancelled) = Some (tt, s', os) ->
  visible (bond s' peer BT_TRANSPORT_BREDR) = BOND_STATE_BONDED.
Proof.
  intros os. split; [reflexivity|]. split; [reflexivity|]. intros s' Hrun.
  apply (bond_notices_exact demo_config demo_env (after cancelled) s' (bond_event peer BOND_STATE_BONDED BT_TRANSPORT_BREDR) os
    eq_refl demo_even ltac:(vm_compute; discriminate) ltac:(apply after_reachable; by repeat constructor) eq_refl ltac:(discriminate)
    eq_refl Hrun peer BT_TRANSPORT_BREDR).
Defined.

(** Two links: when the first goes the machine is not told, when the second
    goes it is. *)
Definition two_links : list op := [link_event peer CONNECTION_STATE_CONNECTED; link_event peer2 CONNECTION_STATE_CONNECTED].

Lemma last_link_announced_witness :
  (exists s' os, run_op demo_config demo_env (link_event peer CONNECTION_STATE_DISCONNECTED) (after two_links) = Some (tt, s', os) /\
    omap link_news os = [inl (peer, BT_TRANSPORT_BREDR, CONNECTION_STATE_DISCONNECTED)]) /\
  (exists s' os, run_op demo_config demo_env (link_event peer2 CONNECTION_STATE_DISCONNECTED)
      (after (two_links ++ [link_event peer CONNECTION_STATE_DISCONNECTED])) = Some (tt, s', os) /\
    omap link_news os = [inl (peer2, BT_TRANSPORT_BREDR, CONNECTION_STATE_DISCONNECTED); inr BREDR_ACL_ALL_DISCONNECTED]).
Proof.
  split.
  - destruct (last_link_announced demo_config demo_env (after two_links)
      peer (mk_acl 0 (Some BT_TRANSPORT_BREDR) 0 CONNECTION_STATE_DISCONNECTED 0) BT_TRANSPORT_BREDR
      eq_refl demo_even ltac:(vm_compute; discriminate) ltac:(apply after_reachable; by repeat constructor) eq_refl eq_refl eq_refl eq_refl)
      as (s' & os & l & l' & d & E & El & _ & En & _).
    exists s', os. split; [exact E|]. rewrite En. vm_compute in El. injection El as <-. reflexivity.
  - destruct (last_link_announced demo_config demo_env (after (two_links ++ [link_event peer CONNECTION_STATE_DISCONNECTED]))
      peer2 (mk_acl 0 (Some BT_TRANSPORT_BREDR) 0 CONNECTION_STATE_DISCONNECTED 0) BT_TRANSPORT_BREDR
      eq_refl demo_even ltac:(vm_compute; discriminate) ltac:(apply after_reachable; by repeat constructor) eq_refl eq_refl eq_refl eq_refl)
      as (s' & os & l & l' & d & E & El & _ & En & _).
    exists s', os. split; [exact E|]. rewrite En. vm_compute in El. injection El as <-. reflexivity.
Defined.

(** ** Where the code does not do what it means to *)

(** The calls made by the last of some operations. *)
Definition last_outs (ops : list op) (o : op) : option (list out) :=
  (fun r => r.2) <$> run_op demo_config demo_env o (after ops).

(** The mutex stays held. *)
Lemma unknown_transport_keeps_lock :
  lock_depth (after [op_message (handle_security (ENC_STATE_CHANGE_EVT peer true None))]) = 1%nat.
Proof. vm_compute. reflexivity. Qed.

(** A classic bond is announced twice, the second time as a change from BONDED
    to BONDED. *)
Lemma bonded_announced_twice :
  option_map (List.filter (fun o => match o with on_bond_state_changed _ _ _ _ _ => true | _ => false end))
    (last_outs [bond_event peer BOND_STATE_BONDING BT_TRANSPORT_BREDR] (bond_event peer BOND_STATE_BONDED BT_TRANSPORT_BREDR))
  = Some [on_bond_state_changed peer BT_TRANSPORT_BREDR BOND_STATE_BONDING BOND_STATE_BONDED false;
          on_bond_state_changed peer BT_TRANSPORT_BREDR BOND_STATE_BONDED BOND_STATE_BONDED false].
Proof. vm_compute. reflexivity. Qed.

(** Discovery drops a device while it is bonding; nobody is told. *)
Lemma discovery_drops_bonding :
  let before := [op_state BT_ADAPTER_STATE_ON; bond_event peer BOND_STATE_BONDING BT_TRANSPORT_BREDR] in
  bond (after before) peer BT_TRANSPORT_BREDR = BOND_STATE_BONDING /\
  bond (after (before ++ [op_start_discovery 10 false])) peer BT_TRANSPORT_BREDR = BOND_STATE_NONE /\
  last_outs before (op_start_discovery 10 false) = Some [sal (bt_sal_start_discovery 10 false)].
Proof. vm_compute. done. Qed.

(** A key for an unknown device hides the keys after it. *)
Lemma keys_after_unknown_lost :
  let key a := mk_le_props a 0 BT_DEVICE_TYPE_BLE (replicate 80 7) (replicate 16 7) in
  let made := after [bond_event peer BOND_STATE_BONDED BT_TRANSPORT_BLE] in
  let update l := run_op demo_config demo_env (op_message (handle_ble (LE_BONDED_DEVICE_UPDATE_EVT l))) made in
  let set r := match r with Some (_, s, _) => match le_devices s with Some [d] => device_check_flag d DFLAG_LE_KEY_SET | _ => false end | None => false end in
  set (update [key peer; key peer2]) = true /\ set (update [key peer2; key peer]) = false.
Proof. vm_compute. done. Qed.

(** The end of a classic bond is not stored; its making is. *)
Lemma bond_end_not_stored :
  let saves := option_map (List.filter (fun o => match o with bt_storage_save_bonded_device _ => true | _ => false end)) in
  let made := [bond_event peer BOND_STATE_BONDED BT_TRANSPORT_BREDR] in
  option_map (@length _) (saves (last_outs [] (bond_event peer BOND_STATE_BONDED BT_TRANSPORT_BREDR))) = Some 1%nat /\
  saves (last_outs made (bond_event peer BOND_STATE_NONE BT_TRANSPORT_BREDR)) = Some [].
Proof. vm_compute. done. Qed.
End AdapterServiceSpec.
