(* ===== verification/AdapterServiceStored.v ===== *)
(** * The adapter service: bonded devices in storage

    What [adapter_update_bonded_device] of service/src/adapter_service.c saves
    of the bonded classic devices, [bonded_device_loaded] brings back after a
    restart: the same devices in the same order, with their names, classes,
    link keys and UUIDs. *)

From S2P Require Import Prelude Fallible Bytes BtAddr BtUuid CString Device RemoteUuids AdapterState AdapterService AdapterServiceLogic AdapterServiceSpec.
From coqutil Require Import Datatypes.RecordSetters.
Import UpdaterNotations.

Local Open Scope Z_scope.
Local Open Scope fall_scope.

Module AdapterServiceStored.
Import BtAddr BtUuid Device RemoteUuids.
Import AdapterState.
Import AdapterService AdapterServiceLogic AdapterServiceSpec.

(** What is kept of a device: names are cut to 63 characters, UUIDs to what
    fits. *)
Definition device_storable (L : Z) (d : bt_device_t) : Prop :=
  (String.length (device_get_name d) < BT_REM_NAME_MAX_LEN)%nat /\
  (String.length (device_get_alias d) < BT_REM_NAME_MAX_LEN)%nat /\
  storable L d.(remote).(uuids).

(** [d'] is [d] after a restart. *)
Definition restored (d d' : bt_device_t) : Prop :=
  device_get_address d' = device_get_address d /\ device_get_transport d' = BT_TRANSPORT_BREDR /\
  device_get_name d' = device_get_name d /\ device_get_alias d' = device_get_alias d /\
  device_get_device_class d' = device_get_device_class d /\ device_get_device_type d' = device_get_device_type d /\
  device_get_link_key d' = device_get_link_key d /\ device_get_link_key_type d' = device_get_link_key_type d /\
  device_get_bond_state d' = BOND_STATE_BONDED /\
  d'.(remote).(uuids) = shorts d.(remote).(uuids) ++ longs d.(remote).(uuids).

Section Stored.
Context (cfg : config) (e : env) (has_bredr : cfg.(bredr_support) = true) (has_mem : e.(mem) = true).
Context (len_even : Z.Even cfg.(uuids_len)) (len_pos : 2 <= cfg.(uuids_len)).

(** ** One device *)

Lemma load_saved l :
  storable cfg.(uuids_len) l ->
  exists u, device_get_remote_uuids cfg.(uuids_len) l (replicate (Z.to_nat cfg.(uuids_len)) 0) = Some u /\
    forall d, d.(remote).(uuids) = [] ->
    load_remote_uuids cfg.(uuids_len) true u d = Some (on_remote {! uuids := shorts l ++ longs l } d).
Proof.
  intros Hst. destruct l as [|u l].
  - exists (replicate (Z.to_nat (uuids_len cfg)) 0). split; [done|]. intros d Hd. unfold load_remote_uuids, peek.
    rewrite lookup_replicate_2 by lia. cbn. destruct d as [[] ? ? ?]. cbn in *. by subst.
  - destruct (save_layout _ len_even len_pos (u :: l) Hst) as [b Hb]; [done|]. eexists. split; [exact Hb|]. intros d Hd.
    destruct (load_layout _ len_pos (u :: l) b d Hst) as (d' & E1 & _ & ->); [done|done|]. rewrite E1. f_equal.
    unfold device_set_uuids. by rewrite Hd.
Qed.

(** The last device of the list. *)
Lemma upd_last acc x f s (Q : unit -> adapter_service_t -> list out -> Prop) :
  Q tt (set_dlist BT_TRANSPORT_BREDR (acc ++ [f x]) s) [] ->
  wp (upd (BT_TRANSPORT_BREDR, length acc) f) Q (set_dlist BT_TRANSPORT_BREDR (acc ++ [x]) s).
Proof.
  intros HQ. eapply (upd_wp _ _ x (acc ++ [x])); [by rewrite dlist_set|apply list_lookup_middle; done|]. cbn [fst snd].
  rewrite insert_app_r_alt, Nat.sub_diag by lia. by destruct s.
Qed.

Lemma dev_last acc x s (Q : bt_device_t -> adapter_service_t -> list out -> Prop) :
  Q x (set_dlist BT_TRANSPORT_BREDR (acc ++ [x]) s) [] ->
  wp (dev (BT_TRANSPORT_BREDR, length acc)) Q (set_dlist BT_TRANSPORT_BREDR (acc ++ [x]) s).
Proof. intros HQ. eapply (dev_wp _ _ x (acc ++ [x])); [by rewrite dlist_set|by apply list_lookup_middle|done]. Qed.

Lemma upd_last_ {A} acc x (f : bt_device_t -> A * bt_device_t) s (Q : A -> adapter_service_t -> list out -> Prop) :
  Q (f x).1 (set_dlist BT_TRANSPORT_BREDR (acc ++ [(f x).2]) s) [] ->
  wp (upd_ (BT_TRANSPORT_BREDR, length acc) f) Q (set_dlist BT_TRANSPORT_BREDR (acc ++ [x]) s).
Proof. intros HQ. unfold upd_. apply wp_bind, dev_last, wp_bind, upd_last. by apply wp_ret. Qed.

(** A new device with the stored properties. *)
Definition fresh_copy (r : remote_device_properties_t) : bt_device_t :=
  (device_set_bond_state BOND_STATE_BONDED false
    (device_set_link_key_type r.(p_link_key_type)
      (device_set_link_key r.(p_link_key)
        (device_set_device_type r.(p_device_type)
          (device_set_device_class r.(p_class_of_device)
            (device_set_alias r.(p_alias) (device_set_name r.(p_name) (br_device_create r.(p_addr))).2).2).2)))).2.

Lemma load_device_wp r acc d' s (Q : unit -> adapter_service_t -> list out -> Prop) :
  dlist BT_TRANSPORT_BREDR s = Some acc -> Forall (fun x => is_device r.(p_addr) BT_TRANSPORT_BREDR x = false) acc ->
  load_remote_uuids cfg.(uuids_len) true r.(p_uuids) (fresh_copy r) = Some d' ->
  Q tt (set_dlist BT_TRANSPORT_BREDR (acc ++ [d']) s) [sal (bt_sal_set_bonded_devices r)] ->
  wp (load_bonded_device cfg e r) Q s.
Proof.
  intros Hl Hnew Hload HQ. unfold load_bonded_device, set_bond_state_silently, load_uuids, call_, adapter_find_create_classic_device, adapter_find_device.
  cbn [supported]. rewrite has_bredr. apply wp_bind, wp_bind, wp_bind, (wp_read _ acc); [done|]. apply wp_ret.
  assert (find_index (is_device (p_addr r) BT_TRANSPORT_BREDR) acc = None) as ->.
  { clear - Hnew. induction Hnew as [|x acc Hx _ IH]; cbn; [done|]. by rewrite Hx, IH. }
  cbn [fmap option_fmap option_map]. unfold add_device. rewrite has_mem. apply wp_bind, (wp_read _ acc); [done|].
  apply wp_bind, wp_modify, wp_ret.
  apply wp_bind, upd_last_, wp_bind, upd_last_, wp_bind, upd_last_, wp_bind, upd_last, wp_bind, upd_last, wp_bind, upd_last.
  apply wp_bind, wp_bind, upd_last_, wp_ret. apply wp_bind, wp_bind, dev_last, wp_bind, (wp_read _ d'); [exact Hload|].
  apply upd_last, wp_emit. exact HQ.
Qed.

(** The copy has what was stored. *)
Lemma fresh_copy_fields r :
  (String.length r.(p_name) <= BT_REM_NAME_MAX_LEN)%nat -> (String.length r.(p_alias) <= BT_REM_NAME_MAX_LEN)%nat ->
  let d := fresh_copy r in
  device_get_address d = r.(p_addr) /\ device_get_transport d = BT_TRANSPORT_BREDR /\
  device_get_name d = r.(p_name) /\ device_get_alias d = r.(p_alias) /\
  device_get_device_class d = r.(p_class_of_device) /\ device_get_device_type d = r.(p_device_type) /\
  device_get_link_key d = r.(p_link_key) /\ device_get_link_key_type d = r.(p_link_key_type) /\
  device_get_bond_state d = BOND_STATE_BONDED /\ d.(remote).(uuids) = [].
Proof.
  intros Hn Ha. assert (device_wf (br_device_create (p_addr r))) as Hwf by (split; cbn; lia).
  pose proof (set_name_wf (p_name r) _ Hwf) as Hwf1. pose proof (set_name_get _ _ Hwf Hn) as E1.
  pose proof (set_alias_get _ _ Hwf1 Ha) as E2.
  assert (forall x : bt_device_t, device_get_name (device_set_alias (p_alias r) x).2 = device_get_name x) as E3
    by (intros x; unfold device_set_alias; by case_match).
  assert (forall x, device_get_device_class (device_set_device_class (p_class_of_device r) x).2 = p_class_of_device r) as E4
    by (intros x; unfold device_set_device_class; case_match eqn:E; [by apply Z.eqb_eq in E|done]).
  assert (forall x, device_get_name (device_set_device_class (p_class_of_device r) x).2 = device_get_name x /\
    device_get_alias (device_set_device_class (p_class_of_device r) x).2 = device_get_alias x) as E5
    by (intros x; unfold device_set_device_class; by case_match).
  assert (forall x : bt_device_t, uuids (remote (device_set_device_class (p_class_of_device r) (device_set_alias (p_alias r) (device_set_name (p_name r) x).2).2).2)
    = uuids (remote x)) as E6
    by (intros x; unfold device_set_device_class, device_set_alias, device_set_name; by repeat case_match).
  intros d. destruct (keeps_class (p_class_of_device r) (device_set_alias (p_alias r) (device_set_name (p_name r) (br_device_create (p_addr r))).2).2) as (A1 & T1 & _).
  destruct (keeps_alias (p_alias r) (device_set_name (p_name r) (br_device_create (p_addr r))).2) as (A2 & T2 & _).
  destruct (keeps_name (p_name r) (br_device_create (p_addr r))) as (A3 & T3 & _).
  split; [exact (eq_trans A1 (eq_trans A2 A3))|]. split; [exact (eq_trans T1 (eq_trans T2 T3))|].
  split; [exact (eq_trans (proj1 (E5 _)) (eq_trans (E3 _) E1))|]. split; [exact (eq_trans (proj2 (E5 _)) E2)|].
  split; [exact (E4 _)|]. do 4 (split; [reflexivity|]). exact (E6 _).
Qed.
(** What is loaded of one device. *)
Lemma property_load d r :
  device_storable cfg.(uuids_len) d -> device_get_property cfg d = Some r ->
  r.(p_addr) = device_get_address d /\
  exists d', load_remote_uuids cfg.(uuids_len) true r.(p_uuids) (fresh_copy r) = Some d' /\ restored d d'.
Proof using len_even len_pos.
  intros (Hn & Ha & Hu) Hr. destruct (load_saved _ Hu) as (u & Hsave & Hload). unfold device_get_property in Hr. rewrite Hsave in Hr.
  cbn [mbind option_bind] in Hr. injection Hr as <-. split; [done|]. cbn [p_uuids]. rewrite !strlcpy_short by lia.
  edestruct (fresh_copy_fields (mk_props (device_get_address d) (device_get_address_type d) (device_get_name d) (device_get_alias d)
    (device_get_link_key_type d) (device_get_device_type d) (device_get_link_key d) (device_get_device_class d) u))
    as (H1 & H2 & H3 & H4 & H5 & H6 & H7 & H8 & H9 & H10); [cbn; lia..|].
  eexists. split; [by apply Hload|]. by split_and!.
Qed.

(** ** The list *)

Lemma load_devices_wp ds rs acc s :
  Forall (device_storable cfg.(uuids_len)) ds -> Forall2 (fun d r => device_get_property cfg d = Some r) ds rs ->
  NoDup (device_get_address <$> acc ++ ds) -> dlist BT_TRANSPORT_BREDR s = Some acc ->
  wp (efor rs (load_bonded_device cfg e)) (fun _ s' _ => exists l', dlist BT_TRANSPORT_BREDR s' = Some (acc ++ l') /\ Forall2 restored ds l') s.
Proof using has_bredr has_mem len_even len_pos.
  intros Hst Hrs. revert acc s. induction Hrs as [|d r ds rs Hr _ IH]; intros acc s Hnd Hl; cbn [efor].
  - apply wp_ret. exists []. by rewrite app_nil_r.
  - apply Forall_cons_iff in Hst as [Hd Hst]. destruct (property_load d r Hd Hr) as (Ha & d' & Hload & Hres).
    apply wp_bind. eapply load_device_wp; [done| |exact Hload|].
    { rewrite fmap_app in Hnd. apply list.NoDup_app in Hnd as (_ & Hne & _). apply Forall_forall. intros x Hx.
      apply not_true_is_false. intros [E _]%is_device_true. apply (Hne (device_get_address d)).
      - rewrite <- Ha, <- E. by apply list_elem_of_fmap_2.
      - left. }
    eapply wp_mono; [|apply (IH Hst (acc ++ [d']))].
    + intros [] s' os (l' & Hl' & Hf). exists (d' :: l'). rewrite <- app_assoc in Hl'. split; [done|by constructor].
    + rewrite !fmap_app in *. cbn. destruct Hres as [-> _]. by rewrite <- app_assoc.
    + by rewrite dlist_set.
Qed.
End Stored.

(** C8: In a build with classic Bluetooth and with memory: what is saved of the
    bonded classic devices of any state that can be reached, loaded by a service
    that starts anew, gives the same devices in the same order, bonded, with the
    same address, name, alias, class, type and link key and with the same UUIDs
    (those over the Bluetooth base first), provided that every one of them can
    be stored ([device_storable]): its names are shorter than 64 characters, and
    its UUIDs are 128 bits wide and fit the room that the storage has for them
    (those of 16 bits come back with their bytes swapped). *)
Theorem bonded_devices_roundtrip (cfg : config) (e : env) (s : adapter_service_t) (l : list bt_device_t) :
  cfg.(bredr_support) = true -> Z.Even cfg.(uuids_len) -> 2 <= cfg.(uuids_len) -> e.(mem) = true ->
  reachable cfg s -> devices s = Some l -> Forall (device_storable cfg.(uuids_len)) (List.filter device_is_bonded l) ->
  exists remotes s' os l',
    adapter_update_bonded_device cfg s = Some (tt, s, [bt_storage_save_bonded_device remotes]) /\
    run_op cfg e (op_bonded_loaded remotes) (adapter_init cfg) = Some (tt, s', os) /\
    devices s' = Some l' /\ Forall2 restored (List.filter device_is_bonded l) l'.
Proof.
  intros Hb He Hp Hm Hr Hl Hst. apply service_reachable_inv in Hr as Hi; [|done..].
  destruct (Hi BT_TRANSPORT_BREDR Hb) as (l0 & Hl0 & Hok). assert (l0 = l) as -> by (cbn in Hl0; congruence).
  destruct (properties_of cfg He Hp (List.filter device_is_bonded l)) as [remotes Hrs]. exists remotes.
  destruct (list_ok_filter _ device_is_bonded l Hok) as [Hnd _].
  destruct (wp_run _ _ _ (load_devices_wp cfg e Hb Hm He Hp _ remotes [] (adapter_init cfg) Hst (mapM_Some_1 _ _ _ Hrs) Hnd eq_refl))
    as ([] & s' & os & Hrun & l' & Hl' & Hf).
  exists s', (os ++ [send_to_state_machine BREDR_ENABLED]), l'. split; [|split; [|done]].
  - edestruct (wp_run (adapter_update_bonded_device cfg) (fun _ s' os => s' = s /\ os = [bt_storage_save_bonded_device remotes]) s)
      as ([] & ? & ? & ? & -> & ->); [|done]. eapply update_bonded_wp; [done..|]. intros r Hr'. split; [done|]. congruence.
  - cbn [run_op]. unfold bonded_device_loaded, ebind. by rewrite Hrun.
Qed.

(** A peer with a name, a key and two services. *)
Definition stored_run : list op :=
  [bond_event peer BOND_STATE_BONDED BT_TRANSPORT_BREDR;
   op_message (handle_discovery (REMOTE_NAME_RECIEVED_EVT peer "speaker"));
   op_message (handle_security (LINK_KEY_UPDATE_EVT peer (replicate 16 5) 4 false));
   op_message (handle_security (SDP_SEARCH_DONE_EVT peer [uuid_of128 7; uuid_of16 0x110B]));
   bond_event peer2 BOND_STATE_BONDING BT_TRANSPORT_BREDR].

Lemma bonded_devices_roundtrip_witness :
  exists remotes s' os l',
    adapter_update_bonded_device demo_config (after stored_run) = Some (tt, after stored_run, [bt_storage_save_bonded_device remotes]) /\
    run_op demo_config demo_env (op_bonded_loaded remotes) (adapter_init demo_config) = Some (tt, s', os) /\
    devices s' = Some l' /\ Forall2 restored (List.filter device_is_bonded (default [] (devices (after stored_run)))) l'.
Proof.
  apply (bonded_devices_roundtrip demo_config demo_env (after stored_run) (default [] (devices (after stored_run)))
    eq_refl demo_even ltac:(vm_compute; discriminate) eq_refl ltac:(apply after_reachable; repeat constructor; discriminate) eq_refl).
  constructor; [|constructor]. split; [vm_compute; lia|]. split; [vm_compute; lia|].
  split; [|split; [vm_compute; lia|split; [vm_compute; lia|vm_compute; discriminate]]].
  repeat constructor; vm_compute; discriminate.
Defined.

(** A name of 64 characters, which fits, loses the last one. *)
Lemma long_name_loses_character :
  let run := [bond_event peer BOND_STATE_BONDED BT_TRANSPORT_BREDR;
              op_message (handle_discovery (REMOTE_NAME_RECIEVED_EVT peer (String.concat "" (replicate 64 "x"%string))))] in
  let saved := match adapter_update_bonded_device demo_config (after run) with
               | Some (_, _, [bt_storage_save_bonded_device [r]]) => String.length r.(p_name) | _ => 0%nat end in
  option_map (fun l => map (fun d => String.length (device_get_name d)) l) (devices (after run)) = Some [64%nat] /\ saved = 63%nat.
Proof. vm_compute. done. Qed.
End AdapterServiceStored.
