(* ===== verification/PeerService.v ===== *)
(** * A service with one state machine per peer

    The two HFP services are built alike: a list of devices, each an address
    with its machine, which exists while the service is started; messages of
    the service loop go to the machine of their address, which is made when
    there is none, or to all; the interface answers questions about a device
    and posts messages.  This file has that part, over any machine, and its
    safety: a client shows that its machine's functions keep a machine sound
    ([keeps]) and obtains that its operations have a result and keep one sound
    machine per address ([safe]).  A list function given NULL fails its
    assertion ([efail]). *)

From S2P Require Import Prelude Fallible BtAddr.
From coqutil Require Import Datatypes.RecordSetters.
Import UpdaterNotations.

Local Open Scope fall_scope.

Module PeerService.
Import BtAddr.

(** ** State *)

Record device_t (Mc : Type) := mk_device { dev_addr : bt_address_t; dev_sm : Mc }.
Arguments mk_device {Mc} _ _.
Arguments dev_addr {Mc} _.
Arguments dev_sm {Mc} _.

Record service_t (Mc : Type) := mk_service {
  started : bool;
  svc_offloading : bool;
  max_connections : Z;
  svc_devices : option (list (device_t Mc));
  callbacks : bool;                        (* the callback list exists *)
}.
Arguments mk_service {Mc} _ _ _ _ _.
Arguments started {Mc} _.
Arguments svc_offloading {Mc} _.
Arguments max_connections {Mc} _.
Arguments svc_devices {Mc} _.
Arguments callbacks {Mc} _.

(** The position of the first device that matches. *)
Fixpoint find_device {Mc} (p : device_t Mc -> bool) (l : list (device_t Mc)) : option nat :=
  match l with
  | [] => None
  | d :: l => if p d then Some 0 else S <$> find_device p l
  end.

Definition device_cmp {Mc} (a : bt_address_t) (d : device_t Mc) : bool := (bt_addr_compare d.(dev_addr) a =? 0)%Z.

(** [bt_list_move] to the head. *)
Definition move_to_head {Mc} (i : nat) (l : list (device_t Mc)) : list (device_t Mc) :=
  match l !! i with Some d => d :: delete i l | None => l end.

(** A pointer to a machine (below). *)
Record sm_ptr := mk_ptr { made_after : nat; of_peer : bt_address_t }.

(** ** Operations *)

Abbreviation BT_STATUS_NOT_ENABLED := BT_STATUS_NOT_READY.

Section Service.
Context {Mc O SO : Type} (inj : O -> SO).

Abbreviation MS := (E (service_t Mc) SO).

(** [bt_list_find] and the loops assert that the list exists. *)
Definition devices : MS (list (device_t Mc)) := eread svc_devices.

Definition find_by_addr (a : bt_address_t) : MS (option nat) :=
  l <- devices;; eret (find_device (device_cmp a) l).

Definition find_by_state (state : Mc -> Z) (st : Z) : MS (option (device_t Mc)) :=
  dl <- egets svc_devices;;
  match dl with
  | None => eret None
  | Some l => eret (find_device (fun d => state d.(dev_sm) =? st)%Z l ≫= fun i => l !! i)
  end.

(** A machine's function runs on the device at [i]. *)
Definition at_device (i : nat) (m : M Mc O unit) : MS unit :=
  l <- devices;;
  match l !! i with
  | None => efail
  | Some d =>
      let '(_, sm, os) := m d.(dev_sm) in
      emodify {! svc_devices := Some (<[i := mk_device d.(dev_addr) sm]> l) };;;
      fun s => Some (tt, s, map inj os)
  end.

(** [bt_list_free]: each device is deleted with the function [m] of its
    machine. *)
Definition delete_all (m : bt_address_t -> M Mc O unit) : MS unit :=
  dl <- egets svc_devices;;
  match dl with
  | None => eret tt
  | Some l => fun s => Some (tt, s, concat (map (fun d => map inj (outs (m d.(dev_addr)) d.(dev_sm))) l))
  end.

(** The position of the machine of an address, made by [new] when there is none. *)
Definition get_machine (new : bt_address_t -> bool -> Mc) (a : bt_address_t) : MS (option nat) :=
  st <- egets started;;
  if negb st then eret None
  else
    i <- find_by_addr a;;
    match i with
    | Some i => eret (Some i)
    | None =>
        off <- egets svc_offloading;;
        l <- devices;;
        emodify {! svc_devices := Some (l ++ [mk_device a (new a off)]) };;;
        eret (Some (length l))
    end.

(** Every machine runs [m]. *)
Definition foreach (m : M Mc O unit) : MS unit :=
  l <- devices;; efor (seq 0 (length l)) (fun i => at_device i m).

(** The machine of [a] runs [m]; it is put first when it [is_active] (the
    pointer taken before the move still names the same machine). *)
Definition run_machine (new : bt_address_t -> bool -> Mc) (a : bt_address_t) (active : bool) (m : M Mc O unit) : MS unit :=
  i <- get_machine new a;;
  match i with
  | None => eret tt
  | Some i =>
      if active then emodify {! svc_devices ::= fmap (move_to_head i) };;; at_device 0 m
      else at_device i m
  end.

(** The device of an address, for a question. *)
Definition device_at (a : bt_address_t) : MS (option (device_t Mc)) :=
  l <- devices;; eret (find_device (device_cmp a) l ≫= fun i => l !! i).

(** The devices that are counted. *)
Definition count (open : Mc -> bool) : MS Z :=
  l <- devices;; eret (u8 (Z.of_nat (length (List.filter (fun d => open d.(dev_sm)) l)))).

Definition CHECK_ENABLED (m : MS bt_status_t) : MS bt_status_t :=
  st <- egets started;; if negb st then eret BT_STATUS_NOT_ENABLED else m.

(** ** Safety *)

(** [ok a sm]: [sm] is a sound machine of the peer [a]. *)
Context (ok : bt_address_t -> Mc -> Prop).

Definition keeps (m : M Mc O unit) : Prop := forall a sm, ok a sm -> ok a (exec m sm).

Definition devices_ok (l : list (device_t Mc)) : Prop :=
  NoDup (dev_addr <$> l) /\ Forall (fun d => ok d.(dev_addr) d.(dev_sm)) l.

(** The list exists exactly while the service is started, one device for each
    address. *)
Definition svc_inv (s : service_t Mc) : Prop :=
  match s.(svc_devices) with
  | Some l => s.(started) = true /\ devices_ok l
  | None => s.(started) = false
  end.

(** [safe m]: run on a sound service, [m] has a result and leaves it sound. *)
Definition safe {A} (m : MS A) : Prop := forall s, svc_inv s -> wp m (fun _ s' _ => svc_inv s') s.

Lemma safe_ret {A} (a : A) : safe (eret a).
Proof. intros s Hs. done. Qed.
Lemma safe_bind {A B} (m : MS A) (f : A -> MS B) : safe m -> (forall a, safe (f a)) -> safe (ebind m f).
Proof. intros Hm Hf s Hs. apply wp_bind. eapply wp_mono; [|apply Hm, Hs]. intros a s1 o1 H1. by apply Hf. Qed.
Lemma safe_gets {A} (f : service_t Mc -> A) : safe (egets f).
Proof. intros s Hs. done. Qed.
Lemma safe_emit o : safe (eemit o).
Proof. intros s Hs. done. Qed.

(** The service is started with [n] devices. *)
Definition up (n : nat) (s : service_t Mc) : Prop :=
  s.(started) = true /\ exists l, s.(svc_devices) = Some l /\ devices_ok l /\ length l = n.

Lemma up_inv n s : up n s -> svc_inv s.
Proof. intros (Hs & l & Hl & Hd & _). unfold svc_inv. by rewrite Hl. Qed.

Lemma inv_up s : svc_inv s -> s.(started) = true -> exists n, up n s.
Proof.
  unfold svc_inv. intros Hi Hs. destruct (svc_devices s) as [l|] eqn:E; [|congruence]. destruct Hi as [_ Hd].
  exists (length l). split; [done|]. by exists l.
Qed.

Lemma wp_devices n s (Q : list (device_t Mc) -> service_t Mc -> list SO -> Prop) :
  up n s -> (forall l, s.(svc_devices) = Some l -> devices_ok l -> length l = n -> Q l s []) -> wp devices Q s.
Proof. intros (Hs & l & Hl & Hd & Hn) HQ. apply (wp_read _ l); [done|]. by apply HQ. Qed.

(** A machine's function on one of the devices. *)
Lemma wp_at_device n i (m : M Mc O unit) s :
  up n s -> (i < n)%nat -> keeps m -> wp (at_device i m) (fun _ s' _ => up n s') s.
Proof.
  intros Hup Hi Hm. unfold at_device. apply wp_bind. eapply wp_devices; [done|]. intros l Hl [Hnd Hd] Hn.
  destruct (lookup_lt_is_Some_2 l i ltac:(lia)) as [d Hdi]. rewrite Hdi.
  pose proof (Hm _ _ (proj1 (Forall_lookup _ l) Hd i d Hdi)) as Hk. unfold exec in Hk.
  destruct (m (dev_sm d)) as [[u sm] os]. cbn in *. destruct Hup as (Hs & _). split; [done|].
  eexists. split; [done|]. split; [|by rewrite length_insert]. split.
  - rewrite list_fmap_insert. cbn. rewrite list_insert_id; [done|]. by rewrite list_lookup_fmap, Hdi.
  - by apply Forall_insert.
Qed.

Lemma find_device_lt p (l : list (device_t Mc)) i : find_device p l = Some i -> (i < length l)%nat.
Proof.
  revert i. induction l as [|d l IH]; intros i; cbn; [done|]. destruct (p d); [intros [= <-]; lia|].
  destruct (find_device p l) as [j|]; cbn; [|done]. intros [= <-]. specialize (IH j eq_refl). lia.
Qed.

Lemma find_device_none a (l : list (device_t Mc)) : find_device (device_cmp a) l = None -> a ∉ dev_addr <$> l.
Proof.
  induction l as [|d l IH]; cbn; [intros _ H; inversion H|]. unfold device_cmp at 1.
  destruct (bt_addr_compare (dev_addr d) a =? 0)%Z eqn:E; [done|]. destruct (find_device _ l); [done|].
  intros _. apply not_elem_of_cons. split; [|auto]. intros ->. apply Z.eqb_neq in E. apply E. by apply addr_compare_is_equality.
Qed.

Context (new : bt_address_t -> bool -> Mc) (new_ok : forall a off, ok a (new a off)).

Lemma wp_get_machine n a s :
  up n s -> wp (get_machine new a) (fun r s' _ => exists i n', r = Some i /\ (i < n')%nat /\ up n' s') s.
Proof using new_ok.
  intros Hup. pose proof Hup as (Hs & _). unfold get_machine, find_by_addr. wp_simpl. rewrite Hs. cbn [negb].
  wp_simpl. eapply wp_devices; [done|]. intros l Hl Hd Hn. wp_simpl.
  destruct (find_device (device_cmp a) l) as [i|] eqn:Hf.
  - wp_simpl. exists i, n. split; [done|]. split; [|done]. apply find_device_lt in Hf. lia.
  - wp_simpl. eapply wp_devices; [done|]. intros l' Hl' _ _. assert (l' = l) as -> by congruence. wp_simpl.
    exists (length l), (S (length l)). split; [done|]. split; [lia|]. split; [done|]. eexists. split; [done|].
    split; [|rewrite length_app; cbn; lia]. destruct Hd as [Hnd Hf']. split.
    + rewrite fmap_app. apply list.NoDup_app. split; [done|]. split; [|apply NoDup_singleton].
      intros x Hx. cbn. rewrite list_elem_of_singleton. intros ->. by apply find_device_none in Hf.
    + apply Forall_app. split; [done|]. apply Forall_singleton, new_ok.
Qed.

Lemma move_to_head_perm i (l : list (device_t Mc)) : move_to_head i l ≡ₚ l.
Proof.
  unfold move_to_head. destruct (l !! i) as [d|] eqn:E; [|done]. symmetry. by apply delete_Permutation.
Qed.

Lemma up_move n i s : up n s -> up n (apply_update (mk_update svc_devices (fmap (move_to_head i))) s).
Proof.
  intros (Hs & l & Hl & [Hnd Hd] & Hn). destruct s as [a1 a2 a3 a4 a5]. cbn in *. subst a4. split; [done|].
  exists (move_to_head i l). split; [done|]. pose proof (move_to_head_perm i l) as Hp. split; [|by rewrite Hp].
  split; by rewrite Hp.
Qed.

Lemma foreach_up n m s : keeps m -> up n s -> wp (foreach m) (fun _ s' _ => up n s') s.
Proof.
  intros Hm Hup. unfold foreach. apply wp_bind. eapply wp_devices; [done|]. intros l _ _ Hn. rewrite Hn.
  apply (wp_for (up n)); [|done]. intros i s' Hi%list_elem_of_In%in_seq Hs'. apply wp_at_device; [done|lia|done].
Qed.

Lemma run_machine_up n a active m s :
  keeps m -> up n s -> wp (run_machine new a active m) (fun _ s' _ => svc_inv s') s.
Proof using new_ok.
  intros Hm Hup. unfold run_machine. apply wp_bind. eapply wp_mono; [|by eapply wp_get_machine].
  intros r s1 o1 (i & n' & -> & Hi & Hup'). destruct active.
  - apply wp_bind, wp_modify. eapply wp_mono; [|apply (wp_at_device n' 0); [by apply up_move|lia|done]].
    intros [] s2 o2 H2. exact (up_inv _ _ H2).
  - eapply wp_mono; [|apply (wp_at_device n' i); [done|lia|done]]. intros [] s2 o2 H2. exact (up_inv _ _ H2).
Qed.

(** While the service is started the questions have answers. *)
Lemma up_devices {A} (f : list (device_t Mc) -> A) n s (Q : A -> service_t Mc -> list SO -> Prop) :
  up n s -> (forall a, Q a s []) -> wp (l <- devices;; eret (f l)) Q s.
Proof. intros Hup HQ. apply wp_bind. eapply wp_devices; [done|]. intros l _ _ _. by apply wp_ret. Qed.

Lemma ask_device {A} (f : option (device_t Mc) -> A) a n s (Q : A -> service_t Mc -> list SO -> Prop) :
  up n s -> (forall x, Q x s []) -> wp (d <- device_at a;; eret (f d)) Q s.
Proof. intros Hup HQ. apply wp_bind. eapply up_devices; [done|]. intros d. by apply wp_ret. Qed.

(** A guarded call: started, it keeps the service sound; otherwise it does
    nothing. *)
Lemma check_safe (m : MS bt_status_t) :
  (forall n s, up n s -> wp m (fun _ s' _ => svc_inv s') s) -> safe (CHECK_ENABLED m).
Proof.
  intros Hm s Hs. unfold CHECK_ENABLED. apply wp_bind, wp_gets. destruct (started s) eqn:Hst; cbn; [|done].
  destruct (inv_up s Hs Hst) as [n Hup]. by apply (Hm n).
Qed.

(** A question, then a refusal or a posted message. *)
Lemma answer_safe {A} (q : MS A) (k : A -> MS bt_status_t) n s :
  up n s -> (forall (Q : A -> service_t Mc -> list SO -> Prop), (forall x, Q x s []) -> wp q Q s) ->
  (forall x, safe (k x)) -> wp (ebind q k) (fun _ s' _ => svc_inv s') s.
Proof. intros Hup Hq Hk. apply wp_bind, Hq. intros x. apply Hk. by eapply up_inv. Qed.

(** A guarded question about a device, then the rest. *)
Lemma guarded_safe {A} (f : option (device_t Mc) -> A) a (k : A -> MS bt_status_t) :
  (forall x, safe (k x)) -> safe (CHECK_ENABLED (x <- (d <- device_at a;; eret (f d));; k x)).
Proof. intros Hk. apply check_safe. intros n s Hup. eapply answer_safe; [done| |done]. intros Q HQ. by eapply ask_device. Qed.

(** Two questions. *)
Lemma guarded2_safe {A B} (f : option (device_t Mc) -> A) (g : option (device_t Mc) -> B) a (k : A -> B -> MS bt_status_t) :
  (forall x y, safe (k x y)) ->
  safe (CHECK_ENABLED (x <- (d <- device_at a;; eret (f d));; y <- (d <- device_at a;; eret (g d));; k x y)).
Proof.
  intros Hk. apply check_safe. intros n s Hup. apply wp_bind. eapply ask_device; [done|]. intros x.
  eapply wp_mono; [|eapply answer_safe; [done| |exact (Hk x)]].
  - intros st s' o H. exact H.
  - intros Q HQ. by eapply ask_device.
Qed.

Lemma count_safe (open : Mc -> bool) (k : Z -> MS bt_status_t) :
  (forall n, safe (k n)) -> safe (CHECK_ENABLED (n <- count open;; k n)).
Proof. intros Hk. apply check_safe. intros n s Hup. eapply answer_safe; [done| |done]. intros Q HQ. by eapply up_devices. Qed.

Lemma by_state_safe {A} (state : Mc -> Z) st (k : option (device_t Mc) -> MS A) :
  (forall d, safe (k d)) -> safe (d <- find_by_state state st;; k d).
Proof. intros Hk. apply safe_bind; [|done]. unfold find_by_state. apply safe_bind; [apply safe_gets|]. intros []; apply safe_ret. Qed.

(** ** Pointers to machines

    The timers of a machine, the controller and the media system call back with
    the pointer that they were given.  The machines of a service are freed all
    together, by a shutdown, and there is one for each address: a pointer is the
    number of shutdowns before the machine was made, and its peer. *)

Definition is_live (n : nat) (s : service_t Mc) (p : sm_ptr) : bool :=
  Nat.eqb p.(made_after) n &&
  match s.(svc_devices) with Some l => bool_decide (is_Some (find_device (device_cmp p.(of_peer)) l)) | None => false end.

(** [m] runs on the machine that [p] leads to, after [n] shutdowns. *)
Definition at_pointer (n : nat) (p : sm_ptr) (m : M Mc O unit) : MS unit :=
  if Nat.eqb p.(made_after) n then
    l <- devices;;
    match find_device (device_cmp p.(of_peer)) l with Some i => at_device i m | None => efail end
  else efail.

(** ** Calls that stand for a failure

    [fault] tells the calls of a machine that stand for a failed assertion or a
    read through NULL, [bad] those of the service. *)
Context (fault : O -> bool) (bad : SO -> bool) (bad_inj : forall o, bad (inj o) = fault o).

(** The operation fails: it has no result, or makes such a call. *)
Definition failed {A} (r : option (A * service_t Mc * list SO)) : bool :=
  match r with None => true | Some (_, _, os) => existsb bad os end.

(** Whatever [m] does, it makes no such call. *)
Definition mute {A} (m : MS A) : Prop := forall s, match m s with Some (_, _, os) => existsb bad os = false | None => True end.

Lemma mute_ret {A} (a : A) : mute (eret a).
Proof. done. Qed.
Lemma mute_gets {A} (f : service_t Mc -> A) : mute (egets f).
Proof. done. Qed.
Lemma mute_modify f : mute (emodify f).
Proof. done. Qed.
Lemma mute_fail {A} : mute (@efail (service_t Mc) SO A).
Proof. done. Qed.
Lemma mute_read {A} (f : service_t Mc -> option A) : mute (eread f).
Proof. intros s. unfold eread. by destruct (f s). Qed.
Lemma mute_emit o : bad o = false -> mute (eemit o).
Proof. intros Ho s. cbn. by rewrite Ho. Qed.
Lemma mute_bind {A B} (m : MS A) (f : A -> MS B) : mute m -> (forall a, mute (f a)) -> mute (ebind m f).
Proof.
  intros Hm Hf s. unfold ebind. specialize (Hm s). destruct (m s) as [[[a s1] o1]|]; [|done]. specialize (Hf a s1).
  destruct (f a s1) as [[[b s2] o2]|]; [|done]. by rewrite existsb_app, Hm, Hf.
Qed.
Lemma mute_for {A} (l : list A) (f : A -> MS unit) : (forall a, mute (f a)) -> mute (efor l f).
Proof. intros Hf. induction l as [|a l IH]; cbn [efor]; [apply mute_ret|]. apply mute_bind; [apply Hf|]. by intros _. Qed.

Lemma existsb_inj os : existsb bad (map inj os) = existsb fault os.
Proof using bad_inj. induction os as [|o os IH]; cbn; [done|]. by rewrite bad_inj, IH. Qed.

(** A function that is harmless on every machine. *)
Lemma mute_at_device i (m : M Mc O unit) : (forall sm, existsb fault (outs m sm) = false) -> mute (at_device i m).
Proof using bad_inj.
  intros Hm. unfold at_device, devices. apply mute_bind; [apply mute_read|]. intros l. destruct (l !! i) as [d|]; [|apply mute_fail].
  specialize (Hm (dev_sm d)). unfold outs in Hm. destruct (m (dev_sm d)) as [[u sm] os]. cbn in Hm. apply mute_bind; [apply mute_modify|].
  intros _ s. cbn. by rewrite existsb_inj.
Qed.

Lemma mute_foreach (m : M Mc O unit) : (forall sm, existsb fault (outs m sm) = false) -> mute (foreach m).
Proof using bad_inj. intros Hm. apply mute_bind; [apply mute_read|]. intros l. apply mute_for. intros i. by apply mute_at_device. Qed.

Lemma mute_failed {A} (m : MS A) (Q : A -> service_t Mc -> list SO -> Prop) s : mute m -> wp m Q s -> failed (m s) = false.
Proof. intros Hm Hw. specialize (Hm s). unfold wp in Hw. unfold failed. by destruct (m s) as [[[a s'] os]|]. Qed.

(** The calls of the device at [i]. *)
Lemma at_device_failed i (m : M Mc O unit) s l d :
  s.(svc_devices) = Some l -> l !! i = Some d -> failed (at_device i m s) = existsb fault (outs m d.(dev_sm)).
Proof using bad_inj.
  intros Hl Hi. unfold at_device, devices, ebind, eread. rewrite Hl, Hi. unfold outs. destruct (m (dev_sm d)) as [[u sm] os]. cbn. apply existsb_inj.
Qed.

(** The machine that a message to [a] goes to. *)
Definition machine_of (a : bt_address_t) (s : service_t Mc) : Mc :=
  match s.(svc_devices) with
  | Some l => match find_device (device_cmp a) l ≫= fun i => l !! i with Some d => d.(dev_sm) | None => new a s.(svc_offloading) end
  | None => new a s.(svc_offloading)
  end.

Lemma move_to_head_first i (l : list (device_t Mc)) d : l !! i = Some d -> move_to_head i l !! 0 = Some d.
Proof. intros Hi. unfold move_to_head. by rewrite Hi. Qed.

Lemma find_device_is p (l : list (device_t Mc)) i : find_device p l = Some i -> is_Some (l !! i).
Proof. intros Hi%find_device_lt. by apply lookup_lt_is_Some_2. Qed.

Lemma get_machine_run a s l :
  s.(started) = true -> s.(svc_devices) = Some l ->
  get_machine new a s =
    match find_device (device_cmp a) l with
    | Some i => Some (Some i, s, [])
    | None => Some (Some (length l), {! svc_devices := Some (l ++ [mk_device a (new a s.(svc_offloading))]) } s, [])
    end.
Proof.
  intros Hs Hl. unfold get_machine, find_by_addr, devices. unfold ebind at 1, egets at 1. rewrite Hs. cbn [negb].
  unfold ebind at 1 2, eread at 1. rewrite Hl. cbn -[find_device]. destruct (find_device (device_cmp a) l) as [i|]; [done|].
  unfold ebind at 1, egets. unfold ebind at 1, eread. by rewrite Hl.
Qed.

Lemma run_machine_failed a active m s l :
  s.(started) = true -> s.(svc_devices) = Some l ->
  failed (run_machine new a active m s) = existsb fault (outs m (machine_of a s)).
Proof using bad_inj.
  intros Hs Hl. unfold machine_of. rewrite Hl.
  assert (forall i d s1 l1, svc_devices s1 = Some l1 -> l1 !! i = Some d ->
    failed ((if active then emodify {! svc_devices ::= fmap (move_to_head i) };;; at_device 0 m else at_device i m) s1) = existsb fault (outs m d.(dev_sm))) as Hrun.
  { intros i d s1 l1 H1 Hi. destruct active; [|by eapply at_device_failed]. unfold ebind, emodify.
    rewrite <- (at_device_failed 0 m ({! svc_devices ::= fmap (move_to_head i) } s1) (move_to_head i l1) d); [|destruct s1; cbn in *; by subst|by apply move_to_head_first].
    by destruct (at_device 0 m _) as [[[u s2] o2]|]. }
  unfold run_machine. unfold ebind at 1. rewrite (get_machine_run a s l Hs Hl).
  destruct (find_device (device_cmp a) l) as [i|] eqn:Ef; cbn [mbind option_bind].
  - destruct (find_device_is _ l i Ef) as [d Hd]. rewrite Hd, <- (Hrun i d s l Hl Hd). by destruct (_ s) as [[[u s2] o2]|].
  - set (s1 := {! svc_devices := Some (l ++ [mk_device a (new a (svc_offloading s))]) } s).
    pose proof (Hrun (length l) (mk_device a (new a (svc_offloading s))) s1 (l ++ [mk_device a (new a (svc_offloading s))]) eq_refl (list_lookup_middle _ _ _ _ eq_refl)) as H.
    cbn [dev_sm] in H. rewrite <- H. by destruct (_ s1) as [[[u s2] o2]|].
Qed.

(** All devices are deleted. *)
Lemma delete_all_failed (m : bt_address_t -> M Mc O unit) s l :
  s.(svc_devices) = Some l -> failed (delete_all m s) = existsb (fun d => existsb fault (outs (m d.(dev_addr)) d.(dev_sm))) l.
Proof using bad_inj.
  intros Hl. unfold delete_all, ebind, egets. rewrite Hl. cbn [failed app]. clear Hl. induction l as [|d l IH]; cbn; [done|].
  by rewrite existsb_app, existsb_inj, IH.
Qed.

(** What comes through a pointer. *)
Lemma at_pointer_failed n p m s :
  (forall a sm, ok a sm -> existsb fault (outs m sm) = false) -> svc_inv s -> failed (at_pointer n p m s) = negb (is_live n s p).
Proof using bad_inj.
  intros Hm Hi. unfold at_pointer, is_live, devices, ebind, eread. destruct (Nat.eqb _ n); [|done]. unfold svc_inv in Hi.
  destruct (svc_devices s) as [l|] eqn:El; [|done]. destruct (find_device _ l) as [i|] eqn:Ef; [|done]. destruct Hi as [_ [_ Hd]].
  destruct (find_device_is _ l i Ef) as [d Hdi]. cbn. rewrite <- (Hm _ _ (proj1 (Forall_lookup _ l) Hd i d Hdi)), <- (at_device_failed i m s l d El Hdi).
  by destruct (at_device i m s) as [[[u s2] o2]|].
Qed.

Lemma at_pointer_inv n p m s : keeps m -> svc_inv s -> match at_pointer n p m s with Some (_, s', _) => svc_inv s' | None => True end.
Proof.
  intros Hm Hi. unfold at_pointer, devices, ebind, eread. destruct (Nat.eqb _ n); [|done]. destruct (svc_devices s) as [l|] eqn:El; [|done].
  destruct (find_device _ l) as [i|] eqn:Ef; [|done]. apply find_device_lt in Ef. assert (up (length l) s) as Hup.
  { unfold svc_inv in Hi. rewrite El in Hi. destruct Hi as [Hs Hd]. split; [done|]. by exists l. }
  pose proof (wp_at_device (length l) i m s Hup Ef Hm) as H. unfold wp in H. destruct (at_device i m s) as [[[u s2] o2]|]; [|done]. cbn.
  by eapply up_inv.
Qed.
End Service.

(** Take a handler apart, down to the calls hinted as safe. *)
Create HintDb svc.
#[export] Hint Resolve safe_ret safe_gets safe_emit : svc.
Ltac safe_auto :=
  repeat match goal with
  | |- safe _ (ebind _ _) => apply safe_bind; [|intros ?]
  | |- safe _ (match _ with _ => _ end) => case_match
  | |- safe _ _ => solve [auto with svc nocore]
  end.

(** The same for calls that stand for a failure. *)
#[export] Hint Resolve mute_ret mute_gets mute_modify mute_read mute_fail : svc.
Ltac mute_auto :=
  repeat match goal with
  | |- mute _ (ebind _ _) => apply mute_bind; [|intros ?]
  | |- mute _ (eemit _) => apply mute_emit; reflexivity
  | |- mute _ (match _ with _ => _ end) => case_match
  | |- mute _ _ => solve [auto with svc nocore]
  end.
End PeerService.
