(* ===== verification/MediaSystem.v ===== *)
(** * Volumes (service/profiles/system/media_system.c)

    The media system counts volume steps from 0 (music) or 1 (voice call) to
    a maximum it announces; AVRCP counts to 127 and HFP from 1 to 15.  C's
    division truncates towards zero ([Z.quot]). *)

From S2P Require Import Prelude.

Module MediaSystem.
Local Open Scope Z_scope.

Definition INVALID_MEDIA_VOLUME : Z := -1.
Definition AVRCP_MAX_ABSOLUTE_VOLUME : Z := 0x7F.
Definition MAX_HFP_SCO_VOICE_CALL_VOLUME : Z := 15.
Definition MIN_HFP_SCO_VOICE_CALL_VOLUME : Z := 1.

(** [g_vc_max_volume] and [g_vc_min_volume] are never written. *)
Definition g_vc_max_volume : Z := 15.
Definition g_vc_min_volume : Z := 1.

Section Music.
Context (g_media_max_volume : Z).

Definition bt_media_volume_avrcp_to_media (volume : Z) : Z :=
  if AVRCP_MAX_ABSOLUTE_VOLUME <=? volume then g_media_max_volume
  else Z.quot (volume * g_media_max_volume + Z.shiftr AVRCP_MAX_ABSOLUTE_VOLUME 1) AVRCP_MAX_ABSOLUTE_VOLUME.

Definition bt_media_volume_media_to_avrcp (volume : Z) : Z :=
  if volume <=? 0 then 0
  else if g_media_max_volume <=? volume then AVRCP_MAX_ABSOLUTE_VOLUME
  else u8 (Z.quot (volume * AVRCP_MAX_ABSOLUTE_VOLUME + Z.shiftr g_media_max_volume 1) g_media_max_volume).
End Music.

Definition bt_media_volume_hfp_to_media (hfp_volume : Z) : Z :=
  if hfp_volume <=? MIN_HFP_SCO_VOICE_CALL_VOLUME then g_vc_min_volume
  else if MAX_HFP_SCO_VOICE_CALL_VOLUME <=? hfp_volume then g_vc_max_volume
  else
    let media_range := g_vc_max_volume - g_vc_min_volume in
    let hfp_range := MAX_HFP_SCO_VOICE_CALL_VOLUME - MIN_HFP_SCO_VOICE_CALL_VOLUME in
    g_vc_min_volume + Z.quot (media_range * (hfp_volume - MIN_HFP_SCO_VOICE_CALL_VOLUME)) hfp_range.

Definition bt_media_volume_media_to_hfp (media_volume : Z) : Z :=
  if media_volume <=? g_vc_min_volume then MIN_HFP_SCO_VOICE_CALL_VOLUME
  else if g_vc_max_volume <=? media_volume then MAX_HFP_SCO_VOICE_CALL_VOLUME
  else
    let media_range := if g_vc_min_volume <? g_vc_max_volume then g_vc_max_volume - g_vc_min_volume else 1 in
    let hfp_range := MAX_HFP_SCO_VOICE_CALL_VOLUME - MIN_HFP_SCO_VOICE_CALL_VOLUME in
    u8 (MIN_HFP_SCO_VOICE_CALL_VOLUME + Z.quot (hfp_range * (media_volume - g_vc_min_volume)) media_range).

(** ** Rounding *)

(** Rounding to the nearest of [a] steps of [b] and back loses nothing when
    there are no more steps than [b]. *)
Lemma round_there v b n :
  0 < v < n -> 0 < n <= b ->
  let w := (v * b + n / 2) / n in
  n * w <= v * b + n / 2 < n * w + n /\ 0 <= w < b + 1.
Proof.
  intros Hv Hn w. assert (0 <= n / 2 < n) by (split; [apply Z.div_pos; lia|apply Z.div_lt_upper_bound; lia]).
  assert (n * w <= v * b + n / 2 < n * w + n) as Hw.
  { unfold w. pose proof (Z.div_mod (v * b + n / 2) n ltac:(lia)). pose proof (Z.mod_pos_bound (v * b + n / 2) n ltac:(lia)). lia. }
  split; [done|]. nia.
Qed.

Lemma round_back v b n :
  Z.odd b = true -> 0 < v < n -> 0 < n <= b ->
  let w := (v * b + n / 2) / n in (w * n + b / 2) / b = v.
Proof.
  intros Hodd Hv Hn w. destruct (round_there v b n Hv Hn) as [Hw Hw2]. fold w in Hw, Hw2.
  assert (b = 2 * (b / 2) + 1) as Hb.
  { pose proof (Z.div_mod b 2 ltac:(lia)). rewrite Zmod_odd, Hodd in *. lia. }
  assert (2 * (n / 2) <= n) by (apply Z.mul_div_le; lia).
  assert (n < 2 * (n / 2) + 2) by (pose proof (Z.div_mod n 2 ltac:(lia)); pose proof (Z.mod_pos_bound n 2 ltac:(lia)); lia).
  symmetry. apply (Z.div_unique _ _ _ (w * n + b / 2 - v * b)); [left; lia|lia].
Qed.

(** A music volume the media system reports, sent over AVRCP and set
    again from there, is the same volume, for every range of up to 127 steps;
    what is sent is always an AVRCP volume. *)
Theorem avrcp_volume_roundtrip (max v : Z) :
  0 < max <= AVRCP_MAX_ABSOLUTE_VOLUME -> 0 <= v <= max ->
  0 <= bt_media_volume_media_to_avrcp max v <= AVRCP_MAX_ABSOLUTE_VOLUME /\
  bt_media_volume_avrcp_to_media max (bt_media_volume_media_to_avrcp max v) = v.
Proof.
  intros Hm Hv. unfold bt_media_volume_media_to_avrcp, AVRCP_MAX_ABSOLUTE_VOLUME in *.
  destruct (v <=? 0) eqn:E1; [bool_lia|].
  { assert (v = 0) as -> by lia. split; [lia|]. reflexivity. }
  destruct (max <=? v) eqn:E2; bool_lia.
  { assert (v = max) as -> by lia. split; [lia|]. reflexivity. }
  rewrite Z.shiftr_div_pow2 by lia. change (2 ^ 1) with 2.
  destruct (round_there v 127 max ltac:(lia) ltac:(lia)) as [Hw Hr].
  rewrite Z.quot_div_nonneg by (try lia; assert (0 <= max / 2) by (apply Z.div_pos; lia); nia).
  rewrite uint_small by (unfold in_u; lia). split; [lia|].
  unfold bt_media_volume_avrcp_to_media, AVRCP_MAX_ABSOLUTE_VOLUME.
  destruct (127 <=? (v * 127 + max / 2) / max) eqn:E3.
  - exfalso. bool_lia. assert (2 * (max / 2) <= max) by (apply Z.mul_div_le; lia). nia.
  - rewrite Z.shiftr_div_pow2 by lia. change (2 ^ 1) with 2.
    rewrite Z.quot_div_nonneg by (try lia; change (127 / 2) with 63; nia).
    by apply (round_back v 127 max).
Qed.

Lemma avrcp_volume_roundtrip_witness :
  bt_media_volume_avrcp_to_media 15 (bt_media_volume_media_to_avrcp 15 7) = 7.
Proof. apply (avrcp_volume_roundtrip 15 7); unfold AVRCP_MAX_ABSOLUTE_VOLUME; lia. Defined.

(** HFP and the voice call volume have the same steps. *)
Lemma hfp_volume_roundtrip v :
  MIN_HFP_SCO_VOICE_CALL_VOLUME <= v <= MAX_HFP_SCO_VOICE_CALL_VOLUME ->
  bt_media_volume_media_to_hfp (bt_media_volume_hfp_to_media v) = v.
Proof.
  unfold MIN_HFP_SCO_VOICE_CALL_VOLUME, MAX_HFP_SCO_VOICE_CALL_VOLUME. intros H.
  assert (v = 1 \/ v = 2 \/ v = 3 \/ v = 4 \/ v = 5 \/ v = 6 \/ v = 7 \/ v = 8 \/ v = 9 \/ v = 10 \/ v = 11 \/
          v = 12 \/ v = 13 \/ v = 14 \/ v = 15) as Hv by lia.
  repeat destruct Hv as [->|Hv]; subst; reflexivity.
Qed.
End MediaSystem.
