(* ===== verification/Hfp.v ===== *)
(** * What the two HFP profiles share

    The values of framework/include/bt_hfp.h, bt_device.h and
    service/profiles/include/hfp_define.h that both machines use, and the
    conversions of a message's fields. *)

From S2P Require Import Prelude CString.
From stdpp Require Import strings.

Module Hfp.

Definition PROFILE_STATE_DISCONNECTED : Z := 0.
Definition PROFILE_STATE_CONNECTING : Z := 1.
Definition PROFILE_STATE_CONNECTED : Z := 2.
Definition PROFILE_STATE_DISCONNECTING : Z := 3.
Definition PROFILE_REASON_COLLISION : Z := 1.
Definition HFP_AUDIO_STATE_DISCONNECTED : Z := 0.
Definition HFP_AUDIO_STATE_CONNECTING : Z := 1.
Definition HFP_AUDIO_STATE_CONNECTED : Z := 2.
Definition HFP_AUDIO_STATE_DISCONNECTING : Z := 3.
Definition HFP_CODEC_MSBC : Z := 1.
Definition HFP_CODEC_CVSD : Z := 2.
Definition HFP_CALL_NO_CALLS_IN_PROGRESS : Z := 0.
Definition HFP_CALL_CALLS_IN_PROGRESS : Z := 1.
Definition HFP_CALLSETUP_NONE : Z := 0.
Definition HFP_CALLSETUP_INCOMING : Z := 1.
Definition HFP_CALLSETUP_OUTGOING : Z := 2.
Definition HFP_CALLSETUP_ALERTING : Z := 3.
Definition HFP_CALLHELD_NONE : Z := 0.
Definition HFP_CALLHELD_HELD : Z := 1.
Definition HFP_VOLUME_TYPE_SPK : Z := 0.
Definition HFP_VOLUME_TYPE_MIC : Z := 1.
Definition HFP_CALL_DIRECTION_OUTGOING : Z := 0.
Definition HFP_CALL_DIRECTION_INCOMING : Z := 1.
Definition HFP_CALL_MODE_VOICE : Z := 0.
Definition HFP_CALL_MPTY_TYPE_SINGLE : Z := 0.
Definition HFP_CALL_ADDRTYPE_UNKNOWN : Z := 0x81.
Definition HFP_ATCMD_RESULT_OK : Z := 0.
Definition HFP_ATCMD_RESULT_TIMEOUT : Z := 1.
Definition HFP_ATCMD_RESULT_ERROR : Z := 2.
Definition HFP_ATCMD_RESULT_CMEERR_OPERATION_NOTSUPPORTED : Z := 13.
Definition UINT32_MAX : Z := 2 ^ 32 - 1.
Definition PENDING_OFFLOAD_START : Z := 0x02.
Definition PENDING_OFFLOAD_STOP : Z := 0x04.

(** C conversions of a value of a message. *)
Definition s32 (z : Z) : Z := if (u32 z <? 2 ^ 31)%Z then u32 z else (u32 z - 2 ^ 32)%Z.

(** [snprintf(dst, n, "%s", src)] into [n] bytes. *)
Abbreviation snprintf_s := strlcpy.

Inductive audio_ctrl_evt_t := AUDIO_CTRL_EVT_STARTED | AUDIO_CTRL_EVT_START_FAIL | AUDIO_CTRL_EVT_STOPPED.
End Hfp.
