(* ===== verification/Lea.v ===== *)
(** * The LE Audio machines: what client and server share (service/profiles/leaudio)

    One machine per peer on each side of LE Audio, both with the states
    Closed, Opening, Opened, Started and Closing, on the engine of [Hsm]: the
    unicast client (lea_client_state_machine.c, [LeaClient]), which configures and starts
    the streams of a group, and the unicast server
    (lea_server_state_machine.c, [LeaServer]), which follows its client.  Both hand the
    audio over to the controller with a vendor command that is watched by a
    timer.

    What a machine calls is an [out]; what the code called answers is in
    [env].  The debug functions, which only print, are left out. *)

From S2P Require Import Prelude Hsm HsmLogic Bytes BtAddr Hci Hfp.
From stdpp Require Import strings.
From coqutil Require Import Datatypes.RecordSetters.
Import UpdaterNotations.

Local Open Scope bt_scope.

Module Lea.
Import Hsm BtAddr Hci.

Inductive state := closed_state | opening_state | opened_state | started_state | closing_state.

#[export] Instance state_eq_dec : EqDecision state.
Proof. solve_decision. Defined.

Definition name_of (s : state) : string :=
  match s with
  | closed_state => "Closed" | opening_state => "Opening" | opened_state => "Opened"
  | started_state => "Started" | closing_state => "Closing"
  end.

Definition PENDING_OFFLOAD_START : Z := 0x08.
Definition PENDING_OFFLOAD_STOP : Z := 0x10.
Definition LEA_SERVER_OFFLOAD_TIMEOUT : Z := 500.

(** What the machines look at of [lea_audio_stream_t]. *)
Record lea_audio_stream_t := mk_stream { is_source : bool; sdu_size : Z }.

(** [data] of a message points to the bytes of a vendor command, to an event of
    the controller or to a stream, depending on the event. *)
Record lea_data_t := mk_lea_data {
  data_addr : bt_address_t;
  valueint1 : Z;
  valueint2 : Z;
  valueint3 : Z;
  vsc : list Z;
  hci_event : bt_hci_event_t;
  stream : lea_audio_stream_t;
}.

(** Of a message made with an address alone. *)
Definition no_data (a : bt_address_t) : lea_data_t := mk_lea_data a 0 0 0 [] (mk_hci 0 []) (mk_stream false 0).
Definition hci_data (a : bt_address_t) (h : bt_hci_event_t) : lea_data_t := mk_lea_data a 0 0 0 [] h (mk_stream false 0).

(** What the code called answers. *)
Record env := mk_env {
  mem : bool;                           (* a message can be allocated *)
  new_timer : option timer_h;           (* service_loop_timer; None: NULL *)
  codec_config : bool -> bool;          (* lea_codec_get_config gives a configuration *)
  find_stream : Z -> option bool;       (* the stream, and whether it is a source *)
}.

(** The state a listener is told. *)
Definition conn_state (c : state) : Z :=
  match c with closed_state => Hfp.PROFILE_STATE_DISCONNECTED | _ => Hfp.PROFILE_STATE_CONNECTED end.
End Lea.
