(* ===== verification/LeaServer.v ===== *)
(** * The LE Audio unicast server (service/profiles/leaudio/server/lea_server_state_machine.c)

    The machine that follows what one client configures and starts. *)

From S2P Require Import Prelude Hsm HsmLogic Bytes BtAddr Hci Hfp Lea.
From stdpp Require Import strings.
From coqutil Require Import Datatypes.RecordSetters.
Import UpdaterNotations.

Local Open Scope bt_scope.

Module LeaServer.
Import Hsm HsmLogic BtAddr Hci Lea.
Import Hfp(PROFILE_STATE_DISCONNECTED, PROFILE_STATE_CONNECTED).

Inductive lea_server_event_t :=
| DISCONNECT | CONFIG_CODEC | STARTUP | SHUTDOWN | TIMEOUT
| OFFLOAD_START_REQ | OFFLOAD_STOP_REQ | OFFLOAD_START_EVT | OFFLOAD_STOP_EVT | OFFLOAD_TIMEOUT
| STACK_EVENT_STACK_STATE | STACK_EVENT_CONNECTION_STATE | STACK_EVENT_METADATA_UPDATED | STACK_EVENT_STORAGE
| STACK_EVENT_SERVICE | STACK_EVENT_STREAM_ADDED | STACK_EVENT_STREAM_REMOVED | STACK_EVENT_STREAM_STARTED
| STACK_EVENT_STREAM_STOPPED | STACK_EVENT_STREAM_RESUME | STACK_EVENT_STREAM_SUSPEND | STACK_EVENT_STREAN_RECV
| STACK_EVENT_STREAN_SENT | STACK_EVENT_ASE_CODEC_CONFIG | STACK_EVENT_ASE_QOS_CONFIG | STACK_EVENT_ASE_ENABLING
| STACK_EVENT_ASE_STREAMING | STACK_EVENT_ASE_DISABLING | STACK_EVENT_ASE_RELEASING | STACK_EVENT_ASE_IDLE
| STACK_EVENT_INIT | STACK_EVENT_ANNOUNCE | STACK_EVENT_DISCONNECT | STACK_EVENT_CLEANUP.

Record lea_server_msg_t := mk_msg { event : lea_server_event_t; msg_data : lea_data_t }.

Definition lea_server_msg_new (ev : lea_server_event_t) (a : bt_address_t) : lea_server_msg_t := mk_msg ev (no_data a).

Inductive out :=
| lea_server_notify_connection_state_changed (a : bt_address_t) (s : Z)
| lea_server_add_stream (id : Z) (a : bt_address_t)
| lea_server_remove_stream (id : Z)
| lea_server_streams_started (a : bt_address_t)
| stream_stopped (id : Z)                 (* stream->started = false *)
| lea_audio_source_update_codec (sdu : Z)
| lea_audio_sink_update_codec (sdu : Z)
| lea_audio_sink_start
| lea_audio_source_stop
| lea_audio_sink_stop
| bt_sal_send_hci_command (ogf ocf len : Z) (payload : list Z)
| service_loop_timer (timeout : Z) (h : option timer_h)
| service_loop_cancel_timer (h : timer_h)
| lea_server_send_message (m : lea_server_msg_t)
| overread.                               (* a command shorter than its header is read *)

(** The fields of [lea_server_state_machine_t] after [sm]. *)
Record server_data := mk_data {
  offloading : bool;
  pending : Z;
  addr : bt_address_t;
  offload_timer : option timer_h;
}.

Abbreviation lea_server_state_machine_t := (state_machine_t state server_data).
Abbreviation MV := (M lea_server_state_machine_t out).

Definition upd (f : server_data -> server_data) : MV unit := modify (upd_data f).
Definition field {A} (f : server_data -> A) : MV A := gets (fun sm => f sm.(data)).

Definition flag_isset (flag : Z) : MV bool := field (fun d => flag_isset_v d.(pending) flag).
Definition flag_set (flag : Z) : MV unit := upd {! pending ::= fun p => flag_set_v p flag }.
Definition flag_clear (flag : Z) : MV unit := upd {! pending ::= fun p => flag_clear_v p flag }.

Definition closed_enter : MV unit :=
  prev <- gets hsm_get_previous_state;;
  match prev with
  | Some _ => a <- field addr;; emit (lea_server_notify_connection_state_changed a PROFILE_STATE_DISCONNECTED)
  | None => mret_ tt
  end.

Definition started_enter : MV unit :=
  off <- field offloading;;
  a <- field addr;;
  when off (emit (lea_server_streams_started a)).

(** The other functions only print. *)
#[export] Instance server_states : StateTable state server_data out := {|
  state_name := name_of;
  state_value _ := 0%Z;
  enter s := match s with closed_state => closed_enter | started_state => started_enter | _ => mret_ tt end;
  exit _ := mret_ tt;
|}.

Section Handlers.
Context (e : env).

(** The controller's answer to the command that is pending. *)
Definition bt_hci_event_callback (h : bt_hci_event_t) : MV unit :=
  a <- field addr;;
  start <- flag_isset PENDING_OFFLOAD_START;;
  if (start : bool) then
    flag_clear PENDING_OFFLOAD_START;;;
    when e.(mem) (emit (lea_server_send_message (mk_msg OFFLOAD_START_EVT (hci_data a h))))
  else
    stop <- flag_isset PENDING_OFFLOAD_STOP;;
    if (stop : bool) then
      flag_clear PENDING_OFFLOAD_STOP;;;
      when e.(mem) (emit (lea_server_send_message (mk_msg OFFLOAD_STOP_EVT (hci_data a h))))
    else mret_ tt.

(** The peer is gone. *)
Definition connection_lost (d : lea_data_t) : MV unit :=
  if (d.(valueint1) =? PROFILE_STATE_DISCONNECTED)%Z then hsm_transition_to closed_state else mret_ tt.

Definition closed_process_event (ev : lea_server_event_t) (d : lea_data_t) : MV bool :=
  a <- field addr;;
  (match ev with
   | STACK_EVENT_CONNECTION_STATE =>
       if (d.(valueint1) =? PROFILE_STATE_CONNECTED)%Z
       then emit (lea_server_notify_connection_state_changed a PROFILE_STATE_CONNECTED);;; hsm_transition_to opening_state
       else mret_ tt
   | _ => mret_ tt
   end);;; mret_ true.

Definition opening_process_event (ev : lea_server_event_t) (d : lea_data_t) : MV bool :=
  a <- field addr;;
  (match ev with
   | STACK_EVENT_CONNECTION_STATE => connection_lost d
   | STACK_EVENT_STREAM_ADDED => emit (lea_server_add_stream d.(valueint1) a)
   | STACK_EVENT_STREAM_REMOVED => emit (lea_server_remove_stream d.(valueint1))
   | STACK_EVENT_ASE_QOS_CONFIG => hsm_transition_to opened_state
   | STACK_EVENT_ASE_RELEASING => hsm_transition_to closing_state
   | _ => mret_ tt
   end);;; mret_ true.

Definition lea_server_stop_audio (id : Z) : MV unit :=
  match e.(find_stream) id with
  | None => mret_ tt
  | Some src => emit (stream_stopped id);;; if (src : bool) then emit lea_audio_source_stop else emit lea_audio_sink_stop
  end.

(** The command in the message, and what is done before it is sent. *)
Definition send_vsc (d : lea_data_t) (before : MV unit) : MV unit :=
  match split_command d.(vsc) (Z.of_nat (length d.(vsc))) with
  | None => emit overread
  | Some (ogf, ocf, len, payload) => before;;; emit (bt_sal_send_hci_command ogf ocf len payload)
  end.

Definition lea_server_stop_offload_req (d : lea_data_t) : MV unit := send_vsc d (flag_set PENDING_OFFLOAD_STOP).

Definition offload_timeout : MV unit := flag_clear PENDING_OFFLOAD_START;;; upd {! offload_timer := None }.

Definition offload_start_req (d : lea_data_t) : MV unit :=
  send_vsc d (
    flag_set PENDING_OFFLOAD_START;;;
    emit (service_loop_timer LEA_SERVER_OFFLOAD_TIMEOUT e.(new_timer));;;
    upd {! offload_timer := e.(new_timer) }).

(** The timer that is running is stopped. *)
Definition stop_offload_timer : MV unit :=
  t <- field offload_timer;;
  match t with
  | Some h => emit (service_loop_cancel_timer h);;; upd {! offload_timer := None }
  | None => mret_ tt
  end.

Definition opened_process_event (ev : lea_server_event_t) (d : lea_data_t) : MV bool :=
  a <- field addr;;
  (match ev with
   | STACK_EVENT_CONNECTION_STATE => connection_lost d
   | STACK_EVENT_ASE_ENABLING =>
       off <- field offloading;;
       if (off : bool) then mret_ tt else hsm_transition_to started_state
   | OFFLOAD_START_REQ => offload_start_req d
   | OFFLOAD_START_EVT =>
       stop_offload_timer;;;
       if negb (hci_succeeded d.(hci_event)) then mret_ tt else hsm_transition_to started_state
   | OFFLOAD_TIMEOUT => offload_timeout
   | OFFLOAD_STOP_REQ => lea_server_stop_offload_req d
   | STACK_EVENT_ASE_CODEC_CONFIG => hsm_transition_to opening_state
   | STACK_EVENT_ASE_RELEASING => hsm_transition_to closing_state
   | STACK_EVENT_STREAM_ADDED => emit (lea_server_add_stream d.(valueint1) a)
   | STACK_EVENT_STREAM_REMOVED => emit (lea_server_remove_stream d.(valueint1))
   | STACK_EVENT_STREAM_STOPPED => lea_server_stop_audio d.(valueint1)
   | _ => mret_ tt
   end);;; mret_ true.

(** The audio of a stream that has started. *)
Definition stream_started (s : lea_audio_stream_t) : MV unit :=
  if negb (e.(codec_config) s.(is_source)) then mret_ tt
  else if s.(is_source) then emit (lea_audio_source_update_codec s.(sdu_size))
  else emit (lea_audio_sink_update_codec s.(sdu_size));;; emit lea_audio_sink_start.

Definition started_process_event (ev : lea_server_event_t) (d : lea_data_t) : MV bool :=
  a <- field addr;;
  (match ev with
   | STACK_EVENT_CONNECTION_STATE => connection_lost d
   | STACK_EVENT_ASE_QOS_CONFIG => hsm_transition_to opened_state
   | STACK_EVENT_STREAM_STARTED => stream_started d.(stream)
   | STACK_EVENT_STREAM_STOPPED => lea_server_stop_audio d.(valueint1)
   | STACK_EVENT_ASE_DISABLING => hsm_transition_to closing_state
   | STACK_EVENT_ASE_RELEASING => hsm_transition_to closing_state
   | OFFLOAD_STOP_REQ => lea_server_stop_offload_req d
   | OFFLOAD_TIMEOUT => offload_timeout
   | STACK_EVENT_STREAM_REMOVED => emit (lea_server_remove_stream d.(valueint1))
   | _ => mret_ tt
   end);;; mret_ true.

Definition closing_process_event (ev : lea_server_event_t) (d : lea_data_t) : MV bool :=
  a <- field addr;;
  (match ev with
   | STACK_EVENT_CONNECTION_STATE => connection_lost d
   | STACK_EVENT_ASE_CODEC_CONFIG => hsm_transition_to opening_state
   | STACK_EVENT_ASE_RELEASING => hsm_transition_to closing_state
   | OFFLOAD_STOP_REQ => lea_server_stop_offload_req d
   | OFFLOAD_TIMEOUT => offload_timeout
   | STACK_EVENT_STREAM_REMOVED => emit (lea_server_remove_stream d.(valueint1))
   | STACK_EVENT_STREAM_STOPPED => lea_server_stop_audio d.(valueint1)
   | _ => mret_ tt
   end);;; mret_ true.

#[export] Instance server_events : EventTable state server_data out lea_server_msg_t := {|
  process_event s m :=
    match s with
    | closed_state => closed_process_event m.(event) m.(msg_data)
    | opening_state => opening_process_event m.(event) m.(msg_data)
    | opened_state => opened_process_event m.(event) m.(msg_data)
    | started_state => started_process_event m.(event) m.(msg_data)
    | closing_state => closing_process_event m.(event) m.(msg_data)
    end;
|}.

Definition lea_server_state_machine_dispatch (m : lea_server_msg_t) : MV unit := hsm_dispatch_event m;;; mret_ tt.

Definition lea_offload_config_timeout_callback : MV unit :=
  a <- field addr;;
  when e.(mem) (lea_server_state_machine_dispatch (lea_server_msg_new OFFLOAD_TIMEOUT a)).

Definition lea_server_state_machine_set_offloading (on : bool) : MV unit := upd {! offloading := on }.
End Handlers.

Definition lea_server_state_machine_new (a : bt_address_t) : lea_server_state_machine_t :=
  exec (hsm_ctor closed_state) (mk_sm None None None (mk_data false 0 a None)).

(** Every state has the value 0. *)
Definition lea_server_state_machine_get_state (sm : lea_server_state_machine_t) : option Z := hsm_get_current_state_value sm.
End LeaServer.
