(* ===== verification/LeaSpec.v ===== *)
(** * The LE Audio machines: what holds

    For every sequence of messages, answers of the controller, expiries of the
    timer and changes of the offloading, on both sides. *)

From S2P Require Import Prelude Hsm HsmLogic Bytes BtAddr Hci Hfp Lea LeaClient LeaServer.
From stdpp Require Import strings.
From coqutil Require Import Datatypes.RecordSetters.
Import UpdaterNotations.

Local Open Scope bt_scope.

Ltac cases :=
  repeat (match goal with
          | |- context [(?x =? ?y)%Z] => destruct (x =? y)%Z
          | |- context [Hci.split_command ?a ?b] => destruct (Hci.split_command a b) as [[[[? ?] ?] ?]|]
          | |- context [Lea.find_stream ?e ?i] => destruct (Lea.find_stream e i) as [[]|]
          | |- context [Lea.codec_config ?e ?b] => destruct (Lea.codec_config e b)
          | |- context [Hci.hci_succeeded ?h] => destruct (Hci.hci_succeeded h)
          | |- context [flag_isset_v ?p ?f] => destruct (flag_isset_v p f)
          | |- context [Lea.mem ?e] => destruct (Lea.mem e)
          | |- context [match ?t with Some _ => _ | None => _ end] => is_var t; destruct t
          | |- context [when ?b _] => is_var b; destruct b
          | |- context [negb ?b] => is_var b; destruct b
          | |- context [if ?b then _ else _] => is_var b; destruct b
          end; cbn).

(** ** The client *)

Module LeaClientSpec.
Import Hsm HsmLogic BtAddr Hci Lea LeaClient.

Inductive input := in_msg (m : lea_client_msg_t) | in_hci (h : bt_hci_event_t) | in_timeout | in_offloading (on : bool).

Definition handle_input (e : env) (i : input) : MC unit :=
  match i with
  | in_msg m => lea_client_state_machine_dispatch e m
  | in_hci h => bt_hci_event_callback e h
  | in_timeout => lea_offload_config_timeout_callback e
  | in_offloading on => lea_client_state_machine_set_offloading on
  end.

Fixpoint run_inputs (l : list (env * input)) : MC unit :=
  match l with [] => mret_ tt | (e, i) :: l => handle_input e i;;; run_inputs l end.

Definition conn_report (o : out) : option Z :=
  match o with lea_client_notify_connection_state_changed _ s => Some s | _ => None end.

Definition timer_effect (h : timer_h) (o : out) : Z :=
  match o with
  | service_loop_timer _ t => b2z (bool_decide (t = Some h))
  | service_loop_cancel_timer t => - b2z (bool_decide (t = h))
  | _ => 0
  end.

Definition holds (h : timer_h) (d : client_data) : Z := b2z (bool_decide (d.(offload_timer) = Some h)).

(** The moves of the client: a group is configured in Opening (or again in
    Closing) before it is enabled in Opened and streams in Started. *)
Definition edge (c c' : state) : bool :=
  match c, c' with
  | closed_state, opening_state
  | opening_state, (closed_state | opened_state)
  | opened_state, (closed_state | started_state)
  | started_state, (closed_state | closing_state)
  | closing_state, (closed_state | opened_state) => true
  | _, _ => false
  end.

Record step (c c' : state) (d d' : client_data) (os : list out) : Prop := {
  st_addr : d'.(addr) = d.(addr);
  st_conn : heard conn_report (conn_state c) os = conn_state c';
  st_timers : forall h, (holds h d' - holds h d <= net (timer_effect h) os)%Z;
}.

Ltac timers := intros ?; unfold holds, net, timer_effect, b2z; cbn; repeat case_bool_decide; simplify_eq; lia.

Ltac unfold_all :=
  unfold exec, outs, handle_input, lea_client_state_machine_dispatch, lea_offload_config_timeout_callback, bt_hci_event_callback,
    hsm_dispatch_event, mbind_, gets, mret_, modify, emit, when; cbn;
  unfold closed_process_event, opening_process_event, opened_process_event, started_process_event, closing_process_event,
    connection_lost, connect_audio, lea_client_stop_audio, lea_client_stop_offload_req, offload_start_req, send_vsc, offload_timeout, stream_started,
    stop_offload_timer, hsm_transition_to, closed_enter, flag_isset, flag_set, flag_clear, field, upd,
    mbind_, gets, mret_, modify, emit, when; cbn.
Ltac finish := eexists; split; [reflexivity|]; split; [by (left + right)|split; [reflexivity|reflexivity|timers]].

Lemma client_input_step e i sm c :
  sm.(current_state) = Some c ->
  exists c', (exec (handle_input e i) sm).(current_state) = Some c' /\ (c' = c \/ edge c c' = true) /\
    step c c' sm.(data) (exec (handle_input e i) sm).(data) (outs (handle_input e i) sm).
Proof.
  intros Hc. destruct sm as [ini prev cur [off g p t a]]. cbn in Hc. subst cur.
  destruct i as [[ev [da v1 v2 v3 vs hev [src sdu]]]|h| |on].
  - destruct c, ev; unfold_all; cases; finish.
  - unfold_all; cases; finish.
  - unfold_all; cases; destruct c; unfold_all; finish.
  - finish.
Qed.

Lemma client_inputs_run l sm c :
  sm.(current_state) = Some c ->
  exists c', (exec (run_inputs l) sm).(current_state) = Some c' /\ step c c' sm.(data) (exec (run_inputs l) sm).(data) (outs (run_inputs l) sm).
Proof.
  revert sm c. induction l as [|[e i] l IH]; intros sm c Hc; cbn [run_inputs].
  - exists c. split; [done|]. split; try done. timers.
  - destruct (client_input_step e i sm c Hc) as (c1 & H1 & _ & [A1 A2 A3]). destruct (IH _ c1 H1) as (c2 & H2 & [B1 B2 B3]).
    exists c2. autorewrite with bt. split; [done|]. split.
    + congruence.
    + by rewrite heard_app, A2.
    + intros h. rewrite net_app. specialize (A3 h). specialize (B3 h). lia.
Qed.
End LeaClientSpec.

(** ** The server *)

Module LeaServerSpec.
Import Hsm HsmLogic BtAddr Hci Lea LeaServer.

Inductive input := in_msg (m : lea_server_msg_t) | in_hci (h : bt_hci_event_t) | in_timeout | in_offloading (on : bool).

Definition handle_input (e : env) (i : input) : MV unit :=
  match i with
  | in_msg m => lea_server_state_machine_dispatch e m
  | in_hci h => bt_hci_event_callback e h
  | in_timeout => lea_offload_config_timeout_callback e
  | in_offloading on => lea_server_state_machine_set_offloading on
  end.

Fixpoint run_inputs (l : list (env * input)) : MV unit :=
  match l with [] => mret_ tt | (e, i) :: l => handle_input e i;;; run_inputs l end.

Definition conn_report (o : out) : option Z :=
  match o with lea_server_notify_connection_state_changed _ s => Some s | _ => None end.

Definition timer_effect (h : timer_h) (o : out) : Z :=
  match o with
  | service_loop_timer _ t => b2z (bool_decide (t = Some h))
  | service_loop_cancel_timer t => - b2z (bool_decide (t = h))
  | _ => 0
  end.

Definition holds (h : timer_h) (d : server_data) : Z := b2z (bool_decide (d.(offload_timer) = Some h)).

(** The moves of the server: the streams are configured in Opening, ready in
    Opened and run in Started. *)
Definition edge (c c' : state) : bool :=
  match c, c' with
  | closed_state, opening_state
  | opening_state, (closed_state | opened_state | closing_state)
  | opened_state, (closed_state | opening_state | started_state | closing_state)
  | started_state, (closed_state | opened_state | closing_state)
  | closing_state, (closed_state | opening_state | closing_state) => true
  | _, _ => false
  end.

Record step (c c' : state) (d d' : server_data) (os : list out) : Prop := {
  st_addr : d'.(addr) = d.(addr);
  st_conn : heard conn_report (conn_state c) os = conn_state c';
  st_timers : forall h, (holds h d' - holds h d <= net (timer_effect h) os)%Z;
}.

Ltac timers := intros ?; unfold holds, net, timer_effect, b2z; cbn; repeat case_bool_decide; simplify_eq; lia.

Ltac unfold_all :=
  unfold exec, outs, handle_input, lea_server_state_machine_dispatch, lea_offload_config_timeout_callback, bt_hci_event_callback,
    hsm_dispatch_event, mbind_, gets, mret_, modify, emit, when; cbn;
  unfold closed_process_event, opening_process_event, opened_process_event, started_process_event, closing_process_event,
    connection_lost, lea_server_stop_audio, lea_server_stop_offload_req, offload_start_req, send_vsc, offload_timeout, stream_started,
    stop_offload_timer, hsm_transition_to, closed_enter, started_enter, flag_isset, flag_set, flag_clear, field, upd,
    mbind_, gets, mret_, modify, emit, when; cbn.
Ltac finish := eexists; split; [reflexivity|]; split; [by (left + right)|split; [reflexivity|reflexivity|timers]].

Lemma server_input_step e i sm c :
  sm.(current_state) = Some c ->
  exists c', (exec (handle_input e i) sm).(current_state) = Some c' /\ (c' = c \/ edge c c' = true) /\
    step c c' sm.(data) (exec (handle_input e i) sm).(data) (outs (handle_input e i) sm).
Proof.
  intros Hc. destruct sm as [ini prev cur [off p a t]]. cbn in Hc. subst cur.
  destruct i as [[ev [da v1 v2 v3 vs hev [src sdu]]]|h| |on].
  - destruct c, ev; unfold_all; cases; finish.
  - unfold_all; cases; finish.
  - unfold_all; cases; destruct c; unfold_all; finish.
  - finish.
Qed.

Lemma server_inputs_run l sm c :
  sm.(current_state) = Some c ->
  exists c', (exec (run_inputs l) sm).(current_state) = Some c' /\ step c c' sm.(data) (exec (run_inputs l) sm).(data) (outs (run_inputs l) sm).
Proof.
  revert sm c. induction l as [|[e i] l IH]; intros sm c Hc; cbn [run_inputs].
  - exists c. split; [done|]. split; try done. timers.
  - destruct (server_input_step e i sm c Hc) as (c1 & H1 & _ & [A1 A2 A3]). destruct (IH _ c1 H1) as (c2 & H2 & [B1 B2 B3]).
    exists c2. autorewrite with bt. split; [done|]. split.
    + congruence.
    + by rewrite heard_app, A2.
    + intros h. rewrite net_app. specialize (A3 h). specialize (B3 h). lia.
Qed.
End LeaServerSpec.

(** ** Theorems *)

Module LeaSpec.
Import Hsm HsmLogic BtAddr Hci Lea.

(** C22: On both sides of LE Audio and whatever happens, the state of the
    connection that the service was told last is Connected exactly while the
    machine is not in Closed (and Disconnected in Closed), no timer is
    cancelled more often than it was started, and every input moves the
    machine along at most one edge of its diagram: audio is started only from
    Opened, and streams again only after Opened was reached again. *)
Theorem lea_listeners_agree (a : bt_address_t) (h : timer_h) :
  (forall l e i,
     let r := LeaClientSpec.run_inputs l in
     let sm := LeaClient.lea_client_state_machine_new a in
     exists c c', (exec r sm).(current_state) = Some c /\ (exec r sm).(data).(LeaClient.addr) = a /\
       heard LeaClientSpec.conn_report Hfp.PROFILE_STATE_DISCONNECTED (outs r sm) = conn_state c /\
       (0 <= net (LeaClientSpec.timer_effect h) (outs r sm))%Z /\
       (exec (LeaClientSpec.handle_input e i) (exec r sm)).(current_state) = Some c' /\ (c' = c \/ LeaClientSpec.edge c c' = true)) /\
  (forall l e i,
     let r := LeaServerSpec.run_inputs l in
     let sm := LeaServer.lea_server_state_machine_new a in
     exists c c', (exec r sm).(current_state) = Some c /\ (exec r sm).(data).(LeaServer.addr) = a /\
       heard LeaServerSpec.conn_report Hfp.PROFILE_STATE_DISCONNECTED (outs r sm) = conn_state c /\
       (0 <= net (LeaServerSpec.timer_effect h) (outs r sm))%Z /\
       (exec (LeaServerSpec.handle_input e i) (exec r sm)).(current_state) = Some c' /\ (c' = c \/ LeaServerSpec.edge c c' = true)).
Proof.
  split; intros l e i r sm.
  - destruct (LeaClientSpec.client_inputs_run l sm closed_state eq_refl) as (c & Hc & [S1 S2 S3]).
    destruct (LeaClientSpec.client_input_step e i _ c Hc) as (c' & Hc' & He & _). exists c, c'. split_and!; try done.
    specialize (S3 h). change (LeaClientSpec.holds h (data sm)) with 0%Z in S3.
    assert (forall d, (0 <= LeaClientSpec.holds h d)%Z) as Hh by (intros d; unfold LeaClientSpec.holds, b2z; case_bool_decide; lia).
    specialize (Hh (exec r sm).(data)). subst r. lia.
  - destruct (LeaServerSpec.server_inputs_run l sm closed_state eq_refl) as (c & Hc & [S1 S2 S3]).
    destruct (LeaServerSpec.server_input_step e i _ c Hc) as (c' & Hc' & He & _). exists c, c'. split_and!; try done.
    specialize (S3 h). change (LeaServerSpec.holds h (data sm)) with 0%Z in S3.
    assert (forall d, (0 <= LeaServerSpec.holds h d)%Z) as Hh by (intros d; unfold LeaServerSpec.holds, b2z; case_bool_decide; lia).
    specialize (Hh (exec r sm).(data)). subst r. lia.
Qed.

(** ** Where the code does something else than it means to *)

Definition demo_env : env := mk_env true (Some 7) (fun _ => true) (fun _ => None).
Definition demo_data (v1 : Z) (b : list Z) : lea_data_t := mk_lea_data bt_addr_empty v1 0 0 b (mk_hci 0x0F [0%Z]) (mk_stream false 0).

Section Client.
Import LeaClient LeaClientSpec.

Definition demo_client (l : list (lea_client_event_t * Z)) : list (env * input) :=
  map (fun x => (demo_env, in_msg (mk_msg x.1 (demo_data x.2 [0x3f; 1; 0; 5]%Z)))) l.

Definition streaming : list (lea_client_event_t * Z) :=
  [(STACK_EVENT_CONNECTION_STATE, Hfp.PROFILE_STATE_CONNECTED); (CONNECT_AUDIO, 1%Z); (STACK_EVENT_ASE_ENABLING, 0%Z)].

(** The peer releases its streams: the client says it is disconnected while
    the link is still there, and the end of the link is not told any more. *)
Lemma release_reported_as_disconnected :
  let m := run_inputs (demo_client (streaming ++ [(STACK_EVENT_ASE_RELEASING, 0%Z)])) in
  let sm := lea_client_state_machine_new bt_addr_empty in
  last (outs m sm) = Some (lea_client_notify_connection_state_changed bt_addr_empty Hfp.PROFILE_STATE_DISCONNECTED) /\
  outs (lea_client_state_machine_dispatch demo_env (mk_msg DISCONNECT_DEVICE (no_data bt_addr_empty))) (exec m sm) = [].
Proof. by vm_compute. Qed.

(** The timer of an offload that is interrupted by a release expires in
    Closed, where nobody looks at it: the client keeps the dead timer, cancels
    it on the controller's answer, and takes no further request until then. *)
Lemma stale_timer_cancelled :
  let l := demo_client (streaming ++ [(OFFLOAD_START_REQ, 0%Z); (STACK_EVENT_ASE_RELEASING, 0%Z)]) ++ [(demo_env, in_timeout)] ++
           demo_client (streaming ++ [(OFFLOAD_START_REQ, 0%Z); (OFFLOAD_START_EVT, 0%Z)]) in
  let sm := lea_client_state_machine_new bt_addr_empty in
  List.filter (fun o => match o with service_loop_timer _ _ | service_loop_cancel_timer _ => true | _ => false end) (outs (run_inputs l) sm)
  = [service_loop_timer LEA_SERVER_OFFLOAD_TIMEOUT (Some 7); service_loop_cancel_timer 7].
Proof. by vm_compute. Qed.
End Client.

Section Server.
Import LeaServer LeaServerSpec.

Definition demo_server (l : list (lea_server_event_t * Z)) : list (env * input) :=
  map (fun x => (demo_env, in_msg (mk_msg x.1 (demo_data x.2 [0x3f; 1; 0; 5]%Z)))) l.

(** A second request to the server before the controller has answered starts
    another timer and forgets the first. *)
Lemma second_offload_leaks_timer (t1 t2 : timer_h) :
  let at_time t x := (mk_env true (Some t) (fun _ => true) (fun _ => None), in_msg (mk_msg x (demo_data 0 [0x3f; 1; 0; 5]%Z))) in
  let l := demo_server [(STACK_EVENT_CONNECTION_STATE, Hfp.PROFILE_STATE_CONNECTED); (STACK_EVENT_ASE_QOS_CONFIG, 0%Z)] ++
           [at_time t1 OFFLOAD_START_REQ; at_time t2 OFFLOAD_START_REQ; at_time t2 OFFLOAD_START_EVT] in
  let sm := lea_server_state_machine_new bt_addr_empty in
  List.filter (fun o => match o with service_loop_timer _ _ | service_loop_cancel_timer _ => true | _ => false end) (outs (run_inputs l) sm)
  = [service_loop_timer LEA_SERVER_OFFLOAD_TIMEOUT (Some t1); service_loop_timer LEA_SERVER_OFFLOAD_TIMEOUT (Some t2); service_loop_cancel_timer t2] /\
  (exec (run_inputs l) sm).(data).(offload_timer) = None.
Proof. split; reflexivity. Qed.
End Server.
End LeaSpec.
