(* ===== verification/PtrList.v ===== *)
(** * Lists of objects that are known by their addresses

    The services keep their connections, channels and devices in lists and
    hold pointers to the elements.  In the models an element carries its
    address ([key]); reading through a pointer looks the address up, writing
    replaces the element there, freeing drops it. *)

From S2P Require Import Prelude.
From stdpp Require Import list.

Module PtrList.
Section PtrList.
Context {A : Type} (key : A -> nat).
Implicit Types (x y : A) (l : list A) (p q : nat).

Definition at_key p x : bool := Nat.eqb (key x) p.

(** What is at an address. *)
Definition get p l : option A := List.find (at_key p) l.

(** The element at [p] becomes [x]. *)
Definition put p x l : list A := map (fun y => if at_key p y then x else y) l.

Definition drop p l : list A := List.filter (fun y => negb (at_key p y)) l.

Lemma get_elem p l x : get p l = Some x -> x ∈ l /\ key x = p.
Proof. intros H. apply find_some in H as [H1 H2]. split; [by apply list_elem_of_In|]. by apply Nat.eqb_eq. Qed.

Lemma elem_get l x : NoDup (key <$> l) -> x ∈ l -> get (key x) l = Some x.
Proof.
  unfold get. induction l as [|y l IH]; intros Hnd Hx; [by apply not_elem_of_nil in Hx|]. cbn in *.
  apply list.NoDup_cons in Hnd as [Hy Hnd]. apply elem_of_cons in Hx as [<-|Hx].
  - unfold at_key. by rewrite Nat.eqb_refl.
  - unfold at_key at 1. destruct (Nat.eqb_spec (key y) (key x)) as [E|E]; [|by apply IH].
    destruct Hy. rewrite E. by apply list_elem_of_fmap_2.
Qed.

(** Two elements at the same address are one. *)
Lemma same_key l x y : NoDup (key <$> l) -> x ∈ l -> y ∈ l -> key x = key y -> x = y.
Proof. apply NoDup_fmap_eq. Qed.

Lemma existsb_get p l : existsb (at_key p) l = true <-> is_Some (get p l).
Proof.
  unfold get. induction l as [|x l IH]; cbn; [split; [done|by intros []]|]. destruct (at_key p x); cbn; [|exact IH].
  split; [by eexists|done].
Qed.

(** A change of the element is a change of the one that was read. *)
Lemma put_changes p l x (f : A -> A) :
  NoDup (key <$> l) -> get p l = Some x -> map (fun y => if at_key p y then f y else y) l = put p (f x) l.
Proof.
  intros Hnd Hx. apply map_ext_in. intros y Hy%list_elem_of_In. destruct (at_key p y) eqn:E; [|done].
  apply Nat.eqb_eq in E. apply get_elem in Hx as [Hx Hp]. f_equal. eapply same_key; try done. congruence.
Qed.

Lemma put_get p l x x' : get p l = Some x -> key x' = p -> get p (put p x' l) = Some x'.
Proof.
  intros Hl Hp. unfold get, put in *. induction l as [|y l IH]; cbn in *; [done|].
  destruct (at_key p y) eqn:E; [|rewrite E; by apply IH]. unfold at_key at 1. by rewrite Hp, Nat.eqb_refl.
Qed.

Lemma put_twice p l x1 x2 : key x1 = p -> put p x2 (put p x1 l) = put p x2 l.
Proof.
  intros Hp. unfold put. rewrite map_map. apply map_ext. intros y.
  destruct (at_key p y) eqn:E; [|by rewrite E]. unfold at_key. by rewrite Hp, Nat.eqb_refl.
Qed.

Lemma put_self p l x : NoDup (key <$> l) -> get p l = Some x -> put p x l = l.
Proof.
  intros Hnd Hx. rewrite <- (put_changes p l x (fun y => y)) by done. rewrite <- (map_id l) at 2. apply map_ext.
  intros y. by destruct (at_key p y).
Qed.

Lemma put_elsewhere p q l x' y : q <> p -> key x' = p -> get q l = Some y -> get q (put p x' l) = Some y.
Proof.
  intros Hne Hp. unfold get, put. induction l as [|z l IH]; cbn; [done|]. destruct (at_key p z) eqn:E.
  - unfold at_key in *. rewrite Hp, (proj2 (Nat.eqb_neq p q)) by done. apply Nat.eqb_eq in E.
    rewrite (proj2 (Nat.eqb_neq (key z) q)) by congruence. exact IH.
  - by destruct (at_key q z).
Qed.

(** What the change keeps of its element it keeps of the list. *)
Lemma put_fmap {B} (g : A -> B) p l x x' :
  NoDup (key <$> l) -> get p l = Some x -> g x' = g x -> g <$> put p x' l = g <$> l.
Proof.
  intros Hnd Hx Hg. unfold put. change (map g (map (fun y => if at_key p y then x' else y) l) = map g l). rewrite map_map.
  apply map_ext_in. intros y Hy%list_elem_of_In. destruct (at_key p y) eqn:E; [|done]. rewrite Hg. f_equal.
  apply Nat.eqb_eq in E. apply get_elem in Hx as [Hx Hp]. eapply same_key; try done. congruence.
Qed.

Lemma put_Forall (P : A -> Prop) p l x' : Forall P l -> P x' -> Forall P (put p x' l).
Proof.
  intros Hl Hx. apply Forall_forall. intros y Hy. apply list_elem_of_In, in_map_iff in Hy as (z & <- & Hz%list_elem_of_In).
  destruct (at_key p z); [done|]. by apply (proj1 (Forall_forall _ _) Hl).
Qed.

Lemma drop_sub p l : drop p l `sublist_of` l.
Proof. unfold drop. induction l as [|x l IH]; cbn; [done|]. destruct (negb _); [by apply sublist_skip|by apply sublist_cons]. Qed.

Lemma drop_elem p l x : x ∈ drop p l <-> x ∈ l /\ key x <> p.
Proof. unfold drop. rewrite !list_elem_of_In, filter_In, negb_true_iff. unfold at_key. by rewrite Nat.eqb_neq. Qed.

Lemma drop_get p l x : NoDup (key <$> l) -> get p l = Some x -> forall y, y ∈ drop p l <-> y ∈ l /\ y <> x.
Proof.
  intros Hnd Hx y. rewrite drop_elem. apply get_elem in Hx as [Hx Hp]. split; intros [Hy Hne]; (split; [done|]).
  - by intros ->.
  - intros E. apply Hne. eapply same_key; try done. congruence.
Qed.
End PtrList.
End PtrList.
