(* ===== verification/GattClient.v ===== *)
(** * The GATT client service (service/profiles/gatt/gattc_service.c)

    The service keeps a list of connections that its clients have created; a
    connection goes to one peer at a time, keeps the services that were
    discovered there (with the attributes the stack hands over) and a queue of
    discoveries that wait for the one that is under way.  What the stack
    reports is posted to the service loop and handled there for the first
    connection to that peer.

    A connection is known by its address, numbered as they are allocated.
    [None] (of the monad [E]) is the use of memory that is not there: a NULL
    pointer, an element before the first of an array, a list that does not
    exist.  The stack and the memory are in [env]. *)

From S2P Require Import Prelude Fallible IndexAllocator BtAddr BtUuid Hfp.
From coqutil Require Import Datatypes.RecordSetters.
From stdpp Require Import list.
Import UpdaterNotations.

Local Open Scope Z_scope.
Local Open Scope fall_scope.

Module GattClient.
Import BtAddr BtUuid.
Import Hfp(PROFILE_STATE_DISCONNECTED, PROFILE_STATE_CONNECTING, PROFILE_STATE_CONNECTED, PROFILE_STATE_DISCONNECTING).

Abbreviation BT_STATUS_NOT_ENABLED := BT_STATUS_NOT_READY.

(** ** Data *)

Inductive gatt_attr_type_t := GATT_PRIMARY_SERVICE | GATT_SECONDARY_SERVICE | GATT_INCLUDED_SERVICE | GATT_CHARACTERISTIC | GATT_DESCRIPTOR.

#[export] Instance attr_type_eq_dec : EqDecision gatt_attr_type_t.
Proof. solve_decision. Defined.

Definition GATT_STATUS_SUCCESS : Z := 0.
Definition GATT_STATUS_FAILURE : Z := 1.
Definition GATT_PROP_NOTIFY : Z := 0x10.
Definition GATT_PROP_INDICATE : Z := 0x20.
Definition GATT_CCC_NOTIFY : Z := 0x0001.
Definition GATT_CCC_INDICATE : Z := 0x0002.
Definition GATT_MAX_MTU_SIZE : Z := 517.
Definition UINT16_MAX : Z := 65535.
Definition BT_UUID_GATT_CCCD : Z := 0x2902.
Definition GATT_WRITE_TYPE_NO_RSP : Z := 0.
Definition GATT_WRITE_TYPE_RSP : Z := 1.
Definition GATT_WRITE_TYPE_SIGNED : Z := 2.

(** The fields of [gatt_element_t] that the client uses. *)
Record gatt_element_t := mk_element {
  handle : Z;
  uuid : bt_uuid_t;
  type : gatt_attr_type_t;
  properties : Z;
  notify_enable : bool;
}.

(** [uuid] of the service points into its first element. *)
Record gattc_service_t := mk_service { start_handle : Z; end_handle : Z; elements : list gatt_element_t }.

(** Of [gattc_op_t]: what is queued.  [None]: all services. *)
Inductive gattc_op_t := GATTC_REQ_DISCOVER (filter : option bt_uuid_t) | GATTC_REQ_OTHER.

(** The callbacks of a client. *)
Inductive cback :=
| on_connected | on_disconnected | on_discovered | on_read | on_written | on_subscribed | on_notified
| on_mtu_updated | on_phy_read | on_phy_updated | on_rssi_read | on_conn_param_updated.

Record gattc_connection_t := mk_connection {
  ptr : nat;
  remote : option N;
  conn_id : Z;
  state : Z;
  user_phandle : N;
  remote_addr : bt_address_t;
  callbacks : option (cback -> bool);     (* None: NULL; which are set *)
  services : list gattc_service_t;
  pend_ops : list gattc_op_t;
  discovering : bool;
}.

Record gattc_manager_t := mk_manager {
  started : bool;
  allocator : option IndexAllocator.index_allocator_t;
  connections : option (list gattc_connection_t);
  next : nat;
}.

Inductive gattc_param :=
| GATTC_EVENT_CONNECT_CHANGE (st : Z)
| GATTC_EVENT_DISCOVER_RESULT (els : list gatt_element_t)
| GATTC_EVENT_DISCOVER_CMPL (status : Z)
| GATTC_EVENT_READ (status id : Z) (value : list Z)
| GATTC_EVENT_WRITE (status id : Z)
| GATTC_EVENT_SUBSCRIBE (status id : Z) (enable : bool)
| GATTC_EVENT_NOTIFY (id : Z) (value : list Z)
| GATTC_EVENT_MTU_UPDATE (status mtu : Z)
| GATTC_EVENT_PHY_READ (tx rx : Z)
| GATTC_EVENT_PHY_UPDATE (status tx rx : Z)
| GATTC_EVENT_RSSI_READ (status rssi : Z)
| GATTC_EVENT_CONN_PARAM_UPDATE (status interval latency timeout : Z).

Record gattc_msg_t := mk_msg { addr : bt_address_t; param : gattc_param }.

(** The calls to the stack that have an answer. *)
Inductive request :=
| bt_sal_gatt_client_connect (a : bt_address_t) (ty : Z)
| bt_sal_gatt_client_disconnect (a : bt_address_t)
| bt_sal_gatt_client_discover_all_services (a : bt_address_t)
| bt_sal_gatt_client_discover_service_by_uuid (a : bt_address_t) (u : bt_uuid_t)
| bt_sal_gatt_client_read_element (a : bt_address_t) (h : Z)
| bt_sal_gatt_client_write_element (a : bt_address_t) (h : Z) (value : list Z) (ty : Z)
| bt_sal_gatt_client_register_notifications (a : bt_address_t) (h props : Z) (on : bool)
| bt_sal_gatt_client_send_mtu_req (a : bt_address_t) (mtu : Z)
| bt_sal_gatt_client_update_connection_parameter (a : bt_address_t) (min max latency timeout min_len max_len : Z)
| bt_sal_gatt_client_read_phy (a : bt_address_t)
| bt_sal_gatt_client_set_phy (a : bt_address_t) (tx rx : Z)
| bt_sal_gatt_client_read_remote_rssi (a : bt_address_t)
| bt_sal_gatt_client_enable
| bt_sal_gatt_client_disable.

Inductive out :=
| sal (r : request)
| told (p : nat) (c : cback) (a : bt_address_t) (args : list Z) (u : option bt_uuid_t)
| profile_cb (ok : bool)                  (* the callback of startup and of shutdown *)
| set_phandle (ph : N) (p : option nat)   (* *user_phandle = p *)
| do_in_service_loop (m : gattc_msg_t).

(** What the code called answers.  A discovery that is taken from the queue is
    told apart by the number of those behind it. *)
Record env := mk_env {
  mem : bool;                             (* allocations succeed *)
  answer : request -> bt_status_t;
  discovers : nat -> bt_status_t;
  zblue : bool;                           (* CONFIG_BLUETOOTH_STACK_LE_ZBLUE *)
  max_connections : Z;                    (* CONFIG_BLUETOOTH_GATTC_MAX_CONNECTIONS *)
}.

Abbreviation MG := (E gattc_manager_t out).

Section Service.
Context (e : env).

(** ** The list *)

Definition at_ptr (p : nat) (c : gattc_connection_t) : bool := Nat.eqb c.(ptr) p.

(** The list, which must exist. *)
Definition the_list : MG (list gattc_connection_t) := eread connections.

(** Reading and writing through a pointer. *)
Definition in_list (p : nat) (s : gattc_manager_t) : option gattc_connection_t :=
  match s.(connections) with Some l => List.find (at_ptr p) l | None => None end.
Definition conn (p : nat) : MG gattc_connection_t := eread (in_list p).
Definition upd (p : nat) (f : gattc_connection_t -> gattc_connection_t) : MG unit :=
  conn p;;; emodify {! connections ::= option_map (map (fun c => if at_ptr p c then f c else c)) }.

Definition fresh : MG nat := n <- egets next;; emodify {! next ::= S };;; eret n.

Definition connection_addr_cmp (a : bt_address_t) (c : gattc_connection_t) : bool := bt_addr_compare c.(remote_addr) a =? 0.

Definition find_gattc_connection_by_addr (a : bt_address_t) : MG (option nat) :=
  l <- the_list;; eret (ptr <$> List.find (connection_addr_cmp a) l).

(** A call to the stack and its status. *)
Definition ask (r : request) : MG bt_status_t := eemit (sal r);;; eret (e.(answer) r).

(** [None] of [index_free]: an identifier that is not in use. *)
Definition free_id (i : Z) : MG unit :=
  al <- eread allocator;;
  al <- eread (fun _ => ia_free al i);;
  emodify {! allocator := Some al }.

(** The identifier of a new connection; the record itself is made by the caller. *)
Definition gattc_connection_new : MG (option Z) :=
  al <- eread allocator;;
  x <- eread (fun _ => ia_alloc al);;
  emodify {! allocator := Some x.2 };;;
  if x.1 <? 0 then eret None
  else if negb e.(mem) then free_id x.1;;; eret None
  else eret (Some x.1).

(** [st], [a] and [i]: of the connection, which is no longer in the list. *)
Definition gattc_connection_delete (st : Z) (a : bt_address_t) (i : Z) : MG unit :=
  ewhen ((st =? PROFILE_STATE_CONNECTING) || (st =? PROFILE_STATE_CONNECTED)) (eemit (sal (bt_sal_gatt_client_disconnect a)));;;
  free_id i.

(** [bt_list_remove] of a connection that is in the list. *)
Definition remove_connection (p : nat) : MG unit :=
  c <- conn p;;
  emodify {! connections ::= option_map (List.filter (fun c => negb (at_ptr p c))) };;;
  gattc_connection_delete c.(state) c.(remote_addr) c.(conn_id).

(** ** Attributes *)

Definition attribute_handle_cmp (h : Z) (s : gattc_service_t) : bool := (s.(start_handle) <=? h) && (h <=? s.(end_handle)).

Definition find_gattc_element_by_handle (l : list gattc_service_t) (h : Z) : option gatt_element_t :=
  match List.find (attribute_handle_cmp h) l with
  | None => None
  | Some s => List.find (fun x => x.(handle) =? h) s.(elements)
  end.

Fixpoint find_gattc_element_by_uuid (l : list gattc_service_t) (from upto : Z) (u : bt_uuid_t) : option gatt_element_t :=
  match l with
  | [] => None
  | s :: l =>
      if (s.(end_handle) <? from) || (upto <? s.(start_handle)) then find_gattc_element_by_uuid l from upto u
      else
        match List.find (fun x => (from <=? x.(handle)) && (x.(handle) <=? upto) && (bt_uuid_compare x.(uuid) u =? 0)) s.(elements) with
        | Some x => Some x
        | None => find_gattc_element_by_uuid l from upto u
        end
  end.

(** The first element of an array with this handle changes. *)
Fixpoint upd_element (h : Z) (f : gatt_element_t -> gatt_element_t) (l : list gatt_element_t) : list gatt_element_t :=
  match l with [] => [] | x :: l => if x.(handle) =? h then f x :: l else x :: upd_element h f l end.

(** Of the first service that has it. *)
Fixpoint upd_service (h : Z) (f : gatt_element_t -> gatt_element_t) (l : list gattc_service_t) : list gattc_service_t :=
  match l with
  | [] => []
  | s :: l => if attribute_handle_cmp h s then {! elements ::= upd_element h f } s :: l else s :: upd_service h f l
  end.

(** [bt_list_remove] of the service that was found. *)
Fixpoint remove_service (h : Z) (l : list gattc_service_t) : list gattc_service_t :=
  match l with [] => [] | s :: l => if attribute_handle_cmp h s then l else s :: remove_service h l end.

(** ** Discovery *)

(** [CHECK_ENABLED] and [CHECK_CONNECTION_VALID]; [handle]: [None] is NULL. *)
Definition check (hd : option nat) (f : nat -> MG bt_status_t) : MG bt_status_t :=
  on <- egets started;;
  if negb on then eret BT_STATUS_NOT_ENABLED
  else
    match hd with
    | None => eret BT_STATUS_PARM_INVALID
    | Some p => l <- the_list;; if existsb (at_ptr p) l then f p else eret BT_STATUS_PARM_INVALID
    end.

Definition CHECK_ATTR_HANDLE_VALID (h : Z) (m : MG bt_status_t) : MG bt_status_t :=
  if (h =? 0) || (UINT16_MAX <? h) then eret BT_STATUS_PARM_INVALID else m.

(** A filter of type 0 means all services. *)
Definition discover_request (a : bt_address_t) (f : option bt_uuid_t) : request :=
  match f with
  | Some u => if u.(BtUuid.type) =? 0 then bt_sal_gatt_client_discover_all_services a else bt_sal_gatt_client_discover_service_by_uuid a u
  | None => bt_sal_gatt_client_discover_all_services a
  end.

(** [k]: which answer the stack gives. *)
Definition gattc_discover_start (hd : option nat) (f : option bt_uuid_t) (k : nat) : MG bt_status_t :=
  check hd (fun p =>
    c <- conn p;;
    eemit (sal (discover_request c.(remote_addr) f));;;
    let status := e.(discovers) k in
    ewhen (is_success status) (upd p {! discovering := true });;;
    eret status).

(** A message needs memory; it is written to without a check. *)
Definition post (m : gattc_msg_t) : MG unit := if e.(mem) then eemit (do_in_service_loop m) else efail.

Definition if_gattc_on_discover_completed (a : bt_address_t) (status : Z) : MG unit := post (mk_msg a (GATTC_EVENT_DISCOVER_CMPL status)).

(** The loop of [gattc_discover_start_next] over the queue. *)
Fixpoint discover_next_loop (p : nat) (ops : list gattc_op_t) : MG bt_status_t :=
  match ops with
  | [] => eret BT_STATUS_NOT_READY
  | GATTC_REQ_OTHER :: ops =>
      c <- conn p;;
      if_gattc_on_discover_completed c.(remote_addr) GATT_STATUS_FAILURE;;;
      upd p {! pend_ops := ops };;;
      discover_next_loop p ops
  | GATTC_REQ_DISCOVER f :: ops =>
      status <- gattc_discover_start (Some p) f (length ops);;
      upd p {! pend_ops := ops };;;
      if is_success status then eret BT_STATUS_SUCCESS
      else
        c <- conn p;;
        if_gattc_on_discover_completed c.(remote_addr) GATT_STATUS_FAILURE;;;
        discover_next_loop p ops
  end.

Definition gattc_discover_start_next (p : nat) : MG bt_status_t :=
  check (Some p) (fun p =>
    c <- conn p;;
    if c.(discovering) then eret BT_STATUS_BUSY else discover_next_loop p c.(pend_ops)).

(** ** What the stack reports *)

(** [GATT_CBACK] *)
Definition GATT_CBACK (c : gattc_connection_t) (k : cback) (args : list Z) (u : option bt_uuid_t) : MG unit :=
  match c.(callbacks) with
  | Some set => ewhen (set k) (eemit (told c.(ptr) k c.(remote_addr) args u))
  | None => eret tt
  end.

Definition connect_change (p : nat) (st : Z) : MG unit :=
  if st =? PROFILE_STATE_CONNECTED then
    upd p {! state := st };;;
    c <- conn p;; GATT_CBACK c on_connected [] None
  else if st =? PROFILE_STATE_DISCONNECTED then
    upd p {! state := st };;;
    c <- conn p;; GATT_CBACK c on_disconnected [] None;;;
    upd p {! remote_addr := bt_addr_empty; services := []; pend_ops := []; discovering := false }
  else eret tt.

(** The handles of the first and of the last element; the array may be empty. *)
Definition discover_result (p : nat) (els : list gatt_element_t) : MG unit :=
  first <- eread (fun _ => head els);;
  upd p {! services ::= remove_service first.(handle) };;;
  if negb e.(mem) then efail
  else
    last <- eread (fun _ => last els);;
    upd p {! services ::= (fun l => l ++ [mk_service first.(handle) last.(handle) els]) };;;
    c <- conn p;;
    GATT_CBACK c on_discovered [GATT_STATUS_SUCCESS; first.(handle); last.(handle)] (Some first.(uuid)).

Definition gattc_process_message (m : gattc_msg_t) : MG unit :=
  on <- egets started;;
  if negb on then eret tt
  else
    p <- find_gattc_connection_by_addr m.(addr);;
    match p with
    | None => eret tt
    | Some p =>
        c <- conn p;;
        match m.(param) with
        | GATTC_EVENT_CONNECT_CHANGE st => connect_change p st
        | GATTC_EVENT_DISCOVER_RESULT els => discover_result p els
        | GATTC_EVENT_DISCOVER_CMPL status =>
            GATT_CBACK c on_discovered [status; 0; 0] None;;;
            upd p {! discovering := false };;;
            match c.(pend_ops) with [] => eret tt | _ => gattc_discover_start_next p;;; eret tt end
        | GATTC_EVENT_READ status id value => GATT_CBACK c on_read (status :: id :: value) None
        | GATTC_EVENT_WRITE status id => GATT_CBACK c on_written [status; id] None
        | GATTC_EVENT_SUBSCRIBE status id enable =>
            match find_gattc_element_by_handle c.(services) id with
            | Some _ =>
                ewhen (status =? GATT_STATUS_SUCCESS) (upd p {! services ::= upd_service id {! notify_enable := enable } });;;
                GATT_CBACK c on_subscribed [status; id; if enable then 1 else 0] None
            | None => eret tt
            end
        | GATTC_EVENT_NOTIFY id value =>
            match find_gattc_element_by_handle c.(services) id with
            | Some x => ewhen x.(notify_enable) (GATT_CBACK c on_notified (id :: value) None)
            | None => eret tt
            end
        | GATTC_EVENT_MTU_UPDATE status mtu => GATT_CBACK c on_mtu_updated [status; mtu] None
        | GATTC_EVENT_PHY_READ tx rx => GATT_CBACK c on_phy_read [tx; rx] None
        | GATTC_EVENT_PHY_UPDATE status tx rx => GATT_CBACK c on_phy_updated [status; tx; rx] None
        | GATTC_EVENT_RSSI_READ status rssi => GATT_CBACK c on_rssi_read [status; rssi] None
        | GATTC_EVENT_CONN_PARAM_UPDATE status i l t => GATT_CBACK c on_conn_param_updated [status; i; l; t] None
        end
    end.

Definition if_gattc_on_connection_state_changed a st := post (mk_msg a (GATTC_EVENT_CONNECT_CHANGE st)).
Definition if_gattc_on_service_discovered a els := post (mk_msg a (GATTC_EVENT_DISCOVER_RESULT els)).
Definition if_gattc_on_element_read a id value status := post (mk_msg a (GATTC_EVENT_READ status id value)).
Definition if_gattc_on_element_written a id status := post (mk_msg a (GATTC_EVENT_WRITE status id)).
Definition if_gattc_on_element_subscribed a id status enable := post (mk_msg a (GATTC_EVENT_SUBSCRIBE status id enable)).
Definition if_gattc_on_element_changed a id value := post (mk_msg a (GATTC_EVENT_NOTIFY id value)).
Definition if_gattc_on_mtu_changed a mtu status := post (mk_msg a (GATTC_EVENT_MTU_UPDATE status mtu)).
Definition if_gattc_on_phy_read a tx rx := post (mk_msg a (GATTC_EVENT_PHY_READ tx rx)).
Definition if_gattc_on_phy_updated a tx rx status := post (mk_msg a (GATTC_EVENT_PHY_UPDATE status tx rx)).
Definition if_gattc_on_rssi_read a rssi status := post (mk_msg a (GATTC_EVENT_RSSI_READ status rssi)).
Definition if_gattc_on_connection_parameter_updated a i l t status := post (mk_msg a (GATTC_EVENT_CONN_PARAM_UPDATE status i l t)).

(** ** The profile *)

Definition if_gattc_init : MG bt_status_t :=
  emodify {! started := false; allocator := None; connections := None };;; eret BT_STATUS_SUCCESS.

Definition if_gattc_startup : MG bt_status_t :=
  on <- egets started;;
  if on then eemit (profile_cb true);;; eret BT_STATUS_SUCCESS
  else if negb e.(mem) then
    emodify {! allocator := None; connections := None };;; eemit (profile_cb false);;; eret BT_STATUS_NOMEM
  else
    emodify {! allocator := Some (IndexAllocator.index_allocator_create (e.(max_connections) - 1)); connections := Some [] };;;
    status <- (if e.(zblue) then ask bt_sal_gatt_client_enable else eret BT_STATUS_SUCCESS);;
    if negb (is_success status) then
      emodify {! allocator := None; connections := None };;; eemit (profile_cb false);;; eret status
    else emodify {! started := true };;; eemit (profile_cb true);;; eret BT_STATUS_SUCCESS.

(** The connections are freed from the head of the list on. *)
Definition if_gattc_shutdown : MG bt_status_t :=
  on <- egets started;;
  if negb on then eemit (profile_cb true);;; eret BT_STATUS_SUCCESS
  else
    l <- the_list;;
    efor l (fun c => remove_connection c.(ptr));;;
    emodify {! connections := None; allocator := None; started := false };;;
    ewhen e.(zblue) (eemit (sal bt_sal_gatt_client_disable));;;
    eemit (profile_cb true);;; eret BT_STATUS_SUCCESS.

Definition if_gattc_cleanup : MG unit := emodify {! started := false }.

(** ** The interface *)

(** [ph]: where the handle goes; [None]: NULL. *)
Definition if_gattc_create_connect (rem : option N) (ph : option N) (cbs : option (cback -> bool)) : MG bt_status_t :=
  on <- egets started;;
  if negb on then eret BT_STATUS_NOT_ENABLED
  else
    match ph with
    | None => eret BT_STATUS_PARM_INVALID
    | Some ph =>
        i <- gattc_connection_new;;
        match i with
        | None => eret BT_STATUS_NOMEM
        | Some i =>
            n <- fresh;;
            the_list;;;
            emodify {! connections ::= option_map (fun l => l ++
              [mk_connection n rem i PROFILE_STATE_DISCONNECTED ph bt_addr_empty cbs [] [] false]) };;;
            eemit (set_phandle ph (Some n));;;
            eret BT_STATUS_SUCCESS
        end
    end.

Definition if_gattc_delete_connect (hd : option nat) : MG bt_status_t :=
  check hd (fun p =>
    c <- conn p;;
    eemit (sal (bt_sal_gatt_client_disconnect c.(remote_addr)));;;
    remove_connection p;;;
    eemit (set_phandle c.(user_phandle) None);;;
    eret BT_STATUS_SUCCESS).

Definition if_gattc_connect (hd : option nat) (a : bt_address_t) (ty : Z) : MG bt_status_t :=
  check hd (fun p =>
    status <- ask (bt_sal_gatt_client_connect a ty);;
    ewhen (is_success status) (upd p {! state := PROFILE_STATE_CONNECTING; remote_addr := a });;;
    eret status).

Definition if_gattc_disconnect (hd : option nat) : MG bt_status_t :=
  check hd (fun p =>
    c <- conn p;;
    status <- ask (bt_sal_gatt_client_disconnect c.(remote_addr));;
    ewhen (is_success status) (upd p {! state := PROFILE_STATE_DISCONNECTING });;;
    eret status).

(** [filter]: [None] is NULL. *)
Definition if_gattc_discover_service (hd : option nat) (f : option bt_uuid_t) : MG bt_status_t :=
  check hd (fun p =>
    c <- conn p;;
    if c.(discovering) then
      if negb e.(mem) then eret BT_STATUS_NOMEM
      else upd p {! pend_ops ::= (fun l => l ++ [GATTC_REQ_DISCOVER f]) };;; eret BT_STATUS_SUCCESS
    else gattc_discover_start (Some p) f 0).

(** [None] of the second value: nothing is written to [attr_desc]. *)
Definition attr_desc : Type := Z * gatt_attr_type_t * Z * bt_uuid_t.
Definition desc_of (x : gatt_element_t) : attr_desc := (x.(handle), x.(type), x.(properties), x.(uuid)).

(** [check] for functions that also give an attribute. *)
Definition check_desc (hd : option nat) (f : nat -> MG (bt_status_t * option attr_desc)) : MG (bt_status_t * option attr_desc) :=
  on <- egets started;;
  if negb on then eret (BT_STATUS_NOT_ENABLED, None)
  else
    match hd with
    | None => eret (BT_STATUS_PARM_INVALID, None)
    | Some p => l <- the_list;; if existsb (at_ptr p) l then f p else eret (BT_STATUS_PARM_INVALID, None)
    end.

Definition found (x : option gatt_element_t) : MG (bt_status_t * option attr_desc) :=
  match x with
  | None => eret (BT_STATUS_NO_RESOURCES, None)
  | Some x => eret (BT_STATUS_SUCCESS, Some (desc_of x))
  end.

(** [dst]: [attr_desc] is not NULL. *)
Definition if_gattc_get_attribute_by_handle (hd : option nat) (h : Z) (dst : bool) : MG (bt_status_t * option attr_desc) :=
  check_desc hd (fun p =>
    if (h =? 0) || (UINT16_MAX <? h) then eret (BT_STATUS_PARM_INVALID, None)
    else if negb dst then eret (BT_STATUS_PARM_INVALID, None)
    else c <- conn p;; found (find_gattc_element_by_handle c.(services) h)).

Definition if_gattc_get_attribute_by_uuid (hd : option nat) (from upto : Z) (u : bt_uuid_t) (dst : bool) : MG (bt_status_t * option attr_desc) :=
  check_desc hd (fun p =>
    if negb dst then eret (BT_STATUS_PARM_INVALID, None)
    else c <- conn p;; found (find_gattc_element_by_uuid c.(services) from upto u)).

Definition if_gattc_read (hd : option nat) (h : Z) : MG bt_status_t :=
  check hd (fun p => CHECK_ATTR_HANDLE_VALID h (c <- conn p;; ask (bt_sal_gatt_client_read_element c.(remote_addr) h))).

Definition if_gattc_write (hd : option nat) (h : Z) (value : list Z) : MG bt_status_t :=
  check hd (fun p => CHECK_ATTR_HANDLE_VALID h (
    c <- conn p;; ask (bt_sal_gatt_client_write_element c.(remote_addr) h value GATT_WRITE_TYPE_RSP))).

Definition if_gattc_write_without_response (hd : option nat) (h : Z) (value : list Z) : MG bt_status_t :=
  check hd (fun p => CHECK_ATTR_HANDLE_VALID h (
    c <- conn p;; ask (bt_sal_gatt_client_write_element c.(remote_addr) h value GATT_WRITE_TYPE_NO_RSP))).

Definition if_gattc_signed_write (hd : option nat) (h : Z) (value : list Z) : MG bt_status_t :=
  check hd (fun p => c <- conn p;; ask (bt_sal_gatt_client_write_element c.(remote_addr) h value GATT_WRITE_TYPE_SIGNED)).

Definition has (props p : Z) : bool := negb (Z.land props p =? 0).

Definition if_gattc_subscribe (hd : option nat) (h ccc_value : Z) : MG bt_status_t :=
  check hd (fun p => CHECK_ATTR_HANDLE_VALID h (
    c <- conn p;;
    match find_gattc_element_by_handle c.(services) h with
    | None => eret BT_STATUS_NOT_FOUND
    | Some x =>
        if has ccc_value GATT_CCC_NOTIFY then
          if negb (has x.(properties) GATT_PROP_NOTIFY) then eret BT_STATUS_NOT_SUPPORTED
          else ask (bt_sal_gatt_client_register_notifications c.(remote_addr) h GATT_PROP_NOTIFY true)
        else if has ccc_value GATT_CCC_INDICATE then
          if negb (has x.(properties) GATT_PROP_INDICATE) then eret BT_STATUS_NOT_SUPPORTED
          else ask (bt_sal_gatt_client_register_notifications c.(remote_addr) h GATT_PROP_INDICATE true)
        else eret BT_STATUS_PARM_INVALID
    end)).

Definition if_gattc_unsubscribe (hd : option nat) (h : Z) : MG bt_status_t :=
  check hd (fun p => CHECK_ATTR_HANDLE_VALID h (
    c <- conn p;;
    match find_gattc_element_by_handle c.(services) h with
    | None => eret BT_STATUS_NOT_FOUND
    | Some x =>
        if negb (has x.(properties) (Z.lor GATT_PROP_NOTIFY GATT_PROP_INDICATE)) then eret BT_STATUS_NOT_SUPPORTED
        else ask (bt_sal_gatt_client_register_notifications c.(remote_addr) h x.(properties) false)
    end)).

Definition if_gattc_exchange_mtu (hd : option nat) (mtu : Z) : MG bt_status_t :=
  check hd (fun p =>
    c <- conn p;; ask (bt_sal_gatt_client_send_mtu_req c.(remote_addr) (if GATT_MAX_MTU_SIZE <? mtu then GATT_MAX_MTU_SIZE else mtu))).

Definition if_gattc_update_connection_parameter (hd : option nat) (min max latency timeout min_len max_len : Z) : MG bt_status_t :=
  check hd (fun p =>
    c <- conn p;; ask (bt_sal_gatt_client_update_connection_parameter c.(remote_addr) min max latency timeout min_len max_len)).

Definition if_gattc_read_phy (hd : option nat) : MG bt_status_t :=
  check hd (fun p => c <- conn p;; ask (bt_sal_gatt_client_read_phy c.(remote_addr))).

Definition if_gattc_update_phy (hd : option nat) (tx rx : Z) : MG bt_status_t :=
  check hd (fun p => c <- conn p;; ask (bt_sal_gatt_client_set_phy c.(remote_addr) tx rx)).

Definition if_gattc_read_rssi (hd : option nat) : MG bt_status_t :=
  check hd (fun p => c <- conn p;; ask (bt_sal_gatt_client_read_remote_rssi c.(remote_addr))).

(** The descriptors that follow a value, up to the one that configures it. *)
Fixpoint ccc_among (l : list gatt_element_t) : Z :=
  match l with
  | [] => 0
  | x :: l =>
      if negb (bool_decide (x.(type) = GATT_DESCRIPTOR)) then 0
      else if bt_uuid_compare x.(uuid) (bt_uuid16_create BT_UUID_GATT_CCCD) =? 0 then x.(handle)
      else ccc_among l
  end.

(** What follows the first element with this handle. *)
Fixpoint after_handle (h : Z) (l : list gatt_element_t) : option (list gatt_element_t) :=
  match l with [] => None | x :: l => if x.(handle) =? h then Some l else after_handle h l end.

Fixpoint ccc_in_services (h : Z) (l : list gattc_service_t) : Z :=
  match l with
  | [] => 0
  | s :: l => match after_handle h s.(elements) with Some rest => ccc_among rest | None => ccc_in_services h l end
  end.

Definition if_gattc_find_ccc_handle_by_value_handle (a : option bt_address_t) (h : Z) : MG Z :=
  match a with
  | None => eret 0
  | Some a =>
      if h =? 0 then eret 0
      else
        p <- find_gattc_connection_by_addr a;;
        match p with
        | None => eret 0
        | Some p => c <- conn p;; eret (ccc_in_services h c.(services))
        end
  end.
End Service.
End GattClient.
