(* ===== verification/GattClientSpec.v ===== *)
(** * The GATT client service: theorems *)

From S2P Require Import Prelude Fallible IndexAllocator BtAddr BtUuid Hfp PtrList GattClient.
From coqutil Require Import Datatypes.RecordSetters.
From stdpp Require Import list.
Import UpdaterNotations.

Local Open Scope Z_scope.
Local Open Scope fall_scope.

Module GattClientSpec.
Import BtAddr BtUuid PtrList GattClient.

#[local] Arguments constant {E} newValue _ /.
#[local] Arguments ia_wf : simpl never.
#[local] Arguments ia_used : simpl never.
#[local] Arguments ia_alloc : simpl never.
#[local] Arguments ia_free : simpl never.

(** ** What can happen *)

Inductive op :=
| op_init | op_startup | op_shutdown | op_cleanup
| op_message (m : gattc_msg_t)
| op_report (m : gattc_msg_t)
| op_create (rem ph : option N) (cbs : option (cback -> bool))
| op_delete (hd : option nat)
| op_connect (hd : option nat) (a : bt_address_t) (ty : Z)
| op_disconnect (hd : option nat)
| op_discover (hd : option nat) (f : option bt_uuid_t)
| op_get_by_handle (hd : option nat) (h : Z) (dst : bool)
| op_get_by_uuid (hd : option nat) (from upto : Z) (u : bt_uuid_t) (dst : bool)
| op_read (hd : option nat) (h : Z)
| op_write (hd : option nat) (h : Z) (value : list Z) (ty : Z)
| op_subscribe (hd : option nat) (h ccc : Z)
| op_unsubscribe (hd : option nat) (h : Z)
| op_mtu (hd : option nat) (mtu : Z)
| op_conn_param (hd : option nat) (min max latency timeout min_len max_len : Z)
| op_read_phy (hd : option nat)
| op_update_phy (hd : option nat) (tx rx : Z)
| op_rssi (hd : option nat)
| op_find_ccc (a : option bt_address_t) (h : Z).

Definition void {A} (m : MG A) : MG unit := m;;; eret tt.

(** The three kinds of writing. *)
Definition write_of (e : env) (hd : option nat) (h : Z) (value : list Z) (ty : Z) : MG bt_status_t :=
  if ty =? GATT_WRITE_TYPE_RSP then if_gattc_write e hd h value
  else if ty =? GATT_WRITE_TYPE_NO_RSP then if_gattc_write_without_response e hd h value
  else if_gattc_signed_write e hd h value.

Definition run_op (e : env) (o : op) : MG unit :=
  match o with
  | op_init => void if_gattc_init
  | op_startup => void (if_gattc_startup e)
  | op_shutdown => void (if_gattc_shutdown e)
  | op_cleanup => if_gattc_cleanup
  | op_message m => gattc_process_message e m
  | op_report m => post e m
  | op_create rem ph cbs => void (if_gattc_create_connect e rem ph cbs)
  | op_delete hd => void (if_gattc_delete_connect hd)
  | op_connect hd a ty => void (if_gattc_connect e hd a ty)
  | op_disconnect hd => void (if_gattc_disconnect e hd)
  | op_discover hd f => void (if_gattc_discover_service e hd f)
  | op_get_by_handle hd h dst => void (if_gattc_get_attribute_by_handle hd h dst)
  | op_get_by_uuid hd from upto u dst => void (if_gattc_get_attribute_by_uuid hd from upto u dst)
  | op_read hd h => void (if_gattc_read e hd h)
  | op_write hd h v ty => void (write_of e hd h v ty)
  | op_subscribe hd h ccc => void (if_gattc_subscribe e hd h ccc)
  | op_unsubscribe hd h => void (if_gattc_unsubscribe e hd h)
  | op_mtu hd mtu => void (if_gattc_exchange_mtu e hd mtu)
  | op_conn_param hd a b c d x y => void (if_gattc_update_connection_parameter e hd a b c d x y)
  | op_read_phy hd => void (if_gattc_read_phy e hd)
  | op_update_phy hd tx rx => void (if_gattc_update_phy e hd tx rx)
  | op_rssi hd => void (if_gattc_read_rssi e hd)
  | op_find_ccc a h => void (if_gattc_find_ccc_handle_by_value_handle a h)
  end.

(** ** What holds between the operations *)

(** The handles of two services do not overlap. *)
Definition apart (s t : gattc_service_t) : Prop := s.(end_handle) < t.(start_handle) \/ t.(end_handle) < s.(start_handle).

Definition service_ok (s : gattc_service_t) : Prop :=
  NoDup (handle <$> s.(elements)) /\ Forall (fun x => s.(start_handle) <= handle x <= s.(end_handle)) s.(elements) /\
  s.(start_handle) <= s.(end_handle).

Definition services_ok (l : list gattc_service_t) : Prop := Forall service_ok l /\ ForallOrdPairs apart l.

(** A queued discovery waits for one that is under way. *)
Definition queue_ok (c : gattc_connection_t) : Prop :=
  Forall (fun o => o <> GATTC_REQ_OTHER) c.(pend_ops) /\ (c.(pend_ops) <> [] -> c.(discovering) = true).

Definition conn_ok (c : gattc_connection_t) : Prop := queue_ok c /\ services_ok c.(services).

Record lists_ok (l : list gattc_connection_t) (al : IndexAllocator.index_allocator_t) (n : nat) : Prop := {
  l_ptr : NoDup (ptr <$> l);
  l_lt : Forall (fun c => (c.(ptr) < n)%nat) l;
  l_id : NoDup (conn_id <$> l);
  l_ok : Forall conn_ok l;
  l_wf : ia_wf al;
  l_used i : ia_used al i = true <-> i ∈ (conn_id <$> l);
}.

Definition inv (s : gattc_manager_t) : Prop :=
  match s.(connections), s.(allocator) with
  | Some l, Some al => lists_ok l al s.(next)
  | None, None => s.(started) = false
  | _, _ => False
  end.

Abbreviation st on al l n := (mk_manager on (Some al) (Some l) n).
Abbreviation stays m s := (wp m (fun _ s' _ => inv s') s).

(** ** One connection *)

Lemma conn_wp on al l n p c (Q : gattc_connection_t -> gattc_manager_t -> list out -> Prop) :
  get ptr p l = Some c -> Q c (st on al l n) [] -> wp (conn p) Q (st on al l n).
Proof. intros Hc HQ. by apply (wp_read _ c). Qed.

Lemma upd_conn_wp on al l n p c f (Q : unit -> gattc_manager_t -> list out -> Prop) :
  NoDup (ptr <$> l) -> get ptr p l = Some c -> Q tt (st on al (put ptr p (f c) l) n) [] -> wp (upd p f) Q (st on al l n).
Proof.
  intros Hnd Hc HQ. unfold upd. apply wp_bind. eapply conn_wp; [done|]. apply wp_modify. cbn.
  rewrite <- (put_changes ptr p l c f Hnd Hc) in HQ. exact HQ.
Qed.

Lemma put_ok p c c' l al n :
  lists_ok l al n -> get ptr p l = Some c -> c'.(ptr) = c.(ptr) -> c'.(conn_id) = c.(conn_id) -> conn_ok c' -> lists_ok (put ptr p c' l) al n.
Proof.
  intros [] Hc H1 H2 Hok. pose proof (get_elem ptr p l c Hc) as [Hin _]. split.
  - by rewrite (put_fmap ptr ptr p l c).
  - apply put_Forall; [done|]. rewrite H1. by apply (proj1 (Forall_forall _ _) l_lt0).
  - by rewrite (put_fmap ptr conn_id p l c).
  - by apply put_Forall.
  - done.
  - intros i. by rewrite (put_fmap ptr conn_id p l c).
Qed.

Lemma conn_live_ok p c l al n : lists_ok l al n -> get ptr p l = Some c -> conn_ok c.
Proof. intros Hl Hc. apply get_elem in Hc as [Hc _]. by apply (proj1 (Forall_forall _ _) (l_ok _ _ _ Hl)). Qed.

(** The checks: a handle that is not a connection is refused, and changes nothing. *)
Lemma check_wp on al l n hd f (Q : bt_status_t -> gattc_manager_t -> list out -> Prop) :
  (forall x, Q x (st on al l n) []) -> (forall p c, on = true -> get ptr p l = Some c -> wp (f p) Q (st on al l n)) ->
  wp (check hd f) Q (st on al l n).
Proof.
  intros H1 H2. unfold check. apply wp_bind, wp_gets. cbn [started]. destruct on; cbn [negb]; [|apply H1].
  destruct hd as [p|]; [|apply H1]. apply wp_bind. unfold the_list. apply (wp_read _ l); [done|].
  destruct (existsb (at_ptr p) l) eqn:E; [|apply H1]. apply (existsb_get ptr) in E as [c Hc]. by eapply H2.
Qed.

Lemma check_desc_wp on al l n hd f (Q : bt_status_t * option attr_desc -> gattc_manager_t -> list out -> Prop) :
  (forall x, Q x (st on al l n) []) -> (forall p c, on = true -> get ptr p l = Some c -> wp (f p) Q (st on al l n)) ->
  wp (check_desc hd f) Q (st on al l n).
Proof.
  intros H1 H2. unfold check_desc. apply wp_bind, wp_gets. cbn [started]. destruct on; cbn [negb]; [|apply H1].
  destruct hd as [p|]; [|apply H1]. apply wp_bind. unfold the_list. apply (wp_read _ l); [done|].
  destruct (existsb (at_ptr p) l) eqn:E; [|apply H1]. apply (existsb_get ptr) in E as [c Hc]. by eapply H2.
Qed.

(** A request for the stack that only needs the address. *)
Lemma request_stays e on al l n p c (f : gattc_connection_t -> request) :
  lists_ok l al n -> get ptr p l = Some c -> stays (x <- conn p;; ask e (f x)) (st on al l n).
Proof. intros Hl Hc. apply wp_bind. eapply conn_wp; [done|]. by apply wp_bind, wp_emit, wp_ret. Qed.

Lemma cback_stays c k args u s : inv s -> stays (GATT_CBACK c k args u) s.
Proof. intros Hi. unfold GATT_CBACK. destruct (callbacks c) as [set|]; [|done]. by destruct (set k). Qed.

Lemma free_id_wp on al l n i (Q : unit -> gattc_manager_t -> list out -> Prop) :
  ia_wf al -> ia_used al i = true ->
  (forall al', ia_wf al' -> (forall j, ia_used al' j = negb (bool_decide (j = i)) && ia_used al j) -> Q tt (st on al' l n) []) ->
  wp (free_id i) Q (st on al l n).
Proof.
  intros Hwf Hu HQ. destruct (ia_free_spec al i Hwf Hu) as (al' & E & Hwf' & _ & Hu').
  unfold free_id. apply wp_bind, (wp_read _ al); [done|]. apply wp_bind, (wp_read _ al'); [done|]. apply wp_modify. by apply HQ.
Qed.

Lemma remove_conn_wp on al l n p c (Q : unit -> gattc_manager_t -> list out -> Prop) :
  lists_ok l al n -> get ptr p l = Some c ->
  (forall al' os, lists_ok (drop ptr p l) al' n -> Q tt (st on al' (drop ptr p l) n) os) -> wp (remove_connection p) Q (st on al l n).
Proof.
  intros Hl Hc HQ. unfold remove_connection. apply wp_bind. eapply conn_wp; [done|]. apply wp_bind, wp_modify.
  pose proof (get_elem ptr p l c Hc) as [Hin Hp]. pose proof (drop_get ptr p l c (l_ptr _ _ _ Hl) Hc) as Hd.
  unfold gattc_connection_delete. apply wp_bind. change (option_map _ _) with (Some (drop ptr p l)).
  assert (wp (free_id (conn_id c)) (fun (_ : unit) s' _ => forall os, Q tt s' os) (st on al (drop ptr p l) n)) as Hfree.
  { apply free_id_wp; [apply Hl|apply Hl; by apply list_elem_of_fmap_2|]. intros al' Hwf Hu os. apply HQ. destruct Hl. split.
    - eapply sublist_NoDup; [exact l_ptr0|]. apply fmap_sublist, drop_sub.
    - apply Forall_forall. intros x [Hx _]%Hd. by apply (proj1 (Forall_forall _ _) l_lt0).
    - eapply sublist_NoDup; [exact l_id0|]. apply fmap_sublist, drop_sub.
    - apply Forall_forall. intros x [Hx _]%Hd. by apply (proj1 (Forall_forall _ _) l_ok0).
    - done.
    - intros i. rewrite Hu, andb_true_iff, negb_true_iff, bool_decide_eq_false, l_used0, !list_elem_of_fmap. split.
      + intros [Hne (x & -> & Hx)]. exists x. split; [done|]. apply Hd. split; [done|]. by intros ->.
      + intros (x & -> & [Hx Hne]%Hd). split; [|by exists x]. intros E. apply Hne.
        apply list_elem_of_lookup in Hx as [a Ha], Hin as [b Hb].
        assert (a = b) as -> by (eapply (NoDup_lookup _ a b _ l_id0); rewrite list_lookup_fmap; [rewrite Ha|rewrite Hb; cbn; by rewrite <- E]; done).
        congruence. }
  destruct (_ || _); [apply wp_emit|apply wp_ret]; (eapply wp_mono; [|exact Hfree]); by intros [] s' os H.
Qed.

(** ** Discovery *)

Lemma discover_start_wp e on al l n p c f k (Q : bt_status_t -> gattc_manager_t -> list out -> Prop) :
  on = true -> NoDup (ptr <$> l) -> get ptr p l = Some c ->
  (let r := [sal (discover_request c.(remote_addr) f)] in
   if is_success (e.(discovers) k) then Q (e.(discovers) k) (st on al (put ptr p ({! discovering := true } c) l) n) r
   else Q (e.(discovers) k) (st on al l n) r) ->
  wp (gattc_discover_start e (Some p) f k) Q (st on al l n).
Proof.
  intros -> Hnd Hc HQ. unfold gattc_discover_start, check. apply wp_bind, wp_gets. cbn [started negb]. apply wp_bind. unfold the_list.
  apply (wp_read _ l); [done|]. assert (existsb (at_ptr p) l = true) as -> by (apply (existsb_get ptr); by exists c). apply wp_bind. eapply conn_wp; [done|].
  apply wp_bind, wp_emit. cbn zeta in *. apply wp_bind. destruct (is_success (discovers e k)); cbn [ewhen].
  - eapply upd_conn_wp; [done|done|]. apply wp_ret. exact HQ.
  - by apply wp_ret, wp_ret.
Qed.

Lemma post_ok e m s : e.(mem) = true -> post e m s = Some (tt, s, [do_in_service_loop m]).
Proof. intros Hm. unfold post. by rewrite Hm. Qed.

(** Everything is sound once the connection at [p] is. *)
Definition ok_but (p : nat) (c : gattc_connection_t) (l : list gattc_connection_t) (al : IndexAllocator.index_allocator_t) (n : nat) : Prop :=
  NoDup (ptr <$> l) /\ get ptr p l = Some c /\
  forall c', c'.(ptr) = c.(ptr) -> c'.(conn_id) = c.(conn_id) -> conn_ok c' -> lists_ok (put ptr p c' l) al n.

Lemma ok_ok_but p c l al n : lists_ok l al n -> get ptr p l = Some c -> ok_but p c l al n.
Proof. intros Hl Hc. split; [apply Hl|]. split; [done|]. intros c' H1 H2 H3. by eapply put_ok. Qed.

Lemma ok_but_put p c c' l al n :
  ok_but p c l al n -> c'.(ptr) = c.(ptr) -> c'.(conn_id) = c.(conn_id) -> ok_but p c' (put ptr p c' l) al n.
Proof.
  intros (Hnd & Hc & Hok) H1 H2. assert (ptr c = p) as Hp by (by apply get_elem in Hc as [_ ?]). split; [by rewrite (put_fmap ptr ptr p l c)|].
  split; [eapply put_get; [done|congruence]|]. intros c2 G1 G2 G3. rewrite put_twice by congruence. apply Hok; [congruence..|done].
Qed.

Lemma ok_but_ok p c l al n : ok_but p c l al n -> conn_ok c -> lists_ok l al n.
Proof. intros (Hnd & Hc & Hok) H. specialize (Hok c eq_refl eq_refl H). by rewrite (put_self ptr p l c) in Hok. Qed.

(** The queue is worked off until the stack takes a discovery. *)
Lemma discover_loop_stays e on al l n p c ops :
  e.(mem) = true -> on = true -> ok_but p c l al n -> c.(discovering) = false -> c.(pend_ops) = ops ->
  Forall (fun o => o <> GATTC_REQ_OTHER) ops -> services_ok c.(services) ->
  stays (discover_next_loop e p ops) (st on al l n).
Proof.
  intros Hm Hon. revert l c. induction ops as [|[f|] ops IH]; intros l c Hok Hdis Hops Hq Hs; cbn [discover_next_loop].
  { apply wp_ret. eapply ok_but_ok; [done|]. split; [|done]. split; by rewrite Hops. }
  2:{ by apply Forall_cons_iff in Hq as [? _]. }
  apply Forall_cons_iff in Hq as [_ Hq]. apply wp_bind. pose proof Hok as (Hnd & Hc & _).
  eapply discover_start_wp; [done|done|done|]. cbn zeta. destruct (is_success (discovers e (length ops))).
  - set (c1 := {! discovering := true } c). pose proof (ok_but_put p c c1 l al n Hok eq_refl eq_refl) as Hok1. pose proof Hok1 as (Hnd1 & Hc1 & _).
    cbn beta. apply wp_bind. eapply upd_conn_wp; [done|done|]. apply wp_ret.
    eapply ok_but_ok; [apply (ok_but_put p c1); [done|done|done]|]. split; [|done]. by split.
  - set (c1 := {! pend_ops := ops } c). pose proof (ok_but_put p c c1 l al n Hok eq_refl eq_refl) as Hok1. pose proof Hok1 as (Hnd1 & Hc1 & _).
    cbn beta. apply wp_bind. eapply upd_conn_wp; [done|done|]. fold c1. apply wp_bind. eapply conn_wp; [done|].
    apply wp_bind. unfold wp, if_gattc_on_discover_completed. rewrite post_ok by done.
    exact (IH _ c1 Hok1 Hdis eq_refl Hq Hs).
Qed.

Lemma discover_next_stays e on al l n p c :
  e.(mem) = true -> on = true -> ok_but p c l al n -> c.(discovering) = false ->
  Forall (fun o => o <> GATTC_REQ_OTHER) c.(pend_ops) -> services_ok c.(services) ->
  stays (gattc_discover_start_next e p) (st on al l n).
Proof.
  intros Hm -> Hok Hdis Hq Hs. pose proof Hok as (Hnd & Hc & _). unfold gattc_discover_start_next, check.
  apply wp_bind, wp_gets. cbn [started negb]. apply wp_bind. unfold the_list. apply (wp_read _ l); [done|].
  assert (existsb (at_ptr p) l = true) as -> by (apply (existsb_get ptr); by exists c). apply wp_bind. eapply conn_wp; [done|].
  rewrite Hdis. by eapply discover_loop_stays.
Qed.

(** ** Services *)

(** What the stack hands over: handles that are all different, between the
    first and the last; a service that is known overlaps only if it has the
    first handle. *)
Definition fits (els : list gatt_element_t) (l : list gattc_service_t) : Prop :=
  match head els, last els with
  | Some first, Some last =>
      service_ok (mk_service first.(handle) last.(handle) els) /\
      Forall (fun s => apart s (mk_service first.(handle) last.(handle) els) \/ attribute_handle_cmp first.(handle) s = true) l
  | _, _ => True
  end.

Lemma remove_service_sub h l : remove_service h l `sublist_of` l.
Proof. induction l as [|s l IH]; cbn; [done|]. destruct (attribute_handle_cmp h s); [by apply sublist_cons|by apply sublist_skip]. Qed.

Lemma pairs_sublist l k : l `sublist_of` k -> ForallOrdPairs apart k -> ForallOrdPairs apart l.
Proof.
  induction 1 as [|s l k Hs IH|s l k Hs IH]; intros Hk; [constructor| |]; inversion Hk as [|? ? H1 H2]; subst; [|by apply IH].
  constructor; [|by apply IH]. apply Forall_forall. intros t Ht. apply (proj1 (Forall_forall _ _) H1). by eapply elem_of_sublist.
Qed.

(** Of services that are apart one at most has a handle. *)
Lemma removed_lacks h l : ForallOrdPairs apart l -> Forall (fun s => attribute_handle_cmp h s = false) (remove_service h l).
Proof.
  induction 1 as [|s l Hs Hl IH]; cbn; [constructor|]. destruct (attribute_handle_cmp h s) eqn:E; [|by constructor].
  eapply Forall_impl; [exact Hs|]. cbn. intros t Ht. unfold apart, attribute_handle_cmp in *.
  apply andb_true_iff in E as [E1%Z.leb_le E2%Z.leb_le]. apply andb_false_iff. rewrite !Z.leb_gt. lia.
Qed.

Lemma added_ok els l first lst :
  services_ok l -> fits els l -> head els = Some first -> last els = Some lst ->
  services_ok (remove_service first.(handle) l ++ [mk_service first.(handle) lst.(handle) els]) /\
  Forall (fun s => apart s (mk_service first.(handle) lst.(handle) els)) (remove_service first.(handle) l).
Proof.
  intros [H1 H2] Hf Hh Hl. unfold fits in Hf. rewrite Hh, Hl in Hf. destruct Hf as [Hs Ha].
  pose proof (remove_service_sub first.(handle) l) as Hsub. pose proof (removed_lacks first.(handle) l H2) as Hr.
  assert (Forall (fun s => apart s (mk_service first.(handle) lst.(handle) els)) (remove_service first.(handle) l)) as Happ.
  { apply Forall_forall. intros s Hin. pose proof (proj1 (Forall_forall _ _) Hr s Hin) as Hn.
    destruct (proj1 (Forall_forall _ _) Ha s ltac:(by eapply elem_of_sublist)) as [?|?]; [done|congruence]. }
  split; [|done]. split.
  - apply Forall_app. split; [|by apply Forall_singleton]. apply Forall_forall. intros s Hin. apply (proj1 (Forall_forall _ _) H1). by eapply elem_of_sublist.
  - pose proof (pairs_sublist _ _ Hsub H2) as Hp. clear - Hp Happ. induction Hp as [|s k Hs _ IH]; cbn; [by repeat constructor|].
    apply Forall_cons_iff in Happ as [H1 H2]. constructor; [|by apply IH]. apply Forall_app. split; [done|]. by apply Forall_singleton.
Qed.

Lemma upd_service_ok h f l : (forall x, handle (f x) = handle x) -> services_ok l -> services_ok (upd_service h f l).
Proof.
  intros Hf. assert (forall k, handle <$> upd_element h f k = handle <$> k) as He.
  { induction k as [|x k IH]; cbn; [done|]. destruct (_ =? _); cbn; [by rewrite Hf|by rewrite IH]. }
  assert (forall s, service_ok s -> service_ok ({! elements ::= upd_element h f } s)) as Hso.
  { intros s (H1 & H2 & H3). destruct s as [a b els]. unfold service_ok. cbn in *. rewrite He. split; [done|]. split; [|done].
    clear - Hf H2. induction H2 as [|x k Hx Hk IH]; cbn; [constructor|]. destruct (_ =? _); constructor; [by rewrite Hf|done|done|done]. }
  assert (forall t k, Forall (apart t) k -> Forall (apart t) (upd_service h f k)) as Hap.
  { intros t k. induction 1 as [|s k Hs Hk IH]; cbn; [constructor|]. destruct (attribute_handle_cmp h s); by constructor. }
  intros [H1 H2]. split.
  - induction H1 as [|s k Hs Hk IH]; cbn; [constructor|]. inversion H2 as [|? ? G1 G2]; subst. destruct (attribute_handle_cmp h s); constructor; [by apply Hso|done|done|by apply IH].
  - induction H2 as [|s k Hs Hk IH]; cbn; [constructor|]. apply Forall_cons_iff in H1 as [_ H1]. destruct (attribute_handle_cmp h s).
    + by constructor.
    + constructor; [by apply Hap|by apply IH].
Qed.

(** ** Messages *)

(** The connection a message is for. *)
Definition for_conn (m : gattc_msg_t) (s : gattc_manager_t) : option gattc_connection_t :=
  if s.(started) then match s.(connections) with Some l => List.find (connection_addr_cmp m.(addr)) l | None => None end else None.

(** [m] keeps everything sound, or fails if [b]. *)
Definition runs (b : bool) (m : MG unit) (s : gattc_manager_t) : Prop := if b then m s = None else stays m s.

Lemma runs_or_bind {A} b (m : MG A) (f : A -> MG unit) s : wp m (fun a s1 _ => runs b (f a) s1) s -> runs b (ebind m f) s.
Proof.
  destruct b; cbn; [|intros H; by apply wp_bind]. unfold wp, ebind. destruct (m s) as [[[a s1] o]|]; [|done]. by intros ->.
Qed.

(** A result of a discovery without any attribute. *)
Definition no_attributes (m : gattc_msg_t) (s : gattc_manager_t) : bool :=
  match m.(param), for_conn m s with GATTC_EVENT_DISCOVER_RESULT [], Some _ => true | _, _ => false end.

Lemma idle_queue c : conn_ok c -> Forall (fun o => o <> GATTC_REQ_OTHER) c.(pend_ops) /\ services_ok c.(services).
Proof. intros [[H _] H']. by split. Qed.

(** A change that keeps the queue and the services. *)
Lemma upd_stays on al l n p c f :
  lists_ok l al n -> get ptr p l = Some c -> (f c).(ptr) = c.(ptr) -> (f c).(conn_id) = c.(conn_id) -> conn_ok (f c) ->
  stays (upd p f) (st on al l n).
Proof. intros Hl Hc H1 H2 H3. eapply upd_conn_wp; [apply Hl|done|]. by eapply put_ok. Qed.

Lemma connect_change_stays on al l n p c v :
  lists_ok l al n -> get ptr p l = Some c -> stays (connect_change p v) (st on al l n).
Proof.
  intros Hl Hc. pose proof (conn_live_ok p c l al n Hl Hc) as Hok. pose proof (get_elem ptr p l c Hc) as [_ Hp]. unfold connect_change.
  set (c1 := {! state := v } c). assert (conn_ok c1) as Hok1 by (by destruct c).
  pose proof (put_ok p c c1 l al n Hl Hc eq_refl eq_refl Hok1) as Hl1.
  assert (get ptr p (put ptr p c1 l) = Some c1) as Hc1 by (by eapply put_get).
  destruct (_ =? _); [|destruct (_ =? _); [|done]]; (apply wp_bind; eapply upd_conn_wp; [apply Hl|done|]; fold c1; apply wp_bind; eapply conn_wp; [done|]).
  - by apply cback_stays.
  - apply wp_bind. unfold GATT_CBACK. set (s1 := st on al (put ptr p c1 l) n).
    assert (stays (upd p {! remote_addr := bt_addr_empty; services := []; pend_ops := []; discovering := false }) s1) as Hu.
    { eapply upd_stays; [done|done|done|done|]. split; [|split; constructor]. split; [constructor|done]. }
    destruct (callbacks c1) as [set|]; [|exact Hu]. destruct (set on_disconnected); exact Hu.
Qed.

Lemma discover_result_runs e on al l n p c els :
  e.(mem) = true -> lists_ok l al n -> get ptr p l = Some c -> fits els c.(services) ->
  runs (match els with [] => true | _ => false end) (discover_result e p els) (st on al l n).
Proof.
  intros Hm Hl Hc Hf. destruct els as [|x els]; [done|]. pose proof (conn_live_ok p c l al n Hl Hc) as [Hq Hs].
  pose proof (get_elem ptr p l c Hc) as [_ Hp].
  destruct (last (x :: els)) as [y|] eqn:El; [|by apply last_None in El]. cbn [runs]. unfold discover_result.
  apply wp_bind, (wp_read _ x); [done|]. apply wp_bind. eapply upd_conn_wp; [apply Hl|done|]. rewrite Hm. cbn [negb].
  set (c1 := {! services ::= _ } c). apply wp_bind, (wp_read _ y); [done|]. apply wp_bind.
  eapply (upd_conn_wp _ _ _ _ _ c1); [rewrite (put_fmap ptr ptr p l c); [apply Hl|apply Hl|done|done]|by eapply put_get|].
  set (c2 := {! services ::= _ } c1). rewrite put_twice by done. apply wp_bind.
  assert (lists_ok (put ptr p c2 l) al n) as Hl2.
  { eapply put_ok; [done|done|done|done|]. split; [done|]. by apply (added_ok (x :: els) (services c) x y). }
  eapply conn_wp; [by eapply put_get|]. by apply cback_stays.
Qed.

Lemma message_runs e m s :
  e.(mem) = true -> inv s -> (forall c els, for_conn m s = Some c -> m.(param) = GATTC_EVENT_DISCOVER_RESULT els -> fits els c.(services)) ->
  runs (no_attributes m s) (gattc_process_message e m) s.
Proof.
  intros Hm Hi Hf. unfold no_attributes, gattc_process_message. destruct s as [on al l n]. unfold for_conn in *. cbn [started connections] in *.
  unfold inv in Hi. cbn in Hi. apply runs_or_bind, wp_gets. cbn [started].
  destruct on; cbn [negb]; [|destruct (param m) as [|[]| | | | | | | | | | ]; exact Hi]. destruct l as [l|], al as [al|]; try done.
  apply runs_or_bind. unfold find_gattc_connection_by_addr, the_list. apply wp_bind, (wp_read _ l); [done|]. apply wp_ret.
  destruct (List.find (connection_addr_cmp (addr m)) l) as [c|] eqn:Ec; [|by destruct (param m) as [|[]| | | | | | | | | | ]].
  cbn [fmap option_fmap option_map]. assert (get ptr (ptr c) l = Some c) as Hc.
  { apply find_some in Ec as [Hin%list_elem_of_In _]. apply elem_get; [apply Hi|done]. }
  pose proof (conn_live_ok _ c l al n Hi Hc) as Hok. apply runs_or_bind. eapply conn_wp; [done|].
  destruct (param m) as [v|els|status|status id value|status id|status id en|id value|status mtu|tx rx|status tx rx|status rssi|status i lat t] eqn:Ep;
    try (by apply cback_stays).
  - by eapply connect_change_stays.
  - pose proof (discover_result_runs e true al l n (ptr c) c els Hm Hi Hc ltac:(by apply Hf)) as H. by destruct els.
  - apply wp_bind. unfold GATT_CBACK. set (c1 := {! discovering := false } c).
    assert (wp (upd (ptr c) {! discovering := false };;; match pend_ops c with [] => eret tt | _ => gattc_discover_start_next e (ptr c);;; eret tt end)
              (fun _ s' _ => inv s') (st true al l n)) as H.
    { apply wp_bind. eapply upd_conn_wp; [apply Hi|done|]. fold c1. destruct (idle_queue c Hok) as [Hq Hs].
      destruct (pend_ops c) as [|o ops] eqn:Eo.
      - apply wp_ret. eapply put_ok; [done|done|done|done|]. split; [|done]. by split; rewrite (Eo : pend_ops c1 = []).
      - apply wp_bind. pose proof (ok_but_put (ptr c) c c1 l al n (ok_ok_but _ _ _ _ _ Hi Hc) eq_refl eq_refl) as Hb.
        eapply wp_mono; [|eapply (discover_next_stays e true al _ n (ptr c) c1); [done|done|exact Hb|done|by change (pend_ops c1) with (pend_ops c); rewrite Eo|done]].
        done. }
    destruct (callbacks c) as [set|]; [|exact H]. destruct (set on_discovered); exact H.
  - destruct (find_gattc_element_by_handle (services c) id); [|done]. apply wp_bind. destruct (_ =? _); cbn [ewhen]; [|by apply wp_ret, cback_stays].
    eapply upd_conn_wp; [apply Hi|done|]. apply cback_stays. eapply put_ok; [done|done|done|done|]. destruct Hok as [Hq Hs]. split; [done|].
    by apply upd_service_ok.
  - destruct (find_gattc_element_by_handle (services c) id) as [x|]; [|done]. destruct (notify_enable x); [|done]. by apply cback_stays.
Qed.

(** ** The profile *)

Lemma startup_stays e s : 1 <= e.(max_connections) <= 256 -> inv s -> stays (if_gattc_startup e) s.
Proof.
  intros Hmax Hi. unfold if_gattc_startup. apply wp_bind, wp_gets. destruct (started s) eqn:Eon; [done|].
  destruct (mem e); cbn [negb]; [|exact Eon]. apply wp_bind, wp_modify, wp_bind.
  destruct (IndexAllocator.filled_create (max_connections e - 1) ltac:(lia)) as (Hwf & _ & _ & Hu).
  assert (lists_ok [] (IndexAllocator.index_allocator_create (max_connections e - 1)) s.(next)) as Hl.
  { split; try (by constructor); [exact Hwf|]. intros i. unfold ia_used. cbn. rewrite Hu, bool_decide_eq_true, elem_of_nil. lia. }
  assert (forall x : bt_status_t, wp (if negb (is_success x)
      then emodify {! allocator := None; connections := None };;; eemit (profile_cb false);;; eret x
      else emodify {! started := true };;; eemit (profile_cb true);;; eret BT_STATUS_SUCCESS) (fun _ s' _ => inv s')
      ({! allocator := Some (IndexAllocator.index_allocator_create (max_connections e - 1)); connections := Some [] } s)) as H.
  { intros x. destruct s as [on al l n]. cbn in *. destruct (is_success x); cbn [negb].
    - exact Hl.
    - exact Eon. }
  destruct (zblue e); [apply wp_bind, wp_emit, wp_ret|apply wp_ret]; apply H.
Qed.

(** The loop that frees the connections. *)
Lemma remove_all_wp on al l n :
  lists_ok l al n -> wp (efor l (fun c => remove_connection c.(ptr))) (fun _ s' _ => s'.(started) = on) (st on al l n).
Proof.
  intros Hl.
  assert (forall k al l, NoDup k -> k ⊆ l -> lists_ok l al n ->
    wp (efor k (fun c => remove_connection c.(ptr))) (fun _ s' _ => s'.(started) = on) (st on al l n)) as H.
  { induction k as [|c k IH]; intros al1 l1 Hnd Hsub H1; cbn [efor]; [done|]. apply list.NoDup_cons in Hnd as [Hc Hnd]. apply wp_bind.
    assert (get ptr (ptr c) l1 = Some c) as Hg by (apply elem_get; [apply H1|apply Hsub; by left]).
    eapply remove_conn_wp; [done|done|]. intros al2 os H2. apply IH; [done| |done]. intros x Hx.
    apply (drop_get ptr _ l1 c (l_ptr _ _ _ H1) Hg). split; [apply Hsub; by right|]. by intros ->. }
  apply H; [eapply NoDup_fmap_1, (l_ptr _ _ _ Hl)|done|done].
Qed.

Lemma shutdown_stays e s : inv s -> stays (if_gattc_shutdown e) s.
Proof.
  intros Hi. unfold if_gattc_shutdown. apply wp_bind, wp_gets. destruct s as [on al l n]. cbn [started]. destruct on; cbn [negb]; [|done].
  unfold inv in Hi. cbn in Hi. destruct l as [l|], al as [al|]; try done. apply wp_bind. unfold the_list. apply (wp_read _ l); [done|].
  apply wp_bind. eapply wp_mono; [|by apply remove_all_wp]. intros [] s' os _. apply wp_bind, wp_modify, wp_bind.
  by destruct (zblue e).
Qed.

(** ** The interface *)

Lemma create_stays e rem ph cbs s : e.(mem) = true -> inv s -> stays (if_gattc_create_connect e rem ph cbs) s.
Proof.
  intros Hm Hi. unfold if_gattc_create_connect. apply wp_bind, wp_gets. destruct s as [on al l n]. cbn [started]. destruct on; cbn [negb]; [|done].
  destruct ph as [ph|]; [|done]. unfold inv in Hi. cbn in Hi. destruct l as [l|], al as [al|]; try done.
  apply wp_bind. unfold gattc_connection_new. apply wp_bind, (wp_read _ al); [done|].
  destruct (ia_alloc_spec _ (l_wf _ _ _ Hi)) as (i & al' & Hal & Hwf & Hmax & Hc).
  apply wp_bind, (wp_read _ (i, al')); [done|]. apply wp_bind, wp_modify. cbn [fst snd].
  destruct Hc as [(Hrange & Hfree & Hu)|(-> & -> & _)]; [|exact Hi]. rewrite (proj2 (Z.ltb_ge _ _)), Hm by lia. cbn [negb].
  apply wp_ret, wp_bind. unfold fresh. apply wp_bind, wp_gets, wp_bind, wp_modify, wp_ret, wp_bind. unfold the_list. apply (wp_read _ l); [done|].
  apply wp_bind, wp_modify, wp_bind, wp_emit, wp_ret. cbn. destruct Hi. split.
  - rewrite fmap_app. apply list.NoDup_app. split; [done|]. split; [|apply NoDup_singleton].
    intros x Hx Hp%list_elem_of_singleton. subst x. apply list_elem_of_fmap in Hx as (c & E & Hin).
    pose proof (proj1 (Forall_forall _ _) l_lt0 c Hin) as Hlt. cbn in *. lia.
  - apply Forall_app. split; [eapply Forall_impl; [exact l_lt0|]; cbn; lia|]. apply Forall_singleton. cbn. lia.
  - rewrite fmap_app. apply list.NoDup_app. split; [done|]. split; [|apply NoDup_singleton].
    intros x Hx Hp%list_elem_of_singleton. cbn in Hp. subst x. apply l_used0 in Hx. congruence.
  - apply Forall_app. split; [done|]. apply Forall_singleton. split; [|split; constructor]. split; [constructor|done].
  - done.
  - intros j. rewrite Hu, orb_true_iff, bool_decide_eq_true, l_used0, fmap_app, elem_of_app. cbn. rewrite list_elem_of_singleton. tauto.
Qed.

Lemma delete_stays hd s : inv s -> stays (if_gattc_delete_connect hd) s.
Proof.
  intros Hi. destruct s as [on al l n]. pose proof Hi as Hi'. unfold inv in Hi'. cbn in Hi'. unfold if_gattc_delete_connect.
  destruct l as [l|], al as [al|]; try done; [|by rewrite Hi'].
  apply check_wp; [done|]. intros p c _ Hc. apply wp_bind. eapply conn_wp; [done|]. apply wp_bind, wp_emit, wp_bind.
  eapply remove_conn_wp; [done|done|]. intros al' os Hl. by apply wp_bind, wp_emit, wp_ret.
Qed.

(** What only looks at a connection and asks the stack. *)
Lemma check_stays hd f s :
  inv s -> (forall al l p c, lists_ok l al s.(next) -> get ptr p l = Some c -> s.(started) = true -> stays (f p) (st true al l s.(next))) ->
  stays (check hd f) s.
Proof.
  intros Hi Hf. destruct s as [on al l n]. pose proof Hi as Hi'. unfold inv in Hi'. cbn in Hi'.
  destruct l as [l|], al as [al|]; try done; [|by rewrite Hi'].
  apply check_wp; [done|]. intros p c -> Hc. by eapply Hf.
Qed.

Lemma check_desc_stays hd f s :
  inv s -> (forall al l p c, lists_ok l al s.(next) -> get ptr p l = Some c -> s.(started) = true -> stays (f p) (st true al l s.(next))) ->
  stays (check_desc hd f) s.
Proof.
  intros Hi Hf. destruct s as [on al l n]. pose proof Hi as Hi'. unfold inv in Hi'. cbn in Hi'.
  destruct l as [l|], al as [al|]; try done; [|by rewrite Hi'].
  apply check_desc_wp; [done|]. intros p c -> Hc. by eapply Hf.
Qed.

Lemma discover_stays e hd f s : e.(mem) = true -> inv s -> stays (if_gattc_discover_service e hd f) s.
Proof.
  intros Hm Hi. apply check_stays; [done|]. intros al l p c Hl Hc _. apply wp_bind. eapply conn_wp; [done|].
  pose proof (conn_live_ok p c l al _ Hl Hc) as [[Hq Hd] Hs]. destruct (discovering c) eqn:Ed.
  - rewrite Hm. cbn [negb]. apply wp_bind. eapply upd_conn_wp; [apply Hl|done|]. apply wp_ret. eapply put_ok; [done|done|done|done|].
    split; [|done]. split; [|by intros _]. apply Forall_app. split; [done|]. by apply Forall_singleton.
  - eapply discover_start_wp; [done|apply Hl|done|]. cbn zeta. destruct (is_success _); [|done]. eapply put_ok; [done|done|done|done|].
    split; [|done]. by split.
Qed.

Lemma ask_upd_stays e al l n p c r f :
  lists_ok l al n -> get ptr p l = Some c -> (f c).(ptr) = c.(ptr) -> (f c).(conn_id) = c.(conn_id) -> conn_ok (f c) ->
  stays (x <- ask e r;; ewhen (is_success x) (upd p f);;; eret x) (st true al l n).
Proof.
  intros Hl Hc H1 H2 H3. apply wp_bind, wp_bind, wp_emit, wp_ret, wp_bind. destruct (is_success _); cbn [ewhen]; [|done].
  eapply upd_conn_wp; [apply Hl|done|]. apply wp_ret. by eapply put_ok.
Qed.

(** [CHECK_ATTR_HANDLE_VALID] *)
Lemma handle_stays h m s : inv s -> stays m s -> stays (CHECK_ATTR_HANDLE_VALID h m) s.
Proof. intros Hi Hm. unfold CHECK_ATTR_HANDLE_VALID. by destruct (_ || _). Qed.

(** The requests that only need the address of the connection. *)
Lemma asks_stays e hd (f : gattc_connection_t -> request) s : inv s -> stays (check hd (fun p => c <- conn p;; ask e (f c))) s.
Proof. intros Hi. apply check_stays; [done|]. intros al l p c Hl Hc _. by eapply request_stays. Qed.

(** Those that first look at the handle of an attribute. *)
Lemma asks_handle_stays e hd h (f : gattc_connection_t -> request) s :
  inv s -> stays (check hd (fun p => CHECK_ATTR_HANDLE_VALID h (c <- conn p;; ask e (f c)))) s.
Proof.
  intros Hi. apply check_stays; [done|]. intros al l p c Hl Hc _. apply handle_stays; [done|]. by eapply request_stays.
Qed.

Lemma gattc_connect_stays e hd a ty s : inv s -> stays (if_gattc_connect e hd a ty) s.
Proof.
  intros Hi. apply check_stays; [done|]. intros al l p c Hl Hc _. pose proof (conn_live_ok p c l al _ Hl Hc) as Hok.
  eapply ask_upd_stays; [done|done|done|done|]. by destruct c.
Qed.

Lemma gattc_disconnect_stays e hd s : inv s -> stays (if_gattc_disconnect e hd) s.
Proof.
  intros Hi. apply check_stays; [done|]. intros al l p c Hl Hc _. pose proof (conn_live_ok p c l al _ Hl Hc) as Hok.
  apply wp_bind. eapply conn_wp; [done|]. eapply ask_upd_stays; [done|done|done|done|]. by destruct c.
Qed.

Lemma found_stays x s : inv s -> stays (found x) s.
Proof. by destruct x. Qed.

Lemma get_by_handle_stays hd h dst s : inv s -> stays (if_gattc_get_attribute_by_handle hd h dst) s.
Proof.
  intros Hi. apply check_desc_stays; [done|]. intros al l p c Hl Hc _. destruct (_ || _); [done|]. destruct dst; cbn [negb]; [|done].
  apply wp_bind. eapply conn_wp; [done|]. by apply found_stays.
Qed.

Lemma get_by_uuid_stays hd from upto u dst s : inv s -> stays (if_gattc_get_attribute_by_uuid hd from upto u dst) s.
Proof.
  intros Hi. apply check_desc_stays; [done|]. intros al l p c Hl Hc _. destruct dst; cbn [negb]; [|done].
  apply wp_bind. eapply conn_wp; [done|]. by apply found_stays.
Qed.

Lemma subscribe_stays e hd h ccc s : inv s -> stays (if_gattc_subscribe e hd h ccc) s.
Proof.
  intros Hi. apply check_stays; [done|]. intros al l p c Hl Hc _. apply handle_stays; [done|]. apply wp_bind. eapply conn_wp; [done|].
  destruct (find_gattc_element_by_handle _ _) as [x|]; [|done]. by repeat case_match.
Qed.

Lemma unsubscribe_stays e hd h s : inv s -> stays (if_gattc_unsubscribe e hd h) s.
Proof.
  intros Hi. apply check_stays; [done|]. intros al l p c Hl Hc _. apply handle_stays; [done|]. apply wp_bind. eapply conn_wp; [done|].
  destruct (find_gattc_element_by_handle _ _) as [x|]; [|done]. by repeat case_match.
Qed.

Lemma write_stays e hd h v ty s : inv s -> stays (write_of e hd h v ty) s.
Proof.
  intros Hi. unfold write_of. destruct (_ =? _); [by apply asks_handle_stays|]. destruct (_ =? _); [by apply asks_handle_stays|]. by apply asks_stays.
Qed.

(** ** Every operation *)

(** The list that is searched does not exist. *)
Definition no_list (a : option bt_address_t) (h : Z) (s : gattc_manager_t) : bool :=
  match a, s.(connections) with Some _, None => negb (h =? 0) | _, _ => false end.

Lemma find_ccc_runs a h s : inv s -> runs (no_list a h s) (void (if_gattc_find_ccc_handle_by_value_handle a h)) s.
Proof.
  intros Hi. destruct s as [on al l n]. unfold no_list, if_gattc_find_ccc_handle_by_value_handle. destruct a as [a|]; [|done].
  pose proof Hi as Hi'. unfold inv in Hi'. cbn [connections allocator] in Hi'. destruct (h =? 0) eqn:Eh; [by destruct l|]. cbn [connections negb].
  destruct l as [l|]; [|done]. destruct al as [al|]; [|done]. cbn [runs]. apply wp_bind, wp_bind. unfold find_gattc_connection_by_addr, the_list.
  apply wp_bind, (wp_read _ l); [done|]. apply wp_ret. destruct (List.find (connection_addr_cmp a) l) as [c|] eqn:Ec; [|done]. cbn [fmap option_fmap option_map].
  apply wp_bind. eapply conn_wp; [|done]. apply find_some in Ec as [Hin%list_elem_of_In _]. apply elem_get; [apply Hi'|done].
Qed.

(** The operations that use memory that is not there. *)
Definition crashes (s : gattc_manager_t) (o : op) : bool :=
  match o with
  | op_message m => no_attributes m s
  | op_find_ccc a h => no_list a h s
  | _ => false
  end.

(** The capacity fits the identifiers, and what was discovered fits what is known. *)
Definition op_ok (e : env) (s : gattc_manager_t) (o : op) : Prop :=
  match o with
  | op_startup => 1 <= e.(max_connections) <= 256
  | op_message m => forall c els, for_conn m s = Some c -> m.(param) = GATTC_EVENT_DISCOVER_RESULT els -> fits els c.(services)
  | _ => True
  end.

Lemma void_stays {A} (m : MG A) s : stays m s -> stays (void m) s.
Proof. intros H. unfold void. apply wp_bind. eapply wp_mono; [|exact H]. done. Qed.

Lemma gattc_op_runs e s o : e.(mem) = true -> inv s -> op_ok e s o -> runs (crashes s o) (run_op e o) s.
Proof.
  intros Hm Hi Ho. destruct o; cbn [crashes run_op op_ok runs] in *; try apply void_stays.
  - by destruct s.
  - by apply startup_stays.
  - by apply shutdown_stays.
  - unfold inv, if_gattc_cleanup, wp, emodify in *. destruct s as [on [al|] [l|] n]; done.
  - by apply message_runs.
  - unfold wp. by rewrite post_ok.
  - by apply create_stays.
  - by apply delete_stays.
  - by apply gattc_connect_stays.
  - by apply gattc_disconnect_stays.
  - by apply discover_stays.
  - by apply get_by_handle_stays.
  - by apply get_by_uuid_stays.
  - by apply asks_handle_stays.
  - by apply write_stays.
  - by apply subscribe_stays.
  - by apply unsubscribe_stays.
  - by apply asks_stays.
  - by apply asks_stays.
  - by apply asks_stays.
  - by apply asks_stays.
  - by apply asks_stays.
  - by apply find_ccc_runs.
Qed.

Definition initial : gattc_manager_t := mk_manager false None None 0.

(** States reached by any sequence of the operations. *)
Inductive reachable : gattc_manager_t -> Prop :=
| r_initial : reachable initial
| r_step e s o s' os : reachable s -> e.(mem) = true -> op_ok e s o -> run_op e o s = Some (tt, s', os) -> reachable s'.

Lemma op_inv e s o s' os : e.(mem) = true -> inv s -> op_ok e s o -> run_op e o s = Some (tt, s', os) -> inv s'.
Proof.
  intros Hm Hi Ho E. pose proof (gattc_op_runs e s o Hm Hi Ho) as H. unfold runs in H.
  destruct (crashes s o); [congruence|]. unfold wp in H. by rewrite E in H.
Qed.

Lemma gattc_reachable_inv s : reachable s -> inv s.
Proof. induction 1 as [|e s o s' os Hr IH Hm Ho E]; [done|]. by eapply (op_inv e). Qed.

(** ** What the operations do *)

(** The state with one connection changed. *)
Definition with_conn (c : gattc_connection_t) (s : gattc_manager_t) : gattc_manager_t :=
  {! connections ::= option_map (put ptr c.(ptr) c) } s.

(** A connection of the service. *)
Definition live (s : gattc_manager_t) (p : nat) : option gattc_connection_t :=
  if s.(started) then match s.(connections) with Some l => get ptr p l | None => None end else None.

(** What a client is told. *)
Definition tell (c : gattc_connection_t) (k : cback) (args : list Z) (u : option bt_uuid_t) : list out :=
  match c.(callbacks) with
  | Some set => if set k then [told c.(ptr) k c.(remote_addr) args u] else []
  | None => []
  end.

Lemma cback_run c k args u s : GATT_CBACK c k args u s = Some (tt, s, tell c k args u).
Proof. unfold GATT_CBACK, tell. destruct (callbacks c) as [set|]; [|done]. by destruct (set k). Qed.

(** A live connection is the one at its address in a sound list. *)
Lemma live_st s p c :
  inv s -> live s p = Some c ->
  exists al l, s = st true al l s.(next) /\ lists_ok l al s.(next) /\ get ptr p l = Some c /\ c.(ptr) = p.
Proof.
  intros Hi Hl. destruct s as [[] al l n]; [|done]. unfold live in Hl. unfold inv in Hi. cbn in *. destruct l as [l|], al as [al|]; try done.
  exists al, l. do 3 (split; [done|]). by apply get_elem in Hl as [_ ?].
Qed.

Lemma for_conn_live m s c : inv s -> for_conn m s = Some c -> live s c.(ptr) = Some c.
Proof.
  intros Hi Hf. destruct s as [[] al l n]; [|done]. unfold for_conn, live in *. unfold inv in Hi. cbn in *.
  destruct l as [l|], al as [al|]; try done. apply find_some in Hf as [Hin%list_elem_of_In _]. apply elem_get; [apply Hi|done].
Qed.

Lemma live_with_conn s c c' : inv s -> live s c.(ptr) = Some c -> c'.(ptr) = c.(ptr) -> live (with_conn c' s) c.(ptr) = Some c'.
Proof.
  intros Hi Hl Hp. destruct (live_st s _ c Hi Hl) as (al & l & -> & Hok & Hc & _). unfold live, with_conn. cbn. rewrite Hp. by eapply put_get.
Qed.

(** The message reaches its connection. *)
Lemma message_run e m s c (Q : unit -> gattc_manager_t -> list out -> Prop) :
  inv s -> for_conn m s = Some c ->
  (forall al l, s = st true al l s.(next) -> lists_ok l al s.(next) -> get ptr c.(ptr) l = Some c ->
     wp (match m.(param) with
        | GATTC_EVENT_CONNECT_CHANGE v => connect_change c.(ptr) v
        | GATTC_EVENT_DISCOVER_RESULT els => discover_result e c.(ptr) els
        | GATTC_EVENT_DISCOVER_CMPL status =>
            GATT_CBACK c on_discovered [status; 0; 0] None;;;
            upd c.(ptr) {! discovering := false };;;
            match c.(pend_ops) with [] => eret tt | _ => gattc_discover_start_next e c.(ptr);;; eret tt end
        | GATTC_EVENT_SUBSCRIBE status id enable =>
            match find_gattc_element_by_handle c.(services) id with
            | Some _ =>
                ewhen (status =? GATT_STATUS_SUCCESS) (upd c.(ptr) {! services ::= upd_service id {! notify_enable := enable } });;;
                GATT_CBACK c on_subscribed [status; id; if enable then 1 else 0] None
            | None => eret tt
            end
        | GATTC_EVENT_NOTIFY id value =>
            match find_gattc_element_by_handle c.(services) id with
            | Some x => ewhen x.(notify_enable) (GATT_CBACK c on_notified (id :: value) None)
            | None => eret tt
            end
        | _ => gattc_process_message e m
        end) Q s) ->
  wp (gattc_process_message e m) Q s.
Proof.
  intros Hi Hf HQ. destruct (live_st s _ c Hi (for_conn_live m s c Hi Hf)) as (al & l & Es & Hok & Hc & _).
  specialize (HQ al l Es Hok Hc). rewrite Es in *. clear Es. unfold for_conn in Hf. cbn in Hf.
  destruct (param m) eqn:Ep; try exact HQ;
    (unfold gattc_process_message; apply wp_bind, wp_gets; cbn [started negb]; apply wp_bind;
     unfold find_gattc_connection_by_addr, the_list; apply wp_bind, (wp_read _ l); [done|]; apply wp_ret;
     rewrite Hf; cbn [fmap option_fmap option_map]; apply wp_bind; eapply conn_wp; [done|]; rewrite Ep; exact HQ).
Qed.

(** *** The queue of discoveries *)

Fixpoint filters (ops : list gattc_op_t) : list (option bt_uuid_t) :=
  match ops with GATTC_REQ_DISCOVER f :: ops => f :: filters ops | _ :: ops => filters ops | [] => [] end.

(** Of the discoveries that wait: those the stack refuses until it takes one, that one,
    and those that still wait. *)
Fixpoint next_of (e : env) (ops : list gattc_op_t) : list (option bt_uuid_t) * option (option bt_uuid_t * list gattc_op_t) :=
  match ops with
  | [] => ([], None)
  | GATTC_REQ_DISCOVER f :: ops =>
      if is_success (e.(discovers) (length ops)) then ([], Some (f, ops))
      else let '(r, t) := next_of e ops in (f :: r, t)
  | GATTC_REQ_OTHER :: ops => next_of e ops
  end.

(** One request for each, and a failure for each that is refused. *)
Definition discovery_calls (a : bt_address_t) (rt : list (option bt_uuid_t) * option (option bt_uuid_t * list gattc_op_t)) : list out :=
  flat_map (fun f => [sal (discover_request a f); do_in_service_loop (mk_msg a (GATTC_EVENT_DISCOVER_CMPL GATT_STATUS_FAILURE))]) rt.1
  ++ match rt.2 with Some (f, _) => [sal (discover_request a f)] | None => [] end.

Definition after_discovery (c : gattc_connection_t) (rt : list (option bt_uuid_t) * option (option bt_uuid_t * list gattc_op_t)) : gattc_connection_t :=
  {! discovering := match rt.2 with Some _ => true | None => false end; pend_ops := match rt.2 with Some (_, ops) => ops | None => [] end } c.

Lemma discover_loop_run e al l n p c ops :
  e.(mem) = true -> NoDup (ptr <$> l) -> get ptr p l = Some c -> c.(discovering) = false -> c.(pend_ops) = ops ->
  Forall (fun o => o <> GATTC_REQ_OTHER) ops ->
  wp (discover_next_loop e p ops)
    (fun _ s' o => s' = st true al (put ptr p (after_discovery c (next_of e ops)) l) n /\ o = discovery_calls c.(remote_addr) (next_of e ops))
    (st true al l n).
Proof.
  intros Hm. revert l c. induction ops as [|[f|] ops IH]; intros l c Hnd Hc Hdis Hops Hq; cbn [discover_next_loop next_of].
  { apply wp_ret. assert (after_discovery c ([], None) = c) as -> by (destruct c; cbn in *; by subst). by rewrite (put_self ptr p l c). }
  2:{ by apply Forall_cons_iff in Hq as [? _]. }
  apply Forall_cons_iff in Hq as [_ Hq]. pose proof (get_elem ptr p l c Hc) as [_ Hp]. apply wp_bind.
  eapply discover_start_wp; [done|done|done|]. cbn zeta. destruct (is_success (discovers e (length ops))) eqn:Ed; cbn beta; apply wp_bind.
  - set (c1 := {! discovering := true } c).
    eapply (upd_conn_wp _ _ _ _ _ c1); [by rewrite (put_fmap ptr ptr p l c)|by eapply put_get|]. rewrite put_twice by done.
    apply wp_ret. done.
  - eapply upd_conn_wp; [done|done|]. set (c1 := {! pend_ops := ops } c). apply wp_bind.
    assert (get ptr p (put ptr p c1 l) = Some c1) as Hc1 by (by eapply put_get). eapply conn_wp; [done|].
    apply wp_bind. unfold wp at 1, if_gattc_on_discover_completed. rewrite post_ok by done.
    eapply wp_mono; [|apply (IH (put ptr p c1 l) c1); [by rewrite (put_fmap ptr ptr p l c)|done|done|done|done]].
    intros x s' o [-> ->]. rewrite put_twice by (by destruct (next_of e ops)). destruct (next_of e ops) as [r t]. split; [|done].
    done.
Qed.

Lemma with_conn_st on al l n c p : c.(ptr) = p -> with_conn c (st on al l n) = st on al (put ptr p c l) n.
Proof. by intros <-. Qed.

(** Nothing that waits is lost or overtaken. *)
Lemma next_of_split e ops :
  filters ops = (next_of e ops).1 ++ match (next_of e ops).2 with Some (f, rest) => f :: filters rest | None => [] end.
Proof.
  induction ops as [|[f|] ops IH]; cbn; [done| |done]. destruct (is_success _); [done|]. destruct (next_of e ops) as [r t]. cbn in *. by rewrite IH.
Qed.

Lemma discover_run e s p c f :
  e.(mem) = true -> inv s -> live s p = Some c ->
  if_gattc_discover_service e (Some p) f s =
    if c.(discovering) then Some (BT_STATUS_SUCCESS, with_conn ({! pend_ops ::= (fun l => l ++ [GATTC_REQ_DISCOVER f]) } c) s, [])
    else Some (e.(discovers) 0, with_conn ({! discovering := is_success (e.(discovers) 0) } c) s, [sal (discover_request c.(remote_addr) f)]).
Proof.
  intros Hm Hi Hl. destruct (live_st s p c Hi Hl) as (al & l & Es & Hok & Hc & Hp). rewrite Es. generalize (next s) as n; intros n.
  unfold if_gattc_discover_service, check, the_list, ebind at 1, egets at 1. cbn [started negb]. unfold ebind at 1, eread at 1. cbn [connections].
  assert (existsb (at_ptr p) l = true) as -> by (apply (existsb_get ptr); by exists c).
  unfold ebind at 1, conn at 1, eread at 1, in_list. cbn [connections]. change (List.find (at_ptr p) l) with (get ptr p l). rewrite Hc.
  assert (forall (m : MG bt_status_t) x s' o, wp m (fun a s1 o1 => a = x /\ s1 = s' /\ o1 = o) (st true al l n) ->
    match m (st true al l n) with Some (b, s2, o2) => Some (b, s2, [] ++ o2) | None => None end = Some (x, s', o)) as Hwp.
  { intros m x s' o H. unfold wp in H. destruct (m _) as [[[a s1] o1]|]; [|done]. by destruct H as (-> & -> & ->). }
  destruct (discovering c) eqn:Ed.
  - erewrite Hwp; [done|]. rewrite Hm. cbn [negb]. apply wp_bind. eapply upd_conn_wp; [apply Hok|done|]. apply wp_ret. split; [done|]. split; [|done]. by rewrite (with_conn_st _ _ _ _ _ p).
  - erewrite Hwp; [done|]. eapply discover_start_wp; [done|apply Hok|done|]. cbn zeta. destruct (is_success (discovers e 0)).
    + split; [done|]. split; [|done]. by rewrite (with_conn_st _ _ _ _ _ p).
    + split; [done|]. split; [|done]. rewrite (with_conn_st _ _ _ _ _ p) by done.
      replace ({! discovering := false } c) with c; [|destruct c; cbn in *; by subst].
      by rewrite (put_self ptr p l c); [|apply Hok|].
Qed.

Lemma completed_run e s m c status :
  e.(mem) = true -> inv s -> for_conn m s = Some c -> m.(param) = GATTC_EVENT_DISCOVER_CMPL status ->
  gattc_process_message e m s =
    Some (tt, with_conn (after_discovery c (next_of e c.(pend_ops))) s,
          tell c on_discovered [status; 0; 0] None ++ discovery_calls c.(remote_addr) (next_of e c.(pend_ops))).
Proof.
  intros Hm Hi Hf Ep.
  assert (wp (gattc_process_message e m) (fun _ s' o => s' = with_conn (after_discovery c (next_of e c.(pend_ops))) s /\
     o = tell c on_discovered [status; 0; 0] None ++ discovery_calls c.(remote_addr) (next_of e c.(pend_ops))) s) as H.
  2:{ apply wp_run in H as ([] & s' & o & E & -> & ->). exact E. }
  eapply message_run; [done|done|]. intros al l Es Hok Hc. rewrite Ep, Es. generalize (next s) as n; intros n.
  pose proof (proj1 (conn_live_ok _ c l al _ Hok Hc)) as [Hq _]. set (c1 := {! discovering := false } c). 
  assert (get ptr (ptr c) (put ptr (ptr c) c1 l) = Some c1) as Hc1 by (by eapply put_get).
  apply wp_bind. unfold wp at 1. rewrite cback_run. apply wp_bind. eapply upd_conn_wp; [apply Hok|done|]. fold c1.
  destruct (pend_ops c) as [|o ops] eqn:Eo; [apply wp_ret; split; [|done]; unfold with_conn, c1, after_discovery; cbn; by destruct c; cbn in *; subst|].
  rewrite <- Eo in *. apply wp_bind. unfold gattc_discover_start_next, check. apply wp_bind, wp_gets. cbn [started negb]. apply wp_bind. unfold the_list.
  eapply wp_read; [done|]. assert (existsb (at_ptr (ptr c)) (put ptr (ptr c) c1 l) = true) as -> by (apply (existsb_get ptr); by exists c1).
  apply wp_bind. eapply conn_wp; [done|]. change (discovering c1) with false. cbv iota.
  eapply wp_mono; [|apply (discover_loop_run e al _ n (ptr c) c1); [done|by rewrite (put_fmap ptr ptr _ l c); [apply Hok|apply Hok| |]|done|done|done|done]].
  intros x s' os [-> ->]. apply wp_ret. rewrite put_twice by done. split; [done|]. cbn. by rewrite app_nil_r.
Qed.

(** *** A run of discoveries *)

Lemma find_conn_put {A} (key : A -> nat) (f : A -> bool) p l c c' :
  NoDup (key <$> l) -> List.find f l = Some c -> key c = p -> key c' = p -> f c' = true ->
  List.find f (put key p c' l) = Some c'.
Proof.
  intros Hnd Hf Hc Hc' Hfc. induction l as [|x l IH]; [done|]. cbn in *. apply list.NoDup_cons in Hnd as [Hx Hnd].
  destruct (f x) eqn:Ex.
  - injection Hf as <-. assert (at_key key p x = true) as -> by (by apply Nat.eqb_eq). by rewrite Hfc.
  - destruct (at_key key p x) eqn:Ep; [|cbn; rewrite Ex; by apply IH]. exfalso. apply Nat.eqb_eq in Ep. apply Hx. rewrite Ep, <- Hc.
    apply find_some in Hf as [Hin%list_elem_of_In _]. by apply list_elem_of_fmap_2.
Qed.

Lemma for_conn_with_conn m s c c' :
  inv s -> for_conn m s = Some c -> c'.(ptr) = c.(ptr) -> c'.(remote_addr) = c.(remote_addr) -> for_conn m (with_conn c' s) = Some c'.
Proof.
  intros Hi Hf Hp Ha. destruct s as [[] al l n]; [|done]. unfold for_conn, with_conn in *. unfold inv in Hi. cbn in *.
  destruct l as [l|], al as [al|]; try done. cbn. apply (find_conn_put ptr _ _ l c); [apply Hi|done|done|done|].
  apply find_some in Hf as [_ Hf]. unfold connection_addr_cmp in *. by rewrite Ha.
Qed.

(** Requests for a connection of peer [a], and what the stack reports of them, in any order;
    the filters that are asked for and the calls made. *)
Inductive discovery_run (p : nat) (a : bt_address_t) : gattc_manager_t -> list (option bt_uuid_t) -> list out -> gattc_manager_t -> Prop :=
| run_none s : discovery_run p a s [] [] s
| run_request e s f s' os fs os' s'' :
    e.(mem) = true -> run_op e (op_discover (Some p) f) s = Some (tt, s', os) ->
    discovery_run p a s' fs os' s'' -> discovery_run p a s (f :: fs) (os ++ os') s''
| run_completed e s status s' os fs os' s'' :
    e.(mem) = true -> run_op e (op_message (mk_msg a (GATTC_EVENT_DISCOVER_CMPL status))) s = Some (tt, s', os) ->
    discovery_run p a s' fs os' s'' -> discovery_run p a s fs (os ++ os') s''
| run_result e s els s' os fs os' s'' :
    e.(mem) = true -> op_ok e s (op_message (mk_msg a (GATTC_EVENT_DISCOVER_RESULT els))) ->
    run_op e (op_message (mk_msg a (GATTC_EVENT_DISCOVER_RESULT els))) s = Some (tt, s', os) ->
    discovery_run p a s' fs os' s'' -> discovery_run p a s fs (os ++ os') s''.

(** The discoveries that the stack is asked for. *)
Definition asked (os : list out) : list request :=
  omap (fun o => match o with
                 | sal (bt_sal_gatt_client_discover_all_services a) => Some (bt_sal_gatt_client_discover_all_services a)
                 | sal (bt_sal_gatt_client_discover_service_by_uuid a u) => Some (bt_sal_gatt_client_discover_service_by_uuid a u)
                 | _ => None
                 end) os.

Lemma asked_app os os' : asked (os ++ os') = asked os ++ asked os'.
Proof. apply omap_app. Qed.

Lemma asked_tell c k args u : asked (tell c k args u) = [].
Proof. unfold tell. destruct (callbacks c) as [set|]; [|done]. by destruct (set k). Qed.

Lemma asked_request a f : asked [sal (discover_request a f)] = [discover_request a f].
Proof. unfold discover_request. destruct f as [u|]; [|done]. by destruct (_ =? _). Qed.

Lemma asked_calls a rt :
  asked (discovery_calls a rt) = (discover_request a <$> rt.1) ++ match rt.2 with Some (f, _) => [discover_request a f] | None => [] end.
Proof.
  destruct rt as [r t]. unfold discovery_calls. rewrite asked_app. cbn [fst snd]. f_equal.
  - induction r as [|f r IH]; [done|]. cbn [flat_map fmap list_fmap].
    change ([sal (discover_request a f); do_in_service_loop (mk_msg a (GATTC_EVENT_DISCOVER_CMPL GATT_STATUS_FAILURE))])
      with ([sal (discover_request a f)] ++ [do_in_service_loop (mk_msg a (GATTC_EVENT_DISCOVER_CMPL GATT_STATUS_FAILURE))]).
    by rewrite !asked_app, asked_request, IH.
  - destruct t as [[f ops]|]; [apply asked_request|done].
Qed.

Lemma filters_app ops ops' : filters (ops ++ ops') = filters ops ++ filters ops'.
Proof. induction ops as [|[f|] ops IH]; cbn; by rewrite ?IH. Qed.

(** The discoveries of a connection that wait. *)
Definition waiting (c : gattc_connection_t) : list request := discover_request c.(remote_addr) <$> filters c.(pend_ops).

(** One step of a run keeps the connection and accounts for its discoveries. *)
Definition accounts (a : bt_address_t) (s s' : gattc_manager_t) (c : gattc_connection_t) (fs : list (option bt_uuid_t)) (os : list out) : Prop :=
  exists c', for_conn (mk_msg a (GATTC_EVENT_DISCOVER_CMPL 0)) s' = Some c' /\ c'.(ptr) = c.(ptr) /\ c'.(remote_addr) = c.(remote_addr) /\
    asked os ++ waiting c' = waiting c ++ (discover_request c.(remote_addr) <$> fs).

Lemma request_accounts e s a c f s' os :
  e.(mem) = true -> inv s -> for_conn (mk_msg a (GATTC_EVENT_DISCOVER_CMPL 0)) s = Some c ->
  run_op e (op_discover (Some c.(ptr)) f) s = Some (tt, s', os) -> accounts a s s' c [f] os.
Proof.
  intros Hm Hi Hf E. pose proof (for_conn_live _ s c Hi Hf) as Hl. cbn [run_op] in E. unfold void, ebind in E.
  rewrite (discover_run e s _ c f Hm Hi Hl) in E. destruct (live_st s _ c Hi Hl) as (al & l & _ & Hok & Hc & _).
  destruct (conn_live_ok _ c l al _ Hok Hc) as [[_ Hq] _]. destruct (discovering c) eqn:Ed; injection E as <- <-.
  - eexists. split; [by apply (for_conn_with_conn _ s c)|]. split; [done|]. split; [done|]. unfold waiting. cbn.
    by rewrite filters_app, fmap_app.
  - eexists. split; [by apply (for_conn_with_conn _ s c)|]. split; [done|]. split; [done|]. rewrite asked_request.
    assert (pend_ops c = []) as E0 by (destruct (pend_ops c); [done|]; by discriminate Hq). unfold waiting.
    clear -E0. destruct c; cbn in *. by subst.
Qed.

Lemma completed_accounts e s a c status s' os :
  e.(mem) = true -> inv s -> for_conn (mk_msg a (GATTC_EVENT_DISCOVER_CMPL 0)) s = Some c ->
  run_op e (op_message (mk_msg a (GATTC_EVENT_DISCOVER_CMPL status))) s = Some (tt, s', os) -> accounts a s s' c [] os.
Proof.
  intros Hm Hi Hf E. cbn [run_op] in E. rewrite (completed_run e s (mk_msg a (GATTC_EVENT_DISCOVER_CMPL status)) c status Hm Hi Hf eq_refl) in E. injection E as <- <-.
  exists (after_discovery c (next_of e (pend_ops c))). split; [by apply (for_conn_with_conn _ s c)|]. split; [done|]. split; [done|].
  rewrite asked_app, asked_tell, asked_calls. cbn [fmap list_fmap]. rewrite app_nil_r. unfold waiting.
  change (remote_addr (after_discovery c _)) with (remote_addr c). rewrite (next_of_split e (pend_ops c)), fmap_app. cbn [app]. rewrite <- app_assoc. f_equal.
  destruct (next_of e (pend_ops c)) as [r [[f ops]|]]; done.
Qed.

(** *** The attributes that were discovered *)

Lemma find_app {A} (f : A -> bool) l k : List.find f (l ++ k) = match List.find f l with Some x => Some x | None => List.find f k end.
Proof. induction l as [|x l IH]; cbn; [done|]. by destruct (f x). Qed.

Lemma find_handle els x : NoDup (handle <$> els) -> x ∈ els -> List.find (fun y => y.(handle) =? x.(handle)) els = Some x.
Proof.
  induction els as [|y els IH]; intros Hnd Hx; [by apply elem_of_nil in Hx|]. cbn in *. apply list.NoDup_cons in Hnd as [Hy Hnd].
  apply elem_of_cons in Hx as [->|Hx]; [by rewrite Z.eqb_refl|]. rewrite (proj2 (Z.eqb_neq _ _)); [by apply IH|].
  intros E. apply Hy. rewrite E. by apply list_elem_of_fmap_2.
Qed.

(** Removing a service takes its handles away, and no others. *)
Lemma find_removed h first l :
  ForallOrdPairs apart l ->
  List.find (attribute_handle_cmp h) (remove_service first l) =
    match List.find (attribute_handle_cmp h) l with Some t => if attribute_handle_cmp first t then None else Some t | None => None end.
Proof.
  induction 1 as [|s l Hs Hl IH]; cbn; [done|]. destruct (attribute_handle_cmp first s) eqn:Ef.
  - destruct (attribute_handle_cmp h s) eqn:Eh.
    + rewrite Ef. destruct (List.find _ l) as [t|] eqn:Et; [|done]. apply find_some in Et as [Ht%list_elem_of_In Hh].
      pose proof (proj1 (Forall_forall _ _) Hs t Ht) as Ha. unfold apart, attribute_handle_cmp in *.
      apply andb_true_iff in Eh as [?%Z.leb_le ?%Z.leb_le], Hh as [?%Z.leb_le ?%Z.leb_le]. lia.
    + destruct (List.find _ l) as [t|] eqn:Et; [|done]. apply find_some in Et as [Ht%list_elem_of_In Hh].
      destruct (attribute_handle_cmp first t) eqn:Eft; [|done]. pose proof (proj1 (Forall_forall _ _) Hs t Ht) as Ha. unfold apart, attribute_handle_cmp in *.
      apply andb_true_iff in Ef as [?%Z.leb_le ?%Z.leb_le], Eft as [?%Z.leb_le ?%Z.leb_le]. lia.
  - cbn. destruct (attribute_handle_cmp h s) eqn:Eh; [by rewrite Ef|exact IH].
Qed.

(** The services of a connection after a discovery. *)
Definition discovered (els : list gatt_element_t) (first lst : gatt_element_t) (c : gattc_connection_t) : gattc_connection_t :=
  {! services ::= (fun l => remove_service first.(handle) l ++ [mk_service first.(handle) lst.(handle) els]) } c.

Lemma discovered_services els first lst c :
  (discovered els first lst c).(services) = remove_service first.(handle) c.(services) ++ [mk_service first.(handle) lst.(handle) els].
Proof. done. Qed.

Lemma discovered_new els first lst c x :
  services_ok c.(services) -> fits els c.(services) -> head els = Some first -> last els = Some lst -> x ∈ els ->
  find_gattc_element_by_handle (discovered els first lst c).(services) x.(handle) = Some x.
Proof.
  intros Hs Hf Hh Hl Hx. destruct (added_ok els _ first lst Hs Hf Hh Hl) as [[Ho _] Ha]. rewrite Forall_app, Forall_singleton in Ho.
  destruct Ho as (_ & Hnd & Hr & _). cbn [elements] in *. pose proof (proj1 (Forall_forall _ _) Hr x Hx) as Hb. cbn in Hb.
  rewrite discovered_services. unfold find_gattc_element_by_handle. rewrite find_app.
  replace (List.find (attribute_handle_cmp (handle x)) (remove_service (handle first) (services c))) with (@None gattc_service_t).
  - cbn. unfold attribute_handle_cmp. cbn. rewrite !(proj2 (Z.leb_le _ _)) by lia. cbn. by apply find_handle.
  - symmetry. destruct (List.find _ _) as [t|] eqn:Et; [|done]. exfalso. apply find_some in Et as [Ht%list_elem_of_In Hc]. pose proof (proj1 (Forall_forall _ _) Ha t Ht) as Hap. unfold apart in Hap. cbn in Hap.
    apply andb_true_iff in Hc as [?%Z.leb_le ?%Z.leb_le]. lia.
Qed.

Lemma discovered_old els first lst c h :
  services_ok c.(services) -> ~ (first.(handle) <= h <= lst.(handle)) ->
  find_gattc_element_by_handle (discovered els first lst c).(services) h =
    match List.find (attribute_handle_cmp h) c.(services) with
    | Some t => if attribute_handle_cmp first.(handle) t then None else find_gattc_element_by_handle c.(services) h
    | None => None
    end.
Proof.
  intros [_ Hp] Hh. rewrite discovered_services. unfold find_gattc_element_by_handle. rewrite find_app, find_removed by done.
  assert (attribute_handle_cmp h (mk_service (handle first) (handle lst) els) = false) as Hn.
  { unfold attribute_handle_cmp. cbn. apply andb_false_iff. rewrite !Z.leb_gt. lia. }
  destruct (List.find (attribute_handle_cmp h) (services c)) as [t|]; [destruct (attribute_handle_cmp (handle first) t)|]; cbn; by rewrite ?Hn.
Qed.

Lemma result_run e s m c els first lst :
  e.(mem) = true -> inv s -> for_conn m s = Some c -> m.(param) = GATTC_EVENT_DISCOVER_RESULT els ->
  head els = Some first -> last els = Some lst ->
  gattc_process_message e m s =
    Some (tt, with_conn (discovered els first lst c) s, tell c on_discovered [GATT_STATUS_SUCCESS; first.(handle); lst.(handle)] (Some first.(uuid))).
Proof.
  intros Hm Hi Hf Ep Hh Hl.
  assert (wp (gattc_process_message e m) (fun _ s' o => s' = with_conn (discovered els first lst c) s /\
     o = tell c on_discovered [GATT_STATUS_SUCCESS; first.(handle); lst.(handle)] (Some first.(uuid))) s) as H.
  2:{ apply wp_run in H as ([] & s' & o & E & -> & ->). exact E. }
  eapply message_run; [done|done|]. intros al l Es Hok Hc. rewrite Ep, Es. generalize (next s) as n; intros n.
  unfold discover_result. apply wp_bind, (wp_read _ first); [done|]. apply wp_bind. eapply upd_conn_wp; [apply Hok|done|]. rewrite Hm. cbn [negb].
  set (c1 := {! services ::= _ } c). apply wp_bind, (wp_read _ lst); [done|]. apply wp_bind.
  eapply (upd_conn_wp _ _ _ _ _ c1); [rewrite (put_fmap ptr ptr _ l c); [apply Hok|apply Hok|done|done]|by eapply put_get|].
  set (c2 := {! services ::= _ } c1). rewrite put_twice by done. apply wp_bind. eapply conn_wp; [by eapply put_get|].
  unfold wp. rewrite cback_run. split; [|done]. by rewrite (with_conn_st _ _ _ _ _ (ptr c)).
Qed.

(** A report of attributes leaves the queue alone. *)
Lemma result_accounts e s a c els s' os :
  e.(mem) = true -> inv s -> for_conn (mk_msg a (GATTC_EVENT_DISCOVER_CMPL 0)) s = Some c ->
  run_op e (op_message (mk_msg a (GATTC_EVENT_DISCOVER_RESULT els))) s = Some (tt, s', os) -> accounts a s s' c [] os.
Proof.
  intros Hm Hi Hf E. cbn [run_op] in E. destruct els as [|x els'] eqn:Eels.
  { pose proof (message_runs e (mk_msg a (GATTC_EVENT_DISCOVER_RESULT [])) s Hm Hi) as H.
    assert (no_attributes (mk_msg a (GATTC_EVENT_DISCOVER_RESULT [])) s = true) as Hn by (unfold no_attributes, for_conn in *; cbn in *; by rewrite Hf).
    unfold runs in H. rewrite Hn in H. rewrite H in E; [done|]. intros c2 els2 _ E2. by injection E2 as <-. }
  rewrite <- Eels in *. destruct (last els) as [y|] eqn:El; [|subst; by apply last_None in El].
  rewrite (result_run e s (mk_msg a (GATTC_EVENT_DISCOVER_RESULT els)) c els x y Hm Hi Hf eq_refl) in E; [|by subst|done]. injection E as <- <-.
  exists (discovered els x y c). split; [by apply (for_conn_with_conn _ s c)|]. split; [done|]. split; [done|]. by rewrite asked_tell, app_nil_r.
Qed.

Lemma run_inv p a s fs os s' : discovery_run p a s fs os s' -> inv s -> inv s'.
Proof.
  induction 1 as [s|e s f s1 os1 fs os2 s2 Hm E Hrun IH|e s status s1 os1 fs os2 s2 Hm E Hrun IH|e s els s1 os1 fs os2 s2 Hm Ho E Hrun IH];
    intros Hi; [done| | |]; apply IH; (eapply (op_inv e); [done|done| |exact E]); done.
Qed.

(** Over a whole run: what was asked for, in order, and what still waits are what waited and
    what was requested. *)
Lemma run_accounts p a s fs os s' :
  discovery_run p a s fs os s' -> forall c, inv s -> for_conn (mk_msg a (GATTC_EVENT_DISCOVER_CMPL 0)) s = Some c -> c.(ptr) = p ->
  accounts a s s' c fs os.
Proof.
  assert (forall s s1 s2 c fs fs' os os',
    accounts a s s1 c fs os -> (forall c, for_conn (mk_msg a (GATTC_EVENT_DISCOVER_CMPL 0)) s1 = Some c -> c.(ptr) = p -> accounts a s1 s2 c fs' os') ->
    c.(ptr) = p -> accounts a s s2 c (fs ++ fs') (os ++ os')) as Hcat.
  { intros s0 s1 s2 c fs0 fs' os0 os' (c1 & Hf1 & Hp1 & Ha1 & E1) H Hp. destruct (H c1 Hf1 ltac:(congruence)) as (c2 & Hf2 & Hp2 & Ha2 & E2).
    exists c2. split; [done|]. split; [congruence|]. split; [congruence|].
    by rewrite asked_app, <- app_assoc, E2, app_assoc, E1, Ha1, fmap_app, <- app_assoc. }
  induction 1 as [s|e s f s1 os1 fs os2 s2 Hm E Hrun IH|e s status s1 os1 fs os2 s2 Hm E Hrun IH|e s els s1 os1 fs os2 s2 Hm Ho E Hrun IH];
    intros c Hi Hf Hp.
  - exists c. do 3 (split; [done|]). by rewrite app_nil_r.
  - apply (Hcat s s1 s2 c [f] fs); [subst p; by eapply request_accounts| |done]. intros c1 ? ?; apply IH; try done. by eapply (op_inv e); [| | |exact E].
  - apply (Hcat s s1 s2 c [] fs); [by eapply completed_accounts| |done]. intros c1 ? ?; apply IH; try done. by eapply (op_inv e); [| | |exact E].
  - apply (Hcat s s1 s2 c [] fs); [by eapply result_accounts| |done]. intros c1 ? ?; apply IH; try done. by eapply (op_inv e); [| | |exact E].
Qed.

Lemma by_handle_run s c h x :
  live s c.(ptr) = Some c -> inv s -> 0 < h <= UINT16_MAX -> find_gattc_element_by_handle c.(services) h = Some x ->
  if_gattc_get_attribute_by_handle (Some c.(ptr)) h true s = Some ((BT_STATUS_SUCCESS, Some (desc_of x)), s, []).
Proof.
  intros Hl Hi Hh Hx. destruct (live_st s _ c Hi Hl) as (al & l & Es & Hok & Hc & _). rewrite Es. generalize (next s) as n; intros n.
  unfold if_gattc_get_attribute_by_handle, check_desc, the_list, ebind at 1, egets at 1. cbn [started negb]. unfold ebind at 1, eread at 1. cbn [connections].
  assert (existsb (at_ptr (ptr c)) l = true) as -> by (apply (existsb_get ptr); by exists c).
  rewrite (proj2 (Z.eqb_neq h 0)), (proj2 (Z.ltb_ge UINT16_MAX h)) by lia. cbn [orb].
  unfold ebind, conn, eread, in_list. cbn [connections]. change (List.find (at_ptr (ptr c)) l) with (get ptr (ptr c) l). rewrite Hc, Hx. done.
Qed.

(** *** Notifications *)

(** The client has subscribed to the attribute. *)
Definition enabled (c : gattc_connection_t) (h : Z) : bool :=
  match find_gattc_element_by_handle c.(services) h with Some x => x.(notify_enable) | None => false end.

Lemma find_upd_element h f els j :
  (forall x, (f x).(handle) = x.(handle)) ->
  List.find (fun x => x.(handle) =? j) (upd_element h f els) =
    (if j =? h then f else id) <$> List.find (fun x => x.(handle) =? j) els.
Proof.
  intros Hf. induction els as [|x els IH]; cbn; [done|]. destruct (handle x =? h) eqn:Eh; cbn; rewrite ?Hf.
  - apply Z.eqb_eq in Eh. rewrite Eh, (Z.eqb_sym h j). destruct (j =? h); cbn; [done|]. by destruct (List.find _ els).
  - destruct (handle x =? j) eqn:Ej; [|done]. apply Z.eqb_eq in Ej. subst j. by rewrite Eh.
Qed.

Lemma find_upd_service h f l j :
  (forall x, (f x).(handle) = x.(handle)) ->
  find_gattc_element_by_handle (upd_service h f l) j = (if j =? h then f else id) <$> find_gattc_element_by_handle l j.
Proof.
  intros Hf. unfold find_gattc_element_by_handle. induction l as [|[a b els] l IH]; cbn; [done|].
  set (s := mk_service a b els). destruct (attribute_handle_cmp h s) eqn:Eh; cbn.
  - change (attribute_handle_cmp j (mk_service a b _)) with (attribute_handle_cmp j s).
    destruct (attribute_handle_cmp j s) eqn:Ej; [by apply find_upd_element|]. destruct (j =? h) eqn:E; [apply Z.eqb_eq in E; congruence|].
    destruct (List.find _ l) as [t|]; [|done]. by destruct (List.find _ (elements t)).
  - destruct (attribute_handle_cmp j s) eqn:Ej; [|exact IH]. destruct (j =? h) eqn:E; [apply Z.eqb_eq in E; congruence|].
    cbn [elements s]. by destruct (List.find (fun x => x.(handle) =? j) els).
Qed.

(** What a subscription that the stack reports does to the connection. *)
Definition subscribed (status h : Z) (en : bool) (c : gattc_connection_t) : gattc_connection_t :=
  if status =? GATT_STATUS_SUCCESS then {! services ::= upd_service h {! notify_enable := en } } c else c.

Lemma subscribed_enabled status h en c j :
  find_gattc_element_by_handle c.(services) h <> None ->
  enabled (subscribed status h en c) j = if (status =? GATT_STATUS_SUCCESS) && (j =? h) then en else enabled c j.
Proof.
  intros Hh. unfold enabled, subscribed. destruct (_ =? _); [|done]. cbn [andb].
  change (services ({! services ::= upd_service h {! notify_enable := en } } c)) with (upd_service h {! notify_enable := en } c.(services)). rewrite find_upd_service by done.
  destruct (j =? h) eqn:E; [apply Z.eqb_eq in E as ->|].
  - destruct (find_gattc_element_by_handle (services c) h) as [x|]; [by destruct x|done].
  - by destruct (find_gattc_element_by_handle (services c) j).
Qed.

Lemma subscribe_run e s m c status h en x :
  inv s -> for_conn m s = Some c -> m.(param) = GATTC_EVENT_SUBSCRIBE status h en -> find_gattc_element_by_handle c.(services) h = Some x ->
  gattc_process_message e m s =
    Some (tt, with_conn (subscribed status h en c) s, tell c on_subscribed [status; h; if en then 1 else 0] None).
Proof.
  intros Hi Hf Ep Hx.
  assert (wp (gattc_process_message e m) (fun _ s' o => s' = with_conn (subscribed status h en c) s /\
     o = tell c on_subscribed [status; h; if en then 1 else 0] None) s) as H.
  2:{ apply wp_run in H as ([] & s' & o & E & -> & ->). exact E. }
  eapply message_run; [done|done|]. intros al l Es Hok Hc. rewrite Ep, Hx, Es. generalize (next s) as n; intros n.
  apply wp_bind. unfold subscribed. destruct (_ =? _); cbn [ewhen].
  - eapply upd_conn_wp; [apply Hok|done|]. unfold wp. rewrite cback_run. done.
  - apply wp_ret. unfold wp. rewrite cback_run. split; [|done]. rewrite (with_conn_st _ _ _ _ _ (ptr c)) by done.
    by rewrite (put_self ptr _ l c); [|apply Hok|].
Qed.

Lemma notify_run e s m c h value :
  inv s -> for_conn m s = Some c -> m.(param) = GATTC_EVENT_NOTIFY h value ->
  gattc_process_message e m s = Some (tt, s, if enabled c h then tell c on_notified (h :: value) None else []).
Proof.
  intros Hi Hf Ep.
  assert (wp (gattc_process_message e m) (fun _ s' o => s' = s /\ o = if enabled c h then tell c on_notified (h :: value) None else []) s) as H.
  2:{ apply wp_run in H as ([] & s' & o & E & -> & ->). exact E. }
  eapply message_run; [done|done|]. intros al l Es Hok Hc. rewrite Ep. unfold enabled.
  destruct (find_gattc_element_by_handle (services c) h) as [x|]; [|done]. destruct (notify_enable x); cbn [ewhen]; [|done].
  unfold wp. by rewrite cback_run.
Qed.

(** ** The theorems *)

(** C5: with memory, a capacity of 1 to 256 connections, and a stack whose
    reports have distinct handles from the first to the last and replace the
    services they overlap ([op_ok], [fits]): after any operations, an operation of
    the GATT client uses memory that is not there in exactly two cases, a
    message with a discovery result that has no attribute for a connection of
    its peer, and the search for a descriptor while there is no list of
    connections (before the first start, after a shutdown or a start that
    failed).  Everything else has a result, and leaves distinct connections
    with distinct identifiers, exactly those that the allocator has given
    out. *)
Theorem gattc_fails_exactly e s o :
  reachable s -> e.(mem) = true -> op_ok e s o ->
  (run_op e o s = None <-> crashes s o = true) /\
  forall s' os l, run_op e o s = Some (tt, s', os) -> s'.(connections) = Some l ->
    NoDup (ptr <$> l) /\ NoDup (conn_id <$> l) /\
    exists al, s'.(allocator) = Some al /\ forall i, ia_used al i = true <-> i ∈ (conn_id <$> l).
Proof.
  intros Hr Hm Ho. pose proof (gattc_op_runs e s o Hm (gattc_reachable_inv s Hr) Ho) as H. unfold runs in H. split.
  - destruct (crashes s o); [done|]. unfold wp in H. by destruct (run_op e o s) as [[[] ?]|].
  - intros s' os l E El. assert (reachable s') as Hi%gattc_reachable_inv by (by eapply r_step). unfold inv in Hi. rewrite El in Hi.
    destruct (allocator s') as [al|]; [|done]. destruct Hi. by eauto.
Qed.

(** C4: the queue of discoveries (with memory).  Of a connection, discoveries
    wait only while [discovering] is set; a request is queued then, and goes
    to the stack otherwise.  When a discovery completes, those that wait are
    asked for in their order until the stack takes one; the refused ones get
    a failure, and the others go on waiting.  Over any run of requests,
    completions and reports for one connection, whatever the stack answers,
    the discoveries it was asked for followed by those that still wait are
    those that waited followed by those requested: none is lost, repeated or
    overtaken.  ([discovering] does not mean that exactly one is under way:
    [refused_discovery_overlaps].) *)
Theorem gattc_discovery_queue e s :
  reachable s -> e.(mem) = true ->
  (forall p c, live s p = Some c -> (c.(pend_ops) <> [] -> c.(discovering) = true) /\ forall f,
     if_gattc_discover_service e (Some p) f s =
       if c.(discovering) then Some (BT_STATUS_SUCCESS, with_conn ({! pend_ops ::= (fun l => l ++ [GATTC_REQ_DISCOVER f]) } c) s, [])
       else Some (e.(discovers) 0, with_conn ({! discovering := is_success (e.(discovers) 0) } c) s, [sal (discover_request c.(remote_addr) f)])) /\
  (forall m c status, for_conn m s = Some c -> m.(param) = GATTC_EVENT_DISCOVER_CMPL status ->
     let rt := next_of e c.(pend_ops) in
     gattc_process_message e m s =
       Some (tt, with_conn (after_discovery c rt) s, tell c on_discovered [status; 0; 0] None ++ discovery_calls c.(remote_addr) rt) /\
     filters c.(pend_ops) = rt.1 ++ match rt.2 with Some (f, rest) => f :: filters rest | None => [] end) /\
  (forall a c fs os s', for_conn (mk_msg a (GATTC_EVENT_DISCOVER_CMPL 0)) s = Some c -> discovery_run c.(ptr) a s fs os s' ->
     exists c', live s' c.(ptr) = Some c' /\ asked os ++ waiting c' = waiting c ++ (discover_request c.(remote_addr) <$> fs)).
Proof.
  intros Hi%gattc_reachable_inv Hm. split; [|split].
  - intros p c Hl. split; [|intros f; by apply discover_run]. destruct (live_st s p c Hi Hl) as (al & l & _ & Hok & Hc & _).
    by apply (conn_live_ok p c l al _ Hok Hc).
  - intros m c status Hf Ep. split; [by apply completed_run|]. apply next_of_split.
  - intros a c fs os s' Hf Hrun. destruct (run_accounts _ a s fs os s' Hrun c Hi Hf eq_refl) as (c' & Hf' & Hp & _ & E).
    exists c'. split; [|done]. rewrite <- Hp. eapply for_conn_live; [|exact Hf']. by eapply run_inv.
Qed.

(** C6: the attributes that the stack reports are the ones that the client
    then finds, with what it reported of them; they replace the service that
    was known at the first handle, and the attributes of the other services
    stay. *)
Theorem gattc_discovered_attributes e s m c els first lst :
  reachable s -> e.(mem) = true -> for_conn m s = Some c -> m.(param) = GATTC_EVENT_DISCOVER_RESULT els ->
  head els = Some first -> last els = Some lst -> fits els c.(services) ->
  exists c', let s' := with_conn c' s in
    gattc_process_message e m s = Some (tt, s', tell c on_discovered [GATT_STATUS_SUCCESS; first.(handle); lst.(handle)] (Some first.(uuid))) /\
    live s' c.(ptr) = Some c' /\
    (forall x, x ∈ els -> 0 < x.(handle) <= UINT16_MAX ->
       if_gattc_get_attribute_by_handle (Some c.(ptr)) x.(handle) true s' = Some ((BT_STATUS_SUCCESS, Some (desc_of x)), s', [])) /\
    forall h, ~ (first.(handle) <= h <= lst.(handle)) ->
      find_gattc_element_by_handle c'.(services) h =
        match List.find (attribute_handle_cmp h) c.(services) with
        | Some t => if attribute_handle_cmp first.(handle) t then None else find_gattc_element_by_handle c.(services) h
        | None => None
        end.
Proof.
  intros Hr Hm Hf Ep Hh Hl Hfit. pose proof (gattc_reachable_inv s Hr) as Hi. exists (discovered els first lst c). cbn zeta.
  pose proof (result_run e s m c els first lst Hm Hi Hf Ep Hh Hl) as Hrun. pose proof (for_conn_live m s c Hi Hf) as Hlive.
  assert (services_ok (services c)) as Hs.
  { destruct (live_st s _ c Hi Hlive) as (al & l & _ & Hok & Hc & _). by apply (conn_live_ok _ c l al _ Hok Hc). }
  assert (live (with_conn (discovered els first lst c) s) c.(ptr) = Some (discovered els first lst c)) as Hlive' by (by apply live_with_conn).
  split; [done|]. split; [done|]. split; [|intros h; by apply discovered_old].
  intros x Hx Hb. apply (by_handle_run _ (discovered els first lst c)); [exact Hlive'| |done|by apply discovered_new].
  apply gattc_reachable_inv. eapply (r_step e s (op_message m)); [done|done| |exact Hrun].
  intros c2 els2 H1 H2. congruence.
Qed.

(** A notification is handed on exactly if the flag [notify_enable] of the
    attribute is set, in the first connection to the peer; a subscription that
    the stack reports to have succeeded sets (or clears) the flag of that
    attribute of that connection alone.  (A later discovery of the service
    clears the flag, and a second connection to the same peer is not looked
    at.) *)
Theorem gattc_notifications e s m c :
  reachable s -> for_conn m s = Some c ->
  (forall h value, m.(param) = GATTC_EVENT_NOTIFY h value ->
     gattc_process_message e m s = Some (tt, s, if enabled c h then tell c on_notified (h :: value) None else [])) /\
  (forall status h en x, m.(param) = GATTC_EVENT_SUBSCRIBE status h en -> find_gattc_element_by_handle c.(services) h = Some x ->
     exists c', gattc_process_message e m s = Some (tt, with_conn c' s, tell c on_subscribed [status; h; if en then 1 else 0] None) /\
       live (with_conn c' s) c.(ptr) = Some c' /\
       forall j, enabled c' j = if (status =? GATT_STATUS_SUCCESS) && (j =? h) then en else enabled c j).
Proof.
  intros Hi%gattc_reachable_inv Hf. split; [intros h value Ep; by apply notify_run|].
  intros status h en x Ep Hx. exists (subscribed status h en c). split; [by eapply subscribe_run|]. split.
  - apply live_with_conn; [done|by eapply for_conn_live|]. unfold subscribed. by destruct (_ =? _).
  - intros j. apply subscribed_enabled. congruence.
Qed.

(** ** A service to look at *)

(** Operations on which [op_ok] asks nothing of the state. *)
Definition plain (e : env) (o : op) : Prop :=
  match o with
  | op_startup => 1 <= e.(max_connections) <= 256
  | op_message m => forall els, m.(param) <> GATTC_EVENT_DISCOVER_RESULT els
  | _ => True
  end.

Fixpoint run_ops (e : env) (l : list op) (s : gattc_manager_t) : option gattc_manager_t :=
  match l with
  | [] => Some s
  | o :: l => match run_op e o s with Some (_, s', _) => run_ops e l s' | None => None end
  end.

Lemma plain_reachable e l s s' : e.(mem) = true -> reachable s -> Forall (plain e) l -> run_ops e l s = Some s' -> reachable s'.
Proof.
  intros Hm. revert s. induction l as [|o l IH]; intros s Hr Hl E; [by injection E as <-|]. cbn in E. apply Forall_cons_iff in Hl as [Ho Hl].
  destruct (run_op e o s) as [[[[] s1] os]|] eqn:Eo; [|done]. apply (IH s1); [|done|done]. eapply (r_step e s o); [done|done| |done].
  destruct o; try done. intros c els _ Ep. by destruct (Ho els).
Qed.

Definition demo_env : env := mk_env true (fun _ => BT_STATUS_SUCCESS) (fun k => if Nat.eqb k 1 then BT_STATUS_FAIL else BT_STATUS_SUCCESS) true 4.
Definition demo_addr : bt_address_t := mk_addr 1 2 3 4 5 6.
Definition demo_uuid : bt_uuid_t := bt_uuid16_create 0x180D.

Definition demo_ops : list op :=
  [op_startup; op_create None (Some 7%N) (Some (fun _ => true)); op_connect (Some 0%nat) demo_addr 0;
   op_message (mk_msg demo_addr (GATTC_EVENT_CONNECT_CHANGE Hfp.PROFILE_STATE_CONNECTED));
   op_discover (Some 0%nat) None; op_discover (Some 0%nat) (Some demo_uuid); op_discover (Some 0%nat) None].

Definition demo_service : gattc_manager_t := default initial (run_ops demo_env demo_ops initial).

Lemma gattc_demo_reachable : reachable demo_service.
Proof.
  apply (plain_reachable demo_env demo_ops initial); [done|constructor| |vm_compute; reflexivity].
  repeat constructor; try done; cbn; lia.
Qed.

Definition demo_els : list gatt_element_t :=
  [mk_element 10 demo_uuid GATT_PRIMARY_SERVICE 0 false; mk_element 12 (bt_uuid16_create 0x2A37) GATT_CHARACTERISTIC 0x10 false;
   mk_element 13 (bt_uuid16_create BT_UUID_GATT_CCCD) GATT_DESCRIPTOR 0 false].
Definition demo_result : gattc_msg_t := mk_msg demo_addr (GATTC_EVENT_DISCOVER_RESULT demo_els).
Definition demo_conn : gattc_connection_t :=
  default (mk_connection 0 None 0 0 0 bt_addr_empty None [] [] false) (live demo_service 0).

Lemma demo_for_conn : for_conn demo_result demo_service = Some demo_conn.
Proof. vm_compute. reflexivity. Qed.

Lemma demo_fits : fits demo_els (services demo_conn).
Proof.
  split; [|vm_compute; constructor]. split; [apply (bool_decide_unpack _); vm_compute; exact I|]. cbn. split; [repeat constructor; cbn; lia|lia].
Qed.

Definition demo_known : gattc_manager_t := default initial (run_ops demo_env [op_message demo_result] demo_service).

Lemma demo_known_reachable : reachable demo_known.
Proof.
  destruct (run_op demo_env (op_message demo_result) demo_service) as [[[[] s'] os]|] eqn:E; [|vm_compute in E; discriminate].
  assert (demo_known = s') as -> by (unfold demo_known; cbn [run_ops]; by rewrite E).
  eapply (r_step demo_env demo_service (op_message demo_result)); [apply gattc_demo_reachable|done| |exact E].
  intros c els Hc Ee. rewrite demo_for_conn in Hc. injection Hc as <-. injection Ee as <-. apply demo_fits.
Qed.

Lemma gattc_fails_exactly_witness :
  run_op demo_env (op_message (mk_msg demo_addr (GATTC_EVENT_DISCOVER_RESULT []))) demo_service = None /\
  run_op demo_env (op_find_ccc (Some demo_addr) 12) initial = None /\
  run_op demo_env (op_delete (Some 0%nat)) demo_service <> None.
Proof.
  split; [|split].
  - apply gattc_fails_exactly; [apply gattc_demo_reachable|done| |vm_compute; reflexivity]. intros c els _ E. by injection E as <-.
  - apply gattc_fails_exactly; [constructor|done|exact I|vm_compute; reflexivity].
  - intros E. apply gattc_fails_exactly in E; [|apply gattc_demo_reachable|done|exact I]. vm_compute in E. discriminate.
Defined.

(** One more request while two wait, then a completion. *)
Lemma demo_run : exists os s', discovery_run demo_conn.(ptr) demo_addr demo_service [Some demo_uuid] os s'.
Proof.
  eexists _, _. eapply (run_request _ _ demo_env); [done|vm_compute; reflexivity|].
  eapply (run_completed _ _ demo_env _ 0); [done|vm_compute; reflexivity|constructor].
Qed.

Lemma gattc_discovery_queue_witness :
  live demo_service 0 = Some demo_conn /\ demo_conn.(discovering) = true /\ length demo_conn.(pend_ops) = 2%nat /\
  (exists s', gattc_process_message demo_env (mk_msg demo_addr (GATTC_EVENT_DISCOVER_CMPL 0)) demo_service =
    Some (tt, s', [told 0 on_discovered demo_addr [0; 0; 0] None;
                   sal (bt_sal_gatt_client_discover_service_by_uuid demo_addr demo_uuid);
                   do_in_service_loop (mk_msg demo_addr (GATTC_EVENT_DISCOVER_CMPL GATT_STATUS_FAILURE));
                   sal (bt_sal_gatt_client_discover_all_services demo_addr)])) /\
  exists os s' c', discovery_run demo_conn.(ptr) demo_addr demo_service [Some demo_uuid] os s' /\ live s' demo_conn.(ptr) = Some c' /\
    asked os ++ waiting c' =
      [bt_sal_gatt_client_discover_service_by_uuid demo_addr demo_uuid; bt_sal_gatt_client_discover_all_services demo_addr;
       bt_sal_gatt_client_discover_service_by_uuid demo_addr demo_uuid].
Proof.
  destruct (gattc_discovery_queue demo_env demo_service gattc_demo_reachable eq_refl) as (_ & H & Hrun).
  split; [vm_compute; reflexivity|]. split; [vm_compute; reflexivity|]. split; [vm_compute; reflexivity|]. split.
  - destruct (H (mk_msg demo_addr (GATTC_EVENT_DISCOVER_CMPL 0)) demo_conn 0 demo_for_conn eq_refl) as [E _]. eexists. rewrite E.
    apply f_equal, f_equal. vm_compute. reflexivity.
  - destruct demo_run as (os & s' & R). destruct (Hrun demo_addr demo_conn [Some demo_uuid] os s' demo_for_conn R) as (c' & Hl & E).
    exists os, s', c'. split; [exact R|]. split; [exact Hl|]. rewrite E. vm_compute. reflexivity.
Defined.

Lemma gattc_discovered_attributes_witness :
  exists s' os, gattc_process_message demo_env demo_result demo_service = Some (tt, s', os) /\
    if_gattc_get_attribute_by_handle (Some 0%nat) 12 true s' =
      Some ((BT_STATUS_SUCCESS, Some (12, GATT_CHARACTERISTIC, 0x10, bt_uuid16_create 0x2A37)), s', []).
Proof.
  destruct (gattc_discovered_attributes demo_env demo_service demo_result demo_conn demo_els
    (mk_element 10 demo_uuid GATT_PRIMARY_SERVICE 0 false) (mk_element 13 (bt_uuid16_create BT_UUID_GATT_CCCD) GATT_DESCRIPTOR 0 false)
    gattc_demo_reachable eq_refl demo_for_conn eq_refl eq_refl eq_refl demo_fits) as (c' & E & _ & H & _).
  eexists _, _. split; [exact E|]. refine (H (mk_element 12 (bt_uuid16_create 0x2A37) GATT_CHARACTERISTIC 0x10 false) _ _).
  - right. left.
  - unfold UINT16_MAX. cbn. lia.
Defined.

Definition demo_known_conn : gattc_connection_t :=
  default demo_conn (live demo_known 0).

Lemma gattc_notifications_witness :
  exists s' s'' c', 
    gattc_process_message demo_env (mk_msg demo_addr (GATTC_EVENT_NOTIFY 12 [1])) demo_known = Some (tt, demo_known, []) /\
    gattc_process_message demo_env (mk_msg demo_addr (GATTC_EVENT_SUBSCRIBE 0 12 true)) demo_known = Some (tt, s', s'') /\
    live s' 0 = Some c' /\ enabled c' 12 = true.
Proof.
  assert (for_conn demo_result demo_known = Some demo_known_conn) as Hf by (vm_compute; reflexivity).
  destruct (find_gattc_element_by_handle demo_known_conn.(services) 12) as [x|] eqn:Ex; [|vm_compute in Ex; discriminate].
  destruct (gattc_notifications demo_env demo_known (mk_msg demo_addr (GATTC_EVENT_SUBSCRIBE 0 12 true)) demo_known_conn demo_known_reachable Hf)
    as [_ H].
  destruct (H 0 12 true x eq_refl Ex) as (c' & E & Hl & He). exists (with_conn c' demo_known). eexists. exists c'.
  split; [|split; [exact E|]].
  - destruct (gattc_notifications demo_env demo_known (mk_msg demo_addr (GATTC_EVENT_NOTIFY 12 [1])) demo_known_conn demo_known_reachable Hf) as [G _].
    rewrite (G 12 [1] eq_refl). assert (enabled demo_known_conn 12 = false) as -> by (vm_compute; reflexivity). reflexivity.
  - split; [|exact (He 12)]. assert (ptr demo_known_conn = 0%nat) as E0 by (vm_compute; reflexivity). rewrite E0 in Hl. exact Hl.
Defined.

(** ** A defect *)

(** A queued discovery that the stack refuses posts a completion of its own;
    by the time that is handled, the next one of the queue is under way, and
    the flag is cleared while it still is: two discoveries overlap. *)
Lemma refused_discovery_overlaps :
  exists s1 s2 s3 os1 os3,
    gattc_process_message demo_env (mk_msg demo_addr (GATTC_EVENT_DISCOVER_CMPL 0)) demo_service = Some (tt, s1, os1) /\
    (discovering <$> live s1 0) = Some true /\
    do_in_service_loop (mk_msg demo_addr (GATTC_EVENT_DISCOVER_CMPL GATT_STATUS_FAILURE)) ∈ os1 /\
    run_op demo_env (op_message (mk_msg demo_addr (GATTC_EVENT_DISCOVER_CMPL GATT_STATUS_FAILURE))) s1 = Some (tt, s2, [told 0 on_discovered demo_addr [1; 0; 0] None]) /\
    (discovering <$> live s2 0) = Some false /\
    if_gattc_discover_service demo_env (Some 0%nat) None s2 = Some (BT_STATUS_SUCCESS, s3, os3) /\
    os3 = [sal (bt_sal_gatt_client_discover_all_services demo_addr)].
Proof.
  eexists _, _, _, _, _. split; [vm_compute; reflexivity|]. split; [vm_compute; reflexivity|]. split; [right; right; left|].
  split; [vm_compute; reflexivity|]. split; [vm_compute; reflexivity|]. split; [vm_compute; reflexivity|]. vm_compute. reflexivity.
Qed.
End GattClientSpec.
