(* ===== verification/HfpHf.v ===== *)
(** * The HFP hands-free state machine (service/profiles/hfp_hf/hfp_hf_state_machine.c)

    One machine per audio gateway: Disconnected, Connecting, Connected,
    AudioOn, on the engine of [Hsm].  It follows the link, the audio link,
    the calls of the phone (a list refreshed by queries and the three call
    indicators), dialling, volume and the offload of audio to the controller.
    A call of the stack that returns a status is an [out] whose answer
    ([status]) is given by the environment. *)

From S2P Require Import Prelude Hsm Bytes BtAddr Hci MediaSystem Hfp.
From stdpp Require Import strings.
From coqutil Require Import Datatypes.RecordSetters.
Import UpdaterNotations.

Local Open Scope bt_scope.

Module HfpHf.
Import Hsm BtAddr Hci MediaSystem.
Export Hfp.

(** ** States, events, messages *)

Inductive state := disconnected_state | connecting_state | connected_state | audio_on_state.

#[export] Instance state_eq_dec : EqDecision state.
Proof. solve_decision. Defined.

Inductive hfp_hf_event_t :=
| HF_CONNECT | HF_DISCONNECT | HF_CONNECT_AUDIO | HF_DISCONNECT_AUDIO
| HF_VOICE_RECOGNITION_START | HF_VOICE_RECOGNITION_STOP | HF_SET_VOLUME | HF_MEDIA_VOLUME_CHANGED
| HF_DIAL_NUMBER | HF_DIAL_MEMORY | HF_DIAL_LAST | HF_ACCEPT_CALL | HF_REJECT_CALL | HF_HOLD_CALL
| HF_TERMINATE_CALL | HF_CONTROL_CALL | HF_QUERY_CURRENT_CALLS | HF_QUERY_CURRENT_CALLS_WITH_CALLBACK
| HF_SEND_AT_COMMAND | HF_UPDATE_BATTERY_LEVEL | HF_SEND_DTMF | HF_GET_SUBSCRIBER_NUMBER
| HF_STARTUP | HF_SHUTDOWN | HF_TIMEOUT | HF_OFFLOAD_START_REQ | HF_OFFLOAD_STOP_REQ
| HF_OFFLOAD_START_EVT | HF_OFFLOAD_STOP_EVT | HF_OFFLOAD_TIMEOUT_EVT
| HF_STACK_EVENT | HF_STACK_EVENT_AUDIO_REQ | HF_STACK_EVENT_CONNECTION_STATE_CHANGED
| HF_STACK_EVENT_AUDIO_STATE_CHANGED | HF_STACK_EVENT_VR_STATE_CHANGED | HF_STACK_EVENT_CALL
| HF_STACK_EVENT_CALLSETUP | HF_STACK_EVENT_CALLHELD | HF_STACK_EVENT_CLIP
| HF_STACK_EVENT_CALL_WAITING | HF_STACK_EVENT_CURRENT_CALLS | HF_STACK_EVENT_VOLUME_CHANGED
| HF_STACK_EVENT_CMD_RESPONSE | HF_STACK_EVENT_CMD_RESULT | HF_STACK_EVENT_RING_INDICATION
| HF_STACK_EVENT_CODEC_CHANGED | HF_STACK_EVENT_CNUM.

#[export] Instance hfp_hf_event_eq_dec : EqDecision hfp_hf_event_t.
Proof. solve_decision. Defined.

(** [hfp_hf_data_t]; a string is [None] for the NULL pointer, [hci_event] is
    what [data] points to. *)
Record hfp_hf_data_t := mk_msg_data {
  data_addr : bt_address_t;
  valueint1 : Z;
  valueint2 : Z;
  valueint3 : Z;
  valueint4 : Z;
  string1 : option string;
  string2 : option string;
  hci_event : bt_hci_event_t;
}.

Record hfp_hf_msg_t := mk_msg { event : hfp_hf_event_t; msg_data : hfp_hf_data_t }.

(** [hfp_hf_msg_new]: the address and zeroes. *)
Definition hfp_hf_msg_new (ev : hfp_hf_event_t) (a : bt_address_t) : hfp_hf_msg_t :=
  mk_msg ev (mk_msg_data a 0 0 0 0 None None (mk_hci 0 [])).

(** [hfp_hf_msg_new_ext] with a controller's event. *)
Definition hfp_hf_msg_new_ext (ev : hfp_hf_event_t) (a : bt_address_t) (h : bt_hci_event_t) : hfp_hf_msg_t :=
  mk_msg ev (mk_msg_data a 0 0 0 0 None None h).

(** The values the stack and the API use. *)
Definition CONNECTION_POLICY_ALLOWED : Z := 0.
Definition CONNECTION_POLICY_FORBIDDEN : Z := 1.
Definition CONNECTION_POLICY_UNKNOWN : Z := 2.
Definition HFP_HF_CALL_STATE_ACTIVE : Z := 0.
Definition HFP_HF_CALL_STATE_HELD : Z := 1.
Definition HFP_HF_CALL_STATE_DIALING : Z := 2.
Definition HFP_HF_CALL_STATE_ALERTING : Z := 3.
Definition HFP_HF_CALL_STATE_INCOMING : Z := 4.
Definition HFP_HF_CALL_STATE_WAITING : Z := 5.
Definition HFP_HF_CALL_STATE_DISCONNECTED : Z := 7.
Definition HFP_HF_CALL_CONTROL_CHLD_0 : Z := 0.
Definition HFP_HF_CALL_CONTROL_CHLD_1 : Z := 1.
Definition HFP_HF_CALL_CONTROL_CHLD_2 : Z := 2.
Definition HFP_HF_CALL_CONTROL_CHLD_3 : Z := 3.
Definition HFP_HF_CALL_ACCEPT_NONE : Z := 0.
Definition HFP_HF_CALL_ACCEPT_RELEASE : Z := 1.
Definition HFP_HF_CALL_ACCEPT_HOLD : Z := 2.
Definition HFP_HF_VR_STATE_STOPPED : Z := 0.
Definition HFP_IN_BAND_RINGTONE_PROVIDED : Z := 1.
Definition HFP_ATCMD_CODE_ATD : Z := 0x02.
Definition HFP_ATCMD_CODE_BLDN : Z := 0x1A.
Definition HFP_PHONENUM_DIGITS_MAX : nat := 32.
Definition HFP_NAME_DIGITS_MAX : nat := 64.
Definition HFP_CALL_LIST_MAX : nat := 4.

Definition HFP_HF_RETRY_MAX : Z := 1.
Definition HF_CONNECT_TIMEOUT : Z := 10 * 1000.
Definition HF_WEBCHAT_VERDICT : Z := 300 * 1000.
Definition HF_WEBCHAT_BLOCK_PERIOD : Z := 500 * 1000.
Definition HF_WEBCHAT_WAIVER_PERIOD : Z := 10 * 1000 * 1000.
Definition HF_OFFLOAD_TIMEOUT : Z := 500.

(** [pending_state_t] *)
Definition PENDING_CURRENT_CALLS_QUERY : Z := 0x08.
Definition PENDING_AUDIO_DISCONNECT : Z := 0x10.

(** [hfp_current_call_t] *)
Record hfp_current_call_t := mk_call {
  index : Z;
  dir : Z;
  call_state : Z;
  mpty : Z;
  number : string;
  name : string;
}.

#[export] Instance hfp_current_call_eq_dec : EqDecision hfp_current_call_t.
Proof. solve_decision. Defined.

(** ** The calls the machine makes *)

Inductive out :=
| hf_service_notify_connection_state_changed (a : bt_address_t) (s : Z)
| hf_service_notify_audio_state_changed (a : bt_address_t) (s : Z)
| hf_service_notify_vr_state_changed (a : bt_address_t) (started : bool)
| hf_service_notify_call_state_changed (a : bt_address_t) (c : hfp_current_call_t)
| hf_service_notify_cmd_complete (a : bt_address_t) (resp : option string)
| hf_service_notify_ring_indication (a : bt_address_t) (inband : bool)
| hf_service_notify_volume_changed (a : bt_address_t) (type vol : Z)
| hf_service_notify_call (a : bt_address_t) (v : Z)
| hf_service_notify_callsetup (a : bt_address_t) (v : Z)
| hf_service_notify_callheld (a : bt_address_t) (v : Z)
| hf_service_notify_clip_received (a : bt_address_t) (num nm : option string)
| hf_service_notify_subscriber_number (a : bt_address_t) (num : option string) (service : Z)
| hf_service_notify_current_calls (a : bt_address_t) (n : nat) (l : list hfp_current_call_t)
| bt_sal_hfp_hf_connect (a : bt_address_t)
| bt_sal_hfp_hf_disconnect (a : bt_address_t)
| bt_sal_hfp_hf_connect_audio (a : bt_address_t)
| bt_sal_hfp_hf_disconnect_audio (a : bt_address_t)
| bt_sal_hfp_hf_answer_call (a : bt_address_t)
| bt_sal_hfp_hf_reject_call (a : bt_address_t)
| bt_sal_hfp_hf_hangup_call (a : bt_address_t)
| bt_sal_hfp_hf_call_control (a : bt_address_t) (chld : Z)
| bt_sal_hfp_hf_get_current_calls (a : bt_address_t)
| bt_sal_hfp_hf_send_at_cmd (a : bt_address_t) (s : string)
| bt_sal_hfp_hf_send_battery_level (a : bt_address_t) (v : Z)
| bt_sal_hfp_hf_send_dtmf (a : bt_address_t) (v : Z)
| bt_sal_hfp_hf_get_subscriber_number (a : bt_address_t)
| bt_sal_hfp_hf_start_voice_recognition (a : bt_address_t)
| bt_sal_hfp_hf_stop_voice_recognition (a : bt_address_t)
| bt_sal_hfp_hf_dial_number (a : bt_address_t) (num : option string)
| bt_sal_hfp_hf_dial_memory (a : bt_address_t) (memory : Z)
| bt_sal_hfp_hf_set_volume (a : bt_address_t) (type vol : Z)
| bt_sal_sco_connection_reply (a : bt_address_t) (accept : bool)
| bt_sal_send_hci_command (ogf ocf len : Z) (payload : list Z)
| bt_pm_conn_open (a : bt_address_t)
| bt_pm_conn_close (a : bt_address_t)
| bt_pm_busy (a : bt_address_t)
| bt_pm_idle (a : bt_address_t)
| bt_pm_sco_open (a : bt_address_t)
| bt_pm_sco_close (a : bt_address_t)
| bt_cm_connected (a : bt_address_t)
| bt_cm_disconnected (a : bt_address_t)
| bt_media_remove_listener (l : option nat)
| bt_media_listen_voice_call_volume_change
| bt_media_set_voice_call_volume (v : Z)
| bt_media_set_hfp_samplerate (v : Z)
| bt_media_set_sco_available
| bt_media_set_sco_unavailable
| audio_ctrl_send_control_event (ev : audio_ctrl_evt_t)
| service_loop_timer (timeout : Z) (h : option timer_h)
| service_loop_cancel_timer (h : option timer_h)
| hfp_hf_send_message (m : hfp_hf_msg_t)
| BT_DFX_HFP_HF_CONN_TIMEOUT
| BT_DFX_HFP_HF_CONN_RETRY_FAIL
| BT_DFX_OFFLOAD_START_TIMEOUT
| BT_DFX_OFFLOAD_HCI_UNSPECIFIED_ERROR
| malloc_call                              (* a call record is allocated *)
| free_call                                (* and freed *)
| null_string                              (* a NULL string is read *)
| assert_failed.                           (* assert(0) *)

(** ** The machine *)

(** [hfp_hf_call_cache_t] and [hfp_hf_call_status_t] *)
Record hfp_hf_call_cache_t := mk_cache {
  last_call : Z;
  last_callsetup : Z;
  last_callheld : Z;
}.

Record hfp_hf_call_status_t := mk_call_status {
  call_status : Z;
  call_timestamp_us : Z;
  callsetup_status : Z;
  callsetup_timestamp_us : Z;
  callheld_status : Z;
  callheld_timestamp_us : Z;
  dialing_timestamp_us : Z;
  last_reported : hfp_hf_call_cache_t;
  webchat_flag_timestamp_us : Z;
}.

(** [hf_at_cmd_t]: a dial command whose result is awaited. *)
Record hf_at_cmd_t := mk_at_cmd { cmd_code : Z; cmd_number : string }.

(** The fields of [hf_state_machine_t] after [sm]. *)
Record hf_data := mk_data {
  addr : bt_address_t;
  sco_conn_handle : Z;
  remote_features : Z;
  connect_timer : option timer_h;
  offload_timer : option timer_h;
  retry_timer : option timer_h;
  recognition_active : bool;
  offloading : bool;
  connection_policy : Z;
  spk_volume : Z;
  mic_volume : Z;
  media_volume : Z;
  volume_listener : option nat;
  set_volume_cnt : Z;
  codec : Z;
  retry_cnt : Z;
  pending : Z;
  pending_actions : list hf_at_cmd_t;
  current_calls : list hfp_current_call_t;
  update_calls : list hfp_current_call_t;
  calls : hfp_hf_call_status_t;
  need_query : bool;
  need_query_callback : bool;
}.

Abbreviation hf_state_machine_t := (state_machine_t state hf_data).
Abbreviation MH := (M hf_state_machine_t out).

Record config := mk_config {
  connection_manager : bool;        (* CONFIG_BLUETOOTH_CONNECTION_MANAGER *)
  webchat_blocker : bool;           (* CONFIG_HFP_HF_WEBCHAT_BLOCKER *)
  vendor_actions : bool;            (* CONFIG_BLUETOOTH_VENDOR_ACTIONS *)
}.

(** What the outside answers during one event: the status of each call, the
    clock, a random number, the voice call volume ([None]: it cannot be read),
    a volume listener and a timer ([None]: NULL). *)
Record env := mk_env {
  status : out -> bt_status_t;
  now : Z;
  rand : Z;
  voice_call_volume : option Z;
  new_listener : option nat;
  new_timer : option timer_h;
}.

Definition upd (f : hf_data -> hf_data) : MH unit := modify (upd_data f).
Definition field {A} (f : hf_data -> A) : MH A := gets (fun sm => f sm.(data)).

Definition value_of (s : state) : Z :=
  match s with
  | disconnected_state => 0 | connecting_state => 1 | connected_state => 3 | audio_on_state => 4
  end.

Definition name_of (s : state) : string :=
  match s with
  | disconnected_state => "Disconnected" | connecting_state => "Connecting"
  | connected_state => "Connected" | audio_on_state => "AudioOn"
  end.

Definition HFP_HF_STATE_DISCONNECTED : Z := 0.
Definition HFP_HF_STATE_CONNECTING : Z := 1.
Definition HFP_HF_STATE_DISCONNECTING : Z := 2.
Definition HFP_HF_STATE_CONNECTED : Z := 3.
Definition HFP_HF_STATE_AUDIO_CONNECTED : Z := 4.

(** The value of the current state, which is not NULL once the machine is
    made ([hf_reachable_fields] of HfpHfSpec.v). *)
Definition hf_state_machine_get_state (sm : hf_state_machine_t) : Z :=
  match sm.(current_state) with Some s => value_of s | None => 0%Z end.

(** The state the service tells its clients ([hfp_hf_get_connection_state]). *)
Definition hfp_hf_get_connection_state (sm : hf_state_machine_t) : Z :=
  let state := hf_state_machine_get_state sm in
  if (state =? HFP_HF_STATE_DISCONNECTED)%Z then PROFILE_STATE_DISCONNECTED
  else if (state =? HFP_HF_STATE_CONNECTING)%Z then PROFILE_STATE_CONNECTING
  else if (state =? HFP_HF_STATE_DISCONNECTING)%Z then PROFILE_STATE_DISCONNECTING
  else PROFILE_STATE_CONNECTED.

Definition hfp_hf_is_audio_connected (sm : hf_state_machine_t) : bool :=
  (hf_state_machine_get_state sm =? HFP_HF_STATE_AUDIO_CONNECTED)%Z.

(** ** Flags and pending commands *)

Definition flag_isset (flag : Z) : MH bool := field (fun d => flag_isset_v d.(pending) flag).
Definition flag_set (flag : Z) : MH unit := upd {! pending ::= fun p => flag_set_v p flag }.
Definition flag_clear (flag : Z) : MH unit := upd {! pending ::= fun p => flag_clear_v p flag }.

Definition pending_action_create (code : Z) (param : option string) : MH unit :=
  let num := if ((code =? HFP_ATCMD_CODE_ATD) || (code =? HFP_ATCMD_CODE_BLDN))%Z%bool
             then match param with Some s => snprintf_s HFP_PHONENUM_DIGITS_MAX s | None => ""%string end
             else ""%string in
  upd {! pending_actions ::= fun l => l ++ [mk_at_cmd code num] }.

Definition pending_action_get : MH (option hf_at_cmd_t) :=
  l <- field pending_actions;;
  match l with
  | [] => mret_ None
  | c :: l => upd {! pending_actions := l };;; mret_ (Some c)
  end.

(** ** The calls *)

Definition call_index_cmp (i : Z) (c : hfp_current_call_t) : bool := (c.(index) =? i)%Z.
Definition call_state_cmp (s : Z) (c : hfp_current_call_t) : bool := (c.(call_state) =? s)%Z.

(** [bt_list_find]: the first that matches. *)
Fixpoint bt_list_find (p : hfp_current_call_t -> bool) (l : list hfp_current_call_t) : option hfp_current_call_t :=
  match l with
  | [] => None
  | c :: l => if p c then Some c else bt_list_find p l
  end.

Definition find_call (i : Z) : list hfp_current_call_t -> option hfp_current_call_t := bt_list_find (call_index_cmp i).

Definition get_call_by_state (s : Z) : MH bool :=
  field (fun d => match bt_list_find (call_state_cmp s) d.(current_calls) with Some _ => true | None => false end).

(** The loop of [set_current_call_name]: the list afterwards and the calls
    told of.  It returns at the first call that has the name already. *)
Fixpoint name_loop (num nm : string) (l : list hfp_current_call_t)
    : list hfp_current_call_t * list hfp_current_call_t :=
  match l with
  | [] => ([], [])
  | c :: l =>
      if bool_decide (c.(number) = num) then
        if bool_decide (c.(name) = nm) then (c :: l, [])
        else
          let c := mk_call c.(index) c.(dir) c.(call_state) c.(mpty) c.(number) (snprintf_s HFP_NAME_DIGITS_MAX nm) in
          let '(l, told) := name_loop num nm l in (c :: l, c :: told)
      else let '(l, told) := name_loop num nm l in (c :: l, told)
  end.

Definition notify_calls (cs : list hfp_current_call_t) : MH unit :=
  a <- field addr;; emits (map (hf_service_notify_call_state_changed a) cs).

Definition set_current_call_name (num nm : option string) : MH unit :=
  match num, nm with
  | Some num, Some nm =>
      l <- field current_calls;;
      let '(l, told) := name_loop num nm l in
      upd {! current_calls := l };;; notify_calls told
  | _, _ => mret_ tt
  end.

(** [hf_call_new]; the number is printed with %s whatever it is. *)
Definition hf_call_new (idx dir state mpty : Z) (num : option string) : MH hfp_current_call_t :=
  emit malloc_call;;;
  match num with
  | Some s => mret_ (mk_call (u32 idx) (u8 dir) (u8 state) (u8 mpty) (snprintf_s HFP_PHONENUM_DIGITS_MAX s) ""%string)
  | None => emit null_string;;; mret_ (mk_call (u32 idx) (u8 dir) (u8 state) (u8 mpty) ""%string ""%string)
  end.

Definition update_current_calls (c : hfp_current_call_t) : MH unit := upd {! update_calls ::= fun l => l ++ [c] }.

(** [HFP_HF_REPORT_CIEV_AND_CACHE], three times. *)
Definition hf_service_fake_ciev : MH unit :=
  a <- field addr;;
  s <- field calls;;
  when (negb (s.(last_reported).(last_call) =? s.(call_status))%Z) (
    emit (hf_service_notify_call a s.(call_status));;;
    upd {! calls -> last_reported -> last_call := s.(call_status) });;;
  when (negb (s.(last_reported).(last_callsetup) =? s.(callsetup_status))%Z) (
    emit (hf_service_notify_callsetup a s.(callsetup_status));;;
    upd {! calls -> last_reported -> last_callsetup := s.(callsetup_status) });;;
  when (negb (s.(last_reported).(last_callheld) =? s.(callheld_status))%Z) (
    emit (hf_service_notify_callheld a s.(callheld_status));;;
    upd {! calls -> last_reported -> last_callheld := s.(callheld_status) }).

(** At most [HFP_CALL_LIST_MAX] calls are copied into the array. *)
Definition hf_notify_current_calls : MH unit :=
  a <- field addr;;
  l <- field current_calls;;
  let arr := take HFP_CALL_LIST_MAX l in
  emit (hf_service_notify_current_calls a (length arr) arr);;;
  upd {! need_query_callback := false }.

Definition call_changed (u c : hfp_current_call_t) : bool :=
  negb (u.(dir) =? c.(dir))%Z || negb (u.(call_state) =? c.(call_state))%Z || negb (u.(mpty) =? c.(mpty))%Z
  || negb (bool_decide (u.(number) = c.(number))).

(** The first loop of [query_current_calls_final]: the known calls against
    those reported. *)
Fixpoint refresh_loop (ulist clist : list hfp_current_call_t)
    : list hfp_current_call_t * list (hfp_current_call_t * bool) :=
  match clist with
  | [] => ([], [])
  | c :: clist =>
      let '(l, told) := refresh_loop ulist clist in
      match find_call c.(index) ulist with
      | None => (l, (mk_call c.(index) c.(dir) HFP_HF_CALL_STATE_DISCONNECTED c.(mpty) c.(number) c.(name), true) :: told)
      | Some u =>
          if call_changed u c then
            let c := mk_call c.(index) u.(dir) u.(call_state) u.(mpty)
                       (snprintf_s HFP_PHONENUM_DIGITS_MAX u.(number)) c.(name) in
            (c :: l, (c, false) :: told)
          else (c :: l, told)
      end
  end.

(** The second loop: those not known yet are appended. *)
Fixpoint append_loop (ulist clist : list hfp_current_call_t)
    : list hfp_current_call_t * list hfp_current_call_t :=
  match ulist with
  | [] => (clist, [])
  | u :: ulist =>
      match find_call u.(index) clist with
      | None => let '(l, told) := append_loop ulist (clist ++ [u]) in (l, u :: told)
      | Some _ => append_loop ulist clist
      end
  end.

(** What a call of the first loop is told of, and its record freed when it is
    gone. *)
Definition refresh_outs (a : bt_address_t) (t : hfp_current_call_t * bool) : list out :=
  hf_service_notify_call_state_changed a t.1 :: (if t.2 then [free_call] else []).

Definition query_current_calls_final : MH unit :=
  hf_service_fake_ciev;;;
  a <- field addr;;
  ulist <- field update_calls;;
  clist <- field current_calls;;
  let '(clist, told) := refresh_loop ulist clist in
  emits (concat (map (refresh_outs a) told));;;
  let '(clist, new) := append_loop ulist clist in
  upd {! current_calls := clist };;;
  notify_calls new;;;
  cb <- field need_query_callback;;
  when cb hf_notify_current_calls;;;
  flag_clear PENDING_CURRENT_CALLS_QUERY;;;
  upd {! update_calls := [] }.          (* the list owns nothing: the records are not freed *)

(** [hf_call_delete] of each call of a list. *)
Definition free_calls (l : list hfp_current_call_t) : list out := map (fun _ => free_call) l.

Definition state_machine_reset_calls : MH unit :=
  l <- field current_calls;;
  emits (free_calls l);;;
  upd {! current_calls := [] };;;
  upd {! update_calls := [] };;;
  upd {! pending_actions := [] };;;
  t <- field connect_timer;;
  when (bool_decide (is_Some t)) (emit (service_loop_cancel_timer t));;;
  upd {! recognition_active := false };;;
  upd {! calls -> last_reported := mk_cache HFP_CALL_NO_CALLS_IN_PROGRESS HFP_CALLSETUP_NONE HFP_CALLHELD_NONE }.

Definition update_remote_features (f : Z) : MH unit := upd {! remote_features := u32 f }.

Definition check_hfp_allowed : MH bool :=
  p <- field connection_policy;; mret_ (negb (p =? CONNECTION_POLICY_FORBIDDEN)%Z).

(** ** Handlers *)

Section Machine.
Context (cfg : config).

Section Handlers.
Context (e : env).

(** A call of the stack and its status. *)
Definition ask (o : out) : MH bool := emit o;;; mret_ (is_success (e.(status) o)).

Definition send_control_event (ev : audio_ctrl_evt_t) : MH unit := emit (audio_ctrl_send_control_event ev).

Definition hf_offload_send_cmd (is_start : bool) : MH bool :=
  h <- field sco_conn_handle;;
  c <- field codec;;
  let conf := mk_hfp_offload h c in
  let cmd := if is_start then hfp_offload_start_builder cfg.(vendor_actions) conf
             else hfp_offload_stop_builder cfg.(vendor_actions) conf in
  match cmd with
  | None => emit assert_failed;;; mret_ false
  | Some p =>
      match split_command p (Z.of_nat (length p)) with
      | Some (ogf, ocf, len, p) => ask (bt_sal_send_hci_command ogf ocf len p)
      | None => emit assert_failed;;; mret_ false
      end
  end.

Definition disconnected_enter : MH unit :=
  upd {! need_query := false };;;
  prev <- gets hsm_get_previous_state;;
  match prev with
  | Some _ =>
      a <- field addr;;
      emit (bt_pm_conn_close a);;;
      when cfg.(connection_manager) (emit (bt_cm_disconnected a));;;
      l <- field volume_listener;;
      emit (bt_media_remove_listener l);;;
      upd {! spk_volume := 0%Z };;;
      upd {! mic_volume := 0%Z };;;
      upd {! media_volume := INVALID_MEDIA_VOLUME };;;
      upd {! volume_listener := None };;;
      upd {! set_volume_cnt := 0%Z };;;
      emit (hf_service_notify_connection_state_changed a PROFILE_STATE_DISCONNECTED)
  | None => mret_ tt
  end;;;
  state_machine_reset_calls.

Definition disconnected_exit : MH unit := mret_ tt.

Definition connecting_enter : MH unit :=
  a <- field addr;;
  emit (service_loop_timer HF_CONNECT_TIMEOUT e.(new_timer));;;
  upd {! connect_timer := e.(new_timer) };;;
  emit (hf_service_notify_connection_state_changed a PROFILE_STATE_CONNECTING);;;
  emit (bt_pm_busy a);;;
  emit (bt_pm_idle a).

Definition connecting_exit : MH unit :=
  t <- field connect_timer;;
  emit (service_loop_cancel_timer t);;;
  upd {! connect_timer := None }.

(** ** Whether audio is welcome *)

(** [calc_us_diff]: on unsigned 64-bit clocks, -1 when the second is earlier. *)
Definition calc_us_diff (prev_us next_us : Z) : Z :=
  if ((prev_us <=? next_us) && (next_us - prev_us <? 2 ^ 63))%Z then (next_us - prev_us)%Z else (-1)%Z.

Definition voip_call_number : list string := ["10000000"; "10000001"]%string.

Definition within (prev period : Z) : bool :=
  let d := calc_us_diff prev e.(now) in ((0 <=? d) && (d <? period))%Z.

Definition check_sco_allowed : MH bool :=
  if cfg.(webchat_blocker) then
    s <- field calls;;
    if within s.(dialing_timestamp_us) HF_WEBCHAT_WAIVER_PERIOD then mret_ true
    else if within s.(webchat_flag_timestamp_us) HF_WEBCHAT_BLOCK_PERIOD then
      upd {! calls -> webchat_flag_timestamp_us := e.(now) };;; mret_ false
    else
      l <- field current_calls;;
      mret_ (negb (existsb (fun c => bool_decide (c.(number) ∈ voip_call_number)) l))
  else mret_ true.

Definition try_disconnect_audio : MH unit :=
  a <- field addr;;
  busy <- flag_isset PENDING_AUDIO_DISCONNECT;;
  if busy then mret_ tt
  else
    ok <- ask (bt_sal_hfp_hf_disconnect_audio a);;
    if negb ok then mret_ tt
    else
      st <- gets hf_state_machine_get_state;;
      when (st =? HFP_HF_STATE_AUDIO_CONNECTED)%Z (flag_set PENDING_AUDIO_DISCONNECT).

Definition channel_type_verdict (event : hfp_hf_event_t) (status : Z) : MH unit :=
  match event with
  | HF_STACK_EVENT_CALL =>
      s <- field calls;;
      when ((u32 status =? HFP_CALL_CALLS_IN_PROGRESS) && (s.(call_status) =? HFP_CALL_NO_CALLS_IN_PROGRESS)
            && ((s.(callsetup_status) =? HFP_CALLSETUP_OUTGOING) || (s.(callsetup_status) =? HFP_CALLSETUP_ALERTING)))%Z%bool (
        when (within s.(callsetup_timestamp_us) HF_WEBCHAT_VERDICT) (
          upd {! calls -> webchat_flag_timestamp_us := e.(now) };;;
          st <- gets hf_state_machine_get_state;;
          when (st =? HFP_HF_STATE_AUDIO_CONNECTED)%Z (
            ok <- check_sco_allowed;;
            when (negb ok) try_disconnect_audio)))
  | _ => mret_ tt
  end.

Definition update_dialing_time : MH unit := upd {! calls -> dialing_timestamp_us := e.(now) }.

Definition update_call_status (event : hfp_hf_event_t) (status : Z) : MH unit :=
  when cfg.(webchat_blocker) (channel_type_verdict event status);;;
  match event with
  | HF_STACK_EVENT_CALL =>
      upd {! calls -> call_status := u32 status };;; upd {! calls -> call_timestamp_us := e.(now) }
  | HF_STACK_EVENT_CALLSETUP =>
      upd {! calls -> callsetup_status := u32 status };;; upd {! calls -> callsetup_timestamp_us := e.(now) }
  | HF_STACK_EVENT_CALLHELD =>
      upd {! calls -> callheld_status := u32 status };;; upd {! calls -> callheld_timestamp_us := e.(now) }
  | _ => mret_ tt
  end.

(** ** Commands on calls *)

Definition accept_call (flag : Z) : MH unit :=
  a <- field addr;;
  incoming <- get_call_by_state HFP_HF_CALL_STATE_INCOMING;;
  waiting <- get_call_by_state HFP_HF_CALL_STATE_WAITING;;
  active <- get_call_by_state HFP_HF_CALL_STATE_ACTIVE;;
  held <- get_call_by_state HFP_HF_CALL_STATE_HELD;;
  let control chld := ask (bt_sal_hfp_hf_call_control a chld);;; mret_ tt in
  if incoming then
    if negb (flag =? HFP_HF_CALL_ACCEPT_NONE)%Z then mret_ tt
    else ask (bt_sal_hfp_hf_answer_call a);;; mret_ tt
  else if waiting then
    if negb active && negb (flag =? HFP_HF_CALL_ACCEPT_NONE)%Z then mret_ tt
    else if ((flag =? HFP_HF_CALL_ACCEPT_NONE) || (flag =? HFP_HF_CALL_ACCEPT_HOLD))%Z%bool
    then control HFP_HF_CALL_CONTROL_CHLD_2
    else if (flag =? HFP_HF_CALL_ACCEPT_RELEASE)%Z then control HFP_HF_CALL_CONTROL_CHLD_1
    else mret_ tt
  else if held then
    if (flag =? HFP_HF_CALL_ACCEPT_HOLD)%Z then control HFP_HF_CALL_CONTROL_CHLD_2
    else if (flag =? HFP_HF_CALL_ACCEPT_RELEASE)%Z then control HFP_HF_CALL_CONTROL_CHLD_1
    else if active then control HFP_HF_CALL_CONTROL_CHLD_3
    else control HFP_HF_CALL_CONTROL_CHLD_2
  else mret_ tt.

Definition reject_call : MH unit :=
  a <- field addr;;
  incoming <- get_call_by_state HFP_HF_CALL_STATE_INCOMING;;
  held <- get_call_by_state HFP_HF_CALL_STATE_HELD;;
  waiting <- get_call_by_state HFP_HF_CALL_STATE_WAITING;;
  if incoming then ask (bt_sal_hfp_hf_reject_call a);;; mret_ tt
  else if held || waiting then ask (bt_sal_hfp_hf_call_control a HFP_HF_CALL_CONTROL_CHLD_0);;; mret_ tt
  else mret_ tt.

Definition hangup_call : MH unit :=
  a <- field addr;;
  active <- get_call_by_state HFP_HF_CALL_STATE_ACTIVE;;
  dialing <- get_call_by_state HFP_HF_CALL_STATE_DIALING;;
  alerting <- get_call_by_state HFP_HF_CALL_STATE_ALERTING;;
  held <- get_call_by_state HFP_HF_CALL_STATE_HELD;;
  if active || dialing || alerting then ask (bt_sal_hfp_hf_hangup_call a);;; mret_ tt
  else if held then ask (bt_sal_hfp_hf_call_control a HFP_HF_CALL_CONTROL_CHLD_0);;; mret_ tt
  else mret_ tt.

Definition hold_call : MH unit :=
  a <- field addr;;
  active <- get_call_by_state HFP_HF_CALL_STATE_ACTIVE;;
  if active then ask (bt_sal_hfp_hf_call_control a HFP_HF_CALL_CONTROL_CHLD_2);;; mret_ tt
  else mret_ tt.

(** The call told of when dialling fails. *)
Definition failed_call (num : option string) : hfp_current_call_t :=
  mk_call 0 HFP_CALL_DIRECTION_OUTGOING HFP_HF_CALL_STATE_DISCONNECTED 0
    match num with Some s => snprintf_s HFP_PHONENUM_DIGITS_MAX s | None => ""%string end ""%string.

Definition handle_dailing_fail (num : option string) : MH unit :=
  a <- field addr;; emit (hf_service_notify_call_state_changed a (failed_call num)).

Definition handle_hf_set_voice_call_volume (type volume : Z) : MH unit :=
  if (type =? HFP_VOLUME_TYPE_SPK)%Z then
    upd {! spk_volume := volume };;;
    let new_volume := bt_media_volume_hfp_to_media volume in
    mv <- field media_volume;;
    if (new_volume =? mv)%Z then mret_ tt
    else
      ok <- ask (bt_media_set_voice_call_volume new_volume);;
      cnt <- field set_volume_cnt;;
      when (ok && (cnt <? UINT32_MAX)%Z) (upd {! set_volume_cnt := u32 (cnt + 1) })
  else when (type =? HFP_VOLUME_TYPE_MIC)%Z (upd {! mic_volume := volume }).

Definition query_current_calls_with_callback : MH unit :=
  busy <- flag_isset PENDING_CURRENT_CALLS_QUERY;;
  if busy then upd {! need_query_callback := true } else hf_notify_current_calls.

(** ** Events common to Connected and AudioOn *)

Definition set_codec (v : Z) : MH unit :=
  upd {! codec := if (v =? HFP_CODEC_MSBC)%Z then HFP_CODEC_MSBC else HFP_CODEC_CVSD }.

Definition media_volume_changed (d : hfp_hf_data_t) : MH bool :=
  upd {! media_volume := s32 d.(valueint2) };;;
  cnt <- field set_volume_cnt;;
  if (cnt =? 0)%Z then mret_ false
  else upd {! set_volume_cnt := (cnt - 1)%Z };;; mret_ true.

(** The result of a dial command: the oldest pending one is taken. *)
Definition cmd_result (code result : Z) : MH unit :=
  c <- pending_action_get;;
  match c with
  | None => mret_ tt
  | Some c =>
      when (c.(cmd_code) =? code)%Z (
        if (code =? HFP_ATCMD_CODE_ATD)%Z then
          when (negb (result =? HFP_ATCMD_RESULT_OK)%Z) (handle_dailing_fail (Some c.(cmd_number)))
        else if (code =? HFP_ATCMD_CODE_BLDN)%Z then
          when (negb (result =? HFP_ATCMD_RESULT_OK)%Z) (handle_dailing_fail None)
        else mret_ tt)
  end.

Definition default_process_event (event : hfp_hf_event_t) (d : hfp_hf_data_t) : MH bool :=
  a <- field addr;;
  let done_ (m : MH unit) : MH bool := m;;; mret_ true in
  let command (o : out) : MH bool := ask o;;; mret_ true in
  match event with
  | HF_ACCEPT_CALL => done_ (accept_call (u8 d.(valueint1)))
  | HF_REJECT_CALL => done_ reject_call
  | HF_HOLD_CALL => done_ hold_call
  | HF_TERMINATE_CALL => done_ hangup_call
  | HF_CONTROL_CALL =>
      let chld := u32 d.(valueint1) in
      if (4 <? chld)%Z then mret_ false else command (bt_sal_hfp_hf_call_control a chld)
  | HF_QUERY_CURRENT_CALLS => command (bt_sal_hfp_hf_get_current_calls a)
  | HF_QUERY_CURRENT_CALLS_WITH_CALLBACK => done_ query_current_calls_with_callback
  | HF_SEND_AT_COMMAND =>
      match d.(string1) with
      | Some s => command (bt_sal_hfp_hf_send_at_cmd a s)
      | None => emit null_string;;; mret_ true
      end
  | HF_UPDATE_BATTERY_LEVEL => command (bt_sal_hfp_hf_send_battery_level a (u8 d.(valueint1)))
  | HF_SEND_DTMF => command (bt_sal_hfp_hf_send_dtmf a (u8 d.(valueint1)))
  | HF_GET_SUBSCRIBER_NUMBER => command (bt_sal_hfp_hf_get_subscriber_number a)
  | HF_STACK_EVENT_VR_STATE_CHANGED =>
      let active := negb (u32 d.(valueint1) =? HFP_HF_VR_STATE_STOPPED)%Z in
      upd {! recognition_active := active };;;
      emit (hf_service_notify_vr_state_changed a active);;; mret_ true
  | HF_STACK_EVENT_CALL | HF_STACK_EVENT_CALLSETUP | HF_STACK_EVENT_CALLHELD =>
      update_call_status event (u32 d.(valueint1));;;
      ok <- ask (bt_sal_hfp_hf_get_current_calls a);;
      when ok (flag_set PENDING_CURRENT_CALLS_QUERY);;; mret_ true
  | HF_STACK_EVENT_CLIP =>
      emit (hf_service_notify_clip_received a d.(string1) d.(string2));;;
      set_current_call_name d.(string1) d.(string2);;; mret_ true
  | HF_STACK_EVENT_CURRENT_CALLS =>
      let index := s32 d.(valueint1) in
      if (index =? 0)%Z then query_current_calls_final;;; mret_ true
      else
        c <- hf_call_new index d.(valueint2) d.(valueint3) d.(valueint4) d.(string1);;
        update_current_calls c;;; mret_ true
  | HF_STACK_EVENT_VOLUME_CHANGED =>
      let type := u32 d.(valueint1) in
      let hf_vol := u8 d.(valueint2) in
      handle_hf_set_voice_call_volume type hf_vol;;;
      emit (hf_service_notify_volume_changed a type hf_vol);;; mret_ true
  | HF_MEDIA_VOLUME_CHANGED => media_volume_changed d;;; mret_ true
  | HF_STACK_EVENT_CMD_RESPONSE => emit (hf_service_notify_cmd_complete a d.(string1));;; mret_ true
  | HF_STACK_EVENT_CMD_RESULT => cmd_result (u32 d.(valueint1)) d.(valueint2);;; mret_ true
  | HF_STACK_EVENT_RING_INDICATION =>
      when (negb (s32 d.(valueint1) =? 0)%Z)
        (emit (hf_service_notify_ring_indication a (d.(valueint2) =? HFP_IN_BAND_RINGTONE_PROVIDED)%Z));;;
      mret_ true
  | HF_STACK_EVENT_CODEC_CHANGED => set_codec d.(valueint1);;; mret_ true
  | HF_STACK_EVENT_CNUM => emit (hf_service_notify_subscriber_number a d.(string1) d.(valueint2));;; mret_ true
  | _ => mret_ true
  end.

(** ** Entering and leaving Connected and AudioOn *)

Definition connected_enter : MH unit :=
  a <- field addr;;
  emit (bt_pm_conn_open a);;;
  when cfg.(connection_manager) (emit (bt_cm_connected a));;;
  q <- field need_query;;
  when q (emit (bt_sal_hfp_hf_get_current_calls a);;; upd {! need_query := false });;;
  prev <- gets hsm_get_previous_state;;
  when (negb (bool_decide (prev = Some audio_on_state))) (
    match e.(voice_call_volume) with
    | Some v =>
        upd {! media_volume := v };;;
        upd {! spk_volume := bt_media_volume_media_to_hfp v };;;
        emit (bt_sal_hfp_hf_set_volume a HFP_VOLUME_TYPE_SPK (bt_media_volume_media_to_hfp v))
    | None => mret_ tt
    end;;;
    emit bt_media_listen_voice_call_volume_change;;;
    upd {! volume_listener := e.(new_listener) };;;
    upd {! retry_cnt := 0%Z };;;
    emit (hf_service_notify_connection_state_changed a PROFILE_STATE_CONNECTED)).

Definition connected_exit : MH unit := mret_ tt.

Definition audio_on_enter : MH unit :=
  a <- field addr;;
  emit (bt_pm_sco_open a);;;
  ok <- check_sco_allowed;;
  (if ok then
     c <- field codec;;
     emit (bt_media_set_hfp_samplerate (if (c =? HFP_CODEC_MSBC)%Z then 16000 else 8000)%Z);;;
     emit bt_media_set_sco_available
   else try_disconnect_audio);;;
  emit (hf_service_notify_audio_state_changed a HFP_AUDIO_STATE_CONNECTED).

(** A running offload timer is cancelled and forgotten; whether there was one. *)
Definition stop_offload_timer : MH bool :=
  t <- field offload_timer;;
  match t with
  | Some _ => emit (service_loop_cancel_timer t);;; upd {! offload_timer := None };;; mret_ true
  | None => mret_ false
  end.

(** The offload is stopped; [audio_on_exit] dispatches this very event while
    AudioOn is still current ([audio_on_stops_offload]). *)
Definition offload_stop_req : MH unit :=
  running <- stop_offload_timer;;
  when running (send_control_event AUDIO_CTRL_EVT_START_FAIL);;;
  ok <- hf_offload_send_cmd false;;
  if negb ok then send_control_event AUDIO_CTRL_EVT_STOPPED
  else flag_set PENDING_OFFLOAD_STOP.

Definition audio_on_exit : MH unit :=
  a <- field addr;;
  emit (bt_pm_sco_close a);;;
  emit (bt_pm_idle a);;;
  emit bt_media_set_sco_unavailable;;;
  off <- field offloading;;
  when off offload_stop_req;;;
  flag_clear PENDING_AUDIO_DISCONNECT;;;
  emit (hf_service_notify_audio_state_changed a HFP_AUDIO_STATE_DISCONNECTED).

#[local] Instance hf_states : StateTable state hf_data out := {
  Hsm.state_name := name_of;
  Hsm.state_value := value_of;
  Hsm.enter s :=
    match s with
    | disconnected_state => disconnected_enter
    | connecting_state => connecting_enter
    | connected_state => connected_enter
    | audio_on_state => audio_on_enter
    end;
  Hsm.exit s :=
    match s with
    | disconnected_state => disconnected_exit
    | connecting_state => connecting_exit
    | connected_state => connected_exit
    | audio_on_state => audio_on_exit
    end;
}.

(** ** process_event *)

(** The offload requests where there is no audio. *)
Definition no_audio_offload (event : hfp_hf_event_t) : MH unit :=
  match event with
  | HF_OFFLOAD_START_REQ => send_control_event AUDIO_CTRL_EVT_START_FAIL
  | HF_OFFLOAD_STOP_REQ | HF_OFFLOAD_STOP_EVT => send_control_event AUDIO_CTRL_EVT_STOPPED
  | _ => mret_ tt
  end.

Definition disconnected_process_event (event : hfp_hf_event_t) (d : hfp_hf_data_t) : MH bool :=
  a <- field addr;;
  match event with
  | HF_CONNECT =>
      allowed <- check_hfp_allowed;;
      if negb allowed then mret_ tt
      else
        ok <- ask (bt_sal_hfp_hf_connect a);;
        if negb ok then emit (hf_service_notify_connection_state_changed a PROFILE_STATE_DISCONNECTED)
        else hsm_transition_to connecting_state
  | HF_STACK_EVENT_CONNECTION_STATE_CHANGED =>
      let st := u32 d.(valueint1) in
      if (st =? PROFILE_STATE_CONNECTED)%Z then
        hsm_transition_to connected_state;;; update_remote_features d.(valueint3)
      else if (st =? PROFILE_STATE_CONNECTING)%Z then
        allowed <- check_hfp_allowed;;
        if negb allowed then emit (bt_sal_hfp_hf_disconnect a)
        else hsm_transition_to connecting_state
      else mret_ tt
  | _ => no_audio_offload event
  end;;;
  mret_ true.

(** A connection lost to a collision is tried again, a random time later. *)
Definition schedule_retry (reason : Z) : MH unit :=
  cnt <- field retry_cnt;;
  t <- field retry_timer;;
  when ((reason =? PROFILE_REASON_COLLISION) && (cnt <? HFP_HF_RETRY_MAX))%Z%bool (
    when (bool_decide (t = None)) (
      emit (service_loop_timer (100 + e.(rand) mod 800) e.(new_timer));;;
      upd {! retry_timer := e.(new_timer) };;;
      upd {! retry_cnt := u8 (cnt + 1) })).

Definition connecting_process_event (event : hfp_hf_event_t) (d : hfp_hf_data_t) : MH bool :=
  a <- field addr;;
  match event with
  | HF_STACK_EVENT_CONNECTION_STATE_CHANGED =>
      let st := u32 d.(valueint1) in
      if (st =? PROFILE_STATE_DISCONNECTED)%Z then
        schedule_retry d.(valueint2);;;
        hsm_transition_to disconnected_state
      else if (st =? PROFILE_STATE_CONNECTED)%Z then
        hsm_transition_to connected_state;;; update_remote_features d.(valueint3)
      else mret_ tt
  | HF_STACK_EVENT_CODEC_CHANGED => set_codec d.(valueint1)
  | HF_STACK_EVENT_CALL | HF_STACK_EVENT_CALLSETUP | HF_STACK_EVENT_CALLHELD =>
      update_call_status event (u32 d.(valueint1));;; upd {! need_query := true }
  | HF_STACK_EVENT_CLIP => upd {! need_query := true }
  | HF_TIMEOUT => emit (bt_sal_hfp_hf_disconnect a);;; hsm_transition_to disconnected_state
  | _ => no_audio_offload event
  end;;;
  mret_ true.

(** A dial command: when it is sent its result is awaited. *)
Definition dial (o : out) (code : Z) (param failed : option string) : MH unit :=
  ok <- ask o;;
  if negb ok then handle_dailing_fail failed
  else update_dialing_time;;; pending_action_create code param.

Definition connected_process_event (event : hfp_hf_event_t) (d : hfp_hf_data_t) : MH bool :=
  a <- field addr;;
  let done_ (m : MH unit) : MH bool := m;;; mret_ true in
  match event with
  | HF_DISCONNECT => done_ (ask (bt_sal_hfp_hf_disconnect a);;; hsm_transition_to disconnected_state)
  | HF_CONNECT_AUDIO => done_ (
      ok <- ask (bt_sal_hfp_hf_connect_audio a);;
      when (negb ok) (emit (hf_service_notify_audio_state_changed a HFP_AUDIO_STATE_DISCONNECTED)))
  | HF_DISCONNECT_AUDIO => done_ try_disconnect_audio
  | HF_VOICE_RECOGNITION_START => done_ (
      active <- field recognition_active;;
      when (negb active) (emit (bt_sal_hfp_hf_start_voice_recognition a)))
  | HF_VOICE_RECOGNITION_STOP => done_ (
      active <- field recognition_active;;
      when active (emit (bt_sal_hfp_hf_stop_voice_recognition a)))
  | HF_DIAL_NUMBER => done_ (dial (bt_sal_hfp_hf_dial_number a d.(string1)) HFP_ATCMD_CODE_ATD d.(string1) d.(string1))
  | HF_DIAL_MEMORY => done_ (dial (bt_sal_hfp_hf_dial_memory a (s32 d.(valueint1))) HFP_ATCMD_CODE_ATD None None)
  | HF_DIAL_LAST => done_ (dial (bt_sal_hfp_hf_dial_number a None) HFP_ATCMD_CODE_BLDN None None)
  | HF_STACK_EVENT_AUDIO_REQ => done_ (emit (bt_sal_sco_connection_reply a true))
  | HF_STACK_EVENT_CONNECTION_STATE_CHANGED => done_ (
      when (u32 d.(valueint1) =? PROFILE_STATE_DISCONNECTED)%Z (hsm_transition_to disconnected_state))
  | HF_STACK_EVENT_AUDIO_STATE_CHANGED => done_ (
      let st := u32 d.(valueint1) in
      if (st =? HFP_AUDIO_STATE_CONNECTED)%Z then
        upd {! sco_conn_handle := u16 d.(valueint2) };;; hsm_transition_to audio_on_state
      else when (st =? HFP_AUDIO_STATE_DISCONNECTED)%Z (flag_clear PENDING_AUDIO_DISCONNECT))
  | HF_OFFLOAD_START_REQ | HF_OFFLOAD_STOP_REQ | HF_OFFLOAD_STOP_EVT => done_ (no_audio_offload event)
  | _ => default_process_event event d
  end.

Definition start_offload_timer : MH unit :=
  emit (service_loop_timer HF_OFFLOAD_TIMEOUT e.(new_timer));;;
  upd {! offload_timer := e.(new_timer) }.

(** [HF_SET_VOLUME] in AudioOn. *)
Definition set_volume (d : hfp_hf_data_t) : MH unit :=
  a <- field addr;;
  let type := u32 d.(valueint1) in
  let hf_vol := bt_media_volume_media_to_hfp (s32 d.(valueint2)) in
  mic <- field mic_volume;;
  spk <- field spk_volume;;
  if (type =? HFP_VOLUME_TYPE_MIC)%Z && negb (hf_vol =? mic)%Z then
    ok <- ask (bt_sal_hfp_hf_set_volume a type hf_vol);;
    when ok (upd {! mic_volume := hf_vol })
  else when ((type =? HFP_VOLUME_TYPE_SPK)%Z && negb (hf_vol =? spk)%Z) (
    ok <- ask (bt_sal_hfp_hf_set_volume a type hf_vol);;
    when ok (upd {! spk_volume := hf_vol })).

Definition audio_on_process_event (event : hfp_hf_event_t) (d : hfp_hf_data_t) : MH bool :=
  a <- field addr;;
  let done_ (m : MH unit) : MH bool := m;;; mret_ true in
  match event with
  | HF_DISCONNECT => done_ (ask (bt_sal_hfp_hf_disconnect a);;; hsm_transition_to disconnected_state)
  | HF_DISCONNECT_AUDIO => done_ try_disconnect_audio
  | HF_VOICE_RECOGNITION_STOP => done_ (
      active <- field recognition_active;;
      when active (emit (bt_sal_hfp_hf_stop_voice_recognition a)))
  | HF_MEDIA_VOLUME_CHANGED => done_ (
      counted <- media_volume_changed d;;
      when (negb counted) (set_volume d))
  | HF_SET_VOLUME => done_ (set_volume d)
  | HF_STACK_EVENT_CONNECTION_STATE_CHANGED => done_ (
      when (u32 d.(valueint1) =? PROFILE_STATE_DISCONNECTED)%Z (hsm_transition_to disconnected_state))
  | HF_STACK_EVENT_AUDIO_STATE_CHANGED => done_ (
      when (u32 d.(valueint1) =? HFP_AUDIO_STATE_DISCONNECTED)%Z (hsm_transition_to connected_state))
  | HF_OFFLOAD_START_REQ => done_ (
      ok <- hf_offload_send_cmd true;;
      if negb ok then send_control_event AUDIO_CTRL_EVT_START_FAIL
      else
        flag_set PENDING_OFFLOAD_START;;; start_offload_timer)
  | HF_OFFLOAD_START_EVT => done_ (
      stop_offload_timer;;;
      if negb (hci_succeeded d.(hci_event)) then
        emit BT_DFX_OFFLOAD_HCI_UNSPECIFIED_ERROR;;;
        send_control_event AUDIO_CTRL_EVT_START_FAIL;;;
        try_disconnect_audio
      else send_control_event AUDIO_CTRL_EVT_STARTED)
  | HF_OFFLOAD_TIMEOUT_EVT => done_ (
      flag_clear PENDING_OFFLOAD_START;;;
      upd {! offload_timer := None };;;
      send_control_event AUDIO_CTRL_EVT_START_FAIL;;;
      try_disconnect_audio)
  | HF_OFFLOAD_STOP_REQ => done_ offload_stop_req
  | HF_OFFLOAD_STOP_EVT => done_ (send_control_event AUDIO_CTRL_EVT_STOPPED)
  | _ => default_process_event event d
  end.

#[local] Instance hf_events : EventTable state hf_data out hfp_hf_msg_t := {
  Hsm.process_event s m :=
    match s with
    | disconnected_state => disconnected_process_event m.(event) m.(msg_data)
    | connecting_state => connecting_process_event m.(event) m.(msg_data)
    | connected_state => connected_process_event m.(event) m.(msg_data)
    | audio_on_state => audio_on_process_event m.(event) m.(msg_data)
    end;
}.

(** ** The machine's interface *)

Definition hf_state_machine_dispatch (m : hfp_hf_msg_t) : MH unit := hsm_dispatch_event m;;; mret_ tt.

Definition zero_calls : hfp_hf_call_status_t := mk_call_status 0 0 0 0 0 0 0 (mk_cache 0 0 0) 0.

Definition hf_state_machine_new (a : bt_address_t) : hf_state_machine_t :=
  exec (hsm_ctor disconnected_state)
    (mk_sm None None None
       (mk_data a 0 0 None None None false false CONNECTION_POLICY_UNKNOWN 0 0 INVALID_MEDIA_VOLUME None 0
          HFP_CODEC_CVSD 0 0 [] [] [] zero_calls false false)).

(** The calls of [hf_state_machine_destory]; then the memory is freed. *)
Definition hf_state_machine_destory : MH unit :=
  d <- field id;;
  when (bool_decide (is_Some d.(connect_timer))) (emit (service_loop_cancel_timer d.(connect_timer)));;;
  when (bool_decide (is_Some d.(retry_timer))) (emit (service_loop_cancel_timer d.(retry_timer)));;;
  emits (free_calls d.(current_calls));;;
  emit (bt_media_remove_listener d.(volume_listener)).

Definition hf_state_machine_set_offloading (b : bool) : hf_state_machine_t -> hf_state_machine_t :=
  upd_data {! offloading := b }.
Definition hf_state_machine_set_policy (p : Z) : hf_state_machine_t -> hf_state_machine_t :=
  upd_data {! connection_policy := p }.
Definition hf_state_machine_set_sco_handle (h : Z) : hf_state_machine_t -> hf_state_machine_t :=
  upd_data {! sco_conn_handle := h }.

(** ** Timers, the controller and the media system *)

Definition connect_timeout : MH unit :=
  a <- field addr;;
  emit BT_DFX_HFP_HF_CONN_TIMEOUT;;;
  emit (hfp_hf_send_message (hfp_hf_msg_new HF_TIMEOUT a)).

Definition hf_retry_callback : MH unit :=
  a <- field addr;;
  st <- gets hf_state_machine_get_state;;
  when (st =? HFP_HF_STATE_DISCONNECTED)%Z (
    ok <- ask (bt_sal_hfp_hf_connect a);;
    if ok then hsm_transition_to connecting_state else emit BT_DFX_HFP_HF_CONN_RETRY_FAIL);;;
  upd {! retry_timer := None }.

Definition hfp_hf_offload_timeout_callback : MH unit :=
  a <- field addr;;
  hf_state_machine_dispatch (hfp_hf_msg_new HF_OFFLOAD_TIMEOUT_EVT a);;;
  emit BT_DFX_OFFLOAD_START_TIMEOUT.

Definition bt_hci_event_callback (h : bt_hci_event_t) : MH unit :=
  a <- field addr;;
  start <- flag_isset PENDING_OFFLOAD_START;;
  stop <- flag_isset PENDING_OFFLOAD_STOP;;
  if start then
    flag_clear PENDING_OFFLOAD_START;;;
    emit (hfp_hf_send_message (hfp_hf_msg_new_ext HF_OFFLOAD_START_EVT a h))
  else if stop then
    flag_clear PENDING_OFFLOAD_STOP;;;
    emit (hfp_hf_send_message (hfp_hf_msg_new_ext HF_OFFLOAD_STOP_EVT a h))
  else mret_ tt.

Definition hfp_hf_voice_volume_change_callback (volume : Z) : MH unit :=
  a <- field addr;;
  emit (hfp_hf_send_message (mk_msg HF_MEDIA_VOLUME_CHANGED
    (mk_msg_data a HFP_VOLUME_TYPE_SPK (u32 volume) 0 0 None None (mk_hci 0 [])))).

End Handlers.
End Machine.

(** ** Inputs of a machine *)

Inductive input :=
| in_msg (m : hfp_hf_msg_t)
| in_connect_timeout | in_retry | in_offload_timeout
| in_hci (h : bt_hci_event_t)
| in_volume (v : Z)
| in_set_offloading (b : bool)
| in_set_policy (p : Z).

Definition handle_input (cfg : config) (e : env) (i : input) : MH unit :=
  match i with
  | in_msg m => hf_state_machine_dispatch cfg e m
  | in_connect_timeout => connect_timeout
  | in_retry => hf_retry_callback cfg e
  | in_offload_timeout => hfp_hf_offload_timeout_callback cfg e
  | in_hci h => bt_hci_event_callback h
  | in_volume v => hfp_hf_voice_volume_change_callback v
  | in_set_offloading b => modify (hf_state_machine_set_offloading b)
  | in_set_policy p => modify (hf_state_machine_set_policy p)
  end.

Fixpoint run_inputs (cfg : config) (l : list (env * input)) : MH unit :=
  match l with
  | [] => mret_ tt
  | (e, i) :: l => handle_input cfg e i;;; run_inputs cfg l
  end.
End HfpHf.
