(* ===== verification/HfpHfSpec.v ===== *)
(** * The hands-free machine: what holds

    The machine of HfpHf.v seen from outside (what its listeners are told, the
    timers it starts and cancels) and its fields in each state, for every
    sequence of inputs; and the list of calls, which follows the phone's. *)

From S2P Require Import Prelude CString Hsm Bytes BtAddr Hci MediaSystem HfpHf.
From stdpp Require Import strings.
From coqutil Require Import Datatypes.RecordSetters.
Import UpdaterNotations.

Local Open Scope bt_scope.

Module HfpHfSpec.
Import Hsm BtAddr Hci MediaSystem HfpHf.

(** ** What the outside sees *)

Definition edge (c c' : state) : bool :=
  match c, c' with
  | disconnected_state, (connecting_state | connected_state)
  | connecting_state, (disconnected_state | connected_state)
  | connected_state, (disconnected_state | audio_on_state)
  | audio_on_state, (disconnected_state | connected_state) => true
  | _, _ => false
  end.

Definition conn_state (c : state) : Z :=
  match c with
  | disconnected_state => PROFILE_STATE_DISCONNECTED
  | connecting_state => PROFILE_STATE_CONNECTING
  | connected_state | audio_on_state => PROFILE_STATE_CONNECTED
  end.

Definition audio_state (c : state) : Z :=
  match c with audio_on_state => HFP_AUDIO_STATE_CONNECTED | _ => HFP_AUDIO_STATE_DISCONNECTED end.

(** The connection state and the audio state told with a call. *)
Definition conn_report (o : out) : option Z :=
  match o with hf_service_notify_connection_state_changed _ s => Some s | _ => None end.
Definition audio_report (o : out) : option Z :=
  match o with hf_service_notify_audio_state_changed _ s => Some s | _ => None end.

(** What a listener who believes [s] believes after the calls [os]. *)
Definition listener (report : out -> option Z) (s : Z) (os : list out) : Z :=
  fold_left (fun s o => default s (report o)) os s.

(** The starts of timer [h] less its cancellations. *)
Definition b2z (b : bool) : Z := if b then 1 else 0.
Definition timer_effect (h : timer_h) (o : out) : Z :=
  match o with
  | service_loop_timer _ t => b2z (bool_decide (t = Some h))
  | service_loop_cancel_timer t => - b2z (bool_decide (t = Some h))
  | _ => 0
  end.
Definition net_timers (h : timer_h) (os : list out) : Z := foldr (fun o n => (timer_effect h o + n)%Z) 0%Z os.

Definition holds (h : timer_h) (d : hf_data) : Z :=
  b2z (bool_decide (d.(connect_timer) = Some h)) + b2z (bool_decide (d.(retry_timer) = Some h))
  + b2z (bool_decide (d.(offload_timer) = Some h)).

(** ** The fields in each state *)

(** A number that fits its field. *)
Definition short_number (c : hfp_current_call_t) : Prop := snprintf_s HFP_PHONENUM_DIGITS_MAX c.(number) = c.(number).

Definition no_calls (d : hf_data) : Prop :=
  d.(current_calls) = [] /\ d.(update_calls) = [] /\ d.(pending_actions) = [] /\
  d.(recognition_active) = false /\ d.(volume_listener) = None.

Definition data_inv (c : state) (d : hf_data) : Prop :=
  (0 <= d.(retry_cnt) <= HFP_HF_RETRY_MAX)%Z /\
  (0 <= d.(set_volume_cnt) <= UINT32_MAX)%Z /\
  NoDup (index <$> d.(current_calls)) /\ Forall short_number d.(update_calls) /\
  (c <> connecting_state -> d.(connect_timer) = None) /\
  (c <> audio_on_state -> flag_isset_v d.(pending) PENDING_AUDIO_DISCONNECT = false) /\
  match c with
  | disconnected_state => no_calls d /\ d.(need_query) = false
  | connecting_state => no_calls d
  | _ => True
  end.

(** What one step from state [c] does. *)
Record step_spec (c c' : state) (sm sm' : hf_state_machine_t) (os : list out) : Prop := {
  ss_current : sm'.(current_state) = Some c';
  ss_edge : (c' = c /\ sm'.(previous_state) = sm.(previous_state)) \/
            (edge c c' = true /\ sm'.(previous_state) = Some c);
  ss_addr : sm'.(data).(addr) = sm.(data).(addr);
  ss_conn : listener conn_report (conn_state c) os = conn_state c';
  ss_audio : listener audio_report (audio_state c) os = audio_state c';
  ss_timers : forall h, (holds h sm'.(data) - holds h sm.(data) <= net_timers h os)%Z;
  ss_inv : data_inv c' sm'.(data);
}.

(** [spec c m Q]: code run in state [c] does one step, to a state that [Q]
    allows together with the value returned. *)
Definition spec {A} (c : state) (m : MH A) (Q : A -> state -> Prop) : Prop :=
  forall sm, sm.(current_state) = Some c -> data_inv c sm.(data) ->
  exists c', Q (eval m sm) c' /\ step_spec c c' sm (exec m sm) (outs m sm).

(** Code that stays. *)
Abbreviation quiet c m := (spec c m (fun _ c' => c' = c)).

Lemma hf_listener_app r s a b : listener r s (a ++ b) = listener r (listener r s a) b.
Proof. apply fold_left_app. Qed.

Lemma listener_cons r s o os : listener r s (o :: os) = listener r (default s (r o)) os.
Proof. done. Qed.

Lemma net_timers_app h a b : net_timers h (a ++ b) = (net_timers h a + net_timers h b)%Z.
Proof. induction a as [|o a IH]; cbn; [done|]. unfold net_timers in *. lia. Qed.

Lemma net_timers_cons h o os : net_timers h (o :: os) = (timer_effect h o + net_timers h os)%Z.
Proof. done. Qed.

Lemma step_quiet_l c c' sm sm1 sm2 o1 o2 :
  step_spec c c sm sm1 o1 -> step_spec c c' sm1 sm2 o2 -> step_spec c c' sm sm2 (o1 ++ o2).
Proof.
  intros [A1 A2 A3 A4 A5 A6 A7] [B1 B2 B3 B4 B5 B6 B7]. split; try done.
  - assert (previous_state sm1 = previous_state sm) as Hp by (destruct A2 as [[_ ?]|[He _]]; [done|by destruct c]).
    by rewrite <- Hp.
  - congruence.
  - by rewrite hf_listener_app, A4.
  - by rewrite hf_listener_app, A5.
  - intros h. rewrite net_timers_app. specialize (A6 h). specialize (B6 h). lia.
Qed.

Lemma step_quiet_r c c' sm sm1 sm2 o1 o2 :
  step_spec c c' sm sm1 o1 -> step_spec c' c' sm1 sm2 o2 -> step_spec c c' sm sm2 (o1 ++ o2).
Proof.
  intros [A1 A2 A3 A4 A5 A6 A7] [B1 B2 B3 B4 B5 B6 B7]. split; try done.
  - assert (previous_state sm2 = previous_state sm1) as -> by (destruct B2 as [[_ ?]|[He _]]; [done|by destruct c']).
    done.
  - congruence.
  - by rewrite hf_listener_app, A4.
  - by rewrite hf_listener_app, A5.
  - intros h. rewrite net_timers_app. specialize (A6 h). specialize (B6 h). lia.
Qed.

Lemma step_refl c sm : sm.(current_state) = Some c -> data_inv c sm.(data) -> step_spec c c sm sm [].
Proof. intros Hc Hi. split; try done; [by left|]. intros h. unfold net_timers. cbn. lia. Qed.

(** *** Rules *)

Lemma spec_ret {A} c (a : A) (Q : A -> state -> Prop) : Q a c -> spec c (mret_ a) Q.
Proof. intros HQ sm Hc Hi. exists c. split; [done|]. by apply step_refl. Qed.

Lemma spec_bind_val {A B} c (m : MH A) (f : A -> MH B) (P : A -> Prop) Q :
  spec c m (fun a c' => c' = c /\ P a) -> (forall a, P a -> spec c (f a) Q) -> spec c (mbind_ m f) Q.
Proof.
  intros Hm Hf sm Hc Hi. destruct (Hm sm Hc Hi) as (c1 & [-> HP] & H1).
  destruct (Hf (eval m sm) HP (exec m sm) (ss_current _ _ _ _ _ H1) (ss_inv _ _ _ _ _ H1)) as (c2 & HQ & H2).
  exists c2. autorewrite with bt. split; [done|]. by eapply step_quiet_l.
Qed.

Lemma spec_bind {A B} c (m : MH A) (f : A -> MH B) Q :
  quiet c m -> (forall a, spec c (f a) Q) -> spec c (mbind_ m f) Q.
Proof.
  intros Hm Hf. apply (spec_bind_val c m f (fun _ => True)); [|auto].
  intros sm Hc Hi. destruct (Hm sm Hc Hi) as (c1 & -> & H). eauto.
Qed.

(** A transition first, then code that stays. *)
Lemma spec_then {A B} c (m : MH A) (f : A -> MH B) Q Q' :
  spec c m Q -> (forall a c1, Q a c1 -> spec c1 (f a) (fun b c2 => c2 = c1 /\ Q' b c2)) -> spec c (mbind_ m f) Q'.
Proof.
  intros Hm Hf sm Hc Hi. destruct (Hm sm Hc Hi) as (c1 & HQ & H1).
  destruct (Hf _ _ HQ (exec m sm) (ss_current _ _ _ _ _ H1) (ss_inv _ _ _ _ _ H1)) as (c2 & [-> HQ'] & H2).
  exists c1. autorewrite with bt. split; [done|]. by eapply step_quiet_r.
Qed.

Lemma spec_mono {A} c (m : MH A) (Q Q' : A -> state -> Prop) :
  spec c m Q -> (forall a c', Q a c' -> Q' a c') -> spec c m Q'.
Proof. intros Hm HQ sm Hc Hi. destruct (Hm sm Hc Hi) as (c1 & H1 & H2). eauto. Qed.

(** Reading. *)
Lemma spec_field_inv {A B} c (g : hf_data -> A) (P : A -> Prop) (f : A -> MH B) Q :
  (forall d, data_inv c d -> P (g d)) -> (forall a, P a -> spec c (f a) Q) -> spec c (mbind_ (field g) f) Q.
Proof.
  intros HP Hf sm Hc Hi. destruct (Hf (g sm.(data)) (HP _ Hi) sm Hc Hi) as (c1 & H1 & H2). exists c1.
  by autorewrite with bt.
Qed.

Lemma spec_field {A B} c (g : hf_data -> A) (f : A -> MH B) Q :
  (forall a, spec c (f a) Q) -> spec c (mbind_ (field g) f) Q.
Proof. intros Hf. by apply (spec_field_inv c g (fun _ => True)). Qed.

Lemma spec_state {B} c (f : Z -> MH B) Q :
  spec c (f (value_of c)) Q -> spec c (mbind_ (gets hf_state_machine_get_state) f) Q.
Proof.
  intros Hf sm Hc Hi. destruct (Hf sm Hc Hi) as (c1 & H1 & H2). exists c1. autorewrite with bt.
  change (eval (gets hf_state_machine_get_state) sm) with (hf_state_machine_get_state sm).
  change (exec (gets hf_state_machine_get_state) sm) with sm.
  replace (hf_state_machine_get_state sm) with (value_of c); [done|]. unfold hf_state_machine_get_state. by rewrite Hc.
Qed.

(** A call that tells nothing new and touches no timer. *)
Definition quiet_out (c : state) (o : out) : Prop :=
  match o with
  | hf_service_notify_connection_state_changed _ s => s = conn_state c
  | hf_service_notify_audio_state_changed _ s => s = audio_state c
  | service_loop_timer _ (Some _) | service_loop_cancel_timer (Some _) => False
  | _ => True
  end.

Lemma timer_effect_quiet c h o : quiet_out c o -> timer_effect h o = 0%Z.
Proof. destruct o; cbn; try done; by case_match. Qed.

Lemma net_timers_quiet c h os : Forall (quiet_out c) os -> net_timers h os = 0%Z.
Proof.
  induction 1 as [|o os Ho _ IH]; [done|]. unfold net_timers in *. cbn. by rewrite IH, (timer_effect_quiet c).
Qed.

Lemma spec_emits c os : Forall (quiet_out c) os -> quiet c (emits os).
Proof.
  intros Hos sm Hc Hi. exists c. split; [done|]. split; try done; [by left|..].
  - cbn. induction Hos as [|o os Ho _ IH]; [done|]. cbn. destruct o; cbn in *; subst; done.
  - cbn. induction Hos as [|o os Ho _ IH]; [done|]. cbn. destruct o; cbn in *; subst; done.
  - intros h. change (outs (emits os) sm) with os. rewrite (net_timers_quiet c) by done. change (exec (emits os) sm) with sm. lia.
Qed.

Lemma spec_emit c o : quiet_out c o -> quiet c (emit o).
Proof. intros Ho. by apply (spec_emits c [o]), Forall_singleton. Qed.

(** A write that keeps what the invariant and the timers need. *)
Lemma spec_upd c f :
  (forall d, data_inv c d -> data_inv c (f d) /\ (f d).(addr) = d.(addr) /\ (forall h, holds h (f d) <= holds h d)%Z) ->
  quiet c (upd f).
Proof.
  intros Hf sm Hc Hi. destruct (Hf sm.(data) Hi) as (H1 & H2 & H3). exists c. split; [done|].
  split; cbn; try done; [by left|]. intros h. specialize (H3 h). unfold net_timers. cbn. lia.
Qed.

Lemma spec_ask c e o (Q : bool -> state -> Prop) : quiet_out c o -> (forall b, Q b c) -> spec c (ask e o) Q.
Proof. intros Ho HQ. apply spec_bind; [by apply spec_emit|]. intros []. by apply spec_ret. Qed.

Lemma spec_when c b m : (b = true -> quiet c m) -> quiet c (when b m).
Proof. destruct b; [auto|]. intros _. by apply spec_ret. Qed.

Create HintDb hf.

Ltac keep := let d := fresh in let H := fresh in
  intros d H; destruct d; unfold data_inv, no_calls, holds in *; cbn in *; split_and!; try (intros; lia); naive_solver.
Ltac spec_step :=
  lazymatch goal with
  | |- spec _ (mret_ _) _ => apply spec_ret; by try split
  | |- spec _ (mbind_ (field _) _) _ => apply spec_field; intros ?
  | |- spec _ (mbind_ (gets hf_state_machine_get_state) _) _ => apply spec_state; cbn
  | |- spec _ (mbind_ _ _) _ => apply spec_bind; [|intros ?]
  | |- spec _ (when _ _) _ => apply spec_when; intros ?
  | |- spec _ (emit _) _ => apply spec_emit; cbn; done
  | |- spec _ (upd _) _ => first [solve [auto with hf nocore] | apply spec_upd; solve [keep]]
  | |- spec _ (ask _ _) _ => apply spec_ask; [done|intros ?; by try split]
  | |- spec _ (match _ with _ => _ end) _ => case_match
  | |- spec _ _ _ => solve [auto with hf nocore]
  end.
Ltac spec_auto := repeat spec_step.

Lemma flag_set_quiet c f : f <> PENDING_AUDIO_DISCONNECT -> Z.land f PENDING_AUDIO_DISCONNECT = 0%Z -> quiet c (flag_set f).
Proof.
  intros Hf Hl. apply spec_upd. intros d H. destruct d. unfold data_inv, holds, flag_isset_v, flag_set_v in *; cbn in *.
  rewrite Z.land_lor_distr_l, Hl, Z.lor_0_r. naive_solver lia.
Qed.

Lemma flag_clear_quiet c f : quiet c (flag_clear f).
Proof.
  apply spec_upd. intros d H. destruct d. unfold data_inv, holds, flag_isset_v, flag_clear_v in *; cbn in *.
  destruct H as (? & ? & ? & ? & ? & Hp & ?). split_and!; try done; try (intros; lia).
  intros Hc. specialize (Hp Hc). apply negb_false_iff, Z.eqb_eq in Hp. apply negb_false_iff, Z.eqb_eq.
  rewrite <- Z.land_assoc, (Z.land_comm (Z.lnot f)), Z.land_assoc, Hp. done.
Qed.

Lemma audio_flag_quiet : quiet audio_on_state (flag_set PENDING_AUDIO_DISCONNECT).
Proof. apply spec_upd. keep. Qed.

Lemma try_disconnect_quiet e c : quiet c (try_disconnect_audio e).
Proof. unfold try_disconnect_audio, flag_isset. spec_auto. destruct c; try done. apply audio_flag_quiet. Qed.
#[local] Hint Resolve flag_clear_quiet try_disconnect_quiet : hf.

Lemma check_sco_quiet cfg e c : quiet c (check_sco_allowed cfg e).
Proof. unfold check_sco_allowed. spec_auto. Qed.
#[local] Hint Resolve check_sco_quiet : hf.

Lemma update_call_status_quiet cfg e c ev v : quiet c (update_call_status cfg e ev v).
Proof. unfold update_call_status, channel_type_verdict. spec_auto. Qed.
#[local] Hint Resolve update_call_status_quiet : hf.

Lemma fake_ciev_quiet c : quiet c hf_service_fake_ciev.
Proof. unfold hf_service_fake_ciev. spec_auto. Qed.

Lemma notify_calls_quiet c cs : quiet c (notify_calls cs).
Proof. unfold notify_calls. spec_auto. apply spec_emits, Forall_map, Forall_true. done. Qed.
#[local] Hint Resolve fake_ciev_quiet notify_calls_quiet : hf.

(** *** The list of calls *)

(** A reported call, with the name known from before. *)
Definition merged (old : option hfp_current_call_t) (u : hfp_current_call_t) : hfp_current_call_t :=
  mk_call u.(index) u.(dir) u.(call_state) u.(mpty) u.(number)
    match old with Some c => c.(name) | None => u.(name) end.

Lemma find_call_index i l c : find_call i l = Some c -> c.(index) = i.
Proof.
  induction l as [|x l IH]; cbn; [done|]. unfold call_index_cmp at 1. destruct (Z.eqb_spec (index x) i) as [Hi|_]; [|done].
  by intros [= <-].
Qed.

Lemma find_call_in i l c : find_call i l = Some c -> c ∈ l.
Proof.
  induction l as [|x l IH]; cbn; [done|]. destruct (call_index_cmp i x); [intros [= <-]; left|]. intros H. right. auto.
Qed.

Lemma find_call_none i l : find_call i l = None <-> i ∉ index <$> l.
Proof.
  induction l as [|x l IH]; cbn; [split; [intros _ H; inversion H|done]|]. unfold call_index_cmp at 1.
  rewrite elem_of_cons. destruct (Z.eqb_spec (index x) i) as [Hi|Hi]; [split; [done|intros []; by left]|].
  rewrite IH. naive_solver.
Qed.

Lemma find_call_app i l k : find_call i (l ++ k) = match find_call i l with Some c => Some c | None => find_call i k end.
Proof. induction l as [|x l IH]; cbn; [done|]. by destruct (call_index_cmp i x). Qed.

Lemma name_loop_index num nm l : index <$> (name_loop num nm l).1 = index <$> l.
Proof.
  induction l as [|c l IH]; cbn; [done|]. destruct (name_loop num nm l) as [l' told]; cbn in *.
  repeat case_bool_decide; cbn; congruence.
Qed.

Lemma call_changed_false u c :
  call_changed u c = false -> u.(index) = c.(index) -> c = merged (Some c) u.
Proof.
  unfold call_changed. intros H Hi. apply orb_false_iff in H as [[[H1 H2]%orb_false_iff H3]%orb_false_iff H4].
  apply negb_false_iff, Z.eqb_eq in H1, H2, H3. apply negb_false_iff, bool_decide_eq_true in H4.
  destruct c, u; unfold merged; cbn in *; congruence.
Qed.

Lemma call_changed_true u c : call_changed u c = true -> merged (Some c) u <> c.
Proof.
  unfold call_changed, merged. intros H Heq. destruct c, u; cbn in *. injection Heq as -> -> -> -> ->.
  rewrite !Z.eqb_refl, bool_decide_eq_true_2 in H by done. done.
Qed.

Lemma refresh_index ulist clist : sublist (index <$> (refresh_loop ulist clist).1) (index <$> clist).
Proof.
  induction clist as [|c clist IH]; cbn; [done|]. destruct (refresh_loop ulist clist) as [l told]; cbn in *.
  destruct (find_call (index c) ulist) as [u|]; [destruct (call_changed u c)|]; cbn; by constructor.
Qed.

Lemma refresh_find i ulist clist :
  Forall short_number ulist ->
  find_call i (refresh_loop ulist clist).1 =
  (c ← find_call i clist; u ← find_call i ulist; Some (merged (Some c) u)).
Proof.
  intros Hs. induction clist as [|c clist IH]; cbn; [done|]. destruct (refresh_loop ulist clist) as [l told]; cbn in *.
  unfold call_index_cmp at 1. destruct (Z.eqb_spec (index c) i) as [<-|Hne].
  - destruct (find_call (index c) ulist) as [u|] eqn:Hu; cbn.
    + pose proof (find_call_index _ _ _ Hu) as Hi. pose proof (find_call_in _ _ _ Hu) as Hin.
      rewrite list.Forall_forall in Hs. specialize (Hs u Hin). unfold short_number in Hs.
      destruct (call_changed u c) eqn:Hch; cbn; unfold call_index_cmp; cbn; rewrite Z.eqb_refl.
      * unfold merged. by rewrite Hs, Hi.
      * by rewrite <- (call_changed_false u c).
    + rewrite IH. by destruct (find_call (index c) clist).
  - assert (call_index_cmp i c = false) as Hf by (by apply Z.eqb_neq).
    destruct (find_call (index c) ulist) as [u|]; [destruct (call_changed u c)|]; cbn; unfold call_index_cmp; cbn;
      by rewrite ?(proj2 (Z.eqb_neq _ _) Hne).
Qed.

Lemma append_find i ulist clist :
  find_call i (append_loop ulist clist).1 =
  match find_call i clist with Some c => Some c | None => find_call i ulist end.
Proof.
  revert clist. induction ulist as [|u ulist IH]; intros clist; cbn; [by destruct (find_call i clist)|].
  unfold call_index_cmp.
  destruct (find_call (index u) clist) as [c|] eqn:Hc.
  - rewrite IH. destruct (find_call i clist) eqn:E; [done|]. destruct (Z.eqb_spec (index u) i) as [<-|]; [congruence|done].
  - specialize (IH (clist ++ [u])). destruct (append_loop ulist (clist ++ [u])) as [l told]; cbn in *. rewrite IH.
    rewrite find_call_app. destruct (find_call i clist); [done|]. cbn. unfold call_index_cmp.
    by destruct (index u =? i)%Z.
Qed.

Lemma append_nodup ulist clist : NoDup (index <$> clist) -> NoDup (index <$> (append_loop ulist clist).1).
Proof.
  revert clist. induction ulist as [|u ulist IH]; intros clist Hnd; cbn; [done|].
  destruct (find_call (index u) clist) as [c|] eqn:Hc; [by apply IH|].
  specialize (IH (clist ++ [u])). destruct (append_loop ulist (clist ++ [u])) as [l told]; cbn in *. apply IH.
  rewrite fmap_app. apply list.NoDup_app. split; [done|]. split; [|apply NoDup_singleton].
  intros x Hx. cbn. rewrite list_elem_of_singleton. intros ->. by apply find_call_none in Hc.
Qed.

(** Which calls are told of. *)
Lemma refresh_told i ulist clist :
  NoDup (index <$> clist) -> Forall short_number ulist ->
  i ∈ index <$> (refresh_loop ulist clist).2.*1 <->
  is_Some (find_call i clist) /\ find_call i (refresh_loop ulist clist).1 <> find_call i clist.
Proof.
  intros Hnd Hs. induction clist as [|c clist IH].
  { cbn. split; [intros H; inversion H|]. intros [[? ?] _]. done. }
  rewrite fmap_cons in Hnd. apply list.NoDup_cons in Hnd as [Hc Hnd]. specialize (IH Hnd).
  rewrite (refresh_find i ulist (c :: clist) Hs). rewrite (refresh_find i ulist clist Hs) in IH.
  cbn. unfold call_index_cmp. destruct (refresh_loop ulist clist) as [l told]; cbn in *.
  destruct (Z.eqb_spec (index c) i) as [<-|Hne]; cbn.
  - apply find_call_none in Hc. rewrite Hc in IH. cbn in IH.
    assert (index c ∉ index <$> told.*1) as Hn by (rewrite IH; intros [[? ?] _]; done).
    destruct (find_call (index c) ulist) as [u|] eqn:Hu; cbn.
    + pose proof (find_call_index _ _ _ Hu) as Hi.
      destruct (call_changed u c) eqn:Hch; cbn.
      * rewrite elem_of_cons. split; [|by left]. intros _. split; [done|].
        apply call_changed_true in Hch. congruence.
      * split; [done|]. intros [_ Hd]. by rewrite <- (call_changed_false u c) in Hd.
    + rewrite elem_of_cons. split; [done|by left].
  - destruct (find_call (index c) ulist) as [u|]; [destruct (call_changed u c)|]; cbn;
      rewrite ?elem_of_cons; naive_solver.
Qed.

Lemma append_told i ulist clist :
  i ∈ index <$> (append_loop ulist clist).2 <-> find_call i clist = None /\ is_Some (find_call i ulist).
Proof.
  revert clist. induction ulist as [|u ulist IH]; intros clist; cbn.
  { split; [intros H; inversion H|]. intros [_ [? ?]]. done. }
  unfold call_index_cmp at 1.
  destruct (find_call (index u) clist) as [c|] eqn:Hc.
  - rewrite IH. destruct (Z.eqb_spec (index u) i) as [<-|]; [rewrite Hc; naive_solver|done].
  - specialize (IH (clist ++ [u])). destruct (append_loop ulist (clist ++ [u])) as [l told]; cbn in *.
    rewrite elem_of_cons, IH, find_call_app. cbn. unfold call_index_cmp.
    destruct (Z.eqb_spec (index u) i) as [<-|]; [rewrite Hc; naive_solver|].
    destruct (find_call i clist); naive_solver.
Qed.

Lemma hf_call_new_spec c idx dir st mp num :
  spec c (hf_call_new idx dir st mp num) (fun call c' => c' = c /\ short_number call).
Proof.
  unfold hf_call_new. apply spec_bind; [by apply spec_emit|]. intros _. destruct num as [s|].
  - apply spec_ret. split; [done|]. apply strlcpy_idemp.
  - apply spec_bind; [by apply spec_emit|]. intros _. by apply spec_ret.
Qed.

(** The states with a link: calls are followed there. *)
Definition linked (c : state) : bool := match c with connected_state | audio_on_state => true | _ => false end.

#[local] Hint Extern 0 (linked _ = true) => first [assumption|reflexivity] : hf.
Ltac by_link c H := destruct c; try discriminate H; clear H.

Lemma update_calls_quiet c call : linked c = true -> short_number call -> quiet c (update_current_calls call).
Proof.
  intros Hl Hs. by_link c Hl; apply spec_upd; intros d H; destruct d; unfold data_inv, holds in *; cbn in *;
    rewrite Forall_app, Forall_singleton; naive_solver lia.
Qed.

Lemma set_name_quiet c num nm : linked c = true -> quiet c (set_current_call_name num nm).
Proof.
  intros Hl. unfold set_current_call_name. destruct num as [num|], nm as [nm|]; [|by apply spec_ret..].
  apply (spec_field_inv _ _ (fun l => NoDup (index <$> l))); [by intros d (_ & _ & H & _)|].
  intros l Hnd. destruct (name_loop num nm l) as [l' told] eqn:Hl'. apply spec_bind; [|intros ?; apply notify_calls_quiet].
  assert (NoDup (index <$> l')) as Hl'' by (rewrite <- (name_loop_index num nm l), Hl' in Hnd; done).
  by_link c Hl; apply spec_upd; intros d H; destruct d; unfold data_inv, holds in *; cbn in *; naive_solver lia.
Qed.

Lemma notify_current_quiet c : quiet c hf_notify_current_calls.
Proof. unfold hf_notify_current_calls. spec_auto. Qed.
#[local] Hint Resolve notify_current_quiet update_calls_quiet set_name_quiet : hf.

Lemma query_final_quiet c : linked c = true -> quiet c query_current_calls_final.
Proof.
  intros Hl. unfold query_current_calls_final. apply spec_bind; [apply fake_ciev_quiet|]. intros _.
  apply spec_field. intros a. apply spec_field. intros ulist.
  apply (spec_field_inv _ _ (fun l => NoDup (index <$> l))); [by intros d (_ & _ & H & _)|].
  intros clist Hnd. destruct (refresh_loop ulist clist) as [cl told] eqn:Hr.
  assert (NoDup (index <$> cl)) as Hcl.
  { pose proof (refresh_index ulist clist) as Hs. rewrite Hr in Hs. by eapply sublist_NoDup. }
  apply spec_bind.
  { apply spec_emits, Forall_concat, Forall_map, Forall_true. intros [k []]; cbn; repeat constructor. }
  intros _. destruct (append_loop ulist cl) as [cl' new] eqn:Ha.
  assert (NoDup (index <$> cl')) as Hcl' by (pose proof (append_nodup ulist cl Hcl) as H; by rewrite Ha in H).
  apply spec_bind.
  { by_link c Hl; apply spec_upd; intros d H; destruct d; unfold data_inv, holds in *; cbn in *; naive_solver lia. }
  intros _. by_link c Hl; spec_auto.
Qed.
#[local] Hint Resolve query_final_quiet : hf.

Lemma command_quiet e c : forall flag, quiet c (accept_call e flag).
Proof. intros flag. unfold accept_call, get_call_by_state. spec_auto. Qed.
Lemma reject_quiet e c : quiet c (reject_call e).
Proof. unfold reject_call, get_call_by_state. spec_auto. Qed.
Lemma hangup_quiet e c : quiet c (hangup_call e).
Proof. unfold hangup_call, get_call_by_state. spec_auto. Qed.
Lemma hold_quiet e c : quiet c (hold_call e).
Proof. unfold hold_call, get_call_by_state. spec_auto. Qed.
Lemma dial_fail_quiet c num : quiet c (handle_dailing_fail num).
Proof. unfold handle_dailing_fail. spec_auto. Qed.
#[local] Hint Resolve command_quiet reject_quiet hangup_quiet hold_quiet dial_fail_quiet : hf.

(** A counter or a flag word written with a value known to be fine. *)
Lemma volume_cnt_quiet c v : (0 <= v <= UINT32_MAX)%Z -> linked c = true -> quiet c (upd {! set_volume_cnt := v }).
Proof.
  intros Hv Hl. by_link c Hl; apply spec_upd; intros d H; destruct d; unfold data_inv, holds in *; cbn in *; naive_solver lia.
Qed.

Lemma set_voice_volume_quiet e c ty v : linked c = true -> quiet c (handle_hf_set_voice_call_volume e ty v).
Proof.
  intros Hl. unfold handle_hf_set_voice_call_volume. case_match; [|by_link c Hl; spec_auto].
  apply spec_bind; [by_link c Hl; spec_auto|]. intros _. apply spec_field. intros mv. case_match; [by apply spec_ret|].
  apply spec_bind; [spec_auto|]. intros ok.
  apply (spec_field_inv _ _ (fun n => 0 <= n <= UINT32_MAX)%Z); [by intros d (_ & Hd & _)|]. intros cnt Hcnt.
  apply spec_when. intros [_ Hlt%Z.ltb_lt]%andb_prop. apply volume_cnt_quiet; [|done].
  rewrite uint_small; [lia|]. unfold in_u, UINT32_MAX in *. lia.
Qed.

Lemma media_volume_quiet c d : linked c = true -> quiet c (media_volume_changed d).
Proof.
  intros Hl. unfold media_volume_changed. apply spec_bind; [by_link c Hl; spec_auto|]. intros _.
  apply (spec_field_inv _ _ (fun n => 0 <= n <= UINT32_MAX)%Z); [by intros ? (_ & Hd & _)|]. intros cnt Hcnt.
  case_match; [by apply spec_ret|]. apply spec_bind; [|intros _; by apply spec_ret].
  apply volume_cnt_quiet; [|done]. bool_lia.
Qed.

Lemma action_get_quiet c : linked c = true -> quiet c pending_action_get.
Proof. intros Hl. unfold pending_action_get. by_link c Hl; spec_auto. Qed.
Lemma action_create_quiet c code p : linked c = true -> quiet c (pending_action_create code p).
Proof. intros Hl. unfold pending_action_create. by_link c Hl; spec_auto. Qed.
#[local] Hint Resolve set_voice_volume_quiet media_volume_quiet action_get_quiet action_create_quiet : hf.

Lemma cmd_result_quiet c code r : linked c = true -> quiet c (cmd_result code r).
Proof. intros Hl. unfold cmd_result. spec_auto. Qed.
#[local] Hint Resolve cmd_result_quiet : hf.

Lemma query_flag_quiet c : quiet c (flag_set PENDING_CURRENT_CALLS_QUERY).
Proof. by apply flag_set_quiet. Qed.
#[local] Hint Resolve query_flag_quiet : hf.

Lemma default_quiet cfg e c ev d : linked c = true -> quiet c (default_process_event cfg e ev d).
Proof.
  intros Hl. unfold default_process_event, query_current_calls_with_callback, flag_isset, set_codec. apply spec_field. intros a.
  destruct ev; cbv zeta; try by apply spec_ret.
  all: try (by_link c Hl; spec_auto; fail).
  case_match; [spec_auto|]. apply (spec_bind_val _ _ _ short_number); [apply hf_call_new_spec|]. intros call Hs.
  apply spec_bind; [by apply update_calls_quiet|]. intros _. by apply spec_ret.
Qed.
#[local] Hint Resolve default_quiet : hf.

(** *** Transitions *)

Lemma listener_free r s l : (forall o, o = free_call -> r o = None) -> listener r s (free_calls l) = s.
Proof. intros Hr. unfold listener, free_calls. induction l as [|c l IH]; cbn; [done|]. by rewrite Hr. Qed.
Lemma net_timers_free h l : net_timers h (free_calls l) = 0%Z.
Proof. unfold net_timers, free_calls. induction l as [|c l IH]; cbn; [done|lia]. Qed.

Lemma offload_cmd_quiet cfg e c b : quiet c (hf_offload_send_cmd cfg e b).
Proof. unfold hf_offload_send_cmd. spec_auto. Qed.
#[local] Hint Resolve offload_cmd_quiet : hf.

Lemma stop_flag_quiet c : quiet c (flag_set PENDING_OFFLOAD_STOP).
Proof. by apply flag_set_quiet. Qed.
Lemma start_flag_quiet c : quiet c (flag_set PENDING_OFFLOAD_START).
Proof. by apply flag_set_quiet. Qed.
#[local] Hint Resolve stop_flag_quiet start_flag_quiet : hf.

Lemma stop_timer_quiet c : quiet c stop_offload_timer.
Proof.
  intros sm Hc Hi. exists c. split; [done|]. destruct sm as [i p cur d]. destruct d. cbn in *.
  unfold stop_offload_timer, exec, outs, field, gets, upd, modify, emit, mbind_, mret_. cbn.
  destruct offload_timer0 as [t|]; cbn; [|by apply step_refl].
  split; try done; [by left|]. intros h. unfold net_timers, holds. cbn. unfold b2z. repeat case_bool_decide; simplify_eq; lia.
Qed.
#[local] Hint Resolve stop_timer_quiet : hf.

Lemma offload_stop_quiet cfg e c : quiet c (offload_stop_req cfg e).
Proof. unfold offload_stop_req, send_control_event. spec_auto. Qed.
#[local] Hint Resolve offload_stop_quiet : hf.

(** What a part of a transition does to the listeners and the timers. *)
Record move (k k' a a' : Z) (d d' : hf_data) (os : list out) : Prop := {
  mv_addr : d'.(addr) = d.(addr);
  mv_conn : listener conn_report k os = k';
  mv_audio : listener audio_report a os = a';
  mv_timers : forall h, (holds h d' - holds h d <= net_timers h os)%Z;
}.

Lemma move_app k k1 k2 a a1 a2 d d1 d2 o1 o2 :
  move k k1 a a1 d d1 o1 -> move k1 k2 a1 a2 d1 d2 o2 -> move k k2 a a2 d d2 (o1 ++ o2).
Proof.
  intros [A1 A2 A3 A4] [B1 B2 B3 B4]. split.
  - congruence.
  - by rewrite hf_listener_app, A2.
  - by rewrite hf_listener_app, A3.
  - intros h. rewrite net_timers_app. specialize (A4 h). specialize (B4 h). lia.
Qed.

(** The fields once a state has been left. *)
Definition left_inv (c : state) (d : hf_data) : Prop :=
  data_inv connected_state d /\ (linked c = false -> no_calls d).

Definition exit_spec (c : state) (m : MH unit) : Prop :=
  forall sm, sm.(current_state) = Some c -> data_inv c sm.(data) ->
  let sm' := exec m sm in
  sm'.(current_state) = Some c /\ left_inv c sm'.(data) /\
  move (conn_state c) (conn_state c) (audio_state c) HFP_AUDIO_STATE_DISCONNECTED sm.(data) sm'.(data) (outs m sm).

Definition enter_spec (c c' : state) (m : MH unit) : Prop :=
  forall sm, sm.(current_state) = Some c' -> sm.(previous_state) = Some c -> left_inv c sm.(data) ->
  let sm' := exec m sm in
  sm'.(current_state) = Some c' /\ sm'.(previous_state) = Some c /\ data_inv c' sm'.(data) /\
  move (conn_state c) (conn_state c') HFP_AUDIO_STATE_DISCONNECTED (audio_state c') sm.(data) sm'.(data) (outs m sm).

Lemma transition_spec cfg e c c' (tbl := hf_states cfg e) :
  edge c c' = true -> exit_spec c (Hsm.exit c) -> enter_spec c c' (Hsm.enter c') ->
  spec c (hsm_transition_to c') (fun _ x => x = c').
Proof.
  intros He Hex Hen sm Hc Hi. exists c'. split; [done|]. destruct (Hex sm Hc Hi) as (E1 & E2 & E3).
  set (sm1 := exec (Hsm.exit c) sm) in *.
  destruct (Hen (set_current (Some c') (set_previous (Some c) sm1)) eq_refl eq_refl E2) as (N1 & N2 & N3 & N4).
  set (sm2 := set_current (Some c') (set_previous (Some c) sm1)) in *.
  destruct (transition_run c c' sm Hc E1) as [Hs Ho]. fold sm1 sm2 in Hs, Ho.
  rewrite Hs, Ho. destruct (move_app _ _ _ _ _ _ _ _ _ _ _ E3 N4) as [M1 M2 M3 M4]. split; try done. by right.
Qed.

(** A part that stays, seen as a move. *)
Lemma quiet_move {A} c (m : MH A) sm :
  quiet c m -> sm.(current_state) = Some c -> data_inv c sm.(data) ->
  let sm' := exec m sm in
  sm'.(current_state) = Some c /\ sm'.(previous_state) = sm.(previous_state) /\ data_inv c sm'.(data) /\
  move (conn_state c) (conn_state c) (audio_state c) (audio_state c) sm.(data) sm'.(data) (outs m sm).
Proof.
  intros Hm Hc Hi. destruct (Hm sm Hc Hi) as (c' & -> & [S1 S2 S3 S4 S5 S6 S7]). split_and!; try done.
  destruct S2 as [[_ ?]|[He _]]; [done|by destruct c].
Qed.

Ltac listen := cbn [app]; rewrite ?app_nil_r;
  repeat first [rewrite listener_cons | rewrite hf_listener_app | rewrite listener_free by (by intros ? ->)]; reflexivity.
Ltac timers := let h := fresh "h" in
  intros h; cbn [app data]; rewrite ?app_nil_r, ?net_timers_app, ?net_timers_free, ?net_timers_cons;
  unfold holds; cbn -[bool_decide]; rewrite ?net_timers_free; unfold b2z; repeat case_bool_decide; simplify_eq; lia.
Ltac inv_fields := unfold left_inv, data_inv, no_calls in *; cbn in *; destruct_and!; rewrite ?flag_isset_clear;
  split_and!; first [done | lia | constructor | auto; fail | naive_solver].
Ltac hf_eval := cbv -[free_calls listener net_timers holds data_inv left_inv conn_report audio_report conn_state audio_state
  bt_media_volume_media_to_hfp uint Z.eqb]; fold (@app out).

(** A machine in state [c], field by field. *)
Ltac open_machine sm Hc :=
  destruct sm as [i p cur [a h f ct ot rt ra off pol spk mic mv vl cnt cod rc pend pa cc uc cs nq nqc]];
  cbn in Hc; subst cur.

(** Leaving AudioOn, but for the report at the end. *)
Definition audio_off (cfg : config) (e : env) : MH bt_address_t :=
  a <- field addr;;
  emit (bt_pm_sco_close a);;;
  emit (bt_pm_idle a);;;
  emit bt_media_set_sco_unavailable;;;
  off <- field offloading;;
  when off (offload_stop_req cfg e);;;
  flag_clear PENDING_AUDIO_DISCONNECT;;;
  mret_ a.

Lemma audio_on_exit_eq cfg e sm :
  audio_on_exit cfg e sm =
  (a <- audio_off cfg e;; emit (hf_service_notify_audio_state_changed a HFP_AUDIO_STATE_DISCONNECTED)) sm.
Proof.
  unfold audio_on_exit, audio_off, field, gets, emit, mbind_. cbn.
  destruct (when _ _ sm) as [[u s1] o1]; cbn. by rewrite ?app_nil_r.
Qed.

Lemma audio_off_quiet cfg e : quiet audio_on_state (audio_off cfg e).
Proof. unfold audio_off. spec_auto. Qed.

Lemma audio_off_clears cfg e sm :
  flag_isset_v (exec (audio_off cfg e) sm).(data).(pending) PENDING_AUDIO_DISCONNECT = false.
Proof.
  unfold audio_off. autorewrite with bt. cbn. destruct (exec _ _). cbn. apply flag_isset_clear.
Qed.

Lemma exits cfg e c : exit_spec c (Hsm.exit (StateTable := hf_states cfg e) c).
Proof.
  intros sm Hc Hi. destruct c; cbn [Hsm.exit hf_states].
  - split; [done|]. split; [inv_fields|]. split; try done. timers.
  - open_machine sm Hc. hf_eval. split; [done|]. split; [inv_fields|]. split; [done|listen|listen|timers].
  - split; [done|]. split; [inv_fields|]. split; try done. timers.
  - destruct (quiet_move _ _ _ (audio_off_quiet cfg e) Hc Hi) as (Q1 & _ & Q2 & [M1 M2 M3 M4]).
    pose proof (audio_off_clears cfg e sm) as Hp.
    assert (exec (audio_on_exit cfg e) sm = exec (audio_off cfg e) sm) as ->.
    { unfold exec. rewrite audio_on_exit_eq. unfold mbind_. by destruct (audio_off cfg e sm) as [[? ?] ?]. }
    replace (outs (audio_on_exit cfg e) sm) with (outs (audio_off cfg e) sm ++
      [hf_service_notify_audio_state_changed (eval (audio_off cfg e) sm) HFP_AUDIO_STATE_DISCONNECTED]).
    2: { unfold outs, eval. rewrite audio_on_exit_eq. unfold mbind_. by destruct (audio_off cfg e sm) as [[? ?] ?]. }
    split; [done|]. split; [inv_fields|]. split; [done| | |].
    + by rewrite hf_listener_app, M2.
    + by rewrite hf_listener_app.
    + intros h. rewrite net_timers_app. specialize (M4 h). unfold net_timers in *. cbn. lia.
Qed.

Lemma enter_disconnected cfg c : c <> disconnected_state -> enter_spec c disconnected_state (disconnected_enter cfg).
Proof.
  intros Hne sm Hc Hp Hi. open_machine sm Hc. cbn in Hp. subst p.
  assert (ct = None) as -> by (by apply Hi). destruct cfg as [[] wb va]; hf_eval.
  all: split; [done|]; split; [done|]; split; [inv_fields|]; split; [done|listen|listen|timers].
Qed.

Lemma enter_connecting e : enter_spec disconnected_state connecting_state (connecting_enter e).
Proof.
  intros sm Hc Hp Hi. open_machine sm Hc. cbn in Hp. subst p. assert (ct = None) as -> by (by apply Hi).
  destruct e as [st nw rd vcv nl nt]. hf_eval.
  split; [done|]; split; [done|]; split; [inv_fields|]; split; [done|listen|listen|timers].
Qed.

Lemma enter_connected cfg e c : c <> connected_state -> enter_spec c connected_state (connected_enter cfg e).
Proof.
  intros Hne sm Hc Hp Hi. open_machine sm Hc. cbn in Hp. subst p. assert (ct = None) as -> by (by apply Hi).
  destruct e as [st nw rd [vcv|] nl nt], cfg as [[] wb va], nq, c; try done; hf_eval.
  all: split; [done|]; split; [done|]; split; [inv_fields|]; split; [done|listen|listen|timers].
Qed.

(** Entering AudioOn, but for the report at the end. *)
Definition audio_prepare (cfg : config) (e : env) : MH bt_address_t :=
  a <- field addr;;
  emit (bt_pm_sco_open a);;;
  ok <- check_sco_allowed cfg e;;
  (if ok then
     c <- field codec;;
     emit (bt_media_set_hfp_samplerate (if (c =? HFP_CODEC_MSBC)%Z then 16000 else 8000)%Z);;;
     emit bt_media_set_sco_available
   else try_disconnect_audio e);;;
  mret_ a.

Lemma audio_on_enter_eq cfg e sm :
  audio_on_enter cfg e sm =
  (a <- audio_prepare cfg e;; emit (hf_service_notify_audio_state_changed a HFP_AUDIO_STATE_CONNECTED)) sm.
Proof.
  unfold audio_on_enter, audio_prepare. generalize (try_disconnect_audio e) (check_sco_allowed cfg e). intros t k.
  unfold field, gets, emit, mbind_. cbn. destruct (k sm) as [[[] s1] o1]; cbn; [by rewrite <- !app_assoc|].
  destruct (t s1) as [[[] s2] o2]; cbn. by rewrite ?app_nil_r, <- ?app_assoc.
Qed.

Lemma audio_prepare_quiet cfg e : quiet audio_on_state (audio_prepare cfg e).
Proof. unfold audio_prepare. spec_auto. Qed.

Lemma enter_audio cfg e : enter_spec connected_state audio_on_state (audio_on_enter cfg e).
Proof.
  intros sm Hc Hp [Hi _].
  destruct (quiet_move _ _ sm (audio_prepare_quiet cfg e) Hc) as (Q1 & Q2 & Q3 & [M1 M2 M3 M4]); [inv_fields|].
  assert (exec (audio_on_enter cfg e) sm = exec (audio_prepare cfg e) sm) as ->.
  { unfold exec. rewrite audio_on_enter_eq. unfold mbind_. by destruct (audio_prepare cfg e sm) as [[? ?] ?]. }
  replace (outs (audio_on_enter cfg e) sm) with (outs (audio_prepare cfg e) sm ++
    [hf_service_notify_audio_state_changed (eval (audio_prepare cfg e) sm) HFP_AUDIO_STATE_CONNECTED]).
  2: { unfold outs, eval. rewrite audio_on_enter_eq. unfold mbind_. by destruct (audio_prepare cfg e sm) as [[? ?] ?]. }
  split; [done|]. split; [congruence|]. split; [done|]. split; [done| | |].
  - change (conn_state connected_state) with (conn_state audio_on_state). by rewrite hf_listener_app, M2.
  - by rewrite hf_listener_app.
  - intros h. rewrite net_timers_app. specialize (M4 h). unfold net_timers in *. cbn. lia.
Qed.

(** Every edge is such a transition. *)
Lemma transitions cfg e c c' :
  edge c c' = true -> spec c (hsm_transition_to (StateTable0 := hf_states cfg e) c') (fun _ x => x = c').
Proof.
  intros He. apply transition_spec; [done|apply exits|].
  destruct c, c'; try discriminate He; cbn [Hsm.enter hf_states];
    auto using enter_disconnected, enter_connecting, enter_connected, enter_audio.
Qed.

(** *** One input *)

(** A move along an edge, or none. *)
Definition moved (c c' : state) : Prop := c' = c \/ edge c c' = true.

Abbreviation goes c m := (spec c m (fun _ c' => moved c c')).

Lemma goes_quiet {A} c (m : MH A) : quiet c m -> goes c m.
Proof. intros Hm. eapply spec_mono; [exact Hm|]. intros a c' ->. by left. Qed.

Lemma goes_to cfg e c c' : edge c c' = true -> goes c (hsm_transition_to (StateTable0 := hf_states cfg e) c').
Proof. intros He. eapply spec_mono; [by apply transitions|]. intros a x ->. by right. Qed.

Lemma goes_ret {A B} c (m : MH A) (b : B) : goes c m -> goes c (m;;; mret_ b).
Proof.
  intros Hm. apply (spec_then _ _ _ (fun _ c' => moved c c')); [done|]. intros _ c1 H1. by apply spec_ret.
Qed.

Lemma goes_then {A B} c (m : MH A) (k : A -> MH B) :
  goes c m -> (forall a c', quiet c' (k a)) -> goes c (mbind_ m k).
Proof.
  intros Hm Hk. apply (spec_then _ _ _ (fun _ c' => moved c c')); [done|]. intros a c1 H1.
  eapply spec_mono; [apply Hk|]. by intros ? ? ->.
Qed.

Ltac goes_step :=
  lazymatch goal with
  | |- spec _ (mbind_ (field _) _) _ => apply spec_field; intros ?
  | |- spec _ (mbind_ (gets hf_state_machine_get_state) _) _ => apply spec_state; cbn
  | |- spec _ (mbind_ check_hfp_allowed _) _ => apply spec_bind; [unfold check_hfp_allowed; spec_auto|intros ?]
  | |- spec _ (mbind_ (ask _ _) _) _ => apply spec_bind; [spec_auto|intros ?]
  | |- spec _ (mbind_ (emit _) _) _ => apply spec_bind; [spec_auto|intros ?]
  | |- spec _ (mbind_ (when _ _) (fun _ => hsm_transition_to _)) _ => apply spec_bind; [spec_auto|intros ?]
  | |- spec _ (mbind_ (upd _) _) _ => apply spec_bind; [spec_auto|intros ?]
  | |- spec _ (mbind_ _ (fun _ => mret_ _)) _ => apply goes_ret
  | |- spec _ (mbind_ (hsm_transition_to _) _) _ => apply goes_then; [apply goes_to; done|intros ? ?; spec_auto]
  | |- spec _ (hsm_transition_to _) _ => apply goes_to; done
  | |- spec _ (match _ with _ => _ end) _ => case_match
  | |- spec _ (when _ _) _ => first [apply goes_quiet; solve [spec_auto] | unfold when; case_match]
  | |- spec _ _ _ => apply goes_quiet; solve [spec_auto]
  end.

Lemma features_quiet c f : quiet c (update_remote_features f).
Proof. unfold update_remote_features. spec_auto. Qed.
Lemma no_audio_quiet c ev : quiet c (no_audio_offload ev).
Proof. unfold no_audio_offload, send_control_event. spec_auto. Qed.
Lemma set_codec_quiet c v : quiet c (set_codec v).
Proof. unfold set_codec. spec_auto. Qed.
#[local] Hint Resolve features_quiet no_audio_quiet set_codec_quiet : hf.

(** Starting a timer that is held. *)
Lemma schedule_retry_quiet e c r : quiet c (schedule_retry e r).
Proof.
  intros sm Hc Hi. exists c. split; [done|]. open_machine sm Hc. destruct e as [st nw rd vcv nl nt].
  unfold schedule_retry, exec, outs, field, gets, upd, modify, emit, mbind_, when, mret_. cbn -[bool_decide].
  destruct (_ && _) eqn:Hr; [|by apply step_refl]. destruct rt as [t|]; cbn; [by apply step_refl|].
  apply andb_prop in Hr as [_ Hr%Z.ltb_lt].
  assert (0 <= u8 (rc + 1) <= HFP_HF_RETRY_MAX)%Z.
  { destruct Hi as ((Hi & _) & _). cbn in Hi. rewrite uint_small; unfold in_u, HFP_HF_RETRY_MAX in *; lia. }
  split; try done; [by left| |].
  - intros h'. unfold net_timers, holds. cbn. unfold b2z. repeat case_bool_decide; simplify_eq; lia.
  - unfold data_inv, no_calls in *. cbn in *. destruct_and!. split_and!; done.
Qed.

Lemma start_offload_quiet e c : quiet c (start_offload_timer e).
Proof.
  intros sm Hc Hi. exists c. split; [done|]. open_machine sm Hc. destruct e as [st nw rd vcv nl nt].
  split; try done; [by left|]. intros h'. unfold net_timers, holds. cbn. unfold b2z. repeat case_bool_decide; simplify_eq; lia.
Qed.

(** Forgetting a timer that is not cancelled. *)
Lemma forget_offload_quiet c : quiet c (upd {! offload_timer := None }).
Proof.
  apply spec_upd. intros d H. destruct d. unfold data_inv, no_calls, holds in *; cbn in *. split_and!; [naive_solver..|].
  intros h. unfold b2z. repeat case_bool_decide; simplify_eq; lia.
Qed.
Lemma forget_retry_quiet c : quiet c (upd {! retry_timer := None }).
Proof.
  apply spec_upd. intros d H. destruct d. unfold data_inv, no_calls, holds in *; cbn in *. split_and!; [naive_solver..|].
  intros h. unfold b2z. repeat case_bool_decide; simplify_eq; lia.
Qed.
#[local] Hint Resolve forget_offload_quiet forget_retry_quiet : hf.

Lemma set_volume_quiet e c d : linked c = true -> quiet c (set_volume e d).
Proof. intros Hl. unfold set_volume. by_link c Hl; spec_auto. Qed.
Lemma dial_quiet e c o code p f : linked c = true -> quiet_out c o -> quiet c (dial e o code p f).
Proof.
  intros Hl Ho. unfold dial, update_dialing_time. apply spec_bind; [by apply spec_ask|]. intros ok.
  by_link c Hl; spec_auto.
Qed.
Lemma dialed_quiet e c d a : linked c = true ->
  quiet c (dial e (bt_sal_hfp_hf_dial_number a d.(string1)) HFP_ATCMD_CODE_ATD d.(string1) d.(string1)) /\
  quiet c (dial e (bt_sal_hfp_hf_dial_memory a (s32 d.(valueint1))) HFP_ATCMD_CODE_ATD None None) /\
  quiet c (dial e (bt_sal_hfp_hf_dial_number a None) HFP_ATCMD_CODE_BLDN None None).
Proof. intros Hl. split_and!; by apply dial_quiet. Qed.
#[local] Hint Resolve schedule_retry_quiet start_offload_quiet set_volume_quiet : hf.

Lemma disconnected_goes cfg e ev d : goes disconnected_state (disconnected_process_event cfg e ev d).
Proof. unfold disconnected_process_event. destruct ev; repeat goes_step. Qed.

Lemma connecting_goes cfg e ev d : goes connecting_state (connecting_process_event cfg e ev d).
Proof.
  unfold connecting_process_event. destruct ev; repeat goes_step.
  apply spec_bind; [apply schedule_retry_quiet|]. intros _. repeat goes_step.
Qed.

Lemma connected_goes cfg e ev d : goes connected_state (connected_process_event cfg e ev d).
Proof.
  unfold connected_process_event. apply spec_field. intros a. destruct (dialed_quiet e connected_state d a eq_refl) as (D1 & D2 & D3).
  destruct ev; cbv zeta; repeat goes_step.
Qed.

Lemma audio_on_goes cfg e ev d : goes audio_on_state (audio_on_process_event cfg e ev d).
Proof.
  unfold audio_on_process_event, send_control_event. apply spec_field. intros a. destruct ev; cbv zeta; repeat goes_step.
Qed.

(** The function of the current state. *)
Definition process (cfg : config) (e : env) (c : state) (m : hfp_hf_msg_t) : MH bool :=
  match c with
  | disconnected_state => disconnected_process_event cfg e m.(event) m.(msg_data)
  | connecting_state => connecting_process_event cfg e m.(event) m.(msg_data)
  | connected_state => connected_process_event cfg e m.(event) m.(msg_data)
  | audio_on_state => audio_on_process_event cfg e m.(event) m.(msg_data)
  end.

Lemma hf_dispatch_eq cfg e m c sm :
  sm.(current_state) = Some c ->
  hf_state_machine_dispatch cfg e m sm = (tt, exec (process cfg e c m) sm, outs (process cfg e c m) sm).
Proof.
  intros Hc. unfold hf_state_machine_dispatch, hsm_dispatch_event, mbind_, gets. rewrite Hc.
  change (process_event c m sm) with (process cfg e c m sm). unfold exec, outs.
  destruct (process cfg e c m sm) as [[b s] o]. cbn. by rewrite app_nil_r.
Qed.

Lemma dispatch_goes cfg e m c : goes c (hf_state_machine_dispatch cfg e m).
Proof.
  intros sm Hc Hi. assert (goes c (process cfg e c m)) as Hg
    by (destruct c; cbn; auto using disconnected_goes, connecting_goes, connected_goes, audio_on_goes).
  destruct (Hg sm Hc Hi) as (c' & Hm & Hs). exists c'. split; [done|].
  unfold exec at 1, outs at 1. by rewrite (hf_dispatch_eq _ _ _ _ _ Hc).
Qed.

Lemma handle_input_goes cfg e i c : goes c (handle_input cfg e i).
Proof.
  destruct i; cbn [handle_input].
  - apply dispatch_goes.
  - unfold connect_timeout. repeat goes_step.
  - unfold hf_retry_callback. apply spec_field. intros a. apply spec_state.
    apply goes_then; [|intros ? ?; spec_auto]. destruct c; cbn; repeat goes_step.
  - unfold hfp_hf_offload_timeout_callback. apply spec_field. intros a.
    apply goes_then; [apply dispatch_goes|]. intros ? ?. spec_auto.
  - unfold bt_hci_event_callback, flag_isset. apply goes_quiet. spec_auto.
  - unfold hfp_hf_voice_volume_change_callback. apply goes_quiet. spec_auto.
  - apply goes_quiet. change (quiet c (upd {! offloading := b })). spec_auto.
  - apply goes_quiet. change (quiet c (upd {! connection_policy := p })). spec_auto.
Qed.

(** *** Runs *)

Record run_spec (c c' : state) (sm sm' : hf_state_machine_t) (os : list out) : Prop := {
  rs_current : sm'.(current_state) = Some c';
  rs_path : rtc (fun a b => edge a b = true) c c';
  rs_move : move (conn_state c) (conn_state c') (audio_state c) (audio_state c') sm.(data) sm'.(data) os;
  rs_inv : data_inv c' sm'.(data);
}.

Lemma hf_run_spec cfg l c sm :
  sm.(current_state) = Some c -> data_inv c sm.(data) ->
  exists c', run_spec c c' sm (exec (run_inputs cfg l) sm) (outs (run_inputs cfg l) sm).
Proof.
  revert c sm. induction l as [|[e i] l IH]; intros c sm Hc Hi; cbn [run_inputs].
  - exists c. split; [done|constructor| |done]. split; try done. intros h. unfold net_timers. cbn. lia.
  - destruct (handle_input_goes cfg e i c sm Hc Hi) as (c1 & Hm & [S1 S2 S3 S4 S5 S6 S7]).
    destruct (IH c1 _ S1 S7) as (c2 & [R1 R2 R3 R4]). exists c2. autorewrite with bt. split; [done| | |done].
    + destruct Hm as [->|He]; [done|]. by eapply rtc_l.
    + eapply move_app; [|done]. by split.
Qed.

Lemma hf_new_machine cfg e a :
  let sm := hf_state_machine_new cfg e a in
  sm.(current_state) = Some disconnected_state /\ sm.(data).(addr) = a /\
  data_inv disconnected_state sm.(data) /\ forall h, holds h sm.(data) = 0%Z.
Proof.
  split; [done|]. split; [done|]. split; [|done]. unfold data_inv, no_calls. cbn. unfold HFP_HF_RETRY_MAX, UINT32_MAX.
  split_and!; try done; constructor.
Qed.

Lemma get_state_of sm c : sm.(current_state) = Some c ->
  hfp_hf_get_connection_state sm = conn_state c /\
  audio_state c = if hfp_hf_is_audio_connected sm then HFP_AUDIO_STATE_CONNECTED else HFP_AUDIO_STATE_DISCONNECTED.
Proof.
  intros Hc. unfold hfp_hf_get_connection_state, hfp_hf_is_audio_connected, hf_state_machine_get_state. rewrite Hc.
  by destruct c.
Qed.

(** The offload is stopped by the event [audio_on_exit] dispatches. *)
Lemma audio_on_stops_offload cfg e sm d :
  sm.(current_state) = Some audio_on_state ->
  exec (hf_state_machine_dispatch cfg e (mk_msg HF_OFFLOAD_STOP_REQ d)) sm = exec (offload_stop_req cfg e) sm /\
  outs (hf_state_machine_dispatch cfg e (mk_msg HF_OFFLOAD_STOP_REQ d)) sm = outs (offload_stop_req cfg e) sm.
Proof.
  intros Hc. unfold exec, outs. rewrite (hf_dispatch_eq _ _ _ _ _ Hc). cbn [process event msg_data].
  unfold audio_on_process_event, field, gets, exec, outs, mbind_. destruct (offload_stop_req cfg e sm) as [[u s] o].
  cbn. by rewrite app_nil_r.
Qed.

(** ** Claims *)

(** C26: For a machine just made, after any sequence of messages, timers,
    controller and volume events, the connection state last told to the
    clients is the one [hfp_hf_get_connection_state] answers, and the audio
    state last told says whether [hfp_hf_is_audio_connected]. *)
Theorem hf_listeners_agree (cfg : config) (e : env) (a : bt_address_t) (l : list (env * input)) :
  let sm := hf_state_machine_new cfg e a in
  let sm' := exec (run_inputs cfg l) sm in
  let os := outs (run_inputs cfg l) sm in
  listener conn_report PROFILE_STATE_DISCONNECTED os = hfp_hf_get_connection_state sm' /\
  listener audio_report HFP_AUDIO_STATE_DISCONNECTED os
  = if hfp_hf_is_audio_connected sm' then HFP_AUDIO_STATE_CONNECTED else HFP_AUDIO_STATE_DISCONNECTED.
Proof.
  intros sm sm' os. destruct (hf_new_machine cfg e a) as (Hc & _ & Hi & _).
  destruct (hf_run_spec cfg l _ sm Hc Hi) as (c' & [R1 _ [_ R2 R3 _] _]).
  destruct (get_state_of sm' c' R1) as [-> <-]. done.
Qed.

(** A timer is never cancelled more often than it was started: at any
    point of any run, the starts of a timer less its cancellations are at
    least the places that still hold it (of the connect, retry and offload
    timers), so a cancelled timer is held nowhere and not cancelled again. *)
Theorem hf_timers_not_cancelled_twice (cfg : config) (e : env) (a : bt_address_t) (l : list (env * input)) (h : timer_h) :
  let sm := hf_state_machine_new cfg e a in
  (0 <= holds h (exec (run_inputs cfg l) sm).(data) <= net_timers h (outs (run_inputs cfg l) sm))%Z.
Proof.
  intros sm. destruct (hf_new_machine cfg e a) as (Hc & _ & Hi & H0).
  destruct (hf_run_spec cfg l _ sm Hc Hi) as (c' & [_ _ [_ _ _ R] _]). specialize (R h). rewrite (H0 h : holds h (data sm) = 0%Z) in R.
  split; [|lia]. unfold holds, b2z. repeat case_bool_decide; lia.
Qed.

(** In every state a machine reaches: at most one retry is counted, the
    calls have distinct indices and those reported have numbers that fit; only
    Connecting has a connect timer, only AudioOn can be waiting for the audio
    link to close; without a link there are no calls, no pending commands, no
    voice recognition and no volume listener, and in Disconnected no query is
    due. *)
Theorem hf_reachable_fields (cfg : config) (e : env) (a : bt_address_t) (l : list (env * input)) :
  let sm' := exec (run_inputs cfg l) (hf_state_machine_new cfg e a) in
  exists c, sm'.(current_state) = Some c /\ sm'.(data).(addr) = a /\ data_inv c sm'.(data).
Proof.
  intros sm'. destruct (hf_new_machine cfg e a) as (Hc & Ha & Hi & _).
  destruct (hf_run_spec cfg l _ _ Hc Hi) as (c' & [R1 _ [R2 _ _ _] R4]). exists c'. split; [done|]. split; [|done].
  unfold sm'. congruence.
Qed.

(** The calls of the notifications. *)
Definition call_notes (os : list out) : list hfp_current_call_t :=
  omap (fun o => match o with hf_service_notify_call_state_changed _ c => Some c | _ => None end) os.

Lemma call_notes_app a b : call_notes (a ++ b) = call_notes a ++ call_notes b.
Proof. apply omap_app. Qed.
Lemma call_notes_skip o os :
  match o with hf_service_notify_call_state_changed _ _ => False | _ => True end -> call_notes (o :: os) = call_notes os.
Proof. by destruct o. Qed.

Lemma call_notes_notify a cs : call_notes (map (hf_service_notify_call_state_changed a) cs) = cs.
Proof. induction cs as [|c cs IH]; cbn; [done|]. unfold call_notes in IH. by rewrite IH. Qed.

Lemma call_notes_refresh a told : call_notes (concat (map (refresh_outs a) told)) = told.*1.
Proof.
  unfold call_notes. induction told as [|[c b] told IH]; [done|]. cbn [map concat]. rewrite omap_app, IH. by destruct b.
Qed.

(** The query's end, on the fields: the calls and what is told of them. *)
Lemma query_final_run sm :
  let ulist := sm.(data).(update_calls) in
  let r := refresh_loop ulist sm.(data).(current_calls) in
  let sm' := exec query_current_calls_final sm in
  sm'.(data).(current_calls) = (append_loop ulist r.1).1 /\ sm'.(data).(update_calls) = [] /\
  call_notes (outs query_current_calls_final sm) = r.2.*1 ++ (append_loop ulist r.1).2.
Proof.
  destruct sm as [i p cur [a h f ct ot rt ra off pol spk mic mv vl cnt cod rc pend pa cc uc cs nq nqc]]. cbv zeta. cbn [data update_calls current_calls].
  destruct cs as [s1 t1 s2 t2 s3 t3 t4 [l1 l2 l3] t5].
  unfold query_current_calls_final, hf_service_fake_ciev, hf_notify_current_calls, notify_calls, flag_clear, upd, field,
    gets, modify, emit, emits, mbind_, when, mret_, exec, outs.
  destruct (l1 =? s1)%Z eqn:E1, (l2 =? s2)%Z eqn:E2, (l3 =? s3)%Z eqn:E3, nqc; cbn; rewrite ?E1, ?E2, ?E3; cbn.
  all: destruct (refresh_loop uc cc) as [cl told]; cbn; destruct (append_loop uc cl) as [cl' new]; cbn; split; [done|]; split; [done|].
  all: repeat first [rewrite call_notes_app | rewrite call_notes_skip by done].
  all: by rewrite call_notes_refresh, call_notes_notify, ?app_nil_r.
Qed.

Lemma query_final_spec sm :
  NoDup (index <$> sm.(data).(current_calls)) -> Forall short_number sm.(data).(update_calls) ->
  let sm' := exec query_current_calls_final sm in
  (forall i, find_call i sm'.(data).(current_calls)
             = (u ← find_call i sm.(data).(update_calls); Some (merged (find_call i sm.(data).(current_calls)) u))) /\
  (forall i, i ∈ index <$> call_notes (outs query_current_calls_final sm) <->
             find_call i sm'.(data).(current_calls) <> find_call i sm.(data).(current_calls)) /\
  sm'.(data).(update_calls) = [].
Proof.
  intros Hnd Hs sm'. destruct (query_final_run sm) as (H1 & H2 & H3). fold sm' in H1, H2. rewrite H1, H3.
  generalize dependent (update_calls (data sm)). generalize dependent (current_calls (data sm)). intros cc Hnd uc Hs H1 H3.
  assert (forall i, find_call i (append_loop uc (refresh_loop uc cc).1).1
             = (u ← find_call i uc; Some (merged (find_call i cc) u))) as Hf.
  { intros i. rewrite append_find, (refresh_find i uc cc Hs).
    destruct (find_call i cc) as [c|], (find_call i uc) as [u|]; cbn; try done. by destruct u. }
  split; [done|]. split; [|done]. intros i. rewrite fmap_app, elem_of_app, (refresh_told i uc cc Hnd Hs), append_told.
  rewrite Hf, (refresh_find i uc cc Hs).
  destruct (find_call i cc) as [c|], (find_call i uc) as [u|]; cbn; split; try naive_solver. by intros [[_ ?]|[? _]].
Qed.

(** C27: When a query of the phone's calls is complete, the list of calls is
    the phone's: for each index the call reported (the first, if several were
    reported under it) with the name already known, and no call that was not
    reported.  The clients are told of exactly the calls whose entry changed,
    appeared or went away. *)
Theorem hf_calls_follow_phone (cfg : config) (e0 e : env) (a : bt_address_t) (l : list (env * input)) (d : hfp_hf_data_t) (c : state) :
  let sm := exec (run_inputs cfg l) (hf_state_machine_new cfg e0 a) in
  let m := mk_msg HF_STACK_EVENT_CURRENT_CALLS d in
  let sm' := exec (hf_state_machine_dispatch cfg e m) sm in
  sm.(current_state) = Some c -> linked c = true -> s32 d.(valueint1) = 0%Z ->
  (forall i, find_call i sm'.(data).(current_calls)
             = (u ← find_call i sm.(data).(update_calls); Some (merged (find_call i sm.(data).(current_calls)) u))) /\
  (forall i, i ∈ index <$> call_notes (outs (hf_state_machine_dispatch cfg e m) sm) <->
             find_call i sm'.(data).(current_calls) <> find_call i sm.(data).(current_calls)) /\
  sm'.(data).(update_calls) = [].
Proof.
  intros sm m sm' Hc Hl Hd. destruct (hf_new_machine cfg e0 a) as (Hc0 & _ & Hi0 & _).
  destruct (hf_run_spec cfg l _ _ Hc0 Hi0) as (c' & [R1 _ _ R4]).
  change (current_state sm = Some c') in R1. rewrite Hc in R1. injection R1 as <-.
  destruct R4 as (_ & _ & Hnd & Hs & _). change (NoDup (index <$> current_calls (data sm))) in Hnd.
  change (Forall short_number (update_calls (data sm))) in Hs.
  destruct (query_final_spec sm Hnd Hs) as (Q1 & Q2 & Q3).
  assert (sm' = exec query_current_calls_final sm /\
          outs (hf_state_machine_dispatch cfg e m) sm = outs query_current_calls_final sm) as [-> ->]; [|done].
  unfold sm', exec, outs. rewrite (hf_dispatch_eq _ _ _ _ _ Hc). cbn [process].
  destruct c; try discriminate Hl; cbn [process m event msg_data]; unfold connected_process_event, audio_on_process_event,
    default_process_event, field, gets, mbind_, exec, outs; rewrite Hd; cbn [Z.eqb]; unfold mret_;
    destruct (query_current_calls_final sm) as [[u s] o]; cbn; by rewrite app_nil_r.
Qed.

(** A machine with a link, to which the phone has reported two calls. *)
Definition demo_cfg : config := mk_config true false true.
Definition demo_env : env := mk_env (fun _ => BT_STATUS_SUCCESS) 1000 5 (Some 7%Z) (Some 3) (Some 9).
Definition demo_addr : bt_address_t := mk_addr 1 2 3 4 5 6.
Definition demo_data (v1 v2 v3 v4 : Z) (s : option string) : hfp_hf_data_t :=
  mk_msg_data demo_addr v1 v2 v3 v4 s None (mk_hci 0 []).
Definition demo_in (ev : hfp_hf_event_t) (d : hfp_hf_data_t) : env * input := (demo_env, in_msg (mk_msg ev d)).
Definition demo_connect : env * input :=
  demo_in HF_STACK_EVENT_CONNECTION_STATE_CHANGED (demo_data PROFILE_STATE_CONNECTED 0 0 0 None).
Definition demo_call (i st : Z) : env * input :=
  demo_in HF_STACK_EVENT_CURRENT_CALLS (demo_data i 0 st 0 (Some "5551234"%string)).
Definition demo_end : hfp_hf_data_t := demo_data 0 0 0 0 None.
Definition demo_new : hf_state_machine_t := hf_state_machine_new demo_cfg demo_env demo_addr.

Lemma hf_calls_follow_phone_witness :
  let sm := exec (run_inputs demo_cfg [demo_connect; demo_call 1 0; demo_call 2 1]) demo_new in
  let sm' := exec (hf_state_machine_dispatch demo_cfg demo_env (mk_msg HF_STACK_EVENT_CURRENT_CALLS demo_end)) sm in
  find_call 2 sm'.(data).(current_calls) = Some (mk_call 2 0 1 0 "5551234" "").
Proof.
  intros sm sm'.
  destruct (hf_calls_follow_phone demo_cfg demo_env demo_env demo_addr [demo_connect; demo_call 1 0; demo_call 2 1]
              demo_end connected_state eq_refl eq_refl eq_refl) as (H & _ & _).
  exact (H 2%Z).
Defined.

(** ** Defects the model shows *)

Definition count_outs (p : out -> bool) (os : list out) : nat := length (List.filter p os).
Definition is_malloc (o : out) : bool := match o with malloc_call => true | _ => false end.
Definition is_free (o : out) : bool := match o with free_call => true | _ => false end.

(** A call the phone reports again is allocated, compared and dropped: after
    two queries that report the same call there are two records and one call,
    and nothing was freed. *)
Theorem repeated_query_leaks :
  let l := [demo_connect; demo_call 1 0; demo_in HF_STACK_EVENT_CURRENT_CALLS demo_end;
            demo_call 1 0; demo_in HF_STACK_EVENT_CURRENT_CALLS demo_end] in
  let os := outs (run_inputs demo_cfg l) demo_new in
  length (exec (run_inputs demo_cfg l) demo_new).(data).(current_calls) = 1 /\
  count_outs is_malloc os = 2 /\ count_outs is_free os = 0.
Proof. vm_compute. auto. Qed.

(** A retry timer that expires is forgotten, not cancelled: started once, held
    nowhere, never freed. *)
Theorem expired_retry_timer_leaks :
  let l := [demo_in HF_CONNECT (demo_data 0 0 0 0 None);
            (mk_env (fun _ => BT_STATUS_SUCCESS) 1000 5 None None (Some 21),
             in_msg (mk_msg HF_STACK_EVENT_CONNECTION_STATE_CHANGED
                       (demo_data PROFILE_STATE_DISCONNECTED PROFILE_REASON_COLLISION 0 0 None)));
            (demo_env, in_retry)] in
  holds 21 (exec (run_inputs demo_cfg l) demo_new).(data) = 0%Z /\
  net_timers 21 (outs (run_inputs demo_cfg l) demo_new) = 1%Z.
Proof. vm_compute. auto. Qed.

(** The link is lost while a query is under way and comes back: a client that
    then asks for the calls gets no answer, the old query being still marked as
    under way. *)
Theorem lost_query_blocks_clients :
  let lose := demo_in HF_STACK_EVENT_CONNECTION_STATE_CHANGED (demo_data PROFILE_STATE_DISCONNECTED 0 0 0 None) in
  let sm := exec (run_inputs demo_cfg
    [demo_connect; demo_in HF_STACK_EVENT_CALLSETUP (demo_data 1 0 0 0 None); lose; demo_connect]) demo_new in
  sm.(data).(need_query) = false /\
  outs (hf_state_machine_dispatch demo_cfg demo_env
          (hfp_hf_msg_new HF_QUERY_CURRENT_CALLS_WITH_CALLBACK demo_addr)) sm = [].
Proof. vm_compute. auto. Qed.

(** A call with a withheld number is a message without string, whose NULL the
    new call prints. *)
Theorem withheld_number_reads_null :
  null_string ∈ outs (hf_state_machine_dispatch demo_cfg demo_env
    (mk_msg HF_STACK_EVENT_CURRENT_CALLS (demo_data 1 1 HFP_HF_CALL_STATE_INCOMING 0 None)))
    (exec (run_inputs demo_cfg [demo_connect]) demo_new).
Proof. vm_compute. right. left. Qed.

End HfpHfSpec.
