(* ===== verification/HfpHfFaults.v ===== *)
(** * The hands-free machine: which messages make it fail

    The machine of HfpHf.v fails an assertion when it has no vendor command to
    start or stop the offload with, and reads a NULL string for an AT command
    or a call without a number.  Here is exactly when. *)

From S2P Require Import Prelude CString Hsm MachineFaults Bytes BtAddr Hci MediaSystem HfpHf HfpHfSpec.
From stdpp Require Import strings.
From coqutil Require Import Datatypes.RecordSetters.
Import UpdaterNotations.

Local Open Scope bt_scope.

Module HfpHfFaults.
Import Hsm MachineFaults BtAddr Hci MediaSystem HfpHf HfpHfSpec.

Definition fault (o : out) : bool := match o with null_string | assert_failed => true | _ => false end.

(** AudioOn is left with an offload to stop and no command to do it with. *)
Definition cannot_stop (cfg : config) (sm : hf_state_machine_t) : bool := sm.(data).(offloading) && negb cfg.(vendor_actions).

Definition no_string (m : hfp_hf_msg_t) : bool := match m.(msg_data).(string1) with None => true | Some _ => false end.

(** The messages on which the machine fails. *)
Definition machine_faults (cfg : config) (sm : hf_state_machine_t) (m : hfp_hf_msg_t) : bool :=
  match sm.(current_state), m.(event) with
  | Some (connected_state | audio_on_state), HF_SEND_AT_COMMAND => no_string m
  | Some (connected_state | audio_on_state), HF_STACK_EVENT_CURRENT_CALLS => negb (s32 m.(msg_data).(valueint1) =? 0)%Z && no_string m
  | Some audio_on_state, (HF_OFFLOAD_START_REQ | HF_OFFLOAD_STOP_REQ) => negb cfg.(vendor_actions)
  | Some audio_on_state, HF_DISCONNECT => cannot_stop cfg sm
  | Some audio_on_state, HF_STACK_EVENT_CONNECTION_STATE_CHANGED =>
      (u32 m.(msg_data).(valueint1) =? PROFILE_STATE_DISCONNECTED)%Z && cannot_stop cfg sm
  | Some audio_on_state, HF_STACK_EVENT_AUDIO_STATE_CHANGED =>
      (u32 m.(msg_data).(valueint1) =? HFP_AUDIO_STATE_DISCONNECTED)%Z && cannot_stop cfg sm
  | _, _ => false
  end.

Abbreviation quiet m := (still fault offloading m).
Abbreviation fails b m sm := (faults fault b m sm).

(** ** The parts *)

Lemma quiet_fails {A} (m : MH A) sm : quiet m -> fails false m sm.
Proof. apply faults_still. Qed.

Lemma quiet_upd f : (forall d, offloading (f d) = offloading d) -> quiet (upd f).
Proof. apply still_upd. Qed.
Lemma quiet_field {A} (f : hf_data -> A) : quiet (field f).
Proof. apply still_gets. Qed.
#[local] Hint Resolve quiet_field : faults.
#[local] Hint Extern 1 (still _ _ (upd _)) => (apply quiet_upd; intros; reflexivity) : faults.
#[local] Hint Extern 1 (still _ _ (flag_isset _)) => apply quiet_field : faults.
#[local] Hint Extern 1 (still _ _ (flag_set _)) => (apply quiet_upd; intros; reflexivity) : faults.
#[local] Hint Extern 1 (still _ _ (flag_clear _)) => (apply quiet_upd; intros; reflexivity) : faults.
#[local] Hint Extern 1 (still _ _ (get_call_by_state _)) => apply quiet_field : faults.
#[local] Hint Extern 1 (still _ _ (send_control_event _)) => (apply still_emit; reflexivity) : faults.

Lemma quiet_ask e o : fault o = false -> quiet (ask e o).
Proof. intros Ho. unfold ask. apply still_bind; [by apply still_emit|]. intros ?. apply still_ret. Qed.
#[local] Hint Extern 1 (still _ _ (ask _ _)) => (apply quiet_ask; reflexivity) : faults.

Lemma no_fault_map {A} (f : A -> out) l : (forall x, fault (f x) = false) -> existsb fault (map f l) = false.
Proof. intros Hf. induction l as [|x l IH]; cbn; [done|]. by rewrite Hf. Qed.

Lemma quiet_notify_calls cs : quiet (notify_calls cs).
Proof. unfold notify_calls. apply still_bind; [apply quiet_field|]. intros a. by apply still_emits, no_fault_map. Qed.
#[local] Hint Resolve quiet_notify_calls : faults.

Lemma quiet_pending_action_get : quiet pending_action_get.
Proof. unfold pending_action_get. still_auto. Qed.
Lemma quiet_pending_action_create c p : quiet (pending_action_create c p).
Proof. unfold pending_action_create. still_auto. Qed.
Lemma quiet_set_name num nm : quiet (set_current_call_name num nm).
Proof. unfold set_current_call_name. still_auto. Qed.
Lemma quiet_ciev : quiet hf_service_fake_ciev.
Proof. unfold hf_service_fake_ciev. still_auto. Qed.
Lemma quiet_notify_current : quiet hf_notify_current_calls.
Proof. unfold hf_notify_current_calls. still_auto. Qed.
#[local] Hint Resolve quiet_pending_action_get quiet_pending_action_create quiet_set_name quiet_ciev quiet_notify_current : faults.

Lemma no_fault_refresh a l : existsb fault (concat (map (refresh_outs a) l)) = false.
Proof. induction l as [|[c b] l IH]; cbn; [done|]. by destruct b. Qed.

Lemma quiet_query_final : quiet query_current_calls_final.
Proof. unfold query_current_calls_final. still_auto. apply still_emits, no_fault_refresh. Qed.
Lemma quiet_reset : quiet state_machine_reset_calls.
Proof. unfold state_machine_reset_calls. still_auto. by apply still_emits, no_fault_map. Qed.
Lemma quiet_features f : quiet (update_remote_features f).
Proof. unfold update_remote_features. still_auto. Qed.
Lemma quiet_allowed : quiet check_hfp_allowed.
Proof. unfold check_hfp_allowed. still_auto. Qed.
#[local] Hint Resolve quiet_query_final quiet_reset quiet_features quiet_allowed : faults.

Lemma quiet_destroy : quiet hf_state_machine_destory.
Proof. unfold hf_state_machine_destory. still_auto. by apply still_emits, no_fault_map. Qed.

Section Handlers.
Context (cfg : config) (e : env).

Lemma quiet_sco_allowed : quiet (check_sco_allowed cfg e).
Proof. unfold check_sco_allowed. still_auto. Qed.
Lemma quiet_try_disconnect : quiet (try_disconnect_audio e).
Proof. unfold try_disconnect_audio. still_auto. Qed.
#[local] Hint Resolve quiet_sco_allowed quiet_try_disconnect : faults.
Lemma quiet_verdict ev v : quiet (channel_type_verdict cfg e ev v).
Proof. unfold channel_type_verdict. still_auto. Qed.
#[local] Hint Resolve quiet_verdict : faults.
Lemma quiet_call_status ev v : quiet (update_call_status cfg e ev v).
Proof. unfold update_call_status. still_auto. Qed.
Lemma quiet_accept f : quiet (accept_call e f).
Proof. unfold accept_call. still_auto. Qed.
Lemma quiet_reject : quiet (reject_call e).
Proof. unfold reject_call. still_auto. Qed.
Lemma quiet_hangup : quiet (hangup_call e).
Proof. unfold hangup_call. still_auto. Qed.
Lemma quiet_hold : quiet (hold_call e).
Proof. unfold hold_call. still_auto. Qed.
Lemma quiet_dial_fail n : quiet (handle_dailing_fail n).
Proof. unfold handle_dailing_fail. still_auto. Qed.
#[local] Hint Resolve quiet_dial_fail : faults.
Lemma quiet_voice_volume t v : quiet (handle_hf_set_voice_call_volume e t v).
Proof. unfold handle_hf_set_voice_call_volume. still_auto. Qed.
Lemma quiet_query_callback : quiet query_current_calls_with_callback.
Proof. unfold query_current_calls_with_callback. still_auto. Qed.
Lemma quiet_media_volume d : quiet (media_volume_changed d).
Proof. unfold media_volume_changed. still_auto. Qed.
Lemma quiet_cmd_result c r : quiet (cmd_result c r).
Proof. unfold cmd_result. still_auto. Qed.
Lemma quiet_codec v : quiet (set_codec v).
Proof. unfold set_codec. still_auto. Qed.
Lemma quiet_update_calls c : quiet (update_current_calls c).
Proof. unfold update_current_calls. still_auto. Qed.
Lemma quiet_stop_timer : quiet stop_offload_timer.
Proof. unfold stop_offload_timer. still_auto. Qed.
Lemma quiet_start_timer : quiet (start_offload_timer e).
Proof. unfold start_offload_timer. still_auto. Qed.
Lemma quiet_dial o c p f : fault o = false -> quiet (dial e o c p f).
Proof. intros Ho. unfold dial, update_dialing_time. apply still_bind; [by apply quiet_ask|]. intros ?. still_auto. Qed.
Lemma quiet_set_volume d : quiet (set_volume e d).
Proof. unfold set_volume. still_auto. Qed.
Lemma quiet_no_audio ev : quiet (no_audio_offload ev).
Proof. unfold no_audio_offload. still_auto. Qed.
Lemma quiet_schedule r : quiet (schedule_retry e r).
Proof. unfold schedule_retry. still_auto. Qed.
#[local] Hint Resolve quiet_call_status quiet_accept quiet_reject quiet_hangup quiet_hold quiet_voice_volume quiet_query_callback
  quiet_media_volume quiet_cmd_result quiet_codec quiet_update_calls quiet_stop_timer quiet_start_timer quiet_set_volume
  quiet_no_audio quiet_schedule : faults.
#[local] Hint Extern 1 (still _ _ (dial _ _ _ _ _)) => (apply quiet_dial; reflexivity) : faults.

(** ** The commands of the offload *)

Lemma command_faults is_start sm : fails (negb cfg.(vendor_actions)) (hf_offload_send_cmd cfg e is_start) sm.
Proof.
  unfold hf_offload_send_cmd. apply faults_gets, faults_gets. unfold hfp_offload_start_builder, hfp_offload_stop_builder.
  destruct is_start, (vendor_actions cfg); cbn [negb]; try (apply faults_stop, faults_emit; reflexivity).
  all: match goal with |- context [split_command ?p ?n] => destruct (split_command p n) as [[[[ogf ocf] len] q]|] eqn:E end;
    [by apply quiet_fails, quiet_ask|discriminate E].
Qed.

Lemma stop_faults sm : fails (negb cfg.(vendor_actions)) (offload_stop_req cfg e) sm.
Proof.
  unfold offload_stop_req. apply (faults_before _ offloading); [still_auto|]. intros running sm1 _ _. apply (faults_before _ offloading); [still_auto|]. intros _ sm2 _ _.
  apply (faults_after _ offloading); [apply command_faults|]. intros ok. still_auto.
Qed.

(** ** Leaving and entering *)

Lemma exit_audio_faults sm : sm.(current_state) = Some audio_on_state -> fails (cannot_stop cfg sm) (audio_on_exit cfg e) sm.
Proof.
  intros _. unfold audio_on_exit, cannot_stop. apply faults_gets. do 3 (apply (faults_before _ offloading); [still_auto|]; intros _ ?sm _ <-).
  unfold field. apply faults_gets. apply (faults_after _ offloading); [|intros ?; still_auto].
  match goal with |- fails _ (when ?b _) _ => destruct b end; cbn [andb when]; [apply stop_faults|apply quiet_fails, still_ret].
Qed.

Lemma exit_keeps : still (fun _ => false) offloading (audio_on_exit cfg e).
Proof.
  unfold audio_on_exit, offload_stop_req, stop_offload_timer, hf_offload_send_cmd, ask, send_control_event, flag_set, flag_clear, field, upd. still_auto.
Qed.

Lemma quiet_exit c : c <> audio_on_state -> quiet (Hsm.exit (StateTable := hf_states cfg e) c).
Proof. intros Hc. destruct c; try done; cbn; unfold disconnected_exit, connecting_exit, connected_exit; still_auto. Qed.

Lemma quiet_enter c : quiet (Hsm.enter (StateTable := hf_states cfg e) c).
Proof. destruct c; cbn; unfold disconnected_enter, connecting_enter, connected_enter, audio_on_enter; still_auto. Qed.

(** A transition fails exactly where the offload cannot be stopped. *)
Lemma transition_faults st sm c :
  sm.(current_state) = Some c ->
  fails (bool_decide (c = audio_on_state) && cannot_stop cfg sm) (hsm_transition_to (StateTable0 := hf_states cfg e) st) sm.
Proof.
  intros Hc. eapply (faults_transition fault c); [done| | |].
  - case_bool_decide as E; cbn [andb]; [subst c; by apply exit_audio_faults|]. by apply quiet_fails, quiet_exit.
  - rewrite <- Hc. destruct c; [by apply quiet_exit..|]. apply exit_keeps.
  - intros sm' _. apply quiet_fails, quiet_enter.
Qed.

(** ** Messages *)

(** A transition out of a state, after what is still. *)
Lemma hf_leaves st sm sm' c :
  sm.(current_state) = Some c -> sm'.(current_state) = sm.(current_state) -> offloading sm'.(data) = offloading sm.(data) ->
  fails (bool_decide (c = audio_on_state) && cannot_stop cfg sm) (hsm_transition_to (StateTable0 := hf_states cfg e) st) sm'.
Proof.
  intros Hc Hc' Hk. assert (cannot_stop cfg sm = cannot_stop cfg sm') as -> by (unfold cannot_stop; by rewrite Hk).
  apply transition_faults. congruence.
Qed.

Ltac handler Hc :=
  repeat match goal with
  | |- faults _ false ?m _ => solve [apply quiet_fails; still_auto]
  | |- faults _ _ (mbind_ (field _) _) _ => apply faults_gets
  | |- faults _ _ (hf_offload_send_cmd _ _ _) _ => apply command_faults
  | |- faults _ _ (offload_stop_req _ _) _ => apply stop_faults
  | |- faults _ _ (hsm_transition_to _) _ => solve [refine (eq_trans (hf_leaves _ _ _ _ Hc _ _) _); [congruence|congruence|reflexivity]]
  | |- faults _ _ (mbind_ _ _) _ => apply (faults_after _ offloading); [|intros ?; solve [still_auto]]
  | |- faults _ _ (mbind_ _ _) _ => apply (faults_before _ offloading); [solve [still_auto]|intros ? ? ? ?]
  | |- faults _ _ (when ?b _) _ => destruct b; cbn [when andb]
  | |- faults _ _ (if ?b then _ else _) _ => destruct b; cbn [andb]
  end.

(** Nothing that Connected and AudioOn share makes a transition. *)
Lemma default_faults m sm :
  fails match m.(event) with
        | HF_SEND_AT_COMMAND => no_string m
        | HF_STACK_EVENT_CURRENT_CALLS => negb (s32 m.(msg_data).(valueint1) =? 0)%Z && no_string m
        | _ => false
        end (default_process_event cfg e m.(event) m.(msg_data)) sm.
Proof.
  unfold default_process_event. apply faults_gets. destruct (event m) eqn:Ev; try (apply quiet_fails; cbn zeta; still_auto).
  - unfold no_string. destruct (string1 _); [apply quiet_fails; cbn zeta; still_auto|]. by apply faults_stop, faults_emit.
  - cbn zeta. destruct (_ =? 0)%Z; cbn [negb andb]; [apply quiet_fails; still_auto|]. unfold no_string, hf_call_new.
    destruct (string1 _); [apply quiet_fails; still_auto|]. apply faults_stop. apply (faults_before _ offloading); [still_auto|]. intros _ sm' _ _.
    by apply faults_stop, faults_emit.
Qed.

Lemma process_faults m sm c : sm.(current_state) = Some c -> fails (machine_faults cfg sm m) (process cfg e c m) sm.
Proof.
  intros Hc. unfold machine_faults. rewrite Hc. destruct c; cbn [process].
  - unfold disconnected_process_event. destruct (event m); handler Hc.
  - unfold connecting_process_event. destruct (event m); handler Hc.
  - pose proof (default_faults m sm) as Hd. unfold connected_process_event. apply faults_gets. destruct (event m) eqn:Ev; try exact Hd; handler Hc.
  - pose proof (default_faults m sm) as Hd. unfold audio_on_process_event. apply faults_gets. destruct (event m) eqn:Ev; try exact Hd; handler Hc.
Qed.

(** A message makes the machine fail exactly when [machine_faults] says so. *)
Lemma dispatch_faults m sm : fails (machine_faults cfg sm m) (hf_state_machine_dispatch cfg e m) sm.
Proof.
  destruct (current_state sm) as [c|] eqn:Hc.
  - unfold faults, outs. rewrite (hf_dispatch_eq cfg e m c sm Hc). by apply process_faults.
  - unfold machine_faults, faults, outs, hf_state_machine_dispatch, hsm_dispatch_event, mbind_, gets. by rewrite Hc.
Qed.

(** The messages that go to every machine do not. *)
Lemma common_faults m sm : m.(event) = HF_UPDATE_BATTERY_LEVEL \/ m.(event) = HF_SET_VOLUME -> machine_faults cfg sm m = false.
Proof. unfold machine_faults. intros [-> | ->]; by destruct (current_state sm) as [[]|]. Qed.

(** Nor do the timers, the controller and the media system. *)
Lemma callback_faults i sm c :
  match i with in_msg _ => False | _ => True end -> sm.(current_state) = Some c -> fails false (handle_input cfg e i) sm.
Proof.
  intros Hn Hc. destruct i as [m| | | | | | |]; [done|..]; cbn [handle_input].
  - apply quiet_fails. unfold connect_timeout. still_auto.
  - unfold hf_retry_callback. apply faults_gets, faults_gets. apply (faults_after _ offloading); [|intros ?; still_auto].
    destruct c; unfold hf_state_machine_get_state; rewrite Hc; cbn [value_of Z.eqb HFP_HF_STATE_DISCONNECTED when]; try (apply quiet_fails, still_ret).
    handler Hc.
  - unfold hfp_hf_offload_timeout_callback. apply faults_gets. apply (faults_after _ offloading); [|intros ?; still_auto].
    refine (eq_trans (dispatch_faults _ sm) _). unfold machine_faults. rewrite Hc. by destruct c.
  - apply quiet_fails. unfold bt_hci_event_callback. still_auto.
  - apply quiet_fails. unfold hfp_hf_voice_volume_change_callback. still_auto.
  - done.
  - done.
Qed.
End Handlers.
End HfpHfFaults.
