(* ===== verification/HfpHfService.v ===== *)
(** * The hands-free service (service/profiles/hfp_hf/hfp_hf_service.c)

    The service keeps one machine of HfpHf.v per audio gateway it has heard
    of, in the way of PeerService.v.  Its interface and the stack's callbacks
    post messages to the service loop; [hfp_hf_process_message] takes them one
    at a time. *)

From S2P Require Import Prelude Fallible Hsm MachineFaults Bytes BtAddr Hci PeerService HfpHf HfpHfSpec HfpHfFaults.
From stdpp Require Import strings.
From coqutil Require Import Datatypes.RecordSetters.
Import UpdaterNotations.

Local Open Scope fall_scope.

Module HfpHfService.
Import Hsm MachineFaults BtAddr Hci PeerService HfpHf HfpHfSpec HfpHfFaults.

(** ** State and calls *)

Abbreviation hf_device_t := (device_t hf_state_machine_t).
Abbreviation hf_service_t := (service_t hf_state_machine_t).

Inductive sout :=
| machine_out (o : out)
| send_message (m : hfp_hf_msg_t)
| on_startup (ok : bool)
| on_shutdown (ok : bool)
| bt_sal_hfp_hf_init
| bt_sal_hfp_hf_cleanup
| control_event (ev : audio_ctrl_evt_t)
| audio_ctrl_init
| audio_ctrl_cleanup.

Abbreviation MS := (E hf_service_t sout).

Section Service.
Context (cfg : config) (CONFIG_HFP_HF_MAX_CONNECTIONS : Z).
(** What the outside answers to one message, the statuses of the stack's and
    of the audio control's initialisation among it. *)
Context (e : env) (init_status audio_status : bt_status_t).

(** ** Devices *)

Definition hf_device_cmp : bt_address_t -> hf_device_t -> bool := device_cmp.
Definition find_hf_device_by_addr : bt_address_t -> MS (option nat) := find_by_addr.
Definition find_hf_device_by_state : Z -> MS (option hf_device_t) := find_by_state hf_state_machine_get_state.

(** The machine is told to disconnect, then freed. *)
Definition hf_device_delete (a : bt_address_t) : MH unit :=
  (hf_state_machine_dispatch cfg e (hfp_hf_msg_new HF_DISCONNECT a);;; hf_state_machine_destory)%bt.

Definition new_machine (a : bt_address_t) (off : bool) : hf_state_machine_t :=
  hf_state_machine_set_offloading off (hf_state_machine_new cfg e a).

Definition get_state_machine : bt_address_t -> MS (option nat) := get_machine new_machine.

(** ** Messages *)

Definition hf_startup : MS unit :=
  st <- egets started;;
  if st then eemit (on_startup true)
  else
    emodify {! max_connections := CONFIG_HFP_HF_MAX_CONNECTIONS };;;
    emodify {! svc_devices := Some [] };;;
    cb <- egets callbacks;;
    if cb then
      eemit bt_sal_hfp_hf_init;;;
      if is_success init_status then
        emodify {! started := true };;; eemit (on_startup true)
      else emodify {! svc_devices := None };;; eemit (on_startup false)
    else emodify {! svc_devices := None };;; eemit (on_startup false).

Definition hf_shutdown : MS unit :=
  st <- egets started;;
  if negb st then eemit (on_shutdown true)
  else
    emodify {! started := false };;;
    delete_all machine_out hf_device_delete;;;
    emodify {! svc_devices := None };;;
    eemit bt_sal_hfp_hf_cleanup;;;
    eemit (on_shutdown true).

Definition hf_dispatch_msg_foreach (m : hfp_hf_msg_t) : MS unit :=
  foreach machine_out (hf_state_machine_dispatch cfg e m).

Definition audio_connected (m : hfp_hf_msg_t) : bool :=
  bool_decide (m.(event) = HF_STACK_EVENT_AUDIO_STATE_CHANGED)
  && (m.(msg_data).(valueint1) =? HFP_AUDIO_STATE_CONNECTED)%Z.

Definition hfp_hf_process_message (m : hfp_hf_msg_t) : MS unit :=
  st <- egets started;;
  if negb st && negb (bool_decide (m.(event) = HF_STARTUP)) then eret tt
  else match m.(event) with
  | HF_STARTUP => hf_startup
  | HF_SHUTDOWN => hf_shutdown
  | HF_UPDATE_BATTERY_LEVEL | HF_SET_VOLUME => hf_dispatch_msg_foreach m
  | _ => run_machine machine_out new_machine m.(msg_data).(data_addr) (audio_connected m) (hf_state_machine_dispatch cfg e m)
  end.

Definition hfp_hf_send_message (m : hfp_hf_msg_t) : MS bt_status_t :=
  eemit (send_message m);;; eret BT_STATUS_SUCCESS.

Definition hfp_hf_send_event (a : bt_address_t) (ev : hfp_hf_event_t) : MS bt_status_t :=
  hfp_hf_send_message (hfp_hf_msg_new ev a).

(** ** Profile functions *)

Definition hfp_hf_init : MS bt_status_t :=
  cb <- egets callbacks;;
  if cb then eret BT_STATUS_SUCCESS
  else
    emodify {! callbacks := true };;;
    eemit audio_ctrl_init;;;
    if is_success audio_status then eret audio_status
    else emodify {! callbacks := false };;; eret audio_status.

Definition hfp_hf_cleanup : MS unit :=
  eemit audio_ctrl_cleanup;;; emodify {! callbacks := false }.

(** The callback travels as a number, whose value the model does not need. *)
Definition hfp_hf_startup : MS bt_status_t := hfp_hf_send_message (hfp_hf_msg_new HF_STARTUP bt_addr_empty).
Definition hfp_hf_shutdown : MS bt_status_t := hfp_hf_send_message (hfp_hf_msg_new HF_SHUTDOWN bt_addr_empty).

(** [PROFILE_EVT_HFP_OFFLOADING]; a detached client only loses its callbacks. *)
Definition hfp_hf_process_msg (off : bool) : MS unit := emodify {! svc_offloading := off }.

Definition get_current_connnection_cnt : MS Z :=
  count (fun sm => let st := hf_state_machine_get_state sm in
                   ((HFP_HF_STATE_CONNECTED <=? st) || (st =? HFP_HF_STATE_CONNECTING))%Z%bool).

Definition hfp_hf_on_sco (ev : hfp_hf_event_t) (done : audio_ctrl_evt_t) : MS bool :=
  d <- find_hf_device_by_state HFP_HF_STATE_AUDIO_CONNECTED;;
  match d with
  | None => eret false
  | Some d =>
      off <- egets svc_offloading;;
      if negb off then eemit (control_event done);;; eret true
      else hfp_hf_send_event d.(dev_addr) ev;;; eret true
  end.

Definition hfp_hf_on_sco_start : MS bool := hfp_hf_on_sco HF_OFFLOAD_START_REQ AUDIO_CTRL_EVT_STARTED.
Definition hfp_hf_on_sco_stop : MS bool := hfp_hf_on_sco HF_OFFLOAD_STOP_REQ AUDIO_CTRL_EVT_STOPPED.

(** ** The interface *)

Definition hfp_hf_is_connected (a : bt_address_t) : MS bool :=
  d <- device_at a;;
  eret match d with
       | None => false
       | Some d => (HFP_HF_STATE_CONNECTED <=? hf_state_machine_get_state d.(dev_sm))%Z
       end.

Definition is_audio_connected (a : bt_address_t) : MS bool :=
  d <- device_at a;;
  eret match d with None => false | Some d => hfp_hf_is_audio_connected d.(dev_sm) end.

Definition get_connection_state (a : bt_address_t) : MS Z :=
  d <- device_at a;;
  eret match d with None => PROFILE_STATE_DISCONNECTED | Some d => hfp_hf_get_connection_state d.(dev_sm) end.

(** The guard of the commands that need a link. *)
Definition if_connected (a : bt_address_t) (m : MS bt_status_t) : MS bt_status_t :=
  CHECK_ENABLED (c <- hfp_hf_is_connected a;; if negb c then eret BT_STATUS_FAIL else m).

Definition hfp_hf_connect (a : bt_address_t) : MS bt_status_t :=
  CHECK_ENABLED (
    n <- get_current_connnection_cnt;;
    mx <- egets max_connections;;
    if (mx <=? n)%Z then eret BT_STATUS_NO_RESOURCES else hfp_hf_send_event a HF_CONNECT).

Definition hfp_hf_disconnect (a : bt_address_t) : MS bt_status_t :=
  CHECK_ENABLED (
    st <- get_connection_state a;;
    if ((st =? PROFILE_STATE_DISCONNECTED) || (st =? PROFILE_STATE_DISCONNECTING))%Z%bool
    then eret BT_STATUS_FAIL else hfp_hf_send_event a HF_DISCONNECT).

Definition hfp_hf_set_connection_policy (a : bt_address_t) (policy : Z) : MS bt_status_t :=
  CHECK_ENABLED (
    i <- get_state_machine a;;
    match i with
    | None => eret BT_STATUS_FAIL
    | Some i =>
        at_device machine_out i (modify (hf_state_machine_set_policy policy));;;
        (if (policy =? CONNECTION_POLICY_ALLOWED)%Z then hfp_hf_connect a
         else if (policy =? CONNECTION_POLICY_FORBIDDEN)%Z then hfp_hf_disconnect a
         else eret BT_STATUS_SUCCESS);;;
        eret BT_STATUS_SUCCESS
    end).

Definition hfp_hf_connect_audio (a : bt_address_t) : MS bt_status_t :=
  CHECK_ENABLED (
    c <- hfp_hf_is_connected a;;
    au <- is_audio_connected a;;
    if negb c || au then eret BT_STATUS_FAIL else hfp_hf_send_event a HF_CONNECT_AUDIO).

Definition hfp_hf_disconnect_audio (a : bt_address_t) : MS bt_status_t :=
  CHECK_ENABLED (
    au <- is_audio_connected a;;
    if negb au then eret BT_STATUS_FAIL else hfp_hf_send_event a HF_DISCONNECT_AUDIO).

(** [HF_MSG_ADD_STR]: an empty string is the NULL pointer. *)
Definition HF_MSG_ADD_STR (s : string) : option string := match s with EmptyString => None | _ => Some s end.

(** A message with values and strings. *)
Definition msg_with (ev : hfp_hf_event_t) (a : bt_address_t) (v1 v2 v3 v4 : Z) (s1 s2 : option string) : hfp_hf_msg_t :=
  mk_msg ev (mk_msg_data a v1 v2 v3 v4 s1 s2 (mk_hci 0 [])).

Definition hfp_hf_start_voice_recognition a := if_connected a (hfp_hf_send_event a HF_VOICE_RECOGNITION_START).
Definition hfp_hf_stop_voice_recognition a := if_connected a (hfp_hf_send_event a HF_VOICE_RECOGNITION_STOP).
Definition hfp_hf_dial a (num : string) :=
  if_connected a (hfp_hf_send_message (msg_with HF_DIAL_NUMBER a 0 0 0 0 (HF_MSG_ADD_STR num) None)).
Definition hfp_hf_dial_memory a (memory : Z) :=
  if_connected a (hfp_hf_send_message (msg_with HF_DIAL_MEMORY a memory 0 0 0 None None)).
Definition hfp_hf_redial a := if_connected a (hfp_hf_send_event a HF_DIAL_LAST).
Definition hfp_hf_accept_call a (flag : Z) :=
  if_connected a (hfp_hf_send_message (msg_with HF_ACCEPT_CALL a flag 0 0 0 None None)).
Definition hfp_hf_reject_call a := if_connected a (hfp_hf_send_event a HF_REJECT_CALL).
Definition hfp_hf_hold_call a := if_connected a (hfp_hf_send_event a HF_HOLD_CALL).
Definition hfp_hf_terminate_call a := if_connected a (hfp_hf_send_event a HF_TERMINATE_CALL).
Definition hfp_hf_control_call a (chld index : Z) :=
  if_connected a (hfp_hf_send_message (msg_with HF_CONTROL_CALL a chld index 0 0 None None)).
Definition hfp_hf_send_at_cmd a (cmd : string) :=
  if_connected a (hfp_hf_send_message (msg_with HF_SEND_AT_COMMAND a 0 0 0 0 (HF_MSG_ADD_STR cmd) None)).
Definition hfp_hf_update_battery_level a (level : Z) :=
  CHECK_ENABLED (hfp_hf_send_message (msg_with HF_UPDATE_BATTERY_LEVEL a level 0 0 0 None None)).
Definition hfp_hf_volume_control a (type volume : Z) :=
  CHECK_ENABLED (hfp_hf_send_message (msg_with HF_SET_VOLUME a type volume 0 0 None None)).
Definition hfp_hf_send_dtmf a (dtmf : Z) :=
  CHECK_ENABLED (hfp_hf_send_message (msg_with HF_SEND_DTMF a dtmf 0 0 0 None None)).
Definition hfp_hf_get_subscriber_number a := CHECK_ENABLED (hfp_hf_send_event a HF_GET_SUBSCRIBER_NUMBER).
Definition hfp_hf_query_current_calls_with_callback a :=
  CHECK_ENABLED (hfp_hf_send_event a HF_QUERY_CURRENT_CALLS_WITH_CALLBACK).

(** The status and the calls copied out; [alloc]: the caller's allocator
    finds room. *)
Definition hfp_hf_query_current_calls (alloc : bool) (a : bt_address_t) : MS (bt_status_t * list hfp_current_call_t) :=
  st <- egets started;;
  if negb st then eret (BT_STATUS_NOT_ENABLED, [])
  else
    c <- hfp_hf_is_connected a;;
    if negb c then eret (BT_STATUS_FAIL, [])
    else
      i <- get_state_machine a;;
      l <- devices;;
      match i ≫= fun i => l !! i with
      | None => efail
      | Some d =>
          let calls := d.(dev_sm).(data).(current_calls) in
          if bool_decide (calls = []) then eret (BT_STATUS_SUCCESS, [])
          else if negb alloc then eret (BT_STATUS_NOMEM, [])
          else eret (BT_STATUS_SUCCESS, calls)
      end.

(** ** The stack's callbacks *)

Definition stack_event (m : hfp_hf_msg_t) : MS unit := hfp_hf_send_message m;;; eret tt.

Definition hfp_hf_on_connection_state_changed a (state reason features : Z) : MS unit :=
  stack_event (msg_with HF_STACK_EVENT_CONNECTION_STATE_CHANGED a state reason features 0 None None).
Definition hfp_hf_on_audio_connection_state_changed a (state handle : Z) : MS unit :=
  stack_event (msg_with HF_STACK_EVENT_AUDIO_STATE_CHANGED a state handle 0 0 None None).
Definition hfp_hf_on_codec_changed a (codec : Z) : MS unit :=
  stack_event (msg_with HF_STACK_EVENT_CODEC_CHANGED a codec 0 0 0 None None).
Definition hfp_hf_on_call_setup_state_changed a (setup : Z) : MS unit :=
  stack_event (msg_with HF_STACK_EVENT_CALLSETUP a setup 0 0 0 None None).
Definition hfp_hf_on_call_active_state_changed a (state : Z) : MS unit :=
  stack_event (msg_with HF_STACK_EVENT_CALL a state 0 0 0 None None).
Definition hfp_hf_on_call_held_state_changed a (state : Z) : MS unit :=
  stack_event (msg_with HF_STACK_EVENT_CALLHELD a state 0 0 0 None None).
Definition hfp_hf_on_volume_changed a (type volume : Z) : MS unit :=
  stack_event (msg_with HF_STACK_EVENT_VOLUME_CHANGED a type volume 0 0 None None).
Definition hfp_hf_on_ring_active_state_changed a (active : bool) (inband : Z) : MS unit :=
  stack_event (msg_with HF_STACK_EVENT_RING_INDICATION a (if active then 1 else 0) inband 0 0 None None).
Definition hfp_hf_on_voice_recognition_state_changed a (on : bool) : MS unit :=
  stack_event (msg_with HF_STACK_EVENT_VR_STATE_CHANGED a (if on then 1 else 0) 0 0 0 None None).
Definition hfp_hf_on_received_at_cmd_resp a (response : string) : MS unit :=
  stack_event (msg_with HF_STACK_EVENT_CMD_RESPONSE a 0 0 0 0 (HF_MSG_ADD_STR response) None).
Definition hfp_hf_on_received_sco_connection_req a : MS unit :=
  stack_event (hfp_hf_msg_new HF_STACK_EVENT_AUDIO_REQ a).
Definition hfp_hf_on_clip a (number name : string) : MS unit :=
  stack_event (msg_with HF_STACK_EVENT_CLIP a 0 0 0 0 (HF_MSG_ADD_STR number) (HF_MSG_ADD_STR name)).
Definition hfp_hf_on_current_call_response a (idx dir status mpty : Z) (number : string) : MS unit :=
  stack_event (msg_with HF_STACK_EVENT_CURRENT_CALLS a idx dir status mpty (HF_MSG_ADD_STR number) None).
Definition hfp_hf_on_at_command_result_response a (code result : Z) : MS unit :=
  if ((code =? HFP_ATCMD_CODE_ATD) || (code =? HFP_ATCMD_CODE_BLDN))%Z%bool
  then stack_event (msg_with HF_STACK_EVENT_CMD_RESULT a code result 0 0 None None)
  else eret tt.
Definition hfp_hf_on_subscriber_number_response a (number : string) (service : Z) : MS unit :=
  stack_event (msg_with HF_STACK_EVENT_CNUM a 0 service 0 0 (HF_MSG_ADD_STR number) None).

End Service.

(** ** Operations

    What can happen to the service: a message taken by the loop, a call of the
    interface, an audio request, a notice of the service manager, or a call back
    to one of the machines, which comes with a pointer to it.  The answers of
    the outside come with each. *)

Inductive callback :=
| cb_connect_timeout | cb_retry | cb_offload_timeout   (* timers *)
| cb_hci (h : bt_hci_event_t)                          (* the controller *)
| cb_volume (v : Z).                                   (* the media system *)

Definition input_of (c : callback) : input :=
  match c with
  | cb_connect_timeout => in_connect_timeout
  | cb_retry => in_retry
  | cb_offload_timeout => in_offload_timeout
  | cb_hci h => in_hci h
  | cb_volume v => in_volume v
  end.

Inductive op :=
| op_process (m : hfp_hf_msg_t)
| op_connect (a : bt_address_t)
| op_disconnect (a : bt_address_t)
| op_policy (a : bt_address_t) (p : Z)
| op_connect_audio (a : bt_address_t)
| op_disconnect_audio (a : bt_address_t)
| op_command (a : bt_address_t) (m : hfp_hf_msg_t)     (* a command that needs a link *)
| op_request (m : hfp_hf_msg_t)                        (* one that does not *)
| op_query (alloc : bool) (a : bt_address_t)
| op_sco (start : bool)
| op_offloading (b : bool)
| op_init | op_cleanup
| op_is_connected (a : bt_address_t)                   (* questions *)
| op_is_audio_connected (a : bt_address_t)
| op_state (a : bt_address_t)
| op_callback (p : sm_ptr) (c : callback).

Record answers := mk_answers { ans_env : env; ans_init : bt_status_t; ans_audio : bt_status_t }.

(** [n]: the shutdowns so far. *)
Definition run_op (cfg : config) (mx : Z) (n : nat) (w : answers) (o : op) : MS unit :=
  let e := w.(ans_env) in
  match o with
  | op_process m => hfp_hf_process_message cfg mx e w.(ans_init) m
  | op_connect a => hfp_hf_connect a;;; eret tt
  | op_disconnect a => hfp_hf_disconnect a;;; eret tt
  | op_policy a p => hfp_hf_set_connection_policy cfg e a p;;; eret tt
  | op_connect_audio a => hfp_hf_connect_audio a;;; eret tt
  | op_disconnect_audio a => hfp_hf_disconnect_audio a;;; eret tt
  | op_command a m => if_connected a (hfp_hf_send_message m);;; eret tt
  | op_request m => CHECK_ENABLED (hfp_hf_send_message m);;; eret tt
  | op_query alloc a => hfp_hf_query_current_calls cfg e alloc a;;; eret tt
  | op_sco true => hfp_hf_on_sco_start;;; eret tt
  | op_sco false => hfp_hf_on_sco_stop;;; eret tt
  | op_offloading b => hfp_hf_process_msg b
  | op_init => hfp_hf_init w.(ans_audio);;; eret tt
  | op_cleanup => hfp_hf_cleanup
  | op_is_connected a => hfp_hf_is_connected a;;; eret tt
  | op_is_audio_connected a => is_audio_connected a;;; eret tt
  | op_state a => get_connection_state a;;; eret tt
  | op_callback p c => at_pointer machine_out n p (handle_input cfg e (input_of c))
  end.

Definition g_hfp_service : hf_service_t := mk_service false false 0 None false.

(** A shutdown frees the machines. *)
Definition frees (s : hf_service_t) (o : op) : bool :=
  match o with op_process m => s.(started) && bool_decide (m.(event) = HF_SHUTDOWN) | _ => false end.

(** The services reached by any operations, with the number of shutdowns. *)
Inductive reaches (cfg : config) (mx : Z) : nat -> hf_service_t -> Prop :=
| r_initial : reaches cfg mx 0 g_hfp_service
| r_step n s w o s' os :
    reaches cfg mx n s -> run_op cfg mx n w o s = Some (tt, s', os) -> reaches cfg mx (if frees s o then S n else n) s'.

(** ** What fails

    A call that stands for a failed assertion or a read through NULL. *)
Definition bad (o : sout) : bool := match o with machine_out o => fault o | _ => false end.

(** There is no list to ask. *)
Definition no_list (s : hf_service_t) : bool := match s.(svc_devices) with None => true | Some _ => false end.

(** The operations that fail: a question while there is no list, a call back to
    a machine that was freed, and the messages on which the machine that they
    go to fails ([machine_faults]); at a shutdown every machine gets one. *)
Definition svc_fails (cfg : config) (n : nat) (s : hf_service_t) (o : op) : bool :=
  match o with
  | op_process m =>
      s.(started) &&
      match m.(event) with
      | HF_STARTUP | HF_UPDATE_BATTERY_LEVEL | HF_SET_VOLUME => false
      | HF_SHUTDOWN => existsb (fun d => machine_faults cfg d.(dev_sm) (hfp_hf_msg_new HF_DISCONNECT d.(dev_addr))) (default [] s.(svc_devices))
      | _ =>
          let l := default [] s.(svc_devices) in
          match find_device (device_cmp m.(msg_data).(data_addr)) l ≫= fun i => l !! i with
          | Some d => machine_faults cfg d.(dev_sm) m
          | None => false
          end
      end
  | op_is_connected _ | op_is_audio_connected _ | op_state _ => no_list s
  | op_callback p _ => negb (is_live n s p)
  | _ => false
  end.

(** ** The invariant *)

(** The machine of a device is one of that address, in one of its states. *)
Definition machine_ok (a : bt_address_t) (sm : hf_state_machine_t) : Prop :=
  exists c, sm.(current_state) = Some c /\ sm.(data).(addr) = a /\ data_inv c sm.(data).

Abbreviation hf_inv := (svc_inv machine_ok).
Abbreviation hf_safe m := (safe machine_ok m).

Lemma goes_keeps m : (forall c, goes c m) -> keeps machine_ok m.
Proof.
  intros Hm a sm (c & Hc & Ha & Hi). destruct (Hm c sm Hc Hi) as (c' & _ & [S1 _ S3 _ _ _ S7]).
  exists c'. split; [done|]. split; [congruence|done].
Qed.

Lemma dispatch_keeps cfg e m : keeps machine_ok (hf_state_machine_dispatch cfg e m).
Proof. apply goes_keeps. intros c. apply dispatch_goes. Qed.

Lemma new_machine_ok cfg e a off : machine_ok a (new_machine cfg e a off).
Proof.
  exists disconnected_state. destruct (hf_new_machine cfg e a) as (Hc & Ha & Hi & _). split; [done|]. split; [done|]. exact Hi.
Qed.

Lemma send_safe m : hf_safe (hfp_hf_send_message m).
Proof. unfold hfp_hf_send_message. safe_auto. Qed.
Lemma send_event_safe a ev : hf_safe (hfp_hf_send_event a ev).
Proof. apply send_safe. Qed.
#[local] Hint Resolve send_safe send_event_safe : svc.

Lemma startup_safe mx st : hf_safe (hf_startup mx st).
Proof.
  intros [b1 b2 b3 dl b5] Hs. unfold hf_startup, svc_inv in *. cbn in Hs. wp_simpl. cbn [started].
  destruct b1; [done|]. destruct dl; [by destruct Hs|]. wp_simpl. cbn. destruct b5; cbn; [|done].
  wp_simpl. destruct (is_success st); cbn; [|done]. split; [done|]. split; constructor.
Qed.

Lemma shutdown_safe cfg e : hf_safe (hf_shutdown cfg e).
Proof.
  intros [b1 b2 b3 dl b5] Hs. unfold hf_shutdown, svc_inv in *. cbn in Hs. wp_simpl. cbn [started].
  destruct b1; cbn; [|done]. wp_simpl. unfold delete_all. wp_simpl. cbn. destruct dl; cbn; done.
Qed.

Lemma process_safe cfg mx e st m : hf_safe (hfp_hf_process_message cfg mx e st m).
Proof.
  intros s Hs. unfold hfp_hf_process_message. apply wp_bind, wp_gets. destruct (started s) eqn:Hst; cbn [negb andb].
  - destruct (inv_up _ s Hs Hst) as [n Hup]. destruct (event m) eqn:Hev; try (by apply startup_safe); try (by apply shutdown_safe);
      try (eapply run_machine_up; [exact (new_machine_ok cfg e)|apply dispatch_keeps|done]).
    all: eapply wp_mono; [|apply foreach_up; [apply dispatch_keeps|exact Hup]]; intros [] s2 o2 H2; exact (up_inv _ _ _ H2).
  - case_bool_decide as Hev; cbn; [|done]. rewrite Hev. by apply startup_safe.
Qed.

Lemma connect_safe a : hf_safe (hfp_hf_connect a).
Proof. apply count_safe. intros n. safe_auto. Qed.
Lemma disconnect_safe a : hf_safe (hfp_hf_disconnect a).
Proof. apply guarded_safe. intros x. safe_auto. Qed.
#[local] Hint Resolve connect_safe disconnect_safe : svc.

Lemma command_safe a m : hf_safe m -> hf_safe (if_connected a m).
Proof. intros Hm. apply guarded_safe. intros x. case_match; [apply safe_ret|done]. Qed.
Lemma connect_audio_safe a : hf_safe (hfp_hf_connect_audio a).
Proof. apply guarded2_safe. intros x y. safe_auto. Qed.
Lemma disconnect_audio_safe a : hf_safe (hfp_hf_disconnect_audio a).
Proof. apply guarded_safe. intros x. safe_auto. Qed.

Lemma policy_safe cfg e a p : hf_safe (hfp_hf_set_connection_policy cfg e a p).
Proof.
  apply check_safe. intros n s Hup. apply wp_bind. eapply wp_mono; [|eapply wp_get_machine; [exact (new_machine_ok cfg e)|done]].
  intros r s1 o1 (i & n' & -> & Hi & Hup'). apply wp_bind. eapply wp_mono; [|apply (wp_at_device _ machine_ok n' i); [done|done|apply goes_keeps]].
  - intros [] s2 o2 H2. apply up_inv in H2.
    assert (hf_safe ((if (p =? CONNECTION_POLICY_ALLOWED)%Z then hfp_hf_connect a
         else if (p =? CONNECTION_POLICY_FORBIDDEN)%Z then hfp_hf_disconnect a
         else eret BT_STATUS_SUCCESS);;; eret BT_STATUS_SUCCESS)) as Hk by safe_auto.
    exact (Hk s2 H2).
  - intros c. apply (handle_input_goes cfg e (in_set_policy p)).
Qed.

Lemma query_safe cfg e alloc a : hf_safe (hfp_hf_query_current_calls cfg e alloc a).
Proof.
  intros s Hs. unfold hfp_hf_query_current_calls. apply wp_bind, wp_gets. destruct (started s) eqn:Hst; cbn [negb]; [|done].
  destruct (inv_up _ s Hs Hst) as [n Hup]. apply wp_bind. eapply ask_device; [done|]. intros []; cbn [negb]; [|by apply wp_ret].
  apply wp_bind. eapply wp_mono; [|eapply wp_get_machine; [exact (new_machine_ok cfg e)|done]]. intros r s1 o1 (i & n' & -> & Hi & Hup').
  apply wp_bind. eapply wp_devices; [done|]. intros l Hl Hd Hn. cbn.
  destruct (lookup_lt_is_Some_2 l i ltac:(lia)) as [d ->]. apply up_inv in Hup'. repeat case_match; by apply wp_ret.
Qed.

Lemma sco_safe ev d : hf_safe (hfp_hf_on_sco ev d).
Proof. apply by_state_safe. intros d'. safe_auto. Qed.

Lemma init_safe st : hf_safe (hfp_hf_init st).
Proof. intros [b1 b2 b3 dl b5] Hs. unfold hfp_hf_init, svc_inv in *. wp_simpl. cbn in *. destruct b5; cbn; [done|]. by destruct (is_success st). Qed.

(** The operations that do not come through a pointer and are no questions. *)
Definition plain (o : op) : bool :=
  match o with op_is_connected _ | op_is_audio_connected _ | op_state _ | op_callback _ _ => false | _ => true end.

Lemma run_op_safe cfg mx n w o : plain o = true -> hf_safe (run_op cfg mx n w o).
Proof.
  intros Hp. destruct o as [| | | | | | | | |[]| | | | | | |]; try discriminate Hp; cbn [run_op]; try (apply safe_bind; [|intros ?; apply safe_ret]).
  - apply process_safe.
  - apply connect_safe.
  - apply disconnect_safe.
  - apply policy_safe.
  - apply connect_audio_safe.
  - apply disconnect_audio_safe.
  - apply command_safe, send_safe.
  - apply check_safe. intros k s Hup. eapply wp_mono; [|apply send_safe; by eapply up_inv]. done.
  - apply query_safe.
  - apply sco_safe.
  - apply sco_safe.
  - intros [b1 b2 b3 dl b5] Hs. unfold svc_inv in *. done.
  - apply init_safe.
  - intros [b1 b2 b3 dl b5] Hs. unfold svc_inv in *. cbn in *. done.
Qed.

Lemma handle_callback_keeps cfg e c : keeps machine_ok (handle_input cfg e (input_of c)).
Proof. apply goes_keeps. intros k. apply handle_input_goes. Qed.

Lemma run_op_inv cfg mx n w o s s' os : hf_inv s -> run_op cfg mx n w o s = Some (tt, s', os) -> hf_inv s'.
Proof.
  intros Hi E. destruct (plain o) eqn:Hp; [exact (run_wp _ _ _ _ _ _ E (run_op_safe cfg mx n w o Hp s Hi))|].
  destruct o; try discriminate Hp; cbn [run_op] in E.
  1-3: unfold hfp_hf_is_connected, is_audio_connected, get_connection_state, device_at, devices, ebind, eread, eret in E;
    destruct (svc_devices s) eqn:El; [|discriminate E]; injection E as <- <-; exact Hi.
  pose proof (at_pointer_inv machine_out machine_ok n p _ s (handle_callback_keeps cfg (ans_env w) c) Hi) as H. by rewrite E in H.
Qed.

(** *** The calls that stand for a failure *)

Abbreviation hf_mute m := (mute (Mc := hf_state_machine_t) bad m).

Lemma mute_send m : hf_mute (hfp_hf_send_message m).
Proof. unfold hfp_hf_send_message. mute_auto. Qed.
Lemma mute_send_event a ev : hf_mute (hfp_hf_send_event a ev).
Proof. apply mute_send. Qed.
Lemma mute_device_at a : hf_mute (device_at a).
Proof. unfold device_at, devices. mute_auto. Qed.
#[local] Hint Resolve mute_send mute_send_event mute_device_at : svc.
Lemma mute_connected a : hf_mute (hfp_hf_is_connected a).
Proof. unfold hfp_hf_is_connected. mute_auto. Qed.
Lemma mute_audio a : hf_mute (is_audio_connected a).
Proof. unfold is_audio_connected. mute_auto. Qed.
Lemma mute_state a : hf_mute (get_connection_state a).
Proof. unfold get_connection_state. mute_auto. Qed.
Lemma mute_get_machine cfg e a : hf_mute (get_state_machine cfg e a).
Proof. unfold get_state_machine, get_machine, find_by_addr, devices. mute_auto. Qed.
#[local] Hint Resolve mute_connected mute_audio mute_state mute_get_machine : svc.
Lemma mute_count f : hf_mute (count f).
Proof. unfold count, devices. mute_auto. Qed.
#[local] Hint Resolve mute_count : svc.
Lemma mute_connect a : hf_mute (hfp_hf_connect a).
Proof. unfold hfp_hf_connect, CHECK_ENABLED, get_current_connnection_cnt. mute_auto. Qed.
Lemma mute_disconnect a : hf_mute (hfp_hf_disconnect a).
Proof. unfold hfp_hf_disconnect, CHECK_ENABLED. mute_auto. Qed.
#[local] Hint Resolve mute_connect mute_disconnect : svc.

(** Only messages, questions and calls back can fail. *)
Lemma mute_op cfg mx n w o : plain o = true -> (forall m, o <> op_process m) -> hf_mute (run_op cfg mx n w o).
Proof.
  intros Hp Hm. destruct o as [m| | |a p| | | | | |[]| | | | | | |]; try discriminate Hp; try (by destruct (Hm m)); cbn [run_op];
    unfold hfp_hf_connect_audio, hfp_hf_disconnect_audio, if_connected, CHECK_ENABLED, hfp_hf_query_current_calls, devices,
      hfp_hf_on_sco_start, hfp_hf_on_sco_stop, hfp_hf_on_sco, find_hf_device_by_state, find_by_state, hfp_hf_process_msg, hfp_hf_init,
      hfp_hf_cleanup, hfp_hf_set_connection_policy, CHECK_ENABLED; mute_auto.
  by apply (mute_at_device machine_out fault).
Qed.

Lemma mute_startup mx st : hf_mute (hf_startup mx st).
Proof. unfold hf_startup. mute_auto. Qed.

Lemma common_mute cfg e m :
  m.(event) = HF_UPDATE_BATTERY_LEVEL \/ m.(event) = HF_SET_VOLUME -> hf_mute (hf_dispatch_msg_foreach cfg e m).
Proof.
  intros Hm. apply (mute_foreach machine_out fault); [done|]. intros sm. rewrite <- (common_faults cfg m sm Hm). apply dispatch_faults.
Qed.

Lemma delete_faults cfg e a sm : faults fault (machine_faults cfg sm (hfp_hf_msg_new HF_DISCONNECT a)) (hf_device_delete cfg e a) sm.
Proof. apply (faults_after _ offloading); [apply dispatch_faults|]. intros _. apply quiet_destroy. Qed.

Lemma shutdown_failed cfg e s l :
  s.(started) = true -> s.(svc_devices) = Some l ->
  failed bad (hf_shutdown cfg e s) = existsb (fun d => machine_faults cfg d.(dev_sm) (hfp_hf_msg_new HF_DISCONNECT d.(dev_addr))) l.
Proof.
  intros Hst Hl. pose proof (delete_all_failed machine_out fault bad (fun _ => eq_refl) (hf_device_delete cfg e) ({! started := false } s) l) as Hd.
  unfold hf_shutdown. unfold ebind at 1, egets at 1. rewrite Hst. cbn [negb]. unfold ebind at 1, emodify at 1.
  unfold ebind at 1. unfold delete_all, ebind, egets in *. destruct s as [b1 b2 b3 dl b5]. cbn in Hst, Hl. subst b1 dl. cbn in *.
  specialize (Hd eq_refl). rewrite !existsb_app. cbn. rewrite orb_false_r. rewrite Hd. clear Hd.
  induction l as [|d l IH]; cbn; [done|]. rewrite IH. f_equal. exact (delete_faults cfg e (dev_addr d) (dev_sm d)).
Qed.

Lemma process_failed cfg mx e st m s : hf_inv s -> failed bad (hfp_hf_process_message cfg mx e st m s) = svc_fails cfg 0 s (op_process m).
Proof.
  intros Hi. cbn [svc_fails]. unfold hfp_hf_process_message. unfold ebind at 1, egets at 1. destruct (started s) eqn:Hst; cbn [negb andb].
  - destruct (svc_devices s) as [l|] eqn:Hl; [|unfold svc_inv in Hi; rewrite Hl in Hi; congruence]. cbn [default].
    assert (forall r : option (unit * hf_service_t * list sout), failed bad (match r with Some (b, s2, o2) => Some (b, s2, [] ++ o2) | None => None end) = failed bad r) as Hr
      by (by intros [[[u s2] o2]|]).
    rewrite Hr.
    assert (forall b, failed bad (run_machine machine_out (new_machine cfg e) m.(msg_data).(data_addr) b (hf_state_machine_dispatch cfg e m) s) =
      match find_device (device_cmp m.(msg_data).(data_addr)) l ≫= fun i => l !! i with Some d => machine_faults cfg d.(dev_sm) m | None => false end) as Hrun.
    { intros b. rewrite (run_machine_failed machine_out (new_machine cfg e) fault bad (fun _ => eq_refl) _ b _ s l Hst Hl). unfold machine_of. rewrite Hl.
      destruct (find_device _ l ≫= _) as [d|]; [apply dispatch_faults|]. etransitivity; [apply dispatch_faults|]. done. }
    destruct (event m) eqn:Ev; try (apply Hrun).
    all: first [by apply shutdown_failed|by unfold hf_startup, ebind, egets; rewrite Hst|idtac].
    all: destruct (inv_up _ s Hi Hst) as [k Hup]; eapply mute_failed; [apply common_mute; auto|].
    all: apply (foreach_up machine_out machine_ok k); [apply dispatch_keeps|done].
  - case_bool_decide as E; cbn [negb]; [|done]. rewrite E.
    pose proof (mute_failed bad _ _ s (mute_startup mx st) (startup_safe mx st s Hi)) as H. by destruct (hf_startup mx st s) as [[[u s2] o2]|].
Qed.

Lemma question_failed {A} (f : option hf_device_t -> A) a s :
  failed bad (((d <- device_at a;; eret (f d));;; eret tt : MS unit) s) = no_list s.
Proof. unfold device_at, devices, ebind, eread, no_list. by destruct (svc_devices s). Qed.

Lemma callback_harmless cfg e c a sm : machine_ok a sm -> existsb fault (outs (handle_input cfg e (input_of c)) sm) = false.
Proof. intros (k & Hk & _). by apply (callback_faults cfg e _ sm k); [destruct c|]. Qed.

(** Each operation fails exactly when [svc_fails] says so. *)
Lemma run_op_failed cfg mx n w o s : hf_inv s -> failed bad (run_op cfg mx n w o s) = svc_fails cfg n s o.
Proof.
  intros Hi. destruct (plain o) eqn:Hp.
  - destruct o; try discriminate Hp; try (eapply mute_failed; [by apply mute_op|exact (run_op_safe cfg mx n w _ Hp s Hi)]). by apply process_failed.
  - destruct o; try discriminate Hp; try (apply question_failed).
    apply (at_pointer_failed machine_out machine_ok fault bad); [done| |done]. intros a sm. apply callback_harmless.
Qed.

(** ** Claims *)

(** C28: from the service's initial state, whatever messages, calls, notices
    and calls back come, in any order and with any answers of the stack
    (allocations taken to succeed): the next one fails (a list function is
    given NULL, a freed machine is used, an assertion fails or a NULL string is
    read) exactly in the cases of
    [svc_fails] and [machine_faults]: a question of the interface while there
    is no list; a timer, an answer of the controller or a change of volume that
    comes for a machine after the shutdown that freed it; an AT command or a
    current call without a text, in Connected and AudioOn; and in a build
    without the vendor's commands, a request to start or stop the offload in
    AudioOn, or leaving AudioOn (at a shutdown too) with offloading on.
    Throughout, the list of devices exists exactly while the service is
    started, it has one device per address, and each device's machine is one
    for that address, in one of its states with the fields that belong to
    it. *)
Theorem hf_service_safe (cfg : config) (mx : Z) (n : nat) (s : hf_service_t) (w : answers) (o : op) :
  reaches cfg mx n s ->
  hf_inv s /\ failed bad (run_op cfg mx n w o s) = svc_fails cfg n s o /\
  forall s' os, run_op cfg mx n w o s = Some (tt, s', os) -> hf_inv s'.
Proof.
  intros Hr. assert (hf_inv s) as Hi by (induction Hr; [done|by eapply run_op_inv]). split; [done|]. split; [|intros s' os; by eapply run_op_inv].
  by apply run_op_failed.
Qed.

Definition demo_answers : answers := mk_answers demo_env BT_STATUS_SUCCESS BT_STATUS_SUCCESS.
Definition demo_peer : bt_address_t := mk_addr 9 9 9 9 9 9.

(** A run of operations. *)
Fixpoint run_from (cfg : config) (mx : Z) (l : list op) (r : nat * hf_service_t) : option (nat * hf_service_t) :=
  match l with
  | [] => Some r
  | o :: l =>
      match run_op cfg mx r.1 demo_answers o r.2 with
      | Some (_, s', _) => run_from cfg mx l (if frees r.2 o then S r.1 else r.1, s')
      | None => None
      end
  end.

Definition run_ops (cfg : config) (mx : Z) (l : list op) (s : hf_service_t) : option hf_service_t := snd <$> run_from cfg mx l (0%nat, s).

Lemma run_from_reaches cfg mx l r r' : reaches cfg mx r.1 r.2 -> run_from cfg mx l r = Some r' -> reaches cfg mx r'.1 r'.2.
Proof.
  revert r. induction l as [|o l IH]; intros r Hr E; [by injection E as <-|]. cbn in E.
  destruct (run_op cfg mx (fst r) demo_answers o (snd r)) as [[[[] s'] os]|] eqn:Eo; [|done]. refine (IH (_, s') _ E). cbn [fst snd]. by eapply r_step.
Qed.

Definition demo_started : option hf_service_t :=
  run_ops demo_cfg 1 [op_init; op_process (hfp_hf_msg_new HF_STARTUP bt_addr_empty)] g_hfp_service.

(** A link is up; then the service is shut down. *)
Definition link_ops : list op :=
  [op_init; op_process (hfp_hf_msg_new HF_STARTUP bt_addr_empty);
   op_process (msg_with HF_STACK_EVENT_CONNECTION_STATE_CHANGED demo_peer PROFILE_STATE_CONNECTED 0 0 0 None None)].
Definition link_run : nat * hf_service_t := default (0%nat, g_hfp_service) (run_from demo_cfg 1 link_ops (0%nat, g_hfp_service)).
Definition down_run : nat * hf_service_t :=
  default (0%nat, g_hfp_service) (run_from demo_cfg 1 [op_process (hfp_hf_msg_new HF_SHUTDOWN bt_addr_empty)] link_run).

Lemma link_reaches : reaches demo_cfg 1 link_run.1 link_run.2.
Proof. apply (run_from_reaches demo_cfg 1 link_ops (0%nat, g_hfp_service)); [constructor|vm_compute; reflexivity]. Qed.
Lemma down_reaches : reaches demo_cfg 1 down_run.1 down_run.2.
Proof. apply (run_from_reaches demo_cfg 1 [op_process (hfp_hf_msg_new HF_SHUTDOWN bt_addr_empty)] link_run); [exact link_reaches|vm_compute; reflexivity]. Qed.

Lemma hf_service_safe_witness :
  failed bad (run_op demo_cfg 1 0 demo_answers (op_process (hfp_hf_msg_new HF_SEND_AT_COMMAND demo_peer)) link_run.2) = true /\
  failed bad (run_op demo_cfg 1 0 demo_answers (op_process (hfp_hf_msg_new HF_REJECT_CALL demo_peer)) link_run.2) = false /\
  failed bad (run_op demo_cfg 1 0 demo_answers (op_callback (mk_ptr 0 demo_peer) (cb_hci (mk_hci 0 []))) link_run.2) = false /\
  failed bad (run_op demo_cfg 1 1 demo_answers (op_callback (mk_ptr 0 demo_peer) (cb_hci (mk_hci 0 []))) down_run.2) = true /\
  failed bad (run_op demo_cfg 1 1 demo_answers (op_state demo_peer) down_run.2) = true.
Proof.
  assert (fst link_run = 0%nat) as E0 by (vm_compute; reflexivity). assert (fst down_run = 1%nat) as E1 by (vm_compute; reflexivity).
  pose proof link_reaches as Hl. pose proof down_reaches as Hd. rewrite E0 in Hl. rewrite E1 in Hd.
  destruct (hf_service_safe demo_cfg 1 0 _ demo_answers (op_process (hfp_hf_msg_new HF_SEND_AT_COMMAND demo_peer)) Hl) as (_ & -> & _).
  destruct (hf_service_safe demo_cfg 1 0 _ demo_answers (op_process (hfp_hf_msg_new HF_REJECT_CALL demo_peer)) Hl) as (_ & -> & _).
  destruct (hf_service_safe demo_cfg 1 0 _ demo_answers (op_callback (mk_ptr 0 demo_peer) (cb_hci (mk_hci 0 []))) Hl) as (_ & -> & _).
  destruct (hf_service_safe demo_cfg 1 1 _ demo_answers (op_callback (mk_ptr 0 demo_peer) (cb_hci (mk_hci 0 []))) Hd) as (_ & -> & _).
  destruct (hf_service_safe demo_cfg 1 1 _ demo_answers (op_state demo_peer) Hd) as (_ & -> & _).
  vm_compute. repeat split.
Defined.

(** ** Defects the model shows *)

(** The connections are counted when a connect request is made, not when it
    is handled: two requests pass the limit of one. *)
Theorem connect_limit_bypassed :
  let count s := option_map (fun r => r.1.1) (get_current_connnection_cnt s) in
  exists s, demo_started = Some s /\
  option_map (fun r => r.2) (run_op demo_cfg 1 0 demo_answers (op_connect demo_addr) s)
    = Some [send_message (hfp_hf_msg_new HF_CONNECT demo_addr)] /\
  option_map (fun r => r.2) (run_op demo_cfg 1 0 demo_answers (op_connect demo_peer) s)
    = Some [send_message (hfp_hf_msg_new HF_CONNECT demo_peer)] /\
  (run_ops demo_cfg 1 [op_connect demo_addr; op_connect demo_peer; op_process (hfp_hf_msg_new HF_CONNECT demo_addr);
                       op_process (hfp_hf_msg_new HF_CONNECT demo_peer)] s ≫= count) = Some 2%Z.
Proof. eexists. split; [vm_compute; reflexivity|]. vm_compute. auto. Qed.

(** Before the service is started a question of the interface fails the
    assertion of the list function. *)
Theorem question_before_start_asserts (a : bt_address_t) :
  hfp_hf_is_connected a g_hfp_service = None /\ get_connection_state a g_hfp_service = None.
Proof. done. Qed.

(** Dialling the empty number sends what redialling sends. *)
Theorem empty_dial_redials (cfg : config) (e : env) (sm : hf_state_machine_t) (a : bt_address_t) :
  sm.(current_state) = Some connected_state -> sm.(data).(addr) = a ->
  let m := msg_with HF_DIAL_NUMBER a 0 0 0 0 (HF_MSG_ADD_STR EmptyString) None in
  outs (hf_state_machine_dispatch cfg e m) sm
  = outs (hf_state_machine_dispatch cfg e (hfp_hf_msg_new HF_DIAL_LAST a)) sm.
Proof.
  destruct sm as [i p cur d]. cbn. intros -> <-. unfold outs. rewrite !(hf_dispatch_eq _ _ _ connected_state) by done. cbn.
  unfold outs, exec, connected_process_event, dial, ask, emit, field, gets, mbind_, mret_. cbn.
  by destruct (is_success _).
Qed.

(** A service shut down while a connection is being made does not tell its
    clients that it came to nothing. *)
Theorem shutdown_silent_while_connecting :
  exists s os, (demo_started ≫= run_ops demo_cfg 1 [op_process (hfp_hf_msg_new HF_CONNECT demo_addr)]) = Some s /\
  option_map (fun r => r.2) (run_op demo_cfg 1 0 demo_answers (op_process (hfp_hf_msg_new HF_SHUTDOWN bt_addr_empty)) s)
    = Some os /\
  machine_out (hf_service_notify_connection_state_changed demo_addr PROFILE_STATE_DISCONNECTED) ∉ os.
Proof.
  do 2 eexists. split; [vm_compute; reflexivity|]. split; [vm_compute; reflexivity|].
  intros H. repeat (apply elem_of_cons in H as [H|H]; [discriminate H|]). inversion H.
Qed.

End HfpHfService.
