(* ===== verification/HfpAg.v ===== *)
(** * The HFP audio gateway machine (service/profiles/hfp_ag/hfp_ag_state_machine.c)

    One machine per hands-free unit: Disconnected, Connecting, Disconnecting,
    Connected, AudioConnecting, AudioOn, AudioDisconnecting, on the engine of
    [Hsm].  It follows the link and the audio link, answers the AT commands of
    the headset (calls of the telephony service, which are [out]s), keeps the
    virtual call, volume and the offload of audio to the controller.  A call
    that returns a status is an [out] whose answer is given by the
    environment. *)

From S2P Require Import Prelude Hsm Bytes BtAddr Hci MediaSystem Hfp.
From stdpp Require Import strings.
From Stdlib Require Import Ascii.
From coqutil Require Import Datatypes.RecordSetters.
Import UpdaterNotations.

Local Open Scope bt_scope.

Module HfpAg.
Import Hsm BtAddr Hci MediaSystem.
Export Hfp.

(** ** States, events, messages *)

Inductive state :=
| disconnected_state | connecting_state | disconnecting_state | connected_state
| audio_connecting_state | audio_on_state | audio_disconnecting_state.

#[export] Instance state_eq_dec : EqDecision state.
Proof. solve_decision. Defined.

Inductive hfp_ag_event_t :=
| AG_CONNECT | AG_DISCONNECT | AG_CONNECT_AUDIO | AG_DISCONNECT_AUDIO
| AG_VOICE_RECOGNITION_START | AG_VOICE_RECOGNITION_STOP | AG_PHONE_STATE_CHANGE
| AG_DEVICE_STATUS_CHANGED | AG_SET_VOLUME | AG_SET_INBAND_RING_ENABLE | AG_DIALING_RESULT
| AG_CLCC_RESPONSE | AG_START_VIRTUAL_CALL | AG_STOP_VIRTUAL_CALL | AG_SEND_AT_COMMAND
| AG_SEND_VENDOR_SPECIFIC_AT_COMMAND | AG_STARTUP | AG_SHUTDOWN | AG_CONNECT_TIMEOUT
| AG_AUDIO_TIMEOUT | AG_OFFLOAD_START_REQ | AG_OFFLOAD_STOP_REQ | AG_OFFLOAD_START_EVT
| AG_OFFLOAD_STOP_EVT | AG_OFFLOAD_TIMEOUT_EVT | AG_STACK_EVENT | AG_STACK_EVENT_AUDIO_REQ
| AG_STACK_EVENT_CONNECTION_STATE_CHANGED | AG_STACK_EVENT_AUDIO_STATE_CHANGED
| AG_STACK_EVENT_VR_STATE_CHANGED | AG_STACK_EVENT_CODEC_CHANGED | AG_STACK_EVENT_VOLUME_CHANGED
| AG_STACK_EVENT_AT_CIND_REQUEST | AG_STACK_EVENT_AT_CLCC_REQUEST | AG_STACK_EVENT_AT_COPS_REQUEST
| AG_STACK_EVENT_BATTERY_UPDATE | AG_STACK_EVENT_ANSWER_CALL | AG_STACK_EVENT_REJECT_CALL
| AG_STACK_EVENT_HANGUP_CALL | AG_STACK_EVENT_DIAL_NUMBER | AG_STACK_EVENT_DIAL_MEMORY
| AG_STACK_EVENT_CALL_CONTROL | AG_STACK_EVENT_AT_COMMAND | AG_STACK_EVENT_SEND_DTMF
| AG_STACK_EVENT_NREC_REQ | AG_STACK_EVENT_CALL_SYNC.

#[export] Instance hfp_ag_event_eq_dec : EqDecision hfp_ag_event_t.
Proof. solve_decision. Defined.

(** [hfp_ag_data_t]; a string is [None] for the NULL pointer, [hci_event] is
    what [data] points to. *)
Record hfp_ag_data_t := mk_msg_data {
  data_addr : bt_address_t;
  valueint1 : Z;
  valueint2 : Z;
  valueint3 : Z;
  valueint4 : Z;
  string1 : option string;
  string2 : option string;
  hci_event : bt_hci_event_t;
}.

Record hfp_ag_msg_t := mk_msg { event : hfp_ag_event_t; msg_data : hfp_ag_data_t }.

Definition hfp_ag_event_new_ext (ev : hfp_ag_event_t) (a : bt_address_t) (h : bt_hci_event_t) : hfp_ag_msg_t :=
  mk_msg ev (mk_msg_data a 0 0 0 0 None None h).

Definition hfp_ag_msg_new (ev : hfp_ag_event_t) (a : bt_address_t) : hfp_ag_msg_t :=
  hfp_ag_event_new_ext ev a (mk_hci 0 []).

(** [hfp_ag_call_state_t] *)
Definition HFP_AG_CALL_STATE_ACTIVE : Z := 0.
Definition HFP_AG_CALL_STATE_DIALING : Z := 2.
Definition HFP_AG_CALL_STATE_ALERTING : Z := 3.
Definition HFP_AG_CALL_STATE_INCOMING : Z := 4.
Definition HFP_AG_CALL_STATE_IDLE : Z := 6.
Definition HFP_AG_CALL_STATE_DISCONNECTED : Z := 7.

Definition HFP_AG_RETRY_MAX : Z := 1.
Definition HFP_FAKE_NUMBER : string := "10000000".
Definition AG_TIMEOUT : Z := 10000.
Definition AG_OFFLOAD_TIMEOUT : Z := 500.
Definition HFP_AT_LEN_MAX : nat := 512.
Definition HFP_COMPANY_PREFIX_LEN_MAX : nat := 10.
Definition PENDING_DISCONNECT : Z := 0x08.

Definition CRLF : string := String (Ascii.ascii_of_nat 13) (String (Ascii.ascii_of_nat 10) EmptyString).

(** [hfp_ag_cind_resopnse_t] *)
Record hfp_ag_cind_resopnse_t := mk_cind {
  network : Z; roam : Z; signal : Z; battery : Z; cind_call : Z; call_held : Z; call_setup : Z;
}.

(** ** The calls the machine makes *)

Inductive out :=
| ag_service_notify_connection_state_changed (a : bt_address_t) (s : Z)
| ag_service_notify_audio_state_changed (a : bt_address_t) (s : Z)
| ag_service_notify_vr_state_changed (a : bt_address_t) (started : bool)
| ag_service_notify_hf_battery_update (a : bt_address_t) (v : Z)
| ag_service_notify_volume_changed (a : bt_address_t) (type vol : Z)
| ag_service_notify_call_answered (a : bt_address_t)
| ag_service_notify_call_rejected (a : bt_address_t)
| ag_service_notify_call_hangup (a : bt_address_t)
| ag_service_notify_call_dial (a : bt_address_t) (num : option string)
| ag_service_notify_vendor_specific_cmd (a : bt_address_t) (command : string) (company : Z) (value : string)
| ag_service_notify_clcc_cmd (a : bt_address_t)
| ag_service_notify_cind_cmd (a : bt_address_t)
| bt_sal_hfp_ag_connect (a : bt_address_t)
| bt_sal_hfp_ag_disconnect (a : bt_address_t)
| bt_sal_hfp_ag_connect_audio (a : bt_address_t)
| bt_sal_hfp_ag_disconnect_audio (a : bt_address_t)
| bt_sal_hfp_ag_start_voice_recognition (a : bt_address_t)
| bt_sal_hfp_ag_stop_voice_recognition (a : bt_address_t)
| bt_sal_hfp_ag_phone_state_change (a : bt_address_t) (num_active num_held call_state type : Z) (num nm : option string)
| bt_sal_hfp_ag_notify_device_status_changed (a : bt_address_t) (network roam signal battery : Z)
| bt_sal_hfp_ag_set_inband_ring_enable (a : bt_address_t) (on : bool)
| bt_sal_hfp_ag_set_volume (a : bt_address_t) (type vol : Z)
| bt_sal_hfp_ag_send_at_cmd (a : bt_address_t) (cmd : string) (len : Z)
| bt_sal_hfp_ag_error_response (a : bt_address_t) (code : Z)
| bt_sal_hfp_ag_dial_response (a : bt_address_t) (result : Z)
| bt_sal_hfp_ag_cind_response (a : bt_address_t) (resp : hfp_ag_cind_resopnse_t)
| bt_sal_hfp_ag_clcc_response (a : bt_address_t) (index dir st mode mpty type : Z) (num : option string)
| bt_sal_hfp_ag_call_sync (a : bt_address_t) (dir st mode mpty type : Z) (num : string)
| bt_sal_hfp_ag_cops_response (a : bt_address_t) (operator : option string) (len : Z)
| bt_sal_sco_connection_reply (a : bt_address_t) (accept : bool)
| bt_sal_send_hci_command (ogf ocf len : Z) (payload : list Z)
| tele_service_answer_call
| tele_service_reject_call
| tele_service_hangup_call
| tele_service_dial_number (num : string)
| tele_service_call_control (chld : Z)
| tele_service_query_current_call (a : bt_address_t)
| tele_service_get_current_calls (a : bt_address_t)
| bt_pm_conn_open (a : bt_address_t)
| bt_pm_conn_close (a : bt_address_t)
| bt_pm_busy (a : bt_address_t)
| bt_pm_idle (a : bt_address_t)
| bt_pm_sco_open (a : bt_address_t)
| bt_pm_sco_close (a : bt_address_t)
| bt_media_remove_listener (l : option nat)
| bt_media_listen_voice_call_volume_change
| bt_media_set_voice_call_volume (v : Z)
| bt_media_set_anc_enable (on : bool)
| bt_media_set_hfp_samplerate (v : Z)
| bt_media_set_sco_available
| bt_media_set_sco_unavailable
| audio_ctrl_send_control_event (ev : audio_ctrl_evt_t)
| service_loop_timer (timeout : Z) (h : option timer_h)
| service_loop_cancel_timer (h : option timer_h)
| hfp_ag_send_message (m : hfp_ag_msg_t)
| hfp_ag_dial_result (result : Z)
| null_string                              (* a NULL string is read *)
| assert_failed.                           (* assert(0) *)

(** ** The machine *)

(** The fields of [ag_state_machine_t] after [sm]. *)
Record ag_data := mk_data {
  addr : bt_address_t;
  sco_conn_handle : Z;
  remote_features : Z;
  recognition_active : bool;
  virtual_call_started : bool;
  offloading : bool;
  codec : Z;
  spk_volume : Z;
  mic_volume : Z;
  retry_cnt : Z;
  media_volume : Z;
  volume_listener : option nat;
  set_volume_cnt : Z;
  pending : Z;
  connect_timer : option timer_h;
  audio_timer : option timer_h;
  dial_out_timer : option timer_h;
  offload_timer : option timer_h;
  retry_timer : option timer_h;
}.

Abbreviation ag_state_machine_t := (state_machine_t state ag_data).
Abbreviation MG := (M ag_state_machine_t out).

Record config := mk_config {
  lib_dbus : bool;                  (* CONFIG_LIB_DBUS *)
  phone_service : bool;             (* CONFIG_PHONE_SERVICE *)
  vendor_actions : bool;            (* CONFIG_BLUETOOTH_VENDOR_ACTIONS *)
}.

(** What the outside answers during one event: the status of each call, a
    random number, the voice call volume ([None]: it cannot be read), a volume
    listener, a timer ([None]: NULL), what telephony says of the network
    (network, roaming, signal), of the phone (active, held, call state) and
    of the operator. *)
Record env := mk_env {
  status : out -> bt_status_t;
  rand : Z;
  voice_call_volume : option Z;
  new_listener : option nat;
  new_timer : option timer_h;
  network_info : Z * Z * Z;
  phone_state : Z * Z * Z;
  operator : option string;
}.

Definition upd (f : ag_data -> ag_data) : MG unit := modify (upd_data f).
Definition field {A} (f : ag_data -> A) : MG A := gets (fun sm => f sm.(data)).

Definition HFP_AG_STATE_DISCONNECTED : Z := 0.
Definition HFP_AG_STATE_CONNECTING : Z := 1.
Definition HFP_AG_STATE_DISCONNECTING : Z := 2.
Definition HFP_AG_STATE_CONNECTED : Z := 3.
Definition HFP_AG_STATE_AUDIO_CONNECTING : Z := 4.
Definition HFP_AG_STATE_AUDIO_CONNECTED : Z := 5.
Definition HFP_AG_STATE_AUDIO_DISCONNECTING : Z := 6.

Definition value_of (s : state) : Z :=
  match s with
  | disconnected_state => HFP_AG_STATE_DISCONNECTED
  | connecting_state => HFP_AG_STATE_CONNECTING
  | disconnecting_state => HFP_AG_STATE_DISCONNECTING
  | connected_state => HFP_AG_STATE_CONNECTED
  | audio_connecting_state => HFP_AG_STATE_AUDIO_CONNECTING
  | audio_on_state => HFP_AG_STATE_AUDIO_CONNECTED
  | audio_disconnecting_state => HFP_AG_STATE_AUDIO_DISCONNECTING
  end.

Definition name_of (s : state) : string :=
  match s with
  | disconnected_state => "Disconnected" | connecting_state => "Connecting"
  | disconnecting_state => "Disconnecting" | connected_state => "Connected"
  | audio_connecting_state => "AudioConnecting" | audio_on_state => "AudioOn"
  | audio_disconnecting_state => "AudioDisconnecting"
  end.

(** The value of the current state, which is not NULL once the machine is
    made ([ag_reachable_fields] of HfpAgSpec.v). *)
Definition ag_state_machine_get_state (sm : ag_state_machine_t) : Z :=
  match sm.(current_state) with Some s => value_of s | None => 0%Z end.

(** The state the service tells its clients. *)
Definition hfp_ag_get_connection_state (sm : ag_state_machine_t) : Z :=
  let state := ag_state_machine_get_state sm in
  if (state =? HFP_AG_STATE_DISCONNECTED)%Z then PROFILE_STATE_DISCONNECTED
  else if (state =? HFP_AG_STATE_CONNECTING)%Z then PROFILE_STATE_CONNECTING
  else if (state =? HFP_AG_STATE_DISCONNECTING)%Z then PROFILE_STATE_DISCONNECTING
  else PROFILE_STATE_CONNECTED.

Definition hfp_ag_is_audio_connected (sm : ag_state_machine_t) : bool :=
  (ag_state_machine_get_state sm =? HFP_AG_STATE_AUDIO_CONNECTED)%Z.

Definition flag_isset (flag : Z) : MG bool := field (fun d => flag_isset_v d.(pending) flag).
Definition flag_set (flag : Z) : MG unit := upd {! pending ::= fun p => flag_set_v p flag }.
Definition flag_clear (flag : Z) : MG unit := upd {! pending ::= fun p => flag_clear_v p flag }.

(** ** AT commands *)

(** [strlcat] into a buffer of [size] bytes. *)
Definition strlcat (size : nat) (dst src : string) : string := String.substring 0 (size - 1) (dst ++ src).

(** [strlen], passed as a 16-bit length. *)
Definition len16 (s : string) : Z := u16 (Z.of_nat (String.length s)).

(** A string sent with its [strlen]. *)
Definition send_at (a : bt_address_t) (s : string) : MG unit := emit (bt_sal_hfp_ag_send_at_cmd a s (len16 s)).

Definition at_cmd_check_test (a : bt_address_t) (atcmd : string) : MG bool :=
  if bool_decide (atcmd = "AT+TEST" ++ CRLF)%string then
    send_at a (CRLF ++ "+TEST:0" ++ CRLF)%string;;; mret_ true
  else mret_ false.

Definition BLUETOOTH_COMPANY_ID_XIAOMI : Z := 0x038F.
Definition BLUETOOTH_COMPANY_ID_GOOGLE : Z := 0x00E0.

Definition company_id_map : list (string * Z) :=
  [("+XIAOMI"%string, BLUETOOTH_COMPANY_ID_XIAOMI); ("+ANDROID"%string, BLUETOOTH_COMPANY_ID_GOOGLE)].

(** The loop of [process_vendor_specific_at] over the known prefixes: the
    first one the command has after its AT, with what follows the character
    after it; [None] where the loop is left without one. *)
Fixpoint vendor_prefix (at_string : string) (map : list (string * Z)) : option (string * Z * string) :=
  match map with
  | [] => None
  | (at_prefix, company_id) :: map =>
      let prefix_size := String.length at_prefix in
      if bool_decide (String.length at_string <= prefix_size + 3) then vendor_prefix at_string map
      else if negb (bool_decide (String.substring 2 prefix_size at_string = at_prefix)) then vendor_prefix at_string map
      else
        let value := String.substring (prefix_size + 3) (String.length at_string - (prefix_size + 3)) at_string in
        match value with
        | String c _ =>
            if bool_decide (c = Ascii.ascii_of_nat 13) || bool_decide (c = Ascii.ascii_of_nat 10) then None
            else Some (snprintf_s (HFP_COMPANY_PREFIX_LEN_MAX + 1) at_prefix, company_id, value)
        | EmptyString => None
        end
  end.

(** The answer OK goes out with the size of the literal, its NUL included. *)
Definition process_vendor_specific_at (a : bt_address_t) (at_string : option string) : MG unit :=
  match at_string with
  | None => mret_ tt
  | Some at_string =>
      match vendor_prefix at_string company_id_map with
      | Some (command, company_id, value) =>
          emit (ag_service_notify_vendor_specific_cmd a command company_id value);;;
          let ok := (CRLF ++ "OK" ++ CRLF)%string in
          emit (bt_sal_hfp_ag_send_at_cmd a ok (len16 ok + 1)%Z)
      | None => emit (bt_sal_hfp_ag_error_response a HFP_ATCMD_RESULT_CMEERR_OPERATION_NOTSUPPORTED)
      end
  end.

Definition hfp_ag_send_vendor_specific_at_cmd (a : bt_address_t) (command value : option string) : MG unit :=
  match command, value with
  | Some command, Some value =>
      let cat := strlcat (HFP_AT_LEN_MAX + 1) in
      send_at a (cat (cat (cat (cat CRLF command) ": ") value) CRLF)%string
  | _, _ => mret_ tt
  end.

(** [AG_SEND_AT_COMMAND]: the length of the string is read. *)
Definition send_at_command (a : bt_address_t) (s : option string) : MG unit :=
  match s with Some s => send_at a s | None => emit null_string end.

Definition update_remote_features (f : Z) : MG unit := upd {! remote_features := u32 f }.

Definition callstate_to_callsetup (call_state : Z) : Z :=
  if (call_state =? HFP_AG_CALL_STATE_INCOMING)%Z then HFP_CALLSETUP_INCOMING
  else if (call_state =? HFP_AG_CALL_STATE_DIALING)%Z then HFP_CALLSETUP_OUTGOING
  else if (call_state =? HFP_AG_CALL_STATE_ALERTING)%Z then HFP_CALLSETUP_ALERTING
  else HFP_CALLSETUP_NONE.

(** No call is in progress or being set up. *)
Definition phone_idle (num_active num_held call_state : Z) : bool :=
  (num_active =? 0)%Z && (num_held =? 0)%Z &&
  ((call_state =? HFP_AG_CALL_STATE_IDLE)%Z || (call_state =? HFP_AG_CALL_STATE_DISCONNECTED)%Z).

(** The phone's state as the machine itself makes it up. *)
Definition tell_phone (a : bt_address_t) (num_active call_state : Z) : MG unit :=
  emit (bt_sal_hfp_ag_phone_state_change a num_active 0 call_state HFP_CALL_ADDRTYPE_UNKNOWN (Some "") (Some ""))%string.

Definition set_virtual_call_started (started : bool) : MG unit :=
  a <- field addr;;
  v <- field virtual_call_started;;
  if bool_decide (v = started) then mret_ tt
  else
    upd {! virtual_call_started := started };;;
    if started then
      tell_phone a 0 HFP_AG_CALL_STATE_DIALING;;;
      tell_phone a 0 HFP_AG_CALL_STATE_ALERTING;;;
      tell_phone a 1 HFP_AG_CALL_STATE_ACTIVE
    else
      tell_phone a 0 HFP_AG_CALL_STATE_DISCONNECTED;;;
      tell_phone a 0 HFP_AG_CALL_STATE_IDLE.

(** ** Handlers *)

Section Machine.
Context (cfg : config).

Section Handlers.
Context (e : env).

(** A call of another component and its status. *)
Definition ask (o : out) : MG bool := emit o;;; mret_ (is_success (e.(status) o)).

Definition send_control_event (ev : audio_ctrl_evt_t) : MG unit := emit (audio_ctrl_send_control_event ev).

Definition notify_audio (a : bt_address_t) (s : Z) : MG unit := emit (ag_service_notify_audio_state_changed a s).

Definition process_cind_request : MG unit :=
  a <- field addr;;
  let '(net, ro, sig) := e.(network_info) in
  let '(num_active, num_held, call_state) := e.(phone_state) in
  emit (bt_sal_hfp_ag_cind_response a
    (mk_cind net ro sig 5
       (if (num_active =? 0)%Z then HFP_CALL_NO_CALLS_IN_PROGRESS else HFP_CALL_CALLS_IN_PROGRESS)
       (if (num_held =? 0)%Z then HFP_CALLHELD_NONE else HFP_CALLHELD_HELD)
       (callstate_to_callsetup call_state))).

Definition cind_request : MG unit :=
  a <- field addr;;
  if cfg.(lib_dbus) then process_cind_request else emit (ag_service_notify_cind_cmd a).

(** [AG_STACK_EVENT_CALL_SYNC]; [tele]: telephony is asked for real calls. *)
Definition call_sync (tele : bool) : MG unit :=
  a <- field addr;;
  v <- field virtual_call_started;;
  if v then
    emit (bt_sal_hfp_ag_call_sync a HFP_CALL_DIRECTION_INCOMING HFP_AG_CALL_STATE_ACTIVE HFP_CALL_MODE_VOICE
            HFP_CALL_MPTY_TYPE_SINGLE HFP_CALL_ADDRTYPE_UNKNOWN HFP_FAKE_NUMBER)
  else when tele (emit (tele_service_get_current_calls a)).

Definition ag_offload_send_cmd (is_start : bool) : MG bool :=
  h <- field sco_conn_handle;;
  c <- field codec;;
  let conf := mk_hfp_offload h c in
  let cmd := if is_start then hfp_offload_start_builder cfg.(vendor_actions) conf
             else hfp_offload_stop_builder cfg.(vendor_actions) conf in
  match cmd with
  | None => emit assert_failed;;; mret_ false
  | Some p =>
      match split_command p (Z.of_nat (length p)) with
      | Some (ogf, ocf, len, p) => ask (bt_sal_send_hci_command ogf ocf len p)
      | None => emit assert_failed;;; mret_ false
      end
  end.

(** *** Entering and leaving *)

Definition disconnected_enter : MG unit :=
  prev <- gets hsm_get_previous_state;;
  match prev with
  | Some _ =>
      a <- field addr;;
      l <- field volume_listener;;
      emit (bt_media_remove_listener l);;;
      upd {! spk_volume := 0%Z };;;
      upd {! mic_volume := 0%Z };;;
      upd {! media_volume := INVALID_MEDIA_VOLUME };;;
      upd {! volume_listener := None };;;
      upd {! set_volume_cnt := 0%Z };;;
      upd {! virtual_call_started := false };;;
      emit (bt_media_set_anc_enable true);;;
      emit (bt_pm_conn_close a);;;
      flag_clear PENDING_DISCONNECT;;;
      emit (ag_service_notify_connection_state_changed a PROFILE_STATE_DISCONNECTED)
  | None => mret_ tt
  end.

Definition disconnected_exit : MG unit := mret_ tt.

Definition connecting_enter : MG unit :=
  a <- field addr;;
  emit (service_loop_timer AG_TIMEOUT e.(new_timer));;;
  upd {! connect_timer := e.(new_timer) };;;
  emit (ag_service_notify_connection_state_changed a PROFILE_STATE_CONNECTING);;;
  emit (bt_pm_busy a);;;
  emit (bt_pm_idle a).

Definition connecting_exit : MG unit :=
  t <- field connect_timer;;
  emit (service_loop_cancel_timer t);;;
  upd {! connect_timer := None }.

Definition disconnecting_enter : MG unit :=
  a <- field addr;; emit (ag_service_notify_connection_state_changed a PROFILE_STATE_DISCONNECTING).

Definition disconnecting_exit : MG unit := mret_ tt.

Definition connected_exit : MG unit := mret_ tt.

Definition audio_connecting_enter : MG unit := a <- field addr;; notify_audio a HFP_AUDIO_STATE_CONNECTING.

Definition audio_connecting_exit : MG unit := mret_ tt.

Definition audio_on_enter : MG unit :=
  a <- field addr;;
  emit (bt_pm_sco_open a);;;
  c <- field codec;;
  emit (bt_media_set_hfp_samplerate (if (c =? HFP_CODEC_MSBC)%Z then 16000 else 8000)%Z);;;
  emit bt_media_set_sco_available;;;
  notify_audio a HFP_AUDIO_STATE_CONNECTED.

(** A running offload timer is cancelled and forgotten; whether there was one. *)
Definition stop_offload_timer : MG bool :=
  t <- field offload_timer;;
  match t with
  | Some _ => emit (service_loop_cancel_timer t);;; upd {! offload_timer := None };;; mret_ true
  | None => mret_ false
  end.

(** The offload is stopped; [audio_on_exit] dispatches this very event while
    AudioOn is still current ([ag_audio_on_stops_offload] of HfpAgSpec.v). *)
Definition offload_stop_req : MG unit :=
  running <- stop_offload_timer;;
  when running (send_control_event AUDIO_CTRL_EVT_START_FAIL);;;
  ok <- ag_offload_send_cmd false;;
  if negb ok then send_control_event AUDIO_CTRL_EVT_STOPPED
  else flag_set PENDING_OFFLOAD_STOP.

Definition audio_on_exit : MG unit :=
  a <- field addr;;
  emit (bt_pm_sco_close a);;;
  emit (bt_pm_idle a);;;
  emit bt_media_set_sco_unavailable;;;
  set_virtual_call_started false;;;
  off <- field offloading;;
  when off offload_stop_req.

Definition audio_disconnecting_enter : MG unit := a <- field addr;; notify_audio a HFP_AUDIO_STATE_DISCONNECTING.

Definition audio_disconnecting_exit : MG unit := mret_ tt.

(** The states' table, given what entering Connected does. *)
Definition table (connected_enter_ : MG unit) : StateTable state ag_data out := {|
  Hsm.state_name := name_of;
  Hsm.state_value := value_of;
  Hsm.enter s :=
    match s with
    | disconnected_state => disconnected_enter
    | connecting_state => connecting_enter
    | disconnecting_state => disconnecting_enter
    | connected_state => connected_enter_
    | audio_connecting_state => audio_connecting_enter
    | audio_on_state => audio_on_enter
    | audio_disconnecting_state => audio_disconnecting_enter
    end;
  Hsm.exit s :=
    match s with
    | disconnected_state => disconnected_exit
    | connecting_state => connecting_exit
    | disconnecting_state => disconnecting_exit
    | connected_state => connected_exit
    | audio_connecting_state => audio_connecting_exit
    | audio_on_state => audio_on_exit
    | audio_disconnecting_state => audio_disconnecting_exit
    end;
|}.

(** [AG_DISCONNECT] in Connected.  [connected_enter] dispatches it while
    Connected is being entered; the transition it makes enters Disconnecting
    only, so what the table says of Connected does not matter
    ([connected_disconnects] of HfpAgSpec.v). *)
Definition disconnect_connected (connected_enter_ : MG unit) : MG unit :=
  a <- field addr;;
  ask (bt_sal_hfp_ag_disconnect a);;;
  @hsm_transition_to _ _ _ (table connected_enter_) disconnecting_state.

(** There is a previous state: Connected is never the first one. *)
Definition connected_enter : MG unit :=
  a <- field addr;;
  prev <- gets hsm_get_previous_state;;
  emit (bt_pm_conn_open a);;;
  (if (default 0 (value_of <$> prev) <? HFP_AG_STATE_CONNECTED)%Z then
     match e.(voice_call_volume) with Some v => upd {! media_volume := v } | None => mret_ tt end;;;
     mv <- field media_volume;;
     spk <- field spk_volume;;
     let ag_vol := bt_media_volume_media_to_hfp mv in
     when (negb (mv =? INVALID_MEDIA_VOLUME)%Z && negb (ag_vol =? spk)%Z) (
       ok <- ask (bt_sal_hfp_ag_set_volume a HFP_VOLUME_TYPE_SPK ag_vol);;
       when ok (upd {! spk_volume := ag_vol }));;;
     emit bt_media_listen_voice_call_volume_change;;;
     upd {! volume_listener := e.(new_listener) };;;
     upd {! retry_cnt := 0%Z };;;
     emit (ag_service_notify_connection_state_changed a PROFILE_STATE_CONNECTED)
   else notify_audio a HFP_AUDIO_STATE_DISCONNECTED);;;
  p <- flag_isset PENDING_DISCONNECT;;
  when p (disconnect_connected (mret_ tt)).

#[local] Instance ag_states : StateTable state ag_data out := table connected_enter.

(** ** process_event *)

Definition set_codec (v : Z) : MG unit :=
  upd {! codec := if (u32 v =? HFP_CODEC_MSBC)%Z then HFP_CODEC_MSBC else HFP_CODEC_CVSD }.

(** The offload requests where there is no audio. *)
Definition no_audio_offload (event : hfp_ag_event_t) : MG unit :=
  match event with
  | AG_OFFLOAD_START_REQ => send_control_event AUDIO_CTRL_EVT_START_FAIL
  | AG_OFFLOAD_STOP_REQ | AG_OFFLOAD_STOP_EVT => send_control_event AUDIO_CTRL_EVT_STOPPED
  | _ => mret_ tt
  end.

Definition disconnected_process_event (event : hfp_ag_event_t) (d : hfp_ag_data_t) : MG bool :=
  a <- field addr;;
  match event with
  | AG_CONNECT =>
      ok <- ask (bt_sal_hfp_ag_connect a);;
      if negb ok then
        emit (ag_service_notify_connection_state_changed a PROFILE_STATE_DISCONNECTED);;; mret_ false
      else hsm_transition_to connecting_state;;; mret_ true
  | AG_STACK_EVENT_CONNECTION_STATE_CHANGED =>
      let st := u32 d.(valueint1) in
      (if (st =? PROFILE_STATE_CONNECTED)%Z then
         hsm_transition_to connected_state;;; update_remote_features d.(valueint3)
       else when (st =? PROFILE_STATE_CONNECTING)%Z (hsm_transition_to connecting_state));;;
      mret_ true
  | _ => no_audio_offload event;;; mret_ true
  end.

(** A connection lost to a collision is tried again, a random time later. *)
Definition schedule_retry (reason : Z) : MG unit :=
  cnt <- field retry_cnt;;
  t <- field retry_timer;;
  when ((u32 reason =? PROFILE_REASON_COLLISION) && (cnt <? HFP_AG_RETRY_MAX))%Z%bool (
    when (bool_decide (t = None)) (
      emit (service_loop_timer (100 + e.(rand) mod 800) e.(new_timer));;;
      upd {! retry_timer := e.(new_timer) };;;
      upd {! retry_cnt := u8 (cnt + 1) })).

Definition connecting_process_event (event : hfp_ag_event_t) (d : hfp_ag_data_t) : MG bool :=
  a <- field addr;;
  match event with
  | AG_CONNECT_TIMEOUT => emit (bt_sal_hfp_ag_disconnect a);;; hsm_transition_to disconnected_state
  | AG_SEND_AT_COMMAND => send_at_command a d.(string1)
  | AG_SEND_VENDOR_SPECIFIC_AT_COMMAND => hfp_ag_send_vendor_specific_at_cmd a d.(string1) d.(string2)
  | AG_STACK_EVENT_CONNECTION_STATE_CHANGED =>
      let st := u32 d.(valueint1) in
      if (st =? PROFILE_STATE_CONNECTED)%Z then
        hsm_transition_to connected_state;;; update_remote_features d.(valueint3)
      else if (st =? PROFILE_STATE_DISCONNECTED)%Z then
        schedule_retry d.(valueint2);;; hsm_transition_to disconnected_state
      else mret_ tt
  | AG_STACK_EVENT_CODEC_CHANGED => set_codec d.(valueint1)
  | AG_STACK_EVENT_AT_CIND_REQUEST => cind_request
  | AG_STACK_EVENT_AT_COMMAND => process_vendor_specific_at a d.(string1)
  | AG_STACK_EVENT_CALL_SYNC => call_sync cfg.(phone_service)
  | _ => no_audio_offload event
  end;;;
  mret_ true.

Definition disconnecting_process_event (event : hfp_ag_event_t) (d : hfp_ag_data_t) : MG bool :=
  match event with
  | AG_STACK_EVENT_CONNECTION_STATE_CHANGED =>
      when (u32 d.(valueint1) =? PROFILE_STATE_DISCONNECTED)%Z (hsm_transition_to disconnected_state)
  | _ => no_audio_offload event
  end;;;
  mret_ true.

Definition handle_ag_set_voice_call_volume (type volume : Z) : MG unit :=
  if (type =? HFP_VOLUME_TYPE_SPK)%Z then
    upd {! spk_volume := volume };;;
    let new_volume := bt_media_volume_hfp_to_media volume in
    mv <- field media_volume;;
    if (new_volume =? mv)%Z then mret_ tt
    else
      ok <- ask (bt_media_set_voice_call_volume new_volume);;
      cnt <- field set_volume_cnt;;
      when (ok && (cnt <? UINT32_MAX)%Z) (upd {! set_volume_cnt := u32 (cnt + 1) })
  else when (type =? HFP_VOLUME_TYPE_MIC)%Z (upd {! mic_volume := volume }).

(** [AG_DIALING_RESULT]: answered while the dial timer runs. *)
Definition dialing_result (result : Z) : MG unit :=
  a <- field addr;;
  t <- field dial_out_timer;;
  match t with
  | Some _ =>
      emit (service_loop_cancel_timer t);;;
      upd {! dial_out_timer := None };;;
      emit (bt_sal_hfp_ag_dial_response a result)
  | None => mret_ tt
  end.

(** [AG_STACK_EVENT_DIAL_NUMBER] *)
Definition dial_number (num : option string) : MG unit :=
  a <- field addr;;
  set_virtual_call_started false;;;
  match num with
  | Some n =>
      ok <- ask (tele_service_dial_number n);;
      if negb ok then emit (bt_sal_hfp_ag_dial_response a HFP_ATCMD_RESULT_ERROR)
      else
        emit (service_loop_timer 5000 e.(new_timer));;;
        upd {! dial_out_timer := e.(new_timer) }
  | None => emit (bt_sal_hfp_ag_dial_response a HFP_ATCMD_RESULT_ERROR)
  end;;;
  emit (ag_service_notify_call_dial a num).

(** [AG_STACK_EVENT_AT_CLCC_REQUEST] *)
Definition clcc_request : MG unit :=
  a <- field addr;;
  v <- field virtual_call_started;;
  if v then
    emit (bt_sal_hfp_ag_clcc_response a 1 HFP_CALL_DIRECTION_INCOMING HFP_AG_CALL_STATE_ACTIVE HFP_CALL_MODE_VOICE
            HFP_CALL_MPTY_TYPE_SINGLE HFP_CALL_ADDRTYPE_UNKNOWN (Some HFP_FAKE_NUMBER));;;
    emit (bt_sal_hfp_ag_clcc_response a 0 0 0 0 0 0 None)
  else if cfg.(lib_dbus) then emit (tele_service_query_current_call a)
  else emit (ag_service_notify_clcc_cmd a).

(** [AG_PHONE_STATE_CHANGE]: a real call ends the virtual one. *)
Definition phone_state_change (d : hfp_ag_data_t) : MG unit :=
  a <- field addr;;
  let num_active := u8 d.(valueint1) in
  let num_held := u8 d.(valueint2) in
  let call_state := u32 d.(valueint3) in
  when (negb (phone_idle num_active num_held call_state)) (set_virtual_call_started false);;;
  emit (bt_sal_hfp_ag_phone_state_change a num_active num_held call_state (u32 d.(valueint4)) d.(string1) d.(string2)).

(** [AG_STACK_EVENT_AT_COMMAND] once connected. *)
Definition at_command (s : option string) : MG unit :=
  a <- field addr;;
  match s with
  | None => emit null_string
  | Some at_cmd =>
      test <- at_cmd_check_test a at_cmd;;
      when (negb test) (process_vendor_specific_at a (Some at_cmd))
  end.

Definition default_process_event (event : hfp_ag_event_t) (d : hfp_ag_data_t) : MG unit :=
  a <- field addr;;
  match event with
  | AG_VOICE_RECOGNITION_START =>
      active <- field recognition_active;;
      when (negb active) (emit (bt_sal_hfp_ag_start_voice_recognition a))
  | AG_VOICE_RECOGNITION_STOP =>
      active <- field recognition_active;;
      when active (emit (bt_sal_hfp_ag_stop_voice_recognition a))
  | AG_PHONE_STATE_CHANGE => phone_state_change d
  | AG_DEVICE_STATUS_CHANGED =>
      emit (bt_sal_hfp_ag_notify_device_status_changed a d.(valueint1) d.(valueint2) (u8 d.(valueint3)) (u8 d.(valueint4)))
  | AG_SET_INBAND_RING_ENABLE => emit (bt_sal_hfp_ag_set_inband_ring_enable a true)
  | AG_SEND_AT_COMMAND => send_at_command a d.(string1)
  | AG_SEND_VENDOR_SPECIFIC_AT_COMMAND => hfp_ag_send_vendor_specific_at_cmd a d.(string1) d.(string2)
  | AG_DIALING_RESULT => dialing_result d.(valueint1)
  | AG_STACK_EVENT_VR_STATE_CHANGED =>
      let started := negb (u32 d.(valueint1) =? 0)%Z in
      upd {! recognition_active := started };;; emit (ag_service_notify_vr_state_changed a started)
  | AG_STACK_EVENT_CODEC_CHANGED => set_codec d.(valueint1)
  | AG_STACK_EVENT_VOLUME_CHANGED =>
      let type := u32 d.(valueint1) in
      let ag_vol := u8 d.(valueint2) in
      handle_ag_set_voice_call_volume type ag_vol;;; emit (ag_service_notify_volume_changed a type ag_vol)
  | AG_STACK_EVENT_AT_CIND_REQUEST => cind_request
  | AG_STACK_EVENT_AT_CLCC_REQUEST => clcc_request
  | AG_STACK_EVENT_AT_COPS_REQUEST =>
      emit (bt_sal_hfp_ag_cops_response a e.(operator) match e.(operator) with Some s => len16 s | None => 0%Z end)
  | AG_STACK_EVENT_BATTERY_UPDATE => emit (ag_service_notify_hf_battery_update a (u8 d.(valueint1)))
  | AG_STACK_EVENT_ANSWER_CALL => emit tele_service_answer_call;;; emit (ag_service_notify_call_answered a)
  | AG_STACK_EVENT_REJECT_CALL => emit tele_service_reject_call;;; emit (ag_service_notify_call_rejected a)
  | AG_STACK_EVENT_HANGUP_CALL => emit tele_service_hangup_call;;; emit (ag_service_notify_call_hangup a)
  | AG_STACK_EVENT_DIAL_NUMBER => dial_number d.(string1)
  | AG_STACK_EVENT_CALL_CONTROL => emit (tele_service_call_control (u8 d.(valueint1)))
  | AG_STACK_EVENT_AT_COMMAND => at_command d.(string1)
  | AG_STACK_EVENT_NREC_REQ => when (u32 d.(valueint1) =? 0)%Z (emit (bt_media_set_anc_enable false))
  | AG_OFFLOAD_STOP_EVT => send_control_event AUDIO_CTRL_EVT_STOPPED
  | AG_STACK_EVENT_CALL_SYNC => call_sync cfg.(lib_dbus)
  | _ => mret_ tt
  end.

Definition default_connection_event_process (d : hfp_ag_data_t) : MG unit :=
  let st := u32 d.(valueint1) in
  if (st =? PROFILE_STATE_DISCONNECTED)%Z then hsm_transition_to disconnected_state
  else when (st =? PROFILE_STATE_DISCONNECTING)%Z (hsm_transition_to disconnecting_state).

Definition is_virtual_call_allowed : MG bool :=
  st <- gets ag_state_machine_get_state;;
  v <- field virtual_call_started;;
  let '(num_active, num_held, call_state) := e.(phone_state) in
  mret_ ((st =? HFP_AG_STATE_CONNECTED)%Z && negb v && phone_idle num_active num_held call_state).

(** Audio comes up: the handle is kept. *)
Definition audio_up (d : hfp_ag_data_t) : MG unit :=
  upd {! sco_conn_handle := u16 d.(valueint2) };;; hsm_transition_to audio_on_state.

Definition connected_process_event (event : hfp_ag_event_t) (d : hfp_ag_data_t) : MG bool :=
  a <- field addr;;
  let done_ (m : MG unit) : MG bool := m;;; mret_ true in
  match event with
  | AG_DISCONNECT => done_ (disconnect_connected connected_enter)
  | AG_CONNECT_AUDIO =>
      ok <- ask (bt_sal_hfp_ag_connect_audio a);;
      if negb ok then notify_audio a HFP_AUDIO_STATE_DISCONNECTED;;; mret_ false
      else hsm_transition_to audio_connecting_state;;; mret_ true
  | AG_START_VIRTUAL_CALL =>
      allowed <- is_virtual_call_allowed;;
      if negb allowed then notify_audio a HFP_AUDIO_STATE_DISCONNECTED;;; mret_ false
      else
        set_virtual_call_started true;;;
        ok <- ask (bt_sal_hfp_ag_connect_audio a);;
        if negb ok then
          set_virtual_call_started false;;; notify_audio a HFP_AUDIO_STATE_DISCONNECTED;;; mret_ false
        else hsm_transition_to audio_connecting_state;;; mret_ true
  | AG_STACK_EVENT_AUDIO_REQ =>
      ok <- ask (bt_sal_sco_connection_reply a true);;
      if negb ok then mret_ false
      else hsm_transition_to audio_connecting_state;;; mret_ true
  | AG_STACK_EVENT_CONNECTION_STATE_CHANGED => done_ (default_connection_event_process d)
  | AG_STACK_EVENT_AUDIO_STATE_CHANGED =>
      done_ (when (u32 d.(valueint1) =? HFP_AUDIO_STATE_CONNECTED)%Z (audio_up d))
  | AG_OFFLOAD_START_REQ | AG_OFFLOAD_STOP_REQ | AG_OFFLOAD_STOP_EVT => done_ (no_audio_offload event)
  | _ => done_ (default_process_event event d)
  end.

Definition audio_connecting_process_event (event : hfp_ag_event_t) (d : hfp_ag_data_t) : MG bool :=
  a <- field addr;;
  match event with
  | AG_DISCONNECT =>
      ok <- ask (bt_sal_hfp_ag_disconnect a);;
      when (negb ok) (notify_audio a HFP_AUDIO_STATE_DISCONNECTED);;;
      hsm_transition_to disconnecting_state
  | AG_DISCONNECT_AUDIO | AG_STOP_VIRTUAL_CALL | AG_STACK_EVENT_AUDIO_REQ | AG_AUDIO_TIMEOUT => mret_ tt
  | AG_STACK_EVENT_CONNECTION_STATE_CHANGED => default_connection_event_process d
  | AG_STACK_EVENT_AUDIO_STATE_CHANGED =>
      let st := u32 d.(valueint1) in
      if (st =? HFP_AUDIO_STATE_CONNECTED)%Z then audio_up d
      else when (st =? HFP_AUDIO_STATE_DISCONNECTED)%Z (hsm_transition_to connected_state)
  | AG_OFFLOAD_START_REQ | AG_OFFLOAD_STOP_REQ | AG_OFFLOAD_STOP_EVT => no_audio_offload event
  | _ => default_process_event event d
  end;;;
  mret_ true.

(** [AG_SET_VOLUME] in AudioOn. *)
Definition set_volume (d : hfp_ag_data_t) : MG unit :=
  a <- field addr;;
  let type := u32 d.(valueint1) in
  let ag_vol := bt_media_volume_media_to_hfp (s32 d.(valueint2)) in
  spk <- field spk_volume;;
  mic <- field mic_volume;;
  if (type =? HFP_VOLUME_TYPE_SPK)%Z && negb (ag_vol =? spk)%Z then
    ok <- ask (bt_sal_hfp_ag_set_volume a type ag_vol);;
    when ok (upd {! spk_volume := ag_vol })
  else when ((type =? HFP_VOLUME_TYPE_MIC)%Z && negb (ag_vol =? mic)%Z) (
    ok <- ask (bt_sal_hfp_ag_set_volume a type ag_vol);;
    when ok (upd {! mic_volume := ag_vol })).

(** The audio link is given up: where the stack cannot, it is taken as gone. *)
Definition drop_audio : MG bool :=
  a <- field addr;;
  ok <- ask (bt_sal_hfp_ag_disconnect_audio a);;
  if negb ok then
    notify_audio a HFP_AUDIO_STATE_DISCONNECTED;;; hsm_transition_to connected_state;;; mret_ false
  else hsm_transition_to audio_disconnecting_state;;; mret_ true.

Definition start_offload_timer : MG unit :=
  emit (service_loop_timer AG_OFFLOAD_TIMEOUT e.(new_timer));;;
  upd {! offload_timer := e.(new_timer) }.

Definition audio_on_process_event (event : hfp_ag_event_t) (d : hfp_ag_data_t) : MG bool :=
  a <- field addr;;
  let done_ (m : MG unit) : MG bool := m;;; mret_ true in
  match event with
  | AG_DISCONNECT =>
      ok <- ask (bt_sal_hfp_ag_disconnect_audio a);;
      if ok then
        flag_set PENDING_DISCONNECT;;; hsm_transition_to audio_disconnecting_state;;; mret_ false
      else done_ (
        ok <- ask (bt_sal_hfp_ag_disconnect a);;
        when (negb ok) (notify_audio a HFP_AUDIO_STATE_DISCONNECTED);;;
        hsm_transition_to disconnecting_state)
  | AG_DISCONNECT_AUDIO => drop_audio
  | AG_STOP_VIRTUAL_CALL =>
      v <- field virtual_call_started;;
      if negb v then mret_ false
      else set_virtual_call_started false;;; drop_audio
  | AG_VOICE_RECOGNITION_START | AG_VOICE_RECOGNITION_STOP => mret_ true
  | AG_SET_VOLUME => done_ (set_volume d)
  | AG_STACK_EVENT_CONNECTION_STATE_CHANGED => done_ (default_connection_event_process d)
  | AG_STACK_EVENT_AUDIO_STATE_CHANGED =>
      done_ (when (u32 d.(valueint1) =? HFP_AUDIO_STATE_DISCONNECTED)%Z (hsm_transition_to connected_state))
  | AG_OFFLOAD_START_REQ => done_ (
      ok <- ag_offload_send_cmd true;;
      if negb ok then send_control_event AUDIO_CTRL_EVT_START_FAIL
      else flag_set PENDING_OFFLOAD_START;;; start_offload_timer)
  | AG_OFFLOAD_START_EVT => done_ (
      stop_offload_timer;;;
      if negb (hci_succeeded d.(hci_event)) then
        send_control_event AUDIO_CTRL_EVT_START_FAIL;;;
        emit (bt_sal_hfp_ag_disconnect_audio a)
      else send_control_event AUDIO_CTRL_EVT_STARTED)
  | AG_OFFLOAD_TIMEOUT_EVT => done_ (
      flag_clear PENDING_OFFLOAD_START;;;
      upd {! offload_timer := None };;;
      send_control_event AUDIO_CTRL_EVT_START_FAIL;;;
      emit (bt_sal_hfp_ag_disconnect_audio a))
  | AG_OFFLOAD_STOP_REQ => done_ offload_stop_req
  | AG_OFFLOAD_STOP_EVT => done_ (send_control_event AUDIO_CTRL_EVT_STOPPED)
  | _ => done_ (default_process_event event d)
  end.

Definition audio_disconnecting_process_event (event : hfp_ag_event_t) (d : hfp_ag_data_t) : MG bool :=
  a <- field addr;;
  match event with
  | AG_DISCONNECT => emit (bt_sal_hfp_ag_disconnect a);;; hsm_transition_to disconnecting_state
  | AG_STACK_EVENT_CONNECTION_STATE_CHANGED => default_connection_event_process d
  | AG_STACK_EVENT_AUDIO_STATE_CHANGED =>
      when (u32 d.(valueint1) =? HFP_AUDIO_STATE_DISCONNECTED)%Z (hsm_transition_to connected_state)
  | AG_OFFLOAD_START_REQ | AG_OFFLOAD_STOP_REQ | AG_OFFLOAD_STOP_EVT => no_audio_offload event
  | _ => default_process_event event d
  end;;;
  mret_ true.

#[local] Instance ag_events : EventTable state ag_data out hfp_ag_msg_t := {
  Hsm.process_event s m :=
    match s with
    | disconnected_state => disconnected_process_event m.(event) m.(msg_data)
    | connecting_state => connecting_process_event m.(event) m.(msg_data)
    | disconnecting_state => disconnecting_process_event m.(event) m.(msg_data)
    | connected_state => connected_process_event m.(event) m.(msg_data)
    | audio_connecting_state => audio_connecting_process_event m.(event) m.(msg_data)
    | audio_on_state => audio_on_process_event m.(event) m.(msg_data)
    | audio_disconnecting_state => audio_disconnecting_process_event m.(event) m.(msg_data)
    end;
}.

(** ** The machine's interface *)

Definition ag_state_machine_dispatch (m : hfp_ag_msg_t) : MG unit := hsm_dispatch_event m;;; mret_ tt.

Definition ag_state_machine_new (a : bt_address_t) : ag_state_machine_t :=
  exec (hsm_ctor disconnected_state)
    (mk_sm None None None
       (mk_data a 0 0 false false false HFP_CODEC_CVSD 0 0 0 INVALID_MEDIA_VOLUME None 0 0 None None None None None)).

(** The calls of [ag_state_machine_destory]; then the memory is freed. *)
Definition ag_state_machine_destory : MG unit :=
  d <- field id;;
  when (bool_decide (is_Some d.(connect_timer))) (emit (service_loop_cancel_timer d.(connect_timer)));;;
  when (bool_decide (is_Some d.(retry_timer))) (emit (service_loop_cancel_timer d.(retry_timer)));;;
  emit (bt_media_remove_listener d.(volume_listener)).

Definition ag_state_machine_get_sco_handle (sm : ag_state_machine_t) : Z := sm.(data).(sco_conn_handle).
Definition ag_state_machine_get_codec (sm : ag_state_machine_t) : Z := sm.(data).(codec).
Definition ag_state_machine_set_sco_handle (h : Z) : ag_state_machine_t -> ag_state_machine_t :=
  upd_data {! sco_conn_handle := h }.
Definition ag_state_machine_set_offloading (b : bool) : ag_state_machine_t -> ag_state_machine_t :=
  upd_data {! offloading := b }.

(** ** Timers, the controller and the media system *)

Definition connect_timeout : MG unit :=
  a <- field addr;; emit (hfp_ag_send_message (hfp_ag_msg_new AG_CONNECT_TIMEOUT a)).

Definition dial_out_timeout : MG unit := emit (hfp_ag_dial_result HFP_ATCMD_RESULT_TIMEOUT).

Definition ag_retry_callback : MG unit :=
  a <- field addr;;
  st <- gets ag_state_machine_get_state;;
  when (st =? HFP_AG_STATE_DISCONNECTED)%Z (
    ok <- ask (bt_sal_hfp_ag_connect a);;
    when ok (hsm_transition_to connecting_state));;;
  upd {! retry_timer := None }.

Definition hfp_ag_offload_timeout_callback : MG unit :=
  a <- field addr;; ag_state_machine_dispatch (hfp_ag_msg_new AG_OFFLOAD_TIMEOUT_EVT a).

Definition bt_hci_event_callback (h : bt_hci_event_t) : MG unit :=
  a <- field addr;;
  start <- flag_isset PENDING_OFFLOAD_START;;
  stop <- flag_isset PENDING_OFFLOAD_STOP;;
  if start then
    flag_clear PENDING_OFFLOAD_START;;;
    emit (hfp_ag_send_message (hfp_ag_event_new_ext AG_OFFLOAD_START_EVT a h))
  else if stop then
    flag_clear PENDING_OFFLOAD_STOP;;;
    emit (hfp_ag_send_message (hfp_ag_event_new_ext AG_OFFLOAD_STOP_EVT a h))
  else mret_ tt.

Definition hfp_ag_voice_volume_change_callback (volume : Z) : MG unit :=
  a <- field addr;;
  upd {! media_volume := volume };;;
  cnt <- field set_volume_cnt;;
  if negb (cnt =? 0)%Z then upd {! set_volume_cnt := (cnt - 1)%Z }
  else emit (hfp_ag_send_message (mk_msg AG_SET_VOLUME
         (mk_msg_data a HFP_VOLUME_TYPE_SPK (u32 volume) 0 0 None None (mk_hci 0 [])))).

End Handlers.
End Machine.

(** ** Inputs of a machine *)

Inductive input :=
| in_msg (m : hfp_ag_msg_t)
| in_connect_timeout | in_dial_timeout | in_retry | in_offload_timeout
| in_hci (h : bt_hci_event_t)
| in_volume (v : Z)
| in_set_offloading (b : bool).

Definition handle_input (cfg : config) (e : env) (i : input) : MG unit :=
  match i with
  | in_msg m => ag_state_machine_dispatch cfg e m
  | in_connect_timeout => connect_timeout
  | in_dial_timeout => dial_out_timeout
  | in_retry => ag_retry_callback cfg e
  | in_offload_timeout => hfp_ag_offload_timeout_callback cfg e
  | in_hci h => bt_hci_event_callback h
  | in_volume v => hfp_ag_voice_volume_change_callback v
  | in_set_offloading b => modify (ag_state_machine_set_offloading b)
  end.

Fixpoint run_inputs (cfg : config) (l : list (env * input)) : MG unit :=
  match l with
  | [] => mret_ tt
  | (e, i) :: l => handle_input cfg e i;;; run_inputs cfg l
  end.
End HfpAg.
