(* ===== verification/HfpAgSpec.v ===== *)
(** * The audio gateway machine: what holds

    The machine of HfpAg.v seen from outside (what its listeners are told, the
    timers it starts and cancels, the audio link it reports to the power
    manager) and its fields in each state, for every sequence of inputs. *)

From S2P Require Import Prelude Hsm HsmLogic Bytes BtAddr Hci MediaSystem Hfp HfpAg.
From stdpp Require Import strings.
From coqutil Require Import Datatypes.RecordSetters.
Import UpdaterNotations.

Local Open Scope bt_scope.

Module HfpAgSpec.
Import Hsm HsmLogic BtAddr Hci MediaSystem HfpAg.

(** ** What the outside sees *)

Definition conn_state (c : state) : Z :=
  match c with
  | disconnected_state => PROFILE_STATE_DISCONNECTED
  | connecting_state => PROFILE_STATE_CONNECTING
  | disconnecting_state => PROFILE_STATE_DISCONNECTING
  | _ => PROFILE_STATE_CONNECTED
  end.

(** In the three states of the audio link the clients know which it is. *)
Definition audio_told (c : state) (s : Z) : Prop :=
  match c with
  | audio_connecting_state => s = HFP_AUDIO_STATE_CONNECTING
  | audio_on_state => s = HFP_AUDIO_STATE_CONNECTED
  | audio_disconnecting_state => s = HFP_AUDIO_STATE_DISCONNECTING
  | _ => True
  end.

Definition conn_report (o : out) : option Z :=
  match o with ag_service_notify_connection_state_changed _ s => Some s | _ => None end.
Definition audio_report (o : out) : option Z :=
  match o with ag_service_notify_audio_state_changed _ s => Some s | _ => None end.

Definition timer_effect (h : timer_h) (o : out) : Z :=
  match o with
  | service_loop_timer _ t => b2z (bool_decide (t = Some h))
  | service_loop_cancel_timer t => - b2z (bool_decide (t = Some h))
  | _ => 0
  end.

Definition holds (h : timer_h) (d : ag_data) : Z :=
  b2z (bool_decide (d.(connect_timer) = Some h)) + b2z (bool_decide (d.(retry_timer) = Some h))
  + b2z (bool_decide (d.(dial_out_timer) = Some h)) + b2z (bool_decide (d.(offload_timer) = Some h)).

(** The audio links opened less those closed, for the power manager. *)
Definition sco_effect (o : out) : Z :=
  match o with bt_pm_sco_open _ => 1 | bt_pm_sco_close _ => -1 | _ => 0 end.
Definition sco (c : state) : Z := match c with audio_on_state => 1 | _ => 0 end.

(** ** The fields in each state *)

(** No link yet. *)
Definition unlinked (c : state) : bool :=
  match c with disconnected_state | connecting_state => true | _ => false end.

(** A virtual call goes on in these states only. *)
Definition may_call (c : state) : bool :=
  match c with
  | connected_state | audio_connecting_state | audio_on_state | disconnecting_state => true
  | _ => false
  end.

(** A disconnection waits for the audio link in these states only. *)
Definition may_wait (c : state) : bool :=
  match c with audio_on_state | audio_disconnecting_state | disconnecting_state => true | _ => false end.

Definition waits (d : ag_data) : bool := flag_isset_v d.(pending) PENDING_DISCONNECT.

Definition data_inv (c : state) (d : ag_data) : Prop :=
  (0 <= d.(retry_cnt) <= HFP_AG_RETRY_MAX)%Z /\
  (0 <= d.(set_volume_cnt) <= UINT32_MAX)%Z /\
  (c <> connecting_state -> d.(connect_timer) = None) /\
  (unlinked c = true -> d.(volume_listener) = None) /\
  (d.(virtual_call_started) = true -> may_call c = true) /\
  (waits d = true -> may_wait c = true).

(** What happens between two states. *)
Record step (c c' : state) (d d' : ag_data) (os : list out) : Prop := {
  st_addr : d'.(addr) = d.(addr);
  st_conn : heard conn_report (conn_state c) os = conn_state c';
  st_audio : forall s, audio_told c s -> audio_told c' (heard audio_report s os);
  st_timers : forall h, (holds h d' - holds h d <= net (timer_effect h) os)%Z;
  st_sco : net sco_effect os = (sco c' - sco c)%Z;
}.

#[local] Instance ag_step_rel : StepRel data_inv step.
Proof.
  split.
  - intros c d _. split; try done; [|cbn; lia]. intros h. cbn. lia.
  - intros c c1 c2 d d1 d2 o1 o2 [A1 A2 A3 A4 A5] [B1 B2 B3 B4 B5]. split.
    + congruence.
    + by rewrite heard_app, A2.
    + intros s Hs. rewrite heard_app. auto.
    + intros h. rewrite net_app. specialize (A4 h). specialize (B4 h). lia.
    + rewrite net_app. lia.
Qed.

Abbreviation ag c m Q := (spec data_inv step c m Q).
Abbreviation quiet c m := (stays data_inv step c m).

(** A call that tells nothing new, touches no timer and no audio link. *)
Definition quiet_out (c : state) (o : out) : Prop :=
  match o with
  | ag_service_notify_connection_state_changed _ s => s = conn_state c
  | ag_service_notify_audio_state_changed _ s => audio_told c s
  | service_loop_timer _ (Some _) | service_loop_cancel_timer (Some _)
  | bt_pm_sco_open _ | bt_pm_sco_close _ => False
  | _ => True
  end.

Lemma quiet_out_step c o d : quiet_out c o -> step c c d d [o].
Proof.
  intros Ho. split; try done.
  - destruct o; cbn in *; by subst.
  - intros s Hs. destruct o; cbn in *; done.
  - intros h. destruct o; cbn in *; try lia; case_match; subst; try done; rewrite bool_decide_eq_false_2 by done; cbn; lia.
  - destruct o; cbn in *; try done; lia.
Qed.

Lemma ag_emit c o (Q : unit -> state -> Prop) : quiet_out c o -> Q tt c -> ag c (emit o) Q.
Proof. intros Ho HQ. apply run_emit; [|done]. intros d _. by apply quiet_out_step. Qed.

(** A write that keeps what the invariant and the timers need. *)
Lemma ag_upd c f (Q : unit -> state -> Prop) :
  (forall d, data_inv c d -> data_inv c (f d) /\ (f d).(addr) = d.(addr) /\ (forall h, holds h (f d) <= holds h d)%Z) ->
  Q tt c -> ag c (upd f) Q.
Proof.
  intros Hf HQ. apply run_write; [|done]. intros d Hd. destruct (Hf d Hd) as (H1 & H2 & H3). split; [done|].
  split; try done; [|cbn; lia]. intros h. specialize (H3 h). cbn. lia.
Qed.

Lemma ag_ask c e o (Q : bool -> state -> Prop) : quiet_out c o -> (forall b, Q b c) -> ag c (ask e o) Q.
Proof.
  intros Ho HQ. apply run_seq; [apply _|by apply ag_emit|]. intros []. apply run_ret; [apply _|]. apply HQ.
Qed.

Lemma ag_state {B} c (f : Z -> MG B) Q :
  ag c (f (value_of c)) Q -> ag c (mbind_ (gets ag_state_machine_get_state) f) Q.
Proof.
  intros Hf. apply (run_read_inv _ _ c _ (fun v => v = value_of c)).
  - intros sm Hc _. unfold ag_state_machine_get_state. by rewrite Hc.
  - by intros v ->.
Qed.

Create HintDb ag.

Ltac keep := let d := fresh in let H := fresh in
  intros d H; destruct d; unfold data_inv, waits, holds in *; cbn in *; split_and!; try (intros; lia); naive_solver.
Ltac ag_step1 :=
  lazymatch goal with
  | |- spec _ _ _ (mret_ _) _ => apply run_ret; [apply _|]; by try split
  | |- spec _ _ _ (mbind_ (field _) _) _ => apply run_read; intros ?
  | |- spec _ _ _ (mbind_ (gets ag_state_machine_get_state) _) _ => apply ag_state; cbn
  | |- spec _ _ _ (mbind_ _ _) _ => apply run_seq; [apply _| |intros ?]
  | |- spec _ _ _ (when _ _) _ => apply run_when; [apply _|]; intros ?
  | |- spec _ _ _ (emit _) _ => apply ag_emit; [cbn; done|by try split]
  | |- spec _ _ _ (upd _) _ => first [solve [auto with ag nocore] | apply ag_upd; [solve [keep]|by try split]]
  | |- spec _ _ _ (ask _ _) _ => apply ag_ask; [done|intros ?; by try split]
  | |- spec _ _ _ (match _ with _ => _ end) _ => case_match
  | |- spec _ _ _ _ _ => solve [auto with ag nocore]
  end.
Ltac ag_auto := repeat ag_step1.

(** ** Handlers that stay *)

Lemma flag_set_stays c f : may_wait c = true \/ Z.land f PENDING_DISCONNECT = 0%Z -> quiet c (flag_set f).
Proof.
  intros Hf. apply ag_upd; [|done]. intros d (? & ? & ? & ? & ? & H2). destruct d; cbn in *.
  split; [|split; [done|intros; apply Z.le_refl]]. do 5 (split; [done|]).
  destruct Hf as [Hc|Hl]; [by intros _|]. unfold waits, flag_isset_v, flag_set_v in *; cbn in *. by rewrite Z.land_lor_distr_l, Hl, Z.lor_0_r.
Qed.

Lemma flag_clear_waits p f : flag_isset_v (flag_clear_v p f) PENDING_DISCONNECT = true -> flag_isset_v p PENDING_DISCONNECT = true.
Proof.
  unfold flag_isset_v, flag_clear_v. rewrite !negb_true_iff, !Z.eqb_neq. intros H H0. apply H.
  rewrite <- Z.land_assoc, (Z.land_comm (Z.lnot f)), Z.land_assoc, H0. done.
Qed.

Lemma flag_clear_stays c f : quiet c (flag_clear f).
Proof.
  apply ag_upd; [|done]. intros d (? & ? & ? & ? & ? & H2). destruct d; cbn in *. split; [|split; [done|intros; apply Z.le_refl]].
  do 5 (split; [done|]). intros Hw%flag_clear_waits. auto.
Qed.

Lemma start_flag_stays c : quiet c (flag_set PENDING_OFFLOAD_START).
Proof. apply flag_set_stays. by right. Qed.
Lemma stop_flag_stays c : quiet c (flag_set PENDING_OFFLOAD_STOP).
Proof. apply flag_set_stays. by right. Qed.
Lemma wait_flag_stays : quiet audio_on_state (flag_set PENDING_DISCONNECT).
Proof. apply flag_set_stays. by left. Qed.
#[local] Hint Resolve wait_flag_stays start_flag_stays stop_flag_stays flag_clear_stays : ag.

Lemma virtual_off_stays c : quiet c (set_virtual_call_started false).
Proof. unfold set_virtual_call_started, tell_phone. ag_auto. Qed.
Lemma virtual_on_stays : quiet connected_state (set_virtual_call_started true).
Proof. unfold set_virtual_call_started, tell_phone. ag_auto. Qed.
#[local] Hint Resolve virtual_off_stays virtual_on_stays : ag.

Lemma cind_stays cfg e c : quiet c (cind_request cfg e).
Proof. unfold cind_request, process_cind_request. ag_auto. Qed.
Lemma call_sync_stays c b : quiet c (call_sync b).
Proof. unfold call_sync. ag_auto. Qed.
Lemma vendor_at_stays c a s : quiet c (process_vendor_specific_at a s).
Proof. unfold process_vendor_specific_at. cbv zeta. ag_auto. Qed.
Lemma send_vendor_stays c a s1 s2 : quiet c (hfp_ag_send_vendor_specific_at_cmd a s1 s2).
Proof. unfold hfp_ag_send_vendor_specific_at_cmd, send_at. cbv zeta. ag_auto. Qed.
Lemma send_at_stays c a s : quiet c (send_at_command a s).
Proof. unfold send_at_command, send_at. ag_auto. Qed.
Lemma offload_cmd_stays cfg e c b : quiet c (ag_offload_send_cmd cfg e b).
Proof. unfold ag_offload_send_cmd. ag_auto. Qed.
Lemma no_audio_stays c ev : quiet c (no_audio_offload ev).
Proof. unfold no_audio_offload, send_control_event. ag_auto. Qed.
Lemma set_codec_stays c v : quiet c (set_codec v).
Proof. unfold set_codec. ag_auto. Qed.
Lemma features_stays c v : quiet c (update_remote_features v).
Proof. unfold update_remote_features. ag_auto. Qed.
#[local] Hint Resolve cind_stays call_sync_stays vendor_at_stays send_vendor_stays send_at_stays offload_cmd_stays
  no_audio_stays set_codec_stays features_stays : ag.

(** A counter written with a value known to be fine. *)
Lemma volume_cnt_stays c v : (0 <= v <= UINT32_MAX)%Z -> quiet c (upd {! set_volume_cnt := v }).
Proof.
  intros Hv. apply ag_upd; [|done]. intros d (? & ? & ?). destruct d; cbn in *.
  split; [|split; [done|intros; apply Z.le_refl]]. by split.
Qed.

Lemma volume_cnt_range c (sm : ag_state_machine_t) :
  current_state sm = Some c -> data_inv c sm.(data) -> (0 <= sm.(data).(set_volume_cnt) <= UINT32_MAX)%Z.
Proof. by intros _ (_ & ? & _). Qed.

Lemma voice_volume_stays e c ty v : quiet c (handle_ag_set_voice_call_volume e ty v).
Proof.
  unfold handle_ag_set_voice_call_volume. case_match; [|ag_auto].
  apply run_seq; [apply _|ag_auto|]. intros _. apply run_read. intros mv. case_match; [ag_auto|].
  apply run_seq; [apply _|ag_auto|]. intros ok.
  eapply (run_read_inv _ _ _ _ (fun n => 0 <= n <= UINT32_MAX)%Z); [exact (volume_cnt_range c)|]. intros cnt Hcnt.
  apply run_when; [apply _|]. intros [_ Hlt%Z.ltb_lt]%andb_prop. apply volume_cnt_stays.
  rewrite uint_small; [lia|]. unfold in_u, UINT32_MAX in *. lia.
Qed.

Ltac timer_step :=
  split_and?; try done; split; [done|done|done| |unfold net; cbn; lia];
  intros h; unfold holds, net; cbn; unfold b2z; repeat case_bool_decide; simplify_eq; lia.

Lemma dialing_result_stays c r : quiet c (dialing_result r).
Proof.
  intros sm Hc Hi. exists c. split; [done|]. destruct sm as [i p cur d]. destruct d. cbn in *.
  unfold dialing_result, exec, outs, field, gets, upd, modify, emit, mbind_, mret_. cbn.
  destruct dial_out_timer0 as [t|]; cbn; timer_step.
Qed.

(** A timer is started and kept in place of the one that was there. *)
Lemma dial_timer_stays e c :
  quiet c (emit (service_loop_timer 5000 e.(new_timer));;; upd {! dial_out_timer := e.(new_timer) }).
Proof.
  intros sm Hc Hi. exists c. split; [done|]. destruct sm as [i p cur d]. destruct d. cbn in *.
  timer_step.
Qed.

Lemma offload_timer_stays e c : quiet c (start_offload_timer e).
Proof.
  intros sm Hc Hi. exists c. split; [done|]. destruct sm as [i p cur d]. destruct d. cbn in *.
  timer_step.
Qed.

Lemma stop_timer_stays c : quiet c stop_offload_timer.
Proof.
  intros sm Hc Hi. exists c. split; [done|]. destruct sm as [i p cur d]. destruct d. cbn in *.
  unfold stop_offload_timer, exec, outs, field, gets, upd, modify, emit, mbind_, mret_. cbn.
  destruct offload_timer0 as [t|]; cbn; timer_step.
Qed.
Lemma forget_offload_stays c : quiet c (upd {! offload_timer := None }).
Proof. intros sm Hc Hi. exists c. split; [done|]. destruct sm as [i p cur d]. destruct d. cbn in *. timer_step. Qed.
Lemma forget_retry_stays c : quiet c (upd {! retry_timer := None }).
Proof. intros sm Hc Hi. exists c. split; [done|]. destruct sm as [i p cur d]. destruct d. cbn in *. timer_step. Qed.
#[local] Hint Resolve forget_offload_stays forget_retry_stays voice_volume_stays dialing_result_stays dial_timer_stays offload_timer_stays stop_timer_stays : ag.

Lemma dial_number_stays e c num : quiet c (dial_number e num).
Proof.
  unfold dial_number. apply run_read. intros a. apply run_seq; [apply _|ag_auto|]. intros _.
  apply run_seq; [apply _| |intros; ag_auto]. destruct num as [n|]; [|ag_auto].
  apply run_seq; [apply _|ag_auto|]. intros ok. case_match; [ag_auto|apply dial_timer_stays].
Qed.

Lemma offload_stop_stays cfg e c : quiet c (offload_stop_req cfg e).
Proof. unfold offload_stop_req, send_control_event. ag_auto. Qed.
Lemma clcc_stays cfg c : quiet c (clcc_request cfg).
Proof. unfold clcc_request. ag_auto. Qed.
Lemma phone_change_stays c d : quiet c (phone_state_change d).
Proof. unfold phone_state_change. cbv zeta. ag_auto. Qed.
Lemma at_command_stays c s : quiet c (at_command s).
Proof. unfold at_command, at_cmd_check_test, send_at. ag_auto. Qed.
Lemma set_volume_stays e c d : quiet c (set_volume e d).
Proof. unfold set_volume. cbv zeta. ag_auto. Qed.
#[local] Hint Resolve dial_number_stays offload_stop_stays clcc_stays phone_change_stays at_command_stays set_volume_stays : ag.

Lemma default_stays cfg e c ev d : quiet c (default_process_event cfg e ev d).
Proof. unfold default_process_event, send_control_event. cbv zeta. apply run_read. intros a. destruct ev; ag_auto. Qed.
#[local] Hint Resolve default_stays : ag.

(** ** Transitions *)

Definition edge (c c' : state) : bool :=
  match c, c' with
  | disconnected_state, (connecting_state | connected_state)
  | connecting_state, (disconnected_state | connected_state)
  | disconnecting_state, disconnected_state
  | connected_state, (disconnected_state | disconnecting_state | audio_connecting_state | audio_on_state)
  | audio_connecting_state, (disconnected_state | disconnecting_state | connected_state | audio_on_state)
  | audio_on_state, (disconnected_state | disconnecting_state | connected_state | audio_disconnecting_state)
  | audio_disconnecting_state, (disconnected_state | disconnecting_state | connected_state) => true
  | _, _ => false
  end.

(** The fields once a state has been left. *)
Definition left_inv (c : state) (d : ag_data) : Prop :=
  (0 <= d.(retry_cnt) <= HFP_AG_RETRY_MAX)%Z /\
  (0 <= d.(set_volume_cnt) <= UINT32_MAX)%Z /\
  d.(connect_timer) = None /\
  (unlinked c = true -> d.(volume_listener) = None) /\
  (d.(virtual_call_started) = true -> may_call c = true /\ c <> audio_on_state) /\
  (waits d = true -> may_wait c = true).

(** What leaving a state does: nothing is told, the audio link is closed. *)
Record exited (c : state) (d d' : ag_data) (os : list out) : Prop := {
  ex_addr : d'.(addr) = d.(addr);
  ex_conn : heard conn_report (conn_state c) os = conn_state c;
  ex_timers : forall h, (holds h d' - holds h d <= net (timer_effect h) os)%Z;
  ex_sco : net sco_effect os = (- sco c)%Z;
}.

(** What entering [c'] from [c] and ending in [c''] does. *)
Record entered (c c'' : state) (d d' : ag_data) (os : list out) : Prop := {
  en_addr : d'.(addr) = d.(addr);
  en_conn : heard conn_report (conn_state c) os = conn_state c'';
  en_audio : forall s, audio_told c'' (heard audio_report s os);
  en_timers : forall h, (holds h d' - holds h d <= net (timer_effect h) os)%Z;
  en_sco : net sco_effect os = sco c'';
}.

(** Where a transition to [c'] ends: Connected is left at once when a
    disconnection was waiting for the audio link. *)
Definition ends (c c' c'' : state) : Prop :=
  c'' = c' \/ (c' = connected_state /\ may_wait c = true /\ c'' = disconnecting_state).

Lemma transition_goes (tbl : StateTable state ag_data out) c c' :
  (forall sm, sm.(current_state) = Some c -> data_inv c sm.(data) ->
   let sm' := exec (Hsm.exit c) sm in
   sm'.(current_state) = Some c /\ left_inv c sm'.(data) /\ exited c sm.(data) sm'.(data) (outs (Hsm.exit c) sm)) ->
  (forall sm, sm.(current_state) = Some c' -> sm.(previous_state) = Some c -> left_inv c sm.(data) ->
   let sm' := exec (Hsm.enter c') sm in
   exists c'', ends c c' c'' /\ sm'.(current_state) = Some c'' /\ data_inv c'' sm'.(data) /\
     entered c c'' sm.(data) sm'.(data) (outs (Hsm.enter c') sm)) ->
  ag c (hsm_transition_to c') (fun _ c'' => ends c c' c'').
Proof.
  intros Hex Hen. apply run_transition. intros sm Hc Hi.
  destruct (Hex sm Hc Hi) as (E1 & E2 & [X1 X2 X4 X5]). split; [done|].
  destruct (Hen (set_current (Some c') (set_previous (Some c) (exec (Hsm.exit c) sm))) eq_refl eq_refl E2)
    as (c'' & He & N1 & N2 & [Y1 Y2 Y3 Y4 Y5]).
  exists c''. split_and!; try done. split.
  - by rewrite Y1.
  - by rewrite heard_app, X2.
  - intros s _. rewrite heard_app. apply Y3.
  - intros h. rewrite net_app. specialize (X4 h). specialize (Y4 h). cbn in *. lia.
  - rewrite net_app, X5, Y5. lia.
Qed.

(** A machine, field by field. *)
Ltac open_machine sm Hc :=
  destruct sm as [i p cur [a hd rf ra vc off cod spk mic rc mv vl cnt pend ct aut dt ot rt]]; cbn in Hc; subst cur.
Ltac ag_eval := cbv -[heard net holds data_inv left_inv conn_report audio_report conn_state audio_told sco sco_effect
  timer_effect bt_media_volume_media_to_hfp uint Z.eqb flag_isset_v is_success Z.sub Z.opp Z.le flag_clear_v PENDING_DISCONNECT voice_call_volume status new_listener new_timer ends]; fold (@app out).
Ltac timers := let h := fresh "h" in
  intros h; cbn [app data]; rewrite ?app_nil_r, ?net_app, ?net_cons;
  unfold holds, net; cbn -[bool_decide]; unfold b2z; repeat case_bool_decide; simplify_eq; lia.
Ltac fields := unfold left_inv, data_inv, waits in *; cbn in *; destruct_and!; rewrite ?flag_isset_clear;
  split_and!; first [done | lia | auto; fail | naive_solver].

(** Leaving AudioOn, after the link is closed. *)
Definition audio_off (cfg : config) (e : env) (a : bt_address_t) : MG unit :=
  emit (bt_pm_idle a);;;
  emit bt_media_set_sco_unavailable;;;
  set_virtual_call_started false;;;
  off <- field offloading;;
  when off (offload_stop_req cfg e).

Lemma audio_off_stays cfg e a : quiet audio_on_state (audio_off cfg e a).
Proof. unfold audio_off. ag_auto. Qed.

Lemma audio_off_virtual cfg e a sm : (exec (audio_off cfg e a) sm).(data).(virtual_call_started) = false.
Proof.
  destruct sm as [i p cur [ad hd rf ra vc off cod spk mic rc mv vl cnt pend ct aut dt ot rt]], cfg as [ld ps []], vc, off, ot; cbv -[is_success uint]; try done.
  all: destruct (is_success _); done.
Qed.

Lemma audio_on_leaves cfg e sm :
  sm.(current_state) = Some audio_on_state -> data_inv audio_on_state sm.(data) ->
  let sm' := exec (audio_on_exit cfg e) sm in
  sm'.(current_state) = Some audio_on_state /\ left_inv audio_on_state sm'.(data) /\
  exited audio_on_state sm.(data) sm'.(data) (outs (audio_on_exit cfg e) sm).
Proof.
  intros Hc Hi. set (a := sm.(data).(addr)).
  change (audio_on_exit cfg e) with (a <- field addr;; emit (bt_pm_sco_close a);;; audio_off cfg e a). autorewrite with bt.
  change (exec (field addr) sm) with sm. change (eval (field addr) sm) with a. change (outs (field addr) sm) with (@nil out).
  change (exec (emit (bt_pm_sco_close a)) sm) with sm. change (outs (emit (bt_pm_sco_close a)) sm) with [bt_pm_sco_close a].
  pose proof (audio_off_virtual cfg e a sm) as Hv.
  destruct (audio_off_stays cfg e a sm Hc Hi) as (c' & -> & E1 & (V1 & V2 & V3 & V4 & V5 & V6) & [S1 S2 S3 S4 S5]).
  split; [done|]. split.
  { split; [exact V1|]. split; [exact V2|]. split; [by apply V3|]. split; [exact V4|]. split; [by rewrite Hv|exact V6]. }
  split; [done|done| |].
  - intros h. cbn [app]. rewrite net_cons. specialize (S4 h). cbn -[holds net] in *. lia.
  - cbn [app]. rewrite net_cons, S5. cbn. lia.
Qed.

Section Machine.
Context (cfg : config) (e : env).
#[local] Instance tbl : StateTable state ag_data out := ag_states cfg e.

Lemma leaves c sm :
  sm.(current_state) = Some c -> data_inv c sm.(data) ->
  let sm' := exec (Hsm.exit c) sm in
  sm'.(current_state) = Some c /\ left_inv c sm'.(data) /\ exited c sm.(data) sm'.(data) (outs (Hsm.exit c) sm).
Proof.
  intros Hc Hi. destruct c; try by apply audio_on_leaves.
  all: open_machine sm Hc; ag_eval; split; [done|]; split; [fields|]; split; [done|done|timers|done].
Qed.

(** Entering [c'] from [c]. *)
Abbreviation enters c c' := (forall sm,
   sm.(current_state) = Some c' -> sm.(previous_state) = Some c -> left_inv c sm.(data) ->
   let sm' := exec (Hsm.enter c') sm in
   exists c'', ends c c' c'' /\ sm'.(current_state) = Some c'' /\ data_inv c'' sm'.(data) /\
     entered c c'' sm.(data) sm'.(data) (outs (Hsm.enter c') sm)).

Lemma enters_plain c c' : c' <> connected_state -> edge c c' = true -> enters c c'.
Proof.
  intros Hne He sm Hc Hp Hi. exists c'. split; [by left|]. open_machine sm Hc. cbn in Hp. subst p.
  assert (ct = None) as -> by apply Hi.
  destruct c, c'; try discriminate He; try done; ag_eval.
  all: split; [done|]; split; [fields|]; split; [done|done|done|timers|done].
Qed.

Lemma enters_connected c : edge c connected_state = true -> enters c connected_state.
Proof.
  intros He sm Hc Hp Hi. open_machine sm Hc. cbn in Hp. subst p. assert (ct = None) as -> by apply Hi.
  exists (if flag_isset_v pend PENDING_DISCONNECT then disconnecting_state else connected_state).
  destruct (flag_isset_v pend PENDING_DISCONNECT) eqn:Hw.
  all: destruct c; try discriminate He; destruct (voice_call_volume e) as [v|] eqn:Hv; ag_eval; rewrite ?Hv; ag_eval.
  all: repeat (match goal with
    | |- context [if (?x =? ?y)%Z then _ else _] => destruct (x =? y)%Z
    | |- context [if is_success ?x then _ else _] => destruct (is_success x)
    end; ag_eval); rewrite ?Hw; ag_eval.
  all: split; [first [by left | right; split; [done|]; split; [apply Hi, Hw|done]]|]; split; [done|].
  all: split; [clear He; revert Hi Hw; intros (? & ? & ? & ? & ? & ?) Hw; fields|].
  all: split; [done|done|done|timers|done].
Qed.

(** Every edge of the diagram can be followed. *)
Lemma goes c c' : edge c c' = true -> ag c (hsm_transition_to c') (fun _ c'' => ends c c' c'').
Proof.
  intros He. apply transition_goes; [apply leaves|]. destruct (decide (c' = connected_state)) as [->|Hne].
  - by apply enters_connected.
  - by apply enters_plain.
Qed.

(** A transition that ends a handler. *)
Lemma moves c c' (Q : unit -> state -> Prop) :
  edge c c' = true -> (forall c'', ends c c' c'' -> Q tt c'') -> ag c (hsm_transition_to c') Q.
Proof. intros He HQ. eapply run_mono; [by apply goes|]. intros [] c'' H. by apply HQ. Qed.

(** A report about audio before a state without audio is entered. *)
Lemma tell_first {A} c (m : MG A) a s Q :
  ag c m (fun r c'' => Q r c'' /\ forall x, audio_told c'' x) -> ag c (notify_audio a s;;; m) Q.
Proof.
  intros Hm sm Hc Hi. destruct (Hm sm Hc Hi) as (c'' & [HQ Ht] & E1 & I1 & [S1 S2 S3 S4 S5]).
  exists c''. autorewrite with bt. change (exec (notify_audio a s) sm) with sm.
  change (outs (notify_audio a s) sm) with [ag_service_notify_audio_state_changed a s].
  split; [done|]. split; [done|]. split; [done|]. cbn [app]. by split.
Qed.

(** What an event may do: anything, as long as it is a step. *)
Definition anywhere {A} (_ : A) (_ : state) : Prop := True.

Lemma no_transition {A} c (m : MG A) : quiet c m -> ag c m anywhere.
Proof. intros Hm. by eapply run_mono. Qed.

Lemma done_after {A B} c (m : MG A) (b : B) : ag c m anywhere -> ag c (m;;; mret_ b) anywhere.
Proof. intros Hm. eapply run_bind; [apply _|exact Hm|]. intros. by apply run_ret; [apply _|]. Qed.

Lemma link_event c d : edge c disconnected_state = true -> edge c disconnecting_state = true ->
  ag c (default_connection_event_process cfg e d) anywhere.
Proof.
  intros H1 H2. unfold default_connection_event_process. cbv zeta. case_match; [by apply moves|].
  unfold when. case_match; [by apply moves|]. by apply run_ret; [apply _|].
Qed.

Lemma audio_up_goes c d : edge c audio_on_state = true -> ag c (audio_up cfg e d) anywhere.
Proof. intros He. unfold audio_up. apply run_seq; [apply _|ag_auto|]. intros _. by apply moves. Qed.

(** Leaving: a report of a failure first, or not. *)
Lemma leave_telling c c' (b : bool) a :
  edge c c' = true -> (forall c'', ends c c' c'' -> forall x, audio_told c'' x) ->
  ag c (when b (notify_audio a HFP_AUDIO_STATE_DISCONNECTED);;; hsm_transition_to c') anywhere.
Proof.
  intros He Ht. destruct b; cbn [when].
  - apply tell_first, moves; [done|]. intros c'' H. split; [done|by apply (Ht c'')].
  - apply run_seq; [apply _|ag_auto|]. intros _. by apply moves.
Qed.
End Machine.

Lemma tell_stays a s : quiet connected_state (notify_audio a s).
Proof. unfold notify_audio. ag_auto. Qed.
Lemma allowed_stays e c : quiet c (is_virtual_call_allowed e).
Proof. unfold is_virtual_call_allowed. ag_auto. Qed.
#[local] Hint Resolve tell_stays allowed_stays : ag.

Ltac event_auto :=
  first [ apply no_transition; solve [ag_auto]
        | lazymatch goal with
          | |- spec _ _ _ (mbind_ (field _) _) _ => apply run_read; intros ?
          | |- spec _ _ _ (mbind_ _ (fun _ => mret_ _)) _ => apply done_after
          | |- spec _ _ _ (hsm_transition_to _) _ => by apply moves
          | |- spec _ _ _ (default_connection_event_process _ _ _) _ => by apply link_event
          | |- spec _ _ _ (audio_up _ _ _) _ => by apply audio_up_goes
          | |- spec _ _ _ (drop_audio _ _) _ => solve [auto with ag nocore]
          | |- spec _ _ _ (mbind_ (when _ (notify_audio _ _)) _) _ => apply leave_telling; [done|by intros ? [->|(? & ? & ->)]]
          | |- spec _ _ _ (mbind_ _ _) _ => apply run_seq; [apply _|solve [ag_auto]|intros ?]
          | |- spec _ _ _ (when ?b _) _ => destruct b; cbn [when]
          | |- spec _ _ _ (if ?b then _ else _) _ => destruct b
          end ].

Lemma ag_disconnected_goes cfg e ev d : ag disconnected_state (disconnected_process_event cfg e ev d) anywhere.
Proof.
  unfold disconnected_process_event. cbv zeta. apply run_read. intros a. destruct ev; repeat event_auto.
  eapply run_bind; [apply _|by apply goes|]. intros [] c' _. apply no_transition. ag_auto.
Qed.

Lemma retry_stays e c r : quiet c (schedule_retry e r).
Proof.
  unfold schedule_retry. eapply (run_read_inv _ _ _ _ (fun n => 0 <= n <= HFP_AG_RETRY_MAX)%Z); [by intros sm _ (H & _)|].
  intros cnt Hcnt. intros sm Hc Hi. exists c. split; [done|]. destruct sm as [i p cur d]. destruct d. cbn in *.
  destruct ((u32 r =? PROFILE_REASON_COLLISION)%Z && (cnt <? HFP_AG_RETRY_MAX)%Z) eqn:Hb; cbn; [|timer_step].
  apply andb_prop in Hb as [_ Hlt%Z.ltb_lt]. unfold HFP_AG_RETRY_MAX in *. assert (cnt = 0%Z) as -> by lia.
  unfold exec, outs, field, gets, upd, modify, emit, when, mbind_, mret_. cbn.
  destruct retry_timer0; cbn; [timer_step|]. destruct Hi as (_ & H2 & H3). split; [done|]. split; [|timer_step].
  split; [vm_compute; split; discriminate|done].
Qed.
#[local] Hint Resolve retry_stays : ag.

Lemma ag_connecting_goes cfg e ev d : ag connecting_state (connecting_process_event cfg e ev d) anywhere.
Proof.
  unfold connecting_process_event. cbv zeta. apply run_read. intros a. apply done_after. destruct ev; repeat event_auto.
  eapply run_bind; [apply _|by apply goes|]. intros [] c' _. apply no_transition. ag_auto.
Qed.

Lemma disconnecting_goes cfg e ev d : ag disconnecting_state (disconnecting_process_event cfg e ev d) anywhere.
Proof. unfold disconnecting_process_event. apply done_after. destruct ev; repeat event_auto. Qed.

Lemma ag_connected_goes cfg e ev d : ag connected_state (connected_process_event cfg e ev d) anywhere.
Proof.
  unfold connected_process_event, disconnect_connected. cbv zeta. apply run_read. intros a.
  destruct ev; repeat event_auto.
Qed.

Lemma audio_connecting_goes cfg e ev d : ag audio_connecting_state (audio_connecting_process_event cfg e ev d) anywhere.
Proof.
  unfold audio_connecting_process_event. cbv zeta. apply run_read. intros a. apply done_after. destruct ev; repeat event_auto.
Qed.

Lemma drop_audio_goes cfg e : ag audio_on_state (drop_audio cfg e) anywhere.
Proof.
  unfold drop_audio. apply run_read. intros a. apply run_seq; [apply _|ag_auto|]. intros ok. case_match; [|repeat event_auto].
  apply tell_first. eapply run_bind; [apply _|by apply goes|]. intros [] c' [-> | (_ & _ & ->)]; by apply run_ret; [apply _|].
Qed.
#[local] Hint Resolve drop_audio_goes : ag.

Lemma ag_audio_on_goes cfg e ev d : ag audio_on_state (audio_on_process_event cfg e ev d) anywhere.
Proof.
  unfold audio_on_process_event, send_control_event. cbv zeta. apply run_read. intros a. destruct ev; repeat event_auto.
Qed.

Lemma audio_disconnecting_goes cfg e ev d :
  ag audio_disconnecting_state (audio_disconnecting_process_event cfg e ev d) anywhere.
Proof.
  unfold audio_disconnecting_process_event. cbv zeta. apply run_read. intros a. apply done_after. destruct ev; repeat event_auto.
Qed.

(** ** Inputs *)

Lemma ag_dispatch_goes cfg e m c : ag c (ag_state_machine_dispatch cfg e m) anywhere.
Proof.
  unfold ag_state_machine_dispatch, hsm_dispatch_event. apply done_after.
  apply (run_read_inv _ _ _ _ (fun cur => cur = Some c)); [done|]. intros ? ->. destruct c; cbn [Hsm.process_event ag_events].
  - apply ag_disconnected_goes.
  - apply ag_connecting_goes.
  - apply disconnecting_goes.
  - apply ag_connected_goes.
  - apply audio_connecting_goes.
  - apply ag_audio_on_goes.
  - apply audio_disconnecting_goes.
Qed.

Lemma retry_callback_goes cfg e c : ag c (ag_retry_callback cfg e) anywhere.
Proof.
  unfold ag_retry_callback. apply run_read. intros a. apply ag_state.
  eapply run_bind with (Q := anywhere); [apply _| |intros [] c1 _; apply no_transition; ag_auto].
  destruct c; cbn [value_of Z.eqb when]; try (by apply run_ret; [apply _|]).
  apply run_seq; [apply _|ag_auto|]. intros ok. repeat event_auto.
Qed.

Lemma volume_callback_stays c v : quiet c (hfp_ag_voice_volume_change_callback v).
Proof.
  unfold hfp_ag_voice_volume_change_callback. apply run_read. intros a. apply run_seq; [apply _|ag_auto|]. intros _.
  eapply (run_read_inv _ _ _ _ (fun n => 0 <= n <= UINT32_MAX)%Z); [exact (volume_cnt_range c)|]. intros cnt Hcnt. destruct (cnt =? 0)%Z eqn:Hz; cbn [negb]; [ag_auto|].
  apply volume_cnt_stays. bool_lia.
Qed.

Lemma input_goes cfg e i c : ag c (handle_input cfg e i) anywhere.
Proof.
  destruct i; cbn [handle_input]; [apply ag_dispatch_goes|..].
  - apply no_transition. unfold connect_timeout. ag_auto.
  - apply no_transition. unfold dial_out_timeout. ag_auto.
  - apply retry_callback_goes.
  - unfold hfp_ag_offload_timeout_callback. apply run_read. intros a. apply ag_dispatch_goes.
  - apply no_transition. unfold bt_hci_event_callback, flag_isset. ag_auto.
  - apply no_transition, volume_callback_stays.
  - apply no_transition, ag_upd; [keep|done].
Qed.

Lemma inputs_go cfg l c : ag c (run_inputs cfg l) anywhere.
Proof.
  revert c. induction l as [|[e i] l IH]; intros c; cbn [run_inputs]; [by apply run_ret; [apply _|]|].
  eapply run_bind; [apply _|apply input_goes|]. intros [] c1 _. apply IH.
Qed.

(** Everything about a run from a new machine. *)
Lemma run_new cfg e a l :
  let r := run_inputs cfg l in
  let sm := ag_state_machine_new cfg e a in
  exists c, (exec r sm).(current_state) = Some c /\ data_inv c (exec r sm).(data) /\
    step disconnected_state c sm.(data) (exec r sm).(data) (outs r sm).
Proof.
  destruct (inputs_go cfg l disconnected_state (ag_state_machine_new cfg e a) eq_refl) as (c & _ & H).
  - split_and!; try done.
  - by exists c.
Qed.

(** C30: whatever happens, the connection state the audio gateway last reported
    to its clients is the one it answers when asked; and while an audio link
    is being set up, is there or is being released, the audio state last
    reported says so. *)
Theorem ag_listeners_agree (cfg : config) (e : env) (a : bt_address_t) (l : list (env * input)) (s0 : Z) :
  let r := run_inputs cfg l in
  let sm := ag_state_machine_new cfg e a in
  let state := ag_state_machine_get_state (exec r sm) in
  let audio := heard audio_report s0 (outs r sm) in
  heard conn_report PROFILE_STATE_DISCONNECTED (outs r sm) = hfp_ag_get_connection_state (exec r sm) /\
  (state = HFP_AG_STATE_AUDIO_CONNECTING -> audio = HFP_AUDIO_STATE_CONNECTING) /\
  (state = HFP_AG_STATE_AUDIO_CONNECTED -> audio = HFP_AUDIO_STATE_CONNECTED) /\
  (state = HFP_AG_STATE_AUDIO_DISCONNECTING -> audio = HFP_AUDIO_STATE_DISCONNECTING).
Proof.
  destruct (run_new cfg e a l) as (c & Hc & _ & [_ S2 S3 _ _]). specialize (S3 s0 I).
  unfold hfp_ag_get_connection_state, ag_state_machine_get_state. rewrite Hc.
  split; [by destruct c|]. destruct c; cbn in *; split_and!; intros ?; done.
Qed.

(** C31: the audio gateway reports an audio link to the power manager exactly
    while it has one, and cancels no timer more often than it started it. *)
Theorem ag_links_and_timers_balanced (cfg : config) (e : env) (a : bt_address_t) (l : list (env * input)) (h : timer_h) :
  let r := run_inputs cfg l in
  let sm := ag_state_machine_new cfg e a in
  net sco_effect (outs r sm) = b2z (hfp_ag_is_audio_connected (exec r sm)) /\
  (0 <= net (timer_effect h) (outs r sm))%Z.
Proof.
  destruct (run_new cfg e a l) as (c & Hc & _ & [_ _ _ S4 S5]). split.
  - unfold hfp_ag_is_audio_connected, ag_state_machine_get_state. rewrite Hc, S5. by destruct c.
  - specialize (S4 h). change (holds h (ag_state_machine_new cfg e a).(data)) with 0%Z in S4.
    assert (forall d, (0 <= holds h d)%Z) as Hh by (intros d; unfold holds, b2z; repeat case_bool_decide; lia).
    specialize (Hh (exec (run_inputs cfg l) (ag_state_machine_new cfg e a)).(data)). lia.
Qed.

(** C32: in every state the audio gateway reaches its fields are the ones that
    state allows: one retry at most, a connection timer while connecting only,
    no volume listener before there is a link, a virtual call and a
    disconnection that waits for the audio link only in the states for them. *)
Theorem ag_reachable_fields (cfg : config) (e : env) (a : bt_address_t) (l : list (env * input)) :
  let sm := exec (run_inputs cfg l) (ag_state_machine_new cfg e a) in
  exists c, sm.(current_state) = Some c /\ sm.(data).(addr) = a /\ data_inv c sm.(data).
Proof.
  destruct (run_new cfg e a l) as (c & Hc & Hi & [S1 _ _ _ _]). exists c. by rewrite S1.
Qed.

(** ** The nested dispatches

    [connected_enter] and [audio_on_exit] dispatch an event from inside a
    transition; the model runs the handler of that event. *)

(** What the table says of entering Connected does not matter to
    [AG_DISCONNECT] in Connected. *)
Lemma connected_disconnects cfg e k k' sm :
  sm.(current_state) = Some connected_state -> disconnect_connected cfg e k sm = disconnect_connected cfg e k' sm.
Proof. destruct sm as [i p cur d]; cbn. intros ->. reflexivity. Qed.

Lemma ag_audio_on_stops_offload cfg e a sm :
  sm.(current_state) = Some audio_on_state ->
  ag_state_machine_dispatch cfg e (hfp_ag_msg_new AG_OFFLOAD_STOP_REQ a) sm = offload_stop_req cfg e sm.
Proof.
  intros Hc. unfold ag_state_machine_dispatch, hsm_dispatch_event, gets, mbind_. rewrite Hc. cbn.
  unfold audio_on_process_event, mbind_, field, gets. cbn. destruct (offload_stop_req cfg e sm) as [[[] sm'] o]. cbn. by rewrite ?app_nil_r.
Qed.

(** ** Where the code does something else than it means to *)

Definition demo_cfg : config := mk_config false false true.
(** The outside answers [st] to everything. *)
Definition demo_env (st : bt_status_t) : env := mk_env (fun _ => st) 0 None (Some 1) (Some 7) (0, 0, 0)%Z (0, 0, 6)%Z None.
Definition ok_env : env := demo_env BT_STATUS_SUCCESS.
Definition demo_data (v1 v2 : Z) (s : option string) : hfp_ag_data_t :=
  mk_msg_data bt_addr_empty v1 v2 0 0 s None (mk_hci 0 []).
Definition demo_in (ev : hfp_ag_event_t) (v1 : Z) : env * input := (ok_env, in_msg (mk_msg ev (demo_data v1 0 None))).
Definition demo_sm : ag_state_machine_t := ag_state_machine_new demo_cfg ok_env bt_addr_empty.
Definition linked_up : list (env * input) := [demo_in AG_STACK_EVENT_CONNECTION_STATE_CHANGED PROFILE_STATE_CONNECTED].
Definition audio_is (v : Z) : env * input := demo_in AG_STACK_EVENT_AUDIO_STATE_CHANGED v.
Definition state_after (l : list (env * input)) : option state := (exec (run_inputs demo_cfg l) demo_sm).(current_state).

(** A link lost with its audio: nobody is told that the audio is gone, and
    the next connection starts with clients that believe it is there. *)
Lemma audio_loss_untold :
  let l := linked_up ++ [audio_is HFP_AUDIO_STATE_CONNECTED;
                         demo_in AG_STACK_EVENT_CONNECTION_STATE_CHANGED PROFILE_STATE_DISCONNECTED] ++ linked_up in
  state_after l = Some connected_state /\
  heard audio_report HFP_AUDIO_STATE_DISCONNECTED (outs (run_inputs demo_cfg l) demo_sm) = HFP_AUDIO_STATE_CONNECTED.
Proof. by vm_compute. Qed.

(** A virtual call whose audio link fails stays started: it cannot be stopped,
    and no other one can be started. *)
Lemma virtual_call_outlives_audio :
  let l := linked_up ++ [demo_in AG_START_VIRTUAL_CALL 0; audio_is HFP_AUDIO_STATE_DISCONNECTED;
                         demo_in AG_STOP_VIRTUAL_CALL 0] in
  state_after l = Some connected_state /\
  (exec (run_inputs demo_cfg l) demo_sm).(data).(virtual_call_started) = true.
Proof. by vm_compute. Qed.

(** A phone that reports it is idle ends the virtual call for the headset,
    while the machine keeps it. *)
Lemma idle_phone_hides_virtual_call :
  let l := linked_up ++ [demo_in AG_START_VIRTUAL_CALL 0] in
  let m := run_inputs demo_cfg (l ++ [(ok_env, in_msg (mk_msg AG_PHONE_STATE_CHANGE
             (mk_msg_data bt_addr_empty 0 0 HFP_AG_CALL_STATE_IDLE HFP_CALL_ADDRTYPE_UNKNOWN None None (mk_hci 0 []))))]) in
  (exec m demo_sm).(data).(virtual_call_started) = true /\
  last (outs m demo_sm) =
    Some (bt_sal_hfp_ag_phone_state_change bt_addr_empty 0 0 HFP_AG_CALL_STATE_IDLE HFP_CALL_ADDRTYPE_UNKNOWN None None).
Proof. by vm_compute. Qed.

(** Disconnecting is left on the stack's report only; nothing times out there. *)
Lemma disconnecting_waits_forever cfg e m sm :
  sm.(current_state) = Some disconnecting_state ->
  (m.(event) = AG_STACK_EVENT_CONNECTION_STATE_CHANGED -> u32 m.(msg_data).(valueint1) <> PROFILE_STATE_DISCONNECTED) ->
  exec (ag_state_machine_dispatch cfg e m) sm = sm.
Proof.
  intros Hc Hm. destruct sm as [i p cur d]. cbn in Hc. subst cur. destruct m as [ev md]. cbn in Hm.
  destruct ev; try reflexivity. specialize (Hm eq_refl). apply Z.eqb_neq in Hm.
  unfold ag_state_machine_dispatch, hsm_dispatch_event, gets, exec, mbind_. cbn -[Z.eqb]. unfold disconnecting_process_event. rewrite Hm. reflexivity.
Qed.

(** A disconnection the stack refuses leads there all the same. *)
Lemma refused_disconnect_hangs :
  state_after (linked_up ++ [(demo_env BT_STATUS_FAIL, in_msg (hfp_ag_msg_new AG_DISCONNECT bt_addr_empty))])
  = Some disconnecting_state.
Proof. by vm_compute. Qed.

(** The answer OK is sent with a byte more than its text has. *)
Lemma ok_sent_with_nul a value sm :
  vendor_prefix value company_id_map <> None ->
  In (bt_sal_hfp_ag_send_at_cmd a (CRLF ++ "OK" ++ CRLF)%string (Z.of_nat (String.length (CRLF ++ "OK" ++ CRLF)%string) + 1))
    (outs (process_vendor_specific_at a (Some value)) sm).
Proof.
  intros H. unfold process_vendor_specific_at. destruct (vendor_prefix value company_id_map) as [[[c i] v]|]; [|done].
  right. by left.
Qed.

(** A longer command that starts like a vendor's is taken for it, its next
    character skipped in place of the equals sign. *)
Lemma longer_command_accepted :
  vendor_prefix "AT+XIAOMIZE5" company_id_map = Some ("+XIAOMI", BLUETOOTH_COMPANY_ID_XIAOMI, "E5")%string.
Proof. by vm_compute. Qed.

(** An empty command is a NULL string, whose length is read. *)
Lemma empty_at_command_crashes a sm :
  sm.(current_state) = Some connected_state ->
  In null_string (outs (ag_state_machine_dispatch demo_cfg ok_env (hfp_ag_msg_new AG_SEND_AT_COMMAND a)) sm) /\
  In null_string (outs (ag_state_machine_dispatch demo_cfg ok_env (hfp_ag_msg_new AG_STACK_EVENT_AT_COMMAND a)) sm).
Proof. destruct sm as [i p cur d]; cbn. intros ->. split; cbn; auto. Qed.

(** Dialling again before the first result forgets the running timer. *)
Lemma redial_leaks_timer (t1 t2 : timer_h) :
  let dial t := (mk_env (fun _ => BT_STATUS_SUCCESS) 0 None None (Some t) (0, 0, 0)%Z (0, 0, 6)%Z None,
                 in_msg (mk_msg AG_STACK_EVENT_DIAL_NUMBER (demo_data 0 0 (Some "112"%string)))) in
  let m := run_inputs demo_cfg (linked_up ++ [dial t1; dial t2]) in
  (exec m demo_sm).(data).(dial_out_timer) = Some t2 /\
  (t1 <> t2 -> net (timer_effect t1) (outs m demo_sm) = 1%Z).
Proof.
  split; [reflexivity|]. intros Hne.
  match goal with |- net _ ?o = _ => let o' := eval vm_compute in o in change o with o' end.
  rewrite !net_cons. cbn -[bool_decide]. rewrite bool_decide_eq_true_2 by done.
  rewrite (bool_decide_eq_false_2 (Some t2 = Some t1)) by naive_solver. done.
Qed.
End HfpAgSpec.
