(* ===== verification/HfpAgFaults.v ===== *)
(** * The audio gateway machine: which messages make it fail

    The machine of HfpAg.v fails an assertion when it has no vendor command to
    start or stop the offload with, and reads a NULL string for an AT command
    without a text.  Here is exactly when. *)

From S2P Require Import Prelude Hsm MachineFaults Bytes BtAddr Hci MediaSystem Hfp HfpAg.
From stdpp Require Import strings.
From coqutil Require Import Datatypes.RecordSetters.
Import UpdaterNotations.

Local Open Scope bt_scope.

Module HfpAgFaults.
Import Hsm MachineFaults BtAddr Hci MediaSystem Hfp HfpAg.

Definition fault (o : out) : bool := match o with null_string | assert_failed => true | _ => false end.

(** AudioOn is left with an offload to stop and no command to do it with. *)
Definition cannot_stop (cfg : config) (sm : ag_state_machine_t) : bool := sm.(data).(offloading) && negb cfg.(vendor_actions).

Definition no_string (m : hfp_ag_msg_t) : bool := match m.(msg_data).(string1) with None => true | Some _ => false end.

(** The link is up. *)
Definition linked (c : state) : bool :=
  match c with connected_state | audio_connecting_state | audio_on_state | audio_disconnecting_state => true | _ => false end.

Definition in_audio (c : state) : bool := match c with audio_on_state => true | _ => false end.
Definition in_connecting (c : state) : bool := match c with connecting_state => true | _ => false end.

(** The messages that make the machine leave AudioOn. *)
Definition leaves_audio (sm : ag_state_machine_t) (m : hfp_ag_msg_t) : bool :=
  let st := u32 m.(msg_data).(valueint1) in
  match m.(event) with
  | AG_DISCONNECT | AG_DISCONNECT_AUDIO => true
  | AG_STOP_VIRTUAL_CALL => sm.(data).(virtual_call_started)
  | AG_STACK_EVENT_CONNECTION_STATE_CHANGED => ((st =? PROFILE_STATE_DISCONNECTED) || (st =? PROFILE_STATE_DISCONNECTING))%Z
  | AG_STACK_EVENT_AUDIO_STATE_CHANGED => (st =? HFP_AUDIO_STATE_DISCONNECTED)%Z
  | _ => false
  end.

(** The messages on which the machine fails. *)
Definition machine_faults (cfg : config) (sm : ag_state_machine_t) (m : hfp_ag_msg_t) : bool :=
  match sm.(current_state) with
  | None => false
  | Some c =>
      match m.(event) with
      | AG_SEND_AT_COMMAND => (linked c || in_connecting c) && no_string m
      | AG_STACK_EVENT_AT_COMMAND => linked c && no_string m
      | AG_OFFLOAD_START_REQ | AG_OFFLOAD_STOP_REQ => in_audio c && negb cfg.(vendor_actions)
      | _ => in_audio c && leaves_audio sm m && cannot_stop cfg sm
      end
  end.

Abbreviation quiet m := (still fault offloading m).
Abbreviation fails b m sm := (faults fault b m sm).

(** ** The parts *)

Lemma ag_quiet_fails {A} (m : MG A) sm : quiet m -> fails false m sm.
Proof. apply faults_still. Qed.
Lemma ag_quiet_upd f : (forall d, offloading (f d) = offloading d) -> quiet (upd f).
Proof. apply still_upd. Qed.
Lemma ag_quiet_field {A} (f : ag_data -> A) : quiet (field f).
Proof. apply still_gets. Qed.
#[local] Hint Resolve ag_quiet_field : faults.
#[local] Hint Extern 1 (still _ _ (upd _)) => (apply ag_quiet_upd; intros; reflexivity) : faults.
#[local] Hint Extern 1 (still _ _ (flag_isset _)) => apply ag_quiet_field : faults.
#[local] Hint Extern 1 (still _ _ (flag_set _)) => (apply ag_quiet_upd; intros; reflexivity) : faults.
#[local] Hint Extern 1 (still _ _ (flag_clear _)) => (apply ag_quiet_upd; intros; reflexivity) : faults.
#[local] Hint Extern 1 (still _ _ (send_control_event _)) => (apply still_emit; reflexivity) : faults.
#[local] Hint Extern 1 (still _ _ (notify_audio _ _)) => (apply still_emit; reflexivity) : faults.
#[local] Hint Extern 1 (still _ _ (send_at _ _)) => (apply still_emit; reflexivity) : faults.
#[local] Hint Extern 1 (still _ _ (tell_phone _ _ _)) => (apply still_emit; reflexivity) : faults.

Lemma ag_quiet_ask e o : fault o = false -> quiet (ask e o).
Proof. intros Ho. unfold ask. apply still_bind; [by apply still_emit|]. intros ?. apply still_ret. Qed.
#[local] Hint Extern 1 (still _ _ (ask _ _)) => (apply ag_quiet_ask; reflexivity) : faults.

Lemma quiet_test a s : quiet (at_cmd_check_test a s).
Proof. unfold at_cmd_check_test. still_auto. Qed.
Lemma quiet_vendor a s : quiet (process_vendor_specific_at a s).
Proof. unfold process_vendor_specific_at. still_auto. Qed.
Lemma quiet_send_vendor a c v : quiet (hfp_ag_send_vendor_specific_at_cmd a c v).
Proof. unfold hfp_ag_send_vendor_specific_at_cmd. still_auto. Qed.
Lemma ag_quiet_features f : quiet (update_remote_features f).
Proof. unfold update_remote_features. still_auto. Qed.
Lemma quiet_virtual b : quiet (set_virtual_call_started b).
Proof. unfold set_virtual_call_started. still_auto. Qed.
Lemma ag_quiet_destroy : quiet ag_state_machine_destory.
Proof. unfold ag_state_machine_destory. still_auto. Qed.
Lemma ag_quiet_codec v : quiet (set_codec v).
Proof. unfold set_codec. still_auto. Qed.
Lemma ag_quiet_no_audio ev : quiet (no_audio_offload ev).
Proof. unfold no_audio_offload. still_auto. Qed.
Lemma ag_quiet_stop_timer : quiet stop_offload_timer.
Proof. unfold stop_offload_timer. still_auto. Qed.
Lemma quiet_dialing_result r : quiet (dialing_result r).
Proof. unfold dialing_result. still_auto. Qed.
#[local] Hint Resolve quiet_test quiet_vendor quiet_send_vendor ag_quiet_features quiet_virtual ag_quiet_codec ag_quiet_no_audio ag_quiet_stop_timer
  quiet_dialing_result : faults.
Lemma quiet_phone d : quiet (phone_state_change d).
Proof. unfold phone_state_change. still_auto. Qed.
Lemma quiet_sync b : quiet (call_sync b).
Proof. unfold call_sync. still_auto. Qed.
#[local] Hint Resolve quiet_phone quiet_sync : faults.

Section Handlers.
Context (cfg : config) (e : env).

Lemma quiet_cind : quiet (cind_request cfg e).
Proof. unfold cind_request, process_cind_request. still_auto. Qed.
Lemma ag_quiet_schedule r : quiet (schedule_retry e r).
Proof. unfold schedule_retry. still_auto. Qed.
Lemma ag_quiet_voice_volume t v : quiet (handle_ag_set_voice_call_volume e t v).
Proof. unfold handle_ag_set_voice_call_volume. still_auto. Qed.
Lemma ag_quiet_dial n : quiet (dial_number e n).
Proof. unfold dial_number. still_auto. Qed.
Lemma quiet_clcc : quiet (clcc_request cfg).
Proof. unfold clcc_request. still_auto. Qed.
Lemma ag_quiet_allowed : quiet (is_virtual_call_allowed e).
Proof. unfold is_virtual_call_allowed. still_auto. Qed.
Lemma ag_quiet_set_volume d : quiet (set_volume e d).
Proof. unfold set_volume. still_auto. Qed.
Lemma ag_quiet_start_timer : quiet (start_offload_timer e).
Proof. unfold start_offload_timer. still_auto. Qed.
#[local] Hint Resolve quiet_cind ag_quiet_schedule ag_quiet_voice_volume ag_quiet_dial quiet_clcc ag_quiet_allowed ag_quiet_set_volume ag_quiet_start_timer : faults.

(** ** The commands of the offload *)

Lemma ag_command_faults is_start sm : fails (negb cfg.(vendor_actions)) (ag_offload_send_cmd cfg e is_start) sm.
Proof.
  unfold ag_offload_send_cmd. apply faults_gets, faults_gets. unfold hfp_offload_start_builder, hfp_offload_stop_builder.
  destruct is_start, (vendor_actions cfg); cbn [negb]; try (apply faults_stop, faults_emit; reflexivity).
  all: match goal with |- context [split_command ?p ?n] => destruct (split_command p n) as [[[[ogf ocf] len] q]|] eqn:E end;
    [by apply ag_quiet_fails, ag_quiet_ask|discriminate E].
Qed.

Lemma ag_stop_faults sm : fails (negb cfg.(vendor_actions)) (offload_stop_req cfg e) sm.
Proof.
  unfold offload_stop_req. apply (faults_before _ offloading); [still_auto|]. intros running sm1 _ _.
  apply (faults_before _ offloading); [still_auto|]. intros _ sm2 _ _. apply (faults_after _ offloading); [apply ag_command_faults|]. intros ok. still_auto.
Qed.

(** ** Leaving and entering *)

Lemma ag_exit_audio_faults sm : fails (cannot_stop cfg sm) (audio_on_exit cfg e) sm.
Proof.
  unfold audio_on_exit, cannot_stop. apply faults_gets. do 4 (apply (faults_before _ offloading); [still_auto|]; intros _ ?sm _ <-).
  unfold field. apply faults_gets.
  match goal with |- fails _ (when ?b _) _ => destruct b end; cbn [andb when]; [apply ag_stop_faults|apply ag_quiet_fails, still_ret].
Qed.

Lemma ag_exit_keeps : still (fun _ => false) offloading (audio_on_exit cfg e).
Proof.
  unfold audio_on_exit, offload_stop_req, stop_offload_timer, ag_offload_send_cmd, set_virtual_call_started, tell_phone, ask,
    send_control_event, flag_set, flag_clear, field, upd. still_auto.
Qed.

(** The table, whatever entering Connected does. *)
Section Table.
Context (k : MG unit).

Lemma ag_quiet_exit c : c <> audio_on_state -> quiet (Hsm.exit (StateTable := table cfg e k) c).
Proof.
  intros Hc. destruct c; try done; cbn;
    unfold disconnected_exit, connecting_exit, disconnecting_exit, connected_exit, audio_connecting_exit, audio_disconnecting_exit; still_auto.
Qed.

Lemma ag_quiet_enter c : c <> connected_state -> quiet (Hsm.enter (StateTable := table cfg e k) c).
Proof.
  intros Hc. destruct c; try done; cbn;
    unfold disconnected_enter, connecting_enter, disconnecting_enter, audio_connecting_enter, audio_on_enter, audio_disconnecting_enter; still_auto.
Qed.

(** A transition fails exactly where the offload cannot be stopped. *)
Lemma table_faults st sm c :
  sm.(current_state) = Some c -> (forall sm', sm'.(current_state) = Some connected_state -> fails false k sm') ->
  fails (bool_decide (c = audio_on_state) && cannot_stop cfg sm) (hsm_transition_to (StateTable0 := table cfg e k) st) sm.
Proof.
  intros Hc Hk. eapply (faults_transition fault c); [done| | |].
  - case_bool_decide as E; cbn [andb]; [subst c; by apply ag_exit_audio_faults|]. by apply ag_quiet_fails, ag_quiet_exit.
  - rewrite <- Hc. destruct (decide (c = audio_on_state)) as [->|Hne]; [apply ag_exit_keeps|by apply ag_quiet_exit].
  - intros sm' Hc'. destruct (decide (st = connected_state)) as [->|Hne]; [by apply Hk|by apply ag_quiet_fails, ag_quiet_enter].
Qed.
End Table.

Lemma disconnect_faults k sm : sm.(current_state) = Some connected_state -> fails false (disconnect_connected cfg e k) sm.
Proof.
  intros Hc. unfold disconnect_connected. apply faults_gets. apply (faults_before _ offloading); [still_auto|]. intros _ sm1 Hc1 Hk1.
  eapply (faults_transition fault connected_state); [congruence|apply ag_quiet_fails; by apply ag_quiet_exit| |].
  - rewrite Hc in Hc1. rewrite <- Hc1. by apply ag_quiet_exit.
  - intros sm' _. by apply ag_quiet_fails, ag_quiet_enter.
Qed.

Lemma connected_enter_faults sm : sm.(current_state) = Some connected_state -> fails false (connected_enter cfg e) sm.
Proof.
  intros Hc. unfold connected_enter. apply faults_gets, faults_gets. apply (faults_before _ offloading); [still_auto|]. intros _ sm1 Hc1 _.
  apply (faults_before _ offloading); [still_auto|]. intros _ sm2 Hc2 _. apply (faults_before _ offloading); [still_auto|]. intros p sm3 Hc3 _.
  destruct p; cbn [when]; [apply disconnect_faults; congruence|apply ag_quiet_fails, still_ret].
Qed.

(** ** Messages *)

(** A transition out of a state, after what is still. *)
Lemma ag_leaves st sm sm' c :
  sm.(current_state) = Some c -> sm'.(current_state) = sm.(current_state) -> offloading sm'.(data) = offloading sm.(data) ->
  fails (in_audio c && cannot_stop cfg sm) (hsm_transition_to (StateTable0 := ag_states cfg e) st) sm'.
Proof.
  intros Hc Hc' Hk. assert (cannot_stop cfg sm = cannot_stop cfg sm') as -> by (unfold cannot_stop; by rewrite Hk).
  refine (eq_trans (table_faults (connected_enter cfg e) st sm' c _ connected_enter_faults) _); [congruence|by destruct c].
Qed.

Ltac handler Hc :=
  repeat match goal with
  | |- faults _ false ?m _ => solve [apply ag_quiet_fails; still_auto]
  | |- faults _ _ (mbind_ (field _) _) _ => apply faults_gets
  | |- faults _ _ (ag_offload_send_cmd _ _ _) _ => apply ag_command_faults
  | |- faults _ _ (offload_stop_req _ _) _ => apply ag_stop_faults
  | |- faults _ _ (hsm_transition_to _) _ => solve [refine (eq_trans (ag_leaves _ _ _ _ Hc _ _) _); [congruence|congruence|reflexivity]]
  | |- faults _ _ (disconnect_connected _ _ _) _ => apply disconnect_faults; congruence
  | |- faults _ _ (mbind_ _ _) _ => apply (faults_after _ offloading); [|intros ?; solve [still_auto]]
  | |- faults _ _ (mbind_ _ _) _ => apply (faults_before _ offloading); [solve [still_auto]|intros ? ? ? ?]
  | |- faults _ _ (default_connection_event_process _ _ _) _ => unfold default_connection_event_process; cbn zeta
  | |- faults _ _ (audio_up _ _ _) _ => unfold audio_up
  | |- faults _ _ (drop_audio _ _) _ => unfold drop_audio
  | |- faults _ _ (if negb ?b then _ else _) _ => destruct b; cbn [andb orb negb]
  | |- faults _ _ (when ?b _) _ => destruct b; cbn [when andb orb negb]
  | |- faults _ _ (if ?b then _ else _) _ => destruct b; cbn [andb orb negb]
  end.

(** Nothing that the states with a link share makes a transition. *)
Lemma ag_default_faults m sm :
  fails match m.(event) with AG_SEND_AT_COMMAND | AG_STACK_EVENT_AT_COMMAND => no_string m | _ => false end
    (default_process_event cfg e m.(event) m.(msg_data)) sm.
Proof.
  unfold default_process_event. apply faults_gets. destruct (event m) eqn:Ev; try (apply ag_quiet_fails; cbn zeta; still_auto).
  - unfold no_string, send_at_command. destruct (string1 _); [apply ag_quiet_fails; still_auto|]. by apply faults_emit.
  - unfold no_string, at_command. apply faults_gets. destruct (string1 _); [apply ag_quiet_fails; still_auto|]. by apply faults_emit.
Qed.

Lemma ag_process_faults m sm c :
  sm.(current_state) = Some c -> fails (machine_faults cfg sm m) (Hsm.process_event (EventTable := ag_events cfg e) c m) sm.
Proof.
  intros Hc. pose proof (ag_default_faults m sm) as Hd. unfold machine_faults, leaves_audio. rewrite Hc. destruct c; cbn [Hsm.process_event ag_events linked in_audio in_connecting andb orb].
  - unfold disconnected_process_event. destruct (event m); handler Hc.
  - unfold connecting_process_event, send_at_command, no_string. destruct (event m); handler Hc.
    destruct (string1 _); [apply ag_quiet_fails; still_auto|]. by apply faults_emit.
  - unfold disconnecting_process_event. destruct (event m); handler Hc.
  - unfold connected_process_event. apply faults_gets. destruct (event m) eqn:Ev; cbn [andb]; handler Hc; exact Hd.
  - unfold audio_connecting_process_event. apply faults_gets. destruct (event m) eqn:Ev; cbn [andb]; handler Hc; exact Hd.
  - unfold audio_on_process_event. apply faults_gets. destruct (event m) eqn:Ev; cbn [andb]; handler Hc; exact Hd.
  - unfold audio_disconnecting_process_event. apply faults_gets. destruct (event m) eqn:Ev; cbn [andb]; handler Hc; exact Hd.
Qed.

(** A message makes the machine fail exactly when [machine_faults] says so. *)
Lemma ag_dispatch_faults m sm : fails (machine_faults cfg sm m) (ag_state_machine_dispatch cfg e m) sm.
Proof.
  unfold ag_state_machine_dispatch. apply (faults_after _ offloading); [|intros ?; apply still_ret]. unfold hsm_dispatch_event. apply faults_gets.
  destruct (current_state sm) as [c|] eqn:Hc; [by apply ag_process_faults|]. unfold machine_faults. by rewrite Hc.
Qed.

(** The messages that go to every machine do not. *)
Definition common (ev : hfp_ag_event_t) : bool :=
  match ev with
  | AG_DEVICE_STATUS_CHANGED | AG_PHONE_STATE_CHANGE | AG_SET_VOLUME | AG_SET_INBAND_RING_ENABLE | AG_DIALING_RESULT => true
  | _ => false
  end.

Lemma ag_common_faults m sm : common m.(event) = true -> machine_faults cfg sm m = false.
Proof. unfold machine_faults, leaves_audio. intros H. destruct (current_state sm) as [[]|]; [..|done]; by destruct (event m). Qed.

(** Nor do the timers, the controller and the media system. *)
Lemma ag_callback_faults i sm c :
  match i with in_msg _ => False | _ => True end -> sm.(current_state) = Some c -> fails false (handle_input cfg e i) sm.
Proof.
  intros Hn Hc. destruct i as [m| | | | | | |]; [done|..]; cbn [handle_input].
  - apply ag_quiet_fails. unfold connect_timeout. still_auto.
  - apply ag_quiet_fails. unfold dial_out_timeout. still_auto.
  - unfold ag_retry_callback. apply faults_gets, faults_gets. apply (faults_after _ offloading); [|intros ?; still_auto].
    destruct c; unfold ag_state_machine_get_state; rewrite Hc; cbn [value_of Z.eqb HFP_AG_STATE_DISCONNECTED when]; try (apply ag_quiet_fails, still_ret).
    handler Hc.
  - unfold hfp_ag_offload_timeout_callback. apply faults_gets. refine (eq_trans (ag_dispatch_faults _ sm) _). unfold machine_faults. rewrite Hc. by destruct c.
  - apply ag_quiet_fails. unfold bt_hci_event_callback. still_auto.
  - apply ag_quiet_fails. unfold hfp_ag_voice_volume_change_callback. still_auto.
  - done.
Qed.
End Handlers.
End HfpAgFaults.
