(* ===== verification/HfpAgService.v ===== *)
(** * The audio gateway service (service/profiles/hfp_ag/hfp_ag_service.c)

    The service keeps one machine of HfpAg.v per headset it has heard of, in
    the way of PeerService.v.  Its interface and the stack's callbacks post
    messages to the service loop; [hfp_ag_process_message] takes them one at a
    time, and gives some of them to every device. *)

From S2P Require Import Prelude Fallible Hsm MachineFaults HsmLogic Bytes BtAddr Hci PeerService Hfp HfpAg HfpAgSpec HfpAgFaults.
From stdpp Require Import strings.
From coqutil Require Import Datatypes.RecordSetters.
Import UpdaterNotations.

Local Open Scope fall_scope.

Module HfpAgService.
Import Hsm MachineFaults BtAddr Hci PeerService HfpAg HfpAgSpec HfpAgFaults.

(** ** State and calls *)

Abbreviation ag_device_t := (device_t ag_state_machine_t).
Abbreviation ag_service_t := (service_t ag_state_machine_t).

Inductive sout :=
| machine_out (o : out)
| send_message (m : hfp_ag_msg_t)
| on_startup (ok : bool)
| on_shutdown (ok : bool)
| bt_sal_hfp_ag_init (features max : Z)
| bt_sal_hfp_ag_cleanup
| tele_service_init
| tele_service_cleanup
| control_event (ev : audio_ctrl_evt_t)
| audio_ctrl_init
| audio_ctrl_cleanup
| bt_sal_hfp_ag_manufacture_id_response (a : bt_address_t) (id : string)
| bt_sal_hfp_ag_model_id_response (a : bt_address_t) (id : string).

Abbreviation MS := (E ag_service_t sout).

(** [ag_support_features] *)
Definition ag_support_features : Z :=
  fold_left Z.lor
    [0x2 (* NREC *); 0x400 (* HFINDICATORS *); 0x40 (* ENHANCED_CALLSTATUS *); 0x1 (* 3WAYCALL *);
     0x80 (* ENHANCED_CALLCONTROL *); 0x20 (* REJECT_CALL *); 0x100 (* EXTENDED_ERRORRESULT *);
     0x200 (* CODEC_NEGOTIATION *); 0x800 (* eSCO_S4T2_SETTING *)]%Z 0%Z.

Definition hfp_ag_get_local_features : Z := ag_support_features.

Section Service.
Context (cfg : config) (CONFIG_HFP_AG_MAX_CONNECTIONS : Z).
(** What the outside answers to one message: among it the property that
    overrides the features ([None]: it cannot be read in this build) and the
    statuses of the stack's and of the audio control's initialisation. *)
Context (e : env) (features_property : option Z) (init_status audio_status : bt_status_t).

(** ** Devices *)

Definition ag_device_cmp : bt_address_t -> ag_device_t -> bool := device_cmp.
Definition find_ag_device_by_addr : bt_address_t -> MS (option nat) := find_by_addr.
Definition find_ag_device_by_state : Z -> MS (option ag_device_t) := find_by_state ag_state_machine_get_state.

(** The machine is told to disconnect, then freed. *)
Definition ag_device_delete (a : bt_address_t) : MG unit :=
  (ag_state_machine_dispatch cfg e (hfp_ag_msg_new AG_DISCONNECT a);;; ag_state_machine_destory)%bt.

Definition ag_device_new (a : bt_address_t) (off : bool) : ag_state_machine_t :=
  ag_state_machine_set_offloading off (ag_state_machine_new cfg e a).

Definition get_state_machine : bt_address_t -> MS (option nat) := get_machine ag_device_new.

Definition get_current_connnection_cnt : MS Z :=
  count (fun sm => let st := ag_state_machine_get_state sm in
                   ((HFP_AG_STATE_CONNECTED <=? st) || (st =? HFP_AG_STATE_CONNECTING))%Z%bool).

Definition get_ag_features : Z := default ag_support_features features_property.

(** ** Messages *)

Definition ag_startup : MS unit :=
  st <- egets started;;
  if st then eemit (on_startup true)
  else
    emodify {! max_connections := u8 CONFIG_HFP_AG_MAX_CONNECTIONS };;;
    emodify {! svc_devices := Some [] };;;
    cb <- egets callbacks;;
    if cb then
      mx <- egets max_connections;;
      eemit (bt_sal_hfp_ag_init (Z.land get_ag_features 0xFFFF) mx);;;
      if is_success init_status then
        eemit tele_service_init;;; emodify {! started := true };;; eemit (on_startup true)
      else emodify {! svc_devices := None };;; eemit (on_startup false)
    else emodify {! svc_devices := None };;; eemit (on_startup false).

Definition ag_shutdown : MS unit :=
  st <- egets started;;
  if negb st then eemit (on_shutdown true)
  else
    eemit tele_service_cleanup;;;
    emodify {! started := false };;;
    delete_all machine_out ag_device_delete;;;
    emodify {! svc_devices := None };;;
    eemit bt_sal_hfp_ag_cleanup;;;
    eemit (on_shutdown true).

Definition ag_dispatch_msg_foreach (m : hfp_ag_msg_t) : MS unit :=
  foreach machine_out (ag_state_machine_dispatch cfg e m).

Definition audio_connected (m : hfp_ag_msg_t) : bool :=
  bool_decide (m.(event) = AG_STACK_EVENT_AUDIO_STATE_CHANGED)
  && (m.(msg_data).(valueint1) =? HFP_AUDIO_STATE_CONNECTED)%Z.

Definition hfp_ag_process_message (m : hfp_ag_msg_t) : MS unit :=
  st <- egets started;;
  if negb st && negb (bool_decide (m.(event) = AG_STARTUP)) then eret tt
  else match m.(event) with
  | AG_STARTUP => ag_startup
  | AG_SHUTDOWN => ag_shutdown
  | AG_DEVICE_STATUS_CHANGED | AG_PHONE_STATE_CHANGE | AG_SET_VOLUME | AG_SET_INBAND_RING_ENABLE | AG_DIALING_RESULT =>
      ag_dispatch_msg_foreach m
  | _ => run_machine machine_out ag_device_new m.(msg_data).(data_addr) (audio_connected m) (ag_state_machine_dispatch cfg e m)
  end.

Definition hfp_ag_send_message (m : hfp_ag_msg_t) : MS bt_status_t :=
  eemit (send_message m);;; eret BT_STATUS_SUCCESS.

Definition hfp_ag_send_event (a : bt_address_t) (ev : hfp_ag_event_t) : MS bt_status_t :=
  hfp_ag_send_message (hfp_ag_msg_new ev a).

(** ** Profile functions *)

Definition hfp_ag_on_sco (ev : hfp_ag_event_t) (done : audio_ctrl_evt_t) : MS bool :=
  d <- find_ag_device_by_state HFP_AG_STATE_AUDIO_CONNECTED;;
  match d with
  | None => eret false
  | Some d =>
      off <- egets svc_offloading;;
      if negb off then eemit (control_event done);;; eret true
      else hfp_ag_send_event d.(dev_addr) ev;;; eret true
  end.

Definition hfp_ag_on_sco_start : MS bool := hfp_ag_on_sco AG_OFFLOAD_START_REQ AUDIO_CTRL_EVT_STARTED.
Definition hfp_ag_on_sco_stop : MS bool := hfp_ag_on_sco AG_OFFLOAD_STOP_REQ AUDIO_CTRL_EVT_STOPPED.

Definition hfp_ag_init : MS bt_status_t :=
  cb <- egets callbacks;;
  if cb then eret BT_STATUS_SUCCESS
  else
    emodify {! callbacks := true };;;
    eemit audio_ctrl_init;;;
    if is_success audio_status then eret audio_status
    else emodify {! callbacks := false };;; eret audio_status.

Definition hfp_ag_cleanup : MS unit :=
  eemit audio_ctrl_cleanup;;; emodify {! callbacks := false }.

(** The callback to call is kept in the message; the model has one. *)
Definition hfp_ag_startup : MS bt_status_t := hfp_ag_send_message (hfp_ag_msg_new AG_STARTUP bt_addr_empty).
Definition hfp_ag_shutdown : MS bt_status_t := hfp_ag_send_message (hfp_ag_msg_new AG_SHUTDOWN bt_addr_empty).

(** [PROFILE_EVT_HFP_OFFLOADING]; a detached client only loses its callbacks. *)
Definition hfp_ag_process_msg (off : bool) : MS unit := emodify {! svc_offloading := off }.

(** ** The interface *)

Definition hfp_ag_is_connected (a : bt_address_t) : MS bool :=
  d <- device_at a;;
  eret match d with
       | None => false
       | Some d => (HFP_AG_STATE_CONNECTED <=? ag_state_machine_get_state d.(dev_sm))%Z
       end.

Definition is_audio_connected (a : bt_address_t) : MS bool :=
  d <- device_at a;;
  eret match d with None => false | Some d => hfp_ag_is_audio_connected d.(dev_sm) end.

Definition get_connection_state (a : bt_address_t) : MS Z :=
  d <- device_at a;;
  eret match d with None => PROFILE_STATE_DISCONNECTED | Some d => hfp_ag_get_connection_state d.(dev_sm) end.

Definition hfp_ag_connect (a : bt_address_t) : MS bt_status_t :=
  CHECK_ENABLED (
    n <- get_current_connnection_cnt;;
    mx <- egets max_connections;;
    if (mx <=? n)%Z then eret BT_STATUS_NO_RESOURCES else hfp_ag_send_event a AG_CONNECT).

Definition hfp_ag_disconnect (a : bt_address_t) : MS bt_status_t :=
  CHECK_ENABLED (
    st <- get_connection_state a;;
    if ((st =? PROFILE_STATE_DISCONNECTED) || (st =? PROFILE_STATE_DISCONNECTING))%Z%bool
    then eret BT_STATUS_FAIL else hfp_ag_send_event a AG_DISCONNECT).

(** The guards: a link without audio, audio, a link. *)
Definition if_no_audio (a : bt_address_t) (ev : hfp_ag_event_t) : MS bt_status_t :=
  CHECK_ENABLED (
    c <- hfp_ag_is_connected a;;
    au <- is_audio_connected a;;
    if negb c || au then eret BT_STATUS_FAIL else hfp_ag_send_event a ev).
Definition if_audio (a : bt_address_t) (ev : hfp_ag_event_t) : MS bt_status_t :=
  CHECK_ENABLED (au <- is_audio_connected a;; if negb au then eret BT_STATUS_FAIL else hfp_ag_send_event a ev).
Definition if_connected (a : bt_address_t) (ev : hfp_ag_event_t) : MS bt_status_t :=
  CHECK_ENABLED (c <- hfp_ag_is_connected a;; if negb c then eret BT_STATUS_FAIL else hfp_ag_send_event a ev).

Definition hfp_ag_connect_audio a : MS bt_status_t := if_no_audio a AG_CONNECT_AUDIO.
Definition hfp_ag_disconnect_audio a : MS bt_status_t := if_audio a AG_DISCONNECT_AUDIO.
Definition hfp_ag_start_virtual_call a : MS bt_status_t := if_no_audio a AG_START_VIRTUAL_CALL.
Definition hfp_ag_stop_virtual_call a : MS bt_status_t := if_audio a AG_STOP_VIRTUAL_CALL.
Definition hfp_ag_start_voice_recognition a : MS bt_status_t := if_connected a AG_VOICE_RECOGNITION_START.
Definition hfp_ag_stop_voice_recognition a : MS bt_status_t := if_connected a AG_VOICE_RECOGNITION_STOP.

(** [AG_MSG_ADD_STR]: NULL and the empty string are the NULL pointer. *)
Definition AG_MSG_ADD_STR (s : option string) : option string :=
  match s with Some EmptyString | None => None | _ => s end.

(** A message with values and strings. *)
Definition msg_with (ev : hfp_ag_event_t) (a : bt_address_t) (v1 v2 v3 v4 : Z) (s1 s2 : option string) : hfp_ag_msg_t :=
  mk_msg ev (mk_msg_data a v1 v2 v3 v4 s1 s2 (mk_hci 0 [])).

Definition hfp_ag_phone_state_change a (num_active num_held call_state type : Z) (number name : option string) : MS bt_status_t :=
  hfp_ag_send_message (msg_with AG_PHONE_STATE_CHANGE a num_active num_held call_state type
    (AG_MSG_ADD_STR number) (AG_MSG_ADD_STR name)).
Definition hfp_ag_device_status_changed a (network roam signal battery : Z) : MS bt_status_t :=
  hfp_ag_send_message (msg_with AG_DEVICE_STATUS_CHANGED a network roam signal battery None None).
Definition hfp_ag_volume_control a (type volume : Z) : MS bt_status_t :=
  hfp_ag_send_message (msg_with AG_SET_VOLUME a type volume 0 0 None None).
Definition hfp_ag_dial_result (result : Z) : MS bt_status_t :=
  hfp_ag_send_message (msg_with AG_DIALING_RESULT bt_addr_empty (u8 result) 0 0 0 None None).
Definition hfp_ag_send_at_command a (at_command : option string) : MS bt_status_t :=
  hfp_ag_send_message (msg_with AG_SEND_AT_COMMAND a 0 0 0 0 (AG_MSG_ADD_STR at_command) None).
Definition hfp_ag_send_vendor_specific_at_command a (command value : option string) : MS bt_status_t :=
  match command, value with
  | Some _, Some _ =>
      hfp_ag_send_message (msg_with AG_SEND_VENDOR_SPECIFIC_AT_COMMAND a 0 0 0 0 (AG_MSG_ADD_STR command) (AG_MSG_ADD_STR value))
  | _, _ => eret BT_STATUS_PARM_INVALID
  end.

(** Answers passed to the stack at once; [status] is the stack's. *)
Definition hfp_ag_send_clcc_response a (index dir st mode mpty type : Z) (number : option string) : MS bt_status_t :=
  let o := bt_sal_hfp_ag_clcc_response a index dir st mode mpty type number in
  eemit (machine_out o);;; eret (e.(status) o).
Definition hfp_ag_send_cind_response a (network call call_held call_setup signal roam battery : Z) : MS bt_status_t :=
  let o := bt_sal_hfp_ag_cind_response a (mk_cind network roam signal battery call call_held call_setup) in
  eemit (machine_out o);;; eret (e.(status) o).

(** ** The stack's callbacks *)

Definition stack_event (m : hfp_ag_msg_t) : MS unit := hfp_ag_send_message m;;; eret tt.

Definition hfp_ag_on_connection_state_changed a (state reason features : Z) : MS unit :=
  stack_event (msg_with AG_STACK_EVENT_CONNECTION_STATE_CHANGED a state reason features 0 None None).
Definition hfp_ag_on_audio_state_changed a (state handle : Z) : MS unit :=
  stack_event (msg_with AG_STACK_EVENT_AUDIO_STATE_CHANGED a state handle 0 0 None None).
Definition hfp_ag_on_codec_changed a (codec : Z) : MS unit :=
  stack_event (msg_with AG_STACK_EVENT_CODEC_CHANGED a codec 0 0 0 None None).
Definition hfp_ag_on_volume_changed a (type volume : Z) : MS unit :=
  stack_event (msg_with AG_STACK_EVENT_VOLUME_CHANGED a type volume 0 0 None None).
Definition hfp_ag_on_received_cind_request a : MS unit := stack_event (hfp_ag_msg_new AG_STACK_EVENT_AT_CIND_REQUEST a).
Definition hfp_ag_on_received_clcc_request a : MS unit := stack_event (hfp_ag_msg_new AG_STACK_EVENT_AT_CLCC_REQUEST a).
Definition hfp_ag_on_received_cops_request a : MS unit := stack_event (hfp_ag_msg_new AG_STACK_EVENT_AT_COPS_REQUEST a).
Definition hfp_ag_on_voice_recognition_state_changed a (on : bool) : MS unit :=
  stack_event (msg_with AG_STACK_EVENT_VR_STATE_CHANGED a (if on then 1 else 0) 0 0 0 None None).
Definition hfp_ag_on_remote_battery_level_update a (v : Z) : MS unit :=
  stack_event (msg_with AG_STACK_EVENT_BATTERY_UPDATE a v 0 0 0 None None).
Definition hfp_ag_on_answer_call a : MS unit := stack_event (hfp_ag_msg_new AG_STACK_EVENT_ANSWER_CALL a).
Definition hfp_ag_on_reject_call a : MS unit := stack_event (hfp_ag_msg_new AG_STACK_EVENT_REJECT_CALL a).
Definition hfp_ag_on_hangup_call a : MS unit := stack_event (hfp_ag_msg_new AG_STACK_EVENT_HANGUP_CALL a).
(** The given length of the text is its own. *)
Definition hfp_ag_on_received_at_cmd a (at_string : option string) : MS unit :=
  stack_event (msg_with AG_STACK_EVENT_AT_COMMAND a 0 0 0 0 (AG_MSG_ADD_STR at_string) None).
Definition hfp_ag_on_audio_connect_request a : MS unit := stack_event (hfp_ag_msg_new AG_STACK_EVENT_AUDIO_REQ a).
Definition hfp_ag_on_dial_number a (number : option string) : MS unit :=
  stack_event (msg_with AG_STACK_EVENT_DIAL_NUMBER a 0 0 0 0 (AG_MSG_ADD_STR number) None).
Definition hfp_ag_on_dial_memory a (location : Z) : MS unit :=
  stack_event (msg_with AG_STACK_EVENT_DIAL_MEMORY a location 0 0 0 None None).
Definition hfp_ag_on_call_control a (control : Z) : MS unit :=
  stack_event (msg_with AG_STACK_EVENT_CALL_CONTROL a control 0 0 0 None None).
Definition hfp_ag_on_received_dtmf (a : bt_address_t) (tone : Z) : MS unit := eret tt.
Definition hfp_ag_on_received_manufacture_request a : MS unit := eemit (bt_sal_hfp_ag_manufacture_id_response a "xiaomi").
Definition hfp_ag_on_received_model_id_request a : MS unit := eemit (bt_sal_hfp_ag_model_id_response a "2109119BC").
Definition hfp_ag_on_received_nrec_request a (nrec : Z) : MS unit :=
  stack_event (msg_with AG_STACK_EVENT_NREC_REQ a nrec 0 0 0 None None).
Definition hfp_ag_on_call_sync a : MS unit := stack_event (hfp_ag_msg_new AG_STACK_EVENT_CALL_SYNC a).

End Service.

(** ** Operations

    What can happen to the service: a message taken by the loop, a call of the
    interface, an audio request, a notice of the service manager, or a call back
    to one of the machines, which comes with a pointer to it (the dial timer has
    none).  The answers of the outside come with each. *)

Inductive callback :=
| cb_connect_timeout | cb_retry | cb_offload_timeout     (* timers *)
| cb_hci (h : bt_hci_event_t)                            (* the controller *)
| cb_volume (v : Z).                                     (* the media system *)

Definition input_of (c : callback) : input :=
  match c with
  | cb_connect_timeout => in_connect_timeout
  | cb_retry => in_retry
  | cb_offload_timeout => in_offload_timeout
  | cb_hci h => in_hci h
  | cb_volume v => in_volume v
  end.

Inductive op :=
| op_process (m : hfp_ag_msg_t)
| op_connect (a : bt_address_t)
| op_disconnect (a : bt_address_t)
| op_no_audio (a : bt_address_t) (ev : hfp_ag_event_t)   (* connect audio, start a virtual call *)
| op_audio (a : bt_address_t) (ev : hfp_ag_event_t)      (* disconnect audio, stop it *)
| op_connected (a : bt_address_t) (ev : hfp_ag_event_t)  (* voice recognition *)
| op_request (m : hfp_ag_msg_t)                          (* a request or stack event that is only posted *)
| op_sco (start : bool)
| op_offloading (b : bool)
| op_init | op_cleanup
| op_dial_timeout
| op_is_connected (a : bt_address_t)                     (* questions *)
| op_is_audio_connected (a : bt_address_t)
| op_state (a : bt_address_t)
| op_callback (p : sm_ptr) (c : callback).

Record answers := mk_answers { ans_env : env; ans_property : option Z; ans_init : bt_status_t; ans_audio : bt_status_t }.

(** [n]: the shutdowns so far. *)
Definition run_op (cfg : config) (mx : Z) (n : nat) (w : answers) (o : op) : MS unit :=
  let e := w.(ans_env) in
  match o with
  | op_process m => hfp_ag_process_message cfg mx e w.(ans_property) w.(ans_init) m
  | op_connect a => hfp_ag_connect a;;; eret tt
  | op_disconnect a => hfp_ag_disconnect a;;; eret tt
  | op_no_audio a ev => if_no_audio a ev;;; eret tt
  | op_audio a ev => if_audio a ev;;; eret tt
  | op_connected a ev => if_connected a ev;;; eret tt
  | op_request m => hfp_ag_send_message m;;; eret tt
  | op_sco true => hfp_ag_on_sco_start;;; eret tt
  | op_sco false => hfp_ag_on_sco_stop;;; eret tt
  | op_offloading b => hfp_ag_process_msg b
  | op_init => hfp_ag_init w.(ans_audio);;; eret tt
  | op_cleanup => hfp_ag_cleanup
  | op_dial_timeout => hfp_ag_dial_result HFP_ATCMD_RESULT_TIMEOUT;;; eret tt
  | op_is_connected a => hfp_ag_is_connected a;;; eret tt
  | op_is_audio_connected a => is_audio_connected a;;; eret tt
  | op_state a => get_connection_state a;;; eret tt
  | op_callback p c => at_pointer machine_out n p (handle_input cfg e (input_of c))
  end.

Definition g_ag_service : ag_service_t := mk_service false false 0 None false.

(** A shutdown frees the machines. *)
Definition frees (s : ag_service_t) (o : op) : bool :=
  match o with op_process m => s.(started) && bool_decide (m.(event) = AG_SHUTDOWN) | _ => false end.

(** The services reached by any operations, with the number of shutdowns. *)
Inductive reaches (cfg : config) (mx : Z) : nat -> ag_service_t -> Prop :=
| r_initial : reaches cfg mx 0 g_ag_service
| r_step n s w o s' os :
    reaches cfg mx n s -> run_op cfg mx n w o s = Some (tt, s', os) -> reaches cfg mx (if frees s o then S n else n) s'.

(** ** What fails

    A call that stands for a failed assertion or a read through NULL. *)
Definition bad (o : sout) : bool := match o with machine_out o => fault o | _ => false end.

(** There is no list to ask. *)
Definition no_list (s : ag_service_t) : bool := match s.(svc_devices) with None => true | Some _ => false end.

(** The operations that fail: a question while there is no list, a call back to
    a machine that was freed, and the messages on which the machine that they
    go to fails ([machine_faults]); at a shutdown every machine gets one. *)
Definition svc_fails (cfg : config) (n : nat) (s : ag_service_t) (o : op) : bool :=
  match o with
  | op_process m =>
      s.(started) &&
      match m.(event) with
      | AG_STARTUP | AG_DEVICE_STATUS_CHANGED | AG_PHONE_STATE_CHANGE | AG_SET_VOLUME | AG_SET_INBAND_RING_ENABLE | AG_DIALING_RESULT => false
      | AG_SHUTDOWN => existsb (fun d => machine_faults cfg d.(dev_sm) (hfp_ag_msg_new AG_DISCONNECT d.(dev_addr))) (default [] s.(svc_devices))
      | _ =>
          let l := default [] s.(svc_devices) in
          match find_device (device_cmp m.(msg_data).(data_addr)) l ≫= fun i => l !! i with
          | Some d => machine_faults cfg d.(dev_sm) m
          | None => false
          end
      end
  | op_is_connected _ | op_is_audio_connected _ | op_state _ => no_list s
  | op_callback p _ => negb (is_live n s p)
  | _ => false
  end.

(** ** The invariant *)

(** The machine of a device is one of that address, in one of its states. *)
Definition machine_ok (a : bt_address_t) (sm : ag_state_machine_t) : Prop :=
  exists c, sm.(current_state) = Some c /\ sm.(data).(addr) = a /\ data_inv c sm.(data).

Abbreviation ag_inv := (svc_inv machine_ok).
Abbreviation ag_safe m := (safe machine_ok m).

Lemma ag_dispatch_keeps cfg e m : keeps machine_ok (ag_state_machine_dispatch cfg e m).
Proof.
  intros a sm (c & Hc & Ha & Hi). destruct (ag_dispatch_goes cfg e m c sm Hc Hi) as (c' & _ & E1 & I1 & [S1 _ _ _ _]).
  exists c'. split; [done|]. split; [congruence|done].
Qed.

Lemma ag_device_new_ok cfg e a off : machine_ok a (ag_device_new cfg e a off).
Proof. exists disconnected_state. split; [done|]. split; [done|]. by split_and!. Qed.

Lemma ag_send_safe m : ag_safe (hfp_ag_send_message m).
Proof. unfold hfp_ag_send_message. safe_auto. Qed.
Lemma ag_send_event_safe a ev : ag_safe (hfp_ag_send_event a ev).
Proof. apply ag_send_safe. Qed.
#[local] Hint Resolve ag_send_safe ag_send_event_safe : svc.

Lemma ag_startup_safe mx p st : ag_safe (ag_startup mx p st).
Proof.
  intros [b1 b2 b3 dl b5] Hs. unfold ag_startup, svc_inv in *. cbn in Hs. wp_simpl. cbn [started].
  destruct b1; [done|]. destruct dl; [by destruct Hs|]. wp_simpl. cbn. destruct b5; cbn; [|done].
  wp_simpl. destruct (is_success st); cbn; [|done]. split; [done|]. split; constructor.
Qed.

Lemma ag_shutdown_safe cfg e : ag_safe (ag_shutdown cfg e).
Proof.
  intros [b1 b2 b3 dl b5] Hs. unfold ag_shutdown, svc_inv in *. cbn in Hs. wp_simpl. cbn [started].
  destruct b1; cbn; [|done]. wp_simpl. unfold delete_all. wp_simpl. cbn. destruct dl; cbn; done.
Qed.

Lemma ag_process_safe cfg mx e p st m : ag_safe (hfp_ag_process_message cfg mx e p st m).
Proof.
  intros s Hs. unfold hfp_ag_process_message. apply wp_bind, wp_gets. destruct (started s) eqn:Hst; cbn [negb andb].
  - destruct (inv_up _ s Hs Hst) as [n Hup].
    destruct (event m) eqn:Hev; try (by apply ag_startup_safe); try (by apply ag_shutdown_safe);
      try (eapply run_machine_up; [exact (ag_device_new_ok cfg e)|apply ag_dispatch_keeps|done]).
    all: eapply wp_mono; [|apply foreach_up; [apply ag_dispatch_keeps|exact Hup]]; intros [] s2 o2 H2; exact (up_inv _ _ _ H2).
  - case_bool_decide as Hev; cbn; [|done]. rewrite Hev. by apply ag_startup_safe.
Qed.

(** The operations that do not come through a pointer and are no questions. *)
Definition plain (o : op) : bool :=
  match o with op_is_connected _ | op_is_audio_connected _ | op_state _ | op_callback _ _ => false | _ => true end.

Lemma ag_run_op_safe cfg mx n w o : plain o = true -> ag_safe (run_op cfg mx n w o).
Proof.
  intros Hp. destruct o as [| | | | | | |[]| | | | | | | |]; try discriminate Hp; cbn [run_op]; try (apply safe_bind; [|intros ?; apply safe_ret]).
  - apply ag_process_safe.
  - apply count_safe. intros k. safe_auto.
  - apply guarded_safe. intros x. safe_auto.
  - apply guarded2_safe. intros x y. safe_auto.
  - apply guarded_safe. intros x. safe_auto.
  - apply guarded_safe. intros x. safe_auto.
  - safe_auto.
  - apply by_state_safe. intros d. safe_auto.
  - apply by_state_safe. intros d. safe_auto.
  - intros [b1 b2 b3 dl b5] Hs. unfold svc_inv in *. done.
  - intros [b1 b2 b3 dl b5] Hs. unfold hfp_ag_init, svc_inv in *. wp_simpl. cbn in *. destruct b5; cbn; [done|].
    by destruct (is_success _).
  - intros [b1 b2 b3 dl b5] Hs. unfold svc_inv in *. cbn in *. done.
  - apply ag_send_safe.
Qed.

Lemma ag_callback_keeps cfg e c : keeps machine_ok (handle_input cfg e (input_of c)).
Proof.
  intros a sm (k & Hc & Ha & Hi). destruct (input_goes cfg e (input_of c) k sm Hc Hi) as (k' & _ & E1 & I1 & [S1 _ _ _ _]).
  exists k'. split; [done|]. split; [congruence|done].
Qed.

Lemma ag_run_op_inv cfg mx n w o s s' os : ag_inv s -> run_op cfg mx n w o s = Some (tt, s', os) -> ag_inv s'.
Proof.
  intros Hi E. destruct (plain o) eqn:Hp; [exact (run_wp _ _ _ _ _ _ E (ag_run_op_safe cfg mx n w o Hp s Hi))|].
  destruct o; try discriminate Hp; cbn [run_op] in E.
  1-3: unfold hfp_ag_is_connected, is_audio_connected, get_connection_state, device_at, devices, ebind, eread, eret in E;
    destruct (svc_devices s) eqn:El; [|discriminate E]; injection E as <- <-; exact Hi.
  pose proof (at_pointer_inv machine_out machine_ok n p _ s (ag_callback_keeps cfg (ans_env w) c) Hi) as H. by rewrite E in H.
Qed.

(** *** The calls that stand for a failure *)

Abbreviation ag_mute m := (mute (Mc := ag_state_machine_t) bad m).

Lemma ag_mute_send m : ag_mute (hfp_ag_send_message m).
Proof. unfold hfp_ag_send_message. mute_auto. Qed.
Lemma ag_mute_send_event a ev : ag_mute (hfp_ag_send_event a ev).
Proof. apply ag_mute_send. Qed.
Lemma ag_mute_device_at a : ag_mute (device_at a).
Proof. unfold device_at, devices. mute_auto. Qed.
#[local] Hint Resolve ag_mute_send ag_mute_send_event ag_mute_device_at : svc.
Lemma ag_mute_connected a : ag_mute (hfp_ag_is_connected a).
Proof. unfold hfp_ag_is_connected. mute_auto. Qed.
Lemma ag_mute_audio a : ag_mute (is_audio_connected a).
Proof. unfold is_audio_connected. mute_auto. Qed.
Lemma ag_mute_state a : ag_mute (get_connection_state a).
Proof. unfold get_connection_state. mute_auto. Qed.
Lemma ag_mute_count f : ag_mute (count f).
Proof. unfold count, devices. mute_auto. Qed.
#[local] Hint Resolve ag_mute_connected ag_mute_audio ag_mute_state ag_mute_count : svc.
Lemma ag_mute_startup mx p st : ag_mute (ag_startup mx p st).
Proof. unfold ag_startup. mute_auto. Qed.

(** Only messages, questions and calls back can fail. *)
Lemma ag_mute_op cfg mx n w o : plain o = true -> (forall m, o <> op_process m) -> ag_mute (run_op cfg mx n w o).
Proof.
  intros Hp Hm. destruct o as [m| | | | | | |[]| | | | | | | |]; try discriminate Hp; try (by destruct (Hm m)); cbn [run_op];
    unfold hfp_ag_connect, hfp_ag_disconnect, if_no_audio, if_audio, if_connected, CHECK_ENABLED, get_current_connnection_cnt, hfp_ag_dial_result,
      hfp_ag_on_sco_start, hfp_ag_on_sco_stop, hfp_ag_on_sco, find_ag_device_by_state, find_by_state, hfp_ag_process_msg, hfp_ag_init,
      hfp_ag_cleanup; mute_auto.
Qed.

Lemma ag_common_mute cfg e m : common m.(event) = true -> ag_mute (ag_dispatch_msg_foreach cfg e m).
Proof.
  intros Hm. apply (mute_foreach machine_out fault); [done|]. intros sm. rewrite <- (ag_common_faults cfg m sm Hm). apply ag_dispatch_faults.
Qed.

Lemma ag_delete_faults cfg e a sm : faults fault (machine_faults cfg sm (hfp_ag_msg_new AG_DISCONNECT a)) (ag_device_delete cfg e a) sm.
Proof. apply (faults_after _ offloading); [apply ag_dispatch_faults|]. intros _. apply ag_quiet_destroy. Qed.

Lemma ag_shutdown_failed cfg e s l :
  s.(started) = true -> s.(svc_devices) = Some l ->
  failed bad (ag_shutdown cfg e s) = existsb (fun d => machine_faults cfg d.(dev_sm) (hfp_ag_msg_new AG_DISCONNECT d.(dev_addr))) l.
Proof.
  intros Hst Hl. pose proof (delete_all_failed machine_out fault bad (fun _ => eq_refl) (ag_device_delete cfg e) ({! started := false } s) l) as Hd.
  unfold ag_shutdown. unfold ebind at 1, egets at 1. rewrite Hst. cbn [negb]. unfold ebind at 1, eemit at 1. unfold ebind at 1, emodify at 1.
  unfold ebind at 1. unfold delete_all, ebind, egets in *. destruct s as [b1 b2 b3 dl b5]. cbn in Hst, Hl. subst b1 dl. cbn in *.
  specialize (Hd eq_refl). rewrite !existsb_app. cbn. rewrite orb_false_r. rewrite Hd. clear Hd.
  induction l as [|d l IH]; cbn; [done|]. rewrite IH. f_equal. exact (ag_delete_faults cfg e (dev_addr d) (dev_sm d)).
Qed.

Lemma ag_process_failed cfg mx e p st m s : ag_inv s -> failed bad (hfp_ag_process_message cfg mx e p st m s) = svc_fails cfg 0 s (op_process m).
Proof.
  intros Hi. cbn [svc_fails]. unfold hfp_ag_process_message. unfold ebind at 1, egets at 1. destruct (started s) eqn:Hst; cbn [negb andb].
  - destruct (svc_devices s) as [l|] eqn:Hl; [|unfold svc_inv in Hi; rewrite Hl in Hi; congruence]. cbn [default].
    assert (forall r : option (unit * ag_service_t * list sout), failed bad (match r with Some (b, s2, o2) => Some (b, s2, [] ++ o2) | None => None end) = failed bad r) as Hr
      by (by intros [[[u s2] o2]|]).
    rewrite Hr.
    assert (forall b, failed bad (run_machine machine_out (ag_device_new cfg e) m.(msg_data).(data_addr) b (ag_state_machine_dispatch cfg e m) s) =
      match find_device (device_cmp m.(msg_data).(data_addr)) l ≫= fun i => l !! i with Some d => machine_faults cfg d.(dev_sm) m | None => false end) as Hrun.
    { intros b. rewrite (run_machine_failed machine_out (ag_device_new cfg e) fault bad (fun _ => eq_refl) _ b _ s l Hst Hl). unfold machine_of. rewrite Hl.
      destruct (find_device _ l ≫= _) as [d|]; [apply ag_dispatch_faults|]. etransitivity; [apply ag_dispatch_faults|]. unfold machine_faults. cbn. by destruct (event m). }
    destruct (event m) eqn:Ev; try (apply Hrun).
    all: first [by apply ag_shutdown_failed|by unfold ag_startup, ebind, egets; rewrite Hst|idtac].
    all: destruct (inv_up _ s Hi Hst) as [k Hup]; eapply mute_failed; [apply ag_common_mute; by rewrite Ev|].
    all: apply (foreach_up machine_out machine_ok k); [apply ag_dispatch_keeps|done].
  - case_bool_decide as E; cbn [negb]; [|done]. rewrite E.
    pose proof (mute_failed bad _ _ s (ag_mute_startup mx p st) (ag_startup_safe mx p st s Hi)) as H. by destruct (ag_startup mx p st s) as [[[u s2] o2]|].
Qed.

Lemma ag_question_failed {A} (f : option ag_device_t -> A) a s :
  failed bad (((d <- device_at a;; eret (f d));;; eret tt : MS unit) s) = no_list s.
Proof. unfold device_at, devices, ebind, eread, no_list. by destruct (svc_devices s). Qed.

Lemma ag_callback_harmless cfg e c a sm : machine_ok a sm -> existsb fault (outs (handle_input cfg e (input_of c)) sm) = false.
Proof. intros (k & Hk & _). by apply (ag_callback_faults cfg e _ sm k); [destruct c|]. Qed.

(** Each operation fails exactly when [svc_fails] says so. *)
Lemma ag_run_op_failed cfg mx n w o s : ag_inv s -> failed bad (run_op cfg mx n w o s) = svc_fails cfg n s o.
Proof.
  intros Hi. destruct (plain o) eqn:Hp.
  - destruct o; try discriminate Hp; try (eapply mute_failed; [by apply ag_mute_op|exact (ag_run_op_safe cfg mx n w _ Hp s Hi)]). by apply ag_process_failed.
  - destruct o; try discriminate Hp; try (apply ag_question_failed).
    apply (at_pointer_failed machine_out machine_ok fault bad); [done| |done]. intros a sm. apply ag_callback_harmless.
Qed.

(** ** Claims *)

(** C29: from the service's initial state, whatever messages, calls, notices
    and calls back come, in any order and with any answers of the stack and of
    telephony (allocations taken to succeed): the next one fails (a list
    function is given NULL, a freed machine is used, an assertion fails or a
    NULL string is read) exactly in the cases of [svc_fails] and
    [machine_faults]: a question of the interface while there is no list; a
    timer, an answer of the controller or a change of volume that comes for a
    machine after the shutdown that freed it; an AT command without a text, to
    be sent while the link is up or being made, or received while it is up; and
    in a build without the vendor's commands, a request to start or stop the
    offload in AudioOn, or leaving AudioOn (at a shutdown too) with offloading
    on.  Throughout, the list of devices exists exactly while the service is
    started, it has one device per address, and each device's machine is one
    for that address, in one of its states with the fields that belong to
    it. *)
Theorem ag_service_safe (cfg : config) (mx : Z) (n : nat) (s : ag_service_t) (w : answers) (o : op) :
  reaches cfg mx n s ->
  svc_inv machine_ok s /\ failed bad (run_op cfg mx n w o s) = svc_fails cfg n s o /\
  forall s' os, run_op cfg mx n w o s = Some (tt, s', os) -> svc_inv machine_ok s'.
Proof.
  intros Hr. assert (ag_inv s) as Hi by (induction Hr; [done|by eapply ag_run_op_inv]). split; [done|]. split; [|intros s' os; by eapply ag_run_op_inv].
  by apply ag_run_op_failed.
Qed.

Definition demo_answers : answers := mk_answers ok_env None BT_STATUS_SUCCESS BT_STATUS_SUCCESS.

(** A run of operations: the shutdowns, the service and the calls made. *)
Fixpoint run_from (l : list op) (n : nat) (s : ag_service_t) : option (nat * ag_service_t * list sout) :=
  match l with
  | [] => Some (n, s, [])
  | o :: l =>
      match run_op demo_cfg 2 n demo_answers o s with
      | Some (_, s', os) =>
          match run_from l (if frees s o then S n else n) s' with Some (n2, s2, os2) => Some (n2, s2, os ++ os2) | None => None end
      | None => None
      end
  end.

Lemma ag_run_from_reaches l n s n' s' os : reaches demo_cfg 2 n s -> run_from l n s = Some (n', s', os) -> reaches demo_cfg 2 n' s'.
Proof.
  revert n s os. induction l as [|o l IH]; intros n s os Hr E; [by injection E as <- <- <-|]. cbn [run_from] in E.
  destruct (run_op demo_cfg 2 n demo_answers o s) as [[[[] s1] o1]|] eqn:Eo; [|done].
  destruct (run_from l (if frees s o then S n else n) s1) as [[[n2 s2] o2]|] eqn:El; [|done]. injection E as <- <- <-. refine (IH _ s1 _ _ El). by eapply r_step.
Qed.

Definition run_ops (l : list op) (s : ag_service_t) : option (ag_service_t * list sout) :=
  match run_from l 0 s with Some (_, s', os) => Some (s', os) | None => None end.

Definition peer1 : bt_address_t := mk_addr 1 1 1 1 1 1.
Definition peer2 : bt_address_t := mk_addr 2 2 2 2 2 2.
Definition link (a : bt_address_t) : op :=
  op_process (msg_with AG_STACK_EVENT_CONNECTION_STATE_CHANGED a PROFILE_STATE_CONNECTED 0 0 0 None None).
Definition two_links : list op :=
  [op_init; op_process (hfp_ag_msg_new AG_STARTUP bt_addr_empty); link peer1; link peer2].

Definition two_run : nat * ag_service_t * list sout := default (0%nat, g_ag_service, []) (run_from two_links 0 g_ag_service).
Definition down_run : nat * ag_service_t * list sout :=
  default (0%nat, g_ag_service, []) (run_from (two_links ++ [op_process (hfp_ag_msg_new AG_SHUTDOWN bt_addr_empty)]) 0 g_ag_service).

Lemma two_reaches : reaches demo_cfg 2 two_run.1.1 two_run.1.2.
Proof. apply (ag_run_from_reaches two_links 0 g_ag_service _ _ two_run.2); [constructor|vm_compute; reflexivity]. Qed.
Lemma ag_down_reaches : reaches demo_cfg 2 down_run.1.1 down_run.1.2.
Proof. apply (ag_run_from_reaches (two_links ++ [op_process (hfp_ag_msg_new AG_SHUTDOWN bt_addr_empty)]) 0 g_ag_service _ _ down_run.2); [constructor|vm_compute; reflexivity]. Qed.

Lemma ag_service_safe_witness :
  failed bad (run_op demo_cfg 2 0 demo_answers (op_process (hfp_ag_msg_new AG_SEND_AT_COMMAND peer1)) two_run.1.2) = true /\
  failed bad (run_op demo_cfg 2 0 demo_answers (op_process (hfp_ag_msg_new AG_DISCONNECT peer1)) two_run.1.2) = false /\
  failed bad (run_op demo_cfg 2 0 demo_answers (op_callback (mk_ptr 0 peer2) (cb_hci (mk_hci 0 []))) two_run.1.2) = false /\
  failed bad (run_op demo_cfg 2 1 demo_answers (op_callback (mk_ptr 0 peer2) (cb_hci (mk_hci 0 []))) down_run.1.2) = true /\
  failed bad (run_op demo_cfg 2 1 demo_answers (op_is_connected peer1) down_run.1.2) = true.
Proof.
  assert (fst (fst two_run) = 0%nat) as E0 by (vm_compute; reflexivity). assert (fst (fst down_run) = 1%nat) as E1 by (vm_compute; reflexivity).
  pose proof two_reaches as Hl. pose proof ag_down_reaches as Hd. rewrite E0 in Hl. rewrite E1 in Hd.
  destruct (ag_service_safe demo_cfg 2 0 _ demo_answers (op_process (hfp_ag_msg_new AG_SEND_AT_COMMAND peer1)) Hl) as (_ & -> & _).
  destruct (ag_service_safe demo_cfg 2 0 _ demo_answers (op_process (hfp_ag_msg_new AG_DISCONNECT peer1)) Hl) as (_ & -> & _).
  destruct (ag_service_safe demo_cfg 2 0 _ demo_answers (op_callback (mk_ptr 0 peer2) (cb_hci (mk_hci 0 []))) Hl) as (_ & -> & _).
  destruct (ag_service_safe demo_cfg 2 1 _ demo_answers (op_callback (mk_ptr 0 peer2) (cb_hci (mk_hci 0 []))) Hd) as (_ & -> & _).
  destruct (ag_service_safe demo_cfg 2 1 _ demo_answers (op_is_connected peer1) Hd) as (_ & -> & _).
  vm_compute. repeat split.
Defined.

(** ** Defects the model shows *)

(** The state of the phone meant for one headset goes to all of them. *)
Lemma phone_state_told_to_all :
  exists s os, run_ops two_links g_ag_service = Some (s, os) /\
  let m := msg_with AG_PHONE_STATE_CHANGE peer1 1 0 HFP_AG_CALL_STATE_ACTIVE HFP_CALL_ADDRTYPE_UNKNOWN None None in
  let told a := machine_out (bt_sal_hfp_ag_phone_state_change a 1 0 HFP_AG_CALL_STATE_ACTIVE HFP_CALL_ADDRTYPE_UNKNOWN None None) in
  option_map snd (run_ops [op_process m] s) = Some [told peer1; told peer2].
Proof. do 2 eexists. split; [vm_compute; reflexivity|]. vm_compute. reflexivity. Qed.

(** Shut down, the service reports that its links are being released, and no
    more: the machines are gone before the stack reports the end. *)
Lemma ag_shutdown_leaves_disconnecting :
  exists s os, run_ops two_links g_ag_service = Some (s, os) /\
  exists s' os', run_ops [op_process (hfp_ag_msg_new AG_SHUTDOWN bt_addr_empty)] s = Some (s', os') /\
  In (machine_out (ag_service_notify_connection_state_changed peer1 PROFILE_STATE_DISCONNECTING)) os' /\
  ~ In (machine_out (ag_service_notify_connection_state_changed peer1 PROFILE_STATE_DISCONNECTED)) os'.
Proof.
  do 2 eexists. split; [vm_compute; reflexivity|]. do 2 eexists. split; [vm_compute; reflexivity|].
  split; [cbn; tauto|]. cbn. intros H. repeat destruct H as [H|H]; try discriminate H; done.
Qed.

(** Offloading turned on later does not reach the machines there are: their
    offload is started, and not stopped when the audio link goes. *)
Lemma late_offloading_not_stopped :
  exists s os, run_ops (two_links ++ [op_offloading true;
    op_process (msg_with AG_STACK_EVENT_AUDIO_STATE_CHANGED peer1 HFP_AUDIO_STATE_CONNECTED 5 0 0 None None);
    op_process (hfp_ag_msg_new AG_OFFLOAD_START_REQ peer1);
    op_process (msg_with AG_STACK_EVENT_CONNECTION_STATE_CHANGED peer1 PROFILE_STATE_DISCONNECTED 0 0 0 None None)])
    g_ag_service = Some (s, os) /\
  In (machine_out (bt_sal_send_hci_command 0x3f 0 5 [2; 0; 5; 0; 2]%Z)) os /\      (* started *)
  ~ In (machine_out (bt_sal_send_hci_command 0x3f 0 5 [2; 1; 5; 0; 2]%Z)) os /\    (* not stopped *)
  In (machine_out (service_loop_timer AG_OFFLOAD_TIMEOUT (Some 7))) os /\
  ~ In (machine_out (service_loop_cancel_timer (Some 7))) os.
Proof.
  do 2 eexists. split; [vm_compute; reflexivity|]. split; [cbn; tauto|]. split; [|split; [cbn; tauto|]].
  all: cbn; intros H; repeat destruct H as [H|H]; try discriminate H; done.
Qed.
End HfpAgService.
